(* ===== verification/_CoqProject ===== *)
-Q . S2P
Prelude.v
Text.v
Sorting.v
Registry.v
FileLock.v
Http.v
Ipc.v
Json.v
Route.v
Server.v
Watchdog.v
State.v
Resources.v
Conf.v
Logs.v
Blocks.v
Clone.v
CloneConf.v
Cells.v
Instances.v
Backups.v
Tenants.v
Info.v
Create.v
Jobs.v
Git.v
Modules.v
Janitor.v
GuestMem.v
Boot.v
VirtQueue.v
Virtio.v
Console.v
Balloon.v
Uring.v
Block.v
Net.v
Pmem.v
VirtioFs.v
Layout.v
Paths.v
Compose.v
Bpf.v
Host.v
Volumes.v
Dumps.v
Floats.v
Metrics.v
Odoo.v
Dns.v
Admin.v
Vcpu.v
