(* ===== verification/Prelude.v ===== *)
(** * Verification of nano-kernel-runtime

    nano-kernel-runtime (NKR) is a virtual machine monitor on KVM, written in Rust, with
    the tools that manage fleets of its guests.  The VMM proper is [src/src/vmm.rs] and
    one file per device; around it are a registry of identifiers, a compose file, an
    HTTP API and host plumbing.  This library models the VMM (what it writes into guest
    memory before the guest runs, the devices it emulates, the loop that serves the
    exits of the single vCPU, its sandbox) and the management side up to the programs it
    calls (the HTTP front end, the protocol between the unprivileged API server and the
    daemon, configuration, logs, deployments, the watchdog).

    ** The program and its model

    [run] (vmm.rs) assigns every device a page of MMIO space and an interrupt, loads the
    initramfs, writes the command line, the zero page, page tables and GDT, and enters
    [run_vcpu_loop].  The loop first looks at the flags that signal handlers set
    (shutdown, reload, balloon), polls the completions of the block devices, then
    executes the guest until its next exit.  An access to an MMIO page goes to the
    device that owns it; a device walks its virtqueues in guest memory and talks to
    its back end: a file through io_uring, a TAP device, a vhost-user socket.

    A client of the API talks HTTP to nkr-api-server (src/bin/nkr_api_server.rs), which
    checks the request and either acts on the file system itself (git deployments) or
    forwards a typed request over a Unix socket to the daemon (ipc.rs, ipc_server.rs),
    whose handlers are in api.rs and cell.rs.  The daemon also runs the watchdog.

    - [Prelude]: panics ([outcome]), record update, machine words, little-endian bytes,
      slices, hints and tactics.
    - [Text]: Rust's formatting, parsing and splitting of strings.
    - [GuestMem]: guest physical memory, the interface [GuestMemory] with its laws
      ([GuestMemoryLaws]) and the concrete memory [RegionMem].
    - [Boot]: vmm.rs, [load_initramfs] to [configure_sregs_64], CPUID.
    - [VirtQueue]: the virtqueue interface ([VirtQueue], [VirtQueueLaws]), the concrete
      [ListQueue] and [RingQueue] (a split ring in guest memory), and the loops over chains
      and descriptors.
    - [Virtio]: the transport registers that all the devices share.
    - [Console], [Balloon], [Block], [Net], [Pmem], [VirtioFs]: console.rs, balloon.rs,
      block.rs, net.rs, pmem.rs, virtio_fs.rs.  Each file has the device record, its
      operations, and [mmio_read] and [mmio_write], the arms of [run_vcpu_loop] for its
      page.  [Uring] is the io_uring interface of [Block] and [Net], with a concrete
      ring.
    - [Registry]: registry.rs, the identifiers and addresses of the guests.
    - [Bpf]: the programs of seccomp.rs and of [build_bpf_bytecode] (vmm.rs), on a model
      of the classic BPF machine.
    - [Http], [Json]: api_http.rs, with the JSON values and UTF-8 test it needs.
    - [Ipc]: ipc.rs and the accept loop and connection handler of ipc_server.rs.
    - [Route]: [route], [handle_create_http], [ipc_call] and the connection thread of
      nkr_api_server.rs; [Git]: its deployments ([parse_git_body], [run_git_sync], deploy
      keys, log scrubbing); [Modules]: [handle_addons_git] and [explode_modules], from the
      tree of a clone to the modules of an instance.  [Server] composes client, [Http],
      [Route] and [Ipc].
    - [Watchdog]: watchdog.rs.  [Janitor]: the seven sweeps of janitor.rs.
    - [Host]: what [run] (vmm.rs) takes from the host and gives back: port forwarding, the
      TAP device, the control group, the state file, [VmCleanupGuard] and the clean-up
      at the end.  [Volumes]: the disks before and after the guest: volumes, the
      environment, the master root file system, mounts of dead VMs, the kernel's file.
    - [Resources]: sizing of an instance (api.rs), its control group and its cores
      (vmm.rs).
    - [Conf]: [handle_patch_config] and the reading of odoo.conf (api.rs), and its
      editing (cell.rs); [Logs]: [handle_logs] (api.rs).
    - [Sorting]: [sort_by_key].  [FileLock]: processes that read, compute and save a file
      under flock (registry.rs, cell.rs), every interleaving.
    - [State]: state.rs, the files of the running VMs, their lookup and how a VM is
      stopped, on a host whose processes change.
    - [Blocks]: the editing of nkr-compose.yml (cell.rs) line by line, and [Clone] its
      proof for a copied service; [Backups]: the copies kept of it; [CloneConf]:
      [rewrite_odoo_conf_full]; [Cells]: the registry of cells and the choice of a cell
      for an instance; [Instances]: [clone_instance_with_opts] with the rollback of
      [CloneScratch], and [delete_instance].
    - [Create]: [handle_create] (api.rs) from the body of the request to the plan of the
      new instance (aliases, checks, choice of the cell, the source and the sizes);
      [Jobs]: what happens to plans and actions in the daemon, the names that are
      reserved, the threads and their status files, as a step relation; [Info]:
      [get_instance_info], the phases of an instance and the signals sent to its VM;
      [Tenants]: the cells as the panel sees them, projects, [handle_adopt_instance].
    - [Paths], [Compose]: compose.rs, from the text of a service to the arguments of the
      VM it starts, and the stop of a stack.
    - [Dumps]: the backups of api.rs, their threads, the files of their jobs and the download;
      [Odoo]: the actions on modules over JSON-RPC and the creation of a database; [Dns]: the
      names of instances, their virtual hosts, certificates and nginx; [Admin]: the mail
      server, the statements of an administrator with their filter and audit log, the signed
      login, the cache and the enterprise repository (all of api.rs).
    - [Metrics]: metrics.rs, from the readings of /proc to the text for Prometheus and the cached
      snapshots; [Floats]: the f64 arithmetic it needs, as rounded rationals.
    - [Layout]: the pages, interrupts and memory slots [run] gives to the devices, and
      the kernel command line of [configure_linux_boot].
    - [Vcpu]: the signal handlers, one iteration of [run_vcpu_loop] and its repetition,
      with the state of the whole machine.

    ** Conventions

    - A Rust function is a Rocq function that takes the state it changes and returns it.
      A method [fn f(&mut self, ..)] of a device takes the device record; one that
      touches guest memory takes the memory last and returns it.  Panics are
      [Panic reason] in [outcome]; [Result] is a sum or an option.
    - Words are integers reduced modulo [2^w] where the source's arithmetic can leave
      the width (the program is built in release mode: arithmetic wraps, indexing is
      checked).  Bytes are integers in [0 .. 255]; the host is little endian.
    - The arrays of per-queue registers ([queue_num], [desc_low], ..) are a list of
      [vring] records.  The eventfd of an interrupt is the number of times it was
      raised; a log of calls (msync, madvise, frames written) stands for their effect.
    - Third-party crates are classes with named laws, and each class has a concrete
      instance on which the witnesses run: vm-memory ([RegionMem]), virtio-queue
      ([ListQueue], [RingQueue]), io-uring ([ListUring]), the socket to virtiofsd ([LogSocket]).
      The linux-loader crate appears only through the memory it leaves.  serde_json is
      the class [Json.Serde] (values) and [Ipc.Codec] (derived codecs, with the law
      [CodecOk]); git is a function from arguments to results.
    - The connection of a client is the list of what its reads return ([Http.stream]); a
      Rust string is its bytes.
    - A device behind [Arc<Mutex<..>>] is used by the vCPU thread and, for the network,
      by the receive thread: each critical section is one operation.  The one signal
      that can interleave inside an operation, SIGUSR2 in the balloon machine, is the
      argument [late] of [Vcpu.balloon_tick].
    - Log messages are left out.

    ** What is proved

    - Safety against the guest: no access of the guest to an MMIO page makes the VMM
      panic, but for two register writes and the notification of a disk without io_uring
      whose synchronous path panics ([Vcpu.guest_access_panics_iff]); the balloon stays within its cap whatever the
      guest posts ([Balloon.balloon_safe]); the asynchronous block path keeps its bound
      and does not touch guest memory before completion
      ([Block.async_submission_safe]); packet buffers outlive the ring's use of them
      ([Net.tx_buffers_alive]); stale completions are dropped
      ([Block.stale_completions_ignored]).
    - Functional behaviour of the devices: frames sent and received, block requests,
      balloon inflation and deflation, flushes, console messages, the vhost-user
      conversation at DRIVER_OK.
    - The loop: shutdown within its deadline, the balloon state machine.
    - Boot: what the kernel finds when it starts (initramfs, command line, memory map,
      page tables, segments, CPUID), and that its image is not overwritten.
    - Layout: the guest is told about the devices that exist, as long as its kernel keeps the
      whole command line, and neither MMIO pages nor memory slots overlap.
    - Registry: identifiers are stable and not shared; allocation and its failure;
      injectivity of addresses.
    - Sandbox: the generated filters accept exactly what they should, on a BPF machine.
    - API: a request goes through both servers and its answer comes back
      ([Server.request_round_trip]); names and numbers that leave the API server are checked,
      and the free texts are those of the request ([Route.route_safe]); a call on every branch of size and framing; bounded
      concurrency; the token check.
    - Watchdog: the maps refine one monitor per VM; restarts are justified, hangs are
      detected.
    - Configuration and logs: what is written is read back and nothing else changes; a
      log cursor neither loses nor repeats lines and reaches the end; the tail is the
      end of the file.
    - Deployments: when a token stays in the URL of a repository, and when a key stays on the disk,
      is stated exactly ([Git.git_sync_leaves_no_secret]); credentials are masked in logs.
    - Modules: a deployment publishes exactly the modules of the repository, keeps the others in the
      trash until it is emptied ([Modules.deploy_request_safe]) and reports what it did; deployed again it changes
      nothing; the submodules that are refused are the faulty ones
      ([Modules.validation_exact]).
    - Host: what a VM gives back on every path of failure and at its end, and what it leaves,
      above all when the filter of system calls is installed ([Host.host_given_back]); forwardings, mounts and the environment; the
      janitor spares what is used ([Janitor.sweep_spares_live]) and settles.
    - Compose file: an edited, copied, resized or removed service reads back as asked and
      every other line stays ([Clone.clone_appends], [Blocks.resize_read_back]); the
      rotation keeps the newest backups.
    - Instances: a clone that fails is undone but for what is listed
      ([Instances.failed_clone_restores]), one that succeeds has all its parts, and its
      deletion undoes it; placement takes the least loaded cell that may have it.
    - Requests: an accepted plan was checked on every point ([Create.plan_checked]) and
      passes the checks of the clone again ([Create.plan_passes_checks]); creating and
      adopting keep a project in one cell and an environment in one instance
      ([Create.create_keeps_projects], [Tenants.adopt_keeps_projects]).  In every
      interleaving of requests and threads a name has at most one creation and one
      action ([Jobs.one_job_per_name]) and its status file tells how far the thread is
      ([Jobs.status_tells_thread]).  A signal goes to the process that is a VM
      ([Info.signals_reach_vmm]).
    - State files: they refine a map ([State.state_refines_map]); a stop signals only the
      process that is the VM.  The services of a stack start in turn, each in a place of its own
      ([Compose.up_in_turn]); the paths of its disks settle.
    - Background work: backups, creations of databases and creations of instances follow their
      threads as far as their files can be written ([Dumps.jobs_follow_threads],
      [Odoo.init_db_follows_threads], [Jobs.status_tells_thread]); Odoo is asked for an action only
      on the grounds that were checked ([Odoo.action_justified]).
    - Names: enabled sites have their certificates ([Dns.sites_have_certificates]) and a name
      is deleted as it was created ([Dns.dns_deleted_as_created]).
    - Metrics: the text that is scraped reads back as what was measured
      ([Metrics.scrape_read_back]); how old a snapshot can be ([Metrics.snapshots_fresh]).
    - Administration: values stay literals in the statement of the mail server
      ([Admin.mail_values_stay_literals]), statements are audited ([Admin.psql_audited]), and the
      guest accepts a signed login as it was signed ([Admin.sso_login_as_signed]).
    - Locks: a lock file of its own serializes ([FileLock.dedicated_lock_serializes]); the
      one of the cell registry does not ([Cells.cell_lock_fails]).
    - Sizing: derived sizes do not overflow and fit.
    - Defects: theorems that exhibit behaviour the program does not mean to have
      (a disk without io_uring that a guest can crash, shadowed second disk, lost balloon request, message pending until the next
      signal, dropped block chain, unknown block requests written to disk, identifier
      254 on the broadcast address, a watchdog mark that outlives its VM, a quota that
      cannot be changed alone, a long line that stops a log cursor).

    ** Bounds and fuel

    Loops over a chain or a ring are structural over the list the interface yields.
    [Vcpu.run_loop] is structural over the list of turns (a clock reading and an exit).
    [VirtioFs.wait_for_socket] counts its attempts, as the source does, and has a
    theorem that it stops.  The walk of [Modules] over .gitmodules has as fuel the levels it may
      descend; more than the height of the clone is enough when submodules are declared below
      the directories that declare them ([Modules.validation_exact]), and without that the
      code does not end either.  [Text.digits] has fuel for 20 decimal or 16 hexadecimal
    digits, enough for 64 bits ([Text.dec_read], [Text.hex8_read]).  The byte walks of
    [Git.scrub] and [Logs.tail_buf] have the length of their input as fuel, which is
    enough ([Git.scrub_fuel], [Logs.tail_buf_spec]).

    ** What is not modelled

    The KVM calls (taken to succeed), the writing of cgroup files and the set-up of bridges
    are effects of the host.  Of the management side, what the configuration request does with
    the mail server and the restart after it, the image builder, the initramfs builder, the
    command line of the program and the rest of the file-system work of the API server
    (enterprise, pylibs, log download) are not modelled; the latter are the record
    [Route.local_handlers].  Files that are written over in place are cut short by a failed write
    ([file_write], [write_file]).  PostgreSQL, cp and
    btrfs are arguments of [Instances], the first with laws on the set of databases
    ([Instances.PgLaws]).  The host that the handlers look at (processes, ports, files of
    an instance) is the record [Info.probes]; the time and what a thread finds at each of
    its turns is [Jobs.moment]. *)
From Stdlib Require Export ZArith Lia.
From stdpp Require Export base list gmap strings numbers.

(** [lia] also solves goals with [/] and [mod] by constants. *)
#[global] Ltac Zify.zify_post_hook ::= Z.to_euclidean_division_equations.

Declare Scope nkr_scope.
Delimit Scope nkr_scope with nkr.
Open Scope nkr_scope.
Open Scope Z_scope.

(** ** Rust panics

    A Rust operation either returns or unwinds.  [outcome] keeps the reason of
    the panic so that the theorems can say which guard was missing. *)
Inductive panic_reason :=
  | IndexOutOfBounds
  | SliceLengthMismatch
  | UnwrapOnError
  | ExplicitPanic
  | DivisionByZero.

#[export] Instance panic_reason_eq_dec : EqDecision panic_reason.
Proof. solve_decision. Defined.

Inductive outcome (A : Type) :=
  | Done (a : A)
  | Panic (why : panic_reason).
Arguments Done {A} a.
Arguments Panic {A} why.

#[export] Instance outcome_ret : MRet outcome := fun A a => Done a.
#[export] Instance outcome_bind : MBind outcome := fun A B f m =>
  match m with Done a => f a | Panic w => Panic w end.
#[export] Instance outcome_fmap : FMap outcome := fun A B f m =>
  match m with Done a => Done (f a) | Panic w => Panic w end.

Definition panics {A} (m : outcome A) : bool :=
  match m with Done _ => false | Panic _ => true end.

Lemma panics_bind {A B} (m : outcome A) (f : A -> outcome B) :
  panics (m ≫= f) = match m with Done a => panics (f a) | Panic _ => true end.
Proof. by destruct m. Qed.

Lemma done_inj {A} (a b : A) : Done a = Done b <-> a = b.
Proof. split; congruence. Qed.

(** ** Record update: [r <| field := v |>]

    [Eta R] names the eta-expansion of a record; the setter of a projection is
    found by abstracting the projection in it. *)
Class Eta (R : Type) := eta : R -> R.
Class Setter {R T : Type} (f : R -> T) := set_field : (T -> T) -> R -> R.
Arguments set_field {R T} f {_} g r /.

Ltac derive_setter f :=
  lazymatch type of f with
  | ?R -> ?T =>
      let e := constr:(_ : Eta R) in
      let e := eval hnf in e in
      let e := eval pattern f in e in
      lazymatch e with
      | ?P f => let s := eval cbv beta in (fun (g : T -> T) (r : R) => P (fun x => g (f x)) r) in exact s
      end
  end.

#[export] Hint Extern 0 (Setter ?f) => derive_setter f : typeclass_instances.

Notation "r <| f := v |>" := (set_field f (fun _ => v) r)
  (at level 12, f at next level, v at level 200, left associativity) : nkr_scope.
Notation "r <| f ::= g |>" := (set_field f g r)
  (at level 12, f at next level, g at level 200, left associativity) : nkr_scope.

(** ** Machine words

    The program is built with the release profile, where arithmetic wraps; [as]
    casts truncate.  A word is an integer, reduced at the points where the
    source reduces it. *)
Definition u8 (z : Z) : Z := z mod 2 ^ 8.
Definition u16 (z : Z) : Z := z mod 2 ^ 16.
Definition u32 (z : Z) : Z := z mod 2 ^ 32.
Definition u64 (z : Z) : Z := z mod 2 ^ 64.

Definition is_u8 (z : Z) : Prop := 0 <= z < 2 ^ 8.
Definition is_u16 (z : Z) : Prop := 0 <= z < 2 ^ 16.
Definition is_u32 (z : Z) : Prop := 0 <= z < 2 ^ 32.
Definition is_u64 (z : Z) : Prop := 0 <= z < 2 ^ 64.

(** [!x] on a 32-bit word *)
Definition not32 (z : Z) : Z := Z.lxor z (2 ^ 32 - 1).

(** [((hi as u64) << 32) | (lo as u64)] *)
Definition hi_lo (hi lo : Z) : Z := Z.lor (Z.shiftl hi 32) lo.

(** [a.saturating_sub(b)] on unsigned words *)
Definition sat_sub (a b : Z) : Z := Z.max 0 (a - b).

Lemma u8_range z : is_u8 (u8 z).
Proof. unfold is_u8, u8. lia. Qed.
Lemma u16_range z : is_u16 (u16 z).
Proof. unfold is_u16, u16. lia. Qed.
Lemma u32_range z : is_u32 (u32 z).
Proof. unfold is_u32, u32. lia. Qed.
Lemma u64_range z : is_u64 (u64 z).
Proof. unfold is_u64, u64. lia. Qed.

Lemma u16_small z : is_u16 z -> u16 z = z.
Proof. intros H. by apply Z.mod_small. Qed.
Lemma u32_small z : is_u32 z -> u32 z = z.
Proof. intros H. by apply Z.mod_small. Qed.
Lemma u64_small z : is_u64 z -> u64 z = z.
Proof. intros H. by apply Z.mod_small. Qed.

Lemma lor_disjoint_add hi lo n :
  0 <= n -> 0 <= lo < 2 ^ n -> Z.lor (Z.shiftl hi n) lo = hi * 2 ^ n + lo.
Proof.
  intros Hn Hlo. rewrite <- Z.shiftl_mul_pow2 by done.
  rewrite <- Z.lxor_lor, Z.add_nocarry_lxor; [done|..];
    (apply Z.bits_inj'; intros i Hi; rewrite Z.land_spec, Z.bits_0;
     destruct (decide (i < n)) as [Hlt|Hge];
     [ rewrite Z.shiftl_spec_low by done; done
     | rewrite andb_false_iff; right;
       destruct (decide (lo = 0)) as [->|Hne]; [apply Z.bits_0|];
       apply Z.bits_above_log2; [lia|];
       apply Z.log2_lt_pow2; [lia|];
       apply Z.lt_le_trans with (2 ^ n); [lia|]; apply Z.pow_le_mono_r; lia ]).
Qed.

Lemma hi_lo_add hi lo : is_u32 lo -> hi_lo hi lo = hi * 2 ^ 32 + lo.
Proof. intros H. apply lor_disjoint_add; unfold is_u32 in H; lia. Qed.

Lemma hi_lo_u64 hi lo : is_u32 hi -> is_u32 lo -> is_u64 (hi_lo hi lo).
Proof. intros Hh Hl. rewrite hi_lo_add by done. unfold is_u32, is_u64 in *. lia. Qed.

(** ** Bytes, little endian *)
Definition is_byte (z : Z) : Prop := 0 <= z < 256.
#[export] Instance is_byte_dec z : Decision (is_byte z).
Proof. unfold is_byte. apply _. Defined.
Notation bytes_ok bs := (Forall is_byte bs).

Fixpoint le_bytes (n : nat) (z : Z) : list Z :=
  match n with
  | O => []
  | S n => z mod 256 :: le_bytes n (z / 256)
  end.

Fixpoint le_val (bs : list Z) : Z :=
  match bs with
  | [] => 0
  | b :: bs => b + 256 * le_val bs
  end.

(** big endian, as [from_be_bytes] reads it *)
Definition be_val (bs : list Z) : Z := le_val (reverse bs).

Lemma length_le_bytes n z : length (le_bytes n z) = n.
Proof. revert z. induction n; intros z; simpl; auto. Qed.

Lemma le_bytes_ok n z : bytes_ok (le_bytes n z).
Proof.
  revert z. induction n; intros z; simpl; constructor; auto. unfold is_byte. lia.
Qed.

Lemma le_val_le_bytes n z : le_val (le_bytes n z) = z mod 256 ^ (Z.of_nat n).
Proof.
  revert z. induction n as [|n IH]; intros z; [by rewrite Z.mod_1_r|].
  cbn [le_bytes le_val]. rewrite IH, Nat2Z.inj_succ, Z.pow_succ_r by lia.
  rewrite Z.rem_mul_r by lia. done.
Qed.

Lemma le_val_bound bs : bytes_ok bs -> 0 <= le_val bs < 256 ^ (Z.of_nat (length bs)).
Proof.
  induction 1 as [|b bs Hb _ IH]; [simpl; lia|]. unfold is_byte in Hb.
  cbn [le_val length]. rewrite Nat2Z.inj_succ, Z.pow_succ_r by lia. nia.
Qed.

Lemma le_bytes_le_val bs : bytes_ok bs -> le_bytes (length bs) (le_val bs) = bs.
Proof.
  induction 1 as [|b bs Hb _ IH]; [done|]. unfold is_byte in Hb. cbn [le_val length le_bytes].
  replace ((b + 256 * le_val bs) mod 256) with b by lia.
  replace ((b + 256 * le_val bs) / 256) with (le_val bs) by lia.
  by rewrite IH.
Qed.

Lemma le_val_app bs1 bs2 :
  le_val (bs1 ++ bs2) = le_val bs1 + 256 ^ (Z.of_nat (length bs1)) * le_val bs2.
Proof.
  induction bs1 as [|b bs1 IH]; [simpl; lia|].
  cbn [app le_val length]. rewrite IH, Nat2Z.inj_succ, Z.pow_succ_r by lia. ring.
Qed.

Lemma le_val_4 z : is_u32 z -> le_val (le_bytes 4 z) = z.
Proof. intros H. rewrite le_val_le_bytes. by apply Z.mod_small. Qed.
Lemma le_val_8 z : is_u64 z -> le_val (le_bytes 8 z) = z.
Proof. intros H. rewrite le_val_le_bytes. by apply Z.mod_small. Qed.

(** the bytes of a string *)
Definition bytes_of_string (s : string) : list Z :=
  map (fun c => Z.of_N (Ascii.N_of_ascii c)) (String.list_ascii_of_string s).

Lemma bytes_of_string_ok s : bytes_ok (bytes_of_string s).
Proof.
  apply Forall_fmap, Forall_true. intros c. unfold is_byte. simpl.
  pose proof (Ascii.N_ascii_bounded c). lia.
Qed.

(** ** Slices

    [data[..n].copy_from_slice(&v[..n])] with [n = min(len data, len v)]; the
    rest of [data] keeps its contents. *)
Definition copy_prefix (v data : list Z) : list Z :=
  let n := (length data `min` length v)%nat in
  take n v ++ drop n data.

(** [data.copy_from_slice(v)]: panics unless the lengths agree. *)
Definition copy_from_slice (v data : list Z) : outcome (list Z) :=
  if decide (length v = length data) then Done v else Panic SliceLengthMismatch.

(** [data.fill(x)] *)
Definition fill (x : Z) (data : list Z) : list Z := replicate (length data) x.

Lemma length_copy_prefix v data : length (copy_prefix v data) = length data.
Proof. unfold copy_prefix. rewrite length_app, length_take, length_drop. lia. Qed.

Lemma copy_prefix_all v data :
  (length data <= length v)%nat -> copy_prefix v data = take (length data) v.
Proof.
  intros H. unfold copy_prefix. rewrite Nat.min_l by done.
  by rewrite drop_all, app_nil_r.
Qed.

Lemma length_fill x data : length (fill x data) = length data.
Proof. apply length_replicate. Qed.

Lemma copy_from_slice_length v data out :
  copy_from_slice v data = Done out -> length out = length data.
Proof. unfold copy_from_slice. case_decide; congruence. Qed.

(** [xs[i]] and [xs[i] = v] with the bounds check of Rust *)
Definition index {A} (xs : list A) (i : Z) : outcome A :=
  if decide (0 <= i) then
    match xs !! Z.to_nat i with Some x => Done x | None => Panic IndexOutOfBounds end
  else Panic IndexOutOfBounds.

Definition index_set {A} (xs : list A) (i : Z) (v : A) : outcome (list A) :=
  if decide (0 <= i < Z.of_nat (length xs)) then Done (<[Z.to_nat i := v]> xs)
  else Panic IndexOutOfBounds.

Lemma index_in_range {A} (xs : list A) i :
  0 <= i < Z.of_nat (length xs) -> exists x, index xs i = Done x /\ xs !! Z.to_nat i = Some x.
Proof.
  intros H. unfold index. rewrite decide_True by lia.
  destruct (lookup_lt_is_Some_2 xs (Z.to_nat i)) as [x Hx]; [lia|]. rewrite Hx. eauto.
Qed.

Lemma index_set_in_range {A} (xs : list A) i v :
  0 <= i < Z.of_nat (length xs) -> index_set xs i v = Done (<[Z.to_nat i := v]> xs).
Proof. intros H. unfold index_set. by rewrite decide_True. Qed.

(** ** Writing a file whole
    [fs::write] creates or empties the file before it writes: a write that fails leaves the file
    alone when it cannot be opened, and cut short when the disk is full. *)
Inductive file_write := Stored | NotOpened | Cut.
#[export] Instance file_write_eq_dec : EqDecision file_write.
Proof. solve_decision. Defined.
Definition write_file {A} (r : file_write) (new cut : A) (old : option A) : option A :=
  match r with Stored => Some new | NotOpened => old | Cut => Some cut end.

(** ** Filters that keep everything or nothing *)
Lemma filter_all {A} (P : A -> Prop) `{!forall x, Decision (P x)} (l : list A) : (forall x, x ∈ l -> P x) -> filter P l = l.
Proof.
  induction l as [|x l IH]; [done|]. intros Hl. rewrite filter_cons_True by (apply Hl; by left).
  f_equal. apply IH. intros y Hy. apply Hl. by right.
Qed.
Lemma filter_none {A} (P : A -> Prop) `{!forall x, Decision (P x)} (l : list A) : (forall x, x ∈ l -> ~ P x) -> filter P l = [].
Proof.
  induction l as [|x l IH]; [done|]. intros Hl. rewrite filter_cons_False by (apply Hl; by left).
  apply IH. intros y Hy. apply Hl. by right.
Qed.

(** ** Automation *)
Create HintDb nkr.
#[export] Hint Resolve u8_range u16_range u32_range u64_range hi_lo_u64 le_bytes_ok
  bytes_of_string_ok : nkr.
Create Rewrite HintDb nkr_len.
#[export] Hint Rewrite length_le_bytes length_copy_prefix length_fill @length_app @length_take
  @length_drop @length_replicate @length_insert @length_reverse : nkr_len.

(** Normalise the lengths of byte strings and finish by arithmetic. *)
Ltac len := autorewrite with nkr_len in *; simpl in *; lia.

(** Case analysis on every [if decide] and boolean test of the goal. *)
Ltac split_ifs := repeat (case_match || case_decide); simplify_eq/=; try done.

(** Unfold the word predicates and decide by linear arithmetic. *)
Ltac words := unfold is_u8, is_u16, is_u32, is_u64, is_byte, u8, u16, u32, u64 in *; lia.
