(* ===== verification/Text.v ===== *)
(** * Text

    What the Rust formatting macros, [str::parse] and [str::split] do, on strings of
    bytes: decimal and hexadecimal numbers, splitting at a character.  The kernel
    command line, the request parsers and the registries are built with them. *)
From S2P Require Import Prelude.
From Stdlib Require Export Ascii.
From Stdlib Require Import String.
From stdpp Require Import list strings.
Open Scope list_scope.
Open Scope Z_scope.
Notation length := List.length.

(** ** Numbers *)

(** The digits of [z] in base [b], least significant first. *)
Fixpoint digits (fuel : nat) (b z : Z) : list Z :=
  match fuel with
  | O => []
  | S fuel => if z <? b then [z] else z mod b :: digits fuel b (z / b)
  end.

Fixpoint digits_val (b : Z) (ds : list Z) : Z :=
  match ds with [] => 0 | d :: ds => d + b * digits_val b ds end.

Definition digit_char (d : Z) : ascii :=
  ascii_of_N (Z.to_N (if d <? 10 then 48 + d else 87 + d)).
Definition char_digit (c : ascii) : option Z :=
  let n := Z.of_N (N_of_ascii c) in
  if decide (48 <= n <= 57) then Some (n - 48)
  else if decide (97 <= n <= 102) then Some (n - 87) else None.

Definition show_digits (ds : list Z) : string :=
  string_of_list_ascii (map digit_char (reverse ds)).

(** ["{}"] of an unsigned integer: a [u64] has at most twenty digits *)
Definition dec (z : Z) : string := show_digits (digits 20 10 z).
(** ["{:#010x}"]: at least eight digits after [0x] *)
Definition hex8 (z : Z) : string :=
  let ds := digits 16 16 z in
  "0x" +:+ show_digits (ds ++ replicate (8 - length ds) 0).

(** Reading a number: the value of a non-empty string of digits of base [b]. *)
Definition read_digit (b : Z) (acc : option Z) (c : ascii) : option Z :=
  match acc, char_digit c with
  | Some a, Some d => if d <? b then Some (a * b + d) else None
  | _, _ => None
  end.
Definition read_number (b : Z) (s : string) : option Z :=
  match s with
  | EmptyString => None
  | _ => fold_left (read_digit b) (list_ascii_of_string s) (Some 0)
  end.

(** [s.parse::<uN>()]: decimal, an optional plus sign, an error when the value is
    larger than [max] *)
Definition strip_plus (s : string) : string := match s with String "+" s' => s' | _ => s end.
Definition parse_uint (max : Z) (s : string) : option Z :=
  match read_number 10 (strip_plus s) with
  | Some z => if z <=? max then Some z else None
  | None => None
  end.

(** ** Splitting *)

(** [s.split(c)] *)
Fixpoint split_on (c : ascii) (s : string) : list string :=
  match s with
  | EmptyString => [EmptyString]
  | String x s =>
      if Ascii.eqb x c then EmptyString :: split_on c s
      else match split_on c s with
           | [] => [String x EmptyString]
           | w :: ws => String x w :: ws
           end
  end.

(** [s.split_once(c)] *)
Fixpoint split_once (c : ascii) (s : string) : option (string * string) :=
  match s with
  | EmptyString => None
  | String x s =>
      if Ascii.eqb x c then Some (EmptyString, s)
      else match split_once c s with Some (a, b) => Some (String x a, b) | None => None end
  end.

(** [s.splitn(n, c)] *)
Fixpoint splitn (n : nat) (c : ascii) (s : string) : list string :=
  match n with
  | O => []
  | S O => [s]
  | S n => match split_once c s with
           | Some (a, b) => a :: splitn n c b
           | None => [s]
           end
  end.

Definition char_in (c : ascii) (s : string) : bool :=
  existsb (Ascii.eqb c) (list_ascii_of_string s).

(** [s.strip_prefix(p)] *)
Fixpoint strip_prefix (p s : string) : option string :=
  match p, s with
  | EmptyString, _ => Some s
  | String a p, String b s => if Ascii.eqb a b then strip_prefix p s else None
  | _, _ => None
  end.

(** ** Lemmas *)

Lemma append_cons c s t : String c s +:+ t = String c (s +:+ t).
Proof. done. Qed.
Lemma append_empty t : "" +:+ t = t.
Proof. done. Qed.
Create Rewrite HintDb nkr_str.
#[export] Hint Rewrite append_cons append_empty : nkr_str.

Lemma app_nil_string s : s +:+ "" = s.
Proof. induction s as [|c s IH]; [done|]. by rewrite append_cons, IH. Qed.

Lemma string_app_assoc s1 s2 s3 : (s1 +:+ s2) +:+ s3 = s1 +:+ (s2 +:+ s3).
Proof. induction s1 as [|c s1 IH]; [done|]. autorewrite with nkr_str. simpl. by rewrite IH. Qed.

Lemma list_ascii_app s1 s2 :
  list_ascii_of_string (s1 +:+ s2) = list_ascii_of_string s1 ++ list_ascii_of_string s2.
Proof. induction s1 as [|c s1 IH]; [done|]. autorewrite with nkr_str. simpl. by rewrite IH. Qed.

Lemma digits_spec fuel b z :
  2 <= b -> 0 <= z < b ^ Z.of_nat fuel ->
  digits_val b (digits fuel b z) = z /\ Forall (fun d => 0 <= d < b) (digits fuel b z)
  /\ (0 < fuel -> digits fuel b z <> [])%nat.
Proof.
  intros Hb. revert z. induction fuel as [|fuel IH]; intros z Hz; [simpl in *; split_and!; [lia|done|lia]|].
  rewrite Nat2Z.inj_succ, Z.pow_succ_r in Hz by lia.
  cbn [digits]. destruct (Z.ltb_spec z b) as [Hlt|Hge].
  - simpl. split_and!; [lia|by constructor; [lia|]|done].
  - pose proof (Z.mod_pos_bound z b ltac:(lia)).
    assert (Hq : 0 <= z / b < b ^ Z.of_nat fuel)
      by (split; [apply Z.div_pos; lia|apply Z.div_lt_upper_bound; lia]).
    destruct (IH _ Hq) as (Hv & Hf & _). cbn [digits_val]. rewrite Hv.
    split_and!; [|constructor; [lia|done]|done].
    pose proof (Z.div_mod z b ltac:(lia)). lia.
Qed.

Lemma digits_val_app b ds k : digits_val b (ds ++ replicate k 0) = digits_val b ds.
Proof.
  induction ds as [|d ds IH]; simpl; [|by rewrite IH].
  induction k as [|k IHk]; simpl; [done|]. rewrite IHk. lia.
Qed.

Lemma digits_ok d :
  0 <= d < 16 -> match char_digit (digit_char d) with Some e => e =? d | None => false end = true.
Proof.
  intros H. assert (Hall : forallb (fun d => match char_digit (digit_char d) with
    Some e => e =? d | None => false end) (map Z.of_nat (seq 0 16)) = true) by reflexivity.
  rewrite forallb_forall in Hall. apply Hall, in_map_iff. exists (Z.to_nat d).
  rewrite in_seq. lia.
Qed.

Lemma char_digit_char d : 0 <= d < 16 -> char_digit (digit_char d) = Some d.
Proof.
  intros H%digits_ok. destruct (char_digit _) as [e|]; [|done]. by apply Z.eqb_eq in H as ->.
Qed.

Lemma list_ascii_show ds : list_ascii_of_string (show_digits ds) = map digit_char (reverse ds).
Proof. apply list_ascii_of_string_of_list_ascii. Qed.

Lemma read_digits_fold b ds :
  2 <= b <= 16 -> Forall (fun d => 0 <= d < b) ds ->
  fold_left (read_digit b) (map digit_char (reverse ds)) (Some 0) = Some (digits_val b ds).
Proof.
  intros Hb. induction 1 as [|d ds Hd _ IH]; [done|].
  rewrite reverse_cons, map_app, fold_left_app, IH. simpl.
  rewrite char_digit_char by lia. rewrite (proj2 (Z.ltb_lt d b)) by lia. f_equal. lia.
Qed.

Lemma read_show b ds :
  2 <= b <= 16 -> Forall (fun d => 0 <= d < b) ds -> ds <> [] ->
  read_number b (show_digits ds) = Some (digits_val b ds).
Proof.
  intros Hb Hds Hne. unfold read_number. destruct (show_digits ds) as [|c s] eqn:E.
  - exfalso. apply (f_equal list_ascii_of_string) in E. rewrite list_ascii_show in E.
    apply Hne. apply map_eq_nil in E. by rewrite <- (reverse_involutive ds), E.
  - rewrite <- E, list_ascii_show. by apply read_digits_fold.
Qed.

Lemma dec_read z : is_u64 z -> read_number 10 (dec z) = Some z.
Proof.
  intros H. destruct (digits_spec 20 10 z) as (Hv & Hf & Hn); [lia|unfold is_u64 in H; lia|].
  unfold dec. rewrite read_show, Hv; [done|lia|done|]. apply Hn. lia.
Qed.

(** the digits of [hex8] after [0x] *)
Lemma hex8_read z :
  is_u64 z -> exists s, hex8 z = "0x" +:+ s /\ read_number 16 s = Some z.
Proof.
  intros H. destruct (digits_spec 16 16 z) as (Hv & Hf & Hn); [lia|unfold is_u64 in H; lia|].
  eexists. split; [reflexivity|]. rewrite read_show, digits_val_app, Hv; [done|lia|..].
  - apply Forall_app. split; [done|]. apply Forall_replicate. lia.
  - intros [E _]%app_eq_nil. apply Hn in E; lia.
Qed.

Lemma char_in_app c s1 s2 : char_in c (s1 +:+ s2) = char_in c s1 || char_in c s2.
Proof. unfold char_in. by rewrite list_ascii_app, existsb_app. Qed.

(** no separator is a digit *)
Lemma char_in_show c ds b :
  b <= 16 -> Forall (fun d => 0 <= d < b) ds -> char_digit c = None ->
  char_in c (show_digits ds) = false.
Proof.
  intros Hb Hds Hc. unfold char_in. rewrite list_ascii_show.
  apply not_true_is_false. rewrite existsb_exists. intros (x & Hx & Heq).
  apply Ascii.eqb_eq in Heq. subst x. apply in_map_iff in Hx as (d & <- & Hd).
  apply list_elem_of_In, elem_of_reverse in Hd. rewrite reverse_involutive in Hd.
  rewrite list.Forall_forall in Hds. specialize (Hds d Hd). rewrite char_digit_char in Hc; [done|lia].
Qed.

Lemma digits_range fuel b z :
  2 <= b -> 0 <= z -> Forall (fun d => 0 <= d < b) (digits fuel b z).
Proof.
  intros Hb. revert z. induction fuel as [|fuel IH]; intros z Hz; [constructor|].
  cbn [digits]. destruct (Z.ltb_spec z b); constructor; [lia|constructor| |].
  - pose proof (Z.mod_pos_bound z b ltac:(lia)). lia.
  - apply IH, Z.div_pos; lia.
Qed.

Lemma dec_plain c z : 0 <= z -> char_digit c = None -> char_in c (dec z) = false.
Proof. intros Hz Hc. eapply (char_in_show _ _ 10); [lia|by apply digits_range|done]. Qed.

Lemma hex8_plain c z :
  0 <= z -> char_digit c = None -> c <> "x"%char -> char_in c (hex8 z) = false.
Proof.
  intros Hz Hc Hx. unfold hex8. rewrite char_in_app. apply orb_false_iff. split.
  - unfold char_in. simpl. rewrite orb_false_r. apply orb_false_iff.
    split; apply Ascii.eqb_neq; [|done]. intros ->. done.
  - eapply (char_in_show _ _ 16); [lia| |done].
    apply Forall_app. split; [by apply digits_range|]. apply Forall_replicate. lia.
Qed.

Lemma split_on_nonempty c s : split_on c s <> [].
Proof. destruct s as [|x s]; simpl; [done|]. repeat case_match; done. Qed.

Lemma split_on_plain c s : char_in c s = false -> split_on c s = [s].
Proof.
  induction s as [|x s IH]; [done|]. unfold char_in. simpl. rewrite Ascii.eqb_sym.
  intros [E Hs]%orb_false_iff. rewrite E, IH; done.
Qed.

Lemma split_on_app c s1 s2 :
  split_on c (s1 +:+ String c s2) = split_on c s1 ++ split_on c s2.
Proof.
  induction s1 as [|x s1 IH]; autorewrite with nkr_str; simpl; [by rewrite Ascii.eqb_refl|].
  rewrite IH. destruct (Ascii.eqb x c); [done|].
  pose proof (split_on_nonempty c s1). by destruct (split_on c s1).
Qed.

Lemma split_once_plain c s1 s2 :
  char_in c s1 = false -> split_once c (s1 +:+ String c s2) = Some (s1, s2).
Proof.
  induction s1 as [|x s1 IH]; autorewrite with nkr_str; simpl; [by rewrite Ascii.eqb_refl|].
  unfold char_in. simpl. rewrite Ascii.eqb_sym. intros [-> Hs]%orb_false_iff. by rewrite IH.
Qed.

Lemma split_once_none c s : char_in c s = false -> split_once c s = None.
Proof.
  induction s as [|x s IH]; [done|]. unfold char_in. simpl. rewrite Ascii.eqb_sym.
  intros [-> Hs]%orb_false_iff. by rewrite IH.
Qed.

Lemma strip_prefix_app p s : strip_prefix p (p +:+ s) = Some s.
Proof. induction p as [|c p IH]; [done|]. rewrite append_cons. simpl. by rewrite Ascii.eqb_refl. Qed.

Lemma strip_prefix_some p s r : strip_prefix p s = Some r -> s = p +:+ r.
Proof.
  revert s. induction p as [|c p IH]; intros s; [rewrite append_empty; destruct s; simpl; congruence|].
  rewrite append_cons. destruct s as [|x s]; simpl; [done|].
  destruct (Ascii.eqb_spec c x) as [->|]; [|done]. intros Hr%IH. by rewrite Hr.
Qed.

(** ** Names

    [s.trim()] and [s.to_lowercase()] on ASCII text. *)
Definition is_space (c : ascii) : bool :=
  let n := N_of_ascii c in ((9 <=? n) && (n <=? 13) || (n =? 32))%N.
Fixpoint drop_spaces (l : list ascii) : list ascii :=
  match l with
  | [] => []
  | c :: l' => if is_space c then drop_spaces l' else l
  end.
Definition trim (s : string) : string :=
  string_of_list_ascii (reverse (drop_spaces (reverse (drop_spaces (list_ascii_of_string s))))).
Definition lower_ascii (c : ascii) : ascii :=
  let n := N_of_ascii c in if ((65 <=? n) && (n <=? 90))%N then ascii_of_N (n + 32) else c.
Definition to_lowercase (s : string) : string :=
  string_of_list_ascii (map lower_ascii (list_ascii_of_string s)).

(** [k.starts_with(p)] *)
Definition starts_with (p k : string) : bool :=
  match strip_prefix p k with Some _ => true | None => false end.

Lemma char_in_cons c x s : char_in c (String x s) = Ascii.eqb c x || char_in c s.
Proof. done. Qed.

Lemma split_once_some c s a b :
  split_once c s = Some (a, b) -> s = a +:+ String c b /\ char_in c a = false.
Proof.
  revert a. induction s as [|x s IH]; intros a; simpl; [done|].
  destruct (Ascii.eqb_spec x c) as [->|Hne]; [by intros [= <- <-]|].
  destruct (split_once c s) as [[a' b']|]; [|done]. intros [= <- <-].
  destruct (IH a' eq_refl) as [-> Ha]. split; [by rewrite append_cons|].
  rewrite char_in_cons, Ha, orb_false_r. apply Ascii.eqb_neq. congruence.
Qed.

Lemma split_once_is_none c s : split_once c s = None -> char_in c s = false.
Proof.
  induction s as [|x s IH]; [done|]. simpl. destruct (Ascii.eqb_spec x c) as [->|Hne]; [done|].
  destruct (split_once c s) as [[a b]|]; [done|]. intros _.
  rewrite char_in_cons, IH by done. rewrite orb_false_r. apply Ascii.eqb_neq. congruence.
Qed.

Lemma starts_with_spec p k : starts_with p k = true <-> exists t, k = p +:+ t.
Proof.
  unfold starts_with. split.
  - destruct (strip_prefix p k) as [t|] eqn:E; [|done]. intros _. exists t. by apply strip_prefix_some.
  - intros [t ->]. by rewrite strip_prefix_app.
Qed.

Lemma append_inj s t1 t2 : s +:+ t1 = s +:+ t2 -> t1 = t2.
Proof. induction s as [|c s IH]; [done|]. rewrite !append_cons. intros [= H]. auto. Qed.

(** the pieces [l], separated by [c] *)
Fixpoint join_with (c : ascii) (l : list string) : string :=
  match l with
  | [] => ""
  | [x] => x
  | x :: l => x +:+ String c (join_with c l)
  end.

Lemma split_join c l :
  l <> [] -> Forall (fun s => char_in c s = false) l -> split_on c (join_with c l) = l.
Proof.
  intros Hne H. induction H as [|x l Hx Hl IH]; [done|]. destruct l as [|y l].
  - by apply split_on_plain.
  - change (join_with c (x :: y :: l)) with (x +:+ String c (join_with c (y :: l))).
    rewrite split_on_app, IH, split_on_plain by done. done.
Qed.

Lemma join_split_on c s : join_with c (split_on c s) = s.
Proof.
  induction s as [|x s IH]; [done|]. cbn [split_on]. pose proof (split_on_nonempty c s) as Hne.
  destruct (Ascii.eqb_spec x c) as [->|Hx].
  - destruct (split_on c s) as [|p ps]; [done|]. change (join_with c ("" :: p :: ps)) with (String c (join_with c (p :: ps))).
    by rewrite IH.
  - destruct (split_on c s) as [|p [|p' ps]]; [done|..].
    + cbn in *. by rewrite IH.
    + change (join_with c (String x p :: p' :: ps)) with (String x (p +:+ String c (join_with c (p' :: ps)))).
      by rewrite <- IH.
Qed.

Lemma strip_plus_plain s : char_in "+" s = false -> strip_plus s = s.
Proof.
  destruct s as [|x s]; [done|]. rewrite char_in_cons. intros [Hx _]%orb_false_iff.
  destruct x as [[] [] [] [] [] [] [] []]; done.
Qed.

Lemma parse_uint_dec max z : is_u64 z -> z <= max -> parse_uint max (dec z) = Some z.
Proof.
  intros Hz Hm. unfold parse_uint. rewrite strip_plus_plain by (apply dec_plain; [unfold is_u64 in Hz; lia|done]).
  rewrite dec_read by done. by rewrite (proj2 (Z.leb_le _ _)).
Qed.

Lemma char_digit_nonneg c d : char_digit c = Some d -> 0 <= d.
Proof. unfold char_digit. repeat case_decide; intros [= <-]; lia. Qed.

Lemma parse_uint_nonneg max s z : parse_uint max s = Some z -> 0 <= z.
Proof.
  unfold parse_uint. destruct (read_number 10 (strip_plus s)) as [v|] eqn:E; [|done].
  intros H. assert (v = z) as -> by (by case_match; simplify_eq). clear H.
  assert (G : forall l acc, (forall a, acc = Some a -> 0 <= a) ->
    forall v, fold_left (read_digit 10) l acc = Some v -> 0 <= v).
  { induction l as [|c l IH]; intros acc Hacc v H; [by apply Hacc|]. simpl in H.
    eapply IH; [|exact H]. intros a. unfold read_digit. destruct acc as [a0|]; [|done].
    destruct (char_digit c) as [d|] eqn:Ed; [|done]. apply char_digit_nonneg in Ed.
    specialize (Hacc a0 eq_refl). case_match; [|done]. intros [= <-]. lia. }
  unfold read_number in E. destruct (strip_plus s); [done|]. eapply G; [|exact E]. by intros ? [= <-].
Qed.

Lemma bytes_app s t : bytes_of_string (s +:+ t) = bytes_of_string s ++ bytes_of_string t.
Proof. unfold bytes_of_string. by rewrite list_ascii_app, map_app. Qed.

Lemma length_bytes s : length (bytes_of_string s) = String.length s.
Proof. induction s as [|c s IH]; [done|]. simpl. by rewrite <- IH. Qed.

Lemma char_in_bytes c s :
  In (Z.of_N (N_of_ascii c)) (bytes_of_string s) -> char_in c s = true.
Proof.
  unfold bytes_of_string, char_in. rewrite in_map_iff. intros (x & E & Hx).
  apply existsb_exists. exists x. split; [done|]. apply Ascii.eqb_eq.
  apply N2Z.inj in E. rewrite <- (ascii_N_embedding c), <- (ascii_N_embedding x). by rewrite E.
Qed.

(** the characters of [dec] are digits: no separator and no white space *)
Lemma dec_digits z : 0 <= z ->
  Forall (fun c => char_digit c <> None) (list_ascii_of_string (dec z)).
Proof.
  intros Hz. apply list.Forall_forall. intros c Hc Hn.
  pose proof (dec_plain c z Hz Hn) as Hp. unfold char_in in Hp.
  assert (true = false) as [=]. rewrite <- Hp. symmetry. apply existsb_exists.
  exists c. split; [by apply list_elem_of_In|apply Ascii.eqb_refl].
Qed.

Lemma drop_spaces_none l : Forall (fun c => is_space c = false) l -> drop_spaces l = l.
Proof. intros H. destruct H as [|c l Hc _]; [done|]. simpl. by rewrite Hc. Qed.

Lemma trim_plain s :
  Forall (fun c => is_space c = false) (list_ascii_of_string s) -> trim (" " +:+ s) = s /\ trim s = s.
Proof.
  intros H. assert (E : trim s = s).
  { unfold trim. rewrite (drop_spaces_none (list_ascii_of_string s)) by done.
    rewrite drop_spaces_none by (by apply Forall_reverse).
    by rewrite reverse_involutive, string_of_list_ascii_of_string. }
  split; [|done]. change (trim (" " +:+ s)) with (trim s). done.
Qed.

Lemma digit_not_space c : char_digit c <> None -> is_space c = false.
Proof.
  unfold char_digit, is_space. intros H. apply not_true_is_false. intros Hs. apply H.
  rewrite orb_true_iff, andb_true_iff, !N.leb_le, N.eqb_eq in Hs.
  rewrite !decide_False; [done|lia|lia].
Qed.

Lemma trim_dec z : 0 <= z -> trim (" " +:+ dec z) = dec z.
Proof.
  intros Hz. apply trim_plain. pose proof (dec_digits z Hz) as Hd.
  eapply Forall_impl; [exact Hd|]. intros c. apply digit_not_space.
Qed.

Lemma list_ascii_inj s t : list_ascii_of_string s = list_ascii_of_string t -> s = t.
Proof.
  intros E. by rewrite <- (String.string_of_list_ascii_of_string s), E, String.string_of_list_ascii_of_string.
Qed.
