(* ===== verification/Sorting.v ===== *)
(** * Sorting

    Rust's [sort_by_key] is stable.  A key is a list of numbers, in the order of tuples; a
    string is compared by its bytes. *)
From Stdlib Require Import Sorted.
From S2P Require Import Prelude Text.

(** the order of tuples of numbers *)
Fixpoint lex_lt (a b : list Z) : bool :=
  match a, b with
  | x :: a, y :: b => (x <? y) || ((x =? y) && lex_lt a b)
  | [], _ :: _ => true
  | _, [] => false
  end.
(** [sort_by_key], stable *)
Fixpoint insert_by {A} (key : A -> list Z) (x : A) (l : list A) : list A :=
  match l with
  | [] => [x]
  | y :: l => if lex_lt (key y) (key x) then y :: insert_by key x l else x :: y :: l
  end.
Definition sort_by_key {A} (key : A -> list Z) (l : list A) : list A := foldr (insert_by key) [] l.

(** [a.cmp(b)] of strings *)
Definition str_key (s : string) : list Z := bytes_of_string s.

Lemma lex_lt_refl a : lex_lt a a = false.
Proof. induction a as [|x a IH]; cbn; [done|]. rewrite IH, Z.ltb_irrefl. by destruct (x =? x). Qed.

Lemma lex_lt_trans_false a b c : lex_lt b a = false -> lex_lt c b = false -> lex_lt c a = false.
Proof.
  revert b c. induction a as [|x a IH]; intros [|y b] [|z c]; cbn; try done.
  rewrite !orb_false_iff, !andb_false_iff, !Z.ltb_ge, !Z.eqb_neq. intros [H1 H2] [H3 H4]. split; [lia|].
  destruct (decide (z = x)) as [->|]; [right|by left]. assert (y = x) as -> by lia.
  eapply IH; [by destruct H2|by destruct H4].
Qed.

Lemma lex_lt_asym a b : lex_lt a b = true -> lex_lt b a = false.
Proof.
  revert b. induction a as [|x a IH]; intros [|y b]; cbn; try done.
  rewrite orb_true_iff, andb_true_iff, orb_false_iff, andb_false_iff, Z.ltb_lt, Z.ltb_ge, Z.eqb_eq, Z.eqb_neq.
  intros [H|[-> H]]; [split; [lia|left; lia]|]. split; [lia|right]. by apply IH.
Qed.

Lemma lex_not_lt x a y b : lex_lt (x :: a) (y :: b) = false -> y < x \/ y = x /\ lex_lt a b = false.
Proof.
  cbn. rewrite orb_false_iff, andb_false_iff, Z.ltb_ge, Z.eqb_neq. intros [H1 H2].
  destruct (decide (x = y)) as [->|]; [right; split; [done|by destruct H2]|left; lia].
Qed.

Section sorting.
Context {A : Type} (key : A -> list Z).

Lemma insert_by_perm x l : insert_by key x l ≡ₚ x :: l.
Proof. induction l as [|y l IH]; cbn; [done|]. destruct (lex_lt _ _); [|done]. rewrite IH. apply Permutation_swap. Qed.

Lemma sort_by_key_perm l : sort_by_key key l ≡ₚ l.
Proof. induction l as [|x l IH]; cbn; [done|]. by rewrite insert_by_perm, IH. Qed.

Lemma sort_by_key_nil l : sort_by_key key l = [] -> l = [].
Proof. intros E. pose proof (sort_by_key_perm l) as P. rewrite E in P. by apply Permutation_nil in P. Qed.

(** the head of the sorted list is a least element *)
Lemma sort_by_key_least l c rest : sort_by_key key l = c :: rest ->
  In c l /\ forall d, In d l -> lex_lt (key d) (key c) = false.
Proof.
  revert c rest. induction l as [|x l IH]; intros c rest; cbn; [done|]. unfold sort_by_key in *.
  destruct (foldr (insert_by key) [] l) as [|y ys] eqn:E; cbn.
  - intros [= <- _]. apply sort_by_key_nil in E as ->. split; [by left|]. intros d [<-|[]]. apply lex_lt_refl.
  - destruct (IH y ys eq_refl) as [Hy Hl]. destruct (lex_lt (key y) (key x)) eqn:El; intros [= <- _].
    + split; [by right|]. intros d [<-|Hd]; [by apply lex_lt_asym|by apply Hl].
    + split; [by left|]. intros d [<-|Hd]; [apply lex_lt_refl|]. eapply lex_lt_trans_false; [exact El|by apply Hl].
Qed.
End sorting.


(** ** Sorted lists *)
Section sorted.
Context {A : Type} (key : A -> list Z).
Definition key_le (a b : A) : Prop := lex_lt (key b) (key a) = false.

Lemma insert_by_sorted x l : StronglySorted key_le l -> StronglySorted key_le (insert_by key x l).
Proof.
  induction 1 as [|y l Hl IH Hy]; [by repeat constructor|]. cbn. destruct (lex_lt (key y) (key x)) eqn:E.
  - constructor; [done|]. rewrite insert_by_perm. constructor; [by apply lex_lt_asym|done].
  - constructor; [by constructor|]. constructor; [done|].
    eapply list.Forall_impl; [exact Hy|]. intros z Hz. by eapply lex_lt_trans_false.
Qed.

Lemma sort_by_key_sorted l : StronglySorted key_le (sort_by_key key l).
Proof. induction l as [|x l IH]; [constructor|]. by apply insert_by_sorted. Qed.

Lemma sorted_split l1 l2 a b : StronglySorted key_le (l1 ++ l2) -> a ∈ l1 -> b ∈ l2 -> key_le a b.
Proof.
  induction l1 as [|x l1 IH]; cbn; intros Hs Ha Hb; [by apply elem_of_nil in Ha|]. inversion Hs as [|? ? Hs' Hx]; subst.
  apply elem_of_cons in Ha as [->|Ha]; [|by apply IH]. rewrite list.Forall_forall in Hx. apply Hx, elem_of_app. by right.
Qed.
End sorted.
