(* ===== verification/Registry.v ===== *)
(** * The identifier registry (src/registry.rs)

    A name is given a numeric identifier that fixes its IP address, its TAP device and
    its MAC address.  The identifiers are unique per cell (a cell is a bridge with its
    own subnet).  The registry is a JSON file: the state here is its contents, [None]
    when the file is missing or unreadable.  Each operation runs between the acquisition
    and the release of an exclusive file lock, so it is one step. *)
From S2P Require Import Prelude Text.

Definition MIN_ID : Z := 2.
Definition MAX_ID : Z := 254.

Notation Registry := (gmap string Z).
Definition file : Type := option Registry.

Definition load (f : file) : Registry := default ∅ f.

(** names are compared trimmed and in lower case *)
Definition vm_key (name : string) : string := to_lowercase (trim name).

(** a key is in the scope of a cell, or in the legacy scope *)
Definition in_scope (scope : option string) (k : string) : bool :=
  match scope with
  | Some cell => starts_with (cell +:+ "/") k
  | None => negb (char_in "/" k)
  end.

Definition used_ids (reg : Registry) : list Z := map snd (map_to_list reg).

Definition used_ids_in_scope (scope : option string) (reg : Registry) : list Z :=
  omap (fun '(k, v) => if in_scope scope k then Some v else None) (map_to_list reg).

Definition next_free_id_in_scope (scope : option string) (reg : Registry) : option Z :=
  find (fun id => negb (bool_decide (id ∈ used_ids_in_scope scope reg)))
    (seqZ MIN_ID (MAX_ID - MIN_ID + 1)).

Definition scoped_key (cell_name : option string) (name : string) : string :=
  match cell_name with
  | Some cell => vm_key cell +:+ "/" +:+ vm_key name
  | None => vm_key name
  end.

Inductive reg_error := EmptyName | NoFreeId | IdConflict | SaveFailed.

(** [reg.save()?]: the write to a temporary file and its rename, which replaces the
    file as a whole or not at all. *)
Definition save (saves : bool) (reg : Registry) (f : file) : bool * file :=
  if saves then (true, Some reg) else (false, f).

Definition resolve_id_scoped (saves : bool) (cell_name : option string) (name : string) (f : file)
  : (reg_error + Z) * file :=
  let reg := load f in
  if decide (vm_key name = "") then (inl EmptyName, f)
  else
    let key := scoped_key cell_name name in
    match reg !! key with
    | Some id => (inr id, f)
    | None =>
        match next_free_id_in_scope (vm_key <$> cell_name) reg with
        | None => (inl NoFreeId, f)
        | Some new_id =>
            let '(ok, f') := save saves (<[key := new_id]> reg) f in
            ((if ok then inr new_id else inl SaveFailed), f')
        end
    end.

Definition register_explicit_scoped (saves : bool) (cell_name : option string) (name : string)
    (id : Z) (f : file) : (reg_error + unit) * file :=
  let reg := load f in
  let key := scoped_key cell_name name in
  if existsb (fun '(k, v) => (v =? id) && negb (bool_decide (k = key))
                              && in_scope (vm_key <$> cell_name) k) (map_to_list reg)
  then (inl IdConflict, f)
  else if decide (reg !! key = Some id) then (inr tt, f)
  else
    let '(ok, f') := save saves (<[key := id]> reg) f in
    ((if ok then inr tt else inl SaveFailed), f').

Definition register_explicit (saves : bool) := register_explicit_scoped saves None.

Definition lookup_id (name : string) (f : file) : option Z := load f !! vm_key name.

Definition remove (saves : bool) (name : string) (f : file) : (reg_error + bool) * file :=
  let reg := load f in
  let key := vm_key name in
  if decide (is_Some (reg !! key)) then
    let '(ok, f') := save saves (delete key reg) f in
    ((if ok then inr true else inl SaveFailed), f')
  else (inr false, f).

(** [vm_id + 1] is a [u8] *)
Definition id_to_ip (cell_id vm_id : Z) : string :=
  "10.0." +:+ dec cell_id +:+ "." +:+ dec (u8 (vm_id + 1)).

(** ** Scopes *)
Definition no_slash (s : string) : Prop := char_in "/" s = false.
Definition scope_of (k : string) : option string := fst <$> split_once "/" k.
Definition names_ok (cell_name : option string) (name : string) : Prop :=
  no_slash (vm_key name) /\ match cell_name with Some c => no_slash (vm_key c) | None => True end.

Lemma in_scope_cell c k : no_slash c -> in_scope (Some c) k = true <-> scope_of k = Some c.
Proof.
  intros Hc. unfold in_scope, scope_of. rewrite starts_with_spec. split.
  - intros [t ->]. rewrite string_app_assoc. change ("/" +:+ t) with (String "/" t).
    by rewrite split_once_plain.
  - destruct (split_once "/" k) as [[a b]|] eqn:E; [|done]. intros [= <-].
    apply split_once_some in E as [-> _]. exists b. by rewrite string_app_assoc.
Qed.

Lemma in_scope_legacy k : in_scope None k = true <-> scope_of k = None.
Proof.
  unfold in_scope, scope_of. rewrite negb_true_iff. split.
  - intros Hk. by rewrite split_once_none.
  - destruct (split_once "/" k) as [[a b]|] eqn:E; [done|]. intros _. by apply split_once_is_none.
Qed.

Lemma in_scope_spec cell_name name k :
  names_ok cell_name name -> in_scope (vm_key <$> cell_name) k = true <->
  scope_of k = vm_key <$> cell_name.
Proof.
  intros [_ Hc]. destruct cell_name as [c|]; simpl; [by apply in_scope_cell|apply in_scope_legacy].
Qed.

Lemma scope_of_scoped_key cell_name name :
  names_ok cell_name name -> scope_of (scoped_key cell_name name) = vm_key <$> cell_name.
Proof.
  intros [Hn Hc]. unfold scope_of, scoped_key. destruct cell_name as [c|]; simpl.
  - change ("/" +:+ vm_key name) with (String "/" (vm_key name)). by rewrite split_once_plain.
  - by rewrite split_once_none.
Qed.

(** ** The invariant: no two names of a scope share an identifier *)
Definition reg_ok (reg : Registry) : Prop :=
  forall k1 k2 id, reg !! k1 = Some id -> reg !! k2 = Some id -> scope_of k1 = scope_of k2 -> k1 = k2.

Lemma elem_used_in_scope scope reg id :
  id ∈ used_ids_in_scope scope reg <-> exists k, reg !! k = Some id /\ in_scope scope k = true.
Proof.
  unfold used_ids_in_scope. rewrite list_elem_of_omap. split.
  - intros ([k v] & Hin & H). destruct (in_scope scope k) eqn:E; [|done].
    injection H as <-. exists k. by apply elem_of_map_to_list in Hin.
  - intros (k & Hk & E). exists (k, id). rewrite E. split; [by apply elem_of_map_to_list|done].
Qed.

Lemma next_free_some scope reg id :
  next_free_id_in_scope scope reg = Some id ->
  MIN_ID <= id <= MAX_ID /\ id ∉ used_ids_in_scope scope reg
  /\ forall j, MIN_ID <= j < id -> j ∈ used_ids_in_scope scope reg.
Proof.
  unfold next_free_id_in_scope. generalize (used_ids_in_scope scope reg) as used. intros used.
  assert (G : forall n lo, find (fun id => negb (bool_decide (id ∈ used))) (seqZ lo (Z.of_nat n)) = Some id ->
    lo <= id < lo + Z.of_nat n /\ id ∉ used /\ forall j, lo <= j < id -> j ∈ used).
  { induction n as [|n IH]; intros lo; [done|].
    rewrite seqZ_cons by lia. simpl. destruct (bool_decide (lo ∈ used)) eqn:E; simpl.
    - apply bool_decide_eq_true in E. rewrite Nat2Z.inj_succ, Z.pred_succ.
      intros (H1 & H2 & H3)%IH. split_and!; [lia..|done|].
      intros j Hj. destruct (decide (j = lo)) as [->|]; [done|]. apply H3. lia.
    - apply bool_decide_eq_false in E. intros [= <-]. split_and!; [lia..|done|lia]. }
  intros (H1 & H2 & H3)%(G 253%nat). unfold MIN_ID, MAX_ID in *. split_and!; [lia..|done|done].
Qed.

Lemma next_free_none scope reg :
  next_free_id_in_scope scope reg = None ->
  forall id, MIN_ID <= id <= MAX_ID -> id ∈ used_ids_in_scope scope reg.
Proof.
  unfold next_free_id_in_scope. intros H id Hid.
  apply (find_none _ _ ) with (x := id) in H; [by apply negb_false_iff, bool_decide_eq_true in H|].
  apply list_elem_of_In, elem_of_seqZ. unfold MIN_ID, MAX_ID in *. lia.
Qed.

Lemma insert_ok reg key id :
  reg_ok reg ->
  (forall k, reg !! k = Some id -> scope_of k = scope_of key -> k = key) ->
  reg_ok (<[key := id]> reg).
Proof.
  intros Hok Hfree k1 k2 i [[<- <-]|[H1 Hk1]]%lookup_insert_Some [[<- Hi]|[H2 Hk2]]%lookup_insert_Some Hs;
    simplify_eq; [done| | |].
  - symmetry. by apply Hfree.
  - by apply Hfree.
  - by eapply Hok.
Qed.

Lemma delete_ok reg key : reg_ok reg -> reg_ok (delete key reg).
Proof.
  intros Hok k1 k2 i [_ H1]%lookup_delete_Some [_ H2]%lookup_delete_Some. by eapply Hok.
Qed.

Lemma conflict_spec reg cell_name name id :
  names_ok cell_name name ->
  existsb (fun '(k, v) => (v =? id) && negb (bool_decide (k = scoped_key cell_name name))
                          && in_scope (vm_key <$> cell_name) k) (map_to_list reg) = true
  <-> exists k, reg !! k = Some id /\ k <> scoped_key cell_name name
      /\ scope_of k = vm_key <$> cell_name.
Proof.
  intros Hn. rewrite existsb_exists. split.
  - intros ([k v] & Hin & H). rewrite !andb_true_iff, negb_true_iff, Z.eqb_eq, bool_decide_eq_false in H.
    destruct H as [[-> Hne] Hs]. exists k. split_and!; [|done|by eapply in_scope_spec].
    by apply elem_of_map_to_list, list_elem_of_In.
  - intros (k & Hk & Hne & Hs). exists (k, id). split; [by apply list_elem_of_In, elem_of_map_to_list|].
    rewrite !andb_true_iff, negb_true_iff, Z.eqb_eq, bool_decide_eq_false. split_and!; [done..|].
    by eapply in_scope_spec.
Qed.

(** ** Runs of operations *)
Inductive op :=
  | Resolve (saves : bool) (cell_name : option string) (name : string)
  | Register (saves : bool) (cell_name : option string) (name : string) (id : Z)
  | Remove (saves : bool) (name : string).

Definition step (o : op) (f : file) : file :=
  match o with
  | Resolve saves c n => snd (resolve_id_scoped saves c n f)
  | Register saves c n id => snd (register_explicit_scoped saves c n id f)
  | Remove saves n => snd (remove saves n f)
  end.
Definition run (ops : list op) (f : file) : file := fold_left (fun f o => step o f) ops f.

(** the key an operation may change *)
Definition op_key (o : op) : string :=
  match o with
  | Resolve _ c n | Register _ c n _ => scoped_key c n
  | Remove _ n => vm_key n
  end.
Definition op_names_ok (o : op) : Prop :=
  match o with
  | Resolve _ c n | Register _ c n _ => names_ok c n
  | Remove _ _ => True
  end.

(** [Register] and [Remove] may change the identifier of a name; [Resolve] never does. *)
Definition reassigns (key : string) (o : op) : Prop :=
  match o with
  | Resolve _ _ _ => False
  | Register _ c n _ => scoped_key c n = key
  | Remove _ n => vm_key n = key
  end.

(** ** Every outcome of an operation *)
Lemma resolve_cases saves c n f r f' :
  resolve_id_scoped saves c n f = (r, f') ->
  let reg := load f in let key := scoped_key c n in
  match r with
  | inl EmptyName => vm_key n = "" /\ f' = f
  | inl NoFreeId =>
      f' = f /\ reg !! key = None /\
      forall id, MIN_ID <= id <= MAX_ID -> id ∈ used_ids_in_scope (vm_key <$> c) reg
  | inl SaveFailed => saves = false /\ f' = f
  | inl IdConflict => False
  | inr id =>
      vm_key n <> "" /\
      ((reg !! key = Some id /\ f' = f) \/
       (reg !! key = None /\ next_free_id_in_scope (vm_key <$> c) reg = Some id
        /\ f' = Some (<[key := id]> reg)))
  end.
Proof.
  unfold resolve_id_scoped. cbv zeta. case_decide; [by intros [= <- <-]|].
  destruct (load f !! _) as [id|] eqn:E; [by intros [= <- <-]; eauto|].
  destruct (next_free_id_in_scope _ _) as [id|] eqn:En.
  - destruct saves; simpl; intros [= <- <-]; [by eauto 6|done].
  - intros [= <- <-]. split_and!; [done..|]. by apply next_free_none.
Qed.

Lemma step_ok o f : op_names_ok o -> reg_ok (load f) -> reg_ok (load (step o f)).
Proof.
  destruct o as [saves c n|saves c n id|saves n]; simpl; intros Hn Hok.
  - destruct (resolve_id_scoped saves c n f) as [r f'] eqn:E. apply resolve_cases in E.
    destruct r as [[]|id]; simpl in *; [by destruct E as [_ ->]|by destruct E as [-> _]|done
      |by destruct E as [_ ->]|]. destruct E as [_ [[_ ->]|(_ & Hfree & ->)]]; [done|].
    simpl. apply insert_ok; [done|]. intros k Hk Hs.
    apply next_free_some in Hfree as (_ & Hnot & _). exfalso. apply Hnot, elem_used_in_scope.
    exists k. split; [done|]. eapply in_scope_spec; [done|]. by rewrite Hs, scope_of_scoped_key.
  - unfold register_explicit_scoped. destruct (existsb _ _) eqn:E; [done|].
    case_decide; [done|]. destruct saves; [|done]. simpl. apply insert_ok; [done|].
    intros k Hk Hs. destruct (decide (k = scoped_key c n)) as [|Hne]; [done|].
    rewrite scope_of_scoped_key in Hs by done.
    assert (true = false) as [=]. rewrite <- E. symmetry. apply conflict_spec; eauto.
  - unfold remove. case_decide; [|done]. destruct saves; [|done]. by apply delete_ok.
Qed.

Lemma step_keeps o key f id :
  load f !! key = Some id -> ~ reassigns key o -> load (step o f) !! key = Some id.
Proof.
  intros Hk Ht. destruct o as [saves c n|saves c n i|saves n]; simpl in *.
  - destruct (resolve_id_scoped saves c n f) as [r f'] eqn:E. apply resolve_cases in E.
    destruct r as [[]|i]; simpl in *; [by destruct E as [_ ->]|by destruct E as [-> _]|done
      |by destruct E as [_ ->]|]. destruct E as [_ [[_ ->]|(Hnone & _ & ->)]]; [done|].
    simpl. rewrite lookup_insert_ne by congruence. done.
  - unfold register_explicit_scoped. destruct (existsb _ _); [done|].
    case_decide; [done|]. destruct saves; [|done]. simpl. by rewrite lookup_insert_ne.
  - unfold remove. case_decide; [|done]. destruct saves; [|done]. simpl. by rewrite lookup_delete_ne.
Qed.

Lemma run_ok ops f : Forall op_names_ok ops -> reg_ok (load f) -> reg_ok (load (run ops f)).
Proof.
  unfold run. revert f. induction ops as [|o ops IH]; intros f; simpl; [done|].
  intros [Ho Hops]%list.Forall_cons Hok. apply IH; [done|]. by apply step_ok.
Qed.

Lemma run_keeps ops key f id :
  load f !! key = Some id -> Forall (fun o => ~ reassigns key o) ops ->
  load (run ops f) !! key = Some id.
Proof.
  unfold run. revert f. induction ops as [|o ops IH]; intros f Hk; simpl; [done|].
  intros [Ho Hops]%list.Forall_cons. apply IH; [|done]. by apply step_keeps.
Qed.

Lemma resolved_entry saves c n f id f' :
  resolve_id_scoped saves c n f = (inr id, f') -> load f' !! scoped_key c n = Some id.
Proof.
  intros [_ [[Hk ->]|(_ & _ & ->)]]%resolve_cases; [done|]. simpl. by rewrite lookup_insert_eq.
Qed.

(** C40. Identifiers are stable and never shared.  A name is resolved, then any
    sequence of operations runs (by any process, one at a time; failing saves
    included) in which nobody registers or removes that name, then a second name of
    the same cell is resolved: the first name still resolves to its identifier, and
    the two names have the same identifier only if they are the same name. *)
Theorem ids_stable_and_distinct c n1 n2 s1 s2 s3 ops f f1 f2 i1 i2 :
  reg_ok (load f) -> names_ok c n1 -> names_ok c n2 -> Forall op_names_ok ops ->
  resolve_id_scoped s1 c n1 f = (inr i1, f1) ->
  Forall (fun o => ~ reassigns (scoped_key c n1) o) ops ->
  resolve_id_scoped s2 c n2 (run ops f1) = (inr i2, f2) ->
  resolve_id_scoped s3 c n1 f2 = (inr i1, f2)
  /\ (i1 = i2 -> scoped_key c n1 = scoped_key c n2).
Proof.
  intros Hok Hn1 Hn2 Hops E1 Hkeep E2.
  assert (Hok1 : reg_ok (load f1)) by (pose proof (step_ok (Resolve s1 c n1) f Hn1 Hok) as H;
    simpl in H; by rewrite E1 in H).
  assert (Hok2 : reg_ok (load f2)) by (pose proof (step_ok (Resolve s2 c n2) _ Hn2 (run_ok ops f1 Hops Hok1)) as H;
    simpl in H; by rewrite E2 in H).
  assert (Hk1 : load f2 !! scoped_key c n1 = Some i1).
  { pose proof (run_keeps ops _ f1 i1 (resolved_entry _ _ _ _ _ _ E1) Hkeep) as Hk.
    pose proof (step_keeps (Resolve s2 c n2) _ _ _ Hk) as H. simpl in H. rewrite E2 in H. apply H. intros []. }
  split.
  - apply resolve_cases in E1 as [Hne _]. unfold resolve_id_scoped.
    rewrite decide_False by done. by rewrite Hk1.
  - intros <-. eapply Hok2; [exact Hk1|by eapply resolved_entry|]. by rewrite !scope_of_scoped_key.
Qed.

Lemma used_filter scope reg :
  length (used_ids_in_scope scope reg)
  = length (filter (fun '(k, _) => in_scope scope k = true) (map_to_list reg)).
Proof.
  unfold used_ids_in_scope. induction (map_to_list reg) as [|[k v] l IH]; [done|]. simpl.
  destruct (in_scope scope k) eqn:E;
    [rewrite filter_cons_True by done|rewrite filter_cons_False by congruence];
    cbn [length]; by rewrite <- IH.
Qed.

(** Allocation.  Resolving a new non-empty name gives the least identifier of
    2..254 that its cell does not use, and records it; it fails for lack of identifiers
    only when the cell has at least 253 names, so that, when the file can be written, a
    cell with fewer names always gets one.  Other names keep what they had. *)
Theorem resolve_allocates saves c n f r f' :
  names_ok c n -> vm_key n <> "" -> load f !! scoped_key c n = None ->
  resolve_id_scoped saves c n f = (r, f') ->
  (forall k, k <> scoped_key c n -> load f' !! k = load f !! k)
  /\ match r with
     | inr id =>
         MIN_ID <= id <= MAX_ID /\ load f' !! scoped_key c n = Some id
         /\ (forall k, load f !! k = Some id -> scope_of k <> vm_key <$> c)
         /\ (forall j, MIN_ID <= j < id -> exists k, load f !! k = Some j /\ scope_of k = vm_key <$> c)
     | inl e =>
         f' = f /\ (saves = false \/
           (253 <= length (filter (fun '(k, _) => in_scope (vm_key <$> c) k = true)
                             (map_to_list (load f))))%nat)
     end.
Proof.
  intros Hn Hne Habs E. pose proof (resolve_cases _ _ _ _ _ _ E) as Hc. cbv zeta in Hc.
  destruct r as [[]|id].
  - by destruct Hc.
  - destruct Hc as (-> & _ & Hall). split; [done|]. split; [done|]. right.
    rewrite <- used_filter.
    assert (Hsub : seqZ MIN_ID 253 ⊆+ used_ids_in_scope (vm_key <$> c) (load f)).
    { apply NoDup_submseteq; [apply NoDup_seqZ|]. intros x Hx%elem_of_seqZ. apply Hall.
      unfold MIN_ID, MAX_ID in *. lia. }
    apply submseteq_length in Hsub. by rewrite length_seqZ in Hsub.
  - done.
  - destruct Hc as (-> & ->). auto.
  - destruct Hc as (_ & [[Hk _]|(_ & Hfree & ->)]); [congruence|].
    apply next_free_some in Hfree as (Hr & Hnot & Hleast). split; [intros k Hk; by apply lookup_insert_ne|].
    split_and!; [lia..|by apply lookup_insert_eq| |].
    + intros k Hk Hs. apply Hnot, elem_used_in_scope. exists k. split; [done|]. by eapply in_scope_spec.
    + intros j (k & Hk & Hs)%Hleast%elem_used_in_scope. exists k. split; [done|]. by eapply in_scope_spec.
Qed.

(** Explicit registration.  It fails with a conflict exactly when another name of
    the same cell holds the identifier, and then changes nothing; otherwise, when the
    file can be written, the name holds the identifier and every other name keeps
    its own. *)
Theorem register_explicit_spec saves c n id f r f' :
  names_ok c n -> register_explicit_scoped saves c n id f = (r, f') ->
  let held := exists k, load f !! k = Some id /\ k <> scoped_key c n /\ scope_of k = vm_key <$> c in
  (r = inl IdConflict <-> held)
  /\ (r = inl IdConflict -> f' = f)
  /\ (r = inr tt -> load f' !! scoped_key c n = Some id)
  /\ (r <> inl IdConflict -> saves = true -> r = inr tt)
  /\ (forall k, k <> scoped_key c n -> load f' !! k = load f !! k).
Proof.
  intros Hn. unfold register_explicit_scoped. pose proof (conflict_spec (load f) c n id Hn) as Hc.
  destruct (existsb _ _); [intros [= <- <-]; by (split_and!; try done; split; [intros _; apply Hc|])|].
  assert (Hno : ~ exists k, load f !! k = Some id /\ k <> scoped_key c n /\ scope_of k = vm_key <$> c)
    by (intros H%Hc; done).
  case_decide as Hd; [|destruct saves; simpl]; intros [= <- <-]; split_and!; try done;
    try (split; [done|by intros H%Hno]).
  - intros _. apply lookup_insert_eq.
  - intros k Hk. by apply lookup_insert_ne.
Qed.

(** Addresses.  Two guests with the same IP address have the same cell and the same
    identifier. *)
Theorem id_to_ip_injective c1 v1 c2 v2 :
  is_u8 c1 -> is_u8 v1 -> is_u8 c2 -> is_u8 v2 ->
  id_to_ip c1 v1 = id_to_ip c2 v2 -> c1 = c2 /\ v1 = v2.
Proof.
  intros Hc1 Hv1 Hc2 Hv2 E. unfold id_to_ip in E. apply append_inj in E.
  apply (f_equal (split_once ".")) in E.
  rewrite !append_cons, !append_empty in E.
  rewrite !split_once_plain in E by (apply dec_plain; [unfold is_u8 in *; lia|done]).
  injection E as Ea Eb. apply (f_equal (read_number 10)) in Ea, Eb.
  rewrite !dec_read in Ea, Eb by words. injection Ea as Ea. injection Eb as Eb. words.
Qed.

(** The last identifier.  [MAX_ID] is assigned like the others, and its guest
    address is the broadcast address of the cell's /24 network; every smaller
    identifier has a host address above the bridge's. *)
Theorem max_id_is_broadcast cell_id v :
  MIN_ID <= v <= MAX_ID ->
  exists host, id_to_ip cell_id v = "10.0." +:+ dec cell_id +:+ "." +:+ dec host
  /\ 3 <= host <= 255 /\ (host = 255 <-> v = MAX_ID).
Proof.
  intros Hv. exists (v + 1). unfold MIN_ID, MAX_ID, id_to_ip in *. split; [|lia].
  unfold u8. by rewrite (Z.mod_small (v + 1) (2 ^ 8)) by lia.
Qed.

(** ** Examples *)
Module RegistryExample.
Definition one : file := Some {["acme/web" := 2]}.
Definition two : file := Some (<["acme/db" := 3]> {["acme/web" := 2]}).
End RegistryExample.

Lemma ids_stable_and_distinct_witness :
  resolve_id_scoped true (Some "acme") "web" RegistryExample.two = (inr 2, RegistryExample.two)
  /\ (2 = 3 -> scoped_key (Some "acme") "web" = scoped_key (Some "acme") " DB").
Proof.
  apply (ids_stable_and_distinct (Some "acme") "web" " DB" true true true
    [Resolve false None "web"; Remove true "other"] None RegistryExample.one RegistryExample.two 2 3).
  - intros k1 k2 id. unfold load. simpl. by rewrite lookup_empty.
  - by vm_compute.
  - by vm_compute.
  - repeat constructor.
  - by vm_compute.
  - repeat constructor; vm_compute; [intros []|discriminate].
  - by vm_compute.
Defined.

Lemma resolve_allocates_witness :
  load RegistryExample.two !! "acme/web" = Some 2 /\ MIN_ID <= 3 <= MAX_ID.
Proof.
  destruct (resolve_allocates true (Some "acme") "db" RegistryExample.one (inr 3) RegistryExample.two)
    as (Hk & Hr & _).
  - by vm_compute.
  - by vm_compute.
  - by vm_compute.
  - by vm_compute.
  - split; [rewrite Hk by done; reflexivity|exact Hr].
Defined.

Lemma register_explicit_spec_witness :
  fst (register_explicit_scoped true (Some "acme") "db" 2 RegistryExample.one) = inl IdConflict
  /\ exists k, load RegistryExample.one !! k = Some 2 /\ k <> "acme/db"
     /\ scope_of k = Some "acme".
Proof.
  destruct (register_explicit_spec true (Some "acme") "db" 2 RegistryExample.one (inl IdConflict)
    RegistryExample.one) as (H & _).
  - by vm_compute.
  - by vm_compute.
  - split; [by vm_compute|exact (proj1 H eq_refl)].
Defined.

Lemma id_to_ip_injective_witness : id_to_ip 1 5 = "10.0.1.6" /\ (1 = 1 /\ 5 = 5).
Proof. split; [by vm_compute|apply (id_to_ip_injective 1 5 1 5); by vm_compute]. Defined.

Lemma max_id_is_broadcast_witness :
  id_to_ip 1 254 = "10.0.1.255" /\ exists host, id_to_ip 1 254 = "10.0." +:+ dec 1 +:+ "." +:+ dec host
  /\ 3 <= host <= 255 /\ (host = 255 <-> 254 = MAX_ID).
Proof. split; [by vm_compute|apply (max_id_is_broadcast 1 254); by vm_compute]. Defined.
