(* ===== verification/FileLock.v ===== *)
(** * Processes that share a file under flock (src/registry.rs, src/cell.rs)

    Several processes run read-modify-write calls on a file: open the lock file, take an
    exclusive flock on it, load the contents, write a new file and rename it over the old
    one, release.  A lock belongs to the inode that was opened, and a rename gives the path
    a new inode.  The registry of VM identifiers locks a file of its own; the registry of
    cells locks the very file that it replaces. *)
From S2P Require Import Prelude Text Registry.

Section FileLock.
Context {St R call : Type}.
(** the body of a call: its result, and the contents to save if it saves *)
Context (exec : call -> St -> R * option St).
(** [dedicated]: the lock is on a file of its own; [degrades]: a call goes on when the lock
    cannot be taken *)
Context (dedicated degrades : bool).

Inductive phase :=
  | Opened (i : nat) (c : call)
  | Locked (i : option nat) (c : call)
  | Loaded (i : option nat) (c : call) (s : St)
  | Written (i : option nat) (r : R)
  | Finished (r : R).

Record world := mkWorld {
  current : nat;                    (* the inode that the path of the data names *)
  data : gmap nat St;               (* contents by inode *)
  next_inode : nat;
  holder : gmap nat nat;            (* the process that holds the lock of an inode *)
  procs : gmap nat phase;
  history : list (nat * (call * R)); (* the processes that have acted, in order *)
}.
#[export] Instance eta_world : Eta world := fun w =>
  mkWorld (current w) (data w) (next_inode w) (holder w) (procs w) (history w).

(** inode 0 is the lock file *)
Definition lock_inode (w : world) : nat := if dedicated then 0%nat else current w.
Definition start (s : St) : world := mkWorld 1 {[1%nat := s]} 2 ∅ ∅ [].

Definition set_proc (p : nat) (ph : phase) (w : world) : world := w <| procs ::= <[p := ph]> |>.
Definition act (p : nat) (i : option nat) (c : call) (s : St) (w : world) : world :=
  let '(r, saved) := exec c s in
  let w := w <| history ::= fun h => h ++ [(p, (c, r))] |> in
  let w := match saved with
           | Some s' => w <| data ::= <[next_inode w := s']> |> <| current := next_inode w |>
                          <| next_inode ::= S |>
           | None => w end in
  set_proc p (Written i r) w.

Inductive step : world -> world -> Prop :=
  | s_open w p c : procs w !! p = None -> step w (set_proc p (Opened (lock_inode w) c) w)
  | s_lock w p i c : procs w !! p = Some (Opened i c) -> holder w !! i = None ->
      step w (set_proc p (Locked (Some i) c) (w <| holder ::= <[i := p]> |>))
  | s_unlocked w p i c : degrades = true -> procs w !! p = Some (Opened i c) ->
      step w (set_proc p (Locked None c) w)
  | s_load w p i c s : procs w !! p = Some (Locked i c) -> data w !! current w = Some s ->
      step w (set_proc p (Loaded i c s) w)
  | s_act w p i c s : procs w !! p = Some (Loaded i c s) -> step w (act p i c s w)
  | s_release w p i r : procs w !! p = Some (Written i r) ->
      step w (set_proc p (Finished r) (match i with Some i => w <| holder ::= delete i |> | None => w end)).

Inductive reachable (s0 : St) : world -> Prop :=
  | r_start : reachable s0 (start s0)
  | r_step w w' : reachable s0 w -> step w w' -> reachable s0 w'.

(** the next step of a process; a process that starts runs the call [c] *)
Definition move (m : nat * call) (w : world) : option world :=
  let '(p, c) := m in
  match procs w !! p with
  | None => Some (set_proc p (Opened (lock_inode w) c) w)
  | Some (Opened i c) =>
      match holder w !! i with
      | None => Some (set_proc p (Locked (Some i) c) (w <| holder ::= <[i := p]> |>)) | Some _ => None end
  | Some (Locked i c) => s ← data w !! current w; Some (set_proc p (Loaded i c s) w)
  | Some (Loaded i c s) => Some (act p i c s w)
  | Some (Written i r) =>
      Some (set_proc p (Finished r) (match i with Some i => w <| holder ::= delete i |> | None => w end))
  | Some (Finished _) => None
  end.
Fixpoint moves (ms : list (nat * call)) (w : world) : option world :=
  match ms with [] => Some w | m :: ms => w ← move m w; moves ms w end.

Lemma move_step m w w' : move m w = Some w' -> step w w'.
Proof.
  destruct m as [p c]. unfold move. destruct (procs w !! p) as [[i c'|i c'|i c' s|i r|r]|] eqn:E.
  - destruct (holder w !! i) eqn:Eh; [done|]. intros [= <-]. by apply s_lock.
  - destruct (data w !! current w) as [s|] eqn:Ed; [|done]. intros [= <-]. by apply s_load.
  - intros [= <-]. by apply s_act.
  - intros [= <-]. by apply s_release.
  - done.
  - intros [= <-]. by apply s_open.
Qed.

Lemma moves_reachable ms s0 w w' : reachable s0 w -> moves ms w = Some w' -> reachable s0 w'.
Proof.
  revert w. induction ms as [|m ms IH]; intros w Hr; cbn [moves]; [by intros [= <-]|].
  destruct (move m w) as [w1|] eqn:E; [|done]. cbn [mbind option_bind]. apply IH. eapply r_step; [exact Hr|]. by apply (move_step m).
Qed.

(** one call after the other *)
Fixpoint run_calls (cs : list call) (s : St) : St * list (call * R) :=
  match cs with
  | [] => (s, [])
  | c :: cs => let '(r, saved) := exec c s in
      let '(s', l) := run_calls cs (default s saved) in (s', (c, r) :: l)
  end.

(** ** A lock file of its own *)
Lemma run_calls_snoc cs c s :
  run_calls (cs ++ [c]) s
  = let '(s1, l1) := run_calls cs s in let '(r, saved) := exec c s1 in (default s1 saved, l1 ++ [(c, r)]).
Proof.
  revert s. induction cs as [|c' cs IH]; intros s; cbn [run_calls app]; [by destruct (exec c s)|].
  destruct (exec c' s) as [r saved]. rewrite IH. destruct (run_calls cs _) as [s1 l1].
  by destruct (exec c s1).
Qed.

(** the phases that a process is in once it has acted *)
Definition acted (ph : phase) : option R := match ph with Written _ r | Finished r => Some r | _ => None end.
(** the phases that hold the lock *)
Definition holds (ph : phase) : option (option nat) :=
  match ph with Locked i _ | Loaded i _ _ | Written i _ => Some i | _ => None end.

Record serial (s0 : St) (w : world) : Prop := {
  sr_data : exists s, data w !! current w = Some s
    /\ run_calls (map (fun x => fst (snd x)) (history w)) s0 = (s, map snd (history w));
  sr_opened : forall p i c, procs w !! p = Some (Opened i c) -> i = 0%nat;
  sr_holds : forall p ph i, procs w !! p = Some ph -> holds ph = Some i -> i = Some 0%nat /\ holder w !! 0%nat = Some p;
  sr_loaded : forall p i c s, procs w !! p = Some (Loaded i c s) -> data w !! current w = Some s;
  sr_acted : forall p ph r, procs w !! p = Some ph -> acted ph = Some r -> exists c, In (p, (c, r)) (history w);
  sr_once : NoDup (map fst (history w));
  sr_known : forall p x, In (p, x) (history w) -> exists ph r, procs w !! p = Some ph /\ acted ph = Some r;
}.

(** a step of one process that acts on nothing: its new phase, and the holder of the lock *)
Lemma serial_move s0 w p ph h : serial s0 w -> acted ph = (procs w !! p) ≫= acted ->
  (forall i c, ph = Opened i c -> i = 0%nat) ->
  (forall i c s, ph = Loaded i c s -> data w !! current w = Some s) ->
  (forall i, holds ph = Some i -> i = Some 0%nat /\ h !! 0%nat = Some p) ->
  (forall q ph' i, q <> p -> procs w !! q = Some ph' -> holds ph' = Some i -> h !! 0%nat = Some q) ->
  serial s0 (set_proc p ph (w <| holder := h |>)).
Proof.
  intros [Hd Ho Hh Hl Ha Hn Hk] Eact Hop Hld Hhp Hoth.
  constructor; cbn; try done.
  - intros q i c [[<- Hq]|[_ Hq]]%lookup_insert_Some; [by eapply Hop|by eapply Ho].
  - intros q ph' i [[<- <-]|[Hne Hq]]%lookup_insert_Some Hi; [by apply Hhp|].
    split; [by eapply Hh|]. by eapply Hoth.
  - intros q i c s [[<- Hq]|[_ Hq]]%lookup_insert_Some; [by eapply Hld|by eapply Hl].
  - intros q ph' r [[<- <-]|[_ Hq]]%lookup_insert_Some Hr; [|by eapply Ha].
    rewrite Eact in Hr. destruct (procs w !! p) as [ph'|] eqn:E; [|done]. by eapply Ha.
  - intros q x Hx. destruct (Hk q x Hx) as (ph' & r & Hq & Hr). destruct (decide (q = p)) as [->|Hne].
    + exists ph, r. rewrite lookup_insert_eq. split; [done|]. by rewrite Eact, Hq.
    + exists ph', r. by rewrite lookup_insert_ne.
Qed.

Lemma serial_act s0 w p i c s : serial s0 w -> procs w !! p = Some (Loaded i c s) -> serial s0 (act p i c s w).
Proof.
  intros [(s' & Hd & Hrun) Ho Hh Hl Ha Hn Hk] Hp.
  pose proof (Hl p i c s Hp) as Es. rewrite Hd in Es. injection Es as ->.
  destruct (Hh p _ i Hp eq_refl) as [Hi Hhold].
  assert (Hfresh : ~ In p (map fst (history w))).
  { intros ([q x] & E & Hin)%in_map_iff. cbn in E. subst q. destruct (Hk p x Hin) as (ph & r & Hq & Hr).
    rewrite Hp in Hq. by simplify_eq. }
  unfold act. destruct (exec c s) as [r saved] eqn:Eexec.
  assert (Hrun' : run_calls (map (fun x => fst (snd x)) (history w ++ [(p, (c, r))])) s0
    = (default s saved, map snd (history w ++ [(p, (c, r))]))).
  { rewrite !map_app. cbn [map fst snd]. rewrite run_calls_snoc, Hrun, Eexec. done. }
  assert (Hoth : forall q ph' j, q <> p -> procs w !! q = Some ph' -> holds ph' = Some j -> False).
  { intros q ph' j Hne Hq Hj. destruct (Hh q ph' j Hq Hj) as [_ Hq']. congruence. }
  constructor.
  - exists (default s saved). split; [|by destruct saved].
    destruct saved as [s2|]; cbn; [by rewrite lookup_insert_eq|done].
  - intros q j c'. destruct saved; cbn; intros [[<- Hq]|[_ Hq]]%lookup_insert_Some; first [done|by eapply Ho].
  - intros q ph' j. destruct saved; cbn; intros [[<- <-]|[Hne Hq]]%lookup_insert_Some Hj;
      try (injection Hj as <-; by split); by destruct (Hoth q ph' j).
  - intros q j c' s2. destruct saved; cbn; intros [[<- Hq]|[Hne Hq]]%lookup_insert_Some; try done; by destruct (Hoth q _ j (not_eq_sym Hne) Hq).
  - intros q ph' r'. destruct saved; cbn; intros [[<- <-]|[_ Hq]]%lookup_insert_Some Hr;
      try (injection Hr as <-; exists c; apply in_or_app; right; by left);
      destruct (Ha q ph' r' Hq Hr) as [c' Hin]; exists c'; apply in_or_app; by left.
  - destruct saved; cbn; rewrite map_app; apply list.NoDup_app; split_and!; try done;
      try (by apply NoDup_singleton); intros q Hq ->%list_elem_of_singleton; by apply Hfresh, list_elem_of_In.
  - intros q x. destruct saved; cbn; intros [Hin|[[= <- <-]|[]]]%in_app_or;
      try (exists (Written i r), r; by rewrite lookup_insert_eq);
      destruct (Hk q x Hin) as (ph' & r' & Hq & Hr); exists ph', r';
      (rewrite lookup_insert_ne; [done|]); intros <-; rewrite Hp in Hq; by simplify_eq.
Qed.

Lemma holder_same (w : world) : w <| holder := holder w |> = w.
Proof. by destruct w. Qed.

Lemma serial_start s0 : serial s0 (start s0).
Proof.
  constructor; cbn; try done.
  - exists s0. by simplify_map_eq.
  - constructor.
Qed.
End FileLock.

Arguments world : clear implicits.
Arguments phase : clear implicits.

(** ** A lock file of its own serializes the calls *)
Lemma serial_step {St R call} (exec : call -> St -> R * option St) s0 w w' :
  serial exec s0 w -> step exec true false w w' -> serial exec s0 w'.
Proof.
  intros H Hstep. pose proof H as [Hd Ho Hh Hl Ha Hn Hk].
  destruct Hstep as [w p c Hp|w p i c Hp Hfree|w p i c [=] Hp|w p i c s Hp Hs|w p i c s Hp|w p i r Hp].
  - rewrite <- (holder_same w). apply serial_move; try done; [by rewrite Hp|by intros i c' [= <-]|].
    intros q ph' i Hne Hq Hi. by eapply Hh.
  - pose proof (Ho p i c Hp) as ->. apply serial_move; try done; [by rewrite Hp|..].
    + intros i [= <-]. by rewrite lookup_insert_eq.
    + intros q ph' i Hne Hq Hi. destruct (Hh q ph' i Hq Hi) as [_ E]. congruence.
  - rewrite <- (holder_same w). apply serial_move; try done; [by rewrite Hp|by intros i' c' s' [= <- <- <-]|..].
    + intros i' Hi. by eapply Hh.
    + intros q ph' i' Hne Hq Hi. by eapply Hh.
  - by apply serial_act.
  - destruct (Hh p _ i Hp eq_refl) as [-> Hhold]. apply serial_move; try done; [by rewrite Hp|].
    intros q ph' i Hne Hq Hi. destruct (Hh q ph' i Hq Hi) as [_ E]. congruence.
Qed.

Lemma reachable_serial {St R call} (exec : call -> St -> R * option St) s0 w :
  reachable exec true false s0 w -> serial exec s0 w.
Proof. induction 1; [apply serial_start|by eapply serial_step]. Qed.

(** C6. A lock file of its own serializes the calls.  Whatever processes run, and however
    their steps interleave: the contents of the file and the results of the calls are those
    of the calls run one after the other, in the order in which they act; every process
    that has finished is one of them, with its own result, and no process is twice. *)
Theorem dedicated_lock_serializes {St R call} (exec : call -> St -> R * option St) s0 w :
  reachable exec true false s0 w ->
  (exists s, data w !! current w = Some s
     /\ run_calls exec (map (fun x => fst (snd x)) (history w)) s0 = (s, map snd (history w)))
  /\ NoDup (map fst (history w))
  /\ forall p r, procs w !! p = Some (Finished r) -> exists c, In (p, (c, r)) (history w).
Proof.
  intros [Hd _ _ _ Ha Hn _]%reachable_serial. split_and!; [done|done|]. intros p r Hp. by eapply Ha.
Qed.

(** ** VMs that start at the same time *)
(** [resolve_id_scoped] under the lock: the cell and the name *)
Definition resolve_call (c : option string * string) (f : file) : (reg_error + Z) * option file :=
  let '(r, f') := resolve_id_scoped true (fst c) (snd c) f in
  (r, if decide (f' = f) then None else Some f').
Definition call_key (c : option string * string) : string := scoped_key (fst c) (snd c).

Lemma resolve_call_saved c f : resolve_call c f = (fst (resolve_id_scoped true (fst c) (snd c) f), snd (resolve_call c f))
  /\ default f (snd (resolve_call c f)) = snd (resolve_id_scoped true (fst c) (snd c) f).
Proof.
  unfold resolve_call. destruct (resolve_id_scoped _ _ _ f) as [r f']. cbn [fst snd]. split; [done|].
  destruct (decide (f' = f)) as [->|]; done.
Qed.

Lemma run_resolves cs f f' l : run_calls resolve_call cs f = (f', l) ->
  Forall (fun c => names_ok (fst c) (snd c)) cs -> reg_ok (load f) ->
  reg_ok (load f') /\ (forall key id, load f !! key = Some id -> load f' !! key = Some id)
  /\ (forall c id, In (c, inr id) l -> load f' !! call_key c = Some id).
Proof.
  revert f l. induction cs as [|c cs IH]; intros f l; cbn [run_calls]; [intros [= <- <-]; done|].
  destruct (resolve_call_saved c f) as [E1 E2]. rewrite E1, E2. clear E1 E2.
  destruct (resolve_id_scoped true (fst c) (snd c) f) as [r f1] eqn:Er. cbn [fst snd].
  destruct (run_calls resolve_call cs f1) as [f2 l2] eqn:E. intros [= <- <-] [Hc Hcs]%list.Forall_cons Hok.
  pose proof (step_ok (Resolve true (fst c) (snd c)) f Hc Hok) as Hok1. cbn in Hok1. rewrite Er in Hok1.
  destruct (IH f1 l2 E Hcs Hok1) as (R1 & R2 & R3).
  assert (Hkeep : forall key id, load f !! key = Some id -> load f1 !! key = Some id).
  { intros key id Hk. pose proof (step_keeps (Resolve true (fst c) (snd c)) key f id Hk) as H. cbn in H. rewrite Er in H. apply H. intros []. }
  split_and!; [done|by intros; apply R2, Hkeep|]. intros c' id [[= -> ->]|Hin]; [|by apply R3].
  apply R2. by eapply resolved_entry.
Qed.

(** VMs that start at the same time never share an identifier: whatever the interleaving of
    their accesses to the registry, two of them that have got the same identifier in the
    same cell have the same name, and the file has their entries. *)
Theorem parallel_starts_distinct f0 w p1 p2 c n1 n2 i1 i2 :
  reachable resolve_call true false f0 w -> reg_ok (load f0) ->
  Forall (fun x => names_ok (fst (fst (snd x))) (snd (fst (snd x)))) (history w) ->
  In (p1, ((c, n1), inr i1)) (history w) -> In (p2, ((c, n2), inr i2)) (history w) ->
  (exists f, data w !! current w = Some f /\ load f !! scoped_key c n1 = Some i1 /\ load f !! scoped_key c n2 = Some i2)
  /\ (i1 = i2 -> scoped_key c n1 = scoped_key c n2).
Proof.
  intros Hw Hok Hnames Hin1 Hin2. destruct (reachable_serial _ _ _ Hw) as [(f & Hd & Hrun) _ _ _ _ _ _].
  assert (Hn : Forall (fun c => names_ok (fst c) (snd c)) (map (fun x => fst (snd x)) (history w))).
  { apply List.Forall_map. eapply List.Forall_impl; [|exact Hnames]. by intros [? [[] ]]. }
  destruct (run_resolves _ _ _ _ Hrun Hn Hok) as (R1 & _ & R3).
  assert (H1 : load f !! scoped_key c n1 = Some i1) by (apply (R3 (c, n1)); apply (in_map snd _ _ Hin1)).
  assert (H2 : load f !! scoped_key c n2 = Some i2) by (apply (R3 (c, n2)); apply (in_map snd _ _ Hin2)).
  split; [by exists f|]. intros <-. eapply R1; [exact H1|exact H2|].
  rewrite List.Forall_forall in Hnames. pose proof (Hnames _ Hin1) as N1. pose proof (Hnames _ Hin2) as N2.
  by rewrite (scope_of_scoped_key c n1 N1), (scope_of_scoped_key c n2 N2).
Qed.

(** ** Three processes *)
Module FileLockExample.
(** two VMs of a cell start, the second while the first holds the lock *)
Definition c : option string := Some "c18".
Definition schedule : list (nat * (option string * string)) :=
  [(1, (c, "acme")); (2, (c, "beta")); (1, (c, "")); (1, (c, "")); (1, (c, "")); (1, (c, ""));
   (2, (c, "")); (2, (c, "")); (2, (c, "")); (2, (c, ""))]%nat.
Definition final : world file (reg_error + Z) (option string * string) :=
  default (start None) (moves resolve_call true schedule (start None)).
Lemma final_reachable : reachable resolve_call true false None final.
Proof.
  apply (moves_reachable resolve_call true false schedule None (start None)); [constructor|]. vm_compute. reflexivity.
Qed.
End FileLockExample.

Theorem dedicated_lock_serializes_witness :
  (exists s, data FileLockExample.final !! current FileLockExample.final = Some s
     /\ run_calls resolve_call (map (fun x => fst (snd x)) (history FileLockExample.final)) None
        = (s, map snd (history FileLockExample.final)))
  /\ NoDup (map fst (history FileLockExample.final))
  /\ forall p r, procs FileLockExample.final !! p = Some (Finished r) -> exists c, In (p, (c, r)) (history FileLockExample.final).
Proof. apply (dedicated_lock_serializes resolve_call None). apply FileLockExample.final_reachable. Defined.

Theorem parallel_starts_distinct_witness :
  (exists f, data FileLockExample.final !! current FileLockExample.final = Some f
     /\ load f !! scoped_key FileLockExample.c "acme" = Some 2 /\ load f !! scoped_key FileLockExample.c "beta" = Some 3)
  /\ (2 = 3 -> scoped_key FileLockExample.c "acme" = scoped_key FileLockExample.c "beta").
Proof.
  apply (parallel_starts_distinct None FileLockExample.final 1 2 FileLockExample.c "acme" "beta" 2 3).
  - apply FileLockExample.final_reachable.
  - by intros k1 k2 id H.
  - vm_compute. repeat (constructor; [by repeat split|]). constructor.
  - vm_compute. by left.
  - vm_compute. right. by left.
Defined.
