(* ===== verification/Http.v ===== *)
(** * The HTTP layer of the API (src/api_http.rs)

    Requests are read from a stream, validated, and answered in the same wire format.
    A stream is the list of the results of its reads: [Some bytes], [None] for an error;
    past the end of the list, and for an empty read, the peer has closed.  [lossy] is
    [String::from_utf8_lossy] (the identity on valid UTF-8). *)
From S2P Require Import Prelude Text Registry.

(** ** Text helpers of the standard library *)
Definition CR : ascii := "013"%char.
Definition LF : ascii := "010"%char.
Definition DQ : ascii := "034"%char.

(** a line without the carriage return that ends it *)
Definition chomp_cr (s : string) : string :=
  match reverse (String.list_ascii_of_string s) with
  | c :: l => if Ascii.eqb c CR then String.string_of_list_ascii (reverse l) else s
  | [] => s
  end.
(** [s.lines()] *)
Definition lines (s : string) : list string :=
  let pieces := split_on LF s in
  map chomp_cr (match list.last pieces with Some "" => removelast pieces | _ => pieces end).

(** [a.eq_ignore_ascii_case(b)] *)
Definition eq_ignore_ascii_case (a b : string) : bool := bool_decide (to_lowercase a = to_lowercase b).

(** [s.split_whitespace()] of ASCII text *)
Fixpoint words_of (l : list ascii) (cur : list ascii) : list string :=
  let flush := match cur with [] => [] | _ => [String.string_of_list_ascii (reverse cur)] end in
  match l with
  | [] => flush
  | c :: l => if is_space c then flush ++ words_of l [] else words_of l (c :: cur)
  end.
Definition split_whitespace (s : string) : list string := words_of (String.list_ascii_of_string s) [].

Definition string_of_bytes (bs : list Z) : string :=
  String.string_of_list_ascii (map (fun b => ascii_of_N (Z.to_N b)) bs).

Lemma string_of_bytes_of_string s : string_of_bytes (bytes_of_string s) = s.
Proof.
  unfold string_of_bytes, bytes_of_string. rewrite map_map.
  rewrite <- (String.string_of_list_ascii_of_string s) at 2. f_equal.
  induction (String.list_ascii_of_string s) as [|c l IH]; [done|]. cbn [map].
  by rewrite IH, N2Z.id, ascii_N_embedding.
Qed.

(** ** Reading a request *)
Definition stream : Type := list (option (list Z)).

Definition crlf2 : list Z := [13; 10; 13; 10].

Fixpoint find_double_crlf (buf : list Z) : option nat :=
  if decide (take 4 buf = crlf2) then Some 0%nat
  else match buf with [] => None | _ :: buf => S <$> find_double_crlf buf end.

Fixpoint read_headers (s : stream) (buf : list Z) : option (nat * list Z * stream) :=
  match s with
  | [] | None :: _ | Some [] :: _ => None
  | Some bs :: s =>
      let buf := buf ++ bs in
      match find_double_crlf buf with
      | Some idx => Some (idx, buf, s)
      | None => if 64 * 1024 <? Z.of_nat (length buf) then None else read_headers s buf
      end
  end.

Definition content_length (headers : string) : Z :=
  let fields := omap (split_once ":") (lines headers) in
  match find (fun '(k, _) => eq_ignore_ascii_case (trim k) "Content-Length") fields with
  | Some (_, v) => default 0 (parse_uint (2 ^ 64 - 1) (trim v))
  | None => 0
  end.

Fixpoint read_body (s : stream) (body : list Z) (cl : Z) : option (list Z) :=
  if Z.of_nat (length body) <? cl then
    match s with
    | [] | Some [] :: _ => Some body
    | None :: _ => None
    | Some bs :: s => read_body s (body ++ bs) cl
    end
  else Some body.

Section Request.
Context (lossy : list Z -> string).

Definition read_request (s : stream) : option (string * list Z) :=
  match read_headers s [] with
  | None => None
  | Some (hidx, buf, s) =>
      let headers := lossy (take hidx buf) in
      let cl := content_length headers in
      if 1024 * 1024 <? cl then None
      else body ← read_body s (drop (hidx + 4) buf) cl; Some (headers, take (Z.to_nat cl) body)
  end.
End Request.

Definition parse_request_line (headers : string) : option (string * string * string) :=
  first ← head (lines headers);
  match split_whitespace first with
  | method :: full :: _ =>
      match split_once "?" full with
      | Some (path, query) => Some (method, path, query)
      | None => Some (method, full, "")
      end
  | _ => None
  end.

Definition parse_headers (headers : string) : list (string * string) :=
  omap (fun l => '(k, v) ← split_once ":" l; Some (trim k, trim v)) (drop 1 (lines headers)).

Definition query_get (query key : string) : option string :=
  snd <$> find (fun '(k, _) => bool_decide (k = key)) (omap (split_once "=") (split_on "&" query)).

(** ** Identifiers *)
Definition is_alnum (c : ascii) : bool :=
  let n := Z.of_N (N_of_ascii c) in
  ((48 <=? n) && (n <=? 57)) || ((65 <=? n) && (n <=? 90)) || ((97 <=? n) && (n <=? 122)).
Definition all_chars (p : ascii -> bool) (s : string) : bool :=
  forallb p (String.list_ascii_of_string s).
Definition is_one_of (set : string) (c : ascii) : bool := char_in c set.
(** [s.contains(p)] *)
Fixpoint contains (p s : string) : bool :=
  starts_with p s || match s with EmptyString => false | String _ s => contains p s end.

Definition id_char (b : ascii) : bool := is_alnum b || is_one_of "-_." b.
Definition is_safe_identifier (s : string) : bool :=
  negb ((String.length s =? 0) || (64 <? String.length s))%nat
  && negb (bool_decide (s = ".") || bool_decide (s = "..") || starts_with "." s)
  && all_chars id_char s.

Definition is_safe_dns (s : string) : bool :=
  negb ((String.length s =? 0) || (253 <? String.length s))%nat
  && negb (starts_with "-" s || starts_with "." s || contains ".." s)
  && all_chars (fun b => is_alnum b || is_one_of "-." b) s.

Definition nul : ascii := "000"%char.
Definition is_safe_addons_path (s : string) : bool :=
  negb (1024 <? String.length s)%nat
  && all_chars (fun b => negb (is_one_of (String LF (String CR (String DQ (String nul "'`$")))) b)) s.

Definition git_url_meta : string :=
  String LF (String CR (String "009" (String nul (String DQ " '`$|&;<>(){}\")))).
Definition is_safe_git_url (s : string) : bool :=
  negb ((String.length s =? 0) || (512 <? String.length s))%nat
  && all_chars (fun b => negb (is_one_of git_url_meta b)) s
  && (starts_with "git@github.com:" s || starts_with "https://github.com/" s
      || starts_with "git@gitlab.com:" s || starts_with "https://gitlab.com/" s).

Definition is_safe_git_ref (s : string) : bool :=
  negb ((String.length s =? 0) || (128 <? String.length s))%nat
  && negb (starts_with "-" s)
  && all_chars (fun b => is_alnum b || is_one_of "._-/" b) s.

(** ** Authentication *)
Definition ct_eq (a b : list Z) : bool :=
  if negb (length a =? length b)%nat then false
  else fold_left (fun diff '(x, y) => Z.lor diff (Z.lxor x y)) (zip a b) 0 =? 0.

(** [s.trim_start_matches(p)] for a non-empty [p] *)
Fixpoint trim_start_matches (fuel : nat) (p s : string) : string :=
  match fuel with
  | O => s
  | S fuel => match strip_prefix p s with Some s => trim_start_matches fuel p s | None => s end
  end.

(** [token] is the environment variable; the result is [Ok(())] *)
Definition check_auth (token : option string) (headers : list (string * string)) : bool :=
  match token with
  | None | Some "" => true
  | Some expected =>
      let got := match find (fun '(k, _) => eq_ignore_ascii_case k "Authorization") headers with
                 | Some (_, v) => trim (trim_start_matches (String.length v) "Bearer " v)
                 | None => ""
                 end in
      ct_eq (bytes_of_string got) (bytes_of_string expected)
  end.

(** ** Responses *)
Record HttpResponse := mkResponse {
  status : Z; body : string; content_type : string; extra_headers : list (string * string);
  body_file : option (string * Z * string);
}.

Definition reason (r : HttpResponse) : string :=
  let s := status r in
  if s =? 200 then "OK" else if s =? 201 then "Created" else if s =? 202 then "Accepted"
  else if s =? 204 then "No Content" else if s =? 400 then "Bad Request"
  else if s =? 401 then "Unauthorized" else if s =? 403 then "Forbidden"
  else if s =? 404 then "Not Found" else if s =? 405 then "Method Not Allowed"
  else if s =? 409 then "Conflict" else if s =? 413 then "Payload Too Large"
  else if s =? 500 then "Internal Server Error" else if s =? 502 then "Bad Gateway"
  else if s =? 503 then "Service Unavailable" else if s =? 504 then "Gateway Timeout"
  else "OK".

Definition crlf : string := String CR (String LF "").
Definition extras (r : HttpResponse) : string :=
  foldr (fun '(k, v) acc => k +:+ ": " +:+ v +:+ crlf +:+ acc) "" (extra_headers r).

Definition quote (s : string) : string := String DQ (s +:+ String DQ "").
Definition routing_bug_body : string :=
  "{" +:+ quote "error" +:+ ":" +:+ quote "internal_routing_bug" +:+ "," +:+ quote "message" +:+ ":"
  +:+ quote "body_file requires write_streamed_to" +:+ "}".
Definition routing_bug_headers : string :=
  "HTTP/1.1 500 Internal Server Error" +:+ crlf +:+ "Content-Type: application/json" +:+ crlf
  +:+ "Content-Length: 95" +:+ crlf +:+ "Connection: close" +:+ crlf +:+ crlf.

Definition to_wire (r : HttpResponse) : string :=
  match body_file r with
  | Some _ => routing_bug_headers +:+ routing_bug_body
  | None =>
      "HTTP/1.1 " +:+ dec (status r) +:+ " " +:+ reason r +:+ crlf
      +:+ "Content-Type: " +:+ content_type r +:+ crlf
      +:+ "Content-Length: " +:+ dec (Z.of_nat (String.length (body r))) +:+ crlf
      +:+ extras r +:+ "Connection: close" +:+ crlf +:+ crlf +:+ body r
  end.

(** ** Text that contains a word *)
Lemma contains_intro p a r : contains p (a +:+ p +:+ r) = true.
Proof.
  induction a as [|c a IH].
  - change ("" +:+ ?s) with s. assert (H : starts_with p (p +:+ r) = true) by (apply starts_with_spec; by exists r).
    destruct (p +:+ r); cbn; by rewrite H.
  - rewrite append_cons. cbn [contains]. by rewrite IH, orb_true_r.
Qed.

Lemma contains_spec p s : contains p s = true -> exists a r, s = a +:+ p +:+ r.
Proof.
  induction s as [|c s IH]; cbn [contains]; intros [H|H]%orb_true_iff; try done.
  - apply starts_with_spec in H as [r E]. by exists "", r.
  - apply starts_with_spec in H as [r E]. by exists "", r.
  - destruct (IH H) as (a & r & ->). by exists (String c a), r.
Qed.

Lemma contains_char p s c : char_in c p = true -> char_in c s = false -> contains p s = false.
Proof.
  intros Hp Hs. apply not_true_iff_false. intros (a & r & ->)%contains_spec. rewrite !char_in_app, Hp in Hs.
  by rewrite orb_true_r in Hs.
Qed.

(** ** The end of the headers *)
Lemma find_crlf_step b buf :
  find_double_crlf (b :: buf) =
  if decide (take 4 (b :: buf) = crlf2) then Some 0%nat else S <$> find_double_crlf buf.
Proof. done. Qed.

Lemma find_crlf_bound buf i :
  find_double_crlf buf = Some i -> (i + 4 <= length buf)%nat.
Proof.
  revert i. induction buf as [|b buf IH]; intros i; [done|]. rewrite find_crlf_step. case_decide as E.
  - intros [= <-]. apply (f_equal length) in E.
    rewrite length_take in E. change (length crlf2) with 4%nat in E. lia.
  - destruct (find_double_crlf buf) as [j|]; [|done]. intros [= <-]. specialize (IH j eq_refl). simpl. lia.
Qed.

(** whether the end is seen depends only on having read far enough *)
Lemma find_crlf_prefix buf more i :
  find_double_crlf (buf ++ more) = Some i ->
  find_double_crlf buf = if (i + 4 <=? length buf)%nat then Some i else None.
Proof.
  revert i. induction buf as [|b buf IH]; intros i.
  - intros _. by replace (i + 4 <=? length [])%nat with false by (symmetry; apply Nat.leb_gt; simpl; lia).
  - simpl app. rewrite !find_crlf_step. case_decide as E; [intros [= <-]|].
    + destruct (Nat.leb_spec (0 + 4) (length (b :: buf))) as [Hle|Hlt].
      * rewrite decide_True; [done|]. rewrite <- E. change (b :: buf ++ more) with ((b :: buf) ++ more).
        by rewrite take_app_le by lia.
      * assert (Hno : forall j, find_double_crlf (b :: buf) <> Some j)
          by (intros j Hj%find_crlf_bound; lia).
        rewrite <- find_crlf_step. destruct (find_double_crlf (b :: buf)) as [j|]; [by destruct (Hno j)|done].
    + destruct (find_double_crlf (buf ++ more)) as [j|]; [|done]. intros [= <-]. specialize (IH j eq_refl).
      rewrite decide_False.
      * rewrite IH. simpl. by destruct (j + 4 <=? length buf)%nat.
      * intros E'. apply E. change (b :: buf ++ more) with ((b :: buf) ++ more).
        rewrite take_app_le; [done|]. apply (f_equal length) in E'.
        rewrite length_take in E'. change (length crlf2) with 4%nat in E'. lia.
Qed.

(** a line without carriage return is skipped *)
Lemma find_crlf_skip (l rest : list Z) :
  ~ In 13 l -> find_double_crlf (l ++ rest) = Nat.add (length l) <$> find_double_crlf rest.
Proof.
  induction l as [|b l IH]; simpl app; intros Hb.
  - by destruct (find_double_crlf rest).
  - rewrite find_crlf_step, decide_False, IH; [by destruct (find_double_crlf rest)| |].
    + intros H. apply Hb. by right.
    + intros E. injection E as E _. apply Hb. by left.
Qed.

(** a line on the wire *)
Definition crlf_line (l : list Z) : list Z := l ++ [13; 10].
Lemma crlf_line_eq l : crlf_line l = l ++ [13; 10].
Proof. done. Qed.

(** The end of a block of non-empty lines is after the last one. *)
Lemma find_crlf_lines (ls : list (list Z)) (rest : list Z) :
  Forall (fun l : list Z => ~ In 13 l /\ l <> []) ls -> ls <> [] ->
  find_double_crlf (concat (map crlf_line ls) ++ 13 :: 10 :: rest)
  = Some (length (concat (map crlf_line ls)) - 2)%nat.
Proof.
  induction 1 as [|l ls [Hl Hne] Hls IH]; [done|]. intros _.
  cbn [map concat]. unfold crlf_line at 1. rewrite <- !app_assoc, find_crlf_skip by done. cbn [app].
  destruct ls as [|l2 ls].
  - simpl. f_equal. unfold crlf_line. rewrite !length_app. simpl. lia.
  - rewrite (find_crlf_step 13), decide_False, (find_crlf_step 10), decide_False by
      (intros E; apply list.Forall_cons in Hls as [[H2 Hne2] _]; destruct l2 as [|b l2]; [done|];
       simpl in E; injection E; intros; subst; apply H2; by left).
    rewrite IH by done. simpl. f_equal. unfold crlf_line. rewrite !length_app. simpl.
    destruct l2 as [|b l2]; [by apply list.Forall_cons in Hls as [[_ []] _]|].
    simpl. lia.
Qed.

(** ** Reading does not depend on how the bytes arrive *)
Definition chunks (s : stream) : list Z := concat (omap (fun r => r) s).
Definition good_chunk (r : option (list Z)) : Prop := exists b bs, r = Some (b :: bs).

Lemma chunks_cons bs s : chunks (Some bs :: s) = bs ++ chunks s.
Proof. done. Qed.

Lemma read_headers_ok s buf total idx :
  Forall good_chunk s -> buf ++ chunks s = total -> find_double_crlf total = Some idx ->
  (length buf < idx + 4)%nat -> Z.of_nat idx + 4 <= 65536 ->
  exists buf' s', read_headers s buf = Some (idx, buf', s')
    /\ buf' ++ chunks s' = total /\ (idx + 4 <= length buf')%nat /\ Forall good_chunk s'.
Proof.
  intros Hs. revert buf. induction Hs as [|r s (b & bs & ->) Hs IH]; intros buf E Hf Hlt Hcap.
  - unfold chunks in E. simpl in E. rewrite app_nil_r in E. subst buf. apply find_crlf_bound in Hf. lia.
  - rewrite chunks_cons, app_assoc in E. cbn [read_headers].
    pose proof Hf as Hp. rewrite <- E in Hp. apply find_crlf_prefix in Hp. rewrite Hp.
    destruct (Nat.leb_spec (idx + 4) (length (buf ++ b :: bs))) as [Hle|Hgt].
    + eexists _, s. by split_and!.
    + replace (64 * 1024 <? _) with false by (symmetry; apply Z.ltb_ge; lia). by apply IH.
Qed.

Lemma read_body_ok s body cl :
  Forall good_chunk s -> 0 <= cl ->
  exists body', read_body s body cl = Some body'
    /\ take (Z.to_nat cl) body' = take (Z.to_nat cl) (body ++ chunks s).
Proof.
  intros Hs Hcl. revert body. induction Hs as [|r s (b & bs & ->) Hs IH]; intros body.
  - exists body. unfold chunks. simpl. rewrite app_nil_r. split; [by case_match|done].
  - cbn [read_body]. destruct (Z.ltb_spec (Z.of_nat (length body)) cl) as [Hlt|Hge].
    + destruct (IH (body ++ b :: bs)) as (body' & E1 & E2). exists body'. split; [done|].
      by rewrite E2, chunks_cons, app_assoc.
    + exists body. split; [done|]. by rewrite take_app_le by lia.
Qed.

Lemma content_length_nonneg h : 0 <= content_length h.
Proof.
  unfold content_length. destruct (find _ _) as [[k v]|]; [|done].
  destruct (parse_uint _ _) as [z|] eqn:E; [|done]. simpl. by apply parse_uint_nonneg in E.
Qed.

(** Requests are read independently of how they arrive.  When the bytes of a stream
    are some headers, the first empty line and a rest, and the headers fit in 64 KiB,
    then however the bytes are cut into reads, [read_request] gives the headers and
    the first Content-Length bytes of the rest (fewer when the peer closes early), and
    refuses a Content-Length of more than 1 MiB. *)
Lemma read_request_spec lossy s hd rest :
  Forall good_chunk s -> chunks s = hd ++ crlf2 ++ rest ->
  find_double_crlf (hd ++ crlf2 ++ rest) = Some (length hd) ->
  Z.of_nat (length hd) + 4 <= 65536 ->
  read_request lossy s =
  (if 1024 * 1024 <? content_length (lossy hd) then None
   else Some (lossy hd, take (Z.to_nat (content_length (lossy hd))) rest)).
Proof.
  intros Hs E Hf Hcap.
  destruct (read_headers_ok s [] _ _ Hs E Hf) as (buf & s' & E1 & E2 & Hle & Hs'); [simpl; lia|done|].
  unfold read_request. rewrite E1.
  assert (Hbuf : take (length hd) buf = hd).
  { apply (f_equal (take (length hd))) in E2. rewrite take_app_le in E2 by lia.
    rewrite E2. by rewrite take_app_length. }
  assert (Hrest : drop (length hd + 4) buf ++ chunks s' = rest).
  { apply (f_equal (drop (length hd + 4))) in E2. rewrite drop_app_le in E2 by lia.
    rewrite E2, app_assoc. apply drop_app_length'. by rewrite length_app. }
  rewrite Hbuf. destruct (_ <? content_length _); [done|].
  destruct (read_body_ok s' (drop (length hd + 4) buf) (content_length (lossy hd)) Hs'
    (content_length_nonneg _)) as (body' & E3 & E4).
  rewrite E3. simpl. by rewrite E4, Hrest.
Qed.

(** ** Responses are read back *)
Definition field_line (kv : string * string) : string := fst kv +:+ ": " +:+ snd kv.
Definition header_lines (r : HttpResponse) : list string :=
  ["HTTP/1.1 " +:+ dec (status r) +:+ " " +:+ reason r;
   "Content-Type: " +:+ content_type r;
   "Content-Length: " +:+ dec (Z.of_nat (String.length (body r)))]
  ++ map field_line (extra_headers r).
Definition header_text (r : HttpResponse) : string :=
  join_with LF (map (fun l => l +:+ String CR "") (header_lines r) ++ ["Connection: close"]).

Definition plain_text (s : string) : Prop := char_in CR s = false /\ char_in LF s = false.

Lemma plain_app s t : plain_text (s +:+ t) <-> plain_text s /\ plain_text t.
Proof. unfold plain_text. rewrite !char_in_app, !orb_false_iff. tauto. Qed.

Lemma dec_plain_text z : 0 <= z -> plain_text (dec z).
Proof. intros Hz. split; by apply dec_plain. Qed.

Lemma reason_plain r : plain_text (reason r) /\ char_in ":" (reason r) = false.
Proof. unfold reason. repeat case_match; done. Qed.

Definition response_ok (r : HttpResponse) : Prop :=
  0 <= status r /\ plain_text (content_type r)
  /\ Forall (fun kv => plain_text (fst kv) /\ plain_text (snd kv)) (extra_headers r).

Lemma header_lines_plain r : response_ok r -> Forall plain_text (header_lines r).
Proof.
  intros (Hs & Hc & He). unfold header_lines. repeat (apply list.Forall_cons; split).
  - rewrite !plain_app. split_and!; [done|by apply dec_plain_text|done|apply reason_plain].
  - by apply plain_app.
  - apply plain_app. split; [done|]. apply dec_plain_text. lia.
  - apply List.Forall_map. eapply Forall_impl; [|exact He]. intros [k v] [Hk Hv].
    unfold field_line. rewrite !plain_app. by split_and!.
Qed.

Lemma chomp_cr_line l : chomp_cr (l +:+ String CR "") = l.
Proof.
  unfold chomp_cr. rewrite list_ascii_app. simpl. rewrite reverse_app. simpl.
  by rewrite reverse_involutive, String.string_of_list_ascii_of_string.
Qed.

Lemma chomp_cr_plain l : char_in CR l = false -> chomp_cr l = l.
Proof.
  intros H. unfold chomp_cr. destruct (reverse (String.list_ascii_of_string l)) as [|c cs] eqn:E; [done|].
  destruct (Ascii.eqb_spec c CR) as [->|]; [|done].
  assert (true = false) as [=]. rewrite <- H. symmetry. apply existsb_exists. exists CR.
  split; [|apply Ascii.eqb_refl]. apply list_elem_of_In, elem_of_reverse. rewrite E. by left.
Qed.

Lemma header_text_lines r : response_ok r -> lines (header_text r) = header_lines r ++ ["Connection: close"].
Proof.
  intros Hr. pose proof (header_lines_plain r Hr) as Hp. unfold lines, header_text. rewrite split_join.
  - rewrite last_snoc. cbv iota. rewrite map_app, map_map. f_equal.
    rewrite <- (map_id (header_lines r)) at 2. apply map_ext, chomp_cr_line.
  - by destruct (map _ _).
  - apply Forall_app. split; [|by repeat constructor]. apply List.Forall_map.
    eapply Forall_impl; [|exact Hp]. intros l [_ Hl]. by rewrite char_in_app, Hl.
Qed.

Lemma join_lines_bytes ls l :
  bytes_of_string (join_with LF (map (fun l => l +:+ String CR "") ls ++ [l]))
  = concat (map crlf_line (map bytes_of_string ls)) ++ bytes_of_string l.
Proof.
  induction ls as [|x ls IH]; [done|]. cbn [map app].
  destruct (map (fun l => l +:+ String CR "") ls ++ [l]) as [|y ys] eqn:E; [by destruct (map _ ls)|].
  change (join_with LF ((x +:+ String CR "") :: y :: ys))
    with ((x +:+ String CR "") +:+ String LF (join_with LF (y :: ys))).
  rewrite bytes_app. change (bytes_of_string (String LF ?s)) with (10 :: bytes_of_string s).
  rewrite IH, bytes_app. unfold crlf_line at 2. cbn [concat]. by rewrite <- !app_assoc.
Qed.

Lemma extras_bytes r :
  bytes_of_string (extras r) = concat (map crlf_line (map bytes_of_string (map field_line (extra_headers r)))).
Proof.
  unfold extras. induction (extra_headers r) as [|[k v] l IH]; [done|]. cbn [foldr map concat].
  rewrite !bytes_app, IH. unfold field_line, crlf_line at 2. simpl fst. simpl snd.
  rewrite !bytes_app, <- !app_assoc. done.
Qed.

(** The bytes of a response: its header lines, an empty line, its body. *)
Lemma to_wire_bytes r :
  body_file r = None ->
  bytes_of_string (to_wire r) =
  bytes_of_string (header_text r) ++ crlf2 ++ bytes_of_string (body r).
Proof.
  intros Hf. unfold to_wire, header_text. rewrite Hf, join_lines_bytes.
  unfold header_lines. rewrite !map_app, concat_app. cbn [map concat].
  rewrite !bytes_app, extras_bytes, !crlf_line_eq. rewrite <- !app_assoc. cbn [app].
  done.
Qed.

Lemma no_cr_bytes s : char_in CR s = false -> ~ In 13 (bytes_of_string s).
Proof. intros H Hin. change 13 with (Z.of_N (N_of_ascii CR)) in Hin. apply char_in_bytes in Hin. congruence. Qed.

Lemma header_lines_nonempty r : Forall (fun l => bytes_of_string l <> []) (header_lines r).
Proof.
  unfold header_lines. repeat (apply list.Forall_cons; split); [done..|].
  apply List.Forall_map, list.Forall_true. intros [k v]. unfold field_line. simpl fst. simpl snd.
  rewrite bytes_app. by destruct (bytes_of_string k).
Qed.

(** the empty line after a block of lines is found *)
Lemma text_end ls l rest :
  Forall (fun l => plain_text l /\ bytes_of_string l <> []) (ls ++ [l]) ->
  let text := bytes_of_string (join_with LF (map (fun l => l +:+ String CR "") ls ++ [l])) in
  find_double_crlf (text ++ crlf2 ++ rest) = Some (length text).
Proof.
  intros Hr text. unfold text. rewrite join_lines_bytes, <- app_assoc.
  pose proof (find_crlf_lines (map bytes_of_string (ls ++ [l])) rest) as H.
  rewrite !map_app, concat_app in H. cbn [map concat] in H.
  rewrite app_nil_r, crlf_line_eq, <- !app_assoc in H. cbn [app] in H.
  cbn [app crlf2]. etransitivity; [apply H|].
  - change [bytes_of_string l] with (map bytes_of_string [l]). rewrite <- map_app. apply List.Forall_map.
    eapply Forall_impl; [|exact Hr]. intros x [[Hcr _] Hne]. split; [by apply no_cr_bytes|done].
  - by destruct (map bytes_of_string ls).
  - f_equal. rewrite !length_app. simpl. lia.
Qed.

Lemma header_end r :
  response_ok r ->
  find_double_crlf (bytes_of_string (header_text r) ++ crlf2 ++ bytes_of_string (body r))
  = Some (length (bytes_of_string (header_text r))).
Proof.
  intros Hr. apply text_end. apply Forall_app. split; [|by repeat constructor].
  apply (Forall_and (header_lines_plain r Hr) (header_lines_nonempty r)).
Qed.

Lemma space_not_digit c : is_space c = true -> char_digit c = None.
Proof. destruct c as [[] [] [] [] [] [] [] []]; by vm_compute. Qed.

Lemma no_space_dec z : 0 <= z ->
  Forall (fun c => is_space c = false) (String.list_ascii_of_string (dec z)).
Proof.
  intros Hz. eapply Forall_impl; [|by apply dec_digits]. intros c Hc.
  destruct (is_space c) eqn:E; [|done]. by destruct Hc; apply space_not_digit.
Qed.

(** the value that a response declares is the one that is read *)
Lemma content_length_header r :
  response_ok r -> Z.of_nat (String.length (body r)) < 2 ^ 64 ->
  content_length (header_text r) = Z.of_nat (String.length (body r)).
Proof.
  intros Hr Hlen. unfold content_length. rewrite header_text_lines by done.
  unfold header_lines. cbn [app omap list_omap].
  rewrite split_once_none.
  2: { destruct Hr as (Hs & _). rewrite !char_in_app.
       rewrite dec_plain by done. rewrite (proj2 (reason_plain r)). done. }
  change ("Content-Type: " +:+ content_type r)
    with ("Content-Type" +:+ String ":" (" " +:+ content_type r)).
  rewrite split_once_plain by done.
  set (n := Z.of_nat (String.length (body r))) in *.
  change ("Content-Length: " +:+ dec n) with ("Content-Length" +:+ String ":" (" " +:+ dec n)).
  rewrite split_once_plain by done. cbn [find].
  change (eq_ignore_ascii_case (trim "Content-Type") "Content-Length") with false.
  change (eq_ignore_ascii_case (trim "Content-Length") "Content-Length") with true. cbv iota.
  rewrite (proj1 (trim_plain _ (no_space_dec n ltac:(lia)))).
  rewrite parse_uint_dec; [done| |lia]. unfold is_u64. lia.
Qed.

(** Responses are read back.  A response that is not streamed from a file, whose
    type and extra headers hold no line break, is sent as its headers, an empty line and
    its body, with the Content-Length of that body: however the bytes are cut into reads,
    a peer that reads them with [read_request] gets exactly the headers and the body. *)
Lemma response_roundtrip lossy r s :
  body_file r = None -> response_ok r ->
  lossy (bytes_of_string (header_text r)) = header_text r ->
  Z.of_nat (String.length (body r)) <= 1024 * 1024 ->
  Z.of_nat (String.length (header_text r)) + 4 <= 65536 ->
  Forall good_chunk s -> chunks s = bytes_of_string (to_wire r) ->
  read_request lossy s = Some (header_text r, bytes_of_string (body r)).
Proof.
  intros Hb Hr Hl Hbody Hhead Hs Hc. rewrite to_wire_bytes in Hc by done.
  rewrite (read_request_spec lossy s _ _ Hs Hc (header_end r Hr))
    by (rewrite length_bytes; done).
  rewrite Hl, content_length_header by (done || lia).
  replace (_ <? _) with false by (symmetry; apply Z.ltb_ge; lia).
  by rewrite Nat2Z.id, take_ge by (rewrite length_bytes; done).
Qed.

(** ** Identifiers are safe as names of files and registry entries *)
Lemma all_chars_spec p s : all_chars p s = true <-> forall c, char_in c s = true -> p c = true.
Proof.
  unfold all_chars, char_in. rewrite forallb_forall. split.
  - intros H c (x & Hx & ->%Ascii.eqb_eq)%existsb_exists. auto.
  - intros H c Hc. apply H, existsb_exists. exists c. split; [done|apply Ascii.eqb_refl].
Qed.

Lemma drop_spaces_incl l c : In c (drop_spaces l) -> In c l.
Proof. induction l as [|x l IH]; simpl; [done|]. case_match; [right; auto|done]. Qed.

Lemma trim_incl c s : char_in c (trim s) = true -> char_in c s = true.
Proof.
  unfold char_in, trim. rewrite String.list_ascii_of_string_of_list_ascii, !existsb_exists.
  intros (x & Hx & E). exists x. split; [|done].
  apply list_elem_of_In, elem_of_reverse, list_elem_of_In, drop_spaces_incl in Hx.
  by apply list_elem_of_In, elem_of_reverse, list_elem_of_In, drop_spaces_incl in Hx.
Qed.

Lemma lower_slash c : lower_ascii c = "/"%char -> c = "/"%char.
Proof. destruct c as [[] [] [] [] [] [] [] []]; by vm_compute. Qed.

Lemma vm_key_no_slash s : no_slash s -> no_slash (vm_key s).
Proof.
  unfold no_slash, vm_key. intros H. apply not_true_iff_false. intros Hin.
  apply not_true_iff_false in H. apply H, trim_incl. revert Hin.
  unfold char_in, to_lowercase. rewrite String.list_ascii_of_string_of_list_ascii, !existsb_exists.
  intros (x & (y & <- & Hy)%in_map_iff & E%Ascii.eqb_eq). exists y. split; [done|].
  symmetry in E. apply lower_slash in E as ->. done.
Qed.

(** a character of [set] is one that [p] refuses *)
Definition refuses (p : ascii -> bool) (set : string) : bool :=
  forallb (fun c => negb (p c)) (String.list_ascii_of_string set).

Lemma refuses_spec p set s c :
  refuses p set = true -> all_chars p s = true -> char_in c set = true -> char_in c s = false.
Proof.
  intros Hr Hs Hc. apply not_true_iff_false. intros Hin.
  apply (proj1 (all_chars_spec _ _) Hs) in Hin.
  unfold refuses in Hr. rewrite forallb_forall in Hr.
  apply existsb_exists in Hc as (x & Hx & ->%Ascii.eqb_eq). apply Hr in Hx. by rewrite Hin in Hx.
Qed.

Lemma trim_no_space s :
  Forall (fun c => is_space c = false) (String.list_ascii_of_string s) -> trim s = s.
Proof. intros H. by apply trim_plain. Qed.

Lemma all_chars_Forall p q s :
  (forall c, p c = true -> q c = true) -> all_chars p s = true ->
  Forall (fun c => q c = true) (String.list_ascii_of_string s).
Proof.
  unfold all_chars. rewrite forallb_forall. intros Hpq H. apply List.Forall_forall. auto.
Qed.

Lemma alnum_no_space c : id_char c = true -> negb (is_space c) = true.
Proof. destruct c as [[] [] [] [] [] [] [] []]; by vm_compute. Qed.

Definition shell_meta : string :=
  String LF (String CR (String "009" (String nul (String DQ " /'`$|&;<>(){}[]*?!#~:=,@%^+\")))).

(** Identifiers accepted by the API are safe.  A string that [is_safe_identifier]
    accepts has 1 to 64 characters, none of them a path separator, a space, a line break,
    a quote or a shell metacharacter, and does not start with a dot, so it names an entry
    of one directory; the registry keeps it as it is up to case, in the scope of the
    cell it names, so the uniqueness of identifiers holds for all such names. *)
Theorem safe_identifier_names_one_entry s :
  is_safe_identifier s = true ->
  (1 <= String.length s <= 64)%nat
  /\ (forall c, char_in c shell_meta = true -> char_in c s = false)
  /\ starts_with "." s = false
  /\ vm_key s = to_lowercase s
  /\ forall name, is_safe_identifier name = true ->
     names_ok (Some s) name /\ scope_of (scoped_key (Some s) name) = Some (to_lowercase s).
Proof.
  assert (Hone : forall t, is_safe_identifier t = true -> no_slash (vm_key t)).
  { intros t [_ Ht]%andb_true_iff. apply vm_key_no_slash. by apply (refuses_spec id_char shell_meta t "/"%char eq_refl Ht). }
  intros Hs. pose proof (Hone s Hs) as Hks. unfold is_safe_identifier in Hs.
  apply andb_true_iff in Hs as [[Hlen Hdot]%andb_true_iff Hall].
  apply negb_true_iff in Hlen, Hdot. apply orb_false_iff in Hlen as [H0%Nat.eqb_neq H64%Nat.ltb_ge].
  apply orb_false_iff in Hdot as [_ Hdot].
  assert (Htrim : vm_key s = to_lowercase s).
  { unfold vm_key. rewrite trim_no_space; [done|]. eapply Forall_impl;
      [|apply (all_chars_Forall _ _ _ alnum_no_space Hall)]. intros c. apply negb_true_iff. }
  split_and!; [lia|lia| |done|done|].
  - intros c. by apply (refuses_spec id_char).
  - intros name Hn. assert (Hok : names_ok (Some s) name) by (split; [by apply Hone|done]).
    split; [done|]. rewrite (scope_of_scoped_key (Some s) name Hok). simpl. by rewrite Htrim.
Qed.

(** ** Authentication *)
Lemma lor_zero a b : Z.lor a b = 0 <-> a = 0 /\ b = 0.
Proof. apply Z.lor_eq_0_iff. Qed.

Lemma ct_fold l diff :
  fold_left (fun diff '(x, y) => Z.lor diff (Z.lxor x y)) l diff = 0
  <-> diff = 0 /\ Forall (fun '(x, y) => x = y) l.
Proof.
  revert diff. induction l as [|[x y] l IH]; intros diff; cbn [fold_left].
  - split; [by intros ->|by intros [-> _]].
  - rewrite IH, lor_zero, Z.lxor_eq_0_iff, list.Forall_cons. tauto.
Qed.

Lemma zip_diag (a b : list Z) :
  length a = length b -> Forall (fun '(x, y) => x = y) (zip a b) -> a = b.
Proof.
  revert b. induction a as [|x a IH]; intros [|y b]; try done. cbn [length zip zip_with].
  intros [= Hl] [-> Hf]%list.Forall_cons. f_equal. by apply IH.
Qed.

Lemma zip_same (a : list Z) : Forall (fun '(x, y) => x = y) (zip a a).
Proof. induction a as [|x a IH]; [constructor|]. by constructor. Qed.

(** the comparison without short cut is equality *)
Lemma ct_eq_spec a b : ct_eq a b = true <-> a = b.
Proof.
  unfold ct_eq. destruct (Nat.eqb_spec (length a) (length b)) as [Hl|Hl]; cbn [negb].
  - rewrite Z.eqb_eq, ct_fold. split; [intros [_ Hf]; by apply zip_diag|].
    intros ->. split; [done|apply zip_same].
  - split; [done|by intros ->].
Qed.

Lemma bytes_inj s t : bytes_of_string s = bytes_of_string t -> s = t.
Proof.
  revert t. induction s as [|c s IH]; intros [|d t]; try done. cbn.
  intros [= E H%IH]. subst. f_equal. apply N2Z.inj in E. by rewrite <- (ascii_N_embedding c), E, ascii_N_embedding.
Qed.

(** the token that the first Authorization header carries *)
Definition bearer (headers : list (string * string)) : string :=
  match find (fun '(k, _) => eq_ignore_ascii_case k "Authorization") headers with
  | Some (_, v) => trim (trim_start_matches (String.length v) "Bearer " v)
  | None => ""
  end.

Lemma trim_start_not p fuel s : starts_with p s = false -> trim_start_matches fuel p s = s.
Proof. unfold starts_with. destruct fuel as [|fuel]; [done|]. simpl. by destruct (strip_prefix p s). Qed.

Lemma trim_bearer t : starts_with "Bearer " t = false ->
  trim_start_matches (String.length ("Bearer " +:+ t)) "Bearer " ("Bearer " +:+ t) = t.
Proof.
  intros H. change (String.length ("Bearer " +:+ t)) with (S (6 + String.length t)).
  cbn [trim_start_matches]. rewrite strip_prefix_app. by apply trim_start_not.
Qed.

(** Only the token passes.  With a token set, a request is let through exactly when
    the first Authorization header, its Bearer prefixes and outer spaces removed, is the
    token: a request without the header is refused, and a token without outer spaces
    passes when it is sent in a Bearer header, whatever the case of the header's name
    and the headers after it. *)
Theorem check_auth_spec token headers :
  token <> "" ->
  check_auth (Some token) headers = bool_decide (bearer headers = token)
  /\ (Forall (fun '(k, _) => to_lowercase k <> "authorization") headers ->
      check_auth (Some token) headers = false)
  /\ (forall k rest, trim token = token -> starts_with "Bearer " token = false ->
      to_lowercase k = "authorization" ->
      check_auth (Some token) ((k, "Bearer " +:+ token) :: rest) = true).
Proof.
  intros Ht.
  assert (E : forall hs, check_auth (Some token) hs = bool_decide (bearer hs = token)).
  { intros hs. unfold check_auth, bearer. destruct token as [|c token]; [done|].
    case_bool_decide as Eq; [by apply ct_eq_spec; rewrite Eq|].
    apply not_true_iff_false. by intros H%ct_eq_spec%bytes_inj. }
  split_and!; [done| |].
  - intros Hno. rewrite E. apply bool_decide_eq_false. unfold bearer.
    destruct (find _ headers) as [[k v]|] eqn:Ef; [|done]. apply find_some in Ef as [Hin Hk].
    rewrite List.Forall_forall in Hno. apply Hno in Hin. by apply bool_decide_eq_true in Hk.
  - intros k rest Htrim Hb Hk. rewrite E. apply bool_decide_eq_true. unfold bearer. cbn [find].
    unfold eq_ignore_ascii_case. rewrite bool_decide_eq_true_2 by done.
    by rewrite trim_bearer.
Qed.

(** ** Examples *)
Module HttpExample.
Definition resp : HttpResponse :=
  mkResponse 202 "{}" "application/json" [("X-Job", "7")] None.
Definition wire : list Z := bytes_of_string (to_wire resp).
(** two reads, the first of which ends within the empty line *)
Definition cut : stream := [Some (take 103 wire); Some (drop 103 wire)].
End HttpExample.
Import HttpExample.

Lemma response_roundtrip_witness :
  chunks cut = wire /\ length wire = 107%nat
  /\ read_request string_of_bytes cut = Some (header_text resp, bytes_of_string "{}").
Proof.
  split; [by vm_compute|]. split; [by vm_compute|].
  apply (response_roundtrip string_of_bytes resp cut); try by vm_compute.
  - split; [done|]. split; [by vm_compute|]. constructor; [by vm_compute|constructor].
  - repeat constructor; eexists _, _; by vm_compute.
Defined.

Lemma safe_identifier_names_one_entry_witness :
  is_safe_identifier "Company_client-17.0" = true
  /\ vm_key "Company_client-17.0" = "company_client-17.0".
Proof.
  split; [by vm_compute|].
  destruct (safe_identifier_names_one_entry "Company_client-17.0" eq_refl) as (_ & _ & _ & H & _).
  rewrite H. by vm_compute.
Defined.

Lemma check_auth_spec_witness :
  check_auth (Some "s3cret") [("Host", "x"); ("AUTHORIZATION", "Bearer s3cret")] = true
  /\ check_auth (Some "s3cret") [("Host", "x")] = false.
Proof.
  split.
  - rewrite (proj1 (check_auth_spec "s3cret" _ ltac:(done))). by vm_compute.
  - apply (proj1 (proj2 (check_auth_spec "s3cret" [("Host", "x")] ltac:(done)))).
    constructor; [by vm_compute|constructor].
Defined.
