(* ===== verification/Ipc.v ===== *)
(** * The protocol between the API server and the daemon (src/ipc.rs, src/ipc_server.rs)

    One request and one response per connection, each a frame: its length as four bytes,
    little endian, then the encoded value.  The encoding is serde's, a class here: what
    the protocol relies on is that decoding inverts encoding.  A connection is, in each
    direction, the list of what the reads return ([Http.stream]); a read that returns
    more than was asked for leaves the rest for the next.  The daemon answers each
    accepted connection in a thread, at most [MAX_INFLIGHT] at a time. *)
From S2P Require Import Prelude Text Http.

Definition MAX_FRAME_BYTES : Z := 8 * 1024 * 1024.

(** ** Requests and responses *)
Inductive IpcRequest :=
  | Health
  | ListCells
  | CellCapacity (cell : string)
  | ProjectLookup (project_id : string)
  | AdoptInstance (nkr_name project_id : string) (env : option string)
  | RenderMetrics
  | MetricsForVm (nkr_name : string)
  | CreateInstance (cell_hint : option string) (body_json : string)
  | GetInfo (nkr_name : string)
  | DeleteInstance (nkr_name : string) (drop_db : bool)
  | Action (nkr_name action : string)
  | GetLogs (nkr_name : string) (tail : option Z) (from_offset max_lines wait_ms : option Z)
  | ModulesAction (nkr_name op : string) (modules : list string) (admin_login admin_password : string)
  | CreateDns (nkr_name dns : string) (enable_websocket : bool)
  | DeleteDns (nkr_name : string) (delete_cert : bool)
  | InitDb (nkr_name : string) (db_name : option string) (admin_login admin_password : string)
      (demo : bool) (lang country_code phone : option string)
  | PatchConfig (nkr_name body_json : string)
  | Psql (nkr_name query : string) (max_rows : Z)
  | PurgeCache
  | ReloadWorkers (nkr_name : string)
  | BalloonActive (nkr_name : string)
  | Diag (nkr_name : string)
  | Sso (nkr_name user : string)
  | GetEnterpriseStatus (cell : string)
  | GetCreateStatus (cell nkr_name : string)
  | CreateBackup (cell nkr_name format : string)
  | GetBackupStatus (job_id : string)
  | GetBackupFile (job_id format : string).

Record IpcResponse := mkIpcResponse {
  ipc_status : Z; ipc_content_type : string; ipc_body : string;
}.

#[export] Instance ipc_response_eq_dec : EqDecision IpcResponse.
Proof. solve_decision. Defined.

(** ** Encoding *)
Class Codec (T : Type) := { to_vec : T -> option (list Z); from_slice : list Z -> option T }.
Class CodecOk (T : Type) `{Codec T} := {
  from_to v b : to_vec v = Some b -> from_slice b = Some v;
}.

(** ** Writing a frame

    [Some n]: the write fails after [n] bytes; past the end of the list writes succeed. *)
Record sink := mkSink { faults : list (option nat); sent : list Z }.
#[export] Instance eta_sink : Eta sink := fun w => mkSink (faults w) (sent w).

Definition write_all (bs : list Z) (w : sink) : bool * sink :=
  match faults w with
  | Some n :: f => (false, mkSink f (sent w ++ take n bs))
  | None :: f => (true, mkSink f (sent w ++ bs))
  | [] => (true, w <| sent := sent w ++ bs |>)
  end.

Inductive io_error := InvalidData | Io.

Definition write_frame {T} `{Codec T} (value : T) (w : sink) : (io_error + unit) * sink :=
  match to_vec value with
  | None => (inl InvalidData, w)
  | Some body =>
      if MAX_FRAME_BYTES <? Z.of_nat (length body) then (inl InvalidData, w)
      else
        let '(ok, w) := write_all (le_bytes 4 (u32 (Z.of_nat (length body)))) w in
        if negb ok then (inl Io, w) else
        let '(ok, w) := write_all body w in
        if negb ok then (inl Io, w) else (inr tt, w)
  end.

(** ** Reading a frame *)
Fixpoint read_exact (n : nat) (s : stream) : option (list Z * stream) :=
  match n, s with
  | O, _ => Some ([], s)
  | _, [] | _, None :: _ | _, Some [] :: _ => None
  | _, Some bs :: s =>
      if (n <? length bs)%nat then Some (take n bs, Some (drop n bs) :: s)
      else '(r, s) ← read_exact (n - length bs) s; Some (bs ++ r, s)
  end.

Definition read_frame {T} `{Codec T} (s : stream) : (io_error + T) * stream :=
  match read_exact 4 s with
  | None => (inl Io, s)
  | Some (lenbuf, s) =>
      let len := le_val lenbuf in
      if MAX_FRAME_BYTES <? len then (inl InvalidData, s)
      else match read_exact (Z.to_nat len) s with
           | None => (inl Io, s)
           | Some (buf, s) =>
               match from_slice buf with
               | Some v => (inr v, s)
               | None => (inl InvalidData, s)
               end
           end
  end.

(** ** A connection *)
Section Server.
Context {World : Type} (dispatch : IpcRequest -> World -> IpcResponse * World).
Context `{Codec IpcRequest, Codec IpcResponse}.

Definition handle_connection (s : stream) (w : World) (out : sink) : World * sink :=
  match read_frame (T := IpcRequest) s with
  | (inl _, _) => (w, out)
  | (inr req, _) => let '(resp, w) := dispatch req w in (w, snd (write_frame resp out))
  end.

(** the client: [reply] is what it reads once its request is written *)
Definition call_with_timeout (connected : bool) (req : IpcRequest) (out : sink) (reply : sink -> stream)
  : io_error + IpcResponse :=
  if negb connected then inl Io
  else match write_frame req out with
       | (inl e, _) => inl e
       | (inr _, out) => fst (read_frame (T := IpcResponse) (reply out))
       end.
End Server.

(** ** Bounded concurrency (ipc_server.rs [run], nkr_api_server.rs [main])

    The acceptor loads the counter, then either refuses the connection or increments the
    counter and spawns a thread, whose guard decrements it whenever the thread ends. *)
Definition MAX_INFLIGHT : Z := 64.

Inductive acceptor := Idle | Loaded (current : Z).
Record server := mkServer { inflight : Z; live : nat; accepting : acceptor; refused : nat }.
#[export] Instance eta_server : Eta server :=
  fun s => mkServer (inflight s) (live s) (accepting s) (refused s).

Inductive server_step : server -> server -> Prop :=
  | accept_load s :
      accepting s = Idle -> server_step s (s <| accepting := Loaded (inflight s) |>)
  | accept_refuse s current :
      accepting s = Loaded current -> MAX_INFLIGHT <= current ->
      server_step s (s <| accepting := Idle |> <| refused ::= S |>)
  | accept_spawn s current :
      accepting s = Loaded current -> current < MAX_INFLIGHT ->
      server_step s (s <| accepting := Idle |> <| inflight ::= fun n => u32 (n + 1) |> <| live ::= S |>)
  | thread_end s n :
      live s = S n -> server_step s (s <| live := n |> <| inflight ::= fun n => u32 (n - 1) |>).

Definition server_start : server := mkServer 0 0 Idle 0.

(** ** Reads, however they are cut *)
Lemma read_exact_cut n s bs rest :
  Forall good_chunk s -> chunks s = bs ++ rest -> length bs = n ->
  exists s', read_exact n s = Some (bs, s') /\ chunks s' = rest /\ Forall good_chunk s'.
Proof.
  intros Hs. revert n bs. induction Hs as [|r s (b & c & ->) Hs IH]; intros n bs E <-.
  - unfold chunks in E. simpl in E. symmetry in E. apply app_eq_nil in E as [-> ->].
    exists []. by split_and!.
  - rewrite chunks_cons in E. destruct bs as [|x bs].
    + exists (Some (b :: c) :: s). split_and!; [simpl; done|by rewrite chunks_cons|].
      constructor; [by eexists _, _|done].
    + cbn [read_exact]. destruct (Nat.ltb_spec (length (x :: bs)) (length (b :: c))) as [Hlt|Hge].
      * exists (Some (drop (length (x :: bs)) (b :: c)) :: s). split_and!.
        -- f_equal. f_equal. apply (f_equal (take (length (x :: bs)))) in E.
           rewrite take_app_le, take_app_length in E by lia. done.
        -- rewrite chunks_cons. apply (f_equal (drop (length (x :: bs)))) in E.
           rewrite drop_app_le, drop_app_length in E by lia. done.
        -- constructor; [|done]. pose proof (length_drop (b :: c) (length (x :: bs))) as Hl.
           destruct (drop _ _) as [|y l]; [simpl in *; lia|]. by eexists _, _.
      * assert (E' : chunks s = drop (length (b :: c)) (x :: bs) ++ rest).
        { apply (f_equal (drop (length (b :: c)))) in E.
          by rewrite drop_app_length, drop_app_le in E by lia. }
        destruct (IH _ _ E' eq_refl) as (s' & E1 & E2 & E3). rewrite length_drop in E1.
        assert (Eb : (b :: c) ++ drop (length (b :: c)) (x :: bs) = x :: bs).
        { apply (f_equal (take (length (b :: c)))) in E.
          rewrite take_app_length, take_app_le in E by lia. rewrite E at 1. apply take_drop. }
        exists s'. rewrite E1. split_and!; [|done..]. by change (Some ((b :: c) ++ drop (length (b :: c)) (x :: bs), s') = Some (x :: bs, s')); rewrite Eb.
Qed.

Lemma read_exact_none n s : chunks s = [] -> Forall good_chunk s -> read_exact (S n) s = None.
Proof. intros E H. destruct H as [|r s (b & c & ->)]; done. Qed.

(** the bytes of a frame *)
Definition frame_of (body : list Z) : list Z := le_bytes 4 (u32 (Z.of_nat (length body))) ++ body.

Lemma read_frame_cut {T} `{CodecOk T} (v : T) body s rest :
  to_vec v = Some body -> Z.of_nat (length body) <= MAX_FRAME_BYTES ->
  Forall good_chunk s -> chunks s = frame_of body ++ rest ->
  exists s', read_frame s = (inr v, s') /\ chunks s' = rest /\ Forall good_chunk s'.
Proof.
  intros Hv Hmax Hs E. unfold MAX_FRAME_BYTES in Hmax. unfold frame_of in E. rewrite <- app_assoc in E.
  destruct (read_exact_cut 4 s _ _ Hs E (length_le_bytes _ _)) as (s1 & E1 & E2 & Hs1).
  destruct (read_exact_cut _ s1 _ _ Hs1 E2 eq_refl) as (s2 & E3 & E4 & Hs2).
  exists s2. unfold read_frame, MAX_FRAME_BYTES. rewrite E1, u32_small, le_val_4 by words.
  replace (_ <? _) with false by (symmetry; apply Z.ltb_ge; lia).
  rewrite Nat2Z.id, E3, (from_to v body Hv). done.
Qed.

Lemma write_frame_ok {T} `{Codec T} (v : T) body w :
  to_vec v = Some body -> Z.of_nat (length body) <= MAX_FRAME_BYTES -> faults w = [] ->
  write_frame v w = (inr tt, w <| sent := sent w ++ frame_of body |>).
Proof.
  intros Hv Hmax Hf. unfold write_frame. rewrite Hv.
  replace (_ <? _) with false by (symmetry; apply Z.ltb_ge; lia).
  unfold write_all. rewrite Hf. simpl. rewrite Hf. unfold frame_of. by rewrite app_assoc.
Qed.

(** ** The exchange *)
Section Exchange.
Context {World : Type} (dispatch : IpcRequest -> World -> IpcResponse * World).
Context `{CodecOk IpcRequest, CodecOk IpcResponse}.
(** how the bytes written on one side arrive on the other *)
Context (cut : list Z -> stream) (Hcut : forall bs, chunks (cut bs) = bs /\ Forall good_chunk (cut bs)).

Definition fresh : sink := mkSink [] [].

(** the daemon's side of a call, and the client's *)
Definition served (req : IpcRequest) (w : World) : World * sink :=
  handle_connection dispatch (cut (sent (snd (write_frame req fresh)))) w fresh.
Definition call (req : IpcRequest) (w : World) : io_error + IpcResponse :=
  call_with_timeout true req fresh (fun out => cut (sent (snd (handle_connection dispatch (cut (sent out)) w fresh)))).

(** a value that has a frame *)
Definition fits {T} `{Codec T} (v : T) : bool :=
  match to_vec v with Some b => Z.of_nat (length b) <=? MAX_FRAME_BYTES | None => false end.

Lemma fits_some {T} `{Codec T} (v : T) :
  fits v = true -> exists b, to_vec v = Some b /\ Z.of_nat (length b) <= MAX_FRAME_BYTES.
Proof. unfold fits. destruct (to_vec v) as [b|]; [|done]. intros Hb%Z.leb_le. eauto. Qed.

Lemma write_unfit {T} `{Codec T} (v : T) w :
  fits v = false -> write_frame v w = (inl InvalidData, w).
Proof.
  unfold fits, write_frame. destruct (to_vec v) as [b|]; [|done]. intros Hb%Z.leb_gt.
  by replace (_ <? _) with true by (symmetry; apply Z.ltb_lt; lia).
Qed.

Lemma write_fits {T} `{Codec T} (v : T) b :
  to_vec v = Some b -> Z.of_nat (length b) <= MAX_FRAME_BYTES ->
  write_frame v fresh = (inr tt, mkSink [] (frame_of b)).
Proof. intros Hv Hb. by apply (write_frame_ok v b fresh). Qed.

Lemma read_empty {T} `{Codec T} : fst (read_frame (T := T) (cut [])) = inl Io.
Proof.
  destruct (Hcut []) as [E Hg]. unfold read_frame.
  by rewrite (read_exact_none 3 _ E Hg).
Qed.

Lemma read_written {T} `{CodecOk T} (v : T) b :
  to_vec v = Some b -> Z.of_nat (length b) <= MAX_FRAME_BYTES ->
  fst (read_frame (cut (frame_of b))) = inr v.
Proof.
  intros Hv Hb. destruct (Hcut (frame_of b)) as [E Hg]. rewrite <- (app_nil_r (frame_of b)) in E at 2.
  destruct (read_frame_cut v b _ [] Hv Hb Hg E) as (s' & -> & _). done.
Qed.

Lemma served_fits req w :
  fits req = true ->
  served req w = let '(resp, w') := dispatch req w in (w', snd (write_frame resp fresh)).
Proof.
  intros (b & Hb & Hmax)%fits_some. unfold served, handle_connection.
  rewrite (write_fits req b Hb Hmax). pose proof (read_written req b Hb Hmax) as Hr. cbn [snd sent].
  destruct (read_frame (cut (frame_of b))) as [[e|r] s1]; simpl in Hr; [done|]. by injection Hr as ->.
Qed.

Lemma call_fits req w :
  fits req = true ->
  call req w = let '(resp, _) := dispatch req w in if fits resp then inr resp else inl Io.
Proof.
  intros Hf. pose proof (served_fits req w Hf) as Hs. unfold call, call_with_timeout. cbn [negb].
  unfold served in Hs. pose proof (fits_some req Hf) as (b & Hb & Hmax).
  rewrite (write_fits req b Hb Hmax) in Hs |- *. cbn [snd] in Hs. rewrite Hs.
  destruct (dispatch req w) as [resp w'] eqn:Ed. cbn [snd]. destruct (fits resp) eqn:Hg.
  - apply fits_some in Hg as (b2 & Hb2 & Hmax2). rewrite (write_fits resp b2 Hb2 Hmax2).
    by apply read_written.
  - rewrite write_unfit by done. apply read_empty.
Qed.

(** A call, on every branch.  However the connection cuts the bytes: a request
    that cannot be encoded in 8 MiB is refused by the client and the daemon does nothing;
    otherwise the daemon runs it exactly once, and the client gets the daemon's very
    response when that fits in a frame, and an error when it does not (though the
    request has been carried out). *)
Theorem call_spec req w :
  (call req w, fst (served req w)) =
  (if fits req then
     let '(resp, w') := dispatch req w in
     ((if fits resp then inr resp else inl Io), w')
   else (inl InvalidData, w)).
Proof.
  destruct (fits req) eqn:Hf.
  - rewrite call_fits, served_fits by done. by destruct (dispatch req w).
  - unfold call, call_with_timeout, served, handle_connection. cbn [negb].
    rewrite write_unfit by done. cbn [snd fst sent fresh].
    pose proof (read_empty (T := IpcRequest)) as Hr.
    destruct (read_frame (cut [])) as [[e|r] s1]; simpl in Hr; done.
Qed.
End Exchange.

(** ** The concurrency bound *)
Definition server_ok (s : server) : Prop :=
  inflight s = Z.of_nat (live s) /\ inflight s <= MAX_INFLIGHT
  /\ match accepting s with Idle => True | Loaded c => inflight s <= c <= MAX_INFLIGHT end.

Lemma server_step_ok s s' : server_step s s' -> server_ok s -> server_ok s'.
Proof.
  unfold server_ok, MAX_INFLIGHT. destruct 1 as [s Ha|s c Ha Hc|s c Ha Hc|s n Hl];
    rewrite ?Ha; unfold MAX_INFLIGHT in *; simpl; intros (H1 & H2 & H3).
  - lia.
  - lia.
  - unfold u32. lia.
  - unfold u32. rewrite Hl in H1. destruct (accepting s); lia.
Qed.

(** Concurrency is bounded.  In every reachable state of the server the counter is
    the number of live handlers, and there are at most 64 of them, although the
    acceptor's check and its increment are not one step; a connection is refused
    only on a reading of 64. *)
Theorem inflight_bounded s :
  rtc server_step server_start s ->
  inflight s = Z.of_nat (live s) /\ (live s <= 64)%nat
  /\ forall s' , server_step s s' -> refused s' <> refused s -> accepting s = Loaded 64.
Proof.
  intros Hr. assert (Hok : server_ok s).
  { revert s Hr. apply (rtc_ind_r server_ok server_start); [by split_and!|].
    intros s1 s2 _ Hstep Hs1. by eapply server_step_ok. }
  destruct Hok as (H1 & H2 & H3). unfold MAX_INFLIGHT in *. split_and!; [done|lia|].
  intros s' Hs. destruct Hs as [s Ha|s c Ha Hc|s c Ha Hc|s n Hl]; simpl; try done.
  intros _. rewrite Ha in H3. unfold MAX_INFLIGHT in Hc. rewrite Ha. f_equal. lia.
Qed.

(** ** Examples *)
Module IpcExample.
(** a codec for a fragment of the requests, enough to exercise the frames *)
#[export] Instance req_codec : Codec IpcRequest := {
  to_vec v := match v with
              | Health => Some [0] | PurgeCache => Some [1; 2; 3] | GetInfo n => Some (2 :: bytes_of_string n)
              | _ => None end;
  from_slice b := match b with
                  | [0] => Some Health | [1; 2; 3] => Some PurgeCache
                  | 2 :: n => Some (GetInfo (string_of_bytes n))
                  | _ => None end;
}.
#[export] Instance req_codec_ok : CodecOk IpcRequest.
Proof.
  constructor. intros [] b [= <-]; try done. unfold from_slice, req_codec.
  by rewrite string_of_bytes_of_string.
Qed.
#[export] Instance resp_codec : Codec IpcResponse := {
  to_vec v := if bool_decide (v = mkIpcResponse 200 "text/plain" (ipc_body v))
              then Some (bytes_of_string (ipc_body v)) else None;
  from_slice b := Some (mkIpcResponse 200 "text/plain" (string_of_bytes b));
}.
#[export] Instance resp_codec_ok : CodecOk IpcResponse.
Proof.
  constructor. intros v b. unfold to_vec, resp_codec. case_bool_decide as E; [|done].
  intros [= <-]. rewrite E at 2. unfold from_slice. by rewrite string_of_bytes_of_string.
Qed.

(** the daemon counts its requests *)
Definition dispatch (req : IpcRequest) (w : nat) : IpcResponse * nat :=
  match req with
  | Health => (mkIpcResponse 200 "text/plain" "ok", S w)
  | GetInfo n => (mkIpcResponse 200 "text/plain" ("info of " +:+ n), S w)
  | _ => (mkIpcResponse 202 "text/plain" "", S w)
  end.
(** byte by byte *)
Definition bytewise (bs : list Z) : stream := map (fun b => Some [b]) bs.
Lemma bytewise_ok bs : chunks (bytewise bs) = bs /\ Forall good_chunk (bytewise bs).
Proof.
  induction bs as [|b bs [IH1 IH2]]; [by split|]. change (bytewise (b :: bs)) with (Some [b] :: bytewise bs).
  rewrite chunks_cons, IH1. split; [done|]. constructor; [by eexists _, _|done].
Qed.
End IpcExample.
Import IpcExample.

Lemma call_spec_witness :
  call IpcExample.dispatch bytewise Health 0%nat = inr (mkIpcResponse 200 "text/plain" "ok")
  /\ (call IpcExample.dispatch bytewise PurgeCache 0%nat = inl Io
      /\ fst (served IpcExample.dispatch bytewise PurgeCache 0%nat) = 1%nat).
Proof.
  pose proof (call_spec IpcExample.dispatch bytewise bytewise_ok) as H.
  split; [exact (f_equal fst (H Health 0%nat))|].
  split; [exact (f_equal fst (H PurgeCache 0%nat))|exact (f_equal snd (H PurgeCache 0%nat))].
Defined.

Lemma inflight_bounded_witness :
  live (mkServer 1 1 Idle 0) = 1%nat /\ (live (mkServer 1 1 Idle 0) <= 64)%nat.
Proof.
  split; [done|]. refine (proj1 (proj2 (inflight_bounded (mkServer 1 1 Idle 0) _))).
  eapply rtc_l; [by apply accept_load|]. eapply rtc_l; [|apply rtc_refl].
  by apply (accept_spawn (mkServer 0 0 (Loaded 0) 0) 0).
Defined.
