(* ===== verification/Json.v ===== *)
(** * JSON values and UTF-8 as the management side uses them

    Parsing and printing are serde_json's: the parser and the printer are the fields of
    a class, what a value is and how the program looks into it is defined here.  The
    members of an object have distinct keys.  [from_utf8] is the validation of the
    standard library; a Rust string is modelled by its bytes. *)
From S2P Require Import Prelude Text Http.

Inductive Value :=
  | JNull
  | JBool (b : bool)
  | JInt (z : Z)
  | JFloat (text : string)
  | JString (s : string)
  | JArray (l : list Value)
  | JObject (members : list (string * Value)).

Class Serde := {
  parse_json : string -> option Value;
  print_json : Value -> string;
  (** the derived decoder of the body of an adoption: a project and an environment *)
  parse_adopt : list Z -> option (string * option string);
}.

(** [v.get(key)] *)
Definition get (key : string) (v : Value) : option Value :=
  match v with
  | JObject m => snd <$> find (fun '(k, _) => bool_decide (k = key)) m
  | _ => None
  end.
Definition as_str (v : Value) : option string := match v with JString s => Some s | _ => None end.
Definition as_bool (v : Value) : option bool := match v with JBool b => Some b | _ => None end.
Definition as_array (v : Value) : option (list Value) := match v with JArray l => Some l | _ => None end.
Definition as_u64 (v : Value) : option Z :=
  match v with JInt z => if (0 <=? z) && (z <? 2 ^ 64) then Some z else None | _ => None end.
Definition get_str (key : string) (v : Value) : option string := get key v ≫= as_str.

(** [obj.insert(key, x)] *)
Definition insert_member (key : string) (x : Value) (m : list (string * Value)) : list (string * Value) :=
  if existsb (fun '(k, _) => bool_decide (k = key)) m
  then map (fun '(k, y) => if bool_decide (k = key) then (k, x) else (k, y)) m
  else m ++ [(key, x)].

(** ** UTF-8 *)
Definition between (lo hi b : Z) : bool := (lo <=? b) && (b <=? hi).
Definition cont (b : Z) : bool := between 128 191 b.

Fixpoint utf8_valid (bs : list Z) : bool :=
  match bs with
  | [] => true
  | b1 :: r1 =>
      if b1 <? 128 then utf8_valid r1
      else match r1 with
      | [] => false
      | b2 :: r2 =>
          if between 194 223 b1 then cont b2 && utf8_valid r2
          else match r2 with
          | [] => false
          | b3 :: r3 =>
              if between 224 239 b1 then
                (if b1 =? 224 then between 160 191 b2
                 else if b1 =? 237 then between 128 159 b2 else cont b2)
                && cont b3 && utf8_valid r3
              else match r3 with
              | [] => false
              | b4 :: r4 =>
                  between 240 244 b1
                  && (if b1 =? 240 then between 144 191 b2
                      else if b1 =? 244 then between 128 143 b2 else cont b2)
                  && cont b3 && cont b4 && utf8_valid r4
              end
          end
      end
  end.

Definition from_utf8 (bs : list Z) : option string :=
  if utf8_valid bs then Some (string_of_bytes bs) else None.

(** [serde_json::from_slice] *)
Definition from_slice `{Serde} (bs : list Z) : option Value := from_utf8 bs ≫= parse_json.

Lemma utf8_ascii s : Forall (fun b => b < 128) (bytes_of_string s) -> from_utf8 (bytes_of_string s) = Some s.
Proof.
  intros H. unfold from_utf8. rewrite string_of_bytes_of_string.
  assert (E : utf8_valid (bytes_of_string s) = true); [|by rewrite E].
  induction H as [|b bs Hb _ IH]; [done|]. cbn [utf8_valid].
  by replace (b <? 128) with true by (symmetry; by apply Z.ltb_lt).
Qed.

(** ** Error bodies ([HttpResponse::json], [HttpResponse::error]) *)
Section Bodies.
Context `{Serde}.
Definition json_response (code : Z) (b : Value) : HttpResponse :=
  mkResponse code (print_json b) "application/json" [] None.
Definition error_response (code : Z) (err : string) (msg : option string) : HttpResponse :=
  json_response code (JObject (("error", JString err) ::
    match msg with Some m => [("message", JString m)] | None => [] end)).
End Bodies.
