(* ===== verification/Route.v ===== *)
(** * The routes of the API server (src/bin/nkr_api_server.rs)

    [route] maps a request to what the server does for it: answer at once, forward a
    request to the daemon, stream a file, or run one of the handlers that act on the
    file system ([AddonsGit], [EnterpriseGit], [PylibsPut], [LogsDownload]: these are
    kept as they are called).  The [match] of the source is a table, tried in order; a
    handler that gives [None] has a guard that fails, and the next entry is tried. *)
From S2P Require Import Prelude Text Http Ipc Json.

Definition CREATE_BODY_LIMIT : Z := 64 * 1024.
Definition ACTION_BODY_LIMIT : Z := 1024.

Inductive plan :=
  | Reply (r : HttpResponse)
  | Forward (req : IpcRequest)
  | Download (job_id format : string)
  | LogsDownload (cell instance : string)
  | AddonsGit (cell instance : string) (body : list Z)
  | EnterpriseGit (cell : string) (body : list Z)
  | PylibsPut (cell instance : string) (body : list Z).

(** ** Segments of a path *)
Inductive pat := L (s : string) | V.

Fixpoint match_segs (ps : list pat) (segs : list string) : option (list string) :=
  match ps, segs with
  | [], [] => Some []
  | L s :: ps, x :: segs => if bool_decide (s = x) then match_segs ps segs else None
  | V :: ps, x :: segs => cons x <$> match_segs ps segs
  | _, _ => None
  end.

(** [path.trim_start_matches('/')] *)
Fixpoint drop_slashes (s : string) : string :=
  match s with
  | String c s' => if Ascii.eqb c "/" then drop_slashes s' else s
  | EmptyString => s
  end.
Definition segments (path : string) : list string := split_on "/" (drop_slashes path).

Definition is_hexdigit (c : ascii) : bool :=
  let n := Z.of_N (N_of_ascii c) in between 48 57 n || between 65 70 n || between 97 102 n.

Definition is_job_id (s : string) : bool :=
  (String.length s =? 16)%nat && starts_with "bkp_" s
  && forallb is_hexdigit (drop 4 (String.list_ascii_of_string s)).

Definition usize_param (query key : string) : option Z :=
  v ← query_get query key; parse_uint (2 ^ 64 - 1) v.

(** the last [format=] of the query *)
Definition format_param (query : string) : string :=
  fold_left (fun f pair => match strip_prefix "format=" pair with Some v => v | None => f end)
    (List.filter (fun s => negb (bool_decide (s = ""))) (split_on "&" query)) "odoo".

Section Route.
Context `{Serde}.

Definition refuse (code : Z) (err : string) : plan := Reply (error_response code err None).
Definition refuse_msg (code : Z) (err msg : string) : plan := Reply (error_response code err (Some msg)).

(** the checks the handlers start with *)
Definition with_ident (err s : string) (k : plan) : plan :=
  if negb (is_safe_identifier s) then refuse 400 err else k.
Definition with_name (name : string) (k : plan) : plan := with_ident "invalid_nkr_name" name k.
Definition with_both (cell name : string) (k : plan) : plan :=
  if negb (is_safe_identifier cell) || negb (is_safe_identifier name)
  then refuse 400 "invalid_path_segment" else k.
Definition with_limit (limit : Z) (body : list Z) (k : plan) : plan :=
  if limit <? Z.of_nat (length body) then refuse 413 "body_too_large" else k.
Definition with_json (body : list Z) (k : Value -> plan) : plan :=
  match from_slice body with Some v => k v | None => refuse 400 "invalid_json" end.

(** ** Creating an instance *)
Definition idents_of_create : list string := ["nkr_name"; "odoo_version"; "cell"; "source"; "pg_version"].

Definition bad_ident (v : Value) (key : string) : bool :=
  match get_str key v with Some s => negb (is_safe_identifier s) | None => false end.

Definition allow_duplicates (headers : list (string * string)) : bool :=
  existsb (fun '(k, v) => eq_ignore_ascii_case k "X-NKR-Allow-Duplicate-Env"
                          && eq_ignore_ascii_case (trim v) "true") headers.

(** the body that is checked and forwarded *)
Definition create_body (headers : list (string * string)) (body_str : string) : string :=
  if allow_duplicates headers then
    match parse_json body_str with
    | Some (JObject m) => print_json (JObject (insert_member "allow_duplicate_env" (JBool true) m))
    | Some v => print_json v
    | None => body_str
    end
  else body_str.

Definition handle_create_http (cell_hint : option string) (body : list Z)
    (headers : list (string * string)) : plan :=
  with_limit CREATE_BODY_LIMIT body
    match from_utf8 body with
    | None => refuse 400 "invalid_utf8"
    | Some body_str =>
        let body_str := create_body headers body_str in
        match parse_json body_str with
        | None => refuse 400 "invalid_json"
        | Some v =>
            match find (bad_ident v) idents_of_create with
            | Some k => refuse 400 ("invalid_" +:+ k)
            | None =>
                if match get_str "dns" v with Some d => negb (is_safe_dns d) | None => false end
                then refuse 400 "invalid_dns"
                else if match get_str "addons_path" v with
                        | Some ap => negb (is_safe_addons_path ap) | None => false end
                then refuse 400 "invalid_addons_path"
                else match cell_hint with
                     | Some h => with_ident "invalid_cell_in_url" h (Forward (CreateInstance cell_hint body_str))
                     | None => Forward (CreateInstance cell_hint body_str)
                     end
            end
        end
    end.

(** ** Handlers that look into the body *)
Definition body_str_field (body : list Z) (key dflt : string) : string :=
  match body with
  | [] => dflt
  | _ => default dflt (v ← from_slice body; get_str key v)
  end.

Definition adopt (name : string) (body : list Z) : plan :=
  match parse_adopt body with
  | Some (project_id, env) => Forward (AdoptInstance name project_id env)
  | None => refuse_msg 400 "invalid_json" "body debe ser { project_id, env? }"
  end.

Definition balloon (name : string) (body : list Z) : plan :=
  match body with
  | [] => Forward (BalloonActive name)
  | _ =>
      match v ← from_slice body; get_str "state" v with
      | Some s =>
          if bool_decide (s = "idle") then
            Reply (json_response 400 (JObject
              [("error", JString "explicit_idle_not_supported");
               ("message", JString "IDLE se aplica automáticamente tras balloon_decay_secs sin renovación. No es seteable desde el panel.")]))
          else if negb (bool_decide (s = "active"))
          then refuse_msg 400 "invalid_state" ("state debe ser " +:+ quote "active" +:+ " (o body vacío)")
          else Forward (BalloonActive name)
      | None => Forward (BalloonActive name)
      end
  end.

Definition actions : list string := ["start"; "stop"; "restart"].
Definition instance_action (name : string) (body : list Z) : plan :=
  with_limit ACTION_BODY_LIMIT body
    match v ← from_slice body; get_str "action" v with
    | Some a =>
        if bool_decide (a ∈ actions) then Forward (Action name a)
        else refuse_msg 400 "invalid_action" ("expected {" +:+ quote "action" +:+ ":" +:+ quote "start|stop|restart" +:+ "}")
    | None => refuse_msg 400 "invalid_action" ("expected {" +:+ quote "action" +:+ ":" +:+ quote "start|stop|restart" +:+ "}")
    end.

Definition patch_config (name : string) (body : list Z) : plan :=
  with_limit (16 * 1024) body
    match from_utf8 body with
    | Some s => Forward (PatchConfig name s)
    | None => refuse 400 "invalid_utf8"
    end.

Definition psql (name : string) (body : list Z) : plan :=
  with_limit (16 * 1024) body (with_json body (fun v =>
    match get_str "query" v with
    | None | Some "" => refuse 400 "missing_query"
    | Some q => Forward (Psql name q (Z.min (default 1000 (get "max_rows" v ≫= as_u64)) 10000))
    end)).

Definition clamp (lo hi z : Z) : Z := Z.max lo (Z.min hi z).
Definition logs (name query : string) : plan :=
  Forward (GetLogs name
    (Z.min 10000 <$> usize_param query "tail")
    (usize_param query "from_offset")
    (clamp 1 10000 <$> usize_param query "max_lines")
    (Z.min 25000 <$> usize_param query "wait_ms")).

Definition modules_example : string :=
  "expected {" +:+ quote "modules" +:+ ": [" +:+ quote "..." +:+ "], " +:+ quote "admin_login"
  +:+ ":..., " +:+ quote "admin_password" +:+ ":...}".
Definition modules_action (name op : string) (body : list Z) : plan :=
  with_limit (16 * 1024) body (with_json body (fun v =>
    match get "modules" v ≫= as_array with
    | None => refuse_msg 400 "missing_modules" modules_example
    | Some arr =>
        match omap as_str arr with
        | [] => refuse 400 "missing_modules"
        | modules =>
            match get_str "admin_login" v with
            | None | Some "" => refuse 400 "missing_admin_login"
            | Some admin_login =>
                match get_str "admin_password" v with
                | None | Some "" => refuse 400 "missing_admin_password"
                | Some admin_password =>
                    Forward (ModulesAction name op modules admin_login admin_password)
                end
            end
        end
    end)).

Definition create_dns (name : string) (body : list Z) : plan :=
  with_limit ACTION_BODY_LIMIT body (with_json body (fun v =>
    match get_str "dns" v with
    | Some d =>
        if is_safe_dns d
        then Forward (CreateDns name d (default true (get "enable_websocket" v ≫= as_bool)))
        else refuse_msg 400 "invalid_dns" "expected safe DNS name in body field 'dns'"
    | None => refuse_msg 400 "invalid_dns" "expected safe DNS name in body field 'dns'"
    end)).

Definition init_db (name : string) (body : list Z) : plan :=
  with_limit CREATE_BODY_LIMIT body (with_json body (fun v =>
    match get_str "admin_password" v with
    | None | Some "" => refuse_msg 400 "missing_admin_password" "'admin_password' is required (≥4 chars)"
    | Some p =>
        Forward (InitDb name (get_str "db_name" v) (default "admin" (get_str "admin_login" v)) p
          (default false (get "demo" v ≫= as_bool)) (get_str "lang" v) (get_str "country_code" v)
          (get_str "phone" v))
    end)).

(** ** The table *)
Definition entry : Type := string * list pat * (list string -> option plan).

Definition api (l : list pat) : list pat := L "api" :: L "v1" :: l.
Definition inst (l : list pat) : list pat := api (L "cells" :: V :: L "instances" :: V :: l).

Definition one (k : string -> plan) (args : list string) : option plan :=
  match args with [a] => Some (k a) | _ => None end.
Definition two (k : string -> string -> plan) (args : list string) : option plan :=
  match args with [a; b] => Some (k a b) | _ => None end.
(** the cell of the path is not looked at *)
Definition named (k : string -> plan) : list string -> option plan :=
  two (fun _ name => with_name name (k name)).
Definition celled (k : string -> string -> plan) : list string -> option plan :=
  two (fun cell name => with_both cell name (k cell name)).
Definition job (k : string -> plan) : list string -> option plan :=
  one (fun id => if is_job_id id then k id else refuse 400 "invalid_job_id").
Definition cell_and_name (err : string) (k : string -> string -> plan) : list string -> option plan :=
  two (fun cell name => with_ident err cell (with_name name (k cell name))).

Definition module_ops : list string := ["install"; "upgrade"; "uninstall"].
Definition module_entry (body : list Z) (args : list string) : option plan :=
  match args with
  | [_; name; op] =>
      if bool_decide (op ∈ module_ops) then Some (with_name name (modules_action name op body)) else None
  | _ => None
  end.

Definition table (query : string) (headers : list (string * string)) (body : list Z) : list entry := [
  ("GET", api [L "cells"], fun _ => Some (Forward ListCells));
  ("POST", api [L "instances"], fun _ => Some (handle_create_http None body headers));
  ("POST", api [L "admin"; L "cache"; L "purge"], fun _ => Some (Forward PurgeCache));
  ("GET", api [L "cells"; V; L "enterprise"],
     one (fun cell => with_ident "invalid_cell" cell (Forward (GetEnterpriseStatus cell))));
  ("POST", api [L "cells"; V; L "instances"], one (fun cell => handle_create_http (Some cell) body headers));
  ("GET", api [L "cells"; V; L "capacity"],
     one (fun cell => with_ident "invalid_cell_name" cell (Forward (CellCapacity cell))));
  ("GET", api [L "projects"; V],
     one (fun p => with_ident "invalid_project_id" p (Forward (ProjectLookup p))));
  ("PATCH", inst [], named (fun name => adopt name body));
  ("GET", inst [], named (fun name => Forward (GetInfo name)));
  ("GET", inst [L "create-status"],
     cell_and_name "invalid_cell" (fun cell name => Forward (GetCreateStatus cell name)));
  ("DELETE", inst [],
     named (fun name => Forward (DeleteInstance name (negb (bool_decide (query_get query "drop_db" = Some "0"))))));
  ("GET", inst [L "metrics"], named (fun name => Forward (MetricsForVm name)));
  ("POST", inst [L "reload"], named (fun name => Forward (ReloadWorkers name)));
  ("POST", inst [L "sso"], named (fun name => Forward (Sso name (body_str_field body "user" "admin"))));
  ("POST", inst [L "backup"],
     cell_and_name "invalid_cell_name" (fun cell name => Forward (CreateBackup cell name (body_str_field body "format" "odoo"))));
  ("GET", api [L "backups"; V; L "status"], job (fun id => Forward (GetBackupStatus id)));
  ("GET", api [L "backups"; V; L "download"], job (fun id => Download id (format_param query)));
  ("GET", inst [L "diag"], named (fun name => Forward (Diag name)));
  ("POST", inst [L "diag"], named (fun name => Forward (Diag name)));
  ("POST", inst [L "balloon"], named (fun name => balloon name body));
  ("POST", inst [L "actions"], named (fun name => instance_action name body));
  ("PATCH", inst [L "config"], named (fun name => patch_config name body));
  ("POST", inst [L "psql"], named (fun name => psql name body));
  ("GET", inst [L "logs"], named (fun name => logs name query));
  ("GET", inst [L "logs"; L "download"], celled LogsDownload);
  ("POST", inst [L "modules"; V], module_entry body);
  ("POST", inst [L "addons"; L "git"], celled (fun cell name => AddonsGit cell name body));
  ("POST", api [L "cells"; V; L "enterprise"; L "git"],
     one (fun cell => with_ident "invalid_cell" cell (EnterpriseGit cell body)));
  ("PUT", inst [L "pylibs"], celled (fun cell name => PylibsPut cell name body));
  ("POST", inst [L "dns"], celled (fun _ name => create_dns name body));
  ("POST", inst [L "init-db"], celled (fun _ name => init_db name body));
  ("DELETE", inst [L "dns"],
     celled (fun _ name => Forward (DeleteDns name (bool_decide (query_get query "delete_cert" = Some "1")))))
].

Definition try_entry (method : string) (segs : list string) (e : entry) : option plan :=
  let '(m, ps, k) := e in
  if bool_decide (m = method) then args ← match_segs ps segs; k args else None.

(** the first entry that applies *)
Fixpoint first_match (method : string) (segs : list string) (t : list entry) : option plan :=
  match t with
  | [] => None
  | e :: t => match try_entry method segs e with Some p => Some p | None => first_match method segs t end
  end.

Definition not_found (method path : string) : plan :=
  Reply (json_response 404 (JObject
    [("error", JString "not_found"); ("method", JString method); ("path", JString path)])).

Definition unauthorized : plan := refuse_msg 401 "unauthorized" "Authorization: Bearer <token> requerido".

Definition route (token : option string) (method path query : string)
    (headers : list (string * string)) (body : list Z) : plan :=
  if bool_decide (method = "GET") && bool_decide (path = "/api/v1/health") then Forward Health
  else if bool_decide (method = "GET") && bool_decide (path = "/metrics") then Forward RenderMetrics
  else if negb (check_auth token headers) then unauthorized
  else default (not_found method path) (first_match method (segments path) (table query headers body)).
End Route.

(** ** Carrying out a plan *)
Definition ipc_timeout (req : IpcRequest) : Z :=
  match req with
  | CreateInstance _ _ | InitDb _ _ _ _ _ _ _ _ | ModulesAction _ _ _ _ _ | CreateDns _ _ _
  | Action _ _ | DeleteInstance _ _ => 600
  | _ => 120
  end.

Section Run.
Context `{Serde}.

Definition ipc_to_http (res : io_error + IpcResponse) : HttpResponse :=
  match res with
  | inr r => mkResponse (ipc_status r) (ipc_body r) (ipc_content_type r) [] None
  | inl _ => error_response 502 "daemon_unreachable" (Some "nkr daemon no responde en UDS")
  end.

(** the response that streams the file the daemon names *)
Definition download (exists_ : string -> bool) (res : io_error + IpcResponse) (format : string) : HttpResponse :=
  match res with
  | inr r =>
      if ipc_status r =? 200 then
        match parse_json (ipc_body r) with
        | None => error_response 500 "meta_parse_failed" None
        | Some v =>
            let path := default "" (get_str "path" v) in
            if negb (exists_ path) then
              error_response 500 "file_disappeared" (Some "file was reported ready but no longer exists on disk")
            else
              mkResponse 200 "" (default "application/octet-stream" (get_str "content_type" v))
                [("X-NKR-Backup-Sha256", default "" (get_str "sha256" v)); ("X-NKR-Backup-Format", format)]
                (Some (path, default 0 (get "size_bytes" v ≫= as_u64),
                       default "backup.bin" (get_str "filename" v)))
        end
      else ipc_to_http res
  | inl _ => ipc_to_http res
  end.

(** the handlers that act on the file system *)
Record local_handlers := mkLocal {
  handle_logs_download : string -> string -> HttpResponse;
  handle_addons_git : string -> string -> list Z -> HttpResponse;
  handle_enterprise_git : string -> list Z -> HttpResponse;
  handle_pylibs_put : string -> string -> list Z -> HttpResponse;
  exists_ : string -> bool;
}.

Definition run_plan (ipc : IpcRequest -> io_error + IpcResponse) (h : local_handlers) (p : plan) : HttpResponse :=
  match p with
  | Reply r => r
  | Forward req => ipc_to_http (ipc req)
  | Download id format => download (exists_ h) (ipc (GetBackupFile id format)) format
  | LogsDownload c i => handle_logs_download h c i
  | AddonsGit c i b => handle_addons_git h c i b
  | EnterpriseGit c b => handle_enterprise_git h c b
  | PylibsPut c i b => handle_pylibs_put h c i b
  end.

Definition bad_request : string :=
  "HTTP/1.1 400 Bad Request" +:+ crlf +:+ "Content-Length: 0" +:+ crlf +:+ "Connection: close" +:+ crlf +:+ crlf.

(** a connection: what is written, or the response whose file is streamed *)
Definition serve (lossy : list Z -> string) (token : option string)
    (ipc : IpcRequest -> io_error + IpcResponse) (h : local_handlers) (s : stream) : string + HttpResponse :=
  match read_request lossy s with
  | None => inl bad_request
  | Some (headers, body) =>
      match parse_request_line headers with
      | None => inl bad_request
      | Some (method, path, query) =>
          let resp := run_plan ipc h (route token method path query (parse_headers headers) body) in
          match body_file resp with Some _ => inr resp | None => inl (to_wire resp) end
      end
  end.
End Run.

(** ** What is forwarded is safe *)
Section Safety.
Context `{Serde}.
Notation safe s := (is_safe_identifier s = true).

Definition at_most (m : Z) (o : option Z) : Prop := match o with Some z => z <= m | None => True end.
Definition body_checked (b : string) : Prop :=
  exists v, parse_json b = Some v /\ Forall (fun k => bad_ident v k = false) idents_of_create
    /\ (forall d, get_str "dns" v = Some d -> is_safe_dns d = true)
    /\ (forall a, get_str "addons_path" v = Some a -> is_safe_addons_path a = true).

Definition request_safe (req : IpcRequest) : Prop :=
  match req with
  | Health | ListCells | RenderMetrics | PurgeCache => True
  | CellCapacity s | ProjectLookup s | MetricsForVm s | GetInfo s | DeleteInstance s _
  | PatchConfig s _ | ReloadWorkers s | BalloonActive s | Diag s | Sso s _ | GetEnterpriseStatus s
  | DeleteDns s _ | InitDb s _ _ _ _ _ _ _ | AdoptInstance s _ _ => safe s
  | CreateInstance hint b => (forall h, hint = Some h -> safe h) /\ body_checked b
  | Action s a => safe s /\ a ∈ actions
  | GetLogs s tail _ max_lines wait_ms =>
      safe s /\ at_most 10000 tail /\ at_most 10000 max_lines /\ at_most 25000 wait_ms
  | ModulesAction s op modules login password =>
      safe s /\ op ∈ module_ops /\ modules <> [] /\ login <> "" /\ password <> ""
  | CreateDns s d _ => safe s /\ is_safe_dns d = true
  | Psql s q n => safe s /\ q <> "" /\ 0 <= n <= 10000
  | GetCreateStatus c s | CreateBackup c s _ => safe c /\ safe s
  | GetBackupStatus id | GetBackupFile id _ => is_job_id id = true
  end.

(** ** What is carried unchecked is what the request says *)
Section Carried.
Variables (query : string) (headers : list (string * string)) (body : list Z).

(** the string that a body that need not be there has under [key] *)
Definition field_said (key dflt s : string) : Prop :=
  (body = [] /\ s = dflt) \/ (body <> [] /\ s = default dflt (v ← from_slice body; get_str key v)).
Definition wanted (n : Z) (key : string) (o : option Z) : Prop :=
  o = (Z.min n <$> usize_param query key).

Definition carries (req : IpcRequest) : Prop :=
  match req with
  | Sso _ user => field_said "user" "admin" user
  | CreateBackup _ _ format => field_said "format" "odoo" format
  | AdoptInstance _ project env => parse_adopt body = Some (project, env)
  | PatchConfig _ b => from_utf8 body = Some b
  | CreateInstance _ b => exists s, from_utf8 body = Some s /\ b = create_body headers s
  | Psql _ q n => exists v, from_slice body = Some v /\ get_str "query" v = Some q
      /\ n = Z.min (default 1000 (get "max_rows" v ≫= as_u64)) 10000
  | GetLogs _ tail from max_lines wait_ms => wanted 10000 "tail" tail /\ from = usize_param query "from_offset"
      /\ max_lines = (Z.max 1 ∘ Z.min 10000 <$> usize_param query "max_lines") /\ wanted 25000 "wait_ms" wait_ms
  | ModulesAction _ _ modules login password => exists v l, from_slice body = Some v /\ get "modules" v = Some (JArray l)
      /\ modules = omap as_str l /\ get_str "admin_login" v = Some login /\ get_str "admin_password" v = Some password
  | CreateDns _ d w => exists v, from_slice body = Some v /\ get_str "dns" v = Some d
      /\ (w = false <-> get "enable_websocket" v = Some (JBool false))
  | Action _ a => exists v, from_slice body = Some v /\ get_str "action" v = Some a
  | InitDb _ db login password demo lang country phone => exists v, from_slice body = Some v
      /\ db = get_str "db_name" v /\ login = default "admin" (get_str "admin_login" v)
      /\ get_str "admin_password" v = Some password /\ password <> "" /\ (demo = true <-> get "demo" v = Some (JBool true))
      /\ lang = get_str "lang" v /\ country = get_str "country_code" v /\ phone = get_str "phone" v
  | DeleteInstance _ drop => drop = false <-> query_get query "drop_db" = Some "0"
  | DeleteDns _ delete => delete = true <-> query_get query "delete_cert" = Some "1"
  | Health | ListCells | RenderMetrics | PurgeCache | CellCapacity _ | ProjectLookup _ | MetricsForVm _ | GetInfo _
  | ReloadWorkers _ | BalloonActive _ | Diag _ | GetEnterpriseStatus _ | GetCreateStatus _ _
  | GetBackupStatus _ | GetBackupFile _ _ => True
  end.

Definition plan_safe (p : plan) : Prop :=
  match p with
  | Reply r => 400 <= status r < 500
  | Forward req => request_safe req /\ carries req
  | Download id format => is_job_id id = true /\ format = format_param query
  | LogsDownload c i => safe c /\ safe i
  | AddonsGit c i b | PylibsPut c i b => safe c /\ safe i /\ b = body
  | EnterpriseGit c b => safe c /\ b = body
  end.

Lemma refuse_safe code err : 400 <= code < 500 -> plan_safe (refuse code err).
Proof. done. Qed.
Lemma refuse_msg_safe code err msg : 400 <= code < 500 -> plan_safe (refuse_msg code err msg).
Proof. done. Qed.
Lemma with_ident_safe err s k : (safe s -> plan_safe k) -> plan_safe (with_ident err s k).
Proof. unfold with_ident. destruct (is_safe_identifier s); [auto|by intros _]. Qed.
Lemma with_both_safe c n k : (safe c -> safe n -> plan_safe k) -> plan_safe (with_both c n k).
Proof.
  unfold with_both. destruct (is_safe_identifier c), (is_safe_identifier n); simpl; auto; by intros _.
Qed.
Lemma with_limit_safe m b k : plan_safe k -> plan_safe (with_limit m b k).
Proof. unfold with_limit. by case_match. Qed.
Lemma with_json_safe b k : (forall v, plan_safe (k v)) -> plan_safe (with_json b k).
Proof. unfold with_json. intros Hk. by case_match. Qed.

Definition handler_safe (k : list string -> option plan) : Prop :=
  forall args p, k args = Some p -> plan_safe p.

Lemma one_safe k : (forall a, plan_safe (k a)) -> handler_safe (one k).
Proof. intros Hk [|a [|]] p; simpl; try done. by intros [= <-]. Qed.
Lemma two_safe k : (forall a b, plan_safe (k a b)) -> handler_safe (two k).
Proof. intros Hk [|a [|b [|]]] p; simpl; try done. by intros [= <-]. Qed.
Lemma named_safe k : (forall n, safe n -> plan_safe (k n)) -> handler_safe (named k).
Proof. intros Hk. apply two_safe. intros _ n. by apply with_ident_safe, Hk. Qed.
Lemma celled_safe k : (forall c n, safe c -> safe n -> plan_safe (k c n)) -> handler_safe (celled k).
Proof. intros Hk. apply two_safe. intros c n. by apply with_both_safe, Hk. Qed.
Lemma cell_and_name_safe err k :
  (forall c n, safe c -> safe n -> plan_safe (k c n)) -> handler_safe (cell_and_name err k).
Proof.
  intros Hk. apply two_safe. intros c n. apply with_ident_safe. intros Hc.
  by apply with_ident_safe, Hk.
Qed.
Lemma job_safe k : (forall id, is_job_id id = true -> plan_safe (k id)) -> handler_safe (job k).
Proof. intros Hk. apply one_safe. intros id. case_match; [auto|done]. Qed.
Lemma const_safe p : plan_safe p -> handler_safe (fun _ => Some p).
Proof. by intros Hp args q [= <-]. Qed.

Hint Resolve refuse_safe refuse_msg_safe with_ident_safe with_both_safe with_limit_safe with_json_safe
  one_safe two_safe named_safe celled_safe cell_and_name_safe job_safe const_safe : route.

Lemma create_safe hint : plan_safe (handle_create_http hint body headers).
Proof.
  unfold handle_create_http. apply with_limit_safe. destruct (from_utf8 body) as [b|] eqn:Eb; [|done].
  set (b' := create_body headers b). destruct (parse_json b') as [v|] eqn:Ev; [|done].
  destruct (find (bad_ident v) idents_of_create) as [k|] eqn:Ef; [done|].
  match goal with |- context [if ?c then _ else _] => destruct c eqn:Ed end; [done|].
  match goal with |- context [if ?c then _ else _] => destruct c eqn:Ea end; [done|].
  assert (Hb : body_checked b').
  { exists v. split_and!; [done|..].
    - apply List.Forall_forall. intros k. by apply find_none.
    - intros d E. rewrite E in Ed. by apply negb_false_iff in Ed.
    - intros a E. rewrite E in Ea. by apply negb_false_iff in Ea. }
  assert (Hc : carries (CreateInstance hint b')) by (by exists b).
  destruct hint as [h|]; [apply with_ident_safe; intros Hh|]; (split; [split; [|done]|done]).
  - by intros h' [= <-].
  - done.
Qed.

Lemma field_said_body key dflt : field_said key dflt (body_str_field body key dflt).
Proof. unfold field_said, body_str_field. destruct body; [by left|by right]. Qed.
Lemma bool_true (v : Value) key : default false (get key v ≫= as_bool) = true <-> get key v = Some (JBool true).
Proof. destruct (get key v) as [[]|]; cbn; try done. destruct b; cbn; split; congruence. Qed.
Lemma bool_false (v : Value) key : default true (get key v ≫= as_bool) = false <-> get key v = Some (JBool false).
Proof. destruct (get key v) as [[]|]; cbn; try done. destruct b; cbn; split; congruence. Qed.

Lemma balloon_request_safe n : safe n -> plan_safe (balloon n body).
Proof. intros Hn. unfold balloon. repeat case_match; done. Qed.
Lemma action_safe n : safe n -> plan_safe (instance_action n body).
Proof.
  intros Hn. apply with_limit_safe. destruct (from_slice body) as [v|] eqn:Ev; [|done]. cbn.
  destruct (get_str "action" v) as [a|] eqn:Ea; [|done]. case_bool_decide; [|done]. split; [done|]. by exists v.
Qed.
Lemma adopt_safe n : safe n -> plan_safe (adopt n body).
Proof. intros Hn. unfold adopt. by destruct (parse_adopt body) as [[p e]|] eqn:E. Qed.
Lemma config_safe n : safe n -> plan_safe (patch_config n body).
Proof. intros Hn. apply with_limit_safe. by case_match. Qed.
Lemma as_u64_range o z : o ≫= as_u64 = Some z -> 0 <= z.
Proof.
  destruct o as [v|]; [|done]. destruct v; try done. simpl.
  destruct (0 <=? z0) eqn:E; [|done]. simpl. case_match; [|done]. intros [= <-]. by apply Z.leb_le.
Qed.
Lemma psql_safe n : safe n -> plan_safe (psql n body).
Proof.
  intros Hn. apply with_limit_safe. unfold with_json. destruct (from_slice body) as [v|] eqn:Ev; [|done].
  destruct (get_str "query" v) as [[|c q]|] eqn:Eq; [done| |done]. split; [|by exists v]. split_and!; [done|done|..].
  - destruct (get "max_rows" v ≫= as_u64) as [z|] eqn:E; simpl; [|done]. apply as_u64_range in E. lia.
  - lia.
Qed.
Lemma at_most_min m o : at_most m (Z.min m <$> o).
Proof. destruct o; simpl; [lia|done]. Qed.
Lemma logs_safe n : safe n -> plan_safe (logs n query).
Proof.
  intros Hn. split; [|by split_and!]. split_and!; [done|apply at_most_min| |apply at_most_min].
  destruct (usize_param _ _); simpl; unfold clamp; [lia|done].
Qed.
Lemma modules_safe n op : safe n -> op ∈ module_ops -> plan_safe (modules_action n op body).
Proof.
  intros Hn Hop. apply with_limit_safe. unfold with_json. destruct (from_slice body) as [v|] eqn:Ev; [|done].
  destruct (get "modules" v) as [[]|] eqn:Em; try done. cbn -[omap]. destruct (omap as_str l) as [|m ms] eqn:El; [done|].
  destruct (get_str "admin_login" v) as [[|c s]|] eqn:E1; [done| |done].
  destruct (get_str "admin_password" v) as [[|c' s']|] eqn:E2; [done| |done]. split; [done|]. by exists v, l.
Qed.
Lemma dns_safe n : safe n -> plan_safe (create_dns n body).
Proof.
  intros Hn. apply with_limit_safe. unfold with_json. destruct (from_slice body) as [v|] eqn:Ev; [|done].
  destruct (get_str "dns" v) as [d|] eqn:Ed; [|done]. destruct (is_safe_dns d) eqn:E; [|done].
  split; [done|]. exists v. split_and!; [done|done|apply bool_false].
Qed.
Lemma init_db_safe n : safe n -> plan_safe (init_db n body).
Proof.
  intros Hn. apply with_limit_safe. unfold with_json. destruct (from_slice body) as [v|] eqn:Ev; [|done].
  destruct (get_str "admin_password" v) as [[|c l]|] eqn:E; try done. split; [done|]. exists v. split_and!; try done. apply bool_true.
Qed.
Lemma module_entry_safe : handler_safe (module_entry body).
Proof.
  intros [|c [|n [|op [|]]]] p; simpl; try done. case_bool_decide as Hop; [|done].
  intros [= <-]. apply with_ident_safe. intros Hn. by apply modules_safe.
Qed.
Lemma delete_safe n : safe n -> plan_safe (Forward (DeleteInstance n (negb (bool_decide (query_get query "drop_db" = Some "0"))))).
Proof. intros Hn. split; [done|]. cbn. by case_bool_decide. Qed.
Lemma delete_dns_safe n : safe n -> plan_safe (Forward (DeleteDns n (bool_decide (query_get query "delete_cert" = Some "1")))).
Proof. intros Hn. split; [done|]. cbn. by case_bool_decide. Qed.
Lemma sso_safe n : safe n -> plan_safe (Forward (Sso n (body_str_field body "user" "admin"))).
Proof. intros Hn. split; [done|]. apply field_said_body. Qed.
Lemma backup_safe c n : safe c -> safe n -> plan_safe (Forward (CreateBackup c n (body_str_field body "format" "odoo"))).
Proof. intros Hc Hn. split; [done|]. apply field_said_body. Qed.

Hint Resolve create_safe balloon_request_safe action_safe adopt_safe config_safe psql_safe logs_safe
  dns_safe init_db_safe module_entry_safe delete_safe delete_dns_safe sso_safe backup_safe : route.

Lemma table_safe :
  Forall (fun '(_, _, k) => handler_safe k) (table query headers body).
Proof.
  repeat (apply list.Forall_cons; split); try apply list.Forall_nil_2;
    eauto 4 with route.
  all: try (apply const_safe; done).
  all: (apply named_safe || apply cell_and_name_safe || apply job_safe || apply celled_safe
        || (apply one_safe; intros c; apply with_ident_safe)); auto with route; simpl; auto.
Qed.

Lemma first_match_safe method segs t p :
  Forall (fun '(_, _, k) => handler_safe k) t -> first_match method segs t = Some p -> plan_safe p.
Proof.
  induction 1 as [|[[m ps] k] t Hk _ IH]; [done|]. cbn [first_match].
  destruct (try_entry method segs (m, ps, k)) as [q|] eqn:E; [|done]. intros [= <-].
  unfold try_entry in E. case_bool_decide; [|done].
  destruct (match_segs ps segs) as [args|]; [|done]. by eapply Hk.
Qed.

(** C30. Whatever the request, the server answers it at once with a 4xx code, or does one thing
    for it, in which the names of cells, instances and projects of the path are safe
    identifiers, backup identifiers well formed, actions and operations known ones, domain
    names and the checked fields of a creation safe, and numbers within their limits.  What
    is not checked, the format of a backup, the user of a single sign-on, the project and
    environment of an adoption, the fields of a new database, the text of a query or a
    configuration, the login and modules of a module operation, is carried just as the body
    or the query gives it, with the documented defaults.  When the token does not pass,
    nothing is done but the two open endpoints. *)
Theorem route_safe token method path :
  plan_safe (route token method path query headers body)
  /\ (check_auth token headers = false ->
      route token method path query headers body ∈ [unauthorized; Forward Health; Forward RenderMetrics]).
Proof.
  unfold route. split.
  - repeat match goal with |- context [if ?c then _ else _] => destruct c; [done|] end.
    destruct (first_match _ _ _) as [p|] eqn:E; [|done].
    eapply first_match_safe; [apply table_safe|exact E].
  - intros ->. repeat case_match; set_solver.
Qed.
End Carried.
End Safety.

(** ** No entry of the table shadows another *)
Fixpoint unify (ps qs : list pat) : bool :=
  match ps, qs with
  | [], [] => true
  | L s :: ps, L t :: qs => bool_decide (s = t) && unify ps qs
  | _ :: ps, _ :: qs => unify ps qs
  | _, _ => false
  end.

Lemma unify_complete ps qs segs xs ys :
  match_segs ps segs = Some xs -> match_segs qs segs = Some ys -> unify ps qs = true.
Proof.
  revert qs segs xs ys. induction ps as [|p ps IH]; intros qs [|x segs] xs ys.
  - by destruct qs as [|[] qs].
  - done.
  - by destruct p.
  - destruct qs as [|q qs]; [by intros _|].
    destruct p as [s|], q as [t|]; simpl; repeat case_bool_decide; try done;
      intros Hp Hq; subst; try apply fmap_Some in Hp as (xs' & Hp & _);
      try apply fmap_Some in Hq as (ys' & Hq & _); try (rewrite bool_decide_eq_true_2 by done);
      simpl; try by eapply IH. done.
Qed.

Definition clash (k1 k2 : string * list pat) : bool :=
  bool_decide (k1.1 = k2.1) && unify k1.2 k2.2.
Fixpoint distinct (ks : list (string * list pat)) : bool :=
  match ks with [] => true | k :: ks => forallb (fun k' => negb (clash k k')) ks && distinct ks end.

Section Reach.
Context `{Serde}.

Lemma table_distinct query headers body : distinct (map fst (table query headers body)) = true.
Proof. by vm_compute. Qed.

Lemma try_key method segs e p :
  try_entry method segs e = Some p -> method = e.1.1 /\ exists xs, match_segs e.1.2 segs = Some xs.
Proof.
  destruct e as [[m ps] k]. unfold try_entry. case_bool_decide as Hm; [|done].
  destruct (match_segs ps segs) as [xs|] eqn:E; [|done]. intros _. split; [done|]. by exists xs.
Qed.

Lemma first_match_in method segs t e p :
  distinct (map fst t) = true -> In e t -> try_entry method segs e = Some p ->
  first_match method segs t = Some p.
Proof.
  induction t as [|e' t IH]; [done|]. cbn [map distinct]. intros [Hd Hds]%andb_true_iff Hin Hp.
  cbn [first_match]. destruct Hin as [->|Hin]; [by rewrite Hp|].
  destruct (try_entry method segs e') as [q|] eqn:E; [|by apply IH].
  destruct (try_key _ _ _ _ E) as [Hm (xs & Hx)], (try_key _ _ _ _ Hp) as [Hm' (ys & Hy)].
  rewrite forallb_forall in Hd. specialize (Hd (fst e) (in_map fst _ _ Hin)).
  unfold clash in Hd. rewrite (unify_complete _ _ _ _ _ Hx Hy), bool_decide_eq_true_2 in Hd by congruence.
  done.
Qed.

(** ** URLs *)
Fixpoint fill_pat (ps : list pat) (xs : list string) : list string :=
  match ps, xs with
  | [], _ => []
  | L s :: ps, _ => s :: fill_pat ps xs
  | V :: ps, x :: xs => x :: fill_pat ps xs
  | V :: ps, [] => []
  end.

Definition holes (ps : list pat) : nat := length (List.filter (fun p => match p with V => true | L _ => false end) ps).

Lemma match_fill ps xs : length xs = holes ps -> match_segs ps (fill_pat ps xs) = Some xs.
Proof.
  revert xs. unfold holes. induction ps as [|[s|] ps IH]; intros xs; cbn.
  - by destruct xs.
  - intros Hl. rewrite bool_decide_eq_true_2 by done. by apply IH.
  - destruct xs as [|x xs]; [done|]. intros [= Hl]. cbn. by rewrite IH.
Qed.

Definition url (segs : list string) : string := "/" +:+ join_with "/" segs.

Lemma drop_slashes_id s : head (String.list_ascii_of_string s) <> Some "/"%char -> drop_slashes s = s.
Proof. destruct s as [|c s]; [done|]. simpl. destruct (Ascii.eqb_spec c "/"); [by subst|done]. Qed.

Lemma segments_url segs :
  head segs = Some "api" -> Forall (fun s => char_in "/" s = false) segs -> segments (url segs) = segs.
Proof.
  intros Hh Hs. unfold segments, url. change ("/" +:+ ?s) with (String "/" s). cbn [drop_slashes].
  rewrite Ascii.eqb_refl, drop_slashes_id.
  - apply split_join; [by destruct segs|done].
  - destruct segs as [|s segs]; [done|]. injection Hh as ->. by destruct segs.
Qed.

Definition query_of (l : list (string * string)) : string :=
  join_with "&" (map (fun '(k, v) => k +:+ "=" +:+ v) l).
Definition plain_pair (kv : string * string) : Prop :=
  char_in "&" kv.1 = false /\ char_in "=" kv.1 = false /\ char_in "&" kv.2 = false.

Lemma query_get_of l key :
  Forall plain_pair l ->
  query_get (query_of l) key = snd <$> find (fun '(k, _) => bool_decide (k = key)) l.
Proof.
  intros Hl. destruct l as [|kv0 l0]; [done|].
  assert (Hne : kv0 :: l0 <> []) by done. revert Hl Hne. generalize (kv0 :: l0). intros l Hl Hne.
  unfold query_get, query_of. rewrite split_join.
  - f_equal. f_equal. clear Hne. induction Hl as [|[k v] l (_ & Hk & _) _ IH]; [done|]. cbn [map].
    change (k +:+ "=" +:+ v) with (k +:+ String "=" v). cbn [omap list_omap].
    rewrite split_once_plain by done. f_equal. exact IH.
  - by destruct l.
  - apply List.Forall_map. eapply Forall_impl; [|exact Hl]. intros [k v] (H1 & _ & H2).
    simpl in H1, H2. by rewrite !char_in_app, H1, H2.
Qed.

Definition num_param (key : string) (o : option Z) : list (string * string) :=
  match o with Some z => [(key, dec z)] | None => [] end.
Definition logs_query (tail from_offset max_lines wait_ms : option Z) : string :=
  query_of (num_param "tail" tail ++ num_param "from_offset" from_offset
            ++ num_param "max_lines" max_lines ++ num_param "wait_ms" wait_ms).

Definition opt_u64 (o : option Z) : Prop := match o with Some z => is_u64 z | None => True end.

Lemma logs_query_get t f m w :
  opt_u64 t -> opt_u64 f -> opt_u64 m -> opt_u64 w ->
  usize_param (logs_query t f m w) "tail" = t
  /\ usize_param (logs_query t f m w) "from_offset" = f
  /\ usize_param (logs_query t f m w) "max_lines" = m
  /\ usize_param (logs_query t f m w) "wait_ms" = w.
Proof.
  intros Ht Hf Hm Hw.
  assert (Hdec : forall o, opt_u64 o -> match o with Some z => parse_uint (2 ^ 64 - 1) (dec z) = Some z | None => True end).
  { intros [z|] Hz; [|done]. apply parse_uint_dec; [done|]. unfold opt_u64, is_u64 in Hz. lia. }
  assert (Hp : forall k o, opt_u64 o -> char_in "&" k = false -> char_in "=" k = false ->
    Forall plain_pair (num_param k o)).
  { intros k [z|] Hz H1 H2; simpl; [|constructor]. constructor; [|constructor].
    split_and!; [done|done|]. apply dec_plain; [unfold opt_u64, is_u64 in Hz; lia|done]. }
  unfold usize_param, logs_query. rewrite !query_get_of by (rewrite !Forall_app; split_and!; by apply Hp).
  pose proof (Hdec t Ht). pose proof (Hdec f Hf). pose proof (Hdec m Hm). pose proof (Hdec w Hw).
  destruct t, f, m, w; cbn -[dec parse_uint Z.pow Z.sub]; split_and!; done.
Qed.

(** the endpoint of a request that needs no body, with the arguments of its path *)
Definition endpoint (cell : string) (req : IpcRequest) : option (string * list pat * list string * string) :=
  match req with
  | ListCells => Some ("GET", api [L "cells"], [], "")
  | PurgeCache => Some ("POST", api [L "admin"; L "cache"; L "purge"], [], "")
  | GetEnterpriseStatus c => Some ("GET", api [L "cells"; V; L "enterprise"], [c], "")
  | CellCapacity c => Some ("GET", api [L "cells"; V; L "capacity"], [c], "")
  | ProjectLookup p => Some ("GET", api [L "projects"; V], [p], "")
  | GetInfo n => Some ("GET", inst [], [cell; n], "")
  | GetCreateStatus c n => Some ("GET", inst [L "create-status"], [c; n], "")
  | DeleteInstance n d => Some ("DELETE", inst [], [cell; n], if d then "" else "drop_db=0")
  | MetricsForVm n => Some ("GET", inst [L "metrics"], [cell; n], "")
  | ReloadWorkers n => Some ("POST", inst [L "reload"], [cell; n], "")
  | Sso n u => if bool_decide (u = "admin") then Some ("POST", inst [L "sso"], [cell; n], "") else None
  | CreateBackup c n f =>
      if bool_decide (f = "odoo") then Some ("POST", inst [L "backup"], [c; n], "") else None
  | GetBackupStatus id => Some ("GET", api [L "backups"; V; L "status"], [id], "")
  | Diag n => Some ("GET", inst [L "diag"], [cell; n], "")
  | BalloonActive n => Some ("POST", inst [L "balloon"], [cell; n], "")
  | GetLogs n t f m w => Some ("GET", inst [L "logs"], [cell; n], logs_query t f m w)
  | DeleteDns n d => Some ("DELETE", inst [L "dns"], [cell; n], if d then "delete_cert=1" else "")
  | _ => None
  end.

(** the numbers of a request are as the URL can carry them *)
Definition numbers_ok (req : IpcRequest) : Prop :=
  match req with
  | GetLogs _ t f m w =>
      opt_u64 t /\ opt_u64 f /\ opt_u64 m /\ opt_u64 w /\ match m with Some z => 1 <= z | None => True end
  | _ => True
  end.

Lemma safe_no_slash s : is_safe_identifier s = true -> char_in "/" s = false.
Proof. intros [_ Hs]%andb_true_iff. by apply (refuses_spec id_char shell_meta s "/"%char eq_refl Hs). Qed.

Lemma hexdigit_char c : is_hexdigit c = true -> c <> "/"%char.
Proof. by intros Hc ->. Qed.

Lemma job_id_no_slash s : is_job_id s = true -> char_in "/" s = false.
Proof.
  intros [[_ Hp]%andb_true_iff Hh]%andb_true_iff. apply starts_with_spec in Hp as [t ->].
  rewrite char_in_app. apply not_true_iff_false. intros Hin.
  rewrite list_ascii_app, drop_app_length' in Hh by done.
  apply orb_true_iff in Hin as [Hin|Hin]; [done|].
  apply existsb_exists in Hin as (x & Hx & E%Ascii.eqb_eq). subst x.
  rewrite forallb_forall in Hh. by apply (hexdigit_char _ (Hh _ Hx)).
Qed.

Lemma route_entry token method ps k xs query headers body p :
  In (method, ps, k) (table query headers body) -> length xs = holes ps ->
  head (fill_pat ps xs) = Some "api" -> head (drop 2 (fill_pat ps xs)) <> Some "health" ->
  Forall (fun s => char_in "/" s = false) (fill_pat ps xs) ->
  check_auth token headers = true -> k xs = Some p ->
  route token method (url (fill_pat ps xs)) query headers body = p.
Proof.
  intros Hin Hl Hhead Hhealth Hs Hauth Hk.
  pose proof (segments_url _ Hhead Hs) as Hseg. unfold route.
  rewrite (bool_decide_eq_false_2 (url _ = "/api/v1/health")), (bool_decide_eq_false_2 (url _ = "/metrics")).
  - rewrite !andb_false_r, Hauth. cbn [negb]. rewrite Hseg.
    rewrite (first_match_in _ _ _ _ p (table_distinct _ _ _) Hin); [done|].
    unfold try_entry. rewrite bool_decide_eq_true_2, (match_fill ps xs Hl) by done. done.
  - intros E. rewrite E in Hseg. rewrite <- Hseg in Hhead. done.
  - intros E. rewrite E in Hseg. by rewrite <- Hseg in Hhealth.
Qed.

Lemma with_ident_ok err s k : is_safe_identifier s = true -> with_ident err s k = k.
Proof. unfold with_ident. by intros ->. Qed.
Lemma with_name_ok s k : is_safe_identifier s = true -> with_name s k = k.
Proof. apply with_ident_ok. Qed.
Lemma with_both_ok c n k : is_safe_identifier c = true -> is_safe_identifier n = true -> with_both c n k = k.
Proof. unfold with_both. by intros -> ->. Qed.

Lemma logs_ok n t f m w :
  request_safe (GetLogs n t f m w) -> numbers_ok (GetLogs n t f m w) ->
  logs n (logs_query t f m w) = Forward (GetLogs n t f m w).
Proof.
  intros (_ & Ht & Hm & Hw) (H1 & H2 & H3 & H4 & H5). unfold logs.
  destruct (logs_query_get t f m w) as (-> & -> & -> & ->); [done..|].
  f_equal. f_equal.
  - destruct t; cbn in *; f_equal; lia.
  - destruct m; cbn in *; f_equal; unfold clamp; lia.
  - destruct w; cbn in *; f_equal; lia.
Qed.

(** Every endpoint is reached.  For each request of the protocol that needs no body,
    whatever its (safe) names and numbers, the URL that the API documents for it is routed
    to exactly that request: no endpoint is shadowed by another, and the numbers of a
    log request come back as they were sent. *)
Lemma endpoint_reached token cell req method ps xs query headers :
  endpoint cell req = Some (method, ps, xs, query) ->
  is_safe_identifier cell = true -> request_safe req -> numbers_ok req ->
  check_auth token headers = true ->
  route token method (url (fill_pat ps xs)) query headers [] = Forward req.
Proof.
  intros He Hc Hr Hn Hauth. pose proof (safe_no_slash cell Hc) as Hcs.
  destruct req; cbn in He, Hr, Hn; try case_bool_decide; simplify_eq; destruct_and?;
    (eapply route_entry; [by unfold table; repeat (first [left; reflexivity|right])|done|done|done| |exact Hauth|]).
  all: try (repeat constructor; eauto using safe_no_slash, job_id_no_slash; done).
  all: unfold named, celled, cell_and_name, job, one, two;
    rewrite ?with_name_ok, ?with_ident_ok, ?with_both_ok by done; try done.
  - by destruct drop_db.
  - by rewrite logs_ok.
  - by destruct delete_cert.
  - by rewrite Hr.
Qed.
End Reach.
