(* ===== verification/Server.v ===== *)
(** * A request from the socket to the daemon (nkr_api_server.rs [main])

    The parts together: what a client writes, how the server reads it and routes it, and
    what it answers. *)
From S2P Require Import Prelude Text Http Ipc Json Route.

(** ** What a client writes *)
Definition header_ok (kv : string * string) : Prop :=
  plain_text kv.1 /\ plain_text kv.2 /\ char_in ":" kv.1 = false
  /\ trim kv.1 = kv.1 /\ trim kv.2 = kv.2 /\ to_lowercase kv.1 <> "content-length".

Definition request_line (method path query : string) : string :=
  method +:+ " " +:+ path +:+ (if bool_decide (query = "") then "" else "?" +:+ query) +:+ " HTTP/1.1".
Definition request_lines (method path query : string) (hs : list (string * string)) : list string :=
  request_line method path query :: map field_line hs.
(** the head of the request, without the empty line *)
Definition request_text (method path query : string) (hs : list (string * string)) : string :=
  let ls := request_lines method path query hs in
  join_with LF (map (fun l => l +:+ String CR "") (removelast ls) ++ [List.last ls ""]).

Definition no_space (s : string) : Prop :=
  Forall (fun c => is_space c = false) (String.list_ascii_of_string s).

(** ** Lines and words *)
Lemma lines_crlf (ls : list string) (l : string) :
  Forall plain_text ls -> plain_text l -> l <> "" ->
  lines (join_with LF (map (fun l => l +:+ String CR "") ls ++ [l])) = ls ++ [l].
Proof.
  intros Hls [Hcr Hlf] Hne. unfold lines. rewrite split_join.
  - rewrite last_snoc. destruct l as [|c l]; [done|]. cbv iota.
    rewrite map_app, map_map. cbn [map]. rewrite (chomp_cr_plain (String c l)) by done. f_equal.
    rewrite <- (map_id ls) at 2. apply map_ext, chomp_cr_line.
  - by destruct (map _ _).
  - apply Forall_app. split; [|by repeat constructor]. apply List.Forall_map.
    eapply Forall_impl; [|exact Hls]. intros x [_ Hx]. by rewrite char_in_app, Hx.
Qed.

Lemma words_word w rest cur :
  Forall (fun c => is_space c = false) w ->
  words_of (w ++ rest) cur = words_of rest (reverse w ++ cur).
Proof.
  intros Hw. revert cur. induction Hw as [|c w Hc _ IH]; intros cur; [done|].
  cbn [app words_of]. rewrite Hc, IH. by rewrite reverse_cons, <- app_assoc.
Qed.

Lemma split_words s t :
  no_space s -> s <> "" -> split_whitespace (s +:+ " " +:+ t) = s :: split_whitespace t.
Proof.
  intros Hs Hne. unfold split_whitespace. rewrite !list_ascii_app, words_word by done.
  cbn [String.list_ascii_of_string app words_of]. rewrite app_nil_r.
  change (is_space " ") with true. cbv iota.
  destruct (reverse (String.list_ascii_of_string s)) as [|c l] eqn:E.
  - apply (f_equal reverse) in E. rewrite reverse_involutive in E. by destruct s.
  - rewrite <- E, reverse_involutive, String.string_of_list_ascii_of_string. done.
Qed.

Lemma split_last_word s : no_space s -> s <> "" -> split_whitespace s = [s].
Proof.
  intros Hs Hne. unfold split_whitespace. rewrite <- (app_nil_r (String.list_ascii_of_string s)), words_word by done.
  cbn [words_of]. rewrite app_nil_r.
  destruct (reverse (String.list_ascii_of_string s)) as [|c l] eqn:E.
  - apply (f_equal reverse) in E. rewrite reverse_involutive in E. by destruct s.
  - by rewrite <- E, reverse_involutive, String.string_of_list_ascii_of_string.
Qed.

Lemma no_space_append s t : no_space (s +:+ t) <-> no_space s /\ no_space t.
Proof. unfold no_space. rewrite list_ascii_app. apply Forall_app. Qed.

(** the path and the query are read back *)
Lemma parse_request_line_spec headers method path query rest :
  lines headers = request_line method path query :: rest ->
  no_space method -> method <> "" -> no_space path -> path <> "" -> no_space query ->
  char_in "?" path = false ->
  parse_request_line headers = Some (method, path, query).
Proof.
  intros Hl Hm Hm0 Hp Hp0 Hq Hpq. unfold parse_request_line. rewrite Hl. cbn [head option_bind mbind].
  unfold request_line. rewrite split_words by done.
  rewrite <- string_app_assoc. change (" HTTP/1.1") with (" " +:+ "HTTP/1.1").
  rewrite split_words.
  - case_bool_decide as E.
    + subst query. rewrite app_nil_string, split_once_none by done. done.
    + change ("?" +:+ query) with (String "?" query). by rewrite split_once_plain.
  - apply no_space_append. split; [done|]. case_bool_decide; [constructor|].
    apply no_space_append. split; [repeat constructor|done].
  - by destruct path.
Qed.

Lemma field_line_parse kv :
  header_ok kv ->
  split_once ":" (field_line kv) = Some (kv.1, " " +:+ kv.2).
Proof.
  destruct kv as [k v]. intros (_ & _ & Hk & _). simpl in *. unfold field_line. simpl fst. simpl snd.
  change (": " +:+ v) with (String ":" (" " +:+ v)). by rewrite split_once_plain.
Qed.

Lemma trim_space v : trim (" " +:+ v) = trim v.
Proof. done. Qed.

Lemma parse_headers_spec headers first hs :
  lines headers = first :: map field_line hs -> Forall header_ok hs -> parse_headers headers = hs.
Proof.
  intros Hl Hh. unfold parse_headers. rewrite Hl. change (drop 1 (first :: ?l)) with l. clear Hl.
  induction Hh as [|kv hs Hkv _ IH]; [done|]. cbn [map omap list_omap].
  rewrite (field_line_parse kv Hkv). destruct kv as [k v], Hkv as (_ & _ & _ & Hk & Hv & _).
  cbn [mbind option_bind fst snd] in *. rewrite trim_space, Hk, Hv. by rewrite <- IH at 2.
Qed.

Lemma content_length_none headers first hs :
  lines headers = first :: map field_line hs -> Forall header_ok hs -> char_in ":" first = false ->
  content_length headers = 0.
Proof.
  intros Hl Hh Hf. unfold content_length. rewrite Hl. cbn [omap list_omap].
  rewrite split_once_none by done. clear Hl.
  assert (E : find (fun '(k, _) => eq_ignore_ascii_case (trim k) "Content-Length")
    (omap (split_once ":") (map field_line hs)) = None).
  { induction Hh as [|kv hs Hkv _ IH]; [done|]. cbn [map omap list_omap].
    rewrite (field_line_parse kv Hkv). destruct kv as [k v], Hkv as (_ & _ & _ & Hk & _ & Hne).
    cbn [find fst]. simpl in Hk, Hne. rewrite Hk. unfold eq_ignore_ascii_case.
    by rewrite bool_decide_eq_false_2. }
  cbn [omap list_omap] in E |- *. by rewrite E.
Qed.

(** ** The characters of a URL *)
Definition url_char (c : ascii) : bool := id_char c || Ascii.eqb c "/" || Ascii.eqb c "&" || Ascii.eqb c "=".

Lemma url_char_ok c : url_char c = true ->
  is_space c = false /\ c <> "?"%char /\ c <> ":"%char /\ c <> CR /\ c <> LF.
Proof. destruct c as [[] [] [] [] [] [] [] []]; vm_compute; intros [=]; split_and!; done. Qed.

Lemma url_text_ok s : all_chars url_char s = true ->
  no_space s /\ char_in "?" s = false /\ char_in ":" s = false /\ plain_text s.
Proof.
  intros Hs. split.
  - unfold no_space. unfold all_chars in Hs. rewrite forallb_forall in Hs. apply List.Forall_forall.
    intros c Hc. apply (url_char_ok c), Hs, Hc.
  - assert (Hno : forall x, (forall c, url_char c = true -> c <> x) -> char_in x s = false).
    { intros x Hx. apply not_true_iff_false. intros Hin.
      by apply (Hx x (proj1 (all_chars_spec _ _) Hs x Hin)). }
    unfold plain_text. split_and!; apply Hno; intros c Hc; apply (url_char_ok c Hc).
Qed.

Lemma all_chars_app p s t : all_chars p (s +:+ t) = all_chars p s && all_chars p t.
Proof. unfold all_chars. by rewrite list_ascii_app, forallb_app. Qed.

Lemma all_chars_join p c l :
  p c = true -> Forall (fun s => all_chars p s = true) l -> all_chars p (join_with c l) = true.
Proof.
  intros Hc. induction 1 as [|s l Hs Hl IH]; [done|]. destruct l as [|s2 l]; [done|].
  change (join_with c (s :: s2 :: l)) with (s +:+ String c (join_with c (s2 :: l))).
  rewrite all_chars_app, Hs. unfold all_chars at 1. cbn [String.list_ascii_of_string forallb].
  rewrite Hc. exact IH.
Qed.

Lemma id_url c : id_char c = true -> url_char c = true.
Proof. unfold url_char. by intros ->. Qed.

Lemma all_chars_impl p q s : (forall c, p c = true -> q c = true) -> all_chars p s = true -> all_chars q s = true.
Proof. unfold all_chars. rewrite !forallb_forall. auto. Qed.

Lemma safe_url s : is_safe_identifier s = true -> all_chars url_char s = true.
Proof. intros [_ Hs]%andb_true_iff. by apply (all_chars_impl _ _ _ id_url). Qed.

Lemma hex_url c : is_hexdigit c = true -> url_char c = true.
Proof. destruct c as [[] [] [] [] [] [] [] []]; by vm_compute. Qed.

Lemma job_url s : is_job_id s = true -> all_chars url_char s = true.
Proof.
  intros [[_ Hp]%andb_true_iff Hh]%andb_true_iff. apply starts_with_spec in Hp as [t ->].
  rewrite list_ascii_app, drop_app_length' in Hh by done. rewrite all_chars_app.
  apply (all_chars_impl is_hexdigit); [apply hex_url|done].
Qed.

Lemma digit_url c : char_digit c <> None -> is_hexdigit c = true.
Proof. destruct c as [[] [] [] [] [] [] [] []]; by vm_compute. Qed.

Lemma dec_url z : 0 <= z -> all_chars url_char (dec z) = true.
Proof.
  intros Hz. unfold all_chars. apply forallb_forall. intros c Hc. apply hex_url, digit_url.
  pose proof (dec_digits z Hz) as Hd. rewrite List.Forall_forall in Hd. by apply Hd.
Qed.

Section Serve.
Context `{Serde}.

Definition target_ok (path query : string) : Prop :=
  all_chars url_char path = true /\ path <> "" /\ all_chars url_char query = true.

Lemma url_chars segs : Forall (fun s => all_chars url_char s = true) segs -> all_chars url_char (url segs) = true.
Proof. intros Hs. unfold url. rewrite all_chars_app. by apply all_chars_join. Qed.

Lemma query_chars l :
  Forall (fun kv => all_chars url_char kv.1 = true /\ all_chars url_char kv.2 = true) l ->
  all_chars url_char (query_of l) = true.
Proof.
  intros Hl. apply all_chars_join; [done|]. apply List.Forall_map. eapply Forall_impl; [|exact Hl].
  intros [k v] [Hk Hv]. simpl in Hk, Hv. by rewrite !all_chars_app, Hk, Hv.
Qed.

Lemma num_param_chars key o :
  all_chars url_char key = true -> opt_u64 o ->
  Forall (fun kv => all_chars url_char kv.1 = true /\ all_chars url_char kv.2 = true) (num_param key o).
Proof.
  intros Hk Ho. destruct o as [z|]; [|constructor]. constructor; [|constructor].
  split; [done|]. apply dec_url. unfold opt_u64, is_u64 in Ho. lia.
Qed.

Hint Resolve safe_url job_url : route.

Lemma endpoint_target cell req method ps xs query :
  endpoint cell req = Some (method, ps, xs, query) ->
  is_safe_identifier cell = true -> request_safe req -> numbers_ok req ->
  target_ok (url (fill_pat ps xs)) query /\ no_space method /\ method <> "" /\ plain_text method
  /\ char_in ":" method = false.
Proof.
  intros He Hc Hr Hn.
  assert (Hm : method ∈ ["GET"; "POST"; "DELETE"]).
  { destruct req; cbn in He; try case_bool_decide; simplify_eq; set_solver. }
  assert (Hmeth : no_space method /\ method <> "" /\ plain_text method /\ char_in ":" method = false).
  { repeat (apply elem_of_cons in Hm as [->|Hm]; [by repeat constructor|]). by apply elem_of_nil in Hm. }
  split; [|exact Hmeth]. split; [|split; [done|]].
  - apply url_chars. destruct req; cbn in He, Hr, Hn; try case_bool_decide; simplify_eq; destruct_and?;
      repeat constructor; eauto with route.
  - destruct req; cbn in He, Hr, Hn; try case_bool_decide; simplify_eq;
      try match goal with |- context [if ?b then _ else _] => destruct b end; try done.
    destruct_and?. unfold logs_query. apply query_chars. rewrite !Forall_app.
    split_and!; by apply num_param_chars.
Qed.

Lemma request_line_plain method path query :
  target_ok path query -> plain_text method -> char_in ":" method = false ->
  plain_text (request_line method path query) /\ char_in ":" (request_line method path query) = false.
Proof.
  intros (Hp & _ & Hq) Hm Hcm. destruct (url_text_ok path Hp) as (_ & _ & Hc & Hpt).
  destruct (url_text_ok query Hq) as (_ & _ & Hcq & Hpq). unfold request_line. split.
  - rewrite !plain_app. split_and!; try done. case_bool_decide; [done|]. by rewrite plain_app.
  - rewrite !char_in_app, Hcm, Hc. simpl. case_bool_decide; [done|]. by rewrite char_in_app, Hcq.
Qed.

Lemma request_lines_plain method path query hs :
  target_ok path query -> plain_text method -> char_in ":" method = false -> method <> "" ->
  Forall header_ok hs ->
  Forall (fun l => plain_text l /\ bytes_of_string l <> []) (request_lines method path query hs).
Proof.
  intros Ht Hm Hcm Hne Hh. constructor.
  - split; [by apply request_line_plain|]. unfold request_line. by destruct method.
  - apply List.Forall_map. eapply Forall_impl; [|exact Hh]. intros [k v] (Hk & Hv & _).
    simpl in Hk, Hv. unfold field_line. simpl fst. simpl snd. split; [by rewrite !plain_app|].
    rewrite bytes_app. by destruct (bytes_of_string k).
Qed.

Lemma request_text_lines method path query hs :
  target_ok path query -> plain_text method -> char_in ":" method = false -> method <> "" ->
  Forall header_ok hs ->
  lines (request_text method path query hs) = request_lines method path query hs
  /\ forall rest, find_double_crlf (bytes_of_string (request_text method path query hs) ++ crlf2 ++ rest)
     = Some (length (bytes_of_string (request_text method path query hs))).
Proof.
  intros Ht Hm Hcm Hne Hh. pose proof (request_lines_plain _ _ _ _ Ht Hm Hcm Hne Hh) as Hp.
  unfold request_text. set (ls := request_lines method path query hs) in *.
  assert (Els : ls = removelast ls ++ [List.last ls ""]) by (by apply app_removelast_last).
  cbv zeta. rewrite Els in Hp. split; [|intros rest; by apply text_end].
  apply Forall_app in Hp as [Hp [[Hl1 Hl2] _]%list.Forall_cons]. rewrite Els at 3. apply lines_crlf.
  - eapply Forall_impl; [|exact Hp]. by intros x [].
  - done.
  - intros E. by rewrite E in Hl2.
Qed.

(** ** The whole way *)
Context `{CodecOk IpcRequest, CodecOk IpcResponse}.
Context {World : Type} (dispatch : IpcRequest -> World -> IpcResponse * World).
Context (lossy : list Z -> string).

(** The bytes that arrive are a request, and the answer is the daemon's. *)
Lemma serve_endpoint token ipc h s cell req method ps xs query hs rest :
  endpoint cell req = Some (method, ps, xs, query) ->
  is_safe_identifier cell = true -> request_safe req -> numbers_ok req ->
  check_auth token hs = true -> Forall header_ok hs ->
  let text := request_text method (url (fill_pat ps xs)) query hs in
  lossy (bytes_of_string text) = text -> Z.of_nat (String.length text) + 4 <= 65536 ->
  Forall good_chunk s -> chunks s = bytes_of_string text ++ crlf2 ++ rest ->
  serve lossy token ipc h s = inl (to_wire (ipc_to_http (ipc req))).
Proof.
  intros He Hc Hr Hn Hauth Hh text Hl Hsize Hs Hchunks.
  destruct (endpoint_target _ _ _ _ _ _ He Hc Hr Hn) as (Ht & Hm1 & Hm2 & Hm3 & Hm4).
  destruct (request_text_lines _ _ _ _ Ht Hm3 Hm4 Hm2 Hh) as [Hlines Hend].
  assert (Ecl : content_length text = 0).
  { apply (content_length_none text _ hs Hlines Hh). by apply request_line_plain. }
  unfold serve. rewrite (read_request_spec lossy s _ rest Hs Hchunks (Hend rest))
    by (rewrite length_bytes; exact Hsize).
  fold text. rewrite Hl, Ecl. change (1024 * 1024 <? 0) with false. cbv iota beta.
  destruct Ht as (Hp & Hp0 & Hq).
  destruct (url_text_ok _ Hp) as (Hpn & Hpq & _), (url_text_ok _ Hq) as (Hqn & _).
  rewrite (parse_request_line_spec text method (url (fill_pat ps xs)) query (map field_line hs)) by done.
  rewrite (parse_headers_spec text _ hs Hlines Hh), (endpoint_reached token cell req method ps xs query hs)
    by done.
  cbn [run_plan]. by destruct (ipc req).
Qed.

(** C1. A request goes through and its answer comes back.  For every request that needs
    no body, with safe names and a token that passes: whatever cuts the bytes on the
    client's connection and on the daemon's, if the encodings fit in a frame, the server
    writes one response; a reader of that response gets the daemon's very body, framed by
    its length, and the daemon has carried out exactly that request, once. *)
Theorem request_round_trip cut token h s cell req method ps xs query hs rest w resp w' :
  (forall bs, chunks (cut bs) = bs /\ Forall good_chunk (cut bs)) ->
  endpoint cell req = Some (method, ps, xs, query) ->
  is_safe_identifier cell = true -> request_safe req -> numbers_ok req ->
  check_auth token hs = true -> Forall header_ok hs ->
  let text := request_text method (url (fill_pat ps xs)) query hs in
  lossy (bytes_of_string text) = text -> Z.of_nat (String.length text) + 4 <= 65536 ->
  Forall good_chunk s -> chunks s = bytes_of_string text ++ crlf2 ++ rest ->
  fits req = true -> dispatch req w = (resp, w') -> fits resp = true ->
  let answer := ipc_to_http (inr resp) in
  response_ok answer -> lossy (bytes_of_string (header_text answer)) = header_text answer ->
  Z.of_nat (String.length (ipc_body resp)) <= 1024 * 1024 ->
  Z.of_nat (String.length (header_text answer)) + 4 <= 65536 ->
  exists out,
    serve lossy token (fun r => call dispatch cut r w) h s = inl out
    /\ fst (served dispatch cut req w) = w'
    /\ forall s', Forall good_chunk s' -> chunks s' = bytes_of_string out ->
       read_request lossy s' = Some (header_text answer, bytes_of_string (ipc_body resp)).
Proof.
  intros Hcut He Hc Hr Hn Hauth Hh text Hl Hsize Hs Hchunks Hfits Hd Hfits2 answer Hok Hl2 Hb Hsize2.
  assert (Ecall : call dispatch cut req w = inr resp).
  { rewrite (call_fits dispatch cut Hcut req w Hfits), Hd. by rewrite Hfits2. }
  exists (to_wire answer). split_and!.
  - rewrite (serve_endpoint token _ h s cell req method ps xs query hs rest) by done.
    cbv beta. by rewrite Ecall.
  - by rewrite (served_fits dispatch cut Hcut req w Hfits), Hd.
  - intros s' Hs' Hw. by apply (response_roundtrip lossy answer s').
Qed.
End Serve.

(** ** Example *)
Module ServerExample.
#[export] Instance serde : Serde := {
  parse_json _ := None; print_json _ := "{}"; parse_adopt _ := None
}.
Definition request : string :=
  request_text "GET" "/api/v1/cells/odoo-v19/instances/acme_prod" "" [("Authorization", "Bearer s3cret")].
Definition arriving : stream :=
  let bs := bytes_of_string request ++ crlf2 in [Some (take 50 bs); Some (drop 50 bs)].
Definition nothing : HttpResponse := mkResponse 200 "" "text/plain" [] None.
Definition handlers : local_handlers :=
  mkLocal (fun _ _ => nothing) (fun _ _ _ => nothing) (fun _ _ => nothing) (fun _ _ _ => nothing) (fun _ => true).
End ServerExample.
Import ServerExample IpcExample.

Lemma request_round_trip_witness :
  exists out,
    serve string_of_bytes (Some "s3cret") (fun r => call IpcExample.dispatch bytewise r 7%nat) handlers arriving = inl out
    /\ fst (served IpcExample.dispatch bytewise (GetInfo "acme_prod") 7%nat) = 8%nat
    /\ forall s', Forall good_chunk s' -> chunks s' = bytes_of_string out ->
       exists headers, read_request string_of_bytes s' = Some (headers, bytes_of_string "info of acme_prod").
Proof.
  destruct (request_round_trip IpcExample.dispatch string_of_bytes bytewise (Some "s3cret") handlers arriving
    "odoo-v19" (GetInfo "acme_prod") "GET" (inst []) ["odoo-v19"; "acme_prod"] "" [("Authorization", "Bearer s3cret")]
    [] 7%nat (mkIpcResponse 200 "text/plain" "info of acme_prod") 8%nat)
    as (out & Ho & Hw & Hread);
    [apply bytewise_ok|by vm_compute|by vm_compute|by vm_compute|by vm_compute|by vm_compute
    |constructor; [split_and!; by vm_compute|constructor]|by vm_compute|by vm_compute
    |repeat constructor; eexists _, _; by vm_compute|by vm_compute|by vm_compute|by vm_compute
    |by vm_compute|split_and!; [by vm_compute|by vm_compute|constructor]|by vm_compute
    |by vm_compute|by vm_compute|].
  exists out. split; [exact Ho|]. split; [exact Hw|]. intros s' Hs' Hc. eexists. exact (Hread s' Hs' Hc).
Defined.

(** an unsafe name is refused, and a limit is applied *)
Example route_examples :
  route None "GET" "/api/v1/cells/c/instances/..%2f" "" [] [] = refuse 400 "invalid_nkr_name"
  /\ route None "GET" "/api/v1/cells/c/instances/a/logs" "tail=999999&wait_ms=5" [] []
     = Forward (GetLogs "a" (Some 10000) None None (Some 5)).
Proof. by vm_compute. Qed.
