(* ===== verification/Watchdog.v ===== *)
(** * The watchdog (src/watchdog.rs)

    Every 15 s the daemon probes port 8069 of the running VMs and restarts those that
    have not answered for long enough.  The state is the two maps of the source; a
    history is a list of sweeps and reload notices.  The specification is a monitor of one
    VM that sees only what concerns it; the maps refine one such monitor per VM. *)
From S2P Require Import Prelude Text Registry.

Definition PROBE_INTERVAL_SECS : Z := 15.
Definition HUNG_THRESHOLD_SECS : Z := 120.
Definition RELOAD_GRACE_SECS : Z := 240.
Definition RELOAD_THRESHOLD_SECS : Z := 180.

(** what the watchdog reads of a [VmState] *)
Record vm_info := mkVm { vm_name : string; vm_id : Z; vm_cell : Z }.

Record watchdog := mkWatchdog { hung_since : gmap string Z; last_reload : gmap string Z }.
#[export] Instance eta_watchdog : Eta watchdog := fun w => mkWatchdog (hung_since w) (last_reload w).

Definition note_reload (nkr_name : string) (now : Z) (w : watchdog) : watchdog :=
  w <| last_reload := <[nkr_name := now]> (last_reload w) |>.

Definition effective_threshold (nkr_name : string) (now : Z) (w : watchdog) : Z :=
  match last_reload w !! nkr_name with
  | Some ts => if sat_sub now ts <? RELOAD_GRACE_SECS then RELOAD_THRESHOLD_SECS else HUNG_THRESHOLD_SECS
  | None => HUNG_THRESHOLD_SECS
  end.

(** [s.ends_with(p)] *)
Definition ends_with (p s : string) : bool :=
  bool_decide (drop (String.length s - String.length p) (String.list_ascii_of_string s)
               = String.list_ascii_of_string p).
Definition skipped (name : string) : bool := ends_with "-db" name || ends_with "-pgb" name.

(** one VM of a sweep; the result says whether its restart is triggered *)
Definition check_vm (now : Z) (probe : string -> bool) (vm : vm_info) (w : watchdog) : bool * watchdog :=
  let name := vm_name vm in
  if skipped name then (false, w)
  else if probe (id_to_ip (vm_cell vm) (vm_id vm)) then (false, w <| hung_since ::= delete name |>)
  else
    let since := default now (hung_since w !! name) in
    let w := w <| hung_since ::= <[name := since]> |> in
    let elapsed := sat_sub now since in
    if elapsed <? effective_threshold name now w then (false, w)
    else (true, w <| hung_since ::= delete name |>).

Fixpoint sweep (now : Z) (probe : string -> bool) (vms : list vm_info) (w : watchdog)
  : list string * watchdog :=
  match vms with
  | [] => ([], w)
  | vm :: vms =>
      let '(r, w) := check_vm now probe vm w in
      let '(rs, w) := sweep now probe vms w in
      ((if r then vm_name vm :: rs else rs), w)
  end.

(** ** Triggering a restart *)
Inductive lock_result := Acquired | Held | LockError.
Definition trigger_restart (cell : option string) (try_acquire : string -> lock_result) : bool :=
  match cell with
  | Some c => match try_acquire c with Held => false | Acquired | LockError => true end
  | None => true
  end.

(** ** Histories *)
Inductive event :=
  | Sweep (now : Z) (probe : string -> bool) (vms : list vm_info)
  | Reload (now : Z) (nkr_name : string).

(** the restarts that are triggered, with their times *)
Definition wd_step (e : event) (w : watchdog) : list (Z * string) * watchdog :=
  match e with
  | Sweep now probe vms => let '(rs, w) := sweep now probe vms w in (map (pair now) rs, w)
  | Reload now n => ([], note_reload n now w)
  end.
Fixpoint wd_run (h : list event) (w : watchdog) : list (Z * string) * watchdog :=
  match h with
  | [] => ([], w)
  | e :: h => let '(r, w) := wd_step e w in let '(rs, w) := wd_run h w in (r ++ rs, w)
  end.
(** the maps that [run_loop] starts with *)
Definition wd_start : watchdog := mkWatchdog ∅ ∅.

(** ** The specification: a monitor of one VM *)
Inductive observation := Up (t : Z) | Down (t : Z) | Reloaded (t : Z).
Record monitor := mkMonitor { down_since : option Z; reloaded_at : option Z }.
#[export] Instance eta_monitor : Eta monitor := fun m => mkMonitor (down_since m) (reloaded_at m).

Definition patience (m : monitor) (now : Z) : Z :=
  match reloaded_at m with
  | Some ts => if sat_sub now ts <? RELOAD_GRACE_SECS then RELOAD_THRESHOLD_SECS else HUNG_THRESHOLD_SECS
  | None => HUNG_THRESHOLD_SECS
  end.

Definition mon_step (o : observation) (m : monitor) : list Z * monitor :=
  match o with
  | Up _ => ([], m <| down_since := None |>)
  | Reloaded t => ([], m <| reloaded_at := Some t |>)
  | Down t =>
      let since := default t (down_since m) in
      if sat_sub t since <? patience m t then ([], m <| down_since := Some since |>)
      else ([t], m <| down_since := None |>)
  end.
Fixpoint mon_run (os : list observation) (m : monitor) : list Z * monitor :=
  match os with
  | [] => ([], m)
  | o :: os => let '(r, m) := mon_step o m in let '(rs, m) := mon_run os m in (r ++ rs, m)
  end.
Definition mon_start : monitor := mkMonitor None None.

(** what a history shows of the VM called [n] *)
Definition observe (n : string) (e : event) : list observation :=
  match e with
  | Sweep now probe vms =>
      match find (fun vm => bool_decide (vm_name vm = n)) vms with
      | Some vm => [if probe (id_to_ip (vm_cell vm) (vm_id vm)) then Up now else Down now]
      | None => []
      end
  | Reload now n' => if bool_decide (n' = n) then [Reloaded now] else []
  end.

Definition view (n : string) (w : watchdog) : monitor := mkMonitor (hung_since w !! n) (last_reload w !! n).
Definition restarts_of (n : string) (rs : list (Z * string)) : list Z :=
  omap (fun '(t, n') => if bool_decide (n' = n) then Some t else None) rs.

Definition names_distinct (e : event) : Prop :=
  match e with Sweep _ _ vms => NoDup (map vm_name vms) | Reload _ _ => True end.

(** ** The maps refine the monitors *)
Lemma check_vm_other now probe vm w n :
  vm_name vm <> n -> view n (snd (check_vm now probe vm w)) = view n w.
Proof.
  intros Hne. unfold check_vm, view. repeat case_match; simpl; try done;
    by rewrite ?lookup_delete_ne, ?lookup_insert_ne by done.
Qed.

Definition as_restart (now : Z) (r : bool) : list Z := if r then [now] else [].

Lemma check_vm_same now probe vm w :
  skipped (vm_name vm) = false ->
  let '(r, w') := check_vm now probe vm w in
  (as_restart now r, view (vm_name vm) w') =
  mon_step (if probe (id_to_ip (vm_cell vm) (vm_id vm)) then Up now else Down now) (view (vm_name vm) w).
Proof.
  intros Hs. unfold check_vm. rewrite Hs. destruct (probe _); simpl.
  - unfold view. simpl. by rewrite lookup_delete_eq.
  - unfold effective_threshold, patience. simpl.
    match goal with |- context [if ?c then _ else _] => destruct c end; unfold view; simpl.
    + by rewrite lookup_insert_eq.
    + by rewrite lookup_delete_eq.
Qed.

Lemma restarts_cons (now : Z) (r : bool) (n name : string) (rs : list string) :
  restarts_of n (map (pair now) (if r then name :: rs else rs))
  = (if bool_decide (name = n) then as_restart now r else []) ++ restarts_of n (map (pair now) rs).
Proof. destruct r; simpl; by case_bool_decide. Qed.

Lemma sweep_other now probe vms w n :
  n ∉ map vm_name vms ->
  view n (snd (sweep now probe vms w)) = view n w
  /\ restarts_of n (map (pair now) (fst (sweep now probe vms w))) = [].
Proof.
  revert w. induction vms as [|vm vms IH]; intros w; [done|].
  cbn [map]. rewrite not_elem_of_cons. intros [Hne Hn]. cbn [sweep].
  pose proof (check_vm_other now probe vm w n (not_eq_sym Hne)) as Hv.
  destruct (check_vm now probe vm w) as [r w1]. destruct (IH w1 Hn) as [H1 H2].
  destruct (sweep now probe vms w1) as [rs w2]. simpl in *. split; [congruence|].
  rewrite restarts_cons, bool_decide_eq_false_2 by congruence. done.
Qed.

Lemma sweep_view now probe vms w n :
  NoDup (map vm_name vms) -> skipped n = false ->
  mon_run (observe n (Sweep now probe vms)) (view n w)
  = (restarts_of n (map (pair now) (fst (sweep now probe vms w))), view n (snd (sweep now probe vms w))).
Proof.
  revert w. induction vms as [|vm vms IH]; intros w Hnd Hs; [done|].
  apply list.NoDup_cons in Hnd as [Hni Hnd]. cbn [observe find sweep].
  destruct (check_vm now probe vm w) as [r w1] eqn:Ec.
  case_bool_decide as En.
  - subst n. pose proof (check_vm_same now probe vm w Hs) as Hc. rewrite Ec in Hc.
    destruct (sweep_other now probe vms w1 _ Hni) as [H1 H2].
    destruct (sweep now probe vms w1) as [rs w2]. simpl fst in *. simpl snd in *.
    rewrite restarts_cons, bool_decide_eq_true_2, H2, H1 by done.
    cbn [mon_run]. rewrite <- Hc. done.
  - specialize (IH w1 Hnd Hs). pose proof (check_vm_other now probe vm w n En) as Hv. rewrite Ec in Hv.
    destruct (sweep now probe vms w1) as [rs w2]. simpl fst in *. simpl snd in *.
    rewrite restarts_cons, bool_decide_eq_false_2 by done. rewrite <- Hv. exact IH.
Qed.

Lemma mon_run_app os1 os2 m :
  mon_run (os1 ++ os2) m =
  let '(r1, m1) := mon_run os1 m in let '(r2, m2) := mon_run os2 m1 in (r1 ++ r2, m2).
Proof.
  revert m. induction os1 as [|o os1 IH]; intros m; cbn [app mon_run]; [by destruct (mon_run os2 m)|].
  destruct (mon_step o m) as [r m1]. rewrite IH. destruct (mon_run os1 m1) as [r1 m2].
  destruct (mon_run os2 m2) as [r2 m3]. by rewrite app_assoc.
Qed.

Lemma wd_step_view n e w :
  names_distinct e -> skipped n = false ->
  mon_run (observe n e) (view n w) = (restarts_of n (fst (wd_step e w)), view n (snd (wd_step e w))).
Proof.
  intros Hd Hs. destruct e as [now probe vms|now n']; cbn [wd_step].
  - rewrite (sweep_view now probe vms w n Hd Hs). by destruct (sweep now probe vms w).
  - cbn [observe]. unfold view, note_reload. simpl. case_bool_decide as E; simpl.
    + subst. by rewrite lookup_insert_eq.
    + by rewrite lookup_insert_ne.
Qed.

Lemma restarts_app n l1 l2 : restarts_of n (l1 ++ l2) = restarts_of n l1 ++ restarts_of n l2.
Proof. apply omap_app. Qed.

Lemma wd_run_view n h w :
  Forall names_distinct h -> skipped n = false ->
  mon_run (concat (map (observe n) h)) (view n w)
  = (restarts_of n (fst (wd_run h w)), view n (snd (wd_run h w))).
Proof.
  intros Hd Hs. revert w. induction Hd as [|e h He _ IH]; intros w; [done|].
  cbn [map concat wd_run]. rewrite mon_run_app, (wd_step_view n e w He Hs).
  destruct (wd_step e w) as [r w1]. cbn [fst snd]. rewrite IH. destruct (wd_run h w1) as [rs w2].
  cbn [fst snd]. by rewrite restarts_app.
Qed.

Lemma check_skipped now probe vm w : skipped (vm_name vm) = true -> fst (check_vm now probe vm w) = false.
Proof. unfold check_vm. by intros ->. Qed.

Lemma skipped_never n h w : skipped n = true -> restarts_of n (fst (wd_run h w)) = [].
Proof.
  intros Hs. revert w. induction h as [|e h IH]; intros w; [done|]. cbn [wd_run].
  assert (He : restarts_of n (fst (wd_step e w)) = []).
  { destruct e as [now probe vms|]; [|done]. cbn [wd_step].
    assert (E : forall w, restarts_of n (map (pair now) (fst (sweep now probe vms w))) = []).
    { clear w. induction vms as [|vm vms IHv]; intros w; [done|]. cbn [sweep].
      pose proof (check_skipped now probe vm w) as Hc. destruct (check_vm now probe vm w) as [r w1].
      specialize (IHv w1). destruct (sweep now probe vms w1) as [rs w2]. simpl fst in *.
      rewrite restarts_cons, IHv. case_bool_decide as E; [|done]. subst n. by rewrite Hc. }
    specialize (E w). by destruct (sweep now probe vms w). }
  destruct (wd_step e w) as [r w1]. specialize (IH w1). destruct (wd_run h w1) as [rs w2].
  simpl in *. by rewrite restarts_app, He, IH.
Qed.

(** C4. The watchdog is one monitor per VM.  Over every history of sweeps (each with
    distinct names) and reload notices, the restarts of a VM and its entries in the maps
    are those of a monitor that sees only the probes and the reloads of that VM: no VM's
    entry disturbs another's.  The database and pooler VMs are never restarted. *)
Theorem watchdog_refines_monitors h n :
  Forall names_distinct h ->
  if skipped n then restarts_of n (fst (wd_run h wd_start)) = []
  else mon_run (concat (map (observe n) h)) mon_start
       = (restarts_of n (fst (wd_run h wd_start)), view n (snd (wd_run h wd_start))).
Proof.
  intros Hd. destruct (skipped n) eqn:Hs; [by apply skipped_never|].
  by rewrite <- (wd_run_view n h wd_start Hd Hs).
Qed.

(** ** What a monitor does *)
Definition is_up (o : observation) : bool := match o with Up _ => true | _ => false end.
Definition not_up (os : list observation) : Prop := Forall (fun o => is_up o = false) os.
(** the last reload of a list of observations *)
Definition last_reloaded (os : list observation) : option Z :=
  list.last (omap (fun o => match o with Reloaded t => Some t | _ => None end) os).
Definition threshold_after (os : list observation) (now : Z) : Z :=
  patience (mkMonitor None (last_reloaded os)) now.

(** the mark of a monitor is the start of a run of failures *)
Definition mon_inv (os : list observation) (m : monitor) : Prop :=
  reloaded_at m = last_reloaded os
  /\ forall t0, down_since m = Some t0 -> exists a b, os = a ++ Down t0 :: b /\ not_up b.

Lemma mon_step_inv os m o : mon_inv os m -> mon_inv (os ++ [o]) (snd (mon_step o m)).
Proof.
  intros [Hr Hd]. unfold mon_inv, last_reloaded in *. rewrite omap_app.
  destruct o as [t|t|t]; simpl; rewrite ?app_nil_r, ?last_snoc.
  - split; [done|]. by intros t0 [=].
  - assert (Hn : forall t0, Some (default t (down_since m)) = Some t0 ->
      exists a b, os ++ [Down t] = a ++ Down t0 :: b /\ not_up b).
    { intros t0 [= <-]. destruct (down_since m) as [s|]; simpl.
      - destruct (Hd s eq_refl) as (a & b & -> & Hb). exists a, (b ++ [Down t]).
        rewrite <- app_assoc. split; [done|]. apply Forall_app. by repeat constructor.
      - exists os, []. by repeat constructor. }
    case_match; simpl; (split; [done|]); [exact Hn|by intros t0 [=]].
  - split; [done|]. intros t0 Ht. destruct (Hd t0 Ht) as (a & b & -> & Hb).
    exists a, (b ++ [Reloaded t]). rewrite <- app_assoc. split; [done|].
    apply Forall_app. by repeat constructor.
Qed.

Lemma patience_range m t : 120 <= patience m t <= 180.
Proof. unfold patience. repeat case_match; by vm_compute. Qed.

Lemma mon_restart_why os0 m os t :
  mon_inv os0 m -> In t (fst (mon_run os m)) ->
  exists a t0 b c, os0 ++ os = a ++ Down t0 :: b ++ Down t :: c /\ not_up b
    /\ threshold_after (a ++ Down t0 :: b) t <= sat_sub t t0.
Proof.
  revert os0 m. induction os as [|o os IH]; intros os0 m Hinv; [done|]. cbn [mon_run].
  pose proof (mon_step_inv os0 m o Hinv) as Hinv'.
  destruct (mon_step o m) as [r m1] eqn:Es. destruct (mon_run os m1) as [rs m2] eqn:Er.
  cbn [fst snd] in *. intros [Hin|Hin]%in_app_or.
  - destruct Hinv as [Hr Hd]. destruct o as [t'|t'|t']; cbn [mon_step] in Es.
    + by injection Es as <- _.
    + destruct (Z.ltb_spec (sat_sub t' (default t' (down_since m))) (patience m t')) as [Hlt|Hge];
        injection Es as <- _; [done|]. destruct Hin as [<-|[]].
      destruct (down_since m) as [s|] eqn:Ed; simpl in Hge.
      * destruct (Hd s eq_refl) as (a & b & -> & Hb). exists a, s, b, os.
        rewrite <- app_assoc. split_and!; [done|done|]. unfold threshold_after, patience in *.
        simpl. by rewrite <- Hr.
      * pose proof (patience_range m t'). unfold sat_sub in Hge. lia.
    + by injection Es as <- _.
  - destruct (IH (os0 ++ [o]) m1 Hinv') as (a & t0 & b & c & E & Hb & Ht).
    { by rewrite Er. }
    exists a, t0, b, c. split_and!; [|done|done]. by rewrite <- E, <- app_assoc.
Qed.

(** while nothing is restarted, the first failure stays marked *)
Lemma mon_quiet os m t0 :
  not_up os -> fst (mon_run os m) = [] -> down_since m = Some t0 -> down_since (snd (mon_run os m)) = Some t0.
Proof.
  intros Hu. revert m. induction Hu as [|o os Ho _ IH]; intros m; [done|]. cbn [mon_run].
  destruct (mon_step o m) as [r m1] eqn:Es. intros Hq Hd.
  specialize (IH m1). destruct (mon_run os m1) as [rs m2]. simpl in *.
  apply app_eq_nil in Hq as [-> ->]. apply IH; [done|].
  destruct o as [t|t|t]; [done| |]; cbn [mon_step] in Es.
  - rewrite Hd in Es. simpl in Es. case_match; by simplify_eq/=.
  - by simplify_eq/=.
Qed.

Lemma mon_detects os m t1 t :
  not_up os -> match down_since m with Some s => s <= t1 | None => True end ->
  RELOAD_THRESHOLD_SECS <= t - t1 ->
  fst (mon_run (Down t1 :: os ++ [Down t]) m) <> [].
Proof.
  intros Hu Hs Ht Hq. cbn [mon_run] in Hq. destruct (mon_step (Down t1) m) as [r m1] eqn:E1.
  rewrite mon_run_app in Hq. pose proof (mon_quiet os m1) as Hm.
  destruct (mon_run os m1) as [r2 m2]. cbn [mon_run] in Hq. destruct (mon_step (Down t) m2) as [r3 m3] eqn:E3.
  simpl fst in *. simpl snd in *. apply app_eq_nil in Hq as [Hr1 [Hr2 [Hr3 _]%app_eq_nil]%app_eq_nil].
  cbn [mon_step] in E1, E3. set (s := default t1 (down_since m)) in *.
  assert (Hs1 : s <= t1) by (unfold s; destruct (down_since m); simpl; lia).
  assert (Hd : down_since m1 = Some s) by (destruct (sat_sub t1 s <? patience m t1); injection E1 as <- <-; done).
  rewrite (Hm s Hu Hr2 Hd) in E3. simpl in E3.
  pose proof (patience_range m2 t). unfold RELOAD_THRESHOLD_SECS in Ht.
  destruct (Z.ltb_spec (sat_sub t s) (patience m2 t)) as [Hlt|Hge].
  - unfold sat_sub in Hlt. lia.
  - injection E3 as <- _. done.
Qed.

Lemma restarts_in n t rs : In (t, n) rs -> In t (restarts_of n rs).
Proof.
  unfold restarts_of. intros H. apply list_elem_of_In, list_elem_of_omap. exists (t, n).
  split; [by apply list_elem_of_In|]. by rewrite bool_decide_eq_true_2.
Qed.
Lemma in_restarts n t rs : In t (restarts_of n rs) -> In (t, n) rs.
Proof.
  unfold restarts_of. intros ((t' & n') & Hin & E)%list_elem_of_In%list_elem_of_omap.
  case_bool_decide; simplify_eq/=. by apply list_elem_of_In.
Qed.

Definition seen (n : string) (h : list event) : list observation := concat (map (observe n) h).

(** Restarts are justified.  Whatever the history, a VM is restarted at [t] only if
    it failed a probe at [t], it failed one at an earlier [t0], every probe in between
    failed, and [t - t0] is at least 120 seconds, or 180 seconds when its last reload was
    less than 240 seconds ago; database and pooler VMs are never restarted. *)
Theorem restart_justified h n t :
  Forall names_distinct h -> In (t, n) (fst (wd_run h wd_start)) ->
  skipped n = false
  /\ exists before t0 between after,
       seen n h = before ++ Down t0 :: between ++ Down t :: after
       /\ not_up between
       /\ (let threshold := threshold_after (before ++ Down t0 :: between) t in
           threshold <= t - t0 /\ 120 <= threshold
           /\ forall ts, last_reloaded (before ++ Down t0 :: between) = Some ts -> t - ts < 240 -> threshold = 180).
Proof.
  intros Hd Hin. apply restarts_in in Hin. destruct (skipped n) eqn:Hs.
  { by rewrite skipped_never in Hin. }
  split; [done|]. pose proof (wd_run_view n h wd_start Hd Hs) as Hv.
  destruct (mon_restart_why [] mon_start (seen n h) t) as (a & t0 & b & c & E & Hb & Ht).
  - split; [done|]. by intros t0 [=].
  - unfold seen. change mon_start with (view n wd_start). by rewrite Hv.
  - exists a, t0, b, c. split_and!; [exact E|exact Hb|]. cbv zeta.
    pose proof (patience_range (mkMonitor None (last_reloaded (a ++ Down t0 :: b))) t) as Hp.
    fold (threshold_after (a ++ Down t0 :: b) t) in Hp. split_and!; [unfold sat_sub in Ht; lia|lia|].
    intros ts Ets Hts. unfold threshold_after, patience. simpl. rewrite Ets.
    by replace (_ <? _) with true by (symmetry; apply Z.ltb_lt; unfold sat_sub, RELOAD_GRACE_SECS; lia).
Qed.

(** Hangs are detected.  If, from a probe at [t1] to a probe at [t] at least 180
    seconds later, every probe of a VM fails, then the VM is restarted at some point of
    that stretch, whatever happened before, provided the clock did not go back. *)
Theorem hang_detected h1 h2 n t1 between t :
  Forall names_distinct (h1 ++ h2) -> skipped n = false ->
  (forall s, In (Down s) (seen n h1) -> s <= t1) ->
  seen n h2 = Down t1 :: between ++ [Down t] -> not_up between ->
  t1 + RELOAD_THRESHOLD_SECS <= t ->
  exists t', In (t', n) (fst (wd_run h2 (snd (wd_run h1 wd_start)))).
Proof.
  intros [Hd1 Hd2]%Forall_app Hs Hpast Hseen Hb Ht.
  set (w := snd (wd_run h1 wd_start)). pose proof (wd_run_view n h2 w Hd2 Hs) as Hv.
  assert (Hinv : mon_inv (seen n h1) (view n w)).
  { assert (H : forall os0 os m, mon_inv os0 m -> mon_inv (os0 ++ os) (snd (mon_run os m))).
    { intros os0 os. revert os0. induction os as [|o os IH]; intros os0 m Hm; [by rewrite app_nil_r|].
      cbn [mon_run]. pose proof (mon_step_inv os0 m o Hm) as H1. destruct (mon_step o m) as [r m1].
      specialize (IH (os0 ++ [o]) m1 H1). rewrite <- app_assoc in IH. by destruct (mon_run os m1). }
    pose proof (wd_run_view n h1 wd_start Hd1 Hs) as Hv1.
    specialize (H [] (seen n h1) mon_start). unfold seen in H at 2.
    change mon_start with (view n wd_start) in H. rewrite Hv1 in H. apply H. split; [done|by intros t0 [=]]. }
  assert (Hne : fst (mon_run (seen n h2) (view n w)) <> []).
  { rewrite Hseen. apply mon_detects; [done| |lia]. destruct (down_since (view n w)) as [s|] eqn:Ed; [|done].
    destruct Hinv as [_ Hi]. destruct (Hi s Ed) as (a & b & E & _). apply Hpast. rewrite E.
    apply in_or_app. right. by left. }
  unfold seen in Hne. rewrite Hv in Hne. cbn [fst] in Hne.
  destruct (restarts_of n _) as [|t' l] eqn:E; [done|]. exists t'. apply in_restarts. rewrite E. by left.
Qed.

(** A mark outlives its VM.  The mark of a failed probe is not dropped when the VM is
    stopped: if a VM fails a probe, leaves the list of running VMs, and is started again
    180 seconds or more later, its first failing probe (while it boots) restarts it,
    although it has not been down for any time since it was started. *)
Theorem stale_mark_restarts n t0 t1 vm probe0 probe1 absent :
  vm_name vm = n -> skipped n = false ->
  probe0 (id_to_ip (vm_cell vm) (vm_id vm)) = false ->
  probe1 (id_to_ip (vm_cell vm) (vm_id vm)) = false ->
  Forall names_distinct absent -> seen n absent = [] -> t0 + 180 <= t1 ->
  In (t1, n) (fst (wd_run (Sweep t0 probe0 [vm] :: absent ++ [Sweep t1 probe1 [vm]]) wd_start)).
Proof.
  intros Hn Hs H0 H1 Hd Ha Ht. apply in_restarts.
  set (h := Sweep t0 probe0 [vm] :: absent ++ [Sweep t1 probe1 [vm]]).
  assert (Hdh : Forall names_distinct h).
  { constructor; [|apply Forall_app; split; [done|constructor; [|constructor]]]; apply NoDup_singleton. }
  pose proof (wd_run_view n h wd_start Hdh Hs) as Hv.
  assert (Hseen : concat (map (observe n) h) = [Down t0; Down t1]).
  { unfold h. cbn [map concat]. rewrite map_app, concat_app. fold (seen n absent). rewrite Ha.
    cbn [map concat observe find]. by rewrite bool_decide_eq_true_2, H0, H1 by done. }
  rewrite Hseen in Hv. apply (f_equal fst) in Hv. cbn [fst] in Hv. rewrite <- Hv.
  change (view n wd_start) with mon_start. cbn [mon_run mon_step mon_start down_since default].
  unfold patience, sat_sub. cbn [reloaded_at mon_start]. rewrite Z.sub_diag.
  change (Z.max 0 0 <? HUNG_THRESHOLD_SECS) with true. cbn.
  replace (Z.max 0 (t1 - t0) <? HUNG_THRESHOLD_SECS) with false; [by left|].
  symmetry. apply Z.ltb_ge. unfold HUNG_THRESHOLD_SECS. lia.
Qed.

(** ** Examples *)
Module WatchdogExample.
Definition acme : vm_info := mkVm "acme-prod" 5 1.
Definition db : vm_info := mkVm "acme-db" 6 1.
Definition none_up (_ : string) : bool := false.
(** sweeps every 60 s, all failing, with a reload *)
Definition down_for (ts : list Z) : list event := map (fun t => Sweep t none_up [acme; db]) ts.
Definition hung : list event := down_for [1000; 1060; 1120].
Definition reloading : list event := Reload 990 "acme-prod" :: down_for [1000; 1060; 1120; 1180].
Lemma distinct_down ts : Forall names_distinct (down_for ts).
Proof.
  apply List.Forall_map, list.Forall_true. intros t. simpl.
  by apply (bool_decide_unpack (NoDup ["acme-prod"; "acme-db"])).
Qed.
End WatchdogExample.
Import WatchdogExample.

Example watchdog_runs :
  fst (wd_run hung wd_start) = [(1120, "acme-prod")]
  /\ fst (wd_run reloading wd_start) = [(1180, "acme-prod")].
Proof. by vm_compute. Qed.

Lemma watchdog_refines_monitors_witness :
  mon_run (concat (map (observe "acme-prod") hung)) mon_start = ([1120], mkMonitor None None).
Proof.
  pose proof (watchdog_refines_monitors hung "acme-prod" (distinct_down _)) as H.
  cbv iota in H. exact H.
Defined.

Lemma restart_justified_witness :
  In (1120, "acme-prod") (fst (wd_run hung wd_start))
  /\ exists before t0 between after,
       seen "acme-prod" hung = before ++ Down t0 :: between ++ Down 1120 :: after /\ not_up between.
Proof.
  assert (H : In (1120, "acme-prod") (fst (wd_run hung wd_start))) by (vm_compute; by left).
  split; [exact H|].
  destruct (restart_justified hung "acme-prod" 1120 (distinct_down _) H) as (_ & a & t0 & b & c & E & Hb & _).
  by exists a, t0, b, c.
Defined.

Lemma hang_detected_witness :
  exists t', In (t', "acme-prod") (fst (wd_run (down_for [1000; 1090; 1180]) (snd (wd_run (Reload 990 "acme-prod" :: []) wd_start)))).
Proof.
  apply (hang_detected [Reload 990 "acme-prod"] (down_for [1000; 1090; 1180]) "acme-prod" 1000 [Down 1090] 1180).
  - constructor; [done|apply distinct_down].
  - by vm_compute.
  - intros s [[=]|[]].
  - by vm_compute.
  - by repeat constructor.
  - by vm_compute.
Defined.

Lemma stale_mark_restarts_witness :
  In (5000, "acme-prod") (fst (wd_run
    (Sweep 1000 none_up [acme] :: [Sweep 2000 none_up [db]; Sweep 3000 none_up []] ++ [Sweep 5000 none_up [acme]]) wd_start)).
Proof.
  apply (stale_mark_restarts "acme-prod" 1000 5000 acme none_up none_up [Sweep 2000 none_up [db]; Sweep 3000 none_up []]);
    try by vm_compute.
  constructor; [apply NoDup_singleton|]. constructor; [apply NoDup_nil_2|constructor].
Defined.
