(* ===== verification/State.v ===== *)
(** * State files (src/state.rs)

    Each VM has a JSON file in /tmp/nkr-vms under its cell and its identifier; the commands
    list these files, look VMs up in them and stop VMs by the process they record.  The host
    is a map of processes that changes while a VM is being stopped. *)
From S2P Require Import Prelude Text Sorting Http Watchdog Registry.

Record guest_mem := mkGuestMem {
  mem_total : Z; mem_free : Z; mem_available : Z; mem_cached : Z }.
#[export] Instance guest_mem_eq_dec : EqDecision guest_mem.
Proof. solve_decision. Defined.

Record VmState := mkVmState {
  vm_id : Z; hash : string; name : string; pid : Z; ram_mb : Z; chrs : Z; disks : list string;
  guest_ip : string; ports : list string; tap_name : string; started_at : Z;
  use_pmem : bool; use_dax : bool; balloon_mb : Z; cell_id : Z; guest_memory : guest_mem;
}.
#[export] Instance eta_VmState : Eta VmState := fun s =>
  mkVmState (vm_id s) (hash s) (name s) (pid s) (ram_mb s) (chrs s) (disks s) (guest_ip s) (ports s)
    (tap_name s) (started_at s) (use_pmem s) (use_dax s) (balloon_mb s) (cell_id s) (guest_memory s).

(** ** The directory

    The contents of each file; [None] where they are no valid state. *)
Notation dir := (gmap string (option VmState)).
Definition state_path_scoped (cell_id vm_id : Z) : string := "c" +:+ dec cell_id +:+ "-v" +:+ dec vm_id +:+ ".json".

(** [read_dir] lists the files in some order. *)
Class ReadDir := read_dir : dir -> list (string * option VmState).
Class ReadDirLaws `{ReadDir} : Prop := read_dir_perm d : read_dir d ≡ₚ map_to_list d.

#[export] Instance listed_dir : ReadDir := fun d => map_to_list d.
#[export] Instance listed_dir_laws : ReadDirLaws (H := listed_dir).
Proof. intros d. done. Qed.

(** [path.extension() == "json"] *)
Definition is_json (f : string) : bool := ends_with ".json" f && negb (bool_decide (f = ".json")).

Definition register_vm (s : VmState) (d : dir) : dir := <[state_path_scoped (cell_id s) (vm_id s) := Some s]> d.
(** what the two updates do with the file of a VM *)
Definition rewrite_state (cell vm : Z) (same : VmState -> bool) (f : VmState -> VmState) (d : dir) : dir :=
  match d !! state_path_scoped cell vm with
  | Some (Some s) => if same s then d else <[state_path_scoped cell vm := Some (f s)]> d
  | _ => d
  end.
Definition update_balloon_mb (cell vm mb : Z) (d : dir) : dir :=
  rewrite_state cell vm (fun s => balloon_mb s =? mb) (fun s => s <| balloon_mb := mb |>) d.
Definition update_guest_mem (cell vm : Z) (m : guest_mem) (d : dir) : dir :=
  rewrite_state cell vm (fun s => bool_decide (guest_memory s = m)) (fun s => s <| guest_memory := m |>) d.
Definition unregister_vm (cell vm : Z) (d : dir) : dir := delete (state_path_scoped cell vm) d.

(** ** Processes

    What /proc shows of a process: its command line, arguments that each end in a zero byte,
    and its status; [None] where the file cannot be read. *)
Record proc := mkProc { cmdline : option string; status : option string }.
Notation host := (gmap Z proc).

Definition is_pid_alive (h : host) (pid : Z) : bool :=
  match h !! pid with
  | Some p =>
      match status p with
      | Some s => negb (existsb (fun l => starts_with "State:" l && char_in "Z" l) (lines s))
      | None => false
      end
  | None => false
  end.

Fixpoint has_pair (a b : string) (l : list string) : bool :=
  match l with
  | x :: (y :: _) as l' => (bool_decide (x = a) && bool_decide (y = b)) || has_pair a b l'
  | _ => false
  end.
Definition mem (x : string) (l : list string) : bool := existsb (fun y => bool_decide (y = x)) l.
Lemma mem_spec x l : mem x l = true <-> x ∈ l.
Proof. unfold mem. rewrite existsb_exists. setoid_rewrite bool_decide_eq_true. setoid_rewrite <- list_elem_of_In. naive_solver. Qed.
Definition base_name (s : string) : string := List.last (split_on "/" s) "".

Definition args_match (nm : string) (args : list string) : bool :=
  match args with
  | [] => false
  | a0 :: _ => (bool_decide (base_name a0 = "nkr") || mem "nkr" args) && mem "run" args && has_pair "--name" nm args
  end.
Definition pid_matches_vm (h : host) (pid : Z) (nm : string) : bool :=
  match p ← h !! pid; cmdline p with
  | Some s => args_match nm (filter (fun a => a <> "") (split_on nul s))
  | None => false
  end.

Section operations.
Context `{ReadDir}.

(** the live VMs by their identifier; the files of dead ones are removed *)
Definition list_vms (h : host) (d : dir) : list VmState * dir :=
  let '(vms, d) := fold_left (fun '(vms, d) '(f, c) =>
      match c with
      | Some s => if negb (is_json f) then (vms, d) else if is_pid_alive h (pid s) then (vms ++ [s], d) else (vms, delete f d)
      | None => (vms, d)
      end) (read_dir d) ([], d) in
  (sort_by_key (fun s => [vm_id s]) vms, d).

Definition find_vm (h : host) (cell vm : Z) (d : dir) : option VmState * dir :=
  let '(vms, d) := list_vms h d in
  (find (fun s => (cell_id s =? cell) && (vm_id s =? vm)) vms, d).

Definition parse_u8 (s : string) : option Z := parse_uint 255 s.
Definition scoped_id (s : string) : option (Z * Z) :=
  '(c, v) ← split_once "/" s; c ← parse_u8 c; v ← parse_u8 v; Some (c, v).

Definition find_by_name (h : host) (id_str : string) (d : dir) : option VmState * dir :=
  let '(vms, d) := list_vms h d in
  (find (fun s => bool_decide (hash s = id_str) || bool_decide (name s = id_str)) vms, d).
Definition find_vm_by_id_str (h : host) (id_str : string) (d : dir) : option VmState * dir :=
  match scoped_id id_str with
  | Some (c, v) => find_vm h c v d
  | None =>
      match parse_u8 id_str with
      | Some num =>
          let '(vms, d) := list_vms h d in
          match filter (fun s => vm_id s = num) vms with
          | [] => find_by_name h id_str d
          | [s] => (Some s, d)
          | _ => (None, d)
          end
      | None => find_by_name h id_str d
      end
  end.

(** ** Stopping

    The host at each moment: 0 when the stop begins, [1..900] at the polls, 901 before the
    second signal.  A signal is recorded with its moment. *)
Inductive signal := SIGTERM | SIGKILL.
Inductive kill_result := Sent | NoProcess | Refused.
Inductive stop_error := VmNotFound | AlreadyDead | SignalRefused.
#[export] Instance stop_error_eq_dec : EqDecision stop_error.
Proof. solve_decision. Defined.

Definition stop_vm_by_state (hosts : nat -> host) (kill : Z -> kill_result) (s : VmState) (d : dir)
  : (stop_error + unit) * list (nat * signal * Z) * dir :=
  let p := pid s in
  let gone := unregister_vm (cell_id s) (vm_id s) d in
  if negb (pid_matches_vm (hosts 0%nat) p (name s)) then (inr (), [], gone)
  else match kill p with
  | NoProcess => (inl AlreadyDead, [(0%nat, SIGTERM, p)], gone)
  | Refused => (inl SignalRefused, [(0%nat, SIGTERM, p)], d)
  | Sent =>
      if existsb (fun i => negb (is_pid_alive (hosts i) p)) (seq 1 900) then (inr (), [(0%nat, SIGTERM, p)], gone)
      else if negb (pid_matches_vm (hosts 901%nat) p (name s)) then (inr (), [(0%nat, SIGTERM, p)], gone)
      else (inr (), [(0%nat, SIGTERM, p); (901%nat, SIGKILL, p)], gone)
  end.

Definition stop_vm (hosts : nat -> host) (kill : Z -> kill_result) (cell vm : Z) (d : dir)
  : (stop_error + unit) * list (nat * signal * Z) * dir :=
  let '(s, d) := find_vm (hosts 0%nat) cell vm d in
  match s with
  | Some s => stop_vm_by_state hosts kill s d
  | None => (inl VmNotFound, [], d)
  end.

(** the processes that look like the VM when its file is gone *)
Definition looks_like (nm : string) (p : proc) : bool :=
  match cmdline p with
  | Some c => contains "nkr" c && contains "run" c && contains ("--name" +:+ String nul (nm +:+ String nul "")) c
  | None => false
  end.
Definition orphans (h : host) (nm : string) : list Z :=
  map fst (filter (fun '(_, p) => looks_like nm p = true) (map_to_list h)).
Definition stop_vm_by_name (hosts : nat -> host) (kill : Z -> kill_result) (nm : string) (d : dir)
  : (stop_error + unit) * list (nat * signal * Z) * dir :=
  let '(vms, d) := list_vms (hosts 0%nat) d in
  match find (fun s => bool_decide (name s = nm)) vms with
  | Some s => stop_vm_by_state hosts kill s d
  | None =>
      match orphans (hosts 0%nat) nm with
      | [] => (inl VmNotFound, [], d)
      | ps => (inr (), map (fun p => (0%nat, SIGTERM, p)) ps, d)
      end
  end.
End operations.

(** [&s[..max - 1]] followed by an ellipsis; [None] where the cut is inside a character *)
Definition is_char_boundary (bs : list Z) : bool :=
  match bs with b :: _ => negb ((128 <=? b) && (b <? 192)) | [] => true end.
Definition truncate_str (s : string) (max : nat) : option string :=
  if (String.length s <=? max)%nat then Some s
  else if is_char_boundary (drop (max - 1) (bytes_of_string s))
  then Some (string_of_bytes (take (max - 1) (bytes_of_string s)) +:+ "…")
  else None.

(** ** Names of state files *)
Definition ids_ok (cell vm : Z) : Prop := is_u8 cell /\ is_u8 vm.
Lemma state_path_inj c1 v1 c2 v2 : ids_ok c1 v1 -> ids_ok c2 v2 ->
  state_path_scoped c1 v1 = state_path_scoped c2 v2 -> c1 = c2 /\ v1 = v2.
Proof.
  intros [C1 V1] [C2 V2] E. unfold state_path_scoped in E.
  assert (Hd : forall z, is_u8 z -> is_u64 z) by (intros; words).
  assert (Hs : forall c v, is_u8 c -> is_u8 v -> split_once "-" ("c" +:+ dec c +:+ "-v" +:+ dec v +:+ ".json")
    = Some ("c" +:+ dec c, "v" +:+ dec v +:+ ".json")).
  { intros c v Hc Hv. pose proof (split_once_plain "-" ("c" +:+ dec c) ("v" +:+ dec v +:+ ".json")) as P.
    rewrite string_app_assoc in P. apply P. rewrite append_cons, char_in_cons, append_empty. cbn [orb].
    apply (dec_plain "-"); [words|done]. }
  pose proof (f_equal (split_once "-") E) as S. rewrite !Hs in S by done.
  assert (S1 : "c" +:+ dec c1 = "c" +:+ dec c2) by congruence.
  assert (S2 : "v" +:+ dec v1 +:+ ".json" = "v" +:+ dec v2 +:+ ".json") by congruence.
  apply append_inj in S1, S2. apply (f_equal (split_once ".")) in S2.
  assert (Hv : forall v, is_u8 v -> split_once "." (dec v +:+ ".json") = Some (dec v, "json"))
    by (intros v Hv; apply split_once_plain, dec_plain; [words|done]).
  rewrite !Hv in S2 by done. assert (S3 : dec v1 = dec v2) by congruence.
  split; apply (inj Some); rewrite <- !dec_read by auto; by f_equal.
Qed.

Lemma ends_with_app p s : ends_with p (s +:+ p) = true.
Proof.
  unfold ends_with. apply bool_decide_eq_true. rewrite list_ascii_app.
  assert (E : forall s : string, String.length s = length (String.list_ascii_of_string s)) by (induction s0; simpl; congruence).
  rewrite !E, list_ascii_app, length_app, Nat.add_sub. apply drop_app_length.
Qed.

Lemma state_path_json c v : is_json (state_path_scoped c v) = true.
Proof.
  unfold is_json, state_path_scoped. rewrite <- !string_app_assoc, ends_with_app, andb_true_l, negb_true_iff.
  by apply bool_decide_eq_false.
Qed.

(** ** Listing *)
Definition live_of (h : host) (e : string * option VmState) : option VmState :=
  match snd e with Some s => if is_json (fst e) && is_pid_alive h (pid s) then Some s else None | None => None end.
Definition is_dead (h : host) (e : string * option VmState) : bool :=
  match snd e with Some s => is_json (fst e) && negb (is_pid_alive h (pid s)) | None => false end.
Definition prune (h : host) (d : dir) : dir := filter (fun e => is_dead h e = false) d.

Lemma deletes_lookup fs (d : dir) g :
  fold_left (fun d f => delete f d) fs d !! g = if decide (g ∈ fs) then None else d !! g.
Proof.
  revert d. induction fs as [|f fs IH]; intros d; cbn [fold_left].
  - by rewrite decide_False by apply not_elem_of_nil.
  - rewrite IH. destruct (decide (g = f)) as [->|Hne].
    + rewrite lookup_delete_eq. rewrite (decide_True (P := f ∈ f :: fs)) by apply list_elem_of_here. by case_decide.
    + rewrite lookup_delete_ne by done. apply decide_ext. rewrite elem_of_cons. naive_solver.
Qed.

Section listing.
Context `{ReadDirLaws}.

Lemma in_read_dir (d : dir) f c : (f, c) ∈ read_dir d <-> d !! f = Some c.
Proof. by rewrite (read_dir_perm d), elem_of_map_to_list. Qed.

Lemma list_vms_eq h d :
  list_vms h d = (sort_by_key (fun s => [vm_id s]) (omap (live_of h) (read_dir d)), prune h d).
Proof.
  unfold list_vms.
  assert (Hf : forall l vms d0, fold_left (fun '(vms, d) '(f, c) =>
      match c with
      | Some s => if negb (is_json f) then (vms, d) else if is_pid_alive h (pid s) then (vms ++ [s], d) else (vms, delete f d)
      | None => (vms, d)
      end) l (vms, d0)
    = (vms ++ omap (live_of h) l, fold_left (fun (d : dir) f => delete f d) (map fst (filter (fun e => is_dead h e = true) l)) d0)).
  { induction l as [|[f c] l IH]; intros vms d0; cbn [fold_left omap list_omap].
    - by rewrite app_nil_r.
    - rewrite filter_cons. destruct (is_dead h (f, c)) eqn:Ed; unfold is_dead in Ed; unfold live_of at 1; cbn [fst snd] in *;
        (destruct c as [s|]; [destruct (is_json f), (is_pid_alive h (pid s))|]); cbn [negb andb] in *; try done;
        rewrite IH; cbn; try done; by rewrite <- app_assoc. }
  rewrite Hf. cbn [app]. f_equal. apply map_eq. intros g. rewrite deletes_lookup. unfold prune. symmetry.
  case_decide as Hg.
  - apply list_elem_of_fmap in Hg as ([f c] & -> & [Hd Hin]%list_elem_of_filter). apply in_read_dir in Hin.
    apply map_lookup_filter_None. right. intros x Hx. simplify_eq/=. congruence.
  - destruct (d !! g) as [c|] eqn:E; [|apply map_lookup_filter_None; by left].
    apply map_lookup_filter_Some. split; [done|]. apply not_true_iff_false. intros Hd. apply Hg.
    apply list_elem_of_fmap. exists (g, c). split; [done|]. apply list_elem_of_filter. split; [done|]. by apply in_read_dir.
Qed.

Lemma in_list_vms h d s :
  In s (fst (list_vms h d)) <-> exists f, d !! f = Some (Some s) /\ is_json f = true /\ is_pid_alive h (pid s) = true.
Proof.
  rewrite list_vms_eq. cbn [fst]. rewrite <- list_elem_of_In, sort_by_key_perm, list_elem_of_omap. split.
  - intros ([f [s'|]] & Hin%in_read_dir & Hl); unfold live_of in Hl; cbn in Hl; [|done].
    destruct (is_json f && is_pid_alive h (pid s')) eqn:E; [|done]. injection Hl as ->.
    apply andb_true_iff in E as [? ?]. by exists f.
  - intros (f & Hf & Hj & Ha). exists (f, Some s). split; [by apply in_read_dir|]. unfold live_of. cbn. by rewrite Hj, Ha.
Qed.

Lemma list_vms_dir h d : snd (list_vms h d) = prune h d.
Proof. by rewrite list_vms_eq. Qed.
End listing.

(** ** The directory as a map of VMs *)
Definition files_ok (d : dir) : Prop :=
  forall f s, d !! f = Some (Some s) -> f = state_path_scoped (cell_id s) (vm_id s) /\ ids_ok (cell_id s) (vm_id s).
Definition stored (d : dir) (cell vm : Z) : option VmState :=
  match d !! state_path_scoped cell vm with Some c => c | None => None end.

Lemma stored_some d c v s : stored d c v = Some s <-> d !! state_path_scoped c v = Some (Some s).
Proof. unfold stored. destruct (d !! _); split; congruence. Qed.

Lemma stored_ids d c v s : files_ok d -> ids_ok c v -> stored d c v = Some s -> cell_id s = c /\ vm_id s = v.
Proof.
  intros Hok Hi Hs%stored_some. destruct (Hok _ _ Hs) as [E Hi']. apply state_path_inj in E as [-> ->]; [done..].
Qed.

Lemma prune_ok h d : files_ok d -> files_ok (prune h d).
Proof. intros Hok f s [Hf _]%map_lookup_filter_Some. by apply Hok. Qed.

Lemma stored_prune h d c v : stored (prune h d) c v = s ← stored d c v; if is_pid_alive h (pid s) then Some s else None.
Proof.
  unfold stored, prune. rewrite map_lookup_filter. destruct (d !! _) as [[s|]|] eqn:E; cbn; [|by case_guard|done].
  unfold is_dead. cbn. rewrite state_path_json. destruct (is_pid_alive h (pid s)); cbn; by case_guard.
Qed.

Lemma register_ok s d : files_ok d -> ids_ok (cell_id s) (vm_id s) -> files_ok (register_vm s d).
Proof. unfold register_vm. intros Hok Hi f s' [[<- [= <-]]|[_ Hf]]%lookup_insert_Some; [done|by apply Hok]. Qed.

Lemma stored_register s d c v : ids_ok (cell_id s) (vm_id s) -> ids_ok c v ->
  stored (register_vm s d) c v = if decide (c = cell_id s /\ v = vm_id s) then Some s else stored d c v.
Proof.
  intros Hi Hi'. unfold stored, register_vm. case_decide as Hd.
  - destruct Hd as [-> ->]. by rewrite lookup_insert_eq.
  - rewrite lookup_insert_ne; [done|]. intros [? ?]%state_path_inj; [|done..]. by apply Hd.
Qed.

Lemma rewrite_ok c v same f d : files_ok d -> ids_ok c v ->
  (forall s, cell_id (f s) = cell_id s /\ vm_id (f s) = vm_id s) -> files_ok (rewrite_state c v same f d).
Proof.
  intros Hok Hi Hf. unfold rewrite_state. destruct (d !! _) as [[s|]|] eqn:E; [|done..]. destruct (same s); [done|].
  intros g s' [[<- [= <-]]|[_ Hg]]%lookup_insert_Some; [|by apply Hok].
  destruct (Hf s) as [-> ->]. by apply Hok.
Qed.

Lemma stored_rewrite c0 v0 same f d c v : ids_ok c0 v0 -> ids_ok c v -> (forall s, same s = true -> f s = s) ->
  stored (rewrite_state c0 v0 same f d) c v = if decide (c = c0 /\ v = v0) then f <$> stored d c v else stored d c v.
Proof.
  intros Hi0 Hi Hsame. unfold rewrite_state. case_decide as Hd.
  - destruct Hd as [-> ->]. unfold stored. destruct (d !! _) as [[s|]|] eqn:E; cbn; [|by rewrite E..].
    destruct (same s) eqn:Es; [rewrite E; cbn; by rewrite Hsame|by rewrite lookup_insert_eq].
  - destruct (d !! state_path_scoped c0 v0) as [[s|]|]; [|done..]. destruct (same s); [done|].
    unfold stored. rewrite lookup_insert_ne; [done|]. intros [? ?]%state_path_inj; [|done..]. by apply Hd.
Qed.

Lemma stored_unregister c0 v0 d c v : ids_ok c0 v0 -> ids_ok c v ->
  stored (unregister_vm c0 v0 d) c v = if decide (c = c0 /\ v = v0) then None else stored d c v.
Proof.
  intros Hi0 Hi. unfold stored, unregister_vm. case_decide as Hd.
  - destruct Hd as [-> ->]. by rewrite lookup_delete_eq.
  - rewrite lookup_delete_ne; [done|]. intros [? ?]%state_path_inj; [|done..]. by apply Hd.
Qed.

Lemma unregister_ok c v d : files_ok d -> files_ok (unregister_vm c v d).
Proof. unfold unregister_vm. intros Hok f s [_ Hf]%lookup_delete_Some. by apply Hok. Qed.

Inductive state_op :=
  | Register (s : VmState) | Balloon (cell vm mb : Z) | Memory (cell vm : Z) (m : guest_mem)
  | Unregister (cell vm : Z) | Listing (h : host).
Definition op_ids_ok (o : state_op) : Prop :=
  match o with
  | Register s => ids_ok (cell_id s) (vm_id s)
  | Balloon c v _ | Memory c v _ | Unregister c v => ids_ok c v
  | Listing _ => True
  end.
Definition state_step `{ReadDir} (d : dir) (o : state_op) : dir :=
  match o with
  | Register s => register_vm s d
  | Balloon c v mb => update_balloon_mb c v mb d
  | Memory c v m => update_guest_mem c v m d
  | Unregister c v => unregister_vm c v d
  | Listing h => snd (list_vms h d)
  end.
(** the same operations on a map from cells and identifiers to VMs *)
Definition map_step (m : gmap (Z * Z) VmState) (o : state_op) : gmap (Z * Z) VmState :=
  match o with
  | Register s => <[(cell_id s, vm_id s) := s]> m
  | Balloon c v mb => alter (fun s => s <| balloon_mb := mb |>) (c, v) m
  | Memory c v g => alter (fun s => s <| guest_memory := g |>) (c, v) m
  | Unregister c v => delete (c, v) m
  | Listing h => filter (fun '(_, s) => is_pid_alive h (pid s) = true) m
  end.

Section refinement.
Context `{ReadDirLaws}.

Lemma find_vm_stored h c v d : files_ok d -> ids_ok c v ->
  fst (find_vm h c v d) = s ← stored d c v; if is_pid_alive h (pid s) then Some s else None.
Proof.
  intros Hok Hi. unfold find_vm. pose proof (in_list_vms h d) as Hin. destruct (list_vms h d) as [vms d'].
  cbn [fst] in *. destruct (find _ vms) as [s|] eqn:E.
  - apply find_some in E as [(f & Hf & _ & Ha)%Hin [Ec Ev]%andb_true_iff]. apply Z.eqb_eq in Ec, Ev.
    destruct (Hok _ _ Hf) as [-> _]. rewrite Ec, Ev in Hf. apply stored_some in Hf as ->. cbn. by rewrite Ha.
  - destruct (stored d c v) as [s|] eqn:Es; [|done]. cbn. destruct (is_pid_alive h (pid s)) eqn:Ea; [|done]. exfalso.
    destruct (stored_ids _ _ _ _ Hok Hi Es) as [Ec Ev]. apply stored_some in Es.
    assert (Hs : In s vms) by (apply Hin; exists (state_path_scoped c v); by rewrite state_path_json).
    apply (find_none _ _ E) in Hs. by rewrite Ec, Ev, !Z.eqb_refl in Hs.
Qed.

(** the directory holds what the map holds *)
Definition agrees (d : dir) (m : gmap (Z * Z) VmState) : Prop :=
  files_ok d /\ forall c v, ids_ok c v -> stored d c v = m !! (c, v).

Lemma step_agrees d m o : op_ids_ok o -> agrees d m -> agrees (state_step d o) (map_step m o).
Proof.
  intros Ho [Hok Hm]. destruct o as [s|c0 v0 mb|c0 v0 g|c0 v0|h]; cbn [state_step map_step op_ids_ok] in *.
  - split; [by apply register_ok|]. intros c v Hi. rewrite stored_register by done. case_decide as Hd.
    + destruct Hd as [-> ->]. by rewrite lookup_insert_eq.
    + rewrite lookup_insert_ne by naive_solver. by apply Hm.
  - unfold update_balloon_mb. split; [apply rewrite_ok; [done|done|by intros s]|]. intros c v Hi. rewrite stored_rewrite, Hm; [|done..|].
    + case_decide as Hd; [destruct Hd as [-> ->]; by rewrite lookup_alter_eq|rewrite lookup_alter_ne by naive_solver; done].
    + intros s Hs%Z.eqb_eq. subst mb. by destruct s.
  - unfold update_guest_mem. split; [apply rewrite_ok; [done|done|by intros s]|]. intros c v Hi. rewrite stored_rewrite, Hm; [|done..|].
    + case_decide as Hd; [destruct Hd as [-> ->]; by rewrite lookup_alter_eq|rewrite lookup_alter_ne by naive_solver; done].
    + intros s Hs%bool_decide_eq_true. subst g. by destruct s.
  - split; [by apply unregister_ok|]. intros c v Hi. rewrite stored_unregister by done. case_decide as Hd.
    + destruct Hd as [-> ->]. by rewrite lookup_delete_eq.
    + rewrite lookup_delete_ne by naive_solver. by apply Hm.
  - rewrite list_vms_dir. split; [by apply prune_ok|]. intros c v Hi. rewrite stored_prune, Hm by done.
    rewrite map_lookup_filter. destruct (m !! (c, v)) as [s|]; [|done]. cbn.
    destruct (is_pid_alive h (pid s)); by case_guard.
Qed.

(** C28. The state directory is a map from cells and identifiers to VMs: after any sequence of
    registrations, updates, removals and listings, a VM is found exactly when the map has it
    and its process lives, with the fields last written, whatever the order of the files. *)
Theorem state_refines_map h ops c v :
  Forall op_ids_ok ops -> ids_ok c v ->
  fst (find_vm h c v (fold_left state_step ops ∅))
  = s ← fold_left map_step ops ∅ !! (c, v); if is_pid_alive h (pid s) then Some s else None.
Proof.
  intros Hops Hi.
  assert (Ha : forall d m, agrees d m -> agrees (fold_left state_step ops d) (fold_left map_step ops m)).
  { induction Hops as [|o ops Ho Hops IH]; intros d m Ha; [done|]. cbn. by apply IH, step_agrees. }
  destruct (Ha ∅ ∅) as [Hok Hm]; [split; [done|intros; unfold stored; by rewrite !lookup_empty]|].
  by rewrite find_vm_stored, Hm.
Qed.
End refinement.

(** ** Looking up *)
Section lookups.
Context `{ReadDirLaws}.

Definition live (h : host) (d : dir) (s : VmState) : Prop :=
  stored d (cell_id s) (vm_id s) = Some s /\ is_pid_alive h (pid s) = true.

Lemma live_prune h d s : live h (prune h d) s <-> live h d s.
Proof.
  unfold live. rewrite stored_prune. split.
  - intros [E Ha]. split; [|done]. destruct (stored d _ _) as [s'|]; [|done]. cbn in E. by destruct (is_pid_alive h (pid s')).
  - intros [-> Ha]. cbn. by rewrite Ha.
Qed.

Lemma in_listed h d s : files_ok d -> In s (fst (list_vms h d)) <-> live h d s.
Proof.
  intros Hok. rewrite in_list_vms. unfold live. rewrite stored_some. split.
  - intros (f & Hf & _ & Ha). destruct (Hok _ _ Hf) as [-> _]. done.
  - intros [Hs Ha]. exists (state_path_scoped (cell_id s) (vm_id s)). by rewrite state_path_json.
Qed.

Lemma found_by_name h id_str d s : files_ok d -> fst (find_by_name h id_str d) = Some s ->
  live h d s /\ (hash s = id_str \/ name s = id_str).
Proof.
  intros Hok. unfold find_by_name. pose proof (in_listed h d s Hok) as Hin. destruct (list_vms h d) as [vms d']. cbn [fst] in *.
  intros [Hs Hn]%find_some. split; [by apply Hin|].
  apply orb_true_iff in Hn as [?%bool_decide_eq_true|?%bool_decide_eq_true]; auto.
Qed.

Lemma parse_u8_dec z : is_u8 z -> parse_u8 (dec z) = Some z.
Proof. intros Hz. apply parse_uint_dec; words. Qed.

(** Looking a VM up by what the user types: what is found is a live VM of the directory that
    the text names by cell and number, by a number no other live VM has, or by hash or name;
    cell and number find their VM, and a number that live VMs of two cells share finds none. *)
Theorem lookup_unambiguous h d :
  files_ok d ->
  (forall id_str s, fst (find_vm_by_id_str h id_str d) = Some s -> live h d s
     /\ (scoped_id id_str = Some (cell_id s, vm_id s)
         \/ parse_u8 id_str = Some (vm_id s) /\ (forall s', live h d s' -> vm_id s' = vm_id s -> s' = s)
         \/ hash s = id_str \/ name s = id_str))
  /\ (forall c v, ids_ok c v -> fst (find_vm_by_id_str h (dec c +:+ "/" +:+ dec v) d)
        = s ← stored d c v; if is_pid_alive h (pid s) then Some s else None)
  /\ (forall v s1 s2, is_u8 v -> live h d s1 -> live h d s2 -> vm_id s1 = v -> vm_id s2 = v -> s1 <> s2 ->
        fst (find_vm_by_id_str h (dec v) d) = None).
Proof.
  intros Hok. split_and!.
  - intros id_str s. unfold find_vm_by_id_str. destruct (scoped_id id_str) as [[c v]|] eqn:Es.
    + unfold find_vm. pose proof (in_listed h d s Hok) as Hin. destruct (list_vms h d) as [vms d']. cbn [fst] in *.
      intros [Hs [?%Z.eqb_eq ?%Z.eqb_eq]%andb_true_iff]%find_some. split; [by apply Hin|left]. congruence.
    + destruct (parse_u8 id_str) as [num|] eqn:Ep.
      * assert (Hin := fun s => in_listed h d s Hok). destruct (list_vms h d) as [vms d'] eqn:El. cbn [fst] in *.
        assert (Hf : forall s', In s' (filter (fun s => vm_id s = num) vms) <-> vm_id s' = num /\ live h d s')
          by (intros s'; by rewrite <- list_elem_of_In, list_elem_of_filter, list_elem_of_In, Hin).
        destruct (filter _ vms) as [|s1 [|s2 l]].
        -- pose proof (list_vms_dir h d) as Hd. rewrite El in Hd. cbn [snd] in Hd. subst d'.
           intros Hs. apply found_by_name in Hs as [Hl Hn]; [split; [by apply live_prune|tauto]|by apply prune_ok].
        -- cbn [fst]. intros [= ->]. destruct (proj1 (Hf s) (or_introl eq_refl)) as [<- Hl]. split; [done|right; left].
           split; [done|]. intros s' Hl' Ev. by destruct (proj2 (Hf s') (conj Ev Hl')) as [->|[]].
        -- done.
      * intros Hs. apply found_by_name in Hs as [Hl Hn]; [split; [exact Hl|tauto]|done].
  - intros c v Hi. unfold find_vm_by_id_str, scoped_id. change ("/" +:+ dec v) with (String "/" (dec v)).
    rewrite split_once_plain by (apply dec_plain; [destruct Hi; words|done]).
    cbn [mbind option_bind]. destruct Hi as [Hc Hv]. rewrite !parse_u8_dec by done. cbn [mbind option_bind].
    by apply find_vm_stored.
  - intros v s1 s2 Hv Hl1 Hl2 E1 E2 Hne. unfold find_vm_by_id_str, scoped_id.
    rewrite split_once_none by (apply dec_plain; [words|done]). cbn [mbind option_bind]. rewrite parse_u8_dec by done.
    assert (Hin := fun s => in_listed h d s Hok). destruct (list_vms h d) as [vms d'] eqn:El. cbn [fst] in *.
    assert (Hf : forall s, live h d s -> vm_id s = v -> In s (filter (fun s => vm_id s = v) vms))
      by (intros s Hl Es; apply list_elem_of_In, list_elem_of_filter; split; [done|]; by apply list_elem_of_In, Hin).
    pose proof (Hf s1 Hl1 E1) as I1. pose proof (Hf s2 Hl2 E2) as I2.
    destruct (filter _ vms) as [|x [|y l]]; [done| |done]. destruct I1 as [<-|[]], I2 as [<-|[]]. done.
Qed.
End lookups.

(** ** Stopping *)
Section stopping.
Context `{ReadDirLaws}.

Lemma find_vm_dir h c v d : snd (find_vm h c v d) = prune h d.
Proof. unfold find_vm. rewrite <- list_vms_dir. by destruct (list_vms h d). Qed.

Definition stops_only (hosts : nat -> host) (s : VmState) (sigs : list (nat * signal * Z)) : Prop :=
  (forall i sg p, In (i, sg, p) sigs -> p = pid s /\ pid_matches_vm (hosts i) p (name s) = true)
  /\ (forall i p, In (i, SIGKILL, p) sigs -> forall j, (1 <= j <= 900)%nat -> is_pid_alive (hosts j) p = true).

Lemma stop_by_state_spec hosts kill s d r sigs d' :
  stop_vm_by_state hosts kill s d = (r, sigs, d') ->
  stops_only hosts s sigs /\ d' = (if decide (r = inl SignalRefused) then d else unregister_vm (cell_id s) (vm_id s) d)
  /\ (r = inr () -> pid_matches_vm (hosts 0%nat) (pid s) (name s) = true ->
      (exists j, (1 <= j <= 900)%nat /\ is_pid_alive (hosts j) (pid s) = false)
      \/ pid_matches_vm (hosts 901%nat) (pid s) (name s) = false \/ In (901%nat, SIGKILL, pid s) sigs).
Proof.
  unfold stop_vm_by_state, stops_only. destruct (pid_matches_vm (hosts 0%nat) (pid s) (name s)) eqn:E0; cbn [negb].
  2: { intros [= <- <- <-]. rewrite decide_False by done. split_and!; [by intros ? ? ? []|by intros ? ? []|done|done]. }
  destruct (kill (pid s)).
  - destruct (existsb _ _) eqn:Ee.
    + intros [= <- <- <-]. rewrite decide_False by done. split_and!; [|by intros i p [[=]|[]]|done|].
      * intros i sg p [[= <- <- <-]|[]]. done.
      * intros _ _. left. apply existsb_exists in Ee as (j & Hj & Ha). apply in_seq in Hj. exists j. split; [lia|]. by apply negb_true_iff.
    + assert (Hall : forall j, (1 <= j <= 900)%nat -> is_pid_alive (hosts j) (pid s) = true).
      { intros j Hj. apply not_false_iff_true. intros Ha. apply not_true_iff_false in Ee. apply Ee, existsb_exists.
        exists j. split; [apply in_seq; lia|by rewrite Ha]. }
      destruct (pid_matches_vm (hosts 901%nat) (pid s) (name s)) eqn:E1; cbn [negb]; intros [= <- <- <-];
        rewrite decide_False by done; split_and!; try done; try (intros _ _; auto; right; right; cbn; by auto).
      * by intros i sg p [[= <- <- <-]|[[= <- <- <-]|[]]].
      * by intros i p [[=]|[[= <- <-]|[]]].
      * by intros i sg p [[= <- <- <-]|[]].
      * by intros i p [[=]|[]].
  - intros [= <- <- <-]. rewrite decide_False by done. split_and!; [|by intros i p [[=]|[]]|done|done].
    by intros i sg p [[= <- <- <-]|[]].
  - intros [= <- <- <-]. rewrite decide_True by done. split_and!; [|by intros i p [[=]|[]]|done|done].
    by intros i sg p [[= <- <- <-]|[]].
Qed.

(** C29. Stopping a VM: every signal goes to the process its file records, at a moment when /proc
    shows that process as the VM of that name; the kill comes only after 90 seconds of polls
    that all found it alive; a stop that succeeds ends with the process gone, or no longer
    this VM, or killed; the file of the VM goes, unless the signal was refused, and the
    files of the other VMs stay. *)
Theorem stop_signals_its_vm hosts kill c v d r sigs d' :
  files_ok d -> ids_ok c v -> stop_vm hosts kill c v d = (r, sigs, d') ->
  match stored d c v with
  | Some s =>
      if is_pid_alive (hosts 0%nat) (pid s)
      then stops_only hosts s sigs
        /\ stored d' c v = (if decide (r = inl SignalRefused) then Some s else None)
        /\ (r = inr () -> pid_matches_vm (hosts 0%nat) (pid s) (name s) = true ->
            (exists j, (1 <= j <= 900)%nat /\ is_pid_alive (hosts j) (pid s) = false)
            \/ pid_matches_vm (hosts 901%nat) (pid s) (name s) = false \/ In (901%nat, SIGKILL, pid s) sigs)
      else r = inl VmNotFound /\ sigs = []
  | None => r = inl VmNotFound /\ sigs = []
  end
  /\ forall c' v', ids_ok c' v' -> (c', v') <> (c, v) -> stored d' c' v' = stored (prune (hosts 0%nat) d) c' v'.
Proof.
  intros Hok Hi. unfold stop_vm. pose proof (find_vm_stored (hosts 0%nat) c v d Hok Hi) as Hf.
  pose proof (find_vm_dir (hosts 0%nat) c v d) as Hd. destruct (find_vm _ c v d) as [o d1]. cbn [fst snd] in *. subst d1.
  destruct (stored d c v) as [s|] eqn:Es; cbn [mbind option_bind] in Hf; [|subst o; by intros [= <- <- <-]].
  destruct (is_pid_alive (hosts 0%nat) (pid s)) eqn:Ea; subst o; [|by intros [= <- <- <-]].
  intros (Hs & -> & Hr)%stop_by_state_spec. destruct (stored_ids d c v s Hok Hi Es) as [-> ->].
  split; [split_and!; [done| |done]|].
  - case_decide; [rewrite stored_prune, Es; cbn; by rewrite Ea|]. rewrite stored_unregister by done. by rewrite decide_True.
  - intros c' v' Hi' Hne. case_decide; [done|]. rewrite stored_unregister by done. rewrite decide_False by naive_solver. done.
Qed.
End stopping.

(** ** Processes without a state file *)
(** the command line of a process, as /proc shows it *)
Definition render (args : list string) : string := foldr (fun a r => a +:+ String nul r) "" args.

Lemma split_render args : Forall (fun a => char_in nul a = false) args -> split_on nul (render args) = args ++ [""].
Proof.
  induction 1 as [|a args Ha Hargs IH]; [done|]. cbn [render foldr]. fold (render args).
  by rewrite split_on_app, IH, split_on_plain.
Qed.

Lemma render_app l1 l2 : render (l1 ++ l2) = render l1 +:+ render l2.
Proof.
  induction l1 as [|a l1 IH]; [done|]. cbn [render foldr app]. fold (render (l1 ++ l2)) (render l1).
  by rewrite IH, string_app_assoc, append_cons.
Qed.

Lemma last_piece_suffix c s : exists x, s = x +:+ List.last (split_on c s) "".
Proof.
  assert (H : forall l, exists x, join_with c l = x +:+ List.last l "").
  { induction l as [|a l IH]; [by exists ""|]. destruct l as [|b l]; [by exists ""|]. destruct IH as [x IH].
    exists (a +:+ String c x). change (join_with c (a :: b :: l)) with (a +:+ String c (join_with c (b :: l))).
    rewrite IH. by rewrite string_app_assoc. }
  destruct (H (split_on c s)) as [x E]. exists x. by rewrite join_split_on in E.
Qed.

Lemma has_pair_split a b l : has_pair a b l = true -> exists l1 l2, l = l1 ++ a :: b :: l2.
Proof.
  induction l as [|x l IH]; [done|]. destruct l as [|y l]; [done|].
  change (has_pair a b (x :: y :: l)) with ((bool_decide (x = a) && bool_decide (y = b)) || has_pair a b (y :: l)).
  intros [[->%bool_decide_eq_true ->%bool_decide_eq_true]%andb_true_iff|(l1 & l2 & ->)%IH]%orb_true_iff.
  - by exists [], l.
  - by exists (x :: l1), l2.
Qed.

Lemma contains_arg w a args : In a args -> contains w a = true -> contains w (render args) = true.
Proof.
  intros (l1 & l2 & ->)%in_split (x & r & ->)%contains_spec. rewrite render_app. cbn [render foldr].
  assert (E : forall t, render l1 +:+ (x +:+ w +:+ r) +:+ t = (render l1 +:+ x) +:+ w +:+ (r +:+ t))
    by (intros t; by rewrite !string_app_assoc).
  rewrite E. apply contains_intro.
Qed.

Lemma contains_self w a : a = w -> contains w a = true.
Proof. intros ->. pose proof (contains_intro w "" "") as H. by rewrite app_nil_string in H. Qed.

Lemma matching_looks_like nm args st : args_match nm args = true -> looks_like nm (mkProc (Some (render args)) st) = true.
Proof.
  unfold args_match, looks_like. cbn [cmdline]. destruct args as [|a0 args]; [done|].
  intros [[Hb Hr]%andb_true_iff Hp]%andb_true_iff. rewrite !andb_true_iff. split_and!.
  - apply orb_true_iff in Hb as [Hb|Hm].
    + apply bool_decide_eq_true in Hb. apply (contains_arg _ a0); [by left|].
      destruct (last_piece_suffix "/" a0) as [x E]. fold (base_name a0) in E. rewrite Hb in E. rewrite E.
      rewrite <- (app_nil_string "nkr"). apply contains_intro.
    + apply existsb_exists in Hm as (y & Hy & E%bool_decide_eq_true). by apply (contains_arg _ y); [|apply contains_self].
  - apply existsb_exists in Hr as (y & Hy & E%bool_decide_eq_true). by apply (contains_arg _ y); [|apply contains_self].
  - apply has_pair_split in Hp as (l1 & l2 & ->). rewrite render_app. cbn [render foldr]. fold (render l2).
    change ("--name" +:+ String nul (nm +:+ String nul (render l2))) with ("--name" +:+ String nul "" +:+ (nm +:+ String nul (render l2))).
    assert (E : "--name" +:+ String nul "" +:+ (nm +:+ String nul (render l2))
      = ("--name" +:+ String nul (nm +:+ String nul "")) +:+ render l2).
    { change ("--name" +:+ String nul (nm +:+ String nul "")) with ("--name" +:+ (String nul "" +:+ (nm +:+ String nul ""))).
      rewrite !string_app_assoc. done. }
    rewrite E. apply contains_intro.
Qed.

Lemma kept_all (args : list string) : Forall (fun a => a <> "") args -> filter (fun a => a <> "") args = args.
Proof. induction 1 as [|a l Ha Hl IH]; [done|]. by rewrite filter_cons_True, IH. Qed.

Section by_name.
Context `{ReadDirLaws}.

(** Stopping by name when the state file is lost: every process that is this VM, by the very
    test that guards the other stops, gets the signal. *)
Theorem orphan_is_stopped hosts kill nm d pid0 args st r sigs d' :
  (forall s, name s = nm -> ~ In s (fst (list_vms (hosts 0%nat) d))) ->
  hosts 0%nat !! pid0 = Some (mkProc (Some (render args)) st) ->
  Forall (fun a => char_in nul a = false /\ a <> "") args ->
  pid_matches_vm (hosts 0%nat) pid0 nm = true ->
  stop_vm_by_name hosts kill nm d = (r, sigs, d') ->
  r = inr () /\ In (0%nat, SIGTERM, pid0) sigs.
Proof.
  intros Hno Hp Hargs Hm. unfold stop_vm_by_name. destruct (list_vms _ d) as [vms d1]. cbn [fst] in Hno.
  destruct (find _ vms) as [s|] eqn:Ef.
  { apply find_some in Ef as [Hs Hn%bool_decide_eq_true]. by destruct (Hno s Hn). }
  assert (Hin : In pid0 (orphans (hosts 0%nat) nm)).
  { unfold orphans. apply in_map_iff. exists (pid0, mkProc (Some (render args)) st). split; [done|].
    apply list_elem_of_In, list_elem_of_filter. split; [|by apply elem_of_map_to_list].
    apply matching_looks_like. unfold pid_matches_vm in Hm. rewrite Hp in Hm. cbn in Hm.
    rewrite split_render in Hm by (eapply list.Forall_impl; [exact Hargs|by intros a []]).
    rewrite list.filter_app, kept_all in Hm by (eapply list.Forall_impl; [exact Hargs|by intros a []]).
    cbn in Hm. by rewrite app_nil_r in Hm. }
  destruct (orphans _ nm) as [|p ps]; [done|]. intros [= <- <- <-]. split; [done|].
  change ((0%nat, SIGTERM, p) :: map (fun q => (0%nat, SIGTERM, q)) ps) with (map (fun q => (0%nat, SIGTERM, q)) (p :: ps)).
  apply in_map_iff. by exists pid0.
Qed.
End by_name.

(** ** Examples *)
Module StateExample.
Definition mem0 : guest_mem := mkGuestMem 0 0 0 0.
Definition vm (cell id pid : Z) (nm h : string) : VmState :=
  mkVmState id h nm pid 512 1 [] "10.0.1.4" [] "nkr-tap" 1000 true false 0 cell mem0.
Definition acme : VmState := vm 1 3 100 "acme-prod" "f00".
Definition beta : VmState := vm 2 3 200 "beta-prod" "b00".
Definition sleeping : option string := Some "State:	S (sleeping)".
Definition run_args (nm : string) : list string := ["/usr/bin/nkr"; "run"; "--name"; nm; "--ram"; "512"].
Definition h : host := {[100 := mkProc (Some (render (run_args "acme-prod"))) sleeping;
                         200 := mkProc (Some (render (run_args "beta-prod"))) sleeping]}.
Definition zombies : host := {[100 := mkProc (Some "") (Some "State:	Z (zombie)")]}.
Definition ops : list state_op :=
  [Register acme; Register beta; Balloon 1 3 256; Memory 2 3 (mkGuestMem 9 8 7 6); Listing h; Unregister 2 3].
Definition d : dir := {[state_path_scoped 1 3 := Some acme; state_path_scoped 2 3 := Some beta]}.
(** the process ends at the third poll *)
Definition hosts (i : nat) : host := if (i <? 3)%nat then h else zombies.
(** the process stays *)
Definition stuck (_ : nat) : host := h.
Definition sent (_ : Z) : kill_result := Sent.
End StateExample.

Lemma example_files_ok : files_ok StateExample.d.
Proof.
  unfold StateExample.d. intros f s [[<- [= <-]]|[_ [<- [= <-]]%lookup_singleton_Some]]%lookup_insert_Some;
    (split; [done|split; cbn; words]).
Qed.

Theorem state_refines_map_witness :
  fst (find_vm StateExample.h 1 3 (fold_left state_step StateExample.ops ∅))
  = Some (StateExample.acme <| balloon_mb := 256 |>).
Proof.
  rewrite (state_refines_map StateExample.h StateExample.ops 1 3).
  - vm_compute. reflexivity.
  - unfold StateExample.ops. repeat (apply List.Forall_cons; [first [exact I|split; cbn; words]|]). apply List.Forall_nil.
  - split; words.
Defined.

Theorem lookup_unambiguous_witness :
  fst (find_vm_by_id_str StateExample.h "2/3" StateExample.d) = Some StateExample.beta
  /\ fst (find_vm_by_id_str StateExample.h "3" StateExample.d) = None
  /\ live StateExample.h StateExample.d StateExample.acme.
Proof.
  destruct (lookup_unambiguous StateExample.h StateExample.d example_files_ok) as (H1 & H2 & H3).
  assert (La : live StateExample.h StateExample.d StateExample.acme) by (split; vm_compute; reflexivity).
  split_and!.
  - etransitivity; [exact (H2 2 3 ltac:(split; words))|]. vm_compute. reflexivity.
  - apply (H3 3 StateExample.acme StateExample.beta); [words|done|split; vm_compute; reflexivity|done|done|discriminate].
  - exact La.
Defined.

Theorem stop_signals_its_vm_witness :
  stops_only StateExample.stuck StateExample.acme [(0%nat, SIGTERM, 100); (901%nat, SIGKILL, 100)]
  /\ is_pid_alive StateExample.h 100 = true.
Proof.
  pose proof (stop_signals_its_vm StateExample.stuck StateExample.sent 1 3 StateExample.d (inr ())
    [(0%nat, SIGTERM, 100); (901%nat, SIGKILL, 100)] (unregister_vm 1 3 StateExample.d) example_files_ok
    ltac:(split; words) ltac:(vm_compute; reflexivity)) as [H _].
  assert (Es : stored StateExample.d 1 3 = Some StateExample.acme) by (vm_compute; reflexivity).
  assert (Ea : is_pid_alive (StateExample.stuck 0) (pid StateExample.acme) = true) by (vm_compute; reflexivity).
  rewrite Es in H. cbv beta iota in H. rewrite Ea in H. split; [exact (proj1 H)|exact Ea].
Defined.

Theorem orphan_is_stopped_witness :
  inr () = (inr () : stop_error + unit) /\ In (0%nat, SIGTERM, 100) [(0%nat, SIGTERM, 100)].
Proof.
  apply (orphan_is_stopped StateExample.stuck StateExample.sent "acme-prod" ∅ 100
    (StateExample.run_args "acme-prod") StateExample.sleeping (inr ()) [(0%nat, SIGTERM, 100)] ∅).
  - intros s _. vm_compute. tauto.
  - vm_compute. reflexivity.
  - unfold StateExample.run_args. repeat (apply List.Forall_cons; [split; [reflexivity|discriminate]|]). apply List.Forall_nil.
  - vm_compute. reflexivity.
  - vm_compute. reflexivity.
Defined.

(** The scan is wider than the test: an editor whose arguments mention the VM is signalled too. *)
Example orphan_too_wide :
  let args := ["vi"; "/opt/nkr/run.md"; "--name"; "acme-prod"] in
  looks_like "acme-prod" (mkProc (Some (render args)) None) = true /\ args_match "acme-prod" args = false.
Proof. vm_compute. split; reflexivity. Qed.

(** A long name with an accent at the cut of its column stops the listing with a panic. *)
Example accented_name_panics : truncate_str "instancias-de-producción-uno" 24 = None.
Proof. vm_compute. reflexivity. Qed.
