(* ===== verification/Resources.v ===== *)
(** * Sizing of an instance (src/api.rs, src/vmm.rs)

    The API takes a tier and at most a number of workers; everything else is derived.
    The start-up of the VM turns the derived numbers into the limits of its control group
    and the cores it is pinned to. *)
From S2P Require Import Prelude.

Inductive Tier := Production | Staging | Dev.
#[export] Instance tier_eq_dec : EqDecision Tier.
Proof. solve_decision. Defined.

Definition is_dev_like (t : Tier) : bool :=
  match t with Staging | Dev => true | Production => false end.

Record DerivedResources := mkDerived {
  workers : Z; chrs : Z; ram_mb : Z;
  limit_memory_soft : Z; limit_memory_hard : Z;
  balloon_mb : Z; balloon_idle_mb : Z;
}.

Definition derive_resources_for_tier (n : Z) (tier : Tier) : DerivedResources :=
  match tier with
  | Dev => mkDerived 0 5 1300 (800 * 1024 * 1024) (1000 * 1024 * 1024) 0 256
  | Staging => mkDerived 0 5 1024 (600 * 1024 * 1024) (700 * 1024 * 1024) 0 256
  | Production =>
      let w := Z.max n 1 in
      mkDerived w (u32 (u32 (2 * w) + 1)) (Z.max (u32 (256 + 256 + u32 (768 * w))) 1024)
        (u64 (640 * w * 1024 * 1024)) (u64 (768 * w * 1024 * 1024)) 0 0
  end.

Definition derive_resources (n : Z) : DerivedResources := derive_resources_for_tier n Production.

(** [a.saturating_mul(b)] *)
Definition sat_mul32 (a b : Z) : Z := Z.min (a * b) (2 ^ 32 - 1).
(** [None] of the source is [true]: the budget is enough *)
Definition validate_workers_ram_budget (n ram : Z) : bool :=
  negb (ram <? u32 (256 + 256 + sat_mul32 n 768)).

Inductive sizing_error := InvalidWorkers | InvalidChrs.

(** the sizing of [handle_create]: the checks and the overrides *)
Definition size_instance (tier : Tier) (req_workers req_chrs : option Z)
  : sizing_error + DerivedResources * Z :=
  if match req_workers with Some w => negb ((1 <=? w) && (w <=? 16)) | None => false end
  then inl InvalidWorkers
  else
    let r := derive_resources_for_tier (default 2 req_workers) tier in
    if is_dev_like tier then inr (r, chrs r)
    else match req_chrs with
         | Some c => if negb ((1 <=? c) && (c <=? 50)) then inl InvalidChrs else inr (r, c)
         | None => inr (r, chrs r)
         end.

(** ** The limits of the control group *)
Record cgroup := mkCgroup { cpu_quota : Z; cpu_burst : Z; memory_max : Z }.

Definition cgroup_limits (chrs ram_mb : Z) (burst : bool) : cgroup :=
  let headroom_bytes := Z.max (u64 (ram_mb * 1024 * 1024 * 15) / 100) (128 * 1024 * 1024) in
  mkCgroup (u32 (chrs * 20000)) (if burst then u32 (chrs * 5000) else 0)
    (u64 (ram_mb * 1024 * 1024 + headroom_bytes)).

(** the number of cores the VM is pinned to (of the first ones); [None]: not pinned *)
Definition pin_cpu_chrs (num_cores chrs : Z) : option Z :=
  if chrs =? 0 then None else Some (Z.min ((chrs + 4) / 5) num_cores).

(** ** Properties *)
Definition valid_request (w c : option Z) : Prop :=
  match w with Some w => 1 <= w <= 16 | None => True end /\
  match c with Some c => 1 <= c <= 50 | None => True end.

Lemma production_values w :
  1 <= w <= 16 ->
  derive_resources_for_tier w Production =
  mkDerived w (2 * w + 1) (512 + 768 * w) (640 * w * 1048576) (768 * w * 1048576) 0 0.
Proof.
  intros Hw. unfold derive_resources_for_tier. rewrite Z.max_l by lia.
  rewrite !(u32_small (768 * w)), !u32_small, !u64_small by words. f_equal; lia.
Qed.

(** The derived sizes are sound.  A request is sized exactly when its workers are 1
    to 16 and, for production, its quota 1 to 50; no product of the derivation then
    overflows; the memory passes the budget check for its workers; the worker limits are
    ordered and fit in the RAM that is left to the guest after the balloon has taken its
    idle target, with 44 MB or more to spare; only the development tiers have a
    moving balloon, and it takes at most a quarter of the RAM. *)
Theorem sizing_sound tier w c :
  (tier = Production -> valid_request w c) -> match w with Some w => 1 <= w <= 16 | None => True end ->
  exists r quota, size_instance tier w c = inr (r, quota)
    /\ 1 <= quota <= 50
    /\ validate_workers_ram_budget (workers r) (ram_mb r) = true
    /\ workers r = (if is_dev_like tier then 0 else default 2 w)
    /\ 0 < limit_memory_soft r < limit_memory_hard r
    /\ limit_memory_hard r + 44 * 1024 * 1024 <= (ram_mb r - balloon_idle_mb r) * 1024 * 1024
    /\ 4 * balloon_idle_mb r <= ram_mb r
    /\ balloon_mb r = 0 /\ (balloon_idle_mb r = 0 <-> tier = Production)
    /\ (tier = Production -> ram_mb r = 512 + 768 * default 2 w).
Proof.
  intros Hc Hw. unfold size_instance.
  assert (Hin : match w with Some w => negb ((1 <=? w) && (w <=? 16)) | None => false end = false).
  { destruct w as [w|]; [|done]. apply negb_false_iff, andb_true_iff. lia. }
  rewrite Hin. destruct tier; cbn [is_dev_like].
  - assert (Hn : 1 <= default 2 w <= 16) by (destruct w; simpl; lia).
    set (n := default 2 w) in *. rewrite production_values by done.
    exists (mkDerived n (2 * n + 1) (512 + 768 * n) (640 * n * 1048576) (768 * n * 1048576) 0 0),
      (default (2 * n + 1) c).
    destruct (Hc eq_refl) as [_ Hq]. split.
    + destruct c as [c|]; [|done]. replace (negb _) with false; [done|].
      symmetry. apply negb_false_iff, andb_true_iff. lia.
    + unfold validate_workers_ram_budget, sat_mul32. simpl.
      rewrite u32_small by words. split_and!; try done; try lia; destruct c; simpl; lia.
  - eexists _, _. split; [done|]. by vm_compute.
  - eexists _, _. split; [done|]. by vm_compute.
Qed.

(** The RAM of a production instance stays below the MMIO pages of the VM (at most
    3328 MB, see [Layout.windows_disjoint]) exactly with one to three workers. *)
Lemma production_below_mmio w :
  1 <= w <= 16 -> ram_mb (derive_resources w) <= 3328 <-> w <= 3.
Proof. intros Hw. unfold derive_resources. rewrite production_values by done. simpl. lia. Qed.

(** The budget check is exact, up to its overflow.  Up to 5592404 workers the check
    passes exactly when the RAM is at least 512 MB and 768 MB per worker; from there on
    the saturated product wraps when 512 is added to it, and the check passes with 511 MB
    whatever the number of workers. *)
Theorem budget_check_exact n ram :
  is_u32 n -> is_u32 ram ->
  (n <= 5592404 -> validate_workers_ram_budget n ram = true <-> 512 + 768 * n <= ram)
  /\ (5592404 < n -> 511 <= ram -> validate_workers_ram_budget n ram = true).
Proof.
  unfold is_u32, validate_workers_ram_budget, sat_mul32. intros Hn Hr. split.
  - intros Hs. rewrite Z.min_l, u32_small, negb_true_iff, Z.ltb_ge by words. lia.
  - intros Hl Hram. apply negb_true_iff, Z.ltb_ge.
    destruct (Z.eq_dec n 5592405) as [->|Hne].
    + change (u32 _) with 256. lia.
    + rewrite Z.min_r by lia. change (u32 _) with 511. lia.
Qed.

(** The control group lets the VM use what it was given.  For every VM of up to
    1 TiB and up to 50 quota units, nothing overflows: the CPU quota is a fifth of a
    core per unit and the cores it is pinned to provide it when the host has them, and
    the memory limit exceeds the RAM by 15 percent and at least 128 MiB. *)
Theorem cgroup_covers chrs ram num_cores burst :
  1 <= chrs <= 50 -> 0 < ram <= 1048576 -> 10 <= num_cores ->
  let g := cgroup_limits chrs ram burst in
  cpu_quota g = 20000 * chrs
  /\ (exists cores, pin_cpu_chrs num_cores chrs = Some cores
      /\ cpu_quota g <= 100000 * cores /\ 100000 * (cores - 1) < cpu_quota g)
  /\ (if burst then cpu_burst g = cpu_quota g / 4 else cpu_burst g = 0)
  /\ ram * 1048576 + 128 * 1048576 <= memory_max g
  /\ 115 * (ram * 1048576) < 100 * (memory_max g + 1).
Proof.
  intros Hc Hr Hn. unfold cgroup_limits, pin_cpu_chrs. simpl.
  rewrite (u32_small (chrs * 20000)), (u64_small (ram * 1024 * 1024 * 15)) by words.
  replace (chrs =? 0) with false by (symmetry; apply Z.eqb_neq; lia).
  split_and!; [lia| | | |].
  - exists ((chrs + 4) / 5). rewrite Z.min_l by lia. split_and!; [done|lia|lia].
  - destruct burst; [|done]. rewrite u32_small by words. lia.
  - rewrite u64_small by words. lia.
  - rewrite u64_small by words. lia.
Qed.

Lemma sizing_sound_witness :
  exists r quota, size_instance Production (Some 3) None = inr (r, quota) /\ ram_mb r = 2816.
Proof.
  destruct (sizing_sound Production (Some 3) None) as (r & q & E & _ & _ & _ & _ & _ & _ & _ & _ & Hr).
  - intros _. by vm_compute.
  - by vm_compute.
  - exists r, q. split; [exact E|]. by rewrite Hr.
Defined.

Lemma budget_check_exact_witness :
  validate_workers_ram_budget 5592406 511 = true /\ validate_workers_ram_budget 10 2048 = false.
Proof.
  split.
  - by apply (budget_check_exact 5592406 511); vm_compute.
  - apply not_true_iff_false. intros H. apply (budget_check_exact 10 2048) in H; by vm_compute in H |- *.
Defined.

Lemma cgroup_covers_witness : cpu_quota (cgroup_limits 7 2048 true) = 140000 /\ pin_cpu_chrs 16 7 = Some 2.
Proof.
  destruct (cgroup_covers 7 2048 16 true) as (H & _); [lia|lia|lia|]. split; [exact H|by vm_compute].
Defined.
