(* ===== verification/Conf.v ===== *)
(** * The configuration file of an instance (src/cell.rs, src/api.rs)

    [odoo.conf] is an INI file, here the list of its lines.  [upsert_key] sets a key of
    the [[options]] section, [parse_conf_value_in_section] reads one.  [handle_patch_config]
    turns a request into a list of such updates; its request is the decoded record. *)
From S2P Require Import Prelude Text Http Resources Watchdog.

Definition trim_start (s : string) : string :=
  String.string_of_list_ascii (drop_spaces (String.list_ascii_of_string s)).
Definition trim_end (s : string) : string :=
  String.string_of_list_ascii (reverse (drop_spaces (reverse (String.list_ascii_of_string s)))).

(** ** Writing *)
Definition is_options (l : string) : bool := bool_decide (trim l = "[options]").
Definition is_section (l : string) : bool := let t := trim l in starts_with "[" t && ends_with "]" t.
Definition has_key (key l : string) : bool :=
  let t := trim_start l in starts_with (key +:+ " =") t || starts_with (key +:+ "=") t.

(** [lines.iter().position(p)] *)
Fixpoint position {A} (p : A -> bool) (l : list A) : option nat :=
  match l with
  | [] => None
  | x :: l => if p x then Some 0%nat else S <$> position p l
  end.

Definition insert_at {A} (i : nat) (x : A) (l : list A) : list A := take i l ++ x :: drop i l.

Definition upsert_key (lines : list string) (key value : string) : list string :=
  let target := key +:+ " = " +:+ value in
  let opts_header := position is_options lines in
  let '(start_idx, end_idx) :=
    match opts_header with
    | Some h => (S h, match position is_section (drop (S h) lines) with
                      | Some rel => (S h + rel)%nat | None => length lines end)
    | None => (length lines, length lines)
    end in
  match position (has_key key) (take (end_idx - start_idx) (drop start_idx lines)) with
  | Some i => <[(start_idx + i)%nat := target]> lines
  | None =>
      match opts_header with
      | Some h => insert_at (S h) target lines
      | None =>
          let lines := match list.last lines with
                       | Some l => if bool_decide (l = "") then lines else lines ++ [""]
                       | None => lines end in
          lines ++ ["[options]"; target]
      end
  end.

(** the contents of the file; [None] when it does not exist *)
Definition patch_odoo_conf (file : option string) (upserts : list (string * string)) : option string :=
  content ← file;
  Some (foldr (fun l acc => l +:+ String LF acc) ""
          (fold_left (fun lines '(k, v) => upsert_key lines k v) upserts (lines content))).

(** ** Reading *)
Definition is_comment (t : string) : bool := starts_with "#" t || starts_with ";" t.
(** the value that a line gives to a key *)
Definition line_value (key t : string) : option string :=
  rest ← strip_prefix key t;
  rest ← strip_prefix "=" (trim_start rest);
  let v := trim rest in if bool_decide (v = "") then None else Some v.

Fixpoint parse_section (target key : string) (in_section : bool) (lines : list string) : option string :=
  match lines with
  | [] => None
  | line :: lines =>
      let t := trim_start line in
      if is_comment t then parse_section target key in_section lines
      else if starts_with "[" t && char_in "]" t
      then parse_section target key (bool_decide (trim_end t = target)) lines
      else if negb in_section then parse_section target key in_section lines
      else match line_value key t with
           | Some v => Some v
           | None => parse_section target key in_section lines
           end
  end.
Definition parse_conf_value_in_section (conf section key : string) : option string :=
  parse_section ("[" +:+ section +:+ "]") key false (lines conf).

Fixpoint parse_value (key : string) (lines : list string) : option string :=
  match lines with
  | [] => None
  | line :: lines =>
      let t := trim_start line in
      if starts_with "#" t || starts_with ";" t || starts_with "[" t then parse_value key lines
      else match line_value key t with Some v => Some v | None => parse_value key lines end
  end.
Definition parse_conf_value (conf key : string) : option string := parse_value key (lines conf).

(** ** The request *)
Definition is_safe_conf_value (s : string) : bool :=
  negb (String.length s =? 0)%nat && (String.length s <=? 512)%nat
  && all_chars (fun b => negb (is_one_of (String nul (String LF (String CR ""))) b)) s.
Definition is_safe_smtp_host (s : string) : bool :=
  negb (String.length s =? 0)%nat && (String.length s <=? 253)%nat
  && all_chars (fun b => is_alnum b || is_one_of ".-_:" b) s.

Record PatchConfigReq := mkPatch {
  pc_workers : option Z; pc_chrs : option Z;
  smtp_server : option string; smtp_port : option Z; smtp_user : option string;
  smtp_password : option string; smtp_encryption : option string; smtp_ssl : option bool;
  email_from : option string; pc_restart : option bool;
}.

Definition refused {A} (o : option A) (bad : A -> bool) : bool :=
  match o with Some a => bad a | None => false end.
Definition out_of (lo hi z : Z) : bool := negb ((lo <=? z) && (z <=? hi)).

(** the first check that fails, with the code of the answer *)
Definition check_patch (r : PatchConfigReq) : option (Z * string) :=
  if refused (pc_workers r) (out_of 1 16) then Some (400, "invalid_workers")
  else if refused (pc_chrs r) (out_of 1 50) then Some (400, "invalid_chrs")
  else if refused (smtp_server r) (fun h => negb (is_safe_smtp_host h)) then Some (400, "invalid_smtp_server")
  else if refused (smtp_port r) (fun p => p =? 0) then Some (400, "invalid_smtp_port")
  else if refused (smtp_user r) (fun u => negb (is_safe_conf_value u) || (256 <? String.length u)%nat)
  then Some (400, "invalid_smtp_user")
  else if refused (smtp_password r) (fun p => negb (is_safe_conf_value p)) then Some (400, "invalid_smtp_password")
  else if refused (email_from r) (fun e => negb (is_safe_conf_value e) || (256 <? String.length e)%nat)
  then Some (400, "invalid_email_from")
  else if refused (smtp_encryption r) (fun e => negb (bool_decide (e ∈ ["none"; "ssl"; "starttls"])))
  then Some (400, "invalid_smtp_encryption")
  else None.

Definition opt_list {A B} (o : option A) (f : A -> B) : list B := match o with Some a => [f a] | None => [] end.

Definition patch_upserts (r : PatchConfigReq) : list (string * string) :=
  match pc_workers r with
  | Some w => let d := derive_resources w in
      [("workers", dec (workers d)); ("limit_memory_soft", dec (limit_memory_soft d));
       ("limit_memory_hard", dec (limit_memory_hard d))]
  | None => []
  end
  ++ opt_list (smtp_server r) (pair "smtp_server")
  ++ opt_list (smtp_port r) (fun p => ("smtp_port", dec p))
  ++ opt_list (smtp_user r) (pair "smtp_user")
  ++ opt_list (smtp_password r) (pair "smtp_password")
  ++ opt_list (smtp_ssl r) (fun b : bool => ("smtp_ssl", if b then "True" else "False"))
  ++ opt_list (email_from r) (pair "email_from").

(** what is written: the updates of the file, and of the sizes of the service *)
Inductive patch_result :=
  | PatchRefused (code : Z) (err : string)
  | PatchApplied (upserts : list (string * string)) (ram chrs balloon : option Z) (restart : bool).

Definition handle_patch_config (tier : Tier) (r : PatchConfigReq) : patch_result :=
  match check_patch r with
  | Some (code, err) => PatchRefused code err
  | None =>
      if is_dev_like tier && (match pc_workers r with Some _ => true | None => false end
                              || match pc_chrs r with Some _ => true | None => false end)
      then PatchRefused 409 "sizing_locked_for_tier"
      else
        let ups := patch_upserts r in
        match ups with
        | [] => PatchRefused 400 "no_fields"
        | _ =>
            match pc_workers r with
            | Some w =>
                let d := derive_resources w in
                PatchApplied ups (Some (ram_mb d)) (Some (default (chrs d) (pc_chrs r)))
                  (Some (balloon_mb d)) (default true (pc_restart r))
            | None =>
                match pc_chrs r with
                | Some c => PatchApplied ups None (Some c) None (default true (pc_restart r))
                | None => PatchApplied ups None None None (default false (pc_restart r))
                end
            end
        end
  end.

(** ** Lines *)
Lemma trim_both l : trim l = trim_end (trim_start l).
Proof. unfold trim, trim_end, trim_start. by rewrite String.list_ascii_of_string_of_list_ascii. Qed.

(** keys as the program writes them *)
Definition key_ok (k : string) : Prop := k <> "" /\ all_chars id_char k = true.
Definition value_ok (v : string) : Prop := plain_text v /\ trim v <> "".

Lemma key_cons k : key_ok k -> exists c k', k = String c k' /\ id_char c = true /\ all_chars id_char k' = true.
Proof.
  intros [Hne Hk]. destruct k as [|c k']; [done|]. exists c, k'.
  unfold all_chars in Hk. cbn in Hk. apply andb_true_iff in Hk as [H1 H2]. by split_and!.
Qed.

Lemma id_char_not c : id_char c = true ->
  is_space c = false /\ c <> "="%char /\ c <> "["%char /\ c <> "#"%char /\ c <> ";"%char
  /\ c <> " "%char /\ c <> CR /\ c <> LF.
Proof. destruct c as [[] [] [] [] [] [] [] []]; vm_compute; intros [=]; split_and!; done. Qed.

Lemma trim_start_id c s : is_space c = false -> trim_start (String c s) = String c s.
Proof.
  intros Hc. unfold trim_start. cbn. rewrite Hc. cbn. by rewrite String.string_of_list_ascii_of_string.
Qed.

Lemma starts_with_cons p c s : starts_with (String p "") (String c s) = Ascii.eqb p c.
Proof. unfold starts_with. cbn. destruct (Ascii.eqb_spec p c), (Ascii.eqb_spec c p); subst; by destruct s. Qed.

(** the separators that follow a key *)
Definition separator (c : ascii) : Prop := c = " "%char \/ c = "="%char.

Lemma strip_prefix_cons a p b s :
  strip_prefix (String a p) (String b s) = if Ascii.eqb a b then strip_prefix p s else None.
Proof. done. Qed.

Lemma all_chars_cons p c s : all_chars p (String c s) = p c && all_chars p s.
Proof. done. Qed.

Lemma strip_prefix_other k k' c rest r :
  all_chars id_char k = true -> all_chars id_char k' = true -> separator c -> k <> k' ->
  strip_prefix k' (k +:+ String c rest) = Some r -> exists d r', r = String d r' /\ id_char d = true.
Proof.
  intros Hk Hk' Hc. revert k' Hk'. induction k as [|a k IH]; intros [|a' k'] Hk' Hne; try done.
  - change ("" +:+ ?s) with s. rewrite strip_prefix_cons. destruct (Ascii.eqb_spec a' c) as [->|]; [|done].
    rewrite all_chars_cons in Hk'. apply andb_true_iff in Hk' as [H _].
    apply id_char_not in H as (Hs & He & _ & _ & _ & Hsp & _). by destruct Hc as [->| ->].
  - intros [= <-]. rewrite all_chars_cons in Hk. apply andb_true_iff in Hk as [H _].
    by exists a, (k +:+ String c rest).
  - rewrite all_chars_cons in Hk, Hk'. apply andb_true_iff in Hk as [_ Hk], Hk' as [_ Hk'].
    rewrite append_cons, strip_prefix_cons. destruct (Ascii.eqb_spec a' a) as [->|]; [|done].
    apply (IH Hk k' Hk'). congruence.
Qed.

Lemma line_value_other k k' c rest :
  key_ok k -> key_ok k' -> separator c -> k <> k' -> line_value k' (k +:+ String c rest) = None.
Proof.
  intros [_ Hk] [_ Hk'] Hc Hne. unfold line_value.
  destruct (strip_prefix k' (k +:+ String c rest)) as [r|] eqn:E; [|done].
  destruct (strip_prefix_other _ _ _ _ _ Hk Hk' Hc Hne E) as (d & r' & -> & Hd).
  apply id_char_not in Hd as (Hs & He & _). cbn [mbind option_bind]. rewrite trim_start_id by done.
  rewrite strip_prefix_cons. destruct (Ascii.eqb_spec "=" d) as [<-|]; done.
Qed.

Lemma line_value_same k v : trim v <> "" -> line_value k (k +:+ " = " +:+ v) = Some (trim v).
Proof.
  intros Hv. unfold line_value. rewrite strip_prefix_app. cbn [mbind option_bind].
  change (trim_start (" = " +:+ v)) with (trim_start ("= " +:+ v)).
  change ("= " +:+ v) with (String "=" (" " +:+ v)). rewrite trim_start_id by done.
  change (strip_prefix "=" (String "=" (" " +:+ v))) with (strip_prefix "" (" " +:+ v)).
  replace (strip_prefix "" (" " +:+ v)) with (Some (" " +:+ v)) by done. cbn [mbind option_bind].
  change (trim (" " +:+ v)) with (trim v). by rewrite bool_decide_eq_false_2.
Qed.

(** a line that starts with a key and a separator *)
Definition keyed (k l : string) : Prop := exists c rest, separator c /\ trim_start l = k +:+ String c rest.

Lemma has_key_keyed k l : has_key k l = true -> keyed k l.
Proof.
  unfold has_key. intros [H|H]%orb_true_iff; apply starts_with_spec in H as [t H].
  - exists " "%char, ("=" +:+ t). split; [by left|]. by rewrite H, string_app_assoc.
  - exists "="%char, t. split; [by right|]. by rewrite H, string_app_assoc.
Qed.

Lemma target_start k v : key_ok k -> trim_start (k +:+ " = " +:+ v) = k +:+ " = " +:+ v.
Proof.
  intros (c & k' & -> & Hc & _)%key_cons. apply id_char_not in Hc as (Hs & _).
  rewrite append_cons. by apply trim_start_id.
Qed.

Lemma target_keyed k v : key_ok k -> keyed k (k +:+ " = " +:+ v) /\ has_key k (k +:+ " = " +:+ v) = true.
Proof.
  intros Hk. pose proof (target_start k v Hk) as E. split.
  - exists " "%char, ("= " +:+ v). split; [by left|done].
  - unfold has_key. rewrite E. apply orb_true_iff. left. apply starts_with_spec. exists (" " +:+ v).
    by rewrite string_app_assoc.
Qed.

(** ** Headers *)
Definition is_header (l : string) : bool := let t := trim_start l in starts_with "[" t && char_in "]" t.

(** the writer and the readers agree on the headers of the file *)
Definition conf_ok (lines : list string) : Prop := Forall (fun l => is_header l = is_section l) lines.
(** a line that gives a value to [k] is one that the writer recognises *)
Definition settable (k : string) (lines : list string) : Prop :=
  Forall (fun l => line_value k (trim_start l) <> None -> has_key k l = true) lines.

Lemma comment_not_bracket t : is_comment t = true -> starts_with "[" t = false.
Proof.
  destruct t as [|c t]; [done|]. unfold is_comment. rewrite !starts_with_cons.
  intros [<-%Ascii.eqb_eq|<-%Ascii.eqb_eq]%orb_true_iff; done.
Qed.

Lemma drop_spaces_suffix l : exists p, l = p ++ drop_spaces l.
Proof.
  induction l as [|c l [p IH]]; [by exists []|]. cbn. destruct (is_space c); [|by exists []].
  exists (c :: p). cbn. by rewrite <- IH.
Qed.

Lemma trim_end_prefix t : exists p, t = trim_end t +:+ p.
Proof.
  destruct (drop_spaces_suffix (reverse (String.list_ascii_of_string t))) as [p Hp].
  exists (String.string_of_list_ascii (reverse p)). apply list_ascii_inj. unfold trim_end.
  rewrite list_ascii_app, !String.list_ascii_of_string_of_list_ascii, <- reverse_app, <- Hp.
  by rewrite reverse_involutive.
Qed.

Lemma trim_end_bracket t : starts_with "[" (trim_end t) = true -> starts_with "[" t = true.
Proof.
  destruct (trim_end_prefix t) as [p Hp]. intros [u Hu]%starts_with_spec. rewrite Hu in Hp.
  rewrite Hp. apply starts_with_spec. exists (u +:+ p). apply string_app_assoc.
Qed.

Lemma keyed_plain k l : key_ok k -> keyed k l ->
  is_comment (trim_start l) = false /\ is_header l = false /\ is_section l = false.
Proof.
  intros (a & k' & -> & Ha & _)%key_cons (c & rest & _ & E).
  apply id_char_not in Ha as (_ & _ & Hb & Hh & Hs & _).
  assert (Hbr : starts_with "[" (trim_start l) = false).
  { rewrite E, append_cons, starts_with_cons. by apply Ascii.eqb_neq. }
  split_and!.
  - unfold is_comment. rewrite E, append_cons, !starts_with_cons.
    apply orb_false_iff. by split; apply Ascii.eqb_neq.
  - unfold is_header. by rewrite Hbr.
  - unfold is_section. rewrite trim_both. apply andb_false_iff. left. apply not_true_iff_false.
    intros H%trim_end_bracket. congruence.
Qed.

Lemma options_header l : is_options l = true ->
  is_comment (trim_start l) = false /\ is_header l = true /\ trim_end (trim_start l) = "[options]".
Proof.
  unfold is_options. intros E%bool_decide_eq_true. rewrite trim_both in E.
  assert (Hb : starts_with "[" (trim_start l) = true) by (apply trim_end_bracket; by rewrite E).
  split_and!; [|unfold is_header; rewrite Hb|done].
  - apply not_true_iff_false. intros H%comment_not_bracket. congruence.
  - destruct (trim_end_prefix (trim_start l)) as [p Hp]. rewrite E in Hp. rewrite Hp. cbn [andb].
    by rewrite char_in_app.
Qed.

(** ** Reading in two parts *)
Definition state_after (target : string) (st : bool) (lines : list string) : bool :=
  fold_left (fun st l =>
    if negb (is_comment (trim_start l)) && is_header l
    then bool_decide (trim_end (trim_start l) = target) else st) lines st.

Lemma parse_app target k st l1 l2 :
  parse_section target k st (l1 ++ l2) =
  match parse_section target k st l1 with
  | Some v => Some v
  | None => parse_section target k (state_after target st l1) l2
  end.
Proof.
  revert st. induction l1 as [|l l1 IH]; intros st; [done|]. cbn [app parse_section state_after fold_left].
  destruct (is_comment (trim_start l)); [apply IH|]. unfold is_header. cbn [negb andb].
  destruct (starts_with "[" (trim_start l) && char_in "]" (trim_start l)); [apply IH|].
  destruct st; cbn [negb]; [|apply IH]. destruct (line_value k (trim_start l)); [done|apply IH].
Qed.

(** out of its section a key is not read, whatever lines are not headers *)
Lemma parse_outside target k ls :
  Forall (fun l => is_header l = false) ls ->
  parse_section target k false ls = None /\ forall st, state_after target st ls = st.
Proof.
  induction 1 as [|l ls Hl _ [IH1 IH2]]; [done|]. split.
  - cbn [parse_section]. destruct (is_comment _); [done|]. unfold is_header in Hl. by rewrite Hl.
  - intros st. cbn [state_after fold_left]. rewrite Hl, andb_false_r. apply IH2.
Qed.

(** a line that sets another key, or none, does not matter *)
Lemma parse_skip target k st l ls :
  is_comment (trim_start l) = false -> is_header l = false -> (st = true -> line_value k (trim_start l) = None) ->
  parse_section target k st (l :: ls) = parse_section target k st ls.
Proof.
  intros Hc Hh Hv. unfold is_header in Hh. cbn [parse_section]. rewrite Hc, Hh.
  destruct st; [by rewrite Hv|done].
Qed.

Lemma parse_header target k st l ls :
  is_comment (trim_start l) = false -> is_header l = true ->
  parse_section target k st (l :: ls) = parse_section target k (bool_decide (trim_end (trim_start l) = target)) ls.
Proof. intros Hc Hh. unfold is_header in Hh. cbn [parse_section]. by rewrite Hc, Hh. Qed.

(** before the section is opened nothing is read *)
Lemma parse_before k ls :
  Forall (fun l => is_options l = false) ls ->
  parse_section "[options]" k false ls = None /\ state_after "[options]" false ls = false.
Proof.
  induction 1 as [|l ls Hl _ [IH1 IH2]]; [done|]. cbn [parse_section state_after fold_left].
  destruct (is_comment (trim_start l)); [done|]. fold (is_header l). cbn [negb andb].
  destruct (is_header l); [|done].
  rewrite bool_decide_eq_false_2; [done|]. rewrite <- trim_both. by apply bool_decide_eq_false in Hl.
Qed.

(** ** What [upsert_key] does *)
Lemma position_some {A} (p : A -> bool) l i :
  position p l = Some i -> exists a x b, l = a ++ x :: b /\ length a = i /\ p x = true /\ Forall (fun y => p y = false) a.
Proof.
  revert i. induction l as [|y l IH]; intros i; [done|]. cbn. destruct (p y) eqn:E.
  - intros [= <-]. by exists [], y, l.
  - destruct (position p l) as [j|]; [|done]. intros [= <-].
    destruct (IH j eq_refl) as (a & x & b & -> & <- & Hx & Ha). exists (y :: a), x, b. by repeat constructor.
Qed.
Lemma position_none {A} (p : A -> bool) l : position p l = None -> Forall (fun y => p y = false) l.
Proof.
  induction l as [|y l IH]; [done|]. cbn. destruct (p y) eqn:E; [done|].
  destruct (position p l); [done|]. intros _. constructor; auto.
Qed.

Definition target_line (k v : string) : string := k +:+ " = " +:+ v.

Inductive upserted (k v : string) (ls : list string) : list string -> Prop :=
  | up_replace pre h b1 l b2 post :
      ls = pre ++ h :: b1 ++ l :: b2 ++ post ->
      Forall (fun l => is_options l = false) pre -> is_options h = true ->
      Forall (fun l => is_section l = false) (b1 ++ l :: b2) ->
      Forall (fun l => has_key k l = false) b1 -> has_key k l = true ->
      upserted k v ls (pre ++ h :: b1 ++ target_line k v :: b2 ++ post)
  | up_insert pre h rest :
      ls = pre ++ h :: rest ->
      Forall (fun l => is_options l = false) pre -> is_options h = true ->
      upserted k v ls (pre ++ h :: target_line k v :: rest)
  | up_append blank :
      Forall (fun l => is_options l = false) ls -> blank = [] \/ blank = [""] ->
      upserted k v ls (ls ++ blank ++ ["[options]"; target_line k v]).

(** the lines of the section: up to the next header *)
Lemma section_body rest n :
  match position is_section rest with Some rel => n = rel | None => n = length rest end ->
  exists post, rest = take n rest ++ post /\ Forall (fun l => is_section l = false) (take n rest).
Proof.
  destruct (position is_section rest) as [rel|] eqn:E; intros ->.
  - destruct (position_some _ _ _ E) as (a & x & b & -> & <- & _ & Ha).
    exists (x :: b). by rewrite take_app_length.
  - exists []. rewrite app_nil_r, firstn_all. split; [done|]. by apply position_none.
Qed.

Lemma upsert_key_spec ls k v : upserted k v ls (upsert_key ls k v).
Proof.
  unfold upsert_key. fold (target_line k v). destruct (position is_options ls) as [h|] eqn:Eh.
  - destruct (position_some _ _ _ Eh) as (pre & hl & rest & -> & <- & Hh & Hpre).
    assert (Ed : drop (S (length pre)) (pre ++ hl :: rest) = rest).
    { rewrite drop_app_ge by lia. by replace (S (length pre) - length pre)%nat with 1%nat by lia. }
    rewrite Ed.
    set (e := match position is_section rest with Some rel => _ | None => _ end).
    destruct (section_body rest (e - S (length pre))) as (post & Er & Hb).
    { unfold e. destruct (position is_section rest); [lia|]. rewrite length_app. simpl. lia. }
    set (body := take (e - S (length pre)) rest) in *.
    destruct (position (has_key k) body) as [i|] eqn:Ek.
    + destruct (position_some _ _ _ Ek) as (b1 & l & b2 & Eb & <- & Hl & Hb1).
      rewrite Er, Eb. rewrite insert_app_r_alt by lia.
      replace (S (length pre) + length b1 - length pre)%nat with (S (length b1)) by lia.
      rewrite <- app_assoc. cbn [app].
      change (<[S (length b1) := target_line k v]> (hl :: b1 ++ l :: b2 ++ post))
        with (hl :: <[length b1 := target_line k v]> (b1 ++ l :: b2 ++ post)).
      rewrite insert_app_r_alt, Nat.sub_diag by lia. cbn [insert list_insert].
      apply (up_replace k v _ pre hl b1 l b2 post); try done. by rewrite <- Eb.
    + unfold insert_at. rewrite Ed.
      replace (take (S (length pre)) (pre ++ hl :: rest)) with (pre ++ [hl]).
      * rewrite <- app_assoc. by apply up_insert.
      * rewrite take_app_ge by lia. by replace (S (length pre) - length pre)%nat with 1%nat by lia.
  - rewrite Nat.sub_diag. cbn [take position]. apply position_none in Eh.
    destruct (list.last ls) as [l|] eqn:El.
    + case_bool_decide; [apply (up_append k v ls []); auto|].
      rewrite <- app_assoc. apply (up_append k v ls [""]); auto.
    + apply (up_append k v ls []); auto.
Qed.

Lemma no_headers ls l2 : conf_ok (ls ++ l2) -> Forall (fun l => is_section l = false) ls ->
  Forall (fun l => is_header l = false) ls.
Proof.
  intros [Hc _]%Forall_app Hs. rewrite List.Forall_forall in *. intros l Hl. rewrite Hc; auto.
Qed.

Lemma opt_none_dec {A} (o : option A) : (o <> None -> False) -> o = None.
Proof. destruct o as [a|]; [|done]. intros H. by destruct H. Qed.

(** The key is read back. *)
Lemma upsert_read ls k v :
  key_ok k -> trim v <> "" -> conf_ok ls -> settable k ls ->
  parse_section "[options]" k false (upsert_key ls k v) = Some (trim v).
Proof.
  intros Hk Hv Hc Hset. destruct (target_keyed k v Hk) as [Ht _]. fold (target_line k v) in Ht.
  destruct (keyed_plain k _ Hk Ht) as (Tc & Th & _).
  assert (Tv : forall ls', parse_section "[options]" k true (target_line k v :: ls') = Some (trim v)).
  { intros ls'. unfold is_header in Th. cbn [parse_section]. rewrite Tc, Th. cbn [negb].
    unfold target_line. rewrite target_start by done. by rewrite line_value_same. }
  destruct (upsert_key_spec ls k v) as [pre h b1 l b2 post -> Hpre Hh Hb Hb1 Hl|pre h rest -> Hpre Hh|blank Hno Hbl].
  - destruct (options_header h Hh) as (H1 & H2 & H3). destruct (parse_before k pre Hpre) as [P1 P2].
    rewrite parse_app, P1, P2, parse_header, H3, bool_decide_eq_true_2 by done.
    assert (Hb1n : Forall (fun l => is_header l = false) b1).
    { apply Forall_app in Hb as [Hb _]. apply (no_headers b1 (l :: b2 ++ post)); [|done].
      by apply Forall_app in Hc as [_ [_ Hc]%list.Forall_cons]. }
    assert (Hset1 : settable k b1).
    { unfold settable in *. apply Forall_app in Hset as [_ [_ Hset]%list.Forall_cons].
      by apply Forall_app in Hset as [Hset _]. }
    assert (E1 : forall tl, parse_section "[options]" k true (b1 ++ tl) = parse_section "[options]" k true tl).
    { clear -Hb1 Hb1n Hset1. intros tl. induction b1 as [|x b1 IH]; [done|].
      apply list.Forall_cons in Hb1 as [Hx Hb1], Hb1n as [Hn Hb1n], Hset1 as [Hs Hset1].
      cbn [app]. destruct (is_comment (trim_start x)) eqn:Ec.
      - cbn [parse_section]. rewrite Ec. by apply IH.
      - rewrite parse_skip; [by apply IH|done|done|]. intros _. apply opt_none_dec. intros Hne.
        rewrite Hs in Hx by done. done. }
    by rewrite E1, Tv.
  - destruct (options_header h Hh) as (H1 & H2 & H3). destruct (parse_before k pre Hpre) as [P1 P2].
    by rewrite parse_app, P1, P2, parse_header, H3, bool_decide_eq_true_2, Tv.
  - destruct (parse_before k ls Hno) as [P1 P2]. rewrite parse_app, P1, P2.
    destruct (options_header "[options]" eq_refl) as (H1 & H2 & H3).
    destruct Hbl as [->| ->]; cbn [app]; rewrite ?(parse_skip _ _ _ "") by done;
      by rewrite parse_header, H3, bool_decide_eq_true_2, Tv.
Qed.

Lemma section_name_inj a b : "[" +:+ a +:+ "]" = "[" +:+ b +:+ "]" -> a = b.
Proof.
  intros E%append_inj%(f_equal String.list_ascii_of_string). rewrite !list_ascii_app in E.
  by apply app_inv_tail, list_ascii_inj in E.
Qed.

(** the lines of the section are read the same with another key's line replaced *)
Lemma parse_replace tgt k' st b1 l l' b2 :
  Forall (fun l => is_header l = false) b1 ->
  is_comment (trim_start l) = false -> is_header l = false ->
  is_comment (trim_start l') = false -> is_header l' = false ->
  (st = true -> line_value k' (trim_start l) = None /\ line_value k' (trim_start l') = None) ->
  parse_section tgt k' st (b1 ++ l' :: b2) = parse_section tgt k' st (b1 ++ l :: b2).
Proof.
  intros Hb1 Hc Hh Hc' Hh' Hv.
  assert (Hst : state_after tgt st b1 = st).
  { clear -Hb1. induction Hb1 as [|x b1 Hx _ IH]; [done|]. cbn [state_after fold_left].
    rewrite Hx, andb_false_r. exact IH. }
  rewrite !parse_app, Hst, (parse_skip tgt k' st l'), (parse_skip tgt k' st l); try done;
    intros E; by apply Hv.
Qed.

(** No other key is disturbed, in any section. *)
Lemma upsert_frame ls k v section k' :
  key_ok k -> key_ok k' -> conf_ok ls -> (section <> "options" \/ k' <> k) ->
  parse_section ("[" +:+ section +:+ "]") k' false (upsert_key ls k v)
  = parse_section ("[" +:+ section +:+ "]") k' false ls.
Proof.
  intros Hk Hk' Hc Hd. set (tgt := "[" +:+ section +:+ "]").
  destruct (target_keyed k v Hk) as [Ht _]. fold (target_line k v) in Ht.
  destruct (keyed_plain k _ Hk Ht) as (Tc & Th & _).
  assert (Hkeyed : forall l, keyed k l -> bool_decide ("[options]" = tgt) = true ->
                             line_value k' (trim_start l) = None).
  { intros l (c & rest & Hsep & E) Eo%bool_decide_eq_true. rewrite E. apply line_value_other; try done.
    intros <-. destruct Hd as [Hd|Hd]; [|done]. apply Hd. symmetry.
    by apply (section_name_inj "options" section). }
  destruct (upsert_key_spec ls k v) as [pre h b1 l b2 post -> Hpre Hh Hb Hb1 Hl|pre h rest -> Hpre Hh|blank Hno Hbl].
  - destruct (options_header h Hh) as (H1 & H2 & H3).
    rewrite !(parse_app _ _ _ pre). destruct (parse_section tgt k' false pre); [done|].
    rewrite !(parse_header _ _ _ h) by done. rewrite H3.
    apply has_key_keyed in Hl. destruct (keyed_plain k l Hk Hl) as (Lc & Lh & _).
    apply (parse_replace tgt k' _ b1 l (target_line k v) (b2 ++ post)); try done.
    + apply Forall_app in Hb as [Hb _]. apply (no_headers b1 (l :: b2 ++ post)); [|done].
      by apply Forall_app in Hc as [_ [_ Hc]%list.Forall_cons].
    + intros E. split; by apply Hkeyed.
  - destruct (options_header h Hh) as (H1 & H2 & H3).
    rewrite !(parse_app _ _ _ pre). destruct (parse_section tgt k' false pre); [done|].
    rewrite !(parse_header _ _ _ h) by done. rewrite H3.
    apply parse_skip; [done|done|]. by apply Hkeyed.
  - rewrite parse_app. destruct (parse_section tgt k' false ls); [done|].
    destruct (options_header "[options]" eq_refl) as (H1 & H2 & H3).
    assert (E : forall st, parse_section tgt k' st ["[options]"; target_line k v] = None).
    { intros st. rewrite parse_header, H3, parse_skip by (done || by apply Hkeyed). done. }
    destruct Hbl as [->| ->]; [apply E|]. cbn [app]. rewrite (parse_skip _ _ _ ""); [apply E|done|done|].
    intros _. change (trim_start "") with "". destruct (key_cons k' Hk') as (c & r & -> & _). done.
Qed.

(** ** What the next update needs *)
Lemma Forall_replace {A} (P : A -> Prop) pre h b1 l x b2 post :
  Forall P (pre ++ h :: b1 ++ l :: b2 ++ post) -> P x -> Forall P (pre ++ h :: b1 ++ x :: b2 ++ post).
Proof. rewrite !Forall_app, !list.Forall_cons, !Forall_app, !list.Forall_cons, !Forall_app. tauto. Qed.

Lemma upserted_Forall (P : string -> Prop) k v ls :
  Forall P ls -> P (target_line k v) -> P "[options]" -> P "" -> Forall P (upsert_key ls k v).
Proof.
  intros Hl Ht Ho He.
  destruct (upsert_key_spec ls k v) as [pre h b1 l b2 post -> _ _ _ _ _|pre h rest -> _ _|blank _ Hbl].
  - by apply (Forall_replace P _ _ _ l).
  - apply Forall_app in Hl as [H1 [H2 H3]%list.Forall_cons]. apply Forall_app. split; [done|].
    by repeat constructor.
  - apply Forall_app. split; [done|]. destruct Hbl as [->| ->]; by repeat constructor.
Qed.

Lemma upsert_conf_ok ls k v : key_ok k -> conf_ok ls -> conf_ok (upsert_key ls k v).
Proof.
  intros Hk Hc. apply upserted_Forall; [done| |done|done].
  destruct (target_keyed k v Hk) as [Ht _]. fold (target_line k v) in Ht.
  by destruct (keyed_plain k _ Hk Ht) as (_ & -> & ->).
Qed.

Lemma upsert_settable ls k v k' : key_ok k -> key_ok k' -> settable k' ls -> settable k' (upsert_key ls k v).
Proof.
  intros Hk Hk' Hs. destruct (target_keyed k v Hk) as [(c & rest & Hsep & E) Hh]. apply upserted_Forall; [done|..].
  - fold (target_line k v) in E, Hh. destruct (decide (k = k')) as [<-|Hne]; [by intros _|].
    intros H. rewrite E, (line_value_other k k') in H by done. done.
  - intros H. destruct (key_cons k' Hk') as (a & r & -> & Ha & _). apply id_char_not in Ha as (_ & _ & Hb & _).
    destruct H. change (trim_start "[options]") with "[options]". unfold line_value.
    rewrite strip_prefix_cons. destruct (Ascii.eqb_spec a "["); done.
  - intros H. by destruct (key_cons k' Hk') as (a & r & -> & _).
Qed.

Lemma upserts_spec ups ls :
  NoDup (map fst ups) -> Forall (fun '(k, v) => key_ok k /\ trim v <> "") ups ->
  conf_ok ls -> Forall (fun '(k, _) => settable k ls) ups ->
  let ls' := fold_left (fun ls '(k, v) => upsert_key ls k v) ups ls in
  (forall k v, In (k, v) ups -> parse_section "[options]" k false ls' = Some (trim v))
  /\ (forall section k', key_ok k' -> (section <> "options" \/ ~ In k' (map fst ups)) ->
      parse_section ("[" +:+ section +:+ "]") k' false ls' = parse_section ("[" +:+ section +:+ "]") k' false ls).
Proof.
  revert ls. induction ups as [|[k v] ups IH]; intros ls Hnd Hok Hc Hs; [done|]. cbn [fold_left map fst] in *.
  apply list.NoDup_cons in Hnd as [Hni Hnd]. rewrite list_elem_of_In in Hni.
  apply list.Forall_cons in Hok as [[Hk Hv] Hok], Hs as [Hsk Hs].
  destruct (IH (upsert_key ls k v) Hnd Hok (upsert_conf_ok _ _ _ Hk Hc)) as [IH1 IH2].
  { rewrite List.Forall_forall in *. intros [k2 v2] Hin. apply upsert_settable; [done| |].
    - by apply (Hok (k2, v2)).
    - by apply (Hs (k2, v2)). }
  cbv zeta. split.
  - intros k2 v2 [[= <- <-]|Hin]; [|by apply IH1].
    etransitivity; [apply (IH2 "options" k Hk); by right|by apply upsert_read].
  - intros section k' Hk' Hd. etransitivity; [apply IH2; [done|]|].
    + destruct Hd as [Hd|Hd]; [by left|right]. intros H. apply Hd. by right.
    + apply upsert_frame; try done. destruct Hd as [Hd|Hd]; [by left|right]. intros ->. apply Hd. by left.
Qed.

(** ** The file *)
Definition unlines (ls : list string) : string := foldr (fun l acc => l +:+ String LF acc) "" ls.

Lemma split_unlines ls : Forall (fun l => char_in LF l = false) ls -> split_on LF (unlines ls) = ls ++ [""].
Proof.
  induction 1 as [|l ls Hl _ IH]; [done|]. cbn [unlines foldr]. fold (unlines ls).
  rewrite split_on_app, IH, split_on_plain by done. done.
Qed.

Lemma lines_unlines ls : Forall plain_text ls -> lines (unlines ls) = ls.
Proof.
  intros Hp. unfold lines. rewrite split_unlines.
  - rewrite last_snoc, removelast_last. induction Hp as [|l ls [Hl _] _ IH]; [done|]. cbn [map].
    by rewrite IH, chomp_cr_plain.
  - eapply Forall_impl; [|exact Hp]. by intros l [].
Qed.

Lemma split_on_no_sep c s : Forall (fun p => char_in c p = false) (split_on c s).
Proof.
  induction s as [|x s IH]; [by repeat constructor|]. cbn [split_on].
  destruct (Ascii.eqb_spec x c) as [->|Hne]; [by constructor|].
  destruct (split_on c s) as [|p ps]; [by repeat constructor; cbn; destruct (Ascii.eqb_spec c x)|].
  apply list.Forall_cons in IH as [Hp Hps]. constructor; [|done].
  rewrite char_in_cons, Hp, orb_false_r. apply Ascii.eqb_neq. congruence.
Qed.

Lemma split_on_chars c d s : char_in d s = false -> Forall (fun p => char_in d p = false) (split_on c s).
Proof.
  induction s as [|x s IH]; [by repeat constructor|]. rewrite char_in_cons. intros [Hx Hs]%orb_false_iff.
  specialize (IH Hs). cbn [split_on]. destruct (Ascii.eqb x c); [by constructor|].
  destruct (split_on c s) as [|p ps]; [repeat constructor; rewrite char_in_cons, Hx; done|].
  apply list.Forall_cons in IH as [Hp Hps]. constructor; [|done]. by rewrite char_in_cons, Hx.
Qed.

Lemma lines_plain content : char_in CR content = false -> Forall plain_text (lines content).
Proof.
  intros Hc. unfold lines. apply List.Forall_map.
  assert (H : Forall plain_text (split_on LF content)).
  { apply (Forall_and (split_on_chars LF CR content Hc) (split_on_no_sep LF content)). }
  assert (H2 : Forall plain_text match list.last (split_on LF content) with
    Some "" => removelast (split_on LF content) | _ => split_on LF content end).
  { repeat case_match; try done. rewrite List.Forall_forall in *. intros l Hl. apply H.
    rewrite (app_removelast_last "" (l := split_on LF content)) by apply split_on_nonempty.
    apply in_or_app. by left. }
  eapply Forall_impl; [|exact H2]. intros l [H1 H3]. by rewrite chomp_cr_plain.
Qed.

Lemma patch_file content ups :
  char_in CR content = false -> Forall (fun '(k, v) => plain_text k /\ plain_text v) ups ->
  exists content', patch_odoo_conf (Some content) ups = Some content'
    /\ lines content' = fold_left (fun ls '(k, v) => upsert_key ls k v) ups (lines content).
Proof.
  intros Hc Hv. exists (unlines (fold_left (fun ls '(k, v) => upsert_key ls k v) ups (lines content))).
  split; [done|]. apply lines_unlines. pose proof (lines_plain content Hc) as Hl. revert Hl.
  generalize (lines content). induction Hv as [|[k v] ups [Hk Hv] _ IH]; intros ls Hl; [done|].
  cbn [fold_left]. apply IH, upserted_Forall; [done| |done|done].
  unfold target_line. by rewrite !plain_app.
Qed.

(** ** The updates of a request *)
Definition conf_keys : list string :=
  ["workers"; "limit_memory_soft"; "limit_memory_hard"; "smtp_server"; "smtp_port"; "smtp_user";
   "smtp_password"; "smtp_ssl"; "email_from"].

Lemma conf_keys_ok : Forall key_ok conf_keys.
Proof. repeat constructor; done. Qed.

Lemma conf_keys_NoDup : NoDup conf_keys.
Proof. apply (bool_decide_unpack _). by vm_compute. Qed.

Lemma opt_list_keys {A} (o : option A) (f : A -> string * string) k :
  (forall a, fst (f a) = k) -> map fst (opt_list o f) `sublist_of` [k].
Proof. intros Hf. destruct o as [a|]; simpl; [by rewrite Hf|]. apply sublist_nil_l. Qed.

Lemma patch_keys r : map fst (patch_upserts r) `sublist_of` conf_keys.
Proof.
  unfold patch_upserts. rewrite !map_app.
  change conf_keys with (["workers"; "limit_memory_soft"; "limit_memory_hard"] ++ ["smtp_server"] ++ ["smtp_port"]
    ++ ["smtp_user"] ++ ["smtp_password"] ++ ["smtp_ssl"] ++ ["email_from"]).
  repeat apply sublist_app; try by apply opt_list_keys.
  destruct (pc_workers r); [done|apply sublist_nil_l].
Qed.

Lemma safe_conf_plain v : is_safe_conf_value v = true -> plain_text v.
Proof.
  intros [_ Hv]%andb_true_iff.
  assert (H : forall c, is_one_of (String nul (String LF (String CR ""))) c = true -> char_in c v = false).
  { intros c Hc. apply not_true_iff_false. intros Hin. apply (proj1 (all_chars_spec _ _) Hv) in Hin.
    by rewrite Hc in Hin. }
  split; by apply H.
Qed.

Lemma safe_host_plain v : is_safe_smtp_host v = true -> plain_text v.
Proof.
  intros [_ Hv]%andb_true_iff. split; by apply (refuses_spec (fun b => is_alnum b || is_one_of ".-_:" b) (String CR (String LF "")) v).
Qed.

Lemma opt_list_Forall {A B} (P : B -> Prop) (o : option A) (f : A -> B) :
  (forall a, o = Some a -> P (f a)) -> Forall P (opt_list o f).
Proof. destruct o; simpl; auto. Qed.

Lemma refused_false {A} (o : option A) bad a : refused o bad = false -> o = Some a -> bad a = false.
Proof. intros H ->. exact H. Qed.

Ltac next_check H := match type of H with
  | (if ?c then _ else _) = None => let E := fresh "Hcheck" in destruct c eqn:E; [done|]
  end.

Lemma patch_values_plain r :
  check_patch r = None -> match smtp_port r with Some p => 0 <= p | None => True end ->
  Forall (fun '(k, v) => plain_text k /\ plain_text v) (patch_upserts r).
Proof.
  intros H Hport. unfold check_patch in H. repeat next_check H.
  assert (Hdec : forall z, 0 <= z -> plain_text (dec z)) by apply dec_plain_text.
  unfold patch_upserts. rewrite !Forall_app. split_and!.
  - destruct (pc_workers r) as [w|] eqn:Ew; [|constructor].
    pose proof (refused_false _ _ _ Hcheck eq_refl) as Hw. unfold out_of in Hw.
    apply negb_false_iff, andb_true_iff in Hw as [H1%Z.leb_le H2%Z.leb_le].
    unfold derive_resources. rewrite production_values by lia.
    repeat constructor; apply Hdec; simpl; lia.
  - apply opt_list_Forall. intros s Es. split; [done|].
    apply (refused_false _ _ _ Hcheck1), negb_false_iff in Es. by apply safe_host_plain.
  - apply opt_list_Forall. intros p Ep. split; [done|]. rewrite Ep in Hport. by apply Hdec.
  - apply opt_list_Forall. intros s Es. split; [done|].
    apply (refused_false _ _ _ Hcheck3), orb_false_iff in Es as [Es%negb_false_iff _]. by apply safe_conf_plain.
  - apply opt_list_Forall. intros s Es. split; [done|].
    apply (refused_false _ _ _ Hcheck4), negb_false_iff in Es. by apply safe_conf_plain.
  - apply opt_list_Forall. intros b _. by destruct b.
  - apply opt_list_Forall. intros s Es. split; [done|].
    apply (refused_false _ _ _ Hcheck5), orb_false_iff in Es as [Es%negb_false_iff _]. by apply safe_conf_plain.
Qed.

Lemma applied_upserts tier r ups ram ch bal rs :
  handle_patch_config tier r = PatchApplied ups ram ch bal rs ->
  check_patch r = None /\ ups = patch_upserts r.
Proof.
  unfold handle_patch_config. destruct (check_patch r) as [[code err]|]; [done|].
  match goal with |- context [if ?c then _ else _] => destruct c end; [done|].
  destruct (patch_upserts r) as [|u us]; [done|].
  destruct (pc_workers r); [|destruct (pc_chrs r)]; intros [= <- _ _ _ _]; done.
Qed.

(** What a request asks for, key by key: the workers, the limits of memory that their number
    stands for, and the settings of the mail server as they were given. *)
Definition requested (r : PatchConfigReq) (k : string) : option string :=
  if bool_decide (k = "workers") then dec <$> pc_workers r
  else if bool_decide (k = "limit_memory_soft") then (fun w => dec (limit_memory_soft (derive_resources w))) <$> pc_workers r
  else if bool_decide (k = "limit_memory_hard") then (fun w => dec (limit_memory_hard (derive_resources w))) <$> pc_workers r
  else if bool_decide (k = "smtp_server") then smtp_server r
  else if bool_decide (k = "smtp_port") then dec <$> smtp_port r
  else if bool_decide (k = "smtp_user") then smtp_user r
  else if bool_decide (k = "smtp_password") then smtp_password r
  else if bool_decide (k = "smtp_ssl") then (fun b : bool => if b then "True" else "False") <$> smtp_ssl r
  else if bool_decide (k = "email_from") then email_from r
  else None.

Lemma in_opt_list {A B} (o : option A) (f : A -> B) b : In b (opt_list o f) <-> f <$> o = Some b.
Proof. destruct o as [a|]; cbn; [|split; [done|discriminate]]. split; [by intros [->|[]]|intros [= ->]; by left]. Qed.

Lemma accepted_workers r w : check_patch r = None -> pc_workers r = Some w -> workers (derive_resources w) = w.
Proof.
  intros H Hw. unfold check_patch in H. next_check H. rewrite Hw in Hcheck. cbn in Hcheck. unfold out_of in Hcheck.
  apply negb_false_iff, andb_true_iff in Hcheck as [H1%Z.leb_le H2%Z.leb_le]. unfold derive_resources. by rewrite production_values by lia.
Qed.

Lemma upserts_requested r k v : check_patch r = None -> In (k, v) (patch_upserts r) <-> requested r k = Some v.
Proof.
  intros Hcheck. unfold patch_upserts. rewrite !in_app_iff, !in_opt_list.
  assert (Hw : In (k, v) match pc_workers r with
      | Some w => let d := derive_resources w in [("workers", dec (workers d)); ("limit_memory_soft", dec (limit_memory_soft d)); ("limit_memory_hard", dec (limit_memory_hard d))]
      | None => [] end
    <-> exists w, pc_workers r = Some w /\ (k = "workers" /\ dec w = v \/ k = "limit_memory_soft" /\ dec (limit_memory_soft (derive_resources w)) = v
          \/ k = "limit_memory_hard" /\ dec (limit_memory_hard (derive_resources w)) = v)).
  { destruct (pc_workers r) as [w|] eqn:Ew; [|split; [done|by intros (? & ? & _)]]. cbv zeta. rewrite (accepted_workers r w) by done. split.
    - intros [[= <- <-]|[[= <- <-]|[[= <- <-]|[]]]]; exists w; (split; [done|]); tauto.
    - intros (w' & [= <-] & [[-> <-]|[[-> <-]|[-> <-]]]); [by left|by right; left|by right; right; left]. }
  rewrite Hw. clear Hw. unfold requested.
  assert (Hp : forall (o : option string) key, pair key <$> o = Some (k, v) <-> k = key /\ o = Some v).
  { intros [s|] key; cbn; [|split; [done|by intros []]]. split; [by intros [= -> ->]|by intros [-> [= ->]]]. }
  assert (Hn : (fun p => ("smtp_port", dec p)) <$> smtp_port r = Some (k, v) <-> k = "smtp_port" /\ dec <$> smtp_port r = Some v).
  { destruct (smtp_port r) as [n|]; cbn; [|split; [done|by intros []]]. split; [by intros [= <- <-]|by intros [-> [= ->]]]. }
  assert (Hb : (fun b : bool => ("smtp_ssl", if b then "True" else "False")) <$> smtp_ssl r = Some (k, v)
    <-> k = "smtp_ssl" /\ (fun b : bool => if b then "True" else "False") <$> smtp_ssl r = Some v).
  { destruct (smtp_ssl r) as [n|]; cbn; [|split; [done|by intros []]]. split; [by intros [= <- <-]|by intros [-> [= ->]]]. }
  rewrite !Hp, Hn, Hb. clear Hp Hn Hb.
  assert (Hm : forall f : Z -> string, f <$> pc_workers r = Some v <-> exists w, pc_workers r = Some w /\ f w = v).
  { intros f. destruct (pc_workers r) as [w|]; cbn; [|split; [done|by intros (? & ? & _)]]. split; [intros [= <-]; by exists w|by intros (? & [= <-] & ->)]. }
  repeat case_bool_decide; subst; rewrite ?Hm; naive_solver.
Qed.

(** C5. A configuration request is what is read back.  When a request is accepted, the
    file is written, and afterwards the reader finds under [[options]] each value the
    request asks for (without the spaces around it; the limits of memory are those of its workers),
    and for every other key, in every section, what it found before: no value of a request can
    inject a line.  The file has no carriage returns; its section headers are bare; the
    lines that set one of the keys have the form the writer knows; no value is blank. *)
Theorem patch_config_read_back tier r ups ram ch bal rs content :
  handle_patch_config tier r = PatchApplied ups ram ch bal rs ->
  match smtp_port r with Some p => 0 <= p | None => True end ->
  char_in CR content = false -> conf_ok (lines content) ->
  (forall k v, requested r k = Some v -> settable k (lines content) /\ trim v <> "") ->
  exists content', patch_odoo_conf (Some content) ups = Some content'
    /\ (forall k, key_ok k -> parse_conf_value_in_section content' "options" k
         = match requested r k with Some v => Some (trim v) | None => parse_conf_value_in_section content "options" k end)
    /\ (forall section k, key_ok k -> section <> "options" ->
        parse_conf_value_in_section content' section k = parse_conf_value_in_section content section k).
Proof.
  intros Hap Hport Hcr Hc Hs. destruct (applied_upserts _ _ _ _ _ _ _ Hap) as [Hcheck ->].
  destruct (patch_file content (patch_upserts r) Hcr (patch_values_plain r Hcheck Hport)) as (content' & E & El).
  exists content'. split; [exact E|]. unfold parse_conf_value_in_section. rewrite El.
  pose proof (patch_keys r) as Hsub.
  destruct (upserts_spec (patch_upserts r) (lines content)) as [H1 H2].
  - apply (sublist_NoDup _ _ conf_keys_NoDup Hsub).
  - rewrite List.Forall_forall in *. intros [k v] Hin. split; [|by apply (Hs k v), upserts_requested].
    pose proof conf_keys_ok as Hok. rewrite List.Forall_forall in Hok. apply Hok.
    apply list_elem_of_In. apply (elem_of_sublist _ _ _ (proj2 (list_elem_of_In _ _) (in_map fst _ _ Hin)) Hsub).
  - done.
  - rewrite List.Forall_forall. intros [k v] Hin. by apply (Hs k v), upserts_requested.
  - split; [|intros section k Hk Hsec; apply H2; [done|by left]]. intros k Hk. destruct (requested r k) as [v|] eqn:Er.
    + by apply H1, upserts_requested.
    + apply H2; [done|]. right. intros ([k' v] & <- & Hin)%in_map_iff. apply (upserts_requested r k' v Hcheck) in Hin. cbn in Er. congruence.
Qed.

(** A quota cannot be changed alone.  A request that changes only the CPU quota of a
    production instance, which the handler means to apply to its service, is refused for
    having no fields: the check comes first and looks only at the file's updates. *)
Theorem chrs_alone_refused c rs :
  1 <= c <= 50 ->
  handle_patch_config Production (mkPatch None (Some c) None None None None None None None rs)
  = PatchRefused 400 "no_fields".
Proof.
  intros Hc. unfold handle_patch_config, check_patch, refused, out_of. simpl.
  replace ((1 <=? c) && (c <=? 50)) with true by (symmetry; apply andb_true_iff; lia). done.
Qed.

(** ** Examples *)
Module ConfExample.
Definition content : string :=
  unlines ["; tenant"; "[options]"; "db_name = acme"; "workers = 2"; "  smtp_server=old"; "[nkr_sso]"; "workers = 9"; "secret = aabb"].
Definition req : PatchConfigReq :=
  mkPatch (Some 3) None (Some "mail.acme.com") None None (Some " p=[x] ") None None None None.
Definition ups : list (string * string) := patch_upserts req.
End ConfExample.
Import ConfExample.

Example conf_after :
  lines (default "" (patch_odoo_conf (Some content) ups)) =
  ["; tenant"; "[options]"; "smtp_password =  p=[x] "; "limit_memory_hard = 2415919104";
   "limit_memory_soft = 2013265920"; "db_name = acme"; "workers = 3"; "smtp_server = mail.acme.com";
   "[nkr_sso]"; "workers = 9"; "secret = aabb"].
Proof. by vm_compute. Qed.

Lemma patch_config_read_back_witness :
  exists content', patch_odoo_conf (Some content) ups = Some content'
    /\ parse_conf_value_in_section content' "options" "smtp_password" = Some "p=[x]"
    /\ parse_conf_value_in_section content' "options" "workers" = Some "3"
    /\ parse_conf_value_in_section content' "options" "db_name" = Some "acme"
    /\ parse_conf_value_in_section content' "nkr_sso" "workers" = Some "9".
Proof.
  destruct (patch_config_read_back Production req ups (Some 2816) (Some 7) (Some 0) true content)
    as (content' & E & H1 & H2); [by vm_compute|done|by vm_compute| | |].
  - apply Forall_forall. apply (Forall_forall (fun l => is_header l = is_section l)).
    apply (bool_decide_unpack _). by vm_compute.
  - assert (H : forallb (fun '(k, v) => forallb (fun l =>
        match line_value k (trim_start l) with Some _ => has_key k l | None => true end) (lines content)
        && negb (bool_decide (trim v = ""))) ups = true) by (by vm_compute).
    rewrite forallb_forall in H. intros k v Hin. apply (upserts_requested req) in Hin; [|by vm_compute].
    apply H, andb_true_iff in Hin as [Hs Hv]. rewrite forallb_forall in Hs. split.
    + apply List.Forall_forall. intros l Hl%Hs. by destruct (line_value k (trim_start l)).
    + by apply negb_true_iff, bool_decide_eq_false in Hv.
  - exists content'. split; [exact E|]. split_and!.
    + rewrite (H1 "smtp_password") by by split. by vm_compute.
    + rewrite (H1 "workers") by by split. by vm_compute.
    + rewrite (H1 "db_name") by by split. by vm_compute.
    + rewrite (H2 "nkr_sso" "workers") by (first [by split|done]). by vm_compute.
Defined.

Lemma chrs_alone_refused_witness :
  handle_patch_config Production (mkPatch None (Some 10) None None None None None None None None)
  = PatchRefused 400 "no_fields".
Proof. apply (chrs_alone_refused 10 None). lia. Defined.
