(* ===== verification/Logs.v ===== *)
(** * Reading logs (src/api.rs)

    A log is read by cursor (the complete lines from an offset on) or by tail (the last
    lines).  A file is its bytes; [lossy] is [String::from_utf8_lossy], used here
    through what it does at line breaks, which no UTF-8 sequence contains. *)
From S2P Require Import Prelude Text Http.

Section Logs.
Context (lossy : list Z -> string).

(** [buf.iter().rposition(|&b| b == b'\n')] *)
Fixpoint last_newline (buf : list Z) : option nat :=
  match buf with
  | [] => None
  | b :: buf => match last_newline buf with
                | Some p => Some (S p)
                | None => if b =? 10 then Some 0%nat else None
                end
  end.

(** the index just after the [n]-th line break *)
Fixpoint after_lines (n : nat) (buf : list Z) : nat :=
  match n, buf with
  | O, _ | _, [] => 0%nat
  | S n', b :: buf => if b =? 10 then S (after_lines n' buf) else S (after_lines n buf)
  end.

(** [None]: the file cannot be opened *)
Definition read_forward_lines (file : option (list Z)) (start : Z) (max_lines max_bytes : nat)
  : list string * Z :=
  match file with
  | None => ([], start)
  | Some bytes =>
      let buf := take max_bytes (drop (Z.to_nat start) bytes) in
      match last_newline buf with
      | None => ([], start)
      | Some p =>
          let slice := take (S p) buf in
          let ls := lines (lossy slice) in
          if (max_lines <? length ls)%nat
          then (take max_lines ls, start + Z.of_nat (after_lines max_lines slice))
          else (ls, start + Z.of_nat (S p))
      end
  end.

Record log_cursor := mkCursor {
  cur_lines : list string; cur_from : Z; cur_next : Z; cur_size : Z; cur_rotated : bool; cur_eof : bool;
}.

(** the wait of a long poll: the sizes seen every 250 ms until the deadline *)
Fixpoint long_poll (polls : list (option Z)) (cur : Z) : Z :=
  match polls with
  | [] => cur
  | Some len :: polls => if len =? cur then long_poll polls cur else len
  | None :: polls => long_poll polls cur
  end.

Definition clamp (lo hi z : Z) : Z := Z.max lo (Z.min hi z).

(** the cursor mode of [handle_logs]; [None]: the file is missing *)
Definition handle_logs_cursor (size0 : option Z) (polls : list (option Z)) (file : option (list Z))
    (from_offset : Z) (max_lines wait_ms : option Z) : option log_cursor :=
  let max_lines := Z.to_nat (clamp 1 10000 (default 500 max_lines)) in
  let wait_ms := Z.min 25000 (default 0 wait_ms) in
  file_size ← size0;
  let rotated := file_size <? from_offset in
  let start := if rotated then 0 else from_offset in
  let file_size :=
    if negb rotated && (start =? file_size) && (0 <? wait_ms) then long_poll polls file_size else file_size in
  let '(start, rotated) := if file_size <? start then (0, true) else (start, rotated) in
  let '(ls, next) := read_forward_lines file start max_lines (4 * 1024 * 1024) in
  Some (mkCursor ls start next file_size rotated (file_size <=? next)).

(** ** The tail *)
Definition newlines (buf : list Z) : nat := length (List.filter (fun b => b =? 10) buf).
Definition CHUNK : nat := 64 * 1024.

(** reads chunks backwards from [pos]; [fuel] bounds the number of chunks *)
Fixpoint tail_buf (fuel : nat) (chunk : nat) (bytes : list Z) (start_off pos max_lines : nat) (buf : list Z) : list Z :=
  match fuel with
  | O => buf
  | S fuel =>
      if (start_off <? pos)%nat then
        let chunk_start := Nat.max (pos - chunk) start_off in
        let buf := take (pos - chunk_start) (drop chunk_start bytes) ++ buf in
        if (max_lines <? newlines buf)%nat then buf
        else tail_buf fuel chunk bytes start_off chunk_start max_lines buf
      else buf
  end.

Definition read_tail_lines_of (chunk : nat) (file : option (list Z)) (max_lines max_bytes : nat) : list string :=
  match file with
  | None => []
  | Some bytes =>
      let file_size := length bytes in
      let start_off := (file_size - Nat.min file_size max_bytes)%nat in
      let ls := lines (lossy (tail_buf (S file_size) chunk bytes start_off file_size max_lines [])) in
      drop (length ls - max_lines) ls
  end.
Definition read_tail_lines := read_tail_lines_of CHUNK.
End Logs.

(** ** Lines of bytes *)
Fixpoint split_lf (bs : list Z) : list (list Z) :=
  match bs with
  | [] => [[]]
  | b :: bs => if b =? 10 then [] :: split_lf bs
               else match split_lf bs with [] => [[b]] | p :: ps => (b :: p) :: ps end
  end.
(** the complete and the last, incomplete, line *)
Definition byte_lines (bs : list Z) : list (list Z) :=
  let ps := split_lf bs in match list.last ps with Some [] => removelast ps | _ => ps end.

Class LossyOk (lossy : list Z -> string) := {
  lossy_nil : lossy [] = "";
  lossy_line a b : bytes_ok (a ++ 10 :: b) -> lossy (a ++ 10 :: b) = lossy a +:+ String LF (lossy b);
  lossy_plain a : bytes_ok a -> ~ In 10 a -> char_in LF (lossy a) = false;
  lossy_empty a : bytes_ok a -> lossy a = "" -> a = [];
}.

Section Lines.
Context (lossy : list Z -> string) `{LossyOk lossy}.

Definition line_text (l : list Z) : string := chomp_cr (lossy l).

Lemma split_lf_nonempty bs : split_lf bs <> [].
Proof. destruct bs as [|b bs]; cbn; [done|]. repeat case_match; done. Qed.

Lemma split_lf_line a b : ~ In 10 a -> split_lf (a ++ 10 :: b) = a :: split_lf b.
Proof.
  induction a as [|x a IH]; [done|]. intros Hn. cbn [app split_lf].
  destruct (Z.eqb_spec x 10) as [->|_]; [destruct Hn; by left|].
  rewrite IH; [done|]. intros Hin. apply Hn. by right.
Qed.

Lemma split_lf_plain a : ~ In 10 a -> split_lf a = [a].
Proof.
  induction a as [|x a IH]; [done|]. intros Hn. cbn. destruct (Z.eqb_spec x 10) as [->|_].
  - destruct Hn. by left.
  - rewrite IH; [done|]. intros Hin. apply Hn. by right.
Qed.

(** every byte string is a line, or a line followed by a line break *)
Lemma first_line bs : ~ In 10 bs \/ exists a b, bs = a ++ 10 :: b /\ ~ In 10 a.
Proof.
  induction bs as [|x bs IH]; [left; intros []|].
  destruct (Z.eq_dec x 10) as [->|Hne]; [right; exists [], bs; split; [done|intros []]|].
  destruct IH as [IH|(a & b & -> & Ha)]; [left|right].
  - intros [E|Hin]; [congruence|done].
  - exists (x :: a), b. split; [done|]. intros [E|Hin]; [congruence|done].
Qed.

(** induction on the lines *)
Lemma lines_ind (P : list Z -> Prop) :
  (forall a, ~ In 10 a -> P a) -> (forall a b, ~ In 10 a -> P b -> P (a ++ 10 :: b)) -> forall bs, P bs.
Proof.
  intros H1 H2 bs. remember (length bs) as n eqn:E. revert bs E.
  induction (lt_wf n) as [n _ IH]. intros bs ->. destruct (first_line bs) as [Hn|(a & b & -> & Ha)]; [by apply H1|].
  apply H2; [done|]. apply (IH (length b)); [|done]. rewrite length_app. simpl. lia.
Qed.

Lemma byte_lines_plain a : ~ In 10 a -> byte_lines a = match a with [] => [] | _ => [a] end.
Proof. intros Ha. unfold byte_lines. rewrite split_lf_plain by done. by destruct a. Qed.

Lemma byte_lines_cons a b : ~ In 10 a -> byte_lines (a ++ 10 :: b) = a :: byte_lines b.
Proof.
  intros Ha. unfold byte_lines. rewrite split_lf_line by done. pose proof (split_lf_nonempty b) as Hne.
  destruct (split_lf b) as [|p ps] eqn:E; [done|]. change (list.last (a :: p :: ps)) with (list.last (p :: ps)).
  by destruct (list.last (p :: ps)) as [[|]|].
Qed.

(** bytes that end with a line break, or nothing *)
Definition complete (bs : list Z) : Prop := bs = [] \/ exists a, bs = a ++ [10].

Lemma complete_tail x b : complete (x ++ 10 :: b) -> complete b.
Proof.
  intros [Hc|[c Hc]]; [by destruct x|]. destruct b as [|y b]; [by left|right].
  exists (removelast (y :: b)). rewrite (app_removelast_last 0 (l := y :: b)) in Hc by done.
  rewrite app_comm_cons, app_assoc in Hc. apply app_inj_tail in Hc as [_ Hl].
  by rewrite (app_removelast_last 0 (l := y :: b)), Hl at 1.
Qed.

Lemma complete_plain a : complete a -> ~ In 10 a -> a = [].
Proof. intros [->|[a' ->]] Ha; [done|]. destruct Ha. apply in_or_app. right. by left. Qed.

Lemma byte_lines_app a b : complete a -> byte_lines (a ++ b) = byte_lines a ++ byte_lines b.
Proof.
  revert a. apply (lines_ind (fun a => complete a -> byte_lines (a ++ b) = byte_lines a ++ byte_lines b)).
  - intros a Ha Hc. by rewrite (complete_plain a Hc Ha).
  - intros a b' Ha IH Hc. rewrite <- app_assoc. cbn [app]. rewrite !byte_lines_cons by done.
    cbn [app]. f_equal. by apply IH, (complete_tail a).
Qed.

(** the lines of the text are those of the bytes *)
Lemma split_lossy bs : bytes_ok bs -> split_on LF (lossy bs) = map lossy (split_lf bs).
Proof.
  revert bs. apply (lines_ind (fun bs => bytes_ok bs -> split_on LF (lossy bs) = map lossy (split_lf bs))).
  - intros a Ha Hok. rewrite split_lf_plain, split_on_plain; [done| |done]. by apply lossy_plain.
  - intros a b Ha IH Hok. rewrite lossy_line, split_on_app, split_lf_line by done.
    apply Forall_app in Hok as [Hoka [_ Hokb]%list.Forall_cons].
    rewrite IH, split_on_plain by (done || by apply lossy_plain). done.
Qed.

Lemma lines_lossy bs : bytes_ok bs -> lines (lossy bs) = map line_text (byte_lines bs).
Proof.
  intros Hok. unfold lines, byte_lines. rewrite split_lossy by done.
  assert (Hall : Forall (Forall is_byte) (split_lf bs)).
  { clear -Hok. revert bs Hok. apply (lines_ind (fun bs => bytes_ok bs -> Forall (Forall is_byte) (split_lf bs))).
    - intros a Ha Hok. rewrite split_lf_plain by done. by repeat constructor.
    - intros a b Ha IH Hok. rewrite split_lf_line by done.
      apply Forall_app in Hok as [Hoka [_ Hokb]%list.Forall_cons]. constructor; auto. }
  pose proof (split_lf_nonempty bs) as Hne. destruct (split_lf bs) as [|p ps] eqn:E; [done|].
  rewrite (app_removelast_last [] (l := p :: ps)) in Hall |- * by done.
  rewrite map_app, removelast_last, !last_snoc. cbn [map].
  apply Forall_app in Hall as [_ [Hl _]%list.Forall_cons].
  destruct (List.last (p :: ps) []) as [|x l] eqn:El.
  - by rewrite last_snoc, lossy_nil, removelast_last, map_map.
  - rewrite last_snoc. destruct (lossy (x :: l)) as [|c s] eqn:Es; [by apply lossy_empty in Es|].
    rewrite !map_app, map_map. cbn [map]. unfold line_text. by rewrite Es.
Qed.

(** ** The cursor *)
Lemma last_newline_spec buf :
  match last_newline buf with
  | Some p => exists a b, buf = a ++ 10 :: b /\ length a = p /\ ~ In 10 b
  | None => ~ In 10 buf
  end.
Proof.
  induction buf as [|x buf IH]; cbn; [intros []|]. destruct (last_newline buf) as [p|].
  - destruct IH as (a & b & -> & <- & Hb). by exists (x :: a), b.
  - destruct (Z.eqb_spec x 10) as [->|Hne]; [by exists [], buf|].
    intros [E|Hin]; [congruence|done].
Qed.

Lemma length_byte_lines a : complete a -> length (byte_lines a) = newlines a.
Proof.
  revert a. apply (lines_ind (fun a => complete a -> length (byte_lines a) = newlines a)).
  - intros a Ha Hc. by rewrite (complete_plain a Hc Ha).
  - intros a b Ha IH Hc. rewrite byte_lines_cons by done. unfold newlines in *.
    rewrite List.filter_app, length_app. cbn [List.filter]. cbn [length].
    rewrite IH.
    + replace (List.filter (fun b => b =? 10) a) with (@nil Z); [done|].
      symmetry. clear -Ha. induction a as [|x a IHa]; [done|]. cbn.
      destruct (Z.eqb_spec x 10) as [->|_]; [destruct Ha; by left|]. apply IHa. intros Hin. apply Ha. by right.
    + by apply (complete_tail a).
Qed.

Lemma after_lines_0 b : after_lines 0 b = 0%nat.
Proof. by destruct b. Qed.

Lemma after_lines_plain a n b : ~ In 10 a -> after_lines (S n) (a ++ 10 :: b) = (length a + S (after_lines n b))%nat.
Proof.
  induction a as [|x a IH]; [done|]. intros Ha. cbn [app after_lines].
  destruct (Z.eqb_spec x 10) as [->|_]; [destruct Ha; by left|]. rewrite IH; [done|].
  intros Hin. apply Ha. by right.
Qed.

(** the first [n] lines are before the [n]-th line break *)
Lemma after_lines_spec n a :
  complete a -> (n <= newlines a)%nat ->
  complete (take (after_lines n a) a) /\ byte_lines (take (after_lines n a) a) = take n (byte_lines a)
  /\ (after_lines n a <= length a)%nat /\ ((0 < n)%nat -> (0 < after_lines n a)%nat).
Proof.
  intros Hc Hn. rewrite <- length_byte_lines in Hn by done. revert n Hc Hn.
  apply (lines_ind (fun a => forall n, complete a -> (n <= length (byte_lines a))%nat ->
    complete (take (after_lines n a) a) /\ byte_lines (take (after_lines n a) a) = take n (byte_lines a)
    /\ (after_lines n a <= length a)%nat /\ ((0 < n)%nat -> (0 < after_lines n a)%nat))).
  - intros a' Ha' n Hc Hn. apply complete_plain in Hc as ->; [|done]. simpl in Hn |- *. assert (n = 0%nat) as -> by lia. split_and!; [by left|done|done|lia].
  - intros x b Hx IH n Hc Hn. rewrite byte_lines_cons in Hn |- * by done. destruct n as [|n].
    + rewrite after_lines_0, !take_0. split_and!; [by left|done|lia|lia].
    + destruct (IH n (complete_tail x b Hc)) as (H1 & H2 & H3 & _); [simpl in Hn; lia|].
      rewrite after_lines_plain by done. set (k := after_lines n b) in *.
      replace (take (length x + S k) (x ++ 10 :: b)) with (x ++ 10 :: take k b)
        by (by rewrite take_app_add).
      split_and!.
      * right. destruct H1 as [->|[c ->]]; [by exists x|]. exists (x ++ 10 :: c). by rewrite <- app_assoc.
      * rewrite byte_lines_cons by done. by rewrite H2.
      * rewrite length_app. simpl. lia.
      * lia.
Qed.

(** one read: complete lines from the cursor on *)
Lemma read_forward_spec bytes start maxl maxb :
  bytes_ok bytes -> 0 <= start <= Z.of_nat (length bytes) -> (0 < maxl)%nat ->
  exists k, let rest := drop (Z.to_nat start) bytes in
    read_forward_lines lossy (Some bytes) start maxl maxb
      = (map line_text (byte_lines (take k rest)), start + Z.of_nat k)
    /\ complete (take k rest) /\ (length (byte_lines (take k rest)) <= maxl)%nat
    /\ (k <= maxb)%nat /\ (k <= length rest)%nat
    /\ (k = 0%nat -> ~ In 10 (take maxb rest)).
Proof.
  intros Hok Hs Hm. cbn [read_forward_lines]. set (rest := drop (Z.to_nat start) bytes).
  set (buf := take maxb rest). pose proof (last_newline_spec buf) as Hl.
  destruct (last_newline buf) as [p|].
  - destruct Hl as (a & b & Eb & <- & Hb).
    assert (Hlen : (S (length a) <= length buf)%nat) by (rewrite Eb, length_app; simpl; lia).
    assert (Hmax : (S (length a) <= maxb /\ S (length a) <= length rest)%nat)
      by (unfold buf in Hlen; rewrite length_take in Hlen; lia).
    assert (Esl : take (S (length a)) buf = a ++ [10]).
    { rewrite Eb. change (10 :: b) with ([10] ++ b). rewrite app_assoc.
      replace (S (length a)) with (length (a ++ [10])) by (rewrite length_app; simpl; lia). apply take_app_length. }
    assert (Erest : take (S (length a)) rest = a ++ [10]).
    { rewrite <- Esl. unfold buf. rewrite take_take. f_equal. lia. }
    rewrite Esl. set (slice := a ++ [10]) in *.
    assert (Hcs : complete slice) by (right; by exists a).
    assert (Hoks : bytes_ok slice).
    { rewrite <- Erest. unfold rest. by apply Forall_take, Forall_drop. }
    rewrite lines_lossy, length_map by done. destruct (Nat.ltb_spec maxl (length (byte_lines slice))) as [Hlt|Hge].
    + destruct (after_lines_spec maxl slice Hcs) as (H1 & H2 & H3 & H4); [rewrite <- length_byte_lines by done; lia|].
      set (k := after_lines maxl slice) in *. exists k. cbv zeta.
      assert (Ek : take k rest = take k slice).
      { rewrite <- Erest, take_take. f_equal. rewrite <- Erest, length_take in H3. lia. }
      rewrite Ek, H2, firstn_map. rewrite <- Erest, length_take in H3.
      split_and!; [done|exact H1|rewrite length_take; lia|lia|lia|lia].
    + exists (S (length a)). cbv zeta. rewrite Erest. split_and!; [done|done|done|lia|lia|done].
  - exists 0%nat. cbv zeta. rewrite take_0, Z.add_0_r. split_and!; [done|by left|simpl; lia|lia|lia|done].
Qed.

(** the cursor of a reader over successive contents of the file *)
Fixpoint follow (maxl maxb : nat) (files : list (list Z)) (start : Z) : list string * Z :=
  match files with
  | [] => ([], start)
  | f :: files =>
      let '(ls, next) := read_forward_lines lossy (Some f) start maxl maxb in
      let '(rest, last) := follow maxl maxb files next in (ls ++ rest, last)
  end.

Fixpoint growing (f : list Z) (files : list (list Z)) : Prop :=
  match files with [] => True | f' :: files => f `prefix_of` f' /\ growing f' files end.

Lemma take_prefix {A} (f g : list A) n : f `prefix_of` g -> (n <= length f)%nat -> take n g = take n f.
Proof. intros [k ->] Hn. by rewrite take_app_le. Qed.

Lemma last_cons_default {A} (x : A) l d : List.last (x :: l) d = List.last l x.
Proof. revert x d. induction l as [|y l IH]; intros x d; [done|]. change (List.last (y :: l) d = List.last (y :: l) x). by rewrite !IH. Qed.

Lemma complete_app a b : complete a -> complete b -> complete (a ++ b).
Proof. intros Ha [->|[c ->]]; [by rewrite app_nil_r|right]. exists (a ++ c). by rewrite app_assoc. Qed.

Lemma follow_from maxl maxb files f start :
  (0 < maxl)%nat -> Forall is_byte f -> Forall (Forall is_byte) files -> growing f files ->
  (start <= length f)%nat -> complete (take start f) ->
  exists ls n, let last := List.last files f in
    follow maxl maxb files (Z.of_nat start) = (ls, Z.of_nat n)
    /\ (n <= length last)%nat /\ complete (take n last)
    /\ map line_text (byte_lines (take start f)) ++ ls = map line_text (byte_lines (take n last)).
Proof.
  intros Hm Hf Hfs. revert f Hf start. induction Hfs as [|g files Hg _ IH]; intros f Hf start Hgr Hs Hc.
  - exists [], start. by rewrite app_nil_r.
  - destruct Hgr as [Hpre Hgr]. pose proof (prefix_length _ _ Hpre) as Hlen. cbn [follow].
    destruct (read_forward_spec g (Z.of_nat start) maxl maxb Hg) as (k & E & Hck & _ & _ & Hk & _); [lia|done|].
    rewrite Nat2Z.id in *. rewrite E.
    assert (Etake : take (start + k) g = take start f ++ take k (drop start g)).
    { by rewrite <- (take_prefix f g start) by done; rewrite <- take_take_drop. }
    rewrite length_drop in Hk.
    destruct (IH g Hg (start + k)%nat Hgr) as (ls & n & E2 & Hn & Hcn & Hls); [lia| |].
    { rewrite Etake. by apply complete_app. }
    rewrite Nat2Z.inj_add in E2. rewrite E2.
    exists (map line_text (byte_lines (take k (drop start g))) ++ ls), n.
    replace (List.last (g :: files) f) with (List.last files g) by (by rewrite last_cons_default).
    cbv zeta. split_and!; [done|done|done|]. rewrite <- Hls, Etake, byte_lines_app, map_app, app_assoc by done. done.
Qed.

(** A cursor loses and repeats nothing.  A reader that polls a log while it grows,
    passing back each time the offset it was given, and starting at 0, has got at any time
    exactly the complete lines before its offset, in order and once each, whatever the
    limits on lines and bytes of each poll. *)
Theorem cursor_follows maxl maxb f files :
  (0 < maxl)%nat -> Forall is_byte f -> Forall (Forall is_byte) files -> growing f files ->
  exists n, let last := List.last files f in
    follow maxl maxb (f :: files) 0 = (lines (lossy (take n last)), Z.of_nat n)
    /\ (n <= length last)%nat /\ complete (take n last).
Proof.
  intros Hm Hf Hfs Hgr.
  destruct (follow_from maxl maxb (f :: files) f 0 Hm Hf) as (ls & n & E & Hn & Hc & Hls).
  - by constructor.
  - split; [done|exact Hgr].
  - lia.
  - by left.
  - exists n. cbv zeta. rewrite last_cons_default in *.
    assert (Hlast : Forall is_byte (List.last files f)).
    { clear -Hf Hfs. revert f Hf. induction Hfs as [|g files Hg _ IH]; intros f Hf; [done|].
      rewrite last_cons_default. by apply IH. }
    split_and!; [|done|done]. change (Z.of_nat 0) with 0 in E. rewrite E. f_equal.
    rewrite lines_lossy by (by apply Forall_take). exact Hls.
Qed.

Lemma newlines_app a b : newlines (a ++ b) = (newlines a + newlines b)%nat.
Proof. unfold newlines. by rewrite List.filter_app, length_app. Qed.

Lemma newlines_none a : newlines a = 0%nat <-> ~ In 10 a.
Proof.
  unfold newlines. induction a as [|x a IH]; [split; [intros _ []|done]|]. cbn.
  destruct (Z.eqb_spec x 10) as [->|Hne]; cbn.
  - split; [done|]. intros Hno. destruct Hno. by left.
  - rewrite IH. split; [intros Hno [E|Hin]; [congruence|done]|intros Hno Hin; apply Hno; by right].
Qed.

Lemma complete_newline a : complete a -> a <> [] -> (0 < newlines a)%nat.
Proof.
  intros [->|[c ->]] Hne; [done|]. rewrite newlines_app. change (newlines [10]) with 1%nat. lia.
Qed.

(** with short lines, what is left without line break in the limit has none at all *)
Lemma short_lines maxb rest :
  Forall (fun l : list Z => (length l < maxb)%nat) (byte_lines rest) -> ~ In 10 (take maxb rest) -> ~ In 10 rest.
Proof.
  intros Hl Hn. destruct (first_line rest) as [Hr|(a & b & -> & Ha)]; [done|]. destruct Hn.
  rewrite byte_lines_cons in Hl by done. apply list.Forall_cons in Hl as [Hla _].
  rewrite take_app_ge by lia. apply in_or_app. right.
  destruct (maxb - length a)%nat as [|m] eqn:E; [lia|]. by left.
Qed.

Lemma follow_end maxl maxb f n s :
  (0 < maxl)%nat -> Forall is_byte f -> Forall (fun l : list Z => (length l < maxb)%nat) (byte_lines f) ->
  (s <= length f)%nat -> complete (take s f) -> (newlines (drop s f) <= n)%nat ->
  exists m, snd (follow maxl maxb (replicate n f) (Z.of_nat s)) = Z.of_nat m /\ ~ In 10 (drop m f).
Proof.
  intros Hm Hf Hl. revert s. induction n as [|n IH]; intros s Hs Hc Hn.
  - exists s. split; [done|]. apply newlines_none. lia.
  - cbn [replicate follow].
    destruct (read_forward_spec f (Z.of_nat s) maxl maxb Hf) as (k & E & Hck & _ & _ & Hk & Hz); [lia|done|].
    rewrite Nat2Z.id in *. rewrite E. rewrite length_drop in Hk.
    rewrite <- (take_drop k (drop s f)), newlines_app, drop_drop in Hn.
    assert (Hc' : complete (take (s + k) f)) by (rewrite <- take_take_drop; by apply complete_app).
    destruct (IH (s + k)%nat) as (m & Em & Hend); [lia|done| |].
    + destruct (decide (k = 0%nat)) as [->|Hk0].
      * assert (Hno : ~ In 10 (drop s f)).
        { apply (short_lines maxb); [|by apply Hz]. rewrite <- (take_drop s f), byte_lines_app in Hl by done.
          by apply Forall_app in Hl as [_ Hl]. }
        apply newlines_none in Hno. rewrite Nat.add_0_r. lia.
      * assert (Hk1 : take k (drop s f) <> []).
        { intros E0. apply (f_equal length) in E0. rewrite length_take, length_drop in E0. simpl in E0. lia. }
        pose proof (complete_newline _ Hck Hk1). lia.
    + exists m. split; [|done]. rewrite Nat2Z.inj_add in Em.
      by destruct (follow maxl maxb (replicate n f) (Z.of_nat s + Z.of_nat k)).
Qed.

(** C33. The end is reached.  On a file that no longer grows, whose lines fit in the byte
    limit of a poll, a reader that polls as many times as the file has bytes has
    got all of its complete lines: nothing is left but an unfinished line. *)
Theorem cursor_reaches_end maxl maxb f :
  (0 < maxl)%nat -> Forall is_byte f ->
  Forall (fun l : list Z => (length l < maxb)%nat) (byte_lines f) ->
  exists n, follow maxl maxb (replicate (length f) f) 0 = (lines (lossy (take n f)), Z.of_nat n)
    /\ complete (take n f) /\ ~ In 10 (drop n f).
Proof.
  intros Hm Hf Hl.
  assert (Hlast : forall n, List.last (replicate n f) f = f).
  { induction n as [|n IHn]; [done|]. cbn [replicate]. by rewrite last_cons_default. }
  assert (Hgr : forall n, growing f (replicate n f)) by (induction n; [done|by split]).
  destruct (follow_from maxl maxb (replicate (length f) f) f 0 Hm Hf) as (ls & n & E & Hn & Hc & Hls).
  - by apply Forall_replicate.
  - apply Hgr.
  - lia.
  - by left.
  - rewrite Hlast in *. destruct (follow_end maxl maxb f (length f) 0 Hm Hf Hl) as (m & Em & Hend).
    + lia.
    + by left.
    + rewrite drop_0. unfold newlines. apply List.filter_length_le.
    + change (Z.of_nat 0) with 0 in *. rewrite E in Em. simpl in Em. apply Nat2Z.inj in Em as <-.
      exists n. split_and!; [|done|done]. rewrite E. f_equal. rewrite lines_lossy by (by apply Forall_take).
      exact Hls.
Qed.

(** A long line stops the cursor.  If the bytes after the offset hold no line break
    within the byte limit of a poll (4 MiB in the source), every poll returns no line and
    the same offset, however much the file has beyond it: the reader never gets the rest. *)
Theorem long_line_stops_cursor maxl maxb f n start :
  ~ In 10 (take maxb (drop (Z.to_nat start) f)) ->
  follow maxl maxb (replicate n f) start = ([], start).
Proof.
  intros Hno. induction n as [|n IH]; [done|]. cbn [replicate follow read_forward_lines].
  pose proof (last_newline_spec (take maxb (drop (Z.to_nat start) f))) as Hl.
  destruct (last_newline _) as [p|].
  - destruct Hl as (a & b & E & _). destruct Hno. rewrite E. apply in_or_app. right. by left.
  - by rewrite IH.
Qed.

(** ** The tail *)
Definition last_n {A} (n : nat) (l : list A) : list A := drop (length l - n) l.

Lemma last_n_app {A} n (a b : list A) : (n <= length b)%nat -> last_n n (a ++ b) = last_n n b.
Proof.
  intros Hn. unfold last_n. rewrite length_app, drop_app_ge by lia. f_equal. lia.
Qed.

Lemma newlines_le_lines b : (newlines b <= length (byte_lines b))%nat.
Proof.
  revert b. apply lines_ind.
  - intros a Ha. apply newlines_none in Ha. lia.
  - intros a b Ha IH. rewrite byte_lines_cons by done. change (10 :: b) with ([10] ++ b).
    rewrite !newlines_app. apply newlines_none in Ha. change (newlines [10]) with 1%nat. simpl. lia.
Qed.

(** a suffix with more than [n] line breaks has the last [n] lines *)
Lemma last_lines_suffix n a b :
  (n < newlines b)%nat -> last_n n (byte_lines (a ++ b)) = last_n n (byte_lines b).
Proof.
  intros Hn. destruct (first_line b) as [Hb|(p & q & -> & Hp)].
  - apply newlines_none in Hb. lia.
  - assert (Hq : (n <= length (byte_lines q))%nat).
    { change (10 :: q) with ([10] ++ q) in Hn. rewrite !newlines_app in Hn. apply newlines_none in Hp.
      change (newlines [10]) with 1%nat in Hn. pose proof (newlines_le_lines q). lia. }
    rewrite byte_lines_cons by done.
    replace (a ++ p ++ 10 :: q) with ((a ++ p ++ [10]) ++ q) by (by rewrite <- !app_assoc).
    rewrite byte_lines_app.
    + rewrite last_n_app by done. change (p :: byte_lines q) with ([p] ++ byte_lines q). by rewrite last_n_app.
    + right. exists (a ++ p). by rewrite app_assoc.
Qed.

Lemma tail_buf_spec fuel chunk bytes start_off pos maxl :
  (0 < chunk)%nat -> (pos - start_off < fuel)%nat -> (start_off <= pos <= length bytes)%nat ->
  exists pos', tail_buf fuel chunk bytes start_off pos maxl (drop pos bytes) = drop pos' bytes
    /\ (start_off <= pos' <= length bytes)%nat
    /\ (pos' = start_off \/ (maxl < newlines (drop pos' bytes))%nat).
Proof.
  intros Hchunk. revert pos. induction fuel as [|fuel IH]; intros pos Hfuel Hpos; [lia|]. cbn [tail_buf].
  destruct (Nat.ltb_spec start_off pos) as [Hlt|Hge]; [|exists pos; split_and!; [done|lia|lia|left; lia]].
  set (cs := Nat.max (pos - chunk) start_off). assert (Hcs : (start_off <= cs < pos)%nat) by lia.
  replace (take (pos - cs) (drop cs bytes) ++ drop pos bytes) with (drop cs bytes).
  - destruct (Nat.ltb_spec maxl (newlines (drop cs bytes))) as [Hm|Hm].
    + exists cs. split_and!; [done|lia|lia|by right].
    + apply IH; lia.
  - rewrite <- (take_drop (pos - cs) (drop cs bytes)) at 1. rewrite drop_drop.
    by replace (cs + (pos - cs))%nat with pos by lia.
Qed.

(** The tail is the end of the file.  The chunked backward reading returns the last
    lines of the whole file, as reading all of it would, whatever the size of the chunks,
    when the file is within the byte limit or its last [max_bytes] bytes have more line
    breaks than the lines asked for. *)
Theorem tail_is_last_lines chunk bytes maxl maxb :
  (0 < chunk)%nat -> Forall is_byte bytes ->
  (length bytes <= maxb)%nat \/ (maxl < newlines (drop (length bytes - maxb) bytes))%nat ->
  read_tail_lines_of lossy chunk (Some bytes) maxl maxb = last_n maxl (lines (lossy bytes)).
Proof.
  intros Hchunk Hok Hcap. unfold read_tail_lines_of.
  set (start_off := (length bytes - Nat.min (length bytes) maxb)%nat).
  destruct (tail_buf_spec (S (length bytes)) chunk bytes start_off (length bytes) maxl Hchunk) as (pos & E & Hp & Hend);
    [lia|unfold start_off; lia|].
  rewrite drop_all in E. rewrite E. fold (last_n maxl (lines (lossy (drop pos bytes)))).
  rewrite !lines_lossy by (done || by apply Forall_drop).
  unfold last_n. rewrite !length_map, !skipn_map. fold (last_n maxl (byte_lines (drop pos bytes))).
  fold (last_n maxl (byte_lines bytes)). f_equal.
  destruct (decide (pos = 0%nat)) as [->|Hpos]; [by rewrite drop_0|].
  assert (Hn : (maxl < newlines (drop pos bytes))%nat).
  { destruct Hend as [->|Hend]; [|done]. unfold start_off in *. destruct Hcap as [Hcap|Hcap]; [lia|].
    by replace (length bytes - Nat.min (length bytes) maxb)%nat with (length bytes - maxb)%nat by lia. }
  rewrite <- (take_drop pos bytes) at 2. by rewrite last_lines_suffix.
Qed.
End Lines.

(** a shorter file than the offset is a rotated one, and is read from its start *)
Lemma rotation_restarts lossy size polls file from maxl wait c :
  size < from ->
  handle_logs_cursor lossy (Some size) polls file from maxl wait = Some c ->
  cur_from c = 0 /\ cur_rotated c = true /\ cur_size c = size.
Proof.
  intros Hs. unfold handle_logs_cursor. cbn [mbind option_bind].
  replace (size <? from) with true by (symmetry; by apply Z.ltb_lt). cbn [negb andb].
  destruct (size <? 0); destruct (read_forward_lines _ _ _ _ _); by intros [= <-].
Qed.

(** ** Examples *)
Module LogsExample.
Lemma byte_char b : is_byte b -> Z.of_N (N_of_ascii (ascii_of_N (Z.to_N b))) = b.
Proof. unfold is_byte. intros Hb. rewrite N_ascii_embedding by lia. lia. Qed.

#[export] Instance text_ok : LossyOk string_of_bytes.
Proof.
  constructor.
  - done.
  - intros a b _. apply list_ascii_inj. rewrite list_ascii_app. unfold string_of_bytes.
    cbn [String.list_ascii_of_string]. rewrite !String.list_ascii_of_string_of_list_ascii, map_app. done.
  - intros a Ha Hn. apply not_true_iff_false. unfold char_in, string_of_bytes.
    rewrite String.list_ascii_of_string_of_list_ascii, existsb_exists.
    intros (x & (b & <- & Hb)%in_map_iff & E%Ascii.eqb_eq). apply Hn.
    rewrite List.Forall_forall in Ha. rewrite <- (byte_char b (Ha b Hb)), <- E in Hb. exact Hb.
  - intros [|x a] _; done.
Qed.

Definition log1 : list Z := bytes_of_string ("one" +:+ String LF ("two" +:+ String LF "thr")).
Definition log2 : list Z := log1 ++ bytes_of_string ("ee" +:+ String LF ("four" +:+ String LF "")).
End LogsExample.
Import LogsExample.

Lemma cursor_follows_witness :
  follow string_of_bytes 2 100 [log1; log2; log2] 0 = (["one"; "two"; "three"; "four"], 19)
  /\ exists n, follow string_of_bytes 2 100 [log1; log2; log2] 0
       = (lines (string_of_bytes (take n log2)), Z.of_nat n).
Proof.
  split; [by vm_compute|].
  destruct (cursor_follows string_of_bytes 2 100 log1 [log2; log2]) as (n & E & _);
    [lia|apply bytes_of_string_ok| | |exists n; exact E].
  - constructor; [|constructor; [|constructor]]; apply Forall_app; split; apply bytes_of_string_ok.
  - split; [by eexists|by split].
Defined.

Lemma cursor_reaches_end_witness :
  exists n, follow string_of_bytes 1 8 (replicate 19 log2) 0 = (lines (string_of_bytes (take n log2)), Z.of_nat n)
    /\ ~ In 10 (drop n log2).
Proof.
  destruct (cursor_reaches_end string_of_bytes 1 8 log2) as (n & E & _ & Hn).
  - lia.
  - apply Forall_app. split; apply bytes_of_string_ok.
  - apply (bool_decide_unpack _). by vm_compute.
  - exists n. split; [exact E|exact Hn].
Defined.

Lemma long_line_stops_cursor_witness : follow string_of_bytes 5 3 [log1; log1] 0 = ([], 0).
Proof. apply (long_line_stops_cursor string_of_bytes 5 3 log1 2 0). vm_compute. intros H. by repeat destruct H as [[=]|H]. Defined.

Lemma tail_is_last_lines_witness :
  read_tail_lines_of string_of_bytes 4 (Some log2) 2 15 = ["three"; "four"].
Proof.
  rewrite (tail_is_last_lines string_of_bytes 4 log2 2 15); [by vm_compute|lia| |].
  - apply Forall_app. split; apply bytes_of_string_ok.
  - right. vm_compute. lia.
Defined.
