(* ===== verification/Blocks.v ===== *)
(** * The services of a cell's compose file (src/cell.rs)

    The daemon edits nkr-compose.yml as a list of lines: it finds the block of a service
    by its [nkr_name], changes sizes, switches the service on and off, removes it, and
    appends a copy of it under another name.  A function takes the contents of the file
    and returns the new ones ([None]: the file is left alone), or the error. *)
From S2P Require Import Prelude Text Http Watchdog Conf.

(** [s.trim_matches(c)] for a character *)
Fixpoint drop_char (c : ascii) (l : list ascii) : list ascii :=
  match l with x :: l' => if Ascii.eqb x c then drop_char c l' else l | [] => [] end.
Definition trim_matches (c : ascii) (s : string) : string :=
  String.string_of_list_ascii (reverse (drop_char c (reverse (drop_char c (String.list_ascii_of_string s))))).
Definition QUOTE : ascii := "039"%char.

(** [s.find('#')], and what follows it *)
Fixpoint from_hash (l : list ascii) : option (list ascii) :=
  match l with [] => None | c :: l' => if Ascii.eqb c "#" then Some l else from_hash l' end.
Definition rest_trailing_comment (rest : string) : string :=
  match from_hash (String.list_ascii_of_string (trim_start rest)) with
  | Some l => "  " +:+ String.string_of_list_ascii l
  | None => ""
  end.

(** ** Locating a block *)
(** a line that opens a service, when one looks backwards *)
Definition opens (l : string) : bool :=
  (3 <=? String.length l)%nat && starts_with "  " l && negb (starts_with "   " l)
  && ends_with ":" (trim_end l) && negb (starts_with "-" (trim_start l)).
(** ... and forwards, where comments are left out *)
Definition is_service_header (l : string) : bool := opens l && negb (starts_with "#" (trim_start l)).
Definition is_top_level (l : string) : bool :=
  negb (bool_decide (l = "")) && negb (starts_with " " l) && negb (starts_with "#" l).
Definition ends_block (l : string) : bool := is_service_header l || is_top_level l.

Definition names (nkr_name l : string) : bool :=
  let t := trim l in
  starts_with "nkr_name:" t
  && bool_decide (trim_matches QUOTE (trim_matches DQ (trim (trim_start_matches (String.length t) "nkr_name:" t)))
                  = nkr_name).

(** the last line up to [i] that opens a service *)
Fixpoint back_to_header (ls : list string) (i : nat) : option nat :=
  if opens (ls !!! i) then Some i
  else match i with O => None | S i => back_to_header ls i end.

(** the first line of the block of a service, and the line after its last one *)
Definition locate (ls : list string) (nkr_name : string) : option (nat * nat) :=
  i ← position (names nkr_name) ls;
  start ← back_to_header ls i;
  Some (start, match position ends_block (drop (S start) ls) with
               | Some rel => (S start + rel)%nat | None => length ls end).

Definition text_of (ls : list string) : string := join_with LF ls +:+ String LF "".

(** ** Removing *)
Definition remove_compose_block (file : option string) (nkr_name : string) : option string :=
  content ← file;
  let ls := lines content in
  '(start, end_) ← locate ls nkr_name;
  Some (text_of (take start ls ++ drop end_ ls)).

(** ** Switching *)
Definition indent_of (l : string) : nat := (String.length l - String.length (trim_start l))%nat.
Definition spaces (n : nat) : string := String.string_of_list_ascii (replicate n " "%char).

Definition set_flag (want l : string) : string :=
  if starts_with "disabled:" (trim_start l) then spaces (indent_of l) +:+ "disabled: " +:+ want else l.

(** the new contents when they differ *)
Definition set_compose_block_disabled (file : option string) (nkr_name : string) (disabled : bool)
  : string + option string :=
  match file with
  | None => inl "no existe"
  | Some content =>
      let ls := lines content in
      match locate ls nkr_name with
      | None => inl "bloque no encontrado en compose"
      | Some (start, end_) =>
          let want := if disabled then "true" else "false" in
          let block := drop start (take end_ ls) in
          let found := existsb (fun l => starts_with "disabled:" (trim_start l)) block in
          let new := take start ls ++ map (set_flag want) block ++ drop end_ ls in
          if negb found && disabled
          then inr (Some (text_of (insert_at (S start) "    disabled: true" new)))
          else if bool_decide (map (set_flag want) block = block) then inr None
          else inr (Some (text_of new))
      end
  end.

(** ** Resizing *)
(** [out[i]] for the keys still to set *)
Record sizes := mkSizes { want_ram : option Z; want_chrs : option Z; want_balloon : option Z }.
#[export] Instance eta_sizes : Eta sizes := fun s => mkSizes (want_ram s) (want_chrs s) (want_balloon s).

Definition size_line (l key : string) (v : Z) : string :=
  let t := trim_start l in
  String.string_of_list_ascii (take (indent_of l) (String.list_ascii_of_string l))
  +:+ key +:+ ": " +:+ dec v +:+ rest_trailing_comment (default "" (strip_prefix (key +:+ ":") t)).

Definition set_size (l key : string) (want : option Z) : option string :=
  v ← want; if starts_with (key +:+ ":") (trim_start l) then Some (size_line l key v) else None.

Definition size_one (s : sizes) (l : string) : sizes * string :=
  match set_size l "ram" (want_ram s) with
  | Some l' => (s <| want_ram := None |>, l')
  | None =>
      match set_size l "chrs" (want_chrs s) with
      | Some l' => (s <| want_chrs := None |>, l')
      | None =>
          match set_size l "balloon_mb" (want_balloon s) with
          | Some l' => (s <| want_balloon := None |>, l')
          | None => (s, l)
          end
      end
  end.
Fixpoint size_lines (s : sizes) (ls : list string) : sizes * list string :=
  match ls with
  | [] => (s, [])
  | l :: ls => let '(s, l) := size_one s l in let '(s, ls) := size_lines s ls in (s, l :: ls)
  end.

(** the keys that were not there, after the header *)
Definition missing (s : sizes) : list string :=
  opt_list (want_chrs s) (fun v => "    chrs: " +:+ dec v)
  ++ opt_list (want_ram s) (fun v => "    ram: " +:+ dec v)
  ++ opt_list (want_balloon s) (fun v => "    balloon_mb: " +:+ dec v).

Definition is_none {A} (o : option A) : bool := match o with Some _ => false | None => true end.

(** [None] inside: nothing is written *)
Definition patch_compose_block_resources (file : option string) (nkr_name : string) (s : sizes)
  : string + option string :=
  if is_none (want_ram s) && is_none (want_chrs s) && is_none (want_balloon s) then inr None
  else match file with
  | None => inl "No existe"
  | Some content =>
      let ls := lines content in
      match locate ls nkr_name with
      | None => inl "bloque no encontrado"
      | Some (start, end_) =>
          let '(rest, body) := size_lines s (drop (S start) (take end_ ls)) in
          inr (Some (text_of (take (S start) ls ++ missing rest ++ body ++ drop end_ ls)))
      end
  end.

(** ** Appending a copy *)
(** [s.replace(src, dst)] *)
Fixpoint replace_in (fuel : nat) (src dst s : string) : string :=
  match fuel with
  | O => s
  | S fuel =>
      match strip_prefix src s with
      | Some rest => dst +:+ replace_in fuel src dst rest
      | None => match s with EmptyString => EmptyString | String c s => String c (replace_in fuel src dst s) end
      end
  end.
(** an empty [src] matches before and after every character *)
Definition replace (src dst s : string) : string :=
  if bool_decide (src = "")
  then dst +:+ foldr (fun c acc => String c dst +:+ acc) "" (String.list_ascii_of_string s)
  else replace_in (S (String.length s)) src dst s.

Record copy_opts := mkCopy {
  co_cell : string; co_src : string; co_dst : string; co_vm_id : Z;
  extra_env : list (string * string);
  co_ram : option Z; co_chrs : option Z; co_balloon : option Z; co_idle : option Z; co_decay : option Z;
  include_enterprise : bool; start_disabled : bool;
}.

(** what the loop over the lines remembers, and the lines it has kept *)
Record copying := mkCopying {
  new_block : list string;
  has_env_section : bool; has_skip_warmup : bool; has_ram : bool; has_chrs : bool; has_balloon : bool;
  in_healthcheck : bool; in_environment : bool;
  legacy_addons_share : option string;
}.
#[export] Instance eta_copying : Eta copying := fun s =>
  mkCopying (new_block s) (has_env_section s) (has_skip_warmup s) (has_ram s) (has_chrs s) (has_balloon s)
    (in_healthcheck s) (in_environment s) (legacy_addons_share s).

Definition push (l : string) (s : copying) : copying := s <| new_block ::= fun b => b ++ [l] |>.

Definition short_name (cell name : string) : string := default name (strip_prefix (cell +:+ "-") name).
Definition env_line (indent : string) (kv : string * string) : string :=
  indent +:+ fst kv +:+ ": " +:+ quote (snd kv).

(** a size that the caller sets, with the indentation and the comment of the line copied *)
Definition sized (orig key : string) (v : Z) : string :=
  spaces (indent_of orig) +:+ key +:+ ": " +:+ dec v
  +:+ rest_trailing_comment (default "" (strip_prefix (key +:+ ":") (trim_start orig))).

(** the text before the first colon *)
Definition env_key (t : string) : string := match split_once ":" t with Some (k, _) => k | None => t end.

Section Copy.
Context (o : copy_opts).

Definition renamed (first : bool) (line : string) : string :=
  if first then "  " +:+ short_name (co_cell o) (co_dst o) +:+ ":"
  else match strip_prefix "id:" (trim_start line) with
       | Some rest =>
           String.string_of_list_ascii (take (indent_of line) (String.list_ascii_of_string line))
           +:+ "id: " +:+ dec (co_vm_id o) +:+ rest_trailing_comment rest
       | None => replace (co_src o) (co_dst o) line
       end.

(** a line that goes through the sections: the environment, the health check, the shares *)
Definition copy_nested (line s t : string) (st : copying) : copying :=
  let nested := (4 <? indent_of line)%nat in
  if in_environment st && nested && bool_decide (env_key t ∈ map fst (extra_env o)) then st
  else
    let st := if in_environment st && negb nested then st <| in_environment := false |> else st in
    if in_healthcheck st && nested && starts_with "initial_delay:" t then push "      initial_delay: 3" st
    else if in_healthcheck st && nested && starts_with "interval:" t then push "      interval: 1" st
    else if in_healthcheck st && nested && starts_with "retries:" t then push "      retries: 30" st
    else
      let st := if in_healthcheck st && negb nested then st <| in_healthcheck := false |> else st in
      if starts_with "healthcheck:" t then push s (st <| in_healthcheck := true |>)
      else if starts_with "- " t && contains ":/mnt/extra-addons" t && negb (contains ":ro" t) && negb (contains ":rw" t)
      then st <| legacy_addons_share := Some (trim_end s +:+ ":rw") |>
      else if negb (include_enterprise o) && contains ":/mnt/extra-enterprise" t then st
      else push s st.

(** a line that gives a size: it is noted, and replaced when the caller sets the size *)
Definition on_size (key : string) (want : option Z) (note : copying -> copying) (line t : string)
    (next : copying -> copying) (st : copying) : copying :=
  if starts_with (key +:+ ":") t
  then match want with Some v => push (sized line key v) (note st) | None => next (note st) end
  else next st.

(** the flags and the start of the environment *)
Definition copy_flags (line s t : string) (st : copying) : copying :=
  if starts_with "skip_warmup:" t then
    push (spaces (indent_of line) +:+ "skip_warmup: true") (st <| has_skip_warmup := true |>)
  else if starts_with "disabled:" t then
    push (spaces (indent_of line) +:+ "disabled: " +:+ (if start_disabled o then "true" else "false")) st
  else if starts_with "environment:" t then
    let st := foldl (fun st kv => push (env_line (spaces (indent_of line + 2)) kv) st)
                (push s (st <| has_env_section := true |>)) (extra_env o) in
    st <| in_environment := true |>
  else copy_nested line s t st.

(** a line of the block *)
Definition copy_line (first : bool) (line : string) (st : copying) : copying :=
  let s := renamed first line in
  let t := trim_start s in
  on_size "ram" (co_ram o) (fun st => st <| has_ram := true |>) line t
    (on_size "balloon_mb" (co_balloon o) (fun st => st <| has_balloon := true |>) line t
      (on_size "chrs" (co_chrs o) (fun st => st <| has_chrs := true |>) line t
        (copy_flags line s t))) st.

Fixpoint copy_lines (first : bool) (ls : list string) (st : copying) : copying :=
  match ls with
  | [] => st
  | l :: ls => copy_lines false ls (copy_line first l st)
  end.

Definition copying_start : copying := mkCopying [""] false false false false false false false None.

(** [new_block.insert(2.min(len), l)] *)
Definition insert_2 (l : string) (b : list string) : list string := insert_at (Nat.min 2 (length b)) l b.

(** [shares:], and the line after it or at the end *)
Fixpoint after_shares (share : string) (b : list string) : option (list string) :=
  match b with
  | [] => None
  | l :: b => if bool_decide (trim l = "shares:") then Some (l :: share :: b) else cons l <$> after_shares share b
  end.
Definition add_share (share : string) (b : list string) : list string :=
  default (b ++ ["    shares:"; share]) (after_shares share b).

(** the keys that a copy must have *)
Definition with_key (present : bool) (l : string) (b : list string) : list string :=
  if present then b else insert_2 l b.
Definition with_size (present : bool) (key : string) (want : option Z) (b : list string) : list string :=
  match want with Some v => with_key present ("    " +:+ key +:+ ": " +:+ dec v) b | None => b end.

Definition with_idle (b : list string) : list string :=
  match co_idle o with
  | Some idle =>
      if idle =? default 0 (co_balloon o) then b
      else
        let at_ := Nat.min 2 (length b) in
        let b := insert_at at_ ("    balloon_idle_mb: " +:+ dec idle) b in
        match co_decay o with
        | Some d => insert_at (S at_) ("    balloon_decay_secs: " +:+ dec d) b | None => b end
  | None => b
  end.

Definition with_env (present : bool) (b : list string) : list string :=
  if present || bool_decide (extra_env o = []) then b
  else b ++ "    environment:" :: map (env_line "      ") (extra_env o).
Definition with_share (share : option string) (b : list string) : list string :=
  match share with Some l => add_share l b | None => b end.

Definition complete_block (st : copying) : list string :=
  let b := with_key (has_skip_warmup st) "    skip_warmup: true" (new_block st) in
  let b := with_size (has_ram st) "ram" (co_ram o) b in
  let b := with_size (has_chrs st) "chrs" (co_chrs o) b in
  let b := with_key (has_balloon st) ("    balloon_mb: " +:+ dec (default 128 (co_balloon o))) b in
  with_share (legacy_addons_share st) (with_env (has_env_section st) (with_idle b)).

(** [systemouts]: the path of the cell's directory of internal add-ons *)
Definition copy_block (systemouts : string) (block : list string) : list string :=
  let b := complete_block (copy_lines true block copying_start) in
  if existsb (contains ":/mnt/systemouts-addons:") b then b
  else add_share ("      - " +:+ quote (systemouts +:+ ":/mnt/systemouts-addons:ro")) b.

Definition append_compose_block (systemouts : string) (file : option string) : string + string :=
  match file with
  | None => inl "No existe"
  | Some content =>
      let ls := lines content in
      match locate ls (co_src o) with
      | None => inl "No encontré el bloque"
      | Some (start, end_) =>
          inr (content +:+ (if ends_with (String LF "") content then "" else String LF "")
               +:+ text_of (copy_block systemouts (drop start (take end_ ls))))
      end
  end.
End Copy.

(** ** Well-formed services *)
(** a line inside a service *)
Definition body_line (l : string) : Prop := l = "" \/ starts_with "   " l = true.

(** [n] names a service of [ls]: its header, its body, and the lines around them *)
Record service (ls : list string) (n : string) (pre : list string) (hdr : string) (body post : list string) : Prop := {
  sv_lines : ls = pre ++ hdr :: body ++ post;
  sv_header : is_service_header hdr = true;
  sv_body : Forall body_line body;
  sv_end : match post with [] => True | l :: _ => ends_block l = true end;
  sv_first : Forall (fun l => names n l = false) (pre ++ [hdr]);
  sv_named : Exists (fun l => names n l = true) body;
}.

Lemma body_line_inside l : body_line l -> opens l = false /\ ends_block l = false.
Proof.
  assert (H : body_line l -> opens l = false /\ is_top_level l = false).
  { intros [-> | H]; [done|]. unfold opens, is_top_level. rewrite H. cbn [negb].
    rewrite !andb_false_r. cbn [andb]. split; [done|].
    apply starts_with_spec in H as [t ->]. by rewrite andb_false_r. }
  intros Hl. destruct (H Hl) as [Ho Ht]. split; [done|]. unfold ends_block, is_service_header.
  by rewrite Ho, Ht.
Qed.

Lemma header_opens l : is_service_header l = true -> opens l = true /\ ends_block l = true.
Proof.
  intros H. split.
  - by apply andb_true_iff in H as [? _].
  - unfold ends_block. by rewrite H.
Qed.

Lemma back_to_header_skip pre hdr body n :
  opens hdr = true -> Forall (fun l => opens l = false) body -> (n <= length body)%nat ->
  forall post, back_to_header (pre ++ hdr :: body ++ post) (length pre + n) = Some (length pre).
Proof.
  intros Hh Hb Hn post. induction n as [|n IH].
  - rewrite Nat.add_0_r. destruct pre as [|p pre].
    + cbn. by rewrite Hh.
    + cbn [length back_to_header]. rewrite (list_lookup_total_middle (p :: pre)) by done. by rewrite Hh.
  - replace (length pre + S n)%nat with (S (length pre + n)) by lia. cbn [back_to_header].
    assert (E : (pre ++ hdr :: body ++ post) !!! S (length pre + n) = body !!! n).
    { rewrite lookup_total_app_r by lia. replace (S (length pre + n) - length pre)%nat with (S n) by lia.
      change ((hdr :: body ++ post) !!! S n) with ((body ++ post) !!! n). by rewrite lookup_total_app_l by lia. }
    rewrite E. replace (opens (body !!! n)) with false; [apply IH; lia|].
    symmetry. rewrite Forall_lookup_total in Hb. apply Hb. lia.
Qed.

Lemma position_skip {A} (p : A -> bool) l1 l2 :
  Forall (fun x => p x = false) l1 -> position p (l1 ++ l2) = Nat.add (length l1) <$> position p l2.
Proof.
  induction 1 as [|x l Hx _ IH]; [cbn [app]; by destruct (position p l2)|]. cbn [position app]. rewrite Hx, IH.
  by destruct (position p l2).
Qed.

Lemma position_exists {A} (p : A -> bool) l :
  Exists (fun x => p x = true) l -> exists i, position p l = Some i /\ (i < length l)%nat.
Proof.
  induction 1 as [x l Hx|x l _ (i & Hi & Hlt)]; cbn [position length].
  - rewrite Hx. exists 0%nat. split; [done|lia].
  - destruct (p x); [exists 0%nat; split; [done|lia]|]. exists (S i). rewrite Hi. split; [done|lia].
Qed.

Lemma position_app_l {A} (p : A -> bool) l1 l2 i : position p l1 = Some i -> position p (l1 ++ l2) = Some i.
Proof.
  revert i. induction l1 as [|x l1 IH]; intros i; [done|]. cbn [position app]. destruct (p x); [done|].
  destruct (position p l1) as [j|]; [|done]. by rewrite (IH j).
Qed.

(** a service is found *)
Lemma locate_service ls n pre hdr body post : service ls n pre hdr body post ->
  locate ls n = Some (length pre, (S (length pre) + length body)%nat).
Proof.
  intros [-> Hh Hb He Hf Hn]. apply header_opens in Hh as [Ho _]. unfold locate.
  destruct (position_exists _ _ Hn) as (i & Hi & Hlt).
  assert (E1 : position (names n) (pre ++ hdr :: body ++ post) = Some (length pre + S i)%nat).
  { replace (pre ++ hdr :: body ++ post) with ((pre ++ [hdr]) ++ body ++ post) by (by rewrite <- app_assoc).
    rewrite position_skip by done. erewrite position_app_l by exact Hi. cbn. rewrite length_app. cbn. f_equal. lia. }
  rewrite E1. cbn [mbind option_bind].
  rewrite (back_to_header_skip pre hdr body (S i)); [|done| |lia].
  2:{ eapply List.Forall_impl; [|exact Hb]. intros l Hl. by apply body_line_inside. }
  cbn [mbind option_bind]. f_equal. f_equal.
  replace (drop (S (length pre)) (pre ++ hdr :: body ++ post)) with (body ++ post).
  2:{ replace (pre ++ hdr :: body ++ post) with ((pre ++ [hdr]) ++ body ++ post) by (by rewrite <- app_assoc).
      replace (S (length pre)) with (length (pre ++ [hdr])) by (rewrite length_app; cbn; lia).
      by rewrite drop_app_length. }
  rewrite position_skip.
  2:{ eapply List.Forall_impl; [|exact Hb]. intros l Hl. by apply body_line_inside. }
  destruct post as [|l post]; cbn [position].
  - cbn. rewrite !length_app. cbn. rewrite length_app. cbn. lia.
  - rewrite He. cbn. lia.
Qed.

(** ** The text of a file and its lines *)
Lemma text_unlines ls : ls <> [] -> text_of ls = unlines ls.
Proof.
  intros Hne. unfold text_of. induction ls as [|l ls IH]; [done|]. cbn [unlines foldr]. fold (unlines ls).
  destruct ls as [|l' ls]; [by cbn|].
  change (join_with LF (l :: l' :: ls)) with (l +:+ String LF (join_with LF (l' :: ls))).
  by rewrite string_app_assoc, append_cons, IH.
Qed.

Lemma lines_text_of ls : ls <> [] -> Forall plain_text ls -> lines (text_of ls) = ls.
Proof. intros Hne Hp. rewrite text_unlines by done. by apply lines_unlines. Qed.

Lemma unlines_app l1 l2 : unlines (l1 ++ l2) = unlines l1 +:+ unlines l2.
Proof.
  induction l1 as [|l l1 IH]; [done|]. cbn [app unlines foldr]. fold (unlines (l1 ++ l2)) (unlines l1).
  by rewrite IH, string_app_assoc, append_cons.
Qed.

Lemma length_list_ascii s : length (String.list_ascii_of_string s) = String.length s.
Proof. induction s as [|c s IH]; [done|]. cbn. by rewrite IH. Qed.

Lemma ends_with_char c s : ends_with (String c "") s = bool_decide (list.last (String.list_ascii_of_string s) = Some c).
Proof.
  unfold ends_with. apply bool_decide_ext. cbn [String.list_ascii_of_string String.length].
  rewrite <- length_list_ascii. generalize (String.list_ascii_of_string s) as l. intros l.
  induction l as [|x l' _] using rev_ind; [done|].
  rewrite length_app, last_snoc. cbn [length]. replace (length l' + 1 - 1)%nat with (length l') by lia.
  rewrite drop_app_length. split; [by intros [= ->]|by intros [= ->]].
Qed.

(** the text of a file is its lines, but for the line break it may lack *)
Lemma unlines_parts ps : ps <> [] ->
  unlines (match list.last ps with Some "" => removelast ps | _ => ps end)
  = (if bool_decide (ps = [""]) then "" else join_with LF ps +:+ (if bool_decide (list.last ps = Some "") then "" else String LF "")).
Proof.
  intros Hne. induction ps as [|p ps IH]; [done|]. destruct ps as [|p' ps].
  - destruct p as [|c p]; [done|].
    by rewrite (bool_decide_false ([String c p] = [""])), (bool_decide_false (list.last _ = _)) by done.
  - specialize (IH ltac:(done)).
    change (join_with LF (p :: p' :: ps)) with (p +:+ String LF (join_with LF (p' :: ps))).
    change (list.last (p :: p' :: ps)) with (list.last (p' :: ps)).
    rewrite (bool_decide_false (p :: p' :: ps = [""])) by done. rewrite string_app_assoc, append_cons.
    destruct (list.last (p' :: ps)) as [[|c x]|] eqn:El.
    + change (removelast (p :: p' :: ps)) with (p :: removelast (p' :: ps)). cbn [unlines foldr].
      fold (unlines (removelast (p' :: ps))). rewrite IH. case_bool_decide as Ep; [|done].
      injection Ep as -> ->. done.
    + cbn [unlines foldr]. fold (unlines (p' :: ps)). cbn [unlines foldr] in IH. rewrite IH.
      rewrite bool_decide_false; [done|]. by intros [= -> ->].
    + by apply last_None in El.
Qed.

Lemma last_piece s : s <> "" -> ends_with (String LF "") s = bool_decide (list.last (split_on LF s) = Some "").
Proof.
  intros Hs. rewrite ends_with_char. apply bool_decide_ext. revert Hs.
  induction s as [|c s IH]; [done|]. intros _. cbn [split_on]. pose proof (split_on_nonempty LF s) as Hne.
  destruct s as [|d s].
  - cbn. destruct (Ascii.eqb_spec c LF) as [->|Hc]; [done|]. cbn. split; [by intros [= ->]|done].
  - cbn [String.list_ascii_of_string] in *. rewrite last_cons_cons, IH by done.
    destruct (split_on LF (String d s)) as [|p ps] eqn:E; [done|].
    destruct (Ascii.eqb_spec c LF) as [->|Hc]; [by rewrite last_cons_cons|].
    destruct ps as [|p' ps]; [|by rewrite !last_cons_cons]. cbn. split; [|done]. intros [= ->].
    cbn [split_on] in E. destruct (Ascii.eqb d LF); [by destruct (split_on_nonempty LF s); injection E|].
    destruct (split_on LF s); by injection E.
Qed.

Lemma content_unlines content : char_in CR content = false -> content <> "" ->
  content +:+ (if ends_with (String LF "") content then "" else String LF "") = unlines (lines content).
Proof.
  intros Hc Hne. pose proof (lines_plain content Hc) as _. unfold lines.
  assert (Hm : forall ps, Forall (fun p => char_in CR p = false) ps -> map chomp_cr ps = ps).
  { induction 1 as [|p ps Hp _ IH]; [done|]. cbn [map]. by rewrite chomp_cr_plain, IH. }
  pose proof (split_on_chars LF CR content Hc) as Hps.
  rewrite Hm.
  2:{ repeat case_match; try done. apply Forall_forall. intros l Hl. rewrite Forall_forall in Hps. apply Hps.
      rewrite (app_removelast_last "" (l := split_on LF content)) by apply split_on_nonempty.
      apply in_or_app. by left. }
  rewrite unlines_parts by apply split_on_nonempty. rewrite last_piece by done.
  rewrite (bool_decide_false (split_on LF content = [""])).
  - by rewrite join_split_on.
  - intros E. apply Hne. by rewrite <- (join_split_on LF content), E.
Qed.

Lemma lines_append content b : char_in CR content = false -> content <> "" -> b <> [] -> Forall plain_text b ->
  lines (content +:+ (if ends_with (String LF "") content then "" else String LF "") +:+ text_of b) = lines content ++ b.
Proof.
  intros Hc Hne Hb Hp. rewrite <- string_app_assoc, content_unlines, text_unlines, <- unlines_app by done.
  apply lines_unlines. apply Forall_app. split; [by apply lines_plain|done].
Qed.

(** ** Indentation *)
#[local] Notation chars := String.list_ascii_of_string.

Lemma starts_with_chars p s : starts_with p s = true <-> take (String.length p) (chars s) = chars p.
Proof.
  rewrite starts_with_spec. split.
  - intros [t ->]. by rewrite list_ascii_app, <- length_list_ascii, take_app_length.
  - intros E. exists (String.string_of_list_ascii (drop (String.length p) (chars s))).
    apply list_ascii_inj. rewrite list_ascii_app, String.list_ascii_of_string_of_list_ascii, <- E. by rewrite take_drop.
Qed.

Lemma chars_trim_start l : chars (trim_start l) = drop_spaces (chars l).
Proof. apply String.list_ascii_of_string_of_list_ascii. Qed.

Lemma drop_spaces_split l : exists w, l = w ++ drop_spaces l /\ Forall (fun c => is_space c = true) w.
Proof.
  induction l as [|c l (w & E & Hw)]; [by exists []|]. cbn [drop_spaces].
  destruct (is_space c) eqn:Ec; [|by exists []]. exists (c :: w). split; [by cbn; f_equal|by constructor].
Qed.

Lemma drop_spaces_app w t : Forall (fun c => is_space c = true) w ->
  match t with c :: _ => is_space c = false | [] => True end -> drop_spaces (w ++ t) = t.
Proof.
  induction 1 as [|c w Hc _ IH]; intros Ht; cbn [app drop_spaces]; [|by rewrite Hc, IH].
  destruct t as [|c t]; [done|]. cbn. by rewrite Ht.
Qed.

Lemma drop_spaces_head l : match drop_spaces l with c :: _ => is_space c = false | [] => True end.
Proof. induction l as [|c l IH]; [done|]. cbn [drop_spaces]. by destruct (is_space c) eqn:E. Qed.

(** a line is its indentation and the rest *)
Lemma line_split l : exists w, chars l = w ++ chars (trim_start l) /\ Forall (fun c => is_space c = true) w
  /\ take (indent_of l) (chars l) = w /\ indent_of l = length w.
Proof.
  rewrite chars_trim_start. destruct (drop_spaces_split (chars l)) as (w & E & Hw). exists w.
  assert (Hi : indent_of l = length w).
  { unfold indent_of. rewrite <- !length_list_ascii, chars_trim_start, E at 1. rewrite length_app. lia. }
  split_and!; [done|done| |done]. rewrite Hi, E at 1. by rewrite take_app_length.
Qed.

Lemma prefix3 {A} (w t : list A) (a : A) : (3 <= length w)%nat ->
  take 3 (w ++ t) = [a; a; a] <-> take 3 w = [a; a; a].
Proof. intros Hw. by rewrite take_app_le by lia. Qed.

(** a line inside a service that has something on it is indented *)
Lemma body_indent l : body_line l -> trim_start l <> "" -> (3 <= indent_of l)%nat /\ take 3 (take (indent_of l) (chars l)) = [" "; " "; " "]%char.
Proof.
  intros [-> | Hl] Ht; [done|]. apply starts_with_chars in Hl. cbn [String.length chars] in Hl.
  destruct (line_split l) as (w & E & Hw & Htk & Hi). rewrite Htk, Hi. rewrite E in Hl.
  pose proof (drop_spaces_head (chars l)) as Hh. rewrite <- chars_trim_start in Hh.
  destruct (chars (trim_start l)) as [|c t] eqn:Ec.
  { exfalso. apply Ht. by apply list_ascii_inj. }
  destruct w as [|w1 [|w2 [|w3 w]]]; cbn in Hl; [injection Hl as Hc _|injection Hl as _ Hc _|injection Hl as _ _ Hc|injection Hl as -> -> ->];
    try (by subst c). cbn. split; [lia|done].
Qed.

Lemma drop_spaces_stop l x m : is_space x = false -> exists l', drop_spaces (l ++ x :: m) = l' ++ x :: m.
Proof.
  intros Hx. induction l as [|c l [l' IH]]; cbn [app drop_spaces].
  - exists []. by rewrite Hx.
  - destruct (is_space c); [by exists l'|]. by exists (c :: l).
Qed.

Lemma trim_end_id s c : is_space c = false -> trim_end (s +:+ String c "") = s +:+ String c "".
Proof.
  intros Hc. apply list_ascii_inj. unfold trim_end.
  rewrite String.list_ascii_of_string_of_list_ascii, list_ascii_app. cbn [chars]. rewrite reverse_snoc.
  cbn [drop_spaces]. rewrite Hc, reverse_cons, reverse_involutive. done.
Qed.

Lemma strip_prefix_until c src b rest r : char_in c src = false ->
  strip_prefix src (b +:+ String c rest) = Some r -> exists r', b = src +:+ r'.
Proof.
  revert b. induction src as [|a src IH]; intros b Hc; [by exists b|].
  rewrite char_in_cons in Hc. apply orb_false_iff in Hc as [Ha%Ascii.eqb_neq Hc].
  destruct b as [|x b].
  - change ("" +:+ ?s) with s. rewrite strip_prefix_cons. destruct (Ascii.eqb_spec a c); [congruence|done].
  - rewrite append_cons, strip_prefix_cons. destruct (Ascii.eqb_spec a x) as [->|]; [|done].
    intros (r' & ->)%IH; [|done]. by exists r'.
Qed.

(** ** Reading a service *)
Fixpoint upto_hash (l : list ascii) : list ascii :=
  match l with [] => [] | c :: l => if Ascii.eqb c "#" then [] else c :: upto_hash l end.
(** the value that a line gives to a key, without its comment *)
Definition value_of (key l : string) : option string :=
  rest ← strip_prefix (key +:+ ":") (trim_start l);
  Some (trim (String.string_of_list_ascii (upto_hash (chars rest)))).
Fixpoint block_value (key : string) (body : list string) : option string :=
  match body with
  | [] => None
  | l :: body => match value_of key l with Some v => Some v | None => block_value key body end
  end.

Definition size_keys : list string := ["ram"; "chrs"; "balloon_mb"].
Definition key_plain (k : string) : Prop := k <> "" /\ char_in ":" k = false.

Lemma split_once_at k r : char_in ":" k = false -> split_once ":" (k +:+ ":" +:+ r) = Some (k, r).
Proof. apply split_once_plain. Qed.

Lemma key_unique k1 k2 r x : char_in ":" k1 = false -> char_in ":" k2 = false ->
  strip_prefix (k2 +:+ ":") (k1 +:+ ":" +:+ r) = Some x -> k1 = k2 /\ r = x.
Proof.
  intros H1 H2 E%strip_prefix_some. rewrite string_app_assoc in E.
  pose proof (split_once_at k1 r H1) as E1. rewrite E, (split_once_at k2 x H2) in E1. by simplify_eq.
Qed.

Lemma value_other k1 k2 r : char_in ":" k1 = false -> char_in ":" k2 = false -> k1 <> k2 ->
  forall l, trim_start l = k1 +:+ ":" +:+ r -> value_of k2 l = None.
Proof.
  intros H1 H2 Hne l El. unfold value_of. rewrite El.
  destruct (strip_prefix _ _) eqn:E; [|done]. by apply key_unique in E as [? _].
Qed.

Lemma starts_key k l : starts_with (k +:+ ":") (trim_start l) = true <-> exists r, trim_start l = k +:+ ":" +:+ r.
Proof.
  rewrite starts_with_spec. split; intros [r E]; exists r; by rewrite E, ?string_app_assoc.
Qed.

Lemma names_key n l : names n l = true -> exists r, trim_start l = "nkr_name" +:+ ":" +:+ r.
Proof.
  unfold names. intros [Hs _]%andb_true_iff. rewrite trim_both in Hs.
  apply starts_with_spec in Hs as [t Et]. destruct (trim_end_prefix (trim_start l)) as [p Hp].
  exists (t +:+ p). rewrite Hp, Et. by rewrite !string_app_assoc.
Qed.

Lemma other_key_unnamed k l r n : char_in ":" k = false -> k <> "nkr_name" ->
  trim_start l = k +:+ ":" +:+ r -> names n l = false.
Proof.
  intros Hk Hne El. apply not_true_iff_false. intros [r' E]%names_key. rewrite El in E.
  pose proof (split_once_at k r Hk) as E1. rewrite E, (split_once_at "nkr_name") in E1 by done. by simplify_eq.
Qed.

Lemma trim_inside w1 d w2 : Forall (fun c => is_space c = true) w1 -> Forall (fun c => is_space c = true) w2 ->
  Forall (fun c => is_space c = false) (chars d) -> d <> "" ->
  trim (String.string_of_list_ascii (w1 ++ chars d ++ w2)) = d.
Proof.
  intros H1 H2 Hd Hne. unfold trim. rewrite String.list_ascii_of_string_of_list_ascii.
  assert (Hc : chars d <> []) by (intros E; apply Hne; by apply list_ascii_inj).
  rewrite drop_spaces_app; [|done|].
  2:{ destruct Hd as [|c d' Hc' _]; [done|exact Hc']. }
  rewrite reverse_app, drop_spaces_app.
  - by rewrite reverse_involutive, String.string_of_list_ascii_of_string.
  - by apply Forall_reverse.
  - apply Forall_reverse in Hd. destruct Hd as [|c d' Hc' _]; [done|exact Hc'].
Qed.

Lemma from_hash_spec l l' : from_hash l = Some l' -> exists r, l' = "#"%char :: r.
Proof.
  induction l as [|c l IH]; [done|]. cbn [from_hash]. destruct (Ascii.eqb_spec c "#") as [->|]; [|done].
  intros [= <-]. by exists l.
Qed.

Lemma upto_hash_plain d r : Forall (fun c => c <> "#"%char) d -> upto_hash (d ++ r) = d ++ upto_hash r.
Proof.
  induction 1 as [|c d Hc _ IH]; [done|]. cbn [app upto_hash]. destruct (Ascii.eqb_spec c "#"); [done|]. by rewrite IH.
Qed.

Lemma upto_comment r : Forall (fun c => is_space c = true) (upto_hash (chars (rest_trailing_comment r))).
Proof.
  unfold rest_trailing_comment. destruct (from_hash _) as [l|] eqn:E; [|constructor].
  apply from_hash_spec in E as [r' ->]. rewrite list_ascii_app, String.list_ascii_of_string_of_list_ascii.
  by repeat constructor.
Qed.

Lemma dec_chars v : 0 <= v -> Forall (fun c => is_space c = false) (chars (dec v)) /\ Forall (fun c => c <> "#"%char) (chars (dec v)) /\ dec v <> "".
Proof.
  intros Hv. pose proof (dec_digits v Hv) as Hd. split_and!.
  - eapply List.Forall_impl; [|exact Hd]. intros c. apply digit_not_space.
  - eapply List.Forall_impl; [|exact Hd]. intros c Hc ->. by vm_compute in Hc.
  - unfold dec. intros E. apply (f_equal chars) in E. rewrite list_ascii_show in E.
    apply (f_equal length) in E. rewrite length_map, length_reverse in E.
    cbn [digits] in E. by destruct (v <? 10).
Qed.

(** ** Resizing *)
Definition wanted (s : sizes) (key : string) : option Z :=
  if bool_decide (key = "ram") then want_ram s
  else if bool_decide (key = "chrs") then want_chrs s
  else if bool_decide (key = "balloon_mb") then want_balloon s else None.

Lemma line_of_key w key r l : Forall (fun c => is_space c = true) w -> key <> "" ->
  match chars key with c :: _ => is_space c = false | [] => True end ->
  l = String.string_of_list_ascii w +:+ key +:+ r -> trim_start l = key +:+ r.
Proof.
  intros Hw Hk Hc ->. apply list_ascii_inj. rewrite chars_trim_start, !list_ascii_app,
    String.list_ascii_of_string_of_list_ascii, drop_spaces_app; [done|done|].
  destruct key as [|c key]; [done|]. exact Hc.
Qed.

Lemma value_of_text key v r l : Forall (fun c => is_space c = false) (chars v) -> Forall (fun c => c <> "#"%char) (chars v) ->
  v <> "" -> trim_start l = key +:+ ":" +:+ " " +:+ v +:+ rest_trailing_comment r -> value_of key l = Some v.
Proof.
  intros Hs Hh Hne E. unfold value_of. rewrite E, <- (string_app_assoc key ":"), strip_prefix_app. cbn [mbind option_bind]. f_equal.
  rewrite !list_ascii_app.
  change (chars " ") with [" "%char]. cbn [app upto_hash]. change (Ascii.eqb " " "#") with false. cbn iota.
  rewrite upto_hash_plain by done. change (" "%char :: ?x) with ([" "%char] ++ x).
  apply trim_inside; [by repeat constructor|apply upto_comment|done|done].
Qed.

Lemma value_of_here key v r l : 0 <= v -> trim_start l = key +:+ ":" +:+ " " +:+ dec v +:+ rest_trailing_comment r ->
  value_of key l = Some (dec v).
Proof. intros Hv E. destruct (dec_chars v Hv) as (Hs & Hh & Hne). by eapply value_of_text. Qed.

Lemma size_key_ok key : key ∈ size_keys ->
  char_in ":" key = false /\ key <> "" /\ key <> "nkr_name" /\ plain_text key
  /\ match chars key with c :: _ => is_space c = false | [] => True end.
Proof. unfold size_keys. rewrite !elem_of_cons, elem_of_nil. by intros [-> | [-> | [-> | []]]]. Qed.

Lemma value_of_some key l v : value_of key l = Some v -> exists r, trim_start l = key +:+ ":" +:+ r.
Proof.
  unfold value_of. destruct (strip_prefix _ _) as [r|] eqn:E; [|done]. intros _. exists r.
  apply strip_prefix_some in E. by rewrite E, string_app_assoc.
Qed.

Lemma value_of_none key l : value_of key l = None <-> starts_with (key +:+ ":") (trim_start l) = false.
Proof. unfold value_of, starts_with. by destruct (strip_prefix _ _). Qed.

(** the line written for a key *)
Lemma size_line_trim l key v : key ∈ size_keys ->
  trim_start (size_line l key v) = key +:+ ":" +:+ " " +:+ dec v
    +:+ rest_trailing_comment (default "" (strip_prefix (key +:+ ":") (trim_start l))).
Proof.
  intros (Hc & Hne & _ & _ & Hsp)%size_key_ok. destruct (line_split l) as (w & _ & Hw & Ht & _).
  apply (line_of_key w); [done..|]. unfold size_line. by rewrite Ht.
Qed.

Lemma size_line_body l key v : key ∈ size_keys -> body_line l -> trim_start l <> "" -> body_line (size_line l key v).
Proof.
  intros Hk Hl Ht. destruct (body_indent l Hl Ht) as [Hi H3]. right. apply starts_with_chars.
  destruct (line_split l) as (w & _ & _ & Hw & Hlen).
  unfold size_line. rewrite list_ascii_app, String.list_ascii_of_string_of_list_ascii.
  rewrite Hw in *. by apply prefix3; [lia|].
Qed.

(** *** Lines without line breaks *)
Definition plain_chars (l : list ascii) : Prop := Forall (fun c => c <> CR /\ c <> LF) l.

Lemma plain_text_chars s : plain_text s <-> plain_chars (chars s).
Proof.
  unfold plain_text, plain_chars. induction s as [|c s IH]; [by split; [constructor|]|].
  rewrite !char_in_cons, !orb_false_iff, !Ascii.eqb_neq. cbn. rewrite list.Forall_cons. naive_solver.
Qed.

Lemma plain_comment r : plain_text r -> plain_text (rest_trailing_comment r).
Proof.
  rewrite !plain_text_chars. intros Hr. unfold rest_trailing_comment.
  assert (H : forall l l', from_hash l = Some l' -> plain_chars l -> plain_chars l').
  { induction l as [|c l IH]; [done|]. cbn [from_hash]. intros l' E Hl. destruct (Ascii.eqb c "#").
    - by injection E as <-.
    - apply list.Forall_cons in Hl as [_ Hl]. by apply IH. }
  destruct (from_hash _) as [l|] eqn:E; [|constructor]. apply H in E.
  - rewrite list_ascii_app, String.list_ascii_of_string_of_list_ascii. by repeat constructor.
  - rewrite chars_trim_start. destruct (drop_spaces_split (chars r)) as (w & Ew & _). rewrite Ew in Hr.
    by apply Forall_app in Hr as [_ Hr].
Qed.

Lemma plain_dec v : 0 <= v -> plain_text (dec v).
Proof. intros Hv. split; by apply dec_plain. Qed.

Lemma plain_take n l : plain_text l -> plain_text (String.string_of_list_ascii (take n (chars l))).
Proof. rewrite !plain_text_chars, String.list_ascii_of_string_of_list_ascii. apply Forall_take. Qed.

Lemma plain_trim_start l : plain_text l -> plain_text (trim_start l).
Proof.
  rewrite !plain_text_chars, chars_trim_start. destruct (drop_spaces_split (chars l)) as (w & E & _).
  rewrite E at 1. by intros [_ H]%Forall_app.
Qed.

Lemma plain_strip p l : plain_text l -> plain_text (default "" (strip_prefix p l)).
Proof.
  intros Hl. destruct (strip_prefix p l) as [r|] eqn:E; [|done]. apply strip_prefix_some in E as ->.
  by apply plain_app in Hl as [_ ?].
Qed.

Lemma size_line_plain l key v : key ∈ size_keys -> 0 <= v -> plain_text l -> plain_text (size_line l key v).
Proof.
  intros (_ & _ & _ & Hk & _)%size_key_ok Hv Hl. unfold size_line. rewrite !plain_app. split_and!;
    [by apply plain_take|done|done|by apply plain_dec|]. apply plain_comment, plain_strip. by apply plain_trim_start.
Qed.

(** *** The values read back *)
(** what one line does for the value of every key *)
Record resized (s : sizes) (l : string) (s' : sizes) (l' : string) : Prop := {
  rz_value : forall k, key_plain k -> value_of k l' = match value_of k l, wanted s k with
                                                     | Some _, Some v => Some (dec v) | r, _ => r end;
  rz_wanted : forall k, key_plain k -> wanted s' k = match value_of k l with Some _ => None | None => wanted s k end;
  rz_body : body_line l -> body_line l';
  rz_plain : plain_text l -> plain_text l';
  rz_names : forall n, names n l' = names n l;
}.
Definition sizes_ok (s : sizes) : Prop := forall k v, wanted s k = Some v -> 0 <= v.

Lemma resized_hit s l s' key v : key ∈ size_keys -> 0 <= v -> wanted s key = Some v -> wanted s' key = None ->
  (forall k, k <> key -> wanted s' k = wanted s k) ->
  starts_with (key +:+ ":") (trim_start l) = true -> resized s l s' (size_line l key v).
Proof.
  intros Hk Hv Hw Hw' Hs Hl. pose proof (size_line_trim l key v Hk) as Et.
  destruct (size_key_ok key Hk) as (Hc & Hne & Hn & _). apply starts_key in Hl as [r El].
  assert (Hval : exists x, value_of key l = Some x).
  { unfold value_of. rewrite El, <- (string_app_assoc key ":"), strip_prefix_app. by eexists. }
  destruct Hval as [x Hx]. constructor.
  - intros k [_ Hkc]. destruct (decide (k = key)) as [->|Hd].
    + rewrite Hx, Hw. by eapply value_of_here.
    + by rewrite (value_other key k _ Hc Hkc ltac:(done) _ El), (value_other key k _ Hc Hkc ltac:(done) _ Et).
  - intros k [_ Hkc]. destruct (decide (k = key)) as [->|Hd]; [by rewrite Hx|].
    by rewrite (value_other key k _ Hc Hkc ltac:(done) _ El), Hs.
  - intros Hb. apply size_line_body; [done..|]. rewrite El. by destruct key.
  - by apply size_line_plain.
  - intros n. by rewrite (other_key_unnamed key _ _ n Hc Hn Et), (other_key_unnamed key _ _ n Hc Hn El).
Qed.

Lemma wanted_other s k : k ∉ size_keys -> wanted s k = None.
Proof.
  unfold size_keys, wanted. rewrite !not_elem_of_cons. intros (? & ? & ? & _). by repeat case_bool_decide.
Qed.

Lemma resized_miss s l : (forall k, k ∈ size_keys -> wanted s k = None \/ value_of k l = None) -> resized s l s l.
Proof.
  intros H. constructor; [| |done..].
  - intros k _. destruct (decide (k ∈ size_keys)) as [Hk|Hk].
    + destruct (H k Hk) as [E|E]; rewrite E; [by destruct (value_of k l)|done].
    + rewrite (wanted_other s k Hk). by destruct (value_of k l).
  - intros k _. destruct (decide (k ∈ size_keys)) as [Hk|Hk].
    + destruct (H k Hk) as [E|E]; rewrite E; [by destruct (value_of k l)|done].
    + rewrite (wanted_other s k Hk). by destruct (value_of k l).
Qed.

Lemma set_size_some l key want l' : set_size l key want = Some l' ->
  exists v, want = Some v /\ l' = size_line l key v /\ starts_with (key +:+ ":") (trim_start l) = true.
Proof.
  unfold set_size. destruct want as [v|]; [|done]. cbn [mbind option_bind].
  destruct (starts_with _ _) eqn:E; [|done]. intros H. injection H as <-. by exists v.
Qed.

Lemma set_size_none l key want : set_size l key want = None -> want = None \/ value_of key l = None.
Proof.
  unfold set_size. destruct want as [v|]; [|by left]. cbn [mbind option_bind].
  destruct (starts_with _ _) eqn:E; [done|]. right. by apply value_of_none.
Qed.

Lemma size_one_spec s l s' l' : sizes_ok s -> size_one s l = (s', l') -> resized s l s' l'.
Proof.
  intros Hs. unfold size_one.
  destruct (set_size l "ram" (want_ram s)) as [l1|] eqn:E1.
  { apply set_size_some in E1 as (v & Hv & -> & Hl). intros H. injection H as <- <-.
    apply (resized_hit s l _ "ram"); [by repeat constructor|by apply (Hs "ram")|done..| |done].
    intros k Hk. unfold wanted. by rewrite (bool_decide_false (k = "ram")). }
  destruct (set_size l "chrs" (want_chrs s)) as [l1|] eqn:E2.
  { apply set_size_some in E2 as (v & Hv & -> & Hl). intros H. injection H as <- <-.
    apply (resized_hit s l _ "chrs"); [by repeat constructor|by apply (Hs "chrs")|done..| |done].
    intros k Hk. unfold wanted. by rewrite (bool_decide_false (k = "chrs")). }
  destruct (set_size l "balloon_mb" (want_balloon s)) as [l1|] eqn:E3.
  { apply set_size_some in E3 as (v & Hv & -> & Hl). intros H. injection H as <- <-.
    apply (resized_hit s l _ "balloon_mb"); [by repeat constructor|by apply (Hs "balloon_mb")|done..| |done].
    intros k Hk. unfold wanted. by rewrite (bool_decide_false (k = "balloon_mb")). }
  intros H. injection H as <- <-. apply resized_miss. intros k.
  apply set_size_none in E1, E2, E3. unfold size_keys. rewrite !elem_of_cons, elem_of_nil.
  by intros [-> | [-> | [-> | []]]].
Qed.

Lemma sizes_ok_step s l s' l' : sizes_ok s -> resized s l s' l' ->
  (forall k, wanted s' k <> None -> key_plain k) -> sizes_ok s'.
Proof.
  intros Hs H Hp k v Hk. assert (key_plain k) by (apply Hp; by rewrite Hk).
  rewrite (rz_wanted _ _ _ _ H) in Hk by done. destruct (value_of k l); [done|]. by apply (Hs k).
Qed.

Lemma wanted_plain s k : wanted s k <> None -> key_plain k.
Proof.
  intros H. destruct (decide (k ∈ size_keys)) as [Hk|Hk].
  - apply size_key_ok in Hk as (? & ? & _). done.
  - by rewrite (wanted_other s k Hk) in H.
Qed.

(** ... and all of them *)
Lemma size_lines_spec ls : forall s s' ls', sizes_ok s -> size_lines s ls = (s', ls') ->
  (forall k, key_plain k -> block_value k ls' = match block_value k ls, wanted s k with
                                               | Some _, Some v => Some (dec v) | r, _ => r end)
  /\ (forall k, key_plain k -> wanted s' k = match block_value k ls with Some _ => None | None => wanted s k end)
  /\ (Forall body_line ls -> Forall body_line ls') /\ (Forall plain_text ls -> Forall plain_text ls')
  /\ (forall n, map (names n) ls' = map (names n) ls).
Proof.
  induction ls as [|l ls IH]; intros s s' ls' Hs; cbn [size_lines].
  { intros H. injection H as <- <-. by split_and!. }
  destruct (size_one s l) as [s1 l1] eqn:E1. apply size_one_spec in E1; [|done].
  destruct (size_lines s1 ls) as [s2 ls2] eqn:E2. intros H. injection H as <- <-.
  pose proof (sizes_ok_step _ _ _ _ Hs E1 (wanted_plain s1)) as Hs1.
  destruct (IH _ _ _ Hs1 E2) as (Hv & Hw & Hb & Hp & Hn). destruct E1 as [Rv Rw Rb Rp Rn].
  split_and!.
  - intros k Hk. cbn [block_value]. rewrite Rv, Hv, Rw by done.
    destruct (value_of k l); [by destruct (wanted s k)|done].
  - intros k Hk. cbn [block_value]. rewrite Hw, Rw by done.
    destruct (value_of k l); [by destruct (block_value k ls)|done].
  - intros [? ?]%list.Forall_cons. constructor; auto.
  - intros [? ?]%list.Forall_cons. constructor; auto.
  - intros n. cbn [map]. by rewrite Rn, Hn.
Qed.

Lemma block_value_app k l1 l2 :
  block_value k (l1 ++ l2) = match block_value k l1 with Some v => Some v | None => block_value k l2 end.
Proof. induction l1 as [|l l1 IH]; [done|]. cbn. by destruct (value_of k l). Qed.

(** a line added under the header *)
Definition added (key : string) (v : Z) : string := "    " +:+ key +:+ ": " +:+ dec v.

Lemma added_trim key v : key ∈ size_keys ->
  trim_start (added key v) = key +:+ ":" +:+ " " +:+ dec v +:+ rest_trailing_comment "".
Proof.
  intros (_ & Hne & _ & _ & Hsp)%size_key_ok. unfold added.
  rewrite (line_of_key [" "; " "; " "; " "]%char key (": " +:+ dec v)); [|by repeat constructor|done|done|done].
  by rewrite app_nil_string.
Qed.

Lemma added_spec key v : key ∈ size_keys -> 0 <= v ->
  (forall k, key_plain k -> value_of k (added key v) = if bool_decide (k = key) then Some (dec v) else None)
  /\ body_line (added key v) /\ plain_text (added key v) /\ forall n, names n (added key v) = false.
Proof.
  intros Hk Hv. pose proof (added_trim key v Hk) as Et.
  destruct (size_key_ok key Hk) as (Hc & Hne & Hn & Hp & _). split_and!.
  - intros k [_ Hkc]. case_bool_decide as Hd.
    + subst k. by eapply value_of_here.
    + by apply (value_other key k _ Hc Hkc ltac:(done) _ Et).
  - right. apply starts_with_spec. by exists (" " +:+ key +:+ ": " +:+ dec v).
  - unfold added. rewrite !plain_app. split_and!; [done..|by apply plain_dec].
  - intros n. by apply (other_key_unnamed key _ _ n Hc Hn Et).
Qed.

Lemma missing_added s :
  missing s = opt_list (want_chrs s) (added "chrs") ++ opt_list (want_ram s) (added "ram")
              ++ opt_list (want_balloon s) (added "balloon_mb").
Proof. done. Qed.

Lemma opt_added key (w : option Z) : key ∈ size_keys -> (forall v, w = Some v -> 0 <= v) ->
  (forall k, key_plain k -> block_value k (opt_list w (added key)) = if bool_decide (k = key) then dec <$> w else None)
  /\ Forall body_line (opt_list w (added key)) /\ Forall plain_text (opt_list w (added key))
  /\ Forall (fun l => forall n, names n l = false) (opt_list w (added key)).
Proof.
  intros Hk Hw. destruct w as [v|]; cbn [opt_list fmap option_fmap option_map].
  - destruct (added_spec key v Hk (Hw v eq_refl)) as (Hv & Hb & Hp & Hn). split_and!; [|by constructor..].
    intros k Hkp. cbn [block_value]. rewrite Hv by done. by case_bool_decide.
  - split_and!; [|constructor..]. intros k _. by case_bool_decide.
Qed.

Lemma missing_spec s : sizes_ok s ->
  (forall k, key_plain k -> block_value k (missing s) = dec <$> wanted s k)
  /\ Forall body_line (missing s) /\ Forall plain_text (missing s) /\ Forall (fun l => forall n, names n l = false) (missing s).
Proof.
  intros Hs. rewrite missing_added.
  destruct (opt_added "chrs" (want_chrs s)) as (V1 & B1 & P1 & N1); [by repeat constructor|apply (Hs "chrs")|].
  destruct (opt_added "ram" (want_ram s)) as (V2 & B2 & P2 & N2); [by repeat constructor|apply (Hs "ram")|].
  destruct (opt_added "balloon_mb" (want_balloon s)) as (V3 & B3 & P3 & N3); [by repeat constructor|apply (Hs "balloon_mb")|].
  split_and!; [|by repeat (apply Forall_app; split)..].
  intros k Hk. rewrite !block_value_app, V1, V2, V3 by done. unfold wanted.
  destruct (decide (k = "ram")) as [->|Hr]; [by destruct (want_ram s)|].
  rewrite (bool_decide_false (k = "ram")) by done.
  destruct (decide (k = "chrs")) as [->|Hc]; [by destruct (want_chrs s)|].
  rewrite !(bool_decide_false (k = "chrs")) by done.
  destruct (decide (k = "balloon_mb")) as [->|Hb]; [by destruct (want_balloon s)|].
  by rewrite !(bool_decide_false (k = "balloon_mb")) by done.
Qed.

(** *** Blocks in the middle of a file *)
Lemma block_parts {A} (pre : list A) hdr body post :
  take (length pre) (pre ++ hdr :: body ++ post) = pre
  /\ take (S (length pre)) (pre ++ hdr :: body ++ post) = pre ++ [hdr]
  /\ drop (S (length pre) + length body) (pre ++ hdr :: body ++ post) = post
  /\ drop (length pre) (take (S (length pre) + length body) (pre ++ hdr :: body ++ post)) = hdr :: body
  /\ drop (S (length pre)) (take (S (length pre) + length body) (pre ++ hdr :: body ++ post)) = body.
Proof.
  assert (E : pre ++ hdr :: body ++ post = (pre ++ hdr :: body) ++ post) by (by rewrite <- app_assoc).
  assert (E2 : pre ++ hdr :: body = (pre ++ [hdr]) ++ body) by (by rewrite <- app_assoc).
  assert (L : (S (length pre) + length body)%nat = length (pre ++ hdr :: body)) by (rewrite length_app; cbn; lia).
  assert (L2 : S (length pre) = length (pre ++ [hdr])) by (rewrite length_app; cbn; lia).
  split_and!.
  - apply take_app_length.
  - rewrite E, E2, <- app_assoc, L2. apply take_app_length.
  - rewrite E, L. apply drop_app_length.
  - rewrite E, L, take_app_length. apply drop_app_length.
  - rewrite E, L, take_app_length, E2, L2. apply drop_app_length.
Qed.

Lemma service_plain content n pre hdr body post : char_in CR content = false ->
  service (lines content) n pre hdr body post ->
  Forall plain_text pre /\ plain_text hdr /\ Forall plain_text body /\ Forall plain_text post.
Proof.
  intros Hc [E _ _ _ _ _]. pose proof (lines_plain content Hc) as H. rewrite E in H.
  apply Forall_app in H as [? H]. apply list.Forall_cons in H as [? H]. by apply Forall_app in H as [? ?].
Qed.

(** the service with another body *)
Lemma service_body ls n pre hdr body post body' : service ls n pre hdr body post ->
  Forall body_line body' -> Exists (fun l => names n l = true) body' ->
  service (pre ++ hdr :: body' ++ post) n pre hdr body' post.
Proof. by intros [_ Hh _ He Hf _] Hb Hn. Qed.

Lemma names_exists n ls ls' : map (names n) ls' = map (names n) ls ->
  Exists (fun l => names n l = true) ls -> Exists (fun l => names n l = true) ls'.
Proof.
  revert ls'. induction ls as [|l ls IH]; intros [|l' ls']; [done|done|done|]. cbn. intros [= E1 E2] H.
  apply List.Exists_cons in H as [H|H]; [left; congruence|right; by apply IH].
Qed.

Lemma text_service_lines pre hdr body post : Forall plain_text pre -> plain_text hdr -> Forall plain_text body ->
  Forall plain_text post -> lines (text_of (pre ++ hdr :: body ++ post)) = pre ++ hdr :: body ++ post.
Proof.
  intros ? ? ? ?. apply lines_text_of; [by destruct pre|].
  apply Forall_app. split; [done|]. constructor; [done|]. by apply Forall_app.
Qed.

(** Resizing reads back: when the file names the service, the request is written; the
    new file has the same lines before and after the service and its header, each size
    requested reads back as the number written, and every other key of the service has
    the value it had. *)
Theorem resize_read_back content n s pre hdr body post :
  char_in CR content = false -> service (lines content) n pre hdr body post ->
  sizes_ok s -> (exists k, wanted s k <> None) ->
  exists new body', patch_compose_block_resources (Some content) n s = inr (Some new)
    /\ service (lines new) n pre hdr body' post
    /\ forall k, key_plain k ->
         block_value k body' = match wanted s k with Some v => Some (dec v) | None => block_value k body end.
Proof.
  intros Hc Hsv Hs [k0 Hk0].
  destruct (service_plain _ _ _ _ _ _ Hc Hsv) as (Ppre & Phdr & Pbody & Ppost).
  unfold patch_compose_block_resources.
  assert (E0 : is_none (want_ram s) && is_none (want_chrs s) && is_none (want_balloon s) = false).
  { unfold wanted in Hk0. destruct (want_ram s), (want_chrs s), (want_balloon s); try done.
    by repeat case_bool_decide. }
  rewrite E0, (locate_service _ _ _ _ _ _ Hsv). rewrite (sv_lines _ _ _ _ _ _ Hsv).
  destruct (block_parts pre hdr body post) as (_ & -> & -> & _ & ->).
  destruct (size_lines s body) as [rest body1] eqn:E1.
  destruct (size_lines_spec body s rest body1 Hs E1) as (Hv & Hw & Hb & Hp & Hn).
  assert (Hrest : sizes_ok rest).
  { intros k v Hk. assert (Hkp : key_plain k) by (apply (wanted_plain rest); by rewrite Hk).
    rewrite Hw in Hk by done. destruct (block_value k body); [done|]. by apply (Hs k). }
  destruct (missing_spec rest Hrest) as (Mv & Mb & Mp & _).
  exists (text_of (pre ++ hdr :: (missing rest ++ body1) ++ post)), (missing rest ++ body1). split_and!.
  - by rewrite <- !app_assoc.
  - rewrite text_service_lines; [|done|done|apply Forall_app; auto|done].
    apply (service_body _ _ _ _ _ _ _ Hsv); [apply Forall_app; split; [done|]; apply Hb, Hsv|].
    apply Exists_app. right. eapply names_exists; [apply Hn|apply Hsv].
  - intros k Hk. rewrite block_value_app, Mv, Hw, Hv by done.
    destruct (block_value k body), (wanted s k); done.
Qed.

(** ** Removing *)
Lemma remove_service content n pre hdr body post : service (lines content) n pre hdr body post ->
  remove_compose_block (Some content) n = Some (text_of (pre ++ post)).
Proof.
  intros Hsv. unfold remove_compose_block. cbn [mbind option_bind].
  rewrite (locate_service _ _ _ _ _ _ Hsv). cbn [mbind option_bind]. rewrite (sv_lines _ _ _ _ _ _ Hsv).
  by destruct (block_parts pre hdr body post) as (-> & _ & -> & _).
Qed.

(** Removing a service removes its header and body, and nothing else; a service that is
    not named leaves the file alone. *)
Theorem remove_exactly content n :
  (locate (lines content) n = None -> remove_compose_block (Some content) n = None)
  /\ forall pre hdr body post, service (lines content) n pre hdr body post ->
       remove_compose_block (Some content) n = Some (text_of (pre ++ post)).
Proof.
  split; [|apply remove_service]. intros E. unfold remove_compose_block. cbn [mbind option_bind]. by rewrite E.
Qed.

(** ** Switching *)
Definition is_flag (l : string) : bool := starts_with "disabled:" (trim_start l).
Definition flag_text (d : bool) : string := if d then "true" else "false".

Lemma is_flag_key l : is_flag l = true <-> exists r, trim_start l = "disabled" +:+ ":" +:+ r.
Proof. apply (starts_key "disabled"). Qed.

Lemma is_flag_value l : is_flag l = false <-> value_of "disabled" l = None.
Proof. symmetry. apply (value_of_none "disabled"). Qed.

Lemma spaces_blank k : Forall (fun c => is_space c = true) (replicate k " "%char).
Proof. by apply Forall_replicate. Qed.

Lemma set_flag_other d l : is_flag l = false -> set_flag (flag_text d) l = l.
Proof. unfold set_flag, is_flag. by intros ->. Qed.

Lemma set_flag_line d l : is_flag l = true ->
  set_flag (flag_text d) l = spaces (indent_of l) +:+ "disabled: " +:+ flag_text d.
Proof. unfold set_flag, is_flag. by intros ->. Qed.

Lemma set_flag_trim d l : is_flag l = true ->
  trim_start (set_flag (flag_text d) l) = "disabled" +:+ ":" +:+ " " +:+ flag_text d.
Proof.
  intros Hl. rewrite set_flag_line by done. unfold spaces.
  by apply (line_of_key (replicate (indent_of l) " "%char) "disabled" (": " +:+ flag_text d));
    [apply spaces_blank|..].
Qed.

Lemma set_flag_flag d l : is_flag (set_flag (flag_text d) l) = is_flag l.
Proof.
  destruct (is_flag l) eqn:E; [|by rewrite set_flag_other]. apply is_flag_key. eexists. by apply set_flag_trim.
Qed.

Lemma indent_set_flag d l : is_flag l = true -> indent_of (set_flag (flag_text d) l) = indent_of l.
Proof.
  intros H. unfold indent_of at 1. rewrite set_flag_trim by done. rewrite set_flag_line by done.
  rewrite <- !length_list_ascii, !list_ascii_app, !length_app. unfold spaces.
  rewrite String.list_ascii_of_string_of_list_ascii, length_replicate. cbn. lia.
Qed.

(** switching twice is switching once *)
Lemma set_flag_idem d l : set_flag (flag_text d) (set_flag (flag_text d) l) = set_flag (flag_text d) l.
Proof.
  destruct (is_flag l) eqn:E; [|by rewrite (set_flag_other d l E), set_flag_other].
  rewrite (set_flag_line d (set_flag _ l)) by (by rewrite set_flag_flag). rewrite indent_set_flag by done.
  by rewrite set_flag_line.
Qed.

Lemma set_flag_value d l k : key_plain k ->
  value_of k (set_flag (flag_text d) l) = if bool_decide (k = "disabled") && is_flag l then Some (flag_text d) else value_of k l.
Proof.
  intros [_ Hk]. destruct (is_flag l) eqn:E; [|by rewrite andb_false_r, set_flag_other].
  pose proof (set_flag_trim d l E) as Et. apply is_flag_key in E as [r El].
  case_bool_decide as Hd; cbn [andb].
  - subst k. unfold value_of. rewrite Et. by destruct d.
  - by rewrite (value_other "disabled" k _ eq_refl Hk ltac:(done) _ Et), (value_other "disabled" k _ eq_refl Hk ltac:(done) _ El).
Qed.

Lemma set_flag_names d l n : names n (set_flag (flag_text d) l) = names n l.
Proof.
  destruct (is_flag l) eqn:E; [|by rewrite set_flag_other].
  rewrite (other_key_unnamed "disabled" _ _ n eq_refl ltac:(done) (set_flag_trim d l E)).
  apply is_flag_key in E as [r El]. by rewrite (other_key_unnamed "disabled" _ _ n eq_refl ltac:(done) El).
Qed.

Lemma set_flag_body d l : body_line l -> body_line (set_flag (flag_text d) l).
Proof.
  destruct (is_flag l) eqn:E; [|by rewrite set_flag_other]. intros Hb. right.
  apply is_flag_key in E as E'. destruct E' as [r El]. destruct (body_indent l Hb) as [Hi _]; [by rewrite El|].
  rewrite set_flag_line by done. apply starts_with_chars. unfold spaces.
  rewrite list_ascii_app, String.list_ascii_of_string_of_list_ascii, take_app_le by (rewrite length_replicate; cbn; lia).
  by rewrite take_replicate, Nat.min_l by (cbn; lia).
Qed.

Lemma set_flag_plain d l : plain_text l -> plain_text (set_flag (flag_text d) l).
Proof.
  destruct (is_flag l) eqn:E; [|by rewrite set_flag_other]. intros _. rewrite set_flag_line, !plain_app by done.
  split_and!; [|done|by destruct d]. apply plain_text_chars. unfold spaces.
  rewrite String.list_ascii_of_string_of_list_ascii. by apply Forall_replicate.
Qed.

Lemma set_flags_value d k body : key_plain k ->
  block_value k (map (set_flag (flag_text d)) body)
  = if bool_decide (k = "disabled") && existsb is_flag body then Some (flag_text d) else block_value k body.
Proof.
  intros Hk. induction body as [|l body IH]; [by rewrite andb_false_r|]. cbn [map block_value existsb].
  rewrite set_flag_value, IH by done. case_bool_decide as Hd; cbn [andb]; [|done]. subst k.
  destruct (is_flag l) eqn:E; [done|]. cbn [orb]. apply is_flag_value in E as ->. by destruct (existsb _ _).
Qed.

Lemma set_flags_none d body : existsb is_flag body = false -> map (set_flag (flag_text d)) body = body.
Proof.
  induction body as [|l body IH]; [done|]. cbn [existsb map]. intros [Hl Hb]%orb_false_iff. f_equal; [by apply set_flag_other|auto].
Qed.

Lemma flagged_value body : existsb is_flag body = match block_value "disabled" body with Some _ => true | None => false end.
Proof.
  induction body as [|l body IH]; [done|]. cbn [existsb block_value]. rewrite IH.
  destruct (is_flag l) eqn:E.
  - destruct (value_of "disabled" l) eqn:Ev; [done|]. apply is_flag_value in Ev. congruence.
  - by apply is_flag_value in E as ->.
Qed.

(** the body with the flag as asked *)
Definition new_flags (d : bool) (body : list string) : list string :=
  if negb (existsb is_flag body) && d then "    disabled: true" :: body else map (set_flag (flag_text d)) body.

Lemma insert_under_header {A} (pre : list A) hdr body post x :
  insert_at (S (length pre)) x (pre ++ hdr :: body ++ post) = pre ++ hdr :: (x :: body) ++ post.
Proof.
  unfold insert_at. replace (pre ++ hdr :: body ++ post) with ((pre ++ [hdr]) ++ body ++ post) by (by rewrite <- app_assoc).
  replace (S (length pre)) with (length (pre ++ [hdr])) by (rewrite length_app; cbn; lia).
  rewrite take_app_length, drop_app_length. by rewrite <- app_assoc.
Qed.

(** the call on a file that has the service *)
Lemma switch_eq content n d pre hdr body post : service (lines content) n pre hdr body post -> is_flag hdr = false ->
  set_compose_block_disabled (Some content) n d
  = inr (if bool_decide (new_flags d body = body) then None
         else Some (text_of (pre ++ hdr :: new_flags d body ++ post))).
Proof.
  intros Hsv Hh. unfold set_compose_block_disabled, new_flags. rewrite (locate_service _ _ _ _ _ _ Hsv).
  rewrite (sv_lines _ _ _ _ _ _ Hsv). destruct (block_parts pre hdr body post) as (-> & _ & -> & -> & _).
  fold (flag_text d). cbn zeta. change (fun l => starts_with "disabled:" (trim_start l)) with is_flag.
  cbn [existsb map]. rewrite Hh, set_flag_other by done. cbn [orb].
  destruct (negb (existsb is_flag body) && d) eqn:E.
  - apply andb_true_iff in E as [E%negb_true_iff _]. rewrite set_flags_none by done.
    rewrite bool_decide_false; [do 3 f_equal; apply insert_under_header|].
    intros Hl%(f_equal length). cbn in Hl. lia.
  - rewrite (bool_decide_ext (hdr :: _ = hdr :: body) (map (set_flag (flag_text d)) body = body)); [by case_bool_decide|].
    split; [by intros [= ->]|by intros ->].
Qed.

Lemma existsb_set_flag d body : existsb is_flag (map (set_flag (flag_text d)) body) = existsb is_flag body.
Proof. induction body as [|l body IH]; [done|]. cbn. by rewrite set_flag_flag, IH. Qed.

Lemma new_flags_idem d body : new_flags d (new_flags d body) = new_flags d body.
Proof.
  unfold new_flags at 2 3. destruct (negb (existsb is_flag body) && d) eqn:E; unfold new_flags.
  - apply andb_true_iff in E as [E%negb_true_iff ->]. cbn [existsb map]. change (is_flag "    disabled: true") with true.
    cbn [orb negb andb]. by rewrite set_flags_none.
  - rewrite existsb_set_flag, E, map_map. apply map_ext. intros l. apply set_flag_idem.
Qed.

Lemma new_flags_names d n body : Exists (fun l => names n l = true) body -> Exists (fun l => names n l = true) (new_flags d body).
Proof.
  intros H. unfold new_flags. destruct (_ && _); [by right|]. eapply names_exists; [|exact H].
  rewrite map_map. apply map_ext. intros l. apply set_flag_names.
Qed.

Lemma new_flags_forall (P : string -> Prop) d body : P "    disabled: true" ->
  (forall l, P l -> P (set_flag (flag_text d) l)) -> Forall P body -> Forall P (new_flags d body).
Proof.
  intros Ha Hs Hb. unfold new_flags. destruct (_ && _); [by constructor|].
  apply List.Forall_map. eapply List.Forall_impl; [|exact Hb]. exact Hs.
Qed.

Lemma new_flags_value d k body : key_plain k -> block_value k (new_flags d body) =
  if bool_decide (k = "disabled")
  then (if existsb is_flag body || d then Some (flag_text d) else None) else block_value k body.
Proof.
  intros Hk. unfold new_flags. destruct (negb (existsb is_flag body) && d) eqn:E.
  - apply andb_true_iff in E as [_ ->]. rewrite orb_true_r. cbn [block_value]. case_bool_decide as Hd; [by subst k|].
    destruct Hk as [_ Hk]. by rewrite (value_other "disabled" k " true").
  - rewrite set_flags_value by done. case_bool_decide as Hd; [|done]. subst k. cbn [andb].
    rewrite !flagged_value in *. by destruct (block_value "disabled" body), d.
Qed.

(** Switching a service on or off: the flag reads back as asked (a service without the flag
    that is switched on stays without it), every other key and the lines around the
    service stay, and asking again changes nothing. *)
Theorem switch_reads_back content n d pre hdr body post :
  char_in CR content = false -> service (lines content) n pre hdr body post -> is_flag hdr = false ->
  exists r new body', set_compose_block_disabled (Some content) n d = inr r /\ new = default content r
    /\ service (lines new) n pre hdr body' post
    /\ (forall k, key_plain k -> block_value k body' =
          if bool_decide (k = "disabled")
          then (if existsb is_flag body || d then Some (flag_text d) else None) else block_value k body)
    /\ set_compose_block_disabled (Some new) n d = inr None.
Proof.
  intros Hc Hsv Hh. destruct (service_plain _ _ _ _ _ _ Hc Hsv) as (Ppre & Phdr & Pbody & Ppost).
  rewrite (switch_eq _ _ _ _ _ _ _ Hsv Hh). do 2 eexists. exists (new_flags d body).
  assert (Hs' : service (lines (default content (if bool_decide (new_flags d body = body) then None
      else Some (text_of (pre ++ hdr :: new_flags d body ++ post))))) n pre hdr (new_flags d body) post).
  { case_bool_decide as Hd; cbn [default from_option id]; [by rewrite Hd|].
    rewrite text_service_lines; [|done|done|apply new_flags_forall; [done|apply set_flag_plain|done]|done].
    apply (service_body _ _ _ _ _ _ _ Hsv); [|by apply new_flags_names, Hsv].
    apply new_flags_forall; [by right|apply set_flag_body|apply Hsv]. }
  split_and!; [done|done|exact Hs'|intros k; apply new_flags_value|].
  by rewrite (switch_eq _ _ _ _ _ _ _ Hs' Hh), new_flags_idem, bool_decide_true.
Qed.

(** ** A compose file *)
Module BlocksExample.
Definition template_body : list string :=
  ["    nkr_name: " +:+ quote "c18-template"; "    id: 7"; "    ram: 512  # MB"; "    balloon_idle_mb: 64";
   "    disabled: true"; "    environment:"; "      DB_HOST: 10.0.0.2"; "    shares:";
   "      - /mnt/nkr/cells/c18/addons:/mnt/extra-addons"; ""].
Definition rest_of_file : list string :=
  ["  db:"; "    nkr_name: " +:+ quote "c18-db"; "    ram: 1024"].
Definition file : list string := "services:" :: "  template:" :: template_body ++ rest_of_file.
Definition content : string := text_of file.

Lemma template_service : service (lines content) "c18-template" ["services:"] "  template:" template_body rest_of_file.
Proof. constructor; try (by vm_compute); by repeat constructor. Qed.

(** a service whose short name starts with a dash *)
Definition dashed : list string :=
  ["services:"; "  first:"; "    nkr_name: " +:+ quote "c18-first"; "  -x:"; "    nkr_name: " +:+ quote "c18--x"].
(** a comment inside a service that ends in a colon *)
Definition commented : list string :=
  ["services:"; "  first:"; "    ram: 512"; "  # limits:"; "    nkr_name: " +:+ quote "c18-first"].
(** a service whose short name is a key *)
Definition flag_name : list string := ["services:"; "  disabled:"; "    nkr_name: " +:+ quote "c18-disabled"].
End BlocksExample.

Theorem resize_read_back_witness :
  exists new body', patch_compose_block_resources (Some BlocksExample.content) "c18-template"
      (mkSizes (Some 2048) (Some 200) None) = inr (Some new)
    /\ service (lines new) "c18-template" ["services:"] "  template:" body' BlocksExample.rest_of_file
    /\ forall k, key_plain k -> block_value k body' =
         match wanted (mkSizes (Some 2048) (Some 200) None) k with
         | Some v => Some (dec v) | None => block_value k BlocksExample.template_body end.
Proof.
  apply (resize_read_back BlocksExample.content "c18-template" (mkSizes (Some 2048) (Some 200) None) ["services:"] "  template:").
  - by vm_compute.
  - apply BlocksExample.template_service.
  - intros k v. unfold wanted. cbn. repeat case_bool_decide; intros Hv; by simplify_eq.
  - by exists "ram".
Defined.

Theorem switch_reads_back_witness :
  exists r new body', set_compose_block_disabled (Some BlocksExample.content) "c18-template" false = inr r
    /\ new = default BlocksExample.content r
    /\ service (lines new) "c18-template" ["services:"] "  template:" body' BlocksExample.rest_of_file
    /\ (forall k, key_plain k -> block_value k body' =
          if bool_decide (k = "disabled")
          then (if existsb is_flag BlocksExample.template_body || false then Some (flag_text false) else None)
          else block_value k BlocksExample.template_body)
    /\ set_compose_block_disabled (Some new) "c18-template" false = inr None.
Proof.
  apply (switch_reads_back BlocksExample.content "c18-template" false ["services:"] "  template:").
  - by vm_compute.
  - apply BlocksExample.template_service.
  - by vm_compute.
Defined.

Theorem remove_exactly_witness :
  remove_compose_block (Some BlocksExample.content) "c18-other" = None
  /\ remove_compose_block (Some BlocksExample.content) "c18-template"
     = Some (text_of ("services:" :: BlocksExample.rest_of_file)).
Proof.
  split.
  - apply (proj1 (remove_exactly BlocksExample.content "c18-other")). by vm_compute.
  - apply (proj2 (remove_exactly BlocksExample.content "c18-template") ["services:"] "  template:" BlocksExample.template_body).
    apply BlocksExample.template_service.
Defined.

(** ** Names that break the block *)
(** A short name that starts with a dash makes a line that is a header forwards and not
    backwards: removing the service removes the one before it as well. *)
Example dash_removes_neighbour :
  is_safe_identifier "c18--x" = true
  /\ remove_compose_block (Some (text_of BlocksExample.dashed)) "c18--x" = Some (text_of ["services:"]).
Proof. by vm_compute. Qed.

(** A comment that ends in a colon is a header backwards: the lines of the service above it stay. *)
Example comment_keeps_header :
  remove_compose_block (Some (text_of BlocksExample.commented)) "c18-first"
  = Some (text_of ["services:"; "  first:"; "    ram: 512"]).
Proof. by vm_compute. Qed.

(** Switching a service whose short name is [disabled] rewrites its header, and the
    service is not found again. *)
Example flag_name_lost :
  set_compose_block_disabled (Some (text_of BlocksExample.flag_name)) "c18-disabled" true
  = inr (Some (text_of ["services:"; "  disabled: true"; "    nkr_name: " +:+ quote "c18-disabled"]))
  /\ remove_compose_block (Some (text_of ["services:"; "  disabled: true"; "    nkr_name: " +:+ quote "c18-disabled"]))
       "c18-disabled" = None.
Proof. by vm_compute. Qed.
