(* ===== verification/Clone.v ===== *)
(** * The service that a clone gets (src/cell.rs)

    What [Blocks.append_compose_block] writes: the file it leaves names the new service,
    after every line it had; the sizes, the flags and the id of the new service are those
    of the request; and removing it gives the old lines back. *)
From S2P Require Import Prelude Text Http Watchdog Conf Blocks.
#[local] Notation chars := String.list_ascii_of_string.

(** ** Replacing *)
Lemma replace_in_skip fuel src dst w t : Forall (fun c => is_space c = true) w ->
  match chars src with c :: _ => is_space c = false | [] => False end -> (length w <= fuel)%nat ->
  replace_in fuel src dst (String.string_of_list_ascii w +:+ t)
  = String.string_of_list_ascii w +:+ replace_in (fuel - length w) src dst t.
Proof.
  intros Hw Hs. revert fuel. induction Hw as [|c w Hc _ IH]; intros fuel Hf; cbn [length String.string_of_list_ascii].
  - by rewrite Nat.sub_0_r.
  - destruct fuel as [|fuel]; [cbn in Hf; lia|]. rewrite !append_cons. cbn [replace_in].
    destruct src as [|a src]; [done|]. cbn [chars] in Hs. rewrite strip_prefix_cons.
    destruct (Ascii.eqb_spec a c) as [->|_]; [congruence|]. rewrite IH by (cbn in Hf; lia). done.
Qed.

(** a text in which nothing starts [src] *)
Definition free_of (src p rest : string) : Prop :=
  forall a b, p = a +:+ b -> b <> "" -> strip_prefix src (b +:+ rest) = None.

Lemma replace_in_free fuel src dst p rest : free_of src p rest -> (String.length p <= fuel)%nat ->
  replace_in fuel src dst (p +:+ rest) = p +:+ replace_in (fuel - String.length p) src dst rest.
Proof.
  revert fuel. induction p as [|c p IH]; intros fuel Hp Hf; [cbn; by rewrite Nat.sub_0_r|].
  destruct fuel as [|fuel]; [cbn in Hf; lia|]. rewrite append_cons. cbn [replace_in String.length].
  rewrite <- append_cons, (Hp "" (String c p)) by done. rewrite append_cons, IH.
  - done.
  - intros a b -> Hb. by apply (Hp (String c a) b).
  - cbn in Hf. lia.
Qed.

Lemma replace_in_nil fuel src dst : src <> "" -> replace_in fuel src dst "" = "".
Proof. intros H. destruct fuel; [done|]. cbn. by destruct src. Qed.

Lemma replace_in_plain fuel src dst s : plain_text s -> plain_text dst -> plain_text (replace_in fuel src dst s).
Proof.
  intros Hs Hd. revert s Hs. induction fuel as [|fuel IH]; intros s Hs; [done|]. cbn [replace_in].
  destruct (strip_prefix src s) as [r|] eqn:E.
  - apply strip_prefix_some in E as ->. apply plain_app in Hs as [_ Hr]. apply plain_app. auto.
  - destruct s as [|c s]; [done|]. change (String c ?x) with (String c "" +:+ x) in Hs |- *.
    apply plain_app in Hs as [Hc Hs]. apply plain_app. auto.
Qed.

(** ** Names *)
(** names as the API accepts them *)
Definition name_ok (n : string) : Prop := key_ok n.

Lemma safe_name n : is_safe_identifier n = true -> name_ok n.
Proof.
  intros [[H _]%andb_true_iff Ha]%andb_true_iff. split; [|done]. intros ->. done.
Qed.

Lemma name_char n c : name_ok n -> char_in c n = true -> id_char c = true.
Proof. intros [_ H]. by apply all_chars_spec. Qed.

Lemma name_without n c : name_ok n -> id_char c = false -> char_in c n = false.
Proof. intros Hn Hc. apply not_true_iff_false. intros H%name_char; [congruence|done]. Qed.

Lemma name_head n : name_ok n -> match chars n with c :: _ => is_space c = false | [] => False end.
Proof.
  intros (c & k & -> & Hc & _)%key_cons. cbn. by apply id_char_not in Hc as [? _].
Qed.

Lemma name_plain n : name_ok n -> plain_text n.
Proof. intros H. split; by apply name_without. Qed.

Lemma drop_char_not c l : match l with x :: _ => x <> c | [] => True end -> drop_char c l = l.
Proof. destruct l as [|x l]; [done|]. cbn. intros H. by destruct (Ascii.eqb_spec x c). Qed.

Lemma drop_char_plain c n : char_in c n = false -> drop_char c (chars n) = chars n /\ drop_char c (reverse (chars n)) = reverse (chars n).
Proof.
  intros H. assert (Hf : Forall (fun x => x <> c) (chars n)).
  { induction n as [|x n IH]; [constructor|]. rewrite char_in_cons in H. apply orb_false_iff in H as [Hx%Ascii.eqb_neq Hn].
    constructor; [congruence|auto]. }
  split; apply drop_char_not; [by destruct Hf|]. apply Forall_reverse in Hf. by destruct Hf.
Qed.

Lemma trim_matches_plain c n : char_in c n = false -> trim_matches c n = n.
Proof.
  intros H. destruct (drop_char_plain c n H) as [H1 H2]. unfold trim_matches.
  by rewrite H1, H2, reverse_involutive, String.string_of_list_ascii_of_string.
Qed.

Lemma trim_matches_quote n : char_in DQ n = false -> trim_matches DQ (quote n) = n.
Proof.
  intros H. destruct (drop_char_plain DQ n H) as [H1 H2]. unfold trim_matches, quote. cbn [chars drop_char].
  rewrite Ascii.eqb_refl, list_ascii_app. cbn [chars].
  replace (drop_char DQ (chars n ++ [DQ])) with (if bool_decide (n = "") then [] else chars n ++ [DQ]).
  2:{ case_bool_decide as E; [by subst n|]. destruct n as [|x n]; [done|]. cbn in H1 |- *.
      destruct (Ascii.eqb_spec x DQ) as [->|]; [|done]. by rewrite char_in_cons, Ascii.eqb_refl in H. }
  case_bool_decide as E; [by subst n|]. rewrite reverse_snoc. cbn [drop_char]. rewrite Ascii.eqb_refl, H2, reverse_involutive.
  apply String.string_of_list_ascii_of_string.
Qed.

(** *** The line that names the service *)
Definition name_line (n : string) : string := "    nkr_name: " +:+ quote n.

Lemma name_line_trim n : trim_start (name_line n) = "nkr_name" +:+ ":" +:+ " " +:+ quote n.
Proof. by apply (line_of_key [" "; " "; " "; " "]%char "nkr_name" (": " +:+ quote n)); [repeat constructor|..]. Qed.

Lemma quote_split n : quote n = (String DQ n) +:+ String DQ "".
Proof. unfold quote. by rewrite append_cons. Qed.

Lemma names_line n : name_ok n -> names n (name_line n) = true.
Proof.
  intros Hn. unfold names. rewrite trim_both, name_line_trim.
  replace (trim_end ("nkr_name" +:+ ":" +:+ " " +:+ quote n)) with ("nkr_name:" +:+ " " +:+ quote n).
  2:{ rewrite quote_split. change ("nkr_name" +:+ ":" +:+ " " +:+ String DQ n +:+ String DQ "")
        with (("nkr_name: " +:+ String DQ n) +:+ String DQ "").
      by rewrite trim_end_id. }
  apply andb_true_iff. split; [apply starts_with_spec; by eexists|].
  change (String.length ("nkr_name:" +:+ ?x)) with (S (8 + String.length x)). cbn [trim_start_matches].
  rewrite strip_prefix_app, trim_start_not by done.
  assert (E : trim (" " +:+ quote n) = quote n).
  { rewrite trim_both. change (trim_start (" " +:+ quote n)) with (trim_start (quote n)).
    replace (trim_start (quote n)) with (quote n); [rewrite quote_split; by apply trim_end_id|].
    apply list_ascii_inj. by rewrite chars_trim_start. }
  rewrite E, trim_matches_quote by (by apply name_without).
  rewrite trim_matches_plain by (by apply name_without). by apply bool_decide_eq_true.
Qed.

Lemma name_strip_head n c s : name_ok n -> id_char c = false -> strip_prefix n (String c s) = None.
Proof.
  intros (x & k & -> & Hx & _)%key_cons Hc. rewrite strip_prefix_cons. destruct (Ascii.eqb_spec x c); [congruence|done].
Qed.

(** [src] starts nowhere in the text before the name *)
Lemma name_line_free src rest : name_ok src -> contains src "nkr_name" = false ->
  free_of src ("    nkr_name: " +:+ String DQ "") rest.
Proof.
  intros Hn Hc.
  assert (Hs : forall a b r, "nkr_name" = a +:+ b -> strip_prefix src (b +:+ String ":" r) = None).
  { intros a b r E. destruct (strip_prefix _ _) as [x|] eqn:Ex; [|done]. exfalso.
    apply strip_prefix_until in Ex as [r' ->]; [|by apply name_without]. rewrite E, contains_intro in Hc. done. }
  intros a b E Hb.
  do 4 (destruct a as [|? a]; [change ("" +:+ ?s) with s in E; subst b; by apply name_strip_head|];
        rewrite append_cons in E; injection E as <- E).
  do 8 (destruct a as [|? a];
        [change ("" +:+ ?s) with s in E; subst b;
         first [by apply (Hs "" "nkr_name")|by apply (Hs "n" "kr_name")|by apply (Hs "nk" "r_name")|by apply (Hs "nkr" "_name")
               |by apply (Hs "nkr_" "name")|by apply (Hs "nkr_n" "ame")|by apply (Hs "nkr_na" "me")|by apply (Hs "nkr_nam" "e")]|];
        rewrite append_cons in E; injection E as <- E).
  do 3 (destruct a as [|? a]; [change ("" +:+ ?s) with s in E; subst b; by apply name_strip_head|];
        try (rewrite append_cons in E; injection E as <- E)).
  by destruct a, b.
Qed.

Lemma replace_name_line src dst : name_ok src -> contains src "nkr_name" = false ->
  replace src dst (name_line src) = name_line dst.
Proof.
  intros Hn Hc. assert (Hne : src <> "") by apply Hn. unfold replace. rewrite bool_decide_false by done.
  assert (E : forall n, name_line n = ("    nkr_name: " +:+ String DQ "") +:+ n +:+ String DQ "").
  { intros n. unfold name_line, quote. by rewrite string_app_assoc. }
  rewrite (E src), (E dst). set (p := "    nkr_name: " +:+ String DQ "").
  assert (Hl : (S (String.length (p +:+ src +:+ String DQ "")) = String.length p + S (S (String.length src)))%nat).
  { rewrite <- !length_list_ascii, !list_ascii_app, !length_app. cbn. lia. }
  rewrite Hl, replace_in_free; [|by apply name_line_free|lia]. f_equal.
  replace (String.length p + S (S (String.length src)) - String.length p)%nat with (S (S (String.length src))) by lia.
  cbn [replace_in]. rewrite strip_prefix_app. f_equal. rewrite name_strip_head by done.
  f_equal. by apply replace_in_nil.
Qed.

Lemma replace_blank src dst l : name_ok src ->
  exists w t, l = String.string_of_list_ascii w +:+ t /\ Forall (fun c => is_space c = true) w /\ t = trim_start l
  /\ exists t', replace src dst l = String.string_of_list_ascii w +:+ t' /\ (t = "" -> t' = "").
Proof.
  intros Hn. destruct (line_split l) as (w & E & Hw & _). exists w, (trim_start l).
  assert (El : l = String.string_of_list_ascii w +:+ trim_start l).
  { apply list_ascii_inj. by rewrite list_ascii_app, String.list_ascii_of_string_of_list_ascii. }
  split_and!; [done..|]. unfold replace. rewrite bool_decide_false by apply Hn.
  pose proof (replace_in_skip (S (String.length l)) src dst w (trim_start l) Hw (name_head _ Hn)) as Er.
  rewrite <- El in Er. rewrite Er.
  - eexists. split; [done|]. intros ->. by apply replace_in_nil, Hn.
  - rewrite <- length_list_ascii, E, length_app. lia.
Qed.

(** a line keeps its indentation *)
Lemma body_line_app w t t' : Forall (fun c => is_space c = true) w ->
  match chars t with c :: _ => is_space c = false | [] => False end ->
  body_line (String.string_of_list_ascii w +:+ t) -> body_line (String.string_of_list_ascii w +:+ t').
Proof.
  intros Hw Ht Hb. right. apply starts_with_chars. rewrite list_ascii_app, String.list_ascii_of_string_of_list_ascii.
  assert (Et : trim_start (String.string_of_list_ascii w +:+ t) = t).
  { apply list_ascii_inj. rewrite chars_trim_start, list_ascii_app, String.list_ascii_of_string_of_list_ascii.
    apply drop_spaces_app; [done|]. by destruct (chars t). }
  destruct (body_indent _ Hb) as [Hi H3]; [rewrite Et; by intros ->|].
  destruct (line_split (String.string_of_list_ascii w +:+ t)) as (w' & E & _ & Hw' & Hlen).
  rewrite Et, list_ascii_app, String.list_ascii_of_string_of_list_ascii in E. apply app_inv_tail in E as <-.
  rewrite Hw', Hlen in *. by apply prefix3.
Qed.

Lemma blank_line l : trim_start l = "" -> l = String.string_of_list_ascii (chars l) /\ Forall (fun c => is_space c = true) (chars l).
Proof.
  intros H. split; [by rewrite String.string_of_list_ascii_of_string|].
  destruct (line_split l) as (w & E & Hw & _). rewrite H, app_nil_r in E. by rewrite E.
Qed.

Lemma spaces_app w : spaces w = String.string_of_list_ascii (replicate w " "%char).
Proof. done. Qed.

Lemma blank_body l t : body_line l -> trim_start l <> "" -> body_line (spaces (indent_of l) +:+ t).
Proof.
  intros Hl Ht. destruct (body_indent l Hl Ht) as [Hi _]. right. apply starts_with_chars.
  rewrite spaces_app, list_ascii_app, String.list_ascii_of_string_of_list_ascii, take_app_le
    by (rewrite length_replicate; cbn; lia).
  by rewrite take_replicate, Nat.min_l by (cbn; lia).
Qed.

Lemma keep_indent l t : body_line l -> trim_start l <> "" ->
  body_line (String.string_of_list_ascii (take (indent_of l) (chars l)) +:+ t).
Proof.
  intros Hl Ht. destruct (line_split l) as (w & E & Hw & -> & _).
  eapply (body_line_app w (trim_start l)); [done| |].
  - pose proof (drop_spaces_head (chars l)) as Hh. rewrite <- chars_trim_start in Hh.
    destruct (chars (trim_start l)) eqn:Ec; [|done]. apply Ht. by apply list_ascii_inj.
  - replace (String.string_of_list_ascii w +:+ trim_start l) with l; [done|].
    apply list_ascii_inj. by rewrite list_ascii_app, String.list_ascii_of_string_of_list_ascii.
Qed.

Lemma replace_body src dst l : name_ok src -> body_line l -> body_line (replace src dst l).
Proof.
  intros Hn Hl. destruct (replace_blank src dst l Hn) as (w & t & El & Hw & Et & t' & Er & Ht').
  destruct (decide (trim_start l = "")) as [E|E].
  - rewrite Er, (Ht' ltac:(congruence)). by rewrite <- Et in E; rewrite E in El; rewrite <- El.
  - rewrite Er. subst l. eapply body_line_app; [done| |exact Hl].
    pose proof (drop_spaces_head (chars (String.string_of_list_ascii w +:+ t))) as Hh.
    rewrite <- chars_trim_start, <- Et in Hh. destruct (chars t) eqn:Ec; [|done].
    rewrite <- Et in E. apply E. by apply list_ascii_inj.
Qed.

Lemma replace_trim src dst l : name_ok src -> trim_start l = "" -> trim_start (replace src dst l) = "".
Proof.
  intros Hn Hl. destruct (replace_blank src dst l Hn) as (w & t & El & Hw & Et & t' & -> & Ht').
  rewrite (Ht' ltac:(congruence)), app_nil_string. apply list_ascii_inj.
  rewrite chars_trim_start, String.list_ascii_of_string_of_list_ascii, <- (app_nil_r w). by apply drop_spaces_app.
Qed.

Section Copied.
Context (o : copy_opts).
Notation src := (co_src o).
Notation dst := (co_dst o).

(** what the request sets for a key *)
Definition expected (k : string) : option string :=
  if bool_decide (k = "ram") then dec <$> co_ram o
  else if bool_decide (k = "chrs") then dec <$> co_chrs o
  else if bool_decide (k = "balloon_mb") then dec <$> co_balloon o
  else if bool_decide (k = "skip_warmup") then Some "true"
  else if bool_decide (k = "disabled") then Some (flag_text (start_disabled o))
  else if bool_decide (k = "id") then Some (dec (co_vm_id o))
  else None.
Definition reserved : list string := ["ram"; "chrs"; "balloon_mb"; "skip_warmup"; "disabled"; "id"].

(** requests as the API makes them *)
Record request_ok : Prop := {
  ro_src : name_ok src; ro_dst : name_ok dst;
  ro_src_key : contains src "nkr_name" = false;
  ro_short : name_ok (short_name (co_cell o) dst) /\ starts_with "-" (short_name (co_cell o) dst) = false
    /\ short_name (co_cell o) dst ∉ "environment" :: reserved;
  ro_env : Forall (fun kv => key_ok (fst kv) /\ fst kv ∉ reserved /\ plain_text (snd kv)) (extra_env o);
  ro_sizes : 0 <= co_vm_id o /\ forall v, Some v = co_ram o \/ Some v = co_chrs o \/ Some v = co_balloon o
    \/ Some v = co_idle o \/ Some v = co_decay o -> 0 <= v;
}.
Context (Hro : request_ok).

(** a line of the new service that agrees with the request *)
Record fit (l : string) : Prop := {
  ft_plain : plain_text l;
  ft_body : body_line l;
  ft_value : forall k x v, value_of k l = Some x -> expected k = Some v -> x = v;
}.

Lemma expected_reserved k v : expected k = Some v -> k ∈ reserved.
Proof.
  unfold expected, reserved. rewrite !elem_of_cons. repeat (case_bool_decide; [tauto|]). done.
Qed.

Lemma reserved_ok k : k ∈ reserved ->
  char_in ":" k = false /\ k <> "" /\ k <> "nkr_name" /\ plain_text k
  /\ match chars k with c :: _ => is_space c = false /\ c <> "-"%char | [] => True end.
Proof. unfold reserved. rewrite !elem_of_cons, elem_of_nil. by intros [->|[->|[->|[->|[->|[->|[]]]]]]]. Qed.

(** a line that gives no reserved key *)
Lemma fit_other l : plain_text l -> body_line l -> (forall k, k ∈ reserved -> value_of k l = None) -> fit l.
Proof.
  intros Hp Hb Hv. constructor; [done..|]. intros k x v Hx Hk%expected_reserved. rewrite Hv in Hx by done. done.
Qed.

(** a line that gives one *)
Lemma fit_key l k r x : k ∈ reserved -> plain_text l -> body_line l -> trim_start l = k +:+ ":" +:+ r ->
  value_of k l = Some x -> (forall v, expected k = Some v -> x = v) -> fit l.
Proof.
  intros Hk Hp Hb Et Hx He. constructor; [done..|]. intros k' x' v' Hx' He'.
  pose proof (expected_reserved _ _ He') as Hk'.
  destruct (decide (k = k')) as [<-|Hne]; [rewrite Hx in Hx'; simplify_eq; by apply He|].
  apply reserved_ok in Hk as (Hc & _), Hk' as (Hc' & _).
  by rewrite (value_other k k' r Hc Hc' Hne l Et) in Hx'.
Qed.

Lemma dash_value l t k : trim_start l = String "-" t -> k ∈ reserved -> value_of k l = None.
Proof.
  intros E (_ & Hne & _ & _ & Hh)%reserved_ok. unfold value_of. rewrite E. destruct k as [|c k]; [done|].
  destruct Hh as [_ Hh]. rewrite append_cons, strip_prefix_cons. by destruct (Ascii.eqb_spec c "-").
Qed.

Lemma id_nonneg : 0 <= co_vm_id o.
Proof. by destruct (ro_sizes Hro) as [? _]. Qed.

(** *** A line under the new names *)
Definition id_line (l : string) : Prop := exists r, trim_start l = "id" +:+ ":" +:+ r.
(** the change of name makes no key into [id] *)
Definition id_kept (l : string) : Prop := id_line l \/ value_of "id" (replace src dst l) = None.

Lemma renamed_cases l :
  (exists r, trim_start l = "id" +:+ ":" +:+ r
     /\ renamed o false l = String.string_of_list_ascii (take (indent_of l) (chars l)) +:+ "id: " +:+ dec (co_vm_id o) +:+ rest_trailing_comment r)
  \/ renamed o false l = replace src dst l /\ ~ id_line l.
Proof.
  unfold renamed. destruct (strip_prefix "id:" (trim_start l)) as [r|] eqn:E.
  - left. exists r. split; [|done]. by apply strip_prefix_some in E.
  - right. split; [done|]. intros [r Er]. rewrite Er in E.
    change ("id" +:+ ":" +:+ r) with ("id:" +:+ r) in E. by rewrite strip_prefix_app in E.
Qed.

Lemma renamed_id l r : trim_start l = "id" +:+ ":" +:+ r ->
  trim_start (renamed o false l) = "id" +:+ ":" +:+ " " +:+ dec (co_vm_id o) +:+ rest_trailing_comment r.
Proof.
  intros El. destruct (renamed_cases l) as [(r' & El' & ->)|[_ Hn]]; [|by destruct Hn; exists r].
  assert (r' = r) as ->.
  { rewrite El in El'. apply (f_equal (split_once ":")) in El'. rewrite !split_once_at in El' by done. by injection El'. }
  destruct (line_split l) as (w & _ & Hw & -> & _).
  by apply (line_of_key w "id" (": " +:+ dec (co_vm_id o) +:+ rest_trailing_comment r)).
Qed.

Lemma renamed_plain l : plain_text l -> plain_text (renamed o false l).
Proof.
  intros Hl. destruct (renamed_cases l) as [(r & El & ->)|[-> _]].
  - rewrite !plain_app. split_and!; [by apply plain_take|done|apply plain_dec, id_nonneg|]. apply plain_comment.
    apply plain_trim_start in Hl. rewrite El in Hl. by apply plain_app in Hl as [_ [_ ?]%plain_app].
  - unfold replace. rewrite bool_decide_false by apply Hro. apply replace_in_plain; [done|apply name_plain, Hro].
Qed.

Lemma renamed_body l : body_line l -> body_line (renamed o false l).
Proof.
  intros Hl. destruct (renamed_cases l) as [(r & El & ->)|[-> _]]; [|apply replace_body; [apply Hro|done]].
  apply keep_indent; [done|]. by rewrite El.
Qed.

Lemma renamed_blank l : trim_start l = "" -> trim_start (renamed o false l) = "".
Proof.
  intros Hl. destruct (renamed_cases l) as [(r & El & _)|[-> _]]; [by rewrite El in Hl|].
  apply replace_trim; [apply Hro|done].
Qed.

Lemma renamed_fit l : plain_text l -> body_line l -> id_kept l ->
  (forall k v, k <> "id" -> expected k = Some v -> value_of k (renamed o false l) = None) -> fit (renamed o false l).
Proof.
  intros Hp Hb Hid Hk. pose proof (renamed_plain l Hp) as Hp'. pose proof (renamed_body l Hb) as Hb'.
  destruct (renamed_cases l) as [(r & El & _)|[Er Hn]].
  - pose proof (renamed_id l r El) as Et. eapply (fit_key _ "id"); [by repeat constructor|done..|exact Et| |].
    + eapply value_of_here; [apply id_nonneg|exact Et].
    + intros v [= <-]. done.
  - constructor; [done..|]. intros k x v Hx He. destruct (decide (k = "id")) as [->|Hne].
    + destruct Hid as [|Hid]; [done|]. rewrite Er in Hx. congruence.
    + rewrite (Hk k v) in Hx by done. done.
Qed.

(** *** The lines written for a key *)
Lemma keyed_fit k v l r w : k ∈ reserved -> Forall (fun c => is_space c = true) w ->
  l = String.string_of_list_ascii w +:+ k +:+ ": " +:+ v +:+ rest_trailing_comment r ->
  plain_text l -> body_line l -> Forall (fun c => is_space c = false) (chars v) -> Forall (fun c => c <> "#"%char) (chars v) -> v <> "" ->
  (forall x, expected k = Some x -> v = x) -> fit l /\ value_of k l = Some v.
Proof.
  intros Hk Hw El Hp Hb Hs Hh Hne He. destruct (reserved_ok k Hk) as (_ & Hkne & _ & _ & Hkh).
  assert (Et : trim_start l = k +:+ ":" +:+ " " +:+ v +:+ rest_trailing_comment r).
  { apply (line_of_key w k (": " +:+ v +:+ rest_trailing_comment r)); [done..| |done]. by destruct (chars k); [|apply Hkh]. }
  assert (Hx : value_of k l = Some v) by (by eapply value_of_text).
  split; [|done]. by eapply fit_key.
Qed.

Lemma added_fit k v : k ∈ reserved -> 0 <= v -> (forall x, expected k = Some x -> dec v = x) ->
  fit (added k v) /\ value_of k (added k v) = Some (dec v).
Proof.
  intros Hk Hv He. destruct (dec_chars v Hv) as (Hs & Hh & Hne). destruct (reserved_ok k Hk) as (_ & _ & _ & Hp & _).
  eapply (keyed_fit k _ _ "" [" "; " "; " "; " "]%char); [done|by repeat constructor| | | |done..].
  - unfold added. by rewrite app_nil_string.
  - unfold added. rewrite !plain_app. split_and!; [done..|by apply plain_dec].
  - right. apply starts_with_spec. by exists (" " +:+ k +:+ ": " +:+ dec v).
Qed.

Lemma sized_fit k v l : k ∈ reserved -> 0 <= v -> plain_text l -> body_line l -> trim_start l <> "" ->
  (forall x, expected k = Some x -> dec v = x) -> fit (sized l k v) /\ value_of k (sized l k v) = Some (dec v).
Proof.
  intros Hk Hv Hp Hb Ht He. destruct (dec_chars v Hv) as (Hs & Hh & Hne). destruct (reserved_ok k Hk) as (_ & _ & _ & Hkp & _).
  eapply (keyed_fit k _ _ _ (replicate (indent_of l) " "%char)); [done|apply spaces_blank|reflexivity| | |done..].
  - unfold sized. rewrite !plain_app. split_and!; [|done|done|by apply plain_dec|apply plain_comment, plain_strip; by apply plain_trim_start].
    apply plain_text_chars. unfold spaces. rewrite String.list_ascii_of_string_of_list_ascii. by apply Forall_replicate.
  - by apply blank_body.
Qed.

Lemma flag_fit k v l : k ∈ reserved -> v = "true" \/ v = "false" -> body_line l -> trim_start l <> "" ->
  (forall x, expected k = Some x -> v = x) ->
  fit (spaces (indent_of l) +:+ k +:+ ": " +:+ v) /\ value_of k (spaces (indent_of l) +:+ k +:+ ": " +:+ v) = Some v.
Proof.
  intros Hk Hv Hb Ht He. destruct (reserved_ok k Hk) as (_ & _ & _ & Hkp & _).
  eapply (keyed_fit k v _ "" (replicate (indent_of l) " "%char)); [done|apply spaces_blank| | | | | | |done].
  - by rewrite app_nil_string.
  - rewrite !plain_app. split_and!; [|done|done|by destruct Hv as [-> | ->]].
    apply plain_text_chars. unfold spaces. rewrite String.list_ascii_of_string_of_list_ascii. by apply Forall_replicate.
  - by apply blank_body.
  - destruct Hv as [-> | ->]; by repeat constructor.
  - destruct Hv as [-> | ->]; by repeat constructor.
  - by destruct Hv as [-> | ->].
Qed.

(** the lines of the environment *)
Lemma env_fit n kv : (3 <= n)%nat -> kv ∈ extra_env o -> fit (env_line (spaces n) kv).
Proof.
  intros Hn Hkv. pose proof (proj1 (list.Forall_forall _ _) (ro_env Hro) kv Hkv) as (Hk & Hnr & Hv).
  destruct kv as [k v]. cbn [fst snd] in *. unfold env_line. cbn [fst snd].
  assert (Hkc : char_in ":" k = false) by (by apply name_without).
  assert (Et : trim_start (spaces n +:+ k +:+ ": " +:+ quote v) = k +:+ ":" +:+ " " +:+ quote v).
  { apply (line_of_key (replicate n " "%char) k (": " +:+ quote v)); [apply spaces_blank|apply Hk| |done].
    pose proof (name_head k Hk). by destruct (chars k). }
  apply fit_other.
  - rewrite !plain_app. split_and!; [|by apply name_plain|done|].
    + apply plain_text_chars. unfold spaces. rewrite String.list_ascii_of_string_of_list_ascii. by apply Forall_replicate.
    + rewrite quote_split. change (String DQ v) with (String DQ "" +:+ v). by rewrite !plain_app.
  - right. apply starts_with_chars. rewrite spaces_app, list_ascii_app, String.list_ascii_of_string_of_list_ascii, take_app_le
      by (rewrite length_replicate; cbn; lia).
    by rewrite take_replicate, Nat.min_l by (cbn; lia).
  - intros k' Hk'. eapply (value_other k k'); [done|by apply reserved_ok| |exact Et]. by intros ->.
Qed.

(** *** What the loop keeps *)
Definition has (k : string) (ls : list string) : Prop := Exists (fun l => value_of k l <> None) ls.
Definition header : string := "  " +:+ short_name (co_cell o) dst +:+ ":".

Record copied (st : copying) (rest : list string) : Prop := {
  cp_block : new_block st = "" :: header :: rest;
  cp_fit : Forall fit rest;
  cp_share : forall l, legacy_addons_share st = Some l -> fit l;
  cp_ram : has_ram st = true -> co_ram o <> None -> has "ram" rest;
  cp_chrs : has_chrs st = true -> co_chrs o <> None -> has "chrs" rest;
  cp_balloon : has_balloon st = true -> co_balloon o <> None -> has "balloon_mb" rest;
  cp_skip : has_skip_warmup st = true -> has "skip_warmup" rest;
}.

Lemma has_app k ls extra : has k ls -> has k (ls ++ extra).
Proof. intros H. apply Exists_app. by left. Qed.

Lemma copied_push st rest l : copied st rest -> fit l -> copied (push l st) (rest ++ [l]).
Proof.
  intros [Hb Hf Hs H1 H2 H3 H4] Hl. constructor; cbn; try done.
  - by rewrite Hb.
  - apply Forall_app. by split; [|constructor].
  - intros. apply has_app. auto.
  - intros. apply has_app. auto.
  - intros. apply has_app. auto.
  - intros. apply has_app. auto.
Qed.

(** a key is noted and its line is kept *)
Lemma copied_push_key (f : copying -> copying) k st rest l : copied st rest -> fit l -> value_of k l <> None ->
  f = (fun st => st <| has_ram := true |>) /\ k = "ram" \/ f = (fun st => st <| has_chrs := true |>) /\ k = "chrs"
  \/ f = (fun st => st <| has_balloon := true |>) /\ k = "balloon_mb"
  \/ f = (fun st => st <| has_skip_warmup := true |>) /\ k = "skip_warmup" ->
  copied (push l (f st)) (rest ++ [l]).
Proof.
  intros H Hl Hk Hf. pose proof (copied_push st rest l H Hl) as [Hb Hfit Hs H1 H2 H3 H4].
  assert (Hhas : has k (rest ++ [l])) by (apply Exists_app; right; by left).
  destruct Hf as [[-> ->]|[[-> ->]|[[-> ->]|[-> ->]]]]; by constructor.
Qed.

Lemma copied_note (b : bool) st rest : copied st rest ->
  copied (if b then st <| in_environment := false |> else st) rest
  /\ copied (if b then st <| in_healthcheck := false |> else st) rest.
Proof. intros [Hb Hf Hs H1 H2 H3 H4]. by destruct b. Qed.

Lemma copied_open st rest : copied st rest ->
  copied (st <| in_environment := true |>) rest /\ copied (st <| in_healthcheck := true |>) rest
  /\ copied (st <| has_env_section := true |>) rest.
Proof. intros [Hb Hf Hs H1 H2 H3 H4]. split_and!; by constructor. Qed.

Lemma copied_env st rest n kvs : copied st rest -> (3 <= n)%nat -> (forall kv, kv ∈ kvs -> kv ∈ extra_env o) ->
  copied (foldl (fun st kv => push (env_line (spaces n) kv) st) st kvs) (rest ++ map (env_line (spaces n)) kvs).
Proof.
  intros H Hn. revert st rest H. induction kvs as [|kv kvs IH]; intros st rest H Hk; [by rewrite app_nil_r|].
  cbn [foldl map]. rewrite (cons_middle _ rest), app_assoc. apply IH.
  - apply copied_push; [done|]. apply env_fit; [done|]. apply Hk. by left.
  - intros kv' H'. apply Hk. by right.
Qed.

(** a share of the old format *)
Lemma share_fit s : plain_text s -> body_line s -> starts_with "- " (trim_start s) = true -> fit (trim_end s +:+ ":rw").
Proof.
  intros Hp Hb [t Et]%starts_with_spec. change ("- " +:+ t) with (String "-" (" " +:+ t)) in Et.
  destruct (line_split s) as (w & E & Hw & _). rewrite Et in E. cbn [chars] in E.
  destruct (drop_spaces_stop (reverse (chars (" " +:+ t))) "-" (reverse w) eq_refl) as [l' El].
  assert (Ee : trim_end s = String.string_of_list_ascii w +:+ String "-" (String.string_of_list_ascii (reverse l'))).
  { apply list_ascii_inj. unfold trim_end. rewrite E, reverse_app, reverse_cons, <- app_assoc. cbn [app].
    rewrite El, list_ascii_app. cbn [chars]. rewrite !String.list_ascii_of_string_of_list_ascii.
    rewrite reverse_app, reverse_cons, reverse_involutive, <- app_assoc. done. }
  assert (Es : s = String.string_of_list_ascii w +:+ String "-" (" " +:+ t)).
  { apply list_ascii_inj. by rewrite E, (list_ascii_app (String.string_of_list_ascii w)), String.list_ascii_of_string_of_list_ascii. }
  apply fit_other.
  - apply plain_app. split; [|done]. destruct (trim_end_prefix s) as [p Ep]. rewrite Ep in Hp. by apply plain_app in Hp as [? _].
  - rewrite Ee, string_app_assoc. rewrite Es in Hb. by eapply body_line_app; [done| |exact Hb].
  - intros k Hk. apply (dash_value _ (String.string_of_list_ascii (reverse l') +:+ ":rw")); [|done].
    apply list_ascii_inj. rewrite chars_trim_start, Ee, string_app_assoc, list_ascii_app, String.list_ascii_of_string_of_list_ascii.
    by rewrite drop_spaces_app.
Qed.

Lemma fixed_fit l : plain_text l -> body_line l -> forallb (fun k => is_none (value_of k l)) reserved = true -> fit l.
Proof.
  intros Hp Hb Hv. apply fit_other; [done..|]. intros k Hk. rewrite forallb_forall in Hv.
  specialize (Hv k). apply list_elem_of_In in Hk. by destruct (value_of k l); [specialize (Hv Hk)|].
Qed.

(** the line is kept, whatever the section it is in *)
Definition kept (t : string) : bool := negb (starts_with "- " t) && negb (contains ":/mnt/extra-enterprise" t).

Lemma copied_nested line s st rest : copied st rest -> fit s ->
  exists extra, copied (copy_nested o line s (trim_start s) st) (rest ++ extra)
    /\ ((indent_of line <= 4)%nat -> kept (trim_start s) = true -> In s extra).
Proof.
  intros H Hs. unfold copy_nested. set (t := trim_start s). set (nested := (4 <? indent_of line)%nat).
  assert (Hn : (indent_of line <= 4)%nat -> nested = false) by (intros ?; apply Nat.ltb_ge; lia).
  assert (Hpush : forall st' l, copied st' rest -> fit l -> (nested = true \/ l = s) -> exists extra, copied (push l st') (rest ++ extra)
     /\ ((indent_of line <= 4)%nat -> kept t = true -> In s extra)).
  { intros st' l H' Hl Hor. exists [l]. split; [by apply copied_push|]. intros Hi _. apply Hn in Hi.
    destruct Hor as [?| ->]; [congruence|by left]. }
  destruct (in_environment st && nested && _) eqn:E0.
  { exists []. rewrite app_nil_r. split; [done|]. intros ?%Hn. apply andb_true_iff in E0 as [[_ ?]%andb_true_iff _]. congruence. }
  clear E0. pose proof (proj1 (copied_note (in_environment st && negb nested) st rest H)) as H1.
  revert H1. generalize (if in_environment st && negb nested then st <| in_environment := false |> else st) as st1.
  clear H st. intros st H.
  destruct (in_healthcheck st && nested && starts_with "initial_delay:" t) eqn:E1.
  { apply andb_true_iff in E1 as [[_ ?]%andb_true_iff _]. apply Hpush; [done|by apply fixed_fit; [|right|]|by left]. }
  destruct (in_healthcheck st && nested && starts_with "interval:" t) eqn:E2.
  { apply andb_true_iff in E2 as [[_ ?]%andb_true_iff _]. apply Hpush; [done|by apply fixed_fit; [|right|]|by left]. }
  destruct (in_healthcheck st && nested && starts_with "retries:" t) eqn:E3.
  { apply andb_true_iff in E3 as [[_ ?]%andb_true_iff _]. apply Hpush; [done|by apply fixed_fit; [|right|]|by left]. }
  pose proof (proj2 (copied_note (in_healthcheck st && negb nested) st rest H)) as H2.
  revert H2. generalize (if in_healthcheck st && negb nested then st <| in_healthcheck := false |> else st) as st2.
  clear E1 E2 E3 H st. intros st H.
  destruct (starts_with "healthcheck:" t) eqn:E4.
  { apply Hpush; [by apply copied_open|done|by right]. }
  destruct (starts_with "- " t && _ && _ && _) eqn:E5.
  { exists []. rewrite app_nil_r. split.
    - destruct H as [Hb Hf Hsh C1 C2 C3 C4]. constructor; try done. cbn. intros l [= <-].
      apply share_fit; [apply Hs|apply Hs|]. by apply andb_true_iff in E5 as [[[? _]%andb_true_iff _]%andb_true_iff _].
    - intros _ Hk. apply andb_true_iff in E5 as [[[Hd _]%andb_true_iff _]%andb_true_iff _].
      unfold kept in Hk. by rewrite Hd in Hk. }
  destruct (negb (include_enterprise o) && contains ":/mnt/extra-enterprise" t) eqn:E6.
  { exists []. rewrite app_nil_r. split; [done|]. intros _ Hk. apply andb_true_iff in E6 as [_ Hd].
    unfold kept in Hk. by rewrite Hd, andb_false_r in Hk. }
  apply Hpush; [done|done|by right].
Qed.

Lemma starts_value k l : starts_with (k +:+ ":") (trim_start l) = true <-> value_of k l <> None.
Proof.
  rewrite value_of_none. by destruct (starts_with _ _).
Qed.

(** the tests of the loop on the keys that it knows *)
Definition loop_keys : list string := ["ram"; "balloon_mb"; "chrs"; "skip_warmup"; "disabled"; "environment"].

(** the three sizes: the field that notes the key, and the number asked *)
Inductive size_key : (copying -> copying) -> string -> option Z -> Prop :=
  | key_ram : size_key (fun st => st <| has_ram := true |>) "ram" (co_ram o)
  | key_balloon : size_key (fun st => st <| has_balloon := true |>) "balloon_mb" (co_balloon o)
  | key_chrs : size_key (fun st => st <| has_chrs := true |>) "chrs" (co_chrs o).

Lemma size_key_facts f k want : size_key f k want ->
  k ∈ reserved /\ k ∈ loop_keys /\ expected k = dec <$> want /\ (forall v, want = Some v -> 0 <= v).
Proof.
  intros [| |]; (split_and!; [by repeat constructor|by repeat constructor|done|]);
    intros v Hv; apply (ro_sizes Hro); rewrite Hv; tauto.
Qed.

(** [s] is in the lines kept, unless the line is one that the loop knows *)
Definition keeps (line : string) (extra : list string) : Prop :=
  let s := renamed o false line in
  (indent_of line <= 4)%nat -> kept (trim_start s) = true -> (forall k, k ∈ loop_keys -> value_of k s = None) -> In s extra.
Definition steps (line : string) (st : copying) (rest : list string) : Prop :=
  exists extra, copied st (rest ++ extra) /\ keeps line extra.

Lemma keeps_key line k extra : k ∈ loop_keys -> starts_with (k +:+ ":") (trim_start (renamed o false line)) = true -> keeps line extra.
Proof. intros Hk Hs%starts_value _ _ Hn. by rewrite Hn in Hs. Qed.

Lemma keyed_line line k : starts_with (k +:+ ":") (trim_start (renamed o false line)) = true -> trim_start line <> "".
Proof. intros Hs E. rewrite (renamed_blank line E) in Hs. by destruct k. Qed.

Lemma copied_size f k want line next st rest : size_key f k want -> copied st rest -> plain_text line -> body_line line ->
  (forall st, copied st rest -> (forall v, expected k = Some v -> value_of k (renamed o false line) = None) ->
    steps line (next st) rest) ->
  steps line (on_size k want f line (trim_start (renamed o false line)) next st) rest.
Proof.
  intros Hf H Hp Hb Hnext. destruct (size_key_facts f k want Hf) as (Hk & Hlk & He & Hpos). unfold on_size.
  destruct (starts_with (k +:+ ":") _) eqn:Eb; [|apply Hnext; [done|]; intros _ _; by apply value_of_none].
  destruct want as [v|] eqn:Ew.
  - destruct (sized_fit k v line Hk (Hpos v eq_refl) Hp Hb (keyed_line line k Eb)) as [Hfit Hval].
    { intros x. rewrite He. by intros [= <-]. }
    exists [sized line k v]. split; [|by eapply keeps_key].
    apply (copied_push_key f k); [done|done|by rewrite Hval|]. inversion Hf; tauto.
  - apply Hnext; [|intros v; by rewrite He].
    destruct H as [Bb Bf Bs B1 B2 B3 B4]. inversion Hf; subst; constructor; try done; intros; congruence.
Qed.

Lemma steps_push line st rest l : copied st rest -> fit l -> keeps line [l] -> steps line (push l st) rest.
Proof. intros H Hl Hk. exists [l]. split; [by apply copied_push|done]. Qed.

Lemma copied_flags line st rest : copied st rest -> plain_text line -> body_line line -> id_kept line ->
  (forall k v, k ∈ ["ram"; "balloon_mb"; "chrs"] -> expected k = Some v -> value_of k (renamed o false line) = None) ->
  steps line (copy_flags o line (renamed o false line) (trim_start (renamed o false line)) st) rest.
Proof.
  intros H Hp Hb Hid Hsz. unfold copy_flags.
  destruct (starts_with "skip_warmup:" _) eqn:E1.
  { destruct (flag_fit "skip_warmup" "true" line) as [Hfit Hval]; [by repeat constructor|by left|done|by apply (keyed_line line "skip_warmup")| |].
    { intros x. by intros [= <-]. }
    eexists [_]. split; [|by apply (keeps_key line "skip_warmup"); [repeat constructor|]].
    apply (copied_push_key (fun st => st <| has_skip_warmup := true |>) "skip_warmup"); [done|done|by intros Hv; pose proof (eq_trans (eq_sym Hval) Hv)|tauto]. }
  destruct (starts_with "disabled:" _) eqn:E2.
  { apply steps_push; [done| |by apply (keeps_key line "disabled"); [repeat constructor|]].
    apply (flag_fit "disabled" (flag_text (start_disabled o)) line); [by repeat constructor| |done|by apply (keyed_line line "disabled")|].
    - unfold flag_text. destruct (start_disabled o); tauto.
    - intros x. by intros [= <-]. }
  assert (Hs : fit (renamed o false line)).
  { apply renamed_fit; [done..|]. intros k v Hne He. pose proof (expected_reserved k v He) as Hr.
    apply elem_of_cons in Hr as [->|Hr]; [by apply (Hsz _ v); [repeat constructor|]|].
    apply elem_of_cons in Hr as [->|Hr]; [by apply (Hsz _ v); [repeat constructor|]|].
    apply elem_of_cons in Hr as [->|Hr]; [by apply (Hsz _ v); [repeat constructor|]|].
    apply elem_of_cons in Hr as [->|Hr]; [by apply value_of_none|].
    apply elem_of_cons in Hr as [->|Hr]; [by apply value_of_none|].
    apply elem_of_cons in Hr as [->|Hr]; [done|by apply elem_of_nil in Hr]. }
  destruct (starts_with "environment:" _) eqn:E3.
  { exists (renamed o false line :: map (env_line (spaces (indent_of line + 2))) (extra_env o)).
    split; [|by apply (keeps_key line "environment"); [repeat constructor|]].
    apply copied_open. rewrite cons_middle, app_assoc. apply copied_env; [|  |done].
    - apply copied_push; [|done]. by apply copied_open.
    - destruct (body_indent line Hb) as [? _]; [by apply (keyed_line line "environment")|lia]. }
  destruct (copied_nested line _ st rest H Hs) as (extra & Hc & Hin). exists extra. split; [done|].
  intros Hi Hk _. by apply Hin.
Qed.

Lemma copied_line line st rest : copied st rest -> plain_text line -> body_line line -> id_kept line ->
  steps line (copy_line o false line st) rest.
Proof.
  intros H Hp Hb Hid. unfold copy_line.
  apply copied_size; [constructor|done..|]. intros st1 H1 F1.
  apply copied_size; [constructor|done..|]. intros st2 H2 F2.
  apply copied_size; [constructor|done..|]. intros st3 H3 F3.
  apply copied_flags; [done..|]. intros k v. rewrite !elem_of_cons, elem_of_nil.
  intros [->|[->|[->|[]]]] He; eauto.
Qed.

Notation short := (short_name (co_cell o) dst).

Lemma header_trim : trim_start header = short +:+ ":" +:+ "".
Proof.
  destruct (ro_short Hro) as (Hn & _). apply (line_of_key [" "; " "]%char short ":"); [by repeat constructor|apply Hn| |done].
  pose proof (name_head _ Hn). by destruct (chars short).
Qed.

Lemma header_value k : k ∈ "environment" :: reserved -> starts_with (k +:+ ":") (trim_start header) = false.
Proof.
  intros Hk. destruct (ro_short Hro) as (Hn & _ & Hr). apply value_of_none.
  eapply (value_other short k); [by apply name_without| | |exact header_trim].
  - apply elem_of_cons in Hk as [->|Hk]; [done|by apply reserved_ok].
  - intros E. by rewrite E in Hr.
Qed.

Lemma copied_header hdr : copied (copy_line o true hdr copying_start) [].
Proof.
  destruct (ro_short Hro) as (Hn & Hd & _).
  assert (E : exists b, copy_line o true hdr copying_start = push header (copying_start <| in_healthcheck := b |>)).
  { unfold copy_line. change (renamed o true hdr) with header.
    unfold on_size, copy_flags, copy_nested. rewrite (header_value "ram"), (header_value "balloon_mb"), (header_value "chrs") by (by repeat constructor).
    pose proof (header_value "skip_warmup" ltac:(by repeat constructor)) as H1.
    pose proof (header_value "disabled" ltac:(by repeat constructor)) as H2.
    pose proof (header_value "environment" ltac:(by repeat constructor)) as H3.
    change ("skip_warmup" +:+ ":") with "skip_warmup:" in H1. change ("disabled" +:+ ":") with "disabled:" in H2.
    change ("environment" +:+ ":") with "environment:" in H3. rewrite H1, H2, H3.
    cbn [in_environment in_healthcheck copying_start andb negb].
    destruct (starts_with "healthcheck:" _); [by exists true|].
    assert (H4 : starts_with "- " (trim_start header) = false).
    { rewrite header_trim. destruct (key_cons _ Hn) as (c & k & Ek & _). rewrite Ek in *.
      rewrite append_cons. rewrite starts_with_cons in Hd. unfold starts_with. rewrite strip_prefix_cons.
      by rewrite Hd. }
    rewrite H4, (contains_char ":/mnt/extra-enterprise" _ "/"); [rewrite andb_false_r; by exists false|done|].
    rewrite header_trim, !char_in_app. by rewrite (name_without _ "/" Hn). }
  destruct E as [b ->]. by constructor.
Qed.

Lemma copied_lines ls : forall st rest, copied st rest -> Forall plain_text ls -> Forall body_line ls -> Forall id_kept ls ->
  exists extra, copied (copy_lines o false ls st) (rest ++ extra) /\ forall l, In l ls -> exists more, incl more extra /\ keeps l more.
Proof.
  induction ls as [|l ls IH]; intros st rest H Hp Hb Hid; cbn [copy_lines].
  { exists []. by rewrite app_nil_r. }
  apply list.Forall_cons in Hp as [Hp1 Hp], Hb as [Hb1 Hb], Hid as [Hid1 Hid].
  destruct (copied_line l st rest H Hp1 Hb1 Hid1) as (e1 & H1 & K1).
  destruct (IH _ _ H1 Hp Hb Hid) as (e2 & H2 & K2). exists (e1 ++ e2). rewrite app_assoc. split; [done|].
  intros l' [<-|Hin]; [by exists e1; split; [apply incl_appl, incl_refl|]|].
  destruct (K2 l' Hin) as (more & Hi & Hk). exists more. split; [by apply incl_appr|done].
Qed.

(** *** The block completed *)
(** the block is the new header and lines that fit, those of [rest] among them *)
Definition grown (rest b : list string) : Prop :=
  exists r, b = "" :: header :: r /\ Forall fit r /\ incl rest r.

Lemma has_incl k l1 l2 : incl l1 l2 -> has k l1 -> has k l2.
Proof. intros Hi H. apply List.Exists_exists in H as (x & Hx & Hv). apply List.Exists_exists. exists x. split; [by apply Hi|done]. Qed.

Lemma grown_insert rest b l : grown rest b -> fit l -> grown (l :: rest) (insert_2 l b).
Proof.
  intros (r & -> & Hf & Hi) Hl. exists (l :: r). split_and!; [done|by constructor|].
  apply incl_cons; [by left|by apply incl_tl].
Qed.

Lemma grown_app rest b ls : grown rest b -> Forall fit ls -> grown rest (b ++ ls).
Proof.
  intros (r & -> & Hf & Hi) Hl. exists (r ++ ls). split_and!; [done|by apply Forall_app|by apply incl_appl].
Qed.

Lemma after_shares_some share b b' : after_shares share b = Some b' ->
  exists b1 x b2, b = b1 ++ x :: b2 /\ trim x = "shares:" /\ b' = b1 ++ x :: share :: b2.
Proof.
  revert b'. induction b as [|l b IH]; intros b'; cbn [after_shares]; [done|].
  case_bool_decide as Hl.
  - intros [= <-]. by exists [], l, b.
  - destruct (after_shares share b) as [b1|] eqn:E; [|done]. cbn. intros [= <-].
    destruct (IH b1 eq_refl) as (p & x & q & -> & Hx & ->). by exists (l :: p), x, q.
Qed.

Lemma grown_share rest b l : grown rest b -> fit l -> grown (l :: rest) (add_share l b).
Proof.
  intros (r & -> & Hf & Hi) Hl. unfold add_share. destruct (after_shares l _) as [b'|] eqn:E; cbn [default from_option id].
  - apply after_shares_some in E as (b1 & x & b2 & Eb & Hx & ->).
    destruct b1 as [|y b1]; [cbn [app] in Eb; injection Eb as Ex _; subst x; by vm_compute in Hx|].
    cbn [app] in Eb. injection Eb as <- Eb.
    destruct b1 as [|z b1]; cbn [app] in Eb; injection Eb as <- Eb.
    + subst b2. exists (l :: r). split_and!; [done|by constructor|]. apply incl_cons; [by left|by apply incl_tl].
    + subst r. exists (b1 ++ x :: l :: b2). split; [done|]. apply Forall_app in Hf as [H1 H2].
      apply list.Forall_cons in H2 as [H2 H3]. split; [apply Forall_app; split; [done|by do 2 (constructor; [done|])]|].
      apply incl_cons; [apply in_or_app; right; right; by left|]. intros z Hz%Hi.
      apply in_app_or in Hz as [Hz|[Hz|Hz]]; apply in_or_app; [by left|right; left; exact Hz|right; right; right; exact Hz].
  - exists (r ++ ["    shares:"; l]). split_and!; [done| |].
    + apply Forall_app. split; [done|]. constructor; [|by constructor]. by apply fixed_fit; [|right|].
    + apply incl_cons; [apply in_or_app; right; right; by left|by apply incl_appl].
Qed.

Lemma other_added key v : key ∉ reserved -> char_in ":" key = false -> plain_text key -> key <> "" ->
  match chars key with c :: _ => is_space c = false | [] => True end -> 0 <= v -> fit (added key v).
Proof.
  intros Hk Hc Hp Hne Hh Hv.
  assert (Et : trim_start (added key v) = key +:+ ":" +:+ " " +:+ dec v).
  { apply (line_of_key [" "; " "; " "; " "]%char key (": " +:+ dec v)); [by repeat constructor|done..]. }
  apply fit_other.
  - unfold added. rewrite !plain_app. split_and!; [done..|by apply plain_dec].
  - right. apply starts_with_spec. by exists (" " +:+ key +:+ ": " +:+ dec v).
  - intros k Hk'. eapply (value_other key k); [done|by apply reserved_ok| |exact Et]. by intros ->.
Qed.

(** the block built so far, with the lines [rest] and the keys [ks] *)
Definition built (ks rest b : list string) : Prop :=
  exists r, grown r b /\ incl rest r /\ forall k v, k ∈ ks -> expected k = Some v -> has k r.

Lemma built_more ks rest r b : grown r b -> incl rest r -> (forall k v, k ∈ ks -> expected k = Some v -> has k r) -> built ks rest b.
Proof. intros. by exists r. Qed.

(** a key is added, unless the block has it *)
Lemma built_key ks rest b k l (present : bool) : built ks rest b -> fit l -> value_of k l <> None ->
  (present = true -> expected k <> None -> has k rest) -> built (k :: ks) rest (with_key present l b).
Proof.
  intros (r & G & I & K) Hl Hv Hp. destruct present; cbn [with_key].
  - exists r. split_and!; [done|done|]. intros k' v [->|Hk]%elem_of_cons He; [|by eapply K].
    eapply has_incl; [exact I|]. apply Hp; [done|by rewrite He].
  - exists (l :: r). split_and!; [by apply grown_insert|by apply incl_tl|].
    intros k' v [->|Hk]%elem_of_cons He; [by left|]. eapply has_incl; [apply incl_tl, incl_refl|by eapply K].
Qed.

Lemma built_size ks rest b k want (present : bool) : built ks rest b -> k ∈ reserved -> (forall v, want = Some v -> 0 <= v) ->
  expected k = dec <$> want -> (present = true -> want <> None -> has k rest) -> built (k :: ks) rest (with_size present k want b).
Proof.
  intros H Hk Hv He Hh. destruct want as [v|]; cbn [with_size].
  - destruct (added_fit k v Hk (Hv v eq_refl)) as [Hfit Hval]; [intros x; rewrite He; by intros [= <-]|].
    apply (built_key _ _ _ _ (added k v)); [done|done|by rewrite Hval|]. intros Hp _. by apply Hh.
  - destruct H as (r & G & I & K). exists r. split_and!; [done|done|].
    intros k' v [->|Hk']%elem_of_cons He'; [by rewrite He in He'|by eapply K].
Qed.

Lemma built_idle ks rest b : built ks rest b -> built ks rest (with_idle o b).
Proof.
  intros (r & G & I & K). unfold with_idle. destruct (ro_sizes Hro) as [_ Hpos].
  destruct (co_idle o) as [idle|] eqn:Ei; [|by exists r]. destruct (idle =? _); [by exists r|]. cbn zeta.
  assert (Hkey : forall k v, k ∈ ["balloon_idle_mb"; "balloon_decay_secs"] -> 0 <= v -> fit (added k v)).
  { intros k v Hk Hv. rewrite !elem_of_cons, elem_of_nil in Hk. apply other_added; try done; destruct Hk as [->|[->|[]]]; try done;
      unfold reserved; rewrite !elem_of_cons, elem_of_nil; naive_solver. }
  assert (Hi : fit (added "balloon_idle_mb" idle)) by (apply Hkey; [by repeat constructor|apply Hpos; tauto]).
  destruct G as (r' & -> & Hf & Hin). change (Nat.min 2 (length ("" :: header :: r'))) with 2%nat.
  exists r. split; [|done]. destruct (co_decay o) as [d|] eqn:Ed.
  - exists (added "balloon_idle_mb" idle :: added "balloon_decay_secs" d :: r').
    split_and!; [done| |by do 2 apply incl_tl]. constructor; [done|]. constructor; [|done].
    apply Hkey; [by repeat constructor|apply Hpos; tauto].
  - exists (added "balloon_idle_mb" idle :: r'). split_and!; [done|by constructor|by apply incl_tl].
Qed.

Lemma built_env ks rest b present : built ks rest b -> built ks rest (with_env o present b).
Proof.
  intros (r & G & I & K). unfold with_env. destruct (present || _); [by exists r|].
  exists r. split; [|done]. apply grown_app; [done|]. constructor; [by apply fixed_fit; [|right|]|].
  apply List.Forall_map. apply list.Forall_forall. intros kv Hkv. by apply (env_fit 6); [lia|].
Qed.

Lemma built_share ks rest b l : built ks rest b -> fit l -> built ks rest (add_share l b).
Proof.
  intros (r & G & I & K) Hl. exists (l :: r). split_and!; [by apply grown_share|by apply incl_tl|].
  intros k v Hk He. eapply has_incl; [apply incl_tl, incl_refl|by eapply K].
Qed.

Lemma complete_built st rest : copied st rest ->
  built ["balloon_mb"; "chrs"; "ram"; "skip_warmup"] rest (complete_block o st).
Proof.
  intros [Hb Hf Hs H1 H2 H3 H4]. destruct (ro_sizes Hro) as [_ Hpos]. unfold complete_block. rewrite Hb. cbn zeta.
  assert (Hw : forall b, built ["balloon_mb"; "chrs"; "ram"; "skip_warmup"] rest b ->
    built ["balloon_mb"; "chrs"; "ram"; "skip_warmup"] rest (with_share (legacy_addons_share st) (with_env o (has_env_section st) (with_idle o b)))).
  { intros b H. apply (built_idle _ _ _) in H. apply (built_env _ _ _ (has_env_section st)) in H.
    destruct (legacy_addons_share st) as [l|] eqn:El; cbn [with_share]; [apply built_share; [done|by apply Hs]|done]. }
  assert (Hball : 0 <= default 128 (co_balloon o)) by (destruct (co_balloon o) eqn:E; cbn; [apply Hpos; tauto|lia]).
  destruct (added_fit "balloon_mb" (default 128 (co_balloon o))) as [Hfit Hval]; [by repeat constructor|done| |].
  { intros x. unfold expected. cbn. destruct (co_balloon o); [|done]. cbn. by intros [= <-]. }
  apply Hw. apply (built_key _ _ _ "balloon_mb" (added "balloon_mb" (default 128 (co_balloon o)))); [|done|by rewrite Hval|].
  2:{ intros Hp He. apply H3; [done|]. intros E. apply He. unfold expected. cbn. by rewrite E. }
  apply built_size; [|by repeat constructor|intros v Hv; apply Hpos; rewrite Hv; tauto|done|exact H2].
  apply built_size; [|by repeat constructor|intros v Hv; apply Hpos; rewrite Hv; tauto|done|exact H1].
  apply (built_key _ _ _ "skip_warmup" "    skip_warmup: true"); [|apply fit_key with "skip_warmup" " true" "true"|done|intros Hp _; by apply H4].
  - apply (built_more [] rest rest); [exists rest; split_and!; [done|done|apply incl_refl]|apply incl_refl|]. intros k v Hk. by apply elem_of_nil in Hk.
  - by repeat constructor.
  - done.
  - by right.
  - done.
  - done.
  - intros v. by intros [= <-].
Qed.

Lemma header_ok : is_service_header header = true.
Proof.
  destruct (ro_short Hro) as (Hn & Hd & _). destruct (key_cons _ Hn) as (c & k & Ek & Hc & _).
  apply id_char_not in Hc as (Hs & _ & _ & Hh & _ & Hsp & _).
  unfold is_service_header, opens. rewrite header_trim. unfold header. rewrite Ek in *.
  assert (E : trim_end ("  " +:+ String c k +:+ ":") = "  " +:+ String c k +:+ ":") by (by apply (trim_end_id ("  " +:+ String c k) ":")).
  assert (H1 : starts_with "   " ("  " +:+ String c k +:+ ":") = false).
  { unfold starts_with. change ("  " +:+ String c k +:+ ":") with (String " " (String " " (String c (k +:+ ":")))).
    cbn [strip_prefix]. change (Ascii.eqb " " " ") with true. cbn iota. by destruct (Ascii.eqb_spec " " c). }
  assert (H2 : ends_with ":" ("  " +:+ String c k +:+ ":") = true).
  { rewrite ends_with_char. apply bool_decide_eq_true.
    replace (chars ("  " +:+ String c k +:+ ":")) with (chars ("  " +:+ String c k) ++ [":"%char]); [apply last_snoc|].
    rewrite <- string_app_assoc. by rewrite (list_ascii_app ("  " +:+ String c k)). }
  rewrite E, H1, H2. change ((String c k) +:+ ":" +:+ "") with (String c (k +:+ ":" +:+ "")). rewrite !starts_with_cons in *.
  rewrite Hd. destruct (Ascii.eqb_spec "#" c) as [<-|]; [done|]. done.
Qed.

Lemma header_unnamed : names dst header = false.
Proof.
  destruct (decide (short = "nkr_name")) as [E|Hne].
  - unfold header. rewrite E. unfold names. apply andb_false_iff. right. apply bool_decide_eq_false.
    intros Hd. assert (Hnil : dst = "") by (rewrite <- Hd; by vm_compute). by destruct (ro_dst Hro) as [? _].
  - eapply other_key_unnamed; [|exact Hne|exact header_trim]. destruct (ro_short Hro) as (Hn & _). by apply name_without.
Qed.

Lemma systemouts_fit p : plain_text p -> fit ("      - " +:+ quote (p +:+ ":/mnt/systemouts-addons:ro")).
Proof.
  intros Hp. apply fit_other.
  - apply plain_app. split; [done|]. unfold quote. change (String DQ ?x) with (String DQ "" +:+ x). by rewrite !plain_app.
  - right. apply starts_with_spec. by eexists.
  - intros k Hk. by eapply dash_value.
Qed.

Lemma keeps_name more : keeps (name_line src) more -> In (name_line dst) more.
Proof.
  unfold keeps. assert (E : renamed o false (name_line src) = name_line dst).
  { destruct (renamed_cases (name_line src)) as [(r & El & _)|[-> _]]; [by rewrite name_line_trim in El|].
    apply replace_name_line; apply Hro. }
  rewrite E. intros H. apply H.
  - unfold indent_of. rewrite name_line_trim. unfold name_line. rewrite <- !length_list_ascii, !list_ascii_app, !length_app. cbn. lia.
  - unfold kept. rewrite name_line_trim. apply andb_true_iff. split; [done|].
    rewrite (contains_char ":/mnt/extra-enterprise" _ "/"); [done|done|]. rewrite quote_split, !char_in_app, (char_in_cons "/" DQ dst).
    by rewrite (name_without dst "/" (ro_dst Hro)).
  - intros k Hk. eapply (value_other "nkr_name" k); [done| | |apply name_line_trim];
      unfold loop_keys in Hk; rewrite !elem_of_cons, elem_of_nil in Hk; by repeat destruct Hk as [->|Hk].
Qed.

(** the line that gives the id *)
Definition plain_id (l : string) : Prop := exists n, 0 <= n /\ l = "    id: " +:+ dec n.

Lemma keeps_id l more : plain_id l -> keeps l more -> has "id" more.
Proof.
  intros (n & Hn & ->) H. assert (Et : trim_start ("    id: " +:+ dec n) = "id" +:+ ":" +:+ " " +:+ dec n).
  { by apply (line_of_key [" "; " "; " "; " "]%char "id" (": " +:+ dec n)); [repeat constructor|..]. }
  pose proof (renamed_id _ _ Et) as Er.
  assert (Hc : rest_trailing_comment (" " +:+ dec n) = "").
  { unfold rest_trailing_comment. assert (Hf : forall cs, Forall (fun c => c <> "#"%char) cs -> from_hash cs = None).
    { induction 1 as [|c cs Hc' _ IH]; [done|]. cbn. by destruct (Ascii.eqb_spec c "#"). }
    rewrite Hf; [done|]. rewrite chars_trim_start. change (chars (" " +:+ dec n)) with (" "%char :: chars (dec n)).
    destruct (dec_chars n Hn) as (Hs & Hh & _). cbn [drop_spaces].
    change (is_space " ") with true. cbn iota. destruct (chars (dec n)) as [|c cs]; [constructor|].
    apply list.Forall_cons in Hs as [Hc' _]. cbn [drop_spaces]. by rewrite Hc'. }
  rewrite Hc in Er. apply List.Exists_exists. eexists. split.
  - apply H; [| |].
    + unfold indent_of. rewrite Et. rewrite <- !length_list_ascii, !list_ascii_app, !length_app. cbn. lia.
    + unfold kept. rewrite Er. apply andb_true_iff. split; [done|].
      rewrite (contains_char ":/mnt/extra-enterprise" _ "/"); [done|done|]. rewrite !char_in_app. by rewrite (dec_plain "/" _ id_nonneg eq_refl).
    + intros k Hk. eapply (value_other "id" k); [done| | |exact Er];
        unfold loop_keys in Hk; rewrite !elem_of_cons, elem_of_nil in Hk; by repeat destruct Hk as [->|Hk].
  - unfold value_of. rewrite Er. by rewrite <- (string_app_assoc "id" ":"), strip_prefix_app.
Qed.

(** the block of the new service *)
Lemma copy_block_spec systemouts hdr body : plain_text systemouts ->
  Forall plain_text body -> Forall body_line body -> Forall id_kept body -> In (name_line src) body ->
  exists r, copy_block o systemouts (hdr :: body) = "" :: header :: r /\ Forall fit r /\ In (name_line dst) r
    /\ (forall k v, k ∈ ["balloon_mb"; "chrs"; "ram"; "skip_warmup"] -> expected k = Some v -> has k r)
    /\ (Exists plain_id body -> has "id" r).
Proof.
  intros Hsys Hp Hb Hid Hname. unfold copy_block. cbn [copy_lines].
  destruct (copied_lines body _ _ (copied_header hdr) Hp Hb Hid) as (extra & Hc & Hin). cbn [app] in Hc.
  pose proof (complete_built _ _ Hc) as Hbuilt. set (b := complete_block o _) in *.
  assert (Hall : built ["balloon_mb"; "chrs"; "ram"; "skip_warmup"] extra (if existsb (contains ":/mnt/systemouts-addons:") b then b
     else add_share ("      - " +:+ quote (systemouts +:+ ":/mnt/systemouts-addons:ro")) b)).
  { destruct (existsb _ b); [done|]. apply built_share; [done|by apply systemouts_fit]. }
  destruct Hall as (r0 & (r & E & Hfit & Hincl) & I & K). exists r. split_and!; [exact E|done| | |].
  - apply Hincl, I. destruct (Hin _ Hname) as (more & Hm & Hk). apply Hm. by apply keeps_name.
  - intros k v Hk He. eapply has_incl; [exact Hincl|by eapply K].
  - intros (l & Hl & Hpl)%List.Exists_exists. destruct (Hin l Hl) as (more & Hm & Hk).
    eapply has_incl; [exact Hincl|]. eapply has_incl; [exact I|]. eapply has_incl; [exact Hm|]. by eapply keeps_id.
Qed.
End Copied.

Lemma fit_block o r k v : Forall (fit o) r -> expected o k = Some v -> has k r -> block_value k r = Some v.
Proof.
  intros Hf He H. induction r as [|l r IH]; [by apply List.Exists_nil in H|]. cbn [block_value].
  apply list.Forall_cons in Hf as [Hl Hf]. destruct (value_of k l) as [x|] eqn:Ex.
  - f_equal. by eapply (ft_value _ _ Hl).
  - apply IH; [done|]. apply List.Exists_cons in H as [H|H]; [congruence|done].
Qed.

(** ** A clone and its source *)
(** Cloning a service: the file keeps every line it had, and then, after an empty line, has
    the new service under its name; no line of it contradicts the request (the id, the
    sizes, [skip_warmup], [disabled]); the sizes asked and [skip_warmup] are there, and the
    id when the source has a plain one; and removing the new service gives the old lines
    back, but for the empty line. *)
Theorem clone_appends o systemouts content pre hdr body post :
  request_ok o -> char_in CR content = false -> plain_text systemouts ->
  service (lines content) (co_src o) pre hdr body post -> In (name_line (co_src o)) body -> Forall (id_kept o) body ->
  Forall (fun l => names (co_dst o) l = false) (lines content) ->
  exists new body', append_compose_block o systemouts (Some content) = inr new
    /\ service (lines new) (co_dst o) (lines content ++ [""]) (header o) body' []
    /\ Forall (fun l => forall k x v, value_of k l = Some x -> expected o k = Some v -> x = v) body'
    /\ (forall k v, k ∈ ["balloon_mb"; "chrs"; "ram"; "skip_warmup"] -> expected o k = Some v -> block_value k body' = Some v)
    /\ (Exists plain_id body -> block_value "id" body' = Some (dec (co_vm_id o)))
    /\ remove_compose_block (Some new) (co_dst o) = Some (text_of (lines content ++ [""])).
Proof.
  intros Hro Hc Hsys Hsv Hname Hid Hfree.
  destruct (service_plain _ _ _ _ _ _ Hc Hsv) as (_ & _ & Hpb & _).
  destruct (copy_block_spec o Hro systemouts hdr body Hsys Hpb (sv_body _ _ _ _ _ _ Hsv) Hid Hname) as (r & Er & Hfit & Hin & Hkeys & Hidr).
  assert (Hne : content <> "") by (intros ->; destruct Hsv as [E _ _ _ _ _]; by destruct pre).
  assert (Hnew : append_compose_block o systemouts (Some content)
    = inr (content +:+ (if ends_with (String LF "") content then "" else String LF "") +:+ text_of ("" :: header o :: r))).
  { unfold append_compose_block. rewrite (locate_service _ _ _ _ _ _ Hsv).
    rewrite (sv_lines _ _ _ _ _ _ Hsv) at 1. destruct (block_parts pre hdr body post) as (_ & _ & _ & -> & _). by rewrite Er. }
  assert (Hlines : lines (content +:+ (if ends_with (String LF "") content then "" else String LF "") +:+ text_of ("" :: header o :: r))
    = lines content ++ "" :: header o :: r).
  { apply lines_append; [done|done|done|]. constructor; [done|]. constructor.
    - unfold header. rewrite !plain_app. split_and!; [done|apply name_plain, Hro|done].
    - eapply List.Forall_impl; [|exact Hfit]. by intros l [? _ _]. }
  assert (Hs : service (lines (content +:+ (if ends_with (String LF "") content then "" else String LF "") +:+ text_of ("" :: header o :: r)))
     (co_dst o) (lines content ++ [""]) (header o) r []).
  { constructor.
    - by rewrite Hlines, <- app_assoc, app_nil_r.
    - by apply header_ok.
    - eapply List.Forall_impl; [|exact Hfit]. by intros l [_ ? _].
    - done.
    - apply Forall_app. split; [apply Forall_app; split; [done|by repeat constructor]|].
      constructor; [by apply header_unnamed|constructor].
    - apply List.Exists_exists. exists (name_line (co_dst o)). split; [done|]. apply names_line, Hro. }
  eexists. exists r. split_and!; [exact Hnew|exact Hs| | | |].
  - eapply List.Forall_impl; [|exact Hfit]. by intros l [_ _ ?].
  - intros k v Hk He. eapply fit_block; [done|done|by eapply Hkeys].
  - intros Hp. eapply fit_block; [done|done|by apply Hidr].
  - unfold remove_compose_block. cbn [mbind option_bind]. rewrite (locate_service _ _ _ _ _ _ Hs). cbn [mbind option_bind].
    rewrite (sv_lines _ _ _ _ _ _ Hs). destruct (block_parts (lines content ++ [""]) (header o) r []) as (-> & _ & -> & _).
    by rewrite app_nil_r.
Qed.

(** ** A clone of a template *)
Module CloneExample.
Import BlocksExample.
(** the request of the API: production, two sizes, the environment that renames the file store *)
Definition request : copy_opts :=
  mkCopy "c18" "c18-template" "c18-acme" 12
    [("NKR_RENAME_FILESTORE_FROM", "db-c18-template"); ("NKR_RENAME_FILESTORE_TO", "db-c18-acme")]
    (Some 1024) (Some 200) (Some 256) (Some 32) (Some 600) false false.
Definition addons : string := "/mnt/nkr/cells/c18/systemouts-addons".

Lemma request_fine : request_ok request.
Proof.
  constructor.
  - by vm_compute.
  - by vm_compute.
  - by vm_compute.
  - split; [by vm_compute|]. split; [by vm_compute|]. apply (bool_decide_eq_true _). by vm_compute.
  - repeat (constructor; [split; [by vm_compute|split; [apply (bool_decide_eq_true _); by vm_compute|by vm_compute]]|]). constructor.
  - split; [by vm_compute|]. cbn. intros v. intros [H|[H|[H|[H|H]]]]; by simplify_eq.
Qed.

Definition clone_of (o : copy_opts) : list string :=
  match append_compose_block o addons (Some content) with inr new => drop (length file) (lines new) | inl _ => [] end.
(** a service without the flag *)
Definition bare : string := text_of ["services:"; "  odoo:"; "    nkr_name: " +:+ quote "c18-odoo"; "    id: 3"].
Definition cold : copy_opts := mkCopy "c18" "c18-odoo" "c18-cold" 13 [] None None None None None false true.
End CloneExample.

Theorem clone_appends_witness :
  exists new body', append_compose_block CloneExample.request CloneExample.addons (Some BlocksExample.content) = inr new
    /\ service (lines new) "c18-acme" (lines BlocksExample.content ++ [""]) (header CloneExample.request) body' []
    /\ Forall (fun l => forall k x v, value_of k l = Some x -> expected CloneExample.request k = Some v -> x = v) body'
    /\ (forall k v, k ∈ ["balloon_mb"; "chrs"; "ram"; "skip_warmup"] -> expected CloneExample.request k = Some v -> block_value k body' = Some v)
    /\ (Exists plain_id BlocksExample.template_body -> block_value "id" body' = Some (dec 12))
    /\ remove_compose_block (Some new) "c18-acme" = Some (text_of (lines BlocksExample.content ++ [""])).
Proof.
  apply (clone_appends CloneExample.request CloneExample.addons BlocksExample.content ["services:"] "  template:"
    BlocksExample.template_body BlocksExample.rest_of_file).
  - apply CloneExample.request_fine.
  - by vm_compute.
  - by vm_compute.
  - apply BlocksExample.template_service.
  - by left.
  - repeat (constructor; [first [left; eexists; by vm_compute|right; by vm_compute]|]). constructor.
  - repeat (constructor; [by vm_compute|]). constructor.
Defined.

(** The dynamic balloon is added without a look at what the source has: a clone of a
    service that has [balloon_idle_mb] has the key twice. *)
Example clone_repeats_idle :
  filter (fun l => value_of "balloon_idle_mb" l <> None) (CloneExample.clone_of CloneExample.request)
  = ["    balloon_idle_mb: 32"; "    balloon_idle_mb: 64"].
Proof. by vm_compute. Qed.

(** A clone that must start disabled is enabled when its source has no flag. *)
Example cold_clone_enabled :
  match append_compose_block CloneExample.cold CloneExample.addons (Some CloneExample.bare) with
  | inr new => existsb is_flag (lines new) | inl _ => true end = false.
Proof. by vm_compute. Qed.

(** Each clone that is removed leaves an empty line in the file. *)
Example removed_clone_leaves_line :
  match append_compose_block CloneExample.cold CloneExample.addons (Some CloneExample.bare) with
  | inr new => remove_compose_block (Some new) "c18-cold" | inl _ => None end
  = Some (CloneExample.bare +:+ String LF "").
Proof. by vm_compute. Qed.

(** The share made of a volume written in quotes, as the README has it, ends after the
    closing quote: it is not YAML. *)
Example quoted_share_broken :
  legacy_addons_share (copy_lines CloneExample.cold true
      ["  odoo:"; "    volumes:"; "      - " +:+ quote "/mnt/nkr/cells/c18/instances/c18-odoo/addons:/mnt/extra-addons"]
      copying_start)
  = Some ("      - " +:+ quote "/mnt/nkr/cells/c18/instances/c18-cold/addons:/mnt/extra-addons" +:+ ":rw").
Proof. by vm_compute. Qed.
