(* ===== verification/CloneConf.v ===== *)
(** * The configuration file of a clone (src/cell.rs)

    [clone_instance_with_opts] copies the odoo.conf of the source and rewrites it: the name
    of the source by that of the clone, and then the options of the request, the search
    path of the add-ons and the key of the single sign-on, as a list of steps on its lines. *)
From S2P Require Import Prelude Text Http Resources Watchdog Conf Blocks.

(** ** The search path of the add-ons *)
Definition is_addons (l : string) : bool := starts_with "addons_path" (trim_start l).
Definition path_parts (v : string) : list string := filter (fun p => p <> "") (map trim (split_on "," v)).
(** the first such line, with its parts changed *)
Definition set_addons (f : list string -> list string) (ls : list string) : list string :=
  match position is_addons ls with
  | Some i =>
      match split_once "=" (ls !!! i) with
      | Some (k, v) => <[i := trim_end (k +:+ "=") +:+ " " +:+ join_with "," (f (path_parts v))]> ls
      | None => ls
      end
  | None => ls
  end.
Definition no_enterprise (parts : list string) : list string := filter (fun p => p <> "/mnt/extra-enterprise") parts.
Definition with_systemouts (parts : list string) : list string :=
  if bool_decide ("/mnt/systemouts-addons" ∈ parts) then parts
  else insert_at (Nat.min 1 (length parts)) "/mnt/systemouts-addons" parts.

(** ** The key of the single sign-on *)
(** 32 random bytes in hexadecimal *)
Definition hex_digits : list ascii := String.list_ascii_of_string "0123456789abcdef".
Definition generate_sso_secret (buf : list Z) : string :=
  String.string_of_list_ascii
    (flat_map (fun b => [nth (Z.to_nat (b / 16)) hex_digits "0"%char; nth (Z.to_nat (b mod 16)) hex_digits "0"%char]) buf).

Definition is_secret (l : string) : bool :=
  match split_once "=" l with
  | Some (k, v) => bool_decide (trim k = "secret") && negb (bool_decide (trim v = ""))
  | None => false
  end.
Definition is_sso_header (l : string) : bool := bool_decide (trim l = "[nkr_sso]").
Definition is_legacy (l : string) : bool := starts_with "nkr_sso_secret" (trim_start l).
(** the last value of the old key *)
Definition legacy_val (ls : list string) : option string :=
  fold_left (fun acc l =>
    if is_legacy l
    then match split_once "=" l with
         | Some (_, v) => if bool_decide (trim v = "") then acc else Some (trim v)
         | None => acc end
    else acc) ls None.

Definition sso_section (fresh : string) (ls : list string) : list string :=
  let has_section_secret := existsb is_secret ls in
  let has_section_header := existsb is_sso_header ls in
  let legacy := legacy_val ls in
  let ls := filter (fun l => is_legacy l = false) ls in
  if has_section_header && has_section_secret then ls
  else ls ++ (if has_section_header then [] else [""; "[nkr_sso]"]) ++ ["secret = " +:+ default fresh legacy].

(** ** The steps *)
Inductive conf_step :=
  | Upsert (k v : string)
  | Addons (f : list string -> list string)
  | Sso (fresh : string).
Definition run_step (ls : list string) (s : conf_step) : list string :=
  match s with
  | Upsert k v => upsert_key ls k v
  | Addons f => set_addons f ls
  | Sso fresh => sso_section fresh ls
  end.

Record conf_opts := mkConfOpts {
  proxy_mode : option bool; cf_workers : option Z; cf_soft : option Z; cf_hard : option Z;
  addons_path : option string; cf_enterprise : bool; admin_passwd : option string; cf_tier : Tier;
}.

Definition conf_steps (dst : string) (o : conf_opts) (buf : list Z) : list conf_step :=
  [Upsert "dbfilter" ("^db-" +:+ dst +:+ "$"); Upsert "list_db" "False";
   Upsert "proxy_mode" (if default true (proxy_mode o) then "True" else "False")]
  ++ opt_list (cf_workers o) (fun w => Upsert "workers" (dec w))
  ++ opt_list (cf_soft o) (fun z => Upsert "limit_memory_soft" (dec z))
  ++ opt_list (cf_hard o) (fun z => Upsert "limit_memory_hard" (dec z))
  ++ match addons_path o with
     | Some p => [Upsert "addons_path" p]
     | None => if cf_enterprise o then [] else [Addons no_enterprise]
     end
  ++ [Addons with_systemouts]
  ++ opt_list (admin_passwd o) (Upsert "admin_passwd")
  ++ [Sso (generate_sso_secret buf); Upsert "db_name" ("db-" +:+ dst); Upsert "logfile" "/var/log/odoo/odoo.log"]
  ++ (if is_dev_like (cf_tier o)
      then [Upsert "dev_mode" ""; Upsert "limit_time_cpu" "600"; Upsert "limit_time_real" "1200"; Upsert "list_db" "True"]
      else []).

Definition rewrite_lines (dst : string) (o : conf_opts) (buf : list Z) (ls : list string) : list string :=
  fold_left run_step (conf_steps dst o buf) ls.

(** the file; [None] when it does not exist *)
Definition rewrite_odoo_conf (src dst : string) (file : option string) : option string := replace src dst <$> file.
Definition rewrite_odoo_conf_full (dst : string) (o : conf_opts) (buf : list Z) (file : option string) : option string :=
  content ← file; Some (text_of (rewrite_lines dst o buf (lines content))).

(** ** Lines that start with a name *)
Lemma strip_of_longer p k r rest : all_chars id_char p = true -> starts_with p k = false ->
  strip_prefix k (p +:+ r) = Some rest -> exists c rest', rest = String c rest' /\ id_char c = true.
Proof.
  revert k. induction p as [|a p IH]; intros k Hp Hs; [done|]. rewrite all_chars_cons in Hp.
  apply andb_true_iff in Hp as [Ha Hp]. destruct k as [|b k].
  - change (strip_prefix "" ?s) with (Some s). intros [= <-]. by exists a, (p +:+ r).
  - rewrite append_cons, strip_prefix_cons. destruct (Ascii.eqb_spec b a) as [->|]; [|done]. apply IH; [done|].
    unfold starts_with in *. rewrite strip_prefix_cons, Ascii.eqb_refl in Hs. done.
Qed.

(** such a line gives no value to a key that does not start like it *)
Lemma line_value_starts p k l : all_chars id_char p = true -> starts_with p k = false ->
  starts_with p (trim_start l) = true -> line_value k (trim_start l) = None.
Proof.
  intros Hp Hk [r ->]%starts_with_spec. unfold line_value.
  destruct (strip_prefix k (p +:+ r)) as [rest|] eqn:E; [|done].
  apply strip_of_longer in E as (c & rest' & -> & Hc); [|done|done]. cbn [mbind option_bind].
  apply id_char_not in Hc as (Hs & He & _). rewrite trim_start_id by done.
  rewrite strip_prefix_cons. by destruct (Ascii.eqb_spec "=" c).
Qed.

Lemma line_starts_plain p l : p <> "" -> all_chars id_char p = true -> starts_with p (trim_start l) = true ->
  is_comment (trim_start l) = false /\ is_header l = false /\ is_section l = false.
Proof.
  intros Hne Hp [r E]%starts_with_spec. destruct p as [|c p]; [done|]. rewrite all_chars_cons in Hp.
  apply andb_true_iff in Hp as [Hc _]. apply id_char_not in Hc as (_ & _ & Hb & Hh & Hs & _).
  assert (Hbr : starts_with "[" (trim_start l) = false).
  { rewrite E, append_cons, starts_with_cons. by apply Ascii.eqb_neq. }
  split_and!.
  - unfold is_comment. rewrite E, append_cons, !starts_with_cons. apply orb_false_iff. split; by apply Ascii.eqb_neq.
  - unfold is_header. by rewrite Hbr.
  - unfold is_section. rewrite trim_both. apply andb_false_iff. left. apply not_true_iff_false.
    intros H%trim_end_bracket. congruence.
Qed.

(** ** What a step leaves alone *)
(** keys that the search path and the single sign-on do not touch *)
Definition plain_key (k : string) : Prop :=
  key_ok k /\ starts_with "addons_path" k = false /\ starts_with "nkr_sso_secret" k = false /\ k <> "secret".

Definition reads (ls : list string) (section k : string) : option string :=
  parse_section ("[" +:+ section +:+ "]") k false ls.

(** the key of a section is read the same, and the file stays as the readers expect *)
Record harmless (section k : string) (ls ls' : list string) : Prop := {
  hl_reads : reads ls' section k = reads ls section k;
  hl_conf : conf_ok ls';
  hl_settable : settable k ls -> settable k ls';
}.

Lemma trim_start_split l : exists w, l = String.string_of_list_ascii w +:+ trim_start l /\ Forall (fun c => is_space c = true) w.
Proof.
  destruct (line_split l) as (w & E & Hw & _). exists w. split; [|done].
  apply list_ascii_inj. by rewrite list_ascii_app, String.list_ascii_of_string_of_list_ascii.
Qed.

Lemma trim_start_app l t : trim_start l <> "" -> trim_start (l +:+ t) = trim_start l +:+ t.
Proof.
  intros Hne. destruct (trim_start_split l) as (w & E & Hw). apply list_ascii_inj.
  pose proof (drop_spaces_head (String.list_ascii_of_string l)) as Hh. rewrite <- chars_trim_start in Hh.
  rewrite chars_trim_start. rewrite E at 1. rewrite string_app_assoc, list_ascii_app, String.list_ascii_of_string_of_list_ascii.
  apply drop_spaces_app; [done|]. rewrite list_ascii_app.
  destruct (String.list_ascii_of_string (trim_start l)) as [|c r] eqn:Ec; [|exact Hh].
  destruct Hne. by apply list_ascii_inj.
Qed.

Lemma addons_key_start k v x : starts_with "addons_path" (trim_start (k +:+ String "=" v)) = true ->
  starts_with "addons_path" (trim_start (k +:+ String "=" "" +:+ x)) = true.
Proof.
  intros H. destruct (decide (trim_start k = "")) as [E|Hne].
  - destruct (trim_start_split k) as (w & Ek & Hw). rewrite E, app_nil_string in Ek. exfalso.
    assert (Et : trim_start (k +:+ String "=" v) = String "=" v).
    { apply list_ascii_inj. rewrite chars_trim_start, Ek, list_ascii_app, String.list_ascii_of_string_of_list_ascii.
      by apply drop_spaces_app. }
    by rewrite Et in H.
  - rewrite trim_start_app in H |- * by done. apply starts_with_spec in H as [r Er].
    destruct (strip_prefix_until "=" "addons_path" (trim_start k) v r eq_refl) as [r' ->].
    + by rewrite Er, strip_prefix_app.
    + apply starts_with_spec. eexists. apply string_app_assoc.
Qed.

Lemma set_addons_cases f ls : set_addons f ls = ls \/ exists a l b x, ls = a ++ l :: b /\ set_addons f ls = a ++ x :: b
  /\ starts_with "addons_path" (trim_start l) = true /\ starts_with "addons_path" (trim_start x) = true.
Proof.
  unfold set_addons. destruct (position is_addons ls) as [i|] eqn:E; [|by left].
  destruct (position_some _ _ _ E) as (a & l & b & -> & <- & Hl & _).
  rewrite list_lookup_total_middle by done. destruct (split_once "=" l) as [[k v]|] eqn:Es; [|by left].
  right. exists a, l, b, (trim_end (k +:+ "=") +:+ " " +:+ join_with "," (f (path_parts v))).
  split_and!; [done| |exact Hl|].
  - rewrite insert_app_r_alt by lia. by rewrite Nat.sub_diag.
  - apply split_once_some in Es as [-> _]. rewrite trim_end_id by done. rewrite string_app_assoc.
    by apply (addons_key_start k v).
Qed.

(** a line that is not read may be replaced by another *)
Lemma parse_unread tgt k st a l x b :
  (forall y, y = l \/ y = x -> is_comment (trim_start y) = false /\ is_header y = false /\ line_value k (trim_start y) = None) ->
  parse_section tgt k st (a ++ x :: b) = parse_section tgt k st (a ++ l :: b).
Proof.
  intros H. destruct (H l (or_introl eq_refl)) as (L1 & L2 & L3), (H x (or_intror eq_refl)) as (X1 & X2 & X3).
  rewrite !parse_app. destruct (parse_section tgt k st a); [done|]. by rewrite !parse_skip.
Qed.

Lemma addons_harmless f section k ls : key_ok k -> starts_with "addons_path" k = false -> conf_ok ls ->
  harmless section k ls (set_addons f ls).
Proof.
  intros Hk Ha Hc. destruct (set_addons_cases f ls) as [->|(a & l & b & x & -> & -> & Hl & Hx)]; [by constructor|].
  assert (Hy : forall y, y = l \/ y = x -> starts_with "addons_path" (trim_start y) = true) by (by intros y [-> | ->]).
  constructor.
  - apply parse_unread. intros y Hy'%Hy. destruct (line_starts_plain "addons_path" y ltac:(done) eq_refl Hy') as (? & ? & _).
    split_and!; [done..|]. by apply (line_value_starts "addons_path").
  - unfold conf_ok in *. apply Forall_app in Hc as [? [? ?]%list.Forall_cons]. apply Forall_app. split; [done|].
    constructor; [|done]. by destruct (line_starts_plain "addons_path" x ltac:(done) eq_refl Hx) as (_ & -> & ->).
  - unfold settable. rewrite !Forall_app, !list.Forall_cons. intros (H1 & _ & H2). split_and!; [done| |done].
    by rewrite (line_value_starts "addons_path").
Qed.

(** ** The single sign-on *)
Lemma legacy_plain l : is_legacy l = true -> is_comment (trim_start l) = false /\ is_header l = false /\ is_section l = false.
Proof. by apply line_starts_plain. Qed.

Lemma parse_filter tgt k st ls : starts_with "nkr_sso_secret" k = false ->
  parse_section tgt k st (filter (fun l => is_legacy l = false) ls) = parse_section tgt k st ls.
Proof.
  intros Hk. revert st. induction ls as [|l ls IH]; intros st; [done|]. destruct (is_legacy l) eqn:E.
  - rewrite filter_cons_False by congruence. destruct (legacy_plain l E) as (H1 & H2 & _).
    rewrite parse_skip; [apply IH|done|done|]. intros _. by apply (line_value_starts "nkr_sso_secret").
  - rewrite filter_cons_True by done. cbn [parse_section].
    destruct (is_comment _); [apply IH|]. destruct (_ && _); [apply IH|]. destruct (negb st); [apply IH|].
    by destruct (line_value _ _).
Qed.

Lemma line_value_short k : key_ok k -> line_value k "" = None /\ line_value k "[nkr_sso]" = None.
Proof.
  intros (c & k' & -> & Hc & _)%key_cons. split; [done|]. unfold line_value. rewrite strip_prefix_cons.
  apply id_char_not in Hc as (_ & _ & Hb & _). by destruct (Ascii.eqb_spec c "[").
Qed.

Lemma secret_line_value k f : key_ok k -> k <> "secret" -> line_value k (trim_start ("secret = " +:+ f)) = None.
Proof.
  intros Hk Hne. change ("secret = " +:+ f) with ("secret" +:+ " = " +:+ f). rewrite target_start by done. apply (line_value_other "secret" k " " ("= " +:+ f)); [done|done|by left|congruence].
Qed.

(** the lines that the step adds *)
Definition sso_lines (header : bool) (f : string) : list string :=
  (if header then [] else [""; "[nkr_sso]"]) ++ ["secret = " +:+ f].

Lemma sso_section_eq fresh ls : exists f,
  sso_section fresh ls = filter (fun l => is_legacy l = false) ls
    ++ (if existsb is_sso_header ls && existsb is_secret ls then [] else sso_lines (existsb is_sso_header ls) f)
  /\ f = default fresh (legacy_val ls).
Proof.
  eexists. split; [|done]. unfold sso_section, sso_lines. destruct (_ && _); [by rewrite app_nil_r|done].
Qed.

Lemma secret_line_plain f : is_comment (trim_start ("secret = " +:+ f)) = false /\ is_header ("secret = " +:+ f) = false /\ is_section ("secret = " +:+ f) = false.
Proof.
  apply (line_starts_plain "secret"); [done|done|]. change ("secret = " +:+ f) with ("secret" +:+ " = " +:+ f). rewrite target_start by done.
  apply starts_with_spec. by eexists.
Qed.

Lemma sso_lines_unread tgt k st h f : key_ok k -> k <> "secret" -> parse_section tgt k st (sso_lines h f) = None.
Proof.
  intros Hk Hne. destruct (secret_line_plain f) as (P1 & P2 & _), (line_value_short k Hk) as [S1 S2].
  assert (E : forall st', parse_section tgt k st' ["secret = " +:+ f] = None).
  { intros st'. rewrite parse_skip; [done|done|done|]. intros _. by apply secret_line_value. }
  unfold sso_lines. destruct h; [apply E|]. cbn [app]. rewrite (parse_skip _ _ _ "") by done.
  by rewrite (parse_header _ _ _ "[nkr_sso]").
Qed.

Lemma sso_harmless fresh section k ls : plain_key k -> conf_ok ls -> harmless section k ls (sso_section fresh ls).
Proof.
  intros (Hk & _ & Hl & Hs) Hc. destruct (sso_section_eq fresh ls) as (f & E & _). rewrite E. clear E.
  set (extra := if _ && _ then [] else _).
  assert (Hx : Forall (fun l => is_header l = is_section l /\ (line_value k (trim_start l) = None)) extra).
  { destruct (secret_line_plain f) as (_ & P2 & P3), (line_value_short k Hk) as [S1 S2].
    unfold extra, sso_lines. destruct (_ && _); [constructor|].
    assert (Hsec : Forall (fun l => is_header l = is_section l /\ (line_value k (trim_start l) = None)) ["secret = " +:+ f]).
    { constructor; [|constructor]. rewrite P2, P3. split; [done|by apply secret_line_value]. }
    destruct (existsb is_sso_header ls); [exact Hsec|]. by do 2 (constructor; [done|]). }
  constructor.
  - unfold reads. rewrite parse_app, parse_filter by done. destruct (parse_section _ _ _ ls); [done|].
    unfold extra. destruct (_ && _); [done|]. by apply sso_lines_unread.
  - apply Forall_app. split.
    + apply list.Forall_forall. intros l [_ Hin]%list_elem_of_filter. by apply (proj1 (list.Forall_forall _ _) Hc).
    + eapply List.Forall_impl; [|exact Hx]. by intros l [? _].
  - intros Hset. apply Forall_app. split.
    + apply list.Forall_forall. intros l [_ Hin]%list_elem_of_filter. by apply (proj1 (list.Forall_forall _ _) Hset).
    + eapply List.Forall_impl; [|exact Hx]. intros l [_ H] Hne. by rewrite H in Hne.
Qed.

(** ** The steps together *)
Definition step_key (s : conf_step) : option string := match s with Upsert k _ => Some k | _ => None end.

Lemma step_harmless s section k ls : plain_key k -> conf_ok ls -> (forall k', step_key s = Some k' -> key_ok k' /\ (section <> "options" \/ k' <> k)) ->
  harmless section k ls (run_step ls s).
Proof.
  intros Hk Hc Hs. destruct s as [k' v|f|fresh]; cbn [run_step]; [|destruct Hk as (? & ? & _); by apply addons_harmless|by apply sso_harmless].
  destruct (Hs k' eq_refl) as [Hk' Hd]. constructor.
  - apply upsert_frame; [done|by destruct Hk|done|]. destruct Hd as [?|Hd]; [by left|right]. congruence.
  - by apply upsert_conf_ok.
  - apply upsert_settable; [done|by destruct Hk].
Qed.

Definition steps_ok (steps : list conf_step) : Prop :=
  Forall (fun s => forall k, step_key s = Some k -> key_ok k) steps.

Lemma step_conf_ok s ls : (forall k, step_key s = Some k -> key_ok k) -> conf_ok ls -> conf_ok (run_step ls s).
Proof.
  intros Hs Hc. destruct s as [k' v|f|fresh]; cbn [run_step].
  - apply upsert_conf_ok; [by apply Hs|done].
  - by apply (hl_conf "" "db_name" ls), addons_harmless.
  - by apply (hl_conf "" "db_name" ls), sso_harmless.
Qed.

(** what the last update of a key sets *)
Fixpoint last_upsert (k : string) (steps : list conf_step) : option string :=
  match steps with
  | [] => None
  | s :: steps =>
      match last_upsert k steps with
      | Some v => Some v
      | None => match s with Upsert k' v => if bool_decide (k' = k) then Some v else None | _ => None end
      end
  end.

Lemma steps_read steps k ls : plain_key k -> steps_ok steps -> conf_ok ls -> settable k ls ->
  (forall v, last_upsert k steps = Some v -> trim v <> "") ->
  reads (fold_left run_step steps ls) "options" k
  = match last_upsert k steps with Some v => Some (trim v) | None => reads ls "options" k end.
Proof.
  intros Hk. revert ls. induction steps as [|s steps IH]; intros ls Hok Hc Hset Hv; [done|].
  apply list.Forall_cons in Hok as [Hs Hok]. cbn [fold_left].
  assert (Hset' : settable k (run_step ls s)).
  { destruct s as [k' v|f|fresh]; cbn [run_step].
    - apply upsert_settable; [by apply Hs|by destruct Hk|done].
    - destruct Hk as (? & ? & _). by apply (hl_settable "" k ls), Hset; apply addons_harmless.
    - by apply (hl_settable "" k ls), Hset; apply sso_harmless. }
  rewrite IH; [|done|by apply step_conf_ok|done|].
  2:{ intros v Hl. apply Hv. cbn [last_upsert]. by rewrite Hl. }
  cbn [last_upsert] in *. destruct (last_upsert k steps) as [v|] eqn:E; [done|].
  destruct (decide (step_key s = Some k)) as [Es|Hne].
  - destruct s as [k' v|f|fresh]; try done. injection Es as ->. rewrite bool_decide_true in * by done.
    cbn [run_step]. apply upsert_read; [by destruct Hk|by apply Hv|done|done].
  - assert (H : harmless "options" k ls (run_step ls s)).
    { apply step_harmless; [done|done|]. intros k' Hk'. split; [by apply Hs|right]. congruence. }
    rewrite (hl_reads _ _ _ _ H). destruct s as [k' v|f|fresh]; try done.
    rewrite bool_decide_false; [done|]. intros ->. by destruct Hne.
Qed.

(** ** The file that is written *)
Lemma join_plain c l : c <> CR -> c <> LF -> Forall plain_text l -> plain_text (join_with c l).
Proof.
  intros H1 H2. induction 1 as [|x l Hx Hl IH]; [done|]. destruct l as [|y l]; [done|].
  change (join_with c (x :: y :: l)) with (x +:+ String c "" +:+ join_with c (y :: l)). rewrite !plain_app. split_and!; [done| |done].
  unfold plain_text. rewrite !char_in_cons. split; apply orb_false_iff; (split; [apply Ascii.eqb_neq; congruence|done]).
Qed.

Lemma plain_trim s : plain_text s -> plain_text (trim s).
Proof. intros [H1 H2]. split; apply not_true_iff_false; intros H%trim_incl; congruence. Qed.

Lemma path_parts_plain v : plain_text v -> Forall plain_text (path_parts v).
Proof.
  intros [H1 H2]. apply list.Forall_forall. intros p [_ Hp]%list_elem_of_filter. apply list_elem_of_In, in_map_iff in Hp as (q & <- & Hq).
  apply plain_trim. pose proof (split_on_chars "," _ _ H1) as F1. pose proof (split_on_chars "," _ _ H2) as F2.
  rewrite List.Forall_forall in F1, F2. by split; [apply F1|apply F2].
Qed.

(** the steps write no line breaks *)
Definition step_plain (s : conf_step) : Prop :=
  match s with
  | Upsert k v => plain_text k /\ plain_text v
  | Addons f => forall ps, Forall plain_text ps -> Forall plain_text (f ps)
  | Sso fresh => plain_text fresh
  end.

Lemma legacy_plain_val ls : Forall plain_text ls -> plain_text (default "" (legacy_val ls)).
Proof.
  unfold legacy_val. assert (H : forall acc, plain_text (default "" acc) -> Forall plain_text ls ->
    plain_text (default "" (fold_left (fun acc l => if is_legacy l then match split_once "=" l with
         | Some (_, v) => if bool_decide (trim v = "") then acc else Some (trim v)
         | None => acc end else acc) ls acc))); [|by apply H].
  induction ls as [|l ls IH]; intros acc Ha Hl; [done|]. apply list.Forall_cons in Hl as [Hl Hls]. cbn [fold_left]. apply IH; [|done].
  destruct (is_legacy l); [|done]. destruct (split_once "=" l) as [[k v]|] eqn:E; [|done].
  case_bool_decide; [done|]. cbn. apply plain_trim. apply split_once_some in E as [-> _].
  apply plain_app in Hl as [_ Hl]. change (String "=" v) with (String "=" "" +:+ v) in Hl. by apply plain_app in Hl as [_ ?].
Qed.

Lemma run_step_plain s ls : step_plain s -> Forall plain_text ls -> Forall plain_text (run_step ls s).
Proof.
  intros Hs Hl. destruct s as [k v|f|fresh]; cbn [run_step step_plain] in *.
  - apply upserted_Forall; [done| |done|done]. unfold target_line. rewrite !plain_app. by destruct Hs.
  - unfold set_addons. destruct (position is_addons ls) as [i|] eqn:E; [|done].
    destruct (position_some _ _ _ E) as (a & l & b & -> & <- & _).
    rewrite list_lookup_total_middle by done. destruct (split_once "=" l) as [[k v]|] eqn:Es; [|done].
    rewrite insert_app_r_alt, Nat.sub_diag by lia. cbn [insert list_insert].
    apply Forall_app in Hl as [Ha [Hl Hb]%list.Forall_cons]. apply Forall_app. split; [done|]. constructor; [|done].
    apply split_once_some in Es as [-> _]. change (String "=" v) with (String "=" "" +:+ v) in Hl.
    apply plain_app in Hl as [Hk [_ Hv]%plain_app]. rewrite trim_end_id by done. rewrite !plain_app.
    split_and!; [done|done|done|]. apply join_plain; [done|done|]. by apply Hs, path_parts_plain.
  - destruct (sso_section_eq fresh ls) as (f & -> & Ef). apply Forall_app. split.
    + apply list.Forall_forall. intros l [_ Hin]%list_elem_of_filter. by apply (proj1 (list.Forall_forall _ _) Hl).
    + assert (Hf : plain_text f).
      { rewrite Ef. pose proof (legacy_plain_val ls Hl). by destruct (legacy_val ls). }
      assert (Hx : Forall plain_text ["secret = " +:+ f]) by (constructor; [by apply plain_app|constructor]).
      destruct (_ && _); [constructor|]. unfold sso_lines. destruct (existsb is_sso_header ls); [exact Hx|]. by do 2 (constructor; [done|]).
Qed.

Lemma steps_plain steps ls : Forall step_plain steps -> Forall plain_text ls -> Forall plain_text (fold_left run_step steps ls).
Proof.
  intros Hs. revert ls. induction Hs as [|s steps Hs _ IH]; intros ls Hl; [done|]. cbn [fold_left]. by apply IH, run_step_plain.
Qed.

Lemma reads_text ls section k : key_ok k -> Forall plain_text ls -> reads (lines (text_of ls)) section k = reads ls section k.
Proof.
  intros Hk Hp. destruct ls as [|l ls]; [|by rewrite lines_text_of]. change (lines (text_of [])) with [""].
  unfold reads. rewrite parse_skip; [done|done|done|]. done.
Qed.

Lemma hex_digit_plain n : nth n hex_digits "0"%char <> CR /\ nth n hex_digits "0"%char <> LF.
Proof. do 16 (destruct n as [|n]; [done|]). by destruct n. Qed.

Lemma secret_plain buf : plain_text (generate_sso_secret buf).
Proof.
  apply plain_text_chars. unfold generate_sso_secret. rewrite String.list_ascii_of_string_of_list_ascii.
  apply List.Forall_flat_map, list.Forall_forall. intros b _. constructor; [apply hex_digit_plain|]. constructor; [apply hex_digit_plain|constructor].
Qed.

Record opts_ok (dst : string) (o : conf_opts) : Prop := {
  oo_dst : plain_text dst;
  oo_path : forall p, addons_path o = Some p -> plain_text p;
  oo_admin : forall p, admin_passwd o = Some p -> value_ok p;
  oo_sizes : forall z, Some z = cf_workers o \/ Some z = cf_soft o \/ Some z = cf_hard o -> 0 <= z;
}.

Lemma conf_steps_ok dst o buf : steps_ok (conf_steps dst o buf).
Proof.
  unfold steps_ok, conf_steps. rewrite !Forall_app. split_and!.
  all: try destruct (cf_workers o); try destruct (cf_soft o); try destruct (cf_hard o); try destruct (addons_path o);
    try destruct (admin_passwd o); try destruct (is_dev_like _); try destruct (cf_enterprise o);
    repeat (constructor; [intros k; cbn [step_key]; by try (intros [= <-])|]); constructor.
Qed.

Lemma opt_dec_plain (o : option Z) key : plain_text key -> (forall z, Some z = o -> 0 <= z) ->
  Forall step_plain (opt_list o (fun z => Upsert key (dec z))).
Proof. intros Hk Ho. destruct o as [z|]; [|constructor]. constructor; [|constructor]. split; [done|]. by apply plain_dec, Ho. Qed.

Lemma conf_steps_plain dst o buf : opts_ok dst o -> Forall step_plain (conf_steps dst o buf).
Proof.
  intros [Hd Hp Ha Hz]. unfold conf_steps. rewrite !Forall_app. split_and!.
  - constructor; [split; [done|by rewrite !plain_app]|]. constructor; [done|].
    constructor; [split; [done|by destruct (default true _)]|constructor].
  - apply opt_dec_plain; [done|]. intros z Hzz. apply Hz. by left.
  - apply opt_dec_plain; [done|]. intros z Hzz. apply Hz. right. by left.
  - apply opt_dec_plain; [done|]. intros z Hzz. apply Hz. right. by right.
  - destruct (addons_path o) as [p|]; [constructor; [split; [done|by apply Hp]|constructor]|].
    destruct (cf_enterprise o); [constructor|]. constructor; [|constructor]. intros ps Hps.
    apply list.Forall_forall. intros q [_ Hq]%list_elem_of_filter. by apply (proj1 (list.Forall_forall _ _) Hps).
  - constructor; [|constructor]. intros ps Hps. unfold with_systemouts. case_bool_decide; [done|]. unfold insert_at.
    apply Forall_app. split; [by apply Forall_take|]. constructor; [done|by apply Forall_drop].
  - destruct (admin_passwd o) as [p|]; [|constructor]. constructor; [|constructor]. split; [done|]. by destruct (Ha p eq_refl).
  - constructor; [apply secret_plain|]. constructor; [by split; [|apply plain_app]|]. by constructor; [|constructor].
  - destruct (is_dev_like _); [|constructor]. by repeat (constructor; [done|]).
Qed.

(** what the clone's file says *)
Definition conf_expected (dst : string) (o : conf_opts) (k : string) : option string :=
  if bool_decide (k = "dbfilter") then Some (trim ("^db-" +:+ dst +:+ "$"))
  else if bool_decide (k = "db_name") then Some (trim ("db-" +:+ dst))
  else if bool_decide (k = "logfile") then Some "/var/log/odoo/odoo.log"
  else if bool_decide (k = "list_db") then Some (if is_dev_like (cf_tier o) then "True" else "False")
  else if bool_decide (k = "proxy_mode") then Some (if default true (proxy_mode o) then "True" else "False")
  else if bool_decide (k = "workers") then trim ∘ dec <$> cf_workers o
  else if bool_decide (k = "limit_memory_soft") then trim ∘ dec <$> cf_soft o
  else if bool_decide (k = "limit_memory_hard") then trim ∘ dec <$> cf_hard o
  else if bool_decide (k = "admin_passwd") then trim <$> admin_passwd o
  else if bool_decide (k = "limit_time_cpu") then if is_dev_like (cf_tier o) then Some "600" else None
  else if bool_decide (k = "limit_time_real") then if is_dev_like (cf_tier o) then Some "1200" else None
  else None.

Lemma last_upsert_app k s1 s2 :
  last_upsert k (s1 ++ s2) = match last_upsert k s2 with Some v => Some v | None => last_upsert k s1 end.
Proof. induction s1 as [|s s1 IH]; [by cbn; destruct (last_upsert k s2)|]. cbn [app last_upsert]. rewrite IH. by destruct (last_upsert k s2). Qed.

Lemma last_upsert_in k steps v : last_upsert k steps = Some v -> In (Upsert k v) steps.
Proof.
  induction steps as [|s steps IH]; [done|]. cbn [last_upsert]. destruct (last_upsert k steps) as [w|].
  - intros [= <-]. right. by apply IH.
  - destruct s as [k' v'|f|f]; try done. case_bool_decide; [|done]. intros [= <-]. left. by subst.
Qed.

Lemma trim_head c s : is_space c = false -> trim (String c s) <> "".
Proof.
  intros Hc E. rewrite trim_both in E. rewrite trim_start_id in E by done.
  destruct (trim_end_prefix (String c s)) as [p Hp]. rewrite E in Hp.
  apply (f_equal String.list_ascii_of_string) in E. unfold trim_end in E. rewrite String.list_ascii_of_string_of_list_ascii in E.
  cbn [String.list_ascii_of_string] in E. rewrite reverse_cons in E.
  destruct (drop_spaces_stop (reverse (String.list_ascii_of_string s)) c [] Hc) as [l' El]. rewrite El in E.
  rewrite reverse_app in E. done.
Qed.

(** the values set are not blank, but for [dev_mode] and the path *)
Definition blank_key (k : string) : Prop := k = "dev_mode" \/ k = "addons_path".
Lemma conf_values dst o buf k v : opts_ok dst o -> In (Upsert k v) (conf_steps dst o buf) -> blank_key k \/ trim v <> "".
Proof.
  intros [Hd Hp Ha Hz] Hin.
  assert (Hdec : forall z, 0 <= z -> trim (dec z) <> "").
  { intros z Hz'. destruct (dec_chars z Hz') as (Hs & _ & Hne). destruct (dec z) as [|c s]; [done|].
    apply trim_head. by apply list.Forall_cons in Hs as [? _]. }
  assert (Hopt : forall (w : option Z) key, (forall z, Some z = w -> 0 <= z) ->
    In (Upsert k v) (opt_list w (fun z => Upsert key (dec z))) -> trim v <> "").
  { intros [z|] key Hw; [|done]. intros [[= _ <-]|[]]. by apply Hdec, Hw. }
  unfold conf_steps in Hin.
  apply in_app_or in Hin as [[H|[H|[H|[]]]]|Hin]; [by right; injection H as _ <-; apply trim_head|by right; injection H as _ <-|
    by right; injection H as _ <-; destruct (default true _)|].
  apply in_app_or in Hin as [H|Hin]; [right; eapply Hopt; [|exact H]; intros z Hzz; apply Hz; by left|].
  apply in_app_or in Hin as [H|Hin]; [right; eapply Hopt; [|exact H]; intros z Hzz; apply Hz; right; by left|].
  apply in_app_or in Hin as [H|Hin]; [right; eapply Hopt; [|exact H]; intros z Hzz; apply Hz; right; by right|].
  apply in_app_or in Hin as [H|Hin].
  { destruct (addons_path o); [destruct H as [[= <- _]|[]]; left; by right|]. by destruct (cf_enterprise o); [|destruct H]. }
  apply in_app_or in Hin as [[H|[]]|Hin]; [done|].
  apply in_app_or in Hin as [H|Hin].
  { destruct (admin_passwd o) as [p|]; [|done]. destruct H as [[= _ <-]|[]]. right. by destruct (Ha p eq_refl). }
  apply in_app_or in Hin as [[H|[H|[H|[]]]]|H]; [done|right; injection H as _ <-; by apply trim_head|by right; injection H as _ <-|].
  destruct (is_dev_like _); [|done].
  destruct H as [H|[H|[H|[H|[]]]]]; [left; left; by injection H|right; by injection H as _ <-..].
Qed.

Lemma conf_last dst o buf k : plain_key k -> k <> "dev_mode" ->
  trim <$> last_upsert k (conf_steps dst o buf) = conf_expected dst o k.
Proof.
  intros (_ & Ha & _) Hdev. assert (Hap : "addons_path" <> k) by (by intros <-).
  unfold conf_steps. rewrite !last_upsert_app.
  assert (Hpath : last_upsert k (match addons_path o with
     | Some p => [Upsert "addons_path" p]
     | None => if cf_enterprise o then [] else [Addons no_enterprise] end) = None).
  { destruct (addons_path o); [cbn; by rewrite bool_decide_false|]. by destruct (cf_enterprise o). }
  rewrite Hpath. cbn [last_upsert].
  assert (Hopt : forall (w : option Z) key, last_upsert k (opt_list w (fun z => Upsert key (dec z))) = if bool_decide (k = key) then dec <$> w else None).
  { intros [z|] key; cbn; [|by case_bool_decide]. by rewrite (bool_decide_ext (key = k) (k = key)) by done. }
  assert (Hadm : last_upsert k (opt_list (admin_passwd o) (Upsert "admin_passwd")) = if bool_decide (k = "admin_passwd") then admin_passwd o else None).
  { destruct (admin_passwd o); cbn; [|by case_bool_decide]. by rewrite (bool_decide_ext ("admin_passwd" = k) (k = "admin_passwd")) by done. }
  rewrite !Hopt, Hadm. unfold conf_expected.
  assert (Hsw : forall key, bool_decide (key = k) = bool_decide (k = key)) by (intros; by apply bool_decide_ext).
  rewrite !Hsw.
  destruct (is_dev_like _); cbn [last_upsert]; rewrite ?Hsw, ?(bool_decide_false (k = "dev_mode")) by done;
    repeat (case_bool_decide; [subst k; try done; try (by destruct (cf_workers o)); try (by destruct (cf_soft o));
      try (by destruct (cf_hard o)); try (by destruct (admin_passwd o)); by destruct (default true (proxy_mode o))|]); done.
Qed.

Lemma rewrite_lines_file dst o buf content section k : char_in CR content = false -> opts_ok dst o -> key_ok k ->
  exists new, rewrite_odoo_conf_full dst o buf (Some content) = Some new
    /\ reads (lines new) section k = reads (rewrite_lines dst o buf (lines content)) section k.
Proof.
  intros Hc Ho Hk. eexists. split; [done|]. apply reads_text; [done|].
  apply steps_plain; [by apply conf_steps_plain|by apply lines_plain].
Qed.

(** The configuration of a clone reads back: every key of the options that the clone sets
    has the value of the request (database, filter, log file, workers, limits, list_db by
    tier, ...), and every other key has the value that the source has.  (The add-on path,
    [dev_mode], which is set to nothing, and the key of the single sign-on are not among
    these keys.) *)
Theorem clone_conf_read_back dst o buf content k :
  char_in CR content = false -> conf_ok (lines content) -> opts_ok dst o ->
  plain_key k -> k <> "dev_mode" -> settable k (lines content) ->
  exists new, rewrite_odoo_conf_full dst o buf (Some content) = Some new
    /\ parse_conf_value_in_section new "options" k
       = match conf_expected dst o k with Some v => Some v | None => parse_conf_value_in_section content "options" k end.
Proof.
  intros Hcr Hc Ho Hk Hdev Hset. pose proof Hk as (Hok & Ha & _).
  destruct (rewrite_lines_file dst o buf content "options" k Hcr Ho Hok) as (new & -> & E).
  exists new. split; [done|]. unfold parse_conf_value_in_section. fold (reads (lines new) "options" k) (reads (lines content) "options" k).
  rewrite E. unfold rewrite_lines. rewrite steps_read; [|done|apply conf_steps_ok|done|done|].
  - rewrite <- (conf_last dst o buf k Hk Hdev). by destruct (last_upsert _ _).
  - intros v Hv%last_upsert_in. destruct (conf_values dst o buf k v Ho Hv) as [[?|Hp]|?]; [done|by rewrite Hp in Ha|done].
Qed.

(** ** The key of the single sign-on *)
Lemma parse_found tgt k st ls s : parse_section tgt k st ls = Some s ->
  (st = true \/ Exists (fun l => trim l = tgt) ls) /\ Exists (fun l => line_value k (trim_start l) = Some s) ls.
Proof.
  revert st. induction ls as [|l ls IH]; intros st; [done|]. cbn [parse_section].
  destruct (is_comment _).
  { intros H%IH. destruct H as [[?|?] ?]; split; [by left|by right|right; by right|by right]. }
  destruct (_ && _).
  { intros H%IH. destruct H as [[H|?] ?]; split; [|by right|right; by right|by right].
    right. left. apply bool_decide_eq_true in H. by rewrite trim_both. }
  destruct st; cbn [negb].
  - destruct (line_value k _) eqn:E.
    + intros [= ->]. split; [by left|by left].
    + intros H%IH. destruct H as [_ ?]. split; [by left|by right].
  - intros H%IH. destruct H as [[?|?] ?]; [done|]. split; [right; by right|by right].
Qed.

Lemma value_is_secret l s : line_value "secret" (trim_start l) = Some s -> is_secret l = true.
Proof.
  unfold line_value. destruct (strip_prefix "secret" _) as [rest|] eqn:E1; [|done]. cbn [mbind option_bind].
  destruct (strip_prefix "=" _) as [r2|] eqn:E2; [|done]. cbn [mbind option_bind].
  case_bool_decide as Hv; [done|]. intros _. apply strip_prefix_some in E1, E2.
  destruct (trim_start_split l) as (w & El & Hw), (trim_start_split rest) as (w2 & Er & Hw2).
  rewrite E1, Er, E2 in El. unfold is_secret.
  assert (Hplain : forall ws, Forall (fun c => is_space c = true) ws -> char_in "=" (String.string_of_list_ascii ws) = false).
  { induction 1 as [|c ws Hc _ IH]; [done|]. cbn [String.string_of_list_ascii]. rewrite char_in_cons, IH, orb_false_r.
    destruct (Ascii.eqb_spec "=" c) as [<-|]; [by vm_compute in Hc|done]. }
  rewrite El. change ("=" +:+ r2) with (String "=" r2).
  rewrite <- !string_app_assoc. rewrite split_once_plain.
  - apply andb_true_iff. split; [|by rewrite bool_decide_false].
    apply bool_decide_eq_true.
    replace ((String.string_of_list_ascii w +:+ "secret") +:+ String.string_of_list_ascii w2)
      with (String.string_of_list_ascii (w ++ String.list_ascii_of_string "secret" ++ w2)).
    + apply trim_inside; [done|done|by repeat constructor|done].
    + apply list_ascii_inj. rewrite !list_ascii_app, !String.list_ascii_of_string_of_list_ascii. by rewrite app_assoc.
  - rewrite !char_in_app, !Hplain by done. done.
Qed.

(** a step that has nothing to do with the single sign-on *)
Definition quiet (s : conf_step) : Prop :=
  match s with
  | Upsert k v => key_ok k /\ is_legacy (target_line k v) = false
  | Addons _ => True
  | Sso _ => False
  end.
(** no section and no old key *)
Definition no_sso (l : string) : Prop := is_sso_header l = false /\ is_legacy l = false.

Lemma plain_no_header l : is_section l = false -> is_sso_header l = false.
Proof.
  intros H. unfold is_sso_header. apply bool_decide_eq_false. intros E. unfold is_section in H. by rewrite E in H.
Qed.

Lemma quiet_step s ls : quiet s -> conf_ok ls ->
  reads (run_step ls s) "nkr_sso" "secret" = reads ls "nkr_sso" "secret" /\ conf_ok (run_step ls s)
  /\ (Forall no_sso ls -> Forall no_sso (run_step ls s)).
Proof.
  intros Hq Hc. destruct s as [k v|f|fresh]; [| |done]; cbn [run_step quiet] in *.
  - destruct Hq as [Hk Hl]. split_and!; [apply upsert_frame; [done|done|done|by left]|by apply upsert_conf_ok|].
    intros Hn. apply upserted_Forall; [done| |done|done]. split; [|done].
    destruct (target_keyed k v Hk) as [Ht _]. destruct (keyed_plain k _ Hk Ht) as (_ & _ & Hs). by apply plain_no_header.
  - destruct (addons_harmless f "nkr_sso" "secret" ls ltac:(done) eq_refl Hc) as [H1 H2 _].
    split_and!; [done|done|]. intros Hn. destruct (set_addons_cases f ls) as [->|(a & l & b & x & -> & -> & _ & Hx)]; [done|].
    apply Forall_app in Hn as [Ha [_ Hb]%list.Forall_cons]. apply Forall_app. split; [done|]. constructor; [|done].
    destruct (line_starts_plain "addons_path" x ltac:(done) eq_refl Hx) as (_ & _ & Hs).
    split; [by apply plain_no_header|]. unfold is_legacy. by apply starts_with_spec in Hx as [r ->].
Qed.

Lemma quiet_steps steps ls : Forall quiet steps -> conf_ok ls ->
  reads (fold_left run_step steps ls) "nkr_sso" "secret" = reads ls "nkr_sso" "secret" /\ conf_ok (fold_left run_step steps ls)
  /\ (Forall no_sso ls -> Forall no_sso (fold_left run_step steps ls)).
Proof.
  intros Hq. revert ls. induction Hq as [|s steps Hs _ IH]; intros ls Hc; [done|]. cbn [fold_left].
  destruct (quiet_step s ls Hs Hc) as (R & C & N), (IH _ (proj1 (proj2 (quiet_step s ls Hs Hc)))) as (R2 & C2 & N2).
  split_and!; [by rewrite R2|done|auto].
Qed.

Lemma conf_steps_split dst o buf : exists s1 s2, conf_steps dst o buf = s1 ++ Sso (generate_sso_secret buf) :: s2
  /\ Forall quiet s1 /\ Forall quiet s2.
Proof.
  exists ([Upsert "dbfilter" ("^db-" +:+ dst +:+ "$"); Upsert "list_db" "False";
     Upsert "proxy_mode" (if default true (proxy_mode o) then "True" else "False")]
    ++ opt_list (cf_workers o) (fun w => Upsert "workers" (dec w))
    ++ opt_list (cf_soft o) (fun z => Upsert "limit_memory_soft" (dec z))
    ++ opt_list (cf_hard o) (fun z => Upsert "limit_memory_hard" (dec z))
    ++ match addons_path o with
       | Some p => [Upsert "addons_path" p]
       | None => if cf_enterprise o then [] else [Addons no_enterprise]
       end
    ++ [Addons with_systemouts] ++ opt_list (admin_passwd o) (Upsert "admin_passwd")),
    (Upsert "db_name" ("db-" +:+ dst) :: Upsert "logfile" "/var/log/odoo/odoo.log"
     :: (if is_dev_like (cf_tier o)
         then [Upsert "dev_mode" ""; Upsert "limit_time_cpu" "600"; Upsert "limit_time_real" "1200"; Upsert "list_db" "True"]
         else [])).
  split; [unfold conf_steps; by rewrite <- !app_assoc|].
  assert (Hopt : forall (w : option Z) key, key_ok key -> (forall v, is_legacy (target_line key v) = false) ->
    Forall quiet (opt_list w (fun z => Upsert key (dec z)))) by (intros [z|] key Hk Hl; repeat constructor; try apply Hk; apply Hl).
  split.
  - rewrite !Forall_app. split_and!; [by repeat (constructor; [done|])|by apply Hopt..| |by constructor|].
    + destruct (addons_path o); [by constructor|]. destruct (cf_enterprise o); by constructor.
    + destruct (admin_passwd o); by constructor.
  - do 2 (constructor; [done|]). destruct (is_dev_like _); [|constructor]. by repeat (constructor; [done|]).
Qed.

Lemma sso_keeps fresh ls s : reads ls "nkr_sso" "secret" = Some s -> reads (sso_section fresh ls) "nkr_sso" "secret" = Some s.
Proof.
  intros H. unfold reads in *. destruct (parse_found _ _ _ _ _ H) as [[?|Hh] Hv]; [done|].
  assert (E1 : existsb is_sso_header ls = true).
  { apply existsb_exists. apply List.Exists_exists in Hh as (l & Hin & Hl). exists l. split; [done|]. by apply bool_decide_eq_true. }
  assert (E2 : existsb is_secret ls = true).
  { apply existsb_exists. apply List.Exists_exists in Hv as (l & Hin & Hl). exists l. split; [done|]. by eapply value_is_secret. }
  unfold sso_section. rewrite E1, E2. cbn [andb]. by rewrite parse_filter.
Qed.

Lemma sso_fresh fresh ls : Forall no_sso ls -> trim fresh <> "" -> reads (sso_section fresh ls) "nkr_sso" "secret" = Some (trim fresh).
Proof.
  intros Hn Hf. destruct (sso_section_eq fresh ls) as (f & E & Ef).
  assert (E1 : existsb is_sso_header ls = false).
  { apply not_true_iff_false. intros (l & Hin & Hl)%existsb_exists. rewrite List.Forall_forall in Hn. destruct (Hn l Hin). congruence. }
  assert (E2 : legacy_val ls = None).
  { unfold legacy_val. clear E E1 Ef. generalize (@None string) as acc. induction Hn as [|l ls [_ Hl] _ IH]; intros acc; [done|].
    cbn [fold_left]. by rewrite Hl. }
  rewrite E, E1. cbn [andb]. rewrite E2 in Ef. cbn in Ef. subst f. unfold reads. rewrite parse_app, parse_filter by done.
  destruct (parse_section _ _ _ ls) as [s|] eqn:Es.
  { destruct (parse_found _ _ _ _ _ Es) as [[?|Hh] _]; [done|]. apply List.Exists_exists in Hh as (l & Hin & Hl).
    rewrite List.Forall_forall in Hn. destruct (Hn l Hin) as [Hnl _]. by apply bool_decide_eq_false in Hnl. }
  destruct (secret_line_plain fresh) as (P1 & P2 & _). unfold sso_lines. cbn [app].
  rewrite (parse_skip _ _ _ "") by done. rewrite (parse_header _ _ _ "[nkr_sso]") by done.
  rewrite bool_decide_true by done. cbn [parse_section]. unfold is_header in P2. rewrite P1, P2. cbn [negb].
  change ("secret = " +:+ fresh) with ("secret" +:+ " = " +:+ fresh). rewrite target_start by done. by rewrite line_value_same.
Qed.

(** The key of the single sign-on: a clone whose source has one in its section has the same
    key, whatever the random bytes; only a source without the section (and without the
    old key in the options) gets the new random key. *)
Theorem clone_sso_secret dst o buf content :
  char_in CR content = false -> conf_ok (lines content) -> opts_ok dst o ->
  exists new, rewrite_odoo_conf_full dst o buf (Some content) = Some new
    /\ (forall s, parse_conf_value_in_section content "nkr_sso" "secret" = Some s ->
        parse_conf_value_in_section new "nkr_sso" "secret" = Some s)
    /\ (Forall no_sso (lines content) -> trim (generate_sso_secret buf) <> "" ->
        parse_conf_value_in_section new "nkr_sso" "secret" = Some (trim (generate_sso_secret buf))).
Proof.
  intros Hcr Hc Ho. destruct (rewrite_lines_file dst o buf content "nkr_sso" "secret" Hcr Ho ltac:(done)) as (new & -> & E).
  exists new. split; [done|]. unfold parse_conf_value_in_section. fold (reads (lines new) "nkr_sso" "secret") (reads (lines content) "nkr_sso" "secret").
  rewrite E. unfold rewrite_lines. destruct (conf_steps_split dst o buf) as (s1 & s2 & -> & Q1 & Q2).
  rewrite fold_left_app. cbn [fold_left run_step]. destruct (quiet_steps s1 _ Q1 Hc) as (R1 & C1 & N1).
  assert (C2 : conf_ok (sso_section (generate_sso_secret buf) (fold_left run_step s1 (lines content)))).
  { apply (hl_conf "" "db_name" (fold_left run_step s1 (lines content))), sso_harmless; done. }
  destruct (quiet_steps s2 _ Q2 C2) as (R2 & _). split.
  - intros s Hs. rewrite R2. apply sso_keeps. by rewrite R1.
  - intros Hn Hf. rewrite R2. apply sso_fresh; [by apply N1|done].
Qed.

(** ** A clone of a template *)
Module CloneConfExample.
Definition template : list string :=
  ["[options]"; "addons_path = /usr/lib/odoo/addons,/mnt/extra-addons,/mnt/extra-enterprise"; "db_name = db-c18-acme";
   "list_db = True"; "max_cron_threads = 1"; "[nkr_sso]"; "secret = 5f0c"].
Definition content : string := unlines template.
Definition opts : conf_opts := mkConfOpts None (Some 2) None None None false (Some "s3cret pass") Production.
Definition buf : list Z := [18; 52; 171].
(** a file without the section *)
Definition bare : string := unlines ["[options]"; "workers = 4"].
(** a section without its key, before the options *)
Definition empty_section : string := unlines ["[nkr_sso]"; "[options]"; "workers = 4"].

Lemma opts_fine : opts_ok "c18-beta" opts.
Proof. constructor; try done; cbn; [intros p [= <-]; by vm_compute|]. intros z [[= ->]|[?|?]]; done. Qed.
Lemma conf_fine : conf_ok (lines content) /\ conf_ok (lines bare).
Proof. split; by repeat (constructor; [by vm_compute|]). Qed.

(** the path of a community clone *)
Example path : parse_conf_value_in_section
    (default "" (rewrite_odoo_conf_full "c18-beta" opts buf (Some content))) "options" "addons_path"
  = Some "/usr/lib/odoo/addons,/mnt/systemouts-addons,/mnt/extra-addons".
Proof. by vm_compute. Qed.
End CloneConfExample.

Theorem clone_conf_read_back_witness :
  exists new, rewrite_odoo_conf_full "c18-beta" CloneConfExample.opts CloneConfExample.buf (Some CloneConfExample.content) = Some new
    /\ parse_conf_value_in_section new "options" "list_db" = Some "False".
Proof.
  refine (match clone_conf_read_back "c18-beta" CloneConfExample.opts CloneConfExample.buf CloneConfExample.content "list_db" _ _ _ _ _ _ with
          | ex_intro _ new (conj H1 H2) => ex_intro _ new (conj H1 H2) end).
  - by vm_compute.
  - apply CloneConfExample.conf_fine.
  - apply CloneConfExample.opts_fine.
  - by vm_compute.
  - done.
  - repeat (constructor; [by vm_compute|]). constructor.
Defined.

Theorem clone_sso_secret_witness :
  (exists new, rewrite_odoo_conf_full "c18-beta" CloneConfExample.opts CloneConfExample.buf (Some CloneConfExample.content) = Some new
    /\ parse_conf_value_in_section new "nkr_sso" "secret" = Some "5f0c")
  /\ (exists new, rewrite_odoo_conf_full "c18-beta" CloneConfExample.opts CloneConfExample.buf (Some CloneConfExample.bare) = Some new
    /\ parse_conf_value_in_section new "nkr_sso" "secret" = Some "1234ab").
Proof.
  split.
  - destruct (clone_sso_secret "c18-beta" CloneConfExample.opts CloneConfExample.buf CloneConfExample.content) as (new & H1 & H2 & _);
      [by vm_compute|apply CloneConfExample.conf_fine|apply CloneConfExample.opts_fine|].
    exists new. split; [exact H1|]. apply H2. by vm_compute.
  - destruct (clone_sso_secret "c18-beta" CloneConfExample.opts CloneConfExample.buf CloneConfExample.bare) as (new & H1 & _ & H2);
      [by vm_compute|apply CloneConfExample.conf_fine|apply CloneConfExample.opts_fine|].
    exists new. split; [exact H1|]. apply H2; [|by vm_compute].
    change (lines CloneConfExample.bare) with ["[options]"; "workers = 4"]. constructor; [split; vm_compute; reflexivity|].
    constructor; [split; vm_compute; reflexivity|constructor].
Defined.

(** A key that is missing is written at the end of the file, whatever section that is. *)
Example secret_out_of_section :
  parse_conf_value_in_section
    (default "" (rewrite_odoo_conf_full "c18-beta" CloneConfExample.opts CloneConfExample.buf (Some CloneConfExample.empty_section)))
    "nkr_sso" "secret" = None
  /\ parse_conf_value_in_section
    (default "" (rewrite_odoo_conf_full "c18-beta" CloneConfExample.opts CloneConfExample.buf (Some CloneConfExample.empty_section)))
    "options" "secret" = Some "1234ab".
Proof. by vm_compute. Qed.
