(* ===== verification/Cells.v ===== *)
(** * Cells (src/cell.rs)

    A cell is a group of VMs with a network of its own.  The registry of cells maps names
    to identifiers; it is a JSON file, here its contents.  A new instance is placed in a cell
    by its version, its load and the projects it has. *)
From S2P Require Import Prelude Text Http Watchdog Sorting Registry FileLock State.

Definition MIN_CELL_ID : Z := 1.
Definition MAX_CELL_ID : Z := 254.

(** ** The registry of cells *)
Definition next_free_id (reg : Registry) : option Z :=
  find (fun id => negb (bool_decide (id ∈ used_ids reg))) (seqZ MIN_CELL_ID (MAX_CELL_ID - MIN_CELL_ID + 1)).

Inductive cell_error := CellNameEmpty | CellExists (id : Z) | NoFreeCell.

(** the part of [create_cell] under the lock: the identifier, and the registry to save *)
Definition create_cell (name : string) (f : file) : (cell_error + Z) * option file :=
  let reg := load f in
  let key := vm_key name in
  if bool_decide (key = "") then (inl CellNameEmpty, None)
  else match reg !! key with
  | Some id => (inl (CellExists id), None)
  | None =>
      match next_free_id reg with
      | None => (inl NoFreeCell, None)
      | Some id => (inr id, Some (Some (<[key := id]> reg)))
      end
  end.

(** [Some id]: the cell was there *)
Definition destroy_cell (name : string) (f : file) : option Z * option file :=
  let reg := load f in
  match reg !! vm_key name with
  | Some id => (Some id, Some (Some (delete (vm_key name) reg)))
  | None => (None, None)
  end.

Definition lookup_cell_id (name : string) (f : file) : option Z := load f !! vm_key name.
(** the cell of an identifier; 0 is the network without cells *)
Definition lookup_cell_name (cell_id : Z) (f : file) : option string :=
  if cell_id =? 0 then None
  else fst <$> find (fun '(_, v) => v =? cell_id) (map_to_list (load f)).

Definition cell_id_to_subnet (cell_id : Z) : string := "10.0." +:+ dec cell_id.
Definition cell_bridge_name (cell_id : Z) : string :=
  if cell_id =? 0 then "nkr0" else "nkr-br" +:+ dec cell_id.

Inductive cell_call := Create (name : string) | Destroy (name : string).
Inductive cell_result := Created (r : cell_error + Z) | Destroyed (r : option Z).
Definition cell_exec (c : cell_call) (f : file) : cell_result * option file :=
  match c with
  | Create n => let '(r, s) := create_cell n f in (Created r, s)
  | Destroy n => let '(r, s) := destroy_cell n f in (Destroyed r, s)
  end.

(** ** The names of instances *)
Definition is_template_instance (name : string) : bool :=
  ends_with "-odoo-template" name || ends_with "-odoo-template-enterprise" name.
Definition ensure_cell_prefix (cell_name nkr_name : string) : string :=
  let prefix := cell_name +:+ "-" in
  if starts_with prefix nkr_name then nkr_name else prefix +:+ nkr_name.
Definition cell_template_community_name (cell_name : string) : string := cell_name +:+ "-odoo-template".
Definition cell_template_enterprise_name (cell_name : string) : string := cell_name +:+ "-odoo-template-enterprise".
Definition is_template_name (cell_name nkr_name : string) : bool :=
  bool_decide (nkr_name = cell_template_community_name cell_name)
  || bool_decide (nkr_name = cell_template_enterprise_name cell_name).

(** ** Placing an instance *)
Definition MAX_ODOOS_PER_CELL : nat := 21.
(** a directory under instances/, with the project of its meta.json if it has one *)
Record inst_dir := mkInst { in_name : string; in_project : option string }.
Record CellConfig := mkCellConfig {
  cl_name : string; cell_id : Z; odoo_version : option string;
  cl_instances : list inst_dir }.
Definition sum_committed_ram_in_cell (vms : list VmState) (cid : Z) : Z :=
  foldr Z.add 0 (map State.ram_mb (filter (fun v => State.cell_id v = cid) vms)).

Definition count_odoo_instances (c : CellConfig) : nat :=
  length (filter (fun i => is_template_instance (in_name i) = false) (cl_instances c)).
Definition list_unique_projects_in_cell (c : CellConfig) : gset string :=
  list_to_set (map (fun i => default (in_name i) (in_project i))
    (filter (fun i => is_template_instance (in_name i) = false) (cl_instances c))).

(** [v.split('.').next()] *)
Definition major (v : string) : string := List.hd "" (split_on "." v).
Definition has_major (want : string) (c : CellConfig) : bool :=
  bool_decide (major <$> odoo_version c = Some (major want)).

Inductive select_error :=
  | NoCellOfVersion | AllCellsFull
  | ParentNotFound | ParentVersionMismatch | ParentCellFull.

Definition select_cell_for_version (vms : list VmState) (cells : list CellConfig) (version : string) : select_error + CellConfig :=
  let candidates := filter (fun c => has_major version c = true) cells in
  match candidates with
  | [] => inl NoCellOfVersion
  | _ =>
      let with_slots := filter (fun c => (count_odoo_instances c <? MAX_ODOOS_PER_CELL)%nat = true) candidates in
      match sort_by_key (fun c => [sum_committed_ram_in_cell vms (cell_id c); cell_id c]) with_slots with
      | c :: _ => inr c
      | [] => inl AllCellsFull
      end
  end.

Definition find_cell_by_nkr_name (cells : list CellConfig) (nkr_name : string) : option CellConfig :=
  find (fun c => existsb (fun i => bool_decide (in_name i = nkr_name)) (cl_instances c)) cells.

Definition select_cell_v3 (vms : list VmState) (cells : list CellConfig) (max_projects : nat) (version : string) (parent : option string)
  : select_error + CellConfig :=
  match parent with
  | Some p =>
      match find_cell_by_nkr_name cells p with
      | None => inl ParentNotFound
      | Some c =>
          if negb (has_major version c) then inl ParentVersionMismatch
          else if (MAX_ODOOS_PER_CELL <=? count_odoo_instances c)%nat then inl ParentCellFull
          else inr c
      end
  | None =>
      let candidates := filter (fun c => has_major version c = true) cells in
      match candidates with
      | [] => inl NoCellOfVersion
      | _ =>
          let projects c := size (list_unique_projects_in_cell c) in
          let with_slots := filter (fun c => (projects c <? max_projects)%nat = true) candidates in
          match sort_by_key (fun c => [Z.of_nat (projects c); sum_committed_ram_in_cell vms (cell_id c); cell_id c]) with_slots with
          | c :: _ => inr c
          | [] => inl AllCellsFull
          end
      end
  end.

(** ** The registry, one call after the other *)
Definition cells_ok (reg : Registry) : Prop :=
  (forall k id, reg !! k = Some id -> MIN_CELL_ID <= id <= MAX_CELL_ID)
  /\ forall k1 k2 id, reg !! k1 = Some id -> reg !! k2 = Some id -> k1 = k2.

Lemma elem_used reg id : id ∈ used_ids reg <-> exists k, reg !! k = Some id.
Proof.
  unfold used_ids. rewrite list_elem_of_In, in_map_iff. split.
  - intros ([k v] & <- & Hin). exists k. by apply elem_of_map_to_list, list_elem_of_In.
  - intros [k Hk]. exists (k, id). split; [done|]. by apply list_elem_of_In, elem_of_map_to_list.
Qed.

Lemma find_free (used : list Z) n lo id : find (fun id => negb (bool_decide (id ∈ used))) (seqZ lo (Z.of_nat n)) = Some id ->
  lo <= id < lo + Z.of_nat n /\ id ∉ used /\ forall j, lo <= j < id -> j ∈ used.
Proof.
  revert lo. induction n as [|n IH]; intros lo; [done|]. rewrite seqZ_cons by lia. simpl.
  destruct (bool_decide (lo ∈ used)) eqn:E; simpl.
  - apply bool_decide_eq_true in E. rewrite Nat2Z.inj_succ, Z.pred_succ. intros (H1 & H2 & H3)%IH.
    split_and!; [lia..|done|]. intros j Hj. destruct (decide (j = lo)) as [->|]; [done|]. apply H3. lia.
  - apply bool_decide_eq_false in E. intros [= <-]. split_and!; [lia..|done|lia].
Qed.

Lemma next_free_spec reg id : next_free_id reg = Some id ->
  MIN_CELL_ID <= id <= MAX_CELL_ID /\ (forall k, reg !! k <> Some id)
  /\ forall j, MIN_CELL_ID <= j < id -> exists k, reg !! k = Some j.
Proof.
  intros (H1 & H2 & H3)%(find_free (used_ids reg) 254). unfold MIN_CELL_ID, MAX_CELL_ID in *. split_and!; [lia..| |].
  - intros k Hk. apply H2, elem_used. by exists k.
  - intros j Hj. by apply elem_used, H3.
Qed.

Lemma create_cases name f r s : create_cell name f = (r, s) ->
  (s = None /\ match r with inl _ => True | inr _ => False end)
  \/ exists id, r = inr id /\ s = Some (Some (<[vm_key name := id]> (load f))) /\ load f !! vm_key name = None
       /\ next_free_id (load f) = Some id.
Proof.
  unfold create_cell. case_bool_decide; [intros [= <- <-]; by left|].
  destruct (load f !! _) eqn:E; [intros [= <- <-]; by left|].
  destruct (next_free_id _) as [id|] eqn:En; [|intros [= <- <-]; by left].
  intros [= <- <-]. right. by exists id.
Qed.

(** the key that a call may remove *)
Definition destroys (key : string) (c : cell_call) : Prop := match c with Create _ => False | Destroy n => vm_key n = key end.

Lemma cell_exec_ok c f r s : cells_ok (load f) -> cell_exec c f = (r, s) ->
  cells_ok (load (default f s))
  /\ (forall key id, load f !! key = Some id -> ~ destroys key c -> load (default f s) !! key = Some id)
  /\ (forall n id, c = Create n -> r = Created (inr id) ->
       MIN_CELL_ID <= id <= MAX_CELL_ID /\ load f !! vm_key n = None /\ (forall k, load f !! k <> Some id)
       /\ (forall j, MIN_CELL_ID <= j < id -> exists k, load f !! k = Some j)
       /\ load (default f s) !! vm_key n = Some id).
Proof.
  intros [Hr Hi]. destruct c as [n|n]; cbn [cell_exec].
  - destruct (create_cell n f) as [r' s'] eqn:E. intros [= <- <-].
    destruct (create_cases n f r' s' E) as [[-> Hl]|(id & -> & -> & Hnone & Hfree)].
    + split_and!; [by split|done|]. intros ? ? _ [= ->]. done.
    + apply next_free_spec in Hfree as (Hid & Hnew & Hleast). cbn. split_and!.
      * split.
        -- intros k i [[_ <-]|[_ Hk]]%lookup_insert_Some; [done|by eapply Hr].
        -- intros k1 k2 i [[<- <-]|[N1 H1]]%lookup_insert_Some [[<- E2]|[N2 H2]]%lookup_insert_Some;
             [done|by destruct (Hnew k2)|subst i; by destruct (Hnew k1)|by eapply Hi].
      * intros key i Hk _. rewrite lookup_insert_ne by congruence. done.
      * intros n' i [= <-] [= <-]. split_and!; [lia..|done|done|done|]. by rewrite lookup_insert_eq.
  - unfold destroy_cell. destruct (load f !! vm_key n) as [id|] eqn:E; intros [= <- <-]; cbn.
    + split_and!; [|intros key i Hk Hd; rewrite lookup_delete_ne; [done|exact Hd]|done].
      split.
      * intros k i [_ Hk]%lookup_delete_Some. by eapply Hr.
      * intros k1 k2 i [_ H1]%lookup_delete_Some [_ H2]%lookup_delete_Some. by eapply Hi.
    + split_and!; [by split|done|done].
Qed.

Lemma run_cells_ok cs f f' l : run_calls cell_exec cs f = (f', l) -> cells_ok (load f) ->
  cells_ok (load f')
  /\ (forall key id, load f !! key = Some id -> Forall (fun c => ~ destroys key c) cs -> load f' !! key = Some id).
Proof.
  revert f l. induction cs as [|c cs IH]; intros f l; cbn [run_calls]; [by intros [= <- <-]|].
  destruct (cell_exec c f) as [r s] eqn:Ec. destruct (run_calls cell_exec cs (default f s)) as [f2 l2] eqn:E.
  intros [= <- <-] Hok. destruct (cell_exec_ok c f r s Hok Ec) as (Hok1 & Hkeep & _).
  destruct (IH _ _ E Hok1) as [R1 R2]. split; [done|]. intros key id Hk [Hd Hds]%list.Forall_cons. apply R2; [|done]. by apply Hkeep.
Qed.

Lemma lookup_cell_name_spec f id : cells_ok (load f) -> id <> 0 ->
  forall k, lookup_cell_name id f = Some k <-> load f !! k = Some id.
Proof.
  intros [_ Hi] Hid k. unfold lookup_cell_name. rewrite (proj2 (Z.eqb_neq id 0)) by done.
  match goal with |- fst <$> ?x = _ <-> _ => destruct x as [[k' v]|] eqn:E end; cbn.
  - apply find_some in E as [Hin Hv]. apply Z.eqb_eq in Hv as ->. apply list_elem_of_In, elem_of_map_to_list in Hin.
    split; [by intros [= <-]|]. intros Hk. f_equal. by apply (Hi k' k id).
  - split; [discriminate|]. intros Hk. exfalso.
    apply elem_of_map_to_list, list_elem_of_In in Hk. apply (find_none _ _ E) in Hk. by apply Z.eqb_neq in Hk.
Qed.

(** Cells, one call after the other: a cell that is created gets the least free identifier
    between 1 and 254 (one subnet each), keeps it through whatever creations and removals
    of other cells, and is found by it. *)
Theorem cell_ids_sound name f id f1 cs f' l :
  cells_ok (load f) -> create_cell name f = (inr id, f1) ->
  Forall (fun c => ~ destroys (vm_key name) c) cs -> run_calls cell_exec cs (default f f1) = (f', l) ->
  MIN_CELL_ID <= id <= MAX_CELL_ID
  /\ (forall j, MIN_CELL_ID <= j < id -> exists k, load f !! k = Some j) /\ (forall k, load f !! k <> Some id)
  /\ cells_ok (load f') /\ lookup_cell_id name f' = Some id /\ lookup_cell_name id f' = Some (vm_key name).
Proof.
  intros Hok Hc Hd Hrun.
  assert (Ec : cell_exec (Create name) f = (Created (inr id), f1)) by (cbn; by rewrite Hc).
  destruct (cell_exec_ok _ _ _ _ Hok Ec) as (Hok1 & _ & Hnew).
  destruct (Hnew name id eq_refl eq_refl) as (Hid & _ & Hfresh & Hleast & Hk).
  destruct (run_cells_ok _ _ _ _ Hrun Hok1) as [Hok' Hkeep]. pose proof (Hkeep _ _ Hk Hd) as Hk'.
  split_and!; [lia..|done|done|done|done|].
  assert (Hne : id <> 0) by (unfold MIN_CELL_ID in Hid; lia).
  by apply lookup_cell_name_spec.
Qed.

(** ** Placing an instance *)
(** The choice both selections end with: a least candidate, and none only when no candidate has room. *)
Lemma choose_least {A} (key : A -> list Z) (P Q : A -> bool) (cells : list A) :
  match sort_by_key key (filter (fun c => Q c = true) (filter (fun c => P c = true) cells)) with
  | c :: _ => In c cells /\ P c = true /\ Q c = true
      /\ forall d, In d cells -> P d = true -> Q d = true -> lex_lt (key d) (key c) = false
  | [] => forall d, In d cells -> P d = true -> Q d = false
  end.
Proof.
  assert (HI : forall d, In d (filter (fun c => Q c = true) (filter (fun c => P c = true) cells))
    <-> Q d = true /\ P d = true /\ In d cells) by (intros d; by rewrite <- list_elem_of_In, !list_elem_of_filter, list_elem_of_In).
  destruct (sort_by_key _ _) as [|c rest] eqn:E.
  - apply sort_by_key_nil in E. intros d Hd HP. apply not_true_iff_false. intros HQ.
    assert (In d []) as [] by (rewrite <- E; by apply HI).
  - apply sort_by_key_least in E as [(HQ & HP & Hc)%HI Hl]. split_and!; [done..|]. intros d Hd HPd HQd. by apply Hl, HI.
Qed.

Lemma no_candidate {A} (P : A -> bool) (cells : list A) :
  filter (fun c => P c = true) cells = [] <-> forall c, In c cells -> P c = false.
Proof.
  split.
  - intros E c Hc. apply not_true_iff_false. intros HP. assert (c ∈ @nil A) as H; [|by apply not_elem_of_nil in H].
    rewrite <- E. apply list_elem_of_filter. split; [done|]. by apply list_elem_of_In.
  - intros H. induction cells as [|c cells IH]; [done|]. rewrite filter_cons.
    rewrite decide_False by (rewrite (H c (or_introl eq_refl)); done). apply IH. intros d Hd. apply H. by right.
Qed.

Lemma some_candidate {A} (P : A -> bool) (cells : list A) c cs :
  filter (fun c => P c = true) cells = c :: cs -> exists c, In c cells /\ P c = true.
Proof.
  intros E. exists c. assert (c ∈ filter (fun c => P c = true) cells) as [? ?%list_elem_of_In]%list_elem_of_filter; [|done].
  rewrite E. apply list_elem_of_here.
Qed.

(** A new instance by version alone: the cell chosen has that major version and a free
    slot, and among those the least memory committed (then the least identifier); no cell
    is chosen only when none has the version, or each of those that do is full. *)
Theorem select_cell_for_version_spec vms cells version :
  match select_cell_for_version vms cells version with
  | inr c => In c cells /\ has_major version c = true /\ (count_odoo_instances c < MAX_ODOOS_PER_CELL)%nat
      /\ forall d, In d cells -> has_major version d = true -> (count_odoo_instances d < MAX_ODOOS_PER_CELL)%nat ->
           sum_committed_ram_in_cell vms (cell_id c) < sum_committed_ram_in_cell vms (cell_id d)
           \/ sum_committed_ram_in_cell vms (cell_id c) = sum_committed_ram_in_cell vms (cell_id d) /\ cell_id c <= cell_id d
  | inl NoCellOfVersion => forall c, In c cells -> has_major version c = false
  | inl AllCellsFull => (exists c, In c cells /\ has_major version c = true)
      /\ forall c, In c cells -> has_major version c = true -> (MAX_ODOOS_PER_CELL <= count_odoo_instances c)%nat
  | inl _ => False
  end.
Proof.
  unfold select_cell_for_version.
  pose proof (choose_least (fun c => [sum_committed_ram_in_cell vms (cell_id c); cell_id c]) (has_major version)
    (fun c => (count_odoo_instances c <? MAX_ODOOS_PER_CELL)%nat) cells) as H.
  destruct (filter (fun c => has_major version c = true) cells) as [|c0 cs] eqn:E; [by apply no_candidate|].
  destruct (sort_by_key _ _) as [|c rest].
  - split; [|intros c Hc HP; apply Nat.ltb_ge; by apply H]. by apply (some_candidate _ _ c0 cs).
  - destruct H as (H1 & H2 & H3 & H4). split_and!; [done..|by apply Nat.ltb_lt|].
    intros d Hd HP HQ. specialize (H4 d Hd HP (proj2 (Nat.ltb_lt _ _) HQ)).
    apply lex_not_lt in H4 as [?|[-> [?|[-> _]]%lex_not_lt]]; lia.
Qed.

(** A new instance by project.  A clone goes to the first cell that has its parent, if that
    cell has the version and fewer than 21 instances, and each failure has its error.  A new
    project goes to the cell of the version with the fewest projects, then the least memory,
    then the least identifier, below the limit of projects. *)
Theorem select_cell_v3_spec vms cells max_projects version parent :
  let projects c := size (list_unique_projects_in_cell c) in
  match parent, select_cell_v3 vms cells max_projects version parent with
  | Some p, inr c => find_cell_by_nkr_name cells p = Some c /\ has_major version c = true
      /\ (count_odoo_instances c < MAX_ODOOS_PER_CELL)%nat
  | Some p, inl ParentNotFound => forall c i, In c cells -> In i (cl_instances c) -> in_name i <> p
  | Some p, inl ParentVersionMismatch => exists c, find_cell_by_nkr_name cells p = Some c /\ has_major version c = false
  | Some p, inl ParentCellFull => exists c, find_cell_by_nkr_name cells p = Some c
      /\ has_major version c = true /\ (MAX_ODOOS_PER_CELL <= count_odoo_instances c)%nat
  | None, inr c => In c cells /\ has_major version c = true /\ (projects c < max_projects)%nat
      /\ forall d, In d cells -> has_major version d = true -> (projects d < max_projects)%nat ->
           (projects c < projects d)%nat
           \/ projects c = projects d
              /\ (sum_committed_ram_in_cell vms (cell_id c) < sum_committed_ram_in_cell vms (cell_id d)
                 \/ sum_committed_ram_in_cell vms (cell_id c) = sum_committed_ram_in_cell vms (cell_id d)
                    /\ cell_id c <= cell_id d)
  | None, inl NoCellOfVersion => forall c, In c cells -> has_major version c = false
  | None, inl AllCellsFull => (exists c, In c cells /\ has_major version c = true)
      /\ forall c, In c cells -> has_major version c = true -> (max_projects <= projects c)%nat
  | _, inl _ => False
  end.
Proof.
  intros projects. unfold select_cell_v3. destruct parent as [p|].
  - destruct (find_cell_by_nkr_name cells p) as [c|] eqn:Ef.
    + destruct (has_major version c) eqn:Em; cbn [negb]; [|by exists c].
      destruct (Nat.leb_spec MAX_ODOOS_PER_CELL (count_odoo_instances c)); [by exists c|done].
    + intros c i Hc Hi E. apply (find_none _ _ Ef) in Hc. apply not_true_iff_false in Hc. apply Hc, existsb_exists.
      exists i. split; [done|]. by apply bool_decide_eq_true.
  - fold projects. pose proof (choose_least (fun c => [Z.of_nat (projects c); sum_committed_ram_in_cell vms (cell_id c); cell_id c])
      (has_major version) (fun c => (projects c <? max_projects)%nat) cells) as H.
    destruct (filter (fun c => has_major version c = true) cells) as [|c0 cs] eqn:E; [by apply no_candidate|].
    destruct (sort_by_key _ _) as [|c rest].
    + split; [|intros c Hc HP; apply Nat.ltb_ge; by apply H]. by apply (some_candidate _ _ c0 cs).
    + destruct H as (H1 & H2 & H3 & H4). split_and!; [done..|by apply Nat.ltb_lt|].
      intros d Hd HP HQ. specialize (H4 d Hd HP (proj2 (Nat.ltb_lt _ _) HQ)).
      apply lex_not_lt in H4 as [?|[?%Nat2Z.inj [?|[-> [?|[-> _]]%lex_not_lt]]%lex_not_lt]]; lia.
Qed.

Module CellsExample.
Definition f : file := Some {["acme" := 1]}.
Definition calls : list cell_call := [Create "Gamma "; Destroy "ACME"; Create "delta"].
Definition last_file : file := Some {["beta" := 2; "gamma" := 3; "delta" := 1]}.
Definition results : list (cell_call * cell_result) :=
  [(Create "Gamma ", Created (inr 3)); (Destroy "ACME", Destroyed (Some 1)); (Create "delta", Created (inr 1))].
Lemma f_ok : cells_ok (load f).
Proof.
  change (load f) with ({["acme" := 1]} : Registry). split.
  - intros k v [_ <-]%lookup_singleton_Some. unfold MIN_CELL_ID, MAX_CELL_ID. lia.
  - by intros k1 k2 v [<- _]%lookup_singleton_Some [<- _]%lookup_singleton_Some.
Qed.
End CellsExample.

Theorem cell_ids_sound_witness :
  MIN_CELL_ID <= 2 <= MAX_CELL_ID
  /\ (forall j, MIN_CELL_ID <= j < 2 -> exists k, load CellsExample.f !! k = Some j)
  /\ (forall k, load CellsExample.f !! k <> Some 2)
  /\ cells_ok (load CellsExample.last_file) /\ lookup_cell_id " Beta" CellsExample.last_file = Some 2
  /\ lookup_cell_name 2 CellsExample.last_file = Some (vm_key " Beta").
Proof.
  apply (cell_ids_sound " Beta" CellsExample.f 2 (Some (Some (<["beta" := 2]> (load CellsExample.f)))) CellsExample.calls
    CellsExample.last_file CellsExample.results).
  - apply CellsExample.f_ok.
  - vm_compute. reflexivity.
  - constructor; [exact id|constructor; [vm_compute; discriminate|constructor; [exact id|constructor]]].
  - vm_compute. reflexivity.
Defined.

(** ** The lock of the registry of cells *)
Module CellRace.
(** Three creations.  The first saves while the second waits for the lock; the third opens
    the new file, whose lock is free. *)
Definition schedule : list (nat * cell_call) :=
  [(1, Create "a"); (2, Create "b"); (1, Create ""); (1, Create ""); (1, Create ""); (1, Create "");
   (2, Create ""); (3, Create "c"); (3, Create ""); (2, Create ""); (3, Create "");
   (2, Create ""); (3, Create ""); (2, Create ""); (3, Create "")]%nat.
Definition final : world file cell_result cell_call :=
  default (start None) (moves cell_exec false schedule (start None)).
End CellRace.

(** The lock of the registry of cells does not serialize: it is on the file that each save
    replaces, so that a process that waited for the old file and one that opens the new
    one run together.  Three creations that run to their end: two cells have the same
    identifier, hence the same subnet and bridge, and one of them is not in the file. *)
Theorem cell_lock_fails :
  exists w f, reachable cell_exec false false None w
    /\ procs w !! 2%nat = Some (Finished (Created (inr 2))) /\ procs w !! 3%nat = Some (Finished (Created (inr 2)))
    /\ In (2%nat, (Create "b", Created (inr 2))) (history w) /\ In (3%nat, (Create "c", Created (inr 2))) (history w)
    /\ data w !! current w = Some f /\ lookup_cell_id "c" f = Some 2 /\ lookup_cell_id "b" f = None.
Proof.
  exists CellRace.final, (Some {["a" := 1; "c" := 2]}). split.
  - apply (moves_reachable cell_exec false false CellRace.schedule None (start None)); [constructor|]. vm_compute. reflexivity.
  - vm_compute. split_and!; try reflexivity; tauto.
Qed.
