(* ===== verification/Instances.v ===== *)
(** * Creating and deleting instances (src/cell.rs)

    A clone copies a directory, the disks of the instance in .nkr-data, its configuration and
    its database, and adds it to the registry and to the compose file; [CloneScratch] undoes
    what was done when a step fails.  The world below is the part of the disk and of the
    servers these steps touch; how the programs they run end is an argument. *)
From S2P Require Import Prelude Text Sorting Http Watchdog Registry State Resources Conf Logs Blocks CloneConf Cells.

(** ** Instances on disk *)
Inductive InstanceMode := ModeDev | ModeProduction.
Inductive Edition := Community | Enterprise.

Record InstanceMeta := mkMeta {
  m_nkr_name : string; m_cell : string; m_source : option string; m_mode : InstanceMode;
  m_dns : option string; m_edition : option Edition; m_odoo_version : option string;
  m_pg_version : option string; m_workers : option Z; m_list_db : option bool;
  m_limit_memory_soft : option Z; m_limit_memory_hard : option Z; m_addons_path : option string;
  m_tier : Tier; m_project_id : option string; m_env : option string; m_created_at : Z;
}.

Record CloneOptions := mkCloneOptions {
  op_mode : InstanceMode; op_no_compose : bool; op_dns : option string; op_edition : option Edition;
  op_odoo_version : option string; op_pg_version : option string; op_workers : option Z;
  op_list_db : option bool; op_limit_memory_soft : option Z; op_limit_memory_hard : option Z;
  op_addons_path : option string; op_python_libs : list string; op_admin_passwd : option string;
  op_proxy_mode : option bool; op_ram_mb : option Z; op_chrs : option Z; op_balloon_mb : option Z;
  op_balloon_idle_mb : option Z; op_balloon_decay_secs : option Z; op_skip_db_clone : bool;
  op_tier : Tier; op_project_id : option string; op_env : option string; op_start_disabled : bool;
}.
Definition default_options : CloneOptions :=
  mkCloneOptions ModeProduction false None None None None None None None None None [] None None
    None None None None None false Production None None false.

(** odoo.ext4: a file of some size, or a link to the shared image *)
Inductive disk := Own (size : Z) | Symlink (target : string).
(** the directory of an instance; [rest]: its other files by path *)
Record instance := mkInstance {
  i_conf : option string; i_meta : option InstanceMeta; i_logs : gset string; i_disk : option disk;
  i_addons : bool; i_pylibs : bool; i_rest : gmap string string;
}.
#[export] Instance eta_instance : Eta instance := fun i =>
  mkInstance (i_conf i) (i_meta i) (i_logs i) (i_disk i) (i_addons i) (i_pylibs i) (i_rest i).

(** an entry of .nkr-data *)
Inductive data := DataFile (content : string) | DataDir.
Record cell_yml := mkYml { y_name : string; y_id : Z; y_version : option string }.
(** the directory of a cell; [d_yml]: no cell.yml, one that does not parse, or a good one *)
Record cell_dir := mkCellDir {
  d_yml : option (option cell_yml); d_insts : gmap string instance;
  d_data : gmap string data; d_compose : option string;
}.
#[export] Instance eta_cell_dir : Eta cell_dir := fun c => mkCellDir (d_yml c) (d_insts c) (d_data c) (d_compose c).

(** [w_images]: the shared images with their sizes and whether they are immutable *)
Record world (D : Type) := mkWorld {
  w_cells : gmap string cell_dir; w_reg : Registry.file; w_vms : State.dir; w_dbs : D;
  w_images : gmap string (Z * bool); w_initramfs : gset string;
}.
Arguments mkWorld {D}. Arguments w_cells {D}. Arguments w_reg {D}. Arguments w_vms {D}.
Arguments w_dbs {D}. Arguments w_images {D}. Arguments w_initramfs {D}.
#[export] Instance eta_world D : Eta (world D) := fun w =>
  mkWorld (w_cells w) (w_reg w) (w_vms w) (w_dbs w) (w_images w) (w_initramfs w).

(** the order in which [read_dir] yields the names of a directory *)
Class Listing := list_dir : gset string -> list string.
Class ListingLaws `{Listing} : Prop := list_dir_perm s : list_dir s ≡ₚ elements s.
#[export] Instance listed : Listing := fun s => elements s.
#[export] Instance listed_laws : ListingLaws (H := listed).
Proof. intros s. done. Qed.

Definition cell_view (y : cell_yml) (c : cell_dir) : CellConfig :=
  mkCellConfig (y_name y) (y_id y) (y_version y)
    (map (fun '(n, i) => mkInst n (i_meta i ≫= m_project_id)) (map_to_list (d_insts c))).

(** ** Errors *)
Inductive clone_error :=
  | SameName | InstanceNotFound | BadCellYml | DestinationExists | VersionMismatch | CellWithoutVersion
  | CellFull | PythonLibs | IdError (e : reg_error) | CopyFailed | LogsUnreadable | WalkFailed
  | ConfFailed | PgDown | PsqlFailed | ComposeFailed | MetaFailed.
#[export] Instance reg_error_eq_dec : EqDecision reg_error.
Proof. solve_decision. Defined.
#[export] Instance clone_error_eq_dec : EqDecision clone_error.
Proof. solve_decision. Defined.

Section find.
Context `{Listing} {D : Type}.

(** the cell directory an instance is in, with its configuration *)
Definition find_instance_cell (w : world D) (nkr_name : string) : clone_error + (string * cell_yml) :=
  match find (fun d => match w_cells w !! d with
                       | Some c => match d_yml c, d_insts c !! nkr_name with Some _, Some _ => true | _, _ => false end
                       | None => false
                       end) (list_dir (dom (w_cells w))) with
  | None => inl InstanceNotFound
  | Some d => match w_cells w !! d ≫= d_yml with
              | Some (Some y) => inr (d, y)
              | _ => inl BadCellYml
              end
  end.

Definition instance_at (w : world D) (d n : string) : option instance := c ← w_cells w !! d; d_insts c !! n.
Definition data_of (w : world D) (d : string) : gmap string data := default ∅ (d_data <$> w_cells w !! d).
Definition compose_of (w : world D) (d : string) : option string := w_cells w !! d ≫= d_compose.

Definition on_cell (d : string) (f : cell_dir -> cell_dir) (w : world D) : world D :=
  w <| w_cells ::= alter f d |>.
Definition on_insts (d : string) (f : gmap string instance -> gmap string instance) : world D -> world D :=
  on_cell d (fun c => c <| d_insts ::= f |>).
Definition on_inst (d n : string) (f : instance -> instance) : world D -> world D := on_insts d (alter f n).
Definition on_data (d : string) (f : gmap string data -> gmap string data) : world D -> world D :=
  on_cell d (fun c => c <| d_data ::= f |>).
End find.

(** ** The databases of a cell

    psql reads statements and stops at the first that fails; each is a transaction of its own.
    [exec]: what one statement does to the server of a cell; [None]: it fails and changes
    nothing. *)
Inductive statement :=
  | AllowConnections (db : string) (b : bool)
  | TerminateBackends (db : string)
  | CreateFrom (dst src : string)
  | DropIfExists (db : string).
Definition sql_text (s : statement) : string :=
  match s with
  | AllowConnections db b =>
      "ALTER DATABASE " +:+ quote db +:+ " WITH ALLOW_CONNECTIONS " +:+ (if b then "true" else "false") +:+ ";"
  | TerminateBackends db =>
      "SELECT pg_terminate_backend(pid) FROM pg_stat_activity WHERE datname = '" +:+ db +:+ "' AND pid <> pg_backend_pid();"
  | CreateFrom dst src => "CREATE DATABASE " +:+ quote dst +:+ " WITH TEMPLATE " +:+ quote src +:+ " OWNER odoo;"
  | DropIfExists db => "DROP DATABASE IF EXISTS " +:+ quote db +:+ ";"
  end.
(** what is written to psql *)
Definition psql_input (sql : list statement) : string := text_of (map sql_text sql).

Section sql.
Context {D : Type} (exec : Z -> statement -> D -> option D).

Fixpoint run_psql_stdin (cell : Z) (sql : list statement) (db : D) : bool * D :=
  match sql with
  | [] => (true, db)
  | s :: sql => match exec cell s db with Some db => run_psql_stdin cell sql db | None => (false, db) end
  end.

Definition db_name (nkr_name : string) : string := "db-" +:+ nkr_name.
Definition clone_sql (src dst : string) : list statement :=
  [AllowConnections src false; TerminateBackends src; CreateFrom dst src; AllowConnections src true].
Definition drop_sql (db : string) : list statement := [AllowConnections db false; TerminateBackends db; DropIfExists db].

(** [ready]: what pg_isready says *)
Definition clone_database (ready : bool) (cell : Z) (src dst : string) (db : D) : option clone_error * D :=
  if negb ready then (Some PgDown, db)
  else
    let '(ok, db) := run_psql_stdin cell (clone_sql (db_name src) (db_name dst)) db in
    if ok then (None, db)
    else (Some PsqlFailed, snd (run_psql_stdin cell [AllowConnections (db_name src) true] db)).

Definition drop_database (ready : bool) (cell : Z) (name : string) (db : D) : option clone_error * D :=
  if negb ready then (Some PgDown, db)
  else
    let '(ok, db) := run_psql_stdin cell (drop_sql (db_name name)) db in
    ((if ok then None else Some PsqlFailed), db).
End sql.

(** ** How the programs and the file system answer *)
Inductive copy_result (A : Type) := NotRun | Failed (part : option A) | Copied (a : A).
Arguments NotRun {A}. Arguments Failed {A}. Arguments Copied {A}.
(** a write: done, or failed with these contents left *)
Inductive write_result := Written | WriteFailed (part : option string).

Record outside := mkOutside {
  o_host : State.host;                                 (* the processes *)
  o_saves : bool;                                      (* the registry is saved *)
  o_snapshot : instance -> option instance;            (* btrfs *)
  o_copy : instance -> copy_result instance;           (* cp -a of the directory *)
  o_logs : bool; o_walk : bool;                        (* the new directory is readable *)
  o_unlink : bool; o_symlink : bool; o_recopy : option disk;   (* the image of the clone *)
  o_copy_data : string -> string -> copy_result string;        (* cp -a of a disk to another *)
  o_conf1 : write_result; o_conf2 : write_result; o_random : list Z;
  o_pg : bool; o_compose : write_result; o_meta : bool; o_now : Z;
  (* the rollback *)
  r_pg : bool; r_remove_dir : instance -> option instance; r_remove_file : string -> bool; r_saves : bool;
}.

Definition written (r : write_result) (new : option string) : bool * option string :=
  match r with Written => (true, new) | WriteFailed part => (false, part) end.

(** ** The files of an instance in .nkr-data *)
Definition short_prefix (cell name : string) : string := short_name cell name +:+ "-".

Section clone.
Context `{Listing} `{State.ReadDir} {D : Type} (exec : Z -> statement -> D -> option D).

Fixpoint copy_data_files (copy : string -> string -> copy_result string) (src_prefix dst_prefix : string)
    (names : list string) (m : gmap string data) : gmap string data :=
  match names with
  | [] => m
  | n :: names =>
      match strip_prefix src_prefix n, m !! n with
      | Some suffix, Some (DataFile _) =>
          let dst := dst_prefix +:+ suffix in
          let m := match m !! dst with Some (DataFile _) => delete dst m | _ => m end in
          match copy n dst with
          | Copied a => copy_data_files copy src_prefix dst_prefix names
              (match m !! dst with Some DataDir => m | _ => <[dst := DataFile a]> m end)
          | Failed part => match part with Some a => <[dst := DataFile a]> m | None => m end
          | NotRun => m
          end
      | _, _ => copy_data_files copy src_prefix dst_prefix names m
      end
  end.
Definition clone_nkr_data_files (copy : string -> string -> copy_result string) (cell src dst : string) (m : gmap string data)
  : gmap string data :=
  copy_data_files copy (short_prefix cell src) (short_prefix cell dst) (list_dir (dom m)) m.

Definition is_file (d : option data) : bool := match d with Some (DataFile _) => true | _ => false end.
(** the files whose name begins like those of the instance *)
Definition data_files (cell name : string) (m : gmap string data) : list string :=
  filter (fun f => starts_with (short_prefix cell name) f && is_file (m !! f) = true) (list_dir (dom m)).

(** ** The scratch *)
Record CloneScratch := mkScratch {
  s_dst_dir : bool; s_nkr_data_files : list string; s_registry_key : option string; s_cloned_db : option (Z * string) }.
#[export] Instance eta_scratch : Eta CloneScratch := fun s =>
  mkScratch (s_dst_dir s) (s_nkr_data_files s) (s_registry_key s) (s_cloned_db s).
Definition new_scratch : CloneScratch := mkScratch false [] None None.

(** [drop] of an uncommitted scratch; [d] is the cell and [n] the name of the clone *)
Definition rollback (o : outside) (d n : string) (s : CloneScratch) (w : world D) : world D :=
  let w := match s_cloned_db s with
           | Some (c, name) => w <| w_dbs ::= fun db => snd (drop_database exec (r_pg o) c name db) |>
           | None => w
           end in
  let w := if s_dst_dir s then on_insts d (partial_alter (fun i => i ≫= r_remove_dir o) n) w else w in
  let w := on_data d (fun m => foldl (fun m f => if r_remove_file o f then delete f m else m) m
                                 (filter (fun f => is_Some (m !! f)) (s_nkr_data_files s))) w in
  match s_registry_key s with
  | Some key => w <| w_reg ::= fun f => snd (Registry.remove (r_saves o) key f) |>
  | None => w
  end.

(** ** Cloning *)
Definition share_master (o : outside) (images : gmap string (Z * bool)) (version : option string) (i : instance) : instance :=
  match version with
  | None => i
  | Some v =>
      let master := "/mnt/nkr/images/odoo" +:+ major v +:+ ".ext4" in
      match images !! master, i_disk i with
      | Some (master_size, immutable), Some (Own size) =>
          if immutable && (master_size =? size) && (0 <? master_size) then
            if negb (o_unlink o) then i
            else i <| i_disk := if o_symlink o then Some (Symlink master) else o_recopy o |>
          else i
      | _, _ => i
      end
  end.

Definition conf_opts_of (op : CloneOptions) : conf_opts :=
  mkConfOpts (op_proxy_mode op) (op_workers op) (op_limit_memory_soft op) (op_limit_memory_hard op) (op_addons_path op)
    (match op_edition op with Some Enterprise => true | _ => false end) (op_admin_passwd op) (op_tier op).

Definition meta_of (o : outside) (op : CloneOptions) (y : cell_yml) (src dst : string) : InstanceMeta :=
  mkMeta dst (y_name y) (Some src) (op_mode op) (op_dns op) (op_edition op)
    (match op_odoo_version op with Some v => Some v | None => y_version y end)
    (op_pg_version op) (op_workers op) (op_list_db op) (op_limit_memory_soft op) (op_limit_memory_hard op)
    (op_addons_path op) (op_tier op) (op_project_id op) (op_env op) (o_now o).

Definition copy_opts_of (op : CloneOptions) (cell src dst : string) (vm_id : Z) : copy_opts :=
  mkCopy cell src dst vm_id [("NKR_RENAME_FILESTORE_FROM", "db-" +:+ src); ("NKR_RENAME_FILESTORE_TO", "db-" +:+ dst)]
    (op_ram_mb op) (op_chrs op) (op_balloon_mb op) (op_balloon_idle_mb op) (op_balloon_decay_secs op)
    (match op_edition op with Some Enterprise => true | _ => false end) (op_start_disabled op).

Definition stage : Type := CloneScratch * world D.
Definition M (A : Type) : Type := stage -> (clone_error + A) * stage.
#[local] Instance M_ret : MRet M := fun A a st => (inr a, st).
Definition throw {A} (e : clone_error) : M A := fun st => (inl e, st).
#[local] Instance M_bind : MBind M := fun A B k m st =>
  match m st with (inr a, st) => k a st | (inl e, st) => (inl e, st) end.
Definition on_world (f : world D -> world D) : M unit := fun '(s, w) => (inr tt, (s, f w)).
Definition require (b : bool) (e : clone_error) : M unit := if b then mret tt else throw e.

(** the registry; the scratch owns the entry from here *)
Definition register_clone (o : outside) (y : cell_yml) (dst : string) : M Z := fun '(s, w) =>
  let '(r, f) := resolve_id_scoped (o_saves o) (Some (y_name y)) dst (w_reg w) in
  match r with
  | inl e => (inl (IdError e), (s, w <| w_reg := f |>))
  | inr id => (inr id, (s <| s_registry_key := Some (to_lowercase (y_name y) +:+ "/" +:+ to_lowercase dst) |>, w <| w_reg := f |>))
  end.

(** the directory, by a snapshot or by cp; the scratch owns it once it is complete *)
Definition copy_dir (o : outside) (cell dst : string) (i : instance) : M unit := fun '(s, w) =>
  let own w := (inr tt, (s <| s_dst_dir := true |>, w)) in
  match w_cells w !! cell with
  | None => (inl CopyFailed, (s, w))
  | Some _ =>
      match o_snapshot o i with
      | Some i' => own (on_insts cell <[dst := i']> w)
      | None =>
          match o_copy o i with
          | NotRun => (inl CopyFailed, (s, w))
          | Failed part => (inl CopyFailed, (s, on_insts cell (partial_alter (fun _ => part) dst) w))
          | Copied i' => own (on_insts cell <[dst := i']> w)
          end
      end
  end.

(** the scratch owns every file that has the prefix of the clone *)
Definition clone_data (o : outside) (cell src dst : string) : M unit := fun '(s, w) =>
  let w := on_data cell (clone_nkr_data_files (o_copy_data o) cell src dst) w in
  (inr tt, (s <| s_nkr_data_files := data_files cell dst (data_of w cell) |>, w)).

Definition clone_conf (r : write_result) (f : option string -> option string) (cell dst : string) : M unit := fun '(s, w) =>
  match instance_at w cell dst ≫= i_conf with
  | None => (inr tt, (s, w))
  | Some conf =>
      let '(ok, new) := written r (f (Some conf)) in
      ((if ok then inr tt else inl ConfFailed), (s, on_inst cell dst (fun i => i <| i_conf := new |>) w))
  end.

Definition clone_db (o : outside) (cell : Z) (src dst : string) : M unit := fun '(s, w) =>
  let '(e, db) := clone_database exec (o_pg o) cell src dst (w_dbs w) in
  match e with
  | Some e => (inl e, (s, w <| w_dbs := db |>))
  | None => (inr tt, (s <| s_cloned_db := Some (cell, dst) |>, w <| w_dbs := db |>))
  end.

Definition systemouts_path (cell : string) : string := "/mnt/nkr/cells/" +:+ cell +:+ "/systemouts-addons".
Definition add_to_compose (o : outside) (cell : string) (c : copy_opts) : M unit := fun '(s, w) =>
  match append_compose_block c (systemouts_path cell) (compose_of w cell) with
  | inl _ => (inl ComposeFailed, (s, w))
  | inr new =>
      let '(ok, new) := written (o_compose o) (Some new) in
      ((if ok then inr tt else inl ComposeFailed), (s, on_cell cell (fun c => c <| d_compose := new |>) w))
  end.

Definition save_instance_meta (o : outside) (cell dst : string) (m : InstanceMeta) : M unit := fun '(s, w) =>
  ((if o_meta o then inr tt else inl MetaFailed),
   (s, on_inst cell dst (fun i => i <| i_meta := if o_meta o then Some m else None |>) w)).

(** the checks before anything is created *)
Definition version_error (requested of_cell : option string) : option clone_error :=
  match requested, of_cell with
  | Some v, Some v' => if bool_decide (v' = v) then None else Some VersionMismatch
  | Some _, None => Some CellWithoutVersion
  | None, _ => None
  end.
Definition odoos_used (y : cell_yml) (w : world D) : nat :=
  match w_cells w !! y_name y with Some c => count_odoo_instances (cell_view y c) | None => 0%nat end.

Definition clone_checks (op : CloneOptions) (src dst : string) (w : world D) : clone_error + (cell_yml * instance) :=
  if bool_decide (src = dst) then inl SameName
  else match find_instance_cell w src with
  | inl e => inl e
  | inr (d, y) =>
      match instance_at w d src with
      | None => inl InstanceNotFound
      | Some i =>
          if bool_decide (is_Some (instance_at w (y_name y) dst)) then inl DestinationExists
          else match version_error (op_odoo_version op) (y_version y) with
          | Some e => inl e
          | None =>
              if (MAX_ODOOS_PER_CELL <=? odoos_used y w)%nat then inl CellFull
              else if bool_decide (op_python_libs op = []) then inr (y, i)
              else inl PythonLibs
          end
      end
  end.

(** what is done to the new directory before its configuration *)
Definition fresh_dir (o : outside) (op : CloneOptions) (y : cell_yml) (images : gmap string (Z * bool)) (i : instance) : instance :=
  share_master o images (match op_odoo_version op with Some v => Some v | None => y_version y end)
    (i <| i_addons := true |> <| i_pylibs := true |>).

Definition clone_steps (o : outside) (op : CloneOptions) (y : cell_yml) (src dst : string) (i : instance) : M (Z * InstanceMeta) :=
  let cell := y_name y in
  id ← register_clone o y dst;
  copy_dir o cell dst i;;
  require (o_logs o) LogsUnreadable;;
  on_world (on_inst cell dst (fun i => i <| i_logs := ∅ |>));;
  require (o_walk o) WalkFailed;;
  on_world (fun w => on_inst cell dst (fresh_dir o op y (w_images w)) w);;
  clone_data o cell src dst;;
  clone_conf (o_conf1 o) (rewrite_odoo_conf src dst) cell dst;;
  clone_conf (o_conf2 o) (rewrite_odoo_conf_full dst (conf_opts_of op) (o_random o)) cell dst;;
  (if op_skip_db_clone op then mret tt else clone_db o (y_id y) src dst);;
  (if op_no_compose op then mret tt else add_to_compose o cell (copy_opts_of op cell src dst id));;
  save_instance_meta o cell dst (meta_of o op y src dst);;
  mret (id, meta_of o op y src dst).

Definition clone_instance_with_opts (o : outside) (src dst : string) (op : CloneOptions) (w : world D)
  : (clone_error + (Z * InstanceMeta)) * world D :=
  match clone_checks op src dst w with
  | inl PythonLibs => (inl PythonLibs, w <| w_vms ::= fun d => snd (list_vms (o_host o) d) |>)
  | inl e => (inl e, w)
  | inr (y, i) =>
      let w := w <| w_vms ::= fun d => snd (list_vms (o_host o) d) |> in
      match clone_steps o op y src dst i (new_scratch, w) with
      | (inr r, (_, w)) => (inr r, w)
      | (inl e, (s, w)) => (inl e, rollback o (y_name y) dst s w)
      end
  end.

Definition clone_instance (o : outside) (src dst : string) (no_db compose_by_hand : bool) (w : world D)
  : option clone_error * world D :=
  let op := mkCloneOptions ModeProduction compose_by_hand None None None None None None None None None [] None None
              None None None None None no_db Production None None false in
  let '(r, w) := clone_instance_with_opts o src dst op w in
  (match r with inl e => Some e | inr _ => None end, w).
End clone.

(** ** Deleting *)
Record delete_outside := mkDelete {
  x_host : State.host; x_hosts : nat -> State.host; x_kill : Z -> kill_result;     (* the stop by the state file *)
  x_hosts2 : nat -> State.host; x_kill2 : Z -> kill_result;                        (* the stop by the name *)
  x_pg : bool; x_compose : write_result; x_saves : bool;
  x_remove_dir : instance -> bool * option instance; x_remove_data : string -> bool; x_remove_initramfs : bool;
}.

Section delete.
Context `{Listing} `{State.ReadDir} {D : Type} (exec : Z -> statement -> D -> option D).

Definition stop_instance (x : delete_outside) (n : string) (d : State.dir) : State.dir :=
  let '(vms, d) := list_vms (x_host x) d in
  match find (fun v => bool_decide (State.name v = n)) vms with
  | Some v =>
      let '(r, _, d) := stop_vm (x_hosts x) (x_kill x) (State.cell_id v) (State.vm_id v) d in
      match r with
      | inr _ => d
      | inl _ => snd (stop_vm_by_name (x_hosts2 x) (x_kill2 x) n d)
      end
  | None => snd (stop_vm_by_name (x_hosts2 x) (x_kill2 x) n d)
  end.

Definition delete_block (x : delete_outside) (n : string) (f : option string) : option string :=
  match remove_compose_block f n with Some new => snd (written (x_compose x) (Some new)) | None => f end.

Definition delete_data (x : delete_outside) (cell n : string) (m : gmap string data) : gmap string data :=
  foldl (fun m f => if starts_with (short_prefix cell n) f && x_remove_data x f then delete f m else m) m (list_dir (dom m)).

Definition delete_initramfs (x : delete_outside) (cell n : string) (s : gset string) : gset string :=
  if x_remove_initramfs x then s ∖ {[short_name cell n +:+ ".cpio.gz"]} else s.

(** the error: the directory could not be removed; the disks are then still there *)
Inductive delete_error := NotFound (e : clone_error) | DirNotRemoved.
Definition delete_instance (x : delete_outside) (n : string) (drop_db : bool) (w : world D) : (delete_error + string) * world D :=
  match find_instance_cell w n with
  | inl e => (inl (NotFound e), w)
  | inr (d, y) =>
      let cell := y_name y in
      let w := w <| w_vms ::= stop_instance x n |> in
      let w := if drop_db then w <| w_dbs ::= fun db => snd (drop_database exec (x_pg x) (y_id y) n db) |> else w in
      let w := on_cell cell (fun c => c <| d_compose ::= delete_block x n |>) w in
      let w := w <| w_reg ::= fun f => snd (Registry.remove (x_saves x) (to_lowercase cell +:+ "/" +:+ to_lowercase n) f) |> in
      let '(ok, part) := match instance_at w d n with Some i => x_remove_dir x i | None => (true, None) end in
      let w := on_insts d (partial_alter (fun _ => part) n) w in
      if negb ok then (inl DirNotRemoved, w)
      else
        let w := on_data cell (delete_data x cell n) w in
        (inr cell, w <| w_initramfs ::= delete_initramfs x cell n |>)
  end.
End delete.

(** ** The key of a clone in the registry *)
Definition no_space (s : string) : Prop := Forall (fun c => is_space c = false) (String.list_ascii_of_string s).

Lemma lower_not_space c : is_space c = false -> is_space (lower_ascii c) = false.
Proof. destruct c as [[] [] [] [] [] [] [] []]; by vm_compute. Qed.
Lemma lower_idem c : lower_ascii (lower_ascii c) = lower_ascii c.
Proof. destruct c as [[] [] [] [] [] [] [] []]; by vm_compute. Qed.

Lemma lower_no_space s : no_space s -> no_space (to_lowercase s).
Proof.
  unfold no_space, to_lowercase. rewrite String.list_ascii_of_string_of_list_ascii, Forall_map.
  intros H. eapply list.Forall_impl; [exact H|]. intros c. apply lower_not_space.
Qed.
Lemma lower_twice s : to_lowercase (to_lowercase s) = to_lowercase s.
Proof.
  unfold to_lowercase. rewrite String.list_ascii_of_string_of_list_ascii, map_map. f_equal.
  apply map_ext. intros c. apply lower_idem.
Qed.
Lemma lower_app a b : to_lowercase (a +:+ b) = to_lowercase a +:+ to_lowercase b.
Proof.
  induction a as [|c a IH]; [done|]. change (String c a +:+ b) with (String c (a +:+ b)).
  change (String (lower_ascii c) (to_lowercase (a +:+ b)) = String (lower_ascii c) (to_lowercase a +:+ to_lowercase b)).
  by rewrite IH.
Qed.

Lemma scratch_key cell name : no_space cell -> no_space name ->
  vm_key (to_lowercase cell +:+ "/" +:+ to_lowercase name) = scoped_key (Some cell) name.
Proof.
  intros Hc Hn. unfold scoped_key, vm_key. rewrite (trim_no_space cell), (trim_no_space name) by done.
  rewrite trim_no_space.
  - by rewrite !lower_app, !lower_twice.
  - rewrite !list_ascii_app. apply Forall_app. split; [by apply lower_no_space|]. constructor; [done|].
    by apply lower_no_space.
Qed.

(** ** What a copy of the disks leaves *)
Lemma copy_data_other copy p q names : forall m f, starts_with q f = false ->
  copy_data_files copy p q names m !! f = m !! f.
Proof.
  induction names as [|n names IH]; intros m f Hf; [done|]. cbn [copy_data_files].
  destruct (strip_prefix p n) as [suffix|]; [|by apply IH]. destruct (m !! n) as [[]|]; try by apply IH.
  assert (Hne : q +:+ suffix <> f).
  { intros <-. apply not_true_iff_false in Hf. apply Hf, starts_with_spec. by exists suffix. }
  set (m' := match m !! (q +:+ suffix) with Some (DataFile _) => delete (q +:+ suffix) m | _ => m end).
  assert (Em : m' !! f = m !! f).
  { subst m'. destruct (m !! (q +:+ suffix)) as [[]|]; try done. by rewrite lookup_delete_ne. }
  destruct (copy n (q +:+ suffix)) as [|[a|]|a]; rewrite ?IH, ?Em by done; try done.
  - by rewrite lookup_insert_ne.
  - destruct (m' !! (q +:+ suffix)) as [[]|]; rewrite ?lookup_insert_ne by done; done.
Qed.

Lemma copy_data_new copy p q names : forall m, (forall f d, starts_with q f = true -> m !! f = Some d -> is_file (Some d) = true) ->
  forall f d, starts_with q f = true -> copy_data_files copy p q names m !! f = Some d -> is_file (Some d) = true.
Proof.
  induction names as [|n names IH]; intros m Hm; [done|]. cbn [copy_data_files].
  destruct (strip_prefix p n) as [suffix|]; [|by apply IH]. destruct (m !! n) as [[]|]; try by apply IH.
  set (m' := match m !! (q +:+ suffix) with Some (DataFile _) => delete (q +:+ suffix) m | _ => m end).
  assert (Em : forall f d, starts_with q f = true -> m' !! f = Some d -> is_file (Some d) = true).
  { subst m'. intros f d Hf. destruct (m !! (q +:+ suffix)) as [[]|]; intros Hl; [apply lookup_delete_Some in Hl as [_ Hl]|..];
      by eapply Hm. }
  assert (Ei : forall a f d, starts_with q f = true -> <[q +:+ suffix := DataFile a]> m' !! f = Some d -> is_file (Some d) = true).
  { intros a f d Hf [[_ <-]|[_ Hl]]%lookup_insert_Some; [done|by eapply Em]. }
  destruct (copy n (q +:+ suffix)) as [|[a|]|a]; try done; [by apply Ei|].
  apply IH. destruct (m' !! (q +:+ suffix)) as [[]|]; [apply Ei|apply Em|apply Ei].
Qed.

(** ** A server of databases

    What PostgreSQL documents of the four statements, on the set of databases of each cell. *)
Class PgLaws {D} (exec : Z -> statement -> D -> option D) (databases : D -> gset (Z * string)) : Prop := {
  alter_keeps c db b s s' : exec c (AllowConnections db b) s = Some s' -> databases s' = databases s;
  terminate_keeps c db s s' : exec c (TerminateBackends db) s = Some s' -> databases s' = databases s;
  create_adds c dst src s s' : exec c (CreateFrom dst src) s = Some s' ->
    (c, dst) ∉ databases s /\ databases s' = {[(c, dst)]} ∪ databases s;
  drop_removes c db s s' : exec c (DropIfExists db) s = Some s' -> databases s' = databases s ∖ {[(c, db)]};
  drop_runs c db s : (c, db) ∈ databases s -> fst (run_psql_stdin exec c (drop_sql db) s) = true;
}.

Section databases.
Context {D : Type} (exec : Z -> statement -> D -> option D) (databases : D -> gset (Z * string)) `{!PgLaws exec databases}.

Lemma drop_database_spec ready c name s e s' : drop_database exec ready c name s = (e, s') ->
  (e = None -> databases s' = databases s ∖ {[(c, db_name name)]})
  /\ (e <> None -> databases s' = databases s \/ databases s' = databases s ∖ {[(c, db_name name)]}).
Proof.
  unfold drop_database, drop_sql. destruct ready; cbn; [|intros [= <- <-]; split; [done|by left]].
  destruct (exec c (AllowConnections (db_name name) false) s) as [s1|] eqn:E1; [|intros [= <- <-]; split; [done|by left]].
  apply alter_keeps in E1.
  destruct (exec c (TerminateBackends (db_name name)) s1) as [s2|] eqn:E2; [|intros [= <- <-]; split; [done|left; congruence]].
  apply terminate_keeps in E2.
  destruct (exec c (DropIfExists (db_name name)) s2) as [s3|] eqn:E3; [|intros [= <- <-]; split; [done|left; congruence]].
  apply drop_removes in E3. intros [= <- <-]. split; [|done]. intros _. congruence.
Qed.

Lemma dropped_databases c name s : databases (snd (drop_database exec true c name s)) = databases s ∖ {[(c, db_name name)]}.
Proof.
  destruct (drop_database exec true c name s) as [e s'] eqn:E. cbn.
  destruct (decide ((c, db_name name) ∈ databases s)) as [Hin|Hn].
  - assert (e = None) as ->.
    { unfold drop_database in E. cbn [negb] in E. pose proof (drop_runs c (db_name name) s Hin) as Hr.
      destruct (run_psql_stdin _ _ _ _) as [ok s2]. cbn in Hr. subst ok. by injection E. }
    apply drop_database_spec in E as [E _]. by apply E.
  - apply drop_database_spec in E as [E1 E2]. destruct e as [e|]; [|by apply E1].
    destruct E2 as [->| ->]; [done|set_solver|done].
Qed.

(** the failed clone of a database can leave the new one, when only the reopening of the
    source failed *)
Lemma clone_database_spec ready c src dst s e s' : clone_database exec ready c src dst s = (e, s') ->
  match e with
  | None => (c, db_name dst) ∉ databases s /\ databases s' = {[(c, db_name dst)]} ∪ databases s
  | Some PsqlFailed => databases s' = databases s \/ databases s' = {[(c, db_name dst)]} ∪ databases s
  | Some e => e = PgDown /\ s' = s
  end.
Proof.
  unfold clone_database, clone_sql. destruct ready; cbn; [|by intros [= <- <-]].
  set (open := fun s => snd (match exec c (AllowConnections (db_name src) true) s with Some db => (true, db) | None => (false, s) end)).
  assert (Ho : forall s, databases (open s) = databases s).
  { intros t. subst open. cbn. destruct (exec _ _ t) eqn:E; [by apply alter_keeps in E|done]. }
  destruct (exec c (AllowConnections (db_name src) false) s) as [s1|] eqn:E1; [|intros [= <- <-]; left; apply Ho].
  apply alter_keeps in E1.
  destruct (exec c (TerminateBackends (db_name src)) s1) as [s2|] eqn:E2; [|intros [= <- <-]; left; rewrite <- E1; apply Ho].
  apply terminate_keeps in E2.
  destruct (exec c (CreateFrom (db_name dst) (db_name src)) s2) as [s3|] eqn:E3;
    [|intros [= <- <-]; left; rewrite <- E1, <- E2; apply Ho].
  apply create_adds in E3 as [Hn E3]. rewrite E2, E1 in *.
  destruct (exec c (AllowConnections (db_name src) true) s3) as [s4|] eqn:E4; intros [= <- <-].
  - apply alter_keeps in E4. by rewrite E4.
  - right. rewrite <- E3. apply (Ho s3).
Qed.
End databases.

(** ** A clone that fails *)
(** what may be there that the scratch does not own, and whether it may own disks *)
Record leftover := mkLeft { l_dir : bool; l_db : bool; l_compose : bool; l_data : bool }.
Definition nothing_left : leftover := mkLeft false false false false.
Definition disks_copied : leftover := mkLeft false false false true.
Definition block_added : leftover := mkLeft false false true true.
Definition allowed (e : clone_error) : leftover :=
  mkLeft (bool_decide (e = CopyFailed)) (bool_decide (e = PsqlFailed)) (bool_decide (e = ComposeFailed \/ e = MetaFailed)) true.

Section rollback.
Context `{Listing} `{!ListingLaws} `{State.ReadDir} {D : Type} (exec : Z -> statement -> D -> option D)
  (databases : D -> gset (Z * string)) `{!PgLaws exec databases}.
Context (o : outside) (w0 : world D) (y : cell_yml) (dst : string).
Notation cell := (y_name y).
Notation key := (scoped_key (Some (y_name y)) dst).
Notation the_db := (y_id y, db_name dst).

Record unused : Prop := {
  un_cell : no_space cell; un_dst : no_space dst;
  un_reg : load (w_reg w0) !! key = None;
  un_dir : instance_at w0 cell dst = None;
  un_data f : is_Some (data_of w0 cell !! f) -> starts_with (short_prefix cell dst) f = false;
}.

Record cell_progress (q : leftover) (owned : bool) (files : list string) (c c0 : cell_dir) : Prop := {
  cp_yml : d_yml c = d_yml c0;
  cp_insts : delete dst (d_insts c) = delete dst (d_insts c0);
  cp_dir : owned = false -> l_dir q = false -> d_insts c !! dst = None;
  cp_prefix f : f ∈ files -> starts_with (short_prefix cell dst) f = true;
  cp_data : filter (fun '(f, _) => f ∉ files) (d_data c) = d_data c0;
  cp_compose : l_compose q = false -> d_compose c = d_compose c0;
}.

Record progress (q : leftover) (st : stage (D := D)) : Prop := {
  pr_vms : w_vms (snd st) = w_vms w0;
  pr_images : w_images (snd st) = w_images w0;
  pr_initramfs : w_initramfs (snd st) = w_initramfs w0;
  pr_reg : match s_registry_key (fst st) with
           | None => w_reg (snd st) = w_reg w0
           | Some k => vm_key k = key /\ exists id, load (w_reg (snd st)) = <[key := id]> (load (w_reg w0))
           end;
  pr_others d : d <> cell -> w_cells (snd st) !! d = w_cells w0 !! d;
  pr_cell : option_Forall2 (cell_progress q (s_dst_dir (fst st)) (s_nkr_data_files (fst st))) (w_cells (snd st) !! cell) (w_cells w0 !! cell);
  pr_files : l_data q = false -> s_nkr_data_files (fst st) = [];
  pr_db : match s_cloned_db (fst st) with
          | Some cn => cn = (y_id y, dst) /\ the_db ∉ databases (w_dbs w0)
                       /\ databases (w_dbs (snd st)) = {[the_db]} ∪ databases (w_dbs w0)
          | None => databases (w_dbs (snd st)) = databases (w_dbs w0)
                    \/ l_db q = true /\ databases (w_dbs (snd st)) = {[the_db]} ∪ databases (w_dbs w0)
          end;
}.

(** from any state of progress the step ends in one: [q'] when it works, what its error
    allows when it fails *)
Definition triple {A} (q : leftover) (m : M (D := D) A) (q' : leftover) : Prop :=
  forall st, progress q st -> match m st with
                              | (inr _, st') => progress q' st'
                              | (inl e, st') => progress (allowed e) st'
                              end.

Lemma triple_bind {A B} q (m : M A) q1 (k : A -> M B) q2 :
  triple q m q1 -> (forall a, triple q1 (k a) q2) -> triple q (M_bind A B k m) q2.
Proof.
  intros Hm Hk st Hst. unfold M_bind. specialize (Hm st Hst). destruct (m st) as [[e|a] st']; [done|].
  by apply Hk.
Qed.
Lemma triple_ret {A} q (a : A) : triple q (M_ret A a) q.
Proof. by intros st Hst. Qed.

Definition le_left (q q' : leftover) : Prop :=
  (l_dir q = true -> l_dir q' = true) /\ (l_db q = true -> l_db q' = true) /\ (l_compose q = true -> l_compose q' = true)
  /\ (l_data q = true -> l_data q' = true).
Lemma nothing_least q : le_left nothing_left q.
Proof. by repeat split. Qed.

Lemma progress_cell q q' s s' w f : progress q (s, w) -> s_registry_key s' = s_registry_key s -> s_cloned_db s' = s_cloned_db s ->
  (l_db q = true -> l_db q' = true) -> (l_data q' = false -> s_nkr_data_files s' = []) ->
  (forall c c0, w_cells w0 !! cell = Some c0 -> w_cells w !! cell = Some c -> cell_progress q (s_dst_dir s) (s_nkr_data_files s) c c0 ->
    cell_progress q' (s_dst_dir s') (s_nkr_data_files s') (f c) c0) ->
  progress q' (s', on_cell cell f w).
Proof.
  intros [] Hr Hd Hq Hfs Hf. split; cbn in *; try done.
  - by rewrite Hr.
  - intros d Hne. rewrite lookup_alter_ne by done. by apply pr_others0.
  - rewrite lookup_alter_eq. destruct pr_cell0 as [c c0 Hc|]; [|by constructor]. constructor. by apply Hf.
  - rewrite Hd. destruct (s_cloned_db s); [done|]. destruct pr_db0 as [|[]]; [by left|right; auto].
Qed.

Lemma progress_weaken q q' st : le_left q q' -> progress q st -> progress q' st.
Proof.
  intros (Q1 & Q2 & Q3 & Q4) []. destruct st as [s w]. split; cbn in *; try done.
  - destruct pr_cell0 as [c c0 []|]; constructor. split; try done.
    + intros E1 E2. apply cp_dir0; [done|]. destruct (l_dir q); [|done]. by rewrite Q1 in E2.
    + intros E. apply cp_compose0. destruct (l_compose q); [|done]. by rewrite Q3 in E.
  - intros E. apply pr_files0. destruct (l_data q); [|done]. by rewrite Q4 in E.
  - destruct (s_cloned_db s); [done|]. destruct pr_db0 as [|[]]; [by left|right; auto].
Qed.

Lemma triple_require q b e : (forall q', q' = allowed e -> le_left q q') -> triple q (require b e) q.
Proof. intros Hq st Hst. unfold require. destruct b; [done|]. cbn. eapply progress_weaken; [by apply Hq|done]. Qed.

Lemma start_progress : unused -> progress nothing_left (new_scratch, w0).
Proof.
  intros []. split; cbn; try done; [|by left].
  unfold instance_at, data_of in *. destruct (w_cells w0 !! cell) as [c|] eqn:E; [|constructor]. constructor.
  split; cbn; try done; [by intros f ?%elem_of_nil|]. apply map_filter_id. intros f d _. apply not_elem_of_nil.
Qed.

Lemma register_first : unused ->
  match register_clone o y dst (new_scratch, w0) with
  | (inr _, st) => progress nothing_left st
  | (inl e, st) => progress (allowed e) st
  end.
Proof.
  intros Hu. pose proof (start_progress Hu) as Hst. destruct Hu as [Hc Hn Hr _ _].
  assert (Hid : forall e, progress (allowed (IdError e)) (new_scratch, w0 <| w_reg := w_reg w0 |>)).
  { intros e. eapply progress_weaken; [apply nothing_least|]. by destruct w0. }
  unfold register_clone, resolve_id_scoped. destruct (decide (vm_key dst = "")); [apply Hid|]. rewrite Hr.
  destruct (next_free_id_in_scope _ _) as [id|]; [|apply Hid]. unfold save. destruct (o_saves o); [|apply Hid].
  destruct Hst. split; cbn in *; try done. split; [by apply scratch_key|by exists id].
Qed.

Lemma triple_copy i : unused -> triple nothing_left (copy_dir o cell dst i) nothing_left.
Proof.
  intros Hu [s w] Hst. unfold copy_dir.
  assert (Hleft : progress (allowed CopyFailed) (s, w)) by (eapply progress_weaken; [apply nothing_least|done]).
  destruct (w_cells w !! cell) as [c|] eqn:Ec; [|done].
  assert (Hown : forall i', progress nothing_left (s <| s_dst_dir := true |>, on_insts cell <[dst := i']> w)).
  { intros i'. eapply progress_cell; try done; [by apply (pr_files _ _ Hst)|]. intros c' c0 _ _ []. split; cbn; try done.
    by rewrite delete_insert_eq. }
  destruct (o_snapshot o i) as [i'|]; [apply Hown|].
  destruct (o_copy o i) as [|part|i']; [done| |apply Hown].
  eapply progress_cell; try done. intros c' c0 _ _ []. split; cbn; try done.
  by rewrite delete_partial_alter_eq.
Qed.

Lemma triple_inst q f : triple q (on_world (on_inst cell dst f)) q.
Proof.
  intros [s w] Hst. cbn. eapply progress_cell; try done; [by apply (pr_files _ _ Hst)|]. intros c c0 _ _ []. split; cbn; try done.
  - by rewrite delete_alter_eq.
  - intros E1 E2. rewrite lookup_alter_eq. by rewrite cp_dir0.
Qed.


Lemma in_data_files c n (m : gmap string data) f :
  f ∈ data_files c n m <-> starts_with (short_prefix c n) f = true /\ is_file (m !! f) = true.
Proof.
  unfold data_files. rewrite list_elem_of_filter, andb_true_iff, list_dir_perm, elem_of_elements, elem_of_dom.
  split; [by intros [? _]|]. intros [Hs Hf]. split; [done|]. by destruct (m !! f).
Qed.

Lemma data_of_on_data d f (w : world D) c : w_cells w !! d = Some c -> data_of (on_data d f w) d = f (d_data c).
Proof.
  intros E. unfold data_of. change (w_cells (on_data d f w)) with (alter (fun c => c <| d_data ::= f |>) d (w_cells w)).
  by rewrite lookup_alter_eq, E.
Qed.

Lemma triple_data src : unused -> triple nothing_left (clone_data o cell src dst) disks_copied.
Proof.
  intros Hu [s w] Hst. unfold clone_data. pose proof (pr_files _ _ Hst eq_refl) as Hfs.
  match goal with |- context [data_files ?a ?b ?m] => remember (data_files a b m) as files eqn:Efiles end.
  eapply progress_cell; try done. intros c c0 Ec0 Ec [Hyml Hins Hdir _ Hdata Hcomp].
  split; cbn; try done; [intros f Hf; rewrite Efiles in Hf; by apply in_data_files in Hf as [? _]|].
  cbn in Hfs. rewrite Hfs in Hdata. rewrite map_filter_id in Hdata by (intros; apply not_elem_of_nil).
  assert (Hno : forall f d, starts_with (short_prefix cell dst) f = true -> d_data c !! f = Some d -> False).
  { intros f d Hf Hl. destruct Hu as [_ _ _ _ Hun]. unfold data_of in Hun. rewrite Ec0 in Hun. cbn in Hun.
    rewrite (Hun f) in Hf; [done|]. rewrite <- Hdata, Hl. done. }
  rewrite (data_of_on_data _ _ _ c) in Efiles by done. subst files. apply map_eq. intros f.
  rewrite map_lookup_filter. unfold clone_nkr_data_files.
  set (m' := copy_data_files _ _ _ _ _). destruct (starts_with (short_prefix cell dst) f) eqn:Ef.
  - transitivity (@None data); [|symmetry; destruct (d_data c0 !! f) eqn:E; [|done]; rewrite <- Hdata in E; by eapply Hno in E].
    destruct (m' !! f) as [d|] eqn:El; [|done]. cbn. rewrite option_guard_False; [done|]. intros Hn. apply Hn.
    apply in_data_files. split; [done|]. rewrite El. eapply (copy_data_new _ _ _ _ (d_data c)); [|exact Ef|exact El].
    intros f' d' Hf' Hd'. by destruct (Hno _ _ Hf' Hd').
  - assert (Em : m' !! f = d_data c !! f) by (by apply copy_data_other). rewrite Em, Hdata.
    destruct (d_data c0 !! f); [|done]. cbn. rewrite option_guard_True; [done|].
    intros Hin. apply in_data_files in Hin as [Hin _]. by rewrite Ef in Hin.
Qed.

Lemma triple_conf r f q : l_data q = true -> le_left q (allowed ConfFailed) -> triple q (clone_conf r f cell dst) q.
Proof.
  intros Hq Hle [s w] Hst. unfold clone_conf. destruct (instance_at w cell dst ≫= i_conf) as [conf|]; [|done].
  destruct (written r (f (Some conf))) as [ok new].
  pose proof (triple_inst q (fun i => i <| i_conf := new |>) (s, w) Hst) as Ht. cbn in Ht.
  destruct ok; [done|]. by eapply progress_weaken.
Qed.

Lemma progress_db q q' s s' w f : progress q (s, w) -> le_left q q' ->
  s_registry_key s' = s_registry_key s -> s_dst_dir s' = s_dst_dir s -> s_nkr_data_files s' = s_nkr_data_files s ->
  match s_cloned_db s' with
  | Some cn => cn = (y_id y, dst) /\ the_db ∉ databases (w_dbs w0) /\ databases f = {[the_db]} ∪ databases (w_dbs w0)
  | None => databases f = databases (w_dbs w0) \/ l_db q' = true /\ databases f = {[the_db]} ∪ databases (w_dbs w0)
  end -> progress q' (s', w <| w_dbs := f |>).
Proof.
  intros Hst Hle Hr Hd Hf Hdb. apply (progress_weaken q q') in Hst; [|done]. destruct Hst. split; cbn in *; try done.
  - by rewrite Hr.
  - by rewrite Hd, Hf.
  - by rewrite Hf.
Qed.

Lemma triple_db src : triple disks_copied (clone_db exec o (y_id y) src dst) disks_copied.
Proof.
  intros [s w] Hst. unfold clone_db. destruct (clone_database exec (o_pg o) (y_id y) src dst (w_dbs w)) as [e db] eqn:E.
  apply (clone_database_spec exec databases) in E. pose proof (pr_db _ _ Hst) as Hdb. cbn in Hdb.
  assert (Hall : forall e, le_left disks_copied (allowed e)) by (by repeat split).
  destruct e as [e|].
  - assert (Hw : databases db = databases (w_dbs w) \/ l_db (allowed e) = true /\ databases db = {[the_db]} ∪ databases (w_dbs w)).
    { destruct e; try (by destruct E as [? ->]; left). destruct E as [->| ->]; [by left|by right]. }
    eapply progress_db; try done.
    destruct (s_cloned_db s) as [cn|].
    + destruct Hdb as (-> & Hn & Hdb). repeat split; [done|]. destruct Hw as [->|[_ ->]]; rewrite Hdb; [done|set_solver].
    + destruct Hdb as [Hdb|[? _]]; [|done]. by rewrite Hdb in Hw.
  - destruct E as [Hn E]. eapply progress_db; try done. cbn. split; [done|].
    destruct (s_cloned_db s) as [cn|].
    + destruct Hdb as (_ & _ & Hdb). exfalso. apply Hn. rewrite Hdb. set_solver.
    + destruct Hdb as [Hdb|[? _]]; [|done]. by rewrite <- Hdb.
Qed.

Lemma triple_compose c : triple disks_copied (add_to_compose o cell c) block_added.
Proof.
  intros [s w] Hst. unfold add_to_compose.
  destruct (append_compose_block _ _ _) as [e|new]; [eapply progress_weaken; [|exact Hst]; by repeat split|].
  destruct (written (o_compose o) (Some new)) as [ok new'].
  assert (Hp : forall q, l_compose q = true -> l_data q = true ->
    progress q (s, on_cell cell (fun c => c <| d_compose := new' |>) w)).
  { intros q Hq1 Hq2. eapply progress_cell; [exact Hst|done|done|done|by rewrite Hq2|].
    intros c1 c0 _ _ []. split; cbn; try done; [|by rewrite Hq1]. intros E1 _. by apply cp_dir0. }
  destruct ok; by apply Hp.
Qed.

Lemma triple_meta m q : le_left q (allowed MetaFailed) -> l_data q = true -> triple q (save_instance_meta o cell dst m) q.
Proof.
  intros Hle Hq [s w] Hst. unfold save_instance_meta.
  pose proof (triple_inst q (fun i => i <| i_meta := if o_meta o then Some m else None |>) (s, w) Hst) as Ht. cbn in Ht.
  destruct (o_meta o); [done|]. by eapply progress_weaken.
Qed.

Lemma triple_weaken {A} q q1 (m : M A) q2 : triple q m q1 -> le_left q1 q2 -> triple q m q2.
Proof.
  intros Hm Hle st Hst. specialize (Hm st Hst). destruct (m st) as [[e|a] st']; [done|]. by eapply progress_weaken.
Qed.

(** ** The whole clone *)
Lemma clone_progress op src i : unused ->
  match clone_steps exec o op y src dst i (new_scratch, w0) with
  | (inr _, st) => progress block_added st
  | (inl e, st) => progress (allowed e) st
  end.
Proof.
  intros Hu. unfold clone_steps. unfold mbind, M_bind at 1. pose proof (register_first Hu) as Hr.
  destruct (register_clone o y dst (new_scratch, w0)) as [[e|id] st]; [done|]. revert st Hr.
  apply (triple_bind _ _ nothing_left); [by apply triple_copy|intros _].
  apply (triple_bind _ _ nothing_left); [apply triple_require; intros ? ->; by repeat split|intros _].
  apply (triple_bind _ _ nothing_left); [apply triple_inst|intros _].
  apply (triple_bind _ _ nothing_left); [apply triple_require; intros ? ->; by repeat split|intros _].
  apply (triple_bind _ _ nothing_left); [intros [s w]; exact (triple_inst nothing_left (fresh_dir o op y (w_images w)) (s, w))|intros _].
  apply (triple_bind _ _ disks_copied); [by apply triple_data|intros _].
  apply (triple_bind _ _ disks_copied); [apply triple_conf; by repeat split|intros _].
  apply (triple_bind _ _ disks_copied); [apply triple_conf; by repeat split|intros _].
  apply (triple_bind _ _ disks_copied); [destruct (op_skip_db_clone op); [apply triple_ret|apply triple_db]|intros _].
  apply (triple_bind _ _ block_added);
    [destruct (op_no_compose op); [apply (triple_weaken _ disks_copied); [apply triple_ret|by repeat split]|apply triple_compose]|intros _].
  apply (triple_bind _ _ block_added); [apply triple_meta; by repeat split|intros _]. apply triple_ret.
Qed.

(** the rollback works: the server answers, files and registry are written *)
Record clean_rollback : Prop := {
  cr_pg : r_pg o = true; cr_dir i : r_remove_dir o i = None; cr_file f : r_remove_file o f = true; cr_saves : r_saves o = true }.

(** the world [w] is the one before, but for what may be left *)
Record restored (q : leftover) (w : world D) : Prop := {
  re_vms : w_vms w = w_vms w0; re_images : w_images w = w_images w0; re_initramfs : w_initramfs w = w_initramfs w0;
  re_reg : load (w_reg w) = load (w_reg w0);
  re_others d : d <> cell -> w_cells w !! d = w_cells w0 !! d;
  re_yml : (w_cells w !! cell ≫= d_yml) = (w_cells w0 !! cell ≫= d_yml);
  re_insts n : n <> dst \/ l_dir q = false -> instance_at w cell n = instance_at w0 cell n;
  re_data : data_of w cell = data_of w0 cell;
  re_compose : l_compose q = false -> compose_of w cell = compose_of w0 cell;
  re_db : databases (w_dbs w) = databases (w_dbs w0)
          \/ l_db q = true /\ databases (w_dbs w) = {[the_db]} ∪ databases (w_dbs w0);
}.

Lemma remove_files (fs : list string) (m : gmap string data) : clean_rollback ->
  foldl (fun m f => if r_remove_file o f then delete f m else m) m (filter (fun f => is_Some (m !! f)) fs)
  = filter (fun '(f, _) => f ∉ fs) m.
Proof.
  intros Hcl. apply map_eq. intros k. rewrite map_lookup_filter.
  assert (G : forall l (m1 : gmap string data), foldl (fun m f => if r_remove_file o f then delete f m else m) m1 l !! k
    = if decide (k ∈ l) then None else m1 !! k).
  { induction l as [|f l IH]; intros m1; [done|]. cbn [foldl]. rewrite (cr_file Hcl), IH.
    destruct (decide (k ∈ l)); [by rewrite decide_True by (by right)|].
    destruct (decide (k = f)) as [->|Hne]; [by rewrite lookup_delete_eq, decide_True by left|].
    rewrite lookup_delete_ne by done. rewrite decide_False; [done|]. by intros [|]%elem_of_cons. }
  rewrite G. destruct (m !! k) as [d|] eqn:E; cbn.
  - destruct (decide (k ∈ fs)) as [Hin|Hn].
    + rewrite option_guard_False by (by intros ?). rewrite decide_True; [done|]. apply list_elem_of_filter. by rewrite E.
    + rewrite option_guard_True by done. rewrite decide_False; [done|]. by intros [_ ?]%list_elem_of_filter.
  - by destruct (decide _).
Qed.

Definition restore_cell (s : CloneScratch) (c : cell_dir) : cell_dir :=
  mkCellDir (d_yml c) (if s_dst_dir s then delete dst (d_insts c) else d_insts c)
    (filter (fun '(f, _) => f ∉ s_nkr_data_files s) (d_data c)) (d_compose c).

Lemma rollback_cells s w : clean_rollback -> w_cells (rollback exec o cell dst s w) = alter (restore_cell s) cell (w_cells w).
Proof.
  intros Hcl. destruct s as [own files rk cdb]. unfold rollback, on_insts, on_data, on_cell. cbn.
  transitivity (alter (fun c => c <| d_data ::= fun m => filter (fun '(f, _) => f ∉ files) m |>) cell
     (if own then alter (fun c => c <| d_insts ::= delete dst |>) cell (w_cells w) else w_cells w)).
  - assert (E1 : forall m : gmap string cell_dir, alter (fun c => c <| d_data ::= fun m => foldl (fun m f => if r_remove_file o f then delete f m else m) m
        (filter (fun f => is_Some (m !! f)) files) |>) cell m
      = alter (fun c => c <| d_data ::= fun m => filter (fun '(f, _) => f ∉ files) m |>) cell m).
    { intros m. apply alter_ext. intros c _. cbn. by rewrite remove_files. }
    assert (E2 : forall m : gmap string cell_dir, alter (fun c => c <| d_insts ::= partial_alter (fun i => i ≫= r_remove_dir o) dst |>) cell m
      = alter (fun c => c <| d_insts ::= delete dst |>) cell m).
    { intros m. apply alter_ext. intros c _. cbn. f_equal. apply map_eq. intros k.
      destruct (decide (k = dst)) as [->|]; [|by rewrite lookup_partial_alter_ne, lookup_delete_ne by congruence].
      rewrite lookup_partial_alter_eq, lookup_delete_eq. destruct (d_insts c !! dst); [apply (cr_dir Hcl)|done]. }
    cbn in E1, E2. destruct rk, cdb as [[]|], own; cbn; rewrite ?E2, ?E1; done.
  - apply map_eq. intros k. destruct (decide (k = cell)) as [->|].
    + destruct own; rewrite !lookup_alter_eq; by destruct (w_cells w !! cell) as [[]|].
    + destruct own; by rewrite !lookup_alter_ne by congruence.
Qed.

Lemma progress_rollback q s w : unused -> clean_rollback -> progress q (s, w) -> restored q (rollback exec o cell dst s w).
Proof.
  intros Hu Hcl Hst. pose proof (rollback_cells s w Hcl) as Hcells. destruct Hst; cbn in *.
  assert (Hcell : w_cells (rollback exec o cell dst s w) !! cell = restore_cell s <$> w_cells w !! cell)
    by (by rewrite Hcells, lookup_alter_eq).
  split.
  - rewrite <- pr_vms0. unfold rollback. by destruct (s_cloned_db s) as [[]|], (s_dst_dir s), (s_registry_key s).
  - rewrite <- pr_images0. unfold rollback. by destruct (s_cloned_db s) as [[]|], (s_dst_dir s), (s_registry_key s).
  - rewrite <- pr_initramfs0. unfold rollback. by destruct (s_cloned_db s) as [[]|], (s_dst_dir s), (s_registry_key s).
  - transitivity (load (match s_registry_key s with Some k => snd (Registry.remove (r_saves o) k (w_reg w)) | None => w_reg w end)).
    { unfold rollback. by destruct (s_cloned_db s) as [[]|], (s_dst_dir s), (s_registry_key s). }
    destruct (s_registry_key s) as [k|]; [|by rewrite pr_reg0]. destruct pr_reg0 as (Hk & id & Hid).
    unfold Registry.remove. rewrite Hk, Hid, lookup_insert_eq, decide_True by done. rewrite (cr_saves Hcl). cbn.
    apply delete_insert_id. apply Hu.
  - intros d Hne. rewrite Hcells, lookup_alter_ne by done. by apply pr_others0.
  - rewrite Hcell. by destruct pr_cell0 as [c c0 []|].
  - intros n Hn. unfold instance_at. rewrite Hcell. destruct Hu as [_ _ _ Hun _]. unfold instance_at in Hun.
    destruct pr_cell0 as [c c0 []|]; [|done]. cbn in *. destruct (decide (n = dst)) as [->|Hne].
    + rewrite Hun. destruct Hn as [|Hq]; [done|]. destruct (s_dst_dir s); [by rewrite lookup_delete_eq|by apply cp_dir0].
    + assert (E : d_insts c !! n = d_insts c0 !! n).
      { rewrite <- (lookup_delete_ne (d_insts c) dst n), cp_insts0 by done. by rewrite lookup_delete_ne. }
      destruct (s_dst_dir s); [by rewrite lookup_delete_ne|done].
  - unfold data_of. rewrite Hcell. by destruct pr_cell0 as [c c0 []|].
  - intros Hq. unfold compose_of. rewrite Hcell. destruct pr_cell0 as [c c0 []|]; [|done]. by apply cp_compose0.
  - assert (Ed : w_dbs (rollback exec o cell dst s w)
                 = match s_cloned_db s with Some (c, n) => snd (drop_database exec (r_pg o) c n (w_dbs w)) | None => w_dbs w end).
    { unfold rollback. by destruct (s_cloned_db s) as [[]|], (s_dst_dir s), (s_registry_key s). }
    rewrite Ed. destruct (s_cloned_db s) as [cn|]; [|done]. destruct pr_db0 as (-> & Hn & Hdb). left.
    rewrite (cr_pg Hcl), (dropped_databases exec databases), Hdb. set_solver.
Qed.
End rollback.

Lemma checked_cell `{Listing} {D} op src dst (w : world D) y i :
  clone_checks op src dst w = inr (y, i) -> exists d, find_instance_cell w src = inr (d, y) /\ instance_at w d src = Some i.
Proof.
  unfold clone_checks. destruct (bool_decide (src = dst)); [done|].
  destruct (find_instance_cell w src) as [|[d y']] eqn:Ef; [done|]. intros Eck. exists d.
  repeat case_match; try done. injection Eck as -> ->. done.
Qed.

(** C7. [failed_clone_restores]: a clone that fails leaves the registry, the instances, the
    disks, the compose file and the databases as they were, provided that nothing used the
    name before and that the rollback itself works.  Only four errors leave something: a
    failed copy its partial directory, a failed psql the new database, and a failed write of
    the compose file or of meta.json the new block.  Without a cell for the source, or when
    the name is taken, nothing is touched at all. *)
Theorem failed_clone_restores `{Listing} `{!ListingLaws} `{State.ReadDir} {D} (exec : Z -> statement -> D -> option D)
    (databases : D -> gset (Z * string)) `{!PgLaws exec databases} o src dst op (w w' : world D) e :
  clone_instance_with_opts exec o src dst op w = (inl e, w') ->
  (forall d y, find_instance_cell w src = inr (d, y) -> unused w y dst) -> clean_rollback o ->
  w' = w \/ (let w1 := w <| w_vms ::= fun d => snd (list_vms (o_host o) d) |> in
            w' = w1 \/ exists d y, find_instance_cell w src = inr (d, y) /\ restored databases w1 y dst (allowed e) w').
Proof.
  unfold clone_instance_with_opts. intros Hc Hu Hcl.
  set (w1 := w <| w_vms ::= fun d => snd (list_vms (o_host o) d) |>) in *.
  destruct (clone_checks op src dst w) as [e1|[y i]] eqn:Eck.
  - destruct e1; injection Hc as <- <-; try (by left). by right; left.
  - right. right. apply checked_cell in Eck as (d & Ef & _). exists d, y. split; [done|].
    assert (Hu1 : unused w1 y dst) by (by destruct (Hu d y Ef)).
    pose proof (clone_progress exec databases o w1 y dst op src i Hu1) as Hp.
    destruct (clone_steps exec o op y src dst i (new_scratch, w1)) as [[e2|r] [s w2]]; [|done]. injection Hc as <- <-.
    by apply progress_rollback.
Qed.

(** ** What a deletion does *)
Record clean_delete (x : delete_outside) : Prop := {
  cd_pg : x_pg x = true; cd_compose : x_compose x = Written; cd_saves : x_saves x = true;
  cd_dir i : x_remove_dir x i = (true, None); cd_data f : x_remove_data x f = true; cd_init : x_remove_initramfs x = true }.

Lemma delete_data_lookup `{Listing} `{!ListingLaws} x c n (m : gmap string data) f : clean_delete x ->
  delete_data x c n m !! f = if starts_with (short_prefix c n) f then None else m !! f.
Proof.
  intros Hx. unfold delete_data.
  assert (G : forall l (m1 : gmap string data),
    foldl (fun m f => if starts_with (short_prefix c n) f && x_remove_data x f then delete f m else m) m1 l !! f
    = if starts_with (short_prefix c n) f && bool_decide (f ∈ l) then None else m1 !! f).
  { induction l as [|g l IH]; intros m1; [by rewrite andb_false_r|]. cbn [foldl]. rewrite (cd_data _ Hx), andb_true_r, IH.
    destruct (decide (f = g)) as [->|Hne].
    - rewrite (bool_decide_true (g ∈ g :: l)) by left.
      destruct (starts_with (short_prefix c n) g); cbn; [|done]. rewrite lookup_delete_eq. by destruct (bool_decide (g ∈ l)).
    - assert (Em : (if starts_with (short_prefix c n) g then delete g m1 else m1) !! f = m1 !! f)
        by (destruct (starts_with _ g); [rewrite lookup_delete_ne by congruence|]; done).
      rewrite Em. rewrite (bool_decide_ext (f ∈ g :: l) (f ∈ l)); [done|]. rewrite elem_of_cons. tauto. }
  rewrite G. destruct (starts_with (short_prefix c n) f); cbn; [|done].
  destruct (decide (f ∈ list_dir (dom m))) as [Hi|Hi]; [by rewrite bool_decide_true|rewrite bool_decide_false by done].
  apply not_elem_of_dom. by rewrite list_dir_perm, elem_of_elements in Hi.
Qed.

(** the parts of the world after a deletion at which everything works *)
Record deleted {D} `{Listing} (exec : Z -> statement -> D -> option D) (x : delete_outside) (d : string) (y : cell_yml) (n : string)
    (drop_db : bool) (w w2 : world D) : Prop := {
  de_reg : w_reg w2 = snd (Registry.remove true (to_lowercase (y_name y) +:+ "/" +:+ to_lowercase n) (w_reg w));
  de_images : w_images w2 = w_images w;
  de_initramfs : w_initramfs w2 = w_initramfs w ∖ {[short_name (y_name y) n +:+ ".cpio.gz"]};
  de_dbs : w_dbs w2 = if drop_db then snd (drop_database exec true (y_id y) n (w_dbs w)) else w_dbs w;
  de_cells : w_cells w2 = alter (fun c => c <| d_data ::= delete_data x (y_name y) n |>) (y_name y)
    (alter (fun c => c <| d_insts ::= delete n |>) d
      (alter (fun c => c <| d_compose ::= fun f => match remove_compose_block f n with Some new => Some new | None => f end |>)
        (y_name y) (w_cells w)));
}.

Lemma delete_parts `{Listing} `{State.ReadDir} {D} (exec : Z -> statement -> D -> option D) x n drop_db (w : world D) d y :
  find_instance_cell w n = inr (d, y) -> clean_delete x ->
  exists w2, delete_instance exec x n drop_db w = (inr (y_name y), w2) /\ deleted exec x d y n drop_db w w2.
Proof.
  intros Hf Hx. unfold delete_instance. rewrite Hf.
  assert (Ei : forall oi, match oi with Some i => x_remove_dir x i | None => (true, None) end = (true, None))
    by (intros [i|]; [apply (cd_dir _ Hx)|done]).
  rewrite Ei. cbn [negb]. eexists. split; [reflexivity|].
  assert (Eb : forall f, delete_block x n f = match remove_compose_block f n with Some new => Some new | None => f end).
  { intros f. unfold delete_block. rewrite (cd_compose _ Hx). done. }
  split.
  - cbn. rewrite (cd_saves _ Hx). by destruct drop_db.
  - by destruct drop_db.
  - cbn. unfold delete_initramfs. rewrite (cd_init _ Hx). by destruct drop_db.
  - cbn. rewrite (cd_pg _ Hx). by destruct drop_db.
  - cbn. f_equal. f_equal. transitivity (alter (fun c => c <| d_compose ::= delete_block x n |>) (y_name y) (w_cells w)).
    + by destruct drop_db.
    + apply alter_ext. intros c _. cbn. by rewrite Eb.
Qed.

Lemma remove_load key f : load (snd (Registry.remove true key f)) = delete (vm_key key) (load f).
Proof.
  unfold Registry.remove. destruct (decide (is_Some (load f !! vm_key key))) as [|Hn]; [done|]. cbn.
  symmetry. apply delete_id. by apply eq_None_not_Some.
Qed.

(** the directories of the other instances, and the fields of a cell the deletion left alone *)
Lemma deleted_instances `{Listing} {D} (exec : Z -> statement -> D -> option D) x d y n drop_db (w w2 : world D) :
  deleted exec x d y n drop_db w w2 ->
  instance_at w2 d n = None /\ forall d' n', (d', n') <> (d, n) -> instance_at w2 d' n' = instance_at w d' n'.
Proof.
  intros [_ _ _ _ Hc]. unfold instance_at. rewrite Hc. split.
  - rewrite !lookup_alter, (decide_True _ _ (eq_refl d)).
    repeat case_decide; subst; destruct (w_cells w !! _); cbn; try done; by rewrite lookup_delete_eq.
  - intros d' n' Hne. rewrite !lookup_alter.
    repeat case_decide; subst; destruct (w_cells w !! _); cbn; try done; rewrite lookup_delete_ne; congruence.
Qed.

Lemma deleted_data `{Listing} `{!ListingLaws} {D} (exec : Z -> statement -> D -> option D) x d y n drop_db (w w2 : world D) :
  deleted exec x d y n drop_db w w2 -> clean_delete x ->
  (forall f, data_of w2 (y_name y) !! f = if starts_with (short_prefix (y_name y) n) f then None else data_of w (y_name y) !! f)
  /\ forall d', d' <> y_name y -> data_of w2 d' = data_of w d'.
Proof.
  intros [_ _ _ _ Hc] Hx. unfold data_of. rewrite Hc. split.
  - intros f. rewrite !lookup_alter, !(decide_True _ _ (eq_refl (y_name y))).
    repeat case_decide; subst; try congruence; destruct (w_cells w !! _); cbn; rewrite ?delete_data_lookup by done; try done;
      by destruct (starts_with _ f).
  - intros d' Hne. rewrite !lookup_alter. repeat case_decide; subst; try congruence; by destruct (w_cells w !! _).
Qed.

(** [delete_instance_spec]: a deletion that works removes the directory of the instance and
    only that one, its entry in the registry, every entry of .nkr-data with its prefix and no
    other, its initramfs, its service from the compose file and, when asked to and the
    database is there, its database. *)
Theorem delete_instance_spec `{Listing} `{!ListingLaws} `{State.ReadDir} {D} (exec : Z -> statement -> D -> option D)
    (databases : D -> gset (Z * string)) `{!PgLaws exec databases} x n (w : world D) d y :
  find_instance_cell w n = inr (d, y) -> clean_delete x -> no_space (y_name y) -> no_space n ->
  exists w2, delete_instance exec x n true w = (inr (y_name y), w2)
  /\ instance_at w2 d n = None
  /\ (forall d' n', (d', n') <> (d, n) -> instance_at w2 d' n' = instance_at w d' n')
  /\ load (w_reg w2) = delete (scoped_key (Some (y_name y)) n) (load (w_reg w))
  /\ (forall f, data_of w2 (y_name y) !! f = if starts_with (short_prefix (y_name y) n) f then None else data_of w (y_name y) !! f)
  /\ (forall d', d' <> y_name y -> data_of w2 d' = data_of w d')
  /\ compose_of w2 (y_name y) = match remove_compose_block (compose_of w (y_name y)) n with
                                | Some new => Some new | None => compose_of w (y_name y) end
  /\ w_initramfs w2 = w_initramfs w ∖ {[short_name (y_name y) n +:+ ".cpio.gz"]}
  /\ databases (w_dbs w2) = databases (w_dbs w) ∖ {[(y_id y, db_name n)]}.
Proof.
  intros Hf Hx Hs Hn. destruct (delete_parts exec x n true w d y Hf Hx) as (w2 & E & Hd). exists w2. split; [done|].
  destruct (deleted_instances _ _ _ _ _ _ _ _ Hd) as [Hi1 Hi2]. destruct (deleted_data _ _ _ _ _ _ _ _ Hd Hx) as [Hd1 Hd2].
  repeat split; try done.
  - by rewrite (de_reg _ _ _ _ _ _ _ _ Hd), remove_load, scratch_key.
  - unfold compose_of. rewrite (de_cells _ _ _ _ _ _ _ _ Hd), !lookup_alter, !(decide_True _ _ (eq_refl (y_name y))).
    repeat case_decide; subst; try congruence; by destruct (w_cells w !! _).
  - apply Hd.
  - rewrite (de_dbs _ _ _ _ _ _ _ _ Hd). by apply dropped_databases.
Qed.

Lemma clone_success `{Listing} `{!ListingLaws} `{State.ReadDir} {D} (exec : Z -> statement -> D -> option D)
    (databases : D -> gset (Z * string)) `{!PgLaws exec databases} o src dst op (w w1 : world D) d0 y r :
  clone_instance_with_opts exec o src dst op w = (inr r, w1) -> find_instance_cell w src = inr (d0, y) -> unused w y dst ->
  exists s, progress databases (w <| w_vms ::= fun d => snd (list_vms (o_host o) d) |>) y dst block_added (s, w1).
Proof.
  unfold clone_instance_with_opts. intros Hc Hf Hu.
  set (w0 := w <| w_vms ::= fun d => snd (list_vms (o_host o) d) |>) in *.
  destruct (clone_checks op src dst w) as [e1|[y' i]] eqn:Eck; [by destruct e1|].
  apply checked_cell in Eck as (d & Ef & _). rewrite Hf in Ef. injection Ef as _ <-.
  assert (Hu1 : unused w0 y dst) by (by destruct Hu).
  pose proof (clone_progress exec databases o w0 y dst op src i Hu1) as Hp.
  destruct (clone_steps exec o op y src dst i (new_scratch, w0)) as [[e2|r'] [s w2]]; [done|].
  injection Hc as _ <-. by exists s.
Qed.

(** C8. [delete_undoes_clone]: deleting a fresh clone brings the registry, the directories, the
    disks and the databases back to what they were before it was made. *)
Theorem delete_undoes_clone `{Listing} `{!ListingLaws} `{State.ReadDir} {D} (exec : Z -> statement -> D -> option D)
    (databases : D -> gset (Z * string)) `{!PgLaws exec databases} o x src dst op (w w1 : world D) d0 y r :
  find_instance_cell w src = inr (d0, y) -> unused w y dst -> (y_id y, db_name dst) ∉ databases (w_dbs w) ->
  clone_instance_with_opts exec o src dst op w = (inr r, w1) ->
  find_instance_cell w1 dst = inr (y_name y, y) -> clean_delete x ->
  exists w2, delete_instance exec x dst true w1 = (inr (y_name y), w2)
  /\ load (w_reg w2) = load (w_reg w)
  /\ (forall d n, instance_at w2 d n = instance_at w d n)
  /\ (forall d, data_of w2 d = data_of w d)
  /\ databases (w_dbs w2) = databases (w_dbs w).
Proof.
  intros Hf Hu Hdb Hc Hf1 Hx. apply (clone_success exec databases o src dst op w w1 d0 y r) in Hc as [s Hp]; [|done..].
  destruct (delete_instance_spec exec databases x dst w1 (y_name y) y) as (w2 & E & Hi & Hio & Hr & Hd & Hdo & _ & _ & Hb);
    [done|done|by destruct Hu|by destruct Hu|].
  exists w2. split; [done|]. destruct Hp as [_ _ _ Preg Poth Pcell _ Pdb], Hu as [_ _ Ureg Udir Udata]. cbn in *.
  repeat split.
  - rewrite Hr. destruct (s_registry_key s); [|by rewrite Preg, delete_id].
    destruct Preg as (_ & id & ->). by rewrite delete_insert_id.
  - intros d n. destruct (decide ((d, n) = (y_name y, dst))) as [[= -> ->]|Hne]; [by rewrite Hi, Udir|].
    rewrite Hio by done. unfold instance_at. destruct (decide (d = y_name y)) as [->|Hd']; [|by rewrite Poth].
    destruct Pcell as [c c0 Hcp|]; [|done]. cbn. assert (n <> dst) by congruence.
    rewrite <- (lookup_delete_ne (d_insts c) dst n), (cp_insts _ _ _ _ _ _ _ Hcp) by congruence.
    by rewrite lookup_delete_ne by congruence.
  - intros d. destruct (decide (d = y_name y)) as [->|Hd']; [|rewrite Hdo by done; unfold data_of; by rewrite Poth].
    apply map_eq. intros f. rewrite Hd. unfold data_of in *.
    destruct Pcell as [c c0 Hcp|]; cbn in *; [|by destruct (starts_with _ f)].
    destruct (starts_with (short_prefix (y_name y) dst) f) eqn:Ef.
    + destruct (d_data c0 !! f) eqn:El; [|done]. by rewrite (Udata f) in Ef by (by rewrite El).
    + rewrite <- (cp_data _ _ _ _ _ _ _ Hcp), map_lookup_filter. destruct (d_data c !! f); [|done]. cbn.
      rewrite option_guard_True; [done|]. intros Hin. apply (cp_prefix _ _ _ _ _ _ _ Hcp) in Hin. by rewrite Hin in Ef.
  - rewrite Hb. destruct (s_cloned_db s) as [cn|]; [destruct Pdb as (_ & _ & ->); set_solver|].
    destruct Pdb as [->|[? _]]; [set_solver|done].
Qed.

(** ** What a clone builds *)
Section built.
Context `{Listing} `{State.ReadDir} {D : Type} (exec : Z -> statement -> D -> option D) (o : outside).

Lemma bind_inr {A B} (m : M (D := D) A) (k : A -> M B) st b st' :
  M_bind A B k m st = (inr b, st') -> exists a st1, m st = (inr a, st1) /\ k a st1 = (inr b, st').
Proof. unfold M_bind. destruct (m st) as [[e|a] st1]; [done|]. intros E. by exists a, st1. Qed.

Lemma on_cell_lookup cell f (w : world D) : w_cells (on_cell cell f w) !! cell = f <$> w_cells w !! cell.
Proof. apply lookup_alter_eq. Qed.

(** what most steps leave alone *)
Definition same_but (cell : string) (w w' : world D) : Prop :=
  w_reg w' = w_reg w /\ w_dbs w' = w_dbs w /\ w_images w' = w_images w /\ compose_of w' cell = compose_of w cell.

Lemma on_inst_at cell n f (w : world D) :
  instance_at (on_inst cell n f w) cell n = f <$> instance_at w cell n /\ same_but cell w (on_inst cell n f w).
Proof.
  unfold same_but, instance_at, compose_of, on_inst, on_insts. rewrite on_cell_lookup.
  destruct (w_cells w !! cell); cbn; [by rewrite lookup_alter_eq|done].
Qed.

Lemma copy_dir_inr cell dst i s (w : world D) a s' w' : copy_dir o cell dst i (s, w) = (inr a, (s', w')) ->
  (exists i', (o_snapshot o i = Some i' \/ o_snapshot o i = None /\ o_copy o i = Copied i') /\ instance_at w' cell dst = Some i')
  /\ same_but cell w w'.
Proof.
  unfold copy_dir. destruct (w_cells w !! cell) as [c|] eqn:Ec; [|done].
  assert (Hi : forall i', instance_at (on_insts cell <[dst := i']> w) cell dst = Some i' /\ same_but cell w (on_insts cell <[dst := i']> w)).
  { intros i'. unfold same_but, instance_at, compose_of, on_insts. rewrite on_cell_lookup, Ec. cbn. by rewrite lookup_insert_eq. }
  destruct (o_snapshot o i) as [i'|] eqn:Es.
  - intros [= _ _ <-]. destruct (Hi i'). split; [by exists i'; split; [left|]|done].
  - destruct (o_copy o i) as [| |i'] eqn:Eo; try done. intros [= _ _ <-].
    destruct (Hi i'). split; [by exists i'; split; [right|]|done].
Qed.

Lemma clone_data_inr cell src dst s (w : world D) a s' w' : clone_data o cell src dst (s, w) = (inr a, (s', w')) ->
  instance_at w' cell dst = instance_at w cell dst /\ same_but cell w w'.
Proof.
  unfold clone_data. intros [= _ _ <-]. unfold same_but, instance_at, compose_of, on_data. rewrite on_cell_lookup.
  by destruct (w_cells w !! cell).
Qed.

Lemma clone_conf_inr r f cell dst s (w : world D) a s' w' : (forall c, f None = c -> c = None) ->
  clone_conf r f cell dst (s, w) = (inr a, (s', w')) ->
  instance_at w' cell dst = (fun i => i <| i_conf := f (i_conf i) |>) <$> instance_at w cell dst /\ same_but cell w w'.
Proof.
  intros Hf. unfold clone_conf. destruct (instance_at w cell dst ≫= i_conf) as [conf|] eqn:Ei.
  - destruct r as [|part]; cbn; [|done]. intros [= _ _ <-].
    destruct (on_inst_at cell dst (fun i => i <| i_conf := f (Some conf) |>) w) as [E ?]. split; [|done]. cbn in E. rewrite E.
    destruct (instance_at w cell dst) as [i|]; [|done]. cbn in Ei |- *. by rewrite Ei.
  - intros [= _ _ <-]. split; [|done]. destruct (instance_at w cell dst) as [[]|]; [|done]. cbn in Ei |- *.
    by rewrite Ei, (Hf _ eq_refl).
Qed.

Lemma clone_db_inr cell src dst s (w : world D) a s' w' c : clone_db exec o cell src dst (s, w) = (inr a, (s', w')) ->
  (None, w_dbs w') = clone_database exec (o_pg o) cell src dst (w_dbs w)
  /\ instance_at w' c dst = instance_at w c dst /\ w_reg w' = w_reg w /\ w_images w' = w_images w /\ compose_of w' c = compose_of w c.
Proof.
  unfold clone_db. destruct (clone_database _ _ _ _ _ _) as [[e|] db]; [done|]. by intros [= _ _ <-].
Qed.

Lemma add_to_compose_inr cell c n s (w : world D) a s' w' : add_to_compose o cell c (s, w) = (inr a, (s', w')) ->
  (exists new, append_compose_block c (systemouts_path cell) (compose_of w cell) = inr new /\ compose_of w' cell = Some new)
  /\ instance_at w' cell n = instance_at w cell n /\ w_reg w' = w_reg w /\ w_dbs w' = w_dbs w.
Proof.
  unfold add_to_compose. destruct (append_compose_block _ _ _) as [|new] eqn:Ea; [done|].
  destruct (o_compose o); cbn [written]; [|done]. intros [= _ _ <-].
  split; [|unfold instance_at; rewrite on_cell_lookup; by destruct (w_cells w !! cell)].
  exists new. split; [done|]. unfold compose_of in *. rewrite on_cell_lookup. by destruct (w_cells w !! cell).
Qed.

(** the directory of a clone, from the copy of its source's *)
Definition clone_of (op : CloneOptions) (y : cell_yml) (src dst : string) (images : gmap string (Z * bool)) (copied : instance) : instance :=
  let i := fresh_dir o op y images (copied <| i_logs := ∅ |>) in
  i <| i_conf := rewrite_odoo_conf_full dst (conf_opts_of op) (o_random o) (rewrite_odoo_conf src dst (i_conf i)) |>
    <| i_meta := Some (meta_of o op y src dst) |>.

Lemma register_inr (y : cell_yml) dst s (w : world D) id s' w' : register_clone o y dst (s, w) = (inr id, (s', w')) ->
  load (w_reg w') !! scoped_key (Some (y_name y)) dst = Some id
  /\ w_cells w' = w_cells w /\ w_dbs w' = w_dbs w /\ w_images w' = w_images w.
Proof.
  unfold register_clone, resolve_id_scoped. destruct (decide (vm_key dst = "")); [done|].
  destruct (load (w_reg w) !! scoped_key (Some (y_name y)) dst) as [id'|] eqn:El; [by intros [= <- _ <-]|].
  destruct (next_free_id_in_scope _ _); [|done]. unfold save. destruct (o_saves o); [|done]. intros [= <- _ <-].
  split; [apply lookup_insert_eq|done].
Qed.

Ltac next_step Hc s w Hs := apply bind_inr in Hc as ([] & [s w] & Hs & Hc).

Lemma clone_steps_inr op y src dst i s (w : world D) r s' w1 :
  clone_steps exec o op y src dst i (s, w) = (inr r, (s', w1)) ->
  snd r = meta_of o op y src dst
  /\ (exists copied, (o_snapshot o i = Some copied \/ o_snapshot o i = None /\ o_copy o i = Copied copied)
      /\ instance_at w1 (y_name y) dst = Some (clone_of op y src dst (w_images w) copied))
  /\ load (w_reg w1) !! scoped_key (Some (y_name y)) dst = Some (fst r)
  /\ (if op_no_compose op then compose_of w1 (y_name y) = compose_of w (y_name y)
      else exists new, append_compose_block (copy_opts_of op (y_name y) src dst (fst r)) (systemouts_path (y_name y)) (compose_of w (y_name y)) = inr new
           /\ compose_of w1 (y_name y) = Some new)
  /\ (if op_skip_db_clone op then w_dbs w1 = w_dbs w
      else (None, w_dbs w1) = clone_database exec (o_pg o) (y_id y) src dst (w_dbs w)).
Proof.
  unfold clone_steps. intros Hc. apply bind_inr in Hc as (id & [s1 w2] & H1 & Hc). apply register_inr in H1 as (Hreg & Hcells & Hdbs & Himg).
  next_step Hc s2 w3 H2. apply copy_dir_inr in H2 as ((copied & Hcopied & Hi3) & Hr3 & Hd3 & Hm3 & Hc3).
  next_step Hc s3 w4 H3. unfold require in H3. destruct (o_logs o); [injection H3 as <- <-|done].
  next_step Hc s4 w5 H4. injection H4 as _ <-. destruct (on_inst_at (y_name y) dst (fun i => i <| i_logs := ∅ |>) w3) as [Hi5 (Hr5 & Hd5 & Hm5 & Hc5)].
  set (w5 := on_inst _ _ _ w3) in *.
  next_step Hc s5 w6 H5. unfold require in H5. destruct (o_walk o); [injection H5 as <- <-|done].
  next_step Hc s6 w7 H6. injection H6 as _ <-. destruct (on_inst_at (y_name y) dst (fresh_dir o op y (w_images w5)) w5) as [Hi7 (Hr7 & Hd7 & Hm7 & Hc7)].
  set (w7 := on_inst _ _ _ w5) in *.
  next_step Hc s7 w8 H7. apply clone_data_inr in H7 as (Hi8 & Hr8 & Hd8 & Hm8 & Hc8).
  next_step Hc s8 w9 H8. apply clone_conf_inr in H8 as (Hi9 & Hr9 & Hd9 & Hm9 & Hc9); [|by intros ? <-].
  next_step Hc s9 w10 H9. apply clone_conf_inr in H9 as (Hi10 & Hr10 & Hd10 & Hm10 & Hc10); [|by intros ? <-].
  rewrite Hi9, Hi8, Hi7, Hi5, Hi3 in Hi10. rewrite Hm5, Hm3, Himg in Hi10. cbn in Hi10.
  rewrite Hr9, Hr8, Hr7, Hr5, Hr3 in Hr10. rewrite Hd9, Hd8, Hd7, Hd5, Hd3, Hdbs in Hd10.
  rewrite Hc9, Hc8, Hc7, Hc5, Hc3 in Hc10. unfold compose_of at 2 in Hc10. rewrite Hcells in Hc10.
  next_step Hc s10 w11 H10.
  assert (Hdb : (if op_skip_db_clone op then w_dbs w11 = w_dbs w
                 else (None, w_dbs w11) = clone_database exec (o_pg o) (y_id y) src dst (w_dbs w))
    /\ instance_at w11 (y_name y) dst = instance_at w10 (y_name y) dst /\ w_reg w11 = w_reg w10 /\ compose_of w11 (y_name y) = compose_of w10 (y_name y)).
  { destruct (op_skip_db_clone op); [by injection H10 as <- <-|].
    apply (clone_db_inr _ _ _ _ _ _ _ _ (y_name y)) in H10 as (E & Ei & Er & _ & Ec). by rewrite <- Hd10. }
  clear H10. destruct Hdb as (Hdb & Hi11 & Hr11 & Hc11). rewrite Hi10 in Hi11. rewrite Hr10 in Hr11. rewrite Hc10 in Hc11.
  next_step Hc s11 w12 H11.
  assert (Hco : (if op_no_compose op then compose_of w12 (y_name y) = compose_of w11 (y_name y)
      else exists new, append_compose_block (copy_opts_of op (y_name y) src dst id) (systemouts_path (y_name y)) (compose_of w11 (y_name y)) = inr new
           /\ compose_of w12 (y_name y) = Some new)
    /\ instance_at w12 (y_name y) dst = instance_at w11 (y_name y) dst /\ w_reg w12 = w_reg w11 /\ w_dbs w12 = w_dbs w11).
  { destruct (op_no_compose op); [by injection H11 as <- <-|]. by apply (add_to_compose_inr _ _ dst) in H11. }
  clear H11. destruct Hco as (Hco & Hi12 & Hr12 & Hd12). rewrite Hi11 in Hi12. rewrite Hr11 in Hr12. rewrite Hc11 in Hco.
  next_step Hc s12 w13 H12. unfold save_instance_meta in H12. destruct (o_meta o); cbv iota in H12; [injection H12 as _ <-|done].
  destruct (on_inst_at (y_name y) dst (fun i => i <| i_meta := Some (meta_of o op y src dst) |>) w12) as [Hi13 (Hr13 & Hd13 & _ & Hc13)].
  set (wf := on_inst _ _ _ w12) in *. injection Hc as <- _ <-. cbn [fst snd]. rewrite Hi12 in Hi13. rewrite Hr13, Hr12, Hd13, Hd12, Hc13.
  repeat split; [by exists copied|done..].
Qed.

End built.

(** [clone_builds]: a clone that succeeds has the copy of its source's directory without its
    logs, on the shared image where there is one, with its configuration rewritten and its
    meta.json; it has the identifier it reports, the service [append_compose_block] writes for
    that identifier, and, unless told otherwise, a database that was not there before. *)
Theorem clone_builds `{Listing} `{State.ReadDir} {D} (exec : Z -> statement -> D -> option D)
    (databases : D -> gset (Z * string)) `{!PgLaws exec databases} o src dst op (w w1 : world D) d y r :
  clone_instance_with_opts exec o src dst op w = (inr r, w1) -> find_instance_cell w src = inr (d, y) ->
  snd r = meta_of o op y src dst
  /\ (exists i copied, instance_at w d src = Some i
      /\ (o_snapshot o i = Some copied \/ o_snapshot o i = None /\ o_copy o i = Copied copied)
      /\ instance_at w1 (y_name y) dst = Some (clone_of o op y src dst (w_images w) copied))
  /\ load (w_reg w1) !! scoped_key (Some (y_name y)) dst = Some (fst r)
  /\ (if op_no_compose op then compose_of w1 (y_name y) = compose_of w (y_name y)
      else exists new, append_compose_block (copy_opts_of op (y_name y) src dst (fst r)) (systemouts_path (y_name y)) (compose_of w (y_name y)) = inr new
           /\ compose_of w1 (y_name y) = Some new)
  /\ (if op_skip_db_clone op then databases (w_dbs w1) = databases (w_dbs w)
      else (y_id y, db_name dst) ∉ databases (w_dbs w)
           /\ databases (w_dbs w1) = {[(y_id y, db_name dst)]} ∪ databases (w_dbs w)).
Proof.
  unfold clone_instance_with_opts. intros Hc Hf.
  destruct (clone_checks op src dst w) as [e1|[y' i]] eqn:Eck; [by destruct e1|].
  apply checked_cell in Eck as (d' & Ef & Ei). rewrite Hf in Ef. injection Ef as <- <-.
  destruct (clone_steps _ _ _ _ _ _ _ _) as [[e2|r'] [s w2]] eqn:Es; [done|]. injection Hc as <- <-.
  apply clone_steps_inr in Es as (Hm & (copied & Hcp & Hi) & Hreg & Hco & Hdb).
  split; [done|]. split; [by exists i, copied|]. split; [done|]. split; [done|].
  destruct (op_skip_db_clone op); [by rewrite Hdb|]. symmetry in Hdb.
  by apply (clone_database_spec exec databases) in Hdb.
Qed.

Module InstancesExample.
(** a server that knows which databases exist and whether they take connections *)
Notation server := (gmap (Z * string) bool).
Definition exec (c : Z) (s : statement) (db : server) : option server :=
  match s with
  | AllowConnections n b => if decide (is_Some (db !! (c, n))) then Some (<[(c, n) := b]> db) else None
  | TerminateBackends _ => Some db
  | CreateFrom dst src =>
      match db !! (c, dst), db !! (c, src) with None, Some false => Some (<[(c, dst) := true]> db) | _, _ => None end
  | DropIfExists n => Some (delete (c, n) db)
  end.
#[local] Instance server_laws : PgLaws exec dom.
Proof.
  split; unfold exec.
  - intros c n b s s'. destruct (decide _) as [Hs|]; [|done]. intros [= <-]. rewrite dom_insert_L.
    apply elem_of_dom in Hs. set_solver.
  - by intros c n s s' [= <-].
  - intros c dst src s s'. destruct (s !! (c, dst)) eqn:E; [done|]. destruct (s !! (c, src)) as [[]|]; try done.
    intros [= <-]. split; [by apply not_elem_of_dom|]. by rewrite dom_insert_L.
  - intros c n s s' [= <-]. by rewrite dom_delete_L.
  - intros c n s Hin. cbn. apply elem_of_dom in Hin. by rewrite decide_True.
Qed.

Definition yml : cell_yml := mkYml "c18" 3 (Some "18.0").
Definition source : instance :=
  mkInstance (Some (unlines ["[options]"; "db_name = db-c18-odoo"])) None {["odoo.log"]} (Some (Own 2600)) true true ∅.
Definition compose_text : string := text_of ["services:"; "  odoo:"; "    nkr_name: " +:+ quote "c18-odoo"; "    id: 3"].
Definition cell : cell_dir :=
  mkCellDir (Some (Some yml)) {["c18-odoo" := source]} {["odoo-var_lib_odoo.ext4" := DataFile "files"]} (Some compose_text).
Definition w : world server :=
  mkWorld {["c18" := cell]} (Some {["c18/c18-odoo" := 3]}) ∅ {[(3, "db-c18-odoo") := true]}
    {["/mnt/nkr/images/odoo18.ext4" := (2600, true)]} ∅.
Definition out (meta_works : bool) : outside :=
  mkOutside ∅ true (fun _ => None) Copied true true true true None (fun _ _ => Copied "files") Written Written [7] true Written
    meta_works 1700000000 true (fun _ => None) (fun _ => true) true.
Definition del : delete_outside :=
  mkDelete ∅ (fun _ => ∅) (fun _ => NoProcess) (fun _ => ∅) (fun _ => NoProcess) true Written true (fun _ => (true, None)) (fun _ => true) true.

Lemma w_unused : unused w yml "c18-beta".
Proof.
  split.
  - repeat constructor.
  - repeat constructor.
  - by vm_compute.
  - by vm_compute.
  - intros f [d Hl]. change (data_of w (y_name yml)) with ({["odoo-var_lib_odoo.ext4" := DataFile "files"]} : gmap string data) in Hl.
    apply lookup_singleton_Some in Hl as [<- _]. by vm_compute.
Qed.
Lemma clean : clean_rollback (out false).
Proof. by split. Qed.
Lemma clean_del : clean_delete del.
Proof. by split. Qed.
Definition failed : (clone_error + (Z * InstanceMeta)) * world server :=
  clone_instance_with_opts exec (out false) "c18-odoo" "c18-beta" default_options w.
Definition cloned : (clone_error + (Z * InstanceMeta)) * world server :=
  clone_instance_with_opts exec (out true) "c18-odoo" "c18-beta" default_options w.
Definition meta : InstanceMeta := meta_of (out true) default_options yml "c18-odoo" "c18-beta".
Lemma source_found : find_instance_cell w "c18-odoo" = inr ("c18", yml).
Proof. by vm_compute. Qed.
Lemma cloned_ok : cloned = (inr (2, meta), snd cloned).
Proof.
  assert (E : fst cloned = inr (2, meta)) by (by vm_compute). rewrite <- E. apply surjective_pairing.
Qed.
Lemma clone_found : find_instance_cell (snd cloned) "c18-beta" = inr (y_name yml, yml).
Proof. by vm_compute. Qed.
End InstancesExample.

Theorem failed_clone_restores_witness :
  let w := InstancesExample.w in let w' := snd InstancesExample.failed in
  fst InstancesExample.failed = inl MetaFailed
  /\ (w' = w \/ (let w1 := w <| w_vms ::= fun d => snd (list_vms ∅ d) |> in
       w' = w1 \/ exists d y, find_instance_cell w "c18-odoo" = inr (d, y)
                 /\ restored (D := gmap (Z * string) bool) dom w1 y "c18-beta" (allowed MetaFailed) w')).
Proof.
  assert (E : fst InstancesExample.failed = inl MetaFailed) by (by vm_compute). split; [done|].
  apply (failed_clone_restores InstancesExample.exec dom (PgLaws0 := InstancesExample.server_laws) (InstancesExample.out false) "c18-odoo" "c18-beta" default_options).
  - rewrite <- E. apply surjective_pairing.
  - intros d y Hf. rewrite InstancesExample.source_found in Hf. injection Hf as <- <-. apply InstancesExample.w_unused.
  - apply InstancesExample.clean.
Defined.

Theorem delete_instance_spec_witness :
  exists w2, delete_instance InstancesExample.exec InstancesExample.del "c18-odoo" true InstancesExample.w = (inr (y_name InstancesExample.yml), w2)
  /\ instance_at w2 "c18" "c18-odoo" = None
  /\ load (w_reg w2) = delete (scoped_key (Some (y_name InstancesExample.yml)) "c18-odoo") (load (w_reg InstancesExample.w))
  /\ dom (w_dbs w2) = dom (w_dbs InstancesExample.w) ∖ {[(3, "db-c18-odoo")]}.
Proof.
  destruct (delete_instance_spec InstancesExample.exec dom (PgLaws0 := InstancesExample.server_laws) InstancesExample.del "c18-odoo" InstancesExample.w "c18" InstancesExample.yml)
    as (w2 & E & H1 & _ & H2 & _ & _ & _ & _ & H3).
  - apply InstancesExample.source_found.
  - apply InstancesExample.clean_del.
  - repeat constructor.
  - repeat constructor.
  - exists w2. split; [exact E|]. split; [exact H1|]. split; [exact H2|exact H3].
Defined.

Theorem clone_builds_witness :
  let w1 := snd InstancesExample.cloned in
  InstancesExample.cloned = (inr (2, InstancesExample.meta), w1)
  /\ (exists i copied, instance_at InstancesExample.w "c18" "c18-odoo" = Some i /\ instance_at w1 (y_name InstancesExample.yml) "c18-beta"
        = Some (clone_of (InstancesExample.out true) default_options InstancesExample.yml "c18-odoo" "c18-beta" (w_images InstancesExample.w) copied))
  /\ load (w_reg w1) !! scoped_key (Some (y_name InstancesExample.yml)) "c18-beta" = Some (fst (2, InstancesExample.meta)).
Proof.
  destruct (clone_builds InstancesExample.exec dom (PgLaws0 := InstancesExample.server_laws) (InstancesExample.out true) "c18-odoo" "c18-beta" default_options
    InstancesExample.w (snd InstancesExample.cloned) "c18" InstancesExample.yml (2, InstancesExample.meta))
    as (_ & (i & copied & Hi & _ & Hc) & Hr & _).
  - apply InstancesExample.cloned_ok.
  - apply InstancesExample.source_found.
  - split; [apply InstancesExample.cloned_ok|]. split; [exists i, copied; split; [exact Hi|exact Hc]|exact Hr].
Defined.

Theorem delete_undoes_clone_witness :
  exists w2, delete_instance InstancesExample.exec InstancesExample.del "c18-beta" true (snd InstancesExample.cloned) = (inr (y_name InstancesExample.yml), w2)
  /\ load (w_reg w2) = load (w_reg InstancesExample.w)
  /\ (forall d n, instance_at w2 d n = instance_at InstancesExample.w d n)
  /\ (forall d, data_of w2 d = data_of InstancesExample.w d)
  /\ dom (w_dbs w2) = dom (w_dbs InstancesExample.w).
Proof.
  apply (delete_undoes_clone InstancesExample.exec dom (PgLaws0 := InstancesExample.server_laws) (InstancesExample.out true) InstancesExample.del
    "c18-odoo" "c18-beta" default_options InstancesExample.w (snd InstancesExample.cloned) "c18" InstancesExample.yml (2, InstancesExample.meta)).
  - apply InstancesExample.source_found.
  - apply InstancesExample.w_unused.
  - apply not_elem_of_dom. by vm_compute.
  - apply InstancesExample.cloned_ok.
  - apply InstancesExample.clone_found.
  - apply InstancesExample.clean_del.
Defined.

(** ** What is left, and what is taken *)
(** when only meta.json cannot be written, the service stays in the compose file although the
    directory, the identifier and the database are gone *)
Example failed_clone_leaves_block :
  match compose_of (snd InstancesExample.failed) "c18" with
  | Some new => locate (lines new) "c18-beta" <> None | None => False end
  /\ instance_at (snd InstancesExample.failed) "c18" "c18-beta" = None
  /\ load (w_reg (snd InstancesExample.failed)) !! "c18/c18-beta" = None.
Proof. split; [by vm_compute|]. split; by vm_compute. Qed.

(** the disks of [c18-beta-dev] have the prefix of [c18-beta]: a failed clone to the second
    name removes them, and so does its deletion *)
Definition with_neighbour : world (gmap (Z * string) bool) :=
  on_data "c18" <["beta-dev-var_lib_odoo.ext4" := DataFile "attachments"]> InstancesExample.w.
Example rollback_takes_neighbour :
  data_of with_neighbour "c18" !! "beta-dev-var_lib_odoo.ext4" = Some (DataFile "attachments")
  /\ data_of (snd (clone_instance_with_opts InstancesExample.exec (InstancesExample.out false) "c18-odoo" "c18-beta" default_options with_neighbour)) "c18"
       !! "beta-dev-var_lib_odoo.ext4" = None.
Proof. split; by vm_compute. Qed.
Example delete_takes_neighbour :
  data_of (snd (delete_instance InstancesExample.exec InstancesExample.del "c18-beta" true
    (snd (clone_instance_with_opts InstancesExample.exec (InstancesExample.out true) "c18-odoo" "c18-beta" default_options with_neighbour)))) "c18"
    !! "beta-dev-var_lib_odoo.ext4" = None.
Proof. by vm_compute. Qed.

(** when only the last statement fails the new database is there, and the caller is told that
    psql failed: the scratch does not own it *)
Definition no_reopen (c : Z) (s : statement) (db : gmap (Z * string) bool) : option (gmap (Z * string) bool) :=
  match s with AllowConnections _ true => None | _ => InstancesExample.exec c s db end.
Example half_cloned_database :
  let '(e, db) := clone_database no_reopen true 3 "c18-odoo" "c18-beta" {[(3, "db-c18-odoo") := true]} in
  e = Some PsqlFailed /\ db !! (3, "db-c18-beta") = Some true /\ db !! (3, "db-c18-odoo") = Some false.
Proof. by vm_compute. Qed.
