(* ===== verification/Backups.v ===== *)
(** * Backups of the compose file (src/cell.rs)

    Before each edit the compose file is copied to a file named by the second, and the oldest
    copies are removed until [COMPOSE_BACKUPS_TO_KEEP] are left. *)
From Stdlib Require Import Sorted.
From S2P Require Import Prelude Text Http Sorting Instances.

Definition COMPOSE_BACKUPS_TO_KEEP : nat := 20.

Notation dir := (gmap string string).

(** the time in the name of a backup *)
Definition backup_ts (stem name : string) : option Z :=
  suffix ← strip_prefix (stem +:+ ".bak.") name; parse_uint (2 ^ 64 - 1) suffix.
Definition backup_name (stem : string) (ts : Z) : string := stem +:+ ".bak." +:+ dec ts.

Section backups.
Context `{Listing} (stem : string).

Definition backups (d : dir) : list (string * Z) :=
  omap (fun n => ts ← backup_ts stem n; Some (n, ts)) (list_dir (dom d)).

(** [removes]: whether the removal of a file works *)
Definition rotate_compose_backups (removes : string -> bool) (keep : nat) (d : dir) : dir :=
  let bs := backups d in
  if (length bs <=? keep)%nat then d
  else
    let sorted := sort_by_key (fun b => [snd b]) bs in
    foldl (fun d b => if removes (fst b) then delete (fst b) d else d) d (take (length bs - keep) sorted).

(** [copies]: whether the copy works *)
Definition backup_compose_with_rotation (copies : bool) (removes : string -> bool) (ts : Z) (d : dir) : string * dir :=
  let bak := backup_name stem ts in
  let d := match d !! stem with Some content => if copies then <[bak := content]> d else d | None => d end in
  (bak, rotate_compose_backups removes COMPOSE_BACKUPS_TO_KEEP d).

(** ** What is kept *)
Context `{!ListingLaws}.

Lemma in_backups d n ts : (n, ts) ∈ backups d <-> is_Some (d !! n) /\ backup_ts stem n = Some ts.
Proof.
  unfold backups. rewrite list_elem_of_omap. setoid_rewrite list_dir_perm. setoid_rewrite elem_of_elements.
  setoid_rewrite elem_of_dom. split.
  - intros (n' & Hn & E). destruct (backup_ts stem n') eqn:Eb; [|done]. injection E as -> ->. done.
  - intros [Hn E]. exists n. by rewrite E.
Qed.

Lemma backups_nodup d : NoDup (map fst (backups d)).
Proof.
  unfold backups. assert (Hn : NoDup (list_dir (dom d))) by (rewrite list_dir_perm; apply NoDup_elements).
  induction Hn as [|n l Hn Hl IH]; [constructor|]. cbn. destruct (backup_ts stem n) as [ts|]; [|done]. cbn. constructor; [|done].
  intros Hin. apply list_elem_of_fmap in Hin as ([n' ts'] & -> & Hin). apply list_elem_of_omap in Hin as (n2 & Hn2 & E).
  destruct (backup_ts stem n2); [|done]. by injection E as -> _.
Qed.

Lemma fold_delete removes (bs : list (string * Z)) : forall (d : dir) n, (forall n, removes n = true) ->
  foldl (fun d b => if removes (fst b) then delete (fst b) d else d) d bs !! n
  = if decide (n ∈ map fst bs) then None else d !! n.
Proof.
  induction bs as [|[n' ts] bs IH]; intros d n Hr; [done|]. cbn [foldl fst map]. rewrite Hr, IH by done.
  destruct (decide (n ∈ map fst bs)); [by rewrite decide_True by (by right)|].
  destruct (decide (n = n')) as [->|Hne]; [by rewrite lookup_delete_eq, decide_True by left|].
  rewrite lookup_delete_ne by congruence. rewrite decide_False; [done|]. by intros [|]%elem_of_cons.
Qed.

(** the backups, the oldest first *)
Definition by_age (d : dir) : list (string * Z) := sort_by_key (fun b => [snd b]) (backups d).

Lemma rotated_lookup removes keep d n : (forall n, removes n = true) ->
  rotate_compose_backups removes keep d !! n
  = if decide (n ∈ map fst (take (length (backups d) - keep) (by_age d))) then None else d !! n.
Proof.
  intros Hr. unfold rotate_compose_backups. destruct (length (backups d) <=? keep)%nat eqn:E.
  - apply Nat.leb_le in E. replace (length (backups d) - keep)%nat with 0%nat by lia. rewrite take_0. done.
  - by apply fold_delete.
Qed.

Lemma rotated_backups removes keep d : (forall n, removes n = true) ->
  backups (rotate_compose_backups removes keep d) ≡ₚ drop (length (backups d) - keep) (by_age d).
Proof.
  intros Hr. set (k := (length (backups d) - keep)%nat).
  assert (Hp : by_age d ≡ₚ backups d) by apply sort_by_key_perm.
  assert (Hnd : NoDup (map fst (by_age d))) by (rewrite Hp; apply backups_nodup).
  rewrite <- (take_drop k (by_age d)), map_app in Hnd. apply list.NoDup_app in Hnd as (Ht & Hdisj & Hd).
  apply NoDup_Permutation.
  - eapply NoDup_fmap_1. apply backups_nodup.
  - by eapply NoDup_fmap_1.
  - intros [n ts]. rewrite in_backups, rotated_lookup by done. fold k.
    assert (Hin : (n, ts) ∈ by_age d <-> is_Some (d !! n) /\ backup_ts stem n = Some ts) by (by rewrite Hp, in_backups).
    rewrite <- (take_drop k (by_age d)), elem_of_app in Hin. destruct (decide (n ∈ map fst (take k (by_age d)))) as [Hn|Hn].
    + split; [by intros [[? ?] _]|]. intros Hin2. exfalso. apply (Hdisj n Hn). apply (list_elem_of_fmap_2' _ _ (n, ts)); done.
    + rewrite <- Hin. split; [|by right]. intros [Hin2|]; [|done]. exfalso. apply Hn.
      apply (list_elem_of_fmap_2' _ _ (n, ts)); done.
Qed.

Lemma rotated_count removes keep d : (forall n, removes n = true) ->
  length (backups (rotate_compose_backups removes keep d)) = Nat.min keep (length (backups d)).
Proof.
  intros Hr. rewrite (Permutation_length (rotated_backups removes keep d Hr)), length_drop.
  unfold by_age. rewrite (Permutation_length (sort_by_key_perm _ _)). lia.
Qed.

Lemma rotated_older removes keep d n ts n' ts' : (forall n, removes n = true) ->
  (n, ts) ∈ backups d -> rotate_compose_backups removes keep d !! n = None ->
  (n', ts') ∈ backups (rotate_compose_backups removes keep d) -> ts <= ts'.
Proof.
  intros Hr Hn Hgone Hkept. set (k := (length (backups d) - keep)%nat) in *.
  assert (Hp : by_age d ≡ₚ backups d) by apply sort_by_key_perm.
  rewrite (rotated_backups removes keep d Hr) in Hkept. fold k in Hkept.
  assert (Hin : (n, ts) ∈ take k (by_age d)).
  { rewrite rotated_lookup in Hgone by done. fold k in Hgone. apply in_backups in Hn as Hn'.
    destruct Hn' as [[c Hc] Hts]. rewrite <- Hp, <- (take_drop k (by_age d)), elem_of_app in Hn. destruct Hn as [|Hn]; [done|].
    destruct (decide (n ∈ map fst (take k (by_age d)))) as [Hin|]; [|by rewrite Hc in Hgone].
    apply list_elem_of_fmap in Hin as ([n2 ts2] & -> & Hin). cbn in *.
    assert (Hb : (n2, ts2) ∈ backups d) by (rewrite <- Hp, <- (take_drop k (by_age d)); apply elem_of_app; by left).
    apply in_backups in Hb as [_ Hb]. rewrite Hb in Hts. by injection Hts as ->. }
  pose proof (sort_by_key_sorted (fun b : string * Z => [snd b]) (backups d)) as Hs. fold (by_age d) in Hs.
  rewrite <- (take_drop k (by_age d)) in Hs. pose proof (sorted_split _ _ _ _ _ Hs Hin Hkept) as Hle.
  unfold key_le in Hle. cbn in Hle. rewrite orb_false_iff, Z.ltb_ge in Hle. lia.
Qed.

Lemma rotated_other removes keep d n : (forall n, removes n = true) -> backup_ts stem n = None ->
  rotate_compose_backups removes keep d !! n = d !! n.
Proof.
  intros Hr Hn. rewrite rotated_lookup by done. destruct (decide _) as [Hin|]; [|done].
  apply list_elem_of_fmap in Hin as ([n2 ts2] & -> & Hin). cbn in Hn.
  assert (Hb : (n2, ts2) ∈ backups d).
  { rewrite <- (sort_by_key_perm (fun b => [snd b]) (backups d)). eapply elem_of_take in Hin as (i & Hi & _).
    by eapply list_elem_of_lookup_2. }
  apply in_backups in Hb as [_ Hb]. by rewrite Hb in Hn.
Qed.

(** [rotation_keeps_newest]: the rotation removes nothing but backups, leaves at most [keep]
    of them, all it can, and each one it removes is at most as recent as each one it keeps. *)
Theorem rotation_keeps_newest removes keep d : (forall n, removes n = true) ->
  let d' := rotate_compose_backups removes keep d in
  (forall n, backup_ts stem n = None -> d' !! n = d !! n)
  /\ (forall n c, d' !! n = Some c -> d !! n = Some c)
  /\ length (backups d') = Nat.min keep (length (backups d))
  /\ (forall n ts n' ts', (n, ts) ∈ backups d -> d' !! n = None -> (n', ts') ∈ backups d' -> ts <= ts').
Proof.
  intros Hr d'. split; [intros; by apply rotated_other|]. split; [|split; [by apply rotated_count|intros; by eapply rotated_older]].
  intros n c. unfold d'. rewrite rotated_lookup by done. by destruct (decide _).
Qed.

(** [backup_is_kept]: after an edit at a later second than the last backup, the backup holds
    the contents from before the edit, the compose file is untouched, and there are at most
    twenty backups. *)
Theorem backup_is_kept removes ts d content :
  (forall n, removes n = true) -> d !! stem = Some content -> 0 <= ts < 2 ^ 64 ->
  (forall n ts', (n, ts') ∈ backups d -> ts' < ts) ->
  let '(bak, d') := backup_compose_with_rotation true removes ts d in
  d' !! bak = Some content /\ d' !! stem = Some content /\ (length (backups d') <= COMPOSE_BACKUPS_TO_KEEP)%nat.
Proof.
  intros Hr Hc Hts Hold. unfold backup_compose_with_rotation. rewrite Hc.
  set (bak := backup_name stem ts). set (d1 := <[bak := content]> d).
  assert (Hbak : backup_ts stem bak = Some ts).
  { unfold backup_ts, bak, backup_name. rewrite <- string_app_assoc, strip_prefix_app. apply parse_uint_dec; [exact Hts|lia]. }
  pose proof (rotated_count removes COMPOSE_BACKUPS_TO_KEEP d1 Hr) as Hcount.
  assert (Hstem : backup_ts stem stem = None).
  { unfold backup_ts. destruct (strip_prefix _ stem) as [r|] eqn:E; [|done]. apply strip_prefix_some in E.
    apply (f_equal (fun s => length (String.list_ascii_of_string s))) in E. rewrite !list_ascii_app, !length_app in E. cbn in E. lia. }
  assert (Hne : bak <> stem) by (intros E; rewrite E in Hbak; congruence).
  split; [|split; [rewrite rotated_other by done; unfold d1; by rewrite lookup_insert_ne|rewrite Hcount; lia]].
  destruct (rotate_compose_backups removes COMPOSE_BACKUPS_TO_KEEP d1 !! bak) eqn:Eb.
  - rewrite rotated_lookup in Eb by done. destruct (decide _); [done|]. unfold d1 in Eb. rewrite lookup_insert_eq in Eb. congruence.
  - exfalso. assert (Hin : (bak, ts) ∈ backups d1) by (apply in_backups; split; [by eexists; apply lookup_insert_eq|done]).
    (* something is kept, and it is as recent *)
    destruct (backups (rotate_compose_backups removes COMPOSE_BACKUPS_TO_KEEP d1)) as [|[n' ts'] rest] eqn:Ek.
    + cbn in Hcount. destruct (backups d1); [by apply elem_of_nil in Hin|]. cbn in Hcount. lia.
    + assert (Hk : (n', ts') ∈ backups (rotate_compose_backups removes COMPOSE_BACKUPS_TO_KEEP d1)) by (rewrite Ek; left).
      pose proof (rotated_older _ _ _ _ _ _ _ Hr Hin Eb Hk) as Hle.
      apply in_backups in Hk as [[c' Hc'] Ht']. rewrite rotated_lookup in Hc' by done. destruct (decide _); [done|].
      unfold d1 in Hc'. apply lookup_insert_Some in Hc' as [[<- _]|[Hne' Hc']].
      * by rewrite rotated_lookup in Eb; [destruct (decide _); [|unfold d1 in Eb; rewrite lookup_insert_eq in Eb]|].
      * assert (ts' < ts) by (apply (Hold n'); apply in_backups; split; [by eexists|done]). lia.
Qed.
End backups.

Module BackupsExample.
Definition stem : string := "nkr-compose.yml".
Definition d : dir :=
  list_to_map [(stem, "services:"); (backup_name stem 1700000005, "b"); (backup_name stem 999, "a");
               (backup_name stem 1700000009, "c"); ("nkr-compose.yml.bak.tmp", "x"); ("cell.yml", "y")].
End BackupsExample.

Theorem rotation_keeps_newest_witness :
  let d' := rotate_compose_backups BackupsExample.stem (fun _ => true) 2 BackupsExample.d in
  length (backups BackupsExample.stem BackupsExample.d) = 3%nat
  /\ length (backups BackupsExample.stem d') = 2%nat
  /\ d' !! backup_name BackupsExample.stem 999 = None
  /\ d' !! "nkr-compose.yml.bak.tmp" = Some "x".
Proof.
  destruct (rotation_keeps_newest BackupsExample.stem (fun _ => true) 2 BackupsExample.d (fun _ => eq_refl)) as (H1 & _ & H2 & _).
  split; [by vm_compute|]. split; [rewrite H2; by vm_compute|]. split; [by vm_compute|].
  rewrite H1; by vm_compute.
Defined.

Theorem backup_is_kept_witness :
  let '(bak, d') := backup_compose_with_rotation BackupsExample.stem true (fun _ => true) 1700000010 BackupsExample.d in
  d' !! bak = Some "services:" /\ d' !! BackupsExample.stem = Some "services:"
  /\ (length (backups BackupsExample.stem d') <= COMPOSE_BACKUPS_TO_KEEP)%nat.
Proof.
  apply (backup_is_kept BackupsExample.stem (fun _ => true) 1700000010 BackupsExample.d "services:").
  - done.
  - by vm_compute.
  - split; vm_compute; congruence.
  - intros n ts' Hin. assert (Hall : Forall (fun b => snd b < 1700000010) (backups BackupsExample.stem BackupsExample.d)).
    { apply (bool_decide_eq_true _). by vm_compute. }
    rewrite list.Forall_forall in Hall. exact (Hall _ Hin).
Defined.

(** two edits in the same second share a backup: the contents before the first are lost *)
Example same_second_overwrites :
  let '(bak, d1) := backup_compose_with_rotation BackupsExample.stem true (fun _ => true) 1700000010 BackupsExample.d in
  let d1 := <[BackupsExample.stem := "edited once"]> d1 in
  let '(bak2, d2) := backup_compose_with_rotation BackupsExample.stem true (fun _ => true) 1700000010 d1 in
  bak2 = bak /\ d2 !! bak = Some "edited once".
Proof. by vm_compute. Qed.
