(* ===== verification/Tenants.v ===== *)
(** * Projects and their instances (src/api.rs)

    An instance may carry the project and the environment of the panel in its meta.json.  The
    handlers here look instances up by these labels, and label an instance that has none.
    They see the directory of the cells: a cell.yml per cell and a meta.json per instance. *)
From S2P Require Import Prelude Text Sorting Http Json Watchdog Registry State Resources Cells Instances.

(** ** Answers: a status and a body, of which the texts for people are left out *)
Record answer := mkAnswer { a_status : Z; a_body : Value }.
Notation Answer status members := (mkAnswer status (JObject members)).
Definition error (status : Z) (code : string) : answer := Answer status [("error", JString code)].
Definition opt_string (s : option string) : Value := match s with Some s => JString s | None => JNull end.
Definition num (n : nat) : Value := JInt (Z.of_nat n).

(** ** The directory of the cells

    [f_ymls]: [None] for a cell.yml that does not parse.  [f_metas]: the instances by the name
    of their cell; no meta.json, one that is no JSON, or its value. *)
Record fleet := mkFleet {
  f_ymls : gmap string (option cell_yml);
  f_metas : gmap string (gmap string (option (option Value))) }.
#[export] Instance eta_fleet : Eta fleet := fun f => mkFleet (f_ymls f) (f_metas f).

Record tenant := mkTenant { t_cell : string; t_name : string; t_meta : option Value }.
Definition project_of (t : tenant) : option string := t_meta t ≫= get_str "project_id".
Definition env_of (t : tenant) : option string := t_meta t ≫= get_str "env".

Section lookups.
Context `{Listing}.

Definition list_cells (f : fleet) : list cell_yml :=
  sort_by_key (fun y => [y_id y]) (omap (fun d => mjoin (f_ymls f !! d)) (list_dir (dom (f_ymls f)))).

Inductive load_error := NoCellYml | CellYmlInvalid.
Definition load_cell (name : string) (f : fleet) : load_error + cell_yml :=
  match f_ymls f !! vm_key name with
  | None => inl NoCellYml
  | Some None => inl CellYmlInvalid
  | Some (Some y) => inr y
  end.

(** the instances of a cell, in the order of its directory *)
Definition tenants_of (f : fleet) (cell : string) : list tenant :=
  let m := default ∅ (f_metas f !! cell) in
  map (fun n => mkTenant cell n (mjoin (mjoin (m !! n)))) (list_dir (dom m)).
Definition all_tenants (f : fleet) : list tenant := mbind (fun y => tenants_of f (y_name y)) (list_cells f).

Definition config_of (f : fleet) (y : cell_yml) : CellConfig :=
  mkCellConfig (y_name y) (y_id y) (y_version y)
    (map (fun t => mkInst (t_name t) (project_of t)) (tenants_of f (y_name y))).
Definition configs (f : fleet) : list CellConfig := map (config_of f) (list_cells f).
Definition cell_of_tenant (f : fleet) (nkr_name : string) : option string :=
  cl_name <$> find_cell_by_nkr_name (configs f) nkr_name.

Definition find_instance_with_project_and_env (project_id env : string) (f : fleet) : option string :=
  t_name <$> find (fun t => negb (is_template_instance (t_name t))
                            && bool_decide (project_of t = Some project_id) && bool_decide (env_of t = Some env))
               (all_tenants f).
Definition find_existing_instance_for_project (project_id : string) (f : fleet) : option string :=
  t_name <$> find (fun t => bool_decide (project_of t = Some project_id)) (all_tenants f).

(** ** Handlers that read *)
Definition capacity (vms : list VmState) (max_projects : nat) (f : fleet) (y : cell_yml) : nat * nat * Z :=
  let c := config_of f y in
  (count_odoo_instances c, size (list_unique_projects_in_cell c), sum_committed_ram_in_cell vms (cell_id c)).

Definition handle_list_cells (vms : list VmState) (max_projects : nat) (f : fleet) : answer :=
  Answer 200
    [("cells", JArray (map (fun y =>
        let '(used, projects, ram) := capacity vms max_projects f y in
        JObject [("name", JString (y_name y)); ("cell_id", JInt (y_id y)); ("odoo_version", opt_string (y_version y));
                 ("used_odoos", num used); ("max_odoos", num MAX_ODOOS_PER_CELL);
                 ("free_slots", num (MAX_ODOOS_PER_CELL - used));
                 ("projects_used", num projects); ("max_projects", num max_projects);
                 ("projects_free", num (max_projects - projects)); ("ram_committed_mb", JInt ram)]) (list_cells f)));
     ("max_odoos_per_cell", num MAX_ODOOS_PER_CELL); ("max_projects_per_cell", num max_projects)].

Definition handle_cell_capacity (vms : list VmState) (max_projects : nat) (cell_name : string) (f : fleet) : answer :=
  if negb (is_safe_identifier cell_name) then error 400 "invalid_cell_name"
  else match load_cell cell_name f with
  | inl _ => error 404 "cell_not_found"
  | inr y =>
      let '(used, projects, ram) := capacity vms max_projects f y in
      Answer 200
        [("cell", JString (y_name y)); ("cell_id", JInt (y_id y)); ("odoo_version", opt_string (y_version y));
         ("instances_used", num used); ("instances_max", num MAX_ODOOS_PER_CELL);
         ("instances_free", num (MAX_ODOOS_PER_CELL - used));
         ("projects_used", num projects); ("projects_max", num max_projects);
         ("projects_free", num (max_projects - projects));
         ("projects", JArray (map JString (elements (list_unique_projects_in_cell (config_of f y)))));
         ("ram_committed_mb", JInt ram)]
  end.

(** an instance without a project counts as the project of its name *)
Definition belongs (project_id : string) (t : tenant) : bool :=
  match project_of t with
  | Some p => bool_decide (p = project_id)
  | None => bool_decide (t_name t = project_id)
  end.
Definition handle_project_lookup (vms : list VmState) (project_id : string) (f : fleet) : answer :=
  if negb (is_safe_identifier project_id) then error 400 "invalid_project_id"
  else match filter (fun t => belongs project_id t = true) (all_tenants f) with
  | [] => Answer 404 [("error", JString "project_not_found"); ("project_id", JString project_id)]
  | (t0 :: _) as found =>
      Answer 200
        [("project_id", JString project_id); ("cell", JString (t_cell t0));
         ("instances", JArray (map (fun t =>
            JObject [("nkr_name", JString (t_name t)); ("env", opt_string (env_of t));
                     ("running", JBool (existsb (fun v => bool_decide (State.name v = t_name t)) vms))]) found))]
  end.

(** ** Adoption

    [v[key] = x]: null becomes an object, other values that are no objects panic *)
Definition set_index (key : string) (x : Value) (v : Value) : outcome Value :=
  match v with
  | JObject m => Done (JObject (insert_member key x m))
  | JNull => Done (JObject [(key, x)])
  | _ => Panic ExplicitPanic
  end.

Definition expected_tier (env : string) : string := if bool_decide (env = "prod") then "production" else env.
(** the label does not fit the size of the VM *)
Definition sizing_warning (env : option string) (v : Value) : option string :=
  e ← env;
  let current := default "" (get_str "tier" v) in
  if bool_decide (current = "") || bool_decide (current = expected_tier e) then None
  else Some ("env='" +:+ e +:+ "' usualmente implica tier='" +:+ expected_tier e +:+ "', pero esta instancia está creada como tier='"
             +:+ current +:+ "'. El PATCH solo cambia el label de meta.json — NO reconfigura la VM. Si quieres el sizing del env nuevo, hay que recrear la instancia o aplicar cambios manuales (workers, RAM, balloon).").

Definition relabel (project_id : string) (env : option string) (v : Value) : outcome Value :=
  v ← set_index "project_id" (JString project_id) v;
  match env with Some e => set_index "env" (JString e) v | None => mret v end.

Inductive meta_write := MetaWritten | WriteFailed | RenameFailed.

Definition env_known (env : option string) : bool :=
  match env with Some e => bool_decide (e ∈ ["prod"; "staging"; "dev"]) | None => true end.

(** the cell that already has the project, and an instance of it there *)
Definition project_elsewhere (project_id cell_name : string) (f : fleet) : option (string * string) :=
  existing ← find_existing_instance_for_project project_id f;
  existing_cell ← cell_of_tenant f existing;
  if bool_decide (existing_cell = cell_name) then None else Some (existing_cell, existing).
Definition env_taken (nkr_name project_id : string) (env : option string) (f : fleet) : option string :=
  e ← env;
  conflict ← find_instance_with_project_and_env project_id e f;
  if bool_decide (conflict = nkr_name) then None else Some conflict.

Definition set_meta (cell nkr_name : string) (v : Value) (f : fleet) : fleet :=
  f <| f_metas ::= alter <[nkr_name := Some (Some v)]> cell |>.

Definition adopt_answer (nkr_name cell project_id : string) (env : option string) (v : Value) : answer :=
  Answer 200 ([("nkr_name", JString nkr_name); ("cell", JString cell); ("project_id", JString project_id); ("env", opt_string env)]
              ++ match sizing_warning env v with Some t => [("sizing_warning", JString t)] | None => [] end).

Definition handle_adopt_instance (w : meta_write) (nkr_name project_id : string) (env : option string) (f : fleet)
  : outcome (answer * fleet) :=
  let refuse a := Done (a, f) in
  if negb (is_safe_identifier nkr_name) then refuse (error 400 "invalid_nkr_name")
  else if negb (is_safe_identifier project_id) then refuse (error 400 "invalid_project_id")
  else if negb (env_known env) then refuse (error 400 "invalid_env")
  else match cell_of_tenant f nkr_name with
  | None => refuse (error 404 "instance_not_found")
  | Some cell_name =>
      match project_elsewhere project_id cell_name f with
      | Some (existing_cell, existing) =>
          refuse (Answer 409 [("error", JString "project_in_other_cell"); ("project_id", JString project_id);
                              ("existing_cell", JString existing_cell); ("this_cell", JString cell_name);
                              ("conflict_instance", JString existing)])
      | None =>
          match env_taken nkr_name project_id env f with
          | Some conflict =>
              refuse (Answer 409 [("error", JString "env_already_taken"); ("conflict_nkr_name", JString conflict)])
          | None =>
              match mjoin (f_metas f !! cell_name ≫= lookup nkr_name) with
              | None => refuse (error 404 "meta_json_missing")
              | Some content =>
                  let v := default (JObject []) content in
                  v' ← relabel project_id env v;
                  match w with
                  | WriteFailed => refuse (error 500 "write_failed")
                  | RenameFailed => refuse (error 500 "rename_failed")
                  | MetaWritten =>
                      Done (adopt_answer nkr_name cell_name project_id env v, set_meta cell_name nkr_name v' f)
                  end
              end
          end
      end
  end.
End lookups.

(** ** Looking up members *)
Definition set_at (key : string) (x : Value) : list (string * Value) -> list (string * Value) :=
  map (fun '(k, y) => if bool_decide (k = key) then (k, x) else (k, y)).

Lemma insert_member_cons key x k y m :
  insert_member key x ((k, y) :: m)
  = if bool_decide (k = key) then (k, x) :: set_at key x m else (k, y) :: insert_member key x m.
Proof. unfold insert_member. simpl. destruct (bool_decide (k = key)); simpl; [done|]. by destruct (existsb _ m). Qed.

Lemma get_cons key k y m : get key (JObject ((k, y) :: m)) = if bool_decide (k = key) then Some y else get key (JObject m).
Proof. unfold get. simpl. by destruct (bool_decide (k = key)). Qed.

Lemma get_set_at_ne key key' x m : key <> key' -> get key (JObject (set_at key' x m)) = get key (JObject m).
Proof.
  intros Hne. induction m as [|[k y] m IH]; [done|]. simpl set_at. fold (set_at key' x m).
  destruct (bool_decide (k = key')) eqn:E; rewrite !get_cons, IH; [|done].
  apply bool_decide_eq_true in E as ->. by rewrite bool_decide_false.
Qed.

Lemma get_insert_eq key x m : get key (JObject (insert_member key x m)) = Some x.
Proof.
  induction m as [|[k y] m IH]; [unfold get; simpl; by rewrite bool_decide_true|].
  rewrite insert_member_cons. destruct (bool_decide (k = key)) eqn:E; by rewrite get_cons, E.
Qed.

Lemma get_insert_ne key key' x m : key <> key' -> get key (JObject (insert_member key' x m)) = get key (JObject m).
Proof.
  intros Hne. induction m as [|[k y] m IH]; [unfold get; simpl; by rewrite bool_decide_false|].
  rewrite insert_member_cons. destruct (bool_decide (k = key')) eqn:E; rewrite !get_cons, ?get_set_at_ne, ?IH by done; [|done].
  apply bool_decide_eq_true in E as ->. by rewrite bool_decide_false.
Qed.

(** every member of this name has this value, and there is one *)
Definition has_member (key : string) (x : Value) (m : list (string * Value)) : Prop :=
  get key (JObject m) = Some x /\ Forall (fun '(k, y) => k = key -> y = x) m.

Lemma set_at_id key x m : Forall (fun '(k, y) => k = key -> y = x) m -> set_at key x m = m.
Proof.
  induction 1 as [|[k y] m Hk _ IH]; [done|]. simpl set_at. fold (set_at key x m). rewrite IH.
  case_bool_decide; [|done]. by rewrite Hk.
Qed.

(** a value that is there already is not changed by its insertion *)
Lemma insert_has key x m : has_member key x m -> insert_member key x m = m.
Proof.
  intros [Hget Hall]. induction m as [|[k y] m IH]; [done|]. rewrite insert_member_cons.
  apply Forall_cons_1 in Hall as [Hk Hall]. rewrite get_cons in Hget. case_bool_decide.
  - rewrite set_at_id by done. simplify_eq. done.
  - by rewrite IH.
Qed.

Lemma has_insert key x m : has_member key x (insert_member key x m).
Proof.
  split; [by rewrite get_insert_eq|].
  assert (Hs : forall m, Forall (fun '(k, y) => k = key -> y = x) (set_at key x m)).
  { intros m'. induction m' as [|[k y] m' IH]; [done|]. simpl. case_bool_decide; by constructor. }
  induction m as [|[k y] m IH]; [by repeat constructor|].
  rewrite insert_member_cons. case_bool_decide; constructor; auto; done.
Qed.

Lemma has_insert_ne key x key' x' m : key <> key' -> has_member key x m -> has_member key x (insert_member key' x' m).
Proof.
  intros Hne [Hget Hall]. split; [by rewrite get_insert_ne|]. clear Hget.
  induction m as [|[k y] m IH]; [constructor; [simpl; congruence|done]|].
  apply Forall_cons_1 in Hall as [Hk Hall]. rewrite insert_member_cons.
  case_bool_decide; (constructor; [simpl in *; intros ->; first [by destruct Hne | auto]|]); [|by apply IH].
  clear -Hne Hall. induction Hall as [|[k' z] m Hz _ IH]; [done|]. simpl. case_bool_decide; constructor; auto; intros ->; first [by destruct Hne | auto].
Qed.

(** ** The labels after an adoption *)
Lemma relabel_labels p env v v' : relabel p env v = Done v' ->
  get_str "project_id" v' = Some p
  /\ get_str "env" v' = match env with Some e => Some e | None => get_str "env" v end
  /\ get_str "tier" v' = get_str "tier" v.
Proof.
  unfold relabel, set_index, get_str. destruct v as [| | | | | |m]; simpl; try done.
  - destruct env; intros [= <-]; done.
  - destruct env as [e|]; simpl; intros [= <-]; (split_and!; repeat (rewrite get_insert_eq || rewrite get_insert_ne by done); done).
Qed.

Lemma relabel_again p env v v' : relabel p env v = Done v' -> relabel p env v' = Done v'.
Proof.
  unfold relabel, set_index. destruct v as [| | | | | |m]; simpl; try done.
  - by destruct env; intros [= <-].
  - destruct env as [e|]; simpl; intros [= <-]; simpl.
    + do 2 f_equal. rewrite (insert_has "project_id") by (apply has_insert_ne, has_insert; done). apply insert_has, has_insert.
    + do 2 f_equal. apply insert_has, has_insert.
Qed.

(** ** The tenants of a fleet *)
Section adoption.
Context `{Listing} `{!ListingLaws}.

Lemma in_all_tenants f t : t ∈ all_tenants f <->
  (exists y, y ∈ list_cells f /\ y_name y = t_cell t)
  /\ exists c, f_metas f !! t_cell t ≫= lookup (t_name t) = Some c /\ t_meta t = mjoin c.
Proof.
  unfold all_tenants. rewrite list_elem_of_bind. unfold tenants_of. split.
  - intros (y & (n & -> & Hn)%list_elem_of_fmap & Hy). cbn [t_cell t_name t_meta].
    rewrite list_dir_perm, elem_of_elements, elem_of_dom in Hn. split; [by exists y|].
    destruct (f_metas f !! y_name y) as [m|]; cbn in Hn |- *; [|by rewrite lookup_empty in Hn; destruct Hn].
    destruct Hn as [c Hc]. exists c. by rewrite Hc.
  - intros ((y & Hy & Hname) & c & Hc & Hm). exists y. split; [|done]. apply list_elem_of_fmap. exists (t_name t).
    rewrite list_dir_perm, elem_of_elements, elem_of_dom, Hname.
    destruct (f_metas f !! t_cell t) as [m|]; cbn in Hc |- *; [|done]. rewrite Hc. split; [|by eexists].
    destruct t. cbn in *. by rewrite Hm.
Qed.

Definition at_place (c n : string) (t : tenant) : Prop := t_cell t = c /\ t_name t = n.

Lemma in_set_meta f c n v t : is_Some (f_metas f !! c ≫= lookup n) ->
  t ∈ all_tenants (set_meta c n v f) <->
  (t ∈ all_tenants f /\ ~ at_place c n t) \/ (at_place c n t /\ t_meta t = Some v /\ exists y, y ∈ list_cells f /\ y_name y = c).
Proof.
  intros [x Hx]. rewrite !in_all_tenants. change (list_cells (set_meta c n v f)) with (list_cells f). unfold at_place.
  destruct t as [c' n' m']. cbn [t_cell t_name t_meta set_meta set_field f_metas].
  destruct (f_metas f !! c) as [m|] eqn:Em; [|done]. cbn in Hx.
  destruct (decide (c' = c)) as [->|Hc].
  - rewrite lookup_alter_eq, Em. cbn. destruct (decide (n' = n)) as [->|Hn].
    + rewrite lookup_insert_eq. naive_solver.
    + rewrite lookup_insert_ne by done. naive_solver.
  - rewrite lookup_alter_ne by done. naive_solver.
Qed.

Lemma find_in {A} (p : A -> bool) l x : find p l = Some x -> x ∈ l /\ p x = true.
Proof. intros [Hin Hp]%List.find_some. split; [by apply list_elem_of_In|done]. Qed.
Lemma find_none_in {A} (p : A -> bool) l x : find p l = None -> x ∈ l -> p x = false.
Proof. intros Hn Hin%list_elem_of_In. by eapply List.find_none. Qed.

Lemma cell_of_tenant_in f n c : cell_of_tenant f n = Some c -> exists t, t ∈ all_tenants f /\ at_place c n t.
Proof.
  unfold cell_of_tenant, find_cell_by_nkr_name, configs, all_tenants. intros (cfg & Hf & ->)%fmap_Some.
  apply find_in in Hf as [(y & -> & Hy)%list_elem_of_fmap He].
  apply existsb_exists in He as (i & Hi%list_elem_of_In & Hn%bool_decide_eq_true).
  cbn in Hi. apply list_elem_of_fmap in Hi as (t & -> & Ht). exists t. split.
  - apply list_elem_of_bind. by exists y.
  - split; [|done]. unfold tenants_of in Ht. by apply list_elem_of_fmap in Ht as (? & -> & _).
Qed.

Lemma cell_of_tenant_some f t : t ∈ all_tenants f -> is_Some (cell_of_tenant f (t_name t)).
Proof.
  intros Ht. unfold cell_of_tenant, find_cell_by_nkr_name. destruct (find _ (configs f)) eqn:E; [by eexists|].
  apply list_elem_of_bind in Ht as (y & Ht & Hy).
  assert (Hc : config_of f y ∈ configs f) by (apply list_elem_of_fmap; eauto).
  pose proof (find_none_in _ _ _ E Hc) as Hf. cbv beta in Hf.
  assert (Ht' : existsb (fun i => bool_decide (in_name i = t_name t)) (cl_instances (config_of f y)) = true); [|congruence].
  apply existsb_exists. exists (mkInst (t_name t) (project_of t)). split; [|by apply bool_decide_true].
  apply list_elem_of_In, list_elem_of_fmap. eauto.
Qed.

(** ** What holds of the labels *)
Definition names_unique (f : fleet) : Prop :=
  forall t t', t ∈ all_tenants f -> t' ∈ all_tenants f -> t_name t = t_name t' -> t_cell t = t_cell t'.
Definition one_cell_per_project (f : fleet) : Prop :=
  forall t t' p, t ∈ all_tenants f -> t' ∈ all_tenants f -> project_of t = Some p -> project_of t' = Some p -> t_cell t = t_cell t'.
Definition one_instance_per_env (f : fleet) : Prop :=
  forall t t' p e, t ∈ all_tenants f -> t' ∈ all_tenants f ->
    is_template_instance (t_name t) = false -> is_template_instance (t_name t') = false ->
    project_of t = Some p -> project_of t' = Some p -> env_of t = Some e -> env_of t' = Some e ->
    t_name t = t_name t'.

Lemma cell_of_unique f t : names_unique f -> t ∈ all_tenants f -> cell_of_tenant f (t_name t) = Some (t_cell t).
Proof.
  intros Hu Ht. destruct (cell_of_tenant_some _ _ Ht) as [c Hc]. rewrite Hc. f_equal.
  apply cell_of_tenant_in in Hc as (t' & Ht' & <- & Hn). by apply Hu.
Qed.

Lemma not_elsewhere f p c t : names_unique f -> project_elsewhere p c f = None ->
  one_cell_per_project f -> t ∈ all_tenants f -> project_of t = Some p -> t_cell t = c.
Proof.
  intros Hu He Ho Ht Hp. unfold project_elsewhere, find_existing_instance_for_project in He.
  destruct (find _ _) as [t'|] eqn:Ef; cbn in He.
  - apply find_in in Ef as [Ht' Hp'%bool_decide_eq_true]. rewrite (cell_of_unique _ _ Hu Ht') in He. cbn in He.
    case_bool_decide; [|done]. subst. by eapply Ho.
  - pose proof (find_none_in _ _ _ Ef Ht) as Hf. cbn in Hf. by rewrite Hp, bool_decide_true in Hf.
Qed.

Lemma not_taken f n p e t : env_taken n p (Some e) f = None -> one_instance_per_env f -> t ∈ all_tenants f ->
  is_template_instance (t_name t) = false -> project_of t = Some p -> env_of t = Some e -> t_name t = n.
Proof.
  intros He Ho Ht Htpl Hp Hv. unfold env_taken, find_instance_with_project_and_env in He. cbn in He.
  destruct (find _ _) as [t'|] eqn:Ef; cbn in He.
  - apply find_in in Ef as [Ht' [[Htpl'%negb_true_iff Hp'%bool_decide_eq_true]%andb_true_iff Hv'%bool_decide_eq_true]%andb_true_iff].
    case_bool_decide; [|done]. subst. by eapply Ho.
  - pose proof (find_none_in _ _ _ Ef Ht) as Hf. cbn in Hf. rewrite Htpl, Hp, Hv, !bool_decide_true in Hf by done. done.
Qed.

(** ** An adoption, on every branch *)
Inductive adopted (w : meta_write) (n p : string) (env : option string) (f : fleet) : answer -> fleet -> Prop :=
  | Refused a : 400 <= a_status a -> adopted w n p env f a f
  | Labelled c content v :
      w = MetaWritten -> is_safe_identifier n = true -> is_safe_identifier p = true -> env_known env = true ->
      cell_of_tenant f n = Some c -> project_elsewhere p c f = None -> env_taken n p env f = None ->
      mjoin (f_metas f !! c ≫= lookup n) = Some content -> relabel p env (default (JObject []) content) = Done v ->
      adopted w n p env f (adopt_answer n c p env (default (JObject []) content)) (set_meta c n v f).

Lemma adopt_cases w n p env f a f' : handle_adopt_instance w n p env f = Done (a, f') -> adopted w n p env f a f'.
Proof.
  unfold handle_adopt_instance. intros Ha.
  repeat match type of Ha with
  | Done (_, f) = Done _ => simplify_eq; by constructor
  | (if ?b then _ else _) = _ => let E := fresh "E" in destruct b eqn:E
  end.
  rewrite ?negb_false_iff in *.
  destruct (cell_of_tenant f n) as [c|] eqn:Ec; [|simplify_eq; by constructor].
  destruct (project_elsewhere p c f) as [[]|] eqn:Ep; [simplify_eq; by constructor|].
  destruct (env_taken n p env f) eqn:Et; [simplify_eq; by constructor|].
  destruct (mjoin _) as [content|] eqn:Em; [|simplify_eq; by constructor].
  destruct (relabel _ _ _) as [v|] eqn:Er; [|done]. cbn [mbind outcome_bind] in Ha.
  destruct w; simplify_eq; [by econstructor|by constructor..].
Qed.

(** ** Adopting again *)
Definition place (c n : string) (v : Value) (t : tenant) : tenant :=
  if bool_decide (t_cell t = c /\ t_name t = n) then mkTenant c n (Some v) else t.

Lemma all_tenants_set_meta f c n v : is_Some (f_metas f !! c ≫= lookup n) ->
  all_tenants (set_meta c n v f) = map (place c n v) (all_tenants f).
Proof.
  intros [x Hx]. unfold all_tenants. change (list_cells (set_meta c n v f)) with (list_cells f).
  induction (list_cells f) as [|y l IH]; [done|]. cbn. rewrite IH. etrans; [|symmetry; apply map_app]. f_equal. clear IH.
  unfold tenants_of, set_meta. cbn. rewrite map_map. destruct (f_metas f !! c) as [m|] eqn:Em; [|done]. cbn in Hx.
  destruct (decide (y_name y = c)) as [->|Hc].
  - rewrite lookup_alter_eq, Em. cbn. rewrite dom_insert_lookup_L by done. apply map_ext. intros n'. unfold place. cbn.
    destruct (decide (n' = n)) as [->|Hn].
    + by rewrite lookup_insert_eq, bool_decide_true.
    + rewrite lookup_insert_ne by done. rewrite bool_decide_false; [done|]. by intros [].
  - rewrite lookup_alter_ne by done. apply map_ext. intros n'. unfold place. cbn. rewrite bool_decide_false; [done|]. by intros [].
Qed.

Lemma place_name c n v t : t_name (place c n v t) = t_name t.
Proof. unfold place. case_bool_decide as E; [|done]. by destruct E. Qed.

(** the first instance that qualifies is the old one or the one that was placed *)
Lemma find_placed (p : tenant -> bool) c n v l :
  p (mkTenant c n (Some v)) = true \/ (forall t, t_name t = n -> p t = false) ->
  t_name <$> find p (map (place c n v) l) = t_name <$> find p l \/ t_name <$> find p (map (place c n v) l) = Some n.
Proof.
  intros Hp. induction l as [|t l IH]; [by left|]. simpl.
  destruct (decide (t_cell t = c /\ t_name t = n)) as [E|E].
  - replace (place c n v t) with (mkTenant c n (Some v)) by (unfold place; by rewrite bool_decide_true). destruct E as [_ E]. destruct Hp as [Hp|Hp]; [rewrite Hp; by right|]. rewrite !Hp by done. exact IH.
  - replace (place c n v t) with t by (unfold place; by rewrite bool_decide_false). by destruct (p t); [left|].
Qed.

Lemma lookup_set_meta f c n v : is_Some (f_metas f !! c ≫= lookup n) ->
  f_metas (set_meta c n v f) !! c ≫= lookup n = Some (Some (Some v)).
Proof.
  intros [x Hx]. unfold set_meta. cbn [f_metas set_field]. rewrite lookup_alter_eq.
  destruct (f_metas f !! c); [|done]. apply lookup_insert_eq.
Qed.

Lemma set_meta_twice c n v f : set_meta c n v (set_meta c n v f) = set_meta c n v f.
Proof.
  unfold set_meta. cbn. f_equal. apply map_eq. intros c'. destruct (decide (c' = c)) as [->|Hc]; [|by rewrite !lookup_alter_ne].
  rewrite !lookup_alter_eq. destruct (f_metas f !! c); [|done]. cbn. by rewrite insert_insert_eq.
Qed.

Lemma names_of_config f y n' :
  existsb (fun i => bool_decide (in_name i = n')) (cl_instances (config_of f y))
  = existsb (fun x => bool_decide (x = n')) (list_dir (dom (default ∅ (f_metas f !! y_name y)))).
Proof. unfold config_of, tenants_of. cbn [cl_instances]. induction (list_dir _) as [|x l IH]; [done|]. cbn [map existsb in_name t_name]. by rewrite IH. Qed.

Lemma cell_of_tenant_set_meta f c n v n' : is_Some (f_metas f !! c ≫= lookup n) ->
  cell_of_tenant (set_meta c n v f) n' = cell_of_tenant f n'.
Proof.
  intros [x Hx]. unfold cell_of_tenant, find_cell_by_nkr_name, configs.
  change (list_cells (set_meta c n v f)) with (list_cells f).
  induction (list_cells f) as [|y l IH]; [done|]. cbn [map find]. rewrite !names_of_config.
  replace (dom (default ∅ (f_metas (set_meta c n v f) !! y_name y))) with (dom (default ∅ (f_metas f !! y_name y)));
    [by destruct (existsb _ _); [|apply IH]|].
  unfold set_meta. cbn [f_metas set_field]. destruct (f_metas f !! c) as [m|] eqn:Em; [|done]. cbn in Hx.
  destruct (decide (y_name y = c)) as [->|Hc]; [|by rewrite lookup_alter_ne].
  rewrite lookup_alter_eq, Em. cbn. by rewrite dom_insert_lookup_L.
Qed.

Lemma elsewhere_again f p c n v : is_Some (f_metas f !! c ≫= lookup n) -> get_str "project_id" v = Some p ->
  cell_of_tenant f n = Some c -> project_elsewhere p c f = None -> project_elsewhere p c (set_meta c n v f) = None.
Proof.
  intros Hm Hp Hc. unfold project_elsewhere, find_existing_instance_for_project. rewrite all_tenants_set_meta by done.
  destruct (find_placed (fun t => bool_decide (project_of t = Some p)) c n v (all_tenants f)) as [->| ->].
  - left. apply bool_decide_true. done.
  - destruct (t_name <$> _); cbn; [|done]. by rewrite cell_of_tenant_set_meta.
  - intros _. cbn. rewrite cell_of_tenant_set_meta, Hc by done. cbn. by rewrite bool_decide_true.
Qed.

Lemma taken_again f p c n env v : is_Some (f_metas f !! c ≫= lookup n) -> get_str "project_id" v = Some p ->
  get_str "env" v = env \/ env = None ->
  env_taken n p env f = None -> env_taken n p env (set_meta c n v f) = None.
Proof.
  intros Hm Hp He. unfold env_taken, find_instance_with_project_and_env. destruct env as [e|]; [|done]. destruct He as [He|]; [|done].
  cbn. rewrite all_tenants_set_meta by done.
  destruct (find_placed (fun t => negb (is_template_instance (t_name t)) && bool_decide (project_of t = Some p)
                                  && bool_decide (env_of t = Some e)) c n v (all_tenants f)) as [->| ->]; [|done|].
  - destruct (is_template_instance n) eqn:Et; [right; intros t ->; by rewrite Et|left].
    cbn. rewrite Et. unfold project_of, env_of. cbn. by rewrite Hp, He, !bool_decide_true.
  - intros _. cbn. by rewrite bool_decide_true.
Qed.
End adoption.

(** Adopting an instance keeps the promise of the panel's model that a project lives in one
    cell, and, when the request names the environment, that no two instances have the same
    project and environment. *)
Theorem adopt_keeps_projects `{Listing} `{!ListingLaws} w nkr_name project_id env f a f' :
  handle_adopt_instance w nkr_name project_id env f = Done (a, f') ->
  names_unique f -> one_cell_per_project f ->
  names_unique f' /\ one_cell_per_project f'
  /\ (is_Some env -> one_instance_per_env f -> one_instance_per_env f').
Proof.
  intros Ha Hu Ho. apply adopt_cases in Ha. destruct Ha as [a _|c content v _ _ _ _ Hc Hpe Het Hm Hr]; [done|].
  assert (Hsome : is_Some (f_metas f !! c ≫= lookup nkr_name)).
  { destruct (f_metas f !! c ≫= lookup nkr_name); [by eexists|done]. }
  destruct (relabel_labels _ _ _ _ Hr) as (Hlp & Hle & _).
  assert (Hlab : forall t, t_meta t = Some v -> project_of t = Some project_id
                           /\ forall e, env = Some e -> env_of t = Some e).
  { intros t Ht. unfold project_of, env_of. rewrite Ht. cbn. split; [done|]. intros e ->. done. }
  apply cell_of_tenant_in in Hc as (t0 & Ht0 & Hc0 & Hn0).
  assert (Hsame : forall t, t ∈ all_tenants (set_meta c nkr_name v f) -> exists t1, t1 ∈ all_tenants f
                    /\ t_cell t1 = t_cell t /\ t_name t1 = t_name t).
  { intros t [[Ht _]|[[Hct Hnt] _]]%in_set_meta; [by exists t| |done]. exists t0. by rewrite Hc0, Hn0, Hct, Hnt. }
  split_and!.
  - intros t t' (t1 & Ht1 & Hc1 & Hn1)%Hsame (t2 & Ht2 & Hc2 & Hn2)%Hsame Hn.
    rewrite <- Hc1, <- Hc2. apply Hu; [done..|]. by rewrite Hn1, Hn2.
  - intros t t' q Ht Ht' Hq Hq'. apply in_set_meta in Ht, Ht'; [|done..].
    destruct Ht as [[Ht _]|[[Hct _] [Hv _]]], Ht' as [[Ht' _]|[[Hct' _] [Hv' _]]].
    + by eapply Ho.
    + destruct (Hlab _ Hv') as [Hl _]. rewrite Hl in Hq'. injection Hq' as <-. rewrite Hct'. eauto using not_elsewhere.
    + destruct (Hlab _ Hv) as [Hl _]. rewrite Hl in Hq. injection Hq as <-. rewrite Hct. symmetry. eauto using not_elsewhere.
    + congruence.
  - intros [e ->] Hone t t' q e' Ht Ht' Htp Htp' Hq Hq' He He'. apply in_set_meta in Ht, Ht'; [|done..].
    destruct Ht as [[Ht _]|[[_ Hn] [Hv _]]], Ht' as [[Ht' _]|[[_ Hn'] [Hv' _]]].
    + by eapply Hone.
    + destruct (Hlab _ Hv') as [Hl Hle']. specialize (Hle' _ eq_refl). rewrite Hl in Hq'. rewrite Hle' in He'. simplify_eq.
      rewrite Hn'. eauto using not_taken.
    + destruct (Hlab _ Hv) as [Hl Hle']. specialize (Hle' _ eq_refl). rewrite Hl in Hq. rewrite Hle' in He. simplify_eq.
      rewrite Hn. symmetry. eauto using not_taken.
    + congruence.
Qed.

(** An adoption that succeeded can be repeated: the answer is the same and nothing changes. *)
Theorem adopt_again `{Listing} `{!ListingLaws} nkr_name project_id env f a f' :
  handle_adopt_instance MetaWritten nkr_name project_id env f = Done (a, f') -> a_status a = 200 ->
  handle_adopt_instance MetaWritten nkr_name project_id env f' = Done (a, f').
Proof.
  intros Ha H200. apply adopt_cases in Ha. destruct Ha as [a Hbad|c content v _ Hn Hp Henv Hc Hpe Het Hm Hr]; [lia|].
  assert (Hsome : is_Some (f_metas f !! c ≫= lookup nkr_name)).
  { destruct (f_metas f !! c ≫= lookup nkr_name); [by eexists|done]. }
  destruct (relabel_labels _ _ _ _ Hr) as (Hlp & Hle & Hlt).
  unfold handle_adopt_instance. rewrite Hn, Hp, Henv, cell_of_tenant_set_meta, Hc by done. cbn [negb].
  rewrite elsewhere_again, taken_again by (done || destruct env; auto).
  rewrite (lookup_set_meta f c nkr_name v Hsome). cbn [mjoin option_join default from_option id].
  rewrite (relabel_again _ _ _ _ Hr). cbn [mbind outcome_bind].
  rewrite set_meta_twice. do 2 f_equal. unfold adopt_answer, sizing_warning. by rewrite Hlt.
Qed.

(** ** Witnesses *)
Module TenantsExample.
Definition meta (project env tier : string) : option (option Value) :=
  Some (Some (JObject [("nkr_name", JString "x"); ("tier", JString tier); ("project_id", JString project); ("env", JString env)])).
Definition f : fleet :=
  mkFleet {["c18" := Some (mkYml "c18" 3 (Some "18.0")); "c19" := Some (mkYml "c19" 4 (Some "19.0"))]}
    {["c18" := {["c18-a" := meta "p1" "prod" "production"; "c18-b" := meta "p2" "prod" "production"]};
      "c19" := {["c19-d" := Some (Some (JObject [("tier", JString "dev")]))]}]}.
Definition adopt (n p : string) (env : option string) : outcome (answer * fleet) :=
  handle_adopt_instance (H := listed) MetaWritten n p env f.
Definition after (r : outcome (answer * fleet)) : answer * fleet := match r with Done x => x | Panic _ => (error 0 "", f) end.
Definition labels (f : fleet) : list (string * option string * option string) :=
  map (fun t => (t_name t, project_of t, env_of t)) (all_tenants (H := listed) f).
End TenantsExample.
Import TenantsExample.

(** the branches *)
Example adopt_other_cell : fst (after (adopt "c19-d" "p1" (Some "dev")))
  = Answer 409 [("error", JString "project_in_other_cell"); ("project_id", JString "p1"); ("existing_cell", JString "c18");
                ("this_cell", JString "c19"); ("conflict_instance", JString "c18-a")].
Proof. vm_compute. reflexivity. Qed.
Example adopt_taken : fst (after (adopt "c18-b" "p1" (Some "prod")))
  = Answer 409 [("error", JString "env_already_taken"); ("conflict_nkr_name", JString "c18-a")].
Proof. vm_compute. reflexivity. Qed.
Example adopt_relabels : labels (snd (after (adopt "c18-b" "p1" (Some "staging"))))
  = [("c18-a", Some "p1", Some "prod"); ("c18-b", Some "p1", Some "staging"); ("c19-d", None, None)].
Proof. vm_compute. reflexivity. Qed.

Example lookup_all : handle_project_lookup (H := listed) [] "p1" (snd (after (adopt "c18-b" "p1" (Some "staging"))))
  = Answer 200 [("project_id", JString "p1"); ("cell", JString "c18");
      ("instances", JArray [JObject [("nkr_name", JString "c18-a"); ("env", JString "prod"); ("running", JBool false)];
                            JObject [("nkr_name", JString "c18-b"); ("env", JString "staging"); ("running", JBool false)]])].
Proof. vm_compute. reflexivity. Qed.

(** A request without an environment keeps the one of the instance and is not checked for
    it: a project then has two production instances. *)
Example adopt_duplicates_env : labels (snd (after (adopt "c18-b" "p1" None)))
  = [("c18-a", Some "p1", Some "prod"); ("c18-b", Some "p1", Some "prod"); ("c19-d", None, None)].
Proof. vm_compute. reflexivity. Qed.

Lemma pairwise (R : tenant -> tenant -> bool) (l : list tenant) : forallb (fun t => forallb (R t) l) l = true ->
  forall t t', t ∈ l -> t' ∈ l -> R t t' = true.
Proof.
  intros Hl t t' Ht%list_elem_of_In Ht'%list_elem_of_In. eapply forallb_forall in Hl; [|exact Ht]. by eapply forallb_forall in Hl.
Qed.

Definition name_cell (t t' : tenant) : bool := negb (bool_decide (t_name t = t_name t')) || bool_decide (t_cell t = t_cell t').
Definition project_cell (t t' : tenant) : bool :=
  negb (bool_decide (is_Some (project_of t) /\ project_of t = project_of t')) || bool_decide (t_cell t = t_cell t').
Definition env_name (t t' : tenant) : bool :=
  negb (bool_decide (project_of t = project_of t' /\ env_of t = env_of t')) || bool_decide (t_name t = t_name t').

Lemma plain_fleet_ok : names_unique (H := listed) f /\ one_cell_per_project (H := listed) f /\ one_instance_per_env (H := listed) f.
Proof.
  split_and!.
  - intros t t' Ht Ht' Hn. assert (Hp : name_cell t t' = true) by (apply (pairwise name_cell (all_tenants (H := listed) f)); [by vm_compute|done..]).
    unfold name_cell in Hp. rewrite bool_decide_true in Hp by done. by apply bool_decide_eq_true in Hp.
  - intros t t' p Ht Ht' Hp1 Hp2.
    assert (Hp : project_cell t t' = true) by (apply (pairwise project_cell (all_tenants (H := listed) f)); [by vm_compute|done..]).
    unfold project_cell in Hp. rewrite bool_decide_true in Hp by (rewrite Hp1, Hp2; split; [by eexists|done]). by apply bool_decide_eq_true in Hp.
  - intros t t' p e Ht Ht' _ _ Hp1 Hp2 He1 He2.
    assert (Hp : env_name t t' = true) by (apply (pairwise env_name (all_tenants (H := listed) f)); [by vm_compute|done..]).
    unfold env_name in Hp. rewrite bool_decide_true in Hp by (by rewrite Hp1, Hp2, He1, He2). by apply bool_decide_eq_true in Hp.
Qed.

Lemma adopt_keeps_projects_witness :
  let f' := snd (after (adopt "c18-b" "p1" (Some "staging"))) in
  names_unique (H := listed) f' /\ one_cell_per_project (H := listed) f'
  /\ (is_Some (Some "staging") -> one_instance_per_env (H := listed) f -> one_instance_per_env (H := listed) f').
Proof.
  apply (adopt_keeps_projects (H := listed) MetaWritten "c18-b" "p1" (Some "staging") f
           (fst (after (adopt "c18-b" "p1" (Some "staging"))))).
  - vm_compute. reflexivity.
  - exact (proj1 plain_fleet_ok).
  - exact (proj1 (proj2 plain_fleet_ok)).
Defined.

Lemma adopt_again_witness :
  let r := after (adopt "c18-b" "p1" (Some "staging")) in
  handle_adopt_instance (H := listed) MetaWritten "c18-b" "p1" (Some "staging") (snd r) = Done r.
Proof. apply (adopt_again (H := listed) "c18-b" "p1" (Some "staging") f (fst (after (adopt "c18-b" "p1" (Some "staging"))))); vm_compute; reflexivity. Defined.
