(* ===== verification/Info.v ===== *)
(** * What the API says of an instance, and signals to its VM (src/cell.rs, src/api.rs)

    [get_instance_info] puts together what the disk, the registry, the state files, /proc and
    PostgreSQL know of an instance.  Two handlers signal the process of its VM. *)
From S2P Require Import Prelude Text Http Json Conf Watchdog Registry State Resources Logs Cells Instances Tenants.

Definition cells_dir : string := "/mnt/nkr/cells".

(** ** What is asked of the host *)
Record probes := mkProbes {
  p_host : State.host;
  p_comm : Z -> option string;            (* /proc/<pid>/comm *)
  p_stat : Z -> option string;            (* /proc/<pid>/stat *)
  p_boot : option string;                 (* /proc/stat *)
  p_hz : Z; p_now : Z;
  p_port : string -> bool;                (* port 8069 of an address answers *)
  p_cells : Registry.file;                (* the registry of cells *)
  p_psql : string -> string -> option string;    (* the output of a query at an address *)
  p_log : string -> option string;        (* nkr-compose.log of a cell *)
  p_init_db : string -> string -> option Value;  (* .nkr-init-db.json of an instance *)
  p_saves : bool;
}.

Definition read_rss_mb (p : probes) (pid : Z) : option Z :=
  s ← p_host p !! pid ≫= status;
  rest ← head (omap (strip_prefix "VmRSS:") (lines s));
  kb ← head (split_whitespace rest) ≫= parse_uint (2 ^ 64 - 1);
  Some (kb / 1024).

(** what follows the last closing parenthesis *)
Definition after_comm (s : string) : option string :=
  if char_in ")" s then Some (List.last (split_on ")" s) "") else None.
Definition started_at_secs (p : probes) (pid : Z) : option Z :=
  stat ← p_stat p pid;
  rest ← after_comm stat;
  ticks ← split_whitespace (trim rest) !! 19%nat ≫= parse_uint (2 ^ 64 - 1);
  if p_hz p =? 0 then None
  else
    boot ← p_boot p;
    btime ← head (omap (fun l => strip_prefix "btime " l ≫= parse_uint (2 ^ 64 - 1)) (lines boot));
    Some (sat_sub (p_now p) (u64 (btime + ticks / p_hz p))).

(** the quotes of the name are doubled *)
Definition sql_quote (s : string) : string :=
  String.concat "" (map (fun c => if bool_decide (c = "'"%char) then "''" else String c "") (String.list_ascii_of_string s)).
Definition check_db_present (p : probes) (cell_name db_name : string) : bool :=
  match lookup_cell_id cell_name (p_cells p) with
  | None => false
  | Some cell_id =>
      match p_psql p ("10.0." +:+ dec cell_id +:+ ".2")
              ("SELECT 1 FROM pg_database WHERE datname='" +:+ sql_quote db_name +:+ "' LIMIT 1;") with
      | Some out => bool_decide (trim out = "1")
      | None => false
      end
  end.

Definition compute_phase (running port_up db_present : bool) : string :=
  match running, port_up, db_present with
  | false, _, _ => "provisioning"
  | true, false, _ => "booting"
  | true, true, false => "loading"
  | true, true, true => "ready"
  end.

(** the text is taken to be ASCII; a line is cut after 300 characters *)
Definition read_last_error_line (p : probes) (cell_name nkr_name : string) : option string :=
  content ← p_log p cell_name;
  let bad l := let lower := to_lowercase l in
               existsb (fun w => contains w lower) ["error"; "fatal"; "process exited"; "traceback"] in
  (fun l => String.string_of_list_ascii (take 300 (String.list_ascii_of_string l)))
    <$> list.last (filter (fun l => contains nkr_name l && bad l = true) (lines content)).

(** ** The information of an instance *)
Record NkrStatus := mkStatus {
  ns_running : bool; ns_pid : option Z; ns_ram_mb : option Z; ns_uptime_s : option Z; ns_port_8069_up : bool;
  ns_phase : string; ns_db_present : bool; ns_odoo_version_running : option string; ns_last_error : option string;
  ns_init_db : option Value }.
Record InstanceInfo := mkInfo {
  ii_nkr_name : string; ii_cell : string; ii_vm_id : Z; ii_guest_ip : string; ii_dns : option string; ii_db_name : string;
  ii_addons_path : string; ii_logs_path : string; ii_config_path : string; ii_instance_dir : string;
  ii_meta : InstanceMeta; ii_status : NkrStatus }.

(** the metadata of an instance that was made by hand *)
Definition inferred_meta (y : cell_yml) (nkr_name : string) : InstanceMeta :=
  mkMeta nkr_name (y_name y) None ModeProduction None None (y_version y) None None None None None None Production None None 0.

Section info.
Context `{Listing} `{State.ReadDir} {D : Type}.

Definition build_instance_info (p : probes) (y : cell_yml) (nkr_name : string) (vm_id : Z) (meta : InstanceMeta) (vms : list VmState)
  : InstanceInfo :=
  let instance_dir := cells_dir +:+ "/" +:+ y_name y +:+ "/instances/" +:+ nkr_name in
  let guest_ip := id_to_ip (y_id y) vm_id in
  let running_vm := find (fun v => bool_decide (State.name v = nkr_name)) vms in
  let port_up := p_port p guest_ip in
  let db_name := "db-" +:+ nkr_name in
  let running := bool_decide (is_Some running_vm) in
  let db_present := check_db_present p (y_name y) db_name in
  let phase := compute_phase running port_up db_present in
  mkInfo nkr_name (y_name y) vm_id guest_ip (m_dns meta) db_name
    (instance_dir +:+ "/addons") (instance_dir +:+ "/logs/odoo.log") (instance_dir +:+ "/config/odoo.conf") instance_dir meta
    (mkStatus running (State.pid <$> running_vm) (running_vm ≫= fun v => read_rss_mb p (State.pid v))
       (running_vm ≫= fun v => started_at_secs p (State.pid v)) port_up phase db_present
       (match m_odoo_version meta with Some v => Some v | None => y_version y end)
       (if bool_decide (phase = "error") then read_last_error_line p (y_name y) nkr_name else None)
       (p_init_db p (y_name y) nkr_name)).

Inductive info_error := NoInstance (e : clone_error) | NoId (e : reg_error).

(** the registry gives the instance an identifier if it has none *)
Definition get_instance_info (p : probes) (nkr_name : string) (w : world D) : (info_error + InstanceInfo) * world D :=
  match find_instance_cell w nkr_name with
  | inl e => (inl (NoInstance e), w)
  | inr (d, y) =>
      let meta := default (inferred_meta y nkr_name) (instance_at w d nkr_name ≫= i_meta) in
      let '(r, f) := resolve_id_scoped (p_saves p) (Some (y_name y)) nkr_name (w_reg w) in
      let w := w <| w_reg := f |> in
      match r with
      | inl e => (inl (NoId e), w)
      | inr vm_id =>
          let '(vms, dir) := list_vms (p_host p) (w_vms w) in
          (inr (build_instance_info p y nkr_name vm_id meta vms), w <| w_vms := dir |>)
      end
  end.

Definition handle_get_info (p : probes) (nkr_name : string) (w : world D) : (answer + InstanceInfo) * world D :=
  if negb (is_safe_identifier nkr_name) then (inl (error 400 "invalid_nkr_name"), w)
  else match get_instance_info p nkr_name w with
  | (inr info, w) => (inr info, w)
  | (inl _, w) => (inl (Answer 404 [("error", JString "not_found"); ("nkr_name", JString nkr_name)]), w)
  end.

(** ** Signals *)
Definition pid_is_nkr_vmm (p : probes) (pid : Z) : bool :=
  match p_comm p pid with Some s => bool_decide (trim s = "nkr") | None => false end.

(** the process of the VM of an instance *)
Definition running_pid (p : probes) (nkr_name : string) (w : world D) : (answer + Z) * world D :=
  if negb (is_safe_identifier nkr_name) then (inl (error 400 "invalid_nkr_name"), w)
  else match get_instance_info p nkr_name w with
  | (inl _, w) => (inl (error 404 "instance_not_found"), w)
  | (inr info, w) =>
      if negb (ns_running (ii_status info)) then (inl (error 409 "not_running"), w)
      else match ns_pid (ii_status info) with
           | Some pid => if 0 <? pid then (inr pid, w) else (inl (error 409 "pid_unknown"), w)
           | None => (inl (error 409 "pid_unknown"), w)
           end
  end.

(** the processes that are signalled, and whether [kill] accepts *)
Definition signal_vmm (p : probes) (kill : Z -> bool) (pid : Z) (accepted : answer) : answer * list Z :=
  if negb (pid_is_nkr_vmm p pid) then (error 409 "pid_reused", [])
  else (if kill pid then accepted else error 500 "signal_failed", [pid]).

Definition reload_accepted (nkr_name : string) : answer :=
  Answer 202 [("nkr_name", JString nkr_name); ("status", JString "accepted"); ("estimated_seconds", JInt 3)].

(** SIGUSR1 to the VM; the watchdog is told of a reload *)
Definition handle_reload_workers (p : probes) (kill : Z -> bool) (nkr_name : string) (now : Z) (w : world D) (wd : watchdog)
  : answer * list Z * world D * watchdog :=
  match running_pid p nkr_name w with
  | (inl a, w) => (a, [], w, wd)
  | (inr pid, w) =>
      let '(a, sent) := signal_vmm p kill pid (reload_accepted nkr_name) in
      (a, sent, w, if pid_is_nkr_vmm p pid && kill pid then note_reload nkr_name now wd else wd)
  end.

Definition balloon_accepted (nkr_name : string) : answer :=
  Answer 202 [("nkr_name", JString nkr_name); ("status", JString "accepted")].
Definition balloon_static (nkr_name : string) : answer :=
  Answer 202 [("nkr_name", JString nkr_name); ("status", JString "accepted"); ("applied", JBool false);
              ("reason", JString "vm_static_balloon_or_legacy")].

(** SIGUSR2 to the VM, when it was started with a handler for it *)
Definition handle_balloon_active (p : probes) (kill : Z -> bool) (nkr_name : string) (w : world D) : answer * list Z * world D :=
  match running_pid p nkr_name w with
  | (inl a, w) => (a, [], w)
  | (inr pid, w) =>
      if negb (contains "balloon-idle-mb" (default "" (p_host p !! pid ≫= cmdline))) then (balloon_static nkr_name, [], w)
      else let '(a, sent) := signal_vmm p kill pid (balloon_accepted nkr_name) in (a, sent, w)
  end.
End info.

(** ** The phase *)
Lemma phase_spec running port db :
  compute_phase running port db = "ready" <-> running = true /\ port = true /\ db = true.
Proof. destruct running, port, db; cbn; split; try done; naive_solver. Qed.

Section info_lemmas.
Context `{Listing} `{State.ReadDirLaws} {D : Type}.

Lemma info_cases p n (w : world D) i w' : get_instance_info p n w = (inr i, w') ->
  exists d y vm_id f, find_instance_cell w n = inr (d, y)
    /\ resolve_id_scoped (p_saves p) (Some (y_name y)) n (w_reg w) = (inr vm_id, f)
    /\ i = build_instance_info p y n vm_id (default (inferred_meta y n) (instance_at w d n ≫= i_meta)) (fst (list_vms (p_host p) (w_vms w)))
    /\ w' = w <| w_reg := f |> <| w_vms := snd (list_vms (p_host p) (w_vms w)) |>.
Proof.
  unfold get_instance_info. destruct (find_instance_cell w n) as [e|[d y]] eqn:Ef; [done|].
  destruct (resolve_id_scoped _ _ _ _) as [[e|vm_id] f] eqn:Er; [done|].
  cbn [w_vms set_field]. destruct (list_vms _ _) as [vms dir] eqn:El. cbn [fst snd].
  intros [= <- <-]. exists d, y, vm_id, f. done.
Qed.

(** The phase "error" of the specification is never reported, so neither is the last error. *)
Theorem no_error_phase p n (w : world D) i w' :
  get_instance_info p n w = (inr i, w') -> ns_phase (ii_status i) <> "error" /\ ns_last_error (ii_status i) = None.
Proof.
  intros (d & y & vm_id & f & _ & _ & -> & _)%info_cases. unfold build_instance_info. cbn [ii_status ns_phase ns_last_error].
  set (r := bool_decide _). set (b := check_db_present _ _ _). set (u := p_port _ _).
  by destruct r, u, b.
Qed.

(** Asking again, with any later state of the host, shows the same instance: its cell, its
    identifier, its address and its metadata; the registry does not change. *)
Theorem info_stable p p' n (w : world D) i w1 :
  get_instance_info p n w = (inr i, w1) ->
  exists i' w2, get_instance_info p' n w1 = (inr i', w2)
    /\ ii_cell i' = ii_cell i /\ ii_vm_id i' = ii_vm_id i /\ ii_guest_ip i' = ii_guest_ip i /\ ii_meta i' = ii_meta i
    /\ w_reg w2 = w_reg w1 /\ w_cells w2 = w_cells w.
Proof.
  intros (d & y & vm_id & f & Hf & Hr & -> & ->)%info_cases.
  set (w1 := w <| w_reg := f |> <| w_vms := snd (list_vms (p_host p) (w_vms w)) |>).
  assert (Hr' : resolve_id_scoped (p_saves p') (Some (y_name y)) n f = (inr vm_id, f)).
  { pose proof (resolved_entry _ _ _ _ _ _ Hr) as Hk. apply resolve_cases in Hr as [Hne _].
    unfold resolve_id_scoped. rewrite decide_False by done. by rewrite Hk. }
  unfold get_instance_info. change (find_instance_cell w1 n) with (find_instance_cell w n).
  change (instance_at w1 d n) with (instance_at w d n). rewrite Hf. change (w_reg w1) with f. rewrite Hr'. cbn [w_vms set_field].
  destruct (list_vms (p_host p') _) as [vms dir] eqn:El. eexists _, _. split; [reflexivity|]. done.
Qed.

(** ** Who is signalled *)
(** the process is the one recorded for a live VM of that name, and it is a VMM *)
Definition may_signal (p : probes) (n : string) (w : world D) (pid : Z) : Prop :=
  0 < pid /\ is_pid_alive (p_host p) pid = true /\ pid_is_nkr_vmm p pid = true
  /\ exists file v, w_vms w !! file = Some (Some v) /\ State.name v = n /\ State.pid v = pid.

Lemma running_pid_spec p n (w : world D) pid w' : running_pid p n w = (inr pid, w') ->
  is_safe_identifier n = true /\ 0 < pid /\ is_pid_alive (p_host p) pid = true
  /\ exists file v, w_vms w !! file = Some (Some v) /\ State.name v = n /\ State.pid v = pid.
Proof.
  unfold running_pid. destruct (is_safe_identifier n) eqn:Hn; [|done]. cbn [negb].
  destruct (get_instance_info p n w) as [[e|i] w1] eqn:Ei; [done|].
  apply info_cases in Ei as (d & y & vm_id & f & _ & _ & -> & _). unfold build_instance_info. cbn [ii_status ns_running ns_pid].
  destruct (find _ _) as [v|] eqn:Ef; cbn; [|done]. destruct (0 <? State.pid v) eqn:Hp; [|done]. intros [= <- <-].
  apply List.find_some in Ef as [Hin Hname%bool_decide_eq_true]. apply in_list_vms in Hin as (file & Hfile & _ & Ha).
  split_and!; [done|by apply Z.ltb_lt|done|by exists file, v].
Qed.

Lemma running_pid_refuses p n (w : world D) a w' : running_pid p n w = (inl a, w') -> 400 <= a_status a.
Proof.
  unfold running_pid. destruct (is_safe_identifier n); [|by intros [= <- <-]]. cbn [negb].
  destruct (get_instance_info p n w) as [[e|i] w1]; [by intros [= <- <-]|].
  destruct (ns_running _); [|by intros [= <- <-]]. cbn [negb].
  destruct (ns_pid _) as [q|]; [|by intros [= <- <-]]. destruct (0 <? q); by intros [= <- <-].
Qed.

Lemma signal_vmm_spec p kill pid ok a sent : signal_vmm p kill pid ok = (a, sent) ->
  (sent = [] /\ a = error 409 "pid_reused" /\ pid_is_nkr_vmm p pid = false)
  \/ (sent = [pid] /\ pid_is_nkr_vmm p pid = true /\ a = if kill pid then ok else error 500 "signal_failed").
Proof. unfold signal_vmm. destruct (pid_is_nkr_vmm p pid); intros [= <- <-]; [by right|by left]. Qed.

(** A reload or a balloon request signals at most one process: a live VMM that the state files
    record for the instance; the balloon signal only goes to a VM that was started with a
    handler for it.  The watchdog is told of a reload exactly when the signal was sent. *)
Theorem signals_reach_vmm p kill n now (w : world D) wd a sent w' wd' b sent' w'' :
  handle_reload_workers p kill n now w wd = (a, sent, w', wd') ->
  handle_balloon_active p kill n w = (b, sent', w'') ->
  Forall (may_signal p n w) (sent ++ sent')
  /\ (length sent <= 1)%nat /\ (length sent' <= 1)%nat
  /\ Forall (fun pid => contains "balloon-idle-mb" (default "" (p_host p !! pid ≫= cmdline)) = true) sent'
  /\ (a_status a = 202 <-> exists pid, sent = [pid] /\ kill pid = true)
  /\ wd' = (if decide (a_status a = 202) then note_reload n now wd else wd).
Proof.
  intros Hr Hb. unfold handle_reload_workers in Hr. unfold handle_balloon_active in Hb.
  destruct (running_pid p n w) as [[e|pid] w1] eqn:Ep.
  - simplify_eq. apply running_pid_refuses in Ep. split; [constructor|split; [cbn; lia|split; [cbn; lia|split; [constructor|split]]]].
    + split; [lia|]. by intros (? & ? & ?).
    + by rewrite decide_False by lia.
  - apply running_pid_spec in Ep as (_ & Hpos & Halive & Hstate).
    assert (Hmay : pid_is_nkr_vmm p pid = true -> may_signal p n w pid) by done.
    destruct (signal_vmm p kill pid (reload_accepted n)) as [a0 s0] eqn:Es. simplify_eq.
    assert (Hb' : Forall (may_signal p n w) sent' /\ (length sent' <= 1)%nat
      /\ Forall (fun pid => contains "balloon-idle-mb" (default "" (p_host p !! pid ≫= cmdline)) = true) sent').
    { destruct (contains _ _) eqn:Ec; cbn [negb] in Hb; [|by simplify_eq; repeat constructor].
      destruct (signal_vmm p kill pid (balloon_accepted n)) as [b0 t0] eqn:Eb. simplify_eq.
      apply signal_vmm_spec in Eb as [(-> & _ & _)|(-> & Hv & _)]; repeat constructor; auto. }
    destruct Hb' as (Hs1 & Hs2 & Hs3).
    apply signal_vmm_spec in Es as [(-> & -> & Hv)|(-> & Hv & ->)]; rewrite Hv; cbn [andb app length];
      (split; [by first [exact Hs1|constructor; auto]|split; [lia|split; [done|split; [done|split]]]]).
    + split; [done|]. by intros (? & ? & ?).
    + by rewrite decide_False.
    + destruct (kill pid) eqn:Ek; cbn; split; try done; [intros _; by exists pid|]. intros (q & [= <-] & Hq). congruence.
    + by destruct (kill pid); cbn; rewrite ?decide_True, ?decide_False by done.
Qed.
End info_lemmas.

(** ** Witnesses *)
Module InfoExample.
Definition vm : VmState :=
  State.mkVmState 3 "f00" "c18-odoo" 100 1024 5 [] "10.0.3.4" [] "nkr-tap" 1000 true false 0 3 (State.mkGuestMem 0 0 0 0).
Definition w : world InstancesExample.server :=
  InstancesExample.w <| w_vms := {[state_path_scoped 3 3 := Some vm]} |>.
Definition proc_of (nm : string) : State.proc :=
  State.mkProc (Some (render ["/usr/bin/nkr"; "run"; "--name"; nm; "--balloon-idle-mb"; "256"]))
    (Some (unlines ["Name: nkr"; "State: S (sleeping)"; "VmRSS:   409600 kB"])).
Definition at_pid (nm : string) : probes :=
  mkProbes {[100 := proc_of nm]} (fun _ => Some (unlines ["nkr"]))
    (fun _ => Some ("100 (nkr) S " +:+ String.concat " " (repeat "7" 30)))
    (Some (unlines ["cpu 1 2 3"; "btime 1700000000"])) 100 1700000500 (fun _ => true) (Some {["c18" := 3]})
    (fun _ _ => Some (unlines ["1"])) (fun _ => None) (fun _ _ => None) true.
Definition info (nm : string) : info_error + InstanceInfo := fst (get_instance_info (D := InstancesExample.server) (at_pid nm) "c18-odoo" w).
Definition status_of (r : info_error + InstanceInfo) : option NkrStatus := match r with inr i => Some (ii_status i) | inl _ => None end.
End InfoExample.
Import InfoExample.

Example info_example : status_of (info "c18-odoo")
  = Some (mkStatus true (Some 100) (Some 400) (Some 500) true "ready" true (Some "18.0") None None).
Proof. vm_compute. reflexivity. Qed.

(** The check before the signal sees a VMM, not which one: when the process identifier was
    taken by the VM of another instance, that one is reloaded. *)
Example reload_hits_other_vm :
  let p := at_pid "c18-other" in
  pid_matches_vm (p_host p) 100 "c18-odoo" = false /\ pid_matches_vm (p_host p) 100 "c18-other" = true
  /\ snd (fst (fst (handle_reload_workers p (fun _ => true) "c18-odoo" 0 w (mkWatchdog ∅ ∅)))) = [100].
Proof. vm_compute. auto. Qed.

Lemma no_error_phase_witness : exists i, info "c18-odoo" = inr i
  /\ ns_phase (ii_status i) <> "error" /\ ns_last_error (ii_status i) = None.
Proof.
  destruct (get_instance_info (D := InstancesExample.server) (at_pid "c18-odoo") "c18-odoo" w) as [r w'] eqn:E.
  assert (Hr : exists i, r = inr i).
  { assert (Hs : status_of r = status_of (info "c18-odoo")) by (unfold info; by rewrite E).
    rewrite info_example in Hs. destruct r as [|i]; [done|by exists i]. }
  destruct Hr as [i ->]. exists i. split; [unfold info; by rewrite E|].
  exact (no_error_phase (at_pid "c18-odoo") "c18-odoo" w i w' E).
Defined.

Lemma signals_reach_vmm_witness :
  let p := at_pid "c18-odoo" in
  let '(a, sent, w', wd') := handle_reload_workers p (fun _ => true) "c18-odoo" 7 w (mkWatchdog ∅ ∅) in
  let '(b, sent', w'') := handle_balloon_active p (fun _ => true) "c18-odoo" w in
  Forall (may_signal p "c18-odoo" w) (sent ++ sent') /\ sent = [100] /\ sent' = [100]
  /\ wd' = (if decide (a_status a = 202) then note_reload "c18-odoo" 7 (mkWatchdog ∅ ∅) else mkWatchdog ∅ ∅).
Proof.
  cbv zeta. destruct (handle_reload_workers _ _ _ _ _ _) as [[[a sent] w'] wd'] eqn:E1.
  destruct (handle_balloon_active _ _ _ _) as [[b sent'] w''] eqn:E2.
  destruct (signals_reach_vmm (at_pid "c18-odoo") (fun _ => true) "c18-odoo" 7 w (mkWatchdog ∅ ∅) _ _ _ _ _ _ _ E1 E2)
    as (H1 & _ & _ & _ & _ & H2).
  split; [exact H1|]. split; [|split; [|exact H2]].
  - transitivity (snd (fst (fst (handle_reload_workers (at_pid "c18-odoo") (fun _ => true) "c18-odoo" 7 w (mkWatchdog ∅ ∅)))));
      [by rewrite E1|by vm_compute].
  - transitivity (snd (fst (handle_balloon_active (at_pid "c18-odoo") (fun _ => true) "c18-odoo" w))); [by rewrite E2|by vm_compute].
Defined.
