(* ===== verification/Create.v ===== *)
(** * Requests to create an instance (src/api.rs)

    [handle_create] decodes a request, checks it, chooses the cell, the instance to clone and
    the resources, and hands a plan to a thread.  Everything up to the plan is here; the
    thread and its status file are in [Jobs]. *)
From S2P Require Import Prelude Text Sorting Http Json Conf Watchdog Registry State Resources Logs Blocks CloneConf Cells Instances Tenants Info.

(** ** The values of the enumerations *)
#[export] Instance mode_eq_dec : EqDecision InstanceMode.
Proof. solve_decision. Defined.
#[export] Instance edition_eq_dec : EqDecision Edition.
Proof. solve_decision. Defined.
Definition mode_name (m : InstanceMode) : string := match m with ModeDev => "dev" | ModeProduction => "production" end.
Definition edition_name (e : Edition) : string := match e with Community => "community" | Enterprise => "enterprise" end.
Definition tier_name (t : Tier) : string := match t with Production => "production" | Staging => "staging" | Dev => "dev" end.
Definition mode_of (s : string) : option InstanceMode :=
  if bool_decide (s = "dev") then Some ModeDev else if bool_decide (s = "production") then Some ModeProduction else None.
Definition edition_of (s : string) : option Edition :=
  if bool_decide (s = "community") then Some Community else if bool_decide (s = "enterprise") then Some Enterprise else None.
Definition tier_of (s : string) : option Tier :=
  if bool_decide (s = "production") then Some Production
  else if bool_decide (s = "staging") then Some Staging else if bool_decide (s = "dev") then Some Dev else None.

(** ** meta.json *)
Definition member {A} (key : string) (f : A -> Value) (o : option A) : list (string * Value) :=
  match o with Some a => [(key, f a)] | None => [] end.
Definition meta_value (m : InstanceMeta) : Value :=
  JObject ([("nkr_name", JString (m_nkr_name m)); ("cell", JString (m_cell m))]
    ++ member "source" JString (m_source m) ++ [("mode", JString (mode_name (m_mode m)))]
    ++ member "dns" JString (m_dns m) ++ member "edition" (fun e => JString (edition_name e)) (m_edition m)
    ++ member "odoo_version" JString (m_odoo_version m) ++ member "pg_version" JString (m_pg_version m)
    ++ member "workers" JInt (m_workers m) ++ member "list_db" JBool (m_list_db m)
    ++ member "limit_memory_soft" JInt (m_limit_memory_soft m) ++ member "limit_memory_hard" JInt (m_limit_memory_hard m)
    ++ member "addons_path" JString (m_addons_path m) ++ [("tier", JString (tier_name (m_tier m)))]
    ++ member "project_id" JString (m_project_id m) ++ member "env" JString (m_env m)
    ++ [("created_at", JInt (m_created_at m))]).

(** the directory of the cells as the handlers of [Tenants] see it *)
Definition fleet_of {D} (w : world D) : fleet :=
  mkFleet (omap d_yml (w_cells w))
    ((fun c => (fun i => (fun m => Some (meta_value m)) <$> i_meta i) <$> d_insts c) <$> w_cells w).

(** ** The request *)
Record CreateInstanceReq := mkReq {
  q_nkr_name : string; q_mode : InstanceMode; q_odoo_version : string; q_cell : option string; q_source : option string;
  q_dns : option string; q_edition : option Edition; q_enterprise : option bool; q_project_id : option string;
  q_env : option string; q_parent_nkr_name : option string; q_allow_duplicate_env : option bool;
  q_pg_version : option string; q_workers : option Z; q_list_db : option bool; q_addons_path : option string;
  q_python_libs : list string; q_admin_passwd : string; q_admin_user_password : option string;
  q_proxy_mode : option bool; q_balloon_mb : option Z; q_tier : Tier; q_chrs : option Z; q_auto_start : option bool }.
#[export] Instance eta_req : Eta CreateInstanceReq := fun q =>
  mkReq (q_nkr_name q) (q_mode q) (q_odoo_version q) (q_cell q) (q_source q) (q_dns q) (q_edition q) (q_enterprise q)
    (q_project_id q) (q_env q) (q_parent_nkr_name q) (q_allow_duplicate_env q) (q_pg_version q) (q_workers q) (q_list_db q)
    (q_addons_path q) (q_python_libs q) (q_admin_passwd q) (q_admin_user_password q) (q_proxy_mode q) (q_balloon_mb q)
    (q_tier q) (q_chrs q) (q_auto_start q).

(** The derived decoder of an object: a field without a default is required, an optional one
    may be null, one with a default may be absent.  A variant is its name or an object of its
    name and null. *)
Definition as_u32 (v : Value) : option Z := z ← as_u64 v; if z <? 2 ^ 32 then Some z else None.
Definition as_variant (v : Value) : option string :=
  match v with JString s | JObject [(s, JNull)] => Some s | _ => None end.
Definition required {A} (conv : Value -> option A) (v : option Value) : option A := v ≫= conv.
Definition optional {A} (conv : Value -> option A) (v : option Value) : option (option A) :=
  match v with None | Some JNull => Some None | Some v => Some <$> conv v end.
Definition defaulted {A} (d : A) (conv : Value -> option A) (v : option Value) : option A :=
  match v with None => Some d | Some v => conv v end.

Definition decode_create (v : Value) : option CreateInstanceReq :=
  let str key := optional as_str (get key v) in
  let flag key := optional as_bool (get key v) in
  let u32 key := optional as_u32 (get key v) in
  nkr_name ← required as_str (get "nkr_name" v);
  mode ← defaulted ModeProduction (fun v => as_variant v ≫= mode_of) (get "mode" v);
  odoo_version ← required as_str (get "odoo_version" v);
  cell ← str "cell"; source ← str "source"; dns ← str "dns";
  edition ← optional (fun v => as_variant v ≫= edition_of) (get "edition" v);
  enterprise ← flag "enterprise";
  project_id ← str "project_id"; env ← str "env"; parent_nkr_name ← str "parent_nkr_name";
  allow_duplicate_env ← flag "allow_duplicate_env";
  pg_version ← str "pg_version"; workers ← u32 "workers"; list_db ← flag "list_db"; addons_path ← str "addons_path";
  python_libs ← defaulted [] (fun v => as_array v ≫= mapM as_str) (get "python_libs" v);
  admin_passwd ← required as_str (get "admin_passwd" v);
  admin_user_password ← str "admin_user_password";
  proxy_mode ← flag "proxy_mode"; balloon_mb ← u32 "balloon_mb";
  tier ← defaulted Production (fun v => as_variant v ≫= tier_of) (get "tier" v);
  chrs ← u32 "chrs"; auto_start ← flag "auto_start";
  Some (mkReq nkr_name mode odoo_version cell source dns edition enterprise project_id env parent_nkr_name
          allow_duplicate_env pg_version workers list_db addons_path python_libs admin_passwd admin_user_password
          proxy_mode balloon_mb tier chrs auto_start).

(** serde_json's decoder of the request from text *)
Class CreateCodec := parse_create : string -> option CreateInstanceReq.
Class CreateCodecOk `{Serde} `{CreateCodec} : Prop :=
  parse_printed m : parse_create (print_json (JObject m)) = decode_create (JObject m).

(** ** Aliases *)
Notation members := (list (string * Value)).
Definition env_of_tier (t : string) : option string :=
  if bool_decide (t = "production") then Some "prod"
  else if bool_decide (t = "staging") then Some "staging" else if bool_decide (t = "dev") then Some "dev" else None.
Definition tier_of_env (e : string) : option string :=
  if bool_decide (e = "prod") then Some "production"
  else if bool_decide (e = "staging") then Some "staging" else if bool_decide (e = "dev") then Some "dev" else None.
Definition missing (key : string) (m : members) : bool :=
  match get key (JObject m) with None | Some JNull => true | Some _ => false end.

Definition needs_version (m : members) : bool :=
  match get_str "odoo_version" (JObject m) with Some s => bool_decide (s = "") | None => true end.
Definition version_alias (m : members) : members :=
  if needs_version m
  then match get_str "version" (JObject m) with
       | Some s => if bool_decide (s = "") then m else insert_member "odoo_version" (JString s) m
       | None => m
       end
  else m.
(** [to] takes its value from the one of [from] when it is missing *)
Definition fill (from to : string) (f : string -> option string) (m : members) : members :=
  if missing to m
  then match get_str from (JObject m) ≫= f with
       | Some s => insert_member to (JString s) m
       | None => m
       end
  else m.
Definition normal_members (m : members) : members :=
  fill "env" "tier" tier_of_env (fill "tier" "env" env_of_tier (version_alias m)).

Definition normalize_create_body_aliases `{Serde} (body : string) : string :=
  match parse_json body with
  | Some (JObject m) => print_json (JObject (normal_members m))
  | _ => body
  end.

(** ** From the request to a plan *)
Definition prepare (cell_hint : option string) (q : CreateInstanceReq) : answer + CreateInstanceReq :=
  let q := match q_enterprise q with
           | Some ent => q <| q_edition := Some (if ent then Enterprise else Community) |> | None => q end in
  let q := if bool_decide (cell_hint = None /\ q_cell q = None) then q <| q_workers := None |> else q in
  match q_parent_nkr_name q, q_source q with
  | Some parent, None => inr (q <| q_source := Some parent |>)
  | Some parent, Some existing =>
      if bool_decide (existing = parent) then inr q else inl (error 400 "source_parent_mismatch")
  | None, _ => inr q
  end.

Definition env_exists (q : CreateInstanceReq) (f : fleet) `{Listing} : option answer :=
  if default false (q_allow_duplicate_env q) then None
  else
    pid ← q_project_id q; env ← q_env q;
    conflict ← find_instance_with_project_and_env pid env f;
    Some (Answer 409 [("error", JString "env_already_exists"); ("conflict_nkr_name", JString conflict);
                      ("project_id", JString pid); ("env", JString env)]).

Definition secret_char (b : ascii) : bool := is_alnum b || is_one_of "._-" b.
Definition is_secret (lo : nat) (s : string) : bool :=
  (lo <=? String.length s)%nat && (String.length s <=? 128)%nat && all_chars secret_char s.
(** the first check that fails *)
Fixpoint first_failure (checks : list (bool * string)) : option answer :=
  match checks with
  | [] => None
  | (true, code) :: _ => Some (error 400 code)
  | (false, _) :: checks => first_failure checks
  end.
Definition check_fields (cell_hint : option string) (q : CreateInstanceReq) : option answer :=
  let bad p := refused p (fun s => negb (is_safe_identifier s)) in
  first_failure
    [(negb (is_safe_identifier (q_nkr_name q)), "invalid_nkr_name");
     (negb (is_safe_identifier (q_odoo_version q)), "invalid_odoo_version");
     (bad (q_cell q), "invalid_cell");
     (bad cell_hint, "invalid_cell_in_url");
     (bad (q_source q), "invalid_source");
     (refused (q_dns q) (fun d => negb (is_safe_dns d)), "invalid_dns");
     (bad (q_pg_version q), "invalid_pg_version");
     (refused (q_addons_path q) (fun a => negb (is_safe_addons_path a)), "invalid_addons_path");
     (bool_decide (q_admin_passwd q = ""), "admin_passwd_required");
     (negb (is_secret 16 (q_admin_passwd q)), "invalid_admin_passwd");
     (refused (q_admin_user_password q) (fun p => negb (is_secret 8 p)), "invalid_admin_user_password");
     (refused (q_workers q) (out_of 1 16), "invalid_workers")].

(** *** The cell *)
Section plan.
Context `{Listing} {D : Type}.

(** a cell that is named must be registered, load and have exactly the version *)
Definition named_cell (cells : Registry.file) (name version : string) (f : fleet) : answer + cell_yml :=
  match lookup_cell_id name cells with
  | None => inl (Answer 404 [("error", JString "cell_not_found"); ("cell", JString name)])
  | Some _ =>
      match load_cell name f with
      | inl _ => inl (error 404 "cell_load_failed")
      | inr y =>
          match y_version y with
          | Some v =>
              if bool_decide (v = version) then inr y
              else inl (Answer 409 [("error", JString "version_mismatch"); ("cell", JString (y_name y));
                                    ("cell_version", JString v); ("requested_version", JString version)])
          | None => inl (Answer 409 [("error", JString "cell_version_unset"); ("cell", JString (y_name y))])
          end
      end
  end.

(** the environment of the parent, if its meta.json gives one *)
Definition parent_env (p : string) (f : fleet) : option string :=
  c ← cell_of_tenant f p;
  content ← mjoin (f_metas f !! c ≫= lookup p);
  content ≫= get_str "env".

Definition select_answer (version : string) (e : select_error) : answer :=
  let '(status, code) :=
    match e with
    | ParentNotFound => (404, "parent_not_found")
    | ParentCellFull => (409, "parent_cell_full")
    | ParentVersionMismatch => (409, "parent_version_mismatch")
    | AllCellsFull => (409, "all_cells_full")
    | NoCellOfVersion => (409, "no_cell_available")
    end in
  Answer status [("error", JString code); ("requested_version", JString version)].

Definition uses_v3 (q : CreateInstanceReq) : bool :=
  bool_decide (is_Some (q_env q)) || bool_decide (is_Some (q_parent_nkr_name q)) || bool_decide (is_Some (q_project_id q)).

(** staging clones a production instance, which the request must name *)
Definition staging_parent (q : CreateInstanceReq) (f : fleet) : option answer :=
  if bool_decide (default "prod" (q_env q) = "staging") then
    match q_parent_nkr_name q with
    | None => Some (error 400 "parent_required_for_staging")
    | Some p =>
        match parent_env p f with
        | Some pe =>
            if bool_decide (pe = "prod") then None
            else Some (Answer 409 [("error", JString "parent_must_be_prod"); ("parent_nkr_name", JString p);
                                   ("parent_env", JString pe)])
        | None => None
        end
    end
  else None.

Definition effective_parent (q : CreateInstanceReq) (f : fleet) : option string :=
  match q_parent_nkr_name q with
  | Some p => Some p
  | None => pid ← q_project_id q; find_existing_instance_for_project pid f
  end.

(** the configuration that was loaded, for the one that was chosen *)
Definition yml_of (c : CellConfig) : cell_yml := mkYml (cl_name c) (cell_id c) (odoo_version c).

Definition chosen_cell (vms : list VmState) (max_projects : nat) (q : CreateInstanceReq) (f : fleet) : answer + cell_yml :=
  let version := q_odoo_version q in
  let result :=
    if uses_v3 q then
      match staging_parent q f with
      | Some a => inl a
      | None =>
          match select_cell_v3 vms (configs f) max_projects version (effective_parent q f) with
          | inl e => inl (select_answer version e)
          | inr c => inr c
          end
      end
    else match select_cell_for_version vms (configs f) version with
         | inl e => inl (select_answer version e)
         | inr c => inr c
         end in
  match result with inl a => inl a | inr c => inr (yml_of c) end.

Definition named (cell_hint : option string) (q : CreateInstanceReq) : option string :=
  match q_cell q with Some c => Some c | None => cell_hint end.
Definition resolve_cell (vms : list VmState) (max_projects : nat) (cells : Registry.file) (cell_hint : option string)
    (q : CreateInstanceReq) (f : fleet) : answer + cell_yml :=
  match named cell_hint q with
  | Some name => named_cell cells name (q_odoo_version q) f
  | None => chosen_cell vms max_projects q f
  end.

(** *** The instance to clone *)
Definition wants_enterprise (q : CreateInstanceReq) : bool := bool_decide (q_edition q = Some Enterprise).
Definition default_template (cell : string) (q : CreateInstanceReq) : string :=
  if wants_enterprise q then cell_template_enterprise_name cell else cell_template_community_name cell.
Definition template_missing (cell tpl : string) : answer :=
  Answer 409 [("error", JString (if ends_with "-odoo-template-enterprise" tpl then "enterprise_template_missing" else "cell_template_missing"));
              ("cell", JString cell); ("expected_template", JString tpl)].
(** the template of the cell, when its directory is there *)
Definition cell_template (cell : string) (q : CreateInstanceReq) (w : world D) : answer + string :=
  let tpl := default_template cell q in
  if bool_decide (is_Some (instance_at w cell tpl)) then inr tpl else inl (template_missing cell tpl).

Definition source_not_allowed (code cell : string) : answer := Answer 409 [("error", JString code); ("cell", JString cell)].
Definition choose_source (cell : string) (q : CreateInstanceReq) (w : world D) : answer + string :=
  match q_tier q with
  | Production =>
      match q_mode q with
      | ModeProduction =>
          match q_source q with
          | Some _ => inl (source_not_allowed "source_not_allowed_in_production" cell)
          | None => cell_template cell q w
          end
      | ModeDev => match q_source q with Some s => inr s | None => inl (error 400 "source_required") end
      end
  | Staging =>
      match q_source q with
      | None => inl (error 400 "source_required")
      | Some s =>
          match instance_at w cell s ≫= i_meta with
          | Some m =>
              if bool_decide (m_tier m = Production) then inr s
              else inl (Answer 409 [("error", JString "source_must_be_production"); ("source", JString s);
                                    ("source_tier", JString (tier_name (m_tier m)))])
          | None => inr s
          end
      end
  | Dev =>
      match q_source q with
      | Some _ => inl (source_not_allowed "source_not_allowed_in_dev" cell)
      | None => cell_template cell q w
      end
  end.

Definition effective_mode (q : CreateInstanceReq) : InstanceMode :=
  match q_tier q with Production => q_mode q | Staging => ModeDev | Dev => ModeProduction end.

(** *** The rest *)
(** an entry of the enterprise directory of a version *)
Record ent_entry := mkEnt { e_name : string; e_is_dir : bool; e_manifest : bool }.
Definition has_modules (es : list ent_entry) : bool :=
  existsb (fun e => negb (starts_with "." (e_name e) || bool_decide (e_name e = "nkr-env")) && e_is_dir e && e_manifest e) es.
Definition enterprise_dir (y : cell_yml) (q : CreateInstanceReq) : string :=
  "/mnt/nkr/enterprise/" +:+ default (q_odoo_version q) (y_version y).
Definition not_provisioned (y : cell_yml) (q : CreateInstanceReq) : answer :=
  Answer 409 [("error", JString "enterprise_not_provisioned"); ("cell", JString (y_name y));
              ("odoo_version", JString (default "" (y_version y))); ("enterprise_path", JString (enterprise_dir y q))].

Record plan := mkPlan {
  pl_cell : string; pl_source : string; pl_dst : string; pl_opts : CloneOptions;
  pl_pwd : option string; pl_start : bool }.

Definition auto_start (q : CreateInstanceReq) : bool := default (bool_decide (is_Some (q_admin_user_password q))) (q_auto_start q).

Definition options_of (q : CreateInstanceReq) (r : DerivedResources) (chrs : Z) : CloneOptions :=
  mkCloneOptions (effective_mode q) false (q_dns q) (q_edition q) (Some (q_odoo_version q)) (q_pg_version q) (Some (workers r))
    (q_list_db q) (Some (limit_memory_soft r)) (Some (limit_memory_hard r)) (q_addons_path q) (q_python_libs q)
    (Some (q_admin_passwd q)) (q_proxy_mode q) (Some (Resources.ram_mb r)) (Some chrs)
    (Some (default (Resources.balloon_mb r) (q_balloon_mb q))) (Some (balloon_idle_mb r)) (Some 600) false (q_tier q)
    (q_project_id q) (q_env q) (negb (auto_start q)).

Definition sizing_answer (e : sizing_error) : answer :=
  error 400 match e with InvalidWorkers => "invalid_workers" | InvalidChrs => "invalid_chrs" end.

(** the plan in a cell *)
Definition plan_in (enterprise : string -> list ent_entry) (y : cell_yml) (q : CreateInstanceReq) (w : world D) : answer + plan :=
  let cell := y_name y in
  if (MAX_ODOOS_PER_CELL <=? odoos_used y w)%nat
  then inl (Answer 409 [("error", JString "cell_full"); ("cell", JString cell); ("used", num (odoos_used y w));
                        ("max", num MAX_ODOOS_PER_CELL)])
  else match choose_source cell q w with
  | inl a => inl a
  | inr source =>
      let is_template_clone := is_template_name cell source in
      if negb is_template_clone && bool_decide (is_Some (q_admin_user_password q))
      then inl (Answer 400 [("error", JString "admin_user_password_not_applicable_for_clone"); ("source", JString source)])
      else match size_instance (q_tier q) (q_workers q) (q_chrs q) with
      | inl e => inl (sizing_answer e)
      | inr (r, chrs) =>
          if wants_enterprise q && negb (has_modules (enterprise (enterprise_dir y q))) then inl (not_provisioned y q)
          else inr (mkPlan cell source (ensure_cell_prefix cell (q_nkr_name q)) (options_of q r chrs)
                      (if is_template_clone then q_admin_user_password q else None) (auto_start q))
      end
  end.

Record create_outside := mkCreate {
  c_probes : probes; c_max_projects : nat; c_enterprise : string -> list ent_entry }.

Definition create_plan (c : create_outside) (vms : list VmState) (cell_hint : option string) (q : CreateInstanceReq) (w : world D)
  : answer + plan :=
  match prepare cell_hint q with
  | inl a => inl a
  | inr q =>
      match env_exists q (fleet_of w) with
      | Some a => inl a
      | None =>
          match check_fields cell_hint q with
          | Some a => inl a
          | None =>
              match resolve_cell vms (c_max_projects c) (p_cells (c_probes c)) cell_hint q (fleet_of w) with
              | inl a => inl a
              | inr y => plan_in (c_enterprise c) y q w
              end
          end
      end
  end.
End plan.

(** ** Aliases *)
Lemma get_str_insert_eq key s m : get_str key (JObject (insert_member key (JString s) m)) = Some s.
Proof. unfold get_str. by rewrite get_insert_eq. Qed.
Lemma get_str_insert_ne key key' x m : key <> key' -> get_str key (JObject (insert_member key' x m)) = get_str key (JObject m).
Proof. intros H. unfold get_str. by rewrite get_insert_ne. Qed.

Lemma get_version_alias_ne key m : key <> "odoo_version" -> get key (JObject (version_alias m)) = get key (JObject m).
Proof.
  intros H. unfold version_alias. destruct (needs_version m); [|done].
  destruct (get_str "version" _) as [s|]; [|done]. case_bool_decide; [done|]. by apply get_insert_ne.
Qed.
Lemma get_fill_ne key from to f m : key <> to -> get key (JObject (fill from to f m)) = get key (JObject m).
Proof.
  intros H. unfold fill. destruct (missing to m); [|done]. destruct (get_str from _ ≫= f); [|done]. by apply get_insert_ne.
Qed.

(** the first value that is there and not empty *)
Definition version_of (m : members) : option string :=
  match get_str "odoo_version" (JObject m) with
  | Some s => if bool_decide (s = "") then None else Some s | None => None end.

Lemma fill_missing from to f m : from <> to -> missing to (fill from to f m) = true ->
  missing to m = true /\ get_str from (JObject m) ≫= f = None.
Proof.
  intros Hne. unfold fill. destruct (missing to m) eqn:Em; [|congruence].
  destruct (get_str from _ ≫= f) as [s|]; [|done]. unfold missing. by rewrite get_insert_eq.
Qed.

Lemma missing_same key m m' : get key (JObject m) = get key (JObject m') -> missing key m = missing key m'.
Proof. unfold missing. by intros ->. Qed.

(** filling again changes nothing *)
Lemma fill_stable from to f m : missing to m = false \/ get_str from (JObject m) ≫= f = None -> fill from to f m = m.
Proof. unfold fill. intros [->|H]; [done|]. destruct (missing to m); [by rewrite H|done]. Qed.

Lemma fill_done from to f m : from <> to ->
  missing to (fill from to f m) = false \/ get_str from (JObject (fill from to f m)) ≫= f = None.
Proof.
  intros Hne. unfold fill. destruct (missing to m) eqn:Em; [|by left].
  destruct (get_str from (JObject m) ≫= f) as [s|] eqn:E; [|by right]. left. unfold missing. by rewrite get_insert_eq.
Qed.

Lemma version_stable m : needs_version m = false \/ default "" (get_str "version" (JObject m)) = "" -> version_alias m = m.
Proof.
  unfold version_alias. intros [-> |H]; [done|]. destruct (needs_version m); [|done].
  destruct (get_str "version" _); [|done]. cbn in H. by rewrite bool_decide_true.
Qed.

Lemma version_done m :
  needs_version (version_alias m) = false \/ default "" (get_str "version" (JObject (version_alias m))) = "".
Proof.
  unfold version_alias. destruct (needs_version m) eqn:E; [|by left].
  destruct (get_str "version" (JObject m)) as [s|] eqn:Ev; [|right; by rewrite Ev]. case_bool_decide.
  - right. by rewrite Ev.
  - left. unfold needs_version. by rewrite get_str_insert_eq, bool_decide_false.
Qed.

(** The aliases of the request are resolved once and for all: doing it again changes nothing,
    no other field is touched, and a field that was given keeps its value. *)
Theorem aliases_settle m :
  let m' := normal_members m in
  normal_members m' = m'
  /\ (forall key, key <> "odoo_version" -> key <> "env" -> key <> "tier" -> get key (JObject m') = get key (JObject m))
  /\ (forall key, key = "env" \/ key = "tier" -> missing key m = false -> get key (JObject m') = get key (JObject m))
  /\ (forall v, version_of m = Some v -> version_of m' = Some v)
  /\ (forall v, version_of m = None -> get_str "version" (JObject m) = Some v -> v <> "" -> version_of m' = Some v)
  /\ (forall t e, missing "env" m = true -> get_str "tier" (JObject m) = Some t -> env_of_tier t = Some e ->
        get_str "env" (JObject m') = Some e)
  /\ (forall e t, missing "tier" m = true -> get_str "env" (JObject m) = Some e -> tier_of_env e = Some t ->
        get_str "tier" (JObject m') = Some t).
Proof.
  cbv zeta. unfold normal_members. set (m1 := version_alias m). set (m2 := fill "tier" "env" env_of_tier m1).
  assert (G1 : forall key, key <> "odoo_version" -> get key (JObject m1) = get key (JObject m)) by (intros; by apply get_version_alias_ne).
  assert (G2 : forall key, key <> "env" -> get key (JObject m2) = get key (JObject m1)) by (intros; by apply get_fill_ne).
  assert (G3 : forall key, key <> "tier" -> get key (JObject (fill "env" "tier" tier_of_env m2)) = get key (JObject m2)) by (intros; by apply get_fill_ne).
  assert (S1 : forall m m' key, get key (JObject m) = get key (JObject m') -> get_str key (JObject m) = get_str key (JObject m')).
  { intros a b key E. unfold get_str. by rewrite E. }
  assert (K : forall from to f m, missing to m = false -> fill from to f m = m) by (intros; apply fill_stable; by left).
  split; [|split; [|split; [|split; [|split; [|split]]]]].
  - rewrite (version_stable (fill "env" "tier" tier_of_env m2)).
    + rewrite (fill_stable "tier" "env"); [by apply fill_stable, fill_done|].
      destruct (fill_done "tier" "env" env_of_tier m1 ltac:(done)) as [H|H]; fold m2 in H.
      * left. rewrite (missing_same _ _ m2); [done|]. by apply G3.
      * set (m3 := fill "env" "tier" tier_of_env m2) in *.
        assert (E : m3 = m2 \/ missing "env" m2 = false).
        { unfold m3, fill. destruct (missing "tier" m2); [|by left]. unfold missing, get_str.
          destruct (get "env" (JObject m2)) as [[]|]; cbn; auto. }
        destruct E as [-> |E]; [by right|]. left. rewrite (missing_same _ _ m2); [done|]. by apply G3.
    + destruct (version_done m) as [H|H]; fold m1 in H.
      * left. unfold needs_version in *. rewrite (S1 _ m1); [done|]. by rewrite G3, G2.
      * right. rewrite (S1 _ m1); [done|]. by rewrite G3, G2.
  - intros key H1 H2 H3. by rewrite G3, G2, G1.
  - intros key [-> | ->] Hm.
    + rewrite G3 by done. unfold m2. rewrite K; [by apply G1|]. rewrite (missing_same _ _ m); [done|]. by apply G1.
    + rewrite K; [by rewrite G2, G1|]. rewrite (missing_same _ _ m); [done|]. by rewrite G2, G1.
  - intros v Hv. unfold version_of. rewrite (S1 _ m1) by (by rewrite G3, G2). unfold m1, version_alias, needs_version.
    unfold version_of in Hv. destruct (get_str "odoo_version" (JObject m)) as [s|] eqn:E; [|done].
    case_bool_decide; [done|]. injection Hv as <-. by rewrite E, bool_decide_false.
  - intros v Hv Hs Hne. unfold version_of. rewrite (S1 _ m1) by (by rewrite G3, G2). unfold m1, version_alias.
    assert (needs_version m = true) as ->.
    { unfold version_of, needs_version in *. destruct (get_str "odoo_version" (JObject m)); [|done]. by case_bool_decide. }
    rewrite Hs, bool_decide_false by done. by rewrite get_str_insert_eq, bool_decide_false.
  - intros t e Hm Ht He. rewrite (S1 _ m2) by (by apply G3). unfold m2, fill.
    rewrite (missing_same _ _ m), Hm by (by apply G1). rewrite (S1 m1 m) by (by apply G1). rewrite Ht. cbn. rewrite He.
    apply get_str_insert_eq.
  - intros e t Hm He Ht.
    assert (Hmiss : missing "env" m = false).
    { unfold missing, get_str in *. by destruct (get "env" (JObject m)) as [[]|]. }
    assert (E2 : get "env" (JObject m2) = get "env" (JObject m)).
    { unfold m2. rewrite K; [by apply G1|]. rewrite (missing_same _ _ m); [done|]. by apply G1. }
    unfold fill. rewrite (missing_same _ _ m), Hm by (by rewrite G2, G1). rewrite (S1 m2 m) by done. rewrite He. cbn. rewrite Ht.
    apply get_str_insert_eq.
Qed.

(** ** Labels of meta.json *)
Lemma get_app key a b :
  get key (JObject (a ++ b)) = match get key (JObject a) with Some v => Some v | None => get key (JObject b) end.
Proof. induction a as [|[k y] a IH]; [done|]. rewrite <- app_comm_cons, !get_cons. by destruct (bool_decide (k = key)). Qed.
Lemma get_member_ne {A} key k (f : A -> Value) o : k <> key -> get key (JObject (member k f o)) = None.
Proof. intros H. destruct o; [|done]. cbn [member]. rewrite get_cons. by rewrite bool_decide_false. Qed.
Lemma get_member_eq {A} key (f : A -> Value) o : get key (JObject (member key f o)) = f <$> o.
Proof. destruct o; [|done]. cbn [member]. rewrite get_cons. by rewrite bool_decide_true. Qed.

Lemma meta_labels m :
  get_str "project_id" (meta_value m) = m_project_id m /\ get_str "env" (meta_value m) = m_env m
  /\ get_str "tier" (meta_value m) = Some (tier_name (m_tier m)).
Proof.
  unfold meta_value, get_str. rewrite !get_app, !get_member_eq, !get_member_ne, !get_cons by done. cbn.
  destruct (m_project_id m), (m_env m); done.
Qed.

(** ** Plans *)
Section plan_lemmas.
Context `{Listing} `{!ListingLaws} {D : Type}.

Lemma prepared hint q q' : prepare hint q = inr q' ->
  q_nkr_name q' = q_nkr_name q /\ q_odoo_version q' = q_odoo_version q /\ q_cell q' = q_cell q /\ q_tier q' = q_tier q
  /\ q_mode q' = q_mode q /\ q_project_id q' = q_project_id q /\ q_env q' = q_env q
  /\ q_parent_nkr_name q' = q_parent_nkr_name q /\ q_allow_duplicate_env q' = q_allow_duplicate_env q
  /\ q_admin_passwd q' = q_admin_passwd q /\ q_python_libs q' = q_python_libs q
  /\ q_admin_user_password q' = q_admin_user_password q
  /\ (q_source q' = match q_parent_nkr_name q with Some p => Some p | None => q_source q end).
Proof.
  unfold prepare. set (q1 := match q_enterprise q with Some _ => _ | None => q end).
  set (q2 := if bool_decide (hint = None /\ q_cell q1 = None) then _ else q1).
  assert (E1 : q1 = q <| q_edition := q_edition q1 |>) by (unfold q1; by destruct (q_enterprise q), q).
  assert (E2 : q2 = q1 <| q_workers := q_workers q2 |>) by (unfold q2; by destruct (bool_decide _), q1).
  rewrite E2, E1. clear. cbn. destruct (q_parent_nkr_name q) as [p|], (q_source q) as [s|];
    [case_bool_decide; [|done]| | |]; intros [= <-]; cbn; subst; done.
Qed.

Lemma create_plan_inv c vms hint q (w : world D) pl : create_plan c vms hint q w = inr pl ->
  exists q' y, prepare hint q = inr q' /\ env_exists q' (fleet_of w) = None /\ check_fields hint q' = None
    /\ resolve_cell vms (c_max_projects c) (p_cells (c_probes c)) hint q' (fleet_of w) = inr y
    /\ plan_in (c_enterprise c) y q' w = inr pl.
Proof.
  unfold create_plan. destruct (prepare hint q) as [|q'] eqn:Ep; [done|].
  destruct (env_exists q' _) eqn:Ee; [done|]. destruct (check_fields hint q') eqn:Ec; [done|].
  destruct (resolve_cell _ _ _ _ _ _) as [|y] eqn:Er; [done|]. intros Hp. by exists q', y.
Qed.

Lemma plan_in_inv ent y q (w : world D) pl : plan_in ent y q w = inr pl ->
  exists r chrs, choose_source (y_name y) q w = inr (pl_source pl) /\ size_instance (q_tier q) (q_workers q) (q_chrs q) = inr (r, chrs)
    /\ (odoos_used y w < MAX_ODOOS_PER_CELL)%nat
    /\ (is_template_name (y_name y) (pl_source pl) = true \/ q_admin_user_password q = None)
    /\ (wants_enterprise q = true -> has_modules (ent (enterprise_dir y q)) = true)
    /\ pl = mkPlan (y_name y) (pl_source pl) (ensure_cell_prefix (y_name y) (q_nkr_name q)) (options_of q r chrs)
              (if is_template_name (y_name y) (pl_source pl) then q_admin_user_password q else None) (auto_start q).
Proof.
  unfold plan_in. destruct (_ <=? _)%nat eqn:Hn; [done|]. apply Nat.leb_gt in Hn.
  destruct (choose_source _ _ _) as [|s] eqn:Es; [done|].
  destruct (negb _ && _) eqn:Et; [done|]. destruct (size_instance _ _ _) as [|[r chrs]] eqn:Ez; [done|].
  destruct (wants_enterprise q && _) eqn:Ew; [done|]. intros [= <-]. cbn [pl_source]. exists r, chrs.
  split_and!; try done.
  - destruct (is_template_name _ _); [by left|right]. cbn in Et. apply bool_decide_eq_false in Et.
    destruct (q_admin_user_password q); [|done]. destruct Et. by eexists.
  - intros Hw. rewrite Hw in Ew. cbn in Ew. by apply negb_false_iff in Ew.
Qed.

Lemma first_failure_none checks : first_failure checks = None -> Forall (fun c => fst c = false) checks.
Proof. induction checks as [|[[] code] checks IH]; [by constructor|done|]. intros Hf. constructor; [done|by apply IH]. Qed.

Lemma fields_checked hint q : check_fields hint q = None ->
  is_safe_identifier (q_nkr_name q) = true /\ is_safe_identifier (q_odoo_version q) = true
  /\ (forall s, q_source q = Some s -> is_safe_identifier s = true)
  /\ is_secret 16 (q_admin_passwd q) = true /\ (forall p, q_admin_user_password q = Some p -> is_secret 8 p = true)
  /\ (forall n, q_workers q = Some n -> 1 <= n <= 16).
Proof.
  intros Hc%first_failure_none. repeat (apply Forall_cons_1 in Hc as [? Hc]). cbn [fst] in *.
  rewrite !negb_false_iff in *. split_and!; try done.
  - intros s Hs. match goal with Hx : refused (q_source q) _ = false |- _ => rewrite Hs in Hx; cbn in Hx; by apply negb_false_iff in Hx end.
  - intros p Hs. match goal with Hx : refused (q_admin_user_password q) _ = false |- _ => rewrite Hs in Hx; cbn in Hx; by apply negb_false_iff in Hx end.
  - intros n Hn. match goal with Hx : refused (q_workers q) _ = false |- _ => rewrite Hn in Hx; cbn in Hx end.
    unfold out_of in *. lia.
Qed.

(** *** The cell *)
Lemma selected vms cells version max_projects c :
  (exists parent, select_cell_v3 vms cells max_projects version parent = inr c
     /\ forall p, parent = Some p -> find_cell_by_nkr_name cells p = Some c)
  \/ select_cell_for_version vms cells version = inr c -> has_major version c = true /\ c ∈ cells.
Proof.
  assert (Hs : forall (key : CellConfig -> list Z) (Q : CellConfig -> bool) rest,
    sort_by_key key (filter (fun c => Q c = true) (filter (fun c => has_major version c = true) cells)) = c :: rest ->
    has_major version c = true /\ c ∈ cells).
  { intros key Q rest E. pose proof (choose_least key (has_major version) Q cells) as Hl. rewrite E in Hl.
    destruct Hl as (Hin & HP & _). split; [done|by apply list_elem_of_In]. }
  intros [(parent & Hv & Hparent)|Hv].
  - unfold select_cell_v3 in Hv. destruct parent as [p|].
    + specialize (Hparent p eq_refl). rewrite Hparent in Hv. destruct (has_major version c) eqn:Em; cbn [negb] in Hv; [|done].
      split; [done|]. apply find_in in Hparent. by destruct Hparent.
    + destruct (filter _ cells) as [|c0 cs] eqn:Ef; [done|].
      destruct (sort_by_key _ _) as [|c' rest] eqn:E; [done|]. injection Hv as ->.
      exact (Hs _ (fun c => (size (list_unique_projects_in_cell c) <? max_projects)%nat) _ E).
  - unfold select_cell_for_version in Hv. destruct (filter _ cells) as [|c0 cs] eqn:Ef; [done|].
    destruct (sort_by_key _ _) as [|c' rest] eqn:E; [done|]. injection Hv as ->.
    exact (Hs _ (fun c => (count_odoo_instances c <? MAX_ODOOS_PER_CELL)%nat) _ E).
Qed.

Lemma v3_parent vms cells max_projects version p c :
  select_cell_v3 vms cells max_projects version (Some p) = inr c -> find_cell_by_nkr_name cells p = Some c.
Proof.
  unfold select_cell_v3. destruct (find_cell_by_nkr_name cells p) as [c'|]; [|done].
  destruct (negb _); [done|]. destruct (_ <=? _)%nat; [done|]. by intros [= ->].
Qed.

Lemma chosen_inv vms max_projects q f y : chosen_cell vms max_projects q f = inr y ->
  exists c, y = yml_of c /\ has_major (q_odoo_version q) c = true /\ c ∈ configs f
    /\ forall p, effective_parent q f = Some p -> uses_v3 q = true -> find_cell_by_nkr_name (configs f) p = Some c.
Proof.
  unfold chosen_cell. destruct (uses_v3 q).
  - destruct (staging_parent q f); [done|].
    destruct (select_cell_v3 _ _ _ _ _) as [|c] eqn:Es; [done|]. intros [= <-]. exists c.
    assert (Hp : forall p, effective_parent q f = Some p -> find_cell_by_nkr_name (configs f) p = Some c).
    { intros p Hp. rewrite Hp in Es. by eapply v3_parent. }
    destruct (selected vms (configs f) (q_odoo_version q) max_projects c) as [? ?]; [left; exists (effective_parent q f); split; [exact Es|exact Hp]|]. split_and!; auto.
  - destruct (select_cell_for_version _ _ _) as [|c] eqn:Es; [done|]. intros [= <-]. exists c.
    destruct (selected vms (configs f) (q_odoo_version q) max_projects c) as [? ?]; [by right|]. by split_and!.
Qed.

Lemma named_inv cells name version f y : named_cell cells name version f = inr y ->
  load_cell name f = inr y /\ y_version y = Some version /\ is_Some (lookup_cell_id name cells).
Proof.
  unfold named_cell. destruct (lookup_cell_id _ _); [|done]. destruct (load_cell _ _) as [|y'] eqn:El; [done|].
  destruct (y_version y') as [v|] eqn:Ev; [|done]. case_bool_decide; [|done]. intros [= <-]. subst. by split_and!.
Qed.

(** the cell of a plan is one of the world: the cell.yml of a directory; when it is named, of the directory
    of that name, which is registered *)
Definition cell_of_world (cells : Registry.file) (name : option string) (w : world D) (y : cell_yml) : Prop :=
  exists d, w_cells w !! d ≫= d_yml = Some (Some y) /\ forall n, name = Some n -> d = vm_key n /\ is_Some (lookup_cell_id n cells).
Lemma resolved_in_world `{!ListingLaws} vms max_projects cells hint q (w : world D) y : resolve_cell vms max_projects cells hint q (fleet_of w) = inr y ->
  cell_of_world cells (named hint q) w y.
Proof.
  unfold resolve_cell. destruct (named hint q) as [n|] eqn:En.
  - intros (Hl & _ & Hr)%named_inv. exists (vm_key n). split; [|by intros ? [= <-]]. unfold load_cell in Hl. cbn in Hl. rewrite lookup_omap in Hl.
    destruct (w_cells w !! vm_key n ≫= d_yml) as [[y'|]|]; [by injection Hl as ->|done..].
  - intros (c & -> & _ & Hin & _)%chosen_inv. apply list_elem_of_fmap in Hin as (y0 & -> & Hy). unfold list_cells in Hy.
    rewrite (sort_by_key_perm _ _) in Hy. apply list_elem_of_omap in Hy as (d & _ & Hd). exists d. split; [|done]. cbn in Hd. rewrite lookup_omap in Hd.
    destruct (w_cells w !! d ≫= d_yml) as [[y'|]|]; [|done..]. cbn in Hd. injection Hd as ->. by destruct y0.
Qed.

(** the cell of a plan has the major version, and exactly the version when it was named *)
Lemma resolved_version vms max_projects cells hint q f y : resolve_cell vms max_projects cells hint q f = inr y ->
  major <$> y_version y = Some (major (q_odoo_version q)) /\ (named hint q <> None -> y_version y = Some (q_odoo_version q)).
Proof.
  unfold resolve_cell. destruct (named hint q) as [n|] eqn:En.
  - intros (_ & Hv & _)%named_inv. by rewrite Hv.
  - intros (c & -> & Hm & _)%chosen_inv. split; [|done]. unfold has_major in Hm. by apply bool_decide_eq_true in Hm.
Qed.

Lemma size_bounds tier w c r chrs : size_instance tier w c = inr (r, chrs) ->
  0 <= workers r <= 16 /\ 1 <= chrs <= 50 /\ 1024 <= Resources.ram_mb r <= 12800.
Proof.
  unfold size_instance. destruct (match w with Some _ => _ | None => false end) eqn:Ew; [done|].
  assert (Hw : 1 <= default 2 w <= 16).
  { destruct w as [w|]; cbn in *; [|lia]. rewrite negb_false_iff, andb_true_iff, !Z.leb_le in Ew. lia. }
  assert (Hd : let r := derive_resources_for_tier (default 2 w) tier in
    0 <= workers r <= 16 /\ 1 <= Resources.chrs r <= 50 /\ 1024 <= Resources.ram_mb r <= 12800).
  { cbv zeta. destruct tier; cbn [derive_resources_for_tier workers Resources.chrs Resources.ram_mb];
      rewrite ?Z.max_l by lia; unfold u32; lia. }
  destruct (is_dev_like tier); [intros [= <- <-]; exact Hd|].
  destruct c as [c|]; [|intros [= <- <-]; exact Hd].
  destruct (negb _) eqn:Ec; [done|]. intros [= <- <-]. rewrite negb_false_iff, andb_true_iff, !Z.leb_le in Ec. destruct Hd as (? & _ & ?). lia.
Qed.

Lemma cell_template_inv cell q (w : world D) s : cell_template cell q w = inr s ->
  s = default_template cell q /\ is_Some (instance_at w cell s) /\ is_template_name cell s = true.
Proof.
  unfold cell_template. case_bool_decide; [|done]. intros [= <-]. split; [done|]. split; [done|].
  unfold is_template_name, default_template. apply orb_true_iff.
  destruct (wants_enterprise q); [right|left]; by apply bool_decide_true.
Qed.

Definition source_rule (cell : string) (q : CreateInstanceReq) (w : world D) (s : string) : Prop :=
  let asked := match q_parent_nkr_name q with Some p => Some p | None => q_source q end in
  match q_tier q, q_mode q with
  | Staging, _ => asked = Some s /\ forall m, instance_at w cell s ≫= i_meta = Some m -> m_tier m = Production
  | Production, ModeDev => asked = Some s
  | _, _ => asked = None /\ is_Some (instance_at w cell s) /\ is_template_name cell s = true
  end.

Lemma choose_source_rule hint cell q q' (w : world D) s : prepare hint q = inr q' -> choose_source cell q' w = inr s ->
  source_rule cell q w s.
Proof.
  intros Hp. pose proof (prepared _ _ _ Hp) as Hq. destruct_and! Hq.
  unfold choose_source, source_rule. replace (q_tier q') with (q_tier q) by done. replace (q_mode q') with (q_mode q) by done.
  match goal with Hx : q_source q' = _ |- _ => rewrite <- Hx end.
  destruct (q_tier q); [destruct (q_mode q)| |]; (destruct (q_source q') as [s0|]; try done).
  - by intros [= <-].
  - by intros (-> & ? & ?)%cell_template_inv.
  - destruct (instance_at w cell s0 ≫= i_meta) as [m|] eqn:Em; [case_bool_decide; [|done]|]; intros [= <-];
      (split; [done|]); rewrite Em; intros m' Hm; by simplify_eq.
  - by intros (-> & ? & ?)%cell_template_inv.
Qed.
End plan_lemmas.

(** C10. A request that is accepted was checked: the plan has a safe name under the prefix of its
    cell, a cell of the world (the registered one that was named, if one was) of the version with a free place, resources and passwords within their bounds,
    and a source that the tier allows; the administrator's password is only changed on a clone
    of a template. *)
Theorem plan_checked `{Listing} `{!ListingLaws} {D} c vms hint q (w : world D) pl :
  create_plan c vms hint q w = inr pl ->
  let op := pl_opts pl in
  is_safe_identifier (q_nkr_name q) = true /\ pl_dst pl = ensure_cell_prefix (pl_cell pl) (q_nkr_name q)
  /\ (exists y, y_name y = pl_cell pl /\ cell_of_world (p_cells (c_probes c)) (named hint q) w y
        /\ (odoos_used y w < MAX_ODOOS_PER_CELL)%nat
        /\ major <$> y_version y = Some (major (q_odoo_version q))
        /\ (named hint q <> None -> y_version y = Some (q_odoo_version q)))
  /\ source_rule (pl_cell pl) q w (pl_source pl)
  /\ (exists n chrs ram, op_workers op = Some n /\ 0 <= n <= 16 /\ op_chrs op = Some chrs /\ 1 <= chrs <= 50
        /\ op_ram_mb op = Some ram /\ 1024 <= ram <= 12800)
  /\ op_admin_passwd op = Some (q_admin_passwd q) /\ is_secret 16 (q_admin_passwd q) = true
  /\ op_tier op = q_tier q /\ op_mode op = effective_mode q /\ op_project_id op = q_project_id q /\ op_env op = q_env q
  /\ op_start_disabled op = negb (pl_start pl)
  /\ (forall pwd, pl_pwd pl = Some pwd -> is_secret 8 pwd = true /\ is_template_name (pl_cell pl) (pl_source pl) = true).
Proof.
  intros (q' & y & Hp & _ & Hf & Hr & Hpl)%create_plan_inv. cbv zeta.
  pose proof (prepared _ _ _ Hp) as Hq. destruct_and! Hq.
  apply plan_in_inv in Hpl as (r & chrs & Hs & Hz & Hn & Ht & _ & ->). apply fields_checked in Hf as (Hname & _ & _ & Hpw & Hup & _).
  pose proof (resolved_in_world _ _ _ _ _ _ _ Hr) as Hin. apply resolved_version in Hr as [Hm Hx]. apply size_bounds in Hz as (? & ? & ?).
  cbn [pl_opts pl_dst pl_cell pl_source pl_start pl_pwd].
  split_and!; try congruence;
    try (unfold options_of, effective_mode; cbn; repeat match goal with E : _ q' = _ |- _ => rewrite E end; done).
  - exists y. replace (named hint q) with (named hint q') by (unfold named; by replace (q_cell q') with (q_cell q)).
    split; [done|]. split; [exact Hin|]. replace (q_odoo_version q) with (q_odoo_version q') by done. by split_and!.
  - by eapply choose_source_rule.
  - by exists (workers r), chrs, (Resources.ram_mb r).
  - intros pwd Hpwd. destruct (is_template_name _ _) eqn:E; [|done]. split; [by apply Hup|done].
Qed.

(** The comments call a parent optional for production and development; a request that names
    one is refused there, because the parent becomes the source, which these tiers forbid. *)
Theorem parent_refused `{Listing} `{!ListingLaws} {D} c vms hint q (w : world D) pl p :
  q_parent_nkr_name q = Some p -> q_tier q = Dev \/ q_tier q = Production /\ q_mode q = ModeProduction ->
  create_plan c vms hint q w <> inr pl.
Proof.
  intros Hp Ht (q' & y & Hpr & _ & _ & _ & Hpl)%create_plan_inv.
  apply plan_in_inv in Hpl as (r & chrs & Hs & _). eapply choose_source_rule in Hs; [|exact Hpr].
  unfold source_rule in Hs. rewrite Hp in Hs. by destruct Ht as [E|[E E']]; rewrite E, ?E' in Hs; destruct Hs.
Qed.

(** ** The clone of a plan, in the directory of the cells *)
Section frame.
Context `{Listing} `{!ListingLaws} `{State.ReadDir} {D : Type} (exec : Z -> statement -> D -> option D) (o : outside).
Variables (cell dst : string).

Definition framed (w w' : world D) : Prop :=
  (forall d, w_cells w' !! d ≫= d_yml = w_cells w !! d ≫= d_yml)
  /\ (forall d n, d <> cell \/ n <> dst -> instance_at w' d n = instance_at w d n).
Lemma framed_refl w : framed w w. Proof. by split. Qed.
Lemma framed_trans w1 w2 w3 : framed w1 w2 -> framed w2 w3 -> framed w1 w3.
Proof. intros [A1 B1] [A2 B2]. split; intros; [by rewrite A2|by rewrite B2, B1]. Qed.

Definition keeps {A} (m : M (D := D) A) : Prop := forall s w r s' w', m (s, w) = (r, (s', w')) -> framed w w'.

Lemma keeps_bind {A B} (m : M A) (k : A -> M B) : keeps m -> (forall a, keeps (k a)) -> keeps (M_bind A B k m).
Proof.
  intros Hm Hk s w r s' w'. unfold M_bind. destruct (m (s, w)) as [[e|a] [s1 w1]] eqn:E.
  - intros [= <- <- <-]. by eapply Hm.
  - intros Hr. eapply framed_trans; [by eapply Hm|by eapply Hk].
Qed.
Lemma keeps_ret {A} (a : A) : keeps (M_ret A a).
Proof. intros s w r s' w' [= <- <- <-]. apply framed_refl. Qed.
Lemma keeps_require b e : keeps (require b e).
Proof. destruct b; [apply keeps_ret|]. intros s w r s' w' [= <- <- <-]. apply framed_refl. Qed.

Lemma framed_other w w' : w_cells w' = w_cells w -> framed w w'.
Proof. intros E. unfold framed, instance_at. by rewrite E. Qed.
Lemma framed_cell f (w : world D) : (forall c, d_yml (f c) = d_yml c) -> (forall c n, n <> dst -> d_insts (f c) !! n = d_insts c !! n) ->
  framed w (on_cell cell f w).
Proof.
  intros Hy Hi. unfold framed, instance_at, on_cell. cbn. split.
  - intros d. destruct (decide (d = cell)) as [->|Hd]; [|by rewrite lookup_alter_ne].
    rewrite lookup_alter_eq. destruct (w_cells w !! cell); [apply Hy|done].
  - intros d n Hdn. destruct (decide (d = cell)) as [->|Hd]; [|by rewrite lookup_alter_ne].
    rewrite lookup_alter_eq. destruct (w_cells w !! cell); [|done]. cbn. apply Hi. naive_solver.
Qed.
Lemma framed_insts f (w : world D) : (forall m n, n <> dst -> f m !! n = m !! n) -> framed w (on_insts cell f w).
Proof. intros Hf. apply framed_cell; [done|]. intros c n Hn. by apply Hf. Qed.
Lemma framed_inst f (w : world D) : framed w (on_inst cell dst f w).
Proof. apply framed_insts. intros m n Hn. by rewrite lookup_alter_ne. Qed.
Lemma keeps_world f : (forall w, framed w (f w)) -> keeps (on_world f).
Proof. intros Hf s w r s' w' [= <- <- <-]. apply Hf. Qed.

Lemma clone_steps_keep op y src i : y_name y = cell -> keeps (clone_steps exec o op y src dst i).
Proof.
  intros Hy. unfold clone_steps. cbv zeta. rewrite Hy.
  repeat match goal with
  | |- keeps (mbind _ _) => apply keeps_bind; [|intros]
  | |- keeps (mret _) => apply keeps_ret
  | |- keeps (require _ _) => apply keeps_require
  | |- keeps (if ?b then _ else _) => destruct b
  | |- keeps (on_world _) => apply keeps_world; intros; apply framed_inst
  end.
  all: intros s w r s' w'.
  - unfold register_clone. destruct (resolve_id_scoped _ _ _ _) as [[e|id] f]; intros [= <- <- <-]; by apply framed_other.
  - unfold copy_dir. destruct (w_cells w !! cell); [|intros [= <- <- <-]; apply framed_refl].
    assert (Hi : forall x, framed w (on_insts cell <[dst:=x]> w)) by (intros; apply framed_insts; intros; by rewrite lookup_insert_ne).
    destruct (o_snapshot o i); [intros [= <- <- <-]; apply Hi|].
    destruct (o_copy o i); intros [= <- <- <-]; [apply framed_refl| |apply Hi].
    apply framed_insts. intros m n Hn. by rewrite lookup_partial_alter_ne.
  - unfold clone_data. intros [= <- <- <-]. by apply framed_cell.
  - unfold clone_conf. destruct (_ ≫= i_conf); [|intros [= <- <- <-]; apply framed_refl].
    destruct (written _ _) as [ok new]. intros [= <- <- <-]. apply framed_inst.
  - unfold clone_conf. destruct (_ ≫= i_conf); [|intros [= <- <- <-]; apply framed_refl].
    destruct (written _ _) as [ok new]. intros [= <- <- <-]. apply framed_inst.
  - unfold clone_db. destruct (clone_database _ _ _ _ _ _) as [[e|] db]; intros [= <- <- <-]; by apply framed_other.
  - unfold add_to_compose. destruct (append_compose_block _ _ _); [intros [= <- <- <-]; apply framed_refl|].
    destruct (written _ _) as [ok new]. intros [= <- <- <-]. by apply framed_cell.
  - unfold save_instance_meta. intros [= <- <- <-]. apply framed_inst.
Qed.

(** the tenants of the world after the clone: those before, and the new one *)
Lemma fleet_tenant (w : world D) t : t ∈ all_tenants (fleet_of w) <->
  (exists y, y ∈ list_cells (fleet_of w) /\ y_name y = t_cell t)
  /\ exists i, instance_at w (t_cell t) (t_name t) = Some i /\ t_meta t = meta_value <$> i_meta i.
Proof.
  rewrite in_all_tenants. apply and_iff_compat_l. unfold instance_at. cbn. rewrite lookup_fmap.
  destruct (w_cells w !! t_cell t) as [c|]; cbn; [|split; intros (? & ? & _); done].
  rewrite lookup_fmap. destruct (d_insts c !! t_name t) as [i|]; cbn; [|split; intros (? & ? & _); done].
  split.
  - intros (x & [= <-] & Hm). exists i. split; [done|]. rewrite Hm. by destruct (i_meta i).
  - intros (i' & [= <-] & Hm). eexists. split; [done|]. rewrite Hm. by destruct (i_meta i).
Qed.

Lemma framed_tenant w w' t : framed w w' -> t ∈ all_tenants (fleet_of w') ->
  t ∈ all_tenants (fleet_of w) \/ at_place cell dst t.
Proof.
  intros [Hy Hi] [Hc (i & Hat & Hm)]%fleet_tenant.
  destruct (decide (t_cell t = cell)) as [Ec|Ec]; [destruct (decide (t_name t = dst)) as [En|En]; [by right|]|]; left;
    (apply fleet_tenant; split; [|exists i; split; [rewrite <- Hi; [done|auto]|done]]).
  all: replace (list_cells (fleet_of w)) with (list_cells (fleet_of w')); [done|]; unfold list_cells;
    replace (f_ymls (fleet_of w)) with (f_ymls (fleet_of w')); [done|]; apply map_eq; intros d; cbn; by rewrite !lookup_omap, Hy.
Qed.
End frame.

Lemma cloned_tenant `{Listing} `{!ListingLaws} `{State.ReadDir} {D} (exec : Z -> statement -> D -> option D) o src dst op (w w' : world D) r d y :
  clone_instance_with_opts exec o src dst op w = (inr r, w') -> find_instance_cell w src = inr (d, y) ->
  framed (y_name y) dst w w'
  /\ exists i, instance_at w' (y_name y) dst = Some i /\ i_meta i = Some (meta_of o op y src dst).
Proof.
  unfold clone_instance_with_opts. intros Hc Hf.
  destruct (clone_checks op src dst w) as [e1|[y' i]] eqn:Eck; [by destruct e1|].
  apply checked_cell in Eck as (d' & Ef & Ei). rewrite Hf in Ef. injection Ef as <- <-.
  destruct (clone_steps _ _ _ _ _ _ _ _) as [[e2|r'] [s w2]] eqn:Es; [done|]. injection Hc as <- <-.
  split.
  - eapply framed_trans; [|by eapply clone_steps_keep]. by apply framed_other.
  - apply clone_steps_inr in Es as (_ & (copied & _ & Hi) & _). eexists. split; [exact Hi|done].
Qed.

(** the cell of a plan that was not named has all the instances of its project *)
Lemma plan_affinity `{Listing} `{!ListingLaws} vms max_projects q f y p t :
  chosen_cell vms max_projects q f = inr y -> names_unique f -> one_cell_per_project f ->
  (forall n t, q_parent_nkr_name q = Some n -> t ∈ all_tenants f -> t_name t = n -> project_of t = q_project_id q) ->
  q_project_id q = Some p -> t ∈ all_tenants f -> project_of t = Some p -> t_cell t = y_name y.
Proof.
  intros (c & -> & _ & _ & Hparent)%chosen_inv Hu Ho Hpar Hp Ht Htp.
  assert (Hv : uses_v3 q = true) by (unfold uses_v3; rewrite Hp, !orb_true_iff; right; by apply bool_decide_true).
  assert (Hc : forall n, effective_parent q f = Some n -> cell_of_tenant f n = Some (cl_name c)).
  { intros n Hn. unfold cell_of_tenant. by rewrite (Hparent n Hn Hv). }
  assert (Hex : exists t0, t0 ∈ all_tenants f /\ t_cell t0 = cl_name c /\ project_of t0 = Some p).
  { unfold effective_parent in Hc. destruct (q_parent_nkr_name q) as [n|].
    - destruct (cell_of_tenant_in _ _ _ (Hc n eq_refl)) as (t0 & Ht0 & Hc0 & Hn0). exists t0. split; [done|]. split; [done|].
      rewrite <- Hp. by eapply Hpar.
    - rewrite Hp in Hc. cbn in Hc. unfold find_existing_instance_for_project in Hc.
      destruct (find _ _) as [t0|] eqn:Ef; cbn in Hc.
      + apply find_in in Ef as [Ht0 Hp0%bool_decide_eq_true]. exists t0. split; [done|]. split; [|done].
        specialize (Hc _ eq_refl). rewrite (cell_of_unique _ _ Hu Ht0) in Hc. congruence.
      + pose proof (find_none_in _ _ _ Ef Ht) as Hf. cbv beta in Hf. by rewrite Htp, bool_decide_true in Hf. }
  destruct Hex as (t0 & Ht0 & Hc0 & Hp0). cbn. rewrite <- Hc0. by eapply Ho.
Qed.

Lemma env_free `{Listing} q f p e t : env_exists q f = None -> q_allow_duplicate_env q <> Some true ->
  q_project_id q = Some p -> q_env q = Some e -> t ∈ all_tenants f -> is_template_instance (t_name t) = false ->
  project_of t = Some p -> env_of t <> Some e.
Proof.
  intros He Hd Hp Hq Ht Htpl Htp Hte. unfold env_exists in He.
  replace (default false (q_allow_duplicate_env q)) with false in He by (destruct (q_allow_duplicate_env q) as [[]|] eqn:Eq; done || congruence).
  rewrite Hp, Hq in He. cbn in He. unfold find_instance_with_project_and_env in He.
  destruct (find _ _) eqn:Ef; [done|]. pose proof (find_none_in _ _ _ Ef Ht) as Hf. cbv beta in Hf.
  by rewrite Htpl, Htp, Hte, !bool_decide_true in Hf.
Qed.

(** C9. A request that leaves the choice of the cell to the program keeps every project in one
    cell and, unless duplicates were asked for, every environment of a project in one instance.  The
    clone may run in a later world [w] than the plan: it is enough that no instance of the project has come
    up in between.  The source must lie in the planned cell when it is cloned, which the program
    does not check, and a parent that the request names must be of the project. *)
Theorem create_keeps_projects `{Listing} `{!ListingLaws} `{State.ReadDir} {D} (exec : Z -> statement -> D -> option D)
    c vms hint q (w0 w w' : world D) pl o r d y :
  create_plan c vms hint q w0 = inr pl -> named hint q = None ->
  names_unique (fleet_of w0) -> one_cell_per_project (fleet_of w0) ->
  (forall n t, q_parent_nkr_name q = Some n -> t ∈ all_tenants (fleet_of w0) -> t_name t = n -> project_of t = q_project_id q) ->
  (forall t p, q_project_id q = Some p -> project_of t = Some p -> t ∈ all_tenants (fleet_of w) -> t ∈ all_tenants (fleet_of w0)) ->
  find_instance_cell w (pl_source pl) = inr (d, y) -> y_name y = pl_cell pl ->
  clone_instance_with_opts exec o (pl_source pl) (pl_dst pl) (pl_opts pl) w = (inr r, w') ->
  one_cell_per_project (fleet_of w) ->
  one_cell_per_project (fleet_of w')
  /\ (q_allow_duplicate_env q <> Some true -> one_instance_per_env (fleet_of w) -> one_instance_per_env (fleet_of w')).
Proof.
  intros (q' & y' & Hp & He & _ & Hr & Hpl)%create_plan_inv Hnamed Hu Ho0 Hpar Hsame Hfind Hcell Hclone Ho.
  pose proof (prepared _ _ _ Hp) as Hq. destruct_and! Hq.
  apply plan_in_inv in Hpl as (rs & chrs & _ & _ & _ & _ & _ & Epl).
  pose proof (f_equal pl_cell Epl) as Ec. pose proof (f_equal pl_dst Epl) as Ed. pose proof (f_equal pl_opts Epl) as Eo.
  cbn in Ec, Ed, Eo. rewrite Ed, Eo in Hclone. rewrite Ec in Hcell. clear Epl Ec Ed Eo.
  destruct (cloned_tenant _ _ _ _ _ _ _ _ _ _ Hclone Hfind) as [Hframe (i & Hi & Hmeta)]. rewrite Hcell in Hframe, Hi.
  unfold resolve_cell in Hr. replace (named hint q') with (named hint q) in Hr by (unfold named; by replace (q_cell q') with (q_cell q)).
  rewrite Hnamed in Hr.
  assert (Hpar' : forall n t, q_parent_nkr_name q' = Some n -> t ∈ all_tenants (fleet_of w0) -> t_name t = n -> project_of t = q_project_id q').
  { replace (q_parent_nkr_name q') with (q_parent_nkr_name q) by done. by replace (q_project_id q') with (q_project_id q). }
  assert (Hnew : forall t, t ∈ all_tenants (fleet_of w') -> at_place (y_name y') (ensure_cell_prefix (y_name y') (q_nkr_name q')) t ->
    project_of t = q_project_id q' /\ env_of t = q_env q').
  { intros t [_ (i' & Hat & Hm)]%fleet_tenant [Hc Hn]. rewrite Hc, Hn, Hi in Hat. injection Hat as <-. rewrite Hmeta in Hm.
    destruct (meta_labels (meta_of o (options_of q' rs chrs) y (pl_source pl) (ensure_cell_prefix (y_name y') (q_nkr_name q')))) as (L1 & L2 & _).
    unfold project_of, env_of. rewrite Hm. cbn [fmap option_fmap option_map mbind option_bind]. by rewrite L1, L2. }
  split.
  - intros t t' p Ht Ht' Htp Htp'.
    destruct (framed_tenant _ _ _ _ _ Hframe Ht) as [Hold|Hat], (framed_tenant _ _ _ _ _ Hframe Ht') as [Hold'|Hat'].
    + by eapply Ho.
    + destruct (Hnew _ Ht' Hat') as [Hl _]. destruct Hat' as [-> _]. eapply (plan_affinity _ _ q' (fleet_of w0)); try done; [congruence|].
      eapply Hsame; [|exact Htp|done]. congruence.
    + destruct (Hnew _ Ht Hat) as [Hl _]. destruct Hat as [-> _]. symmetry. eapply (plan_affinity _ _ q' (fleet_of w0)); try done; [congruence|].
      eapply Hsame; [|exact Htp'|done]. congruence.
    + destruct Hat as [-> _], Hat' as [-> _]. done.
  - intros Hdup Hone t t' p e Ht Ht' Hnt Hnt' Htp Htp' Hte Hte'.
    assert (Hdup' : q_allow_duplicate_env q' <> Some true) by congruence.
    destruct (framed_tenant _ _ _ _ _ Hframe Ht) as [Hold|Hat], (framed_tenant _ _ _ _ _ Hframe Ht') as [Hold'|Hat'].
    + by eapply Hone.
    + destruct (Hnew _ Ht' Hat') as [Hl Hl']. exfalso. apply (env_free q' (fleet_of w0) p e t He Hdup'); try done; try congruence.
      eapply Hsame; [|exact Htp|done]. congruence.
    + destruct (Hnew _ Ht Hat) as [Hl Hl']. exfalso. apply (env_free q' (fleet_of w0) p e t' He Hdup'); try done; try congruence.
      eapply Hsame; [|exact Htp'|done]. congruence.
    + destruct Hat as [_ ->], Hat' as [_ ->]. done.
Qed.

(** ** Witnesses *)
Module CreateExample.
Definition meta (cell name : string) (t : Tier) (project env : option string) : InstanceMeta :=
  mkMeta name cell None ModeProduction None None (Some "18.0") None None None None None None t project env 7.
Definition inst (m : option InstanceMeta) : instance :=
  mkInstance (Some (unlines ["[options]"])) m ∅ (Some (Own 2600)) true true ∅.
Definition compose (cell name : string) : string := text_of ["services:"; "  odoo:"; "    nkr_name: " +:+ quote name; "    id: 3"].
Definition w : world InstancesExample.server :=
  mkWorld
    {["c18" := mkCellDir (Some (Some (mkYml "c18" 3 (Some "18.0"))))
                 {["c18-odoo-template" := inst None;
                   "c18-acme" := inst (Some (meta "c18" "c18-acme" Production (Some "acme") (Some "prod")))]}
                 ∅ (Some (compose "c18" "c18-odoo-template"));
      "c19" := mkCellDir (Some (Some (mkYml "c19" 4 (Some "18.0"))))
                 {["c19-lab" := inst (Some (meta "c19" "c19-lab" Dev None None))]}
                 ∅ (Some (compose "c19" "c19-lab"))]}
    (Some {["c18/c18-odoo-template" := 3]}) ∅
    {[(3, "db-c18-odoo-template") := true; (3, "db-c18-acme") := true; (4, "db-c19-lab") := true]} ∅ ∅.
Definition asked (members : list (string * Value)) : option CreateInstanceReq :=
  decode_create (JObject (normal_members
    ([("nkr_name", JString "beta"); ("version", JString "18.0"); ("admin_passwd", JString "0123456789abcdef")] ++ members))).
Definition req (members : list (string * Value)) : CreateInstanceReq :=
  default (mkReq "" ModeProduction "" None None None None None None None None None None None None None [] "" None None None Production None None)
    (asked members).
Definition c : create_outside :=
  mkCreate (mkProbes ∅ (fun _ => None) (fun _ => None) None 100 0 (fun _ => false) (Some {["c18" := 3; "c19" := 4]})
              (fun _ _ => None) (fun _ => None) (fun _ _ => None) true) 7 (fun _ => []).
Definition planned (hint : option string) (members : list (string * Value)) : answer + plan :=
  create_plan (H := listed) c [] hint (req members) w.
Definition place_of (r : answer + plan) : answer + (string * string * string) :=
  match r with inl a => inl a | inr p => inr (pl_cell p, pl_source p, pl_dst p) end.
Definition clone_of_plan (p : plan) : (clone_error + (Z * InstanceMeta)) * world InstancesExample.server :=
  clone_instance_with_opts InstancesExample.exec (InstancesExample.out true) (pl_source p) (pl_dst p) (pl_opts p) w.
Definition the_plan (r : answer + plan) : plan :=
  match r with inr p => p | inl _ => mkPlan "" "" "" default_options None false end.
Definition dev : list (string * Value) := [("env", JString "dev"); ("project_id", JString "acme")].
End CreateExample.
Import CreateExample.

(** a development instance of a project goes to the cell of the project; its tier comes from
    the environment *)
Example plan_dev : place_of (planned None dev) = inr ("c18", "c18-odoo-template", "c18-beta")
  /\ op_tier (pl_opts (the_plan (planned None dev))) = Dev /\ op_workers (pl_opts (the_plan (planned None dev))) = Some 0.
Proof. vm_compute. auto. Qed.
Example plan_answers :
  place_of (planned None [("env", JString "prod"); ("project_id", JString "acme")])
    = inl (Answer 409 [("error", JString "env_already_exists"); ("conflict_nkr_name", JString "c18-acme");
                       ("project_id", JString "acme"); ("env", JString "prod")])
  /\ place_of (planned None [("env", JString "staging")]) = inl (error 400 "parent_required_for_staging")
  /\ place_of (planned (Some "c77") []) = inl (Answer 404 [("error", JString "cell_not_found"); ("cell", JString "c77")])
  /\ place_of (planned (Some "c19") []) = inl (template_missing "c19" "c19-odoo-template")
  /\ place_of (planned (Some "c18") [("workers", JInt 17)]) = inl (error 400 "invalid_workers").
Proof. vm_compute. auto 6. Qed.

(** The prefix of the cell can make the name longer than a safe identifier: an instance is
    made that no other request can name. *)
Example long_name :
  exists q, is_safe_identifier (q_nkr_name q) = true
    /\ match create_plan (H := listed) c [] None q w with
       | inr p => is_safe_identifier (pl_dst p) = false | inl _ => False end.
Proof.
  exists (req dev <| q_nkr_name := "a23456789012345678901234567890123456789012345678901234567890-end" |>).
  vm_compute. auto.
Qed.

(** The choice of a cell compares major versions, the clone whole ones: the request is
    accepted and its clone always fails. *)
Example major_is_not_enough :
  let q := req dev <| q_odoo_version := "18" |> in
  match create_plan (H := listed) c [] None q w with
  | inr p => fst (clone_of_plan p) = inl VersionMismatch | inl _ => False end.
Proof. vm_compute. reflexivity. Qed.

(** The source is looked for in all the cells when it is cloned, but its tier is checked in the
    cell of the request: a staging clone of a development instance of another cell is
    accepted, and made in that cell. *)
Example source_of_other_cell :
  let r := planned (Some "c18") [("tier", JString "staging"); ("source", JString "c19-lab")] in
  place_of r = inr ("c18", "c19-lab", "c18-beta")
  /\ instance_at (snd (clone_of_plan (the_plan r))) "c18" "c18-beta" = None
  /\ (exists i, instance_at (snd (clone_of_plan (the_plan r))) "c19" "c18-beta" = Some i /\ m_cell <$> i_meta i = Some "c19").
Proof. vm_compute. split; [done|]. split; [done|]. eexists. split; reflexivity. Qed.

Lemma plan_checked_witness :
  let p := the_plan (planned None dev) in
  pl_dst p = ensure_cell_prefix (pl_cell p) "beta" /\ source_rule (pl_cell p) (req dev) w (pl_source p)
  /\ op_env (pl_opts p) = Some "dev".
Proof.
  assert (E : create_plan (H := listed) c [] None (req dev) w = inr (the_plan (planned None dev))) by (by vm_compute).
  destruct (plan_checked (H := listed) c [] None (req dev) w (the_plan (planned None dev)) E)
    as (_ & H1 & _ & H2 & _ & _ & _ & _ & _ & _ & H3 & _).
  split; [exact H1|]. split; [exact H2|]. exact H3.
Defined.

Lemma parent_refused_witness :
  create_plan (H := listed) c [] None (req (("parent_nkr_name", JString "c18-acme") :: dev)) w <> inr (the_plan (planned None dev)).
Proof.
  exact (parent_refused (H := listed) c [] None (req (("parent_nkr_name", JString "c18-acme") :: dev)) w (the_plan (planned None dev))
    "c18-acme" eq_refl (or_introl eq_refl)).
Defined.

Lemma fleet_ok : names_unique (H := listed) (fleet_of w) /\ one_cell_per_project (H := listed) (fleet_of w).
Proof.
  split.
  - intros t t' Ht Ht' Hn. assert (Hp : name_cell t t' = true) by (apply (pairwise name_cell (all_tenants (H := listed) (fleet_of w))); [by vm_compute|done..]).
    unfold name_cell in Hp. rewrite bool_decide_true in Hp by done. by apply bool_decide_eq_true in Hp.
  - intros t t' p Ht Ht' Hp1 Hp2.
    assert (Hp : project_cell t t' = true) by (apply (pairwise project_cell (all_tenants (H := listed) (fleet_of w))); [by vm_compute|done..]).
    unfold project_cell in Hp. rewrite bool_decide_true in Hp by (rewrite Hp1, Hp2; split; [by eexists|done]). by apply bool_decide_eq_true in Hp.
Qed.

Definition env_name (t t' : tenant) : bool :=
  if bool_decide (is_template_instance (t_name t) = false /\ is_template_instance (t_name t') = false
                  /\ is_Some (project_of t) /\ project_of t = project_of t' /\ is_Some (env_of t) /\ env_of t = env_of t')
  then bool_decide (t_name t = t_name t') else true.
Lemma envs_ok : one_instance_per_env (H := listed) (fleet_of w).
Proof.
  intros t t' p e Ht Ht' N1 N2 P1 P2 E1 E2.
  assert (Hp : env_name t t' = true) by (apply (pairwise env_name (all_tenants (H := listed) (fleet_of w))); [by vm_compute|done..]).
  unfold env_name in Hp. rewrite bool_decide_true in Hp by (rewrite P1, P2, E1, E2; split_and!; try done; by eexists). by apply bool_decide_eq_true in Hp.
Qed.

Lemma create_keeps_projects_witness :
  one_cell_per_project (H := listed) (fleet_of (snd (clone_of_plan (the_plan (planned None dev)))))
  /\ one_instance_per_env (H := listed) (fleet_of (snd (clone_of_plan (the_plan (planned None dev))))).
Proof.
  assert (E : create_plan (H := listed) c [] None (req dev) w = inr (the_plan (planned None dev))) by (by vm_compute).
  assert (Hr : exists r, fst (clone_of_plan (the_plan (planned None dev))) = inr r) by (vm_compute; eexists; reflexivity).
  assert (F : find_instance_cell w (pl_source (the_plan (planned None dev))) = inr ("c18", mkYml "c18" 3 (Some "18.0"))) by (by vm_compute).
  assert (Hcell : "c18" = pl_cell (the_plan (planned None dev))) by (by vm_compute).
  assert (Hn : named None (req dev) = None) by (by vm_compute).
  assert (Hp : q_parent_nkr_name (req dev) = None) by (by vm_compute).
  assert (Hd : q_allow_duplicate_env (req dev) <> Some true) by (by vm_compute).
  revert E Hr F Hcell Hn Hp Hd. generalize (the_plan (planned None dev)), (req dev). intros p q E [r Hr] F Hcell Hn Hp Hd.
  unfold clone_of_plan in *. destruct (clone_instance_with_opts _ _ _ _ _ _) as [r' w'] eqn:Hc. cbn [fst snd] in *. subst r'.
  destruct (create_keeps_projects (H := listed) InstancesExample.exec c [] None q w w w' p _ r _ _ E Hn
    (proj1 fleet_ok) (proj2 fleet_ok) ltac:(intros n t Hq; congruence) ltac:(done) F Hcell Hc (proj2 fleet_ok)) as [H1 H2].
  split; [exact H1|exact (H2 Hd envs_ok)].
Defined.

Lemma found_instance `{Listing} {D} (w : world D) n d y : find_instance_cell w n = inr (d, y) -> exists i, instance_at w d n = Some i.
Proof.
  unfold find_instance_cell, instance_at. destruct (find _ _) as [d'|] eqn:Ef; [|done].
  apply List.find_some in Ef as [_ Hd]. destruct (w_cells w !! d') as [c|] eqn:Ec; [|done]. cbn.
  destruct (d_yml c) as [[y'|]|]; [|done..]. intros [= <- <-]. rewrite Ec. cbn. destruct (d_insts c !! n) as [i|]; [by exists i|done].
Qed.

(** What the thread checks again was already checked: a plan passes every check of the clone,
    when its source is in its cell, the cell has the whole version, no libraries are asked for
    and the name is free. *)
Theorem plan_passes_checks `{Listing} `{!ListingLaws} {D} c vms hint q (w : world D) pl d y :
  create_plan c vms hint q w = inr pl ->
  find_instance_cell w (pl_source pl) = inr (d, y) -> y_name y = pl_cell pl -> d = pl_cell pl ->
  y_version y = Some (q_odoo_version q) -> q_python_libs q = [] -> instance_at w (pl_cell pl) (pl_dst pl) = None ->
  exists i, clone_checks (pl_opts pl) (pl_source pl) (pl_dst pl) w = inr (y, i) /\ instance_at w (pl_cell pl) (pl_source pl) = Some i.
Proof.
  intros (q' & y' & Hp & _ & _ & _ & Hpl)%create_plan_inv Hf Hy -> Hv Hlibs Hfree.
  pose proof (prepared _ _ _ Hp) as Hq. destruct_and! Hq.
  apply plan_in_inv in Hpl as (r & chrs & _ & _ & Hn & _ & _ & Epl).
  pose proof (f_equal pl_cell Epl) as Ec. pose proof (f_equal pl_opts Epl) as Eo. cbn in Ec, Eo. clear Epl.
  destruct (found_instance _ _ _ _ Hf) as [i Hi]. exists i. split; [|done].
  unfold clone_checks. rewrite bool_decide_false by congruence. rewrite Hf, Hi, Hy.
  rewrite bool_decide_false by (rewrite Hfree; by intros []). rewrite Eo. cbn [op_odoo_version op_python_libs options_of].
  unfold version_error. rewrite Hv. rewrite bool_decide_true by congruence.
  replace (odoos_used y w) with (odoos_used y' w) by (unfold odoos_used; replace (y_name y') with (y_name y) by congruence; by destruct (w_cells w !! _)).
  destruct (Nat.leb_spec MAX_ODOOS_PER_CELL (odoos_used y' w)); [lia|]. by rewrite bool_decide_true by congruence.
Qed.

Lemma plan_passes_checks_witness :
  let p := the_plan (planned None dev) in
  exists i, clone_checks (pl_opts p) (pl_source p) (pl_dst p) w = inr (mkYml "c18" 3 (Some "18.0"), i)
    /\ instance_at w (pl_cell p) (pl_source p) = Some i.
Proof.
  assert (E : create_plan (H := listed) c [] None (req dev) w = inr (the_plan (planned None dev))) by (by vm_compute).
  exact (plan_passes_checks (H := listed) c [] None (req dev) w (the_plan (planned None dev)) "c18" (mkYml "c18" 3 (Some "18.0"))
    E ltac:(by vm_compute) ltac:(by vm_compute) ltac:(by vm_compute) ltac:(by vm_compute) ltac:(by vm_compute) ltac:(by vm_compute)).
Defined.
