(* ===== verification/Jobs.v ===== *)
(** * Background jobs of the API (src/api.rs)

    Creating, deleting, starting and stopping an instance take minutes; a handler checks the
    request, reserves the name of the instance, starts a thread and answers at once.  The
    daemon below is the state the handlers and their threads share: the world, the two sets
    of names in flight, the status files of the creates and the threads that run. *)
From S2P Require Import Prelude Text Sorting Http Json Conf Watchdog Registry State Resources Logs Blocks CloneConf Cells Instances Tenants Info Create.

Inductive ActionKind := Start | Stop | Restart.
Definition parse_action (s : string) : option ActionKind :=
  if bool_decide (s = "start") then Some Start
  else if bool_decide (s = "stop") then Some Stop else if bool_decide (s = "restart") then Some Restart else None.
Definition action_text (a : ActionKind) : string := match a with Start => "start" | Stop => "stop" | Restart => "restart" end.

(** ** Waiting for an instance *)
Inductive boot_error :=
  | SpawnFailed | NotReady | AuthFailed | AuthStatus (code : Z) | AuthJson | LoginFailed | NoCookie
  | ChangeFailed | ChangeStatus (code : Z) | ChangeJson | ChangeRefused.
#[export] Instance boot_error_eq_dec : EqDecision boot_error.
Proof. solve_decision. Defined.

(** an HTTP answer: status, cookie and body *)
Notation http_answer := (Z * option string * string)%type.

(** the turns of the loop: the clock, and the status of the probe *)
Fixpoint poll_ready (deadline : Z) (turns : list (Z * option Z)) : bool :=
  match turns with
  | [] => false
  | (now, code) :: turns =>
      if now <? deadline then
        match code with
        | Some c => if (200 <=? c) && (c <? 400) then true else poll_ready deadline turns
        | None => poll_ready deadline turns
        end
      else false
  end.
Record boot := mkBoot {
  b_spawn : bool;                            (* nkr compose up could be run *)
  b_up : State.dir -> State.dir;             (* the state files it leaves *)
  b_start : Z; b_turns : list (Z * option Z);
  b_auth : option http_answer; b_change : option http_answer }.

Definition compose_up_and_wait_ready (b : boot) : option boot_error :=
  if negb (b_spawn b) then Some SpawnFailed
  else if poll_ready (b_start b + 120) (b_turns b) then None else Some NotReady.

(** [v.pointer("/result/uid")] as an integer *)
Definition uid_of (v : Value) : option Z :=
  match get "result" v ≫= get "uid" with
  | Some (JInt z) => if (- 2 ^ 63 <=? z) && (z <? 2 ^ 63) then Some z else None | _ => None end.

Definition boot_and_set_admin_password `{Serde} (b : boot) : option boot_error :=
  match compose_up_and_wait_ready b with
  | Some e => Some e
  | None =>
      match b_auth b with
      | None => Some AuthFailed
      | Some (code, cookie, resp) =>
          if negb (code =? 200) then Some (AuthStatus code)
          else match parse_json resp with
          | None => Some AuthJson
          | Some v =>
              if bool_decide (uid_of v = None) then Some LoginFailed
              else if bool_decide (cookie = None) then Some NoCookie
              else match b_change b with
              | None => Some ChangeFailed
              | Some (code, _, resp) =>
                  if negb (code =? 200) then Some (ChangeStatus code)
                  else match parse_json resp with
                  | None => Some ChangeJson
                  | Some v => if bool_decide (get "error" v = None) then None else Some ChangeRefused
                  end
              end
          end
      end
  end.

(** ** The daemon *)
Inductive thread :=
  | Cloning (p : plan) (started_at : Z)
  | Booting (p : plan) (started_at : Z) (i : InstanceInfo)
  | Acting (nkr_name : string) (a : ActionKind) (cell : option string)
  | Deleting (nkr_name : string) (drop_db : bool).

(** the status file of a create, by cell and name; [None] where it is no JSON *)
Notation status_files := (gmap (string * string) (option Value)).
Record daemon (D : Type) := mkDaemon {
  dm_world : world D; dm_creates : gset string; dm_actions : gset string; dm_status : status_files; dm_threads : list thread }.
Arguments mkDaemon {D}. Arguments dm_world {D}. Arguments dm_creates {D}. Arguments dm_actions {D}.
Arguments dm_status {D}. Arguments dm_threads {D}.
#[export] Instance eta_daemon D : Eta (daemon D) := fun d =>
  mkDaemon (dm_world d) (dm_creates d) (dm_actions d) (dm_status d) (dm_threads d).

Definition job_status (p : plan) (started_at : Z) (status phase : string) (more : list (string * Value)) : Value :=
  JObject ([("nkr_name", JString (pl_dst p)); ("cell", JString (pl_cell p)); ("source", JString (pl_source p));
            ("status", JString status); ("phase", JString phase); ("started_at", JInt started_at)] ++ more).
Definition status_key (p : plan) : string * string := (pl_cell p, pl_dst p).

Section jobs.
Context `{Serde} `{CreateCodec} `{Listing} `{State.ReadDir} {D : Type} (exec : Z -> statement -> D -> option D).

(** the result of the write is not looked at; what a write cut short leaves is no JSON *)
Definition write_status (r : file_write) (key : string * string) (v : Value) (d : daemon D) : daemon D :=
  d <| dm_status ::= partial_alter (write_file r (Some v) None) key |>.

(** ** Creating *)
Definition pruned (p : probes) (w : world D) : list VmState * world D :=
  let '(vms, dir) := list_vms (p_host p) (w_vms w) in (vms, w <| w_vms := dir |>).

(** a create of this name that began less than 15 minutes ago *)
Definition in_progress (now : Z) (p : plan) (files : status_files) : option Value :=
  v ← mjoin (files !! status_key p);
  if bool_decide (default "" (get_str "status" v) = "provisioning")
     && (sat_sub now (default 0 (get "started_at" v ≫= as_u64)) <? 900)
  then Some v else None.

Definition named_answer (status : Z) (key code : string) (p : plan) (more : list (string * Value)) : answer :=
  Answer status ([(key, JString code); ("nkr_name", JString (pl_dst p)); ("cell", JString (pl_cell p))] ++ more).
Definition poll_path (p : plan) : string :=
  "/api/v1/cells/" +:+ pl_cell p +:+ "/instances/" +:+ pl_dst p +:+ "/create-status".
Definition create_accepted (p : plan) (now : Z) : answer :=
  named_answer 202 "status" "accepted" p
    [("source", JString (pl_source p)); ("async", JBool true); ("poll", JString (poll_path p)); ("started_at", JInt now)].
Definition create_running (p : plan) (job : Value) : answer :=
  named_answer 202 "status" "accepted" p [("async", JBool true); ("poll", JString (poll_path p)); ("job", job)].

(** the plan is dispatched: the name is reserved before the status file says so; [removes]: the
    status file can be removed when no thread could be made *)
Definition dispatch (now : Z) (spawns removes : bool) (writes : file_write) (p : plan) (d : daemon D) : answer * daemon D :=
  match in_progress now p (dm_status d) with
  | Some v => (create_running p v, d)
  | None =>
      if bool_decide (pl_dst p ∈ dm_creates d) then (named_answer 409 "error" "create_in_progress" p [], d)
      else
        let d := d <| dm_creates ::= union {[pl_dst p]} |> in
        let d := write_status writes (status_key p) (job_status p now "provisioning" "cloning" []) d in
        if spawns then (create_accepted p now, d <| dm_threads ::= fun ts => ts ++ [Cloning p now] |>)
        else (named_answer 503 "error" "spawn_failed" p [],
              d <| dm_creates ::= fun s => s ∖ {[pl_dst p]} |> <| dm_status ::= if removes then delete (status_key p) else id |>)
  end.

(** the dead VMs are pruned once, before the cell is chosen *)
Definition handle_create (c : create_outside) (now : Z) (spawns removes : bool) (writes : file_write) (cell_hint : option string) (body : string) (d : daemon D)
  : answer * daemon D :=
  if 64 * 1024 <? Z.of_nat (String.length body) then (error 413 "body_too_large", d)
  else match parse_create (normalize_create_body_aliases body) with
  | None => (error 400 "invalid_json", d)
  | Some q =>
      let '(vms, w) := pruned (c_probes c) (dm_world d) in
      let d := d <| dm_world := w |> in
      match create_plan c vms cell_hint q w with
      | inl a => (a, d)
      | inr p =>
          match get_instance_info (c_probes c) (pl_dst p) w with
          | (inr _, w) => (named_answer 409 "error" "instance_already_exists" p [], d <| dm_world := w |>)
          | (inl _, w) => dispatch now spawns removes writes p (d <| dm_world := w |>)
          end
      end
  end.

Definition handle_create_status (p : probes) (cell nkr_name : string) (d : daemon D) : answer * daemon D :=
  if negb (is_safe_identifier cell) then (error 400 "invalid_cell", d)
  else if negb (is_safe_identifier nkr_name) then (error 400 "invalid_nkr_name", d)
  else
    let dst := ensure_cell_prefix cell nkr_name in
    let who := [("nkr_name", JString dst); ("cell", JString cell)] in
    match dm_status d !! (cell, dst) with
    | Some (Some v) => (mkAnswer 200 v, d)
    | Some None => (Answer 200 (who ++ [("status", JString "unknown")]), d)
    | None =>
        match get_instance_info p dst (dm_world d) with
        | (inr i, w) => (Answer 200 (who ++ [("status", JString "ready"); ("running", JBool (ns_running (ii_status i)))]), d <| dm_world := w |>)
        | (inl _, w) => (Answer 404 (("error", JString "no_create_record") :: who), d <| dm_world := w |>)
        end
    end.

(** ** The thread of a create *)
Record moment := mkMoment {
  mo_probes : probes; mo_outside : outside; mo_boot : boot; mo_writes : file_write; mo_now : Z; mo_elapsed : Z }.

Definition finish_create (p : plan) (d : daemon D) : daemon D := d <| dm_creates ::= fun s => s ∖ {[pl_dst p]} |>.
Definition finished (m : moment) : list (string * Value) :=
  [("finished_at", JInt (mo_now m)); ("elapsed_ms", JInt (mo_elapsed m))].
Definition job_failed (m : moment) (p : plan) (t0 : Z) (phase err : string) (d : daemon D) : daemon D :=
  finish_create p (write_status (mo_writes m) (status_key p)
    (job_status p t0 "failed" phase (("error", JString err) :: finished m)) d).

(** the state of the VM is read again for the last status *)
Definition job_ready (m : moment) (p : plan) (t0 : Z) (i : InstanceInfo) (d : daemon D) : daemon D :=
  let '(r, w) := get_instance_info (mo_probes m) (pl_dst p) (dm_world d) in
  let st := ii_status (match r with inr i' => i' | inl _ => i end) in
  finish_create p (write_status (mo_writes m) (status_key p)
    (job_status p t0 "ready" "done" (finished m ++
       [("running", JBool (ns_running st)); ("port_8069_up", JBool (ns_port_8069_up st)); ("guest_ip", JString (ii_guest_ip i));
        ("db_name", JString (ii_db_name i)); ("dns", opt_string (ii_dns i))])) (d <| dm_world := w |>)).

(** what the clone reports of itself *)
Definition info_of_clone (pr : probes) (p : plan) (r : Z * InstanceMeta) (w : world D) : InstanceInfo * world D :=
  let '(vms, w) := pruned pr w in
  let y := match find_instance_cell w (pl_source p) with inr (_, y) => y | inl _ => mkYml (m_cell (snd r)) 0 None end in
  (build_instance_info pr y (pl_dst p) (fst r) (snd r) vms, w).

Definition clone_turn (m : moment) (p : plan) (t0 : Z) (d : daemon D) : option thread * daemon D :=
  match clone_instance_with_opts exec (mo_outside m) (pl_source p) (pl_dst p) (pl_opts p) (dm_world d) with
  | (inl _, w) => (None, job_failed m p t0 "cloning" "clone_failed" (d <| dm_world := w |>))
  | (inr r, w) =>
      let '(i, w) := info_of_clone (mo_probes m) p r w in
      let d := d <| dm_world := w |> in
      let booting phase := (Some (Booting p t0 i), write_status (mo_writes m) (status_key p) (job_status p t0 "provisioning" phase []) d) in
      if bool_decide (is_Some (pl_pwd p)) then booting "setting_admin_pwd"
      else if pl_start p then booting "starting"
      else (None, job_ready m p t0 i d)
  end.

Definition boot_turn (m : moment) (p : plan) (t0 : Z) (i : InstanceInfo) (d : daemon D) : option thread * daemon D :=
  let b := mo_boot m in
  let d := if b_spawn b then d <| dm_world ::= fun w => w <| w_vms ::= b_up b |> |> else d in
  (None,
   if bool_decide (is_Some (pl_pwd p)) then
     match boot_and_set_admin_password b with
     | Some _ => job_failed m p t0 "setting_admin_pwd" "admin_password_setup_failed" d
     | None => job_ready m p t0 i d
     end
   else match compose_up_and_wait_ready b with
        | Some _ => job_failed m p t0 "starting" "boot_failed" d
        | None => job_ready m p t0 i d
        end).

(** ** Starting and stopping *)
Record act_outside := mkAct {
  ac_host : State.host; ac_hosts : nat -> State.host; ac_kill : Z -> kill_result;   (* the stop *)
  ac_host2 : State.host; ac_compose : write_result;                                 (* the start *)
  ac_up : option bool; ac_up_dir : State.dir -> State.dir }.

(** the switch of the service; its failure is only logged *)
Definition enable (x : act_outside) (n : string) (f : option string) : option string :=
  match set_compose_block_disabled f n false with
  | inr (Some new) => snd (written (ac_compose x) (Some new))
  | _ => f
  end.

Definition start_instance (x : act_outside) (n : string) (cell : option string) (w : world D) : bool * world D :=
  let '(vms, dir) := list_vms (ac_host2 x) (w_vms w) in
  let w := w <| w_vms := dir |> in
  if existsb (fun v => bool_decide (State.name v = n)) vms then (true, w)
  else match cell with
  | None => (false, w)
  | Some c =>
      let w := on_cell c (fun cd => cd <| d_compose ::= enable x n |>) w in
      match ac_up x with
      | None => (false, w)
      | Some ok => (ok, w <| w_vms ::= ac_up_dir x |>)
      end
  end.

Definition stop_instance (x : act_outside) (n : string) (w : world D) : bool * list (nat * State.signal * Z) * world D :=
  let '(vms, dir) := list_vms (ac_host x) (w_vms w) in
  match find (fun v => bool_decide (State.name v = n)) vms with
  | Some v =>
      let '(r, sent, dir) := stop_vm (ac_hosts x) (ac_kill x) (State.cell_id v) (State.vm_id v) dir in
      (match r with inr _ => true | inl _ => false end, sent, w <| w_vms := dir |>)
  | None => (true, [], w <| w_vms := dir |>)
  end.

Definition restart_instance (x : act_outside) (n : string) (cell : option string) (w : world D) : bool * world D :=
  let '(ok, _, w) := stop_instance x n w in
  if ok then start_instance x n cell w else (false, w).

Definition act (x : act_outside) (a : ActionKind) (n : string) (cell : option string) (w : world D) : bool * world D :=
  match a with
  | Start => start_instance x n cell w
  | Stop => let '(ok, _, w) := stop_instance x n w in (ok, w)
  | Restart => restart_instance x n cell w
  end.

Definition busy (n : string) : answer :=
  Answer 409 [("error", JString "action_in_progress"); ("nkr_name", JString n)].
Definition spawn_failed (n : string) : answer :=
  Answer 503 [("error", JString "spawn_failed"); ("nkr_name", JString n)].
(** the name is reserved; it is released when no thread can be made *)
Definition reserve (n : string) (spawns : bool) (th : thread) (ok : answer) (d : daemon D) : answer * daemon D :=
  if bool_decide (n ∈ dm_actions d) then (busy n, d)
  else if spawns then (ok, d <| dm_actions ::= union {[n]} |> <| dm_threads ::= fun ts => ts ++ [th] |>)
  else (spawn_failed n, d).

Definition action_accepted (n : string) (a : ActionKind) : answer :=
  Answer 202 [("action", JString (action_text a)); ("nkr_name", JString n); ("status", JString "accepted"); ("async", JBool true)].

(** the answer also carries what is known of the instance, the second component *)
Definition handle_action (p : probes) (spawns : bool) (n action_str : string) (d : daemon D) : answer * option InstanceInfo * daemon D :=
  if negb (is_safe_identifier n) then (error 400 "invalid_nkr_name", None, d)
  else match parse_action action_str with
  | None => (error 400 "invalid_action", None, d)
  | Some a =>
      let '(r, w) := get_instance_info p n (dm_world d) in
      let info := match r with inr i => Some i | inl _ => None end in
      let '(ans, d) := reserve n spawns (Acting n a (ii_cell <$> info)) (action_accepted n a) (d <| dm_world := w |>) in
      (ans, info, d)
  end.

(** ** Deleting *)
Definition already_deleted (n : string) (drop_db : bool) : answer :=
  Answer 200 [("deleted", JBool true); ("already_deleted", JBool true); ("nkr_name", JString n); ("drop_db", JBool drop_db)].
Definition delete_accepted (n : string) (drop_db : bool) (info : option InstanceInfo) : answer :=
  Answer 202 ([("deleted", JString "pending"); ("nkr_name", JString n); ("drop_db", JBool drop_db);
               ("status", JString "accepted"); ("async", JBool true)]
              ++ match info with
                 | Some i => ("cell", JString (ii_cell i)) :: member "dns" JString (ii_dns i)
                 | None => [] end).
Definition handle_delete (p : probes) (spawns : bool) (n : string) (drop_db : bool) (d : daemon D) : answer * daemon D :=
  if negb (is_safe_identifier n) then (error 400 "invalid_nkr_name", d)
  else match get_instance_info p n (dm_world d) with
  | (inl _, w) => (already_deleted n drop_db, d <| dm_world := w |>)
  | (inr _, w) =>
      let '(r, w) := get_instance_info p n w in
      let info := match r with inr i => Some i | inl _ => None end in
      reserve n spawns (Deleting n drop_db) (delete_accepted n drop_db info) (d <| dm_world := w |>)
  end.

(** ** A turn of a thread: [None] when it ends *)
Record turn := mkTurn { tn_moment : moment; tn_act : act_outside; tn_delete : delete_outside }.
Definition finish_action (n : string) (d : daemon D) : daemon D := d <| dm_actions ::= fun s => s ∖ {[n]} |>.
Definition thread_turn (x : turn) (th : thread) (d : daemon D) : option thread * daemon D :=
  match th with
  | Cloning p t0 => clone_turn (tn_moment x) p t0 d
  | Booting p t0 i => boot_turn (tn_moment x) p t0 i d
  | Acting n a cell => (None, finish_action n (d <| dm_world ::= fun w => snd (act (tn_act x) a n cell w) |>))
  | Deleting n drop_db => (None, finish_action n (d <| dm_world ::= fun w => snd (delete_instance exec (tn_delete x) n drop_db w) |>))
  end.
End jobs.

(** ** All the orders of requests and turns *)
Definition create_of (th : thread) : option plan :=
  match th with Cloning p _ | Booting p _ _ => Some p | _ => None end.
Definition started_of (th : thread) : Z := match th with Cloning _ t0 | Booting _ t0 _ => t0 | _ => 0 end.
Definition action_of (th : thread) : option string :=
  match th with Acting n _ _ | Deleting n _ => Some n | _ => None end.
Definition creating (d : list thread) : list string := omap (fun th => pl_dst <$> create_of th) d.
Definition acting (d : list thread) : list string := omap action_of d.

Section steps.
Context `{Serde} `{CreateCodec} `{Listing} `{State.ReadDir} {D : Type} (exec : Z -> statement -> D -> option D).

(** [writes]: the status files can be written and removed; when it is [false] every such
    operation may succeed or fail in either way *)
Definition sure (writes : bool) (r : file_write) (removes : bool) : Prop := writes = true -> r = Stored /\ removes = true.
Inductive step (writes : bool) : daemon D -> daemon D -> Prop :=
  | StepCreate c now spawns removes r hint body d : sure writes r removes ->
      step writes d (snd (handle_create c now spawns removes r hint body d))
  | StepDelete p spawns n drop_db d : step writes d (snd (handle_delete p spawns n drop_db d))
  | StepAction p spawns n a d : step writes d (snd (handle_action p spawns n a d))
  | StepPoll p cell n d : step writes d (snd (handle_create_status p cell n d))
  | StepTurn x l1 th l2 d : dm_threads d = l1 ++ th :: l2 -> sure writes (mo_writes (tn_moment x)) true ->
      step writes d (snd (thread_turn exec x th d) <| dm_threads := l1 ++ option_list (fst (thread_turn exec x th d)) ++ l2 |>).

(** a daemon that has just started; status files may be left from before *)
Definition started (d : daemon D) : Prop := dm_creates d = ∅ /\ dm_actions d = ∅ /\ dm_threads d = [].

Definition reserved (d : daemon D) : Prop :=
  NoDup (creating (dm_threads d)) /\ (forall n, n ∈ dm_creates d <-> n ∈ creating (dm_threads d))
  /\ NoDup (acting (dm_threads d)) /\ (forall n, n ∈ dm_actions d <-> n ∈ acting (dm_threads d)).

Lemma started_reserved d : started d -> reserved d.
Proof. intros (E1 & E2 & E3). unfold reserved. rewrite E1, E2, E3. cbn.
  split; [constructor|split; [set_solver|split; [constructor|set_solver]]].
Qed.

(** what the handlers and the threads do to the part of the daemon that is not the world *)
Definition control (d : daemon D) : gset string * gset string * list thread := (dm_creates d, dm_actions d, dm_threads d).

Lemma write_status_control writes key v (d : daemon D) : control (write_status writes key v d) = control d.
Proof. done. Qed.
Lemma job_failed_control m p t0 ph e (d : daemon D) :
  control (job_failed m p t0 ph e d) = (dm_creates d ∖ {[pl_dst p]}, dm_actions d, dm_threads d).
Proof. done. Qed.
Lemma job_ready_control m p t0 i (d : daemon D) :
  control (job_ready m p t0 i d) = (dm_creates d ∖ {[pl_dst p]}, dm_actions d, dm_threads d).
Proof.
  unfold job_ready. by destruct (get_instance_info _ _ _) as [r w].
Qed.

(** a turn of a create goes on with the same plan, or releases its name *)
Lemma turn_control x th (d : daemon D) r d' : thread_turn exec x th d = (r, d') ->
  (exists th', r = Some th' /\ create_of th' = create_of th /\ is_Some (create_of th) /\ action_of th' = None /\ control d' = control d)
  \/ (r = None /\ exists p, create_of th = Some p /\ action_of th = None
        /\ control d' = (dm_creates d ∖ {[pl_dst p]}, dm_actions d, dm_threads d))
  \/ (r = None /\ exists n, action_of th = Some n /\ create_of th = None
        /\ control d' = (dm_creates d, dm_actions d ∖ {[n]}, dm_threads d)).
Proof.
  destruct th as [p t0|p t0 i|n a cell|n drop]; cbn [thread_turn create_of action_of].
  - unfold clone_turn. destruct (clone_instance_with_opts _ _ _ _ _ _) as [[e|rr] w].
    + intros [= <- <-]. right. left. split; [done|]. exists p. split; [done|]. split; [done|]. by rewrite job_failed_control.
    + destruct (info_of_clone _ _ _ _) as [i w']. destruct (bool_decide _); [|destruct (pl_start p)]; intros [= <- <-].
      * left. eexists. split; [done|]. by split_and!.
      * left. eexists. split; [done|]. by split_and!.
      * right. left. split; [done|]. exists p. split; [done|]. split; [done|]. by rewrite job_ready_control.
  - unfold boot_turn. cbv zeta. intros [= <- <-]. right. left. split; [done|]. exists p. split; [done|]. split; [done|].
    assert (Ed : forall d0 : daemon D, d0 = (if b_spawn (mo_boot (tn_moment x)) then d <| dm_world ::= fun w => w <| w_vms ::= b_up (mo_boot (tn_moment x)) |> |> else d) ->
      control d0 = control d) by (intros d0 ->; by destruct (b_spawn _)).
    set (d0 := if b_spawn _ then _ else d). specialize (Ed d0 eq_refl). injection Ed as E1 E2 E3. rewrite <- E1, <- E2, <- E3.
    destruct (bool_decide _); [destruct (boot_and_set_admin_password _)|destruct (compose_up_and_wait_ready _)];
      rewrite ?job_failed_control, ?job_ready_control; done.
  - intros [= <- <-]. right. right. split; [done|]. by exists n.
  - intros [= <- <-]. right. right. split; [done|]. by exists n.
Qed.

Lemma reserve_control n spawns th ok (d : daemon D) :
  control (snd (reserve n spawns th ok d)) = control d
  \/ n ∉ dm_actions d /\ control (snd (reserve n spawns th ok d)) = (dm_creates d, {[n]} ∪ dm_actions d, dm_threads d ++ [th]).
Proof. unfold reserve. case_bool_decide; [by left|]. destruct spawns; [by right|by left]. Qed.

Lemma dispatch_control now spawns removes writes p (d : daemon D) :
  pl_dst p ∉ dm_creates d /\ control (snd (dispatch now spawns removes writes p d)) = ({[pl_dst p]} ∪ dm_creates d, dm_actions d, dm_threads d ++ [Cloning p now])
  \/ control (snd (dispatch now spawns removes writes p d)) = control d.
Proof.
  unfold dispatch. destruct (in_progress _ _ _); [by right|]. case_bool_decide; [by right|].
  destruct spawns.
  - by left.
  - right. unfold control. cbn. repeat f_equal; set_solver.
Qed.

Lemma control_reserved (d d' : daemon D) : control d' = control d -> reserved d -> reserved d'.
Proof. unfold control, reserved. by intros [= -> -> ->]. Qed.

Lemma creating_app l1 l2 : creating (l1 ++ l2) = creating l1 ++ creating l2.
Proof. apply list.omap_app. Qed.
Lemma acting_app l1 l2 : acting (l1 ++ l2) = acting l1 ++ acting l2.
Proof. apply list.omap_app. Qed.

(** a thread is added, with a name that is not reserved *)
Lemma reserved_add_create p th (d d' : daemon D) : reserved d -> pl_dst p ∉ dm_creates d -> create_of th = Some p -> action_of th = None ->
  control d' = ({[pl_dst p]} ∪ dm_creates d, dm_actions d, dm_threads d ++ [th]) -> reserved d'.
Proof.
  intros (R1 & R2 & R3 & R4) Hn Hc Ha [= E1 E2 E3]. unfold reserved. rewrite E1, E2, E3, creating_app, acting_app.
  unfold creating at 2 4, acting at 2 4. cbn. rewrite Hc, Ha. cbn. rewrite app_nil_r.
  split; [|split; [|by split]].
  - apply list.NoDup_app. split; [done|]. split; [|apply NoDup_singleton]. intros n Hin%R2 ->%list_elem_of_singleton. done.
  - intros n. rewrite elem_of_union, elem_of_singleton, elem_of_app, list_elem_of_singleton, R2. tauto.
Qed.

Lemma reserved_add_action n th (d d' : daemon D) : reserved d -> n ∉ dm_actions d -> action_of th = Some n -> create_of th = None ->
  control d' = (dm_creates d, {[n]} ∪ dm_actions d, dm_threads d ++ [th]) -> reserved d'.
Proof.
  intros (R1 & R2 & R3 & R4) Hn Ha Hc [= E1 E2 E3]. unfold reserved. rewrite E1, E2, E3, creating_app, acting_app.
  unfold creating at 2 4, acting at 2 4. cbn. rewrite Hc, Ha. cbn. rewrite app_nil_r.
  split; [done|split; [done|split]].
  - apply list.NoDup_app. split; [done|]. split; [|apply NoDup_singleton]. intros m Hin%R4 ->%list_elem_of_singleton. done.
  - intros m. rewrite elem_of_union, elem_of_singleton, elem_of_app, list_elem_of_singleton, R4. tauto.
Qed.

(** removing the one occurrence of a name *)
Lemma nodup_remove (l1 l2 : list string) n : NoDup (l1 ++ n :: l2) -> NoDup (l1 ++ l2) /\ forall m, m ∈ l1 ++ l2 <-> m ∈ l1 ++ n :: l2 /\ m <> n.
Proof.
  intros (R1 & R2 & [R3 R4]%list.NoDup_cons)%list.NoDup_app. split.
  - apply list.NoDup_app. split; [done|]. split; [|done]. intros m Hm Hm2. apply (R2 m Hm). by apply list_elem_of_further.
  - intros m. rewrite !elem_of_app, elem_of_cons. split; [|tauto].
    intros [Hm|Hm]; (split; [tauto|]); intros ->; [|done]. apply (R2 n Hm), list_elem_of_here.
Qed.

Lemma reserved_step writes d d' : step writes d d' -> reserved d -> reserved d'.
Proof.
  intros Hs Hr. destruct Hs as [c now spawns removes fw hint body d _|p spawns n drop_db d|p spawns n a d|p cell n d|x l1 th l2 d Hth _].
  - unfold handle_create. destruct (_ <? _); [done|]. destruct (parse_create _) as [req|]; [|done].
    destruct (pruned _ _) as [vms w]. destruct (create_plan _ _ _ _ _) as [a|p]; [done|].
    destruct (get_instance_info _ _ _) as [[e|i] w']; [|done].
    match goal with |- reserved (snd (dispatch _ _ _ _ _ ?d0)) => destruct (dispatch_control now spawns removes fw p d0) as [[Hn E]|E] end.
    + eapply (reserved_add_create p (Cloning p now) d); done.
    + by eapply (control_reserved d).
  - unfold handle_delete. destruct (negb _); [done|]. destruct (get_instance_info _ _ _) as [[e|i] w]; [done|].
    destruct (get_instance_info _ _ _) as [r w'].
    match goal with |- reserved (snd (reserve _ _ _ ?ok ?d0)) => destruct (reserve_control n spawns (Deleting n drop_db) ok d0) as [E|[Hn E]] end.
    + by eapply (control_reserved d).
    + by eapply (reserved_add_action n (Deleting n drop_db) d).
  - unfold handle_action. destruct (negb _); [done|]. destruct (parse_action a) as [k|]; [|done].
    destruct (get_instance_info _ _ _) as [r w]. set (info := match r with inr _ => _ | inl _ => _ end).
    destruct (reserve _ _ _ _ _) as [ans d1] eqn:Er.
    pose proof (reserve_control n spawns (Acting n k (ii_cell <$> info)) (action_accepted n k) (d <| dm_world := w |>)) as Hc.
    rewrite Er in Hc. cbn [snd] in *. destruct Hc as [E|[Hn E]].
    + by eapply (control_reserved d).
    + by eapply (reserved_add_action n (Acting n k (ii_cell <$> info)) d).
  - unfold handle_create_status. destruct (negb _); [done|]. destruct (negb _); [done|].
    destruct (dm_status d !! _) as [[v|]|]; [done..|]. by destruct (get_instance_info _ _ _) as [[e|i] w].
  - destruct (thread_turn exec x th d) as [r d1] eqn:Et. cbn [fst snd].
    destruct Hr as (R1 & R2 & R3 & R4). rewrite Hth, creating_app, acting_app in *.
    change (creating (th :: l2)) with (omap (fun th => pl_dst <$> create_of th) (th :: l2)) in *.
    change (acting (th :: l2)) with (omap action_of (th :: l2)) in *. cbn in R1, R2, R3, R4.
    apply turn_control in Et as [(th' & -> & Hc & Hs & Ha & E)|[(-> & p & Hc & Ha & E)|(-> & n & Ha & Hc & E)]];
      injection E as E1 E2 E3; unfold reserved; cbn [dm_creates dm_actions dm_threads set_field option_list app];
      rewrite E1, E2, creating_app, acting_app.
    + assert (Ha' : action_of th = None) by (destruct th; [done..|by destruct Hs|by destruct Hs]).
      change (creating (th' :: l2)) with (omap (fun th => pl_dst <$> create_of th) (th' :: l2)).
      change (acting (th' :: l2)) with (omap action_of (th' :: l2)). cbn. rewrite Hc, Ha. rewrite Ha' in *. done.
    + rewrite Hc, Ha in *. cbn in R1, R2. destruct (nodup_remove _ _ _ R1) as [N1 N2].
      split; [exact N1|split; [|done]]. intros m. rewrite elem_of_difference, elem_of_singleton, R2. symmetry. apply N2.
    + rewrite Hc, Ha in *. cbn in R3, R4. destruct (nodup_remove _ _ _ R3) as [N1 N2].
      split; [done|split; [done|split; [exact N1|]]]. intros m. rewrite elem_of_difference, elem_of_singleton, R4. symmetry. apply N2.
Qed.
End steps.

(** C11. In every order of requests and turns of threads, a name has at most one create and at most
    one start, stop, restart or delete under way, and it is reserved exactly while its thread
    runs: it is released however the thread ends. *)
Theorem one_job_per_name `{Serde} `{CreateCodec} `{Listing} `{State.ReadDir} {D} (exec : Z -> statement -> D -> option D)
    writes (d0 d : daemon D) :
  started d0 -> rtc (step exec writes) d0 d ->
  NoDup (creating (dm_threads d)) /\ (forall n, n ∈ dm_creates d <-> n ∈ creating (dm_threads d))
  /\ NoDup (acting (dm_threads d)) /\ (forall n, n ∈ dm_actions d <-> n ∈ acting (dm_threads d)).
Proof.
  intros Hs%started_reserved Hrtc. change (reserved d). revert Hs.
  induction Hrtc as [d|d1 d2 d3 Hstep _ IH]; [done|]. intros Hr. apply IH. by eapply reserved_step.
Qed.

(** ** The status files *)
Section status.
Context `{Serde} `{CreateCodec} `{Listing} `{State.ReadDir} {D : Type} (exec : Z -> statement -> D -> option D).

Definition over (status : string) : Prop := status = "ready" \/ status = "failed".
(** [old]: the files that are still there from before *)
Definition tells (old : string * string -> option (option Value)) (d : daemon D) : Prop :=
  (forall th p, th ∈ dm_threads d -> create_of th = Some p ->
     exists ph, dm_status d !! status_key p = Some (Some (job_status p (started_of th) "provisioning" ph [])))
  /\ (forall key x, dm_status d !! key = Some x ->
        (forall th p, th ∈ dm_threads d -> create_of th = Some p -> status_key p <> key) ->
        old key = Some x \/ exists p t0 st ph more, key = status_key p /\ x = Some (job_status p t0 st ph more) /\ over st).

Lemma turn_status x th (d : daemon D) r d' : mo_writes (tn_moment x) = Stored -> thread_turn exec x th d = (r, d') ->
  match create_of th, r with
  | Some p, Some th' => started_of th' = started_of th
      /\ exists ph, dm_status d' = <[status_key p := Some (job_status p (started_of th) "provisioning" ph [])]> (dm_status d)
  | Some p, None => exists st ph more, over st
      /\ dm_status d' = <[status_key p := Some (job_status p (started_of th) st ph more)]> (dm_status d)
  | None, _ => dm_status d' = dm_status d
  end.
Proof.
  intros Hw. destruct th as [p t0|p t0 i|n a cell|n drop]; cbn [thread_turn create_of started_of]; [| |by intros [= <- <-]..].
  - unfold clone_turn. destruct (clone_instance_with_opts _ _ _ _ _ _) as [[e|rr] w].
    + intros [= <- <-]. unfold job_failed, write_status. rewrite Hw. exists "failed". do 2 eexists. split; [by right|done].
    + destruct (info_of_clone _ _ _ _) as [i w']. unfold write_status, job_ready. rewrite Hw.
      destruct (bool_decide _); [|destruct (pl_start p)]; [| |destruct (get_instance_info _ _ _) as [r0 w0]]; intros [= <- <-].
      * split; [done|]. by exists "setting_admin_pwd".
      * split; [done|]. by exists "starting".
      * exists "ready". do 2 eexists. split; [by left|done].
  - unfold boot_turn. cbv zeta. intros [= <- <-].
    set (d0 := if b_spawn _ then _ else d). assert (E : dm_status d0 = dm_status d) by (unfold d0; by destruct (b_spawn _)).
    assert (Hready : exists st ph more, over st /\ dm_status (job_ready (tn_moment x) p t0 i d0)
      = <[status_key p := Some (job_status p t0 st ph more)]> (dm_status d)).
    { unfold job_ready. destruct (get_instance_info _ _ _) as [r0 w0]. unfold write_status. rewrite Hw, <- E.
      exists "ready". do 2 eexists. split; [by left|done]. }
    assert (Hfailed : forall ph e, exists st ph' more, over st /\ dm_status (job_failed (tn_moment x) p t0 ph e d0)
      = <[status_key p := Some (job_status p t0 st ph' more)]> (dm_status d)).
    { intros ph e. unfold job_failed, write_status. rewrite Hw, <- E. exists "failed". do 2 eexists. split; [by right|done]. }
    destruct (bool_decide _); [destruct (boot_and_set_admin_password _)|destruct (compose_up_and_wait_ready _)]; auto.
Qed.

Lemma dispatch_status now spawns p (d : daemon D) : let d' := snd (dispatch now spawns true Stored p d) in
  (dm_threads d' = dm_threads d /\ dm_status d' = dm_status d)
  \/ pl_dst p ∉ dm_creates d /\
     ((dm_threads d' = dm_threads d /\ dm_status d' = delete (status_key p) (dm_status d))
      \/ (dm_threads d' = dm_threads d ++ [Cloning p now]
          /\ dm_status d' = <[status_key p := Some (job_status p now "provisioning" "cloning" [])]> (dm_status d))).
Proof.
  unfold dispatch. destruct (in_progress _ _ _); [by left|]. case_bool_decide; [by left|]. right. split; [done|].
  destruct spawns; [by right|left]. split; [done|].
  exact (delete_insert_eq (dm_status d) (status_key p) (Some (job_status p now "provisioning" "cloning" []))).
Qed.

Lemma other_key (d : daemon D) th p q : reserved d -> pl_dst p ∉ dm_creates d ->
  th ∈ dm_threads d -> create_of th = Some q -> status_key q <> status_key p.
Proof.
  intros (_ & Hc & _) Hn Hin Hq [= _ E]. apply Hn, Hc. unfold creating. apply list_elem_of_omap. exists th.
  rewrite Hq. by rewrite <- E.
Qed.

Lemma tells_same old (d d' : daemon D) : dm_threads d' = dm_threads d -> dm_status d' = dm_status d -> tells old d -> tells old d'.
Proof. unfold tells. by intros -> ->. Qed.

Lemma tells_more old (d d' : daemon D) th : create_of th = None -> dm_threads d' = dm_threads d ++ [th] -> dm_status d' = dm_status d ->
  tells old d -> tells old d'.
Proof.
  intros Hn E1 E2 [T1 T2]. unfold tells. rewrite E1, E2. split.
  - intros th' p [Hin| ->%list_elem_of_singleton]%elem_of_app Hp; [by apply T1|congruence].
  - intros key x Hk Hno. apply T2; [done|]. intros th' p Hin. apply Hno, elem_of_app. by left.
Qed.

Lemma tells_step old d d' : step exec true d d' -> reserved d -> tells old d -> tells old d'.
Proof.
  intros Hs Hr Ht. destruct Hs as [c now spawns removes fw hint body d Hw|p spawns n drop_db d|p spawns n a d|p cell n d|x l1 th l2 d Hth Hw].
  - destruct (Hw eq_refl) as [-> ->].
    unfold handle_create. destruct (_ <? _); [done|]. destruct (parse_create _) as [req|]; [|done].
    destruct (pruned _ _) as [vms w]. destruct (create_plan _ _ _ _ _) as [a|p]; [done|].
    destruct (get_instance_info _ _ _) as [[e|i] w']; [|done].
    match goal with |- tells _ (snd (dispatch _ _ _ _ _ ?d0)) => destruct (dispatch_status now spawns p d0) as [[E1 E2]|[Hn [[E1 E2]|[E1 E2]]]]; set (d' := snd _) in * end.
    + by apply (tells_same old d).
    + destruct Ht as [T1 T2]. unfold tells. rewrite E1, E2. split.
      * intros th q Hin Hq. rewrite lookup_delete_ne; [by apply T1|]. intros E. by apply (other_key d th p q Hr Hn Hin Hq).
      * intros key x Hk. apply lookup_delete_Some in Hk as [_ Hk]. by apply T2.
    + destruct Ht as [T1 T2]. unfold tells. rewrite E1, E2. cbn [dm_threads dm_status set_field]. split.
      * intros th q [Hin| ->%list_elem_of_singleton]%elem_of_app Hq.
        -- rewrite lookup_insert_ne; [by apply T1|]. intros E. by apply (other_key d th p q Hr Hn Hin Hq).
        -- cbn in Hq. injection Hq as ->. rewrite lookup_insert_eq. by eexists.
      * intros key x Hk Hno. apply lookup_insert_Some in Hk as [[<- _]|[_ Hk]].
        -- destruct (Hno (Cloning p now) p); [apply elem_of_app; right; by apply list_elem_of_singleton|done|done].
        -- apply T2; [done|]. intros th q Hin. apply Hno, elem_of_app. by left.
  - unfold handle_delete. destruct (negb _); [done|]. destruct (get_instance_info _ _ _) as [[e|i] w]; [done|].
    destruct (get_instance_info _ _ _) as [r w']. unfold reserve. case_bool_decide; [done|]. destruct spawns; [|done].
    by eapply (tells_more old d _ (Deleting n drop_db)).
  - unfold handle_action. destruct (negb _); [done|]. destruct (parse_action a) as [k|]; [|done].
    destruct (get_instance_info _ _ _) as [r w]. unfold reserve. case_bool_decide; [done|]. destruct spawns; [|done].
    by eapply (tells_more old d _ (Acting n k _)).
  - unfold handle_create_status. destruct (negb _); [done|]. destruct (negb _); [done|].
    destruct (dm_status d !! _) as [[v|]|]; [done..|]. by destruct (get_instance_info _ _ _) as [[e|i] w].
  - destruct (thread_turn exec x th d) as [r d1] eqn:Et. cbn [fst snd]. pose proof (turn_status _ _ _ _ _ (proj1 (Hw eq_refl)) Et) as Hst.
    destruct Ht as [T1 T2]. rewrite Hth in T1, T2. unfold tells. cbn [dm_threads dm_status set_field].
    assert (Hdst : forall th' q, th' ∈ l1 ++ l2 -> create_of th' = Some q -> forall p, create_of th = Some p -> status_key q <> status_key p).
    { intros th' q Hin Hq p Hp [= _ E]. destruct Hr as (R1 & _). unfold creating in R1. rewrite Hth, list.omap_app in R1.
      change (th :: l2) with ([th] ++ l2) in R1. rewrite list.omap_app in R1. cbn in R1. rewrite Hp in R1. cbn in R1.
      apply nodup_remove in R1 as [_ R]. assert (Hm : pl_dst q ∈ omap (fun th => pl_dst <$> create_of th) (l1 ++ l2)).
      { apply list_elem_of_omap. exists th'. by rewrite Hq. }
      rewrite list.omap_app in Hm. apply R in Hm as [_ Hm]. by rewrite E in Hm. }
    assert (Hold : forall th', th' ∈ l1 ++ l2 -> th' ∈ l1 ++ th :: l2).
    { intros th'. rewrite !elem_of_app, elem_of_cons. tauto. }
    assert (Hcases : forall th' r, th' ∈ l1 ++ option_list r ++ l2 -> th' ∈ l1 ++ l2 \/ r = Some th').
    { intros th' [x0|]; rewrite !elem_of_app; simpl.
      - rewrite list_elem_of_singleton. intros [Hin|[-> |Hin]]; auto.
      - intros [Hin|[Hin|Hin]]; auto. by apply not_elem_of_nil in Hin. }
    destruct (create_of th) as [p|] eqn:Hp; [destruct r as [th1|]|].
    + destruct Hst as [Hs0 [ph Est]]. rewrite Est.
      pose proof (turn_control exec x th d _ _ Et) as [(th2 & [= <-] & Hc2 & _)|[(? & _)|(? & _)]]; [|done|done].
      split.
      * intros th' q [Hin|[= <-]]%Hcases Hq; [rewrite lookup_insert_ne by (intros E; by apply (Hdst th' q Hin Hq p eq_refl)); apply T1; [by apply Hold|done]|].
        rewrite Hc2, Hp in Hq. injection Hq as <-. rewrite lookup_insert_eq, Hs0. by eexists.
      * intros key y Hk Hno. apply lookup_insert_Some in Hk as [[<- _]|[_ Hk]].
        -- destruct (Hno th1 p); [rewrite !elem_of_app; right; left; by apply list_elem_of_singleton|by rewrite Hc2|done].
        -- apply T2; [done|]. intros th' q Hin Hq. apply elem_of_app in Hin as [Hin|[->|Hin]%elem_of_cons].
           ++ apply (Hno th' q); [|done]. rewrite elem_of_app. by left.
           ++ rewrite Hp in Hq. injection Hq as <-. apply (Hno th1 p); [|by rewrite Hc2]. rewrite !elem_of_app. right. left. by apply list_elem_of_singleton.
           ++ apply (Hno th' q); [|done]. rewrite !elem_of_app. by right; right.
    + destruct Hst as (st & ph & more & Hov & Est). rewrite Est. cbn [option_list app]. split.
      * intros th' q Hin Hq. rewrite lookup_insert_ne by (intros E; by apply (Hdst th' q Hin Hq p eq_refl)). apply T1; [by apply Hold|done].
      * intros key y Hk Hno. apply lookup_insert_Some in Hk as [[<- <-]|[Hne Hk]].
        -- right. by exists p, (started_of th), st, ph, more.
        -- apply T2; [done|]. intros th' q Hin Hq. apply elem_of_app in Hin as [Hin|[->|Hin]%elem_of_cons].
           ++ apply (Hno th' q); [|done]. rewrite elem_of_app. by left.
           ++ rewrite Hp in Hq. by injection Hq as <-.
           ++ apply (Hno th' q); [|done]. rewrite elem_of_app. by right.
    + rewrite Hst.
      assert (Hr1 : r = None \/ exists th1, r = Some th1 /\ create_of th1 = None).
      { pose proof (turn_control exec x th d _ _ Et) as [(th2 & -> & Hc2 & _)|[(-> & _)|(-> & _)]]; [right|by left|by left].
        exists th2. by rewrite Hc2. }
      split.
      * intros th' q [Hin|E]%Hcases Hq; [apply T1; [by apply Hold|done]|]. destruct Hr1 as [->|(th1 & -> & Hn)]; [done|].
        injection E as ->. congruence.
      * intros key y Hk Hno. apply T2; [done|]. intros th' q Hin Hq. apply elem_of_app in Hin as [Hin|[->|Hin]%elem_of_cons].
        -- apply (Hno th' q); [|done]. rewrite elem_of_app. by left.
        -- congruence.
        -- apply (Hno th' q); [|done]. rewrite !elem_of_app. by right; right.
Qed.
(** the files of [d0] of which no create runs in [d1] *)
Definition untouched (d0 d1 : daemon D) (key : string * string) : option (option Value) :=
  if existsb (fun th => bool_decide (status_key <$> create_of th = Some key)) (dm_threads d1) then None else dm_status d0 !! key.
Lemma tells_untouched (d0 d : daemon D) : tells (fun key => dm_status d0 !! key) d -> tells (untouched d0 d) d.
Proof.
  intros [T1 T2]. split; [done|]. intros key x Hk Hno. unfold untouched. destruct (existsb _ _) eqn:E; [|by apply T2].
  exfalso. apply existsb_exists in E as (th & Hin%list_elem_of_In & Hb%bool_decide_eq_true). destruct (create_of th) as [p|] eqn:Ep; [|done].
  injection Hb as Hb. by apply (Hno th p Hin).
Qed.

Lemma tells_rtc old d d' : rtc (step exec true) d d' -> reserved d -> tells old d -> reserved d' /\ tells old d'.
Proof.
  induction 1 as [d|d1 d2 d3 Hstep _ IH]; [done|]. intros Hr Ht. apply IH; [by eapply reserved_step|by eapply tells_step].
Qed.
End status.

(** C12. As long as the status files can be written and removed (the code does not look at the
    results), the status file of a create says what its thread does: it is "provisioning" while
    the thread runs, and "ready" or "failed" when it has ended, on every path of the thread.
    A file may also be left from before the start of the daemon, but only where no create of that name
    has run since.  [d1] is any state the daemon was in on the way to [d]. *)
Theorem status_tells_thread `{Serde} `{CreateCodec} `{Listing} `{State.ReadDir} {D} (exec : Z -> statement -> D -> option D)
    (d0 d1 d : daemon D) :
  started d0 -> rtc (step exec true) d0 d1 -> rtc (step exec true) d1 d ->
  (forall th p, th ∈ dm_threads d -> create_of th = Some p ->
     exists ph, dm_status d !! status_key p = Some (Some (job_status p (started_of th) "provisioning" ph [])))
  /\ (forall key x, dm_status d !! key = Some x ->
        (forall th p, th ∈ dm_threads d -> create_of th = Some p -> status_key p <> key) ->
        (dm_status d0 !! key = Some x /\ forall th p, th ∈ dm_threads d1 -> create_of th = Some p -> status_key p <> key)
        \/ exists p t0 st ph more, key = status_key p /\ x = Some (job_status p t0 st ph more) /\ over st).
Proof.
  intros Hs H01 H12. assert (Ht : tells (fun key => dm_status d0 !! key) d0).
  { destruct Hs as (_ & _ & E). unfold tells. rewrite E. split; [intros th p Hin; by apply not_elem_of_nil in Hin|by left]. }
  destruct (tells_rtc exec _ _ _ H01 (started_reserved _ Hs) Ht) as [Hr1 Ht1].
  destruct (tells_rtc exec _ _ _ H12 Hr1 (tells_untouched _ _ Ht1)) as [_ [T1 T2]].
  split; [done|]. intros key x Hk Hno. destruct (T2 key x Hk Hno) as [Ho|Ho]; [left|by right].
  unfold untouched in Ho. destruct (existsb _ _) eqn:E; [done|]. split; [done|]. intros th p Hin Hp <-.
  enough (existsb (fun th => bool_decide (status_key <$> create_of th = Some (status_key p))) (dm_threads d1) = true) by congruence.
  apply existsb_exists. exists th. split; [by apply list_elem_of_In|]. apply bool_decide_eq_true. by rewrite Hp.
Qed.

(** ** Witnesses *)
Module JobsExample.
Import CreateExample.
Notation server := InstancesExample.server.
#[export] Instance serde : Serde := { parse_json _ := None; print_json _ := "{}"; parse_adopt _ := None }.
(** two bodies that are understood *)
#[export] Instance codec : CreateCodec := fun body =>
  if bool_decide (body = "cold") then Some (req dev)
  else if bool_decide (body = "started") then Some (req (("auto_start", JBool true) :: dev)) else None.
Definition probes0 : probes := c_probes CreateExample.c.
Definition d0 : daemon server := mkDaemon CreateExample.w ∅ ∅ ∅ [].
Definition created (body : string) (d : daemon server) : answer * daemon server :=
  handle_create CreateExample.c 1000 true true Stored None body d.
Definition up : boot := mkBoot true id 1000 [(1000, None); (1002, Some 200)] None None.
Definition tick (b : boot) : turn :=
  mkTurn (mkMoment probes0 (InstancesExample.out true) b Stored 1030 30000)
    (mkAct ∅ (fun _ => ∅) (fun _ => NoProcess) ∅ Written (Some true) id) InstancesExample.del.
(** a turn of the only thread, or of the second one *)
Definition run1 (b : boot) (d : daemon server) : daemon server :=
  match dm_threads d with
  | th :: l2 => let r := thread_turn InstancesExample.exec (tick b) th d in snd r <| dm_threads := option_list (fst r) ++ l2 |>
  | [] => d
  end.
Definition run2 (b : boot) (d : daemon server) : daemon server :=
  match dm_threads d with
  | t1 :: th :: l2 => let r := thread_turn InstancesExample.exec (tick b) th d in snd r <| dm_threads := t1 :: option_list (fst r) ++ l2 |>
  | _ => d
  end.
Definition phase_of (d : daemon server) : option (option string * option string) :=
  (fun v => (get_str "status" v, get_str "phase" v)) <$> mjoin (dm_status d !! ("c18", "c18-beta")).
End JobsExample.
Import JobsExample.

(** the life of a create that starts its instance, and one whose start fails *)
Example create_lives :
  let d1 := snd (created "started" d0) in let d2 := run1 up d1 in
  a_status (fst (created "started" d0)) = 202
  /\ phase_of d1 = Some (Some "provisioning", Some "cloning") /\ dm_creates d1 = {["c18-beta"]}
  /\ phase_of d2 = Some (Some "provisioning", Some "starting")
  /\ phase_of (run1 up d2) = Some (Some "ready", Some "done") /\ dm_creates (run1 up d2) = ∅
  /\ phase_of (run1 (mkBoot true id 1000 [(1000, None); (1121, Some 200)] None None) d2) = Some (Some "failed", Some "starting").
Proof. vm_compute. auto 9. Qed.
(** a second request while the first runs is told so, by the file or by the set *)
Example create_twice :
  a_status (fst (created "cold" (snd (created "cold" d0)))) = 202
  /\ dm_threads (snd (created "cold" (snd (created "cold" d0)))) = dm_threads (snd (created "cold" d0))
  /\ a_status (fst (created "cold" (snd (created "cold" d0) <| dm_status := ∅ |>))) = 409.
Proof. vm_compute. auto. Qed.

(** Creates and deletes reserve names in different sets: an instance can be deleted while its
    create still starts it, and the create then reports it ready. *)
Example delete_during_create :
  let d2 := run1 up (snd (created "started" d0)) in
  let r := handle_delete probes0 true "c18-beta" true d2 in
  let d4 := run1 up (run2 up (snd r)) in
  a_status (fst r) = 202 /\ phase_of d4 = Some (Some "ready", Some "done")
  /\ instance_at (dm_world d4) "c18" "c18-beta" = None /\ dm_threads d4 = [].
Proof. vm_compute. auto. Qed.

(** A delete takes every failure to read the instance for its absence: here the registry
    cannot be written. *)
Example deleted_but_there :
  let p := mkProbes ∅ (fun _ => None) (fun _ => None) None 100 0 (fun _ => false) None (fun _ _ => None) (fun _ => None) (fun _ _ => None) false in
  let r := handle_delete p true "c18-acme" true d0 in
  fst r = already_deleted "c18-acme" true /\ is_Some (instance_at (dm_world (snd r)) "c18" "c18-acme").
Proof. vm_compute. split; [reflexivity|by eexists]. Qed.

Lemma one_job_per_name_witness :
  let d1 := snd (created "started" d0) in
  let d2 := snd (handle_delete probes0 true "c18-acme" false d1) in
  creating (dm_threads d2) = ["c18-beta"] /\ acting (dm_threads d2) = ["c18-acme"]
  /\ NoDup (creating (dm_threads d2)) /\ (forall n, n ∈ dm_actions d2 <-> n ∈ acting (dm_threads d2)).
Proof.
  cbv zeta. set (d2 := snd (handle_delete _ _ _ _ _)).
  assert (Hs : started d0) by (split; [reflexivity|split; reflexivity]).
  assert (Hr : rtc (step InstancesExample.exec true) d0 d2).
  { eapply rtc_l; [exact (StepCreate _ true CreateExample.c 1000 true true Stored None "started" d0 (fun _ => conj eq_refl eq_refl))|].
    eapply rtc_l; [exact (StepDelete _ true probes0 true "c18-acme" false _)|apply rtc_refl]. }
  destruct (one_job_per_name InstancesExample.exec true d0 d2 Hs Hr) as (H1 & _ & _ & H4).
  split; [vm_compute; reflexivity|]. split; [vm_compute; reflexivity|]. split; [exact H1|exact H4].
Defined.

Lemma run1_step (d : daemon server) th : dm_threads d = [th] -> step InstancesExample.exec true d (run1 up d).
Proof. intros E. unfold run1. rewrite E. exact (StepTurn _ true (tick up) [] th [] d E (fun _ => conj eq_refl eq_refl)). Qed.
(** the daemon died while it created c18-beta, and another create ended before *)
Definition left_over : daemon server := d0 <| dm_status := <[("c18", "c18-old") := None]> {[("c18", "c18-beta") :=
  Some (JObject [("status", JString "provisioning"); ("started_at", JInt 100)])]} |>.
Lemma status_tells_thread_witness :
  let d1 := snd (created "started" left_over) in let d2 := run1 up (run1 up d1) in
  (exists p ph, status_key p = ("c18", "c18-beta")
     /\ dm_status d1 !! ("c18", "c18-beta") = Some (Some (job_status p 1000 "provisioning" ph [])))
  /\ (exists p t0 st ph more, dm_status d2 !! ("c18", "c18-beta") = Some (Some (job_status p t0 st ph more)) /\ over st)
  /\ dm_status d2 !! ("c18", "c18-old") = Some None.
Proof.
  cbv zeta. set (d1 := snd (created _ _)). set (d2 := run1 up (run1 up d1)).
  assert (Hs : started left_over) by (split; [reflexivity|split; reflexivity]).
  assert (Hr : rtc (step InstancesExample.exec true) left_over d1).
  { eapply rtc_l; [exact (StepCreate _ true CreateExample.c 1000 true true Stored None "started" left_over (fun _ => conj eq_refl eq_refl))|apply rtc_refl]. }
  set (th := match dm_threads d1 with t :: _ => t | [] => Deleting "" false end).
  assert (Hth1 : dm_threads d1 = [th]) by (vm_compute; reflexivity).
  set (th2 := match dm_threads (run1 up d1) with t :: _ => t | [] => Deleting "" false end).
  assert (Hth2 : dm_threads (run1 up d1) = [th2]) by (vm_compute; reflexivity).
  assert (Hr2 : rtc (step InstancesExample.exec true) d1 d2).
  { eapply rtc_l; [|eapply rtc_l; [|apply rtc_refl]].
    - exact (run1_step d1 th Hth1).
    - exact (run1_step (run1 up d1) th2 Hth2). }
  assert (Hk : status_key <$> create_of th = Some ("c18", "c18-beta")) by (vm_compute; reflexivity).
  assert (Ht0 : started_of th = 1000) by (vm_compute; reflexivity).
  assert (Hin : th ∈ dm_threads d1) by (rewrite Hth1; apply list_elem_of_here).
  destruct (create_of th) as [p|] eqn:Hp; [|discriminate Hk]. injection Hk as Hk1 Hk2.
  assert (K : status_key p = ("c18", "c18-beta")) by (unfold status_key; by rewrite Hk1, Hk2).
  split; [|split].
  - destruct (status_tells_thread InstancesExample.exec left_over left_over d1 Hs (rtc_refl _ _) Hr) as [H1 _].
    destruct (H1 th p Hin Hp) as [ph E]. rewrite Ht0, K in E. exists p, ph. split; [exact K|exact E].
  - destruct (status_tells_thread InstancesExample.exec left_over d1 d2 Hs Hr Hr2) as [_ H2].
    assert (Hno : dm_threads d2 = []) by (vm_compute; reflexivity).
    assert (Hsome : is_Some (dm_status d2 !! ("c18", "c18-beta"))) by (vm_compute; eexists; reflexivity).
    destruct Hsome as [x Hx].
    destruct (H2 ("c18", "c18-beta") x Hx) as [[_ Hl]|(q & t0 & st & ph & more & _ & Ex & Ho)].
    + rewrite Hno. intros th' q Hq. exact (False_ind _ (not_elem_of_nil _ Hq)).
    + exact (False_ind _ (Hl th p Hin Hp K)).
    + exists q, t0, st, ph, more. rewrite Hx, Ex. split; [reflexivity|exact Ho].
  - vm_compute. reflexivity.
Defined.
