(* ===== verification/Modules.v ===== *)
(** * Deployment of add-ons (src/bin/nkr_api_server.rs)

    [handle_addons_git] and [explode_modules]: the repository is cloned into a staging
    directory, its submodules are validated, its modules are found and moved one by one
    into addons/ of the instance, and what they replace goes to a trash directory.

    A file system is a tree whose directories list their entries in the order that
    [read_dir] gives them; symbolic links, and names that are not UTF-8, are left out. *)
From S2P Require Import Prelude Text Http Ipc Json Watchdog Conf Route Git Registry State Cells Instances.

(** ** Trees *)
(** a file, with its text when it is UTF-8, or a directory *)
Inductive node :=
  | NFile (text : option string)
  | NDir (entries : list (string * node)).

Definition assoc {A} (k : string) (l : list (string * A)) : option A :=
  snd <$> find (fun e => bool_decide (e.1 = k)) l.
Definition child (k : string) (n : node) : option node :=
  match n with NDir es => assoc k es | NFile _ => None end.
Fixpoint at_path (p : list string) (n : node) : option node :=
  match p with [] => Some n | k :: p => child k n ≫= at_path p end.
Definition is_dir (o : option node) : bool := match o with Some (NDir _) => true | _ => false end.
Definition is_file (o : option node) : bool := match o with Some (NFile _) => true | _ => false end.
Definition read_to_string (o : option node) : option string := match o with Some (NFile t) => t | _ => None end.
Definition entry_count (o : option node) : nat := match o with Some (NDir es) => length es | _ => 0%nat end.

Definition MANIFEST : string := "__manifest__.py".
Definition GITMODULES : string := ".gitmodules".
Definition SOURCE : string := ".nkr-source".
Definition CLONE_TMP : string := ".nkr-clone-tmp".

(** ** Submodules

    What a line of .gitmodules declares. *)
Fixpoint trim_start_chars (set s : string) : string :=
  match s with String c t => if is_one_of set c then trim_start_chars set t else s | EmptyString => "" end.
Definition declared_path (line : string) : option string :=
  rest ← strip_prefix "path" (trim line);
  let val := trim (trim_start_chars (String " " (String "009" "=")) rest) in
  if bool_decide (val = "") then None else Some val.

(** the directory that [current.join(val)] is, from the root of the file system; a
    component that is no directory ends the walk *)
Fixpoint resolve (fs : node) (cur comps : list string) : option (list string) :=
  match comps with
  | [] => Some cur
  | c :: comps =>
      if negb (is_dir (at_path cur fs)) then None
      else if bool_decide (c = "") || bool_decide (c = ".") then resolve fs cur comps
      else if bool_decide (c = "..") then resolve fs (removelast cur) comps
      else resolve fs (cur ++ [c]) comps
  end.
Definition join (fs : node) (cur : list string) (val : string) : option (list string) :=
  resolve fs (if starts_with "/" val then [] else cur) (split_on "/" val).

(** a submodule is named by the declared paths that lead to it *)
Record SubmoduleValidation := mkValidation { v_empty : list (list string); v_no_manifest : list (list string) }.
#[export] Instance eta_validation : Eta SubmoduleValidation := fun v => mkValidation (v_empty v) (v_no_manifest v).
Definition is_clean (v : SubmoduleValidation) : bool :=
  bool_decide (v_empty v = []) && bool_decide (v_no_manifest v = []).

(** The walk follows whatever paths are declared: [None] when [fuel] levels were not
    enough. *)
Fixpoint walk_gitmodules_strict (fuel : nat) (fs : node) (cur chain : list string) (v : SubmoduleValidation)
  : option SubmoduleValidation :=
  match fuel with
  | O => None
  | S fuel =>
      match read_to_string (at_path (cur ++ [GITMODULES]) fs) with
      | None => Some v
      | Some content =>
          fold_left (fun acc line =>
            v ← acc;
            match declared_path line with
            | None => Some v
            | Some val =>
                let rel := chain ++ [val] in
                match join fs cur val with
                | Some sub =>
                    if bool_decide (entry_count (at_path sub fs) = 0%nat) then Some (v <| v_empty ::= fun l => l ++ [rel] |>)
                    else
                      let has_manifest := is_file (at_path (sub ++ [MANIFEST]) fs) in
                      let has_gitmodules := is_file (at_path (sub ++ [GITMODULES]) fs) in
                      if negb has_manifest && negb has_gitmodules then Some (v <| v_no_manifest ::= fun l => l ++ [rel] |>)
                      else if has_gitmodules then walk_gitmodules_strict fuel fs sub rel v
                      else Some v
                | None => Some (v <| v_empty ::= fun l => l ++ [rel] |>)
                end
            end) (lines content) (Some v)
      end
  end.
Definition validate_submodules_strict (fuel : nat) (fs : node) (root : list string) : option SubmoduleValidation :=
  walk_gitmodules_strict fuel fs root [] (mkValidation [] []).

(** ** Modules *)
(** the modules under a directory: where they are and their names *)
Fixpoint walk_for_modules (path : list string) (name : string) (n : node) : list (list string * string) :=
  match n with
  | NFile _ => []
  | NDir es =>
      if is_file (assoc MANIFEST es) then [(path, name)]
      else (fix go (es : list (string * node)) : list (list string * string) :=
              match es with
              | [] => []
              | (k, c) :: es =>
                  (if is_dir (Some c) && negb (starts_with "." k) then walk_for_modules (path ++ [k]) k c else []) ++ go es
              end) es
  end.
Definition scan_modules_recursive (clone : node) : list (list string * string) := walk_for_modules [] CLONE_TMP clone.

(** The names that occur twice, with their places; the hash map gives them in another
    order. *)
Definition detect_name_collisions (ms : list (list string * string)) : list (string * list (list string)) :=
  filter (fun e => (1 < length e.2)%nat)
    (map (fun n => (n, map fst (filter (fun m => m.2 = n) ms))) (remove_dups (map snd ms))).

(** the modules at the first level, up to a name that is refused *)
Fixpoint first_level (es : list (string * node)) : string + list (list string * string) :=
  match es with
  | [] => inr []
  | (k, c) :: es =>
      if negb (is_dir (Some c)) || starts_with "." k || negb (bool_decide (is_Some (child MANIFEST c))) then first_level es
      else if negb (is_safe_identifier k) then inl k
      else match first_level es with inl k => inl k | inr ms => inr (([k], k) :: ms) end
  end.

(** ** Hashes *)
Fixpoint nearest_up (clone : node) (rev_path : list string) : option (list string) :=
  if bool_decide (is_Some (at_path (reverse rev_path ++ [".git"]) clone)) then Some (reverse rev_path)
  else match rev_path with [] => None | _ :: up => nearest_up clone up end.
Definition nearest_git_root (clone : node) (path : list string) : option (list string) := nearest_up clone (reverse path).

Definition is_hash (h : string) : bool := (String.length h =? 40)%nat && all_chars is_hexdigit h.
Definition join_path (l : list string) : string := join_with "/" l.
Definition under (dir : string) (p : list string) : string := join_path (dir :: p).

(** ** Deployments *)
Definition source_text (repo_url : string) (reference : option string) (sha content_hash : string) : string :=
  "repo_url=" +:+ repo_url +:+ String LF ("ref=" +:+ default "" reference +:+ String LF
    ("sha=" +:+ sha +:+ String LF ("content_hash=" +:+ content_hash +:+ String LF ""))).
Definition set_entry (k : string) (c : node) (es : list (string * node)) : list (string * node) :=
  if bool_decide (is_Some (assoc k es)) then map (fun e => if bool_decide (e.1 = k) then (k, c) else e) es else es ++ [(k, c)].
Definition write_nkr_source (text : string) (n : node) : node :=
  match n with
  | NDir es => if is_dir (assoc SOURCE es) then n else NDir (set_entry SOURCE (NFile (Some text)) es)
  | NFile _ => n
  end.
Definition content_line (line : string) : option string :=
  rest ← strip_prefix "content_hash=" line; let h := trim rest in if is_hash h then Some h else None.
Definition read_prev_content_hash (n : node) : option string :=
  s ← read_to_string (child SOURCE n); head (omap content_line (lines s)).

(** the directories of an instance: addons/, .nkr-addons-new/ without the clone, and
    .nkr-trash/; and the threads that are to empty the trash, by the time they wake *)
Record instance_dir := mkInstanceDir {
  i_addons : gmap string node; i_staging : gmap string node; i_trash : gmap string node; i_sweeps : list Z }.
#[export] Instance eta_instance_dir : Eta instance_dir := fun i =>
  mkInstanceDir (i_addons i) (i_staging i) (i_trash i) (i_sweeps i).

Definition read_addons_state (addons : gmap string node) : gmap string string :=
  map_imap (fun k n => if is_dir (Some n) && negb (starts_with "." k) then Some (default "" (read_prev_content_hash n)) else None) addons.

Record ExplodeResult := mkExplode {
  modules : list string; added : list string; updated : list string; unchanged : list string; removed : list string }.

(** a directory can only replace an empty one, a file only a file *)
Definition can_replace (n : node) (dst : option node) : bool :=
  match dst with
  | None => true
  | Some (NDir []) => is_dir (Some n)
  | Some (NDir _) => false
  | Some (NFile _) => negb (is_dir (Some n))
  end.
Inductive move := Stage (m : string) | Trash (m : string) | Install (m : string).

Definition GIT_BODY_LIMIT : Z := 64 * 1024.
(** the message that [parse_git_body] gives with an error *)
Definition body_message (err : string) : option string :=
  if bool_decide (err = "invalid_repo_url") then Some "only git@github.com:*, https://github.com/*, gitlab.com are accepted"
  else if bool_decide (err = "invalid_action") then Some "expected sync|clone|pull"
  else if bool_decide (err = "github_token_requires_https_url")
  then Some "PAT auth only works with https://github.com/... URLs; use deploy_key_b64 for SSH (git@...)"
  else None.

Section deploy.
Context `{Serde} `{Listing}.
(** git, what [git clean] leaves of the clone, which renames the file system allows,
    and what it says of the others *)
Context (git : list string -> result) (clean : node -> node) (allowed : move -> bool) (said : move -> string).

Definition git_tree_hash (git_root rel_path : string) : option string :=
  let arg := if bool_decide (rel_path = "") || bool_decide (rel_path = ".") then "HEAD^{tree}" else "HEAD:" +:+ rel_path in
  match git ["-C"; git_root; "rev-parse"; arg] with
  | (true, out, _) => let h := trim out in if is_hash h then Some h else None
  | _ => None
  end.

Definition rename (mv : move) (n : node) (name : string) (m : gmap string node) : option (gmap string node) :=
  if allowed mv && can_replace n (m !! name) then Some (<[name := n]> m) else None.
Definition move_failed (code : string) (mv : move) : HttpResponse := error_response 500 code (Some (said mv)).

(** [has_submodules] and [manifest_at_root], read before the clone is cleaned *)
Definition has_submodules (clone : node) : bool := is_file (child GITMODULES clone).
Definition manifest_at_root (clone : node) : bool := bool_decide (is_Some (child MANIFEST clone)).

(** Answers; their explanations, message and remediation, are left out. *)
Definition chain_value (c : list string) : Value := JString (join_path c).
Definition refused_submodules (v : SubmoduleValidation) : option HttpResponse :=
  if is_clean v then None
  else match v_empty v with
  | [] => Some (json_response 422 (JObject [("error", JString "submodule_no_manifest"); ("invalid_submodules", JArray (map chain_value (v_no_manifest v)))]))
  | e => Some (json_response 422 (JObject [("error", JString "submodule_clone_partial"); ("failed_submodules", JArray (map chain_value e))]))
  end.

Definition conflict_value (c : string * list (list string)) : Value :=
  JObject [("module_name", JString c.1); ("found_at", JArray (map chain_value c.2))].
Definition collision_answer (repo_url : string) (reference : option string) (cs : list (string * list (list string))) : HttpResponse :=
  json_response 409 (JObject
    [("error", JString "module_name_collision"); ("conflicts", JArray (map conflict_value cs));
     ("repo_url", JString repo_url); ("ref", opt_string reference)]).
Definition no_modules : HttpResponse := error_response 422 "no_modules_found" None.
Definition invalid_name (name : string) : HttpResponse := error_response 400 "invalid_module_name" (Some name).

(** the modules of the clone, with where they are *)
Definition find_modules (subs at_root : bool) (subdir_hint repo_url : string) (reference : option string) (clone : node)
  : HttpResponse + list (list string * string) :=
  if subs then
    match scan_modules_recursive clone with
    | [] => inl no_modules
    | found =>
        match find (fun m => negb (is_safe_identifier m.2)) found with
        | Some (_, name) => inl (invalid_name name)
        | None =>
            match detect_name_collisions found with
            | [] => inr found
            | cs => inl (collision_answer repo_url reference cs)
            end
        end
    end
  else if at_root then inr [([], subdir_hint)]
  else match first_level (match clone with NDir es => es | NFile _ => [] end) with
  | inl name => inl (invalid_name name)
  | inr [] => inl no_modules
  | inr found => inr found
  end.

Definition new_hash (subs at_root : bool) (clone_tmp : string) (clone : node) (path : list string) : option string :=
  if negb subs && at_root then git_tree_hash clone_tmp ""
  else match nearest_git_root clone path with
  | Some root => git_tree_hash (under clone_tmp root) (join_path (drop (length root) path))
  | None => None
  end.

(** Modules go from the clone to the staging directory; the subtrees of different modules
    are disjoint, so each is still where it was found. *)
Fixpoint populate (text : string -> string) (clone : node) (ms : list (list string * string * option string))
  (staging : gmap string node) : (HttpResponse + unit) * gmap string node :=
  match ms with
  | [] => (inr (), staging)
  | (path, m, h) :: ms =>
      match n ← at_path path clone; rename (Stage m) n m staging with
      | None => (inl (move_failed "move_failed" (Stage m)), staging)
      | Some staging => populate text clone ms (alter (write_nkr_source (text (default "" h))) m staging)
      end
  end.

(** a name in the trash has the time of the deployment *)
Definition trash_name (now : Z) (m : string) : string := dec now +:+ "-" +:+ m.

(** what a module replaces goes to the trash *)
Definition set_aside (now : Z) (m : string) (i : instance_dir) : option instance_dir :=
  match i_addons i !! m with
  | None => Some i
  | Some old => t ← rename (Trash m) old (trash_name now m) (i_trash i); Some (i <| i_addons ::= delete m |> <| i_trash := t |>)
  end.
Definition install_one (m : string) (i : instance_dir) : option instance_dir :=
  n ← i_staging i !! m; a ← rename (Install m) n m (i_addons i); Some (i <| i_addons := a |> <| i_staging ::= delete m |>).
Fixpoint install (now : Z) (ms : list string) (i : instance_dir) : (HttpResponse + unit) * instance_dir :=
  match ms with
  | [] => (inr (), i)
  | m :: ms =>
      match set_aside now m i with
      | None => (inl (move_failed "module_trash_failed" (Trash m)), i)
      | Some i =>
          match install_one m i with
          | None => (inl (move_failed "module_install_failed" (Install m)), i)
          | Some i => install now ms i
          end
      end
  end.
(** the modules that are not in the repository any more; a failure is ignored *)
Definition retire (now : Z) (names gone : list string) (i : instance_dir) : instance_dir :=
  fold_left (fun i m => if mem m names then i else default i (set_aside now m i)) gone i.

(** the thread that empties the trash a minute later, when it could be made *)
Definition start_sweep (spawns : bool) (now : Z) (i : instance_dir) : instance_dir :=
  if spawns then i <| i_sweeps ::= cons (now + 60) |> else i.
(** it removes whatever is in the trash by then; [left]: what it fails to remove of an entry *)
Definition empty_trash (left : string -> node -> option node) (i : instance_dir) : instance_dir :=
  i <| i_trash ::= map_imap left |>.
(** a thread wakes, at [t] or before *)
Inductive sweep (t : Z) : instance_dir -> instance_dir -> Prop :=
  | sweep_step left l1 d l2 i : i_sweeps i = l1 ++ d :: l2 -> d <= t ->
      sweep t i (empty_trash left (i <| i_sweeps := l1 ++ l2 |>)).

Definition classify_module (prev : gmap string string) (m : string) (h : option string) : Z :=
  match prev !! m with
  | None => 0
  | Some p => if bool_decide (p <> "") && bool_decide (default "" h <> "") && bool_decide (p = default "" h) then 2 else 1
  end.
Definition of_class (c : Z) (prev : gmap string string) (ms : list (string * option string)) : list string :=
  map fst (filter (fun m => classify_module prev m.1 m.2 = c) ms).

(** [fs clone] is the host with the clone at [root], for the paths of .gitmodules *)
Definition explode_modules (fuel : nat) (fs : node -> node) (root : list string) (clone_tmp : string) (now : Z) (spawns : bool)
    (subdir_hint repo_url : string) (reference : option string) (sha : string) (cloned : node) (i : instance_dir)
  : option ((HttpResponse + ExplodeResult) * instance_dir) :=
  let subs := has_submodules cloned in
  let at_root := manifest_at_root cloned in
  let clone := clean cloned in
  checked ← (if subs then v ← validate_submodules_strict fuel (fs clone) root; Some (refused_submodules v) else Some None);
  Some
  match checked with
  | Some r => (inl r, i)
  | None =>
      match find_modules subs at_root subdir_hint repo_url reference clone with
      | inl r => (inl r, i)
      | inr ms =>
          let prev := read_addons_state (i_addons i) in
          let hashes := map (fun m => new_hash subs at_root clone_tmp clone m.1) ms in
          let names := map snd ms in
          match populate (source_text repo_url reference sha) clone (zip ms hashes) (i_staging i) with
          | (inl r, s) => (inl r, i <| i_staging := s |>)
          | (inr _, s) =>
              match install now names (i <| i_staging := s |>) with
              | (inl r, i) => (inl r, i)
              | (inr _, i) =>
                  let gone := list_dir (dom prev) in
                  (inr (mkExplode names (of_class 0 prev (zip names hashes)) (of_class 1 prev (zip names hashes))
                          (of_class 2 prev (zip names hashes)) (filter (fun k => negb (mem k names)) gone)),
                   start_sweep spawns now (retire now names gone i))
              end
          end
      end
  end.

(** ** The handler *)
Context (debug_char : ascii -> string) (lowercase : string -> string).
Context (open_key : string + string) (write_ok : option string).
(** the instance, when it exists; whether the staging directory could be made; the
    clone that the commands leave; the daemon *)
Record deploy_host := mkHost {
  h_mkdir : option string; h_cloned : list git_effect -> node; h_fs : node -> node; h_root : list string;
  h_now : Z; h_spawns : bool; h_ipc : IpcRequest -> io_error + IpcResponse; h_fuel : nat }.

Definition instance_path (cell inst : string) : string := "/mnt/nkr/cells/" +:+ cell +:+ "/instances/" +:+ inst.

Definition reload_outcome (host : deploy_host) (auto_reload : bool) (inst : string) : bool * option string :=
  if auto_reload then
    match h_ipc host (ReloadWorkers inst) with
    | inr r => if ipc_status r =? 202 then (true, None) else (false, Some "instance_not_running_or_unknown_pid")
    | inl _ => (false, Some "ipc_error")
    end
  else (false, Some "auto_reload=false").

Definition names_value (l : list string) : Value := JArray (map JString l).
Definition deployed (host : deploy_host) (req : GitReq) (inst sha : string) (d : ExplodeResult) : HttpResponse :=
  let '(reloaded, reason) := reload_outcome host (auto_reload req) inst in
  json_response 200 (JObject
    [("repo_url", JString (repo_url req)); ("ref", opt_string (reference req)); ("sha", JString sha);
     ("module_count", JInt (Z.of_nat (length (modules d)))); ("modules", names_value (modules d));
     ("added", names_value (added d)); ("updated", names_value (updated d)); ("unchanged", names_value (unchanged d));
     ("removed", names_value (removed d)); ("reloaded", JBool reloaded); ("reload_skipped_reason", opt_string reason)]).

(** the clone is forced, whatever the action of the request; the staging directory is
    empty before and after.  [None]: the validation of submodules does not end *)
Definition handle_addons_git (host : deploy_host) (cell inst : string) (body : list Z) (i : option instance_dir)
  : option (outcome HttpResponse * option instance_dir) :=
  if GIT_BODY_LIMIT <? Z.of_nat (length body) then Some (Done (error_response 413 "body_too_large" None), i)
  else match parse_git_body body with
  | inl (code, err) => Some (Done (error_response code err (body_message err)), i)
  | inr req =>
      match i with
      | None => Some (Done (error_response 404 "instance_not_found" None), i)
      | Some i =>
          let subdir := default (derive_repo_basename (repo_url req)) (subdir req) in
          if negb (is_safe_identifier subdir) then Some (Done (error_response 400 "invalid_subdir" None), Some i)
          else
            let i := i <| i_staging := ∅ |> in
            match h_mkdir host with
            | Some e => Some (Done (error_response 500 "staging_mkdir_failed" (Some e)), Some i)
            | None =>
                let clone_tmp := instance_path cell inst +:+ "/.nkr-addons-new/" +:+ CLONE_TMP in
                match run_git_sync debug_char lowercase git open_key write_ok (with_action "clone" req) clone_tmp false with
                | Panic w => Some (Panic w, Some i)
                | Done (effs, resp) =>
                    if 400 <=? Http.status resp then Some (Done resp, Some i)
                    else
                      let sha := default "unknown" (git_head_sha git clone_tmp) in
                      '(r, i) ← explode_modules (h_fuel host) (h_fs host) (h_root host) clone_tmp (h_now host) (h_spawns host) subdir
                        (repo_url req) (reference req) sha (h_cloned host effs) i;
                      Some (Done (match r with inr d => deployed host req inst sha d | inl e => e end), Some (i <| i_staging := ∅ |>))
                end
            end
      end
  end.
End deploy.

(** ** Trees: induction, and where the modules are *)
Section node_induction.
Context (P : node -> Prop) (Hfile : forall t, P (NFile t)) (Hdir : forall es, Forall (fun e => P e.2) es -> P (NDir es)).
Fixpoint node_tree_ind (n : node) : P n :=
  match n with
  | NFile t => Hfile t
  | NDir es => Hdir es ((fix go es : Forall (fun e => P e.2) es :=
      match es with [] => Forall_nil _ | (k, c) :: es => @Forall_cons _ (fun e => P e.2) (k, c) es (node_tree_ind c) (go es) end) es)
  end.
End node_induction.

(** the entries of a directory have different names *)
Fixpoint tree_ok (n : node) : bool :=
  match n with NFile _ => true | NDir es => bool_decide (NoDup (map fst es)) && forallb (fun e => tree_ok e.2) es end.

Lemma assoc_some {A} k (l : list (string * A)) v : assoc k l = Some v -> (k, v) ∈ l.
Proof.
  unfold assoc. destruct (find _ l) as [[k' v']|] eqn:E; [|done]. intros [= <-].
  apply List.find_some in E as [Hin Hk]. apply bool_decide_eq_true in Hk as <-. by apply list_elem_of_In.
Qed.
Lemma assoc_in {A} k (l : list (string * A)) v : NoDup (map fst l) -> (k, v) ∈ l -> assoc k l = Some v.
Proof.
  unfold assoc. induction l as [|[k' v'] l IH]; [by intros _ ?%not_elem_of_nil|].
  intros [Hn Hl]%list.NoDup_cons [[= -> ->]|Hin]%elem_of_cons; cbn; [by rewrite bool_decide_true|].
  rewrite bool_decide_false; [by apply IH|]. intros ->. apply Hn. apply list_elem_of_fmap. by exists (k, v).
Qed.
Lemma assoc_none {A} k (l : list (string * A)) : assoc k l = None <-> k ∉ map fst l.
Proof.
  unfold assoc. induction l as [|[k' v'] l IH]; [split; [intros _; apply not_elem_of_nil|done]|]. cbn.
  rewrite not_elem_of_cons. case_bool_decide; cbn; [naive_solver|]. rewrite IH. naive_solver.
Qed.

(** the modules that are not inside another module nor a hidden directory *)
Definition is_module (n : node) : bool := is_file (child MANIFEST n).
Fixpoint top_module (p : list string) (n : node) : Prop :=
  match p with
  | [] => is_module n = true
  | k :: p => is_module n = false /\ starts_with "." k = false /\ exists c, child k n = Some c /\ is_dir (Some c) = true /\ top_module p c
  end.

(** The scan of a clone finds every directory with a manifest that is neither hidden nor inside
    another module, under the name of its directory, and nothing else. *)
Theorem scan_exact clone p nm : tree_ok clone = true ->
  (p, nm) ∈ scan_modules_recursive clone <-> top_module p clone /\ nm = default CLONE_TMP (list.last p).
Proof.
  intros Hok. unfold scan_modules_recursive.
  enough (H : forall n path name p nm, tree_ok n = true -> (p, nm) ∈ walk_for_modules path name n <->
    exists q, p = path ++ q /\ top_module q n /\ nm = default name (list.last q)).
  { rewrite H by done. split; [intros (q & -> & ?); done|intros ?; by exists p]. }
  clear. intros n. induction n as [t|es IH] using node_tree_ind; intros path name p nm Hok.
  { split; [by intros ?%not_elem_of_nil|]. intros ([|k q] & _ & Ht & _); [done|]. by destruct Ht as (_ & _ & c & ? & _). }
  cbn [walk_for_modules]. destruct (is_file (assoc MANIFEST es)) eqn:Em.
  { rewrite list_elem_of_singleton. split; [intros [= -> ->]; exists []; by rewrite app_nil_r|].
    intros ([|k q] & -> & Ht & ->); [by rewrite app_nil_r|]. destruct Ht as [Hm _]. unfold is_module in Hm. cbn [child] in Hm. congruence. }
  cbn in Hok. apply andb_true_iff in Hok as [Hnd Hall]. apply bool_decide_eq_true in Hnd.
  transitivity (exists k c q, (k, c) ∈ es /\ is_dir (Some c) = true /\ starts_with "." k = false
    /\ p = (path ++ [k]) ++ q /\ top_module q c /\ nm = default k (list.last q)).
  - clear Em Hnd. induction es as [|[k c] es IHes].
    { split; [by intros ?%not_elem_of_nil|]. by intros (? & ? & ? & ?%not_elem_of_nil & _). }
    cbn in Hall. apply andb_true_iff in Hall as [Hc Hall]. apply list.Forall_cons in IH as [IHc IH].
    rewrite elem_of_app, (IHes IH Hall). split.
    + intros [Hin|(k' & c' & q & Hk' & Hq)]; [|exists k', c', q; split; [by right|done]].
      destruct (is_dir (Some c) && negb (starts_with "." k)) eqn:Eg; [|by apply not_elem_of_nil in Hin].
      apply andb_true_iff in Eg as [Hd Hdot%negb_true_iff].
      apply IHc in Hin as (q & -> & Ht & ->); [|done]. exists k, c, q. split; [by left|done].
    + intros (k' & c' & q & [[= -> ->]|Hin]%elem_of_cons & Hd & Hdot & -> & Ht & ->);
        [left|right; exists k', c', q; done]. rewrite Hd, Hdot. apply IHc; [done|]. by exists q.
  - split.
    + intros (k & c & q & Hin & Hd & Hdot & -> & Ht & ->). exists (k :: q). rewrite <- app_assoc. split; [done|].
      split; [split; [done|]; split; [done|]; exists c; split; [by apply assoc_in|done]|].
      rewrite last_cons. by destruct (list.last q).
    + intros ([|k q] & -> & Ht & ->); [unfold top_module, is_module in Ht; cbn [child] in Ht; congruence|].
      destruct Ht as (_ & Hdot & c & Hc & Hd & Ht). exists k, c, q. rewrite <- app_assoc.
      split; [by apply assoc_some|]. do 3 (split; [done|]). split; [done|]. rewrite last_cons. by destruct (list.last q).
Qed.

(** modules are not nested: moving one does not move another *)
Lemma top_module_app p q n : top_module p n -> top_module (p ++ q) n -> q = [].
Proof.
  revert n. induction p as [|k p IH]; intros n Hp Hq.
  - destruct q as [|k q]; [done|]. destruct Hq as [Hq _]. cbn in Hp. congruence.
  - destruct Hp as (_ & _ & c & Hc & _ & Hp), Hq as (_ & _ & c' & Hc' & _ & Hq). simplify_eq. by apply (IH c).
Qed.
Lemma top_module_at p n : top_module p n -> exists es, at_path p n = Some (NDir es).
Proof.
  revert n. induction p as [|k p IH]; intros n.
  - cbn. unfold is_module. destruct n as [t|es]; [done|]. intros _. by exists es.
  - intros (_ & _ & c & Hc & _ & Hp). cbn. rewrite Hc. by apply IH.
Qed.

(** ** Names *)
Lemma same_name_count (ms : list (list string * string)) m n : m ∈ ms -> m.2 = n -> (1 <= length (filter (fun m => m.2 = n) ms))%nat.
Proof.
  intros Hm Hn. assert (H : m ∈ filter (fun m => m.2 = n) ms) by (by apply list_elem_of_filter).
  destruct (filter _ ms); [by apply not_elem_of_nil in H|cbn; lia].
Qed.
(** A clone has no name collision exactly when no two of its modules have the same name. *)
Theorem no_collisions_iff ms : detect_name_collisions ms = [] <-> NoDup (map snd ms).
Proof.
  transitivity (forall n, n ∈ map snd ms -> length (filter (fun m => m.2 = n) ms) = 1%nat).
  - unfold detect_name_collisions. split.
    + intros E n Hn. apply list_elem_of_fmap in Hn as (m & -> & Hm).
      pose proof (same_name_count ms m _ Hm eq_refl) as Hc.
      destruct (decide (length (filter (fun m' => m'.2 = m.2) ms) = 1%nat)) as [|Hne]; [done|exfalso].
      apply (not_elem_of_nil (m.2, map fst (filter (fun m' => m'.2 = m.2) ms))). rewrite <- E.
      apply list_elem_of_filter. split; [cbn; rewrite length_map; lia|].
      apply list_elem_of_fmap. exists m.2. split; [done|]. apply elem_of_remove_dups. apply list_elem_of_fmap. by exists m.
    + intros H.
      destruct (filter _ _) as [|e l] eqn:E; [done|exfalso]. assert (He : e ∈ e :: l) by (by left).
      rewrite <- E in He. apply list_elem_of_filter in He as [Hl He]. apply list_elem_of_fmap in He as (n & -> & Hn).
      rewrite elem_of_remove_dups in Hn. cbn in Hl. rewrite length_map in Hl. rewrite (H n Hn) in Hl. lia.
  - induction ms as [|[p n] ms IH]; [split; [intros _; constructor|by intros _ n ?%not_elem_of_nil]|].
    cbn [map snd]. rewrite list.NoDup_cons, <- IH. split.
    + intros H. split.
      * intros Hn. specialize (H n (list_elem_of_here _ _)). rewrite filter_cons_True in H by done. cbn in H.
        apply list_elem_of_fmap in Hn as (m & -> & Hm). pose proof (same_name_count ms m _ Hm eq_refl). lia.
      * intros n' Hn'. specialize (H n' (list_elem_of_further _ _ _ Hn')). rewrite filter_cons in H. cbn [snd] in H.
        case_decide; [|done]. subst n'. apply list_elem_of_fmap in Hn' as (m & -> & Hm).
        pose proof (same_name_count ms m _ Hm eq_refl). cbn in H. lia.
    + intros [Hn H] n' [->|Hn']%elem_of_cons.
      * rewrite filter_cons_True by done. cbn. f_equal.
        destruct (filter _ ms) as [|m l] eqn:E; [done|exfalso]. assert (Hm : m ∈ m :: l) by (by left).
        rewrite <- E in Hm. apply list_elem_of_filter in Hm as [<- Hm]. apply Hn. apply list_elem_of_fmap. by exists m.
      * rewrite filter_cons_False; [by apply H|]. cbn. intros ->. done.
Qed.

Lemma first_level_inv es ms : first_level es = inr ms ->
  sublist (map snd ms) (map fst es)
  /\ Forall (fun m => exists c, m.1 = [m.2] /\ (m.2, c) ∈ es /\ is_dir (Some c) = true /\ is_safe_identifier m.2 = true) ms.
Proof.
  revert ms. induction es as [|[k c] es IH]; intros ms; cbn [first_level].
  { intros [= <-]. by split; [|constructor]. }
  destruct (negb (is_dir (Some c)) || starts_with "." k || _) eqn:Eskip.
  { intros [Hs Hf]%IH. split; [by apply sublist_cons|]. eapply Forall_impl; [|exact Hf].
    intros m (c' & ? & ? & ?). exists c'. split; [done|]. split; [by right|done]. }
  destruct (is_safe_identifier k) eqn:Ek; [|done]. cbn [negb].
  destruct (first_level es) as [|ms'] eqn:El; [done|]. intros [= <-]. destruct (IH _ eq_refl) as [Hs Hf].
  split; [by apply sublist_skip|]. apply orb_false_iff in Eskip as [[Hd _]%orb_false_iff _]. apply negb_false_iff in Hd.
  constructor; [exists c; cbn; by repeat split; try left|]. eapply Forall_impl; [|exact Hf].
  intros m (c' & ? & ? & ?). exists c'. split; [done|]. split; [by right|done].
Qed.

(** ** The content hash is read back *)
Lemma hex_not_space c : is_hexdigit c = true -> is_space c = false.
Proof.
  intros H. destruct (is_space c) eqn:E; [|done]. exfalso.
  destruct c as [[] [] [] [] [] [] [] []]; vm_compute in H, E; congruence.
Qed.
Lemma hex_char_plain x c : is_hexdigit c = true -> is_hexdigit x = false -> Ascii.eqb x c = false.
Proof. intros Hc Hx. apply Ascii.eqb_neq. intros ->. congruence. Qed.
Lemma hex_plain h : all_chars is_hexdigit h = true -> plain_text h /\ trim h = h.
Proof.
  intros Hh. unfold all_chars in Hh. apply forallb_forall in Hh as Hf || idtac.
  rewrite List.forallb_forall in Hh. assert (Hin : forall x, is_hexdigit x = false -> char_in x h = false).
  { intros x Hx. unfold char_in. apply not_true_is_false. intros (c & Hc & He)%existsb_exists.
    rewrite hex_char_plain in He; [done|by apply Hh|done]. }
  split; [split; by apply Hin|]. apply trim_plain. apply List.Forall_forall. intros c Hc. by apply hex_not_space, Hh.
Qed.

Lemma assoc_set_entry k c es : assoc k (set_entry k c es) = Some c.
Proof.
  unfold set_entry. case_bool_decide as E.
  - destruct E as [v Hv]. revert Hv. unfold assoc. induction es as [|[k' c'] es IH]; [done|]. cbn.
    destruct (decide (k' = k)) as [->|Hne]; [by rewrite !bool_decide_true|].
    rewrite !(bool_decide_false (k' = k)) by done. cbn. rewrite ?(bool_decide_false (k' = k)) by done. apply IH.
  - assert (Hn : assoc k es = None) by (destruct (assoc k es) eqn:Ek; [exfalso; apply E; by eexists|done]). clear E.
    revert Hn. unfold assoc. induction es as [|[k' c'] es IH]; cbn; [by rewrite bool_decide_true|].
    case_bool_decide; [done|]. apply IH.
Qed.

(** What a deployment writes beside a module is read back by the next one: the content hash of
    the module. *)
Theorem source_round_trip es url reference sha h :
  is_dir (assoc SOURCE es) = false -> is_hash h = true ->
  plain_text url -> plain_text (default "" reference) -> plain_text sha ->
  read_prev_content_hash (write_nkr_source (source_text url reference sha h) (NDir es)) = Some h.
Proof.
  intros Hd Hh Hu Hr Hs. unfold write_nkr_source. rewrite Hd. unfold read_prev_content_hash. cbn [child].
  rewrite assoc_set_entry. cbn [read_to_string]. pose proof Hh as Hh'. unfold is_hash in Hh. apply andb_true_iff in Hh as [_ Hx].
  apply hex_plain in Hx as [Hp Ht].
  assert (Hplain : forall a b, plain_text a -> plain_text b -> plain_text (a +:+ b)).
  { intros a b [] []. split; rewrite char_in_app; by apply orb_false_iff. }
  replace (source_text url reference sha h)
    with (unlines ["repo_url=" +:+ url; "ref=" +:+ default "" reference; "sha=" +:+ sha; "content_hash=" +:+ h]).
  2: { unfold source_text, unlines. cbn [foldr]. by rewrite !string_app_assoc. }
  unfold mbind, option_bind. rewrite lines_unlines by (repeat constructor; try done; by apply Hplain).
  assert (E : content_line ("content_hash=" +:+ h) = Some h).
  { unfold content_line. rewrite strip_prefix_app. cbn. by rewrite Ht, Hh'. }
  cbn [omap list_omap]. by rewrite E.
Qed.

(** ** What a deployment does to an instance *)
Section deploy_lemmas.
Context `{Serde} `{Listing} `{!ListingLaws}.
Context (git : list string -> result) (clean : node -> node) (allowed : move -> bool) (said : move -> string).
Notation rename := (rename allowed).
Notation set_aside := (set_aside allowed).
Notation install_one := (install_one allowed).
Notation install := (install allowed said).
Notation populate := (populate allowed said).
Notation retire := (retire allowed).

Lemma rename_inv mv n name m m' : rename mv n name m = Some m' -> m' = <[name := n]> m /\ can_replace n (m !! name) = true.
Proof. unfold Modules.rename. destruct (allowed mv); cbn; [|done]. destruct (can_replace _ _); [|done]. by intros [= <-]. Qed.

Lemma trash_name_inj now m m' : trash_name now m = trash_name now m' -> m = m'.
Proof. unfold trash_name. rewrite <- !string_app_assoc. apply append_inj. Qed.

(** an old module is where it was, or in the trash *)
Definition kept now (i i' : instance_dir) m : Prop := forall n, i_addons i !! m = Some n ->
  i_addons i' !! m = Some n \/ i_trash i' !! trash_name now m = Some n.
Definition fresh now (i : instance_dir) m : Prop := i_trash i !! trash_name now m = None.

Lemma set_aside_inv now m i i' : set_aside now m i = Some i' ->
  i_addons i' = delete m (i_addons i) /\ i_staging i' = i_staging i
  /\ (forall m', m' <> m -> i_trash i' !! trash_name now m' = i_trash i !! trash_name now m')
  /\ (forall n, i_addons i !! m = Some n -> i_trash i' !! trash_name now m = Some n)
  /\ (i_addons i !! m = None -> i' = i).
Proof.
  unfold Modules.set_aside. destruct (i_addons i !! m) as [old|] eqn:E.
  - destruct (Modules.rename _ _ _ _ _) as [t|] eqn:Er; [|done]. cbn. intros [= <-]. apply rename_inv in Er as [-> _]. cbn.
    split; [done|]. split; [done|]. split.
    + intros m' Hm. apply lookup_insert_ne. intros Ht. by apply trash_name_inj in Ht.
    + split; [|done]. intros n [= ->]. by rewrite lookup_insert_eq.
  - intros [= <-]. split; [symmetry; by apply delete_id|]. split; [done|]. split; [done|]. split; [done|done].
Qed.
Lemma install_one_inv m i i' : install_one m i = Some i' ->
  exists n, i_staging i !! m = Some n /\ i_addons i' = <[m := n]> (i_addons i)
    /\ i_staging i' = delete m (i_staging i) /\ i_trash i' = i_trash i.
Proof.
  unfold Modules.install_one. destruct (i_staging i !! m) as [n|] eqn:E; [|done]. cbn.
  destruct (Modules.rename _ _ _ _ _) as [a|] eqn:Er; [|done]. cbn. intros [= <-]. apply rename_inv in Er as [-> _]. by exists n.
Qed.

Lemma install_spec now ms i r i' : NoDup ms -> install now ms i = (r, i') ->
  (forall m, m ∉ ms -> i_addons i' !! m = i_addons i !! m /\ i_trash i' !! trash_name now m = i_trash i !! trash_name now m
                       /\ i_staging i' !! m = i_staging i !! m)
  /\ (forall m, m ∈ ms -> kept now i i' m)
  /\ (r = inr () -> forall m, m ∈ ms -> i_addons i' !! m = i_staging i !! m /\ is_Some (i_staging i !! m)).
Proof.
  intros Hnd. revert i. induction Hnd as [|m ms Hm _ IH]; intros i; cbn [Modules.install].
  { intros [= <- <-]. split; [done|]. split; [by intros m ?%not_elem_of_nil|by intros _ m ?%not_elem_of_nil]. }
  destruct (Modules.set_aside _ _ _ _) as [i1|] eqn:E1.
  2: { intros [= <- <-]. split; [done|]. split; [intros m' _ n ?; by left|done]. }
  apply set_aside_inv in E1 as (Ha & Hs & Ht & Hk & _).
  assert (Hkept1 : forall m', kept now i i1 m').
  { intros m' n Hn. destruct (decide (m' = m)) as [->|Hne]; [right; by apply Hk|left]. by rewrite Ha, lookup_delete_ne. }
  destruct (Modules.install_one _ _ _) as [i2|] eqn:E2.
  2: { intros [= <- <-]. split; [|by split]. intros m' [Hne Hm']%not_elem_of_cons. rewrite Ha, Hs, lookup_delete_ne, Ht by done. done. }
  apply install_one_inv in E2 as (n & Hn & Ha2 & Hs2 & Ht2). intros Hi. destruct (IH _ Hi) as (Hout & Hkept & Hin).
  split.
  { intros m' [Hne Hm']%not_elem_of_cons. destruct (Hout m' Hm') as (-> & -> & ->).
    rewrite Ha2, Ht2, Hs2, lookup_insert_ne, !lookup_delete_ne, Ha, Hs, lookup_delete_ne, Ht by done. done. }
  split.
  { intros m' Hm' x Hx. destruct (decide (m' = m)) as [->|Hne].
    - right. destruct (Hout m Hm) as (_ & -> & _). rewrite Ht2. by apply Hk.
    - apply elem_of_cons in Hm' as [?|Hm']; [done|]. apply (Hkept m' Hm').
      by rewrite Ha2, lookup_insert_ne, Ha, lookup_delete_ne. }
  intros ->. intros m' [->|Hm']%elem_of_cons.
  - destruct (Hout m Hm) as (-> & _). rewrite Ha2, lookup_insert_eq, <- Hs, Hn. split; [done|by eexists].
  - assert (m' <> m) by (by intros ->). destruct (Hin eq_refl m' Hm') as [-> Hsome].
    rewrite Hs2, lookup_delete_ne, Hs in * by done. done.
Qed.

Lemma populate_spec text clone ms s s' : NoDup (map (fun m => m.1.2) ms) -> populate text clone ms s = (inr (), s') ->
  (forall p m h, (p, m, h) ∈ ms -> exists n, at_path p clone = Some n /\ s' !! m = Some (write_nkr_source (text (default "" h)) n))
  /\ (forall m, m ∉ map (fun m => m.1.2) ms -> s' !! m = s !! m).
Proof.
  revert s. induction ms as [|[[p m] h] ms IH]; intros s; cbn [Modules.populate map].
  { intros _ [= <-]. split; [by intros p m h ?%not_elem_of_nil|done]. }
  intros [Hm Hnd]%list.NoDup_cons. destruct (at_path p clone) as [n|] eqn:En; cbn; [|done].
  destruct (Modules.rename _ _ _ _ _) as [s1|] eqn:Er; [|done]. apply rename_inv in Er as [-> _].
  intros Hp. destruct (IH _ Hnd Hp) as [Hin Hout]. cbn in Hm. split.
  - intros p' m' h' [[= -> -> ->]|Hin']%elem_of_cons; [|by apply Hin]. exists n. split; [done|].
    rewrite (Hout m Hm), lookup_alter_eq, lookup_insert_eq. done.
  - intros m' [Hne Hm']%not_elem_of_cons. cbn in Hne. rewrite (Hout m' Hm'), lookup_alter_ne, lookup_insert_ne by done. done.
Qed.

Lemma retire_spec now names gone i : NoDup gone ->
  let i' := retire now names gone i in
  i_staging i' = i_staging i
  /\ (forall m, m ∉ gone \/ m ∈ names -> i_addons i' !! m = i_addons i !! m /\ i_trash i' !! trash_name now m = i_trash i !! trash_name now m)
  /\ (forall m, m ∈ gone -> m ∉ names -> kept now i i' m
        /\ (allowed (Trash m) = true -> fresh now i m -> i_addons i' !! m = None)).
Proof.
  cbv zeta. unfold Modules.retire. intros Hnd. revert i. induction Hnd as [|m gone Hm _ IH]; intros i; cbn [fold_left].
  { split; [done|]. split; [done|by intros m ?%not_elem_of_nil]. }
  pose proof (mem_spec m names) as Hmem.
  destruct (mem m names) eqn:Emem.
  { destruct (IH i) as (Hs & Hout & Hin). split; [done|]. split.
    - intros m' Hm'. apply Hout. destruct Hm' as [Hm'|Hm']; [left|by right]. intros ?. apply Hm'. by right.
    - intros m' [->|Hm']%elem_of_cons Hn; [by destruct Hn; apply Hmem|by apply Hin]. }
  assert (Hmn : m ∉ names) by (intros ?%Hmem; congruence).
  destruct (Modules.set_aside allowed now m i) as [i1|] eqn:E1; cbn [from_option id].
  - apply set_aside_inv in E1 as (Ha & Hs & Ht & Hk & _). destruct (IH i1) as (Hs' & Hout & Hin).
    split; [congruence|]. split.
    + intros m' Hm'. assert (Hne : m' <> m) by (intros ->; destruct Hm' as [Hm'|Hm']; [apply Hm'; by left|done]).
      destruct (Hout m') as [-> ->]; [destruct Hm' as [Hm'|Hm']; [left; intros ?; apply Hm'; by right|by right]|].
      rewrite Ha, lookup_delete_ne, Ht by done. done.
    + intros m' Hm' Hn'. destruct (decide (m' = m)) as [->|Hne].
      * destruct (Hout m (or_introl Hm)) as [Hao Hto]. split.
        -- intros x Hx. right. rewrite Hto. by apply Hk.
        -- intros _ _. by rewrite Hao, Ha, lookup_delete_eq.
      * apply elem_of_cons in Hm' as [?|Hm']; [done|]. destruct (Hin m' Hm' Hn') as [Hkp Hnone]. split.
        -- intros x Hx. apply Hkp. by rewrite Ha, lookup_delete_ne.
        -- intros Hal Hfr. apply Hnone; [done|]. unfold fresh. by rewrite Ht.
  - destruct (IH i) as (Hs' & Hout & Hin). split; [done|]. split.
    + intros m' Hm'. apply Hout. destruct Hm' as [Hm'|Hm']; [left|by right]. intros ?. apply Hm'. by right.
    + intros m' [->|Hm']%elem_of_cons Hn'; [|by apply Hin]. destruct (Hout m (or_introl Hm)) as [Hao Hto]. split.
      * intros x Hx. left. by rewrite Hao.
      * intros Hal Hfr. rewrite Hao. unfold Modules.set_aside in E1. destruct (i_addons i !! m) as [old|]; [exfalso|done].
        unfold Modules.rename in E1. rewrite Hal, Hfr in E1. done.
Qed.

(** ** What the trash is emptied of *)
Lemma start_sweep_same spawns now i : i_addons (start_sweep spawns now i) = i_addons i /\ i_trash (start_sweep spawns now i) = i_trash i
  /\ (i_sweeps (start_sweep spawns now i) = i_sweeps i \/ i_sweeps (start_sweep spawns now i) = now + 60 :: i_sweeps i).
Proof. unfold start_sweep. destruct spawns; auto. Qed.
Lemma set_aside_sweeps now m i i' : set_aside now m i = Some i' -> i_sweeps i' = i_sweeps i.
Proof.
  unfold Modules.set_aside. destruct (i_addons i !! m) as [old|]; [|by intros [= <-]].
  destruct (Modules.rename _ _ _ _ _); [|done]. by intros [= <-].
Qed.
Lemma install_sweeps now ms : forall i r i', install now ms i = (r, i') -> i_sweeps i' = i_sweeps i.
Proof.
  induction ms as [|m ms IH]; intros i r i'; cbn [Modules.install]; [by intros [= <- <-]|].
  destruct (Modules.set_aside _ _ _ _) as [i1|] eqn:E; [|by intros [= <- <-]]. apply set_aside_sweeps in E.
  destruct (Modules.install_one _ _ _) as [i2|] eqn:E2; [|intros [= <- <-]; exact E].
  intros Hi. rewrite (IH _ _ _ Hi), <- E. unfold Modules.install_one in E2. destruct (i_staging i1 !! m); [|done]. cbn in E2.
  destruct (Modules.rename _ _ _ _ _); [|done]. by injection E2 as <-.
Qed.
Lemma retire_sweeps now names gone i : i_sweeps (retire now names gone i) = i_sweeps i.
Proof.
  unfold Modules.retire. revert i. induction gone as [|m gone IH]; intros i; [done|]. cbn [fold_left]. rewrite IH.
  destruct (mem m names); [done|]. destruct (Modules.set_aside _ _ _ _) as [i1|] eqn:E; [by apply set_aside_sweeps in E|done].
Qed.
(** nothing happens before the first thread wakes *)
Lemma no_sweep_due t i i' : Forall (fun d => t < d) (i_sweeps i) -> rtc (sweep t) i i' -> i' = i.
Proof.
  intros Hd. destruct 1 as [|i1 i2 i3 Hs _]; [done|]. exfalso. destruct Hs as [left l1 d l2 i E Hle].
  rewrite E in Hd. apply list.Forall_app in Hd as [_ Hd]. apply list.Forall_cons in Hd as [Hd _]. lia.
Qed.

Section explode.
Context (fuel : nat) (fs : node -> node) (root : list string) (clone_tmp : string) (now : Z) (spawns : bool).
Context (subdir_hint url : string) (reference : option string) (sha : string) (cloned : node).
Notation subs := (has_submodules cloned).
Notation at_root := (manifest_at_root cloned).
Notation clone := (clean cloned).
Notation found := (find_modules subs at_root subdir_hint url reference clone).
Notation hash_at := (new_hash git subs at_root clone_tmp clone).
Notation explode := (explode_modules git clean allowed said fuel fs root clone_tmp now spawns subdir_hint url reference sha cloned).
Notation text := (source_text url reference sha).

Context (Hhint : is_safe_identifier subdir_hint = true) (Hok : tree_ok clone = true).

Lemma found_names ms : found = inr ms -> NoDup (map snd ms) /\ Forall (fun m => is_safe_identifier m.2 = true) ms.
Proof.
  unfold find_modules. destruct subs.
  - destruct (scan_modules_recursive clone) as [|m0 l0] eqn:Es; [done|]. rewrite <- Es.
    destruct (find _ _) as [[]|] eqn:Ef; [done|]. destruct (detect_name_collisions _) eqn:Ec; [|done]. intros [= <-].
    split; [by apply no_collisions_iff|]. apply List.Forall_forall. intros m Hm.
    pose proof (List.find_none _ _ Ef m Hm) as Hn. by apply negb_false_iff in Hn.
  - destruct at_root.
    + intros [= <-]. split; [apply NoDup_singleton|by constructor].
    + destruct clone as [t|es]; [done|]. destruct (first_level es) as [|ms'] eqn:El; [done|]. destruct ms' as [|m0 l0]; [done|].
      intros [= <-]. apply first_level_inv in El as [Hs Hf]. split.
      * cbn in Hok. apply andb_true_iff in Hok as [Hn _]. apply bool_decide_eq_true in Hn. by eapply sublist_NoDup.
      * eapply Forall_impl; [|exact Hf]. by intros m (? & ? & ? & ? & ?).
Qed.

Lemma zipped (ms : list (list string * string)) : map (fun m => m.1.2) (zip ms (map (fun m => hash_at m.1) ms)) = map snd ms.
Proof. induction ms as [|[p m] ms IH]; [done|]. cbn. by rewrite IH. Qed.
Lemma zip_in (ms : list (list string * string)) p m : (p, m) ∈ ms -> (p, m, hash_at p) ∈ zip ms (map (fun m => hash_at m.1) ms).
Proof.
  induction ms as [|m' ms IH]; [by intros ?%not_elem_of_nil|]. intros [<-|Hm]%elem_of_cons; [by left|right; by apply IH].
Qed.

Lemma explode_inv i d i' : explode i = Some (inr d, i') ->
  exists (ms : list (list string * string)) s i1, found = inr ms /\ modules d = map snd ms
    /\ populate text clone (zip ms (map (fun m => hash_at m.1) ms)) (i_staging i) = (inr (), s)
    /\ install now (map snd ms) (i <| i_staging := s |>) = (inr (), i1)
    /\ i' = start_sweep spawns now (retire now (map snd ms) (list_dir (dom (read_addons_state (i_addons i)))) i1)
    /\ d = (let prev := read_addons_state (i_addons i) in let z := zip (map snd ms) (map (fun m => hash_at m.1) ms) in
            mkExplode (map snd ms) (of_class 0 prev z) (of_class 1 prev z) (of_class 2 prev z)
              (filter (fun k => negb (mem k (map snd ms))) (list_dir (dom prev)))).
Proof.
  unfold explode_modules. destruct (if subs then _ else _) as [[r|]|]; [done| |done]. cbn [mbind option_bind].
  destruct found as [|ms] eqn:Ef; [done|]. destruct (Modules.populate _ _ _ _ _ _) as [[|[]] s] eqn:Ep; [done|].
  destruct (Modules.install _ _ _ _ _) as [[|[]] i1] eqn:Ei; [done|]. intros [= <- <-]. exists ms, s, i1. done.
Qed.

Lemma list_dir_spec (s : gset string) : NoDup (list_dir s) /\ forall m, m ∈ list_dir s <-> m ∈ s.
Proof.
  split; [rewrite list_dir_perm; apply NoDup_elements|]. intros m. rewrite list_dir_perm. apply elem_of_elements.
Qed.

Lemma deploy_kept i r i' : explode i = Some (r, i') ->
  (forall m, kept now i i' m)
  /\ (forall e, r = inl e -> i_addons i' = i_addons i
        \/ exists m, e = move_failed said "module_trash_failed" (Trash m) \/ e = move_failed said "module_install_failed" (Install m))
  /\ (i_sweeps i' = i_sweeps i \/ (exists d, r = inr d) /\ i_sweeps i' = now + 60 :: i_sweeps i).
Proof.
  intros He. destruct r as [e|d].
  - unfold explode_modules in He. destruct (if subs then _ else _) as [[r|]|]; [..|done]; cbn [mbind option_bind] in He.
    { injection He as <- <-. split; [intros m n ?; by left|by split; left]. }
    destruct found as [r|ms] eqn:Ef; [injection He as <- <-; split; [intros m n ?; by left|by split; left]|].
    destruct (Modules.populate _ _ _ _ _ _) as [[r|[]] s] eqn:Ep; [injection He as <- <-; split; [intros m n ?; by left|by split; left]|].
    destruct (Modules.install _ _ _ _ _) as [[r|[]] i1] eqn:Ei; [|done]. injection He as <- <-.
    destruct (install_spec _ _ _ _ _ (proj1 (found_names _ Ef)) Ei) as (Hout & Hk & _). split; [|split; [|left; by rewrite (install_sweeps _ _ _ _ _ Ei)]].
    + intros m n Hn. destruct (decide (m ∈ map snd ms)) as [Hm|Hm]; [by apply (Hk m Hm n)|left]. by destruct (Hout m Hm) as [-> _].
    + intros e' [= <-]. right. clear -Ei. revert Ei. generalize (i <| i_staging := s |>). generalize (map snd ms).
      intros l. induction l as [|m l IH]; intros j; cbn [Modules.install]; [done|].
      destruct (Modules.set_aside _ _ _ _); [|intros [= <- <-]; exists m; by left].
      destruct (Modules.install_one _ _ _); [|intros [= <- <-]; exists m; by right]. apply IH.
  - apply explode_inv in He as (ms & s & i1 & Hf & _ & Hp & Hi & -> & _).
    match goal with |- context [start_sweep spawns now ?j] => destruct (start_sweep_same spawns now j) as (Ea & Etr & Es) end.
    split; [|split; [done|]].
    2:{ rewrite retire_sweeps, (install_sweeps _ _ _ _ _ Hi) in Es. cbn in Es. destruct Es as [Es|Es]; rewrite Es; [by left|right; split; [by exists d|done]]. }
    destruct (install_spec _ _ _ _ _ (proj1 (found_names _ Hf)) Hi) as (Hout & Hk & _).
    destruct (list_dir_spec (dom (read_addons_state (i_addons i)))) as [Hnd Hel].
    destruct (retire_spec now (map snd ms) _ i1 Hnd) as (_ & Hro & Hrk). intros m n Hn. rewrite Ea, Etr.
    destruct (decide (m ∈ map snd ms)) as [Hm|Hm].
    + destruct (Hro m (or_intror Hm)) as [-> ->]. by apply (Hk m Hm).
    + destruct (Hout m Hm) as (Ha & Ht & _). cbn in Ha, Ht.
      destruct (decide (m ∈ list_dir (dom (read_addons_state (i_addons i))))) as [Hg|Hg].
      * apply (proj1 (Hrk m Hg Hm)). by rewrite Ha.
      * destruct (Hro m (or_introl Hg)) as [-> _]. left. by rewrite Ha.
Qed.

(** a directory of addons/ that is not hidden *)
Definition visible (addons : gmap string node) m : Prop :=
  exists n, addons !! m = Some n /\ is_dir (Some n) = true /\ starts_with "." m = false.
Lemma state_lookup addons m : read_addons_state addons !! m =
  n ← addons !! m; if is_dir (Some n) && negb (starts_with "." m) then Some (default "" (read_prev_content_hash n)) else None.
Proof. unfold read_addons_state. by rewrite map_lookup_imap. Qed.
Lemma state_dom addons m : m ∈ dom (read_addons_state addons) <-> visible addons m.
Proof.
  rewrite elem_of_dom, state_lookup. unfold visible. destruct (addons !! m) as [n|]; cbn; [|split; [by intros []|by intros (? & ? & _)]].
  split.
  - intros [x Hx]. exists n. destruct n as [|es], (starts_with "." m); by try done.
  - intros (n' & [= <-] & Hd & Hs). rewrite Hd, Hs. by eexists.
Qed.

Lemma publishes i d i' : explode i = Some (inr d, i') ->
  exists ms, found = inr ms /\ modules d = map snd ms /\ NoDup (modules d)
    /\ (forall p m, (p, m) ∈ ms -> exists n, at_path p clone = Some n
          /\ i_addons i' !! m = Some (write_nkr_source (text (default "" (hash_at p))) n))
    /\ (forall m, m ∉ modules d -> ~ visible (i_addons i) m -> i_addons i' !! m = i_addons i !! m)
    /\ (forall m, m ∉ modules d -> visible (i_addons i) m -> allowed (Trash m) = true -> fresh now i m -> i_addons i' !! m = None).
Proof.
  intros (ms & s & i1 & Hf & Hm & Hp & Hi & -> & _)%explode_inv. destruct (found_names _ Hf) as [Hnd _].
  exists ms. rewrite Hm. do 3 (split; [done|]).
  destruct (install_spec _ _ _ _ _ Hnd Hi) as (Hout & _ & Hin). cbn [i_staging set_field] in Hin.
  destruct (populate_spec (text) clone _ _ _ (eq_ind_r (fun l => NoDup l) Hnd (zipped ms)) Hp) as [Hpin _].
  destruct (list_dir_spec (dom (read_addons_state (i_addons i)))) as [Hndl Hel].
  match goal with |- context [start_sweep spawns now ?j] => destruct (start_sweep_same spawns now j) as (-> & _ & _) end.
  destruct (retire_spec now (map snd ms) _ i1 Hndl) as (_ & Hro & Hrk). split; [|split].
  - intros p m Hpm. destruct (Hpin p m (hash_at p) (zip_in _ _ _ Hpm)) as (n & Hn & Hsm). exists n. split; [done|].
    assert (Hmm : m ∈ map snd ms) by (apply list_elem_of_fmap; by exists (p, m)).
    destruct (Hro m (or_intror Hmm)) as [-> _]. by destruct (Hin eq_refl m Hmm) as [-> _].
  - intros m Hmm Hv. assert (Hg : m ∉ list_dir (dom (read_addons_state (i_addons i)))) by (by rewrite Hel, state_dom).
    destruct (Hro m (or_introl Hg)) as [-> _]. by destruct (Hout m Hmm) as [-> _].
  - intros m Hmm Hv Ha Hfr. assert (Hg : m ∈ list_dir (dom (read_addons_state (i_addons i)))) by (by rewrite Hel, state_dom).
    apply (Hrk m Hg Hmm); [done|]. unfold fresh. by destruct (Hout m Hmm) as (_ & -> & _).
Qed.

(** After a deployment addons/ holds the modules of the repository, each with its source file
    beside it; what else was not a visible directory is as it was, and the modules that left
    the repository are gone. *)
Theorem deploy_publishes i d i' : explode i = Some (inr d, i') ->
  exists ms, found = inr ms /\ modules d = map snd ms /\ NoDup (modules d)
    /\ (forall p m, (p, m) ∈ ms -> exists n, at_path p clone = Some n
          /\ i_addons i' !! m = Some (write_nkr_source (text (default "" (hash_at p))) n))
    /\ (forall m, m ∉ modules d -> ~ visible (i_addons i) m -> i_addons i' !! m = i_addons i !! m)
    /\ (forall m, m ∉ modules d -> visible (i_addons i) m -> allowed (Trash m) = true -> fresh now i m -> i_addons i' !! m = None).
Proof. apply publishes. Qed.

Lemma of_class_in c prev ms m : m ∈ of_class c prev ms <-> exists h, (m, h) ∈ ms /\ classify_module prev m h = c.
Proof.
  unfold of_class. rewrite list_elem_of_fmap. split.
  - intros ([m' h] & -> & [Hc Hin]%list_elem_of_filter). by exists h.
  - intros (h & Hin & Hc). exists (m, h). split; [done|]. by apply list_elem_of_filter.
Qed.
Lemma classified prev m h :
  (classify_module prev m h = 0 <-> prev !! m = None)
  /\ (classify_module prev m h = 2 <-> exists p, prev !! m = Some p /\ p <> "" /\ h = Some p)
  /\ (classify_module prev m h = 0 \/ classify_module prev m h = 1 \/ classify_module prev m h = 2).
Proof.
  unfold classify_module. destruct (prev !! m) as [p|]; [|split; [done|]; split; [split; [done|by intros (? & ? & _)]|by left]].
  destruct (decide (p <> "" /\ h = Some p)) as [[Hp ->]|Hn].
  - cbn. rewrite !bool_decide_true by done. cbn. split; [done|]. split; [|by auto]. split; [intros _; by exists p|done].
  - replace (bool_decide (p <> "") && bool_decide (default "" h <> "") && bool_decide (p = default "" h)) with false.
    + split; [done|]. split; [|by auto]. split; [done|]. intros (p' & [= <-] & Hp & ->). by destruct Hn.
    + symmetry. apply not_true_is_false. rewrite !andb_true_iff, !bool_decide_eq_true. intros [[Hp Hh] He]. apply Hn.
      destruct h as [h|]; cbn in *; [by subst|done].
Qed.

(** The report of a deployment is right: a module is added when no directory of its name was
    there, unchanged when the hash written by an earlier deployment is its hash, updated
    otherwise; removed are the visible directories that the repository does not have. *)
Theorem deploy_report i d i' m : explode i = Some (inr d, i') ->
  (m ∈ modules d <-> m ∈ added d \/ m ∈ updated d \/ m ∈ unchanged d)
  /\ (m ∈ added d <-> m ∈ modules d /\ ~ visible (i_addons i) m)
  /\ (m ∈ removed d <-> m ∉ modules d /\ visible (i_addons i) m)
  /\ (m ∈ unchanged d -> exists n h, i_addons i !! m = Some n /\ read_prev_content_hash n = Some h /\ is_hash h = true).
Proof.
  intros (ms & s & i1 & _ & Hm & _ & _ & _ & ->)%explode_inv. cbn [modules added updated unchanged removed].
  set (prev := read_addons_state (i_addons i)). set (z := zip (map snd ms) (map (fun m => hash_at m.1) ms)).
  assert (Hz : forall m, m ∈ map snd ms <-> exists h, (m, h) ∈ z).
  { clear. subst z. intros m. induction ms as [|[p m'] ms IH]; cbn.
    - split; [by intros ?%not_elem_of_nil|by intros [? ?%not_elem_of_nil]].
    - rewrite elem_of_cons, IH. setoid_rewrite elem_of_cons. split; [intros [->|[h Hh]]; eauto|].
      intros (h & [[= -> _]|Hh]); eauto. }
  assert (Hdom : forall m, prev !! m = None <-> ~ visible (i_addons i) m).
  { intros m'. unfold prev. by rewrite <- state_dom, not_elem_of_dom. }
  rewrite !of_class_in, Hz. split; [|split; [|split]].
  - split; [|intros [(h & ? & _)|[(h & ? & _)|(h & ? & _)]]; by exists h]. intros [h Hh].
    destruct (classified prev m h) as (_ & _ & [H0'|[H1'|H2']]); [left|right; left|right; right]; by exists h.
  - split.
    + intros (h & Hh & Hc). split; [by exists h|]. apply Hdom. by apply (classified prev m h).
    + intros [[h Hh] Hv]. exists h. split; [done|]. apply (classified prev m h). by apply Hdom.
  - rewrite list_elem_of_filter. destruct (list_dir_spec (dom prev)) as [_ Hel]. rewrite Hel. unfold prev at 1.
    rewrite state_dom, <- Hz, <- mem_spec. by destruct (mem m (map snd ms)); cbn; split; intros []; split.
  - intros (h & Hh & (p & Hp & Hne & ->)%(classified prev m h)). unfold prev in Hp. rewrite state_lookup in Hp.
    destruct (i_addons i !! m) as [[|es]|]; [done| |done]. cbn [mbind option_bind is_dir andb] in Hp.
    destruct (negb _); [|done]. set (n := NDir es) in *. injection Hp as Hp.
    destruct (read_prev_content_hash n) as [h|] eqn:Eh; cbn in Hp; [|by subst]. exists n, h. split; [done|]. split; [done|].
    unfold read_prev_content_hash in Eh. destruct (read_to_string (child SOURCE n)) as [t|]; [|done]. cbn in Eh.
    assert (Hin : h ∈ omap content_line (lines t)) by (destruct (omap _ _); [done|injection Eh as ->; by left]).
    apply list_elem_of_omap in Hin as (l & _ & Hl). unfold content_line in Hl. destruct (strip_prefix _ l); [|done]. cbn in Hl.
    destruct (is_hash _) eqn:Ehh; [|done]. by injection Hl as <-.
Qed.
End explode.
End deploy_lemmas.

Lemma new_hash_ok git subs at_root clone_tmp clone p h : new_hash git subs at_root clone_tmp clone p = Some h -> is_hash h = true.
Proof.
  assert (Ht : forall r rel, git_tree_hash git r rel = Some h -> is_hash h = true).
  { intros r rel. unfold git_tree_hash. destruct (git _) as [[[] o] e]; [|done]. destruct (is_hash _) eqn:E; [|done]. by intros [= <-]. }
  unfold new_hash. destruct (_ && _); [apply Ht|]. destruct (nearest_git_root clone p); [apply Ht|done].
Qed.
Lemma found_dirs `{Serde} subs at_root hint url reference clone ms : tree_ok clone = true -> is_dir (Some clone) = true ->
  find_modules subs at_root hint url reference clone = inr ms ->
  forall p m, (p, m) ∈ ms -> exists es, at_path p clone = Some (NDir es).
Proof.
  intros Hok Hd. unfold find_modules. destruct subs.
  - destruct (scan_modules_recursive clone) as [|m0 l0] eqn:Es; [done|]. rewrite <- Es.
    destruct (find _ _) as [[]|]; [done|]. destruct (detect_name_collisions _); [|done]. intros [= <-] p m Hin.
    apply scan_exact in Hin as [Ht _]; [|done]. by apply top_module_at.
  - destruct at_root.
    + intros [= <-] p m [= -> ->]%list_elem_of_singleton. destruct clone as [|es]; [done|by exists es].
    + destruct clone as [t|es]; [done|]. destruct (first_level es) as [|ms'] eqn:El; [done|]. destruct ms' as [|m0 l0]; [done|].
      intros [= <-] p m Hin. apply first_level_inv in El as [_ Hf]. rewrite list.Forall_forall in Hf.
      destruct (Hf _ Hin) as (c & Hp & Hc & Hdc & _). cbn in Hp, Hc. subst p. destruct c as [|es']; [done|]. exists es'. cbn.
      cbn in Hok. apply andb_true_iff in Hok as [Hn _]. apply bool_decide_eq_true in Hn. by rewrite (assoc_in m es (NDir es')).
Qed.

Lemma zip_names {A} (ms : list (list string * string)) (f : list string -> A) m h :
  (m, h) ∈ zip (map snd ms) (map (fun m => f m.1) ms) -> exists p, (p, m) ∈ ms /\ h = f p.
Proof.
  induction ms as [|[p m'] ms IH]; cbn; [by intros ?%not_elem_of_nil|]. intros [[= -> ->]|Hin]%elem_of_cons.
  - exists p. by split; [left|].
  - destruct (IH Hin) as (p' & Hp & ->). exists p'. by split; [right|].
Qed.
Lemma map_fst_zip (ms : list (list string * string)) {A} (f : list string -> A) :
  map fst (zip (map snd ms) (map (fun m => f m.1) ms)) = map snd ms.
Proof. induction ms as [|m ms IH]; [done|]. cbn. by rewrite IH. Qed.

(** Deploying a repository again changes nothing that the report would show: when the hashes
    of all its modules are known and what left was retired, every module is unchanged. *)
Theorem redeploy_unchanged `{Serde} `{Listing} `{!ListingLaws} git clean allowed said fuel fs root clone_tmp now now' spawns
    hint url reference sha cloned i d i' d' i'' :
  let explode n := explode_modules git clean allowed said fuel fs root clone_tmp n spawns hint url reference sha cloned in
  let found := find_modules (has_submodules cloned) (manifest_at_root cloned) hint url reference (clean cloned) in
  is_safe_identifier hint = true -> tree_ok (clean cloned) = true -> is_dir (Some (clean cloned)) = true ->
  plain_text url -> plain_text (default "" reference) -> plain_text sha ->
  (forall ms p m, found = inr ms -> (p, m) ∈ ms ->
    is_Some (new_hash git (has_submodules cloned) (manifest_at_root cloned) clone_tmp (clean cloned) p)
    /\ is_dir (at_path (p ++ [SOURCE]) (clean cloned)) = false) ->
  explode now i = Some (inr d, i') ->
  (forall m, m ∈ removed d -> allowed (Trash m) = true /\ fresh now i m) ->
  explode now' (i' <| i_staging := ∅ |>) = Some (inr d', i'') ->
  modules d' = modules d /\ unchanged d' = modules d /\ added d' = [] /\ updated d' = [] /\ removed d' = [].
Proof.
  cbv zeta. intros Hhint Hok Hdir Hu Hr Hs Hms He Hret He'.
  pose proof (fun m => deploy_report git clean allowed said fuel fs root clone_tmp now spawns hint url reference sha cloned i d i' m He) as Hrep.
  apply publishes in He as (ms & Hf & Hm & Hnd & Hin & Hsame & Hgone); [|done..].
  apply explode_inv in He' as (ms' & s & i1 & Hf' & _ & _ & _ & _ & ->). rewrite Hf in Hf'. injection Hf' as <-.
  cbn [modules added updated unchanged removed]. cbv zeta. cbn [i_addons set_field].
  set (prev := read_addons_state (i_addons i')).
  set (z := zip (map snd ms) (map (fun m => new_hash git (has_submodules cloned) (manifest_at_root cloned) clone_tmp (clean cloned) m.1) ms)).
  assert (Hz : forall e, e ∈ z -> classify_module prev e.1 e.2 = 2).
  { intros [m h] (p & Hp & ->)%zip_names. cbn [fst snd]. apply classified. destruct (Hms ms p m Hf Hp) as [[h Hh] Hsrc].
    destruct (found_dirs _ _ _ _ _ _ _ Hok Hdir Hf p m Hp) as [es Hes]. destruct (Hin p m Hp) as (n & Hn & Ha).
    rewrite Hes in Hn. injection Hn as <-. rewrite Hh in Ha. cbn [from_option id] in Ha. pose proof (new_hash_ok _ _ _ _ _ _ _ Hh) as Hhash.
    assert (Hd : is_dir (assoc SOURCE es) = false).
    { clear -Hsrc Hes. revert Hes Hsrc. generalize (clean cloned). induction p as [|k p IH]; intros t; cbn [at_path app].
      - intros [= ->]. cbn. by destruct (assoc SOURCE es).
      - destruct (child k t) as [c|]; [|done]. cbn [mbind option_bind]. apply IH. }
    exists h. rewrite Hh. split; [|split; [by intros ->|done]]. unfold prev. rewrite state_lookup, Ha. cbn [mbind option_bind].
    assert (Hsm : starts_with "." m = false).
    { assert (Hsafe : is_safe_identifier m = true).
      { pose proof (proj2 (found_names clean hint url reference cloned Hhint Hok ms Hf)) as Hall.
        rewrite list.Forall_forall in Hall. exact (Hall _ Hp). }
      unfold is_safe_identifier in Hsafe. apply not_true_is_false. intros Hdot. rewrite Hdot, !orb_true_r, andb_false_r in Hsafe. done. }
    rewrite source_round_trip by done. cbn [write_nkr_source]. rewrite Hd, Hsm. done. }
  unfold of_class. rewrite (filter_all _ z) by done. rewrite (filter_none (fun m => classify_module prev m.1 m.2 = 0) z),
    (filter_none (fun m => classify_module prev m.1 m.2 = 1) z) by (intros e He; rewrite (Hz e He); done).
  unfold z. rewrite map_fst_zip, Hm. do 4 (split; [done|]). apply filter_none. intros k Hk Hneg. apply negb_prop_elim in Hneg.
  assert (Hkm : k ∉ map snd ms).
  { intros Hkm%mem_spec. apply Hneg. by rewrite Hkm. }
  destruct (list_dir_spec (dom prev)) as [_ Hel]. apply Hel in Hk. unfold prev in Hk. apply state_dom in Hk.
  rewrite <- Hm in Hkm. destruct Hk as (n & Hn & Hdn & Hs').
  destruct (i_addons i !! k) as [n0|] eqn:E0.
  - destruct (decide (is_dir (Some n0) = true)) as [Hd0|Hd0].
    + assert (Hv : visible (i_addons i) k) by (by exists n0). destruct (Hret k) as [Ha Hfr]; [by apply (Hrep k)|].
      rewrite (Hgone k Hkm Hv Ha Hfr) in Hn. done.
    + assert (Hv : ~ visible (i_addons i) k) by (intros (? & ? & ? & _); congruence). rewrite (Hsame k Hkm Hv), E0 in Hn. congruence.
  - assert (Hv : ~ visible (i_addons i) k) by (intros (? & ? & _); congruence). rewrite (Hsame k Hkm Hv), E0 in Hn. done.
Qed.

(** ** What the validation of submodules finds *)
Section validation.
Context (fs : node).

Definition declares (cur : list string) (val : string) : Prop :=
  exists content line, read_to_string (at_path (cur ++ [GITMODULES]) fs) = Some content /\ line ∈ lines content
    /\ declared_path line = Some val.
Definition has (f : string) (sub : list string) : bool := is_file (at_path (sub ++ [f]) fs).
(** a declared submodule whose directory is not empty *)
Definition filled (cur : list string) (val : string) (sub : list string) : Prop :=
  join fs cur val = Some sub /\ entry_count (at_path sub fs) <> 0%nat.
Definition grouper (cur : list string) (val : string) (sub : list string) : Prop :=
  filled cur val sub /\ has GITMODULES sub = true.
(** the faults of a declaration: an empty directory, or neither module nor grouper *)
Definition faulty (empty : bool) (cur : list string) (val : string) : Prop :=
  if empty then ~ exists sub, filled cur val sub
  else exists sub, filled cur val sub /\ has MANIFEST sub = false /\ has GITMODULES sub = false.
(** the fault is reached through groupers *)
Inductive fault (empty : bool) : list string -> list string -> Prop :=
  | fault_here cur val : declares cur val -> faulty empty cur val -> fault empty cur [val]
  | fault_below cur val sub c : declares cur val -> grouper cur val sub -> fault empty sub c -> fault empty cur (val :: c).

Definition reported (empty : bool) (v : SubmoduleValidation) : list (list string) := if empty then v_empty v else v_no_manifest v.

(** one line of the file, with what is found below it *)
Definition line_fault (empty : bool) (cur : list string) (line : string) (c : list string) : Prop :=
  exists val, declared_path line = Some val
    /\ ((c = [val] /\ faulty empty cur val) \/ exists sub c', grouper cur val sub /\ c = val :: c' /\ fault empty sub c').
Lemma fault_lines empty cur content c : read_to_string (at_path (cur ++ [GITMODULES]) fs) = Some content ->
  fault empty cur c <-> exists line, line ∈ lines content /\ line_fault empty cur line c.
Proof.
  intros Hc. split.
  - intros Hf. inversion Hf as [cur' val Hd Hb|cur' val sub c' Hd Hg Hs]; subst; destruct Hd as (t & line & Ht & Hl & Hp);
      rewrite Hc in Ht; injection Ht as <-; exists line; (split; [done|]); exists val; (split; [done|]); [by left|right; by exists sub, c'].
  - intros (line & Hl & val & Hp & [[-> Hb]|(sub & c' & Hg & -> & Hs)]).
    + apply fault_here; [|done]. by exists content, line.
    + apply (fault_below _ _ _ sub); [|done..]. by exists content, line.
Qed.

Lemma fold_none {A B} (f : B -> A -> option B) ls : fold_left (fun acc x => v ← acc; f v x) ls None = None.
Proof. by induction ls. Qed.
(** a fold of a step that appends *)
Lemma fold_reports empty chain cur ls (f : SubmoduleValidation -> string -> option SubmoduleValidation) v v' :
  (forall v line v', f v line = Some v' -> exists es, reported empty v' = reported empty v ++ es
     /\ forall c, c ∈ es <-> exists c', c = chain ++ c' /\ line_fault empty cur line c') ->
  fold_left (fun acc line => v ← acc; f v line) ls (Some v) = Some v' ->
  exists es, reported empty v' = reported empty v ++ es
    /\ forall c, c ∈ es <-> exists c' line, c = chain ++ c' /\ line ∈ ls /\ line_fault empty cur line c'.
Proof.
  intros Hf. revert v. induction ls as [|line ls IH]; intros v; cbn [fold_left].
  { intros [= <-]. exists []. rewrite app_nil_r. split; [done|]. intros c. split; [by intros ?%not_elem_of_nil|].
    by intros (? & ? & _ & ?%not_elem_of_nil & _). }
  change (Some v ≫= (fun v => f v line)) with (f v line). destruct (f v line) as [v1|] eqn:E; [|by rewrite fold_none].
  intros H. destruct (Hf _ _ _ E) as (es1 & R1 & H1), (IH _ H) as (es2 & R2 & H2). exists (es1 ++ es2).
  rewrite R2, R1, app_assoc. split; [done|]. intros c. rewrite elem_of_app, H1, H2. setoid_rewrite elem_of_cons. split.
  - intros [(c' & -> & Hc)|(c' & line' & -> & Hl & Hc)]; [exists c', line|exists c', line']; auto.
  - intros (c' & line' & -> & [->|Hl] & Hc); [left; by exists c'|right; by exists c', line'].
Qed.

Lemma filled_at cur val sub : join fs cur val = Some sub -> (exists sub', filled cur val sub') <-> entry_count (at_path sub fs) <> 0%nat.
Proof. intros E. split; [intros (s & Hs & Hc); congruence|intros Hc; by exists sub]. Qed.

Lemma walk_exact empty fuel : forall cur chain v v', walk_gitmodules_strict fuel fs cur chain v = Some v' ->
  exists es, reported empty v' = reported empty v ++ es /\ forall c, c ∈ es <-> exists c', c = chain ++ c' /\ fault empty cur c'.
Proof.
  induction fuel as [|fuel IH]; intros cur chain v v'; [done|]. cbn [walk_gitmodules_strict].
  destruct (read_to_string _) as [content|] eqn:Ec.
  2: { intros [= <-]. exists []. rewrite app_nil_r. split; [done|]. intros c. split; [by intros ?%not_elem_of_nil|].
       intros (c' & _ & Hf). exfalso. inversion Hf as [? ? Hd|? ? ? ? Hd]; subst; destruct Hd as (? & ? & Ht & _); congruence. }
  intros H. apply (fold_reports empty chain cur) in H.
  { destruct H as (es & R & Hes). exists es. split; [done|]. intros c. rewrite Hes. split.
    - intros (c' & line & -> & Hl & Hf). exists c'. split; [done|]. apply (fault_lines _ _ _ _ Ec). by exists line.
    - intros (c' & -> & (line & Hl & Hf)%(fault_lines _ _ _ _ Ec)). by exists c', line. }
  clear H v v'. intros v line v'. unfold line_fault. destruct (declared_path line) as [val|]; cbn [mbind option_bind].
  2: { intros [= <-]. exists []. rewrite app_nil_r. split; [done|]. intros c. split; [by intros ?%not_elem_of_nil|]. by intros (? & _ & ? & ? & _). }
  assert (Hone : forall b : bool, (b = true <-> faulty empty cur val) -> (forall sub, ~ grouper cur val sub) ->
    forall c, c ∈ (if b then [chain ++ [val]] else []) <-> exists c', c = chain ++ c' /\ exists val', Some val = Some val' /\
      (c' = [val'] /\ faulty empty cur val' \/ exists sub c'', grouper cur val' sub /\ c' = val' :: c'' /\ fault empty sub c'')).
  { intros b Hb Hng c. split.
    - destruct b; [|by intros ?%not_elem_of_nil]. intros ->%list_elem_of_singleton.
      exists [val]. split; [done|]. exists val. split; [done|]. left. split; [done|]. by apply Hb.
    - intros (c' & -> & val' & [= <-] & [[-> Hf]|(sub & c'' & Hg & _)]); [|by destruct (Hng sub)].
      apply Hb in Hf as ->. by apply list_elem_of_singleton. }
  assert (Hempty : (forall sub, ~ filled cur val sub) -> Some (v <| v_empty ::= fun l => l ++ [chain ++ [val]] |>) = Some v' ->
    exists es, reported empty v' = reported empty v ++ es /\ forall c, c ∈ es <-> exists c', c = chain ++ c' /\ exists val', Some val = Some val' /\
      (c' = [val'] /\ faulty empty cur val' \/ exists sub c'', grouper cur val' sub /\ c' = val' :: c'' /\ fault empty sub c'')).
  { intros Hn [= <-]. exists (if empty then [chain ++ [val]] else []). split; [destruct empty; cbn; by rewrite ?app_nil_r|].
    apply Hone; [|intros sub [Hf _]; by apply (Hn sub)].
    destruct empty; cbn; split; try done; [intros _ [sub Hf]; by apply (Hn sub)|intros (sub & Hf & _); by destruct (Hn sub)]. }
  destruct (join fs cur val) as [sub|] eqn:Ej; [|apply Hempty; intros sub [Hj _]; congruence].
  case_bool_decide as En; [apply Hempty; intros sub' [Hj Hc]; congruence|].
  assert (Hfill : filled cur val sub) by done. assert (Huniq : forall sub', filled cur val sub' -> sub' = sub) by (intros sub' [Hj _]; congruence).
  clear Hempty. fold (has MANIFEST sub). fold (has GITMODULES sub).
  destruct (has GITMODULES sub) eqn:Egm.
  - rewrite andb_false_r. intros (es & R & Hes)%IH. exists es. split; [done|]. intros c. rewrite Hes. split.
    + intros (c' & -> & Hf). exists (val :: c'). rewrite <- app_assoc. split; [done|]. exists val. split; [done|]. right. by exists sub, c'.
    + intros (c' & -> & val' & [= <-] & [[-> Hf]|(sub' & c'' & [Hf' _] & -> & Hs)]).
      * exfalso. destruct empty; [apply Hf; by exists sub|]. destruct Hf as (s2 & Hf2%Huniq & _ & Hg). subst. congruence.
      * apply Huniq in Hf' as ->. exists c''. by rewrite <- app_assoc.
  - rewrite andb_true_r. assert (Hng : forall sub', ~ grouper cur val sub') by (intros sub' [->%Huniq Hg]; congruence).
    destruct (has MANIFEST sub) eqn:Em; cbn [negb].
    + intros [= <-]. exists []. rewrite app_nil_r. split; [done|]. apply (Hone false); [|done].
      split; [done|]. destruct empty; [intros Hf; destruct Hf; by exists sub|intros (s2 & ->%Huniq & ? & _); congruence].
    + intros [= <-]. exists (if negb empty then [chain ++ [val]] else []). split; [destruct empty; cbn; by rewrite ?app_nil_r|].
      apply Hone; [|done]. destruct empty; cbn; split; try done; [intros Hf; destruct Hf; by exists sub|]. intros _. by exists sub.
Qed.
End validation.

Lemma validation_reports fuel fs root v : validate_submodules_strict fuel fs root = Some v ->
  (forall c, c ∈ v_empty v <-> fault fs true root c) /\ (forall c, c ∈ v_no_manifest v <-> fault fs false root c).
Proof.
  intros H. split.
  - destruct (walk_exact fs true _ _ _ _ _ H) as (es & R & Hes). cbn in R. rewrite R. intros c. rewrite Hes.
    split; [by intros (c' & -> & ?)|intros ?; by exists c].
  - destruct (walk_exact fs false _ _ _ _ _ H) as (es & R & Hes). cbn in R. rewrite R. intros c. rewrite Hes.
    split; [by intros (c' & -> & ?)|intros ?; by exists c].
Qed.

(** ** When the validation ends *)
Fixpoint height (n : node) : nat :=
  match n with NFile _ => 0 | NDir es => S (foldr (fun e h => Nat.max (height e.2) h) 0%nat es) end.
Lemma height_child k n c : child k n = Some c -> (height c < height n)%nat.
Proof.
  destruct n as [|es]; [done|]. cbn. intros Hin%assoc_some. induction es as [|e es IH]; [by apply not_elem_of_nil in Hin|].
  apply elem_of_cons in Hin as [<-|Hin]; cbn; [lia|]. specialize (IH Hin). lia.
Qed.
Lemma at_path_app p q n : at_path (p ++ q) n = at_path p n ≫= at_path q.
Proof. revert n. induction p as [|k p IH]; intros n; [done|]. cbn. destruct (child k n); [apply IH|done]. Qed.
Lemma height_at p n c : at_path p n = Some c -> p <> [] -> (height c < height n)%nat.
Proof.
  revert n. induction p as [|k p IH]; intros n; [done|]. cbn. destruct (child k n) as [c'|] eqn:Ek; [|done]. cbn.
  intros Hp _. apply height_child in Ek. destruct p as [|k' p]; [by injection Hp as ->|]. pose proof (IH c' Hp). assert (k' :: p <> []) by done. lia.
Qed.

(** a path that goes down: relative, without [..], and not only dots *)
Definition goes_down (val : string) : bool :=
  negb (starts_with "/" val) && forallb (fun c => negb (bool_decide (c = ".."))) (split_on "/" val)
  && existsb (fun c => negb (bool_decide (c = "") || bool_decide (c = "."))) (split_on "/" val).
Lemma resolve_down fs cur comps sub : forallb (fun c => negb (bool_decide (c = ".."))) comps = true ->
  resolve fs cur comps = Some sub ->
  exists q, sub = cur ++ q /\ (existsb (fun c => negb (bool_decide (c = "") || bool_decide (c = "."))) comps = true -> q <> []).
Proof.
  revert cur. induction comps as [|c comps IH]; intros cur; cbn [forallb resolve existsb].
  { intros _ [= <-]. exists []. by rewrite app_nil_r. }
  intros [Hc Hcs]%andb_true_iff. apply negb_true_iff, bool_decide_eq_false in Hc.
  destruct (negb (is_dir _)); [done|]. destruct (bool_decide (c = "") || bool_decide (c = ".")) eqn:Ed.
  - intros Hr. destruct (IH cur Hcs Hr) as (q & -> & Hq). exists q. by split.
  - rewrite (bool_decide_false (c = "..")) by done. intros Hr. destruct (IH _ Hcs Hr) as (q & -> & _).
    exists (c :: q). by rewrite <- app_assoc.
Qed.
Lemma join_down fs cur val sub : goes_down val = true -> join fs cur val = Some sub -> exists q, sub = cur ++ q /\ q <> [].
Proof.
  unfold goes_down, join. intros [[Ha Hf]%andb_true_iff He]%andb_true_iff. apply negb_true_iff in Ha. rewrite Ha.
  intros Hr. destruct (resolve_down _ _ _ _ Hf Hr) as (q & -> & Hq). exists q. split; [done|by apply Hq].
Qed.

Lemma fold_total {A B} (f : B -> A -> option B) ls v : (forall v x, x ∈ ls -> is_Some (f v x)) ->
  is_Some (fold_left (fun acc x => v ← acc; f v x) ls (Some v)).
Proof.
  revert v. induction ls as [|x ls IH]; intros v Hf; [by eexists|]. cbn [fold_left].
  change (Some v ≫= (fun v => f v x)) with (f v x). destruct (Hf v x (list_elem_of_here _ _)) as [v' ->].
  apply IH. intros w y Hy. apply Hf. by right.
Qed.

(** every submodule under the clone is declared below the directory that declares it *)
Definition declared_below (fs : node) (root : list string) : Prop :=
  forall q val, declares fs (root ++ q) val -> goes_down val = true.
Lemma validation_ends fs root clone fuel : at_path root fs = Some clone -> declared_below fs root -> (height clone < fuel)%nat ->
  is_Some (validate_submodules_strict fuel fs root).
Proof.
  intros Hroot Hdown Hfuel. unfold validate_submodules_strict.
  enough (H : forall fuel q n chain v, at_path (root ++ q) fs = Some n -> (height n < fuel)%nat ->
    is_Some (walk_gitmodules_strict fuel fs (root ++ q) chain v)).
  { replace root with (root ++ []) by apply app_nil_r. apply (H _ _ clone); [by rewrite app_nil_r|lia]. }
  clear fuel Hfuel. intros fuel. induction fuel as [|fuel IH]; intros q n chain v Hn Hh; [lia|]. cbn [walk_gitmodules_strict].
  destruct (read_to_string _) as [content|] eqn:Ec; [|by eexists]. apply fold_total. intros w line Hl.
  destruct (declared_path line) as [val|] eqn:Ep; [|by eexists]. destruct (join fs (root ++ q) val) as [sub|] eqn:Ej; [|by eexists].
  case_bool_decide as En; [by eexists|]. destruct (_ && _); [by eexists|]. destruct (is_file _) eqn:Eg; [|by eexists].
  assert (Hval : goes_down val = true) by (apply (Hdown q); by exists content, line).
  destruct (join_down _ _ _ _ Hval Ej) as (q' & -> & Hq'). rewrite <- app_assoc in *.
  destruct (at_path (root ++ q ++ q') fs) as [n'|] eqn:En'; [|done]. apply (IH _ n'); [done|].
  rewrite app_assoc, at_path_app, Hn in En'. cbn in En'. apply height_at in En'; [lia|done].
Qed.

(** C14. When every submodule is declared below the directory that declares it, the validation of
    submodules ends, with as many levels as the clone is deep; and whenever it ends it reports exactly
    what it should: the declared submodules whose directories are empty or missing, and those
    that are neither modules nor groupers, at every depth that groupers lead to.
    A submodule declared as its own directory makes the validation endless (below). *)
Theorem validation_exact fs root clone fuel : at_path root fs = Some clone ->
  (declared_below fs root -> (height clone < fuel)%nat -> exists v, validate_submodules_strict fuel fs root = Some v)
  /\ forall v, validate_submodules_strict fuel fs root = Some v ->
       (forall c, c ∈ v_empty v <-> fault fs true root c) /\ (forall c, c ∈ v_no_manifest v <-> fault fs false root c).
Proof.
  intros Hroot. split; [|exact (validation_reports fuel fs root)]. intros Hd Hf.
  destruct (validation_ends fs root clone fuel Hroot Hd Hf) as [v Hv]. by exists v.
Qed.

(** ** What becomes of a request *)
(** the answer of a deployment that has succeeded *)
Definition succeeded `{Serde} `{Listing} (git : list string -> result) (host : deploy_host) (cell inst : string) (ans : outcome HttpResponse) : Prop :=
  exists req d, ans = Done (deployed host req inst (default "unknown" (git_head_sha git (instance_path cell inst +:+ "/.nkr-addons-new/" +:+ CLONE_TMP))) d).

(** C13. A deployment request comes to an end when the submodules of the clone are declared below the directories that
    declare them, and whatever becomes of it no module of the instance is destroyed: each is in its place or
    in the trash, until a thread empties the trash.  Only a request that succeeds starts such a thread,
    for a minute later; but one of an earlier request may be waiting.  Only an answer of
    success, or a failure of the last renames, comes with a change of addons/. *)
Theorem deploy_request_safe `{Serde} `{Listing} `{!ListingLaws} git clean allowed said debug lower key wr host cell inst body i :
  (forall effs, let clone := clean (h_cloned host effs) in
     tree_ok clone = true /\ at_path (h_root host) (h_fs host clone) = Some clone
     /\ declared_below (h_fs host clone) (h_root host) /\ (height clone < h_fuel host)%nat) ->
  exists ans i', handle_addons_git git clean allowed said debug lower key wr host cell inst body (Some i) = Some (ans, Some i')
    /\ (forall t i'', rtc (sweep t) i' i'' -> Forall (fun d => t < d) (i_sweeps i') -> forall m, kept (h_now host) i i'' m)
    /\ (i_sweeps i' = i_sweeps i \/ succeeded git host cell inst ans /\ i_sweeps i' = h_now host + 60 :: i_sweeps i)
    /\ (i_addons i' = i_addons i \/ succeeded git host cell inst ans
        \/ exists m, ans = Done (move_failed said "module_trash_failed" (Trash m)) \/ ans = Done (move_failed said "module_install_failed" (Install m))).
Proof.
  intros Hcl. unfold handle_addons_git.
  assert (Hsame : forall i', i_addons i' = i_addons i -> forall t i'', rtc (sweep t) i' i'' -> Forall (fun d => t < d) (i_sweeps i') ->
    forall m, kept (h_now host) i i'' m).
  { intros i' E t i'' Hs Hd m n Hn. rewrite (no_sweep_due _ _ _ Hd Hs). left. by rewrite E. }
  destruct (GIT_BODY_LIMIT <? _); [do 2 eexists; split; [done|]; split; [by apply Hsame|auto]|].
  destruct (parse_git_body body) as [[code err]|req]; [do 2 eexists; split; [done|]; split; [by apply Hsame|auto]|].
  destruct (is_safe_identifier _) eqn:Hs; cbn [negb]; [|do 2 eexists; split; [done|]; split; [by apply Hsame|auto]].
  set (i0 := i <| i_staging := ∅ |>). destruct (h_mkdir host); [do 2 eexists; split; [done|]; split; [by apply Hsame|auto]|].
  destruct (run_git_sync _ _ _ _ _ _ _ _) as [[effs r]|]; [|do 2 eexists; split; [done|]; split; [by apply Hsame|auto]].
  destruct (400 <=? Http.status r); [do 2 eexists; split; [done|]; split; [by apply Hsame|auto]|].
  destruct (Hcl effs) as (Hok & Hroot & Hdown & Hfuel).
  set (ex := explode_modules _ _ _ _ _ _ _ _ _ _ _ _ _ _ _ _).
  assert (Hex : is_Some ex).
  { unfold ex, explode_modules. destruct (has_submodules _); [|by eexists].
    destruct (validation_ends _ _ _ _ Hroot Hdown Hfuel) as [v ->]. by eexists. }
  destruct Hex as [[res i1] E]. rewrite E. cbn [mbind option_bind]. do 2 eexists. split; [reflexivity|].
  destruct (deploy_kept _ _ _ _ _ _ _ _ _ _ _ _ _ _ _ Hs Hok _ _ _ E) as (Hk & He & Hsw). cbn [i_sweeps i_addons set_field] in *.
  split; [|split].
  - intros t i'' Hr Hd m n Hn. pose proof (fun Hd => no_sweep_due t _ i'' Hd Hr) as Ei. rewrite (Ei Hd). by apply (Hk m n).
  - destruct Hsw as [Hsw|[[d ->] Hsw]]; [by left|right]. split; [by do 2 eexists|exact Hsw].
  - destruct res as [e|d]; [|right; left; by do 2 eexists]. destruct (He e eq_refl) as [Ha|[m Hm]]; [by left|right; right].
    exists m. destruct Hm as [-> | ->]; auto.
Qed.

(** ** A repository and an instance *)
Module DeployExample.
Definition url : string := "https://github.com/acme/addons.git".
Definition request : Value := JObject [("repo_url", JString url); ("ref", JString "17.0")].
#[export] Instance serde : Serde := {
  parse_json s := if bool_decide (s = "request") then Some request else None; print_json v := default "{}" (get_str "error" v); parse_adopt _ := None }.
Definition text (s : string) : node := NFile (Some s).
Definition module_dir (code : string) : node := NDir [(MANIFEST, text "{}"); ("models", NDir [("sale.py", text code)])].
Definition repository : node :=
  NDir [(".git", NDir [("HEAD", text "ref")]); ("sale", module_dir "v2"); ("README.md", text "..."); ("crm", module_dir "v1")].
Definition hash_of (c : ascii) : string := String.string_of_list_ascii (repeat c 40).
(** the tree hashes of the modules *)
Definition git (argv : list string) : result :=
  match argv with
  | ["-C"; "/tmp/c"; "rev-parse"; "HEAD:sale"] => (true, hash_of "a" +:+ String LF "", "")
  | ["-C"; "/tmp/c"; "rev-parse"; "HEAD:crm"] => (true, hash_of "b" +:+ String LF "", "")
  | ["-C"; _; "rev-parse"; _] => (false, "", "fatal")
  | _ => (true, "0123", "")
  end.
Definition deploy allowed now fs root cloned (i : instance_dir) : option ((HttpResponse + ExplodeResult) * instance_dir) :=
  explode_modules (H0 := listed) git (fun n => n) allowed (fun _ => "rename: Permission denied (os error 13)") 5 fs root "/tmp/c" now true
    "addons" url (Some "17.0") "0123" cloned i.
Definition old_sale : node := write_nkr_source (source_text url None "00" (hash_of "c")) (module_dir "v1").
Definition instance : instance_dir :=
  mkInstanceDir (list_to_map [("sale", old_sale); ("stock", module_dir "v1"); (".hidden", NDir []); ("notes.txt", text "keep")]) ∅ ∅ [].
Definition all (_ : move) : bool := true.
Definition first : option ((HttpResponse + ExplodeResult) * instance_dir) := deploy all 100 (fun n => n) [] repository instance.
Definition result_of (o : option ((HttpResponse + ExplodeResult) * instance_dir)) : ExplodeResult :=
  match o with Some (inr d, _) => d | _ => mkExplode [] [] [] [] [] end.
Definition after (o : option ((HttpResponse + ExplodeResult) * instance_dir)) : instance_dir :=
  match o with Some (_, i) => i | None => mkInstanceDir ∅ ∅ ∅ [] end.

Example first_deploy :
  result_of first = mkExplode ["sale"; "crm"] ["crm"] ["sale"] [] ["stock"]
  /\ i_addons (after first) !! "stock" = None /\ i_trash (after first) !! "100-stock" = Some (module_dir "v1")
  /\ i_addons (after first) !! "notes.txt" = Some (text "keep")
  /\ (i_addons (after first) !! "sale" ≫= read_prev_content_hash) = Some (hash_of "a").
Proof. vm_compute. by repeat split. Qed.

(** A failure while the modules are installed leaves addons/ half way: the old module is in
    the trash, the new one in the staging directory, which is removed. *)
Definition no_sale (m : move) : bool := match m with Install "sale" => false | _ => true end.
Example half_way :
  let o := deploy no_sale 100 (fun n => n) [] repository instance in
  (match o with Some (inl r, _) => Http.body r | _ => "" end) = "module_install_failed"
  /\ i_addons (after o) !! "sale" = None /\ i_addons (after o) !! "crm" = None
  /\ is_Some (i_addons (after o) !! "stock").
Proof. vm_compute. repeat split. by eexists. Qed.
(** A deployment that fails leaves an old module in the trash, and the thread of an earlier one
    removes it from there: the module is lost. *)
Example lost_module :
  let i1 := after first in let i2 := after (deploy no_sale 130 (fun n => n) [] repository (i1 <| i_staging := ∅ |>)) in
  let i3 := empty_trash (fun _ _ => None) (i2 <| i_sweeps := [] |>) in
  i_sweeps i1 = [160] /\ is_Some (i_addons i1 !! "sale")
  /\ i_addons i2 !! "sale" = None /\ i_trash i2 !! "130-sale" = i_addons i1 !! "sale"
  /\ i_addons i3 !! "sale" = None /\ i_trash i3 = ∅.
Proof. vm_compute. repeat split. by eexists. Qed.
Lemma lost_module_swept : let i2 := after (deploy no_sale 130 (fun n => n) [] repository ((after first) <| i_staging := ∅ |>)) in
  sweep 160 i2 (empty_trash (fun _ _ => None) (i2 <| i_sweeps := [] |>)).
Proof. cbv zeta. apply (sweep_step 160 (fun _ _ => None) [] 160 []); [by vm_compute|lia]. Qed.

(** Two deployments in the same second: the second finds the trash name taken. *)
Example same_second :
  let o := deploy all 100 (fun n => n) [] repository ((after first) <| i_staging := ∅ |>) in
  (match o with Some (inl r, _) => Http.body r | _ => "" end) = "module_trash_failed".
Proof. vm_compute. reflexivity. Qed.

(** A repository that is one module and has submodules is refused: the clone's own directory
    is the module that is found. *)
Definition parent : node :=
  NDir [(GITMODULES, text "path = child"); (MANIFEST, text "{}"); ("child", NDir [(MANIFEST, text "{}")])].
Example parent_refused_by_name :
  (match deploy all 100 (fun n => n) [] parent instance with Some (inl r, _) => Http.body r | _ => "" end) = "invalid_module_name".
Proof. vm_compute. reflexivity. Qed.
(** A submodule with a manifest and submodules of its own is published, its submodules are not. *)
Definition orchestrator : node :=
  NDir [(GITMODULES, text "path = all");
        ("all", NDir [(GITMODULES, text "path = part"); (MANIFEST, text "{}"); ("part", module_dir "v1")])].
Example children_unpublished :
  validate_submodules_strict 5 orchestrator [] = Some (mkValidation [] []) /\ map snd (scan_modules_recursive orchestrator) = ["all"].
Proof. vm_compute. done. Qed.

Definition broken : node :=
  NDir [(GITMODULES, text ("path = docs" +:+ String LF "path = group" +:+ String LF "path = gone"));
        ("docs", NDir [("index.md", text "")]); ("group", NDir [(GITMODULES, text "path = empty"); ("empty", NDir [])])].
Lemma scan_exact_witness : tree_ok repository = true /\ (["sale"], "sale") ∈ scan_modules_recursive repository.
Proof.
  split; [by vm_compute|]. apply (scan_exact repository ["sale"] "sale"); [by vm_compute|]. split; [|done].
  split; [done|]. split; [done|]. exists (module_dir "v2"). done.
Defined.

Lemma source_round_trip_witness :
  read_prev_content_hash (write_nkr_source (source_text url (Some "17.0") "0123" (hash_of "a")) (module_dir "v1")) = Some (hash_of "a").
Proof. apply source_round_trip; done. Defined.

Example sale_in_trash :
  kept 100 instance (after (deploy no_sale 100 (fun n => n) [] repository instance)) "sale".
Proof.
  assert (E : exists r, deploy no_sale 100 (fun n => n) [] repository instance
    = Some (r, after (deploy no_sale 100 (fun n => n) [] repository instance))) by (vm_compute; eexists; reflexivity).
  destruct E as [r E].
  refine (proj1 (deploy_kept (H0 := listed) git (fun n => n) no_sale _ 5 (fun n => n) [] "/tmp/c" 100 true "addons" url
    (Some "17.0") "0123" repository ltac:(by vm_compute) ltac:(by vm_compute) instance r _ E) "sale").
Defined.

Lemma deploys : first = Some (inr (result_of first), after first).
Proof. vm_compute. reflexivity. Qed.
Lemma deploy_publishes_witness : i_addons (after first) !! "notes.txt" = Some (text "keep").
Proof.
  destruct (deploy_publishes (H0 := listed) git (fun n => n) all (fun _ => "rename: Permission denied (os error 13)") 5
    (fun n => n) [] "/tmp/c" 100 true "addons" url (Some "17.0") "0123" repository ltac:(by vm_compute) ltac:(by vm_compute)
    instance (result_of first) (after first) deploys) as (ms & _ & Hm & _ & _ & Hsame & _).
  rewrite Hsame; [by vm_compute| |].
  - apply (proj1 (bool_decide_eq_false _)). by vm_compute.
  - intros (n & Hn & Hd & _). vm_compute in Hn. injection Hn as <-. done.
Defined.
Lemma deploy_report_witness : "stock" ∈ removed (result_of first).
Proof.
  destruct (deploy_report (H0 := listed) git (fun n => n) all (fun _ => "rename: Permission denied (os error 13)") 5
    (fun n => n) [] "/tmp/c" 100 true "addons" url (Some "17.0") "0123" repository
    instance (result_of first) (after first) "stock" deploys) as (_ & _ & Hr & _).
  apply Hr. split; [apply (proj1 (bool_decide_eq_false _)); by vm_compute|]. exists (module_dir "v1"). by vm_compute.
Defined.

(** the same repository again *)
Definition second : option ((HttpResponse + ExplodeResult) * instance_dir) :=
  deploy all 200 (fun n => n) [] repository ((after first) <| i_staging := ∅ |>).
Lemma redeploys : second = Some (inr (result_of second), after second).
Proof. vm_compute. reflexivity. Qed.
Lemma redeploy_unchanged_witness : unchanged (result_of second) = modules (result_of first) /\ updated (result_of second) = [].
Proof.
  destruct (redeploy_unchanged (H0 := listed) git (fun n => n) all (fun _ => "rename: Permission denied (os error 13)") 5
    (fun n => n) [] "/tmp/c" 100 200 true "addons" url (Some "17.0") "0123" repository instance (result_of first) (after first)
    (result_of second) (after second)) as (_ & H1 & _ & H2 & _); [by vm_compute..| |exact deploys| |exact redeploys|split; [exact H1|exact H2]].
  - intros ms p m Hf Hp. vm_compute in Hf. injection Hf as <-.
    apply elem_of_cons in Hp as [[= -> ->]|[[= -> ->]|Hp]%elem_of_cons]; [..|by apply not_elem_of_nil in Hp];
      (split; [|by vm_compute]); vm_compute; by eexists.
  - intros m _. by vm_compute.
Defined.

(** the request, to a daemon whose VM reloads *)
Definition host : deploy_host :=
  mkHost None (fun _ => repository) (fun n => n) [] 100 true
    (fun r => match r with ReloadWorkers _ => inr (mkIpcResponse 202 "application/json" "{}") | _ => inl Io end) 5.
Definition requested (allowed : move -> bool) (i : instance_dir) : option (outcome HttpResponse * option instance_dir) :=
  handle_addons_git (H0 := listed) git (fun n => n) allowed (fun _ => "rename") (fun _ => "?") to_lowercase (inr "/tmp/k") None
    host "c18" "c18-acme" (bytes_of_string "request") (Some i).
Definition answer_of (o : option (outcome HttpResponse * option instance_dir)) : option Z :=
  match o with Some (Done a, _) => Some (Http.status a) | _ => None end.
Example request_answers : map (fun a => answer_of (requested a instance)) [all; no_sale] = [Some 200; Some 500].
Proof. vm_compute. reflexivity. Qed.
Lemma host_ok effs : let clone := h_cloned host effs in
  tree_ok clone = true /\ at_path (h_root host) (h_fs host clone) = Some clone
  /\ declared_below (h_fs host clone) (h_root host) /\ (height clone < h_fuel host)%nat.
Proof.
  split_and!; [by vm_compute|done| |by apply Nat.ltb_lt; vm_compute].
  intros q val (content & line & Hc & _). exfalso. revert Hc. change (read_to_string (at_path (q ++ [GITMODULES]) repository) = Some content -> False).
  unfold repository, module_dir, text. destruct q as [|k q]; [by vm_compute|]. cbn [app at_path child]. unfold assoc. cbn.
  repeat case_bool_decide; cbn; try done; subst; destruct q as [|k2 q]; cbn; unfold assoc; cbn; repeat case_bool_decide; cbn; try done; subst;
    destruct q as [|k3 q]; cbn; unfold assoc; cbn; repeat case_bool_decide; cbn; try done; by destruct q.
Qed.
(** a request that fails, while a thread of an earlier one waits until 140 *)
Lemma deploy_request_safe_witness :
  let before := instance <| i_sweeps := [140] |> in
  exists ans i', requested no_sale before = Some (ans, Some i') /\ i_sweeps i' = [140]
    /\ kept 100 before i' "sale" /\ i_trash i' !! "100-sale" = i_addons before !! "sale".
Proof.
  cbv zeta. destruct (deploy_request_safe (H0 := listed) git (fun n => n) no_sale (fun _ => "rename") (fun _ => "?") to_lowercase (inr "/tmp/k") None
    host "c18" "c18-acme" (bytes_of_string "request") (instance <| i_sweeps := [140] |>) host_ok) as (ans & i' & E & Hk & _).
  exists ans, i'. split; [exact E|].
  assert (Ei : Some i' = (requested no_sale (instance <| i_sweeps := [140] |>) ≫= snd)) by (unfold requested; rewrite E; reflexivity).
  assert (Es : i_sweeps i' = [140]).
  { change (i_sweeps i') with (i_sweeps (default i' (Some i'))). rewrite Ei. vm_compute. reflexivity. }
  split; [exact Es|]. split.
  - apply (Hk 139 i' (rtc_refl _ _)). rewrite Es. constructor; [reflexivity|constructor].
  - change (i_trash i') with (i_trash (default i' (Some i'))). rewrite Ei. vm_compute. reflexivity.
Defined.

Lemma broken_below : declared_below broken [].
Proof.
  intros q val (content & line & Hc & Hl & Hp). cbn [app] in Hc.
  assert (Hq : content = "path = docs" +:+ String LF "path = group" +:+ String LF "path = gone" \/ content = "path = empty").
  { destruct q as [|k1 q]; [left; by injection Hc as <-|right]. cbn in Hc. unfold assoc in Hc. cbn in Hc.
    repeat case_bool_decide; cbn in Hc; subst; try done; destruct q as [|k2 q]; cbn in Hc; unfold assoc in Hc; cbn in Hc;
      repeat case_bool_decide; cbn in Hc; subst; try done; try (by injection Hc as <-); try (destruct q as [|? []]; done). }
  assert (Hall : forallb (fun l => match declared_path l with Some v => goes_down v | None => true end)
    (lines ("path = docs" +:+ String LF "path = group" +:+ String LF "path = gone") ++ lines "path = empty") = true) by (by vm_compute).
  rewrite forallb_app in Hall. apply andb_true_iff in Hall as [H1 H2].
  rewrite List.forallb_forall in H1. rewrite List.forallb_forall in H2. apply list_elem_of_In in Hl.
  destruct Hq as [-> | ->]; [specialize (H1 line Hl)|specialize (H2 line Hl)]; by rewrite Hp in *.
Qed.
Lemma validation_exact_witness : exists v, validate_submodules_strict 5 broken [] = Some v
  /\ fault broken true [] ["group"; "empty"] /\ fault broken false [] ["docs"] /\ ~ fault broken true [] ["group"].
Proof.
  destruct (validation_exact broken [] broken 5 eq_refl) as [Hends Hex].
  destruct (Hends broken_below (proj1 (Nat.ltb_lt (height broken) 5) eq_refl)) as [v Hv].
  assert (Ev : Some v = Some (mkValidation [["group"; "empty"]; ["gone"]] [["docs"]])) by (rewrite <- Hv; vm_compute; reflexivity).
  injection Ev as Ev. destruct (Hex v Hv) as [He Hm]. rewrite Ev in He, Hm. cbn in He, Hm.
  exists v. split; [exact Hv|]. split; [apply He; left|]. split; [apply Hm; left|].
  intros Hf. apply He in Hf. apply elem_of_cons in Hf as [Hf|Hf]; [discriminate Hf|]. apply elem_of_cons in Hf as [Hf|Hf]; [discriminate Hf|].
  exact (not_elem_of_nil _ Hf).
Defined.
End DeployExample.

(** ** A declaration that does not end

    Paths have a greatest length in the system, which the tree has not; a file with several
    such lines is read exponentially often before that. *)
Definition dot_repository : node := NDir [(GITMODULES, NFile (Some "path = .")); ("README.md", NFile (Some "..."))].
(** A submodule that is declared to be the directory itself is descended into for ever: no
    number of levels is enough for the validation of such a clone to return. *)
Theorem dot_submodule_never_ends fuel : validate_submodules_strict fuel dot_repository [] = None.
Proof.
  unfold validate_submodules_strict. generalize (mkValidation [] []). generalize (@nil (list ascii)).
  enough (H : forall chain v, walk_gitmodules_strict fuel dot_repository [] chain v = None) by (intros _; apply H).
  induction fuel as [|fuel IH]; intros chain v; [done|].
  change (walk_gitmodules_strict fuel dot_repository [] (chain ++ ["."]) v = None). apply IH.
Qed.
