(* ===== verification/Janitor.v ===== *)
(** * The janitor (src/janitor.rs)

    A thread of the daemon removes every five minutes what dead VMs have left on the host:
    sockets and pid files of virtiofsd, state files, mounts of root file systems and their
    lock files, control groups and loop devices.

    The host is what the sweeps read and change; the processes, and the answers of losetup
    for a file, do not change during a sweep.  Directories are read in some order, which
    does not matter as entries do not depend on each other. *)
From S2P Require Import Prelude Text Sorting Http Json Watchdog Registry State.

(** ** The host *)
(** a state file: its JSON value, and the state it is decoded to *)
Record state_file := mkStateFile { sf_json : option Value; sf_vm : option VmState }.
Record leftovers := mkLeftovers {
  j_nkrfs : gmap string (option string);    (* /run/nkrfs, with contents *)
  j_states : gmap string state_file;        (* /tmp/nkr-vms *)
  j_mounts : list string;                   (* the lines of /proc/mounts *)
  j_locks : gmap string Z;                  (* /run, with times of change in nanoseconds *)
  j_cgroups : gmap string (option string);  (* /sys/fs/cgroup/nkr, with cgroup.procs *)
  j_loops : list string;                    (* the lines of losetup -l *)
}.
#[export] Instance eta_leftovers : Eta leftovers := fun h =>
  mkLeftovers (j_nkrfs h) (j_states h) (j_mounts h) (j_locks h) (j_cgroups h) (j_loops h).

(** processes; whether there are processes of a group, for the pids that are not
    positive; losetup -j; which removals and detachments succeed *)
Record kernel := mkKernel {
  k_host : host; k_group : Z -> bool; k_losetup : string -> string; k_now : Z;
  k_rm : string -> bool; k_rmdir : string -> bool; k_detach : string -> bool }.

Section sweeps.
Context `{ReadDir} (k : kernel).

(** [kill(pid, 0) == 0]; a zombie can be signalled *)
Definition kill0 (pid : Z) : bool := if 0 <? pid then bool_decide (is_Some (k_host k !! pid)) else k_group k pid.

(** [s.parse::<i32>()] *)
Definition parse_i32 (s : string) : option Z :=
  match strip_prefix "-" s with
  | Some t => n ← read_number 10 t; if n <=? 2 ^ 31 then Some (- n) else None
  | None => parse_uint (2 ^ 31 - 1) s
  end.
(** [p as i32] *)
Definition to_i32 (z : Z) : Z := let w := u32 z in if w <? 2 ^ 31 then w else w - 2 ^ 32.

(** ** 1, 2: /run/nkrfs *)
Definition strip_end (p s : string) : string :=
  string_of_bytes (take (String.length s - String.length p) (bytes_of_string s)).
Definition orphan_pid_file (name : string) (content : option string) : bool :=
  ends_with ".sock.pid" name
  && match content ≫= fun s => parse_i32 (trim s) with Some pid => negb (kill0 pid) | None => false end.
Definition sweep_virtiofsd_pid_files (h : leftovers) : nat * leftovers :=
  let dead := filter (fun e => orphan_pid_file e.1 e.2) (map_to_list (j_nkrfs h)) in
  (length dead, h <| j_nkrfs := foldr (fun e m => delete (strip_end ".pid" e.1) (delete e.1 m)) (j_nkrfs h) dead |>).

(** [path.with_extension('sock.pid')]; a name that is only an extension has none *)
Definition pid_path (name : string) : string := if bool_decide (name = ".sock") then ".sock.sock.pid" else name +:+ ".pid".
Definition orphan_socket (fs : gmap string (option string)) (name : string) : bool :=
  ends_with ".sock" name && negb (bool_decide (is_Some (fs !! pid_path name))).
Definition sweep_virtiofsd_sockets (h : leftovers) : nat * leftovers :=
  let gone := filter (fun n => orphan_socket (j_nkrfs h) n) (map fst (map_to_list (j_nkrfs h))) in
  (length gone, h <| j_nkrfs := foldr delete (j_nkrfs h) gone |>).

(** ** 7: state files *)
Definition i64 (v : Value) : option Z :=
  match v with JInt z => if (- 2 ^ 63 <=? z) && (z <? 2 ^ 63) then Some z else None | _ => None end.
Definition dead_state (name : string) (f : state_file) : bool :=
  is_json name && match (v ← sf_json f; p ← get "pid" v; i64 p) with Some p => negb (kill0 (to_i32 p)) | None => false end.
Definition sweep_state_files (h : leftovers) : nat * leftovers :=
  let dead := filter (fun e => dead_state e.1 e.2) (map_to_list (j_states h)) in
  (length dead, h <| j_states := foldr delete (j_states h) (map fst dead) |>).

(** ** 3: the files and devices of the live VMs *)
Definition takes_path (arg : string) : bool :=
  bool_decide (arg = "--disk") || bool_decide (arg = "--rootfs") || starts_with "--share" arg || starts_with "--volume" arg.
Definition first_part (p : string) : string := List.hd p (split_on ":" p).
Fixpoint paths_of_args (args : list string) : list string :=
  match args with
  | a :: (p :: _) as args =>
      (if takes_path a
       then first_part p :: map (fun l => trim (first_part l)) (lines (k_losetup k (first_part p)))
       else []) ++ paths_of_args args
  | _ => []
  end.
Definition is_run (args : list string) : bool :=
  existsb (fun a => ends_with "/nkr" a || bool_decide (a = "nkr")) args && mem "run" args.
Definition args_of (c : string) : list string := filter (fun a => a <> "") (split_on nul c).
Definition live_paths_of (p : proc) : list string :=
  match cmdline p with
  | Some c => if is_run (args_of c) then paths_of_args (args_of c) else []
  | None => []
  end.
Definition collect_live_master_paths : list string := flat_map (fun e => live_paths_of e.2) (map_to_list (k_host k)).

(** ** 4: mounts *)
Definition ROOTFS_MOUNT : string := "/run/nkr_master_rootfs_".
(** the source and the mount point of a line *)
Definition mount_of (line : string) : option (string * string) :=
  match split_whitespace line with src :: mp :: _ => Some (src, mp) | _ => None end.
Definition mounted_at (mp line : string) : bool := bool_decide (snd <$> mount_of line = Some mp).
(** [umount -l] takes away what was mounted there last *)
Fixpoint umount_last (mp : string) (ls : list string) : list string :=
  match ls with
  | [] => []
  | l :: ls => if mounted_at mp l && negb (existsb (mounted_at mp) ls) then ls else l :: umount_last mp ls
  end.
Definition orphan_mount (live : list string) (line : string) : option string :=
  '(src, mp) ← mount_of line;
  if starts_with ROOTFS_MOUNT mp && negb (mem src live) then Some mp else None.
Definition sweep_rootfs_mounts (live : list string) (h : leftovers) : nat * leftovers :=
  let mps := omap (orphan_mount live) (j_mounts h) in
  (length mps, h <| j_mounts := fold_left (fun ls mp => umount_last mp ls) mps (j_mounts h) |>).

(** ** 5: lock files *)
Definition LOCK_MAX_AGE_SECS : Z := 3600.
Fixpoint trim_end_matches (fuel : nat) (p s : string) : string :=
  match fuel with
  | O => s
  | S fuel => if ends_with p s then trim_end_matches fuel p (strip_end p s) else s
  end.
Definition lock_orphan (h : leftovers) (name : string) (mtime : Z) : bool :=
  starts_with "nkr_master_rootfs_" name && ends_with ".lock" name
  && negb (existsb (mounted_at ("/run/" +:+ trim_end_matches (String.length name) ".lock" name)) (j_mounts h))
  && (mtime <=? k_now k) && (LOCK_MAX_AGE_SECS <=? (k_now k - mtime) / 10 ^ 9)
  && k_rm k name.
Definition sweep_rootfs_locks (h : leftovers) : nat * leftovers :=
  let old := filter (fun e => lock_orphan h e.1 e.2) (map_to_list (j_locks h)) in
  (length old, h <| j_locks := foldr delete (j_locks h) (map fst old) |>).

(** ** 6: control groups; listing the VMs prunes their state files *)
Definition empty_cgroup (live : list string) (name : string) (procs : option string) : bool :=
  negb (mem name live)
  && negb (match procs with Some t => existsb (fun l => negb (bool_decide (trim l = ""))) (lines t) | None => false end)
  && k_rmdir k name.
Definition sweep_empty_cgroups (h : leftovers) : nat * leftovers :=
  let '(vms, d) := list_vms (k_host k) (omap (fun f => Some (sf_vm f)) (j_states h)) in
  let gone := filter (fun e => empty_cgroup (map name vms) e.1 e.2) (map_to_list (j_cgroups h)) in
  (length gone, h <| j_states ::= filter (fun e => is_Some (d !! e.1)) |> <| j_cgroups := foldr delete (j_cgroups h) (map fst gone) |>).

(** ** 7: loop devices of deleted files *)
Definition deleted_loop (mounts : list string) (line : string) : option string :=
  match split_whitespace line with
  | (dev :: _) as parts =>
      if (length parts <? 6)%nat then None
      else if negb (contains "(deleted)" line) then None
      else if existsb (starts_with (dev +:+ " ")) mounts then None
      else if k_detach k dev then Some dev else None
  | [] => None
  end.
Definition sweep_deleted_loops (h : leftovers) : nat * leftovers :=
  let gone := omap (deleted_loop (j_mounts h)) (j_loops h) in
  (length gone, h <| j_loops ::= List.filter (fun l => match split_whitespace l with dev :: _ => negb (mem dev gone) | [] => true end) |>).

(** ** A sweep *)
Record SweepStats := mkStats {
  sock_pid_files : nat; sock_files : nat; rootfs_mounts : nat; rootfs_locks : nat; cgroups : nat; loop_devices : nat; state_files : nat }.
Definition total (s : SweepStats) : nat :=
  (sock_pid_files s + sock_files s + rootfs_mounts s + rootfs_locks s + cgroups s + loop_devices s + state_files s)%nat.
Definition sweep (h : leftovers) : SweepStats * leftovers :=
  let '(n1, h) := sweep_virtiofsd_pid_files h in
  let '(n2, h) := sweep_virtiofsd_sockets h in
  let '(n7, h) := sweep_state_files h in
  let live := collect_live_master_paths in
  let '(n3, h) := sweep_rootfs_mounts live h in
  let '(n4, h) := sweep_rootfs_locks h in
  let '(n5, h) := sweep_empty_cgroups h in
  let '(n6, h) := sweep_deleted_loops h in
  (mkStats n1 n2 n3 n4 n5 n6 n7, h).
End sweeps.

(** ** Removing a list of names *)
Lemma lookup_foldr_delete {A} (names : list string) (m : gmap string A) n :
  foldr delete m names !! n = if decide (n ∈ names) then None else m !! n.
Proof.
  induction names as [|x names IH]; cbn; [by rewrite decide_False by apply not_elem_of_nil|].
  destruct (decide (n = x)) as [->|Hne]; [rewrite lookup_delete_eq, decide_True by (by left); done|].
  rewrite lookup_delete_ne, IH by done. destruct (decide (n ∈ names)) as [Hin|Hn]; [by rewrite decide_True by (by right)|].
  rewrite decide_False; [done|]. by intros [?|?]%elem_of_cons.
Qed.
(** removing the entries that satisfy a test *)
Definition swept {A} (P : string -> A -> bool) (m : gmap string A) : gmap string A :=
  foldr delete m (map fst (filter (fun e => P e.1 e.2) (map_to_list m))).
Lemma lookup_swept {A} (P : string -> A -> bool) (m : gmap string A) n :
  swept P m !! n = x ← m !! n; if P n x then None else Some x.
Proof.
  unfold swept. rewrite lookup_foldr_delete. destruct (m !! n) as [x|] eqn:E; cbn [mbind option_bind].
  - destruct (P n x) eqn:Ep; [rewrite decide_True|rewrite decide_False]; [done| |done|].
    + apply list_elem_of_fmap. exists (n, x). split; [done|]. apply list_elem_of_filter. cbn. rewrite Ep. split; [done|]. by apply elem_of_map_to_list.
    + intros ([n' y] & -> & [Hp Hin]%list_elem_of_filter)%list_elem_of_fmap. apply elem_of_map_to_list in Hin. cbn in *. simplify_eq. by rewrite Ep in Hp.
  - by destruct (decide _).
Qed.
Lemma swept_again {A} (P : string -> A -> bool) (m : gmap string A) :
  filter (fun e => P e.1 e.2) (map_to_list (swept P m)) = [].
Proof.
  destruct (filter _ _) as [|[n x] l] eqn:E; [done|exfalso]. assert (Hin : (n, x) ∈ (n, x) :: l) by (by left).
  rewrite <- E in Hin. apply list_elem_of_filter in Hin as [Hp Hin]. apply elem_of_map_to_list in Hin. cbn in Hp.
  rewrite lookup_swept in Hin. destruct (m !! n) as [y|]; [|done]. cbn in Hin. destruct (P n y) eqn:Ep; [done|]. injection Hin as ->. by rewrite Ep in Hp.
Qed.

(** ** Names *)
Lemma ends_with_spec p s : ends_with p s = true <-> exists t, s = t +:+ p.
Proof.
  split; [|intros [t ->]; apply ends_with_app]. unfold ends_with. intros H%bool_decide_eq_true.
  set (n := (String.length s - String.length p)%nat) in *.
  exists (String.string_of_list_ascii (take n (String.list_ascii_of_string s))).
  apply list_ascii_inj. rewrite list_ascii_app, String.list_ascii_of_string_of_list_ascii, <- H. symmetry. apply take_drop.
Qed.
Lemma strip_end_app t p : strip_end p (t +:+ p) = t.
Proof.
  unfold strip_end.
  replace (String.length (t +:+ p) - String.length p)%nat with (length (bytes_of_string t)).
  - rewrite bytes_app, take_app_length. apply string_of_bytes_of_string.
  - rewrite <- !length_bytes, bytes_app, length_app. lia.
Qed.
Lemma ends_last p s : p <> "" -> ends_with p s = true -> list.last (String.list_ascii_of_string s) = list.last (String.list_ascii_of_string p).
Proof.
  intros Hp [t ->]%ends_with_spec. rewrite list_ascii_app. destruct p as [|c p]; [done|].
  rewrite last_app. by destruct (list.last (String.list_ascii_of_string (String c p))) eqn:E; [|apply last_None in E].
Qed.
Lemma pid_not_sock s : ends_with ".pid" s = true -> ends_with ".sock" s = false.
Proof. intros H1%ends_last; [|done]. apply not_true_is_false. intros H2%ends_last; [|done]. rewrite H1 in H2. done. Qed.
Lemma sock_pid_pid s : ends_with ".sock.pid" s = true -> exists t, s = t +:+ ".sock" +:+ ".pid".
Proof. intros [t ->]%ends_with_spec. by exists t. Qed.

(** ** /run/nkrfs *)
Section nkrfs.
Context `{ReadDir} (k : kernel).
Notation orphan := (orphan_pid_file k).

Lemma lookup_pid_sweep h n x :
  j_nkrfs (snd (sweep_virtiofsd_pid_files k h)) !! n = Some x <->
  j_nkrfs h !! n = Some x /\ orphan n x = false
  /\ forall c, j_nkrfs h !! (n +:+ ".pid") = Some c -> ends_with ".sock" n = true -> orphan (n +:+ ".pid") c = false.
Proof.
  cbn [sweep_virtiofsd_pid_files snd j_nkrfs set_field].
  set (dead := filter _ (map_to_list (j_nkrfs h))).
  assert (Hd : forall n c, (n, c) ∈ dead <-> j_nkrfs h !! n = Some c /\ orphan n c = true).
  { intros n' c. unfold dead. rewrite list_elem_of_filter, elem_of_map_to_list. cbn. rewrite Is_true_true. tauto. }
  assert (Hl : forall l : list (string * option string), foldr (fun e m => delete (strip_end ".pid" e.1) (delete e.1 m)) (j_nkrfs h) l !! n = Some x <->
    j_nkrfs h !! n = Some x /\ forall e, e ∈ l -> n <> e.1 /\ n <> strip_end ".pid" e.1).
  { intros l. induction l as [|e l IH]; cbn [foldr]; [split; [intros ?; split; [done|by intros ? ?%not_elem_of_nil]|by intros []]|].
    rewrite !lookup_delete_Some, IH. setoid_rewrite elem_of_cons. naive_solver. }
  rewrite Hl. split.
  - intros [Hn Hall]. split; [done|]. split.
    + apply not_true_is_false. intros Ho. by destruct (Hall (n, x) (proj2 (Hd _ _) (conj Hn Ho))).
    + intros c Hc _. apply not_true_is_false. intros Ho. destruct (Hall _ (proj2 (Hd _ _) (conj Hc Ho))) as [_ Hne]. cbn [fst] in Hne.
      by rewrite strip_end_app in Hne.
  - intros (Hn & Ho & Hs). split; [done|]. intros [n' c] [Hn' Ho']%Hd. cbn [fst]. split; [intros ->; congruence|].
    pose proof Ho' as Ho''. unfold orphan_pid_file in Ho'. apply andb_true_iff in Ho' as [(t & ->)%sock_pid_pid _].
    rewrite <- string_app_assoc, strip_end_app. intros ->. rewrite <- string_app_assoc in Hn', Ho''.
    rewrite (Hs c Hn' (ends_with_app _ _)) in Ho''. done.
Qed.

Lemma lookup_sock_sweep h n x :
  j_nkrfs (snd (sweep_virtiofsd_sockets h)) !! n = Some x <-> j_nkrfs h !! n = Some x /\ orphan_socket (j_nkrfs h) n = false.
Proof.
  cbn [sweep_virtiofsd_sockets snd j_nkrfs set_field]. rewrite lookup_foldr_delete. split.
  - destruct (decide _) as [|Hn]; [done|]. intros Hx. split; [done|]. apply not_true_is_false. intros Ho. apply Hn.
    apply list_elem_of_filter. split; [by apply Is_true_true|]. apply list_elem_of_fmap. exists (n, x). by rewrite elem_of_map_to_list.
  - intros [Hx Ho]. rewrite decide_False; [done|]. intros [Hs _]%list_elem_of_filter. apply Is_true_true in Hs. congruence.
Qed.

(** a socket with the pid file of a living process stays, and so does the pid file *)
Lemma live_socket_stays h t txt pid c :
  let s := t +:+ ".sock" in
  j_nkrfs h !! (s +:+ ".pid") = Some (Some txt) -> parse_i32 (trim txt) = Some pid -> kill0 k pid = true ->
  j_nkrfs h !! s = Some c -> t <> "" ->
  let m := j_nkrfs (snd (sweep_virtiofsd_sockets (snd (sweep_virtiofsd_pid_files k h)))) in
  m !! s = Some c /\ m !! (s +:+ ".pid") = Some (Some txt).
Proof.
  cbv zeta. set (s := t +:+ ".sock"). intros Hp Hparse Hk Hs Ht.
  assert (Hkeep : orphan (s +:+ ".pid") (Some txt) = false).
  { unfold orphan_pid_file. cbn [mbind option_bind]. by rewrite Hparse, Hk, andb_false_r. }
  assert (Hsock : ends_with ".sock.pid" s = false).
  { apply not_true_is_false. intros (t' & E)%sock_pid_pid. rewrite <- string_app_assoc in E.
    pose proof (pid_not_sock s) as Hn. rewrite E in Hn at 1. specialize (Hn (ends_with_app _ _)).
    unfold s in Hn. by rewrite ends_with_app in Hn. }
  assert (H1 : j_nkrfs (snd (sweep_virtiofsd_pid_files k h)) !! s = Some c).
  { apply lookup_pid_sweep. split; [done|]. split; [unfold orphan_pid_file; by rewrite Hsock|].
    intros c' Hc' _. rewrite Hp in Hc'. by injection Hc' as <-. }
  assert (H2 : j_nkrfs (snd (sweep_virtiofsd_pid_files k h)) !! (s +:+ ".pid") = Some (Some txt)).
  { apply lookup_pid_sweep. split; [done|]. split; [done|]. intros c' _ He. by rewrite pid_not_sock in He by apply ends_with_app. }
  assert (Hpath : pid_path s = s +:+ ".pid").
  { unfold pid_path. rewrite bool_decide_false; [done|]. intros E. apply Ht. pose proof (strip_end_app t ".sock") as Hst.
    fold s in Hst. by rewrite E in Hst. }
  split; apply lookup_sock_sweep; (split; [done|]).
  - unfold orphan_socket. rewrite Hpath, H2. rewrite bool_decide_true by (by eexists). by rewrite andb_false_r.
  - unfold orphan_socket. by rewrite pid_not_sock by apply ends_with_app.
Qed.

(** two sweeps of the directory are one *)
Lemma nkrfs_settles h h' : j_nkrfs h' = j_nkrfs (snd (sweep_virtiofsd_sockets (snd (sweep_virtiofsd_pid_files k h)))) ->
  sweep_virtiofsd_pid_files k h' = (0%nat, h') /\ sweep_virtiofsd_sockets h' = (0%nat, h').
Proof.
  intros E1. set (h1 := snd (sweep_virtiofsd_pid_files k h)) in *. split.
  - unfold sweep_virtiofsd_pid_files. destruct (filter _ _) as [|[n x] l] eqn:E; [by destruct h'|exfalso].
    assert (Hin : (n, x) ∈ (n, x) :: l) by (by left). rewrite <- E in Hin.
    apply list_elem_of_filter in Hin as [Ho Hin]. apply elem_of_map_to_list in Hin. apply Is_true_true in Ho. cbn [fst snd] in Ho. rewrite E1 in Hin.
    apply lookup_sock_sweep in Hin as [Hin _]. apply lookup_pid_sweep in Hin as (_ & Hf & _). congruence.
  - unfold sweep_virtiofsd_sockets. destruct (filter _ _) as [|n l] eqn:E; [by destruct h'|exfalso].
    assert (Hin : n ∈ n :: l) by (by left). rewrite <- E in Hin.
    apply list_elem_of_filter in Hin as [Ho Hin]. apply Is_true_true in Ho.
    apply list_elem_of_fmap in Hin as ([n' x] & -> & Hin). apply elem_of_map_to_list in Hin. cbn [fst snd] in Ho. rewrite E1 in Hin.
    apply lookup_sock_sweep in Hin as [Hin Hf]. unfold orphan_socket in *. apply andb_true_iff in Ho as [Hs Ho].
    rewrite Hs in Hf. cbn [andb] in Hf. apply negb_false_iff, bool_decide_eq_true in Hf as [c Hc].
    apply negb_true_iff, bool_decide_eq_false in Ho. apply Ho. exists c. rewrite E1. apply lookup_sock_sweep. split; [done|].
    unfold orphan_socket. replace (ends_with ".sock" (pid_path n')) with false; [done|]. symmetry. apply pid_not_sock.
    unfold pid_path. case_bool_decide; [done|apply ends_with_app].
Qed.
End nkrfs.

(** ** Mounts *)
(** the mount points of lines; a different one each *)
Definition mount_points (ls : list string) : list string := omap (fun l => snd <$> mount_of l) ls.

Lemma mounted_at_spec mp l : mounted_at mp l = true <-> exists src, mount_of l = Some (src, mp).
Proof.
  unfold mounted_at. rewrite bool_decide_eq_true. destruct (mount_of l) as [[src mp']|]; cbn; [|split; [done|by intros []]].
  split; [intros [= ->]; by exists src|by intros (? & [= <- <-])].
Qed.
Lemma mount_points_in mp ls : existsb (mounted_at mp) ls = true <-> mp ∈ mount_points ls.
Proof.
  unfold mount_points. rewrite existsb_exists, list_elem_of_omap. setoid_rewrite <- list_elem_of_In. split.
  - intros (l & Hl & (src & E)%mounted_at_spec). exists l. by rewrite E.
  - intros (l & Hl & E). exists l. split; [done|]. unfold mounted_at. by apply bool_decide_eq_true.
Qed.
Lemma mount_points_tail l ls : NoDup (mount_points (l :: ls)) -> NoDup (mount_points ls).
Proof. unfold mount_points. cbn. destruct (snd <$> mount_of l); [by intros [_ ?]%list.NoDup_cons|done]. Qed.
Lemma umount_unique mp ls : NoDup (mount_points ls) -> umount_last mp ls = List.filter (fun l => negb (mounted_at mp l)) ls.
Proof.
  induction ls as [|l ls IH]; [done|]. intros Hnd. cbn [umount_last List.filter].
  pose proof (mount_points_tail _ _ Hnd) as Hls.
  destruct (mounted_at mp l) eqn:E; cbn [andb negb]; [|by rewrite IH].
  assert (Hn : existsb (mounted_at mp) ls = false).
  { apply not_true_is_false. intros Hm%mount_points_in. unfold mounted_at in E. apply bool_decide_eq_true in E.
    unfold mount_points in Hnd. cbn in Hnd. rewrite E in Hnd. by apply list.NoDup_cons in Hnd as [? _]. }
  rewrite Hn. symmetry. clear -Hn. induction ls as [|y ls IH]; [done|]. cbn in Hn |- *. apply orb_false_iff in Hn as [-> Hn]. cbn. by rewrite IH.
Qed.
Lemma mount_points_filter f ls : NoDup (mount_points ls) -> NoDup (mount_points (List.filter f ls)).
Proof.
  intros H. eapply sublist_NoDup; [exact H|]. clear H. unfold mount_points.
  induction ls as [|l ls IH]; [constructor|]. cbn. destruct (f l); cbn; destruct (snd <$> mount_of l); by try constructor.
Qed.
Lemma umount_all mps ls : NoDup (mount_points ls) ->
  fold_left (fun ls mp => umount_last mp ls) mps ls = List.filter (fun l => forallb (fun mp => negb (mounted_at mp l)) mps) ls.
Proof.
  revert ls. induction mps as [|mp mps IH]; intros ls Hnd; cbn [fold_left forallb].
  { symmetry. clear Hnd. induction ls as [|l ls IHl]; [done|]. cbn. f_equal. apply IHl. }
  rewrite umount_unique by done. rewrite IH by (by apply mount_points_filter). clear.
  induction ls as [|l ls IH]; [done|]. cbn. destruct (mounted_at mp l); cbn; [done|]. by rewrite IH.
Qed.
Lemma same_point ls l l' mp : NoDup (mount_points ls) -> l ∈ ls -> l' ∈ ls ->
  mounted_at mp l = true -> mounted_at mp l' = true -> l = l'.
Proof.
  induction ls as [|x ls IH]; [by intros _ ?%not_elem_of_nil|]. intros Hnd Hl Hl' Hm Hm'.
  assert (Hx : forall y, y ∈ ls -> mounted_at mp y = true -> mounted_at mp x = true -> False).
  { intros y Hy My Mx. unfold mounted_at in Mx. apply bool_decide_eq_true in Mx. unfold mount_points in Hnd. cbn in Hnd. rewrite Mx in Hnd.
    apply list.NoDup_cons in Hnd as [Hn _]. apply Hn. apply (mount_points_in mp ls). apply existsb_exists. exists y. by rewrite <- list_elem_of_In. }
  pose proof (mount_points_tail _ _ Hnd) as Hls.
  apply elem_of_cons in Hl as [->|Hl], Hl' as [->|Hl']; [done|exfalso; by apply (Hx l')|exfalso; by apply (Hx l)|by apply IH].
Qed.

(** with one mount per mount point exactly the orphans go *)
Lemma mounts_swept live h : NoDup (mount_points (j_mounts h)) ->
  j_mounts (snd (sweep_rootfs_mounts live h)) = List.filter (fun l => negb (bool_decide (is_Some (orphan_mount live l)))) (j_mounts h).
Proof.
  intros Hnd. cbn [sweep_rootfs_mounts snd j_mounts set_field]. rewrite umount_all by done.
  apply filter_ext_in. intros l Hl%list_elem_of_In. apply eq_true_iff_eq. rewrite forallb_forall, negb_true_iff, bool_decide_eq_false.
  setoid_rewrite <- list_elem_of_In. setoid_rewrite list_elem_of_omap. split.
  - intros Hall [mp Ho]. specialize (Hall mp (ex_intro _ l (conj Hl Ho))). apply negb_true_iff in Hall.
    unfold orphan_mount in Ho. destruct (mount_of l) as [[src mp']|] eqn:E; [|done]. cbn in Ho. destruct (_ && _); [|done].
    injection Ho as ->. unfold mounted_at in Hall. rewrite E in Hall. cbn in Hall. by rewrite bool_decide_true in Hall.
  - intros Hno mp (l' & Hl' & Ho). apply negb_true_iff, not_true_is_false. intros Hm. apply Hno.
    enough (l = l') as -> by (by eexists). apply (same_point (j_mounts h) l l' mp); try done.
    unfold orphan_mount in Ho. destruct (mount_of l') as [[src mp']|] eqn:E; [|done]. cbn in Ho. destruct (_ && _); [|done].
    injection Ho as ->. apply mounted_at_spec. by exists src.
Qed.

Lemma filter_filter_same {A} (f : A -> bool) l : List.filter f (List.filter f l) = List.filter f l.
Proof. induction l as [|x l IH]; [done|]. cbn. destruct (f x) eqn:E; cbn; [rewrite E|]; by rewrite IH. Qed.
Lemma mounts_settle live h : NoDup (mount_points (j_mounts h)) ->
  let h' := snd (sweep_rootfs_mounts live h) in forall h2, j_mounts h2 = j_mounts h' -> sweep_rootfs_mounts live h2 = (0%nat, h2).
Proof.
  cbv zeta. intros Hnd h2 E. unfold sweep_rootfs_mounts. rewrite E, mounts_swept by done.
  replace (omap (orphan_mount live) _) with (@nil string); [cbn; rewrite <- mounts_swept, <- E by done; by destruct h2|].
  symmetry. induction (j_mounts h) as [|l ls IH]; [done|]. cbn.
  destruct (orphan_mount live l) as [mp|] eqn:Eo; cbn; [|rewrite Eo]; apply IH; by apply mount_points_tail in Hnd.
Qed.

(** ** The other sweeps *)
Section rest.
Context `{ReadDir} `{!ReadDirLaws} (k : kernel).

Lemma states_swept h n f : j_states (snd (sweep_state_files k h)) !! n = Some f <-> j_states h !! n = Some f /\ dead_state k n f = false.
Proof.
  change (j_states (snd (sweep_state_files k h))) with (swept (dead_state k) (j_states h)). rewrite lookup_swept.
  destruct (j_states h !! n) as [g|]; cbn; [|naive_solver]. destruct (dead_state k n g) eqn:E; naive_solver congruence.
Qed.
Lemma locks_swept h n t : j_locks (snd (sweep_rootfs_locks k h)) !! n = Some t <-> j_locks h !! n = Some t /\ lock_orphan k h n t = false.
Proof.
  change (j_locks (snd (sweep_rootfs_locks k h))) with (swept (lock_orphan k h) (j_locks h)). rewrite lookup_swept.
  destruct (j_locks h !! n) as [g|]; cbn; [|naive_solver]. destruct (lock_orphan k h n g) eqn:E; naive_solver congruence.
Qed.

(** the states as they are decoded, and the VMs that are listed *)
Definition decoded (m : gmap string state_file) : dir := omap (fun f => Some (sf_vm f)) m.
Definition listed_names (m : gmap string state_file) : list string := map name (fst (list_vms (k_host k) (decoded m))).
Lemma decoded_lookup m n : decoded m !! n = sf_vm <$> m !! n.
Proof. unfold decoded. rewrite lookup_omap. by destruct (m !! n). Qed.
Lemma listed_names_in m x : x ∈ listed_names m <-> exists n f s, m !! n = Some f /\ sf_vm f = Some s /\ is_json n = true
  /\ is_pid_alive (k_host k) (pid s) = true /\ name s = x.
Proof.
  unfold listed_names. rewrite list_elem_of_fmap. setoid_rewrite list_elem_of_In. setoid_rewrite in_list_vms. setoid_rewrite decoded_lookup. split.
  - intros (s & -> & n & Hn & Hj & Ha). destruct (m !! n) as [f|] eqn:E; [|done]. injection Hn as Hn. by exists n, f, s.
  - intros (n & f & s & Hn & Hf & Hj & Ha & <-). exists s. split; [done|]. exists n. rewrite Hn. cbn. by rewrite Hf.
Qed.
(** the state files that listing the VMs leaves *)
Definition kept_state (n : string) (f : state_file) : bool :=
  negb (match sf_vm f with Some s => is_json n && negb (is_pid_alive (k_host k) (pid s)) | None => false end).
Lemma cgroups_eq h : sweep_empty_cgroups k h =
  let gone := filter (fun e => empty_cgroup k (listed_names (j_states h)) e.1 e.2) (map_to_list (j_cgroups h)) in
  (length gone, h <| j_states ::= filter (fun e => kept_state e.1 e.2) |> <| j_cgroups := foldr delete (j_cgroups h) (map fst gone) |>).
Proof.
  unfold sweep_empty_cgroups, listed_names. fold (decoded (j_states h)).
  pose proof (list_vms_dir (k_host k) (decoded (j_states h))) as Hd. destruct (list_vms _ _) as [vms d]. cbn [snd fst] in *. subst d.
  cbv zeta. f_equal. f_equal. unfold set_field. cbn. f_equal. apply map_filter_ext. intros n f Hn. cbn. unfold prune.
  rewrite map_lookup_filter, decoded_lookup, Hn. cbn. unfold is_dead, kept_state. cbn.
  destruct (sf_vm f) as [s|]; [destruct (is_json n), (is_pid_alive (k_host k) (pid s))|]; cbn; case_guard; naive_solver.
Qed.
Lemma cgroups_swept h :
  j_cgroups (snd (sweep_empty_cgroups k h)) = swept (empty_cgroup k (listed_names (j_states h))) (j_cgroups h).
Proof. by rewrite cgroups_eq. Qed.
Lemma kept_state_listed m x : x ∈ listed_names (filter (fun e => kept_state e.1 e.2) m) <-> x ∈ listed_names m.
Proof.
  rewrite !listed_names_in. split; intros (n & f & s & Hn & Hf & Hj & Ha & Hx); exists n, f, s.
  - by apply map_lookup_filter_Some in Hn as [Hn _].
  - split; [|done]. apply map_lookup_filter_Some. split; [done|]. cbn. unfold kept_state. by rewrite Hf, Ha, andb_false_r.
Qed.
Lemma same_mem x l1 l2 : (forall y, y ∈ l1 <-> y ∈ l2) -> mem x l1 = mem x l2.
Proof.
  intros He. apply eq_true_iff_eq. unfold mem. rewrite !existsb_exists. setoid_rewrite bool_decide_eq_true.
  setoid_rewrite <- list_elem_of_In. split; intros (y & Hy & <-); exists y; (split; [by apply He|done]).
Qed.

Lemma states_settle h h' : (forall n f, j_states h' !! n = Some f -> j_states (snd (sweep_state_files k h)) !! n = Some f) ->
  sweep_state_files k h' = (0%nat, h').
Proof.
  intros Hsub. unfold sweep_state_files. destruct (filter _ _) as [|[n f] l] eqn:E; [by destruct h'|exfalso].
  assert (Hin : (n, f) ∈ (n, f) :: l) by (by left). rewrite <- E in Hin.
  apply list_elem_of_filter in Hin as [Ho Hin]. apply elem_of_map_to_list in Hin. apply Is_true_true in Ho. cbn [fst snd] in Ho.
  apply Hsub, states_swept in Hin as [_ Hd]. congruence.
Qed.
Lemma locks_settle h h' : j_locks h' = j_locks (snd (sweep_rootfs_locks k h)) -> j_mounts h' = j_mounts h ->
  sweep_rootfs_locks k h' = (0%nat, h').
Proof.
  intros El Em. unfold sweep_rootfs_locks. destruct (filter _ _) as [|[n t] l] eqn:E; [by destruct h'|exfalso].
  assert (Hin : (n, t) ∈ (n, t) :: l) by (by left). rewrite <- E in Hin.
  apply list_elem_of_filter in Hin as [Ho Hin]. apply elem_of_map_to_list in Hin. apply Is_true_true in Ho. cbn [fst snd] in Ho.
  rewrite El in Hin. apply locks_swept in Hin as [_ Hd]. unfold lock_orphan in *. rewrite Em in Ho. congruence.
Qed.
Lemma cgroups_settle h h' : j_states h' = j_states (snd (sweep_empty_cgroups k h)) -> j_cgroups h' = j_cgroups (snd (sweep_empty_cgroups k h)) ->
  sweep_empty_cgroups k h' = (0%nat, h').
Proof.
  rewrite !cgroups_eq. cbv zeta. cbn [snd j_states j_cgroups set_field]. intros Es Ec.
  fold (swept (empty_cgroup k (listed_names (j_states h))) (j_cgroups h)) in Ec.
  replace (filter _ (map_to_list (j_cgroups h'))) with (@nil (string * option string)).
  - cbn. assert (Hf : filter (fun e => kept_state e.1 e.2) (j_states h') = j_states h').
    { rewrite Es. apply map_eq. intros n. rewrite !map_lookup_filter.
      destruct (j_states h !! n) as [f|]; [|done]. cbn. repeat (case_guard; cbn); done. }
    rewrite Hf. by destruct h'.
  - symmetry. rewrite Ec.
    match goal with |- ?l = [] => destruct l as [|[n c] l'] eqn:E; [done|exfalso] end.
    assert (Hin : (n, c) ∈ (n, c) :: l') by (by left). rewrite <- E in Hin.
    apply list_elem_of_filter in Hin as [Ho Hin]. apply elem_of_map_to_list in Hin. apply Is_true_true in Ho. cbn [fst snd] in Ho.
    rewrite lookup_swept in Hin. destruct (j_cgroups h !! n) as [c'|]; [|done]. cbn in Hin.
    destruct (empty_cgroup k _ n c') eqn:Ee; [done|]. injection Hin as ->. unfold empty_cgroup in *.
    rewrite (same_mem n (listed_names (j_states h')) (listed_names (j_states h))) in Ho; [congruence|].
    intros x. rewrite Es. apply kept_state_listed.
Qed.
Lemma loops_settle h h' : j_loops h' = j_loops (snd (sweep_deleted_loops k h)) -> j_mounts h' = j_mounts h ->
  sweep_deleted_loops k h' = (0%nat, h').
Proof.
  intros El Em. unfold sweep_deleted_loops. rewrite Em. cbn [sweep_deleted_loops snd j_loops set_field] in El.
  set (gone := omap (deleted_loop k (j_mounts h)) (j_loops h)) in *.
  assert (Hn : omap (deleted_loop k (j_mounts h)) (j_loops h') = []).
  { destruct (omap _ (j_loops h')) as [|d l] eqn:E; [done|exfalso]. assert (Hd : d ∈ d :: l) by (by left). rewrite <- E in Hd.
    apply list_elem_of_omap in Hd as (ln & Hl & Hd). rewrite El in Hl. apply list_elem_of_In, filter_In in Hl as [Hl Hf].
    apply list_elem_of_In in Hl. assert (Hg : d ∈ gone) by (apply list_elem_of_omap; by exists ln).
    unfold deleted_loop in Hd. destruct (split_whitespace ln) as [|dev ps]; [done|].
    cbv beta iota in Hd. destruct (length (dev :: ps) <? 6)%nat; [done|]. destruct (negb (contains "(deleted)" ln)); [done|].
    destruct (existsb (starts_with (dev +:+ " ")) (j_mounts h)); [done|]. destruct (k_detach k dev); [|done].
    injection Hd as ->. apply negb_true_iff in Hf. assert (Hm : mem d gone = true); [|congruence].
    unfold mem. apply existsb_exists. exists d. rewrite <- list_elem_of_In. by rewrite bool_decide_true. }
  rewrite Hn. f_equal. destruct h' as [a b c d e loops]. cbn [j_loops] in El. unfold set_field. cbn. f_equal.
  rewrite (List.filter_ext _ (fun _ => true)); [clear; induction loops as [|x l IH]; [done|cbn; by rewrite IH]|].
  intros l. by destruct (split_whitespace l).
Qed.
End rest.

(** ** A sweep *)
Section whole.
Context `{ReadDir} `{!ReadDirLaws} (k : kernel).
Notation live := (collect_live_master_paths k).

(** what each field is after a sweep *)
Lemma sweep_fields h : let h' := snd (sweep k h) in
  j_nkrfs h' = j_nkrfs (snd (sweep_virtiofsd_sockets (snd (sweep_virtiofsd_pid_files k h))))
  /\ j_states h' = filter (fun e => kept_state k e.1 e.2) (j_states (snd (sweep_state_files k h)))
  /\ j_mounts h' = j_mounts (snd (sweep_rootfs_mounts live h))
  /\ j_locks h' = j_locks (snd (sweep_rootfs_locks k (snd (sweep_rootfs_mounts live h))))
  /\ j_cgroups h' = j_cgroups (snd (sweep_empty_cgroups k (snd (sweep_state_files k h))))
  /\ j_loops h' = j_loops (snd (sweep_deleted_loops k (snd (sweep_rootfs_mounts live h)))).
Proof.
  cbv zeta. unfold sweep. cbn [sweep_virtiofsd_pid_files sweep_virtiofsd_sockets sweep_state_files sweep_rootfs_mounts sweep_rootfs_locks].
  rewrite !cgroups_eq. done.
Qed.

(** a state file that decodes has its process in its JSON value *)
Definition decodes (h : leftovers) : Prop := forall n f s, j_states h !! n = Some f -> sf_vm f = Some s ->
  exists v, sf_json f = Some v /\ get "pid" v = Some (JInt (pid s)) /\ 0 < pid s < 2 ^ 31.

(** what a running VM was started with: a path after one of the options, up to a colon, or a loop
    device of such a file *)
Definition named_by_vm (src : string) : Prop :=
  exists pid p c prog pre flag value post path, k_host k !! pid = Some p /\ cmdline p = Some c
    /\ prog ∈ args_of c /\ (prog = "nkr" \/ exists dir, prog = dir +:+ "/nkr") /\ "run" ∈ args_of c
    /\ args_of c = pre ++ flag :: value :: post
    /\ (flag = "--disk" \/ flag = "--rootfs" \/ exists more, flag = "--share" +:+ more \/ flag = "--volume" +:+ more)
    /\ char_in ":" path = false /\ (value = path \/ exists more, value = path +:+ ":" +:+ more)
    /\ (src = path \/ exists line more, line ∈ lines (k_losetup k path) /\ line = src +:+ ":" +:+ more /\ char_in ":" src = false /\ trim src = src).

Lemma first_part_spec path value : char_in ":" path = false -> (value = path \/ exists more, value = path +:+ ":" +:+ more) -> first_part value = path.
Proof.
  intros Hp [->|[more ->]]; unfold first_part; [by rewrite split_on_plain|].
  change (":" +:+ more) with (String ":" more). by rewrite split_on_app, split_on_plain.
Qed.
Lemma paths_of_args_in pre flag value post x : takes_path flag = true ->
  x = first_part value \/ x ∈ map (fun l => trim (first_part l)) (lines (k_losetup k (first_part value))) ->
  x ∈ paths_of_args k (pre ++ flag :: value :: post).
Proof.
  intros Hf Hx. induction pre as [|a pre IH]; cbn [app paths_of_args].
  - rewrite Hf. rewrite elem_of_app. left. apply elem_of_cons. destruct Hx as [->|Hx]; [by left|by right].
  - destruct (pre ++ flag :: value :: post) as [|b l] eqn:E; [by destruct pre|]. rewrite elem_of_app. by right.
Qed.
Lemma named_live src : named_by_vm src -> src ∈ live.
Proof.
  intros (pid & p & c & prog & pre & flag & value & post & path & Hk & Hc & Hprog & Hn & Hrun & Hargs & Hflag & Hpath & Hv & Hs).
  unfold collect_live_master_paths. apply list_elem_of_In, in_flat_map. exists (pid, p).
  split; [apply list_elem_of_In; by apply elem_of_map_to_list|]. cbn [snd]. unfold live_paths_of. rewrite Hc.
  assert (Hr : is_run (args_of c) = true).
  { unfold is_run. apply andb_true_iff. split; [|by apply mem_spec]. apply existsb_exists. exists prog. split; [by apply list_elem_of_In|].
    destruct Hn as [->|[dir ->]]; apply orb_true_iff; [by right|left]. apply ends_with_spec. by eexists. }
  rewrite Hr, Hargs. apply list_elem_of_In, paths_of_args_in.
  - unfold takes_path. rewrite !orb_true_iff, !bool_decide_eq_true. destruct Hflag as [->|[->|[more [-> | ->]]]]; [auto|auto| |];
      [left; right|right]; apply starts_with_spec; by eexists.
  - rewrite (first_part_spec path value) by done. destruct Hs as [->|(line & more & Hl & -> & Hsrc & Ht)]; [by left|right].
    apply list_elem_of_fmap. exists (src +:+ ":" +:+ more). split; [|done]. rewrite (first_part_spec src); [done|done|right; by eexists].
Qed.

(** a mount that no other shares its mount point with stays, when it is not orphaned *)
Lemma umount_keeps mp l ls : mounted_at mp l = false -> l ∈ ls -> l ∈ umount_last mp ls.
Proof.
  intros Hm. induction ls as [|x ls IH]; [done|]. intros [<-|Hl]%elem_of_cons; cbn [umount_last].
  - rewrite Hm. cbn. by left.
  - destruct (_ && _); [done|]. right. by apply IH.
Qed.
Lemma mount_stays h l src mp : l ∈ j_mounts h -> mount_of l = Some (src, mp) -> src ∈ live ->
  (forall l', l' ∈ j_mounts h -> mounted_at mp l' = true -> l' = l) -> l ∈ j_mounts (snd (sweep_rootfs_mounts live h)).
Proof.
  intros Hl Hm Hsrc Hone. cbn [sweep_rootfs_mounts snd j_mounts set_field].
  assert (Hno : forall mp', mp' ∈ omap (orphan_mount live) (j_mounts h) -> mounted_at mp' l = false).
  { intros mp' (l' & Hl' & Ho)%list_elem_of_omap. apply not_true_is_false. intros Hat. unfold mounted_at in Hat. rewrite Hm in Hat.
    apply bool_decide_eq_true in Hat. cbn in Hat. injection Hat as <-.
    unfold orphan_mount in Ho. destruct (mount_of l') as [[src' mp']|] eqn:E; [|done]. cbn in Ho. destruct (_ && _) eqn:Eo; [|done].
    injection Ho as ->. assert (l' = l) as -> by (apply Hone; [done|]; apply mounted_at_spec; by exists src').
    rewrite Hm in E. injection E as <-. rewrite (proj2 (mem_spec src live)) in Eo by done. by rewrite andb_false_r in Eo. }
  revert Hno. generalize (omap (orphan_mount live) (j_mounts h)). intros mps. revert Hl. clear. generalize (j_mounts h).
  intros ls Hl. revert ls Hl. induction mps as [|mp mps IH]; intros ls Hl Hno; [done|]. cbn [fold_left]. apply IH.
  - apply umount_keeps; [apply Hno; by left|done].
  - intros mp' Hmp. apply Hno. by right.
Qed.

(** C21. A sweep spares what living processes use: the socket and the pid file of a living virtiofsd,
    the state files of living VMs (with a pid between 1 and 2^31, which their JSON says too), the mounts whose
    source a running VM was started with, as a file or as its loop device, unless something
    else is mounted at the same point, the lock files of what is mounted, and the control groups of
    living VMs or with processes in them.  A VM started with the mount point itself does not
    protect its mount. *)
Theorem sweep_spares_live h : decodes h ->
  let h' := snd (sweep k h) in
  (forall t txt pid c, t <> "" -> j_nkrfs h !! (t +:+ ".sock.pid") = Some (Some txt) -> parse_i32 (trim txt) = Some pid ->
     kill0 k pid = true -> j_nkrfs h !! (t +:+ ".sock") = Some c ->
     j_nkrfs h' !! (t +:+ ".sock") = Some c /\ j_nkrfs h' !! (t +:+ ".sock.pid") = Some (Some txt))
  /\ (forall n f s, j_states h !! n = Some f -> sf_vm f = Some s -> is_pid_alive (k_host k) (pid s) = true -> j_states h' !! n = Some f)
  /\ (forall l src mp, l ∈ j_mounts h -> mount_of l = Some (src, mp) -> named_by_vm src ->
     (forall l', l' ∈ j_mounts h -> mounted_at mp l' = true -> l' = l) -> l ∈ j_mounts h')
  /\ (forall n t, j_locks h !! n = Some t ->
     existsb (mounted_at ("/run/" +:+ trim_end_matches (String.length n) ".lock" n)) (j_mounts h') = true -> j_locks h' !! n = Some t)
  /\ (forall n c, j_cgroups h !! n = Some c ->
     n ∈ listed_names k (j_states h) \/ (exists txt l, c = Some txt /\ l ∈ lines txt /\ trim l <> "") -> j_cgroups h' !! n = Some c).
Proof.
  intros Hdec. cbv zeta. destruct (sweep_fields h) as (E1 & E2 & E3 & E4 & E5 & _). rewrite E1, E2, E3, E4, E5. clear E1 E2 E3 E4 E5.
  assert (Hdead : forall n f s, j_states h !! n = Some f -> sf_vm f = Some s -> is_pid_alive (k_host k) (pid s) = true -> dead_state k n f = false).
  { intros n f s Hf Hvm Ha. destruct (Hdec n f s Hf Hvm) as (v & Hv & Hp & Hr). unfold dead_state. rewrite Hv. cbn [mbind option_bind]. rewrite Hp. cbn [mbind option_bind].
    unfold i64. destruct ((- 2 ^ 63 <=? pid s) && (pid s <? 2 ^ 63)) eqn:Ei; [|apply andb_false_iff in Ei; lia].
    assert (Ht : to_i32 (pid s) = pid s).
    { unfold to_i32. rewrite u32_small by (unfold is_u32; lia). destruct (Z.ltb_spec (pid s) (2 ^ 31)); [done|lia]. }
    rewrite Ht. unfold kill0. destruct (Z.ltb_spec 0 (pid s)); [|lia]. unfold is_pid_alive in Ha.
    destruct (k_host k !! pid s); [|done]. rewrite bool_decide_true by (by eexists). by rewrite andb_false_r. }
  split; [|split; [|split; [|split]]].
  - intros t txt pid c Ht Hp Hparse Hk Hs. replace (t +:+ ".sock.pid") with ((t +:+ ".sock") +:+ ".pid") in * by (by rewrite string_app_assoc).
    by apply (live_socket_stays k h t txt pid c).
  - intros n f s Hf Hvm Ha. apply map_lookup_filter_Some. cbn. split; [|unfold kept_state; by rewrite Hvm, Ha, andb_false_r].
    apply states_swept. split; [done|]. by apply (Hdead n f s).
  - intros l src mp Hl Hm Hsrc Hone. by apply (mount_stays h l src mp Hl Hm (named_live src Hsrc)).
  - intros n t Hn Hm. apply locks_swept. split; [done|]. unfold lock_orphan. rewrite Hm. by rewrite !andb_false_r.
  - intros n c Hc Hor. rewrite cgroups_swept, lookup_swept. change (j_cgroups (snd (sweep_state_files k h))) with (j_cgroups h). rewrite Hc. cbn [mbind option_bind]. replace (empty_cgroup _ _ _ _) with false; [done|]. symmetry. unfold empty_cgroup.
    destruct Hor as [Hl|(txt & l & -> & Hl & Ht)].
    + replace (mem n _) with true; [done|]. symmetry. apply mem_spec, listed_names_in.
      apply listed_names_in in Hl as (m & f & s & Hf & Hvm & Hj & Ha & Hn). exists m, f, s. split; [|done].
      apply states_swept. split; [done|]. by apply (Hdead m f s).
    + replace (existsb _ (lines txt)) with true; [by rewrite andb_false_r|]. symmetry. apply existsb_exists. exists l.
      split; [by apply list_elem_of_In|]. by rewrite bool_decide_false.
Qed.

(** One sweep is enough: while the processes, and the mounts, of the host are the same, a
    second sweep right after the first finds nothing and changes nothing. *)
Theorem sweep_settles h : NoDup (mount_points (j_mounts h)) ->
  sweep k (snd (sweep k h)) = (mkStats 0 0 0 0 0 0 0, snd (sweep k h)).
Proof.
  intros Hnd. destruct (sweep_fields h) as (E1 & E2 & E3 & E4 & E5 & E6). set (h' := snd (sweep k h)) in *. clearbody h'.
  destruct (nkrfs_settles k h h' E1) as [S1 S2].
  unfold sweep. rewrite S1, S2. rewrite (states_settle k h h'); [|intros n f; rewrite E2; by intros [Hf _]%map_lookup_filter_Some].
  rewrite (mounts_settle live h Hnd h' E3), (locks_settle k (snd (sweep_rootfs_mounts live h)) h' E4 E3).
  rewrite (cgroups_settle k (snd (sweep_state_files k h)) h'); [|rewrite E2, cgroups_eq; done|done].
  by rewrite (loops_settle k (snd (sweep_rootfs_mounts live h)) h' E6 E3).
Qed.
End whole.

(** ** A host *)
Module JanitorExample.
Definition argv (l : list string) : string := fold_right (fun a acc => a +:+ String nul acc) "" l.
(** a VM, its virtiofsd, and a process that ended *)
Definition processes : host :=
  {[10 := mkProc (Some (argv ["/usr/bin/nkr"; "run"; "--name"; "c18-acme"; "--disk"; "/img/odoo.ext4"])) (Some "State:	S (sleeping)");
    11 := mkProc (Some (argv ["virtiofsd"])) (Some "State:	S (sleeping)")]}.
Definition k : kernel :=
  mkKernel processes (fun _ => false)
    (fun f => if bool_decide (f = "/img/odoo.ext4") then "/dev/loop3: []: (/img/odoo.ext4)" else "")
    (7200 * 10 ^ 9) (fun _ => true) (fun _ => true) (fun _ => true).
Definition vm (n : string) (p v : Z) : VmState :=
  mkVmState v "h" n p 512 1 [] "10.0.3.9" [] "tap" 0 false false 0 3 (mkGuestMem 0 0 0 0).
Definition state_of (n : string) (p v : Z) : state_file := mkStateFile (Some (JObject [("pid", JInt p)])) (Some (vm n p v)).
Definition mount_line (src mp : string) : string := src +:+ " " +:+ mp +:+ " ext4 ro 0 0".
Definition litter : leftovers := mkLeftovers
  {["acme.sock" := None; "acme.sock.pid" := Some ("11" +:+ String LF ""); "dead.sock" := None; "dead.sock.pid" := Some "99"; "alone.sock" := None]}
  {["c3-v9.json" := state_of "c18-acme" 10 9; "c3-v8.json" := state_of "c18-dead" 98 8]}
  [mount_line "/dev/loop3" "/run/nkr_master_rootfs_ab"; mount_line "/dev/loop5" "/run/nkr_master_rootfs_cd"; mount_line "/dev/sda1" "/"]
  {["nkr_master_rootfs_ab.lock" := 0; "nkr_master_rootfs_cd.lock" := 0; "nkr_master_rootfs_ef.lock" := 7000 * 10 ^ 9; "other.lock" := 0]}
  {["c18-acme" := Some "10"; "c18-dead" := Some ""; "c18-busy" := Some ("77" +:+ String LF "")]}
  ["/dev/loop5 0 0 1 0 /img/old.ext4 (deleted) 0 512"; "/dev/loop3 0 0 1 0 /img/odoo.ext4 0 512"].
Example swept_stats : fst (sweep (H := listed_dir) k litter) = mkStats 1 1 1 1 1 1 1.
Proof. vm_compute. reflexivity. Qed.
Example swept_host :
  let h := snd (sweep (H := listed_dir) k litter) in
  map fst (map_to_list (j_nkrfs h)) = ["acme.sock.pid"; "acme.sock"] /\ length (j_mounts h) = 2%nat
  /\ is_Some (j_cgroups h !! "c18-busy") /\ j_cgroups h !! "c18-dead" = None /\ j_locks h !! "nkr_master_rootfs_ab.lock" = Some 0.
Proof. vm_compute. repeat split; by eexists. Qed.

(** Two mounts on one mount point, the older one without a VM: what is unmounted is the newer
    one, which the VM uses. *)
Definition stacked : leftovers :=
  litter <| j_mounts := [mount_line "/dev/loop5" "/run/nkr_master_rootfs_ab"; mount_line "/dev/loop3" "/run/nkr_master_rootfs_ab"] |>.
Example live_mount_lost : j_mounts (snd (sweep (H := listed_dir) k stacked)) = [mount_line "/dev/loop5" "/run/nkr_master_rootfs_ab"].
Proof. vm_compute. reflexivity. Qed.
(** A VM that was started with the mounted directory as its root file system does not protect it. *)
Definition by_rootfs : kernel := mkKernel
  {[12 := mkProc (Some (argv ["nkr"; "run"; "--rootfs"; "/run/nkr_master_rootfs_cd"])) (Some "State:	S (sleeping)")]}
  (fun _ => false) (fun _ => "") 0 (fun _ => true) (fun _ => true) (fun _ => true).
Example rootfs_mount_lost :
  "/run/nkr_master_rootfs_cd" ∈ collect_live_master_paths by_rootfs
  /\ forallb (fun l => negb (mounted_at "/run/nkr_master_rootfs_cd" l)) (j_mounts (snd (sweep (H := listed_dir) by_rootfs litter))) = true.
Proof. split; [apply (bool_decide_eq_true_1 _); by vm_compute|by vm_compute]. Qed.

Lemma one_mount_each : NoDup (mount_points (j_mounts litter)).
Proof. apply (bool_decide_eq_true_1 _). by vm_compute. Qed.
Lemma litter_decodes : decodes litter.
Proof.
  intros n f s Hf Hs. unfold litter in Hf. cbn [j_states] in Hf.
  apply lookup_insert_Some in Hf as [[_ <-]|[_ Hf]]; [|apply lookup_singleton_Some in Hf as [_ <-]];
    injection Hs as <-; eexists; (split; [reflexivity|]); split; try reflexivity; cbn; lia.
Qed.
Lemma sweep_spares_live_witness :
  let h := snd (sweep (H := listed_dir) k litter) in
  j_nkrfs h !! "acme.sock" = Some None /\ j_cgroups h !! "c18-acme" = Some (Some "10")
  /\ mount_line "/dev/loop3" "/run/nkr_master_rootfs_ab" ∈ j_mounts h.
Proof.
  destruct (sweep_spares_live (H := listed_dir) k litter litter_decodes) as (H1 & _ & H3 & _ & H5). split; [|split].
  - refine (proj1 (H1 "acme" ("11" +:+ String LF "") 11 None _ _ _ _ _)); by vm_compute.
  - apply H5; [by vm_compute|]. left. apply (bool_decide_eq_true_1 _). by vm_compute.
  - apply (H3 _ "/dev/loop3" "/run/nkr_master_rootfs_ab"); [left|by vm_compute| |].
    + exists 10, (mkProc (Some (argv ["/usr/bin/nkr"; "run"; "--name"; "c18-acme"; "--disk"; "/img/odoo.ext4"])) (Some "State:	S (sleeping)")).
      exists (argv ["/usr/bin/nkr"; "run"; "--name"; "c18-acme"; "--disk"; "/img/odoo.ext4"]), "/usr/bin/nkr", ["/usr/bin/nkr"; "run"; "--name"; "c18-acme"], "--disk", "/img/odoo.ext4", [], "/img/odoo.ext4".
      split_and!; [vm_compute; reflexivity|reflexivity|apply (bool_decide_eq_true_1 _); by vm_compute|right; by exists "/usr/bin"|apply (bool_decide_eq_true_1 _); by vm_compute
        |vm_compute; reflexivity|by left|by vm_compute|by left|right]. exists "/dev/loop3: []: (/img/odoo.ext4)", " []: (/img/odoo.ext4)".
      split_and!; [apply (bool_decide_eq_true_1 _); by vm_compute|reflexivity|by vm_compute|by vm_compute].
    + intros l' Hl' Hat. unfold litter in Hl'. cbn [j_mounts] in Hl'. rewrite !elem_of_cons, elem_of_nil in Hl'.
      destruct Hl' as [->|[->|[->|[]]]]; [reflexivity|by vm_compute in Hat|by vm_compute in Hat].
Defined.
Lemma sweep_settles_witness :
  sweep (H := listed_dir) k (snd (sweep (H := listed_dir) k litter)) = (mkStats 0 0 0 0 0 0 0, snd (sweep (H := listed_dir) k litter)).
Proof. exact (sweep_settles (H := listed_dir) k litter one_mount_each). Defined.
End JanitorExample.
