(* ===== verification/GuestMem.v ===== *)
(** * Guest physical memory

    The devices access guest RAM through the [vm-memory] crate.  That crate is
    not part of the repository, so it is an interface here: [GuestMemory] has the
    operations the source calls ([read_slice], [write_slice], [read_obj],
    [write_obj], [get_host_address]) and [GuestMemoryLaws] the behaviour the crate
    documents.  [RegionMem] is a concrete memory (a byte function with a list of
    mapped regions) that satisfies the laws; the witnesses run on it. *)
From S2P Require Import Prelude.

(** [mem_read m a n] is [read_slice] of [n] bytes at guest address [a]: [None] is
    [Err].  [mem_write] returns whether the call was [Ok] and the memory it leaves
    (a failing [write_slice] may have stored a part of the bytes).
    [host_addr] is [get_host_address]. *)
Class GuestMemory (mem : Type) := {
  mem_read : mem -> Z -> nat -> option (list Z);
  mem_write : mem -> Z -> list Z -> bool * mem;
  host_addr : mem -> Z -> option Z;
}.

(** [[a, a+n)] and [[b, b+k)] do not meet *)
Definition disjoint_ranges (a : Z) (n : nat) (b : Z) (k : nat) : Prop :=
  a + Z.of_nat n <= b \/ b + Z.of_nat k <= a.

Class GuestMemoryLaws (mem : Type) `{GuestMemory mem} : Prop := {
  read_shape m a n bs :
    mem_read m a n = Some bs -> length bs = n /\ bytes_ok bs;
  write_then_read m a bs m' :
    bytes_ok bs -> mem_write m a bs = (true, m') -> mem_read m' a (length bs) = Some bs;
  write_frame m a bs ok m' b k :
    mem_write m a bs = (ok, m') -> disjoint_ranges a (length bs) b k ->
    mem_read m' b k = mem_read m b k;
  write_ok_iff_mapped m a bs :
    fst (mem_write m a bs) = true <-> is_Some (mem_read m a (length bs));
  write_keeps_mapping m a bs b k :
    is_Some (mem_read (snd (mem_write m a bs)) b k) <-> is_Some (mem_read m b k);
}.

(** [read_obj::<T>] and [write_obj::<T>] for an unsigned [T] of [n] bytes; the
    host is little endian. *)
Definition read_obj `{GuestMemory mem} (n : nat) (m : mem) (a : Z) : option Z :=
  le_val <$> mem_read m a n.
Definition write_obj `{GuestMemory mem} (n : nat) (m : mem) (a v : Z) : bool * mem :=
  mem_write m a (le_bytes n v).

(** [let _ = mem.read_slice(&mut buf, a)] into a zeroed buffer of [n] bytes: a
    failing call has filled the part that is mapped ([PartialBuffer]). *)
Fixpoint read_prefix `{GuestMemory mem} (m : mem) (a : Z) (n : nat) : list Z :=
  match mem_read m a n with
  | Some bs => bs
  | None => match n with O => [] | S n => read_prefix m a n end
  end.
Definition read_ignore `{GuestMemory mem} (m : mem) (a : Z) (n : nat) : list Z :=
  let got := read_prefix m a n in got ++ replicate (n - length got) 0.

(** [let _ = mem.write_..(..)]: the result is dropped *)
Definition write_ignore `{GuestMemory mem} (m : mem) (a : Z) (bs : list Z) : mem :=
  snd (mem_write m a bs).
Definition write_obj_ignore `{GuestMemory mem} (n : nat) (m : mem) (a v : Z) : mem :=
  snd (write_obj n m a v).

Section Laws.
Context `{HM : GuestMemoryLaws mem}.
Implicit Types m : mem.

Lemma read_obj_range n m a v :
  read_obj n m a = Some v -> 0 <= v < 256 ^ Z.of_nat n.
Proof.
  unfold read_obj. destruct (mem_read m a n) as [bs|] eqn:E; [|done].
  intros [= <-]. apply read_shape in E as [<- Hb]. by apply le_val_bound.
Qed.

Lemma read_prefix_length m a n : (length (read_prefix m a n) <= n)%nat.
Proof.
  induction n as [|n IH]; simpl; destruct (mem_read m a _) as [bs|] eqn:E;
    try (apply read_shape in E as [-> _]); simpl; lia.
Qed.

Lemma length_read_ignore m a n : length (read_ignore m a n) = n.
Proof.
  pose proof (read_prefix_length m a n). unfold read_ignore.
  rewrite length_app, length_replicate. lia.
Qed.

Lemma read_ignore_mapped m a n bs : mem_read m a n = Some bs -> read_ignore m a n = bs.
Proof.
  intros E. unfold read_ignore. assert (Hp : read_prefix m a n = bs) by (destruct n; simpl; by rewrite E).
  rewrite Hp. apply read_shape in E as [-> _]. by rewrite Nat.sub_diag, app_nil_r.
Qed.

Lemma write_ignore_frame m a bs b k :
  disjoint_ranges a (length bs) b k -> mem_read (write_ignore m a bs) b k = mem_read m b k.
Proof.
  intros Hd. unfold write_ignore. destruct (mem_write m a bs) as [ok m'] eqn:E.
  by eapply write_frame.
Qed.

Lemma write_ignore_mapped m a bs b k :
  is_Some (mem_read (write_ignore m a bs) b k) <-> is_Some (mem_read m b k).
Proof. apply write_keeps_mapping. Qed.

Lemma write_ignore_read m a bs :
  bytes_ok bs -> is_Some (mem_read m a (length bs)) ->
  mem_read (write_ignore m a bs) a (length bs) = Some bs.
Proof.
  intros Hb Hm. unfold write_ignore. apply write_ok_iff_mapped in Hm.
  destruct (mem_write m a bs) as [ok m'] eqn:E. simpl in Hm. subst ok.
  by eapply write_then_read.
Qed.

Lemma write_obj_ignore_frame n m a v b k :
  disjoint_ranges a n b k -> mem_read (write_obj_ignore n m a v) b k = mem_read m b k.
Proof.
  intros Hd. apply write_ignore_frame. by rewrite length_le_bytes.
Qed.

Lemma write_obj_ignore_mapped n m a v b k :
  is_Some (mem_read (write_obj_ignore n m a v) b k) <-> is_Some (mem_read m b k).
Proof. apply write_ignore_mapped. Qed.

Lemma write_obj_ignore_read n m a v :
  is_Some (mem_read m a n) ->
  read_obj n (write_obj_ignore n m a v) a = Some (v mod 256 ^ Z.of_nat n).
Proof.
  intros Hm. pose proof (write_ignore_read m a (le_bytes n v)) as Hr.
  rewrite length_le_bytes in Hr. unfold read_obj, write_obj_ignore, write_obj, write_ignore in *.
  rewrite Hr by auto with nkr. simpl. by rewrite le_val_le_bytes.
Qed.

Lemma read_obj_frame n m a v b k :
  disjoint_ranges a n b k -> read_obj k (write_obj_ignore n m a v) b = read_obj k m b.
Proof. intros Hd. unfold read_obj. by rewrite write_obj_ignore_frame. Qed.

Lemma write_ok_read m a bs m' :
  bytes_ok bs -> mem_write m a bs = (true, m') -> mem_read m' a (length bs) = Some bs.
Proof. apply write_then_read. Qed.

Lemma write_true_mapped m a bs m' :
  mem_write m a bs = (true, m') -> is_Some (mem_read m a (length bs)).
Proof. intros E. apply write_ok_iff_mapped. by rewrite E. Qed.

Lemma mem_write_mapped m a bs ok m' b k :
  mem_write m a bs = (ok, m') -> is_Some (mem_read m' b k) <-> is_Some (mem_read m b k).
Proof. intros E. rewrite <- (write_keeps_mapping m a bs b k). by rewrite E. Qed.
End Laws.

(** ** A concrete memory

    [rm_byte] gives the contents, [rm_regions] the mapped regions [(start, size)]. *)
Module RegionMem.
Record t := mk { rm_regions : list (Z * Z); rm_byte : Z -> Z }.

Definition in_region (a : Z) (r : Z * Z) : bool := (fst r <=? a) && (a <? fst r + snd r).
Definition mapped1 (rs : list (Z * Z)) (a : Z) : bool := existsb (in_region a) rs.
Definition mapped (rs : list (Z * Z)) (a : Z) (n : nat) : bool :=
  forallb (fun i => mapped1 rs (a + Z.of_nat i)) (seq 0 n).

Definition read (m : t) (a : Z) (n : nat) : option (list Z) :=
  if mapped (rm_regions m) a n
  then Some (map (fun i => u8 (rm_byte m (a + Z.of_nat i))) (seq 0 n))
  else None.

Definition store (f : Z -> Z) (a : Z) (bs : list Z) (x : Z) : Z :=
  if (a <=? x) && (x <? a + Z.of_nat (length bs))
  then nth (Z.to_nat (x - a)) bs 0 else f x.

Definition write (m : t) (a : Z) (bs : list Z) : bool * t :=
  if mapped (rm_regions m) a (length bs)
  then (true, mk (rm_regions m) (store (rm_byte m) a bs)) else (false, m).

#[global] Instance memory : GuestMemory t := {
  mem_read := read;
  mem_write := write;
  host_addr m a := if mapped1 (rm_regions m) a then Some a else None;
}.

Lemma write_regions m a bs : rm_regions (snd (write m a bs)) = rm_regions m.
Proof. unfold write. by case_match. Qed.

Lemma read_store_in m a bs :
  bytes_ok bs ->
  map (fun i => u8 (store (rm_byte m) a bs (a + Z.of_nat i))) (seq 0 (length bs)) = bs.
Proof.
  intros Hb. apply (list_eq _ _). intros i.
  destruct (decide (i < length bs)%nat) as [Hi|Hi].
  - rewrite list_lookup_fmap, lookup_seq_lt by done. simpl.
    destruct (lookup_lt_is_Some_2 bs i Hi) as [x Hx].
    rewrite Hx. f_equal. unfold store.
    rewrite (proj2 (Z.leb_le _ _)), (proj2 (Z.ltb_lt _ _)) by lia. simpl.
    replace (Z.to_nat (a + Z.of_nat i - a)) with i by lia.
    rewrite (nth_lookup_Some _ _ _ _ Hx).
    assert (is_byte x) by (eapply Forall_lookup_1; eauto). words.
  - rewrite !lookup_ge_None_2; [done|lia|]. rewrite length_map, length_seq. lia.
Qed.

Lemma read_store_out m a bs b k :
  disjoint_ranges a (length bs) b k ->
  map (fun i => u8 (store (rm_byte m) a bs (b + Z.of_nat i))) (seq 0 k)
  = map (fun i => u8 (rm_byte m (b + Z.of_nat i))) (seq 0 k).
Proof.
  intros Hd. apply map_ext_in. intros i [_ Hi]%in_seq. f_equal. unfold store.
  destruct (_ && _) eqn:E; [|done].
  apply andb_true_iff in E as [?%Z.leb_le ?%Z.ltb_lt].
  unfold disjoint_ranges in Hd. lia.
Qed.

#[global] Instance laws : GuestMemoryLaws t.
Proof.
  split.
  - intros m a n bs. simpl. unfold read. case_match; [|done]. intros [= <-].
    rewrite length_map, length_seq. split; [done|].
    apply Forall_fmap, Forall_true. intros i. simpl. words.
  - intros m a bs m' Hb. simpl. unfold write, read. case_match; [|done]. intros [= <-].
    simpl. rewrite H. by rewrite read_store_in.
  - intros m a bs ok m' b k. simpl. unfold write, read. case_match; intros [= <- <-] Hd; [|done].
    simpl. case_match; [|done]. by rewrite read_store_out.
  - intros m a bs. simpl. unfold write, read. case_match; simpl; split; intros; try done; by eexists.
  - intros m a bs b k. simpl. unfold read. rewrite write_regions.
    case_match; split; intros [? ?]; try done; by eexists.
Qed.

Lemma read_one_region m size a n :
  rm_regions m = [(0, size)] -> 0 <= a -> a + Z.of_nat n <= size -> is_Some (mem_read m a n).
Proof.
  intros Hr Ha Hn. simpl. unfold read, mapped. rewrite Hr, (proj2 (forallb_forall _ _)); [by eexists|].
  intros i [_ Hi]%in_seq. unfold mapped1, in_region. simpl.
  rewrite (proj2 (Z.leb_le _ _)), (proj2 (Z.ltb_lt _ _)) by lia. done.
Qed.

(** [size] bytes of zeroes at address 0 *)
Definition zeroed (size : Z) : t := mk [(0, size)] (fun _ => 0).
End RegionMem.
