(* ===== verification/Boot.v ===== *)
(** * The boot protocol (src/vmm.rs: load_initramfs .. configure_sregs_64)

    Before the vCPU runs, the VMM writes the initramfs, the kernel command line, the
    Linux zero page, the page tables and the GDT into guest memory and sets the
    registers.  A sequence of writes, each with [?], is a [write_all]; the theorems
    say what the kernel reads when it starts. *)
From S2P Require Import Prelude GuestMem.

Definition COM1_PORT : Z := 0x3F8.
Definition ZERO_PAGE_ADDR : Z := 0x7000.
Definition CMDLINE_ADDR : Z := 0x20000.
Definition KERNEL_LOAD_ADDR : Z := 0x100000.
Definition INITRAMFS_ADDR : Z := 0x08000000.
Definition PML4_ADDR : Z := 0x9000.
Definition PDPT_ADDR : Z := 0xA000.
Definition PD_ADDR : Z := 0xB000.
Definition GDT_ADDR : Z := 0x500.

(** [x & !0xFFF] of a 64-bit word *)
Definition page_floor (x : Z) : Z := Z.ldiff x 0xFFF.

Lemma page_floor_eq x : page_floor x = 4096 * (x / 4096).
Proof.
  unfold page_floor. change 0xFFF with (Z.ones 12).
  rewrite Z.ldiff_ones_r, Z.shiftl_mul_pow2, Z.shiftr_div_pow2 by lia. lia.
Qed.

(** ** Segments, registers, CPUID *)
Record kvm_segment := mkSeg {
  base : Z; limit : Z; selector : Z; type_ : Z; present : Z; dpl : Z;
  db : Z; seg_s : Z; seg_l : Z; seg_g : Z; avl : Z; unusable : Z;
}.

(** The special registers the source writes; the others keep what [get_sregs] gave. *)
Record kvm_sregs := mkSregs {
  cs : kvm_segment; ds : kvm_segment; es : kvm_segment;
  fs : kvm_segment; gs : kvm_segment; ss : kvm_segment;
  gdt_base : Z; gdt_limit : Z; idt_base : Z; idt_limit : Z;
  cr0 : Z; cr3 : Z; cr4 : Z; efer : Z;
}.
#[export] Instance eta_sregs : Eta kvm_sregs := fun r =>
  mkSregs (cs r) (ds r) (es r) (fs r) (gs r) (ss r) (gdt_base r) (gdt_limit r) (idt_base r)
    (idt_limit r) (cr0 r) (cr3 r) (cr4 r) (efer r).

Definition data_segment : kvm_segment := mkSeg 0 0xFFFFFFFF 0x10 0x3 1 0 1 1 0 1 0 0.

Definition configure_sregs (r : kvm_sregs) : kvm_sregs :=
  let cs32 := mkSeg 0 0xFFFFFFFF 0x08 0xB 1 0 1 1 0 1 0 0 in
  let d := data_segment in
  r <| cr0 := 1 |> <| cr3 := 0 |> <| cr4 := 0 |> <| efer := 0 |>
    <| cs := cs32 |> <| ds := d |> <| es := d |> <| fs := d |> <| gs := d |> <| ss := d |>
    <| gdt_base := GDT_ADDR |> <| gdt_limit := 31 |> <| idt_base := 0 |> <| idt_limit := 0 |>.

Definition configure_sregs_64 (r : kvm_sregs) : kvm_sregs :=
  let cs64 := mkSeg 0 0xFFFFFFFF 0x08 0xB 1 0 0 1 1 1 0 0 in
  let d := data_segment in
  r <| efer := 0xD01 |> <| cr0 := 0x80050033 |> <| cr3 := PML4_ADDR |> <| cr4 := 0x20 |>
    <| cs := cs64 |> <| ds := d |> <| es := d |> <| fs := d |> <| gs := d |> <| ss := d |>
    <| gdt_base := GDT_ADDR |> <| gdt_limit := 31 |> <| idt_base := 0 |> <| idt_limit := 0 |>.

Record kvm_regs := mkRegs { rip : Z; rsi : Z; rsp : Z; rflags : Z }.

(** [configure_regs]; the registers not named keep their values *)
Definition configure_regs (entry_addr : Z) (r : kvm_regs) : kvm_regs :=
  mkRegs entry_addr ZERO_PAGE_ADDR 0x9000 0x2.

Record kvm_cpuid_entry2 := mkCpuid {
  function : Z; index : Z; flags : Z; eax : Z; ebx : Z; ecx : Z; edx : Z;
}.
#[export] Instance eta_cpuid : Eta kvm_cpuid_entry2 := fun e =>
  mkCpuid (function e) (index e) (flags e) (eax e) (ebx e) (ecx e) (edx e).

Definition kvm_features : Z := Z.lor (Z.lor (Z.shiftl 1 0) (Z.shiftl 1 3)) (Z.shiftl 1 24).

Definition patch_entry (e : kvm_cpuid_entry2) : kvm_cpuid_entry2 :=
  if function e =? 1 then e <| ecx ::= fun c => Z.lor c (Z.shiftl 1 31) |>
  else if function e =? 0x40000000 then
    e <| eax := 0x40000001 |> <| ebx := 0x4b4d564b |> <| ecx := 0x564b4d56 |> <| edx := 0x4d |>
  else if function e =? 0x40000001 then
    e <| eax := kvm_features |> <| ebx := 0 |> <| ecx := 0 |> <| edx := 0 |>
  else e.

Definition setup_cpuid (supported : list kvm_cpuid_entry2) : list kvm_cpuid_entry2 :=
  let has f := existsb (fun e => function e =? f) supported in
  map patch_entry supported
  ++ (if has 0x40000000 then [] else [mkCpuid 0x40000000 0 0 0x40000001 0x4b4d564b 0x564b4d56 0x4d])
  ++ (if has 0x40000001 then [] else [mkCpuid 0x40000001 0 0 kvm_features 0 0 0]).

(** ** Kernel selection *)
Inductive KernelFormat := BzImage | Elf.

(** the first four bytes of the file, when it opens and has them *)
Definition detect_kernel_format (contents : option (list Z)) : KernelFormat :=
  match contents with
  | Some (a :: b :: c :: d :: _) =>
      if decide ([a; b; c; d] = [0x7f; 0x45; 0x4c; 0x46]) then Elf else BzImage
  | _ => BzImage
  end.

(** ** Guest memory *)
Section Boot.
Context `{GuestMemory mem}.
Implicit Types m : mem.

(** A sequence of [write_slice(..)?] and [write_obj(..)?]: the first failing write
    ends it. *)
Fixpoint write_all (ws : list (Z * list Z)) m : bool * mem :=
  match ws with
  | [] => (true, m)
  | (a, bs) :: ws =>
      let '(ok, m') := mem_write m a bs in
      if ok then write_all ws m' else (false, m')
  end.

Definition obj (n : nat) (a v : Z) : Z * list Z := (a, le_bytes n v).

(** The placement of [load_initramfs], computed again by [configure_linux_boot]
    (64-bit subtraction, then the page mask). *)
Definition initramfs_addr (ram_bytes size : Z) : Z :=
  if INITRAMFS_ADDR + size <? ram_bytes then INITRAMFS_ADDR
  else page_floor (u64 (ram_bytes - size)).

(** [load_initramfs] on the contents of the file, [None] when it cannot be read; the
    result is [Ok(size)] as [Some]. *)
Definition load_initramfs (contents : option (list Z)) (ram_bytes : Z) m : option Z * mem :=
  match contents with
  | None => (None, m)
  | Some data =>
      let size := u32 (Z.of_nat (length data)) in
      let '(ok, m') := mem_write m (initramfs_addr ram_bytes size) data in
      ((if ok then Some size else None), m')
  end.

(** [load_initramfs_auto]: [candidates] are the two default files in their order, a
    missing one as [None]; the errors of a candidate are skipped. *)
Fixpoint load_candidates (candidates : list (option (option (list Z)))) (ram_bytes : Z) m
  : Z * mem :=
  match candidates with
  | [] => (0, m)
  | None :: cs => load_candidates cs ram_bytes m
  | Some contents :: cs =>
      let '(r, m') := load_initramfs contents ram_bytes m in
      match r with Some size => (size, m') | None => load_candidates cs ram_bytes m' end
  end.
Definition load_initramfs_auto (explicit : option (option (list Z)))
    (candidates : list (option (option (list Z)))) (ram_bytes : Z) m : option Z * mem :=
  match explicit with
  | Some contents => load_initramfs contents ram_bytes m
  | None => let '(size, m') := load_candidates candidates ram_bytes m in (Some size, m')
  end.

(** The boot-protocol part of the zero page; [pmem] is the address and the length of the
    persistent-memory mapping. *)
Definition header_writes (initrd_size ram_bytes : Z) : list (Z * list Z) :=
  [ obj 2 (ZERO_PAGE_ADDR + 0x1FE) 0xAA55;
    obj 4 (ZERO_PAGE_ADDR + 0x202) 0x53726448;
    obj 2 (ZERO_PAGE_ADDR + 0x206) 0x020D;
    obj 1 (ZERO_PAGE_ADDR + 0x210) 0xFF;
    obj 1 (ZERO_PAGE_ADDR + 0x211) 0x81;
    obj 4 (ZERO_PAGE_ADDR + 0x218) (u32 (initramfs_addr ram_bytes initrd_size));
    obj 4 (ZERO_PAGE_ADDR + 0x21C) initrd_size;
    obj 4 (ZERO_PAGE_ADDR + 0x228) (u32 CMDLINE_ADDR) ].

Definition e820_writes (ram_bytes : Z) (pmem : option (Z * Z)) : list (Z * list Z) :=
  [ obj 8 (ZERO_PAGE_ADDR + 0x2D0) 0;
    obj 8 (ZERO_PAGE_ADDR + 0x2D8) 0x9FC00;
    obj 4 (ZERO_PAGE_ADDR + 0x2E0) 1;
    obj 8 (ZERO_PAGE_ADDR + 0x2E4) 0x100000;
    obj 8 (ZERO_PAGE_ADDR + 0x2EC) (u64 (ram_bytes - 0x100000));
    obj 4 (ZERO_PAGE_ADDR + 0x2F4) 1 ] ++
  match pmem with
  | Some (addr, len) =>
      [ obj 8 (ZERO_PAGE_ADDR + 0x2F8) addr;
        obj 8 (ZERO_PAGE_ADDR + 0x300) len;
        obj 4 (ZERO_PAGE_ADDR + 0x308) 7;
        obj 1 (ZERO_PAGE_ADDR + 0x1E8) 3 ]
  | None => [ obj 1 (ZERO_PAGE_ADDR + 0x1E8) 2 ]
  end.

Definition configure_linux_boot (cmdline : list Z) (initrd_size ram_bytes : Z)
    (pmem : option (Z * Z)) m : bool * mem :=
  write_all ((CMDLINE_ADDR, cmdline) :: header_writes initrd_size ram_bytes
             ++ e820_writes ram_bytes pmem) m.

Definition table_writes : list (Z * list Z) :=
  obj 8 PML4_ADDR (Z.lor PDPT_ADDR 0x3) :: obj 8 PDPT_ADDR (Z.lor PD_ADDR 0x3)
  :: map (fun i => obj 8 (PD_ADDR + i * 8) (Z.lor (Z.shiftl i 21) 0x83)) (seqZ 0 512).
Definition write_page_tables m : bool * mem := write_all table_writes m.

Definition gdt : list Z := [0; 0x00AF9A000000FFFF; 0x00CF92000000FFFF; 0].
Definition write_gdt m : bool * mem :=
  write_all (imap (fun i e => obj 8 (GDT_ADDR + Z.of_nat i * 8) e) gdt) m.

(** Steps 4 and 5 of [run]: the initramfs, the zero page, the page tables, the GDT. *)
Definition boot_setup (explicit : option (option (list Z)))
    (candidates : list (option (option (list Z)))) (cmdline : list Z) (ram_bytes : Z)
    (pmem : option (Z * Z)) m : option Z * mem :=
  let '(r, m1) := load_initramfs_auto explicit candidates ram_bytes m in
  match r with
  | None => (None, m1)
  | Some initrd_size =>
      let '(ok2, m2) := configure_linux_boot cmdline initrd_size ram_bytes pmem m1 in
      if negb ok2 then (None, m2)
      else
        let '(ok3, m3) := write_page_tables m2 in
        if negb ok3 then (None, m3)
        else
          let '(ok4, m4) := write_gdt m3 in
          ((if ok4 then Some initrd_size else None), m4)
  end.

(** The E820 map as it is read back: the entry count, then 20 bytes per entry. *)
Definition e820_entry m (i : Z) : option (Z * Z * Z) :=
  let b := ZERO_PAGE_ADDR + 0x2D0 + i * 20 in
  addr ← read_obj 8 m b; size ← read_obj 8 m (b + 8); t ← read_obj 4 m (b + 16);
  Some (addr, size, t).
Definition e820_table m : option (list (Z * Z * Z)) :=
  cnt ← read_obj 1 m (ZERO_PAGE_ADDR + 0x1E8);
  mapM (e820_entry m) (seqZ 0 (Z.min cnt 4)).
End Boot.

(** ** Sequences of disjoint writes *)
Definition apart (w w' : Z * list Z) : bool :=
  (fst w + Z.of_nat (length (snd w)) <=? fst w')
  || (fst w' + Z.of_nat (length (snd w')) <=? fst w).
Fixpoint pairwise (ws : list (Z * list Z)) : bool :=
  match ws with [] => true | w :: ws => forallb (apart w) ws && pairwise ws end.

(** every write of the list is inside [[lo, hi)] *)
Definition within (lo hi : Z) (w : Z * list Z) : bool :=
  (lo <=? fst w) && (fst w + Z.of_nat (length (snd w)) <=? hi).

Lemma apart_disjoint w w' :
  apart w w' = true <->
  disjoint_ranges (fst w) (length (snd w)) (fst w') (length (snd w')).
Proof. unfold apart, disjoint_ranges. rewrite orb_true_iff, !Z.leb_le. done. Qed.

Section WriteAll.
Context `{HM : GuestMemoryLaws mem}.
Implicit Types m : mem.

Lemma write_all_app ws1 ws2 m :
  write_all (ws1 ++ ws2) m =
  let '(ok, m1) := write_all ws1 m in if ok then write_all ws2 m1 else (false, m1).
Proof.
  revert m. induction ws1 as [|[a bs] ws1 IH]; intros m; simpl; [done|].
  destruct (mem_write m a bs) as [[] m1]; [apply IH|done].
Qed.

Lemma write_all_mapping ws m b k :
  is_Some (mem_read (snd (write_all ws m)) b k) <-> is_Some (mem_read m b k).
Proof.
  revert m. induction ws as [|[a bs] ws IH]; intros m; simpl; [done|].
  pose proof (write_keeps_mapping m a bs b k) as Hk.
  destruct (mem_write m a bs) as [[] m1]; simpl in *; [rewrite IH|]; done.
Qed.

Lemma write_all_ok ws m :
  Forall (fun w => is_Some (mem_read m (fst w) (length (snd w)))) ws ->
  fst (write_all ws m) = true.
Proof.
  revert m. induction ws as [|[a bs] ws IH]; intros m; simpl; [done|].
  intros [Hw Hws]%list.Forall_cons. pose proof (write_keeps_mapping m a bs) as Hk.
  apply write_ok_iff_mapped in Hw. simpl in Hw.
  destruct (mem_write m a bs) as [ok m1]; simpl in *; subst ok. apply IH.
  eapply Forall_impl; [|exact Hws]. intros w Hm. by apply Hk.
Qed.

Lemma write_all_frame ws m b k :
  Forall (fun w => disjoint_ranges (fst w) (length (snd w)) b k) ws ->
  mem_read (snd (write_all ws m)) b k = mem_read m b k.
Proof.
  revert m. induction ws as [|[a bs] ws IH]; intros m; simpl; [done|].
  intros [Hw Hws]%list.Forall_cons. destruct (mem_write m a bs) as [ok m1] eqn:E.
  eapply write_frame in E; [|exact Hw]. destruct ok; simpl; [by rewrite IH|done].
Qed.

Lemma write_all_read ws m m' a bs :
  write_all ws m = (true, m') -> pairwise ws = true -> In (a, bs) ws -> bytes_ok bs ->
  mem_read m' a (length bs) = Some bs.
Proof.
  revert m. induction ws as [|[b cs] ws IH]; intros m; simpl; [done|].
  intros E [Hap Hpw]%andb_true_iff Hin Hbs.
  destruct (mem_write m b cs) as [[] m1] eqn:E1; [|done].
  destruct Hin as [[= -> ->]|Hin]; [|by eapply IH].
  replace m' with (snd (write_all ws m1)) by (by rewrite E). rewrite write_all_frame.
  - by eapply write_ok_read.
  - apply list.Forall_forall. intros w Hw.
    rewrite forallb_forall in Hap. apply list_elem_of_In, Hap, apart_disjoint in Hw.
    unfold disjoint_ranges in *. simpl in Hw. tauto.
Qed.
End WriteAll.

(** ** Placement of the initramfs *)
Lemma initramfs_addr_fits ram size :
  0x100000 + size <= ram < 2 ^ 63 -> 0 <= size ->
  let a := initramfs_addr ram size in
  0x100000 <= a <= INITRAMFS_ADDR /\ a + size <= ram /\ a mod 4096 = 0.
Proof.
  intros Hr Hs. unfold initramfs_addr, INITRAMFS_ADDR. cbv zeta.
  rewrite page_floor_eq, u64_small by (unfold is_u64; lia).
  destruct (Z.ltb_spec (0x08000000 + size) ram); lia.
Qed.

(** ** What the kernel reads at its entry *)

(** The two regions [run] maps: [0 .. 0xA0000) and [0x100000 .. ram). *)
Definition ram_mapped `{GuestMemory mem} (m : mem) (ram : Z) : Prop :=
  forall a n, (0 <= a /\ a + Z.of_nat n <= 0xA0000) \/ (0x100000 <= a /\ a + Z.of_nat n <= ram) ->
  is_Some (mem_read m a n).

(** A four-level walk of the page tables with 2 MiB pages: the physical address of a
    writable mapping of [va]. *)
Definition table_of (e : Z) : Z := Z.land e 0xFFFFFFFFFF000.
Definition walk `{GuestMemory mem} (m : mem) (cr3 va : Z) : option Z :=
  let entry t shift := read_obj 8 m (t + 8 * (Z.shiftr va shift mod 512)) in
  let usable e := Z.testbit e 0 && Z.testbit e 1 in
  e4 ← entry cr3 39;
  if negb (usable e4) then None else
  e3 ← entry (table_of e4) 30;
  if negb (usable e3) || Z.testbit e3 7 then None else
  e2 ← entry (table_of e3) 21;
  if negb (usable e2) || negb (Z.testbit e2 7) then None
  else Some (Z.land e2 0xFFFFFFFE00000 + va mod 2 ^ 21).

(** A segment descriptor of the GDT, decoded to the fields KVM keeps of a segment. *)
Definition bits (e lo n : Z) : Z := Z.land (Z.shiftr e lo) (Z.ones n).
Definition decode_descriptor (sel e : Z) : kvm_segment :=
  let g := bits e 55 1 in
  let lim := bits e 0 16 + 2 ^ 16 * bits e 48 4 in
  mkSeg (bits e 16 24 + 2 ^ 24 * bits e 56 8) (if g =? 1 then lim * 4096 + 4095 else lim)
    sel (bits e 40 4) (bits e 47 1) (bits e 45 2) (bits e 54 1) (bits e 44 1) (bits e 53 1) g
    (bits e 52 1) 0.
(** the segment with the accessed bit of its type cleared *)
Definition unaccessed (s : kvm_segment) : kvm_segment :=
  mkSeg (base s) (limit s) (selector s) (Z.land (type_ s) 0xE) (present s) (dpl s) (db s) (seg_s s)
    (seg_l s) (seg_g s) (avl s) (unusable s).
(** the segment registers of [r] *)
Definition segments (r : kvm_sregs) : list kvm_segment := [cs r; ds r; es r; fs r; gs r; ss r].

Definition fixed_writes (initrd_size ram : Z) (pmem : option (Z * Z)) : list (Z * list Z) :=
  header_writes initrd_size ram ++ e820_writes ram pmem ++ table_writes
  ++ imap (fun i e => obj 8 (GDT_ADDR + Z.of_nat i * 8) e) gdt.

Lemma fixed_pairwise initrd_size ram pmem : pairwise (fixed_writes initrd_size ram pmem) = true.
Proof. destruct pmem as [[pa pl]|]; vm_compute; reflexivity. Qed.

Lemma fixed_within initrd_size ram pmem :
  forallb (within 0x500 0xC000) (fixed_writes initrd_size ram pmem) = true.
Proof. destruct pmem as [[pa pl]|]; vm_compute; reflexivity. Qed.

Section Setup.
Context `{HM : GuestMemoryLaws mem}.
Implicit Types m : mem.

Definition all_writes (cmdline : list Z) (initrd_size ram : Z) (pmem : option (Z * Z))
  : list (Z * list Z) :=
  (CMDLINE_ADDR, cmdline) :: fixed_writes initrd_size ram pmem.

(** [boot_setup] is the initramfs followed by one sequence of writes. *)
Lemma boot_setup_writes explicit candidates cmdline ram pmem m :
  boot_setup explicit candidates cmdline ram pmem m =
  match load_initramfs_auto explicit candidates ram m with
  | (None, m1) => (None, m1)
  | (Some size, m1) =>
      let '(ok, m2) := write_all (all_writes cmdline size ram pmem) m1 in
      ((if ok then Some size else None), m2)
  end.
Proof.
  unfold boot_setup. destruct (load_initramfs_auto _ _ _ _) as [[size|] m1]; [|done].
  unfold configure_linux_boot, write_page_tables, write_gdt, all_writes, fixed_writes.
  rewrite (app_assoc (header_writes _ _) (e820_writes _ _)).
  rewrite (app_comm_cons (header_writes size ram ++ e820_writes ram pmem)), write_all_app.
  destruct (write_all _ m1) as [[] m2]; cbn [negb]; [|done].
  rewrite write_all_app. by destruct (write_all table_writes m2) as [[] m3].
Qed.

Lemma all_writes_pairwise cmdline size ram pmem :
  pairwise (all_writes cmdline size ram pmem) = true.
Proof.
  unfold all_writes. cbn [pairwise]. apply andb_true_iff. split; [|apply fixed_pairwise].
  apply forallb_forall. intros w Hw. pose proof (fixed_within size ram pmem) as Hin.
  rewrite forallb_forall in Hin. apply Hin in Hw. unfold within, apart in *.
  apply andb_true_iff in Hw as [_ Hw%Z.leb_le]. apply orb_true_iff. right.
  apply Z.leb_le. unfold CMDLINE_ADDR. simpl. lia.
Qed.

Lemma all_writes_low cmdline size ram pmem w :
  Z.of_nat (length cmdline) <= 0x80000 ->
  In w (all_writes cmdline size ram pmem) ->
  0x500 <= fst w /\ fst w + Z.of_nat (length (snd w)) <= 0xA0000.
Proof.
  intros Hc [<-|Hw]; [simpl; unfold CMDLINE_ADDR; lia|].
  pose proof (fixed_within size ram pmem) as Hin. rewrite forallb_forall in Hin.
  apply Hin, andb_true_iff in Hw as [?%Z.leb_le ?%Z.leb_le]. lia.
Qed.

Lemma load_initramfs_spec data ram m :
  ram_mapped m ram -> bytes_ok data -> Z.of_nat (length data) < 2 ^ 32 ->
  0x100000 + Z.of_nat (length data) <= ram < 2 ^ 63 ->
  exists m', load_initramfs (Some data) ram m = (Some (Z.of_nat (length data)), m')
  /\ mem_read m' (initramfs_addr ram (Z.of_nat (length data))) (length data) = Some data
  /\ ram_mapped m' ram
  /\ forall b k, disjoint_ranges (initramfs_addr ram (Z.of_nat (length data))) (length data) b k ->
     mem_read m' b k = mem_read m b k.
Proof.
  intros Hm Hd Hlen Hram. destruct (initramfs_addr_fits ram (Z.of_nat (length data))) as (Ha & Hfit & _);
    [lia..|]. unfold load_initramfs. rewrite (u32_small (Z.of_nat _)) by (unfold is_u32; lia).
  set (a := initramfs_addr ram _) in *.
  assert (Hw : fst (mem_write m a data) = true)
    by (apply write_ok_iff_mapped, Hm; right; lia).
  destruct (mem_write m a data) as [ok m'] eqn:E. simpl in Hw. subst ok.
  exists m'. split_and!; [done|by eapply write_ok_read| |].
  - intros b n Hb. by eapply mem_write_mapped, Hm.
  - intros b k Hdis. by eapply write_frame.
Qed.

Lemma all_writes_done cmdline size ram pmem m :
  ram_mapped m ram -> Z.of_nat (length cmdline) <= 0x80000 ->
  exists m', write_all (all_writes cmdline size ram pmem) m = (true, m')
  /\ (forall a bs, In (a, bs) (all_writes cmdline size ram pmem) -> bytes_ok bs ->
      mem_read m' a (length bs) = Some bs)
  /\ ram_mapped m' ram
  /\ forall b k, 0xA0000 <= b -> mem_read m' b k = mem_read m b k.
Proof.
  intros Hm Hc. set (ws := all_writes cmdline size ram pmem).
  destruct (write_all ws m) as [ok m'] eqn:E. exists m'.
  assert (ok = true) as ->.
  { change ok with (fst (ok, m')). rewrite <- E. apply write_all_ok, list.Forall_forall.
    intros w Hw%list_elem_of_In. apply Hm. apply all_writes_low in Hw; [|done]. lia. }
  assert (Hm' : m' = snd (write_all ws m)) by (by rewrite E). split_and!; [done|..].
  - intros a bs Hin Hb. eapply write_all_read; eauto. apply all_writes_pairwise.
  - intros a n Ha. rewrite Hm'. by apply write_all_mapping, Hm.
  - intros b k Hb. rewrite Hm'. apply write_all_frame, list.Forall_forall.
    intros w Hw%list_elem_of_In. apply all_writes_low in Hw; [|done].
    unfold disjoint_ranges. lia.
Qed.

(** the value of one of the fixed fields *)
Lemma field_read n a v ws m' :
  (forall a bs, In (a, bs) ws -> bytes_ok bs -> mem_read m' a (length bs) = Some bs) ->
  In (obj n a v) ws -> read_obj n m' a = Some (v mod 256 ^ Z.of_nat n).
Proof.
  intros Hr Hin. unfold read_obj. specialize (Hr a (le_bytes n v) Hin (le_bytes_ok n v)).
  rewrite length_le_bytes in Hr. rewrite Hr. simpl. by rewrite le_val_le_bytes.
Qed.
End Setup.

(** membership in a list of writes, up to the computation of the addresses *)
Ltac in_writes :=
  unfold header_writes, e820_writes; cbn [app]; repeat first [left; reflexivity | right].

Section Theorems.
Context `{HM : GuestMemoryLaws mem}.
Implicit Types m : mem.

Lemma boot_ok_reads explicit candidates cmdline ram pmem m size m' :
  boot_setup explicit candidates cmdline ram pmem m = (Some size, m') ->
  forall a bs, In (a, bs) (all_writes cmdline size ram pmem) -> bytes_ok bs ->
  mem_read m' a (length bs) = Some bs.
Proof.
  rewrite boot_setup_writes. destruct (load_initramfs_auto _ _ _ _) as [[sz|] m1]; [|done].
  destruct (write_all _ m1) as [[] m2] eqn:E; [|done]. intros [= <- <-] a bs Hin Hb.
  eapply write_all_read; eauto. apply all_writes_pairwise.
Qed.

Lemma fixed_in cmdline size ram pmem w :
  In w (fixed_writes size ram pmem) -> In w (all_writes cmdline size ram pmem).
Proof. by right. Qed.

Lemma header_in cmdline size ram pmem w :
  In w (header_writes size ram) -> In w (all_writes cmdline size ram pmem).
Proof. intros Hw. apply fixed_in, in_or_app. by left. Qed.
Lemma e820_in cmdline size ram pmem w :
  In w (e820_writes ram pmem) -> In w (all_writes cmdline size ram pmem).
Proof. intros Hw. apply fixed_in. apply in_or_app. right. apply in_or_app. by left. Qed.
Lemma table_in cmdline size ram pmem w :
  In w table_writes -> In w (all_writes cmdline size ram pmem).
Proof. intros Hw. apply fixed_in. do 2 (apply in_or_app; right). apply in_or_app. by left. Qed.
Lemma gdt_in cmdline size ram pmem w :
  In w (imap (fun i e => obj 8 (GDT_ADDR + Z.of_nat i * 8) e) gdt) ->
  In w (all_writes cmdline size ram pmem).
Proof. intros Hw. apply fixed_in. do 3 (apply in_or_app; right). done. Qed.

(** the field [obj n a v] of a successful set-up, when [v] fits *)
Lemma boot_field n a v explicit candidates cmdline ram pmem m size m' :
  boot_setup explicit candidates cmdline ram pmem m = (Some size, m') ->
  In (obj n a v) (all_writes cmdline size ram pmem) -> 0 <= v < 256 ^ Z.of_nat n ->
  read_obj n m' a = Some v.
Proof.
  intros Hb Hin Hv. rewrite (field_read n a v (all_writes cmdline size ram pmem)); [|by eapply boot_ok_reads|done].
  f_equal. by apply Z.mod_small.
Qed.

(** C38. The boot hand-off.  With the two RAM regions mapped, an initramfs that fits in
    the memory above 1 MiB and a command line that fits below the legacy hole, the
    set-up succeeds; the kernel that follows the [ramdisk_image]/[ramdisk_size] and
    [cmd_line_ptr] fields of the zero page finds, byte for byte, the initramfs at a
    page-aligned address above 1 MiB and the command line; the boot flag, the [HdrS]
    signature, the protocol version and the loader type are in place. *)
Theorem boot_handoff data candidates cmdline ram pmem m :
  ram_mapped m ram -> bytes_ok data -> bytes_ok cmdline ->
  Z.of_nat (length cmdline) <= 0x80000 -> Z.of_nat (length data) < 2 ^ 32 ->
  0x100000 + Z.of_nat (length data) <= ram < 2 ^ 63 ->
  exists m' image,
    boot_setup (Some (Some data)) candidates cmdline ram pmem m
      = (Some (Z.of_nat (length data)), m')
    /\ read_obj 4 m' (ZERO_PAGE_ADDR + 0x218) = Some image
    /\ read_obj 4 m' (ZERO_PAGE_ADDR + 0x21C) = Some (Z.of_nat (length data))
    /\ mem_read m' image (length data) = Some data
    /\ 0x100000 <= image /\ image mod 4096 = 0
    /\ read_obj 4 m' (ZERO_PAGE_ADDR + 0x228) = Some CMDLINE_ADDR
    /\ mem_read m' CMDLINE_ADDR (length cmdline) = Some cmdline
    /\ read_obj 2 m' (ZERO_PAGE_ADDR + 0x1FE) = Some 0xAA55
    /\ read_obj 4 m' (ZERO_PAGE_ADDR + 0x202) = Some 0x53726448
    /\ read_obj 2 m' (ZERO_PAGE_ADDR + 0x206) = Some 0x020D
    /\ read_obj 1 m' (ZERO_PAGE_ADDR + 0x210) = Some 0xFF
    /\ read_obj 1 m' (ZERO_PAGE_ADDR + 0x211) = Some 0x81.
Proof.
  intros Hm Hd Hc Hcl Hdl Hram.
  destruct (load_initramfs_spec data ram m) as (m1 & E1 & Hread & Hm1 & _); [done..|].
  set (size := Z.of_nat (length data)) in *.
  destruct (initramfs_addr_fits ram size) as (Ha & Hfit & Hal); [lia..|].
  destruct (all_writes_done cmdline size ram pmem m1) as (m2 & E2 & _ & _ & Hframe); [done..|].
  assert (Hboot : boot_setup (Some (Some data)) candidates cmdline ram pmem m = (Some size, m2)).
  { rewrite boot_setup_writes. unfold load_initramfs_auto. by rewrite E1, E2. }
  assert (Hf : forall n a v, In (obj n a v) (header_writes size ram) -> 0 <= v < 256 ^ Z.of_nat n ->
    read_obj n m2 a = Some v) by (intros; eapply boot_field; [exact Hboot|by apply header_in|done]).
  exists m2, (initramfs_addr ram size). split_and!; [done| | | |lia|done| | |..];
    try (apply Hf; [simpl; tauto|lia]).
  - apply Hf; [|unfold INITRAMFS_ADDR in Ha; lia].
    rewrite <- (u32_small (initramfs_addr ram size)) at 1 by (unfold is_u32, INITRAMFS_ADDR in *; lia).
    unfold header_writes. simpl. tauto.
  - rewrite Hframe by lia. done.
  - apply (Hf 4%nat _ (u32 CMDLINE_ADDR)); [simpl; tauto|by compute].
  - eapply boot_ok_reads; [exact Hboot|by left|done].
Qed.

(** The memory map handed to the kernel.  After any successful set-up the E820
    entries of the zero page, as many as its entry count says, are: low memory up to
    0x9FC00, the memory above 1 MiB up to the end of RAM, and the persistent-memory
    mapping (type 7) when there is one; every byte the map calls usable is mapped. *)
Theorem e820_map explicit candidates cmdline ram pmem m size m' :
  ram_mapped m ram -> 0x100000 <= ram < 2 ^ 64 ->
  (forall pa pl, pmem = Some (pa, pl) -> is_u64 pa /\ is_u64 pl) ->
  boot_setup explicit candidates cmdline ram pmem m = (Some size, m') ->
  exists entries,
    e820_table m' = Some entries
    /\ entries = [(0, 0x9FC00, 1); (0x100000, ram - 0x100000, 1)]
                 ++ match pmem with Some (pa, pl) => [(pa, pl, 7)] | None => [] end
    /\ forall a len, In (a, len, 1) entries -> is_Some (mem_read m a (Z.to_nat len)).
Proof.
  intros Hm Hram Hp Hboot. eexists. split; [|split; [reflexivity|]].
  - assert (Hf : forall n a v, In (obj n a v) (e820_writes ram pmem) -> 0 <= v < 256 ^ Z.of_nat n ->
      read_obj n m' a = Some v) by (intros; eapply boot_field; [exact Hboot|by apply e820_in|done]).
    assert (He : forall i addr len t,
      In (obj 8 (ZERO_PAGE_ADDR + 0x2D0 + i * 20) addr) (e820_writes ram pmem) ->
      In (obj 8 (ZERO_PAGE_ADDR + 0x2D0 + i * 20 + 8) len) (e820_writes ram pmem) ->
      In (obj 4 (ZERO_PAGE_ADDR + 0x2D0 + i * 20 + 16) t) (e820_writes ram pmem) ->
      is_u64 addr -> is_u64 len -> is_u32 t -> e820_entry m' i = Some (addr, len, t)).
    { intros i addr len t H1 H2 H3 Ha Hl Ht. unfold e820_entry.
      rewrite (Hf _ _ _ H1 Ha); simpl. rewrite (Hf _ _ _ H2 Hl); simpl. by rewrite (Hf _ _ _ H3 Ht). }
    assert (He0 : e820_entry m' 0 = Some (0, 0x9FC00, 1)) by (apply He; first [words | in_writes]).
    assert (He1 : e820_entry m' 1 = Some (0x100000, ram - 0x100000, 1)).
    { rewrite <- (u64_small (ram - 0x100000)) by (unfold is_u64; lia).
      apply He; first [words | apply u64_range | in_writes]. }
    unfold e820_table. destruct pmem as [[pa pl]|].
    + destruct (Hp pa pl eq_refl) as [Hpa Hpl].
      assert (He2 : e820_entry m' 2 = Some (pa, pl, 7)) by (apply He; first [done | words | in_writes]).
      rewrite (Hf 1%nat _ 3) by first [lia | in_writes].
      apply (mapM_Some_2 _ [0; 1; 2]). repeat constructor; done.
    + rewrite (Hf 1%nat _ 2) by first [lia | in_writes].
      apply (mapM_Some_2 _ [0; 1]). repeat constructor; done.
  - intros a len Hin. apply Hm. destruct pmem as [[pa pl]|]; simpl in Hin.
    all: repeat destruct Hin as [Hin|Hin]; simplify_eq; try lia.
Qed.

Lemma page_entry_ok i :
  0 <= i < 512 ->
  let e := Z.lor (Z.shiftl i 21) 0x83 in
  is_u64 e /\ Z.testbit e 0 = true /\ Z.testbit e 1 = true /\ Z.testbit e 7 = true
  /\ Z.land e 0xFFFFFFFE00000 = i * 2 ^ 21.
Proof.
  intros Hi. pose (ok := fun i => let e := Z.lor (Z.shiftl i 21) 0x83 in
    (0 <=? e) && (e <? 2 ^ 64) && Z.testbit e 0 && Z.testbit e 1 && Z.testbit e 7
    && (Z.land e 0xFFFFFFFE00000 =? i * 2 ^ 21)).
  assert (Hall : forallb ok (seqZ 0 512) = true) by (vm_compute; reflexivity).
  rewrite forallb_forall in Hall. specialize (Hall i).
  rewrite <- list_elem_of_In, elem_of_seqZ in Hall. specialize (Hall ltac:(lia)).
  unfold ok in Hall. rewrite !andb_true_iff, Z.leb_le, Z.ltb_lt, Z.eqb_eq in Hall.
  unfold is_u64. tauto.
Qed.

Lemma pd_entry_in cmdline size ram pmem i :
  0 <= i < 512 ->
  In (obj 8 (PD_ADDR + i * 8) (Z.lor (Z.shiftl i 21) 0x83)) (all_writes cmdline size ram pmem).
Proof.
  intros Hi. apply table_in. do 2 right. apply in_map_iff. exists i. split; [done|].
  apply list_elem_of_In, elem_of_seqZ. lia.
Qed.

(** the fixed writes leave the unused entries of the first two tables alone *)
Lemma fixed_spares size ram pmem :
  forallb (fun w => (fst w + Z.of_nat (length (snd w)) <=? PML4_ADDR + 8)
                    || ((PDPT_ADDR <=? fst w) && (fst w + Z.of_nat (length (snd w)) <=? PDPT_ADDR + 8))
                    || (PD_ADDR <=? fst w)) (fixed_writes size ram pmem) = true.
Proof. destruct pmem as [[pa pl]|]; vm_compute; reflexivity. Qed.

(** A range that meets neither the initramfs, nor the command line, nor the low area
    [0x500 .. 0xC000) keeps its contents. *)
Lemma boot_frame data candidates cmdline ram pmem m size m' b k :
  boot_setup (Some (Some data)) candidates cmdline ram pmem m = (Some size, m') ->
  disjoint_ranges (initramfs_addr ram size) (length data) b k ->
  disjoint_ranges CMDLINE_ADDR (length cmdline) b k ->
  Forall (fun w => disjoint_ranges (fst w) (length (snd w)) b k) (fixed_writes size ram pmem) ->
  mem_read m' b k = mem_read m b k.
Proof.
  rewrite boot_setup_writes. unfold load_initramfs_auto, load_initramfs.
  destruct (mem_write m _ data) as [[] m1] eqn:E1; [|done].
  destruct (write_all _ m1) as [[] m2] eqn:E2; [|done]. intros [= <- <-] Hi Hc Hf.
  replace m2 with (snd (write_all (all_writes cmdline (u32 (Z.of_nat (length data))) ram pmem) m1))
    by (by rewrite E2).
  rewrite write_all_frame by (by apply list.Forall_cons). by eapply write_frame.
Qed.

Lemma spare_entry data candidates cmdline ram pmem m size m' a :
  boot_setup (Some (Some data)) candidates cmdline ram pmem m = (Some size, m') ->
  0x100000 <= initramfs_addr ram size ->
  PML4_ADDR + 8 <= a <= PDPT_ADDR - 8 \/ PDPT_ADDR + 8 <= a <= PD_ADDR - 8 ->
  read_obj 8 m' a = read_obj 8 m a.
Proof.
  intros Hboot Hia Ha. unfold read_obj. f_equal. eapply boot_frame; [exact Hboot|..].
  - unfold disjoint_ranges, PML4_ADDR, PDPT_ADDR, PD_ADDR in *. lia.
  - unfold disjoint_ranges, CMDLINE_ADDR, PML4_ADDR, PDPT_ADDR, PD_ADDR in *. lia.
  - apply list.Forall_forall. intros w Hw%list_elem_of_In.
    pose proof (fixed_spares size ram pmem) as Hs. rewrite forallb_forall in Hs.
    apply Hs in Hw. rewrite !orb_true_iff, andb_true_iff, !Z.leb_le in Hw.
    unfold disjoint_ranges, PML4_ADDR, PDPT_ADDR, PD_ADDR in *. lia.
Qed.

(** The page tables the ELF kernel is entered with.  After a successful set-up the
    walk from the [cr3] of [configure_sregs_64] maps every address of the first GiB to
    itself, writable; when the two upper tables were zero before (fresh memory) and
    the initramfs and the command line do not reach them, no other canonical low
    address is mapped. *)
Theorem identity_map data candidates cmdline ram pmem m size m' r va :
  boot_setup (Some (Some data)) candidates cmdline ram pmem m = (Some size, m') ->
  0 <= va < 2 ^ 48 ->
  (va < 2 ^ 30 -> walk m' (cr3 (configure_sregs_64 r)) va = Some va) /\
  (2 ^ 30 <= va ->
   0x100000 <= initramfs_addr ram size ->
   (forall i, 0 <= i < 1024 -> read_obj 8 m (PML4_ADDR + 8 * i) = Some 0) ->
   walk m' (cr3 (configure_sregs_64 r)) va = None).
Proof.
  intros Hboot Hva. change (cr3 (configure_sregs_64 r)) with PML4_ADDR.
  assert (H4 : read_obj 8 m' PML4_ADDR = Some (Z.lor PDPT_ADDR 3))
    by (eapply boot_field; [exact Hboot|apply table_in; by left|by vm_compute]).
  assert (H3 : read_obj 8 m' PDPT_ADDR = Some (Z.lor PD_ADDR 3))
    by (eapply boot_field; [exact Hboot|apply table_in; right; by left|by vm_compute]).
  unfold walk. rewrite !Z.shiftr_div_pow2 by lia. split.
  - intros Hlt. replace (va / 2 ^ 39) with 0 by lia. replace (va / 2 ^ 30) with 0 by lia.
    change (PML4_ADDR + 8 * (0 mod 512)) with PML4_ADDR. rewrite H4; cbn [mbind option_bind].
    change (table_of (Z.lor PDPT_ADDR 3) + 8 * (0 mod 512)) with PDPT_ADDR.
    change (Z.testbit (Z.lor PDPT_ADDR 3) 0 && Z.testbit (Z.lor PDPT_ADDR 3) 1) with true.
    cbn [negb]. rewrite H3; cbn [mbind option_bind].
    change (Z.testbit (Z.lor PD_ADDR 3) 0 && Z.testbit (Z.lor PD_ADDR 3) 1) with true.
    change (Z.testbit (Z.lor PD_ADDR 3) 7) with false. cbn [negb orb].
    change (table_of (Z.lor PD_ADDR 3)) with PD_ADDR.
    set (i := va / 2 ^ 21). replace (i mod 512) with i by (subst i; lia).
    destruct (page_entry_ok i) as (He & Hb0 & Hb1 & Hb7 & Hpa); [subst i; lia|].
    replace (PD_ADDR + 8 * i) with (PD_ADDR + i * 8) by lia.
    erewrite (boot_field 8 (PD_ADDR + i * 8)); [|exact Hboot|apply pd_entry_in; subst i; lia|exact He].
    cbn [mbind option_bind]. rewrite Hb0, Hb1, Hb7. cbn [negb andb orb]. rewrite Hpa.
    f_equal. subst i. lia.
  - intros Hge Hia Hz. set (i4 := (va / 2 ^ 39) mod 512). set (i3 := (va / 2 ^ 30) mod 512).
    assert (Hi : 0 <= i4 < 512 /\ 0 <= i3 < 512 /\ (i4 = 0 -> 0 < i3)) by (subst i3 i4; lia).
    clearbody i3 i4. destruct Hi as (Hr4 & Hr3 & Hi3).
    assert (Hspare : forall a, PML4_ADDR + 8 <= a <= PDPT_ADDR - 8 \/ PDPT_ADDR + 8 <= a <= PD_ADDR - 8 ->
      read_obj 8 m' a = read_obj 8 m a) by (intros; by eapply spare_entry).
    destruct (decide (i4 = 0)) as [->|Hi4].
    + rewrite (eq_refl : PML4_ADDR + 8 * 0 = PML4_ADDR), H4. cbn [mbind option_bind].
      change (table_of (Z.lor PDPT_ADDR 3)) with PDPT_ADDR.
      rewrite Hspare by (unfold PDPT_ADDR, PD_ADDR, PML4_ADDR; lia).
      replace (PDPT_ADDR + 8 * i3) with (PML4_ADDR + 8 * (512 + i3)) by (unfold PDPT_ADDR, PML4_ADDR; lia).
      by rewrite Hz by lia.
    + rewrite Hspare by (unfold PDPT_ADDR, PD_ADDR, PML4_ADDR; lia).
      by rewrite Hz by lia.
Qed.

(** What a successful set-up leaves alone: the kernel image.  Memory from 1 MiB on
    that ends before the initramfs is the memory the kernel loader left. *)
Theorem kernel_image_kept data candidates cmdline ram pmem m size m' b k :
  boot_setup (Some (Some data)) candidates cmdline ram pmem m = (Some size, m') ->
  Z.of_nat (length cmdline) <= 0x80000 ->
  KERNEL_LOAD_ADDR <= b -> b + Z.of_nat k <= initramfs_addr ram size ->
  mem_read m' b k = mem_read m b k.
Proof.
  intros Hboot Hc Hb Hk. eapply boot_frame; [exact Hboot|unfold disjoint_ranges; lia| |].
  - unfold disjoint_ranges, CMDLINE_ADDR, KERNEL_LOAD_ADDR in *. lia.
  - apply list.Forall_forall. intros w Hw%list_elem_of_In.
    apply (fixed_in cmdline), all_writes_low in Hw; [|done].
    unfold disjoint_ranges, KERNEL_LOAD_ADDR in *. lia.
Qed.

(** The segments agree with the GDT.  After a successful set-up, every segment
    register that [configure_sregs_64] loads equals, but for the accessed bit, the
    descriptor its selector names in the guest's GDT, inside the GDT limit; the same
    holds of the data segments of the 32-bit path, whose code segment differs from its
    descriptor (the GDT holds a 64-bit code segment only). *)
Theorem segments_match_gdt explicit candidates cmdline ram pmem m size m' r :
  boot_setup explicit candidates cmdline ram pmem m = (Some size, m') ->
  let matches regs s := exists e,
    read_obj 8 m' (gdt_base regs + selector s) = Some e
    /\ selector s + 7 <= gdt_limit regs
    /\ decode_descriptor (selector s) e = unaccessed s in
  Forall (matches (configure_sregs_64 r)) (segments (configure_sregs_64 r))
  /\ Forall (matches (configure_sregs r)) (tail (segments (configure_sregs r)))
  /\ ~ matches (configure_sregs r) (cs (configure_sregs r)).
Proof.
  intros Hboot matches.
  assert (Hg : forall i e, In (i, e) [(8, 0x00AF9A000000FFFF); (16, 0x00CF92000000FFFF)] ->
    read_obj 8 m' (GDT_ADDR + i) = Some e).
  { intros i e Hin. eapply boot_field; [exact Hboot|apply gdt_in|];
      destruct Hin as [[= <- <-]|[[= <- <-]|[]]]; [right; by left|do 2 right; by left|words..]. }
  assert (Hcs := Hg 8 _ (or_introl eq_refl)). assert (Hds := Hg 16 _ (or_intror (or_introl eq_refl))).
  split_and!.
  - repeat (apply list.Forall_cons; split); [|..|by apply list.Forall_nil]; eexists;
      (split; [first [exact Hcs | exact Hds]|by vm_compute]).
  - repeat (apply list.Forall_cons; split); [|..|by apply list.Forall_nil]; eexists;
      (split; [exact Hds|by vm_compute]).
  - intros (e & He & _ & Hd). change (read_obj 8 m' (GDT_ADDR + 8) = Some e) in He.
    rewrite Hcs in He. injection He as <-. revert Hd. by vm_compute.
Qed.
End Theorems.

Lemma kvm_features_bits k : Z.testbit kvm_features k = bool_decide (k ∈ [0; 3; 24]).
Proof.
  unfold kvm_features. rewrite !Z.lor_spec, !Z.shiftl_1_l, !Z.pow2_bits_eqb by lia.
  apply eq_bool_prop_intro. rewrite bool_decide_spec, !elem_of_cons, elem_of_nil.
  rewrite !orb_True, !Is_true_true, !Z.eqb_eq. naive_solver.
Qed.

Lemma hypervisor_bit c k :
  Z.testbit (Z.lor c (Z.shiftl 1 31)) k = (Z.testbit c k || (31 =? k)).
Proof. by rewrite Z.lor_spec, Z.shiftl_1_l, Z.pow2_bits_eqb. Qed.

Lemma patch_entry_keys e :
  function (patch_entry e) = function e /\ index (patch_entry e) = index e
  /\ flags (patch_entry e) = flags e.
Proof. unfold patch_entry. by repeat case_match. Qed.

Lemma patch_leaf1 e : function e = 1 -> ecx (patch_entry e) = Z.lor (ecx e) (Z.shiftl 1 31).
Proof. intros H1. unfold patch_entry. by rewrite H1. Qed.

Lemma setup_cpuid_in supported e :
  In e (setup_cpuid supported) ->
  (exists e0, e = patch_entry e0)
  \/ e = mkCpuid 0x40000000 0 0 0x40000001 0x4b4d564b 0x564b4d56 0x4d
  \/ e = mkCpuid 0x40000001 0 0 kvm_features 0 0 0.
Proof.
  unfold setup_cpuid. rewrite !in_app_iff, in_map_iff.
  intros [(e0 & <- & _)|[He|He]]; [eauto|right; left|right; right];
    destruct (existsb _ _); simpl in He; naive_solver.
Qed.

(** a leaf that is patched when present and appended when not is there *)
Lemma leaf_present supported f e0 :
  function e0 = f ->
  In e0 (setup_cpuid supported) \/ existsb (fun e => function e =? f) supported = true ->
  exists e, In e (setup_cpuid supported) /\ function e = f.
Proof.
  intros Hf [Hin|(e & Hin & He%Z.eqb_eq)%existsb_exists]; [eauto|].
  exists (patch_entry e). split; [|by rewrite (proj1 (patch_entry_keys e))].
  unfold setup_cpuid. apply in_or_app. left. by apply in_map.
Qed.

(** The CPUID table.  Every entry the host supports is kept, in order, with only the
    leaves 1, 0x40000000 and 0x40000001 changed; leaf 1 has the hypervisor bit; the
    signature leaf and the feature leaf are present exactly as the paravirtual clock
    needs them (the signature spells KVMKVMKVM, the features are clocksource,
    clocksource2 and the stable bit), whether or not the host listed them. *)
Theorem cpuid_advertises_kvm supported :
  let out := setup_cpuid supported in
  (forall i e, supported !! i = Some e -> exists e', out !! i = Some e'
     /\ function e' = function e /\ index e' = index e /\ flags e' = flags e
     /\ (function e <> 1 -> function e <> 0x40000000 -> function e <> 0x40000001 -> e' = e)
     /\ (function e = 1 -> Z.testbit (ecx e') 31 = true
         /\ forall k, k <> 31 -> Z.testbit (ecx e') k = Z.testbit (ecx e) k))
  /\ (forall e, In e out -> function e = 0x40000000 ->
       le_bytes 4 (ebx e) ++ le_bytes 4 (ecx e) ++ le_bytes 4 (edx e)
         = bytes_of_string "KVMKVMKVM" ++ [0; 0; 0] /\ eax e = 0x40000001)
  /\ (forall e, In e out -> function e = 0x40000001 ->
       forall k, 0 <= k -> Z.testbit (eax e) k = bool_decide (k ∈ [0; 3; 24]))
  /\ (exists e, In e out /\ function e = 0x40000000)
  /\ (exists e, In e out /\ function e = 0x40000001).
Proof.
  intros out. split_and!.
  - intros i e Hi. exists (patch_entry e). destruct (patch_entry_keys e) as (-> & -> & ->).
    split_and!; [|done..| |].
    + subst out. unfold setup_cpuid. rewrite lookup_app_l by (rewrite length_map; by eapply lookup_lt_Some).
      by rewrite list_lookup_fmap, Hi.
    + intros H1 H2 H3. unfold patch_entry. by rewrite !(proj2 (Z.eqb_neq _ _)) by done.
    + intros H1. rewrite (patch_leaf1 _ H1). split; [by rewrite hypervisor_bit, orb_true_r|].
      intros k Hk. rewrite hypervisor_bit, (proj2 (Z.eqb_neq 31 k)) by lia. by rewrite orb_false_r.
  - intros e [(e0 & ->)|[->| ->]]%setup_cpuid_in He; [|by vm_compute|done].
    rewrite (proj1 (patch_entry_keys e0)) in He. unfold patch_entry. rewrite He. by vm_compute.
  - intros e [(e0 & ->)|[->| ->]]%setup_cpuid_in He; [|done|intros k _; apply kvm_features_bits].
    rewrite (proj1 (patch_entry_keys e0)) in He. unfold patch_entry. rewrite He.
    intros k _. apply kvm_features_bits.
  - apply (leaf_present _ _ (mkCpuid 0x40000000 0 0 0x40000001 0x4b4d564b 0x564b4d56 0x4d)); [done|].
    unfold setup_cpuid. rewrite !in_app_iff. destruct (existsb (fun e => function e =? 0x40000000) supported);
      [by right|left; right; left; by left].
  - apply (leaf_present _ _ (mkCpuid 0x40000001 0 0 kvm_features 0 0 0)); [done|].
    unfold setup_cpuid. rewrite !in_app_iff. destruct (existsb (fun e => function e =? 0x40000001) supported);
      [by right|left; right; right; by left].
Qed.

(** ** A concrete boot *)
Module BootExample.
Definition ram : Z := 0x1000000.
Definition fresh : RegionMem.t := RegionMem.mk [(0, 0xA0000); (0x100000, ram - 0x100000)] (fun _ => 0).
Definition initramfs : list Z := bytes_of_string "070701".
Definition cmdline : list Z := bytes_of_string "console=ttyS0".
Definition booted : option Z * RegionMem.t :=
  boot_setup (Some (Some initramfs)) [] cmdline ram (Some (0x100000000, 4096)) fresh.

Lemma fresh_mapped : ram_mapped fresh ram.
Proof.
  intros a n Ha. simpl. unfold RegionMem.read, RegionMem.mapped.
  rewrite (proj2 (forallb_forall _ _)); [by eexists|].
  intros i [_ Hi]%in_seq. unfold RegionMem.mapped1, RegionMem.in_region. simpl.
  unfold ram in *. destruct Ha as [Ha|Ha];
    [rewrite (proj2 (Z.leb_le 0 _)), (proj2 (Z.ltb_lt _ (0 + _))) by lia; done|].
  rewrite (proj2 (Z.leb_le 0x100000 _)), (proj2 (Z.ltb_lt _ (0x100000 + _))) by lia.
  by rewrite orb_true_r.
Qed.

Lemma fresh_zero i : 0 <= i < 1024 -> read_obj 8 fresh (PML4_ADDR + 8 * i) = Some 0.
Proof.
  intros Hi. unfold read_obj. destruct (fresh_mapped (PML4_ADDR + 8 * i) 8%nat) as [bs E];
    [unfold PML4_ADDR; lia|]. rewrite E. revert E. simpl. unfold RegionMem.read.
  case_match; [|done]. by intros [= <-].
Qed.

Lemma booted_ok : booted = (Some 6, snd booted).
Proof.
  assert (H : fst booted = Some 6) by (vm_compute; reflexivity).
  rewrite <- H. by destruct booted.
Qed.
End BootExample.

Lemma boot_handoff_witness :
  let data := BootExample.initramfs in let cmd := BootExample.cmdline in
  let r := boot_setup (Some (Some data)) [] cmd BootExample.ram None BootExample.fresh in
  fst r = Some 6 /\ mem_read (snd r) CMDLINE_ADDR 13 = Some cmd.
Proof.
  destruct (boot_handoff BootExample.initramfs [] BootExample.cmdline BootExample.ram None
    BootExample.fresh) as (m' & image & Hb & _ & _ & _ & _ & _ & _ & Hc & _).
  - apply BootExample.fresh_mapped.
  - apply bytes_of_string_ok.
  - apply bytes_of_string_ok.
  - vm_compute. discriminate.
  - by vm_compute.
  - vm_compute. split; [discriminate|done].
  - cbv zeta. rewrite Hb. exact (conj eq_refl Hc).
Defined.

Lemma e820_map_witness :
  exists entries, e820_table (snd BootExample.booted) = Some entries
  /\ entries = [(0, 0x9FC00, 1); (0x100000, 0xF00000, 1); (0x100000000, 4096, 7)].
Proof.
  destruct (e820_map (Some (Some BootExample.initramfs)) [] BootExample.cmdline BootExample.ram
    (Some (0x100000000, 4096)) BootExample.fresh 6 (snd BootExample.booted)) as (es & H1 & H2 & _).
  - apply BootExample.fresh_mapped.
  - by vm_compute.
  - intros pa pl E. injection E as <- <-. by vm_compute.
  - apply BootExample.booted_ok.
  - exists es. split; [exact H1|exact H2].
Defined.

Lemma identity_map_witness :
  walk (snd BootExample.booted) PML4_ADDR 0x100000 = Some 0x100000
  /\ walk (snd BootExample.booted) PML4_ADDR 0x40000000 = None.
Proof.
  pose (r := mkSregs data_segment data_segment data_segment data_segment data_segment data_segment
    0 0 0 0 0 0 0 0). split.
  - apply (identity_map _ _ _ _ _ _ _ _ r 0x100000 BootExample.booted_ok); by vm_compute.
  - apply (identity_map _ _ _ _ _ _ _ _ r 0x40000000 BootExample.booted_ok);
      [by vm_compute|by vm_compute|by vm_compute|apply BootExample.fresh_zero].
Defined.

Lemma kernel_image_kept_witness :
  mem_read (snd BootExample.booted) 0x100000 4096 = mem_read BootExample.fresh 0x100000 4096.
Proof.
  apply (kernel_image_kept _ _ _ _ _ _ _ _ 0x100000 4096 BootExample.booted_ok); by vm_compute.
Defined.

Lemma segments_match_gdt_witness :
  exists e, read_obj 8 (snd BootExample.booted) (GDT_ADDR + 8) = Some e
  /\ decode_descriptor 8 e = mkSeg 0 0xFFFFFFFF 0x08 0xA 1 0 0 1 1 1 0 0.
Proof.
  pose (r := mkSregs data_segment data_segment data_segment data_segment data_segment data_segment
    0 0 0 0 0 0 0 0).
  destruct (segments_match_gdt _ _ _ _ _ _ _ _ r BootExample.booted_ok) as (H & _).
  apply Forall_inv in H. destruct H as (e & H1 & _ & H2). exists e. split; [exact H1|exact H2].
Defined.
