(* ===== verification/VirtQueue.v ===== *)
(** * Split virtqueues

    The block, net, pmem and balloon devices drive their rings through the
    [Queue] type of the [virtio-queue] crate, an interface here: [VirtQueue] has
    the calls the source makes, [VirtQueueLaws] that the two iterators terminate.
    The loops [while let Some(chain) = iter.next()] and
    [while let Some(desc) = chain.next()] are the combinators [for_chain] and
    [for_desc]; their fuel is the bound the crate gives, and the equations
    [for_chain_eq] and [for_desc_eq] say that it always suffices.
    [ListQueue] is a concrete queue for the witnesses, and [RingQueue] one that reads its rings
    in guest memory. *)
From S2P Require Import Prelude GuestMem.

(** What the devices read of a descriptor: [addr()], [len()],
    [is_write_only()]. *)
Record descriptor := mkDesc { d_addr : Z; d_len : Z; d_write_only : bool }.

(** [queue_iter] is [Queue::iter]: [None] is [Err].  [iter_queue] is the queue once
    the iterator is dropped: [next] has advanced its position in the available
    ring.  [add_used] returns whether the call was [Ok]. *)
Class VirtQueue (mem : Type) := {
  queue : Type;
  avail_iter : Type;
  chain : Type;
  queue_new : Z -> queue;
  set_size : Z -> queue -> queue;
  set_desc_table_address : Z -> Z -> queue -> queue;
  set_avail_ring_address : Z -> Z -> queue -> queue;
  set_used_ring_address : Z -> Z -> queue -> queue;
  set_ready : bool -> queue -> queue;
  queue_iter : queue -> mem -> option avail_iter;
  iter_next : avail_iter -> mem -> option (chain * avail_iter);
  iter_queue : avail_iter -> queue;
  iter_left : avail_iter -> nat;
  head_index : chain -> Z;
  chain_next : chain -> mem -> option (descriptor * chain);
  chain_left : chain -> nat;
  add_used : queue -> mem -> Z -> Z -> bool * queue * mem;
}.

(** The crate bounds an iteration by the ring indices it read when it started,
    and a chain by the queue size. *)
Class VirtQueueLaws (mem : Type) `{VirtQueue mem} : Prop := {
  iter_next_left it m c it' : iter_next it m = Some (c, it') -> (iter_left it' < iter_left it)%nat;
  chain_next_left c m d c' : chain_next c m = Some (d, c') -> (chain_left c' < chain_left c)%nat;
  iter_left_done it m : iter_left it = 0%nat -> iter_next it m = None;
  chain_left_done c m : chain_left c = 0%nat -> chain_next c m = None;
}.

(** [set_size .. set_ready(true)], the sequence every [activate_queue] runs *)
Definition configure_queue `{VirtQueue mem} (size dl dh al ah ul uh : Z) (q : queue) : queue :=
  set_ready true (set_used_ring_address ul uh (set_avail_ring_address al ah
    (set_desc_table_address dl dh (set_size (u16 size) q)))).

(** Whether a loop body ends with [continue] (or falls through) or [break]. *)
Inductive ctrl := Continue | Break.

Section Loops.
Context `{VirtQueue mem}.
Context {S : Type}.

Fixpoint desc_loop (fuel : nat) (body : descriptor -> S -> mem -> outcome (ctrl * S * mem))
    (c : chain) (s : S) (m : mem) : outcome (S * mem) :=
  match fuel with
  | O => Done (s, m)
  | Datatypes.S fuel =>
      match chain_next c m with
      | None => Done (s, m)
      | Some (d, c') =>
          match body d s m with
          | Done (Continue, s', m') => desc_loop fuel body c' s' m'
          | Done (Break, s', m') => Done (s', m')
          | Panic w => Panic w
          end
      end
  end.

Definition for_desc (body : descriptor -> S -> mem -> outcome (ctrl * S * mem))
    (c : chain) (s : S) (m : mem) : outcome (S * mem) :=
  desc_loop (chain_left c) body c s m.

Fixpoint chain_loop (fuel : nat) (body : chain -> S -> mem -> outcome (ctrl * S * mem))
    (it : avail_iter) (s : S) (m : mem) : outcome (avail_iter * S * mem) :=
  match fuel with
  | O => Done (it, s, m)
  | Datatypes.S fuel =>
      match iter_next it m with
      | None => Done (it, s, m)
      | Some (c, it') =>
          match body c s m with
          | Done (Continue, s', m') => chain_loop fuel body it' s' m'
          | Done (Break, s', m') => Done (it', s', m')
          | Panic w => Panic w
          end
      end
  end.

Definition for_chain (body : chain -> S -> mem -> outcome (ctrl * S * mem))
    (it : avail_iter) (s : S) (m : mem) : outcome (avail_iter * S * mem) :=
  chain_loop (iter_left it) body it s m.

(** ** Iterations that do not write guest memory

    [chains_of it m] and [descs_of c m] list what the iterators yield when the memory
    stays [m]; a loop whose body neither writes memory nor breaks is a fold over
    that list. *)
Fixpoint chains_upto (fuel : nat) (it : avail_iter) (m : mem) : list chain :=
  match fuel with
  | O => []
  | Datatypes.S fuel =>
      match iter_next it m with
      | None => []
      | Some (c, it') => c :: chains_upto fuel it' m
      end
  end.
Definition chains_of (it : avail_iter) (m : mem) : list chain := chains_upto (iter_left it) it m.

Fixpoint descs_upto (fuel : nat) (c : chain) (m : mem) : list descriptor :=
  match fuel with
  | O => []
  | Datatypes.S fuel =>
      match chain_next c m with
      | None => []
      | Some (d, c') => d :: descs_upto fuel c' m
      end
  end.
Definition descs_of (c : chain) (m : mem) : list descriptor := descs_upto (chain_left c) c m.

(** the iterator once it is exhausted *)
Fixpoint iter_end_upto (fuel : nat) (it : avail_iter) (m : mem) : avail_iter :=
  match fuel with
  | O => it
  | Datatypes.S fuel =>
      match iter_next it m with
      | None => it
      | Some (_, it') => iter_end_upto fuel it' m
      end
  end.
Definition iter_end (it : avail_iter) (m : mem) : avail_iter := iter_end_upto (iter_left it) it m.

Lemma for_desc_fold (f : descriptor -> S -> S) body c s m :
  (forall d s, body d s m = Done (Continue, f d s, m)) ->
  for_desc body c s m = Done (fold_left (fun s d => f d s) (descs_of c m) s, m).
Proof.
  intros Hb. unfold for_desc, descs_of. generalize (chain_left c) as n. intros n.
  revert c s. induction n as [|n IH]; intros c s; simpl; [done|].
  destruct (chain_next c m) as [[d c']|]; [|done]. rewrite Hb. apply IH.
Qed.

Lemma for_chain_fold (f : chain -> S -> S) body it s m :
  (forall c s, body c s m = Done (Continue, f c s, m)) ->
  for_chain body it s m = Done (iter_end it m, fold_left (fun s c => f c s) (chains_of it m) s, m).
Proof.
  intros Hb. unfold for_chain, chains_of, iter_end. generalize (iter_left it) as n. intros n.
  revert it s. induction n as [|n IH]; intros it s; simpl; [done|].
  destruct (iter_next it m) as [[c it']|]; [|done]. rewrite Hb. apply IH.
Qed.

Context `{!VirtQueueLaws mem}.

Lemma desc_loop_fuel body f1 f2 c s m :
  (chain_left c <= f1)%nat -> (chain_left c <= f2)%nat ->
  desc_loop f1 body c s m = desc_loop f2 body c s m.
Proof.
  revert f2 c s m. induction f1 as [|f1 IH]; intros f2 c s m H1 H2.
  - destruct f2; [done|]. simpl. rewrite chain_left_done by lia. done.
  - destruct f2 as [|f2]; simpl.
    + rewrite chain_left_done by lia. done.
    + destruct (chain_next c m) as [[d c']|] eqn:E; [|done].
      apply chain_next_left in E. destruct (body d s m) as [[[[] s'] m']|]; try done.
      apply IH; lia.
Qed.

Lemma for_desc_eq body c s m :
  for_desc body c s m =
  match chain_next c m with
  | None => Done (s, m)
  | Some (d, c') =>
      match body d s m with
      | Done (Continue, s', m') => for_desc body c' s' m'
      | Done (Break, s', m') => Done (s', m')
      | Panic w => Panic w
      end
  end.
Proof.
  unfold for_desc at 1. destruct (chain_left c) as [|n] eqn:En; simpl.
  - by rewrite chain_left_done.
  - destruct (chain_next c m) as [[d c']|] eqn:E; [|done]. apply chain_next_left in E.
    destruct (body d s m) as [[[[] s'] m']|]; try done.
    apply desc_loop_fuel; lia.
Qed.

Lemma chain_loop_fuel body f1 f2 it s m :
  (iter_left it <= f1)%nat -> (iter_left it <= f2)%nat ->
  chain_loop f1 body it s m = chain_loop f2 body it s m.
Proof.
  revert f2 it s m. induction f1 as [|f1 IH]; intros f2 it s m H1 H2.
  - destruct f2; [done|]. simpl. rewrite iter_left_done by lia. done.
  - destruct f2 as [|f2]; simpl.
    + rewrite iter_left_done by lia. done.
    + destruct (iter_next it m) as [[c it']|] eqn:E; [|done].
      apply iter_next_left in E. destruct (body c s m) as [[[[] s'] m']|]; try done.
      apply IH; lia.
Qed.

Lemma for_chain_eq body it s m :
  for_chain body it s m =
  match iter_next it m with
  | None => Done (it, s, m)
  | Some (c, it') =>
      match body c s m with
      | Done (Continue, s', m') => for_chain body it' s' m'
      | Done (Break, s', m') => Done (it', s', m')
      | Panic w => Panic w
      end
  end.
Proof.
  unfold for_chain at 1. destruct (iter_left it) as [|n] eqn:En; simpl.
  - by rewrite iter_left_done.
  - destruct (iter_next it m) as [[c it']|] eqn:E; [|done]. apply iter_next_left in E.
    destruct (body c s m) as [[[[] s'] m']|]; try done.
    apply chain_loop_fuel; lia.
Qed.

(** Invariants of the loops *)
Lemma for_desc_inv (P : S -> mem -> Prop) body c s m s' m' :
  (forall d s m ct s' m', P s m -> body d s m = Done (ct, s', m') -> P s' m') ->
  P s m -> for_desc body c s m = Done (s', m') -> P s' m'.
Proof.
  intros Hb. unfold for_desc. generalize (chain_left c) as f.
  intros f. revert c s m. induction f as [|f IH]; intros c s m HP; simpl.
  - congruence.
  - destruct (chain_next c m) as [[d c']|]; [|congruence].
    destruct (body d s m) as [[[[] s1] m1]|] eqn:E; [|intros [= <- <-]|done]; eauto.
Qed.

Lemma for_chain_inv (P : S -> mem -> Prop) body it s m it' s' m' :
  (forall c s m ct s' m', P s m -> body c s m = Done (ct, s', m') -> P s' m') ->
  P s m -> for_chain body it s m = Done (it', s', m') -> P s' m'.
Proof.
  intros Hb. unfold for_chain. generalize (iter_left it) as f.
  intros f. revert it s m. induction f as [|f IH]; intros it s m HP; simpl.
  - congruence.
  - destruct (iter_next it m) as [[c it1]|]; [|congruence].
    destruct (body c s m) as [[[[] s1] m1]|] eqn:E; [|intros [= <- <- <-]|done]; eauto.
Qed.

(** A loop whose body never panics returns. *)
Lemma for_desc_total body c s m :
  (forall d s m, panics (body d s m) = false) -> exists s' m', for_desc body c s m = Done (s', m').
Proof.
  intros Hb. unfold for_desc. generalize (chain_left c) as f. intros f.
  revert c s m. induction f as [|f IH]; intros c s m; simpl; [eauto|].
  destruct (chain_next c m) as [[d c']|]; [|eauto]. specialize (Hb d s m).
  destruct (body d s m) as [[[[] s1] m1]|]; [|eauto|done]. apply IH.
Qed.

Lemma for_chain_total body it s m :
  (forall c s m, panics (body c s m) = false) ->
  exists it' s' m', for_chain body it s m = Done (it', s', m').
Proof.
  intros Hb. unfold for_chain. generalize (iter_left it) as f. intros f.
  revert it s m. induction f as [|f IH]; intros it s m; simpl; [eauto|].
  destruct (iter_next it m) as [[c it1]|]; [|eauto]. specialize (Hb c s m).
  destruct (body c s m) as [[[[] s1] m1]|]; [|eauto|done]. apply IH.
Qed.
End Loops.

(** [for (idx, len) in &used { let _ = queue.add_used(mem, *idx, *len); }] *)
Fixpoint add_used_all `{VirtQueue mem} (used : list (Z * Z)) (q : queue) (m : mem) : queue * mem :=
  match used with
  | [] => (q, m)
  | (idx, len) :: used => let '(_, q, m) := add_used q m idx len in add_used_all used q m
  end.

(** The same loop with [.unwrap()]. *)
Fixpoint add_used_unwrap `{VirtQueue mem} (used : list (Z * Z)) (q : queue) (m : mem)
  : outcome (queue * mem) :=
  match used with
  | [] => Done (q, m)
  | (idx, len) :: used =>
      let '(ok, q, m) := add_used q m idx len in
      if ok then add_used_unwrap used q m else Panic UnwrapOnError
  end.

(** ** A concrete queue

    The available chains and the used entries are lists. *)
Module ListQueue.
Record t := mk {
  lq_avail : list (Z * list descriptor);
  lq_used : list (Z * Z);
  lq_size : Z;
  lq_addrs : list (Z * Z);
  lq_ready : bool;
}.

#[global] Instance virt_queue {mem} : VirtQueue mem := {
  queue := t;
  avail_iter := t;
  chain := Z * list descriptor;
  queue_new n := mk [] [] n [] false;
  set_size n q := mk (lq_avail q) (lq_used q) n (lq_addrs q) (lq_ready q);
  set_desc_table_address l h q := mk (lq_avail q) (lq_used q) (lq_size q) ((l, h) :: lq_addrs q) (lq_ready q);
  set_avail_ring_address l h q := mk (lq_avail q) (lq_used q) (lq_size q) ((l, h) :: lq_addrs q) (lq_ready q);
  set_used_ring_address l h q := mk (lq_avail q) (lq_used q) (lq_size q) ((l, h) :: lq_addrs q) (lq_ready q);
  set_ready b q := mk (lq_avail q) (lq_used q) (lq_size q) (lq_addrs q) b;
  queue_iter q _ := if lq_ready q then Some q else None;
  iter_next q _ :=
    match lq_avail q with
    | [] => None
    | c :: cs => Some (c, mk cs (lq_used q) (lq_size q) (lq_addrs q) (lq_ready q))
    end;
  iter_queue q := q;
  iter_left q := length (lq_avail q);
  head_index c := fst c;
  chain_next c _ :=
    match snd c with [] => None | d :: ds => Some (d, (fst c, ds)) end;
  chain_left c := length (snd c);
  add_used q m i l :=
    (true, mk (lq_avail q) (lq_used q ++ [(i, l)]) (lq_size q) (lq_addrs q) (lq_ready q), m);
}.

#[global] Instance laws {mem} : VirtQueueLaws mem.
Proof.
  split; simpl.
  - intros it m c it'. destruct (lq_avail it) eqn:E; [done|]. intros [= <- <-]. simpl. lia.
  - intros [h ds] m d c'. destruct ds; [done|]. intros [= <- <-]. simpl. lia.
  - intros it m. by destruct (lq_avail it).
  - intros [h ds] m. by destruct ds.
Qed.

(** a ready queue with chains waiting in the available ring *)
Definition ready_with (cs : list (Z * list descriptor)) : t := mk cs [] 256 [] true.
End ListQueue.

(** ** A split ring in guest memory

    The layout of the VirtIO specification: the descriptor table, the available ring and the used
    ring at the configured addresses. *)
Module RingQueue.
Record t := mk {
  rq_size : Z;
  rq_desc : Z;
  rq_avail : Z;
  rq_used : Z;
  rq_next_avail : Z;
  rq_next_used : Z;
  rq_ready : bool;
}.
#[local] Instance eta_ring : Eta t := fun q =>
  mk (rq_size q) (rq_desc q) (rq_avail q) (rq_used q) (rq_next_avail q) (rq_next_used q) (rq_ready q).
Record iter := mkIter { it_queue : t; it_left : nat }.
Record ring_chain := mkChain { ch_head : Z; ch_next : option Z; ch_queue : t; ch_left : nat }.

Section Ring.
Context `{GuestMemory mem}.
Implicit Types m : mem.

Definition address (low high : Z) : Z := high * 2 ^ 32 + low.
Definition start (q : t) m : option iter :=
  if rq_ready q then
    idx ← read_obj 2 m (rq_avail q + 2);
    let n := u16 (idx - rq_next_avail q) in
    if rq_size q <? n then None else Some (mkIter q (Z.to_nat n))
  else None.
Definition next (it : iter) m : option (ring_chain * iter) :=
  match it_left it with
  | O => None
  | S n =>
      let q := it_queue it in
      head ← read_obj 2 m (rq_avail q + 4 + 2 * (rq_next_avail q mod rq_size q));
      Some (mkChain head (Some head) q (Z.to_nat (rq_size q)), mkIter (q <| rq_next_avail ::= fun i => u16 (i + 1) |>) n)
  end.
Definition walk (c : ring_chain) m : option (descriptor * ring_chain) :=
  match ch_left c, ch_next c with
  | S n, Some i =>
      let q := ch_queue c in
      if rq_size q <=? i then None else
      addr ← read_obj 8 m (rq_desc q + 16 * i);
      len ← read_obj 4 m (rq_desc q + 16 * i + 8);
      flags ← read_obj 2 m (rq_desc q + 16 * i + 12);
      following ← read_obj 2 m (rq_desc q + 16 * i + 14);
      Some (mkDesc addr len (Z.testbit flags 1),
            mkChain (ch_head c) (if Z.testbit flags 0 then Some following else None) q n)
  | _, _ => None
  end.
Definition put_used (q : t) m (i l : Z) : bool * t * mem :=
  if rq_size q <=? i then (false, q, m) else
  let a := rq_used q + 4 + 8 * (rq_next_used q mod rq_size q) in
  let m := write_obj_ignore 4 (write_obj_ignore 4 m a i) (a + 4) l in
  let q := q <| rq_next_used ::= fun i => u16 (i + 1) |> in
  (true, q, write_obj_ignore 2 m (rq_used q + 2) (rq_next_used q)).

Definition virt_queue : VirtQueue mem := {|
  queue := t;
  avail_iter := iter;
  chain := ring_chain;
  queue_new n := mk n 0 0 0 0 0 false;
  set_size n q := q <| rq_size := n |>;
  set_desc_table_address l h q := q <| rq_desc := address l h |>;
  set_avail_ring_address l h q := q <| rq_avail := address l h |>;
  set_used_ring_address l h q := q <| rq_used := address l h |>;
  set_ready b q := q <| rq_ready := b |>;
  queue_iter := start;
  iter_next := next;
  iter_queue := it_queue;
  iter_left := it_left;
  head_index := ch_head;
  chain_next := walk;
  chain_left := ch_left;
  add_used := put_used;
|}.

Lemma ring_laws : @VirtQueueLaws mem virt_queue.
Proof.
  split; cbn [queue avail_iter chain iter_next iter_left chain_next chain_left virt_queue].
  - intros [q [|n]] m c it'; unfold next; cbn [it_left it_queue]; [intros [=]|].
    destruct (read_obj _ _ _); cbn; [|intros [=]]. intros [= <- <-]. cbn. lia.
  - intros [h [i|] q [|n]] m d c'; unfold walk; cbn [ch_left ch_next ch_queue]; try congruence.
    destruct (_ <=? _); [congruence|]. 
    do 4 (match goal with |- read_obj ?k ?m ?a ≫= _ = _ -> _ => destruct (read_obj k m a) end; cbn; [|congruence]).
    intros [= <- <-]. cbn. lia.
  - intros [q n] m E. cbn in E. unfold next. cbn. by rewrite E.
  - intros [h nx q n] m E. cbn in E. unfold walk. cbn. by rewrite E.
Qed.
End Ring.
End RingQueue.
