(* ===== verification/Virtio.v ===== *)
(** * Registers shared by the virtio-mmio devices

    Every device structure of the program carries the same transport registers:
    [mmio_regs] holds the ones that exist once, [vring] those that exist once per
    queue (the source keeps them as parallel arrays [queue_num[i]],
    [desc_low[i]], ..., or as scalars when the device has one queue). *)
From S2P Require Import Prelude.

Record mmio_regs := mkRegs {
  status : Z;
  interrupt_status : Z;
  device_features_sel : Z;
  driver_features_sel : Z;
  driver_features : Z;
  queue_sel : Z;
}.
#[export] Instance eta_regs : Eta mmio_regs := fun r =>
  mkRegs (status r) (interrupt_status r) (device_features_sel r) (driver_features_sel r)
    (driver_features r) (queue_sel r).

Record vring := mkVring {
  queue_num : Z;
  desc_low : Z; desc_high : Z;
  avail_low : Z; avail_high : Z;
  used_low : Z; used_high : Z;
}.
#[export] Instance eta_vring : Eta vring := fun r =>
  mkVring (queue_num r) (desc_low r) (desc_high r) (avail_low r) (avail_high r)
    (used_low r) (used_high r).

Definition regs_new : mmio_regs := mkRegs 0 0 0 0 0 0.
Definition vring_new (num : Z) : vring := mkVring num 0 0 0 0 0 0.

Definition desc_addr (r : vring) : Z := hi_lo (desc_high r) (desc_low r).
Definition avail_addr (r : vring) : Z := hi_lo (avail_high r) (avail_low r).
Definition used_addr (r : vring) : Z := hi_lo (used_high r) (used_low r).

(** [if data.len() == 4 { u32::from_le_bytes(data) } else { 0 }] *)
Definition mmio_val (data : list Z) : Z :=
  if decide (length data = 4%nat) then le_val data else 0.

(** [data.copy_from_slice(&v.to_le_bytes())] for a [u32] *)
Definition put_u32 (v : Z) (data : list Z) : outcome (list Z) :=
  copy_from_slice (le_bytes 4 v) data.

(** [b"virt"] *)
Definition virt_magic : list Z := [0x76; 0x69; 0x72; 0x74].
(** the vendor id every device answers at 0x00C *)
Definition nkr_vendor : Z := 0x4E4B5200.

Definition u32_of_bool (b : bool) : Z := if b then 1 else 0.

(** The 64 driver feature bits are written as two words selected by
    [driver_features_sel]. *)
Definition features_low (r : mmio_regs) (val : Z) : Z :=
  Z.lor (Z.land (driver_features r) 0xFFFFFFFF00000000) val.
Definition features_high (r : mmio_regs) (val : Z) : Z :=
  Z.lor (Z.land (driver_features r) 0x00000000FFFFFFFF) (u64 (Z.shiftl val 32)).

(** net and block: other selectors are ignored *)
Definition write_features_01 (val : Z) (r : mmio_regs) : mmio_regs :=
  if driver_features_sel r =? 0 then r <| driver_features := features_low r val |>
  else if driver_features_sel r =? 1 then r <| driver_features := features_high r val |>
  else r.

(** pmem, fs, balloon and console: every selector but 0 is the high word *)
Definition write_features_0else (val : Z) (r : mmio_regs) : mmio_regs :=
  if driver_features_sel r =? 0 then r <| driver_features := features_low r val |>
  else r <| driver_features := features_high r val |>.

(** the ring address registers 0x080 .. 0x0A4 *)
Definition is_ring_reg (off : Z) : bool :=
  (off =? 0x080) || (off =? 0x084) || (off =? 0x090) || (off =? 0x094) ||
  (off =? 0x0A0) || (off =? 0x0A4).

Definition write_ring_reg (off val : Z) (r : vring) : vring :=
  if off =? 0x080 then r <| desc_low := val |>
  else if off =? 0x084 then r <| desc_high := val |>
  else if off =? 0x090 then r <| avail_low := val |>
  else if off =? 0x094 then r <| avail_high := val |>
  else if off =? 0x0A0 then r <| used_low := val |>
  else if off =? 0x0A4 then r <| used_high := val |>
  else r.

(** [if sel < n { regs[sel] = .. }] on the per-queue registers *)
Definition update_ring (sel : Z) (f : vring -> vring) (rs : list vring) : list vring :=
  if sel <? Z.of_nat (length rs) then alter f (Z.to_nat sel) rs else rs.

(** [self.interrupt_status |= bits] and [&= !val] *)
Definition raise_interrupt (bits : Z) (r : mmio_regs) : mmio_regs :=
  r <| interrupt_status ::= fun s => Z.lor s bits |>.
Definition ack_interrupt (val : Z) (r : mmio_regs) : mmio_regs :=
  r <| interrupt_status ::= fun s => Z.land s (not32 val) |>.

(** ** Lemmas *)
Lemma mmio_val_u32 data : bytes_ok data -> is_u32 (mmio_val data).
Proof.
  intros Hb. unfold mmio_val, is_u32. case_decide as Hl; [|lia].
  pose proof (le_val_bound data Hb) as H. rewrite Hl in H. simpl in H. lia.
Qed.

Lemma mmio_val_le_bytes v : is_u32 v -> mmio_val (le_bytes 4 v) = v.
Proof.
  intros H. unfold mmio_val. rewrite decide_True by apply length_le_bytes. by apply le_val_4.
Qed.

Lemma put_u32_4 v data : length data = 4%nat -> put_u32 v data = Done (le_bytes 4 v).
Proof.
  intros H. unfold put_u32, copy_from_slice. case_decide as Hc; [done|].
  rewrite length_le_bytes in Hc. lia.
Qed.

Lemma put_u32_panics v data : length data <> 4%nat -> put_u32 v data = Panic SliceLengthMismatch.
Proof.
  intros H. unfold put_u32, copy_from_slice. case_decide as Hc; [|done].
  rewrite length_le_bytes in Hc. lia.
Qed.

Lemma magic_4 data : length data = 4%nat -> copy_from_slice virt_magic data = Done virt_magic.
Proof. intros H. unfold copy_from_slice. case_decide as Hc; [done|]. simpl in Hc. lia. Qed.

Lemma length_update_ring sel f rs : length (update_ring sel f rs) = length rs.
Proof. unfold update_ring. case_match; [apply length_alter|done]. Qed.

Lemma land_low32 z : Z.land z 0x00000000FFFFFFFF = z mod 2 ^ 32.
Proof. change 0xFFFFFFFF with (Z.ones 32). by rewrite Z.land_ones. Qed.

Lemma land_high32 z : is_u64 z -> Z.land z 0xFFFFFFFF00000000 = Z.shiftl (z / 2 ^ 32) 32.
Proof.
  intros Hz. change 0xFFFFFFFF00000000 with (Z.shiftl (Z.ones 32) 32).
  replace (Z.land z (Z.shiftl (Z.ones 32) 32))
    with (Z.shiftl (Z.land (Z.shiftr z 32) (Z.ones 32)) 32).
  - rewrite Z.land_ones, Z.shiftr_div_pow2 by lia. f_equal. unfold is_u64 in Hz. lia.
  - apply Z.bits_inj'. intros i Hi. rewrite Z.land_spec, !Z.shiftl_spec by done.
    rewrite Z.land_spec. destruct (decide (32 <= i)).
    + rewrite Z.shiftr_spec by lia. by replace (i - 32 + 32) with i by lia.
    + rewrite (Z.testbit_neg_r (Z.shiftr z 32)), (Z.testbit_neg_r (Z.ones 32)) by lia.
      by rewrite !andb_false_r.
Qed.

Lemma features_low_val r v :
  is_u64 (driver_features r) -> is_u32 v ->
  features_low r v = driver_features r / 2 ^ 32 * 2 ^ 32 + v.
Proof.
  intros Hr Hv. unfold features_low. rewrite land_high32 by done. by apply hi_lo_add.
Qed.

Lemma features_high_val r v :
  is_u32 v -> features_high r v = v * 2 ^ 32 + driver_features r mod 2 ^ 32.
Proof.
  intros Hv. unfold features_high. rewrite land_low32, Z.lor_comm.
  rewrite u64_small by (rewrite Z.shiftl_mul_pow2 by lia; unfold is_u32, is_u64 in *; lia).
  apply hi_lo_add. words.
Qed.

(** every 4-byte read of a register value succeeds *)
Create Rewrite HintDb nkr_reg.
#[export] Hint Rewrite put_u32_4 magic_4 using (simpl; lia) : nkr_reg.

(** A register read fills the buffer it is given. *)
Lemma put_u32_length v data out : put_u32 v data = Done out -> length out = length data.
Proof. apply copy_from_slice_length. Qed.

Ltac read_length :=
  repeat first
    [ intros E; apply copy_from_slice_length in E; exact E
    | apply put_u32_length
    | intros [= <-]; rewrite ?length_fill, ?length_imap, ?length_copy_prefix; reflexivity
    | case_match
    | match goal with |- context [mbind _ ?x] => destruct x; simpl; [|discriminate] end ].
