(* ===== verification/Console.v ===== *)
(** * VirtIO-Console: the host-to-guest control channel (src/console.rs)

    The host writes ["SHUTDOWN\n"] and ["REL_OD\n"] into the receive queue of a
    one-port console.  This device does not use the [virtio-queue] crate: it reads
    and writes the available and used rings in guest memory itself, and so does
    the model.  The second half of the file is the register file of the device as
    [run_vcpu_loop] (src/vmm.rs) decodes it. *)
From S2P Require Import Prelude GuestMem Virtio.

Definition CONSOLE_MMIO_ADDR : Z := 0xD0050000.
Definition CONSOLE_IRQ : Z := 11.
Definition CONSOLE_DEVICE_ID : Z := 3.
Definition CONSOLE_QUEUE_SIZE : Z := 64.

(** [irqfd] counts the signals written to the interrupt eventfd. *)
Record VirtioConsoleDevice := mkConsole {
  regs : mmio_regs;
  rings : list vring;
  queue_ready : list bool;
  irqfd : Z;
  last_avail : Z;
  pending_inject : option (list Z);
}.
#[export] Instance eta_console : Eta VirtioConsoleDevice := fun d =>
  mkConsole (regs d) (rings d) (queue_ready d) (irqfd d) (last_avail d) (pending_inject d).

Definition new : VirtioConsoleDevice :=
  mkConsole regs_new [vring_new CONSOLE_QUEUE_SIZE; vring_new CONSOLE_QUEUE_SIZE]
    [false; false] 0 0 None.

Section Inject.
Context `{GuestMemory mem}.
Implicit Types (d : VirtioConsoleDevice) (m : mem).

(** The buffer descriptor of the next available entry: index, address, length.
    [Done None] is an early [return false]. *)
Definition next_buffer (d : VirtioConsoleDevice) (m : mem) (r : vring)
  : outcome (option (Z * Z * Z)) :=
  match read_obj 2 m (u64 (avail_addr r + 2)) with
  | None => Done None
  | Some avail_idx =>
      if avail_idx =? last_avail d then Done None
      else if queue_num r =? 0 then Panic DivisionByZero
      else
        let ring_slot := (last_avail d mod queue_num r) * 2 in
        match read_obj 2 m (u64 (avail_addr r + 4 + ring_slot)) with
        | None => Done None
        | Some desc_idx =>
            let desc_base := u64 (desc_addr r + desc_idx * 16) in
            match read_obj 8 m desc_base with
            | None => Done None
            | Some buf_gpa =>
                match read_obj 4 m (u64 (desc_base + 8)) with
                | None => Done None
                | Some buf_len => Done (Some (desc_idx, buf_gpa, buf_len))
                end
            end
        end
  end.

(** Publishes [{ id, len }] in the used ring at [used_idx] and bumps the index;
    the results of the writes are ignored. *)
Definition push_used (m : mem) (r : vring) (used_idx id len : Z) : mem :=
  let used_slot := (used_idx mod queue_num r) * 8 in
  let m := write_obj_ignore 4 m (u64 (used_addr r + 4 + used_slot)) id in
  let m := write_obj_ignore 4 m (u64 (used_addr r + 4 + used_slot + 4)) len in
  write_obj_ignore 2 m (u64 (used_addr r + 2)) (u16 (used_idx + 1)).

Definition inject_to_receiveq (d : VirtioConsoleDevice) (m : mem) (data : list Z)
  : outcome (bool * VirtioConsoleDevice * mem) :=
  r ← index (rings d) 0;
  if (desc_addr r =? 0) || (avail_addr r =? 0) || (used_addr r =? 0)
  then Done (false, d, m)
  else
    buf ← next_buffer d m r;
    match buf with
    | None => Done (false, d, m)
    | Some (desc_idx, buf_gpa, buf_len) =>
        let write_len := Z.min (Z.of_nat (length data)) buf_len in
        match mem_write m buf_gpa (take (Z.to_nat write_len) data) with
        | (false, m) => Done (false, d, m)
        | (true, m) =>
            let d := d <| last_avail ::= fun a => u16 (a + 1) |> in
            match read_obj 2 m (u64 (used_addr r + 2)) with
            | None => Done (false, d, m)
            | Some used_idx =>
                let m := push_used m r used_idx desc_idx write_len in
                Done (true, d <| regs ::= raise_interrupt 1 |> <| irqfd ::= Z.succ |>, m)
            end
        end
    end.

(** Retries the pending data; without buffers it stays pending. *)
Definition poll_pending (d : VirtioConsoleDevice) (m : mem)
  : outcome (VirtioConsoleDevice * mem) :=
  ready ← index (queue_ready d) 0;
  if ready : bool then
    match pending_inject d with
    | None => Done (d, m)
    | Some data =>
        '(ok, d, m) ← inject_to_receiveq (d <| pending_inject := None |>) m data;
        Done (if ok : bool then d else d <| pending_inject := Some data |>, m)
    end
  else Done (d, m).

Definition try_inject (d : VirtioConsoleDevice) (m : mem) (data : list Z)
  : outcome (VirtioConsoleDevice * mem) :=
  ready ← index (queue_ready d) 0;
  if negb ready then Done (d <| pending_inject := Some data |>, m)
  else
    '(ok, d, m) ← inject_to_receiveq d m data;
    Done (if ok : bool then d else d <| pending_inject := Some data |>, m).
End Inject.

(** ** Register file (the [CONSOLE_MMIO_ADDR] page of [run_vcpu_loop]) *)
Definition mmio_read (d : VirtioConsoleDevice) (off : Z) (data : list Z) : outcome (list Z) :=
  let qi := queue_sel (regs d) in
  if off =? 0x000 then copy_from_slice virt_magic data
  else if off =? 0x004 then put_u32 2 data
  else if off =? 0x008 then put_u32 CONSOLE_DEVICE_ID data
  else if off =? 0x00C then put_u32 nkr_vendor data
  else if off =? 0x010 then
    put_u32 (if device_features_sel (regs d) =? 1 then 1 else 0) data
  else if off =? 0x034 then
    (qn ← (if qi <? 2 then queue_num <$> index (rings d) qi else Done 64); put_u32 qn data)
  else if off =? 0x044 then
    (rd ← (if qi <? 2 then index (queue_ready d) qi else Done false);
     put_u32 (u32_of_bool rd) data)
  else if off =? 0x060 then put_u32 (interrupt_status (regs d)) data
  else if off =? 0x070 then put_u32 (status (regs d)) data
  else if off =? 0x0FC then put_u32 0 data
  else Done (fill 0 data).

Definition mmio_write (d : VirtioConsoleDevice) (off : Z) (data : list Z)
  : outcome VirtioConsoleDevice :=
  let val := mmio_val data in
  let qi := queue_sel (regs d) in
  if off =? 0x014 then Done (d <| regs ::= fun r => r <| device_features_sel := val |> |>)
  else if off =? 0x020 then Done (d <| regs ::= write_features_0else val |>)
  else if off =? 0x024 then Done (d <| regs ::= fun r => r <| driver_features_sel := val |> |>)
  else if off =? 0x030 then Done (d <| regs ::= fun r => r <| queue_sel := val |> |>)
  else if off =? 0x038 then
    Done (d <| rings ::= update_ring qi (fun r => r <| queue_num := val |>) |>)
  else if off =? 0x044 then
    if val =? 1 then
      (rdy ← index_set (queue_ready d) qi true; Done (d <| queue_ready := rdy |>))
    else if qi <? 2 then
      (rdy ← index_set (queue_ready d) qi false; Done (d <| queue_ready := rdy |>))
    else Done d
  else if off =? 0x050 then Done d
  else if off =? 0x064 then Done (d <| regs ::= ack_interrupt val |>)
  else if off =? 0x070 then
    if val =? 0 then
      Done (d <| regs ::= fun r => r <| status := 0 |> |> <| queue_ready := [false; false] |>)
    else Done (d <| regs ::= fun r => r <| status := val |> |>)
  else if is_ring_reg off then Done (d <| rings ::= update_ring qi (write_ring_reg off val) |>)
  else Done d.

(** ** Invariant *)
Definition wf (d : VirtioConsoleDevice) : Prop :=
  length (rings d) = 2%nat /\ length (queue_ready d) = 2%nat.

Lemma console_wf_new : wf new.
Proof. done. Qed.

Section InjectFacts.
Context `{HM : GuestMemoryLaws mem}.
Implicit Types (d : VirtioConsoleDevice) (m : mem).

(** What a call leaves alone, whatever it returns. *)
Lemma inject_preserves d m data ok d' m' :
  inject_to_receiveq d m data = Done (ok, d', m') ->
  rings d' = rings d /\ queue_ready d' = queue_ready d /\ pending_inject d' = pending_inject d.
Proof.
  unfold inject_to_receiveq. destruct (index (rings d) 0) as [r|]; [|done]. simpl.
  case_match; [intros [= <- <- <-]; done|].
  destruct (next_buffer d m r) as [[[[di bg] bl]|]|]; simpl; [| |done].
  - repeat case_match; intros [= <- <- <-]; done.
  - intros [= <- <- <-]; done.
Qed.

(** Either the interrupt was raised or nothing was published. *)
Lemma inject_result d m data ok d' m' :
  inject_to_receiveq d m data = Done (ok, d', m') ->
  if ok then interrupt_status (regs d') = Z.lor (interrupt_status (regs d)) 1
             /\ irqfd d' = irqfd d + 1 /\ last_avail d' = u16 (last_avail d + 1)
  else regs d' = regs d /\ irqfd d' = irqfd d.
Proof.
  unfold inject_to_receiveq. destruct (index (rings d) 0) as [r|]; [|done]. simpl.
  case_match; [intros [= <- <- <-]; done|].
  destruct (next_buffer d m r) as [[[[di bg] bl]|]|]; simpl; [| |done].
  - repeat case_match; intros; simplify_eq/=; done.
  - intros [= <- <- <-]; done.
Qed.

Lemma inject_wf d m data ok d' m' :
  wf d -> inject_to_receiveq d m data = Done (ok, d', m') -> wf d'.
Proof.
  intros [H1 H2] E%inject_preserves. destruct E as (E1 & E2 & _).
  split; congruence.
Qed.

Lemma try_inject_wf d m data d' m' :
  wf d -> try_inject d m data = Done (d', m') -> wf d'.
Proof.
  intros Hwf. unfold try_inject. destruct (index (queue_ready d) 0) as [[]|]; simpl; [| |done].
  - destruct (inject_to_receiveq d m data) as [[[ok d1] m1]|] eqn:E; simpl; [|done].
    intros [= <- <-]. apply inject_wf in E; [|done]. by destruct ok.
  - intros [= <- <-]. done.
Qed.

Lemma poll_pending_wf d m d' m' :
  wf d -> poll_pending d m = Done (d', m') -> wf d'.
Proof.
  intros Hwf. unfold poll_pending. destruct (index (queue_ready d) 0) as [[]|]; simpl; [| |done].
  - destruct (pending_inject d) as [data|]; [|congruence].
    destruct (inject_to_receiveq _ m data) as [[[ok d1] m1]|] eqn:E; simpl; [|done].
    intros [= <- <-]. apply inject_wf in E; [|done]. by destruct ok.
  - congruence.
Qed.
End InjectFacts.

(** ** Delivery of a message *)
Section Delivery.
Context `{HM : GuestMemoryLaws mem}.
Implicit Types (d : VirtioConsoleDevice) (m : mem) (r : vring).

Definition used_entry r (used_idx : Z) : Z := used_addr r + 4 + (used_idx mod queue_num r) * 8.

(** The receive queue [r] is configured, offers the buffer [(di, gpa, len)], and
    buffer and used ring are mapped guest memory that do not overlap. *)
Record offers_buffer d m r (di gpa len used_idx : Z) (n : nat) : Prop := {
  ob_ring : rings d !! 0%nat = Some r;
  ob_set : desc_addr r <> 0 /\ avail_addr r <> 0 /\ 0 < used_addr r;
  ob_next : next_buffer d m r = Done (Some (di, gpa, len));
  ob_num : 0 < queue_num r;
  ob_used_fits : used_addr r + 4 + 8 * queue_num r < 2 ^ 64;
  ob_used_idx : read_obj 2 m (used_addr r + 2) = Some used_idx;
  ob_used_mapped : is_Some (mem_read m (used_entry r used_idx) 4)
                   /\ is_Some (mem_read m (used_entry r used_idx + 4) 4);
  ob_buf_mapped : is_Some (mem_read m gpa n);
  ob_disjoint : disjoint_ranges gpa n (used_addr r) (Z.to_nat (4 + 8 * queue_num r));
}.

Lemma next_buffer_ranges d m r di gpa len :
  next_buffer d m r = Done (Some (di, gpa, len)) -> is_u16 di /\ is_u32 len.
Proof.
  unfold next_buffer. intros E. repeat case_match; simplify_eq.
  repeat match goal with H : read_obj _ _ _ = Some _ |- _ => apply read_obj_range in H end.
  unfold is_u16, is_u32. simpl in *. lia.
Qed.

Lemma used_entry_bounds r used_idx :
  0 < queue_num r ->
  used_addr r + 4 <= used_entry r used_idx /\ used_entry r used_idx + 8 <= used_addr r + 4 + 8 * queue_num r.
Proof.
  intros Hq. unfold used_entry. pose proof (Z.mod_pos_bound used_idx (queue_num r) Hq). lia.
Qed.

Lemma push_used_entry m r used_idx id len :
  0 < queue_num r -> 0 < used_addr r -> used_addr r + 4 + 8 * queue_num r < 2 ^ 64 ->
  is_Some (mem_read m (used_addr r + 2) 2) ->
  is_Some (mem_read m (used_entry r used_idx) 4) ->
  is_Some (mem_read m (used_entry r used_idx + 4) 4) ->
  let m' := push_used m r used_idx id len in
  read_obj 4 m' (used_entry r used_idx) = Some (id mod 2 ^ 32)
  /\ read_obj 4 m' (used_entry r used_idx + 4) = Some (len mod 2 ^ 32)
  /\ read_obj 2 m' (used_addr r + 2) = Some (u16 (used_idx + 1)).
Proof.
  intros Hq Hu Hf Hi He1 He2. pose proof (used_entry_bounds r used_idx Hq) as [Hb1 Hb2].
  unfold push_used. fold (used_entry r used_idx).
  rewrite !u64_small by (unfold is_u64; lia). cbv zeta.
  split_and!.
  - rewrite read_obj_frame by (unfold disjoint_ranges; lia).
    rewrite read_obj_frame by (unfold disjoint_ranges; lia).
    by rewrite write_obj_ignore_read.
  - rewrite read_obj_frame by (unfold disjoint_ranges; lia).
    rewrite write_obj_ignore_read; [done|]. by rewrite write_obj_ignore_mapped.
  - rewrite write_obj_ignore_read by (by rewrite !write_obj_ignore_mapped).
    f_equal. unfold u16. simpl. apply Zmod_mod.
Qed.

Lemma push_used_frame m r used_idx id len b k :
  0 < queue_num r -> 0 < used_addr r -> used_addr r + 4 + 8 * queue_num r < 2 ^ 64 ->
  disjoint_ranges b k (used_addr r) (Z.to_nat (4 + 8 * queue_num r)) ->
  mem_read (push_used m r used_idx id len) b k = mem_read m b k.
Proof.
  intros Hq Hu Hf Hd. pose proof (used_entry_bounds r used_idx Hq) as [Hb1 Hb2].
  unfold push_used. fold (used_entry r used_idx). rewrite !u64_small by (unfold is_u64; lia).
  unfold disjoint_ranges in Hd.
  by rewrite !write_obj_ignore_frame by (unfold disjoint_ranges; lia).
Qed.

(** Delivery of a control message: when the guest offers a receive buffer,
    [inject_to_receiveq] stores the longest prefix of the message that fits in it,
    publishes the descriptor and the stored length in the used ring, advances both
    ring indices by one and raises the interrupt. *)
Theorem inject_delivers d m data r di gpa len used_idx (n : nat) :
  n = Z.to_nat (Z.min (Z.of_nat (length data)) len) ->
  bytes_ok data ->
  offers_buffer d m r di gpa len used_idx n ->
  exists d' m',
    inject_to_receiveq d m data = Done (true, d', m')
    /\ mem_read m' gpa n = Some (take n data)
    /\ read_obj 4 m' (used_entry r used_idx) = Some di
    /\ read_obj 4 m' (used_entry r used_idx + 4) = Some (Z.of_nat n)
    /\ read_obj 2 m' (used_addr r + 2) = Some (u16 (used_idx + 1))
    /\ last_avail d' = u16 (last_avail d + 1)
    /\ irqfd d' = irqfd d + 1
    /\ Z.testbit (interrupt_status (regs d')) 0 = true.
Proof.
  intros Hn Hdata [Hr (Hd0 & Ha0 & Hu0) Hnb Hq Hf Hui [Hm1 Hm2] Hbuf Hdis].
  pose proof (next_buffer_ranges _ _ _ _ _ _ Hnb) as [Hdi Hlen].
  unfold inject_to_receiveq, index. change (Z.to_nat 0) with 0%nat. rewrite Hr. simpl.
  rewrite (proj2 (Z.eqb_neq _ _) Hd0), (proj2 (Z.eqb_neq _ _) Ha0),
    (proj2 (Z.eqb_neq (used_addr r) 0) ltac:(lia)). simpl.
  rewrite Hnb. simpl. rewrite <- Hn.
  assert (Hlt : length (take n data) = n) by (rewrite length_take; unfold is_u32 in *; lia).
  assert (Hok : fst (mem_write m gpa (take n data)) = true)
    by (apply write_ok_iff_mapped; by rewrite Hlt).
  destruct (mem_write m gpa (take n data)) as [ok m1] eqn:Ew. simpl in Hok. subst ok.
  assert (Hfr : forall b k, disjoint_ranges gpa n b k -> mem_read m1 b k = mem_read m b k)
    by (intros b k Hk; eapply write_frame; [exact Ew|by rewrite Hlt]).
  assert (Hmap : forall b k, is_Some (mem_read m1 b k) <-> is_Some (mem_read m b k))
    by (intros; eapply mem_write_mapped; exact Ew).
  assert (Hui1 : read_obj 2 m1 (used_addr r + 2) = Some used_idx).
  { unfold read_obj in *. rewrite Hfr; [done|]. unfold disjoint_ranges in *. lia. }
  rewrite u64_small by (unfold is_u64; lia). rewrite Hui1. simpl.
  eexists _, _. split; [reflexivity|].
  destruct (push_used_entry m1 r used_idx di (Z.of_nat n)) as (P1 & P2 & P3); try done.
  { apply Hmap. unfold read_obj in Hui. destruct (mem_read m _ 2); [by eexists|done]. }
  { by apply Hmap. } { by apply Hmap. }
  replace (Z.min (Z.of_nat (length data)) len) with (Z.of_nat n)
    by (unfold is_u32 in *; lia).
  split_and!; try done.
  - rewrite push_used_frame by done. rewrite <- Hlt at 1.
    eapply write_then_read; [by apply Forall_take|exact Ew].
  - rewrite P1. f_equal. apply Z.mod_small. unfold is_u16 in *. lia.
  - rewrite P2. f_equal. apply Z.mod_small. unfold is_u32 in *. lia.
  - rewrite <- Z.bit0_odd. cbn -[Z.testbit Z.lor]. rewrite Z.lor_spec. apply orb_true_r.
Qed.
End Delivery.

(** A guest with the receive queue at 0x1000 / 0x1100 / 0x1200 that offers the
    16-byte buffer at 0x1800. *)
Module ConsoleExample.
Definition ring : vring := mkVring 64 0x1000 0 0x1100 0 0x1200 0.
Definition dev : VirtioConsoleDevice :=
  new <| rings := [ring; vring_new 64] |> <| queue_ready := [true; false] |>.
Definition memory : RegionMem.t :=
  let m := RegionMem.zeroed 0x2000 in
  let m := write_obj_ignore 8 m 0x1000 0x1800 in
  let m := write_obj_ignore 4 m 0x1008 16 in
  write_obj_ignore 2 m 0x1102 1.
Definition shutdown : list Z := [0x53; 0x48; 0x55; 0x54; 0x44; 0x4F; 0x57; 0x4E; 0x0A].
End ConsoleExample.

(** The register file never panics on a 4-byte access, with one exception that the
    guest controls: writing 1 to QueueReady (0x044) while QueueSel holds 2 or more
    indexes [queue_ready] out of bounds. *)
Lemma console_mmio_panics_iff d off data :
  wf d -> 0 <= queue_sel (regs d) -> length data = 4%nat ->
  panics (mmio_read d off data) = false
  /\ (panics (mmio_write d off data) = true
      <-> off = 0x044 /\ mmio_val data = 1 /\ 2 <= queue_sel (regs d)).
Proof.
  intros [Hr Hq] Hs Hd. split.
  - unfold mmio_read. autorewrite with nkr_reg.
    repeat case_match; simplify_eq/=; autorewrite with nkr_reg; try done;
      match goal with |- context [index ?l ?i] =>
        destruct (index_in_range l i) as (x & -> & _); [lia|] end;
      simpl; by autorewrite with nkr_reg.
  - unfold mmio_write. split.
    + repeat (case_match; try done).
      * intros Hp. revert Hp. unfold index_set. case_decide; simpl; [done|]. intros _. lia.
      * rewrite index_set_in_range by lia. done.
    + intros (-> & Hv & Hge). simpl. rewrite Hv. simpl. unfold index_set.
      rewrite decide_False by lia. done.
Qed.

Lemma console_read_length d off data out : mmio_read d off data = Done out -> length out = length data.
Proof. unfold mmio_read. read_length. Qed.

Lemma console_write_wf d off data d' :
  wf d -> 0 <= queue_sel (regs d) -> bytes_ok data -> mmio_write d off data = Done d' ->
  wf d' /\ 0 <= queue_sel (regs d') /\ pending_inject d' = pending_inject d.
Proof.
  intros Hwf Hs Hb. pose proof Hwf as [Hr Hq]. pose proof (mmio_val_u32 data Hb) as [Hv _].
  unfold mmio_write.
  repeat (case_match; [solve [ by intros [= <-]
    | intros [= <-]; split_and!; simpl; try split; simpl; rewrite ?length_update_ring; done
    | unfold write_features_0else; intros [= <-]; split_and!; simpl; try done; by repeat case_match
    | case_match; (intros [= <-]; by split_and!)
    | repeat (case_match; try by intros [= <-]); simpl;
      (destruct (index_set _ _ _) as [rdy|] eqn:E; simpl; [|done]);
      unfold index_set in E; case_decide; simplify_eq; intros [= <-];
      split_and!; try done; split; simpl; rewrite ?length_insert; done ]|]).
  by intros [= <-].
Qed.

Lemma inject_delivers_witness :
  exists d' m',
    inject_to_receiveq ConsoleExample.dev ConsoleExample.memory ConsoleExample.shutdown
      = Done (true, d', m')
    /\ mem_read m' 0x1800 9 = Some ConsoleExample.shutdown.
Proof.
  edestruct (inject_delivers ConsoleExample.dev ConsoleExample.memory ConsoleExample.shutdown
               ConsoleExample.ring 0 0x1800 16 0 9) as (d' & m' & H1 & H2 & _).
  - vm_compute. reflexivity.
  - repeat constructor; unfold is_byte; lia.
  - split; try (vm_compute; (reflexivity || (repeat split; congruence))).
    + vm_compute. split; by eexists.
    + vm_compute. by eexists.
    + right. vm_compute. congruence.
  - exists d', m'. split; [exact H1|exact H2].
Defined.

