(* ===== verification/Balloon.v ===== *)
(** * VirtIO-Balloon (src/balloon.rs)

    The guest donates pages on the inflate queue and takes them back on the
    deflate queue; the device keeps the donated guest-physical addresses in a set
    bounded by the guest RAM.  The statistics queue is drained by a timer of the
    vCPU loop. *)
From S2P Require Import Prelude GuestMem VirtQueue Virtio.

Definition BALLOON_MMIO_ADDR : Z := 0xD0040000.
Definition BALLOON_IRQ : Z := 10.
Definition BALLOON_DEVICE_ID : Z := 5.
Definition FALLBACK_MAX_INFLATED_PAGES : Z := 256 * 1024.
Definition MAX_BYTES_PER_DESC : Z := 64 * 1024.
Definition VIRTIO_BALLOON_F_MUST_TELL_HOST : Z := Z.shiftl 1 0.
Definition VIRTIO_BALLOON_F_STATS_VQ : Z := Z.shiftl 1 1.
Definition VIRTIO_BALLOON_S_SWAP_IN : Z := 0.
Definition VIRTIO_BALLOON_S_SWAP_OUT : Z := 1.
Definition VIRTIO_BALLOON_S_MAJFLT : Z := 2.
Definition VIRTIO_BALLOON_S_MINFLT : Z := 3.
Definition VIRTIO_BALLOON_S_MEMFREE : Z := 4.
Definition VIRTIO_BALLOON_S_MEMTOT : Z := 5.
Definition VIRTIO_BALLOON_S_AVAIL : Z := 6.
Definition VIRTIO_BALLOON_S_CACHES : Z := 7.
Definition VIRTIO_BALLOON_STAT_SIZE : Z := 10.

Record GuestStats := mkStats {
  mem_total_bytes : Z;
  mem_free_bytes : Z;
  mem_available_bytes : Z;
  mem_cached_bytes : Z;
  swap_in_bytes : Z;
  swap_out_bytes : Z;
  major_faults : Z;
  minor_faults : Z;
}.
#[export] Instance eta_stats : Eta GuestStats := fun s =>
  mkStats (mem_total_bytes s) (mem_free_bytes s) (mem_available_bytes s) (mem_cached_bytes s)
    (swap_in_bytes s) (swap_out_bytes s) (major_faults s) (minor_faults s).
Definition stats_default : GuestStats := mkStats 0 0 0 0 0 0 0 0.

Section Device.
Context `{GuestMemory mem} `{!VirtQueue mem}.
Implicit Types m : mem.

(** [advised] lists the guest pages [madvise(MADV_DONTNEED)] was called on. *)
Record VirtioBalloonDevice := mkBalloon {
  target_pages : Z;
  actual_pages : Z;
  regs : mmio_regs;
  rings : list vring;
  queue_ready : list bool;
  inflateq : queue;
  deflateq : queue;
  statsq : queue;
  last_stats : GuestStats;
  irqfd : Z;
  inflated_gpas : gset Z;
  max_inflated_pages : Z;
  advised : list Z;
}.
#[export] Instance eta_balloon : Eta VirtioBalloonDevice := fun d =>
  mkBalloon (target_pages d) (actual_pages d) (regs d) (rings d) (queue_ready d)
    (inflateq d) (deflateq d) (statsq d) (last_stats d) (irqfd d) (inflated_gpas d)
    (max_inflated_pages d) (advised d).
Implicit Types d : VirtioBalloonDevice.

Definition new (ram_mb : Z) : VirtioBalloonDevice :=
  mkBalloon 0 0 regs_new [vring_new 256; vring_new 256; vring_new 256]
    [false; false; false] (queue_new 256) (queue_new 256) (queue_new 256)
    stats_default 0 ∅
    (if 0 <? ram_mb then ram_mb * 256 else FALLBACK_MAX_INFLATED_PAGES) [].

Definition set_target_mb (mb : Z) d : VirtioBalloonDevice :=
  d <| target_pages := u32 (mb * 256) |>.

(** [interrupt_status |= bits; irqfd.write(1)] *)
Definition raise (bits : Z) d : VirtioBalloonDevice :=
  d <| regs ::= raise_interrupt bits |> <| irqfd ::= Z.succ |>.

Definition raise_config_change d : VirtioBalloonDevice := raise 2 d.

Definition inflated_mb d : Z := actual_pages d / 256.

Definition copy_u32_le (val : Z) (data : list Z) : list Z := copy_prefix (le_bytes 4 val) data.

Definition config_read d (off : Z) (data : list Z) : list Z :=
  if off =? 0x100 then copy_u32_le (target_pages d) data
  else if off =? 0x104 then copy_u32_le (actual_pages d) data
  else fill 0 data.

Definition activate_queue (qi : Z) d : outcome VirtioBalloonDevice :=
  if 3 <=? qi then Done d
  else
    r ← index (rings d) qi;
    let conf := configure_queue (Z.max (queue_num r) 256) (desc_low r) (desc_high r)
                  (avail_low r) (avail_high r) (used_low r) (used_high r) in
    rdy ← index_set (queue_ready d) qi true;
    let d := if qi =? 0 then d <| inflateq ::= conf |>
             else if qi =? 1 then d <| deflateq ::= conf |>
             else d <| statsq ::= conf |> in
    Done (d <| queue_ready := rdy |>).

Definition features_for_sel (sel : Z) : Z :=
  if sel =? 0 then Z.lor VIRTIO_BALLOON_F_MUST_TELL_HOST VIRTIO_BALLOON_F_STATS_VQ
  else if sel =? 1 then 1 else 0.

(** ** Inflate *)

(** [advise_dontneed]: nothing happens on an unmapped address. *)
Definition advise_dontneed m (gpa : Z) (log : list Z) : list Z :=
  match host_addr m gpa with Some _ => gpa :: log | None => log end.

(** The set of donated pages and the calls to [madvise], as the loops of
    [process_inflate] change them. *)
Record inflate_state := mkInflate { is_gpas : gset Z; is_advised : list Z; is_hit_cap : bool }.
#[local] Instance eta_inflate : Eta inflate_state := fun s =>
  mkInflate (is_gpas s) (is_advised s) (is_hit_cap s).

Definition inflate_pfn m (addr : Z) (s : inflate_state) : inflate_state :=
  match read_obj 4 m (u64 addr) with
  | None => s
  | Some pfn =>
      let gpa := pfn * 4096 in
      if decide (gpa ∈ is_gpas s) then s
      else s <| is_gpas ::= fun g => {[gpa]} ∪ g |> <| is_advised ::= advise_dontneed m gpa |>
  end.

(** [while off + 4 <= safe_len { .. off += 4 }]: [n] counts the remaining words. *)
Fixpoint inflate_words (cap : Z) m (addr : Z) (n : nat) (s : inflate_state) : inflate_state :=
  match n with
  | O => s
  | S n =>
      if cap <=? Z.of_nat (size (is_gpas s)) then s <| is_hit_cap := true |>
      else inflate_words cap m (addr + 4) n (inflate_pfn m addr s)
  end.

(** the number of iterations of [while off + 4 <= safe_len] from [off = 0] *)
Definition words_in (len : Z) : nat := Z.to_nat (Z.min len MAX_BYTES_PER_DESC / 4).

Definition inflate_desc (cap : Z) (de : descriptor) (st : Z * inflate_state) m
  : outcome (ctrl * (Z * inflate_state) * mem) :=
  let '(total, s) := st in
  let total := u32 (total + d_len de) in
  let s := inflate_words cap m (d_addr de) (words_in (d_len de)) s in
  Done (if is_hit_cap s then Break else Continue, (total, s), m).

Definition inflate_chain (cap : Z) (c : chain) (st : list (Z * Z) * inflate_state) m
  : outcome (ctrl * (list (Z * Z) * inflate_state) * mem) :=
  let '(used, s) := st in
  '((total, s), m) ← for_desc (inflate_desc cap) c (0, s) m;
  Done (if is_hit_cap s then Break else Continue, (used ++ [(head_index c, total)], s), m).

Definition process_inflate d m : outcome (VirtioBalloonDevice * mem) :=
  ready ← index (queue_ready d) 0;
  if negb ready then Done (d, m)
  else
    match queue_iter (inflateq d) m with
    | None => Done (d, m)
    | Some it =>
        '((it, (used, s)), m) ← for_chain (inflate_chain (max_inflated_pages d)) it
                                ([], mkInflate (inflated_gpas d) (advised d) false) m;
        let d := d <| inflateq := iter_queue it |> <| inflated_gpas := is_gpas s |>
                   <| advised := is_advised s |> in
        match used with
        | [] => Done (d, m)
        | _ =>
            let '(q, m) := add_used_all used (inflateq d) m in
            let d := d <| actual_pages := u32 (Z.of_nat (size (inflated_gpas d))) |>
                       <| inflateq := q |> in
            Done (raise 1 d, m)
        end
    end.

(** ** Deflate *)
Definition deflate_pfn m (addr : Z) (g : gset Z) : gset Z :=
  match read_obj 4 m (u64 addr) with
  | None => g
  | Some pfn => g ∖ {[pfn * 4096]}
  end.

Fixpoint deflate_words m (addr : Z) (n : nat) (g : gset Z) : gset Z :=
  match n with
  | O => g
  | S n => deflate_words m (addr + 4) n (deflate_pfn m addr g)
  end.

Definition deflate_desc (de : descriptor) (st : Z * gset Z) m
  : outcome (ctrl * (Z * gset Z) * mem) :=
  let '(total, g) := st in
  Done (Continue, (u32 (total + d_len de),
                   deflate_words m (d_addr de) (words_in (d_len de)) g), m).

Definition deflate_chain (c : chain) (st : list (Z * Z) * gset Z) m
  : outcome (ctrl * (list (Z * Z) * gset Z) * mem) :=
  let '(used, g) := st in
  '((total, g), m) ← for_desc deflate_desc c (0, g) m;
  Done (Continue, (used ++ [(head_index c, total)], g), m).

Definition process_deflate d m : outcome (VirtioBalloonDevice * mem) :=
  ready ← index (queue_ready d) 1;
  if negb ready then Done (d, m)
  else
    match queue_iter (deflateq d) m with
    | None => Done (d, m)
    | Some it =>
        '((it, (used, g)), m) ← for_chain deflate_chain it ([], inflated_gpas d) m;
        let d := d <| deflateq := iter_queue it |> <| inflated_gpas := g |> in
        match used with
        | [] => Done (d, m)
        | _ =>
            let '(q, m) := add_used_all used (deflateq d) m in
            let d := d <| actual_pages := u32 (Z.of_nat (size g)) |> <| deflateq := q |> in
            Done (raise 1 d, m)
        end
    end.

(** ** Statistics *)
Definition set_stat (tag val : Z) (s : GuestStats) : GuestStats :=
  if tag =? VIRTIO_BALLOON_S_MEMFREE then s <| mem_free_bytes := val |>
  else if tag =? VIRTIO_BALLOON_S_MEMTOT then s <| mem_total_bytes := val |>
  else if tag =? VIRTIO_BALLOON_S_AVAIL then s <| mem_available_bytes := val |>
  else if tag =? VIRTIO_BALLOON_S_CACHES then s <| mem_cached_bytes := val |>
  else if tag =? VIRTIO_BALLOON_S_SWAP_IN then s <| swap_in_bytes := val |>
  else if tag =? VIRTIO_BALLOON_S_SWAP_OUT then s <| swap_out_bytes := val |>
  else if tag =? VIRTIO_BALLOON_S_MAJFLT then s <| major_faults := val |>
  else if tag =? VIRTIO_BALLOON_S_MINFLT then s <| minor_faults := val |>
  else s.

(** [while off + 10 <= safe_len { .. off += 10 }] *)
Fixpoint stats_entries m (addr : Z) (n : nat) (s : GuestStats) : GuestStats :=
  match n with
  | O => s
  | S n =>
      let tag := default 0xFFFF (read_obj 2 m (u64 addr)) in
      let val := default 0 (read_obj 8 m (u64 (addr + 2))) in
      stats_entries m (addr + VIRTIO_BALLOON_STAT_SIZE) n (set_stat tag val s)
  end.

Definition entries_in (len : Z) : nat :=
  Z.to_nat (Z.min len MAX_BYTES_PER_DESC / VIRTIO_BALLOON_STAT_SIZE).

Definition stats_desc (de : descriptor) (st : Z * GuestStats) m
  : outcome (ctrl * (Z * GuestStats) * mem) :=
  let '(total, s) := st in
  Done (Continue, (u32 (total + d_len de),
                   stats_entries m (d_addr de) (entries_in (d_len de)) s), m).

(** Consumes at most one buffer; the flag says whether there was one. *)
Definition process_stats d m : outcome (bool * VirtioBalloonDevice * mem) :=
  ready ← index (queue_ready d) 2;
  if negb ready then Done (false, d, m)
  else
    match queue_iter (statsq d) m with
    | None => Done (false, d, m)
    | Some it =>
        match iter_next it m with
        | None => Done (false, d <| statsq := iter_queue it |>, m)
        | Some (c, it) =>
            '((total, s), m) ← for_desc stats_desc c (0, last_stats d) m;
            let '(_, q, m) := add_used (iter_queue it) m (head_index c) total in
            Done (true, raise 1 (d <| last_stats := s |> <| statsq := q |>), m)
        end
    end.

(** ** Register file (the [BALLOON_MMIO_ADDR] page of [run_vcpu_loop]) *)
Definition mmio_read d (off : Z) (data : list Z) : outcome (list Z) :=
  let qi := queue_sel (regs d) in
  if off =? 0x000 then copy_from_slice virt_magic data
  else if off =? 0x004 then put_u32 2 data
  else if off =? 0x008 then put_u32 BALLOON_DEVICE_ID data
  else if off =? 0x00C then put_u32 nkr_vendor data
  else if off =? 0x010 then put_u32 (features_for_sel (device_features_sel (regs d))) data
  else if off =? 0x034 then
    (qn ← (if qi <? 3 then queue_num <$> index (rings d) qi else Done 256); put_u32 qn data)
  else if off =? 0x044 then
    (rd ← (if qi <? 3 then index (queue_ready d) qi else Done false);
     put_u32 (u32_of_bool rd) data)
  else if off =? 0x060 then put_u32 (interrupt_status (regs d)) data
  else if off =? 0x070 then put_u32 (status (regs d)) data
  else if off =? 0x0FC then put_u32 0 data
  else if (0x100 <=? off) && (off <=? 0x107) then Done (config_read d off data)
  else Done (fill 0 data).

Definition mmio_write d m (off : Z) (data : list Z) : outcome (VirtioBalloonDevice * mem) :=
  let val := mmio_val data in
  let qi := queue_sel (regs d) in
  if off =? 0x014 then Done (d <| regs ::= fun r => r <| device_features_sel := val |> |>, m)
  else if off =? 0x020 then Done (d <| regs ::= write_features_0else val |>, m)
  else if off =? 0x024 then Done (d <| regs ::= fun r => r <| driver_features_sel := val |> |>, m)
  else if off =? 0x030 then Done (d <| regs ::= fun r => r <| queue_sel := val |> |>, m)
  else if off =? 0x038 then
    Done (d <| rings ::= update_ring qi (fun r => r <| queue_num := val |>) |>, m)
  else if off =? 0x044 then
    if val =? 1 then (d ← activate_queue qi d; Done (d, m))
    else if qi <? 3 then
      (rdy ← index_set (queue_ready d) qi false; Done (d <| queue_ready := rdy |>, m))
    else Done (d, m)
  else if off =? 0x050 then
    if val =? 0 then process_inflate d m
    else if val =? 1 then process_deflate d m
    else Done (d, m)
  else if off =? 0x064 then Done (d <| regs ::= ack_interrupt val |>, m)
  else if off =? 0x070 then
    if val =? 0 then
      Done (d <| regs ::= fun r => r <| status := 0 |> |>
              <| queue_ready := [false; false; false] |>, m)
    else Done (d <| regs ::= fun r => r <| status := val |> |>, m)
  else if is_ring_reg off then
    Done (d <| rings ::= update_ring qi (write_ring_reg off val) |>, m)
  else Done (d, m).
End Device.
Arguments VirtioBalloonDevice mem {_}.

(** ** Invariant

    The transport arrays keep their length, the donated set stays within the cap
    and holds page addresses only, and [actual_pages] is its size. *)
Section Invariant.
Context `{GuestMemory mem} `{!VirtQueue mem}.
Implicit Types (m : mem) (d : VirtioBalloonDevice mem).

Definition page_gpa (g : Z) : Prop := exists pfn, is_u32 pfn /\ g = pfn * 4096.

Definition gpas_ok (cap : Z) (g : gset Z) : Prop :=
  Z.of_nat (size g) <= cap /\ set_Forall page_gpa g.

Record wf (cap : Z) d : Prop := {
  wf_cap : max_inflated_pages d = cap;
  wf_rings : length (rings d) = 3%nat;
  wf_ready : length (queue_ready d) = 3%nat;
  wf_gpas : gpas_ok (max_inflated_pages d) (inflated_gpas d);
  wf_actual : actual_pages d = u32 (Z.of_nat (size (inflated_gpas d)));
  wf_sel : 0 <= queue_sel (regs d);
}.

Lemma gpas_ok_difference cap g x : gpas_ok cap g -> gpas_ok cap (g ∖ {[x]}).
Proof.
  intros [Hs Hp]. split.
  - pose proof (subseteq_size (g ∖ {[x]}) g ltac:(set_solver)). lia.
  - intros y Hy. apply Hp. set_solver.
Qed.

(** the bound [new] derives from the RAM of the VM *)
Definition page_cap (ram_mb : Z) : Z :=
  if 0 <? ram_mb then ram_mb * 256 else FALLBACK_MAX_INFLATED_PAGES.

Lemma balloon_wf_new ram_mb : is_u32 ram_mb -> wf (page_cap ram_mb) (new ram_mb).
Proof.
  intros Hr. unfold is_u32 in Hr.
  assert (0 <= max_inflated_pages (new ram_mb : VirtioBalloonDevice mem)).
  { simpl. unfold FALLBACK_MAX_INFLATED_PAGES. case_match eqn:E; lia. }
  split; try done.
Qed.
End Invariant.

Section InvariantPreserved.
Context `{HM : GuestMemoryLaws mem} `{HV : !VirtQueue mem} `{HQ : !VirtQueueLaws mem}.
Implicit Types (m : mem) (d : VirtioBalloonDevice mem).

Lemma pfn_page m a v : read_obj 4 m a = Some v -> page_gpa (v * 4096).
Proof. intros Hv%read_obj_range. exists v. split; [|done]. unfold is_u32. simpl in Hv. lia. Qed.

Lemma inflate_pfn_ok cap m a s :
  Z.of_nat (size (is_gpas s)) < cap -> gpas_ok cap (is_gpas s) ->
  gpas_ok cap (is_gpas (inflate_pfn m a s)).
Proof.
  intros Hlt [Hs Hp]. unfold inflate_pfn. destruct (read_obj 4 m (u64 a)) as [pfn|] eqn:E; [|done].
  case_decide as Hin; [done|]. simpl. split.
  - rewrite size_union, size_singleton by set_solver. lia.
  - apply set_Forall_union; [|done]. intros y ->%elem_of_singleton. by eapply pfn_page.
Qed.

Lemma inflate_words_ok cap m a n s :
  gpas_ok cap (is_gpas s) -> gpas_ok cap (is_gpas (inflate_words cap m a n s)).
Proof.
  revert a s. induction n as [|n IH]; intros a s Hs; simpl; [done|].
  case_match eqn:E; [done|]. apply IH, inflate_pfn_ok; [lia|done].
Qed.

Lemma inflate_chain_ok cap c st m ct st' m' :
  gpas_ok cap (is_gpas (snd st)) -> inflate_chain cap c st m = Done (ct, st', m') ->
  gpas_ok cap (is_gpas (snd st')).
Proof.
  destruct st as [used s]. intros Hs. unfold inflate_chain.
  destruct (for_desc (inflate_desc cap) c (0, s) m) as [[[total s1] m1]|] eqn:E; simpl; [|done].
  intros [= <- <- <-]. simpl.
  apply (for_desc_inv (fun st _ => gpas_ok cap (is_gpas (snd st)))) in E; [done| |done].
  intros de [t s2] m2 ct2 s2' m2' H2. unfold inflate_desc. intros [= <- <- <-]. simpl.
  by apply inflate_words_ok.
Qed.

Lemma deflate_words_ok cap m a n g : gpas_ok cap g -> gpas_ok cap (deflate_words m a n g).
Proof.
  revert a g. induction n as [|n IH]; intros a g Hg; simpl; [done|].
  apply IH. unfold deflate_pfn. case_match; [|done]. by apply gpas_ok_difference.
Qed.

Lemma deflate_chain_ok cap c st m ct st' m' :
  gpas_ok cap (snd st) -> deflate_chain c st m = Done (ct, st', m') -> gpas_ok cap (snd st').
Proof.
  destruct st as [used g]. intros Hg. unfold deflate_chain.
  destruct (for_desc deflate_desc c (0, g) m) as [[[total g1] m1]|] eqn:E; simpl; [|done].
  intros [= <- <- <-]. simpl.
  apply (for_desc_inv (fun st _ => gpas_ok cap (snd st))) in E; [done| |done].
  intros de [t s2] m2 ct2 s2' m2' H2. unfold deflate_desc. intros [= <- <- <-]. simpl.
  by apply deflate_words_ok.
Qed.

Lemma inflate_chain_total cap c st m : panics (inflate_chain cap c st m) = false.
Proof.
  destruct st as [used s]. unfold inflate_chain.
  destruct (for_desc_total (inflate_desc cap) c (0, s) m) as ((t & s') & m' & ->); [|done].
  by intros ? [? ?] ?.
Qed.

Lemma deflate_chain_total c st m : panics (deflate_chain c st m) = false.
Proof.
  destruct st as [used s]. unfold deflate_chain.
  destruct (for_desc_total deflate_desc c (0, s) m) as ((t & s') & m' & ->); [|done].
  by intros ? [? ?] ?.
Qed.

(** every chain that is handled is returned, so with none the set is what it was *)
Lemma inflate_chain_used cap g c st m ct st' m' :
  (fst st = [] -> is_gpas (snd st) = g) -> inflate_chain cap c st m = Done (ct, st', m') ->
  fst st' = [] -> is_gpas (snd st') = g.
Proof.
  destruct st as [used s]. intros _. unfold inflate_chain.
  destruct (for_desc _ _ _ _) as [[[total s1] m1]|]; simpl; [|done]. intros [= <- <- <-]. simpl.
  by destruct used.
Qed.
Lemma deflate_chain_used g c st m ct st' m' :
  (fst st = [] -> snd st = g) -> deflate_chain c st m = Done (ct, st', m') -> fst st' = [] -> snd st' = g.
Proof.
  destruct st as [used s]. intros _. unfold deflate_chain.
  destruct (for_desc _ _ _ _) as [[[total s1] m1]|]; simpl; [|done]. intros [= <- <- <-]. simpl.
  by destruct used.
Qed.

Lemma index_total {A} (xs : list A) i :
  0 <= i < Z.of_nat (length xs) -> exists x, index xs i = Done x.
Proof. intros Hi. destruct (index_in_range xs i Hi) as (x & ? & _). eauto. Qed.

Lemma process_inflate_wf cap d m :
  wf cap d -> exists d' m', process_inflate d m = Done (d', m') /\ wf cap d'.
Proof.
  intros [Hc Hr Hq Hg Ha Hs]. unfold process_inflate.
  destruct (index_total (queue_ready d) 0) as [rdy ->]; [lia|]. simpl.
  destruct rdy; simpl; [|by eauto using Build_wf].
  destruct (queue_iter (inflateq d) m) as [it|]; [|by eauto using Build_wf].
  destruct (for_chain_total (inflate_chain (max_inflated_pages d)) it
    ([], mkInflate (inflated_gpas d) (advised d) false) m) as (it' & [used s] & m' & E).
  { intros. apply inflate_chain_total. }
  rewrite E. simpl.
  assert (Hkept : used = [] -> is_gpas s = inflated_gpas d).
  { refine (for_chain_inv (fun st _ => fst st = [] -> is_gpas (snd st) = inflated_gpas d) _ _ _ _ _ _ _ _ _ E); [|done].
    intros c s1 m1 ct s2 m2. apply inflate_chain_used. }
  apply (for_chain_inv (fun st _ => gpas_ok (max_inflated_pages d) (is_gpas (snd st)))) in E;
    [|by eauto using inflate_chain_ok|done]. simpl in E.
  destruct used as [|u us]; [eexists _, _; split; [done|]; split; try done; simpl; by rewrite Hkept|].
  destruct (add_used_all _ _ m') as [q m2]. eexists _, _. split; [done|]. by split.
Qed.

Lemma process_deflate_wf cap d m :
  wf cap d -> exists d' m', process_deflate d m = Done (d', m') /\ wf cap d'.
Proof.
  intros [Hc Hr Hq Hg Ha Hs]. unfold process_deflate.
  destruct (index_total (queue_ready d) 1) as [rdy ->]; [lia|]. simpl.
  destruct rdy; simpl; [|by eauto using Build_wf].
  destruct (queue_iter (deflateq d) m) as [it|]; [|by eauto using Build_wf].
  destruct (for_chain_total deflate_chain it ([], inflated_gpas d) m)
    as (it' & [used s] & m' & E).
  { intros. apply deflate_chain_total. }
  rewrite E. simpl.
  assert (Hkept : used = [] -> s = inflated_gpas d).
  { refine (for_chain_inv (fun st _ => fst st = [] -> snd st = inflated_gpas d) _ _ _ _ _ _ _ _ _ E); [|done].
    intros c s1 m1 ct s2 m2. apply deflate_chain_used. }
  apply (for_chain_inv (fun st _ => gpas_ok (max_inflated_pages d) (snd st))) in E;
    [|by eauto using deflate_chain_ok|done]. simpl in E.
  destruct used as [|u us]; [eexists _, _; split; [done|]; split; try done; simpl; by rewrite Hkept|].
  destruct (add_used_all _ _ m') as [q m2]. eexists _, _. split; [done|]. by split.
Qed.
End InvariantPreserved.

Section Reachable.
Context `{HM : GuestMemoryLaws mem} `{HV : !VirtQueue mem} `{HQ : !VirtQueueLaws mem}.
Implicit Types (m : mem) (d : VirtioBalloonDevice mem).

Lemma process_stats_wf cap d m :
  wf cap d -> exists b d' m', process_stats d m = Done (b, d', m') /\ wf cap d'.
Proof.
  intros [Hc Hr Hq Hg Ha Hs]. unfold process_stats.
  destruct (index_total (queue_ready d) 2) as [rdy ->]; [lia|]. simpl.
  destruct rdy; simpl; [|by eauto 6 using Build_wf].
  destruct (queue_iter (statsq d) m) as [it|]; [|by eauto 6 using Build_wf].
  destruct (iter_next it m) as [[c it']|];
    [|eexists _, _, _; split; [done|]; by split].
  destruct (for_desc_total stats_desc c (0, last_stats d) m) as ([t s] & m' & ->).
  { by intros ? [? ?] ?. }
  simpl. destruct (add_used _ m' _ _) as [[ok q] m2].
  eexists _, _, _; split; [done|]; by split.
Qed.

Lemma activate_queue_wf cap d qi :
  0 <= qi -> wf cap d -> exists d', activate_queue qi d = Done d' /\ wf cap d'.
Proof.
  intros Hqi [Hc Hr Hq Hg Ha Hs]. unfold activate_queue.
  case_match eqn:E; [by eauto using Build_wf|].
  destruct (index_total (rings d) qi) as [r ->]; [lia|]. simpl.
  rewrite index_set_in_range by lia. simpl.
  repeat case_match; eexists; split; try done; split; try done; simpl; by rewrite length_insert.
Qed.

Lemma balloon_read_length d off data out : mmio_read d off data = Done out -> length out = length data.
Proof. unfold mmio_read, config_read, copy_u32_le. read_length. Qed.

Lemma balloon_read_total cap d off data :
  wf cap d -> length data = 4%nat -> panics (mmio_read d off data) = false.
Proof.
  intros [_ Hr Hq _ _ Hs] Hd. unfold mmio_read. autorewrite with nkr_reg.
  repeat case_match; simplify_eq/=; autorewrite with nkr_reg; try done;
    match goal with |- context [index ?l ?i] =>
      destruct (index_in_range l i) as (x & -> & _); [lia|] end;
    simpl; by autorewrite with nkr_reg.
Qed.

Lemma mmio_write_wf cap d m off data :
  bytes_ok data -> wf cap d -> exists d' m', mmio_write d m off data = Done (d', m') /\ wf cap d'.
Proof.
  intros Hb Hwf. pose proof Hwf as [Hc Hr Hq Hg Ha Hs].
  pose proof (mmio_val_u32 data Hb) as [Hv _]. unfold mmio_write.
  repeat (case_match; [try (eexists _, _; split; [done|]; split; simpl;
    rewrite ?length_update_ring; done)|]).
  all: try (eexists _, _; split; [done|]; split; simpl; rewrite ?length_update_ring; done).
  all: eauto using process_inflate_wf, process_deflate_wf.
  - unfold write_features_0else. eexists _, _; split; [done|]; split; simpl; try done.
    by case_match.
  - destruct (activate_queue_wf cap d (queue_sel (regs d)) Hs Hwf) as (d' & -> & ?). simpl. eauto.
  - rewrite index_set_in_range by lia. simpl.
    eexists _, _; split; [done|]; split; simpl; try done. by rewrite length_insert.
Qed.

(** What can happen to the device: a guest register write, the timer draining the
    statistics queue, a new target from the orchestrator, or the guest (or another
    device) changing the guest memory. *)
Inductive balloon_step : VirtioBalloonDevice mem * mem -> VirtioBalloonDevice mem * mem -> Prop :=
  | step_write d m off data d' m' :
      bytes_ok data -> mmio_write d m off data = Done (d', m') -> balloon_step (d, m) (d', m')
  | step_stats d m b d' m' :
      process_stats d m = Done (b, d', m') -> balloon_step (d, m) (d', m')
  | step_target d m mb :
      is_u32 mb -> balloon_step (d, m) (raise_config_change (set_target_mb mb d), m)
  | step_memory d m m' : balloon_step (d, m) (d, m').

Lemma balloon_step_wf cap s s' : balloon_step s s' -> wf cap (fst s) -> wf cap (fst s').
Proof.
  intros Hstep Hwf. destruct Hstep as [d m off data d' m' Hb E|d m b d' m' E|d m mb Hmb|d m m'];
    simpl in *.
  - destruct (mmio_write_wf cap d m off data Hb Hwf) as (? & ? & E' & ?). congruence.
  - destruct (process_stats_wf cap d m Hwf) as (? & ? & ? & E' & ?). congruence.
  - destruct Hwf. by split.
  - done.
Qed.

Lemma reachable_wf ram_mb m0 s :
  is_u32 ram_mb -> rtc balloon_step (new ram_mb, m0) s -> wf (page_cap ram_mb) (fst s).
Proof.
  intros Hr. assert (Hwf : wf (page_cap ram_mb) (fst (new ram_mb : VirtioBalloonDevice mem, m0)))
    by (by apply balloon_wf_new).
  revert Hwf. generalize (new ram_mb : VirtioBalloonDevice mem, m0). intros x Hwf Hs.
  induction Hs; eauto using balloon_step_wf.
Qed.

(** C34. A hostile guest can neither crash the balloon nor grow its table: in every
    state reachable from power-on by register writes, timer ticks, target changes and
    arbitrary changes of the guest memory, the donated set holds at most
    [page_cap ram_mb] (the RAM of the VM in 4 KB pages) page addresses, [actual_pages] is its
    size (modulo 2^32, the width of the register, which matters from 16 TB of RAM on), the
    configuration space shows that number to the guest, and no further register write,
    whatever its offset and data, panics. *)
Theorem balloon_safe ram_mb m0 d m :
  is_u32 ram_mb ->
  rtc balloon_step (new ram_mb, m0) (d, m) ->
  Z.of_nat (size (inflated_gpas d)) <= page_cap ram_mb
  /\ set_Forall page_gpa (inflated_gpas d)
  /\ actual_pages d = Z.of_nat (size (inflated_gpas d)) mod 2 ^ 32
  /\ (ram_mb < 2 ^ 24 -> actual_pages d = Z.of_nat (size (inflated_gpas d))
      /\ mmio_read d 0x104 [0; 0; 0; 0] = Done (le_bytes 4 (Z.of_nat (size (inflated_gpas d)))))
  /\ (forall off data, bytes_ok data -> panics (mmio_write d m off data) = false)
  /\ panics (process_stats d m) = false.
Proof.
  intros Hr Hs. pose proof (reachable_wf _ _ _ Hr Hs) as Hwf. simpl in Hwf.
  pose proof Hwf as [Hc _ _ [Hsz Hpg] Ha _]. rewrite Hc in *. split_and!; try done.
  - intros Hlt. assert (E : actual_pages d = Z.of_nat (size (inflated_gpas d))).
    { rewrite Ha. apply Z.mod_small. unfold page_cap, FALLBACK_MAX_INFLATED_PAGES in Hsz. case_match; lia. }
    split; [done|]. by rewrite <- E.
  - intros off data Hb. destruct (mmio_write_wf _ d m off data Hb Hwf) as (? & ? & -> & _). done.
  - destruct (process_stats_wf _ d m Hwf) as (? & ? & ? & -> & _). done.
Qed.
End Reachable.

(** ** What inflate and deflate do to the set

    [pages_at m a n] are the page addresses of the [n] PFNs at [a], read the way the
    loops read them (unreadable words are skipped). *)
Section Functional.
Context `{HM : GuestMemoryLaws mem}.
Implicit Types (m : mem) (g : gset Z).

Fixpoint pages_at m (a : Z) (n : nat) : list Z :=
  match n with
  | O => []
  | S n =>
      match read_obj 4 m (u64 a) with
      | Some pfn => pfn * 4096 :: pages_at m (a + 4) n
      | None => pages_at m (a + 4) n
      end
  end.
Notation page_set m a n := (list_to_set (C := gset Z) (pages_at m a n)).

Lemma inflate_pfn_gpas m a s :
  is_gpas (inflate_pfn m a s)
  = is_gpas s ∪ match read_obj 4 m (u64 a) with Some p => {[p * 4096]} | None => ∅ end.
Proof.
  unfold inflate_pfn. case_match; [|set_solver]. case_decide; simpl; set_solver.
Qed.

Lemma inflate_pfn_cap m a s : is_hit_cap (inflate_pfn m a s) = is_hit_cap s.
Proof. unfold inflate_pfn. case_match; [|done]. by case_decide. Qed.

Lemma pages_at_S m a n :
  page_set m a (S n)
  = match read_obj 4 m (u64 a) with Some p => {[p * 4096]} | None => ∅ end ∪ page_set m (a + 4) n.
Proof. simpl. case_match; simpl; set_solver. Qed.

Lemma inflate_words_no_cap cap m a n s :
  is_hit_cap s = false -> is_hit_cap (inflate_words cap m a n s) = false ->
  is_gpas (inflate_words cap m a n s) = is_gpas s ∪ page_set m a n.
Proof.
  revert a s. induction n as [|n IH]; intros a s Hf; [simpl; set_solver|].
  rewrite pages_at_S. simpl. case_match; [done|]. intros Hx1.
  rewrite IH by (rewrite ?inflate_pfn_cap; done). rewrite inflate_pfn_gpas. set_solver.
Qed.

Lemma inflate_words_subset cap m a n s :
  is_gpas s ⊆ is_gpas (inflate_words cap m a n s)
  /\ is_gpas (inflate_words cap m a n s) ⊆ is_gpas s ∪ page_set m a n.
Proof.
  revert a s. induction n as [|n IH]; intros a s; [simpl; set_solver|].
  rewrite pages_at_S. simpl. case_match; [simpl; set_solver|].
  destruct (IH (a + 4) (inflate_pfn m a s)) as [Hx1 Hx2]. rewrite inflate_pfn_gpas in *. set_solver.
Qed.

Lemma inflate_words_hits_cap cap m a n s :
  gpas_ok cap (is_gpas s) -> is_hit_cap s = false ->
  is_hit_cap (inflate_words cap m a n s) = true ->
  Z.of_nat (size (is_gpas (inflate_words cap m a n s))) = cap.
Proof.
  revert a s. induction n as [|n IH]; intros a s Hok Hf; simpl; [congruence|].
  case_match eqn:E; [simpl; destruct Hok; lia|]. intros Hx1.
  apply IH; [|by rewrite inflate_pfn_cap|done]. apply inflate_pfn_ok; [lia|done].
Qed.

Lemma inflate_words_fits cap m a n s :
  Z.of_nat (size (is_gpas s)) + Z.of_nat n <= cap -> is_hit_cap s = false ->
  is_hit_cap (inflate_words cap m a n s) = false.
Proof.
  revert a s. induction n as [|n IH]; intros a s Hn Hf; simpl; [done|].
  case_match eqn:E; [lia|]. apply IH; [|by rewrite inflate_pfn_cap].
  rewrite inflate_pfn_gpas. case_match.
  - pose proof (size_union_alt (is_gpas s) {[z * 4096]}) as Hu. rewrite Hu.
    pose proof (subseteq_size ({[z * 4096]} ∖ is_gpas s) {[z * 4096]} ltac:(set_solver)) as Hs.
    rewrite size_singleton in Hs. lia.
  - rewrite union_empty_r_L. lia.
Qed.

Lemma deflate_words_spec m a n g : deflate_words m a n g = g ∖ page_set m a n.
Proof.
  revert a g. induction n as [|n IH]; intros a g; [simpl; set_solver|].
  rewrite pages_at_S. simpl. rewrite IH. unfold deflate_pfn. case_match; set_solver.
Qed.

(** The inflate loop donates exactly the pages the buffer names, or fills the
    cap: it never loses a page already donated and never adds one that was not named;
    if it stops at the cap the table is exactly full, otherwise every named page is
    in it. *)
Theorem inflate_words_spec cap m a n s :
  gpas_ok cap (is_gpas s) -> is_hit_cap s = false ->
  let s' := inflate_words cap m a n s in
  is_gpas s ⊆ is_gpas s' /\ is_gpas s' ⊆ is_gpas s ∪ page_set m a n
  /\ (if is_hit_cap s' then Z.of_nat (size (is_gpas s')) = cap
      else is_gpas s' = is_gpas s ∪ page_set m a n).
Proof.
  intros Hok Hf s'. destruct (inflate_words_subset cap m a n s) as [Hx1 Hx2].
  split_and!; [done..|]. destruct (is_hit_cap s') eqn:E.
  - by apply inflate_words_hits_cap.
  - by apply inflate_words_no_cap.
Qed.

(** Deflate undoes inflate: when the pages a buffer names are new and fit under
    the cap, donating the buffer and then reclaiming the same buffer gives back the
    set the device started from. *)
Theorem inflate_deflate_roundtrip cap m a n s :
  is_hit_cap s = false ->
  Z.of_nat (size (is_gpas s)) + Z.of_nat n <= cap ->
  is_gpas s ## page_set m a n ->
  deflate_words m a n (is_gpas (inflate_words cap m a n s)) = is_gpas s.
Proof.
  intros Hf Hn Hd. rewrite deflate_words_spec, inflate_words_no_cap; [set_solver|done|].
  by apply inflate_words_fits.
Qed.

(** Every newly donated page that the host maps is released with
    [madvise(MADV_DONTNEED)] exactly once, and no other page is. *)
Theorem inflate_advises_new_pages cap m a n s :
  exists l, is_advised (inflate_words cap m a n s) = l ++ is_advised s
    /\ NoDup l
    /\ forall x, x ∈ l <-> x ∈ is_gpas (inflate_words cap m a n s)
                           /\ x ∉ is_gpas s /\ is_Some (host_addr m x).
Proof.
  revert a s. induction n as [|n IH]; intros a s; simpl.
  { exists []. split_and!; [done|constructor|]. intros x. set_solver. }
  case_match.
  { exists []. split_and!; [done|constructor|]. intros x. simpl. set_solver. }
  destruct (IH (a + 4) (inflate_pfn m a s)) as (l & E & Hnd & Hl).
  destruct (inflate_words_subset cap m (a + 4) n (inflate_pfn m a s)) as [Hsub _].
  rewrite E. remember (inflate_pfn m a s) as s1 eqn:Es. unfold inflate_pfn in Es.
  destruct (read_obj 4 m (u64 a)) as [pfn|]; [|subst s1; eauto].
  case_decide as Hin; [subst s1; eauto|].
  assert (Hg : is_gpas s1 = {[pfn * 4096]} ∪ is_gpas s) by (by subst s1).
  assert (Hadv : is_advised s1 = advise_dontneed m (pfn * 4096) (is_advised s)) by (by subst s1).
  clear Es. rewrite Hadv. unfold advise_dontneed. rewrite Hg in Hl, Hsub.
  destruct (host_addr m (pfn * 4096)) as [p|] eqn:Hp; cycle 1.
  - exists l. split_and!; [done..|]. intros x.
    rewrite Hl, not_elem_of_union, not_elem_of_singleton.
    destruct (decide (x = pfn * 4096)) as [->|]; [|tauto].
    rewrite Hp. split; [tauto|]. intros (_ & _ & [? [=]]).
  - exists (l ++ [pfn * 4096]). split_and!.
    + by rewrite <- app_assoc.
    + apply list.NoDup_app. split_and!; [done| |apply NoDup_singleton].
      intros x (_ & Hx & _)%Hl. rewrite list_elem_of_singleton.
      rewrite not_elem_of_union, not_elem_of_singleton in Hx. tauto.
    + intros x. rewrite elem_of_app, Hl, list_elem_of_singleton, not_elem_of_union,
        not_elem_of_singleton.
      destruct (decide (x = pfn * 4096)) as [->|]; [|tauto].
      assert (pfn * 4096 ∈ {[pfn * 4096]} ∪ is_gpas s)
        by (apply elem_of_union_l; by apply elem_of_singleton).
      split; [|tauto]. intros _. split_and!; [by apply Hsub|done|by eexists].
Qed.
End Functional.

(** A 2 MB guest whose page at 0x1000 holds the PFNs 1, 2 and 2, and whose inflate queue, a ring at
    0x2000, has that page as its only buffer. *)
Module BalloonExample.
Definition memory : RegionMem.t :=
  fold_left (fun m '(n, a, v) => write_obj_ignore n m a v)
    [(4%nat, 0x1000, 1); (4%nat, 0x1004, 2); (4%nat, 0x1008, 2); (8%nat, 0x2000, 0x1000); (4%nat, 0x2008, 12); (2%nat, 0x4002, 1)]
    (RegionMem.zeroed 0x200000).
Definition start : inflate_state := mkInflate ∅ [] false.

(** the driver's writes: the addresses of the rings, ready, and a notification *)
Definition writes : list (Z * Z) :=
  [(0x80, 0x2000); (0x90, 0x4000); (0xA0, 0x6000); (0x44, 1); (0x50, 0)].
#[local] Instance ring : VirtQueue RegionMem.t | 0 := RingQueue.virt_queue.
#[local] Instance ring_laws : VirtQueueLaws RegionMem.t | 0 := RingQueue.ring_laws.
Definition state : Type := VirtioBalloonDevice RegionMem.t * RegionMem.t.
Definition write (s : state) (w : Z * Z) : state :=
  match mmio_write (fst s) (snd s) w.1 (le_bytes 4 w.2) with Done s' => s' | Panic _ => s end.
Definition driven : state := fold_left write writes (new 2, memory).

Lemma write_steps (s : state) ws : rtc balloon_step s (fold_left write ws s).
Proof.
  revert s. induction ws as [|w ws IH]; intros [d m]; [apply rtc_refl|]. cbn [fold_left].
  eapply transitivity; [|apply IH]. unfold write. cbn [fst snd].
  destruct (mmio_write d m w.1 (le_bytes 4 w.2)) as [[d' m']|] eqn:E; [|apply rtc_refl].
  apply rtc_once. eapply step_write; [|exact E]. apply le_bytes_ok.
Qed.

Example donated : elements (inflated_gpas driven.1) = [8192; 4096] /\ actual_pages driven.1 = 2 /\ interrupt_status (regs driven.1) = 1.
Proof. vm_compute. repeat split. Qed.

Lemma balloon_safe_witness :
  actual_pages driven.1 = 2 /\ Z.of_nat (size (inflated_gpas driven.1)) <= 512
  /\ mmio_read driven.1 0x104 [0; 0; 0; 0] = Done (le_bytes 4 (Z.of_nat (size (inflated_gpas driven.1))))
  /\ panics (mmio_write driven.1 driven.2 0x50 [0; 0; 0; 0]) = false.
Proof.
  assert (Hr : is_u32 2) by (unfold is_u32; lia).
  assert (Hb : bytes_ok [0; 0; 0; 0]) by (repeat constructor; unfold is_byte; lia).
  assert (Hs : rtc balloon_step (new 2, memory) (driven.1, driven.2)) by (rewrite <- surjective_pairing; apply write_steps).
  assert (H2 : actual_pages driven.1 = 2) by (vm_compute; reflexivity).
  destruct (balloon_safe 2 memory driven.1 driven.2 Hr Hs) as (H1 & _ & _ & H3 & H4 & _).
  split; [exact H2|]. split; [exact H1|]. split; [apply H3; lia|]. exact (H4 0x50 [0; 0; 0; 0] Hb).
Defined.
End BalloonExample.

Lemma inflate_words_spec_witness :
  gpas_ok 512 (is_gpas BalloonExample.start)
  /\ is_gpas (inflate_words 512 BalloonExample.memory 0x1000 3 BalloonExample.start)
     = ∅ ∪ list_to_set [4096; 8192; 8192].
Proof.
  assert (Hok : gpas_ok 512 (is_gpas BalloonExample.start)).
  { split; [vm_compute; congruence|]. apply set_Forall_empty. }
  split; [exact Hok|].
  exact (proj2 (proj2 (inflate_words_spec 512 BalloonExample.memory 0x1000 3
                         BalloonExample.start Hok eq_refl))).
Defined.

Lemma inflate_deflate_roundtrip_witness :
  deflate_words BalloonExample.memory 0x1000 3
    (is_gpas (inflate_words 512 BalloonExample.memory 0x1000 3 BalloonExample.start)) = ∅.
Proof.
  apply (inflate_deflate_roundtrip 512 BalloonExample.memory 0x1000 3 BalloonExample.start).
  - reflexivity.
  - vm_compute. congruence.
  - apply disjoint_empty_l.
Defined.

Lemma inflate_advises_new_pages_witness :
  exists l, is_advised (inflate_words 512 BalloonExample.memory 0x1000 3 BalloonExample.start) = l ++ []
    /\ NoDup l /\ 4096 ∈ l /\ 8192 ∈ l.
Proof.
  destruct (inflate_advises_new_pages 512 BalloonExample.memory 0x1000 3 BalloonExample.start)
    as (l & E & Hnd & Hl).
  exists l. split; [exact E|]. split; [exact Hnd|].
  split; apply Hl.
  - split; [|split; [apply not_elem_of_empty|by eexists]].
    apply (bool_decide_eq_true_1 _). vm_compute. reflexivity.
  - split; [|split; [apply not_elem_of_empty|by eexists]].
    apply (bool_decide_eq_true_1 _). vm_compute. reflexivity.
Defined.
