(* ===== verification/Uring.v ===== *)
(** * io_uring

    The block and the net device queue file transfers on a ring of the [io-uring]
    crate, an interface here: [IoUring] has the calls the source makes and
    [IoUringLaws] that the ring answers every entry it accepted exactly once.
    [ListUring] is a concrete ring for the witnesses. *)
From S2P Require Import Prelude.

(** ** io_uring *)
Inductive opcode := OpRead | OpWrite.
#[export] Instance opcode_eq_dec : EqDecision opcode.
Proof. solve_decision. Defined.

(** A submission: the transfer between the file at [e_offset] and the host memory at
    [e_buf]. *)
Record sqe := mkSqe { e_op : opcode; e_buf : Z; e_len : Z; e_offset : Z; e_user_data : Z }.

(** [uring_completions] syncs and drains the completion queue: the user data and the
    result of each entry. *)
Class IoUring := {
  uring : Type;
  uring_is_full : uring -> bool;
  uring_push : uring -> sqe -> option uring;
  uring_submit : uring -> uring;
  uring_completions : uring -> list (Z * Z) * uring;
}.

(** [uring_inflight] are the user data of the entries the ring has accepted and not
    answered yet. *)
Class IoUringLaws `{IoUring} := {
  uring_inflight : uring -> list Z;
  push_inflight r e r' :
    uring_push r e = Some r' -> uring_inflight r' ≡ₚ e_user_data e :: uring_inflight r;
  submit_inflight r : uring_inflight (uring_submit r) ≡ₚ uring_inflight r;
  completions_inflight r cqes r' :
    uring_completions r = (cqes, r') -> uring_inflight r ≡ₚ cqes.*1 ++ uring_inflight r';
}.

(** A ring for the witnesses: pushed entries wait in [lu_sq], submitted ones have
    been carried out in full and wait in [lu_done] for the completion queue to be
    drained. *)
Module ListUring.
Record t := mk { lu_cap : nat; lu_sq : list sqe; lu_done : list sqe }.
#[global] Instance io_uring : IoUring := {
  uring := t;
  uring_is_full r := bool_decide (lu_cap r <= length (lu_sq r))%nat;
  uring_push r e :=
    if decide (lu_cap r <= length (lu_sq r))%nat then None
    else Some (mk (lu_cap r) (lu_sq r ++ [e]) (lu_done r));
  uring_submit r := mk (lu_cap r) [] (lu_done r ++ lu_sq r);
  uring_completions r :=
    (map (fun e => (e_user_data e, e_len e)) (lu_done r), mk (lu_cap r) (lu_sq r) []);
}.

#[global] Instance laws : IoUringLaws.
Proof.
  refine {| uring_inflight r := map e_user_data (lu_done r ++ lu_sq r) |}; simpl.
  - intros r e r'. case_decide; [done|]. intros [= <-]. simpl.
    rewrite !map_app. simpl. rewrite app_assoc, Permutation_app_comm. done.
  - intros r. by rewrite app_nil_r.
  - intros r cqes r' [= <- <-]. simpl. rewrite map_app, <- list_fmap_compose. done.
Defined.
End ListUring.
