(* ===== verification/Block.v ===== *)
(** * VirtIO-Block (src/block.rs)

    Requests are submitted to an io_uring when the host has one, and served
    synchronously otherwise.  [io-uring] is a crate, hence an interface
    ([IoUring]); the disk is a host file, modelled by its bytes and the largest size
    the file system allows. *)
From S2P Require Import Prelude GuestMem VirtQueue Virtio Uring.

(** ** The backing file ([std::fs::File]) *)
Record file := mkFile { f_len : Z; f_byte : Z -> Z; f_limit : Z }.

(** [seek(Start(off)).unwrap()]: the offset must fit an [i64]. *)
Definition seek_ok (off : Z) : bool := off <? 2 ^ 63.

(** [read] at [off]: the bytes before the end of the file *)
Definition file_read (f : file) (off : Z) (n : Z) : list Z :=
  map (fun i => u8 (f_byte f (off + Z.of_nat i)))
    (seq 0 (Z.to_nat (Z.min n (f_len f - off)))).

(** [write_all] at [off]: [None] when the file would pass the size limit *)
Definition file_write (f : file) (off : Z) (bs : list Z) : option file :=
  let e := off + Z.of_nat (length bs) in
  if decide (bs = []) then Some f
  else if f_limit f <? e then None
  else Some (mkFile (Z.max (f_len f) e)
               (RegionMem.store (fun x => if x <? f_len f then f_byte f x else 0) off bs)
               (f_limit f)).

Lemma file_read_write f off bs f' :
  bytes_ok bs -> file_write f off bs = Some f' ->
  bs <> [] -> file_read f' off (Z.of_nat (length bs)) = bs.
Proof.
  intros Hb Hw Hne. unfold file_write in Hw. rewrite decide_False in Hw by done.
  case_match; [done|]. injection Hw as <-. unfold file_read. simpl.
  replace (Z.to_nat (Z.min _ _)) with (length bs) by lia.
  apply (RegionMem.read_store_in (RegionMem.mk [] _) off bs Hb).
Qed.

Section Device.
Context `{GuestMemory mem} `{!VirtQueue mem} `{!IoUring}.
Implicit Types m : mem.

Record VirtioBlockDevice := mkBlock {
  disk : file;
  vq : queue;
  irqfd : Z;
  regs : mmio_regs;
  ring_regs : vring;
  queue_ready : bool;
  capacity_sectors : Z;
  ring : option uring;
  pending : gmap Z (Z * Z * Z);
  next_ud : Z;
}.
#[export] Instance eta_block : Eta VirtioBlockDevice := fun d =>
  mkBlock (disk d) (vq d) (irqfd d) (regs d) (ring_regs d) (queue_ready d)
    (capacity_sectors d) (ring d) (pending d) (next_ud d).
Implicit Types d : VirtioBlockDevice.

(** [ring] is [None] when the host kernel has no io_uring. *)
Definition new (f : file) (r : option uring) : VirtioBlockDevice :=
  mkBlock f (queue_new 256) 0 regs_new (vring_new 0) false (f_len f / 512) r ∅ 0.

Definition activate_queue d : VirtioBlockDevice :=
  let r := ring_regs d in
  d <| vq ::= configure_queue (queue_num r) (desc_low r) (desc_high r) (avail_low r)
                (avail_high r) (used_low r) (used_high r) |>
    <| queue_ready := true |>.

(** [next_ud] and the ring survive a reset. *)
Definition reset d : VirtioBlockDevice :=
  d <| regs := regs_new |> <| ring_regs := vring_new 0 |> <| queue_ready := false |>
    <| vq := queue_new 256 |> <| pending := ∅ |>.

Definition raise d : VirtioBlockDevice :=
  d <| regs ::= raise_interrupt 1 |> <| irqfd ::= Z.succ |>.

(** ** Asynchronous requests *)
Definition PENDING_CAP : Z := 1024.

Record submit_state := mkSubmit {
  ss_pending : gmap Z (Z * Z * Z);
  ss_next_ud : Z;
  ss_ring : uring;
  ss_submitted : Z;
}.

(** The three descriptors of a request and its header; [None] is one of the
    [continue]s that skip the chain. *)
Definition parse_request (c : chain) m : option (Z * Z * descriptor * descriptor) :=
  '(head, c) ← chain_next c m;
  header ← mem_read m (d_addr head) 16;
  '(data, c) ← chain_next c m;
  '(status, _) ← chain_next c m;
  Some (le_val (take 4 header), le_val (take 8 (drop 8 header)), data, status).

(** [PENDING_CAP] is tested after [iter.next()] has popped the chain. *)
Definition submit_chain (c : chain) (s : submit_state) m
  : outcome (ctrl * submit_state * mem) :=
  if PENDING_CAP <=? Z.of_nat (size (ss_pending s)) then Done (Break, s, m)
  else
    match parse_request c m with
    | None => Done (Continue, s, m)
    | Some (request_type, sector, data, status) =>
        let offset := u64 (sector * 512) in
        match host_addr m (d_addr data) with
        | None => Done (Continue, s, m)
        | Some host_ptr =>
            let ud := ss_next_ud s in
            let pend := <[ud := (head_index c, d_len data, d_addr status)]> (ss_pending s) in
            let entry := mkSqe (if request_type =? 0 then OpRead else OpWrite)
                           host_ptr (d_len data) offset ud in
            let r := if uring_is_full (ss_ring s) then uring_submit (ss_ring s) else ss_ring s in
            match uring_push r entry with
            | None => Done (Continue, mkSubmit (delete ud pend) (u64 (ud + 1)) r (ss_submitted s), m)
            | Some r => Done (Continue, mkSubmit pend (u64 (ud + 1)) r (ss_submitted s + 1), m)
            end
        end
    end.

Definition process_queue_async d (r : uring) m : outcome (VirtioBlockDevice * mem) :=
  match queue_iter (vq d) m with
  | None => Done (d, m)
  | Some it =>
      '((it, s), m) ← for_chain submit_chain it (mkSubmit (pending d) (next_ud d) r 0) m;
      let r := if 0 <? ss_submitted s then uring_submit (ss_ring s) else ss_ring s in
      Done (d <| vq := iter_queue it |> <| ring := Some r |> <| pending := ss_pending s |>
              <| next_ud := ss_next_ud s |>, m)
  end.

(** ** Synchronous fallback: every failure is an [unwrap] or an [expect]. *)
Definition unwrap {A} (o : option A) : outcome A :=
  match o with Some a => Done a | None => Panic UnwrapOnError end.
Definition unwrap_write (r : bool * mem) : outcome mem :=
  if fst r then Done (snd r) else Panic UnwrapOnError.

Definition serve_sync (f : file) (request_type sector : Z) (data status : descriptor) m
  : outcome (Z * file * mem) :=
  let offset := u64 (sector * 512) in
  if request_type =? 0 then
    (_ ← (if seek_ok offset then Done tt else Panic UnwrapOnError);
     let got := file_read f offset (d_len data) in
     let buffer := got ++ replicate (Z.to_nat (d_len data) - length got) 0 in
     m ← unwrap_write (mem_write m (d_addr data) buffer);
     m ← unwrap_write (write_obj 1 m (d_addr status) 0);
     Done (u32 (d_len data + 1), f, m))
  else if request_type =? 1 then
    (buffer ← unwrap (mem_read m (d_addr data) (Z.to_nat (d_len data)));
     _ ← (if seek_ok offset then Done tt else Panic UnwrapOnError);
     f ← unwrap (file_write f offset buffer);
     m ← unwrap_write (write_obj 1 m (d_addr status) 0);
     Done (1, f, m))
  else
    (m ← unwrap_write (write_obj 1 m (d_addr status) 0);
     Done (1, f, m)).

Definition sync_chain (c : chain) (st : list (Z * Z) * file) m
  : outcome (ctrl * (list (Z * Z) * file) * mem) :=
  let '(used, f) := st in
  '(request_type, sector, data, status) ← unwrap (parse_request c m);
  '(len, f, m) ← serve_sync f request_type sector data status m;
  Done (Continue, (used ++ [(head_index c, len)], f), m).

Definition process_queue_sync d m : outcome (VirtioBlockDevice * mem) :=
  match queue_iter (vq d) m with
  | None => Done (d, m)
  | Some it =>
      '((it, (used, f)), m) ← for_chain sync_chain it ([], disk d) m;
      let d := d <| vq := iter_queue it |> <| disk := f |> in
      match used with
      | [] => Done (d, m)
      | _ =>
          '(q, m) ← add_used_unwrap used (vq d) m;
          Done (raise (d <| vq := q |>), m)
      end
  end.

Definition process_queue d m : outcome (VirtioBlockDevice * mem) :=
  if negb (queue_ready d) then Done (d, m)
  else
    match ring d with
    | None => process_queue_sync d m
    | Some r => process_queue_async d r m
    end.

(** ** Completions: the result of the transfer is not looked at. *)
Fixpoint complete_all (cqes : list (Z * Z)) (pend : gmap Z (Z * Z * Z)) (q : queue) m
  (fired : bool) : gmap Z (Z * Z * Z) * queue * mem * bool :=
  match cqes with
  | [] => (pend, q, m, fired)
  | (ud, _) :: cqes =>
      match pend !! ud with
      | None => complete_all cqes pend q m fired
      | Some (head_idx, data_len, status_addr) =>
          let m := write_obj_ignore 1 m status_addr 0 in
          let '(_, q, m) := add_used q m head_idx (u32 (data_len + 1)) in
          complete_all cqes (delete ud pend) q m true
      end
  end.

Definition poll_completions d m : VirtioBlockDevice * mem :=
  match ring d with
  | None => (d, m)
  | Some r =>
      let '(cqes, r) := uring_completions r in
      let '(pend, q, m, fired) := complete_all cqes (pending d) (vq d) m false in
      let d := d <| ring := Some r |> <| pending := pend |> <| vq := q |> in
      (if fired : bool then raise d else d, m)
  end.

(** ** Register file (the block pages of [run_vcpu_loop]) *)
Definition mmio_read d (off : Z) (data : list Z) : outcome (list Z) :=
  if off =? 0x000 then copy_from_slice virt_magic data
  else if off =? 0x004 then put_u32 2 data
  else if off =? 0x008 then put_u32 2 data
  else if off =? 0x00C then put_u32 nkr_vendor data
  else if off =? 0x010 then
    put_u32 (if device_features_sel (regs d) =? 0 then 0
             else if device_features_sel (regs d) =? 1 then 1 else 0) data
  else if off =? 0x034 then put_u32 256 data
  else if off =? 0x044 then put_u32 (u32_of_bool (queue_ready d)) data
  else if off =? 0x060 then put_u32 (interrupt_status (regs d)) data
  else if off =? 0x070 then put_u32 (status (regs d)) data
  else if off =? 0x0FC then put_u32 0 data
  else if off =? 0x100 then put_u32 (u32 (Z.land (capacity_sectors d) 0xFFFFFFFF)) data
  else if off =? 0x104 then put_u32 (u32 (Z.shiftr (capacity_sectors d) 32)) data
  else Done (fill 0 data).

Definition mmio_write d m (off : Z) (data : list Z) : outcome (VirtioBlockDevice * mem) :=
  let val := mmio_val data in
  if off =? 0x014 then Done (d <| regs ::= fun r => r <| device_features_sel := val |> |>, m)
  else if off =? 0x020 then Done (d <| regs ::= write_features_01 val |>, m)
  else if off =? 0x024 then Done (d <| regs ::= fun r => r <| driver_features_sel := val |> |>, m)
  else if off =? 0x030 then Done (d <| regs ::= fun r => r <| queue_sel := val |> |>, m)
  else if off =? 0x038 then Done (d <| ring_regs ::= fun r => r <| queue_num := val |> |>, m)
  else if off =? 0x044 then
    if val =? 1 then Done (activate_queue d, m)
    else Done (d <| queue_ready := false |> <| vq ::= set_ready false |>, m)
  else if off =? 0x050 then process_queue d m
  else if off =? 0x064 then Done (d <| regs ::= ack_interrupt val |>, m)
  else if off =? 0x070 then
    if val =? 0 then Done (reset d, m)
    else Done (d <| regs ::= fun r => r <| status := val |> |>, m)
  else if is_ring_reg off then Done (d <| ring_regs ::= write_ring_reg off val |>, m)
  else Done (d, m).
End Device.
Arguments VirtioBlockDevice mem {_ _}.

(** ** Facts about the asynchronous path *)
Section Async.
Context `{HM : GuestMemoryLaws mem} `{HV : !VirtQueue mem} `{HQ : !VirtQueueLaws mem} `{!IoUring}.
Implicit Types (m : mem) (d : VirtioBlockDevice mem).

(** [submit_chain] reads guest memory only and adds at most one pending request,
    keyed by the next user data. *)
Lemma submit_chain_step c s m ct s' m' :
  submit_chain c s m = Done (ct, s', m') ->
  m' = m
  /\ (s' = s
      \/ (ss_next_ud s' = u64 (ss_next_ud s + 1)
          /\ Z.of_nat (size (ss_pending s)) < PENDING_CAP
          /\ (ss_pending s' = delete (ss_next_ud s) (ss_pending s)
              \/ exists v, ss_pending s' = <[ss_next_ud s := v]> (ss_pending s)))).
Proof.
  unfold submit_chain. case_match eqn:E; [intros [= <- <- <-]; auto|].
  destruct (parse_request c m) as [[[[ty sec] da] st]|]; [|intros [= <- <- <-]; auto].
  destruct (host_addr m (d_addr da)) as [hp|]; [|intros [= <- <- <-]; auto].
  case_match; intros [= <- <- <-]; (split; [done|]); right; simpl;
    (split_and!; [done|lia|]).
  - right. eauto.
  - left. apply delete_insert_eq.
Qed.

Lemma submit_chain_total c s m : panics (submit_chain c s m) = false.
Proof. unfold submit_chain. repeat case_match; done. Qed.

Lemma submit_chain_cap c s m ct s' m' :
  Z.of_nat (size (ss_pending s)) <= PENDING_CAP ->
  submit_chain c s m = Done (ct, s', m') -> Z.of_nat (size (ss_pending s')) <= PENDING_CAP.
Proof.
  intros Hs E. apply submit_chain_step in E as [_ [->|(_ & Hlt & [->|[v ->]])]]; [done|..].
  - rewrite map_size_delete. destruct (ss_pending s !! ss_next_ud s); unfold id; lia.
  - rewrite map_size_insert. destruct (ss_pending s !! ss_next_ud s); unfold id; lia.
Qed.

Lemma process_queue_async_total d r m :
  Z.of_nat (size (pending d)) <= PENDING_CAP ->
  exists d', process_queue_async d r m = Done (d', m)
             /\ Z.of_nat (size (pending d')) <= PENDING_CAP
             /\ disk d' = disk d.
Proof.
  intros Hp. unfold process_queue_async.
  destruct (queue_iter (vq d) m) as [it|]; [|eauto].
  destruct (for_chain_total submit_chain it (mkSubmit (pending d) (next_ud d) r 0) m)
    as (it' & s & m' & E). { intros. apply submit_chain_total. }
  rewrite E. simpl.
  apply (for_chain_inv
    (fun s m' => m' = m /\ Z.of_nat (size (ss_pending s)) <= PENDING_CAP)) in E as [-> Hc].
  - eexists. split; [done|]. done.
  - intros c s1 m1 ct s2 m2 [-> Hs] E'. split.
    + by apply submit_chain_step in E' as [-> _].
    + by eapply submit_chain_cap.
  - done.
Qed.

(** C35. Asynchronous submission is safe for the host: whatever chains the guest puts
    in the ring, [process_queue] does not panic, leaves guest memory and the disk file
    alone (only io_uring entries are produced), and never tracks more than
    [PENDING_CAP] requests. *)
Theorem async_submission_safe d r m :
  ring d = Some r ->
  Z.of_nat (size (pending d)) <= PENDING_CAP ->
  exists d', process_queue d m = Done (d', m)
             /\ Z.of_nat (size (pending d')) <= PENDING_CAP
             /\ disk d' = disk d.
Proof.
  intros Hr Hp. unfold process_queue. rewrite Hr.
  destruct (queue_ready d); simpl; [by apply process_queue_async_total|eauto].
Qed.

(** The device has a ring and a bounded table: what keeps it off the panicking
    synchronous path. *)
Definition async_ok d : Prop := is_Some (ring d) /\ Z.of_nat (size (pending d)) <= PENDING_CAP.

Lemma process_queue_async_ok d m :
  async_ok d -> exists d' m', process_queue d m = Done (d', m') /\ async_ok d'.
Proof.
  intros [[r Hr] Hp]. unfold process_queue. rewrite Hr.
  destruct (queue_ready d); simpl; [|eexists _, _; split; [done|split; [by eexists|done]]].
  pose proof (process_queue_async_total d r m Hp) as (d' & E & Hc & _).
  exists d', m. split; [done|]. split; [|done]. revert E. unfold process_queue_async.
  destruct (queue_iter (vq d) m) as [it|]; [|intros [= <-]; by eexists].
  destruct (for_chain _ _ _ _) as [[[it' s] m']|]; simpl; [|done]. intros [= <- _]. by eexists.
Qed.

(** A device on either path, with a bounded table; without a ring [process_queue] runs the
    synchronous fallback, which may panic. *)
Definition block_ok d : Prop := Z.of_nat (size (pending d)) <= PENDING_CAP.
Definition sync_panics d m : Prop := ring d = None /\ queue_ready d = true /\ panics (process_queue_sync d m) = true.

Lemma process_queue_cases d m : block_ok d ->
  (panics (process_queue d m) = true <-> sync_panics d m)
  /\ (forall d' m', process_queue d m = Done (d', m') -> block_ok d').
Proof.
  intros Hp. unfold process_queue, sync_panics. destruct (queue_ready d); simpl; [|split; [split; [done|by intros (_ & ? & _)]|by intros ? ? [= <- <-]]].
  destruct (ring d) as [r|] eqn:Hr.
  - pose proof (process_queue_async_total d r m Hp) as (d1 & E & Hc & _). rewrite E. split; [split; [done|by intros (? & _)]|].
    by intros d' m' [= <- <-].
  - split; [split; [done|by intros (_ & _ & ?)]|]. intros d' m'. unfold process_queue_sync, block_ok in *.
    destruct (queue_iter (vq d) m) as [it|]; [|by intros [= <- <-]].
    destruct (for_chain _ _ _ _) as [[[it' [used f]] m1]|]; simpl; [|done].
    destruct used; [by intros [= <- <-]|]. destruct (add_used_unwrap _ _ _) as [[q m2]|]; simpl; [|done]. by intros [= <- <-].
Qed.

Lemma block_write_cases d m off data : block_ok d ->
  (panics (mmio_write d m off data) = true <-> off = 0x050 /\ sync_panics d m)
  /\ (forall d' m', mmio_write d m off data = Done (d', m') -> block_ok d').
Proof.
  intros Hok. unfold mmio_write. assert (Hreset : block_ok (reset d)) by (vm_compute; congruence).
  destruct (Z.eqb_spec off 0x050) as [->|Hne].
  - simpl. destruct (process_queue_cases d m Hok) as [<- Hk]. split; [|exact Hk]. split; [done|by intros [_ ?]].
  - repeat (case_match; [try solve [split; [split; [done|by intros [? _]]|by intros ? ? [= <- <-]]]|]).
    all: try solve [split; [split; [done|by intros [? _]]|by intros ? ? [= <- <-]]].
    all: case_match; (split; [split; [done|by intros [? _]]|intros ? ? [= <- <-]; done]).
Qed.

Lemma block_read_length d off data out : mmio_read d off data = Done out -> length out = length data.
Proof. unfold mmio_read. read_length. Qed.

Lemma block_read_total d off data : length data = 4%nat -> panics (mmio_read d off data) = false.
Proof.
  intros Hd. unfold mmio_read. autorewrite with nkr_reg. repeat (case_match; [done|]). done.
Qed.

(** Every tracked request was submitted when the counter had reached [n]. *)
Definition submitted_from (n : Z) d : Prop :=
  n <= next_ud d /\ forall ud, ud ∈ dom (pending d) -> n <= ud.

Lemma submit_chain_from n c s m ct s' m' :
  submit_chain c s m = Done (ct, s', m') -> ss_next_ud s + 1 < 2 ^ 64 -> 0 <= n ->
  n <= ss_next_ud s -> (forall ud, ud ∈ dom (ss_pending s) -> n <= ud) ->
  n <= ss_next_ud s' <= ss_next_ud s + 1 /\ (forall ud, ud ∈ dom (ss_pending s') -> n <= ud).
Proof.
  intros [_ E]%submit_chain_step Hw Hn Hle Hd. destruct E as [->|(E1 & _ & E2)].
  { split; [lia|done]. }
  rewrite E1, u64_small by (unfold is_u64; lia). split; [lia|]. intros ud.
  destruct E2 as [->|[v ->]].
  - rewrite dom_delete_L, elem_of_difference. intros [? _]. auto.
  - rewrite dom_insert_L, elem_of_union, elem_of_singleton. intros [->|?]; [lia|auto].
Qed.

Lemma chain_loop_from n f it s m it' s' m' :
  ss_next_ud s + Z.of_nat f < 2 ^ 64 -> 0 <= n -> n <= ss_next_ud s ->
  (forall ud, ud ∈ dom (ss_pending s) -> n <= ud) ->
  chain_loop f submit_chain it s m = Done (it', s', m') ->
  n <= ss_next_ud s' /\ (forall ud, ud ∈ dom (ss_pending s') -> n <= ud).
Proof.
  revert it s m. induction f as [|f IH]; intros it s m Hw Hn Hle Hd; simpl.
  - intros [= <- <- <-]; auto.
  - destruct (iter_next it m) as [[c it1]|]; [|intros [= <- <- <-]; auto].
    destruct (submit_chain c s m) as [[[ct s1] m1]|] eqn:Es; [|done].
    eapply submit_chain_from in Es as [[H1 H2] H3]; [|lia|exact Hn|exact Hle|exact Hd].
    destruct ct; [|intros [= <- <- <-]; auto]. intros E. eapply IH in E; eauto. lia.
Qed.

Definition ids_left d m : Prop :=
  forall it, queue_iter (vq d) m = Some it -> next_ud d + Z.of_nat (iter_left it) < 2 ^ 64.

Lemma process_queue_from n d m d' m' :
  ids_left d m -> 0 <= n -> submitted_from n d ->
  process_queue d m = Done (d', m') -> submitted_from n d'.
Proof.
  intros Hw Hn [Hle Hd]. unfold process_queue. destruct (queue_ready d); simpl;
    [|intros [= <- <-]; by split].
  destruct (ring d) as [r|].
  - unfold process_queue_async. destruct (queue_iter (vq d) m) as [it|] eqn:Ei;
      [|intros [= <- <-]; by split].
    specialize (Hw it Ei). destruct (for_chain _ _ _ _) as [[[it' s] m1]|] eqn:E; simpl; [|done].
    intros [= <- <-]. eapply chain_loop_from in E; simpl; [exact E|simpl; lia|done..].
  - unfold process_queue_sync. destruct (queue_iter (vq d) m) as [it|];
      [|intros [= <- <-]; by split].
    destruct (for_chain _ _ _ _) as [[[it' [used f]] m1]|]; simpl; [|done].
    destruct used; [intros [= <- <-]; by split|].
    destruct (add_used_unwrap _ _ _) as [[q m2]|]; simpl; [|done]. intros [= <- <-]; by split.
Qed.

Lemma mmio_write_from n d m off data d' m' :
  ids_left d m -> 0 <= n -> submitted_from n d ->
  mmio_write d m off data = Done (d', m') -> submitted_from n d'.
Proof.
  intros Hw Hn Hs. unfold mmio_write.
  repeat (case_match; [try (intros [= <- <-]; first [exact Hs|split; [exact (proj1 Hs)|simpl; set_solver]])|]).
  all: try (intros [= <- <-]; first [exact Hs|split; [exact (proj1 Hs)|simpl; set_solver]]).
  by apply process_queue_from.
Qed.

Lemma complete_all_unknown cqes pend q m fired :
  (forall c, c ∈ cqes -> pend !! fst c = None) ->
  complete_all cqes pend q m fired = (pend, q, m, fired).
Proof.
  induction cqes as [|[ud res] cqes IH]; intros Hc; simpl; [done|].
  pose proof (Hc (ud, res) ltac:(set_solver)) as Hu. simpl in Hu. rewrite Hu. apply IH. set_solver.
Qed.

Lemma complete_all_pending cqes pend q m fired pend' q' m' fired' :
  complete_all cqes pend q m fired = (pend', q', m', fired') ->
  (forall ud, pend' !! ud = if decide (ud ∈ cqes.*1) then None else pend !! ud)
  /\ (fired' = true <-> fired = true \/ exists ud, ud ∈ cqes.*1 /\ is_Some (pend !! ud)).
Proof.
  revert pend q m fired. induction cqes as [|[ud res] cqes IH]; intros pend q m fired; simpl.
  - intros [= <- <- <- <-]. split; [done|]. split; [auto|]. intros [?|(? & ?%elem_of_nil & _)]; done.
  - destruct (pend !! ud) as [[[hi dl] sa]|] eqn:Eu.
    + destruct (add_used q _ hi _) as [[ok q1] m1]. intros E. apply IH in E as [Hp Hf]. split.
      * intros ud'. rewrite Hp. rewrite lookup_delete. repeat case_decide; set_solver.
      * rewrite Hf. split; [|intros _; auto]. intros _. right. exists ud. rewrite Eu.
        split; [set_solver|by eexists].
    + intros E. apply IH in E as [Hp Hf]. split.
      * intros ud'. rewrite Hp. repeat case_decide; set_solver.
      * rewrite Hf. split; (intros [?|(x & Hx & Hs)]; [auto|right]).
        -- exists x. set_solver.
        -- exists x. split; [|done]. apply elem_of_cons in Hx as [->|]; [|done].
           rewrite Eu in Hs. by destruct Hs.
Qed.

Lemma complete_all_size cqes pend q m fired pend' q' m' fired' :
  complete_all cqes pend q m fired = (pend', q', m', fired') -> (size pend' <= size pend)%nat.
Proof.
  revert pend q m fired. induction cqes as [|[ud res] cqes IH]; intros pend q m fired; simpl;
    [by intros [= <- <- <- <-]|].
  destruct (pend !! ud) as [[[hi dl] sa]|] eqn:Eu; [|apply IH].
  destruct (add_used q _ hi _) as [[ok q1] m1]. intros E. apply IH in E.
  rewrite map_size_delete, Eu in E. simpl in E. lia.
Qed.

Lemma poll_completions_ok d m : async_ok d -> async_ok (fst (poll_completions d m)).
Proof.
  intros [[r Hr] Hp]. unfold poll_completions. rewrite Hr.
  destruct (uring_completions r) as [cqes r'].
  destruct (complete_all cqes (pending d) (vq d) m false) as [[[p q] m'] f] eqn:E.
  apply complete_all_size in E. destruct f; (split; [by eexists|simpl; lia]).
Qed.

(** Draining the completion ring retires exactly the requests it reports: after
    [poll_completions] a request is pending iff it was and no completion named it, and
    the guest is interrupted iff at least one pending request completed. *)
Theorem poll_completions_spec d r m cqes r' d' m' :
  ring d = Some r -> uring_completions r = (cqes, r') ->
  poll_completions d m = (d', m') ->
  (forall ud, pending d' !! ud = if decide (ud ∈ cqes.*1) then None else pending d !! ud)
  /\ (irqfd d' = irqfd d + 1 <-> exists ud, ud ∈ cqes.*1 /\ is_Some (pending d !! ud))
  /\ (irqfd d' = irqfd d \/ irqfd d' = irqfd d + 1).
Proof.
  intros Hr Hc. unfold poll_completions. rewrite Hr, Hc.
  destruct (complete_all cqes (pending d) (vq d) m false) as [[[p q] m1] fired] eqn:E.
  apply complete_all_pending in E as [Hp Hf]. intros [= <- <-].
  destruct fired; simpl; (split_and!; [done| |lia]).
  - split; [|lia]. intros _. destruct Hf as [Hf _]. by destruct (Hf eq_refl).
  - split; [lia|]. intros Hx. destruct Hf as [_ Hf]. by discriminate Hf; auto.
Qed.

Lemma poll_completions_from n d m d' m' :
  submitted_from n d -> poll_completions d m = (d', m') -> submitted_from n d'.
Proof.
  intros [Hle Hd]. unfold poll_completions. destruct (ring d) as [r|]; [|intros [= <- <-]; by split].
  destruct (uring_completions r) as [cqes r'].
  destruct (complete_all cqes (pending d) (vq d) m false) as [[[p q] m1] fired] eqn:E.
  apply complete_all_pending in E as [Hp _]. intros [= <- <-].
  assert (G : forall ud, ud ∈ dom p -> n <= ud).
  { intros ud [v Hv]%elem_of_dom. rewrite Hp in Hv. case_decide; [done|].
    apply Hd, elem_of_dom. by eexists. }
  destruct fired; split; done.
Qed.

(** The life of the device between two looks: register writes of the guest, the
    completion poll of the vCPU loop, and changes of the guest memory.  [ids_left]
    says that the 64-bit request counter does not wrap. *)
Inductive io_step : VirtioBlockDevice mem * mem -> VirtioBlockDevice mem * mem -> Prop :=
  | io_write d m off data d' m' :
      ids_left d m -> mmio_write d m off data = Done (d', m') -> io_step (d, m) (d', m')
  | io_poll d m d' m' : poll_completions d m = (d', m') -> io_step (d, m) (d', m')
  | io_memory d m m' : io_step (d, m) (d, m').

Lemma io_steps_from n s s' :
  0 <= n -> rtc io_step s s' -> submitted_from n (fst s) -> submitted_from n (fst s').
Proof.
  intros Hn. induction 1 as [|s1 s2 s3 Hstep _ IH]; [done|]. intros Hs. apply IH.
  destruct Hstep; simpl in *; eauto using mmio_write_from, poll_completions_from.
Qed.

(** A device reset cannot be confused by I/O that was still in flight: whatever
    the guest does after the reset (new requests included), a completion of a request
    submitted before it is ignored: it retires nothing, writes nothing to guest memory
    and publishes nothing in the used ring. *)
Theorem stale_completions_ignored d m0 d' m' cqes :
  0 <= next_ud d ->
  rtc io_step (reset d, m0) (d', m') ->
  (forall c, c ∈ cqes -> fst c < next_ud d) ->
  complete_all cqes (pending d') (vq d') m' false = (pending d', vq d', m', false).
Proof.
  intros Hn Hs Hc. apply complete_all_unknown. intros c Hin. apply not_elem_of_dom. intros Hd.
  apply (io_steps_from (next_ud d)) in Hs as [_ Hs]; [|done|].
  - specialize (Hs _ Hd). specialize (Hc c Hin). lia.
  - split; [done|]. simpl. set_solver.
Qed.

(** When the pending table is full the chain at the head of the available ring is
    consumed without being served: [process_queue] pops it, tracks nothing for it,
    submits nothing and puts nothing in the used ring. *)
Theorem full_pending_drops_chain d r m it c it' :
  queue_ready d = true -> ring d = Some r ->
  PENDING_CAP <= Z.of_nat (size (pending d)) ->
  queue_iter (vq d) m = Some it -> iter_next it m = Some (c, it') ->
  process_queue d m = Done (d <| vq := iter_queue it' |>, m).
Proof.
  intros Hq Hr Hp Hi Hn. unfold process_queue, process_queue_async.
  rewrite Hq, Hr, Hi, for_chain_eq, Hn. unfold submit_chain. simpl.
  rewrite (proj2 (Z.leb_le _ _) Hp). simpl. destruct d; simpl in *. by subst.
Qed.
End Async.

(** ** The synchronous path *)
Section Sync.
Context `{HM : GuestMemoryLaws mem}.
Implicit Types (m : mem) (f : file).

Lemma serve_sync_unwrap (r : bool * mem) m' : unwrap_write r = Done m' -> r = (true, m').
Proof. destruct r as [[] ?]; [|done]. by intros [= ->]. Qed.

Lemma write_obj1_frame m a v m' b k :
  unwrap_write (write_obj 1 m a v) = Done m' -> disjoint_ranges a 1 b k ->
  mem_read m' b k = mem_read m b k.
Proof. intros E%serve_sync_unwrap Hd. eapply write_frame; [exact E|done]. Qed.

Lemma disjoint_sym a n b k : disjoint_ranges a n b k -> disjoint_ranges b k a n.
Proof. unfold disjoint_ranges. lia. Qed.

(** the buffer of a read request: the file contents, zero padded to the length *)
Definition read_buffer f (off len : Z) : list Z :=
  file_read f off len ++ replicate (Z.to_nat len - length (file_read f off len)) 0.

Lemma length_read_buffer f off len : length (read_buffer f off len) = Z.to_nat len.
Proof.
  unfold read_buffer, file_read. rewrite length_app, length_replicate, length_map, length_seq. lia.
Qed.

Lemma read_buffer_ok f off len : bytes_ok (read_buffer f off len).
Proof.
  apply Forall_app. split.
  - apply Forall_fmap, Forall_true. intros i. simpl. words.
  - apply Forall_replicate. words.
Qed.

Lemma serve_sync_read f sector data status m n f' m' :
  serve_sync f 0 sector data status m = Done (n, f', m') ->
  disjoint_ranges (d_addr data) (Z.to_nat (d_len data)) (d_addr status) 1 ->
  f' = f /\ n = u32 (d_len data + 1)
  /\ mem_read m' (d_addr data) (Z.to_nat (d_len data))
     = Some (read_buffer f (u64 (sector * 512)) (d_len data))
  /\ mem_read m' (d_addr status) 1 = Some [0].
Proof.
  intros E Hd. unfold serve_sync in E. simpl in E. case_match; [|done]. simpl in E.
  fold (read_buffer f (u64 (sector * 512)) (d_len data)) in E.
  destruct (unwrap_write (mem_write _ _ _)) as [m1|] eqn:E1; simpl in E; [|done].
  destruct (unwrap_write (write_obj _ _ _ _)) as [m2|] eqn:E2; simpl in E; [|done].
  injection E as <- <- <-. split_and!; [done..| |].
  - rewrite (write_obj1_frame _ _ _ _ _ _ E2) by (by apply disjoint_sym).
    apply serve_sync_unwrap in E1. eapply write_then_read in E1; [|apply read_buffer_ok].
    by rewrite length_read_buffer in E1.
  - apply serve_sync_unwrap in E2.
    eapply (write_then_read m1 _ (le_bytes 1 0)); [apply le_bytes_ok|exact E2].
Qed.

Lemma serve_sync_write f sector data status m n f' m' :
  serve_sync f 1 sector data status m = Done (n, f', m') ->
  n = 1 /\ exists bs, mem_read m (d_addr data) (Z.to_nat (d_len data)) = Some bs
                /\ file_write f (u64 (sector * 512)) bs = Some f'.
Proof.
  intros E. unfold serve_sync in E. simpl in E.
  destruct (mem_read m (d_addr data) (Z.to_nat (d_len data))) as [bs|] eqn:Er; simpl in E; [|done].
  case_match; [|done]. simpl in E.
  destruct (file_write f _ bs) as [f1|] eqn:Ef; simpl in E; [|done].
  destruct (unwrap_write _) as [m1|]; simpl in E; [|done].
  injection E as <- <- <-. eauto.
Qed.

(** The disk keeps what was written: after a synchronous write request, a read
    request of the same length at the same sector stores in the guest buffer exactly
    the bytes the write took from guest memory, with status OK. *)
Theorem sync_write_read f f' f'' sector data1 status1 data2 status2 m1 m1' m2 m2' n1 n2 :
  0 < d_len data1 -> d_len data2 = d_len data1 ->
  serve_sync f 1 sector data1 status1 m1 = Done (n1, f', m1') ->
  serve_sync f' 0 sector data2 status2 m2 = Done (n2, f'', m2') ->
  disjoint_ranges (d_addr data2) (Z.to_nat (d_len data2)) (d_addr status2) 1 ->
  exists bs, mem_read m1 (d_addr data1) (Z.to_nat (d_len data1)) = Some bs
    /\ mem_read m2' (d_addr data2) (Z.to_nat (d_len data1)) = Some bs
    /\ mem_read m2' (d_addr status2) 1 = Some [0] /\ f'' = f'.
Proof.
  intros Hl Hlen (_ & bs & Hbs & Hw)%serve_sync_write Hr Hd.
  apply serve_sync_read in Hr as (-> & _ & Hr & Hs); [|done].
  exists bs. split_and!; [done| |done..].
  rewrite Hlen in Hr. rewrite Hr. f_equal.
  destruct (read_shape _ _ _ _ Hbs) as [Hlb Hok].
  assert (Hne : bs <> []) by (intros ->; simpl in Hlb; lia).
  pose proof (file_read_write _ _ _ _ Hok Hw Hne) as Hfr.
  assert (Z.of_nat (length bs) = d_len data1) as Hz by lia. rewrite Hz in Hfr.
  unfold read_buffer. rewrite Hfr.
  replace (Z.to_nat (d_len data1) - length bs)%nat with 0%nat by lia. apply app_nil_r.
Qed.
End Sync.

Section Opcodes.
Context `{GuestMemory mem} `{!VirtQueue mem} `{!IoUring}.
Implicit Types (m : mem).

(** The two backends disagree on requests that are neither reads nor writes
    (flush, get-id, discard, ...): the synchronous path never changes the disk for
    them, the io_uring path submits the data buffer as a write at the sector the
    request names. *)
Theorem unknown_request_written_async c s m ty sector data status host_ptr :
  parse_request c m = Some (ty, sector, data, status) ->
  ty <> 0 -> ty <> 1 ->
  host_addr m (d_addr data) = Some host_ptr ->
  Z.of_nat (size (ss_pending s)) < PENDING_CAP ->
  uring_is_full (ss_ring s) = false ->
  (forall f n f' m', serve_sync f ty sector data status m = Done (n, f', m') -> f' = f)
  /\ (forall r', uring_push (ss_ring s)
        (mkSqe OpWrite host_ptr (d_len data) (u64 (sector * 512)) (ss_next_ud s)) = Some r' ->
      exists s', submit_chain c s m = Done (Continue, s', m)
                 /\ ss_ring s' = r' /\ ss_submitted s' = ss_submitted s + 1).
Proof.
  intros Hp Hty0 Hty1 Hh Hs Hf. split.
  - intros f n f' m'. unfold serve_sync.
    rewrite (proj2 (Z.eqb_neq _ _) Hty0), (proj2 (Z.eqb_neq _ _) Hty1).
    destruct (unwrap_write _); simpl; [|done]. intros E. by simplify_eq.
  - intros r' Hr. unfold submit_chain. rewrite Hp, Hh, Hf.
    rewrite (proj2 (Z.leb_gt _ _) Hs), (proj2 (Z.eqb_neq _ _) Hty0), Hr. eauto.
Qed.
End Opcodes.

(** A 4 KB guest with one request whose header (type 8, VIRTIO_BLK_T_GET_ID, sector 0)
    is at 0x100, and a 1 KB disk of ones. *)
Module BlockExample.
Definition header_addr : Z := 0x100.
Definition memory (ty : Z) : RegionMem.t :=
  write_obj_ignore 4 (RegionMem.zeroed 0x1000) header_addr ty.
Definition data : descriptor := mkDesc 0x200 4 true.
Definition status : descriptor := mkDesc 0x300 1 true.
Definition request : @chain RegionMem.t ListQueue.virt_queue := (7, [mkDesc header_addr 16 false; data; status]).
Definition disk : file := mkFile 1024 (fun _ => 1) 1048576.
Definition uring0 : ListUring.t := ListUring.mk 128 [] [mkSqe OpRead 0x200 4 0 0].
Definition dev : VirtioBlockDevice RegionMem.t :=
  new disk (Some uring0) <| queue_ready := true |> <| vq := ListQueue.ready_with [request] |>.
Definition submit0 : submit_state := mkSubmit ∅ 0 uring0 0.
End BlockExample.

Lemma async_submission_safe_witness :
  exists d', process_queue BlockExample.dev (BlockExample.memory 1)
               = Done (d', BlockExample.memory 1)
             /\ Z.of_nat (size (pending d')) <= PENDING_CAP
             /\ disk d' = BlockExample.disk.
Proof.
  apply (async_submission_safe BlockExample.dev BlockExample.uring0 (BlockExample.memory 1)).
  - reflexivity.
  - vm_compute. congruence.
Defined.

Lemma stale_completions_ignored_witness :
  let d := BlockExample.dev <| next_ud := 5 |> in
  match mmio_write (reset d) (BlockExample.memory 0) 0x044 (le_bytes 4 1) with
  | Done (d', m') =>
      queue_ready d' = true
      /\ complete_all [(4, 512)] (pending d') (vq d') m' false = (pending d', vq d', m', false)
  | Panic _ => False
  end.
Proof.
  intros d. split; [reflexivity|].
  apply (stale_completions_ignored d (BlockExample.memory 0)).
  - vm_compute. congruence.
  - eapply rtc_l; [|apply rtc_refl].
    apply (io_write (reset d) (BlockExample.memory 0) 0x044 (le_bytes 4 1)).
    + intros it. discriminate.
    + reflexivity.
  - intros c Hc. apply list_elem_of_singleton in Hc. subst c. reflexivity.
Defined.

Lemma poll_completions_spec_witness :
  let d' := fst (poll_completions BlockExample.dev (BlockExample.memory 0)) in
  pending d' !! 0 = None /\ pending d' !! 7 = pending BlockExample.dev !! 7.
Proof.
  destruct (poll_completions_spec BlockExample.dev BlockExample.uring0 (BlockExample.memory 0)
    [(0, 4)] (ListUring.mk 128 [] [])
    (fst (poll_completions BlockExample.dev (BlockExample.memory 0)))
    (snd (poll_completions BlockExample.dev (BlockExample.memory 0)))) as [E _].
  - reflexivity.
  - reflexivity.
  - apply surjective_pairing.
  - split; [exact (E 0)|exact (E 7)].
Defined.

(** [PENDING_CAP] requests in flight *)
Definition full_pending : gmap Z (Z * Z * Z) :=
  list_to_map (map (fun i => (Z.of_nat i, (0, 0, 0))) (seq 0 1024)).

Lemma full_pending_drops_chain_witness :
  let d := BlockExample.dev <| pending := full_pending |> in
  process_queue d (BlockExample.memory 0)
  = Done (d <| vq := ListQueue.ready_with [] |>, BlockExample.memory 0).
Proof.
  apply (full_pending_drops_chain (BlockExample.dev <| pending := full_pending |>)
    BlockExample.uring0 (BlockExample.memory 0) (ListQueue.ready_with [BlockExample.request])
    BlockExample.request (ListQueue.ready_with [])).
  - reflexivity.
  - reflexivity.
  - vm_compute. congruence.
  - reflexivity.
  - reflexivity.
Defined.

Lemma sync_write_read_witness :
  let m1 := write_obj_ignore 4 (BlockExample.memory 1) 0x200 0xDEADBEEF in
  match serve_sync BlockExample.disk 1 1 BlockExample.data BlockExample.status m1 with
  | Done (_, f', _) =>
      match serve_sync f' 0 1 BlockExample.data BlockExample.status (BlockExample.memory 0) with
      | Done (_, _, m2') =>
          exists bs, mem_read m1 0x200 4 = Some bs /\ mem_read m2' 0x200 4 = Some bs
      | Panic _ => False
      end
  | Panic _ => False
  end.
Proof.
  intros m1. destruct (serve_sync _ 1 1 _ _ m1) as [[[n1 f'] m1']|] eqn:E1.
  2: { vm_compute in E1. discriminate. }
  destruct (serve_sync f' 0 1 _ _ _) as [[[n2 f''] m2']|] eqn:E2.
  - destruct (sync_write_read BlockExample.disk f' f'' 1 BlockExample.data BlockExample.status
      BlockExample.data BlockExample.status m1 m1' (BlockExample.memory 0) m2' n1 n2)
      as (bs & H1 & H2 & _ & _).
    + reflexivity.
    + reflexivity.
    + exact E1.
    + exact E2.
    + left. vm_compute. congruence.
    + exists bs. split; [exact H1|exact H2].
  - injection E1 as _ <- _. vm_compute in E2. discriminate.
Defined.

Lemma unknown_request_written_async_witness :
  exists s', submit_chain BlockExample.request BlockExample.submit0 (BlockExample.memory 8)
             = Done (Continue, s', BlockExample.memory 8)
             /\ ss_ring s' = ListUring.mk 128 [mkSqe OpWrite 0x200 4 0 0] [mkSqe OpRead 0x200 4 0 0].
Proof.
  destruct (unknown_request_written_async BlockExample.request BlockExample.submit0
    (BlockExample.memory 8) 8 0 BlockExample.data BlockExample.status 0x200) as [_ Hw].
  - vm_compute. reflexivity.
  - congruence.
  - congruence.
  - reflexivity.
  - vm_compute. reflexivity.
  - reflexivity.
  - destruct (Hw _ eq_refl) as (s' & H1 & H2 & _). exists s'. split; [exact H1|exact H2].
Defined.
