(* ===== verification/Net.v ===== *)
(** * VirtIO-Net (src/net.rs)

    Transmission runs on the vCPU thread ([process_tx], on a queue notification);
    reception on a thread of its own that polls the TAP device.  The mutex around
    [NetState] makes the delivery of a frame atomic, so an execution is a sequence of
    register accesses and deliveries.  The fields of [NetState] and those of the
    device are one record here. *)
From S2P Require Import Prelude GuestMem VirtQueue Virtio Uring.

Section Device.
Context `{GuestMemory mem} `{!VirtQueue mem} `{!IoUring}.
(** the address of the heap buffer that holds the packet with a given key *)
Context (heap_ptr : Z -> Z).
Implicit Types m : mem.

(** [tap] is [None] without a TAP device, otherwise the frames passed to its
    [write_all]. *)
Record VirtioNetDevice := mkNet {
  tap : option (list (list Z));
  queue_rx : queue;
  queue_tx : queue;
  queue_ready : list bool;
  irqfd : Z;
  regs : mmio_regs;
  rings : list vring;
  mac : list Z;
  tx_ring : option uring;
  tx_pending : gmap Z (list Z);
  tx_next_ud : Z;
}.
#[export] Instance eta_net : Eta VirtioNetDevice := fun d =>
  mkNet (tap d) (queue_rx d) (queue_tx d) (queue_ready d) (irqfd d) (regs d) (rings d)
    (mac d) (tx_ring d) (tx_pending d) (tx_next_ud d).
Implicit Types d : VirtioNetDevice.

Definition new (mac : list Z) (tap_open : bool) (r : option uring) : VirtioNetDevice :=
  mkNet (if tap_open then Some [] else None) (queue_new 256) (queue_new 256) [false; false] 0
    regs_new [vring_new 0; vring_new 0] mac r ∅ 0.

Definition raise d : VirtioNetDevice :=
  d <| regs ::= raise_interrupt 1 |> <| irqfd ::= Z.succ |>.

Definition activate_queue d : outcome VirtioNetDevice :=
  let sel := queue_sel (regs d) in
  if 1 <? sel then Done d
  else
    r ← index (rings d) sel;
    let conf := configure_queue (queue_num r) (desc_low r) (desc_high r) (avail_low r)
                  (avail_high r) (used_low r) (used_high r) in
    rdy ← index_set (queue_ready d) sel true;
    let d := if sel =? 0 then d <| queue_rx ::= conf |> else d <| queue_tx ::= conf |> in
    Done (d <| queue_ready := rdy |>).

(** The TX ring and the packets it refers to survive a reset. *)
Definition reset d : VirtioNetDevice :=
  d <| regs := regs_new |> <| queue_ready := [false; false] |> <| queue_rx := queue_new 256 |>
    <| rings := [vring_new 0; vring_new 0] |> <| queue_tx := queue_new 256 |>.

(** ** Transmission *)
Record tx_state := mkTx {
  ts_used : list (Z * Z);
  ts_tap : option (list (list Z));
  ts_ring : option uring;
  ts_pending : gmap Z (list Z);
  ts_next_ud : Z;
}.

Definition tx_desc (de : descriptor) (st : list Z * Z) m : outcome (ctrl * (list Z * Z) * mem) :=
  let '(packet, total) := st in
  Done (Continue, (packet ++ read_ignore m (d_addr de) (Z.to_nat (d_len de)),
                   u32 (total + d_len de)), m).

(** Queue the payload on the ring, or write it when there is no ring or it is full. *)
Definition tx_send (payload : list Z) (s : tx_state) : tx_state :=
  match ts_tap s with
  | None => s
  | Some log =>
      match ts_ring s with
      | None => mkTx (ts_used s) (Some (log ++ [payload])) None (ts_pending s) (ts_next_ud s)
      | Some r =>
          let ud := ts_next_ud s in
          let entry := mkSqe OpWrite (heap_ptr ud) (u32 (Z.of_nat (length payload))) 0 ud in
          let pend := <[ud := payload]> (ts_pending s) in
          match uring_push r entry with
          | None => mkTx (ts_used s) (Some (log ++ [payload])) (Some r) (delete ud pend) (u64 (ud + 1))
          | Some r' => mkTx (ts_used s) (Some log) (Some r') pend (u64 (ud + 1))
          end
      end
  end.

(** The first 12 bytes are the virtio-net header. *)
Definition tx_chain (c : chain) (s : tx_state) m : outcome (ctrl * tx_state * mem) :=
  '((packet, total), m) ← for_desc tx_desc c ([], 0) m;
  let s := if 12 <? Z.of_nat (length packet) then tx_send (drop 12 packet) s else s in
  Done (Continue, mkTx (ts_used s ++ [(head_index c, total)]) (ts_tap s) (ts_ring s)
                    (ts_pending s) (ts_next_ud s), m).

(** [submit], then release the buffers of the completed writes *)
Definition tx_drain (r : uring) (pend : gmap Z (list Z)) : uring * gmap Z (list Z) :=
  let '(cqes, r) := uring_completions (uring_submit r) in
  (r, fold_left (fun p cqe => delete (fst cqe) p) cqes pend).

Definition process_tx d m : outcome (VirtioNetDevice * mem) :=
  ready ← index (queue_ready d) 1;
  if negb ready then Done (d, m)
  else
    match queue_iter (queue_tx d) m with
    | None => Done (d, m)
    | Some it =>
        '((it, s), m) ← for_chain tx_chain it
                          (mkTx [] (tap d) (tx_ring d) (tx_pending d) (tx_next_ud d)) m;
        let '(r, pend) := match ts_ring s with
                          | None => (None, ts_pending s)
                          | Some r => let '(r, pend) := tx_drain r (ts_pending s) in (Some r, pend)
                          end in
        let d := d <| queue_tx := iter_queue it |> <| tap := ts_tap s |> <| tx_ring := r |>
                   <| tx_pending := pend |> <| tx_next_ud := ts_next_ud s |> in
        match ts_used s with
        | [] => Done (d, m)
        | used =>
            let '(q, m) := add_used_all used (queue_tx d) m in
            Done (raise (d <| queue_tx := q |>), m)
        end
    end.

(** ** Reception *)
Definition rx_desc (packet : list Z) (de : descriptor) (offset : nat) m
  : outcome (ctrl * nat * mem) :=
  let to_write := Nat.min (length packet - offset) (Z.to_nat (d_len de)) in
  let m := if (0 <? to_write)%nat
           then write_ignore m (d_addr de) (take to_write (drop offset packet)) else m in
  let offset := (offset + to_write)%nat in
  Done (if (length packet <=? offset)%nat then Break else Continue, offset, m).

(** One frame: a zero header and the frame go to the next available chain. *)
Definition rx_deliver d m (frame : list Z) : outcome (VirtioNetDevice * mem) :=
  ready ← index (queue_ready d) 0;
  if negb ready then Done (d, m)
  else
    let packet := replicate 12 0 ++ frame in
    match queue_iter (queue_rx d) m with
    | None => Done (d, m)
    | Some it =>
        match iter_next it m with
        | None => Done (d <| queue_rx := iter_queue it |>, m)
        | Some (c, it) =>
            '(offset, m) ← for_desc (rx_desc packet) c 0%nat m;
            let '(_, q, m) := add_used (iter_queue it) m (head_index c) (u32 (Z.of_nat offset)) in
            Done (raise (d <| queue_rx := q |>), m)
        end
    end.

(** What one turn of the RX thread observes: the result of [poll] and, when the
    TAP is readable, of [read]. *)
Inductive rx_event :=
  | PollError
  | PollTimeout (shutdown_requested : bool)
  | PollHangup
  | TapRead (got : option (list Z)).

Definition rx_turn (ev : rx_event) d m : outcome (ctrl * VirtioNetDevice * mem) :=
  match ev with
  | PollError => Done (Break, d, m)
  | PollTimeout sd => Done (if sd then Break else Continue, d, m)
  | PollHangup => Done (Break, d, m)
  | TapRead (Some (b :: frame)) =>
      '(d, m) ← rx_deliver d m (b :: frame); Done (Continue, d, m)
  | TapRead _ => Done (Break, d, m)
  end.

(** ** Register file (the first page of the MMIO window in [run_vcpu_loop]) *)
Definition mmio_read d (off : Z) (data : list Z) : outcome (list Z) :=
  let sel := queue_sel (regs d) in
  if off =? 0x000 then copy_from_slice virt_magic data
  else if off =? 0x004 then put_u32 2 data
  else if off =? 0x008 then put_u32 1 data
  else if off =? 0x00C then put_u32 nkr_vendor data
  else if off =? 0x010 then
    put_u32 (if device_features_sel (regs d) =? 0 then Z.lor (Z.shiftl 1 5) (Z.shiftl 1 16)
             else if device_features_sel (regs d) =? 1 then 1 else 0) data
  else if off =? 0x034 then put_u32 256 data
  else if off =? 0x044 then
    (rd ← (if sel <? 2 then index (queue_ready d) sel else Done false);
     put_u32 (u32_of_bool rd) data)
  else if off =? 0x060 then put_u32 (interrupt_status (regs d)) data
  else if off =? 0x070 then put_u32 (status (regs d)) data
  else if off =? 0x0FC then put_u32 0 data
  else if (0x100 <=? off) && (off <=? 0x105) then
    Done (imap (fun i _ => nth (Z.to_nat (off - 0x100) + i) (mac d) 0) data)
  else if off =? 0x106 then Done (imap (fun i _ => if (i =? 0)%nat then 1 else 0) data)
  else Done (fill 0 data).

Definition mmio_write d m (off : Z) (data : list Z) : outcome (VirtioNetDevice * mem) :=
  let val := mmio_val data in
  let sel := queue_sel (regs d) in
  if off =? 0x014 then Done (d <| regs ::= fun r => r <| device_features_sel := val |> |>, m)
  else if off =? 0x020 then Done (d <| regs ::= write_features_01 val |>, m)
  else if off =? 0x024 then Done (d <| regs ::= fun r => r <| driver_features_sel := val |> |>, m)
  else if off =? 0x030 then Done (d <| regs ::= fun r => r <| queue_sel := val |> |>, m)
  else if off =? 0x038 then
    Done (d <| rings ::= update_ring sel (fun r => r <| queue_num := val |>) |>, m)
  else if off =? 0x044 then
    if val =? 1 then (d ← activate_queue d; Done (d, m))
    else
      rdy ← index_set (queue_ready d) sel false;
      let d := d <| queue_ready := rdy |> in
      Done (if sel =? 0 then d <| queue_rx ::= set_ready false |>
            else d <| queue_tx ::= set_ready false |>, m)
  else if off =? 0x050 then if val =? 1 then process_tx d m else Done (d, m)
  else if off =? 0x064 then Done (d <| regs ::= ack_interrupt val |>, m)
  else if off =? 0x070 then
    if val =? 0 then Done (reset d, m)
    else Done (d <| regs ::= fun r => r <| status := val |> |>, m)
  else if is_ring_reg off then
    Done (d <| rings ::= update_ring sel (write_ring_reg off val) |>, m)
  else Done (d, m).
End Device.
Arguments VirtioNetDevice mem {_ _}.

(** ** Registers *)
Definition wf `{VirtQueue mem} `{!IoUring} (d : VirtioNetDevice mem) : Prop :=
  length (rings d) = 2%nat /\ length (queue_ready d) = 2%nat /\ 0 <= queue_sel (regs d).

(** What is sent for a chain: the bytes of its descriptors, one after the other. *)
Definition packet_of `{GuestMemory mem} `{!VirtQueue mem} (m : mem) (c : chain) : list Z :=
  mbind (fun de => read_ignore m (d_addr de) (Z.to_nat (d_len de))) (descs_of c m).
(** the length reported in the used ring *)
Definition total_of `{GuestMemory mem} `{!VirtQueue mem} (m : mem) (c : chain) : Z :=
  fold_left (fun t de => u32 (t + d_len de)) (descs_of c m) 0.
(** the frame of a chain: nothing unless something follows the header *)
Definition frame_of `{GuestMemory mem} `{!VirtQueue mem} (m : mem) (c : chain) : option (list Z) :=
  let p := packet_of m c in if 12 <? Z.of_nat (length p) then Some (drop 12 p) else None.

Section TxFacts.
Context `{GuestMemory mem} `{!VirtQueue mem} `{!IoUring}.
Context (heap_ptr : Z -> Z).
Implicit Types (m : mem) (d : VirtioNetDevice mem) (s : tx_state).

(** [tx_chain] as a function on the transmission state *)
Definition tx_step m (c : chain) s : tx_state :=
  let s := match frame_of m c with Some f => tx_send heap_ptr f s | None => s end in
  mkTx (ts_used s ++ [(head_index c, total_of m c)]) (ts_tap s) (ts_ring s) (ts_pending s)
    (ts_next_ud s).

Lemma tx_descs_fold m ds p t :
  fold_left (fun (st : list Z * Z) de =>
    (fst st ++ read_ignore m (d_addr de) (Z.to_nat (d_len de)), u32 (snd st + d_len de))) ds (p, t)
  = (p ++ mbind (fun de => read_ignore m (d_addr de) (Z.to_nat (d_len de))) ds,
     fold_left (fun t de => u32 (t + d_len de)) ds t).
Proof.
  revert p t. induction ds as [|de ds IH]; intros p t; csimpl; [by rewrite app_nil_r|].
  by rewrite IH, <- app_assoc.
Qed.

Lemma tx_chain_eq m c s : tx_chain heap_ptr c s m = Done (Continue, tx_step m c s, m).
Proof.
  unfold tx_chain.
  rewrite (for_desc_fold (fun de (st : list Z * Z) =>
    (fst st ++ read_ignore m (d_addr de) (Z.to_nat (d_len de)), u32 (snd st + d_len de))))
    by (intros de [p t]; done).
  rewrite tx_descs_fold. simpl. unfold tx_step, frame_of, packet_of, total_of. by case_match.
Qed.

Lemma tx_fold m it s :
  for_chain (tx_chain heap_ptr) it s m
  = Done (iter_end it m, fold_left (fun s c => tx_step m c s) (chains_of it m) s, m).
Proof. apply for_chain_fold. intros. apply tx_chain_eq. Qed.

Lemma tx_send_used f s : ts_used (tx_send heap_ptr f s) = ts_used s.
Proof. unfold tx_send. repeat case_match; done. Qed.

Lemma tx_fold_used m cs s :
  ts_used (fold_left (fun s c => tx_step m c s) cs s)
  = ts_used s ++ map (fun c => (head_index c, total_of m c)) cs.
Proof.
  revert s. induction cs as [|c cs IH]; intros s; simpl; [by rewrite app_nil_r|].
  rewrite IH. simpl. case_match; rewrite ?tx_send_used, <- app_assoc; done.
Qed.

(** Without a ring every frame is written, in order. *)
Lemma tx_step_sync m c s log :
  ts_tap s = Some log -> ts_ring s = None ->
  ts_tap (tx_step m c s) = Some (log ++ option_list (frame_of m c))
  /\ ts_ring (tx_step m c s) = None.
Proof.
  intros Ht Hr. unfold tx_step, tx_send. rewrite Ht, Hr.
  destruct (frame_of m c); simpl; rewrite ?app_nil_r; done.
Qed.

Lemma tx_fold_sync m cs s log :
  ts_tap s = Some log -> ts_ring s = None ->
  let s' := fold_left (fun s c => tx_step m c s) cs s in
  ts_tap s' = Some (log ++ omap (frame_of m) cs) /\ ts_ring s' = None.
Proof.
  revert s log. induction cs as [|c cs IH]; intros s log Ht Hr; csimpl; [by rewrite app_nil_r|].
  destruct (tx_step_sync m c s log Ht Hr) as [Ht' Hr'].
  destruct (IH _ _ Ht' Hr') as [-> ->]. split; [|done].
  rewrite <- app_assoc. by destruct (frame_of m c).
Qed.

Lemma process_tx_total d m : length (queue_ready d) = 2%nat ->
  panics (process_tx heap_ptr d m) = false.
Proof.
  intros Hq. unfold process_tx. destruct (index_in_range (queue_ready d) 1) as (b & -> & _); [lia|].
  simpl. destruct b; simpl; [|done]. destruct (queue_iter (queue_tx d) m) as [it|]; [|done].
  rewrite tx_fold. simpl.
  destruct (ts_ring _) as [r|]; [destruct (tx_drain r _) as [r1 p1]|]; simpl;
    (destruct (ts_used _) as [|x xs]; [done|]);
    case_match; done.
Qed.

Lemma net_read_total d off data :
  wf d -> length data = 4%nat -> panics (mmio_read d off data) = false.
Proof.
  intros (Hr & Hq & Hs) Hd. unfold mmio_read. autorewrite with nkr_reg.
  repeat case_match; simplify_eq/=; autorewrite with nkr_reg; try done;
    match goal with |- context [index ?l ?i] =>
      destruct (index_in_range l i) as (x & -> & _); [lia|] end;
    simpl; by autorewrite with nkr_reg.
Qed.

(** The register file never panics on a 4-byte access, with one exception that the
    guest controls: writing anything but 1 to QueueReady (0x044) while QueueSel holds 2
    or more indexes [queue_ready] out of bounds. *)
Lemma net_mmio_panics_iff d m off data :
  wf d -> length data = 4%nat ->
  panics (mmio_read d off data) = false
  /\ (panics (mmio_write heap_ptr d m off data) = true
      <-> off = 0x044 /\ mmio_val data <> 1 /\ 2 <= queue_sel (regs d)).
Proof.
  intros Hwf Hd. pose proof Hwf as (Hr & Hq & Hs). split; [by apply net_read_total|].
  unfold mmio_write. split.
  - pose proof (process_tx_total d m Hq) as Htx.
    repeat (case_match; try done); try (rewrite Htx; done).
    + unfold activate_queue. case_match; [done|].
      destruct (index_in_range (rings d) (queue_sel (regs d))) as (x & -> & _); [lia|]. simpl.
      by rewrite index_set_in_range by lia.
    + unfold index_set. case_decide; simpl; [done|]. lia.
    + unfold index_set. case_decide; simpl; [done|]. lia.
  - intros (-> & Hv & Hge). simpl. rewrite (proj2 (Z.eqb_neq _ _) Hv).
    unfold index_set. rewrite decide_False by lia. done.
Qed.
Lemma process_tx_wf d m d' m' :
  wf d -> process_tx heap_ptr d m = Done (d', m') -> wf d'.
Proof.
  intros Hwf. unfold process_tx. destruct (index _ 1) as [[]|]; simpl; [|congruence|done].
  destruct (queue_iter (queue_tx d) m) as [it|]; [|congruence]. rewrite tx_fold. simpl.
  destruct (ts_ring _) as [r|]; [destruct (tx_drain r _) as [r1 p1]|]; simpl;
    (destruct (ts_used _) as [|x xs]; [by intros [= <- <-]|]); case_match; by intros [= <- <-].
Qed.

Lemma net_write_wf d m off data d' m' :
  wf d -> bytes_ok data -> mmio_write heap_ptr d m off data = Done (d', m') -> wf d'.
Proof.
  intros Hwf Hb. pose proof Hwf as (Hr & Hq & Hs). pose proof (mmio_val_u32 data Hb) as [Hv _].
  unfold mmio_write.
  repeat (case_match; [solve [ by intros [= <- <-]
    | intros [= <- <-]; split_and!; simpl; rewrite ?length_update_ring; done
    | unfold write_features_01; intros [= <- <-]; split_and!; simpl; try done; by repeat case_match
    | case_match; [by apply process_tx_wf|by intros [= <- <-]]
    | case_match; (intros [= <- <-]; by split_and!)
    | case_match;
        [ unfold activate_queue; case_match; [by intros [= <- <-]|];
          destruct (index (rings d) _) as [r|]; simpl; [|done];
          destruct (index_set _ _ true) as [rdy|] eqn:E; simpl; [|done]; case_match
        | destruct (index_set _ _ false) as [rdy|] eqn:E; simpl; [|done]; case_match ];
      unfold index_set in E; case_decide; simplify_eq; intros [= <- <-];
      split_and!; simpl; rewrite ?length_insert; done ]|]).
  by intros [= <- <-].
Qed.
End TxFacts.

(** ** What is transmitted *)
Section Transmit.
Context `{GuestMemory mem} `{!VirtQueue mem} `{!IoUring}.
Context (heap_ptr : Z -> Z).
Implicit Types (m : mem) (d : VirtioNetDevice mem).

(** C36. Synchronous transmission: with a TAP device and no ring, [process_tx] writes
    the frames of all available chains in order, each without its 12-byte header
    (chains that hold nothing beyond the header send nothing); every chain goes to the
    used ring with the sum of its descriptor lengths, and the interrupt is raised once
    iff there was a chain. *)
Theorem tx_sends_frames d m it log :
  queue_ready d !! 1%nat = Some true -> queue_iter (queue_tx d) m = Some it ->
  tap d = Some log -> tx_ring d = None ->
  exists d' m',
    process_tx heap_ptr d m = Done (d', m')
    /\ tap d' = Some (log ++ omap (frame_of m) (chains_of it m))
    /\ (queue_tx d', m')
       = add_used_all (map (fun c => (head_index c, total_of m c)) (chains_of it m))
           (iter_queue (iter_end it m)) m
    /\ irqfd d' = irqfd d + (if chains_of it m then 0 else 1).
Proof.
  intros Hrd Hit Ht Hr. unfold process_tx, index. change (Z.to_nat 1) with 1%nat.
  rewrite decide_True, Hrd by done. simpl. rewrite Hit, tx_fold. simpl.
  remember (mkTx [] _ _ _ _) as s0 eqn:Es.
  destruct (tx_fold_sync heap_ptr m (chains_of it m) s0 log) as [E1 E2]; [by subst s0..|].
  pose proof (tx_fold_used heap_ptr m (chains_of it m) s0) as E3.
  set (s := fold_left _ _ s0) in *. rewrite E2.
  replace (ts_used s0) with (@nil (Z * Z)) in E3 by (by subst s0). simpl in E3.
  rewrite E3. destruct (chains_of it m) as [|c cs] eqn:Ec; simpl.
  - eexists _, _. split; [reflexivity|]. simpl. rewrite E1. split_and!; try done. lia.
  - destruct (add_used _ m _ _) as [[ok q1] m1]. destruct (add_used_all _ q1 m1) as [q2 m2].
    eexists _, _. split; [reflexivity|]. simpl. by rewrite E1.
Qed.

Context `{!IoUringLaws}.

(** The kernel may still read the buffer of every entry it has not answered. *)
Definition buffers_alive (r : option uring) (pend : gmap Z (list Z)) (next : Z) : Prop :=
  0 <= next /\
  match r with
  | None => True
  | Some r => NoDup (uring_inflight r)
              /\ forall ud, ud ∈ uring_inflight r -> is_Some (pend !! ud) /\ 0 <= ud < next
  end.
Definition tx_alive d : Prop := buffers_alive (tx_ring d) (tx_pending d) (tx_next_ud d).
Definition ts_alive (s : tx_state) : Prop := buffers_alive (ts_ring s) (ts_pending s) (ts_next_ud s).

Lemma tx_send_alive f s :
  ts_next_ud s + 1 < 2 ^ 64 -> ts_alive s ->
  ts_alive (tx_send heap_ptr f s) /\ ts_next_ud (tx_send heap_ptr f s) <= ts_next_ud s + 1.
Proof.
  intros Hb [Hn Ha]. unfold tx_send, ts_alive, buffers_alive.
  destruct (ts_tap s) as [log|]; [|by split; [split|lia]].
  destruct (ts_ring s) as [r|]; [|simpl; split; [done|lia]]. destruct Ha as [Hnd Ha].
  destruct (uring_push r _) as [r'|] eqn:Ep; simpl; rewrite u64_small by (unfold is_u64; lia);
    (split; [split; [lia|]|lia]).
  - apply push_inflight in Ep. simpl in Ep. split.
    + rewrite Ep. apply list.NoDup_cons. split; [|done]. intros Hin. apply Ha in Hin. lia.
    + intros ud. rewrite Ep, elem_of_cons. intros [->|Hin].
      * rewrite lookup_insert_eq. split; [by eexists|lia].
      * apply Ha in Hin as [Hs ?]. rewrite lookup_insert_ne by lia. split; [done|lia].
  - split; [done|]. intros ud Hin. apply Ha in Hin as [Hs ?].
    rewrite lookup_delete_ne, lookup_insert_ne by lia. split; [done|lia].
Qed.

Lemma tx_step_alive m c s :
  ts_next_ud s + 1 < 2 ^ 64 -> ts_alive s ->
  ts_alive (tx_step heap_ptr m c s) /\ ts_next_ud (tx_step heap_ptr m c s) <= ts_next_ud s + 1.
Proof.
  intros Hb Ha. unfold tx_step. destruct (frame_of m c) as [f|].
  - destruct (tx_send_alive f s Hb Ha). done.
  - split; [done|]. simpl. lia.
Qed.

Lemma tx_fold_alive m cs s :
  ts_next_ud s + Z.of_nat (length cs) < 2 ^ 64 -> ts_alive s ->
  ts_alive (fold_left (fun s c => tx_step heap_ptr m c s) cs s).
Proof.
  revert s. induction cs as [|c cs IH]; intros s Hb Ha; simpl in *; [done|].
  destruct (tx_step_alive m c s) as [Ha' Hn]; [lia|done|]. apply IH; [lia|done].
Qed.

Lemma delete_all_lookup {V} (cqes : list (Z * Z)) (pend : gmap Z V) ud :
  ud ∉ cqes.*1 -> fold_left (fun p cqe => delete (fst cqe) p) cqes pend !! ud = pend !! ud.
Proof.
  revert pend. induction cqes as [|[u res] cqes IH]; intros pend Hn; csimpl; [done|].
  csimpl in Hn. apply not_elem_of_cons in Hn as [Hne Hn].
  rewrite IH by done. by rewrite lookup_delete_ne.
Qed.

Lemma tx_drain_alive r pend next :
  buffers_alive (Some r) pend next ->
  let '(r', pend') := tx_drain r pend in buffers_alive (Some r') pend' next.
Proof.
  intros (Hn & Hnd & Ha). unfold tx_drain.
  destruct (uring_completions (uring_submit r)) as [cqes r'] eqn:Ec.
  apply completions_inflight in Ec. rewrite submit_inflight in Ec.
  rewrite Ec in Hnd. apply list.NoDup_app in Hnd as (_ & Hdis & Hnd').
  split; [done|]. split; [done|]. intros ud Hin.
  rewrite delete_all_lookup by (intros Hc; by apply (Hdis ud)).
  apply Ha. rewrite Ec. apply elem_of_app. auto.
Qed.

(** Buffers outlive the writes that read them: if every entry the ring has not
    answered has its packet in [tx_pending], this still holds after [process_tx], which
    queues new packets under fresh keys and releases only the completed ones. *)
Theorem tx_buffers_alive d m d' m' :
  tx_alive d ->
  (forall it, queue_iter (queue_tx d) m = Some it ->
              tx_next_ud d + Z.of_nat (length (chains_of it m)) < 2 ^ 64) ->
  process_tx heap_ptr d m = Done (d', m') -> tx_alive d'.
Proof.
  intros Ha Hb. unfold process_tx. destruct (index _ 1) as [[]|]; simpl; [|congruence|done].
  destruct (queue_iter (queue_tx d) m) as [it|]; [|congruence].
  rewrite tx_fold. simpl. specialize (Hb it eq_refl).
  remember (mkTx [] _ _ _ _) as s0 eqn:Es0.
  assert (Hs : ts_alive (fold_left (fun s c => tx_step heap_ptr m c s) (chains_of it m) s0))
    by (apply tx_fold_alive; subst s0; done).
  set (s := fold_left _ _ s0) in *. unfold ts_alive in Hs.
  destruct (ts_ring s) as [r|].
  - pose proof (tx_drain_alive r (ts_pending s) (ts_next_ud s) Hs) as Hd.
    destruct (tx_drain r (ts_pending s)) as [r' p']. simpl.
    repeat case_match; intros [= <- <-]; exact Hd.
  - simpl. repeat case_match; intros [= <- <-]; exact Hs.
Qed.
End Transmit.

(** ** What is received *)

(** How the packet is spread over the buffers: address and bytes of each part. *)
Fixpoint scatter (ds : list descriptor) (packet : list Z) : list (Z * list Z) :=
  match ds with
  | [] => []
  | de :: ds =>
      let n := Nat.min (length packet) (Z.to_nat (d_len de)) in
      (d_addr de, take n packet)
        :: (if (length packet <=? n)%nat then [] else scatter ds (drop n packet))
  end.

Definition capacity (ds : list descriptor) : nat := list_sum (map (fun de => Z.to_nat (d_len de)) ds).

Lemma concat_scatter ds packet : concat (scatter ds packet).*2 = take (capacity ds) packet.
Proof.
  revert packet. unfold capacity. induction ds as [|de ds IH]; intros packet; csimpl; [done|].
  case_match eqn:E; csimpl.
  - apply Nat.leb_le in E. rewrite app_nil_r, !take_ge by lia. done.
  - apply Nat.leb_gt in E. rewrite IH. replace (Nat.min _ _) with (Z.to_nat (d_len de)) by lia.
    rewrite <- (take_drop (Z.to_nat (d_len de)) packet) at 3.
    rewrite take_app, length_take, take_take. f_equal; f_equal; lia.
Qed.

Section Receive.
Context `{HM : GuestMemoryLaws mem} `{HV : !VirtQueue mem} `{HQ : !VirtQueueLaws mem} `{!IoUring}.
Implicit Types (m : mem) (d : VirtioNetDevice mem) (de : descriptor).

Definition apart de (b : Z) (k : nat) : Prop := disjoint_ranges (d_addr de) (Z.to_nat (d_len de)) b k.

(** [m'] differs from [m] inside the buffers only. *)
Definition agrees m (ds : list descriptor) m' : Prop :=
  forall b k, Forall (fun de => apart de b k) ds -> mem_read m' b k = mem_read m b k.

(** The chain yields [ds] whatever the buffers hold: the descriptor table is not one
    of them. *)
Inductive yields (P : mem -> Prop) : chain -> list descriptor -> Prop :=
  | yields_nil c : (forall m, P m -> chain_next c m = None) -> yields P c []
  | yields_cons c de c' ds :
      (forall m, P m -> chain_next c m = Some (de, c')) -> yields P c' ds -> yields P c (de :: ds).

(** every buffer is mapped and none overlaps another *)
Definition buffers_ok m (ds : list descriptor) : Prop :=
  Forall (fun de => forall n, (n <= Z.to_nat (d_len de))%nat -> is_Some (mem_read m (d_addr de) n)) ds
  /\ ForallOrdPairs (fun de de' => apart de (d_addr de') (Z.to_nat (d_len de'))) ds.

Lemma apart_prefix de b k n : (n <= Z.to_nat (d_len de))%nat -> apart de b k ->
  disjoint_ranges (d_addr de) n b k.
Proof. unfold apart, disjoint_ranges. lia. Qed.

Lemma rx_scatter m0 all packet ds c offset m :
  bytes_ok packet -> (offset < length packet)%nat ->
  yields (agrees m0 all) c ds -> ds ⊆ all -> agrees m0 all m -> buffers_ok m ds ->
  exists m',
    for_desc (rx_desc packet) c offset m
      = Done (Nat.min (length packet) (offset + capacity ds), m')
    /\ Forall (fun part => mem_read m' (fst part) (length (snd part)) = Some (snd part))
         (scatter ds (drop offset packet))
    /\ agrees m ds m' /\ (forall b k, is_Some (mem_read m' b k) <-> is_Some (mem_read m b k)).
Proof.
  intros Hb. revert c offset m. induction ds as [|de ds IH]; intros c offset m Ho Hy Hsub Hag [Hmap Hdis].
  { inversion Hy as [? Hn|]; subst. rewrite for_desc_eq, Hn by done. exists m.
    unfold capacity. simpl. split_and!; [do 2 f_equal; lia|constructor|done|done]. }
  inversion Hy as [|? ? c' ? Hn Hy']; subst. rewrite for_desc_eq, Hn by done.
  apply Forall_cons_1 in Hmap as [Hm1 Hmap]. inversion Hdis as [|? ? Hd1 Hdis']; subst.
  unfold rx_desc at 1.
  set (n := Nat.min (length packet - offset) (Z.to_nat (d_len de))).
  set (bs := take n (drop offset packet)).
  assert (Hbs : length bs = n) by (unfold bs; rewrite length_take, length_drop; lia).
  set (m1 := if (0 <? n)%nat then _ else m).
  assert (H1 : forall b k, apart de b k -> mem_read m1 b k = mem_read m b k).
  { intros b k Hap. unfold m1. case_match; [|done]. apply write_ignore_frame.
    rewrite Hbs. apply apart_prefix; [lia|done]. }
  assert (H2 : mem_read m1 (d_addr de) n = Some bs).
  { unfold m1. case_match eqn:E.
    - rewrite <- Hbs. apply write_ignore_read; [by apply Forall_take, Forall_drop|].
      rewrite Hbs. apply Hm1. lia.
    - apply Nat.ltb_ge in E. destruct (Hm1 n ltac:(lia)) as [x Hx]. rewrite Hx.
      apply read_shape in Hx as [Hx _]. f_equal.
      rewrite (nil_length_inv x), (nil_length_inv bs) by lia. done. }
  assert (H3 : forall b k, is_Some (mem_read m1 b k) <-> is_Some (mem_read m b k)).
  { intros b k. unfold m1. case_match; [apply write_ignore_mapped|done]. }
  assert (Hsc : scatter (de :: ds) (drop offset packet)
    = (d_addr de, bs) :: (if (length packet <=? offset + n)%nat then []
                          else scatter ds (drop (offset + n) packet))).
  { simpl. rewrite length_drop. fold n. rewrite drop_drop. f_equal.
    repeat case_match; try done; rewrite ?Nat.leb_le, ?Nat.leb_gt in *; lia. }
  rewrite Hsc. clear Hsc. destruct (length packet <=? offset + n)%nat eqn:E.
  - apply Nat.leb_le in E. exists m1. split_and!.
    + unfold capacity. simpl. do 2 f_equal. lia.
    + repeat constructor. simpl. by rewrite Hbs.
    + intros b k Hap. apply Forall_cons_1 in Hap as [Hap _]. auto.
    + done.
  - apply Nat.leb_gt in E.
    destruct (IH c' (offset + n)%nat m1) as (m' & E1 & E2 & E3 & E4);
      [lia|done|intros x Hx; apply Hsub, elem_of_cons; auto|..].
    { intros b k Hap. rewrite H1; [auto|]. rewrite list.Forall_forall in Hap.
      apply Hap, Hsub, elem_of_cons. auto. }
    { split; [|done]. eapply Forall_impl; [|exact Hmap]. intros x Hx k Hk. apply H3. auto. }
    exists m'. split_and!.
    + rewrite E1. unfold capacity. simpl. do 2 f_equal. lia.
    + constructor; [|done]. simpl. rewrite Hbs, E3; [done|].
      eapply Forall_impl; [|exact Hd1]. intros x Hx. unfold apart, disjoint_ranges in *. lia.
    + intros b k Hap. apply Forall_cons_1 in Hap as [Hap Hap']. rewrite E3 by done. auto.
    + intros b k. rewrite E4. apply H3.
Qed.

(** Reception: a frame that arrives while the guest offers a chain of mapped,
    non-overlapping buffers is stored, after a zeroed 12-byte header, across those
    buffers in order, up to their total capacity; the chain is put in the used ring
    with the number of bytes stored and the interrupt is raised. *)
Theorem rx_delivers_frame d m frame it c it' ds :
  queue_ready d !! 0%nat = Some true ->
  queue_iter (queue_rx d) m = Some it -> iter_next it m = Some (c, it') ->
  bytes_ok frame -> yields (agrees m ds) c ds -> buffers_ok m ds ->
  let packet := replicate 12 0 ++ frame in
  let n := Nat.min (length packet) (capacity ds) in
  exists m1 ok q m' d',
    rx_deliver d m frame = Done (d', m')
    /\ Forall (fun part => mem_read m1 (fst part) (length (snd part)) = Some (snd part))
         (scatter ds packet)
    /\ concat (scatter ds packet).*2 = take n packet
    /\ add_used (iter_queue it') m1 (head_index c) (u32 (Z.of_nat n)) = (ok, q, m')
    /\ queue_rx d' = q /\ irqfd d' = irqfd d + 1
    /\ Z.testbit (interrupt_status (regs d')) 0 = true.
Proof.
  intros Hrd Hit Hnx Hf Hy Hbuf packet n. unfold rx_deliver, index. change (Z.to_nat 0) with 0%nat.
  rewrite decide_True, Hrd by done. cbn [mbind outcome_bind negb]. rewrite Hit, Hnx.
  change (replicate 12 0 ++ frame) with packet.
  assert (Hp : bytes_ok packet).
  { apply Forall_app. split; [|done]. apply Forall_replicate. unfold is_byte. lia. }
  destruct (rx_scatter m ds packet ds c 0%nat m Hp) as (m1 & E1 & E2 & _ & _); try done.
  { unfold packet. rewrite length_app, length_replicate. lia. }
  rewrite drop_0 in E2. rewrite E1. simpl. fold n.
  destruct (add_used (iter_queue it') m1 _ _) as [[ok q] m'] eqn:Ea.
  eexists m1, ok, q, m', _. split_and!; try reflexivity; try done.
  - rewrite concat_scatter. unfold n. destruct (Nat.le_ge_cases (length packet) (capacity ds)).
    + by rewrite Nat.min_l, !take_ge by lia.
    + by rewrite Nat.min_r by lia.
  - rewrite <- Z.bit0_odd. cbn -[Z.testbit Z.lor]. rewrite Z.lor_spec. apply orb_true_r.
Qed.
End Receive.

(** A guest with one 40-byte packet in the TX queue and two RX buffers of 8 and 16
    bytes. *)
Module NetExample.
Definition mac : list Z := [0x52; 0x54; 0; 0; 0; 1].
Definition memory : RegionMem.t :=
  snd (mem_write (RegionMem.zeroed 0x2000) 0x1000 (replicate 12 0 ++ map Z.of_nat (seq 0 4))).
Definition tx_c : Z * list descriptor := (3, [mkDesc 0x1000 12 false; mkDesc 0x100C 4 false]).
Definition rx_c : Z * list descriptor := (5, [mkDesc 0x1100 8 true; mkDesc 0x1200 16 true]).
Definition dev (r : option ListUring.t) : VirtioNetDevice RegionMem.t :=
  new mac true r <| queue_ready := [true; true] |> <| queue_tx := ListQueue.ready_with [tx_c] |>
    <| queue_rx := ListQueue.ready_with [rx_c] |>.
End NetExample.

Lemma tx_sends_frames_witness :
  exists d' m', process_tx id (NetExample.dev None) NetExample.memory = Done (d', m')
                /\ tap d' = Some [[0; 1; 2; 3]] /\ irqfd d' = 1.
Proof.
  destruct (tx_sends_frames id (NetExample.dev None) NetExample.memory
    (ListQueue.ready_with [NetExample.tx_c]) []) as (d' & m' & E1 & E2 & _ & E4);
    [reflexivity..|].
  exists d', m'. split; [exact E1|]. split; [|exact E4].
  rewrite E2. vm_compute. reflexivity.
Defined.

Lemma tx_buffers_alive_witness :
  match process_tx id (NetExample.dev (Some (ListUring.mk 64 [] []))) NetExample.memory with
  | Done (d', _) => tx_alive d'
  | Panic _ => False
  end.
Proof.
  destruct (process_tx id _ _) as [[d' m']|] eqn:E.
  - apply (tx_buffers_alive id (NetExample.dev (Some (ListUring.mk 64 [] []))) NetExample.memory d' m').
    + split; [simpl; lia|]. split; [constructor|]. intros ud Hin. by apply elem_of_nil in Hin.
    + intros it [= <-]. reflexivity.
    + exact E.
  - vm_compute in E. discriminate.
Defined.

Lemma rx_delivers_frame_witness :
  match rx_deliver (NetExample.dev None) NetExample.memory [7; 8; 9] with
  | Done (d', _) => irqfd d' = 1
  | Panic _ => False
  end.
Proof.
  destruct (rx_delivers_frame (NetExample.dev None) NetExample.memory [7; 8; 9]
    (ListQueue.ready_with [NetExample.rx_c]) NetExample.rx_c (ListQueue.ready_with [])
    (snd NetExample.rx_c)) as (m1 & ok & q & m' & d' & E & _ & _ & _ & _ & Hirq & _).
  - reflexivity.
  - reflexivity.
  - reflexivity.
  - repeat constructor; unfold is_byte; lia.
  - repeat (econstructor; [intros; reflexivity|]). constructor. intros; reflexivity.
  - split.
    + apply Forall_cons_2; [|apply Forall_cons_2; [|constructor]]; intros n Hn; simpl in Hn;
        (eapply RegionMem.read_one_region; [reflexivity|simpl; lia|simpl; lia]).
    + apply FOP_cons; [apply Forall_cons_2; [left; vm_compute; congruence|constructor]|].
      apply FOP_cons; [constructor|constructor].
  - rewrite E. exact Hirq.
Defined.
