(* ===== verification/Pmem.v ===== *)
(** * VirtIO-PMEM (src/pmem.rs)

    The disk of the guest is a shared mapping of a host file, a guest-physical region
    of its own; the device only answers flush requests.  [msyncs] is the log of the
    [msync] calls. *)
From S2P Require Import Prelude GuestMem VirtQueue Virtio.

Definition PMEM_GUEST_PHYS_ADDR : Z := 0x100000000.
Definition PMEM_MMIO_ADDR : Z := 0xD0020000.
Definition PMEM_IRQ : Z := 7.
Definition PMEM_DEVICE_ID : Z := 27.

Inductive msync_flag := MS_ASYNC | MS_SYNC.
(** address, length and flag of a call *)
Definition msync_call : Type := Z * Z * msync_flag.

(** The ways [new] fails. *)
Inductive pmem_error := OpenFailed | MetadataFailed | EmptyDisk | MmapFailed | EventFdFailed.

Section Device.
Context `{GuestMemory mem} `{!VirtQueue mem}.
Implicit Types m : mem.

Record VirtioPmemDevice := mkPmem {
  host_mmap_ptr : Z;
  host_mmap_len : Z;
  guest_phys_addr : Z;
  regs : mmio_regs;
  ring_regs : vring;
  queue_ready : bool;
  vq : queue;
  irqfd : Z;
  msyncs : list msync_call;
}.
#[export] Instance eta_pmem : Eta VirtioPmemDevice := fun d =>
  mkPmem (host_mmap_ptr d) (host_mmap_len d) (guest_phys_addr d) (regs d) (ring_regs d)
    (queue_ready d) (vq d) (irqfd d) (msyncs d).
Implicit Types d : VirtioPmemDevice.

(** [disk_len]: [None] when the file cannot be opened, [Some None] when its metadata
    cannot be read.  [mmap len] is the mapping, [None] for [MAP_FAILED]. *)
Definition new (disk_len : option (option Z)) (mmap : Z -> option Z) (eventfds : bool)
    (guest_phys_addr : Z) : pmem_error + VirtioPmemDevice :=
  match disk_len with
  | None => inl OpenFailed
  | Some None => inl MetadataFailed
  | Some (Some len) =>
      if len =? 0 then inl EmptyDisk
      else
        match mmap len with
        | None => inl MmapFailed
        | Some ptr =>
            if negb eventfds then inl EventFdFailed
            else inr (mkPmem ptr len guest_phys_addr regs_new (vring_new 0) false
                        (queue_new 16) 0 [])
        end
  end.

Definition config_read d (off : Z) (data : list Z) : list Z :=
  if off =? 0x100 then copy_prefix (le_bytes 8 (guest_phys_addr d)) data
  else if off =? 0x104 then copy_prefix (drop 4 (le_bytes 8 (guest_phys_addr d))) data
  else if off =? 0x108 then copy_prefix (le_bytes 8 (host_mmap_len d)) data
  else if off =? 0x10C then copy_prefix (drop 4 (le_bytes 8 (host_mmap_len d))) data
  else fill 0 data.

Definition features_for_sel (sel : Z) : Z :=
  let feats := Z.shiftl 1 32 in
  if sel =? 0 then u32 (Z.land feats 0xFFFFFFFF)
  else if sel =? 1 then u32 (Z.shiftr feats 32)
  else 0.

Definition activate_queue d : VirtioPmemDevice :=
  let r := ring_regs d in
  d <| vq ::= configure_queue (Z.max (queue_num r) 16) (desc_low r) (desc_high r) (avail_low r)
                (avail_high r) (used_low r) (used_high r) |>
    <| queue_ready := true |>.

Definition raise d : VirtioPmemDevice :=
  d <| regs ::= raise_interrupt 1 |> <| irqfd ::= Z.succ |>.

(** ** Flush requests *)

(** Every device-writable descriptor receives the response code 0. *)
Definition flush_desc (de : descriptor) (total : Z) m : outcome (ctrl * Z * mem) :=
  Done (Continue, u32 (total + d_len de),
        if d_write_only de then write_obj_ignore 4 m (d_addr de) 0 else m).

Definition flush_chain (ptr len : Z) (c : chain) (st : list (Z * Z) * list msync_call) m
  : outcome (ctrl * (list (Z * Z) * list msync_call) * mem) :=
  let '(used, log) := st in
  '(total, m) ← for_desc flush_desc c 0 m;
  Done (Continue, (used ++ [(head_index c, total)], log ++ [(ptr, len, MS_ASYNC)]), m).

Definition process_queue d m : outcome (VirtioPmemDevice * mem) :=
  if negb (queue_ready d) then Done (d, m)
  else
    match queue_iter (vq d) m with
    | None => Done (d, m)
    | Some it =>
        '((it, (used, log)), m) ← for_chain (flush_chain (host_mmap_ptr d) (host_mmap_len d)) it
                                    ([], msyncs d) m;
        let d := d <| vq := iter_queue it |> <| msyncs := log |> in
        match used with
        | [] => Done (d, m)
        | _ =>
            let '(q, m) := add_used_all used (vq d) m in
            Done (raise (d <| vq := q |>), m)
        end
    end.

(** Dropping the device writes the mapping back before it is unmapped; [MAP_FAILED]
    is -1. *)
Definition drop_device d : VirtioPmemDevice :=
  if (host_mmap_ptr d =? 0) || (host_mmap_ptr d =? 2 ^ 64 - 1) then d
  else d <| msyncs ::= fun l => l ++ [(host_mmap_ptr d, host_mmap_len d, MS_SYNC)] |>.

(** ** Register file (the [PMEM_MMIO_ADDR] page of [run_vcpu_loop]) *)
Definition mmio_read d (off : Z) (data : list Z) : outcome (list Z) :=
  if off =? 0x000 then copy_from_slice virt_magic data
  else if off =? 0x004 then put_u32 2 data
  else if off =? 0x008 then put_u32 27 data
  else if off =? 0x00C then put_u32 nkr_vendor data
  else if off =? 0x010 then put_u32 (features_for_sel (device_features_sel (regs d))) data
  else if off =? 0x034 then put_u32 16 data
  else if off =? 0x044 then put_u32 (u32_of_bool (queue_ready d)) data
  else if off =? 0x060 then put_u32 (interrupt_status (regs d)) data
  else if off =? 0x070 then put_u32 (status (regs d)) data
  else if off =? 0x0FC then put_u32 0 data
  else if (0x100 <=? off) && (off <=? 0x10F) then Done (config_read d off data)
  else Done (fill 0 data).

Definition mmio_write d m (off : Z) (data : list Z) : outcome (VirtioPmemDevice * mem) :=
  let val := mmio_val data in
  if off =? 0x014 then Done (d <| regs ::= fun r => r <| device_features_sel := val |> |>, m)
  else if off =? 0x020 then Done (d <| regs ::= write_features_0else val |>, m)
  else if off =? 0x024 then Done (d <| regs ::= fun r => r <| driver_features_sel := val |> |>, m)
  else if off =? 0x030 then Done (d <| regs ::= fun r => r <| queue_sel := val |> |>, m)
  else if off =? 0x038 then Done (d <| ring_regs ::= fun r => r <| queue_num := val |> |>, m)
  else if off =? 0x044 then
    if val =? 1 then Done (activate_queue d, m) else Done (d, m)
  else if off =? 0x050 then process_queue d m
  else if off =? 0x064 then Done (d <| regs ::= ack_interrupt val |>, m)
  else if off =? 0x070 then
    if val =? 0 then
      Done (d <| regs ::= fun r => r <| status := 0 |> |> <| queue_ready := false |>, m)
    else Done (d <| regs ::= fun r => r <| status := val |> |>, m)
  else if is_ring_reg off then Done (d <| ring_regs ::= write_ring_reg off val |>, m)
  else Done (d, m).
End Device.
Arguments VirtioPmemDevice mem {_}.

(** ** Flushing *)
Section Flush.
Context `{GuestMemory mem} `{!VirtQueue mem}.
Implicit Types (m : mem) (d : VirtioPmemDevice mem).

Lemma flush_chain_done ptr len c used log m :
  exists total m', flush_chain ptr len c (used, log) m
    = Done (Continue, (used ++ [(head_index c, total)], log ++ [(ptr, len, MS_ASYNC)]), m').
Proof.
  unfold flush_chain. destruct (for_desc_total flush_desc c 0 m) as (t & m' & ->); [done|].
  simpl. eauto.
Qed.

Lemma process_queue_total d m : exists d' m', process_queue d m = Done (d', m').
Proof.
  unfold process_queue. destruct (queue_ready d); simpl; [|eauto].
  destruct (queue_iter (vq d) m) as [it|]; [|eauto].
  destruct (for_chain_total (flush_chain (host_mmap_ptr d) (host_mmap_len d)) it
              ([], msyncs d) m) as (it' & [used log] & m1 & ->).
  { intros c [u l] m0. destruct (flush_chain_done (host_mmap_ptr d) (host_mmap_len d) c u l m0)
      as (t & m' & ->). done. }
  simpl. destruct used; [eauto|]. destruct (add_used_all _ _ m1). eauto.
Qed.

Lemma pmem_write_total d m off data : exists d' m', mmio_write d m off data = Done (d', m').
Proof.
  unfold mmio_write. repeat (case_match; [solve [apply process_queue_total | eauto
    | case_match; eauto]|]). eauto.
Qed.

Lemma pmem_read_length d off data out : mmio_read d off data = Done out -> length out = length data.
Proof. unfold mmio_read, config_read. read_length. Qed.

Lemma pmem_read_total d off data : length data = 4%nat -> panics (mmio_read d off data) = false.
Proof.
  intros Hd. unfold mmio_read. autorewrite with nkr_reg. repeat (case_match; [done|]). done.
Qed.

(** Flush requests: [process_queue] on a ready queue never panics; each chain
    taken from the available ring is put in the used ring exactly once, in order, and
    causes exactly one [msync] of the whole mapping, always asynchronous; the interrupt
    is raised once iff some chain was taken. *)
Theorem flush_spec d m it :
  queue_ready d = true -> queue_iter (vq d) m = Some it ->
  exists d' m' it' m1 used,
    process_queue d m = Done (d', m')
    /\ add_used_all used (iter_queue it') m1 = (vq d', m')
    /\ msyncs d' = msyncs d ++ replicate (length used) (host_mmap_ptr d, host_mmap_len d, MS_ASYNC)
    /\ irqfd d' = irqfd d + (if used then 0 else 1).
Proof.
  intros Hr Hit. unfold process_queue. rewrite Hr, Hit. simpl.
  set (call := (host_mmap_ptr d, host_mmap_len d, MS_ASYNC)).
  destruct (for_chain_total (flush_chain (host_mmap_ptr d) (host_mmap_len d)) it
              ([], msyncs d) m) as (it' & [used log] & m1 & E).
  { intros c [u l] m0. destruct (flush_chain_done (host_mmap_ptr d) (host_mmap_len d) c u l m0)
      as (t & m' & ->). done. }
  assert (Hlog : log = msyncs d ++ replicate (length used) call).
  { apply (for_chain_inv (fun st _ => st.2 = msyncs d ++ replicate (length st.1) call))
      in E; [exact E| |simpl; by rewrite app_nil_r].
    intros c [u l] m0 ct [u' l'] m0' Hi Eb. simpl in Hi |- *.
    destruct (flush_chain_done (host_mmap_ptr d) (host_mmap_len d) c u l m0) as (t & m2 & E2).
    rewrite E2 in Eb. injection Eb as <- <- <- <-. rewrite Hi, length_app, replicate_add.
    by rewrite app_assoc. }
  rewrite E. cbn -[add_used_all]. destruct used as [|u used].
  - eexists _, _, it', m1, []. split; [reflexivity|]. cbn -[call]. split_and!; [done|done|lia].
  - destruct (add_used_all (u :: used) (iter_queue it') m1) as [q m'] eqn:Ea.
    eexists _, _, it', m1, (u :: used). split; [reflexivity|].
    cbn -[add_used_all call]. rewrite Ea. split_and!; [done|done|lia].
Qed.

(** The configuration space describes the mapping: the two 4-byte halves read at
    0x100 and 0x104 are the guest-physical start, those at 0x108 and 0x10C the size, and
    an 8-byte read gives the same value. *)
Theorem config_describes_mapping d zero4 zero8 :
  length zero4 = 4%nat -> length zero8 = 8%nat ->
  is_u64 (guest_phys_addr d) -> is_u64 (host_mmap_len d) ->
  let read off data := mmio_read d off data in
  (lo ← read 0x100 zero4; hi ← read 0x104 zero4; Done (le_val (lo ++ hi))) = Done (guest_phys_addr d)
  /\ (lo ← read 0x108 zero4; hi ← read 0x10C zero4; Done (le_val (lo ++ hi))) = Done (host_mmap_len d)
  /\ le_val <$> read 0x100 zero8 = Done (guest_phys_addr d)
  /\ le_val <$> read 0x108 zero8 = Done (host_mmap_len d).
Proof.
  intros H4 H8 Hg Hl read.
  assert (Hcat : forall v, is_u64 v ->
    le_val (copy_prefix (le_bytes 8 v) zero4 ++ copy_prefix (drop 4 (le_bytes 8 v)) zero4) = v
    /\ le_val (copy_prefix (le_bytes 8 v) zero8) = v).
  { intros v Hv. rewrite !copy_prefix_all by (rewrite ?length_drop, length_le_bytes; lia).
    rewrite H4, H8. split.
    - rewrite <- (le_val_8 v Hv) at 3. reflexivity.
    - rewrite <- (le_val_8 v Hv) at 2. reflexivity. }
  destruct (Hcat _ Hg) as [Hg1 Hg2]. destruct (Hcat _ Hl) as [Hl1 Hl2].
  unfold read, mmio_read, config_read. cbn -[copy_prefix le_bytes le_val drop].
  by rewrite Hg1, Hg2, Hl1, Hl2.
Qed.
End Flush.

Module PmemExample.
Definition flush_c : Z * list descriptor := (2, [mkDesc 0x100 4 false; mkDesc 0x200 4 true]).
Definition dev : VirtioPmemDevice RegionMem.t :=
  mkPmem 0x7F0000000000 0x40000000 PMEM_GUEST_PHYS_ADDR regs_new (vring_new 16) true
    (ListQueue.ready_with [flush_c; flush_c]) 0 [].
End PmemExample.

Lemma flush_spec_witness :
  exists d' m' n, process_queue PmemExample.dev (RegionMem.zeroed 0x1000) = Done (d', m')
    /\ msyncs d' = replicate n (0x7F0000000000, 0x40000000, MS_ASYNC).
Proof.
  destruct (flush_spec PmemExample.dev (RegionMem.zeroed 0x1000)
    (ListQueue.ready_with [PmemExample.flush_c; PmemExample.flush_c]))
    as (d' & m' & it' & m1 & used & E & _ & Hs & _); [reflexivity..|].
  exists d', m', (length used). split; [exact E|exact Hs].
Defined.

Lemma config_describes_mapping_witness :
  le_val <$> mmio_read PmemExample.dev 0x108 (replicate 8 0) = Done 0x40000000.
Proof.
  apply (config_describes_mapping PmemExample.dev (replicate 4 0) (replicate 8 0));
    [reflexivity|reflexivity|vm_compute; split; congruence..].
Defined.
