(* ===== verification/VirtioFs.v ===== *)
(** * VirtIO-FS (src/virtio_fs.rs)

    The device is a vhost-user front end: virtiofsd, a child process, serves the queues;
    this side hands it the guest memory, the rings and the event descriptors over a
    Unix socket.  The socket is an interface ([VhostSocket]); [SocketLaws] say that
    what is written is appended to the stream and what is read is taken from the
    backend's stream.  [LogSocket] is a concrete socket for the witnesses. *)
From S2P Require Import Prelude GuestMem Virtio.

Definition VIRTIO_FS_DEVICE_ID : Z := 26.
Definition VIRTIO_FS_BASE_IRQ : Z := 8.
Definition VIRTIO_FS_DAX_GUEST_PHYS : Z := 0x200000000.
Definition VIRTIOFSD_SOCK_DIR : string := "/run/nkrfs".

Definition VHOST_USER_GET_FEATURES : Z := 1.
Definition VHOST_USER_SET_FEATURES : Z := 2.
Definition VHOST_USER_SET_OWNER : Z := 3.
Definition VHOST_USER_SET_MEM_TABLE : Z := 5.
Definition VHOST_USER_SET_VRING_NUM : Z := 8.
Definition VHOST_USER_SET_VRING_ADDR : Z := 9.
Definition VHOST_USER_SET_VRING_BASE : Z := 10.
Definition VHOST_USER_SET_VRING_KICK : Z := 12.
Definition VHOST_USER_SET_VRING_CALL : Z := 13.
Definition VHOST_USER_GET_PROTOCOL_FEATURES : Z := 15.
Definition VHOST_USER_SET_PROTOCOL_FEATURES : Z := 16.
Definition VHOST_USER_GET_QUEUE_NUM : Z := 17.
Definition VHOST_USER_SET_VRING_ENABLE : Z := 18.
Definition VHOST_USER_VERSION : Z := 1.
Definition VHOST_USER_NEED_REPLY_MASK : Z := 8.
Definition VHOST_USER_F_PROTOCOL_FEATURES : Z := Z.shiftl 1 30.

(** ** Wire structures ([repr(C)], little endian) *)
Definition VhostUserMsgHdr (request flags size : Z) : list Z :=
  le_bytes 4 request ++ le_bytes 4 flags ++ le_bytes 4 size.
Definition VhostUserVringState (index num : Z) : list Z := le_bytes 4 index ++ le_bytes 4 num.
Definition VhostUserVringAddr (index flags desc used avail log : Z) : list Z :=
  le_bytes 4 index ++ le_bytes 4 flags ++ le_bytes 8 desc ++ le_bytes 8 used
  ++ le_bytes 8 avail ++ le_bytes 8 log.
Definition VhostUserMemoryRegion (gpa size hva offset : Z) : list Z :=
  le_bytes 8 gpa ++ le_bytes 8 size ++ le_bytes 8 hva ++ le_bytes 8 offset.

(** ** The socket

    [sock_write s bytes fds] is [write_all] (without descriptors) or [sendmsg] with
    ancillary data, and whether it succeeded; [sock_read s n] is [read_exact]. *)
Class VhostSocket := {
  sock : Type;
  sock_write : sock -> list Z -> list Z -> bool * sock;
  sock_read : sock -> nat -> option (list Z) * sock;
}.

(** The two byte streams and the descriptors that were passed. *)
Class SocketLaws `{VhostSocket} := {
  sock_sent : sock -> list Z;
  sock_fds : sock -> list Z;
  sock_input : sock -> list Z;
  write_ok s bs fds s' :
    sock_write s bs fds = (true, s') ->
    sock_sent s' = sock_sent s ++ bs /\ sock_fds s' = sock_fds s ++ fds
    /\ sock_input s' = sock_input s;
  write_some s bs fds ok s' :
    sock_write s bs fds = (ok, s') ->
    exists k j, sock_sent s' = sock_sent s ++ take k bs /\ sock_fds s' = sock_fds s ++ take j fds;
  read_sent s n r s' :
    sock_read s n = (r, s') -> sock_sent s' = sock_sent s /\ sock_fds s' = sock_fds s;
  read_available s n :
    (n <= length (sock_input s))%nat ->
    exists s', sock_read s n = (Some (take n (sock_input s)), s')
               /\ sock_input s' = drop n (sock_input s);
}.

Module LogSocket.
Record t := mk { ls_sent : list Z; ls_fds : list Z; ls_input : list Z }.
#[global] Instance vhost_socket : VhostSocket := {
  sock := t;
  sock_write s bs fds := (true, mk (ls_sent s ++ bs) (ls_fds s ++ fds) (ls_input s));
  sock_read s n :=
    if decide (n <= length (ls_input s))%nat
    then (Some (take n (ls_input s)), mk (ls_sent s) (ls_fds s) (drop n (ls_input s)))
    else (None, s);
}.
#[global] Instance laws : SocketLaws.
Proof.
  refine {| sock_sent := ls_sent; sock_fds := ls_fds; sock_input := ls_input |}; simpl.
  - by intros s bs fds s' [= <-].
  - intros s bs fds ok s' [= <- <-]. exists (length bs), (length fds). simpl. by rewrite !take_ge.
  - intros s n r s'. case_decide; by intros [= <- <-].
  - intros s n Hn. rewrite decide_True by done. eauto.
Defined.
End LogSocket.

(** ** Per-queue state and memory regions *)
Record QueueState := mkQueueState { q_ring : vring; q_ready : bool }.
#[export] Instance eta_queue_state : Eta QueueState := fun q => mkQueueState (q_ring q) (q_ready q).
Definition queue_default : QueueState := mkQueueState (vring_new 0) false.

Record GuestMemRegion := mkRegion { gpa : Z; size : Z; hva : Z; memfd_offset : Z }.

(** Guest-physical to host-virtual; an address outside every region stays as it is. *)
Fixpoint gpa_to_hva (regions : list GuestMemRegion) (a : Z) : Z :=
  match regions with
  | [] => a
  | r :: regions =>
      if (gpa r <=? a) && (a <? u64 (gpa r + size r)) then u64 (hva r + (a - gpa r))
      else gpa_to_hva regions a
  end.

(** ** Messages *)
Section Protocol.
Context `{VhostSocket}.

(** [io::Result] threaded with the socket; an error ends the sequence. *)
Definition IO (A : Type) : Type := sock -> option A * sock.
#[local] Instance io_ret : MRet IO := fun A a s => (Some a, s).
#[local] Instance io_bind : MBind IO := fun A B f x s =>
  match x s with
  | (Some a, s) => f a s
  | (None, s) => (None, s)
  end.

Definition write_all (bs : list Z) : IO unit := fun s =>
  let '(ok, s) := sock_write s bs [] in (if ok : bool then Some tt else None, s).
Definition sendmsg (bs fds : list Z) : IO unit := fun s =>
  let '(ok, s) := sock_write s bs fds in (if ok : bool then Some tt else None, s).
Definition read_exact (n : nat) : IO (list Z) := fun s => sock_read s n.
Definition io_error {A} : IO A := fun s => (None, s).

(** Every message asks for a reply. *)
Definition header (request : Z) (payload : list Z) : list Z :=
  VhostUserMsgHdr request (Z.lor VHOST_USER_VERSION VHOST_USER_NEED_REPLY_MASK)
    (u32 (Z.of_nat (length payload))).

Definition send_plain (request : Z) (payload : list Z) : IO unit :=
  _ ← write_all (header request payload);
  if decide (payload = []) then mret tt else write_all payload.

Definition send_with_fds (request : Z) (payload fds : list Z) : IO unit :=
  sendmsg (header request payload ++ payload) fds.

Definition recv_reply : IO (list Z) :=
  hdr ← read_exact 12;
  let size := le_val (take 4 (drop 8 hdr)) in
  if size =? 0 then mret [] else read_exact (Z.to_nat size).

Definition rpc_u64 (request : Z) : IO Z :=
  _ ← send_plain request [];
  reply ← recv_reply;
  if (length reply <? 8)%nat then io_error else mret (le_val (take 8 reply)).

(** [if let Ok(_) = .. {}]: an error is dropped *)
Definition try {A} (x : IO A) : IO unit := fun s => let '(_, s) := x s in (Some tt, s).

(** ** Connection *)
Definition handshake : IO unit :=
  _ ← send_plain VHOST_USER_SET_OWNER [];
  features ← rpc_u64 VHOST_USER_GET_FEATURES;
  let selected := Z.land features (Z.lor (Z.shiftl 1 32) VHOST_USER_F_PROTOCOL_FEATURES) in
  send_plain VHOST_USER_SET_FEATURES (le_bytes 8 selected).

(** The wait for the socket file, polled every 50 ms for at most 3 s: [exists_at n] is
    the result of the n-th poll. *)
Fixpoint wait_for_socket (fuel : nat) (exists_at : nat -> bool) (polls : nat) (waited_ms : Z) : bool :=
  match fuel with
  | O => false
  | S fuel =>
      if exists_at polls then true
      else if 3000 <=? waited_ms then false
      else wait_for_socket fuel exists_at (S polls) (waited_ms + 50)
  end.

Definition virtiofsd_args (sock_path host_path cache_policy : string) (writeback : bool)
  : list string :=
  ["--socket-path"; sock_path; "--shared-dir"; host_path; String.append "--cache=" cache_policy;
   "--sandbox=none"; "--log-level=error"]%string
  ++ (if writeback then ["--writeback"%string] else []).

(** Whether there is a child process, and the connected socket. *)
Definition spawn_and_connect (spawned : bool) (exists_at : nat -> bool) (connect : option sock)
  : bool * option sock :=
  if negb spawned then (false, None)
  else if negb (wait_for_socket 61 exists_at 0 0) then (true, None)
  else
    match connect with
    | None => (true, None)
    | Some s =>
        match handshake s with
        | (Some _, s) => (true, Some s)
        | (None, _) => (true, None)
        end
    end.

(** ** The device *)
Record VirtioFsDevice := mkFs {
  tag : string;
  mmio_addr : Z;
  sock_path : string;
  vhost_sock : option sock;
  virtiofsd : bool;
  memfd : Z;
  mem_regions : list GuestMemRegion;
  dax_enabled : bool;
  dax_ptr : Z;
  dax_size : Z;
  dax_guest_phys : Z;
  regs : mmio_regs;
  shm_sel : Z;
  queues : list QueueState;
  kick_fds : list Z;
  kicks : list Z;
  call_fd : Z;
  queues_setup_done : bool;
}.
#[export] Instance eta_fs : Eta VirtioFsDevice := fun d =>
  mkFs (tag d) (mmio_addr d) (sock_path d) (vhost_sock d) (virtiofsd d) (memfd d) (mem_regions d)
    (dax_enabled d) (dax_ptr d) (dax_size d) (dax_guest_phys d) (regs d) (shm_sel d) (queues d)
    (kick_fds d) (kicks d) (call_fd d) (queues_setup_done d).
Implicit Types d : VirtioFsDevice.

(** [mmap size] is [None] for [MAP_FAILED]. *)
Definition alloc_dax_window (mmap : Z -> option Z) (size : Z) : Z * Z * bool :=
  match mmap size with
  | None => (0, 0, false)
  | Some ptr => (ptr, size, true)
  end.

(** [fds] are the descriptors of the two kick events and of the call event; [child]
    is what [spawn_and_connect] returned. *)
Definition new (tag : string) (memfd : Z) (regions : list GuestMemRegion) (dax_bytes : Z)
    (mmap : Z -> option Z) (child : bool * option sock) (fds : Z * Z * Z) : VirtioFsDevice :=
  let '(ptr, size, enabled) := alloc_dax_window mmap dax_bytes in
  let '(kick0, kick1, call) := fds in
  mkFs tag 0 (VIRTIOFSD_SOCK_DIR +:+ "/" +:+ tag +:+ ".sock") (snd child) (fst child) memfd
    regions enabled ptr size 0 regs_new 0 [queue_default; queue_default] [kick0; kick1] [0; 0]
    call false.

Definition is_connected d : bool := bool_decide (is_Some (vhost_sock d)).

Definition config_read d (off : Z) (data : list Z) : list Z :=
  if (0x100 <=? off) && (off <=? 0x123) then
    imap (fun i _ => nth (Z.to_nat (off - 0x100) + i) (bytes_of_string (tag d)) 0) data
  else if off =? 0x124 then copy_prefix (le_bytes 4 1) data
  else fill 0 data.

Definition features_for_sel (sel : Z) : Z := if sel =? 0 then 0 else if sel =? 1 then 1 else 0.

Definition reset d : VirtioFsDevice :=
  d <| regs ::= fun r => r <| status := 0 |> |> <| queues := [queue_default; queue_default] |>
    <| queues_setup_done := false |>.

Definition process_queue d (qi : Z) : outcome VirtioFsDevice :=
  if qi <? 2 then
    k ← index (kicks d) qi;
    ks ← index_set (kicks d) qi (k + 1);
    Done (d <| kicks := ks |>)
  else Done d.

(** ** Handing the queues to virtiofsd *)
Definition region_bytes (r : GuestMemRegion) : list Z :=
  VhostUserMemoryRegion (gpa r) (size r) (hva r) (memfd_offset r).

Definition mem_table (regions : list GuestMemRegion) : list Z :=
  le_bytes 4 (u32 (Z.of_nat (length regions))) ++ le_bytes 4 0 ++ mbind region_bytes regions.

(** The descriptor of the memory file is sent once per region. *)
Definition send_mem_table d : IO unit :=
  send_with_fds VHOST_USER_SET_MEM_TABLE (mem_table (mem_regions d))
    (replicate (length (mem_regions d)) (memfd d)).

Definition vring_size (q : QueueState) : Z :=
  if queue_num (q_ring q) =? 0 then 128 else queue_num (q_ring q).

Definition setup_queue d (qi : Z) (q : QueueState) (kick_fd : Z) : IO unit :=
  let hva a := gpa_to_hva (mem_regions d) a in
  let r := q_ring q in
  _ ← send_plain VHOST_USER_SET_VRING_NUM (VhostUserVringState qi (vring_size q));
  _ ← send_plain VHOST_USER_SET_VRING_ADDR
        (VhostUserVringAddr qi 0 (hva (desc_addr r)) (hva (used_addr r)) (hva (avail_addr r)) 0);
  _ ← send_plain VHOST_USER_SET_VRING_BASE (VhostUserVringState qi 0);
  _ ← send_with_fds VHOST_USER_SET_VRING_CALL (VhostUserVringState qi 0) [call_fd d];
  _ ← send_with_fds VHOST_USER_SET_VRING_KICK (VhostUserVringState qi 0) [kick_fd];
  send_plain VHOST_USER_SET_VRING_ENABLE (VhostUserVringState qi 1).

(** [for qi in 0u32..2] over the two queues and their kick events *)
Fixpoint setup_each d (qi : Z) (qs : list (QueueState * Z)) : IO unit :=
  match qs with
  | [] => mret tt
  | (q, kick_fd) :: qs => _ ← setup_queue d qi q kick_fd; setup_each d (qi + 1) qs
  end.

Definition setup_io d : IO unit :=
  pf ← rpc_u64 VHOST_USER_GET_PROTOCOL_FEATURES;
  _ ← send_plain VHOST_USER_SET_PROTOCOL_FEATURES (le_bytes 8 pf);
  _ ← try (rpc_u64 VHOST_USER_GET_QUEUE_NUM);
  _ ← send_mem_table d;
  setup_each d 0 (zip (queues d) (kick_fds d)).

Definition setup_queues d : VirtioFsDevice :=
  match vhost_sock d with
  | None => d
  | Some s =>
      let '(r, s) := setup_io d s in
      let d := d <| vhost_sock := Some s |> in
      if r then d <| queues_setup_done := true |> else d
  end.

Definition on_driver_ok d : VirtioFsDevice :=
  if queues_setup_done d then d
  else
    match vhost_sock d with
    | None => d
    | Some _ => setup_queues d
    end.

(** What dropping the device does to the host. *)
Inductive host_effect :=
  | Munmap (ptr len : Z)
  | KillVirtiofsd
  | RemoveFile (path : string).

Definition drop_device d : list host_effect :=
  (if dax_enabled d && negb (dax_ptr d =? 0) then [Munmap (dax_ptr d) (dax_size d)] else [])
  ++ (if virtiofsd d then [KillVirtiofsd] else [])
  ++ [RemoveFile (sock_path d); RemoveFile (sock_path d +:+ ".pid")].

(** ** Register file (the [mmio_addr] page of [run_vcpu_loop]) *)
Definition mmio_read d (off : Z) (data : list Z) : outcome (list Z) :=
  let window v := if (shm_sel d =? 0) && dax_enabled d then put_u32 (u32 v) data
                  else Done (fill 0 data) in
  if off =? 0x000 then copy_from_slice virt_magic data
  else if off =? 0x004 then put_u32 2 data
  else if off =? 0x008 then put_u32 VIRTIO_FS_DEVICE_ID data
  else if off =? 0x00C then put_u32 nkr_vendor data
  else if off =? 0x010 then put_u32 (features_for_sel (device_features_sel (regs d))) data
  else if off =? 0x034 then put_u32 128 data
  else if off =? 0x044 then
    (q ← index (queues d) (Z.min (queue_sel (regs d)) 1); put_u32 (u32_of_bool (q_ready q)) data)
  else if off =? 0x060 then
    put_u32 (if queues_setup_done d then Z.lor (interrupt_status (regs d)) 1
             else interrupt_status (regs d)) data
  else if off =? 0x070 then put_u32 (status (regs d)) data
  else if off =? 0x0FC then put_u32 0 data
  else if off =? 0x0B0 then window (dax_size d)
  else if off =? 0x0B4 then window (Z.shiftr (dax_size d) 32)
  else if off =? 0x0B8 then window (dax_guest_phys d)
  else if off =? 0x0BC then window (Z.shiftr (dax_guest_phys d) 32)
  else if (0x100 <=? off) && (off <=? 0x127) then Done (config_read d off data)
  else Done (fill 0 data).

(** [queues[qi].field = v] *)
Definition update_queue d (qi : Z) (f : QueueState -> QueueState) : outcome VirtioFsDevice :=
  q ← index (queues d) qi;
  qs ← index_set (queues d) qi (f q);
  Done (d <| queues := qs |>).

Definition mmio_write d (off : Z) (data : list Z) : outcome VirtioFsDevice :=
  let val := mmio_val data in
  let qi := Z.min (queue_sel (regs d)) 1 in
  if off =? 0x014 then Done (d <| regs ::= fun r => r <| device_features_sel := val |> |>)
  else if off =? 0x020 then Done (d <| regs ::= write_features_0else val |>)
  else if off =? 0x024 then Done (d <| regs ::= fun r => r <| driver_features_sel := val |> |>)
  else if off =? 0x030 then Done (d <| regs ::= fun r => r <| queue_sel := Z.min val 1 |> |>)
  else if off =? 0x038 then
    update_queue d qi (fun q => q <| q_ring ::= fun r => r <| queue_num := val |> |>)
  else if off =? 0x044 then update_queue d qi (fun q => q <| q_ready := (val =? 1) |>)
  else if off =? 0x050 then process_queue d val
  else if off =? 0x064 then Done (d <| regs ::= ack_interrupt val |>)
  else if off =? 0x070 then
    if val =? 0 then Done (reset d)
    else
      let d := d <| regs ::= fun r => r <| status := val |> |> in
      Done (if negb (Z.land val 4 =? 0) then on_driver_ok d else d)
  else if is_ring_reg off then update_queue d qi (fun q => q <| q_ring ::= write_ring_reg off val |>)
  else if off =? 0x0AC then Done (d <| shm_sel := val |>)
  else Done d.
End Protocol.

(** A message on the wire. *)
Definition message (request : Z) (payload : list Z) : list Z := header request payload ++ payload.

(** What [setup_queue] sends. *)
Definition queue_script `{VhostSocket} (d : VirtioFsDevice) (qi : Z) (q : QueueState) : list Z :=
  let hva a := gpa_to_hva (mem_regions d) a in
  let r := q_ring q in
  message VHOST_USER_SET_VRING_NUM (VhostUserVringState qi (vring_size q))
  ++ message VHOST_USER_SET_VRING_ADDR
       (VhostUserVringAddr qi 0 (hva (desc_addr r)) (hva (used_addr r)) (hva (avail_addr r)) 0)
  ++ message VHOST_USER_SET_VRING_BASE (VhostUserVringState qi 0)
  ++ message VHOST_USER_SET_VRING_CALL (VhostUserVringState qi 0)
  ++ message VHOST_USER_SET_VRING_KICK (VhostUserVringState qi 0)
  ++ message VHOST_USER_SET_VRING_ENABLE (VhostUserVringState qi 1).

Section ProtocolFacts.
Context `{VhostSocket} `{!SocketLaws}.
Implicit Types (s : sock) (d : VirtioFsDevice).

(** A successful run appends [bs] to the stream and passes the descriptors [fds]. *)
Definition sends {A} (x : IO A) (bs fds : list Z) : Prop :=
  forall s a s', x s = (Some a, s') -> sock_sent s' = sock_sent s ++ bs /\ sock_fds s' = sock_fds s ++ fds.

Lemma sends_write_all bs : sends (write_all bs) bs [].
Proof.
  intros s a s'. unfold write_all. destruct (sock_write s bs []) as [[] s1] eqn:E; [|done].
  intros [= <- <-]. by apply write_ok in E as (? & ? & _).
Qed.

Lemma sends_sendmsg bs fds : sends (sendmsg bs fds) bs fds.
Proof.
  intros s a s'. unfold sendmsg. destruct (sock_write s bs fds) as [[] s1] eqn:E; [|done].
  intros [= <- <-]. by apply write_ok in E as (? & ? & _).
Qed.

Lemma sends_read n : sends (read_exact n) [] [].
Proof. intros s a s' E. apply read_sent in E. by rewrite !app_nil_r. Qed.

Lemma sends_ret {A} (a : A) : sends (io_ret A a) [] [].
Proof. intros s b s' [= <- <-]. by rewrite !app_nil_r. Qed.

Lemma sends_bind {A B} (x : IO A) (f : A -> IO B) bs1 fds1 bs2 fds2 bs fds :
  sends x bs1 fds1 -> (forall a, sends (f a) bs2 fds2) ->
  bs = bs1 ++ bs2 -> fds = fds1 ++ fds2 ->
  sends (io_bind A B f x) bs fds.
Proof.
  intros Hx Hf -> -> s b s'. unfold io_bind. destruct (x s) as [[a|] s1] eqn:E; [|done].
  intros Eb. destruct (Hx _ _ _ E) as [E1 E2]. destruct (Hf _ _ _ _ Eb) as [E3 E4].
  by rewrite E3, E1, E4, E2, !app_assoc.
Qed.

Lemma sends_plain request payload : sends (send_plain request payload) (message request payload) [].
Proof.
  unfold send_plain. eapply sends_bind; [apply sends_write_all| |reflexivity|reflexivity].
  intros _. case_decide as E; [subst; apply sends_ret|apply sends_write_all].
Qed.

Lemma sends_with_fds request payload fds :
  sends (send_with_fds request payload fds) (message request payload) fds.
Proof. apply sends_sendmsg. Qed.

Lemma sends_recv_reply : sends recv_reply [] [].
Proof.
  unfold recv_reply. eapply sends_bind; [apply sends_read| |done|done].
  intros hdr. case_match; [apply sends_ret|apply sends_read].
Qed.

Lemma sends_rpc request : sends (rpc_u64 request) (message request []) [].
Proof.
  unfold rpc_u64. eapply sends_bind; [apply sends_plain| |symmetry; apply app_nil_r|done].
  intros _. eapply sends_bind; [apply sends_recv_reply| |done|done].
  intros r. case_match; [by intros s a s'|apply sends_ret].
Qed.

Lemma sends_setup_queue d qi q kick :
  sends (setup_queue d qi q kick) (queue_script d qi q) [call_fd d; kick].
Proof.
  unfold setup_queue, queue_script.
  repeat (eapply sends_bind; [apply sends_plain || apply sends_with_fds|intros _|reflexivity|]).
  - apply sends_plain.
  - reflexivity.
  - reflexivity.
  - reflexivity.
  - reflexivity.
  - reflexivity.
Qed.

Lemma sends_setup_each d qi qs :
  sends (setup_each d qi qs)
    (concat (imap (fun i q => queue_script d (qi + Z.of_nat i) (fst q)) qs))
    (mbind (fun q => [call_fd d; snd q]) qs).
Proof.
  revert qi. induction qs as [|[q k] qs IH]; intros qi; [apply sends_ret|].
  eapply sends_bind; [apply sends_setup_queue|intros _; apply IH| |reflexivity].
  rewrite imap_cons. cbn [concat fst]. rewrite Z.add_0_r. f_equal. f_equal.
  apply imap_ext. intros j x _. unfold compose. f_equal. lia.
Qed.

Lemma recv_reply_sent s r s' :
  recv_reply s = (r, s') -> sock_sent s' = sock_sent s /\ sock_fds s' = sock_fds s.
Proof.
  unfold recv_reply, read_exact, mbind, io_bind.
  destruct (sock_read s 12) as [[hdr|] s1] eqn:E1; apply read_sent in E1 as [E1 E2];
    [|by intros [= <- <-]].
  case_match; [by intros [= <- <-]|]. intros E3. apply read_sent in E3 as [-> ->]. done.
Qed.

(** Even a failing request sends no more than its message. *)
Lemma rpc_sends_prefix request s r s' :
  rpc_u64 request s = (r, s') ->
  exists k, sock_sent s' = sock_sent s ++ take k (message request []) /\ sock_fds s' = sock_fds s.
Proof.
  unfold rpc_u64, send_plain, write_all, message, mbind, io_bind. rewrite app_nil_r. simpl.
  destruct (sock_write s (header request []) []) as [ok s1] eqn:E1.
  apply write_some in E1 as (k & j & E1 & E2). rewrite take_nil, app_nil_r in E2.
  destruct ok; simpl.
  - destruct (recv_reply s1) as [[reply|] s2] eqn:E3; apply recv_reply_sent in E3 as [E3 E4];
      [case_match|]; intros [= <- <-]; exists k; rewrite ?E3, ?E4; done.
  - intros [= <- <-]. eauto.
Qed.

(** C37. The vhost-user conversation at DRIVER_OK: if the queues are set up afterwards,
    the stream has been extended by exactly GET_PROTOCOL_FEATURES,
    SET_PROTOCOL_FEATURES (echoing the value the backend returned), at most one
    GET_QUEUE_NUM, the memory table and, for each queue in order, the six ring
    messages with translated ring addresses; the descriptors passed are the memory file
    once per region and, per queue, its call and kick events. *)
Theorem driver_ok_conversation d s :
  vhost_sock d = Some s -> queues_setup_done d = false ->
  queues_setup_done (on_driver_ok d) = true ->
  exists s' pf k,
    vhost_sock (on_driver_ok d) = Some s'
    /\ sock_sent s' = sock_sent s
         ++ message VHOST_USER_GET_PROTOCOL_FEATURES []
         ++ message VHOST_USER_SET_PROTOCOL_FEATURES (le_bytes 8 pf)
         ++ take k (message VHOST_USER_GET_QUEUE_NUM [])
         ++ message VHOST_USER_SET_MEM_TABLE (mem_table (mem_regions d))
         ++ concat (imap (fun i q => queue_script d (Z.of_nat i) (fst q)) (zip (queues d) (kick_fds d)))
    /\ sock_fds s' = sock_fds s
         ++ replicate (length (mem_regions d)) (memfd d)
         ++ mbind (fun q => [call_fd d; snd q]) (zip (queues d) (kick_fds d)).
Proof.
  intros Hs Hd. unfold on_driver_ok, setup_queues. rewrite Hd, Hs.
  destruct (setup_io d s) as [[r|] s5] eqn:E; simpl; [|by rewrite Hd]. intros _.
  unfold setup_io, mbind, io_bind in E.
  destruct (rpc_u64 VHOST_USER_GET_PROTOCOL_FEATURES s) as [[pf|] s1] eqn:E1; [|done].
  apply sends_rpc in E1 as [E1 F1].
  destruct (send_plain VHOST_USER_SET_PROTOCOL_FEATURES (le_bytes 8 pf) s1) as [[u|] s2] eqn:E2; [|done].
  apply sends_plain in E2 as [E2 F2]. unfold try in E.
  destruct (rpc_u64 VHOST_USER_GET_QUEUE_NUM s2) as [qn s3] eqn:E3.
  apply rpc_sends_prefix in E3 as (k & E3 & F3).
  destruct (send_mem_table d s3) as [[u'|] s4] eqn:E4; [|done].
  apply sends_with_fds in E4 as [E4 F4]. apply sends_setup_each in E as [E F].
  exists s5, pf, k. split; [done|].
  split; [rewrite E, E4, E3, E2, E1|rewrite F, F4, F3, F2, F1]; rewrite ?app_nil_r, <- ?app_assoc; done.
Qed.

(** Message framing round trip: a reply that is framed like the messages this side
    sends is returned by [recv_reply] byte for byte, and the stream is left at the next
    message. *)
Theorem recv_reply_roundtrip s request payload rest :
  Z.of_nat (length payload) < 2 ^ 32 ->
  sock_input s = message request payload ++ rest ->
  exists s', recv_reply s = (Some payload, s') /\ sock_input s' = rest
             /\ sock_sent s' = sock_sent s.
Proof.
  intros Hl Hin. assert (Hh : length (header request payload) = 12%nat)
    by (unfold header, VhostUserMsgHdr; by rewrite !length_app, !length_le_bytes).
  unfold message in Hin. rewrite <- app_assoc in Hin.
  unfold recv_reply, read_exact, mbind, io_bind.
  destruct (read_available s 12) as (s1 & E1 & I1);
    [rewrite Hin, length_app; lia|].
  rewrite E1. apply read_sent in E1 as [S1 _]. rewrite Hin in *.
  assert (Hp : forall l, take 12 (header request payload ++ l) = header request payload
                         /\ drop 12 (header request payload ++ l) = l)
    by (intros l; rewrite <- Hh; by rewrite take_app_length, drop_app_length).
  destruct (Hp (payload ++ rest)) as [Hp1 Hp2]. rewrite Hp1. rewrite Hp2 in I1. clear Hp Hp1 Hp2.
  assert (Hsz : le_val (take 4 (drop 8 (header request payload))) = Z.of_nat (length payload)).
  { change (take 4 (drop 8 (header request payload)))
      with (le_bytes 4 (u32 (Z.of_nat (length payload)))).
    rewrite u32_small by (unfold is_u32; lia). apply le_val_4. unfold is_u32. lia. }
  rewrite Hsz. case_match eqn:E.
  - apply Z.eqb_eq in E. assert (payload = []) as -> by (apply nil_length_inv; lia).
    exists s1. split_and!; [done|by rewrite I1|done].
  - destruct (read_available s1 (length payload)) as (s2 & E2 & I2);
      [rewrite I1, length_app; lia|].
    rewrite Nat2Z.id, E2. apply read_sent in E2 as [S2 _].
    rewrite I1, take_app_length, drop_app_length in *. exists s2. split_and!; congruence.
Qed.
End ProtocolFacts.

(** ** Address translation *)
Definition in_region (r : GuestMemRegion) (a : Z) : Prop := gpa r <= a < gpa r + size r.

Record regions_ok (rs : list GuestMemRegion) : Prop := {
  ro_bounds r : r ∈ rs -> 0 <= size r /\ 0 <= gpa r /\ gpa r + size r < 2 ^ 64 /\ 0 <= hva r /\ hva r + size r < 2 ^ 64;
  ro_guest r r' : r ∈ rs -> r' ∈ rs -> r = r' \/ gpa r + size r <= gpa r' \/ gpa r' + size r' <= gpa r;
  ro_host r r' : r ∈ rs -> r' ∈ rs -> r = r' \/ hva r + size r <= hva r' \/ hva r' + size r' <= hva r;
}.

Lemma gpa_to_hva_in rs r a :
  regions_ok rs -> r ∈ rs -> in_region r a -> gpa_to_hva rs a = hva r + (a - gpa r).
Proof.
  intros Hok Hin Ha.
  assert (Hg : forall qs, (forall q, q ∈ qs -> q ∈ rs) -> r ∈ qs -> gpa_to_hva qs a = hva r + (a - gpa r));
    [|by apply Hg].
  intros qs Hsub. induction qs as [|q qs IH]; intros Hr; [by apply elem_of_nil in Hr|]. simpl.
  assert (Hq : q ∈ rs) by (apply Hsub, elem_of_cons; auto).
  pose proof (ro_bounds _ Hok q Hq). pose proof (ro_bounds _ Hok r Hin). unfold in_region in Ha.
  rewrite (u64_small (gpa q + size q)) by (unfold is_u64; lia).
  destruct (_ && _) eqn:E.
  - apply andb_true_iff in E as [?%Z.leb_le ?%Z.ltb_lt].
    destruct (ro_guest _ Hok q r Hq Hin) as [->|[|]]; [|lia..].
    apply u64_small. unfold is_u64. lia.
  - apply elem_of_cons in Hr as [->|Hr].
    + apply andb_false_iff in E as [?%Z.leb_gt|?%Z.ltb_ge]; lia.
    + apply IH; [|done]. intros p Hp. apply Hsub, elem_of_cons. auto.
Qed.

(** Ring addresses are translated faithfully: with non-overlapping regions an
    address of guest RAM goes to the same offset of its region in this process, and no
    two guest addresses share a host address. *)
Theorem gpa_to_hva_faithful rs :
  regions_ok rs ->
  (forall r a, r ∈ rs -> in_region r a -> gpa_to_hva rs a = hva r + (a - gpa r))
  /\ (forall r r' a b, r ∈ rs -> r' ∈ rs -> in_region r a -> in_region r' b ->
        gpa_to_hva rs a = gpa_to_hva rs b -> a = b).
Proof.
  intros Hok. split; [intros; by apply gpa_to_hva_in|].
  intros r r' a b Hr Hr' Ha Hb. rewrite (gpa_to_hva_in rs r a), (gpa_to_hva_in rs r' b) by done.
  unfold in_region in *. destruct (ro_host _ Hok r r' Hr Hr') as [->|[|]]; lia.
Qed.

(** ** The wait for virtiofsd *)
Lemma wait_for_socket_S f exists_at p w :
  wait_for_socket (S f) exists_at p w
  = if exists_at p then true
    else if 3000 <=? w then false else wait_for_socket f exists_at (S p) (w + 50).
Proof. done. Qed.

Lemma wait_for_socket_spec exists_at n p fuel :
  (n <= 60)%nat -> fuel = S n ->
  wait_for_socket fuel exists_at p (50 * (60 - Z.of_nat n)) = existsb exists_at (seq p (S n)).
Proof.
  intros Hn ->. revert p. induction n as [|n IH]; intros p.
  - simpl. by rewrite orb_false_r; destruct (exists_at p).
  - rewrite wait_for_socket_S. change (seq p (S (S n))) with (p :: seq (S p) (S n)).
    cbn [existsb]. destruct (exists_at p); [done|]. cbn [orb].
    destruct (3000 <=? _) eqn:E; [apply Z.leb_le in E; lia|].
    replace (50 * (60 - Z.of_nat (S n)) + 50) with (50 * (60 - Z.of_nat n)) by lia.
    by rewrite IH by lia.
Qed.

(** The wait for virtiofsd ends: it polls at most 61 times (3 seconds at 50 ms) and
    succeeds exactly when one of these polls finds the socket. *)
Theorem wait_for_socket_bounded exists_at :
  wait_for_socket 61 exists_at 0 0 = existsb exists_at (seq 0 61).
Proof. exact (wait_for_socket_spec exists_at 60 0 61 ltac:(lia) eq_refl). Qed.

(** ** Registers *)
Definition wf `{VhostSocket} (d : VirtioFsDevice) : Prop :=
  length (queues d) = 2%nat /\ length (kicks d) = 2%nat /\ 0 <= queue_sel (regs d).

Section Registers.
Context `{VhostSocket}.
Implicit Types d : VirtioFsDevice.

Lemma fs_read_length d off data out : mmio_read d off data = Done out -> length out = length data.
Proof. unfold mmio_read, config_read. read_length. Qed.

Lemma update_queue_wf d qi f :
  wf d -> 0 <= qi <= 1 -> exists d', update_queue d qi f = Done d' /\ wf d'.
Proof.
  intros (H1 & H2 & H3) Hq. unfold update_queue.
  destruct (index_in_range (queues d) qi) as (q & -> & _); [lia|]. simpl.
  rewrite index_set_in_range by lia. eexists. split; [reflexivity|].
  split_and!; simpl; rewrite ?length_insert; done.
Qed.

Lemma process_queue_wf d qi : wf d -> 0 <= qi -> exists d', process_queue d qi = Done d' /\ wf d'.
Proof.
  intros (H1 & H2 & H3) Hq. unfold process_queue. destruct (qi <? 2) eqn:E; [|eexists; split; done].
  apply Z.ltb_lt in E. destruct (index_in_range (kicks d) qi) as (k & -> & _); [lia|]. simpl.
  rewrite index_set_in_range by lia. eexists. split; [reflexivity|].
  split_and!; simpl; rewrite ?length_insert; done.
Qed.

Lemma on_driver_ok_wf d : wf d -> wf (on_driver_ok d).
Proof.
  unfold on_driver_ok, setup_queues. intros Hwf. case_match; [done|].
  destruct (vhost_sock d) as [s|]; [|done]. destruct (setup_io d s) as [[r|] s']; done.
Qed.

Lemma fs_read_total d off data :
  wf d -> length data = 4%nat -> panics (mmio_read d off data) = false.
Proof.
  intros (H1 & H2 & H3) Hd. unfold mmio_read. autorewrite with nkr_reg.
  repeat (case_match; [done|]); try done; repeat case_match; try done.
  destruct (index_in_range (queues d) (Z.min (queue_sel (regs d)) 1)) as (q & -> & _); [lia|].
  simpl. by autorewrite with nkr_reg.
Qed.

(** The fs register file is total: starting from a fresh device, no 4-byte access
    with byte contents panics, and every write keeps the device well formed. *)
Lemma fs_registers_total d off data :
  wf d -> length data = 4%nat -> bytes_ok data ->
  panics (mmio_read d off data) = false
  /\ exists d', mmio_write d off data = Done d' /\ wf d'.
Proof.
  intros Hwf Hd Hb. pose proof Hwf as (H1 & H2 & H3). split.
  - by apply fs_read_total.
  - unfold mmio_write. pose proof (mmio_val_u32 data Hb) as Hv. unfold is_u32 in Hv.
    repeat (case_match; [solve [
      apply update_queue_wf; [done|lia]
    | apply process_queue_wf; [done|lia]
    | eexists; split; [reflexivity|]; split_and!; simpl; lia
    | eexists; split; [reflexivity|]; unfold wf, write_features_0else; simpl; by case_match
    | case_match; (eexists; split; [reflexivity|]);
        [by split_and!|case_match; [apply on_driver_ok_wf|]; by split_and!] ]|]).
    eexists; split; [reflexivity|done].
Qed.
End Registers.

(** A device with one 64 MB region and a backend that answers the two requests with
    0x8 and 2. *)
Module FsExample.
Definition region : GuestMemRegion := mkRegion 0 0x4000000 0x7F0000000000 0.
Definition replies : list Z := message 15 (le_bytes 8 8) ++ message 17 (le_bytes 8 2).
Definition socket : sock (VhostSocket := LogSocket.vhost_socket) := LogSocket.mk [] [] replies.
Definition dev : VirtioFsDevice :=
  new "nkrfsc0v1s0" 9 [region] 0x10000000 (fun _ => Some 0x7E0000000000) (true, Some socket) (4, 5, 6).
End FsExample.

Lemma driver_ok_conversation_witness :
  exists s' pf k,
    vhost_sock (on_driver_ok FsExample.dev) = Some s'
    /\ sock_sent s' = message 15 [] ++ message 16 (le_bytes 8 pf) ++ take k (message 17 [])
         ++ message 5 (mem_table [FsExample.region])
         ++ queue_script FsExample.dev 0 queue_default
         ++ queue_script FsExample.dev 1 queue_default ++ []
    /\ sock_fds s' = [9; 6; 4; 6; 5].
Proof.
  destruct (driver_ok_conversation FsExample.dev FsExample.socket) as (s' & pf & k & H1 & H2 & H3);
    [reflexivity..|].
  exists s', pf, k. split; [exact H1|]. split; [exact H2|exact H3].
Defined.

Lemma recv_reply_roundtrip_witness :
  exists s', recv_reply FsExample.socket = (Some (le_bytes 8 8), s')
             /\ sock_input s' = message 17 (le_bytes 8 2).
Proof.
  destruct (recv_reply_roundtrip FsExample.socket 15 (le_bytes 8 8) (message 17 (le_bytes 8 2)))
    as (s' & H1 & H2 & _); [reflexivity..|].
  exists s'. split; [exact H1|exact H2].
Defined.

Lemma gpa_to_hva_faithful_witness : gpa_to_hva [FsExample.region] 0x2000 = 0x7F0000002000.
Proof.
  apply (proj1 (gpa_to_hva_faithful [FsExample.region] ltac:(split;
    [intros r Hr; apply list_elem_of_singleton in Hr; subst r; vm_compute; repeat split; congruence
    |intros r r' Hr Hr'; apply list_elem_of_singleton in Hr, Hr'; left; congruence..])) FsExample.region).
  - by apply list_elem_of_singleton.
  - split; vm_compute; congruence.
Defined.
