(* ===== verification/Layout.v ===== *)
(** * The devices of a VM and the kernel command line
    (src/vmm.rs: run, configure_linux_boot)

    [run] gives each device a page of MMIO space and an interrupt line, registers both
    with KVM, and tells the guest kernel about them on its command line; the vCPU loop
    dispatches on the same pages.  [place_devices] is the assignment, [cmdline] the
    command line, of which the kernel keeps the beginning ([kept]). *)
From S2P Require Import Prelude Text GuestMem Boot VirtQueue Virtio Console Balloon Block Pmem VirtioFs.

(** ** The kernel command line *)
Definition mmio_param (addr irq : Z) : string :=
  " virtio_mmio.device=4K@" +:+ hex8 addr +:+ ":" +:+ dec irq.

Definition cmdline_base : string :=
  "console=ttyS0 lpj=2800170 panic=1 rtc.hctosys=0 tsc=reliable no_timer_check clocksource=kvm-clock reboot=t virtio_mmio.device=4K@0xd0000000:5".

(** one element of [fs_shares]: tag, guest path, read-only, slot *)
Definition fs_share : Type := string * string * bool * Z.

Definition fs_param (i : nat) (s : fs_share) : string :=
  let '(tag, guest_path, readonly, slot) := s in
  mmio_param (0xD0010000 + slot * 0x1000) (8 + slot)
  +:+ (if decide (guest_path = "/") then ""
       else " nkr.fs" +:+ dec (Z.of_nat i) +:+ "=" +:+ tag +:+ " nkr.fsm" +:+ dec (Z.of_nat i)
            +:+ "=" +:+ guest_path
            +:+ (if readonly then " nkr.fsr" +:+ dec (Z.of_nat i) +:+ "=ro" else "")).

Definition blk_share_param (i : nat) (s : string * string) : string :=
  let '(dev, guest_mnt) := s in
  " nkr.blk" +:+ dec (Z.of_nat i) +:+ "=" +:+ dev +:+ " nkr.blkm" +:+ dec (Z.of_nat i)
  +:+ "=" +:+ guest_mnt.

Definition concat_params (ss : list string) : string := foldr String.append "" ss.

Definition root_params (pmem : bool) (rootfs_tag : option string) : string :=
  if pmem then
    mmio_param PMEM_MMIO_ADDR PMEM_IRQ
    +:+ " memmap=8G!4G root=/dev/pmem0 rootfstype=ext4 rootflags=dax rw rootdelay=1"
  else match rootfs_tag with
       | Some tag => " root=" +:+ tag +:+ " rootfstype=virtiofs rw nkr.rootfs=" +:+ tag
       | None => " root=/dev/vda rw"
       end.

Definition cmdline (guest_ip : string) (block_configs : list (Z * Z)) (fs_shares : list fs_share)
    (blk_share_mounts : list (string * string)) (pmem balloon_enabled : bool)
    (rootfs_tag : option string) : string :=
  cmdline_base
  +:+ concat_params (map (fun '(addr, irq) => mmio_param addr irq) block_configs)
  +:+ (if pmem then " memmap=8G!4G root=/dev/pmem0 rootflags=dax rw" else "")
  +:+ concat_params (imap fs_param fs_shares)
  +:+ concat_params (imap blk_share_param blk_share_mounts)
  +:+ (if balloon_enabled then mmio_param BALLOON_MMIO_ADDR BALLOON_IRQ else "")
  +:+ mmio_param CONSOLE_MMIO_ADDR CONSOLE_IRQ
  +:+ root_params pmem rootfs_tag
  +:+ " init=/sbin/init nkr.ip=" +:+ guest_ip +:+ " " +:+ String "000" "".

(** What the guest's virtio-mmio driver takes from its command line: the address and
    the interrupt of every parameter [virtio_mmio.device=4K@<hex>:<dec>], in order. *)
Definition parse_mmio (tok : string) : option (Z * Z) :=
  rest ← strip_prefix "virtio_mmio.device=4K@0x" tok;
  '(a, i) ← split_once ":" rest;
  addr ← read_number 16 a; irq ← read_number 10 i; Some (addr, irq).
Definition announced (s : string) : list (Z * Z) := omap parse_mmio (split_on " " s).
(** The kernel keeps the first [limit] bytes of its command line (COMMAND_LINE_SIZE, about 1024
    according to the source, which measures nothing). *)
Definition kept (limit : nat) (s : string) : string := String.substring 0 limit s.
Lemma cmdline_kept limit s : (String.length s <= limit)%nat -> kept limit s = s.
Proof.
  unfold kept. revert limit. induction s as [|c s IH]; intros [|n] Hl; cbn in *; try done; [lia|]. by rewrite IH by lia.
Qed.

(** ** Reading the command line back *)
Definition no_space (s : string) : Prop := char_in " " s = false.

Lemma no_space_app s1 s2 : no_space (s1 +:+ s2) <-> no_space s1 /\ no_space s2.
Proof. unfold no_space. rewrite char_in_app. apply orb_false_iff. Qed.

(** A group of parameters is empty or starts with its separator. *)
Definition params (s : string) : Prop := s = "" \/ exists t, s = String " " t.

(** [announces s l]: appending the parameters [s] announces [l]. *)
Definition announces (s : string) (l : list (Z * Z)) : Prop :=
  params s /\ forall s0, announced (s0 +:+ s) = announced s0 ++ l.

Lemma announces_nil : announces "" [].
Proof. split; [by left|]. intros s0. by rewrite app_nil_string, app_nil_r. Qed.

Lemma announces_app s1 s2 l1 l2 :
  announces s1 l1 -> announces s2 l2 -> announces (s1 +:+ s2) (l1 ++ l2).
Proof.
  intros [[->|[t ->]] H1] [H2p H2].
  - specialize (H1 ""). rewrite append_empty in H1. apply (f_equal length) in H1.
    rewrite length_app in H1. destruct l1; simpl in *; [|lia]. by split.
  - split; [right; exists (t +:+ s2); by rewrite append_cons|].
    intros s0. by rewrite <- string_app_assoc, H2, H1, app_assoc.
Qed.

Lemma announces_word w :
  no_space w -> announces (String " " w) (match parse_mmio w with Some d => [d] | None => [] end).
Proof.
  intros Hw. split; [right; by exists w|]. intros s0. unfold announced.
  rewrite split_on_app, omap_app, (split_on_plain _ w Hw). by f_equal.
Qed.

Lemma announces_concat ss ls :
  Forall2 announces ss ls -> announces (concat_params ss) (concat ls).
Proof.
  induction 1 as [|s l ss ls Hs _ IH]; simpl; [apply announces_nil|by apply announces_app].
Qed.

Definition mmio_token (addr irq : Z) : string :=
  "virtio_mmio.device=4K@" +:+ hex8 addr +:+ ":" +:+ dec irq.

Lemma mmio_token_no_space addr irq : 0 <= addr -> 0 <= irq -> no_space (mmio_token addr irq).
Proof.
  intros Ha Hi. unfold mmio_token. rewrite !no_space_app. unfold no_space.
  rewrite hex8_plain, dec_plain by done. done.
Qed.

Lemma mmio_token_parse addr irq :
  is_u64 addr -> is_u64 irq -> parse_mmio (mmio_token addr irq) = Some (addr, irq).
Proof.
  intros Ha Hi. destruct (hex8_read addr Ha) as (h & Eh & Hh).
  assert (Hc : char_in ":" h = false).
  { pose proof (hex8_plain ":" addr) as Hp. rewrite Eh, char_in_app in Hp.
    apply orb_false_iff in Hp as [_ Hp]; [done|unfold is_u64 in Ha; lia|done..]. }
  unfold mmio_token, parse_mmio. rewrite Eh.
  replace ("virtio_mmio.device=4K@" +:+ ("0x" +:+ h) +:+ ":" +:+ dec irq)
    with ("virtio_mmio.device=4K@0x" +:+ (h +:+ String ":" (dec irq)))
    by (rewrite string_app_assoc; reflexivity).
  rewrite strip_prefix_app. simpl. rewrite split_once_plain by done. simpl.
  by rewrite Hh, dec_read.
Qed.

Lemma mmio_param_announces addr irq :
  is_u64 addr -> is_u64 irq -> announces (mmio_param addr irq) [(addr, irq)].
Proof.
  intros Ha Hi. change (mmio_param addr irq) with (String " " (mmio_token addr irq)).
  pose proof (announces_word (mmio_token addr irq)) as H. rewrite mmio_token_parse in H by done.
  apply H, mmio_token_no_space; [unfold is_u64 in Ha|unfold is_u64 in Hi]; lia.
Qed.

(** a parameter [key=value] of another driver: its first character is not a [v] *)
Lemma other_param c k v :
  c <> "v"%char -> no_space (String c k) -> no_space v ->
  announces (String " " (String c k) +:+ v) [].
Proof.
  intros Hc Hk Hv. pose proof (announces_word (String c k +:+ v)) as H.
  rewrite append_cons in *. replace (parse_mmio _) with (@None (Z * Z)) in H.
  - apply H. rewrite <- append_cons. by apply no_space_app.
  - unfold parse_mmio. destruct (strip_prefix _ _) as [r|] eqn:E; [|done].
    apply strip_prefix_some in E. rewrite append_cons in E. congruence.
Qed.

Lemma concat_nils {A B} (xs : list A) : concat (map (fun _ : A => @nil B) xs) = [].
Proof. by induction xs. Qed.

Lemma fs_param_announces i tag guest_path readonly slot :
  no_space tag -> no_space guest_path -> 0 <= slot < 2 ^ 32 ->
  announces (fs_param i (tag, guest_path, readonly, slot)) [(0xD0010000 + slot * 0x1000, 8 + slot)].
Proof.
  intros Ht Hg Hs. unfold fs_param.
  change [(0xD0010000 + slot * 0x1000, 8 + slot)] with ([(0xD0010000 + slot * 0x1000, 8 + slot)] ++ []).
  apply announces_app; [apply mmio_param_announces; unfold is_u64; lia|].
  case_decide; [apply announces_nil|].
  assert (Hd : no_space (dec (Z.of_nat i))) by (apply dec_plain; [lia|done]).
  replace (" nkr.fs" +:+ _) with
    ((" nkr.fs" +:+ (dec (Z.of_nat i) +:+ "=" +:+ tag))
     +:+ (" nkr.fsm" +:+ (dec (Z.of_nat i) +:+ "=" +:+ guest_path))
     +:+ (if readonly then " nkr.fsr" +:+ (dec (Z.of_nat i) +:+ "=ro") else ""))
    by (destruct readonly; rewrite !string_app_assoc; reflexivity).
  apply (announces_app _ _ [] []); [|apply (announces_app _ _ [] [])].
  - apply other_param; [done|done|]. by rewrite !no_space_app.
  - apply other_param; [done|done|]. by rewrite !no_space_app.
  - destruct readonly; [|apply announces_nil]. apply other_param; [done|done|].
    by rewrite !no_space_app.
Qed.

Lemma blk_share_param_announces i dev guest_mnt :
  no_space dev -> no_space guest_mnt -> announces (blk_share_param i (dev, guest_mnt)) [].
Proof.
  intros Hd Hg. unfold blk_share_param.
  assert (Hi : no_space (dec (Z.of_nat i))) by (apply dec_plain; [lia|done]).
  replace (" nkr.blk" +:+ _) with
    ((" nkr.blk" +:+ (dec (Z.of_nat i) +:+ "=" +:+ dev))
     +:+ (" nkr.blkm" +:+ (dec (Z.of_nat i) +:+ "=" +:+ guest_mnt)))
    by (rewrite !string_app_assoc; reflexivity).
  apply (announces_app _ _ [] []); apply other_param; try done; by rewrite !no_space_app.
Qed.

(** a constant group of parameters that names no virtio-mmio device *)
Lemma constant_params s :
  announced s = [] -> announces (String " " s) [].
Proof.
  intros Hs. split; [right; by exists s|]. intros s0. unfold announced in *.
  by rewrite split_on_app, omap_app, Hs.
Qed.

Lemma root_params_announces pmem rootfs_tag :
  (forall tag, rootfs_tag = Some tag -> no_space tag) ->
  announces (root_params pmem rootfs_tag) (if pmem then [(PMEM_MMIO_ADDR, PMEM_IRQ)] else []).
Proof.
  intros Ht. unfold root_params. destruct pmem; [|destruct rootfs_tag as [tag|]].
  - apply (announces_app _ _ [_] []); [by apply mmio_param_announces|by apply constant_params].
  - specialize (Ht tag eq_refl).
    replace (" root=" +:+ _) with ((" root=" +:+ tag) +:+ " rootfstype=virtiofs rw" +:+ (" nkr.rootfs=" +:+ tag))
      by (rewrite !string_app_assoc; reflexivity).
    apply (announces_app _ _ [] []); [|apply (announces_app _ _ [] [])].
    + by apply other_param.
    + by apply constant_params.
    + by apply other_param.
  - by apply constant_params.
Qed.

Lemma imap_announces {A} (P : A -> Prop) (g : A -> list (Z * Z)) (f : nat -> A -> string) (l : list A) :
  (forall i x, P x -> announces (f i x) (g x)) -> Forall P l ->
  announces (concat_params (imap f l)) (concat (map g l)).
Proof.
  intros Hf H. revert f Hf. induction H as [|x l Hx _ IH]; intros f Hf; [apply announces_nil|].
  rewrite imap_cons. simpl. apply announces_app; [by apply Hf|].
  apply IH. intros i y Hy. by apply Hf.
Qed.

Lemma concat_singletons {A B} (g : A -> B) (l : list A) : concat (map (fun x => [g x]) l) = map g l.
Proof. induction l as [|x l IH]; simpl; congruence. Qed.

Definition fs_ok (s : fs_share) : Prop :=
  let '(tag, guest_path, _, slot) := s in no_space tag /\ no_space guest_path /\ 0 <= slot < 2 ^ 32.
Definition fs_window (s : fs_share) : Z * Z :=
  let '(_, _, _, slot) := s in (0xD0010000 + slot * 0x1000, 8 + slot).
Definition mount_ok (s : string * string) : Prop := no_space (fst s) /\ no_space (snd s).
Definition config_ok (d : Z * Z) : Prop := is_u64 (fst d) /\ is_u64 (snd d).

Lemma fs_params_announce fs_shares :
  Forall fs_ok fs_shares ->
  announces (concat_params (imap fs_param fs_shares)) (map fs_window fs_shares).
Proof.
  intros H. rewrite <- concat_singletons. apply (imap_announces fs_ok); [|done].
  intros i [[[tag path] ro] slot] (? & ? & ?). by apply fs_param_announces.
Qed.

Lemma blk_params_announce mounts :
  Forall mount_ok mounts -> announces (concat_params (imap blk_share_param mounts)) [].
Proof.
  intros H. rewrite <- (concat_nils (B := Z * Z) mounts). apply (imap_announces mount_ok); [|done].
  intros i [dev mnt] [? ?]. by apply blk_share_param_announces.
Qed.

Lemma block_params_announce configs :
  Forall config_ok configs ->
  announces (concat_params (map (fun '(addr, irq) => mmio_param addr irq) configs)) configs.
Proof.
  intros H. replace configs with (concat (map (fun d => [d]) configs)) at 2
    by (rewrite concat_singletons; apply map_id).
  apply announces_concat. induction H as [|[a i] l [? ?] _ IH]; constructor; [|done].
  by apply mmio_param_announces.
Qed.

(** what the guest reads on the command line [run] builds *)
Lemma cmdline_announced guest_ip block_configs fs_shares blk_share_mounts pmem balloon rootfs_tag :
  no_space guest_ip ->
  Forall config_ok block_configs -> Forall fs_ok fs_shares -> Forall mount_ok blk_share_mounts ->
  (forall tag, rootfs_tag = Some tag -> no_space tag) ->
  announced (cmdline guest_ip block_configs fs_shares blk_share_mounts pmem balloon rootfs_tag) =
  (0xD0000000, 5) :: block_configs
  ++ map fs_window fs_shares
  ++ (if balloon then [(BALLOON_MMIO_ADDR, BALLOON_IRQ)] else [])
  ++ (CONSOLE_MMIO_ADDR, CONSOLE_IRQ) :: (if pmem then [(PMEM_MMIO_ADDR, PMEM_IRQ)] else []).
Proof.
  intros Hip Hblk Hfs Hbs Htag. unfold cmdline.
  match goal with |- announced (cmdline_base +:+ ?rest) = _ :: ?l => assert (Ha : announces rest l) end.
  - apply announces_app; [by apply block_params_announce|apply (announces_app _ _ [] _)];
      [destruct pmem; [by apply constant_params|apply announces_nil]|].
    + apply announces_app; [by apply fs_params_announce|].
      apply (announces_app _ _ [] _); [by apply blk_params_announce|].
      apply announces_app; [destruct balloon; [by apply mmio_param_announces|apply announces_nil]|].
      apply (announces_app _ _ [_]); [by apply mmio_param_announces|].
      rewrite <- (app_nil_r (if pmem then _ else _)).
      apply announces_app; [by apply root_params_announces|].
      replace (" init=/sbin/init nkr.ip=" +:+ _) with
        (" init=/sbin/init" +:+ (" nkr.ip=" +:+ guest_ip) +:+ (" " +:+ String "000" "")) by done.
      apply (announces_app _ _ [] []); [by apply constant_params|].
      apply (announces_app _ _ [] []); [by apply other_param|by apply constant_params].
  - destruct Ha as [_ ->]. done.
Qed.

(** ** The assignment of pages and interrupt lines (run) *)

(** [VmConfig] (src/cli.rs) *)
Record VmConfig := mkConfig {
  hash : string; name : string; ram_mb : Z; chrs : Z; vm_id : Z;
  disks : list string; kernel_path : string; initramfs_path : option string;
  port_forwards : list string; volumes : list string; env_vars : list string;
  tap_name : option string; shares : list string; rootfs : option string;
  use_pmem : bool; balloon_mb : Z; balloon_idle_mb : Z; balloon_decay_secs : Z;
  burst : bool; cell_id : Z;
}.

(** What the host answers: [canonicalize], whether a path is a regular file, whether
    the image passes [fsck], whether it opens as a block device, the outcome of
    [VirtioFsDevice::new] for a tag ([None]: not connected; [Some dax]: the size of its
    DAX window, when it has one), and the outcome of [VirtioPmemDevice::new]. *)
Record host_view := mkHost {
  canonicalize : string -> option string;
  is_file : string -> bool;
  fsck_ok : string -> bool;
  opens : string -> bool;
  fs_connects : string -> option (option Z);
  pmem_maps : string -> option Z;
}.

Inductive device := DevNet | DevBlock (i : nat) | DevPmem | DevFs (slot : Z) | DevBalloon | DevConsole.

(** a page registered with KVM: its device, its address, its interrupt line and the
    [datamatch] of its ioeventfds at offset 0x50 *)
Record window := mkWindow { w_dev : device; w_addr : Z; w_irq : Z; w_queues : list Z }.

Record placement := mkPlacement {
  windows : list window;
  block_configs : list (Z * Z);
  fs_shares : list fs_share;
  blk_share_mounts : list (string * string);
  kvm_slots : list (Z * Z * Z);  (** slot, guest-physical address, size *)
}.
#[export] Instance eta_placement : Eta placement := fun p =>
  mkPlacement (windows p) (block_configs p) (fs_shares p) (blk_share_mounts p) (kvm_slots p).

Definition base_block_irq : Z := 6.
Definition base_block_addr : Z := 0xD0001000.
Definition base_share_addr : Z := 0xD0010000.
Definition base_share_irq : Z := VIRTIO_FS_BASE_IRQ.

(** an early return with [Err], or the placement so far *)
Definition place (A : Type) : Type := outcome (option A).
Definition pbind {A B} (x : place A) (f : A -> place B) : place B :=
  match x with Done (Some a) => f a | Done None => Done None | Panic w => Panic w end.

(** a block device for the file [path], number [length (block_configs p)] *)
Definition add_block (h : host_view) (path : string) (p : placement) : place placement :=
  if opens h path then
    let i := length (block_configs p) in
    let addr := base_block_addr + Z.of_nat i * 0x1000 in
    let irq := base_block_irq + Z.of_nat i in
    Done (Some (p <| windows ::= fun ws => ws ++ [mkWindow (DevBlock i) addr irq [0]] |>
                  <| block_configs ::= fun bs => bs ++ [(addr, irq)] |>))
  else Panic ExplicitPanic.

Fixpoint add_disks (h : host_view) (paths : list string) (p : placement) : place placement :=
  match paths with
  | [] => Done (Some p)
  | path :: paths => pbind (add_block h path p) (add_disks h paths)
  end.

Definition fs_tag (cell_id vm_id slot : Z) : string :=
  "nkrfsc" +:+ dec cell_id +:+ "v" +:+ dec vm_id +:+ "s" +:+ dec slot.

(** a connected VirtIO-FS device in a slot *)
Definition add_fs (tag guest_path : string) (readonly : bool) (slot : Z) (dax : option Z)
    (p : placement) : placement :=
  let addr := base_share_addr + slot * 0x1000 in
  p <| windows ::= fun ws => ws ++ [mkWindow (DevFs slot) addr (base_share_irq + slot) [0; 1]] |>
    <| fs_shares ::= fun fs => fs ++ [(tag, guest_path, readonly, slot)] |>
    <| kvm_slots ::= fun ks =>
         ks ++ match dax with
               | Some size => [(3 + slot, VIRTIO_FS_DAX_GUEST_PHYS + slot * 0x40000000, size)]
               | None => []
               end |>.

Definition add_rootfs (h : host_view) (c : VmConfig) (p : placement) : place placement :=
  match rootfs c with
  | None => Done (Some p)
  | Some path =>
      match canonicalize h path with
      | None => Panic ExplicitPanic
      | Some _ =>
          let tag := fs_tag (cell_id c) (vm_id c) 0 in
          match fs_connects h tag with
          | Some dax => Done (Some (add_fs tag "/" true 0 dax p))
          | None => Done None
          end
      end
  end.

(** ["/dev/vd" + (b'a' + idx as u8)] *)
Definition block_dev_name (idx : nat) : string :=
  "/dev/vd" +:+ String (ascii_of_N (Z.to_N (u8 (97 + Z.of_nat idx)))) "".

Definition add_share (h : host_view) (c : VmConfig) (slot : Z) (spec : string) (p : placement)
  : place placement :=
  match splitn 3 ":" spec with
  | host_path :: guest_path :: rest =>
      let readonly := match rest with m :: _ => bool_decide (m = "ro") | [] => false end in
      match canonicalize h host_path with
      | None => Panic ExplicitPanic
      | Some host_abs =>
          let tag := fs_tag (cell_id c) (vm_id c) slot in
          if is_file h host_abs then
            if fsck_ok h host_abs then
              let blk_idx := length (block_configs p) in
              pbind (add_block h host_abs p) (fun p =>
                Done (Some (p <| blk_share_mounts ::= fun ms =>
                                   ms ++ [(block_dev_name blk_idx, guest_path)] |>)))
            else Done None
          else
            match fs_connects h tag with
            | Some dax => Done (Some (add_fs tag guest_path readonly slot dax p))
            | None => Panic ExplicitPanic
            end
      end
  | _ => Done (Some p)
  end.

Fixpoint add_shares (h : host_view) (c : VmConfig) (slot : Z) (specs : list string) (p : placement)
  : place placement :=
  match specs with
  | [] => Done (Some p)
  | spec :: specs => pbind (add_share h c slot spec p) (add_shares h c (slot + 1) specs)
  end.

Definition add_net (p : placement) : placement :=
  p <| windows ::= fun ws => ws ++ [mkWindow DevNet 0xD0000000 5 [0]] |>.

Definition add_pmem (h : host_view) (c : VmConfig) (p : placement) : place (placement * option (Z * Z)) :=
  match disks c with
  | disk :: _ =>
      if use_pmem c then
        match pmem_maps h disk with
        | None => Done None
        | Some len =>
            Done (Some (p <| kvm_slots ::= fun ks => ks ++ [(2, PMEM_GUEST_PHYS_ADDR, len)] |>
                          <| windows ::= fun ws => ws ++ [mkWindow DevPmem PMEM_MMIO_ADDR PMEM_IRQ [0]] |>,
                        Some (PMEM_GUEST_PHYS_ADDR, len)))
        end
      else Done (Some (p, None))
  | [] => Done (Some (p, None))
  end.

Definition add_fixed (p : placement) : placement :=
  p <| windows ::= fun ws => ws ++ [mkWindow DevBalloon BALLOON_MMIO_ADDR BALLOON_IRQ [0];
                                    mkWindow DevConsole CONSOLE_MMIO_ADDR CONSOLE_IRQ [1]] |>.

(** [register_guest_memory]: the two RAM regions are the KVM slots 0 and 1 *)
Definition ram_slots (ram_bytes : Z) : list (Z * Z * Z) :=
  [(0, 0, 0xA0000); (1, 0x100000, ram_bytes - 0x100000)].

(** [run], from the disks to the command line: [None] is an early [Err]. *)
Definition place_devices (h : host_view) (c : VmConfig)
  : place (placement * option (Z * Z)) :=
  let p0 := mkPlacement [] [] [] [] [] in
  pbind (add_disks h (disks c) p0) (fun p =>
  pbind (add_rootfs h c p) (fun p =>
  let rootfs_slot_count := match rootfs c with Some _ => 1 | None => 0 end in
  pbind (add_shares h c rootfs_slot_count (shares c) p) (fun p =>
  let p := add_net p in
  let p := p <| kvm_slots ::= fun ks => ks ++ ram_slots (ram_mb c * 0x100000) |> in
  pbind (add_pmem h c p) (fun '(p, pmem) =>
  Done (Some (add_fixed p, pmem)))))).

Definition run_cmdline (c : VmConfig) (guest_ip : string) (p : placement) (pmem : option (Z * Z)) : string :=
  cmdline guest_ip (block_configs p) (fs_shares p) (blk_share_mounts p)
    (match pmem with Some _ => true | None => false end) true
    (match rootfs c with Some _ => Some (fs_tag (cell_id c) (vm_id c) 0) | None => None end).

(** ** The invariant of the assignment *)
Definition block_window (i : nat) : window :=
  mkWindow (DevBlock i) (base_block_addr + Z.of_nat i * 0x1000) (base_block_irq + Z.of_nat i) [0].
Definition share_slot (s : fs_share) : Z := let '(_, _, _, slot) := s in slot.
Definition share_window (s : fs_share) : window :=
  mkWindow (DevFs (share_slot s)) (base_share_addr + share_slot s * 0x1000)
    (base_share_irq + share_slot s) [0; 1].
Definition win_id (w : window) : Z * Z := (w_addr w, w_irq w).

Definition share_plain (s : fs_share) : Prop :=
  let '(tag, guest_path, _, _) := s in no_space tag /\ no_space guest_path.
Definition mount_named (n : nat) (m : string * string) : Prop :=
  no_space (snd m) /\ exists i, (i < n)%nat /\ fst m = block_dev_name i.
Definition dax_slot (h : host_view) (bound : Z) (k : Z * Z * Z) : Prop :=
  exists slot tag size, 0 <= slot < bound /\ fs_connects h tag = Some (Some size)
  /\ k = (3 + slot, VIRTIO_FS_DAX_GUEST_PHYS + slot * 0x40000000, size).

(** [count] devices have been placed, in VirtIO-FS slots below [bound]. *)
Record placed (h : host_view) (count : nat) (bound : Z) (p : placement) : Prop := {
  pl_count : (length (block_configs p) + length (fs_shares p) <= count)%nat;
  pl_configs : block_configs p = map win_id (map block_window (seq 0 (length (block_configs p))));
  pl_windows : windows p ≡ₚ map block_window (seq 0 (length (block_configs p)))
                            ++ map share_window (fs_shares p);
  pl_slots : NoDup (map share_slot (fs_shares p));
  pl_bound : Forall (fun s => 0 <= share_slot s < bound) (fs_shares p);
  pl_plain : Forall share_plain (fs_shares p);
  pl_mounts : Forall (mount_named (length (block_configs p))) (blk_share_mounts p);
  pl_dax : Forall (dax_slot h bound) (kvm_slots p);
  pl_dax_nodup : NoDup (map (fun '(k, _, _) => k) (kvm_slots p));
}.

Lemma pbind_inv {A B} (x : place A) (f : A -> place B) b :
  pbind x f = Done (Some b) -> exists a, x = Done (Some a) /\ f a = Done (Some b).
Proof. destruct x as [[a|]|]; simpl; [eauto|done..]. Qed.

Lemma mount_named_mono n n' m : (n <= n')%nat -> mount_named n m -> mount_named n' m.
Proof. intros Hn [Hs (i & Hi & E)]. split; [done|]. exists i. split; [lia|done]. Qed.

Lemma dax_slot_mono h b b' k : b <= b' -> dax_slot h b k -> dax_slot h b' k.
Proof. intros Hb (slot & tag & size & Hs & Hc & E). exists slot, tag, size. split_and!; [lia..|done|done]. Qed.

Lemma add_block_placed h path p p' count bound :
  placed h count bound p -> add_block h path p = Done (Some p') ->
  placed h (S count) bound p' /\ length (block_configs p') = S (length (block_configs p))
  /\ blk_share_mounts p' = blk_share_mounts p.
Proof.
  intros [Hcnt Hcf Hw Hs Hb Hp Hm Hd Hdn]. unfold add_block. destruct (opens h path); [|done].
  intros [= <-]. simpl. rewrite length_app. simpl. rewrite Nat.add_1_r.
  split; [|done]. split; simpl; rewrite ?length_app; simpl; rewrite ?Nat.add_1_r; try done; try lia.
  - rewrite seq_S, !map_app. simpl. by rewrite <- Hcf.
  - rewrite seq_S, map_app, Hw. simpl. rewrite <- !(assoc (++)). f_equiv. by rewrite (comm (++)).
  - eapply Forall_impl; [|exact Hm]. intros m. apply mount_named_mono. lia.
Qed.

Lemma add_disks_placed h paths p p' count bound :
  placed h count bound p -> add_disks h paths p = Done (Some p') ->
  placed h (count + length paths) bound p' /\ blk_share_mounts p' = blk_share_mounts p.
Proof.
  revert p count. induction paths as [|path paths IH]; intros p count Hp; simpl.
  - intros [= <-]. by rewrite Nat.add_0_r.
  - intros (p1 & E1 & E2)%pbind_inv. destruct (add_block_placed _ _ _ _ _ _ Hp E1) as (Hp1 & _ & Hm).
    destruct (IH _ _ Hp1 E2) as (Hp2 & Hm2). split; [|congruence].
    by replace (count + S (length paths))%nat with (S count + length paths)%nat by lia.
Qed.

Lemma placed_bound h count bound bound' p :
  placed h count bound p -> bound <= bound' -> placed h count bound' p.
Proof.
  intros [Hcnt Hcf Hw Hs Hb Hp Hm Hd Hdn] Hle. split; try done.
  - eapply Forall_impl; [|exact Hb]. simpl. intros s. lia.
  - eapply Forall_impl; [|exact Hd]. intros k. by apply dax_slot_mono.
Qed.

Lemma fs_tag_plain c v s : 0 <= c -> 0 <= v -> 0 <= s -> no_space (fs_tag c v s).
Proof.
  intros Hc Hv Hs. unfold fs_tag. rewrite !no_space_app. unfold no_space.
  by rewrite !dec_plain by done.
Qed.

Lemma add_fs_placed h count slot p tag path ro dax :
  placed h count slot p -> 0 <= slot -> no_space tag -> no_space path ->
  fs_connects h tag = Some dax -> placed h (S count) (slot + 1) (add_fs tag path ro slot dax p).
Proof.
  intros [Hcnt Hcf Hw Hs Hb Hp Hm Hd Hdn] Hslot Ht Hpath Hc. split; simpl; try done.
  - rewrite length_app. simpl. lia.
  - rewrite map_app, Hw. simpl. by rewrite <- (assoc (++)).
  - rewrite map_app. apply list.NoDup_app. split_and!; [done| |apply NoDup_singleton].
    intros x Hx Hx'. apply list_elem_of_singleton in Hx'. simpl in Hx'. subst x.
    apply list_elem_of_fmap in Hx as (s & Hs1 & Hs2).
    rewrite list.Forall_forall in Hb. apply Hb in Hs2. lia.
  - apply Forall_app. split; [|by repeat constructor; simpl; lia].
    eapply Forall_impl; [|exact Hb]. simpl. intros s. lia.
  - apply Forall_app. split; [done|]. by repeat constructor.
  - apply Forall_app. split; [eapply Forall_impl; [|exact Hd]; intros k; apply dax_slot_mono; lia|].
    destruct dax as [size|]; [|done]. apply list.Forall_singleton. exists slot, tag, size.
    split_and!; [lia..|done|done].
  - destruct dax as [size|]; [|by rewrite app_nil_r]. rewrite map_app. simpl.
    apply list.NoDup_app. split_and!; [done| |apply NoDup_singleton].
    intros x Hx Hx'. apply list_elem_of_singleton in Hx'.
    apply list_elem_of_fmap in Hx as ([[k gpa] sz] & Hk0 & Hk).
    rewrite list.Forall_forall in Hd. apply Hd in Hk as (sl & ? & ? & ? & _ & Ek).
    injection Ek as Ek _ _. simpl in *. lia.
Qed.

Lemma add_rootfs_placed h c count p p' :
  placed h count 0 p -> 0 <= cell_id c -> 0 <= vm_id c -> add_rootfs h c p = Done (Some p') ->
  placed h (count + match rootfs c with Some _ => 1 | None => 0 end)
    (match rootfs c with Some _ => 1 | None => 0 end) p' /\ blk_share_mounts p' = blk_share_mounts p.
Proof.
  intros Hp Hc Hv. unfold add_rootfs. destruct (rootfs c) as [path|]; [|intros [= <-]; by rewrite Nat.add_0_r].
  destruct (canonicalize h path); [|done]. destruct (fs_connects h _) as [dax|] eqn:E; [|done].
  intros [= <-]. split; [|done]. rewrite Nat.add_1_r.
  apply (add_fs_placed h count 0); [done|done|by apply fs_tag_plain|done|done].
Qed.

Lemma splitn_plain n c s : no_space s -> Forall no_space (splitn n c s).
Proof.
  revert s. induction n as [|n IH]; intros s Hs; [constructor|].
  destruct n as [|n]; [by repeat constructor|].
  change (splitn (S (S n)) c s) with
    (match split_once c s with Some (a, b) => a :: splitn (S n) c b | None => [s] end).
  destruct (split_once c s) as [[a b]|] eqn:E; [|by repeat constructor].
  apply split_once_some in E as [-> _]. apply no_space_app in Hs as [Ha Hb].
  constructor; [done|]. apply IH. unfold no_space in *. rewrite char_in_cons in Hb.
  by apply orb_false_iff in Hb as [_ Hb].
Qed.

Lemma add_share_placed h c slot spec count p p' :
  placed h count slot p -> 0 <= slot -> 0 <= cell_id c -> 0 <= vm_id c -> no_space spec ->
  add_share h c slot spec p = Done (Some p') -> placed h (S count) (slot + 1) p'.
Proof.
  intros Hp Hslot Hc Hv Hspec. unfold add_share. pose proof (splitn_plain 3 ":" spec Hspec) as Hpl.
  assert (Hskip : placed h (S count) (slot + 1) p).
  { apply (placed_bound _ _ slot); [|lia]. destruct Hp. split; try done. lia. }
  destruct (splitn 3 ":" spec) as [|host_path [|guest_path rest]]; [by intros [= <-]..|].
  apply list.Forall_cons in Hpl as [_ [Hg _]%list.Forall_cons].
  destruct (canonicalize h host_path) as [host_abs|]; [|done]. destruct (is_file h host_abs).
  - destruct (fsck_ok h host_abs); [|done]. intros (p1 & E1 & [= <-])%pbind_inv.
    destruct (add_block_placed _ _ _ _ _ _ Hp E1) as (Hp1 & Hlen & Hm).
    apply (placed_bound _ _ _ (slot + 1)) in Hp1; [|lia].
    destruct Hp1 as [Hcnt Hcf Hw Hs Hb Hpp Hmm Hd Hdn]. split; try done. simpl.
    apply Forall_app. split; [done|]. apply list.Forall_singleton. split; [done|].
    exists (length (block_configs p)). split; [lia|done].
  - destruct (fs_connects h _) as [dax|] eqn:E; [|done]. intros [= <-].
    apply add_fs_placed; [done|done|by apply fs_tag_plain|done|done].
Qed.

Lemma add_shares_placed h c specs slot count p p' :
  placed h count slot p -> 0 <= slot -> 0 <= cell_id c -> 0 <= vm_id c -> Forall no_space specs ->
  add_shares h c slot specs p = Done (Some p') ->
  placed h (count + length specs) (slot + Z.of_nat (length specs)) p'.
Proof.
  revert slot count p. induction specs as [|spec specs IH]; intros slot count p Hp Hslot Hc Hv Hspecs; simpl.
  - intros [= <-]. by rewrite Nat.add_0_r, Z.add_0_r.
  - apply list.Forall_cons in Hspecs as [Hspec Hspecs]. intros (p1 & E1 & E2)%pbind_inv.
    pose proof (add_share_placed _ _ _ _ _ _ _ Hp Hslot Hc Hv Hspec E1) as Hp1.
    eapply IH in E2; [|exact Hp1|lia|done..].
    replace (count + S (length specs))%nat with (S count + length specs)%nat by lia.
    replace (slot + Z.of_nat (S (length specs))) with (slot + 1 + Z.of_nat (length specs)) by lia. done.
Qed.

(** A completed assignment: the shares and blocks, the network, the RAM slots, then the
    persistent memory when it is used, the balloon and the console. *)
Lemma place_devices_inv h c p pmem :
  0 <= cell_id c -> 0 <= vm_id c -> Forall no_space (shares c) ->
  place_devices h c = Done (Some (p, pmem)) ->
  exists q,
    placed h (length (disks c) + 1 + length (shares c)) (1 + Z.of_nat (length (shares c))) q
    /\ block_configs p = block_configs q /\ fs_shares p = fs_shares q
    /\ blk_share_mounts p = blk_share_mounts q
    /\ windows p = windows q ++ mkWindow DevNet 0xD0000000 5 [0]
         :: match pmem with Some _ => [mkWindow DevPmem PMEM_MMIO_ADDR PMEM_IRQ [0]] | None => [] end
         ++ [mkWindow DevBalloon BALLOON_MMIO_ADDR BALLOON_IRQ [0];
             mkWindow DevConsole CONSOLE_MMIO_ADDR CONSOLE_IRQ [1]]
    /\ kvm_slots p = kvm_slots q ++ ram_slots (ram_mb c * 0x100000)
         ++ match pmem with Some (gpa, len) => [(2, gpa, len)] | None => [] end
    /\ (forall gpa len, pmem = Some (gpa, len) ->
         gpa = PMEM_GUEST_PHYS_ADDR /\ exists disk, pmem_maps h disk = Some len).
Proof.
  intros Hc Hv Hsp. unfold place_devices. set (p0 := mkPlacement [] [] [] [] []).
  assert (Hp0 : placed h 0 0 p0) by (split; simpl; by repeat constructor).
  intros (p1 & E1 & (p2 & E2 & (q & E3 & E4)%pbind_inv)%pbind_inv)%pbind_inv.
  destruct (add_disks_placed _ _ _ _ _ _ Hp0 E1) as (Hp1 & _).
  destruct (add_rootfs_placed _ _ _ _ _ Hp1 Hc Hv E2) as (Hp2 & _).
  exists q. split.
  { apply add_shares_placed with (count := (length (disks c) +
      match rootfs c with Some _ => 1 | None => 0 end)%nat) in E3; [|done|destruct (rootfs c); lia|done..].
    apply (placed_bound _ _ _ (1 + Z.of_nat (length (shares c)))) in E3; [|destruct (rootfs c); lia].
    destruct E3. split; try done. destruct (rootfs c); simpl in *; lia. }
  revert E4. unfold add_pmem. destruct (disks c) as [|disk ds]; [|destruct (use_pmem c)].
  - intros [= <- <-]. simpl.
    split_and!; try done; by rewrite <- !(assoc (++)).
  - destruct (pmem_maps h disk) as [len|] eqn:E; [|done]. intros [= <- <-]. simpl.
    split_and!; [done..| | |intros gpa l [= <- <-]; eauto]; by rewrite <- !(assoc (++)).
  - intros [= <- <-]. simpl.
    split_and!; try done; by rewrite <- !(assoc (++)).
Qed.

(** ** The theorems *)

(** Few enough devices for the MMIO layout: the blocks end before the shares, the shares
    before the persistent-memory page. *)
Definition few_devices (c : VmConfig) : Prop :=
  (length (disks c) + 1 + length (shares c) <= 15)%nat.
Definition ids_ok (c : VmConfig) : Prop := 0 <= cell_id c /\ 0 <= vm_id c.

Lemma block_dev_name_plain i : (i < 15)%nat -> no_space (block_dev_name i).
Proof.
  intros Hi. unfold block_dev_name. apply no_space_app. split; [done|].
  assert (Hall : forallb (fun i => negb (char_in " " (String (ascii_of_N (Z.to_N (u8 (97 + Z.of_nat i)))) "")))
    (seq 0 15) = true) by reflexivity.
  rewrite forallb_forall in Hall. specialize (Hall i). rewrite in_seq in Hall.
  unfold no_space. by apply negb_true_iff, Hall; lia.
Qed.

Lemma share_window_id s : fs_window s = win_id (share_window s).
Proof. by destruct s as [[[tag path] ro] slot]. Qed.

Lemma map_share_window (fs : list fs_share) : map fs_window fs = map win_id (map share_window fs).
Proof. rewrite map_map. apply map_ext, share_window_id. Qed.

(** C39. The guest is told about exactly the devices that exist.  When [run] places the
    devices (at most fourteen disks and shares besides the root file system, no space in
    the share specifications), and the command line fits into what the guest's kernel keeps
    of it, [limit] bytes, which nothing in the program checks,
    what the guest's virtio-mmio driver reads on the kernel command line is, up to
    order, the address and the interrupt of every page registered with KVM; and each
    block device shared as a directory is named after its position among the block
    devices the guest is told about. *)
Theorem guest_finds_devices limit h c guest_ip p pmem :
  ids_ok c -> few_devices c -> Forall no_space (shares c) -> no_space guest_ip ->
  place_devices h c = Done (Some (p, pmem)) ->
  (String.length (run_cmdline c guest_ip p pmem) <= limit)%nat ->
  announced (kept limit (run_cmdline c guest_ip p pmem)) ≡ₚ map win_id (windows p)
  /\ forall dev mnt, (dev, mnt) ∈ blk_share_mounts p -> exists i,
       (i < 15)%nat /\ dev = block_dev_name i
       /\ block_configs p !! i = Some (win_id (block_window i))
       /\ block_window i ∈ windows p.
Proof.
  intros [Hc Hv] Hfew Hsp Hip E Hlen. rewrite (cmdline_kept _ _ Hlen). clear Hlen.
  destruct (place_devices_inv _ _ _ _ Hc Hv Hsp E) as (q & [Hcnt Hcf Hw Hs Hb Hp Hm Hd Hdn] & Ecf & Efs & Ems & Ew & _).
  unfold few_devices in Hfew. set (n := length (block_configs q)) in *. split.
  - unfold run_cmdline. rewrite cmdline_announced, Ew, Ecf, Efs; [|done|..].
    + rewrite map_app, Hw, map_app, <- Hcf, map_share_window. simpl.
      rewrite !map_app. destruct pmem as [[gpa len]|]; simpl; solve_Permutation.
    + rewrite Ecf, Hcf. apply list.Forall_forall. intros d (w & -> & (i & -> & Hi%elem_of_seq)%list_elem_of_fmap)%list_elem_of_fmap.
      unfold config_ok, win_id, block_window, base_block_addr, base_block_irq. simpl. words.
    + rewrite Efs. apply list.Forall_forall. intros [[[tag path] ro] slot] Hin.
      rewrite list.Forall_forall in Hp, Hb. destruct (Hp _ Hin) as [? ?]. specialize (Hb _ Hin).
      simpl in *. split_and!; [done|done|lia|lia].
    + rewrite Ems. eapply Forall_impl; [|exact Hm]. intros [dev mnt] [Hmnt (i & Hi & Hdev)].
      simpl in Hdev. subst dev. split; [|done]. simpl. apply block_dev_name_plain. lia.
    + intros tag. destruct (rootfs c); [|done]. intros [= <-]. by apply fs_tag_plain.
  - intros dev mnt. rewrite Ems. rewrite list.Forall_forall in Hm. intros [_ (i & Hi & Hdev)]%Hm.
    simpl in Hdev. subst dev.
    exists i. split_and!; [lia|done| |].
    + rewrite Ecf, Hcf, map_map, list_lookup_fmap, lookup_seq_lt by done. done.
    + rewrite Ew, elem_of_app. left. rewrite Hw, elem_of_app. left.
      apply list_elem_of_fmap. exists i. split; [done|]. apply elem_of_seq. lia.
Qed.

(** two pages *)
Definition pages_apart (a b : Z) : Prop := a + 0x1000 <= b \/ b + 0x1000 <= a.

Lemma NoDup_below b (l1 l2 : list Z) :
  NoDup l1 -> NoDup l2 -> Forall (fun x => x < b) l1 -> Forall (fun x => b <= x) l2 ->
  NoDup (l1 ++ l2).
Proof.
  intros H1 H2 Hl Hr. apply list.NoDup_app. split_and!; [done| |done].
  intros x Hx1 Hx2. rewrite list.Forall_forall in Hl, Hr. specialize (Hl x Hx1). specialize (Hr x Hx2). simpl in *. lia.
Qed.

Definition block_addrs (n : nat) : list Z := map (fun i => w_addr (block_window i)) (seq 0 n).
Definition share_addrs (fs : list fs_share) : list Z := map (fun s => w_addr (share_window s)) fs.

Lemma block_addrs_ok n :
  (n <= 15)%nat -> NoDup (block_addrs n)
  /\ Forall (fun a => 0xD0001000 <= a < 0xD0010000 /\ a mod 0x1000 = 0) (block_addrs n).
Proof.
  intros Hn. split.
  - apply NoDup_fmap_2; [|apply NoDup_seq]. intros i j. unfold block_window. simpl. lia.
  - apply List.Forall_map, list.Forall_forall. intros i Hi%elem_of_seq.
    unfold block_window, base_block_addr. simpl. lia.
Qed.

Lemma share_addrs_ok fs :
  NoDup (map share_slot fs) -> Forall (fun s => 0 <= share_slot s < 16) fs ->
  NoDup (share_addrs fs)
  /\ Forall (fun a => 0xD0010000 <= a < 0xD0020000 /\ a mod 0x1000 = 0) (share_addrs fs).
Proof.
  intros Hnd Hb. split.
  - replace (share_addrs fs) with (map (fun s => base_share_addr + s * 0x1000) (map share_slot fs))
      by (rewrite map_map; done).
    apply NoDup_fmap_2; [|done]. intros i j. lia.
  - apply List.Forall_map. eapply Forall_impl; [|exact Hb]. intros s.
    unfold share_window, base_share_addr. simpl. lia.
Qed.

(** the pages of a completed assignment, in the order of their addresses *)
Lemma placed_addrs_perm h c p pmem :
  ids_ok c -> few_devices c -> Forall no_space (shares c) ->
  place_devices h c = Done (Some (p, pmem)) ->
  exists n fs,
    (n <= 15)%nat /\ NoDup (map share_slot fs) /\ Forall (fun s => 0 <= share_slot s < 16) fs
    /\ map w_addr (windows p) ≡ₚ [0xD0000000] ++ block_addrs n ++ share_addrs fs
         ++ match pmem with Some _ => [PMEM_MMIO_ADDR] | None => [] end
         ++ [BALLOON_MMIO_ADDR; CONSOLE_MMIO_ADDR].
Proof.
  intros [Hc Hv] Hfew Hsp E. unfold few_devices in Hfew.
  destruct (place_devices_inv _ _ _ _ Hc Hv Hsp E) as (q & [Hcnt Hcf Hw Hs Hb Hp Hm Hd Hdn] & _ & _ & _ & Ew & _).
  exists (length (block_configs q)), (fs_shares q). split_and!; [lia|done| |].
  - eapply Forall_impl; [|exact Hb]. simpl. intros s. lia.
  - unfold block_addrs, share_addrs. rewrite Ew, map_app, Hw, map_app, !map_map.
    destruct pmem; simpl; solve_Permutation.
Qed.

Lemma placed_addrs h c p pmem :
  ids_ok c -> few_devices c -> Forall no_space (shares c) ->
  place_devices h c = Done (Some (p, pmem)) ->
  NoDup (map w_addr (windows p))
  /\ Forall (fun a => 0xD0000000 <= a /\ a + 0x1000 <= 0xD0051000 /\ a mod 0x1000 = 0)
       (map w_addr (windows p)).
Proof.
  intros Hids Hfew Hsp E.
  destruct (placed_addrs_perm _ _ _ _ Hids Hfew Hsp E) as (n & fs & Hn & Hnd & Hb & Hperm).
  rewrite Hperm. destruct (block_addrs_ok n Hn) as [Hbn Hba]. destruct (share_addrs_ok fs Hnd Hb) as [Hsn Hsa].
  set (rest := match pmem with Some _ => _ | None => _ end ++ _).
  assert (Hrn : NoDup rest) by (subst rest; destruct pmem; apply (bool_decide_unpack _); by vm_compute).
  assert (Hra : Forall (fun a => 0xD0020000 <= a /\ a + 0x1000 <= 0xD0051000 /\ a mod 0x1000 = 0) rest)
    by (subst rest; destruct pmem; apply (bool_decide_unpack _); by vm_compute).
  split.
  - apply (NoDup_below 0xD0001000); [apply NoDup_singleton| |by repeat constructor|].
    + apply (NoDup_below 0xD0010000); [done| | |].
      * apply (NoDup_below 0xD0020000); [done|done| |];
          (eapply Forall_impl; [|eassumption]); simpl; intros; lia.
      * eapply Forall_impl; [|exact Hba]. simpl. intros; lia.
      * apply Forall_app. split; (eapply Forall_impl; [|eassumption]); simpl; intros; lia.
    + rewrite !Forall_app. split_and!; (eapply Forall_impl; [|eassumption]); simpl; intros; lia.
  - rewrite !Forall_app. split_and!; [by repeat constructor|..];
      (eapply Forall_impl; [|eassumption]); simpl; intros; lia.
Qed.

(** The MMIO pages do not overlap.  With at most fourteen disks and shares, every
    page registered with KVM is a page of [0xD0000000 .. 0xD0051000), two devices never
    share a byte of one, and the RAM of the guest stays below the first of them exactly
    when it has at most 3328 MB. *)
Theorem windows_disjoint h c p pmem :
  ids_ok c -> few_devices c -> Forall no_space (shares c) -> 1 < ram_mb c ->
  place_devices h c = Done (Some (p, pmem)) ->
  (forall i j wi wj, windows p !! i = Some wi -> windows p !! j = Some wj -> i <> j ->
     pages_apart (w_addr wi) (w_addr wj))
  /\ Forall (fun w => 0xD0000000 <= w_addr w /\ w_addr w + 0x1000 <= 0xD0051000) (windows p)
  /\ (Forall (fun w => forall k gpa len, In (k, gpa, len) (ram_slots (ram_mb c * 0x100000)) ->
                gpa + len <= w_addr w) (windows p) <-> ram_mb c <= 3328).
Proof.
  intros Hids Hfew Hsp Hram E. destruct (placed_addrs _ _ _ _ Hids Hfew Hsp E) as [Hnd Hal].
  rewrite List.Forall_map in Hal. split_and!.
  - intros i j wi wj Hi Hj Hij. rewrite list.Forall_forall in Hal.
    pose proof (Hal wi ltac:(by eapply list_elem_of_lookup_2)) as (_ & _ & Ai).
    pose proof (Hal wj ltac:(by eapply list_elem_of_lookup_2)) as (_ & _ & Aj).
    assert (w_addr wi <> w_addr wj).
    { intros Heq. apply Hij. eapply NoDup_lookup; [exact Hnd|..].
      - rewrite list_lookup_fmap, Hi. done.
      - rewrite list_lookup_fmap, Hj. simpl. by rewrite Heq. }
    unfold pages_apart. lia.
  - eapply Forall_impl; [|exact Hal]. simpl. intros; lia.
  - split.
    + intros Hf. assert (Hin : exists w, w ∈ windows p /\ w_addr w = 0xD0000000).
      { destruct Hids. destruct (place_devices_inv _ _ _ _ H H0 Hsp E) as (q & _ & _ & _ & _ & -> & _).
        eexists. rewrite elem_of_app, elem_of_cons. split; [right; by left|done]. }
      destruct Hin as (w & Hw & Ew). rewrite list.Forall_forall in Hf.
      specialize (Hf w Hw 1 0x100000 _ (or_intror (or_introl eq_refl))). lia.
    + intros Hle. eapply Forall_impl; [|exact Hal]. simpl. intros w Hw k gpa len [[= <- <- <-]|[[= <- <- <-]|[]]]; lia.
Qed.

(** the sizes of the host mappings for which the guest-physical map has room *)
Definition sizes_ok (h : host_view) : Prop :=
  (forall tag size, fs_connects h tag = Some (Some size) -> 0 < size <= 2 ^ 30)
  /\ (forall disk len, pmem_maps h disk = Some len -> 0 < len <= 2 ^ 32).

(** a KVM memory slot, by its number *)
Definition slot_range (ram_mb : Z) (k : Z * Z * Z) : Prop :=
  let '(s, gpa, len) := k in
  (s = 0 /\ gpa = 0 /\ len = 0xA0000)
  \/ (s = 1 /\ gpa = 0x100000 /\ len = ram_mb * 0x100000 - 0x100000)
  \/ (s = 2 /\ gpa = 2 ^ 32 /\ 0 < len <= 2 ^ 32)
  \/ (3 <= s /\ gpa = 2 ^ 33 + (s - 3) * 2 ^ 30 /\ 0 < len <= 2 ^ 30).

Lemma kvm_slots_ranges h c p pmem :
  ids_ok c -> Forall no_space (shares c) -> sizes_ok h ->
  place_devices h c = Done (Some (p, pmem)) ->
  NoDup (map (fun '(k, _, _) => k) (kvm_slots p)) /\ Forall (slot_range (ram_mb c)) (kvm_slots p).
Proof.
  intros [Hc Hv] Hsp [Hdax Hpmem] E.
  destruct (place_devices_inv _ _ _ _ Hc Hv Hsp E) as (q & [Hcnt Hcf Hw Hs Hb Hp Hm Hd Hdn] & _ & _ & _ & _ & Ek & Epm).
  assert (Hq : Forall (slot_range (ram_mb c)) (kvm_slots q)).
  { eapply Forall_impl; [|exact Hd]. intros k (slot & tag & size & Hslot & Hcon & ->).
    specialize (Hdax _ _ Hcon). unfold slot_range, VIRTIO_FS_DAX_GUEST_PHYS. lia. }
  assert (Hge : Forall (fun k => 3 <= k) (map (fun '(k, _, _) => k) (kvm_slots q))).
  { apply List.Forall_map. eapply Forall_impl; [|exact Hd].
    intros k (slot & tag & size & Hslot & Hcon & ->). lia. }
  assert (Hpm : Forall (slot_range (ram_mb c)) (match pmem with Some (gpa, len) => [(2, gpa, len)] | None => [] end)).
  { destruct pmem as [[gpa len]|]; [|done]. destruct (Epm _ _ eq_refl) as (-> & disk & Hdisk).
    specialize (Hpmem _ _ Hdisk). apply list.Forall_singleton.
    unfold slot_range, PMEM_GUEST_PHYS_ADDR. lia. }
  rewrite Ek, !map_app. split.
  - rewrite (comm (++)). apply (NoDup_below 3); [|done| |done].
    + destruct pmem as [[gpa len]|]; apply (bool_decide_unpack _); by vm_compute.
    + destruct pmem as [[gpa len]|]; repeat constructor.
  - rewrite !Forall_app. split_and!; [done| |done].
    repeat (apply list.Forall_cons; split); [| |by apply list.Forall_nil]; unfold slot_range; lia.
Qed.

(** The guest-physical memory map.  When the DAX windows have at most 1 GiB, the
    persistent memory at most 4 GiB and the RAM at most 3328 MB, the KVM memory slots of
    a VM have distinct numbers, disjoint guest-physical ranges, and none of them meets
    the MMIO pages. *)
Theorem memory_map_disjoint h c p pmem :
  ids_ok c -> Forall no_space (shares c) -> sizes_ok h -> 1 < ram_mb c <= 3328 ->
  place_devices h c = Done (Some (p, pmem)) ->
  (forall i k gpa len, kvm_slots p !! i = Some (k, gpa, len) ->
     gpa + len <= 0xD0000000 \/ 0xD0051000 <= gpa)
  /\ (forall i j k gpa len k' gpa' len', i <> j ->
       kvm_slots p !! i = Some (k, gpa, len) -> kvm_slots p !! j = Some (k', gpa', len') ->
       k <> k' /\ (gpa + len <= gpa' \/ gpa' + len' <= gpa)).
Proof.
  intros Hids Hsp Hsz Hram E. destruct (kvm_slots_ranges _ _ _ _ Hids Hsp Hsz E) as [Hnd Hr].
  assert (Hrange : forall i k, kvm_slots p !! i = Some k -> slot_range (ram_mb c) k)
    by (intros i k; by apply Forall_lookup_1).
  split.
  - intros i k gpa len Hi%Hrange. unfold slot_range in Hi. lia.
  - intros i j k gpa len k' gpa' len' Hij Hi Hj. assert (Hk : k <> k').
    { intros <-. apply Hij. eapply NoDup_lookup; [exact Hnd|..];
        rewrite list_lookup_fmap; [rewrite Hi|rewrite Hj]; done. }
    apply Hrange in Hi, Hj. unfold slot_range in Hi, Hj. lia.
Qed.

(** ** A concrete VM *)
Module LayoutExample.
Definition host : host_view :=
  mkHost Some (fun p => bool_decide (p = "/data/app.ext4")) (fun _ => true) (fun _ => true)
    (fun _ => Some (Some 0x20000000)) (fun _ => Some 0x10000000).
(** a shared root file system, a directory, an image file *)
Definition vm : VmConfig :=
  mkConfig "h" "web" 512 1 5 [] "nanolinux" None [] [] [] None
    ["/srv/addons:/mnt/addons:ro"; "/data/app.ext4:/data"] (Some "/rootfs") false 0 0 600 true 1.
Definition plan : placement :=
  match place_devices host vm with
  | Done (Some (p, _)) => p
  | _ => mkPlacement [] [] [] [] []
  end.
Lemma plan_eq : place_devices host vm = Done (Some (plan, None)).
Proof. reflexivity. Qed.
Lemma ids : ids_ok vm.
Proof. by vm_compute. Qed.
Lemma plain : Forall no_space (shares vm).
Proof. by repeat constructor. Qed.
Lemma sizes : sizes_ok host.
Proof. split; [intros tag size [= <-]|intros disk len [= <-]]; by vm_compute. Qed.
End LayoutExample.

Example plan_pages :
  map win_id (windows LayoutExample.plan) =
  [(0xD0010000, 8); (0xD0011000, 9); (0xD0001000, 6); (0xD0000000, 5); (0xD0040000, 10); (0xD0050000, 11)].
Proof. reflexivity. Qed.

(** nine shares whose directories have names of fifty characters: the kernel finds seven of them, no
    balloon and no console, and is told neither its root nor init *)
Definition long_shares : list string :=
  map (fun i => "/srv/a:/mnt/" +:+ dec (Z.of_nat i) +:+ String.string_of_list_ascii (replicate 50 "a"%char)) (seq 0 9).
Definition crowded : VmConfig :=
  mkConfig "h" "web" 512 1 5 [] "nanolinux" None [] [] [] None long_shares (Some "/rootfs") false 0 0 600 true 1.
Example command_line_cut :
  match place_devices LayoutExample.host crowded with
  | Done (Some (p, pmem)) =>
      let s := run_cmdline crowded "10.0.1.6" p pmem in
      (String.length s, length (announced s), length (announced (kept 1024 s)), bool_decide ("init=/sbin/init" ∈ split_on " " (kept 1024 s)))
  | _ => (0, 0, 0, true)%nat
  end = (1442, 13, 9, false)%nat.
Proof. vm_compute. reflexivity. Qed.

Lemma guest_finds_devices_witness :
  announced (kept 1024 (run_cmdline LayoutExample.vm "10.0.1.6" LayoutExample.plan None))
    ≡ₚ [(0xD0010000, 8); (0xD0011000, 9); (0xD0001000, 6); (0xD0000000, 5); (0xD0040000, 10); (0xD0050000, 11)].
Proof.
  apply (guest_finds_devices 1024 LayoutExample.host LayoutExample.vm "10.0.1.6" LayoutExample.plan None).
  - apply LayoutExample.ids.
  - unfold few_devices. simpl. lia.
  - apply LayoutExample.plain.
  - reflexivity.
  - apply LayoutExample.plan_eq.
  - apply Nat.leb_le. vm_compute. reflexivity.
Defined.

Lemma windows_disjoint_witness :
  Forall (fun w => 0xD0000000 <= w_addr w /\ w_addr w + 0x1000 <= 0xD0051000)
    (windows LayoutExample.plan).
Proof.
  apply (windows_disjoint LayoutExample.host LayoutExample.vm LayoutExample.plan None).
  - apply LayoutExample.ids.
  - unfold few_devices. simpl. lia.
  - apply LayoutExample.plain.
  - by vm_compute.
  - apply LayoutExample.plan_eq.
Defined.

Lemma memory_map_disjoint_witness :
  kvm_slots LayoutExample.plan !! 0%nat = Some (3, 0x200000000, 0x20000000)
  /\ (0x200000000 + 0x20000000 <= 0xD0000000 \/ 0xD0051000 <= 0x200000000).
Proof.
  split; [reflexivity|].
  destruct (memory_map_disjoint LayoutExample.host LayoutExample.vm LayoutExample.plan None) as [H _].
  - apply LayoutExample.ids.
  - apply LayoutExample.plain.
  - apply LayoutExample.sizes.
  - by vm_compute.
  - apply LayoutExample.plan_eq.
  - exact (H 0%nat 3 0x200000000 0x20000000 eq_refl).
Defined.
