(* ===== verification/Paths.v ===== *)
(** * Paths (std::path, src/compose.rs)

    Rust's paths as text, and the resolution of the files a compose file names: first next
    to it, then in the central store. *)
From S2P Require Import Prelude Text Http Watchdog.

(** ** [std::path::Path] *)
Definition is_absolute (p : string) : bool := starts_with "/" p.
(** [a.join(b)] *)
Definition join (a b : string) : string :=
  if is_absolute b then b
  else if bool_decide (a = "") then b
  else if ends_with "/" a then a +:+ b else a +:+ "/" +:+ b.
(** the components after the root: empty ones and single dots are dropped, but for a first dot *)
Definition normal (p : string) : list string := filter (fun c => c <> "" /\ c <> ".") (split_on "/" p).
Definition components (p : string) : list string :=
  if bool_decide (List.hd "" (split_on "/" p) = ".") then "." :: normal p else normal p.
Definition file_name (p : string) : option string :=
  match list.last (components p) with
  | Some c => if bool_decide (c = ".." \/ c = ".") then None else Some c
  | None => None
  end.
(** the last dot of a file name that does not start it *)
Definition rsplit_dot (n : string) : option (string * string) :=
  match reverse (split_on "." n) with
  | after :: (_ :: _) as before =>
      let stem := join_with "." (reverse before) in
      if bool_decide (stem = "") then None else Some (stem, after)
  | _ => None
  end.
Definition extension (p : string) : option string := n ← file_name p; snd <$> rsplit_dot n.
Definition file_stem (p : string) : option string :=
  n ← file_name p; Some (default n (fst <$> rsplit_dot n)).
(** [path.starts_with(dir)], component by component *)
Definition path_starts_with (p dir : string) : bool :=
  bool_decide (is_absolute p = is_absolute dir) && bool_decide (take (length (components dir)) (components p) = components dir).
Definition parent (p : string) : option string :=
  match reverse (components p) with
  | [] => None
  | _ :: rest => Some ((if is_absolute p then "/" else "") +:+ join_with "/" (reverse rest))
  end.

(** ** What a compose run sees of the host *)
Inductive file_kind := IsFile | IsDir.
#[export] Instance file_kind_eq_dec : EqDecision file_kind.
Proof. solve_decision. Defined.
Record disk_view := mkView {
  kind_of : string -> option file_kind;    (* through links *)
  is_link : string -> bool;
  canonicalize : string -> option string;
  nkr_data_dir : string;
  exe_dir : option string;
}.

Section resolution.
Context (fs : disk_view).

Definition exists_path (p : string) : bool := match kind_of fs p with Some _ => true | None => false end.
Definition canonical_or_self (p : string) : string := default p (canonicalize fs p).
Definition is_within_dir (p dir : string) : bool := path_starts_with (canonical_or_self p) (canonical_or_self dir).
Definition is_ext4_disk (p : string) : bool :=
  match extension p with Some e => eq_ignore_ascii_case e "ext4" | None => false end.

Definition sanitize_component (s : string) : string :=
  String.string_of_list_ascii (map (fun c => if is_alnum c || is_one_of "-_" c then c else "_"%char) (String.list_ascii_of_string s)).

Definition resolve_disk (disk yaml_dir : string) : string :=
  let here := join yaml_dir disk in
  if is_absolute disk && (exists_path disk || is_link fs disk) then disk
  else if negb (is_absolute disk) && (exists_path here || is_link fs here) then here
  else
    let central := join (join (nkr_data_dir fs) "images") (default disk (file_name disk)) in
    if exists_path central then central else here.

(** the names a service or its first disk may have for each of the stock images *)
Definition keyword_map : list (list string * string) :=
  [(["postgres"; "pg"; "db"], "pg.cpio.gz"); (["odoo"], "odoo.cpio.gz");
   (["nginx"; "proxy"; "web"], "nginx.cpio.gz"); (["redis"], "redis.cpio.gz")].

Definition first_existing (ps : list string) : option string := find exists_path ps.

Definition resolve_initramfs (explicit : option string) (service_name : string) (disks : list string) (yaml_dir : string)
  : option string :=
  let dir := join (nkr_data_dir fs) "initramfs" in
  match explicit with
  | Some p =>
      if is_absolute p && exists_path p then Some p
      else if negb (is_absolute p) && exists_path (join yaml_dir p) then Some (join yaml_dir p)
      else match first_existing (match file_name p with Some n => [join dir n] | None => [] end) with
      | Some c => Some c
      | None => Some (join yaml_dir p)
      end
  | None =>
      if negb (exists_path dir) then None
      else
        let name := to_lowercase service_name in
        let stems := omap (fun d => to_lowercase <$> file_stem d) disks in
        let keyed := filter (fun '(kws, _) => existsb (fun kw => bool_decide (name = kw) || bool_decide (kw ∈ stems)) kws = true) keyword_map in
        first_existing (join dir (name +:+ ".cpio.gz") :: map (fun s => join dir (s +:+ ".cpio.gz")) stems
          ++ map (fun '(_, f) => join dir f) keyed)
  end.

Definition resolve_kernel (explicit : option string) (yaml_dir : string) : string :=
  let asked := match explicit with
    | Some p => if is_absolute p then [p] else [join yaml_dir p]
    | None => [] end in
  let nanolinux := join (join (nkr_data_dir fs) "kernel") "nanolinux" in
  let sibling := match exe_dir fs with Some e => [join e "nanolinux"] | None => [] end in
  match first_existing (asked ++ nanolinux :: sibling) with
  | Some k => k
  | None => match explicit with Some p => join yaml_dir p | None => "nanolinux" end
  end.

Definition resolve_snapshot_dir (yaml_dir : string) (cwd : option string) : string :=
  let base := join (nkr_data_dir fs) "snapshots" in
  if exists_path base then
    let abs := if is_absolute yaml_dir then yaml_dir
      else match canonicalize fs yaml_dir with Some c => c | None => default yaml_dir cwd end in
    join base (default "default" (file_name abs))
  else join yaml_dir ".nkr/snapshots".

(** the host side of a volume or a share, [host:guest[:mode]], relative to the compose file *)
Definition resolve_host (yaml_dir spec : string) : string :=
  match splitn 3 ":" spec with
  | h :: rest => if negb (bool_decide (rest = [])) && negb (is_absolute h) then join_with ":" (join yaml_dir h :: rest) else spec
  | [] => spec
  end.
(** the same for the rootfs of a service *)
Definition resolve_rootfs (yaml_dir rootfs : string) : string :=
  if is_absolute rootfs then rootfs
  else if exists_path (join yaml_dir rootfs) then join yaml_dir rootfs
  else
    let central := join (join (nkr_data_dir fs) "rootfs") rootfs in
    if exists_path central then central else rootfs.

(** ** Theorems *)
Lemma join_absolute a b : is_absolute a = true -> is_absolute (join a b) = true.
Proof.
  unfold join, is_absolute. intros [t ->]%starts_with_spec. destruct (starts_with "/" b) eqn:E; [done|].
  case_bool_decide; [done|]. destruct (ends_with _ _); apply starts_with_spec; eexists; rewrite string_app_assoc; done.
Qed.

Lemma join_abs a b : is_absolute b = true -> join a b = b.
Proof. unfold join. by intros ->. Qed.

Lemma normal_join a b : is_absolute b = false -> normal (join a b) = normal a ++ normal b.
Proof.
  intros Hb. unfold join. rewrite Hb. case_bool_decide as Ha; [by subst a|]. unfold normal.
  destruct (ends_with "/" a) eqn:E.
  - assert (exists a', a = a' +:+ "/") as [a' ->].
    { unfold ends_with in E. apply bool_decide_eq_true in E.
      exists (String.string_of_list_ascii (take (String.length a - 1) (String.list_ascii_of_string a))).
      apply list_ascii_inj. rewrite list_ascii_app, String.list_ascii_of_string_of_list_ascii. rewrite <- E.
      symmetry. apply take_drop. }
    rewrite string_app_assoc. change ("/" +:+ b) with (String "/" b). rewrite split_on_app, list.filter_app. f_equal.
    change (a' +:+ "/") with (a' +:+ String "/" ""). rewrite split_on_app, list.filter_app. cbn. by rewrite app_nil_r.
  - change ("/" +:+ b) with (String "/" b). by rewrite split_on_app, list.filter_app.
Qed.

Lemma file_name_normal p n : file_name p = Some n -> list.last (normal p) = Some n.
Proof.
  unfold file_name. destruct (list.last (components p)) as [c|] eqn:E; [|done].
  case_bool_decide as Hn; [done|]. intros [= ->]. unfold components in E. case_bool_decide; [|done].
  destruct (normal p) as [|x l]; [|done]. cbn in E. injection E as <-. tauto.
Qed.

Lemma normal_file_name p n : is_absolute p = true -> list.last (normal p) = Some n -> n <> ".." -> file_name p = Some n.
Proof.
  intros Ha Hl Hn. unfold file_name, components. unfold is_absolute in Ha. apply starts_with_spec in Ha as [t ->].
  rewrite append_cons. cbn [split_on]. rewrite Ascii.eqb_refl. cbn [List.hd]. rewrite bool_decide_eq_false_2 by done.
  rewrite append_cons in Hl. rewrite Hl. rewrite bool_decide_eq_false_2; [done|]. intros [->| ->]; [done|].
  assert (Hin : "." ∈ normal (String "/" ("" +:+ t))) by (by apply last_Some_elem_of).
  unfold normal in Hin. apply list_elem_of_filter in Hin as [[_ Hd] _]. done.
Qed.

Lemma file_name_dots p n : file_name p = Some n -> n <> "..".
Proof.
  unfold file_name. destruct (list.last _); [|done]. case_bool_decide as Hn; [done|]. intros [= ->] ->. tauto.
Qed.

Lemma file_name_join a b n : is_absolute a = true -> is_absolute b = false -> file_name b = Some n -> file_name (join a b) = Some n.
Proof.
  intros Ha Hb Hf. apply normal_file_name; [by apply join_absolute| |by eapply file_name_dots].
  rewrite normal_join by done. apply file_name_normal in Hf. by rewrite last_app, Hf.
Qed.

Lemma resolve_disk_settles yaml_dir disk n : is_absolute yaml_dir = true -> is_absolute (nkr_data_dir fs) = true ->
  file_name disk = Some n ->
  is_absolute (resolve_disk disk yaml_dir) = true
  /\ resolve_disk (resolve_disk disk yaml_dir) yaml_dir = resolve_disk disk yaml_dir.
Proof.
  intros Hy Hd Hn. assert (Hp : forall p, is_absolute p = true -> exists_path p || is_link fs p = true ->
    is_absolute p = true /\ resolve_disk p yaml_dir = p) by (intros p Ha Hx; unfold resolve_disk; by rewrite Ha, Hx).
  destruct (is_absolute disk && (exists_path disk || is_link fs disk)) eqn:E1;
    [assert (E : resolve_disk disk yaml_dir = disk) by (unfold resolve_disk; by rewrite E1);
     rewrite E; apply andb_true_iff in E1 as [? ?]; auto|].
  destruct (negb (is_absolute disk) && (exists_path (join yaml_dir disk) || is_link fs (join yaml_dir disk))) eqn:E2.
  { assert (E : resolve_disk disk yaml_dir = join yaml_dir disk) by (unfold resolve_disk; by rewrite E1, E2).
    rewrite E. apply andb_true_iff in E2 as [_ ?]. apply Hp; [by apply join_absolute|done]. }
  destruct (exists_path (join (join (nkr_data_dir fs) "images") n)) eqn:E3.
  { assert (E : resolve_disk disk yaml_dir = join (join (nkr_data_dir fs) "images") n)
      by (unfold resolve_disk; rewrite E1, E2, Hn; cbn [default from_option]; unfold id; by rewrite E3).
    rewrite E. apply Hp; [by apply join_absolute, join_absolute|by rewrite E3]. }
  assert (E : resolve_disk disk yaml_dir = join yaml_dir disk)
    by (unfold resolve_disk; rewrite E1, E2, Hn; cbn [default from_option]; unfold id; by rewrite E3).
  rewrite E. destruct (is_absolute disk) eqn:Ea.
  - rewrite (join_abs yaml_dir disk) in * by done. by rewrite E.
  - split; [by apply join_absolute|]. unfold resolve_disk. rewrite join_absolute by done. cbn [negb andb] in *.
    rewrite E2, (file_name_join _ _ n) by done. cbn [default from_option]. unfold id.
    rewrite E3. apply join_abs. by apply join_absolute.
Qed.

Lemma join_splitn n c s : (0 < n)%nat -> join_with c (splitn n c s) = s.
Proof.
  revert s. induction n as [|n IH]; intros s Hn; [lia|]. destruct n as [|n]; [done|].
  change (splitn (S (S n)) c s) with (match split_once c s with Some (a, b) => a :: splitn (S n) c b | None => [s] end).
  destruct (split_once c s) as [[a b]|] eqn:E; [|done]. apply split_once_some in E as [-> _].
  specialize (IH b ltac:(lia)). destruct (splitn (S n) c b) as [|x l] eqn:El.
  - exfalso. destruct n; cbn in El; [done|]. by destruct (split_once c b) as [[]|].
  - change (join_with c (a :: x :: l)) with (a +:+ String c (join_with c (x :: l))). by rewrite IH.
Qed.

Lemma char_in_join c a b : char_in c a = false -> char_in c b = false -> c <> "/"%char -> char_in c (join a b) = false.
Proof.
  intros Ha Hb Hc. assert (Hs : char_in c "/" = false) by (unfold char_in; cbn; rewrite orb_false_r; by apply Ascii.eqb_neq).
  unfold join. destruct (is_absolute b); [done|]. case_bool_decide; [done|].
  destruct (ends_with _ _); by rewrite !char_in_app, ?Ha, ?Hb, ?Hs.
Qed.

Lemma resolve_host_settles yaml_dir spec : is_absolute yaml_dir = true -> char_in ":" yaml_dir = false ->
  resolve_host yaml_dir (resolve_host yaml_dir spec) = resolve_host yaml_dir spec
  /\ (char_in ":" spec = true -> is_absolute (resolve_host yaml_dir spec) = true).
Proof.
  intros Hy Hc. assert (E : resolve_host yaml_dir spec = match split_once ":" spec with
    | Some (h, t) => if is_absolute h then spec else join yaml_dir h +:+ String ":" t
    | None => spec end).
  { unfold resolve_host. change (splitn 3 ":" spec) with (match split_once ":" spec with Some (a, b) => a :: splitn 2 ":" b | None => [spec] end).
    destruct (split_once ":" spec) as [[h t]|]; [|done].
    pose proof (join_splitn 2 ":" t ltac:(lia)) as Hj. destruct (splitn 2 ":" t) as [|x l] eqn:El.
    { cbn in El. by destruct (split_once ":" t) as [[]|]. }
    rewrite bool_decide_eq_false_2 by done. destruct (is_absolute h); [done|]. cbn [negb andb].
    change (join_with ":" (join yaml_dir h :: x :: l)) with (join yaml_dir h +:+ String ":" (join_with ":" (x :: l))). by rewrite Hj. }
  rewrite E. destruct (split_once ":" spec) as [[h t]|] eqn:Es.
  - pose proof (split_once_some _ _ _ _ Es) as [Hspec Hh]. destruct (is_absolute h) eqn:Ea.
    + split; [by rewrite E|]. intros _. rewrite Hspec. unfold is_absolute in *. apply starts_with_spec in Ea as [r ->].
      apply starts_with_spec. eexists. by rewrite string_app_assoc.
    + assert (Hj : char_in ":" (join yaml_dir h) = false) by by apply char_in_join.
      pose proof (join_absolute yaml_dir h Hy) as Ha. split.
      * unfold resolve_host. change (splitn 3 ":" ?s) with (match split_once ":" s with Some (a, b) => a :: splitn 2 ":" b | None => [s] end).
        rewrite split_once_plain by done. by rewrite Ha, andb_false_r.
      * intros _. unfold is_absolute in *. apply starts_with_spec in Ha as [r ->].
        apply starts_with_spec. eexists. by rewrite string_app_assoc.
  - rewrite E. split; [done|]. intros Hs. apply split_once_is_none in Es. congruence.
Qed.

(** The resolution settles: resolving a disk, or the host side of a volume, once more gives the
    same path, and the paths are absolute, so that neither a later stage nor a second run of
    the same compose file changes what a service uses. *)
Theorem resolution_settles yaml_dir disk n spec :
  is_absolute yaml_dir = true -> is_absolute (nkr_data_dir fs) = true -> char_in ":" yaml_dir = false ->
  file_name disk = Some n ->
  is_absolute (resolve_disk disk yaml_dir) = true
  /\ resolve_disk (resolve_disk disk yaml_dir) yaml_dir = resolve_disk disk yaml_dir
  /\ resolve_host yaml_dir (resolve_host yaml_dir spec) = resolve_host yaml_dir spec
  /\ (char_in ":" spec = true -> is_absolute (resolve_host yaml_dir spec) = true).
Proof.
  intros Hy Hd Hc Hn. split; [|split]; [apply (resolve_disk_settles yaml_dir disk n)..|apply resolve_host_settles]; done.
Qed.
End resolution.

(** ** Example *)
Module PathsExample.
Definition fs : disk_view := mkView (fun p => if bool_decide (p = "/mnt/nkr/images/odoo.ext4") then Some IsFile else None)
  (fun _ => false) (fun _ => None) "/mnt/nkr" None.
End PathsExample.

Theorem resolution_settles_witness :
  resolve_disk PathsExample.fs "disks/odoo.ext4" "/srv/acme" = "/mnt/nkr/images/odoo.ext4"
  /\ resolve_disk PathsExample.fs "/mnt/nkr/images/odoo.ext4" "/srv/acme" = "/mnt/nkr/images/odoo.ext4".
Proof.
  assert (E : resolve_disk PathsExample.fs "disks/odoo.ext4" "/srv/acme" = "/mnt/nkr/images/odoo.ext4") by (vm_compute; reflexivity).
  split; [exact E|].
  destruct (resolution_settles PathsExample.fs "/srv/acme" "disks/odoo.ext4" "odoo.ext4" "./files:/files" ltac:(vm_compute; reflexivity)
    ltac:(vm_compute; reflexivity) ltac:(vm_compute; reflexivity) ltac:(vm_compute; reflexivity)) as (_ & H & _).
  rewrite E in H. exact H.
Defined.
