(* ===== verification/Compose.v ===== *)
(** * Stacks (src/compose.rs)

    A compose file is a map of services.  [compose_up] turns each into the arguments of an
    [nkr run] process, [compose_down] stops the VMs of a file.  A service is rewritten by a row of
    stages, each a function on its record: paths, volumes that become disks, files that become
    overrides, the configuration of pgbouncer, a directory for the environment. *)
From S2P Require Import Prelude Text Sorting Http Watchdog Conf Registry State Resources Paths.

(** ** The YAML file *)
Record HealthCheck := mkHealthCheck { port : Z; initial_delay : Z; interval : Z; retries : Z }.
Record BuildConfig := mkBuild { nkrfile : string; build_context : string; size_mb : Z }.
Record ServiceConfig := mkService {
  sv_disks : list string; sv_rootfs : option string; ram : Z; sv_chrs : Z; id : option Z; nkr_name : option string;
  sv_ports : list string; volumes : list string; shares : list string; tap : option string;
  kernel : option string; initramfs : option string; healthcheck : option HealthCheck; build : option BuildConfig;
  environment : gmap string string; pmem : bool; burst : bool; sv_balloon_mb : Z; balloon_idle_mb : Z;
  balloon_decay_secs : Z; skip_warmup : bool; disabled : bool;
}.
#[export] Instance eta_service : Eta ServiceConfig := fun s =>
  mkService (sv_disks s) (sv_rootfs s) (ram s) (sv_chrs s) (id s) (nkr_name s) (sv_ports s) (volumes s) (shares s) (tap s)
    (kernel s) (initramfs s) (healthcheck s) (build s) (environment s) (pmem s) (burst s) (sv_balloon_mb s)
    (balloon_idle_mb s) (balloon_decay_secs s) (skip_warmup s) (disabled s).

(** the fields that the file leaves out *)
Definition default_initial_delay : Z := 3.
Definition default_interval : Z := 2.
Definition default_retries : Z := 60.
Definition default_ram : Z := 512.
Definition default_chrs : Z := 1.
Definition default_pmem : bool := true.
Definition default_burst : bool := true.
Definition default_balloon_decay_secs : Z := 600.
Definition default_health (p : Z) : HealthCheck := mkHealthCheck p default_initial_delay default_interval default_retries.
Definition empty_service : ServiceConfig :=
  mkService [] None default_ram default_chrs None None [] [] [] None None None None None ∅ default_pmem default_burst 0 0
    default_balloon_decay_secs false false.

Notation services := (gmap string ServiceConfig).
(** sorted by name, without those that are switched off *)
Definition sorted_services (svcs : services) : list (string * ServiceConfig) :=
  sort_by_key (fun e => str_key (fst e)) (map_to_list svcs).
Definition enabled_services (svcs : services) : list (string * ServiceConfig) :=
  filter (fun e => disabled (snd e) = false) (sorted_services svcs).

Section stages.
Context (fs : disk_view).

(** ** Paths *)
Definition resolve_build (yaml_dir : string) (b : BuildConfig) : BuildConfig :=
  mkBuild (join yaml_dir (nkrfile b)) (join yaml_dir (build_context b)) (size_mb b).

(** whether the initramfs is made anew; [mtime] are the times of change of the files *)
Definition needs_regen (mtime : string -> option Z) (binary : option string) (active : bool) (kernel_path : string)
    (initramfs : option string) : bool :=
  if active then false
  else match initramfs with
  | None => true
  | Some i =>
      if negb (exists_path fs i) then true
      else match mtime i with
      | None => true
      | Some it =>
          (match mtime kernel_path with Some kt => it <? kt | None => false end)
          || match b ← binary; mtime b with Some bt => it <? bt | None => false end
      end
  end.

(** [generate] is what the generator of an initramfs gives for the service *)
Definition resolve_service (mtime : string -> option Z) (binary : option string) (active : string -> bool)
    (generate : string -> option string) (stack_name yaml_dir name : string) (svc : ServiceConfig) : ServiceConfig :=
  let svc := svc <| sv_disks := map (fun d => resolve_disk fs d yaml_dir) (sv_disks svc) |> in
  let svc := match sv_rootfs svc with
    | Some r => svc <| sv_rootfs := Some (resolve_rootfs fs yaml_dir r) |>
                    <| shares := map (resolve_host yaml_dir) (shares svc) |>
    | None => svc end in
  let k := resolve_kernel fs (kernel svc) yaml_dir in
  let found := resolve_initramfs fs (initramfs svc) name (sv_disks svc) yaml_dir in
  let svc_name := default (stack_name +:+ "-" +:+ name) (nkr_name svc) in
  let made := if needs_regen mtime binary (active svc_name) k found
    then match generate name with Some p => Some p | None => found end else found in
  svc <| kernel := Some k |> <| initramfs := made |>
      <| volumes := map (resolve_host yaml_dir) (volumes svc) |>
      <| build := resolve_build yaml_dir <$> build svc |>.

(** ** Writable volumes become disks *)
Definition promotes (vol : string) : option (string * string) :=
  match splitn 3 ":" vol with
  | [h; g; m] => if bool_decide (m = "rw") && bool_decide (kind_of fs h = Some IsDir) then Some (h, g) else None
  | _ => None
  end.
Definition disk_of_volume (data_dir name guest : string) : string :=
  let stem := sanitize_component guest in
  join data_dir (sanitize_component name +:+ "-" +:+ trim_start_matches (String.length stem) "_" stem +:+ ".ext4").
(** [made]: the disk is there or [mkfs] succeeded; [None]: the stack is not started *)
Definition promote_volumes (made : string -> bool) (data_dir name : string) (svc : ServiceConfig) : option ServiceConfig :=
  let new := omap promotes (volumes svc) in
  if forallb (fun '(_, g) => made (disk_of_volume data_dir name g)) new
  then Some (svc <| volumes := filter (fun v => promotes v = None) (volumes svc) |>
                 <| shares ::= fun l => l ++ map (fun '(_, g) => disk_of_volume data_dir name g +:+ ":" +:+ g) new |>)
  else None.

(** ** Files become overrides *)
Definition will_become_shared_rootfs (svc : ServiceConfig) : bool :=
  match sv_rootfs svc, sv_disks svc with
  | Some _, _ => true
  | None, d :: _ => ends_with ".ext4" d
  | None, [] => false
  end.
Definition stage_dir (data_dir name : string) : string := join data_dir (sanitize_component name +:+ "-overrides").
Definition overrides_share (data_dir name : string) : string := stage_dir data_dir name +:+ ":/tmp/nkr-overrides:ro".
Definition add_share (s : string) (svc : ServiceConfig) : ServiceConfig :=
  if bool_decide (s ∈ shares svc) then svc else svc <| shares ::= fun l => l ++ [s] |>.
(** [environment.entry(k).or_insert(v)] *)
Definition or_insert (k v : string) (svc : ServiceConfig) : ServiceConfig :=
  match environment svc !! k with Some _ => svc | None => svc <| environment ::= <[k := v]> |> end.

(** the path on the guest of a volume that is a file; [copies]: whether the copy succeeds *)
Definition overridden (copies : string -> bool) (vol : string) : option string :=
  match splitn 3 ":" vol with
  | h :: g :: _ => if bool_decide (kind_of fs h = Some IsFile) && starts_with "/" g && copies vol then Some g else None
  | _ => None
  end.
Definition override_env (g : string) (svc : ServiceConfig) : ServiceConfig :=
  let share_path := "/tmp/nkr-overrides/" +:+ trim_start_matches (String.length g) "/" g in
  if bool_decide (g = "/etc/odoo/odoo.conf") then or_insert "ODOO_RC" share_path svc
  else if bool_decide (g = "/etc/pgbouncer/pgbouncer.ini") then or_insert "PGBOUNCER_INI" share_path svc
  else svc.
Definition stage_overrides (copies : string -> bool) (data_dir name : string) (svc : ServiceConfig) : ServiceConfig :=
  if negb (will_become_shared_rootfs svc) then svc
  else
    let staged := omap (overridden copies) (volumes svc) in
    let svc := fold_left (fun svc g => override_env g svc) staged svc in
    let svc := if bool_decide (staged = []) then svc else add_share (overrides_share data_dir name) svc in
    svc <| volumes := filter (fun v => overridden copies v = None) (volumes svc) |>.

(** ** pgbouncer *)
Definition env_or (svc : ServiceConfig) (k v : string) : string := default v (environment svc !! k).
Definition line (l : string) : string := l +:+ String LF "".
Definition pgbouncer_ini (svc : ServiceConfig) : string :=
  line "[databases]"
  +:+ line (env_or svc "DB_NAME" "*" +:+ " = host=" +:+ env_or svc "DB_HOST" "127.0.0.1"
        +:+ " port=" +:+ env_or svc "DB_PORT" "5432" +:+ " auth_user=" +:+ env_or svc "DB_USER" "postgres")
  +:+ line ""
  +:+ line "[pgbouncer]"
  +:+ line ("listen_addr = " +:+ env_or svc "LISTEN_ADDR" "0.0.0.0")
  +:+ line ("listen_port = " +:+ env_or svc "LISTEN_PORT" "6432")
  +:+ line "unix_socket_dir ="
  +:+ line "user = postgres"
  +:+ line "auth_file = /etc/pgbouncer/userlist.txt"
  +:+ line ("auth_type = " +:+ env_or svc "AUTH_TYPE" "plain")
  +:+ line ("pool_mode = " +:+ env_or svc "POOL_MODE" "transaction")
  +:+ line ("max_client_conn = " +:+ env_or svc "MAX_CLIENT_CONN" "200")
  +:+ line ("default_pool_size = " +:+ env_or svc "DEFAULT_POOL_SIZE" "20")
  +:+ line "ignore_startup_parameters = extra_float_digits"
  +:+ line "admin_users = postgres"
  +:+ line "server_reset_query = DISCARD ALL".
Definition userlist (svc : ServiceConfig) : string :=
  line (quote (env_or svc "DB_USER" "postgres") +:+ " " +:+ quote (env_or svc "DB_PASSWORD" "")).
Definition is_pgbouncer (svc : ServiceConfig) : bool :=
  will_become_shared_rootfs svc && bool_decide (is_Some (environment svc !! "POOL_MODE")).
Definition stage_pgbouncer (data_dir name : string) (svc : ServiceConfig) : ServiceConfig :=
  if negb (is_pgbouncer svc) then svc
  else or_insert "PGBOUNCER_INI" "/tmp/nkr-overrides/etc/pgbouncer/pgbouncer.ini"
         (add_share (overrides_share data_dir name) svc).

(** ** A directory for the environment *)
Definition share_host (s : string) : string := List.hd "" (splitn 2 ":" s).
Definition has_writable_dir (svc : ServiceConfig) : bool :=
  existsb (fun s => negb (ends_with ":ro" s) && bool_decide (kind_of fs (share_host s) = Some IsDir)) (shares svc).
Definition env_dir_share (data_dir name : string) : string := join data_dir (sanitize_component name +:+ "-env") +:+ ":/tmp/nkr:rw".
Definition stage_env_dir (data_dir name : string) (svc : ServiceConfig) : ServiceConfig :=
  if negb (will_become_shared_rootfs svc) || bool_decide (environment svc = ∅) || has_writable_dir svc then svc
  else svc <| shares ::= fun l => l ++ [env_dir_share data_dir name] |>.

(** the stages of one service after its paths are resolved *)
Definition prepare (made copies : string -> bool) (data_dir name : string) (svc : ServiceConfig) : option ServiceConfig :=
  svc ← promote_volumes made data_dir name svc;
  Some (stage_env_dir data_dir name (stage_pgbouncer data_dir name (stage_overrides copies data_dir name svc))).

(** ** Disks in use get a snapshot *)
Definition snapshot_of (snapshot_dir name : string) (vm_id : Z) (i : nat) : string :=
  join snapshot_dir (sanitize_component name +:+ "-vm" +:+ dec vm_id +:+ "-disk" +:+ dec (Z.of_nat i) +:+ ".ext4").
Definition needs_snapshot (active_disks : list string) (yaml_dir disk : string) : bool :=
  is_ext4_disk disk && negb (is_within_dir fs disk yaml_dir) && bool_decide (canonical_or_self fs disk ∈ active_disks).
Definition isolate_disks (active_disks : list string) (yaml_dir snapshot_dir name : string) (vm_id : Z) (disks : list string) : list string :=
  imap (fun i d => if needs_snapshot active_disks yaml_dir d then snapshot_of snapshot_dir name vm_id i else d) disks.
End stages.

(** ** Identifiers and launches *)
Definition resolve_service_id_scoped (saves : bool) (cell_name : option string) (nkr : string) (explicit : option Z) (f : file)
  : (reg_error + Z) * file :=
  match explicit with
  | Some i => match register_explicit_scoped saves cell_name nkr i f with
              | (inl e, f) => (inl e, f)
              | (inr _, f) => (inr i, f)
              end
  | None => resolve_id_scoped saves cell_name nkr f
  end.
(** the services in turn; the first error ends the run *)
Fixpoint resolve_ids (saves : bool) (cell_name : option string) (l : list (string * option Z)) (f : file)
  : (reg_error + list Z) * file :=
  match l with
  | [] => (inr [], f)
  | (n, i) :: l =>
      match resolve_service_id_scoped saves cell_name n i f with
      | (inl e, f) => (inl e, f)
      | (inr v, f) => match resolve_ids saves cell_name l f with
                      | (inl e, f) => (inl e, f)
                      | (inr vs, f) => (inr (v :: vs), f)
                      end
      end
  end.

Definition config_name (stack_name : string) (e : string * ServiceConfig) : string :=
  default (stack_name +:+ "-" +:+ fst e) (nkr_name (snd e)).
Definition service_ids (stack_name : string) (svcs : list (string * ServiceConfig)) : list (string * option Z) :=
  map (fun e => (config_name stack_name e, id (snd e))) svcs.

(** the arguments of [nkr run] *)
Definition arg (k v : string) : list string := [k; v].
Definition run_args (cell_id vm_id : Z) (nm : string) (svc : ServiceConfig) : list string :=
  ["run"; "--name"; nm; "--ram"; dec (ram svc); "-c"; dec (sv_chrs svc); "--id"; dec vm_id; "--cell-id"; dec cell_id]
  ++ flat_map (arg "--disk") (sv_disks svc)
  ++ ["--kernel"; default "nanolinux" (kernel svc)]
  ++ match initramfs svc with Some i => arg "--initramfs" i | None => [] end
  ++ flat_map (arg "--port") (sv_ports svc) ++ flat_map (arg "--volume") (volumes svc) ++ flat_map (arg "--share") (shares svc)
  ++ flat_map (fun '(k, v) => arg "--env" (k +:+ "=" +:+ v)) (map_to_list (environment svc))
  ++ match tap svc with Some t => arg "--tap" t | None => [] end
  ++ match sv_rootfs svc with Some r => arg "--rootfs" r | None => [] end
  ++ (if pmem svc then ["--pmem"] else []) ++ (if burst svc then [] else ["--burst=false"])
  ++ (if 0 <? sv_balloon_mb svc then arg "--balloon-mb" (dec (sv_balloon_mb svc)) else [])
  ++ (if negb (balloon_idle_mb svc =? 0) && negb (balloon_idle_mb svc =? sv_balloon_mb svc)
      then arg "--balloon-idle-mb" (dec (balloon_idle_mb svc)) ++ arg "--balloon-decay-secs" (dec (balloon_decay_secs svc)) else []).

(** a VM of the stack: started, or found running *)
Record started := mkStarted { s_name : string; s_vm_id : Z; s_ip : string; s_args : option (list string);
  s_health : option HealthCheck; s_skip_warmup : bool }.
Definition start_service (stack_name : string) (cell_id : Z) (active : string -> bool) (e : string * ServiceConfig) (vm_id : Z) : started :=
  let nm := config_name stack_name e in
  mkStarted nm vm_id (id_to_ip cell_id vm_id)
    (if active nm then None else Some (run_args cell_id vm_id nm (snd e)))
    (healthcheck (snd e)) (skip_warmup (snd e)).

(** an identifier could not be had; [nkr run] could not be started for a name, and the command panics *)
Inductive up_failure := NoId (e : reg_error) | SpawnPanic (nm : string).
(** Identifiers are resolved twice (the copies of the disks are taken to succeed): before the snapshots, and at the launch; the VMs started
    before an error of the second pass stay.  [spawns]: a process can be started for the service; one that does
    nothing stands for a VM that runs already, which is left out of the list without it. *)
Fixpoint launch (saves : bool) (spawns : string -> bool) (stack_name : string) (cell : option (string * Z)) (active : string -> bool)
    (svcs : list (string * ServiceConfig)) (f : file) : list started * option up_failure * file :=
  match svcs with
  | [] => ([], None, f)
  | e :: svcs =>
      let nm := config_name stack_name e in
      match resolve_service_id_scoped saves (fst <$> cell) nm (id (snd e)) f with
      | (inl err, f) => ([], Some (NoId err), f)
      | (inr v, f) =>
          if negb (active nm) && negb (spawns nm) then ([], Some (SpawnPanic nm), f)
          else
            let '(l, err, f) := launch saves spawns stack_name cell active svcs f in
            ((if spawns nm then [start_service stack_name (default 0 (snd <$> cell)) active e v] else []) ++ l, err, f)
      end
  end.

Definition with_disks (g : string * ServiceConfig -> Z -> list string -> list string) (e : string * ServiceConfig) (v : Z)
  : string * ServiceConfig := (fst e, snd e <| sv_disks ::= g e v |>).
Record up_result := mkUp { up_started : list started; up_error : option up_failure; up_file : file }.
Definition compose_up (saves : bool) (spawns : string -> bool) (fs : disk_view) (yaml_dir snapshot_dir stack_name : string) (cell : option (string * Z))
    (vms : list VmState) (svcs : list (string * ServiceConfig)) (f : file) : up_result :=
  let active_disks := flat_map (fun v => map (canonical_or_self fs) (disks v)) vms in
  let active nm := bool_decide (nm ∈ map name vms) in
  match resolve_ids saves (fst <$> cell) (service_ids stack_name svcs) f with
  | (inl e, f) => mkUp [] (Some (NoId e)) f
  | (inr ids, f) =>
      let svcs := zip_with (with_disks (fun e v => isolate_disks fs active_disks yaml_dir snapshot_dir (fst e) v)) svcs ids in
      let '(l, err, f) := launch saves spawns stack_name cell active svcs f in
      mkUp l err f
  end.

(** ** Stopping a stack

    A service without a name of its own goes by its bare name here.  [hosts k] is the host
    during the stop of the [k]th VM. *)
Definition down_name (e : string * ServiceConfig) : string := default (fst e) (nkr_name (snd e)).
Fixpoint down_ids (saves : bool) (cell_name : option string) (svcs : list (string * ServiceConfig)) (f : file) : list Z * file :=
  match svcs with
  | [] => ([], f)
  | e :: svcs =>
      let '(r, f) := resolve_service_id_scoped saves cell_name (down_name e) (id (snd e)) f in
      let '(ids, f) := down_ids saves cell_name svcs f in
      (match r with inr v => if 0 <? v then v :: ids else ids | inl _ => ids end, f)
  end.
Definition tap_of (cell_id vm_id : Z) : string :=
  if cell_id =? 0 then "nkr-tap" +:+ dec vm_id else "nkr-c" +:+ dec cell_id +:+ "-tap" +:+ dec vm_id.

Fixpoint stop_all `{ReadDir} (hosts : nat -> nat -> host) (kill : Z -> kill_result) (k : nat) (l : list VmState) (d : dir)
  : list (Z * Z * (stop_error + unit)) * list (nat * signal * Z) * dir :=
  match l with
  | [] => ([], [], d)
  | v :: l =>
      let '(r, sigs, d) := stop_vm (hosts k) kill (cell_id v) (vm_id v) d in
      let '(rs, sigs', d) := stop_all hosts kill (S k) l d in
      ((cell_id v, vm_id v, r) :: rs, sigs ++ sigs', d)
  end.
Record down_result := mkDown { down_stops : list (Z * Z * (stop_error + unit)); down_signals : list (nat * signal * Z);
  down_taps : list string; down_dir : dir; down_file : file }.
Definition compose_down `{ReadDir} (saves : bool) (h : host) (hosts : nat -> nat -> host) (kill : Z -> kill_result)
    (cell : option (string * Z)) (svcs : list (string * ServiceConfig)) (d : dir) (f : file) : down_result :=
  let '(ids, f) := down_ids saves (fst <$> cell) svcs f in
  let '(vms, d) := list_vms h d in
  let '(stops, sigs, d) := stop_all hosts kill 0 (filter (fun v => vm_id v ∈ ids) vms) d in
  mkDown stops sigs (map (tap_of (default 0 (snd <$> cell))) ids) d f.

(** ** Health checks *)
Inductive health_effect := Relax | Sleep (secs : Z) | Connect (ok : bool) | Warmup | Throttle.
Definition is_http_port (p : Z) : bool := bool_decide (p ∈ [80; 443; 8069; 8072; 8000; 8080; 8081; 8443]).

(** [connect i] is the outcome of the attempt [i] *)
Fixpoint attempts (c : HealthCheck) (skip : bool) (connect : nat -> bool) (i n : nat) : bool * list health_effect :=
  match n with
  | O => (false, [Throttle])
  | S n =>
      if connect i then (true, Connect true :: (if is_http_port (port c) && negb skip then [Warmup] else []) ++ [Throttle])
      else let '(r, l) := attempts c skip connect (S i) n in (r, Connect false :: Sleep (interval c) :: l)
  end.
Definition run_health_check (c : HealthCheck) (skip : bool) (connect : nat -> bool) : bool * list health_effect :=
  let '(r, l) := attempts c skip connect 1 (Z.to_nat (retries c)) in (r, Relax :: Sleep (initial_delay c) :: l).

(** what the process that waits in the foreground allows, in seconds *)
Definition max_wait (checks : list HealthCheck) : Z :=
  match checks with
  | [] => 120
  | c :: cs => foldr Z.max 0 (map (fun c => u64 (initial_delay c + u64 (retries c * interval c) + 10)) (c :: cs))
  end.

(** the last lines of the log, and the test of the process that waits *)
Definition summary (results : list (string * bool)) : list string :=
  let ready := map fst (filter (fun r => snd r = true) results) in
  let failed := map fst (filter (fun r => snd r = false) results) in
  if bool_decide (failed = []) && negb (bool_decide (ready = []))
  then ["[NKR-READY] Todos los servicios listos: " +:+ String.concat ", " ready]
  else (if bool_decide (ready = []) then [] else ["[NKR-READY] Servicios listos: " +:+ String.concat ", " ready])
    ++ (if bool_decide (failed = []) then [] else ["[NKR-READY] Servicios fallidos: " +:+ String.concat ", " failed]).
Definition seen_ready (log : list string) : bool := existsb (contains "[NKR-READY]") log.

(** ** The CPU quota around a start *)
Definition take_digits (s : string) : string :=
  String.string_of_list_ascii ((fix go l := match l with c :: l => if (48 <=? N_of_ascii c)%N && (N_of_ascii c <=? 57)%N then c :: go l else [] | [] => [] end)
    (String.list_ascii_of_string s)).
Fixpoint find_after (p s : string) : option string :=
  match strip_prefix p s, s with
  | Some r, _ => Some r
  | None, String _ s => find_after p s
  | None, EmptyString => None
  end.
(** the texts of the state files in the order of the directory *)
Fixpoint read_vm_chrs (texts : list string) (vm_name : string) : option Z :=
  match texts with
  | [] => None
  | t :: texts =>
      if contains vm_name t then
        match find_after (quote "chrs" +:+ ":") t with
        | Some rest => parse_uint (2 ^ 32 - 1) (take_digits (String.string_of_list_ascii (drop_spaces (String.list_ascii_of_string rest))))
        | None => read_vm_chrs texts vm_name
        end
      else read_vm_chrs texts vm_name
  end.
Definition nitro_relax : string := "max 100000".
Definition nitro_throttle (texts : list string) (vm_name : string) : string :=
  dec (match read_vm_chrs texts vm_name with Some c => u32 (c * 20000) | None => 40000 end) +:+ " 100000".

(** ** Identifiers *)
Section identifiers.
Context (cell_name : option string).
Notation key n := (scoped_key cell_name n).

Lemma service_step saves n i f r f' : names_ok cell_name n -> reg_ok (load f) ->
  resolve_service_id_scoped saves cell_name n i f = (r, f') ->
  reg_ok (load f')
  /\ (forall k v, load f !! k = Some v -> k <> key n -> load f' !! k = Some v)
  /\ (forall v, r = inr v -> load f' !! key n = Some v /\ (i = None -> vm_key n <> "") /\ (forall j, i = Some j -> v = j)).
Proof.
  intros Hn Hok. unfold resolve_service_id_scoped. destruct i as [j|].
  - destruct (register_explicit_scoped saves cell_name n j f) as [r0 f0] eqn:E.
    pose proof (step_ok (Registry.Register saves cell_name n j) f Hn Hok) as H1. cbn in H1. rewrite E in H1. cbn in H1.
    assert (H2 : forall k v, load f !! k = Some v -> k <> key n -> load f0 !! k = Some v).
    { intros k v Hk Hne. pose proof (step_keeps (Registry.Register saves cell_name n j) k f v Hk) as H. cbn in H.
      rewrite E in H. apply H. by intros <-. }
    destruct r0 as [e|[]]; intros [= <- <-]; (split; [done|split; [exact H2|]]); [done|]. intros v [= <-].
    split; [|split; [done|by intros ? [= <-]]]. unfold register_explicit_scoped in E. destruct (existsb _ _); [done|].
    case_decide; [by injection E as <-|]. destruct saves; [|done]. injection E as <-. cbn. by rewrite lookup_insert_eq.
  - intros E. pose proof (step_ok (Registry.Resolve saves cell_name n) f Hn Hok) as H1. cbn in H1. rewrite E in H1.
    split; [done|]. split.
    + intros k v Hk _. pose proof (step_keeps (Registry.Resolve saves cell_name n) k f v Hk) as H. cbn in H. rewrite E in H. apply H. intros [].
    + intros v ->. split; [by eapply resolved_entry|]. split; [|done]. intros _. by apply resolve_cases in E as [? _].
Qed.

(** an entry that is right is only read *)
Lemma service_again saves n i f v : names_ok cell_name n -> reg_ok (load f) -> load f !! key n = Some v ->
  (i = None -> vm_key n <> "") -> (forall j, i = Some j -> v = j) ->
  resolve_service_id_scoped saves cell_name n i f = (inr v, f).
Proof.
  intros Hn Hok Hk He Hj. unfold resolve_service_id_scoped. destruct i as [j|].
  - rewrite (Hj j eq_refl) in Hk. rewrite (Hj j eq_refl). unfold register_explicit_scoped.
    destruct (existsb _ _) eqn:E.
    + apply conflict_spec in E as (k & Hk' & Hne & Hs); [|done]. destruct Hne. eapply Hok; [exact Hk'|exact Hk|].
      by rewrite Hs, scope_of_scoped_key.
    + by rewrite decide_True.
  - unfold resolve_id_scoped. rewrite decide_False by auto. by rewrite Hk.
Qed.

Definition resolved (f : file) (e : string * option Z) (v : Z) : Prop :=
  load f !! key (fst e) = Some v /\ (snd e = None -> vm_key (fst e) <> "") /\ (forall j, snd e = Some j -> v = j).

Lemma resolve_ids_spec saves l f r f' : reg_ok (load f) -> Forall (fun e => names_ok cell_name (fst e)) l ->
  NoDup (map (fun e => key (fst e)) l) -> resolve_ids saves cell_name l f = (r, f') ->
  reg_ok (load f') /\ (forall k v, load f !! k = Some v -> (forall e, In e l -> k <> key (fst e)) -> load f' !! k = Some v)
  /\ forall vs, r = inr vs -> Forall2 (resolved f') l vs.
Proof.
  revert f r f'. induction l as [|[n i] l IH]; intros f r f' Hok Hn Hd; cbn [resolve_ids].
  - intros [= <- <-]. split_and!; [done|done|]. intros vs [= <-]. constructor.
  - apply list.Forall_cons in Hn as [Hn Hns]. cbn in Hd, Hn. apply list.NoDup_cons in Hd as [Hd Hds].
    destruct (resolve_service_id_scoped saves cell_name n i f) as [r1 f1] eqn:E1.
    destruct (service_step _ _ _ _ _ _ Hn Hok E1) as (Hok1 & Hkeep1 & Hres1).
    destruct r1 as [e|v].
    { intros [= <- <-]. split_and!; [done| |done]. intros k w Hk Hne. apply Hkeep1; [done|]. exact (Hne _ (or_introl eq_refl)). }
    destruct (resolve_ids saves cell_name l f1) as [r2 f2] eqn:E2.
    destruct (IH _ _ _ Hok1 Hns Hds E2) as (Hok2 & Hkeep2 & Hres2).
    assert (Hkeep : forall k w, load f !! k = Some w -> (forall e, In e ((n, i) :: l) -> k <> key (fst e)) -> load f2 !! k = Some w).
    { intros k w Hk Hne. apply Hkeep2; [apply Hkeep1; [done|exact (Hne _ (or_introl eq_refl))]|]. intros e He. apply Hne. by right. }
    destruct r2 as [e|vs]; intros [= <- <-]; (split; [done|split; [exact Hkeep|]]); [done|].
    intros vs' [= <-]. constructor; [|by apply Hres2]. destruct (Hres1 v eq_refl) as (Hk & He & Hj).
    split_and!; [|done|done]. cbn. apply Hkeep2; [done|]. intros e Hin Ek. apply Hd. apply list_elem_of_In, in_map_iff.
    by exists e.
Qed.

End identifiers.

(** what is started of services whose identifiers are known *)
Fixpoint start_all (spawns : string -> bool) (stack : string) (cell_id : Z) (active : string -> bool)
    (l : list ((string * ServiceConfig) * Z)) : list started * option up_failure :=
  match l with
  | [] => ([], None)
  | (e, v) :: l =>
      let nm := config_name stack e in
      if negb (active nm) && negb (spawns nm) then ([], Some (SpawnPanic nm))
      else let '(ss, err) := start_all spawns stack cell_id active l in
           ((if spawns nm then [start_service stack cell_id active e v] else []) ++ ss, err)
  end.
Lemma launch_resolved saves spawns stack cell active svcs vs f :
  reg_ok (load f) -> Forall (fun e => names_ok (fst <$> cell) (config_name stack e)) svcs ->
  Forall2 (resolved (fst <$> cell) f) (service_ids stack svcs) vs ->
  launch saves spawns stack cell active svcs f = (start_all spawns stack (default 0 (snd <$> cell)) active (zip svcs vs), f).
Proof.
  intros Hok Hn. revert vs. induction svcs as [|e svcs IH]; intros vs; cbn [launch service_ids map].
  - intros H. by inversion H.
  - apply list.Forall_cons in Hn as [Hn Hns]. intros (v & vs' & (Hk & He & Hj) & Hvs & ->)%Forall2_cons_inv_l.
    rewrite (service_again _ _ _ _ _ v Hn Hok Hk He Hj). cbn [zip zip_with start_all]. destruct (negb _ && negb _); [done|].
    rewrite (IH Hns vs') by done. by destruct (start_all _ _ _ _ _).
Qed.
Definition every (_ : string) : bool := true.
Lemma start_every stack cid active svcs vs : start_all every stack cid active (zip svcs vs) = (zip_with (start_service stack cid active) svcs vs, None).
Proof.
  revert vs. induction svcs as [|e svcs IH]; intros [|v vs]; try done. cbn [zip zip_with start_all every]. rewrite andb_false_r. by rewrite IH.
Qed.

Section up.
Context (stack : string) (cell : option (string * Z)).

Definition stack_ok (svcs : list (string * ServiceConfig)) : Prop :=
  Forall (fun e => names_ok (fst <$> cell) (config_name stack e)) svcs
  /\ NoDup (map (fun e => scoped_key (fst <$> cell) (config_name stack e)) svcs).

Lemma service_ids_ok svcs : stack_ok svcs ->
  Forall (fun e => names_ok (fst <$> cell) (fst e)) (service_ids stack svcs)
  /\ NoDup (map (fun e => scoped_key (fst <$> cell) (fst e)) (service_ids stack svcs)).
Proof.
  intros [Hn Hd]. unfold service_ids. split; [by rewrite Forall_map|]. by rewrite map_map.
Qed.

(** the snapshots change nothing but disks *)
Lemma isolated_names (g : string * ServiceConfig -> Z -> list string -> list string) svcs vs : length vs = length svcs ->
  map (config_name stack) (zip_with (with_disks g) svcs vs) = map (config_name stack) svcs
  /\ service_ids stack (zip_with (with_disks g) svcs vs) = service_ids stack svcs.
Proof.
  revert vs. induction svcs as [|e svcs IH]; intros [|v vs]; try done. intros [= Hl].
  destruct (IH vs Hl) as [IH1 IH2]. unfold service_ids in *. cbn [zip_with map]. rewrite IH1, IH2. done.
Qed.

Lemma isolated_ok (g : string * ServiceConfig -> Z -> list string -> list string) svcs vs : length vs = length svcs ->
  stack_ok svcs -> stack_ok (zip_with (with_disks g) svcs vs).
Proof.
  intros Hl [Hn Hd]. destruct (isolated_names g svcs vs Hl) as [E _]. split.
  - assert (Hn' : Forall (names_ok (fst <$> cell)) (map (config_name stack) svcs)) by (by rewrite Forall_map).
    rewrite <- E in Hn'. by rewrite Forall_map in Hn'.
  - rewrite <- (map_map (config_name stack) (scoped_key (fst <$> cell))) in Hd |- *. by rewrite E.
Qed.
End up.

Section stacks.
Context (fs : disk_view) (yaml_dir snapshot_dir stack : string) (cell : option (string * Z)).
Notation up saves spawns vms svcs f := (compose_up saves spawns fs yaml_dir snapshot_dir stack cell vms svcs f).

(** the record of a service that is up, and its entry in the registry *)
Record is_up (vms : list VmState) (f : file) (e : string * ServiceConfig) (s : started) : Prop := {
  up_name : s_name s = config_name stack e;
  up_id : load f !! scoped_key (fst <$> cell) (config_name stack e) = Some (s_vm_id s);
  up_explicit : forall j, id (snd e) = Some j -> s_vm_id s = j;
  up_ip : s_ip s = id_to_ip (default 0 (snd <$> cell)) (s_vm_id s);
  up_launched : s_args s = None <-> In (config_name stack e) (map name vms);
}.

Lemma started_up vms f g svcs vs :
  Forall2 (resolved (fst <$> cell) f) (service_ids stack svcs) vs ->
  Forall2 (is_up vms f) svcs (zip_with (start_service stack (default 0 (snd <$> cell)) (fun nm => bool_decide (nm ∈ map name vms)))
    (zip_with (with_disks g) svcs vs) vs).
Proof.
  revert vs. induction svcs as [|e svcs IH]; intros vs H; [by inversion H; constructor|].
  apply Forall2_cons_inv_l in H as (v & vs' & (Hk & _ & Hj) & Hvs & ->). cbn [zip_with]. constructor; [|by apply IH].
  constructor; try done. cbn. rewrite <- list_elem_of_In. unfold config_name. cbn. by case_bool_decide.
Qed.

Lemma resolved_length f l vs : Forall2 (resolved (fst <$> cell) f) (service_ids stack l) vs -> length vs = length l.
Proof. intros H. apply Forall2_length in H. unfold service_ids in H. by rewrite length_map in H. Qed.


Lemma up_start saves spawns vms svcs f f1 vs : stack_ok stack cell svcs -> reg_ok (load f1) ->
  resolve_ids saves (fst <$> cell) (service_ids stack svcs) f = (inr vs, f1) ->
  Forall2 (resolved (fst <$> cell) f1) (service_ids stack svcs) vs ->
  exists g, let r := start_all spawns stack (default 0 (snd <$> cell)) (fun nm => bool_decide (nm ∈ map name vms)) (zip (zip_with (with_disks g) svcs vs) vs) in
    up saves spawns vms svcs f = mkUp r.1 r.2 f1.
Proof.
  intros Hst Hok1 E Hres. unfold compose_up. rewrite E. pose proof (resolved_length _ _ _ Hres) as Hl.
  set (g := fun (e : string * ServiceConfig) v => isolate_disks fs _ yaml_dir snapshot_dir (fst e) v). exists g.
  destruct (isolated_ok stack cell g svcs vs Hl Hst) as [Hn' _]. destruct (isolated_names stack g svcs vs Hl) as [_ Ei].
  rewrite (launch_resolved saves spawns stack cell _ _ vs f1 Hok1 Hn') by (rewrite Ei; exact Hres).
  by destruct (start_all _ _ _ _ _).
Qed.
Lemma up_after saves vms svcs f f1 vs : stack_ok stack cell svcs -> reg_ok (load f1) ->
  resolve_ids saves (fst <$> cell) (service_ids stack svcs) f = (inr vs, f1) ->
  Forall2 (resolved (fst <$> cell) f1) (service_ids stack svcs) vs ->
  up_error (up saves every vms svcs f) = None /\ up_file (up saves every vms svcs f) = f1
  /\ map s_vm_id (up_started (up saves every vms svcs f)) = vs /\ Forall2 (is_up vms f1) svcs (up_started (up saves every vms svcs f)).
Proof.
  intros Hst Hok1 E Hres. destruct (up_start saves every vms svcs f f1 vs Hst Hok1 E Hres) as [g ->]. rewrite start_every.
  pose proof (resolved_length _ _ _ Hres) as Hl. cbn [up_error up_file up_started fst snd].
  split_and!; [done|done| |apply (started_up vms f1 g svcs vs Hres)].
  clear -Hl. revert vs Hl. induction svcs as [|e svcs IH]; intros [|v vs]; cbn [length zip_with map]; try done.
  intros [= Hl]. by rewrite (IH vs Hl).
Qed.


Lemma resolve_ids_again saves cn l vs f : reg_ok (load f) -> Forall (fun e => names_ok cn (fst e)) l ->
  Forall2 (resolved cn f) l vs -> resolve_ids saves cn l f = (inr vs, f).
Proof.
  intros Hok Hn H. induction H as [|[n i] v l vs (Hk & He & Hj) Hl IH]; [done|]. apply list.Forall_cons in Hn as [Hn Hns].
  cbn [resolve_ids]. rewrite (service_again cn saves n i f v Hn Hok Hk He Hj). by rewrite IH.
Qed.


(** Starting a stack again: when its VMs run, the same command starts no process, gives
    every VM the same identifier and leaves the registry alone, even if it cannot be written. *)
Theorem up_again_starts_nothing saves saves' vms vms' svcs f :
  reg_ok (load f) -> stack_ok stack cell svcs -> up_error (up saves every vms svcs f) = None ->
  Forall (fun e => In (config_name stack e) (map name vms')) svcs ->
  let r := up saves every vms svcs f in let r' := up saves' every vms' svcs (up_file r) in
  up_error r' = None /\ up_file r' = up_file r /\ map s_vm_id (up_started r') = map s_vm_id (up_started r)
  /\ Forall (fun s => s_args s = None) (up_started r').
Proof.
  intros Hok Hst Herr Hall r r'. subst r r'. pose proof (service_ids_ok _ _ _ Hst) as [Hn Hd].
  destruct (resolve_ids saves (fst <$> cell) (service_ids stack svcs) f) as [[e|vs] f1] eqn:E;
    destruct (resolve_ids_spec _ _ _ _ _ _ Hok Hn Hd E) as (Hok1 & _ & Hres); [unfold compose_up in Herr; by rewrite E in Herr|].
  specialize (Hres vs eq_refl). destruct (up_after saves vms svcs f f1 vs Hst Hok1 E Hres) as (_ & -> & -> & _).
  destruct (up_after saves' vms' svcs f1 f1 vs Hst Hok1 (resolve_ids_again _ _ _ _ _ Hok1 Hn Hres) Hres) as (-> & -> & -> & Hup).
  split_and!; [done..|]. clear -Hup Hall. induction Hup as [|e s svcs l He Hl IH]; [constructor|].
  apply list.Forall_cons in Hall as [Ha Hall]. constructor; [|by apply IH]. by apply (up_launched _ _ _ _ He).
Qed.
End stacks.

(** ** The stages of a service *)
Section stage_theorems.
Context (fs : disk_view).

Lemma in_kept {A B} (f : A -> option B) (l : list A) x : x ∈ l -> f x = None -> x ∈ filter (fun v => f v = None) l.
Proof. intros H1 H2. by apply list_elem_of_filter. Qed.
Lemma in_taken {A B} (f : A -> option B) (l : list A) x y : x ∈ l -> f x = Some y -> y ∈ omap f l.
Proof. intros H1 H2. apply list_elem_of_omap. by exists x. Qed.

Lemma add_share_in s svc : s ∈ shares (add_share s svc).
Proof. unfold add_share. case_bool_decide; [done|]. cbn. apply elem_of_app. right. apply list_elem_of_here. Qed.
Lemma add_share_keeps s t svc : t ∈ shares svc -> t ∈ shares (add_share s svc).
Proof. unfold add_share. case_bool_decide; [done|]. cbn. intros Hin. apply elem_of_app. by left. Qed.
Lemma or_insert_shares k v svc : shares (or_insert k v svc) = shares svc /\ volumes (or_insert k v svc) = volumes svc.
Proof. unfold or_insert. by destruct (environment svc !! k). Qed.
Lemma override_env_frame l svc : shares (fold_left (fun svc g => override_env g svc) l svc) = shares svc
  /\ volumes (fold_left (fun svc g => override_env g svc) l svc) = volumes svc.
Proof.
  revert svc. induction l as [|g l IH]; intros svc; [done|]. cbn [fold_left]. destruct (IH (override_env g svc)) as [-> ->].
  unfold override_env. cbv zeta. repeat case_bool_decide; [apply or_insert_shares..|done].
Qed.

Lemma stage_overrides_volumes copies data_dir name svc v : v ∈ volumes svc ->
  v ∈ volumes (stage_overrides fs copies data_dir name svc)
  \/ (exists g, overridden fs copies v = Some g) /\ overrides_share data_dir name ∈ shares (stage_overrides fs copies data_dir name svc).
Proof.
  intros Hv. unfold stage_overrides. destruct (negb _); [by left|]. cbv zeta.
  set (staged := omap (overridden fs copies) (volumes svc)). destruct (override_env_frame staged svc) as [Es Ev].
  destruct (overridden fs copies v) as [g|] eqn:E.
  - right. split; [by exists g|]. pose proof (in_taken _ _ _ _ Hv E) as Hg. fold staged in Hg. cbn.
    rewrite bool_decide_eq_false_2 by (intros En; rewrite En in Hg; by apply elem_of_nil in Hg). apply add_share_in.
  - left. cbn. apply in_kept; [|done]. case_bool_decide; [by rewrite Ev|]. unfold add_share. case_bool_decide; cbn; by rewrite Ev.
Qed.

Lemma stage_overrides_shares copies data_dir name svc s : s ∈ shares svc -> s ∈ shares (stage_overrides fs copies data_dir name svc).
Proof.
  intros Hs. unfold stage_overrides. destruct (negb _); [done|]. cbv zeta.
  set (staged := omap (overridden fs copies) (volumes svc)). destruct (override_env_frame staged svc) as [Es Ev]. cbn.
  case_bool_decide; [by rewrite Es|]. apply add_share_keeps. by rewrite Es.
Qed.

Lemma later_stages data_dir name svc :
  (forall s, s ∈ shares svc -> s ∈ shares (stage_env_dir fs data_dir name (stage_pgbouncer data_dir name svc)))
  /\ volumes (stage_env_dir fs data_dir name (stage_pgbouncer data_dir name svc)) = volumes svc.
Proof.
  assert (Hp : (forall s, s ∈ shares svc -> s ∈ shares (stage_pgbouncer data_dir name svc))
    /\ volumes (stage_pgbouncer data_dir name svc) = volumes svc).
  { unfold stage_pgbouncer. destruct (negb _); [done|].
    destruct (or_insert_shares "PGBOUNCER_INI" "/tmp/nkr-overrides/etc/pgbouncer/pgbouncer.ini" (add_share (overrides_share data_dir name) svc)) as [-> ->].
    split; [intros t; apply add_share_keeps|]. unfold add_share. by case_bool_decide. }
  destruct Hp as [Hs Hv]. unfold stage_env_dir. destruct (_ || _); [done|]. cbn. split; [|done].
  intros s Hin. apply elem_of_app. left. by apply Hs.
Qed.

Lemma promote_volumes_spec made data_dir name svc svc1 : promote_volumes fs made data_dir name svc = Some svc1 ->
  (forall s, s ∈ shares svc -> s ∈ shares svc1)
  /\ forall v, v ∈ volumes svc ->
       match promotes fs v with
       | Some (h, g) => made (disk_of_volume data_dir name g) = true /\ disk_of_volume data_dir name g +:+ ":" +:+ g ∈ shares svc1
       | None => v ∈ volumes svc1
       end.
Proof.
  unfold promote_volumes. destruct (forallb _ _) eqn:Em; [|done]. intros [= <-]. cbn. split.
  - intros s Hin. apply elem_of_app. by left.
  - intros v Hin. destruct (promotes fs v) as [[h g]|] eqn:Ep; [|by apply in_kept].
    pose proof (in_taken _ _ _ _ Hin Ep) as Hg. split.
    + apply list_elem_of_In in Hg. rewrite forallb_forall in Em. exact (Em _ Hg).
    + apply elem_of_app. right. apply list_elem_of_fmap. by exists (h, g).
Qed.

(** No volume of a service is lost on the way to its VM: each is still a volume, or a disk
    shared at the same path of the guest, or a file in the directory of overrides, which is
    shared too; and the shares the file lists stay. *)
Theorem volumes_accounted made copies data_dir name svc svc' :
  prepare fs made copies data_dir name svc = Some svc' ->
  (forall s, s ∈ shares svc -> s ∈ shares svc')
  /\ forall v, v ∈ volumes svc ->
       v ∈ volumes svc'
       \/ (exists h g, promotes fs v = Some (h, g) /\ made (disk_of_volume data_dir name g) = true
            /\ disk_of_volume data_dir name g +:+ ":" +:+ g ∈ shares svc')
       \/ (exists g, overridden fs copies v = Some g) /\ overrides_share data_dir name ∈ shares svc'.
Proof.
  unfold prepare. destruct (promote_volumes fs made data_dir name svc) as [svc1|] eqn:E; [|done].
  cbn [mbind option_bind]. intros [= <-]. apply promote_volumes_spec in E as [E1 E2].
  set (svc2 := stage_overrides fs copies data_dir name svc1).
  destruct (later_stages data_dir name svc2) as [Hs Hv]. rewrite Hv. split.
  - intros s Hin. by apply Hs, stage_overrides_shares, E1.
  - intros v Hin. specialize (E2 v Hin). destruct (promotes fs v) as [[h g]|] eqn:Ep.
    + right; left. exists h, g. destruct E2 as [Hm Hsh]. split_and!; [done..|]. by apply Hs, stage_overrides_shares.
    + destruct (stage_overrides_volumes copies data_dir name svc1 v E2) as [Hk|[Hg Hk]]; [by left|].
      right; right. split; [done|by apply Hs].
Qed.
End stage_theorems.

(** ** The disks of writable volumes *)
(** a path of the guest whose text survives the making of a file name: letters, digits and
    dashes between slashes, with one slash at its start *)
Definition plain_guest (g : string) : Prop :=
  exists r, g = String "/" r /\ all_chars (fun c => is_alnum c || is_one_of "-/" c) r = true /\ starts_with "/" r = false.

Definition sanitize_char (c : ascii) : ascii := if is_alnum c || is_one_of "-_" c then c else "_"%char.

Lemma sanitize_cons c s : sanitize_component (String c s) = String (sanitize_char c) (sanitize_component s).
Proof. done. Qed.

Lemma sanitize_plain c : is_alnum c || is_one_of "-/" c = true ->
  sanitize_char c = (if Ascii.eqb c "/" then "_"%char else c) /\ c <> "_"%char.
Proof. by destruct c as [[] [] [] [] [] [] [] []]. Qed.

Lemma sanitize_inj r1 r2 : all_chars (fun c => is_alnum c || is_one_of "-/" c) r1 = true ->
  all_chars (fun c => is_alnum c || is_one_of "-/" c) r2 = true -> sanitize_component r1 = sanitize_component r2 -> r1 = r2.
Proof.
  revert r2. induction r1 as [|a r1 IH]; intros [|b r2]; rewrite ?sanitize_cons; try done.
  rewrite !all_chars_cons. intros [Ha H1]%andb_true_iff [Hb H2]%andb_true_iff [= Ec Er]. f_equal; [|by apply IH].
  apply sanitize_plain in Ha as [Ha Na], Hb as [Hb Nb]. rewrite Ha, Hb in Ec.
  destruct (Ascii.eqb_spec a "/"), (Ascii.eqb_spec b "/"); congruence.
Qed.

Lemma trim_stem r : starts_with "/" r = false -> all_chars (fun c => is_alnum c || is_one_of "-/" c) r = true -> forall n,
  trim_start_matches (S n) "_" (sanitize_component (String "/" r)) = sanitize_component r.
Proof.
  intros Hs Hr n. rewrite sanitize_cons. change (sanitize_char "/") with "_"%char. cbn [trim_start_matches].
  change (String "_" (sanitize_component r)) with ("_" +:+ sanitize_component r). rewrite strip_prefix_app.
  apply trim_start_not. destruct r as [|c r]; [done|]. rewrite sanitize_cons.
  rewrite all_chars_cons in Hr. apply andb_true_iff in Hr as [Hc _]. rewrite starts_with_cons in Hs |- *.
  by destruct c as [[] [] [] [] [] [] [] []].
Qed.

Lemma disk_of_plain data_dir name r : starts_with "/" r = false -> all_chars (fun c => is_alnum c || is_one_of "-/" c) r = true ->
  disk_of_volume data_dir name (String "/" r) = join data_dir (sanitize_component name +:+ "-" +:+ sanitize_component r +:+ ".ext4").
Proof.
  intros Hs Hr. unfold disk_of_volume. cbv zeta.
  change (String.length (sanitize_component (String "/" r))) with (S (String.length (sanitize_component r))).
  by rewrite trim_stem.
Qed.

Lemma append_inj_l a b t : a +:+ t = b +:+ t -> a = b.
Proof.
  intros E. apply list_ascii_inj. apply (f_equal String.list_ascii_of_string) in E. rewrite !list_ascii_app in E.
  by apply app_inv_tail in E.
Qed.

Lemma join_inj a b1 b2 : is_absolute b1 = false -> is_absolute b2 = false -> join a b1 = join a b2 -> b1 = b2.
Proof.
  unfold join. intros -> ->. case_bool_decide; [done|]. destruct (ends_with _ _); intros E; repeat apply append_inj in E; done.
Qed.

Lemma tag_relative name t : is_absolute (sanitize_component name +:+ "-" +:+ t) = false.
Proof.
  unfold is_absolute. destruct name as [|c name]; [done|]. rewrite sanitize_cons, append_cons, starts_with_cons.
  by destruct c as [[] [] [] [] [] [] [] []].
Qed.

(** Two writable volumes of a service at different plain paths of the guest have disks of their
    own, and so does a path in two services whose names differ in letters, digits or dashes. *)
Theorem volume_disks_distinct data_dir n1 n2 g1 g2 :
  plain_guest g1 -> plain_guest g2 ->
  disk_of_volume data_dir n1 g1 = disk_of_volume data_dir n2 g2 ->
  (n1 = n2 -> g1 = g2) /\ (g1 = g2 -> sanitize_component n1 = sanitize_component n2).
Proof.
  intros (r1 & -> & H1 & S1) (r2 & -> & H2 & S2) E. rewrite !disk_of_plain in E by done.
  apply join_inj in E; [|apply tag_relative..]. split.
  - intros <-. do 2 apply append_inj in E. apply append_inj_l in E. f_equal. by apply sanitize_inj.
  - intros [= <-]. by apply append_inj_l in E.
Qed.

(** Other paths share a disk: both VMs, or both mounts of one VM, write to the same image. *)
Example volume_disks_collide :
  disk_of_volume "/srv/cell/.nkr-data" "web" "/var/lib/data" = disk_of_volume "/srv/cell/.nkr-data" "web" "/var/lib_data"
  /\ disk_of_volume "/srv/cell/.nkr-data" "web" "/db-files" = disk_of_volume "/srv/cell/.nkr-data" "web-db" "/files".
Proof. vm_compute. split; reflexivity. Qed.

(** ** Health checks *)
Definition duration (connect_secs : Z) (l : list health_effect) : Z :=
  foldr Z.add 0 (map (fun e => match e with Sleep s => s | Connect false => connect_secs | _ => 0 end) l).
Definition is_throttle (e : health_effect) : bool := match e with Throttle => true | _ => false end.

Lemma attempts_spec c skip connect n i :
  let '(r, l) := attempts c skip connect i n in
  r = existsb connect (seq i n)
  /\ (exists l', l = l' ++ [Throttle] /\ Forall (fun e => is_throttle e = false) l')
  /\ (forall s, 0 <= s -> 0 <= interval c -> 0 <= duration s l <= Z.of_nat n * (interval c + s))
  /\ (existsb connect (seq i n) = false -> forall s, duration s l = Z.of_nat n * (interval c + s))
  /\ (In Warmup l <-> existsb connect (seq i n) = true /\ is_http_port (port c) = true /\ skip = false).
Proof.
  revert i. induction n as [|n IH]; intros i; cbn [attempts].
  - split_and!; [done|by exists []|intros; cbn; lia|intros; cbn; lia|]. split; [intros [[=]|[]]|by intros [[=] _]].
  - cbn [seq existsb]. destruct (connect i) eqn:Ec.
    + split_and!; [done| | | done |].
      * destruct (is_http_port (port c) && negb skip); [exists [Connect true; Warmup]|exists [Connect true]];
          (split; [done|repeat constructor]).
      * intros s Hs Hi. destruct (is_http_port (port c) && negb skip); cbn; lia.
      * cbn. destruct (is_http_port (port c)), skip; cbn; intuition congruence.
    + specialize (IH (S i)). destruct (attempts c skip connect (S i) n) as [r l]. destruct IH as (-> & (l' & -> & Hl') & H3 & H4 & H5).
      cbn [orb]. split_and!; [done| | | |].
      * exists (Connect false :: Sleep (interval c) :: l'). split; [done|]. by repeat constructor.
      * intros s Hs Hi. specialize (H3 s Hs Hi). cbn. unfold duration in H3. lia.
      * intros He s. specialize (H4 He s). cbn. unfold duration in H4. lia.
      * rewrite <- H5. cbn. intuition congruence.
Qed.

(** A health check: it is positive when one of its attempts connects, warms web services up
    once, and whatever happens lifts the CPU quota first and restores it last, exactly once;
    with attempts of at most [s] seconds it ends within the delay and one interval per attempt,
    and takes all of that when nothing answers. *)
Theorem health_check_spec c skip connect s :
  0 <= s -> 0 <= interval c -> 0 <= retries c ->
  let '(r, l) := run_health_check c skip connect in
  r = existsb connect (seq 1 (Z.to_nat (retries c)))
  /\ (exists l', l = Relax :: l' ++ [Throttle] /\ Forall (fun e => is_throttle e = false) l')
  /\ (In Warmup l <-> r = true /\ is_http_port (port c) = true /\ skip = false)
  /\ duration s l <= initial_delay c + retries c * (interval c + s)
  /\ (r = false -> duration s l = initial_delay c + retries c * (interval c + s)).
Proof.
  intros Hs Hi Hr. unfold run_health_check. pose proof (attempts_spec c skip connect (Z.to_nat (retries c)) 1) as H.
  destruct (attempts _ _ _ _ _) as [r l]. destruct H as (-> & (l' & -> & Hl') & H3 & H4 & H5). rewrite Z2Nat.id in * by done.
  split_and!; [done| | | |].
  - exists (Sleep (initial_delay c) :: l'). split; [done|]. by constructor.
  - rewrite <- H5. cbn. intuition congruence.
  - specialize (H3 s Hs Hi). cbn. unfold duration in H3. lia.
  - intros He. specialize (H4 He s). cbn. unfold duration in H4. lia.
Qed.

(** The wait of the foreground does not count the time of the attempts: a service that drops
    connections for its whole check is still being probed 110 s after the wait has ended. *)
Example wait_too_short :
  let c := default_health 8069 in
  max_wait [c] = 133 /\ duration 2 (snd (run_health_check c false (fun _ => false))) = 243.
Proof. vm_compute. split; reflexivity. Qed.

Lemma ready_marker s : contains "[NKR-READY]" ("[NKR-READY]" +:+ s) = true.
Proof. apply (contains_intro "[NKR-READY]" "" s). Qed.

(** What the foreground calls ready says nothing: the last lines of every start with a health
    check carry the mark it looks for, also when all the checks fail. *)
Theorem summary_always_ready results : results <> [] -> seen_ready (summary results) = true.
Proof.
  intros Hne. unfold summary, seen_ready. cbv zeta.
  destruct (map fst (filter (fun r => snd r = true) results)) as [|a ra] eqn:Et,
    (map fst (filter (fun r => snd r = false) results)) as [|b rb] eqn:Ef.
  - exfalso. destruct results as [|[n []] l]; [done|by rewrite filter_cons_True in Et|by rewrite filter_cons_True in Ef].
  - rewrite (bool_decide_eq_false_2 (b :: rb = [])) by done. rewrite (bool_decide_eq_true_2 (@nil string = [])) by done.
    cbn [andb app existsb]. rewrite orb_false_r. apply (ready_marker " Servicios fallidos: ").
  - rewrite (bool_decide_eq_false_2 (a :: ra = [])) by done. rewrite (bool_decide_eq_true_2 (@nil string = [])) by done.
    cbn [andb app existsb negb]. rewrite orb_false_r. apply (ready_marker " Todos los servicios listos: ").
  - rewrite !bool_decide_eq_false_2 by done. cbn [andb app existsb]. apply orb_true_iff. left. apply (ready_marker " Servicios listos: ").
Qed.

(** ** Stopping a stack *)
Section down.
Context (cn : option string).

Definition down_ok (all : list (string * ServiceConfig)) : Prop :=
  Forall (fun e => names_ok cn (down_name e)) all /\ NoDup (map (fun e => scoped_key cn (down_name e)) all).

Lemma down_ids_in saves all f e v : reg_ok (load f) -> down_ok all -> In e all ->
  resolved cn f (down_name e, id (snd e)) v -> 0 < v -> In v (fst (down_ids saves cn all f)).
Proof.
  revert f. induction all as [|x all IH]; intros f Hok [Hn Hd] Hin Hr Hv; [done|].
  apply list.Forall_cons in Hn as [Hn Hns]. cbn [map] in Hd. apply list.NoDup_cons in Hd as [Hd Hds]. cbn [down_ids].
  destruct (resolve_service_id_scoped saves cn (down_name x) (id (snd x)) f) as [r f1] eqn:E.
  destruct (service_step cn _ _ _ _ _ _ Hn Hok E) as (Hok1 & Hkeep & _). destruct Hin as [->|Hin].
  - destruct Hr as (Hk & He & Hj). rewrite (service_again cn saves (down_name e) (id (snd e)) f v Hn Hok Hk He Hj) in E. injection E as <- <-.
    destruct (down_ids saves cn all f) as [ids f2]. cbn. rewrite (proj2 (Z.ltb_lt 0 v)) by done. by left.
  - assert (Hr1 : resolved cn f1 (down_name e, id (snd e)) v).
    { destruct Hr as (Hk & He & Hj). split_and!; [|done..]. cbn in *. apply Hkeep; [done|]. intros Ek. apply Hd.
      apply list_elem_of_In, in_map_iff. by exists e. }
    specialize (IH f1 Hok1 (conj Hns Hds) Hin Hr1 Hv). destruct (down_ids saves cn all f1) as [ids f2]. cbn in *.
    destruct r as [|w]; [done|]. destruct (0 <? w); [by right|done].
Qed.
End down.

Lemma stop_all_stops `{ReadDir} hosts kill k l d :
  map fst (fst (fst (stop_all hosts kill k l d))) = map (fun v => (cell_id v, vm_id v)) l.
Proof.
  revert k d. induction l as [|v l IH]; intros k d; [done|]. cbn [stop_all].
  destruct (stop_vm (hosts k) kill (cell_id v) (vm_id v) d) as [[r sigs] d1]. specialize (IH (S k) d1).
  destruct (stop_all hosts kill (S k) l d1) as [[rs sigs'] d2]. cbn in *. by rewrite IH.
Qed.

(** Stopping a stack reaches the VMs that starting it gave an identifier: each service that
    has a name of its own, and whose VM is live, is stopped. *)
Theorem down_reaches_stack `{ReadDirLaws} fs yaml_dir snapshot_dir stack cell saves saves' vms svcs all f h hosts kill d e s v :
  reg_ok (load f) -> stack_ok stack cell svcs -> down_ok (fst <$> cell) all ->
  let r := compose_up saves every fs yaml_dir snapshot_dir stack cell vms svcs f in
  up_error r = None -> In (e, s) (zip svcs (up_started r)) -> In e all -> nkr_name (snd e) <> None -> 0 < s_vm_id s ->
  In v (fst (list_vms h d)) -> vm_id v = s_vm_id s ->
  exists res, In (cell_id v, vm_id v, res) (down_stops (compose_down saves' h hosts kill cell all d (up_file r))).
Proof.
  intros Hok Hst Hdown r Herr Hin Hall Hname Hpos Hlive Hv.
  pose proof (service_ids_ok _ _ _ Hst) as [Hn Hd]. subst r.
  destruct (resolve_ids saves (fst <$> cell) (service_ids stack svcs) f) as [[err|vs] f1] eqn:E;
    destruct (resolve_ids_spec _ _ _ _ _ _ Hok Hn Hd E) as (Hok1 & _ & Hres); [unfold compose_up in Herr; by rewrite E in Herr|].
  specialize (Hres vs eq_refl).
  destruct (up_after fs yaml_dir snapshot_dir stack cell saves vms svcs f f1 vs Hst Hok1 E Hres) as (_ & Ef & Es & Hup).
  rewrite Ef. set (l := up_started _) in *. clearbody l.
  apply list_elem_of_In, elem_of_lookup_zip_with in Hin as (i & e' & s' & [= <- <-] & He & Hs).
  assert (Hrv : resolved (fst <$> cell) f1 (down_name e, id (snd e)) (s_vm_id s)).
  { assert (Hvi : vs !! i = Some (s_vm_id s)) by (rewrite <- Es; by rewrite list_lookup_fmap, Hs).
    assert (Hei : service_ids stack svcs !! i = Some (config_name stack e, id (snd e)))
      by (unfold service_ids; by rewrite list_lookup_fmap, He).
    pose proof (Forall2_lookup_lr _ _ _ _ _ _ Hres Hei Hvi) as Hr. unfold config_name in Hr. unfold down_name.
    by destruct (nkr_name (snd e)). }
  unfold compose_down. pose proof (down_ids_in _ saves' all f1 e _ Hok1 Hdown Hall Hrv Hpos) as Hids.
  destruct (down_ids saves' (fst <$> cell) all f1) as [ids f2]. cbn [fst] in Hids.
  destruct (list_vms h d) as [l0 d1]. cbn [fst] in Hlive.
  pose proof (stop_all_stops hosts kill 0 (filter (fun v => vm_id v ∈ ids) l0) d1) as Hstops.
  destruct (stop_all _ _ _ _ _) as [[rs sigs] d2]. cbn in *.
  assert (Hin : In (cell_id v, vm_id v) (map fst rs)).
  { rewrite Hstops. apply in_map_iff. exists v. split; [done|]. apply list_elem_of_In, list_elem_of_filter.
    split; [rewrite Hv; by apply list_elem_of_In|by apply list_elem_of_In]. }
  apply in_map_iff in Hin as ([[c w] res] & [= -> ->] & Hin). by exists res.
Qed.

(** ** Examples *)
Module ComposeExample.
Definition fs : disk_view := mkView (fun p => if bool_decide (p = "/srv/acme/files") then Some IsDir else None)
  (fun _ => false) (fun _ => None) "/mnt/nkr" None.
Definition named (nm : string) : ServiceConfig := empty_service <| nkr_name := Some nm |>.
Definition svcs : list (string * ServiceConfig) := [("db", named "acme-db"); ("odoo", named "acme-prod")].
Definition cell : option (string * Z) := Some ("acme", 1).
Definition regs : file := Some {["acme/acme-prod" := 3]}.
Definition result : up_result := compose_up true every fs "/srv/acme" "/srv/acme/.nkr/snapshots" "acme" cell [StateExample.acme] svcs regs.
Definition hosts (_ : nat) : nat -> host := StateExample.hosts.
Definition with_files : ServiceConfig := named "acme-prod" <| volumes := ["/srv/acme/files:/var/lib/odoo:rw"] |>.
Definition unnamed : list (string * ServiceConfig) := [("db", empty_service)].
End ComposeExample.

(** Stopping a stack stops strangers: the VMs are chosen by their number alone, so that a VM of
    another cell with the number of a service gets the signal too. *)
Theorem down_stops_strangers :
  let r := compose_down true StateExample.h ComposeExample.hosts StateExample.sent (Some ("acme", 1))
    ComposeExample.svcs StateExample.d ComposeExample.regs in
  cell_id StateExample.beta = 2 /\ In (2, 3, inr ()) (down_stops r) /\ In (0%nat, SIGTERM, pid StateExample.beta) (down_signals r).
Proof. vm_compute. split_and!; [reflexivity|tauto|tauto]. Qed.

(** A service without a name of its own is started under the name of the stack and stopped under its
    bare name, which gets a new identifier: its VM is not stopped. *)
Example down_misses_unnamed :
  let r := compose_up true every ComposeExample.fs "/srv/acme" "/snap" "acme" None [] ComposeExample.unnamed None in
  map s_vm_id (up_started r) = [2] /\ fst (down_ids true None ComposeExample.unnamed (up_file r)) = [3].
Proof. vm_compute. split; reflexivity. Qed.

(** The quota is read from the first state file that contains the name, also as a part of another. *)
Example throttle_reads_neighbour :
  let own := "{ " +:+ quote "name" +:+ ": " +:+ quote "acme" +:+ ", " +:+ quote "chrs" +:+ ": 2 }" in
  let other := "{ " +:+ quote "name" +:+ ": " +:+ quote "acme-dev" +:+ ", " +:+ quote "chrs" +:+ ": 7 }" in
  nitro_throttle [own] "acme" = "40000 100000" /\ nitro_throttle [other; own] "acme" = "140000 100000".
Proof. vm_compute. split; reflexivity. Qed.

Lemma example_reg_ok : reg_ok (load ComposeExample.regs).
Proof.
  change (load ComposeExample.regs) with ({["acme/acme-prod" := 3]} : Registry). intros k1 k2 v H1 H2.
  apply lookup_singleton_Some in H1 as [<- _], H2 as [<- _]. done.
Qed.
Lemma example_stack_ok : stack_ok "acme" ComposeExample.cell ComposeExample.svcs.
Proof.
  split.
  - repeat (apply List.Forall_cons; [split; reflexivity|]). apply List.Forall_nil.
  - vm_compute. repeat (constructor; [rewrite ?elem_of_cons, elem_of_nil; intuition congruence|]). constructor.
Qed.
Lemma example_down_ok : down_ok (fst <$> ComposeExample.cell) ComposeExample.svcs.
Proof.
  split.
  - repeat (apply List.Forall_cons; [split; reflexivity|]). apply List.Forall_nil.
  - vm_compute. repeat (constructor; [rewrite ?elem_of_cons, elem_of_nil; intuition congruence|]). constructor.
Qed.


Theorem up_again_starts_nothing_witness :
  Forall (fun s => s_args s = None)
    (up_started (compose_up false every ComposeExample.fs "/srv/acme" "/srv/acme/.nkr/snapshots" "acme" ComposeExample.cell
      [StateExample.vm 1 2 7 "acme-db" ""; StateExample.acme] ComposeExample.svcs (up_file ComposeExample.result))).
Proof.
  apply (up_again_starts_nothing ComposeExample.fs "/srv/acme" "/srv/acme/.nkr/snapshots" "acme" ComposeExample.cell true false
    [StateExample.acme] [StateExample.vm 1 2 7 "acme-db" ""; StateExample.acme] ComposeExample.svcs ComposeExample.regs
    example_reg_ok example_stack_ok).
  - vm_compute. reflexivity.
  - apply List.Forall_cons; [vm_compute; tauto|]. apply List.Forall_cons; [vm_compute; tauto|]. apply List.Forall_nil.
Defined.

Theorem volumes_accounted_witness :
  match prepare ComposeExample.fs (fun _ => true) (fun _ => true) "/srv/acme/.nkr-data" "odoo" ComposeExample.with_files with
  | Some svc' => "/srv/acme/.nkr-data/odoo-var_lib_odoo.ext4:/var/lib/odoo" ∈ shares svc'
  | None => False
  end.
Proof.
  assert (Ev : volumes <$> prepare ComposeExample.fs (fun _ => true) (fun _ => true) "/srv/acme/.nkr-data" "odoo"
    ComposeExample.with_files = Some []) by (vm_compute; reflexivity).
  destruct (prepare _ _ _ _ _ _) as [svc'|] eqn:E; [|discriminate Ev].
  destruct (volumes_accounted ComposeExample.fs (fun _ => true) (fun _ => true) "/srv/acme/.nkr-data" "odoo"
    ComposeExample.with_files svc' E) as [_ H].
  assert (Hin : "/srv/acme/files:/var/lib/odoo:rw" ∈ volumes ComposeExample.with_files) by apply list_elem_of_here.
  destruct (H _ Hin) as [Hk|[(h & g & Ep & _ & Hs)|[[g Eo] _]]].
  - exfalso. injection Ev as Ev. rewrite Ev in Hk. by apply elem_of_nil in Hk.
  - assert (Ec : promotes ComposeExample.fs "/srv/acme/files:/var/lib/odoo:rw" = Some ("/srv/acme/files", "/var/lib/odoo"))
      by (vm_compute; reflexivity).
    rewrite Ec in Ep. injection Ep as <- <-. exact Hs.
  - exfalso. assert (Ec : overridden ComposeExample.fs (fun _ => true) "/srv/acme/files:/var/lib/odoo:rw" = None) by (vm_compute; reflexivity).
    rewrite Ec in Eo. discriminate.
Defined.

Theorem volume_disks_distinct_witness :
  plain_guest "/var/lib/odoo" /\ ("/var/lib/odoo" = "/var/lib/odoo" -> sanitize_component "web" = sanitize_component "web").
Proof.
  assert (H : plain_guest "/var/lib/odoo") by (exists "var/lib/odoo"; split; [reflexivity|split; reflexivity]).
  split; [exact H|].
  exact (proj2 (volume_disks_distinct "/srv/d" "web" "web" "/var/lib/odoo" "/var/lib/odoo" H H eq_refl)).
Defined.

Theorem health_check_spec_witness :
  fst (run_health_check (mkHealthCheck 8069 3 2 4) false (fun i => (i =? 3)%nat)) = true
  /\ In Warmup (snd (run_health_check (mkHealthCheck 8069 3 2 4) false (fun i => (i =? 3)%nat))).
Proof.
  pose proof (health_check_spec (mkHealthCheck 8069 3 2 4) false (fun i => (i =? 3)%nat) 2 ltac:(lia) ltac:(cbn; lia) ltac:(cbn; lia)) as H.
  destruct (run_health_check _ _ _) as [r l]. destruct H as (-> & _ & H & _). cbn [fst snd].
  assert (E : existsb (fun i => (i =? 3)%nat) (seq 1 (Z.to_nat (retries (mkHealthCheck 8069 3 2 4)))) = true) by (vm_compute; reflexivity).
  split; [exact E|]. apply H. split; [exact E|split; reflexivity].
Defined.

Theorem summary_always_ready_witness : seen_ready (summary [("odoo", false)]) = true.
Proof. apply (summary_always_ready [("odoo", false)]). discriminate. Defined.

Theorem down_reaches_stack_witness :
  exists res, In (1, 3, res) (down_stops (compose_down true StateExample.h ComposeExample.hosts StateExample.sent ComposeExample.cell
    ComposeExample.svcs StateExample.d (up_file ComposeExample.result))).
Proof.
  apply (down_reaches_stack ComposeExample.fs "/srv/acme" "/srv/acme/.nkr/snapshots" "acme" ComposeExample.cell true true
    [StateExample.acme] ComposeExample.svcs ComposeExample.svcs ComposeExample.regs StateExample.h ComposeExample.hosts StateExample.sent
    StateExample.d ("odoo", ComposeExample.named "acme-prod")
    (mkStarted "acme-prod" 3 "10.0.1.4" None None false) StateExample.acme
    example_reg_ok example_stack_ok example_down_ok).
  - vm_compute. reflexivity.
  - vm_compute. right. left. reflexivity.
  - right. left. reflexivity.
  - vm_compute. discriminate.
  - cbn. lia.
  - vm_compute. left. reflexivity.
  - reflexivity.
Defined.
