(* ===== verification/Bpf.v ===== *)
(** * Classic BPF programs (src/seccomp.rs; src/vmm.rs: build_bpf_bytecode)

    NKR writes two classic BPF programs: the system-call filter of its own process and
    the filter that confines the frames of a guest to its MAC and IP address.  The
    semantics of the instructions it uses is given first, then the two programs and what
    they decide. *)
From S2P Require Import Prelude Text Registry.

(** [SockFilter] *)
Record sock_filter := mkInsn { code : Z; jt : Z; jf : Z; k : Z }.

Definition BPF_LD : Z := 0x00.
Definition BPF_W : Z := 0x00.
Definition BPF_ABS : Z := 0x20.
Definition BPF_JMP : Z := 0x05.
Definition BPF_JEQ : Z := 0x10.
Definition BPF_K : Z := 0x00.
Definition BPF_RET : Z := 0x06.

(** ** Semantics

    [load n off] is the value of [n] bytes at an offset of the data, [None] past its end.
    The accumulator is [a]; a load past the end returns 0 from the program; the result is
    [None] for an instruction outside this subset, a jump out of the program, or when the
    fuel ends (jumps only go forward, so the length of the program is enough). *)
Fixpoint exec (load : nat -> Z -> option Z) (prog : list sock_filter) (fuel pc : nat) (a : Z)
  : option Z :=
  match fuel with
  | O => None
  | S fuel =>
      match prog !! pc with
      | None => None
      | Some i =>
          if code i =? 0x20 then
            match load 4%nat (k i) with Some v => exec load prog fuel (S pc) v | None => Some 0 end
          else if code i =? 0x28 then
            match load 2%nat (k i) with Some v => exec load prog fuel (S pc) v | None => Some 0 end
          else if code i =? 0x15 then
            exec load prog fuel (S pc + Z.to_nat (if a =? k i then jt i else jf i)) a
          else if code i =? 0x06 then Some (k i)
          else None
      end
  end.
Definition run_filter (load : nat -> Z -> option Z) (prog : list sock_filter) : option Z :=
  exec load prog (length prog) 0 0.

(** the offsets of a jump are bytes of the instruction *)
Definition insn_ok (i : sock_filter) : Prop := is_u8 (jt i) /\ is_u8 (jf i) /\ is_u32 (k i).

(** ** The system-call filter (seccomp.rs) *)
Definition SECCOMP_RET_ALLOW : Z := 0x7FFF0000.
Definition SECCOMP_RET_KILL_PROCESS : Z := 0x80000000.

Definition ALLOWED_SYSCALLS : list Z :=
  [0; 1; 2; 3; 4; 5; 6; 7; 8; 9; 10; 11; 12; 13; 14; 15; 16; 17; 18; 19; 20; 21; 22; 23; 24; 25; 26; 27;
   28; 29; 30; 31; 32; 33; 34; 35; 36; 37; 38; 39; 40; 41; 42; 43; 44; 45; 46; 47; 48; 49; 50; 51; 52; 53;
   54; 55; 56; 57; 58; 59; 60; 61; 62; 63; 64; 65; 66; 67; 68; 69; 70; 71; 72; 73; 74; 75; 76; 77; 78; 79;
   80; 81; 82; 83; 84; 85; 86; 87; 88; 89; 90; 91; 92; 93; 94; 95; 96; 97; 98; 99; 100; 102; 103; 104; 105;
   106; 107; 108; 109; 110; 111; 112; 113; 114; 115; 116; 117; 118; 119; 120; 186; 202; 217; 218; 228; 231;
   232; 233; 257; 258; 263; 289; 290; 291; 293; 302; 318; 322; 332; 334; 425; 426; 427; 435; 437; 439; 441;
   452].

Definition jeq_insn (n i : nat) (nr : Z) : sock_filter :=
  let remaining := u8 (Z.of_nat n - Z.of_nat i - 1) in
  mkInsn (Z.lor (Z.lor BPF_JMP BPF_JEQ) BPF_K) (u8 (remaining + 1)) 0 nr.

Definition seccomp_program (allowed : list Z) : list sock_filter :=
  let n := length allowed in
  [mkInsn (Z.lor (Z.lor BPF_LD BPF_W) BPF_ABS) 0 0 0]
  ++ imap (jeq_insn n) allowed
  ++ [mkInsn (Z.lor BPF_RET BPF_K) 0 0 SECCOMP_RET_KILL_PROCESS;
      mkInsn (Z.lor BPF_RET BPF_K) 0 0 SECCOMP_RET_ALLOW].

(** [struct seccomp_data]: the system-call number, then the architecture *)
Definition seccomp_load (nr arch : Z) (n : nat) (off : Z) : option Z :=
  if (n =? 4)%nat && (off =? 0) then Some nr
  else if (n =? 4)%nat && (off =? 4) then Some arch else None.

(** ** The frame filter of a TAP device (build_bpf_bytecode) *)
Definition insn_text (c t f : Z) (kval : string) : string :=
  dec c +:+ " " +:+ dec t +:+ " " +:+ dec f +:+ " " +:+ kval.

Definition bytecode_of (mac_hi mac_lo ip_int : Z) : string :=
  "11,32 0 0 6,21 0 7 " +:+ dec mac_hi +:+ ",40 0 0 10,21 0 5 " +:+ dec mac_lo
  +:+ ",40 0 0 12,21 4 0 2054,21 0 2 2048,32 0 0 26,21 1 0 " +:+ dec ip_int
  +:+ ",6 0 0 0,6 0 0 65535".

Definition build_bpf_bytecode (mac : list Z) (guest_ip : string) : option string :=
  let ip_parts := omap (parse_uint 255) (split_on "." guest_ip) in
  if negb (length ip_parts =? 4)%nat then None
  else Some (bytecode_of (be_val (take 4 mac)) (be_val (drop 4 mac)) (be_val ip_parts)).

(** How [tc] reads the text: the number of instructions, then each one. *)
Definition tc_insn (s : string) : option sock_filter :=
  match split_on " " s with
  | [c; t; f; kv] =>
      c ← read_number 10 c; t ← read_number 10 t; f ← read_number 10 f; kv ← read_number 10 kv;
      Some (mkInsn c t f kv)
  | _ => None
  end.
Definition tc_program (s : string) : option (list sock_filter) :=
  match split_on "," s with
  | n :: insns =>
      n ← read_number 10 n;
      prog ← mapM tc_insn insns;
      if Z.of_nat (length prog) =? n then Some prog else None
  | [] => None
  end.

(** network byte order, the frame from its first byte *)
Definition frame_load (frame : list Z) (n : nat) (off : Z) : option Z :=
  if (off + Z.of_nat n <=? Z.of_nat (length frame)) && (0 <=? off)
  then Some (be_val (take n (drop (Z.to_nat off) frame))) else None.

(** ** What the programs decide *)

(** one step, by the code of the instruction *)
Section Steps.
Context (load : nat -> Z -> option Z) (prog : list sock_filter) (fuel pc : nat) (a : Z).

Lemma exec_ld_w t f o :
  prog !! pc = Some (mkInsn 0x20 t f o) ->
  exec load prog (S fuel) pc a =
  match load 4%nat o with Some v => exec load prog fuel (S pc) v | None => Some 0 end.
Proof. intros Hi. cbn [exec]. by rewrite Hi. Qed.

Lemma exec_ld_h t f o :
  prog !! pc = Some (mkInsn 0x28 t f o) ->
  exec load prog (S fuel) pc a =
  match load 2%nat o with Some v => exec load prog fuel (S pc) v | None => Some 0 end.
Proof. intros Hi. cbn [exec]. by rewrite Hi. Qed.

Lemma exec_jeq t f o :
  prog !! pc = Some (mkInsn 0x15 t f o) ->
  exec load prog (S fuel) pc a =
  exec load prog fuel (S pc + Z.to_nat (if a =? o then t else f)) a.
Proof. intros Hi. cbn [exec]. by rewrite Hi. Qed.

Lemma exec_ret t f o :
  prog !! pc = Some (mkInsn 0x06 t f o) -> exec load prog (S fuel) pc a = Some o.
Proof. intros Hi. cbn [exec]. by rewrite Hi. Qed.
End Steps.

(** one step of a concrete program *)
Ltac bpf_step :=
  first [erewrite exec_ld_w by reflexivity | erewrite exec_ld_h by reflexivity
        |erewrite exec_jeq by reflexivity | erewrite exec_ret by reflexivity].

Section Seccomp.
Context (nr arch : Z) (allowed : list Z).
Context (Hlen : (length allowed <= 255)%nat).
Let n := length allowed.
Let prog := seccomp_program allowed.

Lemma seccomp_at i :
  prog !! S i = (imap (jeq_insn n) allowed
    ++ [mkInsn 0x06 0 0 SECCOMP_RET_KILL_PROCESS; mkInsn 0x06 0 0 SECCOMP_RET_ALLOW]) !! i.
Proof. done. Qed.

Lemma seccomp_jeq pre x l :
  allowed = pre ++ x :: l -> prog !! S (length pre) = Some (mkInsn 0x15 (Z.of_nat (n - length pre)) 0 x).
Proof.
  intros E. rewrite seccomp_at.
  assert (Hx : allowed !! length pre = Some x) by (rewrite E; by apply list_lookup_middle).
  rewrite lookup_app_l by (rewrite length_imap; by eapply lookup_lt_Some).
  rewrite list_lookup_imap, Hx. simpl. unfold jeq_insn.
  apply lookup_lt_Some in Hx. subst n. do 2 f_equal. unfold u8. lia.
Qed.

Lemma seccomp_tail : prog !! S n = Some (mkInsn 0x06 0 0 SECCOMP_RET_KILL_PROCESS)
  /\ prog !! S (S n) = Some (mkInsn 0x06 0 0 SECCOMP_RET_ALLOW).
Proof.
  split; rewrite seccomp_at, lookup_app_r by (rewrite length_imap; unfold n; lia);
    rewrite length_imap; unfold n.
  - by rewrite Nat.sub_diag.
  - by replace (S (length allowed) - length allowed)%nat with 1%nat by lia.
Qed.

Lemma seccomp_scan load pre l fuel :
  allowed = pre ++ l -> (length l + 1 < fuel)%nat ->
  exec load prog fuel (S (length pre)) nr =
  Some (if bool_decide (nr ∈ l) then SECCOMP_RET_ALLOW else SECCOMP_RET_KILL_PROCESS).
Proof.
  revert pre fuel. induction l as [|x l IH]; intros pre fuel E Hf;
    (destruct fuel as [|fuel]; [lia|]).
  - rewrite app_nil_r in E. subst pre. fold n. by rewrite (exec_ret _ _ _ _ _ _ _ _ (proj1 seccomp_tail)).
  - rewrite (exec_jeq _ _ _ _ _ _ _ _ (seccomp_jeq pre x l E)).
    assert (Hn : n = (length pre + S (length l))%nat) by (unfold n; rewrite E, length_app; done).
    destruct (Z.eqb_spec nr x) as [<-|Hne].
    + rewrite bool_decide_eq_true_2 by (by left). destruct fuel as [|fuel]; [simpl in Hf; lia|].
      replace (S (S (length pre)) + Z.to_nat (Z.of_nat (n - length pre)))%nat with (S (S n)) by lia.
      by rewrite (exec_ret _ _ _ _ _ _ _ _ (proj2 seccomp_tail)).
    + replace (S (S (length pre)) + Z.to_nat 0)%nat with (S (length (pre ++ [x])))
        by (rewrite length_app; simpl; lia).
      rewrite IH; [|by rewrite <- app_assoc|simpl in Hf; lia].
      f_equal. by rewrite (bool_decide_ext (nr ∈ x :: l) (nr ∈ l)) by (rewrite elem_of_cons; tauto).
Qed.
End Seccomp.

(** The system-call filter allows exactly its list.  For a list of at most 255
    numbers (the jumps are bytes) the program ends, and returns ALLOW for the numbers of
    the list and KILL_PROCESS for every other, whatever the architecture of the call:
    [seccomp_data.arch] is not looked at.  The installed list is that short, and its
    program consists of valid instructions that fit the kernel's limit. *)
Theorem seccomp_allows_exactly allowed nr arch :
  (length allowed <= 255)%nat ->
  run_filter (seccomp_load nr arch) (seccomp_program allowed)
    = Some (if bool_decide (nr ∈ allowed) then SECCOMP_RET_ALLOW else SECCOMP_RET_KILL_PROCESS)
  /\ (length ALLOWED_SYSCALLS <= 255)%nat
  /\ Forall insn_ok (seccomp_program ALLOWED_SYSCALLS)
  /\ Z.of_nat (length (seccomp_program ALLOWED_SYSCALLS)) <= 4096.
Proof.
  intros Hlen. split_and!.
  - unfold run_filter.
    assert (Hp : length (seccomp_program allowed) = S (S (S (length allowed))))
      by (unfold seccomp_program; rewrite !length_app, length_imap; simpl; lia).
    rewrite Hp, (exec_ld_w _ _ _ _ _ 0 0 0) by done. cbn [seccomp_load Nat.eqb Z.eqb andb].
    apply (seccomp_scan nr allowed Hlen (seccomp_load nr arch) [] allowed); [done|lia].
  - by apply Nat.leb_le.
  - apply (bool_decide_unpack _). by vm_compute.
  - by vm_compute.
Qed.

Lemma seccomp_allows_exactly_witness :
  run_filter (seccomp_load 101 0xC000003E) (seccomp_program ALLOWED_SYSCALLS)
    = Some SECCOMP_RET_KILL_PROCESS.
Proof.
  apply (seccomp_allows_exactly ALLOWED_SYSCALLS 101 0xC000003E). by apply Nat.leb_le.
Defined.

(** ** The frame filter *)
Definition slice (frame : list Z) (a n : nat) : list Z := take n (drop a frame).

(** the frames a guest may send: its source MAC address and, for IPv4, its source
    address; ARP is not looked into *)
Definition permitted (mac ip frame : list Z) : bool :=
  bool_decide (slice frame 6 6 = mac)
  && (bool_decide (slice frame 12 2 = [0x08; 0x06])
      || bool_decide (slice frame 12 2 = [0x08; 0x00]) && bool_decide (slice frame 26 4 = ip)).

Definition tap_program (mac_hi mac_lo ip_int : Z) : list sock_filter :=
  [mkInsn 32 0 0 6; mkInsn 21 0 7 mac_hi; mkInsn 40 0 0 10; mkInsn 21 0 5 mac_lo; mkInsn 40 0 0 12;
   mkInsn 21 4 0 2054; mkInsn 21 0 2 2048; mkInsn 32 0 0 26; mkInsn 21 1 0 ip_int; mkInsn 6 0 0 0;
   mkInsn 6 0 0 65535].

Lemma be_val_inj xs ys :
  bytes_ok xs -> bytes_ok ys -> length xs = length ys -> be_val xs = be_val ys -> xs = ys.
Proof.
  unfold be_val. intros Hx Hy Hl E. apply (inj reverse).
  rewrite <- (le_bytes_le_val (reverse xs)), <- (le_bytes_le_val (reverse ys)) by (by apply Forall_reverse).
  by rewrite !length_reverse, E, Hl.
Qed.

Lemma be_val_range xs : bytes_ok xs -> 0 <= be_val xs < 256 ^ Z.of_nat (length xs).
Proof.
  intros H. unfold be_val. rewrite <- (length_reverse xs). apply le_val_bound. by apply Forall_reverse.
Qed.

(** a load compares like the bytes it reads *)
Lemma load_eq frame n off (bs : list Z) :
  bytes_ok frame -> bytes_ok bs -> length bs = n -> (0 < n)%nat ->
  match frame_load frame n (Z.of_nat off) with
  | Some v => (v =? be_val bs) = bool_decide (slice frame off n = bs)
  | None => bool_decide (slice frame off n = bs) = false
  end.
Proof.
  intros Hf Hb Hn Hpos. unfold frame_load, slice. rewrite (proj2 (Z.leb_le 0 _)), andb_true_r, Nat2Z.id by lia.
  assert (Hl : length (take n (drop off frame)) = Nat.min n (length frame - off))
    by (by rewrite length_take, length_drop).
  destruct (Z.leb_spec (Z.of_nat off + Z.of_nat n) (Z.of_nat (length frame))) as [Hle|Hgt].
  - apply eq_bool_prop_intro. rewrite bool_decide_spec, Is_true_true, Z.eqb_eq. split; [|by intros ->].
    apply be_val_inj; [by apply Forall_take, Forall_drop|done|lia].
  - apply bool_decide_eq_false. intros E. apply (f_equal length) in E. rewrite Hl in E. lia.
Qed.

Lemma slice_app frame a n m : slice frame a (n + m) = slice frame a n ++ slice frame (a + n) m.
Proof.
  unfold slice. rewrite (Nat.add_comm a n), <- skipn_skipn. generalize (drop a frame) as l.
  induction n as [|n IH]; intros [|x l]; simpl; [done..| |by rewrite IH].
  by rewrite !take_nil.
Qed.

Lemma slice_split frame a n m (bs cs : list Z) :
  length bs = n -> bool_decide (slice frame a (n + m) = bs ++ cs)
  = bool_decide (slice frame a n = bs) && bool_decide (slice frame (a + n) m = cs).
Proof.
  intros Hn. rewrite slice_app. apply eq_bool_prop_intro. rewrite andb_True, !bool_decide_spec.
  split; [|by intros [-> ->]]. intros E.
  assert (Hs : length (slice frame a n) = n).
  { apply (f_equal length) in E. unfold slice in *. autorewrite with nkr_len in *. lia. }
  apply app_inj_1 in E; [done|congruence].
Qed.

(** The program on a frame is the permission test. *)
Lemma tap_program_spec mac ip frame :
  bytes_ok frame -> bytes_ok mac -> bytes_ok ip -> length mac = 6%nat -> length ip = 4%nat ->
  run_filter (frame_load frame)
    (tap_program (be_val (take 4 mac)) (be_val (drop 4 mac)) (be_val ip))
  = Some (if permitted mac ip frame then 65535 else 0).
Proof.
  intros Hf Hm Hi Hml Hil.
  pose proof (load_eq frame 4 6 (take 4 mac) Hf ltac:(by apply Forall_take) ltac:(rewrite length_take; lia) ltac:(lia)) as L1.
  pose proof (load_eq frame 2 10 (drop 4 mac) Hf ltac:(by apply Forall_drop) ltac:(rewrite length_drop; lia) ltac:(lia)) as L2.
  pose proof (load_eq frame 2 12 [0x08; 0x06] Hf ltac:(by repeat constructor) eq_refl ltac:(lia)) as L3.
  pose proof (load_eq frame 2 12 [0x08; 0x00] Hf ltac:(by repeat constructor) eq_refl ltac:(lia)) as L4.
  pose proof (load_eq frame 4 26 ip Hf Hi Hil ltac:(lia)) as L5.
  unfold permitted. replace (bool_decide (slice frame 6 6 = mac)) with
    (bool_decide (slice frame 6 4 = take 4 mac) && bool_decide (slice frame 10 2 = drop 4 mac))
    by (rewrite <- (slice_split frame 6 4 2) by (rewrite length_take; lia); by rewrite take_drop).
  unfold run_filter. set (prog := tap_program _ _ _).
  change (length prog) with 11%nat. change (Z.of_nat 6) with 6 in L1. change (Z.of_nat 10) with 10 in L2.
  change (Z.of_nat 12) with 12 in L3, L4. change (Z.of_nat 26) with 26 in L5.
  change (be_val [8; 6]) with 2054 in L3. change (be_val [8; 0]) with 2048 in L4.
  bpf_step. destruct (frame_load frame 4 6) as [v1|]; [|by rewrite L1].
  bpf_step. rewrite <- L1. destruct (v1 =? _); [cbn [Nat.add Z.to_nat andb]|by repeat bpf_step].
  bpf_step. destruct (frame_load frame 2 10) as [v2|]; [|by rewrite L2].
  bpf_step. rewrite <- L2. destruct (v2 =? _); [cbn [Nat.add Z.to_nat andb]|by repeat bpf_step].
  bpf_step. destruct (frame_load frame 2 12) as [v3|]; [|by rewrite L3, L4].
  bpf_step. rewrite <- L3, <- L4. destruct (v3 =? 2054); [by repeat bpf_step|cbn [Nat.add Z.to_nat orb]].
  bpf_step. destruct (v3 =? 2048); [cbn [Nat.add Z.to_nat andb]|by repeat bpf_step].
  bpf_step. destruct (frame_load frame 4 26) as [v5|]; [|by rewrite L5].
  bpf_step. rewrite <- L5. destruct (v5 =? _); by repeat bpf_step.
Qed.

Lemma tc_insn_dec c t f z :
  is_u64 c -> is_u64 t -> is_u64 f -> is_u64 z ->
  tc_insn (insn_text c t f (dec z)) = Some (mkInsn c t f z).
Proof.
  intros Hc Ht Hf Hz. unfold tc_insn.
  change (insn_text c t f (dec z)) with (join_with " " [dec c; dec t; dec f; dec z]).
  rewrite split_join; [by rewrite !dec_read|done|].
  repeat constructor; apply dec_plain; try done; unfold is_u64 in *; lia.
Qed.

Lemma insn_text_plain c t f z :
  0 <= c -> 0 <= t -> 0 <= f -> 0 <= z -> char_in "," (insn_text c t f (dec z)) = false.
Proof.
  intros Hc Ht Hf Hz. unfold insn_text. rewrite !char_in_app, !(dec_plain ",") by done. done.
Qed.

(** [tc] reads back the program. *)
Lemma tc_program_of mac_hi mac_lo ip_int :
  is_u32 mac_hi -> is_u32 mac_lo -> is_u32 ip_int ->
  tc_program (bytecode_of mac_hi mac_lo ip_int) = Some (tap_program mac_hi mac_lo ip_int).
Proof.
  intros Hh Hl Hi.
  assert (E : bytecode_of mac_hi mac_lo ip_int = join_with "," ("11" ::
    map (fun i => insn_text (code i) (jt i) (jf i) (dec (k i))) (tap_program mac_hi mac_lo ip_int))).
  { unfold bytecode_of, tap_program, insn_text. cbn [map code jt jf k].
    generalize (dec mac_hi) (dec mac_lo) (dec ip_int). reflexivity. }
  unfold tc_program. rewrite E, split_join; [| done |].
  - simpl (read_number 10 "11"). cbn [mbind option_bind].
    assert (Hm : mapM tc_insn (map (fun i => insn_text (code i) (jt i) (jf i) (dec (k i)))
      (tap_program mac_hi mac_lo ip_int)) = Some (tap_program mac_hi mac_lo ip_int)).
    { apply mapM_Some_2, Forall2_fmap_l, Forall_Forall2_diag.
      unfold tap_program. repeat (apply list.Forall_cons; split); [..|by apply list.Forall_nil];
        cbn [code jt jf k]; apply tc_insn_dec; words. }
    rewrite Hm. done.
  - constructor; [done|]. apply List.Forall_map. unfold tap_program.
    repeat (apply list.Forall_cons; split); [..|by apply list.Forall_nil];
      cbn [code jt jf k]; apply insn_text_plain; unfold is_u32 in *; lia.
Qed.

Lemma ip_bytes c v :
  is_u8 c -> is_u8 v ->
  omap (parse_uint 255) (split_on "." (id_to_ip c v)) = [10; 0; c; u8 (v + 1)].
Proof.
  intros Hc Hv. assert (Hp : forall z, is_u8 z -> parse_uint 255 (dec z) = Some z)
    by (intros z Hz; apply parse_uint_dec; words).
  change (id_to_ip c v) with (join_with "." ["10"; "0"; dec c; dec (u8 (v + 1))]).
  rewrite split_join; [|done|].
  - simpl. rewrite !Hp by (done || apply u8_range). done.
  - repeat constructor; apply dec_plain; try done; [unfold is_u8 in Hc; lia|].
    pose proof (u8_range (v + 1)) as Hr. unfold is_u8 in Hr. lia.
Qed.

(** C32. Guests are confined to their addresses.  For the MAC and the IP address that
    [run] gives a guest, the text of the filter exists and [tc] reads a program from
    it; on every frame the program ends and its verdict is 65535 for a frame with the
    guest's source MAC that is ARP, or IPv4 with the guest's source address, and 0 for
    every other frame, the truncated ones included. *)
Theorem tap_filter_isolates cell_id vm_id frame :
  is_u8 cell_id -> is_u8 vm_id -> bytes_ok frame ->
  let mac := [0x52; 0x54; 0x00; cell_id; 0x34; vm_id] in
  exists text prog,
    build_bpf_bytecode mac (id_to_ip cell_id vm_id) = Some text
    /\ tc_program text = Some prog
    /\ run_filter (frame_load frame) prog
       = Some (if permitted mac [10; 0; cell_id; u8 (vm_id + 1)] frame then 65535 else 0).
Proof.
  intros Hc Hv Hf mac. set (ip := [10; 0; cell_id; u8 (vm_id + 1)]).
  assert (Hm : bytes_ok mac) by (repeat (apply list.Forall_cons; split); try done; words).
  assert (Hi : bytes_ok ip) by (repeat (apply list.Forall_cons; split); try done; words).
  eexists _, (tap_program (be_val (take 4 mac)) (be_val (drop 4 mac)) (be_val ip)). split_and!.
  - unfold build_bpf_bytecode. by rewrite ip_bytes by done.
  - apply tc_program_of.
    + apply (be_val_range (take 4 mac)). by apply Forall_take.
    + pose proof (be_val_range (drop 4 mac) ltac:(by apply Forall_drop)) as H. change (256 ^ Z.of_nat (length (drop 4 mac))) with 65536 in H. unfold is_u32. lia.
    + by apply (be_val_range ip).
  - by apply tap_program_spec.
Qed.

Lemma tap_filter_isolates_witness :
  exists text prog,
    build_bpf_bytecode [0x52; 0x54; 0; 1; 0x34; 5] (id_to_ip 1 5) = Some text
    /\ tc_program text = Some prog
    /\ run_filter (frame_load (replicate 6 255 ++ [0x52; 0x54; 0; 1; 0x34; 5] ++ [8; 6])) prog = Some 65535.
Proof.
  apply (tap_filter_isolates 1 5 (replicate 6 255 ++ [0x52; 0x54; 0; 1; 0x34; 5] ++ [8; 6]));
    [by vm_compute|by vm_compute|].
  apply (bool_decide_unpack _). by vm_compute.
Defined.
