(* ===== verification/Host.v ===== *)
(** * What a VM takes from its host and gives back (src/vmm.rs)

    Port forwarding, the TAP device, the control group and the state file: [run] takes them
    one after the other, a guard gives them back when the start-up fails, and the end of
    [run] when the guest has stopped.

    Rules are those of the nat table of iptables, TAP devices are names, a control group is
    the processes in it.  Other processes do not change these during the life of the VM;
    netlock serializes the accesses of several VMs. *)
From S2P Require Import Prelude Text Sorting Http Watchdog Registry Bpf Layout State.

(** ** iptables *)
Inductive chain := OUTPUT | PREROUTING | POSTROUTING.
Inductive target := Dnat (dest : string) | Masquerade.
(** tcp to a destination and a port *)
Record rule := mkRule { r_chain : chain; r_dst : option string; r_dport : Z; r_target : target }.
#[export] Instance chain_eq_dec : EqDecision chain.
Proof. solve_decision. Defined.
#[export] Instance target_eq_dec : EqDecision target.
Proof. solve_decision. Defined.
#[export] Instance rule_eq_dec : EqDecision rule.
Proof. solve_decision. Defined.
Notation nat_table := (list rule).

(** ** Port forwarding *)
Definition dest (ip : string) (g : Z) : string := ip +:+ ":" +:+ dec g.
Definition dnat_rule (ip : string) (p : Z * Z) : rule := mkRule OUTPUT (Some "127.0.0.1") p.1 (Dnat (dest ip p.2)).
Definition legacy_rule (ip : string) (p : Z * Z) : rule := mkRule PREROUTING None p.1 (Dnat (dest ip p.2)).
Definition masq_rule (ip : string) (p : Z * Z) : rule := mkRule POSTROUTING (Some ip) p.2 Masquerade.

Definition parse_forward (spec : string) : option (Z * Z) :=
  match split_on ":" spec with
  | [a; b] => h ← parse_uint 65535 a; g ← parse_uint 65535 b; Some (h, g)
  | _ => None
  end.

Section iptables.
(** whether iptables can be run, and the rules it can add *)
Context (runs : bool) (accepts : rule -> bool).

(** [-C], [-A] and [-D] *)
Definition check (r : rule) (t : nat_table) : bool := runs && bool_decide (r ∈ t).
Definition append (r : rule) (t : nat_table) : bool * nat_table :=
  if runs && accepts r then (true, t ++ [r]) else (false, t).
Fixpoint remove_first (r : rule) (t : nat_table) : nat_table :=
  match t with [] => [] | x :: t => if decide (x = r) then t else x :: remove_first r t end.
Definition remove (r : rule) (t : nat_table) : nat_table := if runs then remove_first r t else t.

Definition ensure (r : rule) (t : nat_table) : bool * nat_table := if check r t then (true, t) else append r t.

Fixpoint setup_port_forwarding (specs : list string) (ip : string) (t : nat_table) : list (Z * Z) * nat_table :=
  match specs with
  | [] => ([], t)
  | spec :: specs =>
      match parse_forward spec with
      | None => setup_port_forwarding specs ip t
      | Some p =>
          let '(dl, t) := ensure (dnat_rule ip p) t in
          let '(m, t) := ensure (masq_rule ip p) t in
          let '(active, t) := setup_port_forwarding specs ip t in
          ((if dl && m then [p] else []) ++ active, t)
      end
  end.

Definition cleanup_port_forwarding (rules : list (Z * Z)) (ip : string) (t : nat_table) : nat_table :=
  fold_left (fun t p => remove (masq_rule ip p) (remove (legacy_rule ip p) (remove (dnat_rule ip p) t))) rules t.
End iptables.

(** ** The control group

    [cgroup.procs] lists processes.  A process that kills itself goes no further. *)
Record world := mkWorld {
  w_nat : nat_table; w_taps : gset string; w_cgroups : gmap string (list Z); w_states : dir }.
#[export] Instance eta_world : Eta world := fun w => mkWorld (w_nat w) (w_taps w) (w_cgroups w) (w_states w).

Inductive ending := Returned (ok : bool) | Killed.

(** what the host allows: control groups with the cpu controller, moving a process, new TAP
    devices, writing the state file, and which killed processes leave within half a second *)
Record powers := mkPowers {
  has_cgroups : bool; may_move : bool; adds_tap : bool; writes_state : bool; leaves : Z -> bool;
  adds_rule : rule -> bool; filters : bool }.

(** ** The guard *)
Record VmCleanupGuard := mkGuard {
  armed : bool; g_cell : Z; g_vm : Z; g_name : string; g_chrs : Z; cgroup_done : bool; g_tap : option string;
  g_ip : string; forwarding_rules : list (Z * Z); state_registered : bool }.
#[export] Instance eta_guard : Eta VmCleanupGuard := fun g =>
  mkGuard (armed g) (g_cell g) (g_vm g) (g_name g) (g_chrs g) (cgroup_done g) (g_tap g) (g_ip g) (forwarding_rules g) (state_registered g).
(** where the start-up can fail, by an error or a panic: before the control group, with it
    (bridge, volumes, KVM), at the devices, after the TAP device, after the registration *)
Inductive stage := Checks | Plumbing | Devices | Machine | Handlers.
#[export] Instance stage_eq_dec : EqDecision stage.
Proof. solve_decision. Defined.

Section lifetime.
Context (h : powers) (self : Z) (helpers : list Z).

(** the virtiofsd processes that are started later are in the group of their parent *)
Definition setup_cgroup (vm_name : string) (w : world) : world :=
  if has_cgroups h
  then w <| w_cgroups ::= partial_alter (fun o => Some (default [] o ++ if may_move h then [self] else [])) vm_name |>
  else w.
Definition start_helpers (w : world) : world :=
  w <| w_cgroups ::= fmap (fun ps => if decide (self ∈ ps) then ps ++ helpers else ps) |>.

(** the processes that are killed, up to the own one *)
Fixpoint kill_all (pids : list Z) : bool * list Z :=
  match pids with
  | [] => (false, [])
  | p :: pids => if p =? self then (true, [p]) else let '(dead, ks) := kill_all pids in (dead, p :: ks)
  end.
Definition teardown_cgroup (vm_name : string) (w : world) : bool * world :=
  match w_cgroups w !! vm_name with
  | None => (false, w)
  | Some procs =>
      let '(dead, killed) := kill_all (filter (fun p => 1 < p) procs) in
      let left := filter (fun p => ~ (p ∈ killed /\ (leaves h p = true \/ p = self))) procs in
      (dead, w <| w_cgroups ::= fun m => if dead || negb (bool_decide (left = [])) then <[vm_name := left]> m else delete vm_name m |>)
  end.

Definition guard_new (cell vm : Z) (nm : string) (chrs : Z) : VmCleanupGuard :=
  mkGuard true cell vm nm chrs false None "" [] false.
Definition mark_cgroup_done (g : VmCleanupGuard) : VmCleanupGuard := g <| cgroup_done := true |>.
Definition set_tap (name ip : string) (g : VmCleanupGuard) : VmCleanupGuard := g <| g_tap := Some name |> <| g_ip := ip |>.
Definition set_forwarding_rules (rules : list (Z * Z)) (g : VmCleanupGuard) : VmCleanupGuard := g <| forwarding_rules := rules |>.
Definition mark_state_registered (g : VmCleanupGuard) : VmCleanupGuard := g <| state_registered := true |>.
Definition defuse (g : VmCleanupGuard) : VmCleanupGuard := g <| armed := false |>.

(** [ip link delete] *)
Definition delete_tap (runs : bool) (tap : option string) (w : world) : world :=
  match tap with Some tap => if runs then w <| w_taps ::= fun s => s ∖ {[tap]} |> else w | None => w end.
(** whether the process dies of it, and what it leaves *)
Definition drop_guard (g : VmCleanupGuard) (w : world) : bool * world :=
  if negb (armed g) then (false, w)
  else
    let w := if state_registered g then w <| w_states ::= unregister_vm (g_cell g) (g_vm g) |> else w in
    let w := if bool_decide (forwarding_rules g = []) then w
             else w <| w_nat ::= cleanup_port_forwarding true (forwarding_rules g) (g_ip g) |> in
    let w := delete_tap true (g_tap g) w in
    if cgroup_done g && (0 <? g_chrs g) then teardown_cgroup (g_name g) w else (false, w).
Definition failed (g : VmCleanupGuard) (w : world) : ending * world :=
  let '(dead, w) := drop_guard g w in (if dead then Killed else Returned false, w).

(** ** run *)
Definition auto_tap (cell vm : Z) : string :=
  if cell =? 0 then "nkr-tap" +:+ dec vm else "nkr-c" +:+ dec cell +:+ "-tap" +:+ dec vm.

Definition vm_state (cfg : VmConfig) (canon : string -> option string) (pmem : bool) (tap : option string) (now : Z) : VmState :=
  mkVmState (Layout.vm_id cfg) (Layout.hash cfg) (Layout.name cfg) self (Layout.ram_mb cfg) (Layout.chrs cfg)
    (map (fun d => default d (canon d)) (Layout.disks cfg)) (id_to_ip (Layout.cell_id cfg) (Layout.vm_id cfg))
    (port_forwards cfg) (default "none" tap) now pmem (pmem || bool_decide (is_Some (rootfs cfg)))
    (Layout.balloon_mb cfg) (Layout.cell_id cfg) (mkGuestMem 0 0 0 0).

(** the system calls every program makes when it starts: the filter of seccomp is inherited *)
Context (startup : list Z).
Definition allowed_call (nr : Z) : bool :=
  bool_decide (run_filter (seccomp_load nr 0xC000003E) (seccomp_program ALLOWED_SYSCALLS) = Some SECCOMP_RET_ALLOW).
Definition programs_start : bool := negb (filters h) || forallb allowed_call startup.

(** the clean-up when the guest has stopped *)
Definition finish (cfg : VmConfig) (rules : list (Z * Z)) (tap : option string) (ok : bool) (w : world) : ending * world :=
  let w := w <| w_nat ::= cleanup_port_forwarding programs_start rules (id_to_ip (Layout.cell_id cfg) (Layout.vm_id cfg)) |> in
  let w := delete_tap programs_start tap w in
  let w := w <| w_states ::= unregister_vm (Layout.cell_id cfg) (Layout.vm_id cfg) |> in
  let '(dead, w) := if 0 <? Layout.chrs cfg then teardown_cgroup (Layout.name cfg) w else (false, w) in
  (if dead then Killed else Returned ok, w).

Definition run (cfg : VmConfig) (canon : string -> option string) (pmem : bool) (now : Z) (fault : option stage) (ok : bool) (w : world)
  : ending * world :=
  let ip := id_to_ip (Layout.cell_id cfg) (Layout.vm_id cfg) in
  if decide (fault = Some Checks) then (Returned false, w)
  else
    let g := guard_new (Layout.cell_id cfg) (Layout.vm_id cfg) (Layout.name cfg) (Layout.chrs cfg) in
    let w := setup_cgroup (Layout.name cfg) w in
    let g := mark_cgroup_done g in
    if decide (fault = Some Plumbing) then failed g w
    else
      let w := start_helpers w in
      if decide (fault = Some Devices) then failed g w
      else
        let tap := auto_tap (Layout.cell_id cfg) (Layout.vm_id cfg) in
        let made := match Layout.tap_name cfg with None => true | Some _ => false end in
        let w := if made then delete_tap true (Some tap) w else w in
        if made && negb (adds_tap h) then failed g w
        else
          let w := if made then w <| w_taps ::= fun s => s ∪ {[tap]} |> else w in
          let g := if made then set_tap tap ip g else g in
          if decide (fault = Some Machine) then failed g w
          else
            let '(rules, t) := setup_port_forwarding true (adds_rule h) (port_forwards cfg) ip (w_nat w) in
            let w := w <| w_nat := t |> in
            let g := set_forwarding_rules rules g in
            let auto := if made then Some tap else None in
            let shown := match Layout.tap_name cfg with Some n => Some n | None => auto end in
            let w := if writes_state h then w <| w_states ::= register_vm (vm_state cfg canon pmem shown now) |> else w in
            let g := if writes_state h then mark_state_registered g else g in
            if decide (fault = Some Handlers) then failed g w
            else finish cfg rules auto ok w.
End lifetime.

(** ** Port forwarding is undone *)
Lemma remove_first_app r t l : r ∉ t -> remove_first r (t ++ l) = t ++ remove_first r l.
Proof.
  induction t as [|x t IH]; intros Hn; [done|]. apply not_elem_of_cons in Hn as [Hx Hn]. cbn. rewrite decide_False by done. by rewrite IH.
Qed.
Lemma remove_first_nodup r l : NoDup l -> remove_first r l = filter (fun x => x <> r) l.
Proof.
  induction l as [|x l IH]; intros Hnd; [done|]. apply list.NoDup_cons in Hnd as [Hx Hnd]. cbn [remove_first]. destruct (decide (x = r)) as [->|Hne].
  - rewrite filter_cons_False by (intros []; done). symmetry. apply filter_all. intros y Hy ->. done.
  - rewrite filter_cons_True, IH by done. done.
Qed.

Section forwarding.
Context (accepts : rule -> bool) (ip : string).
Definition own (p : Z * Z) : list rule := [dnat_rule ip p; legacy_rule ip p; masq_rule ip p].
Definition parsed (specs : list string) : list (Z * Z) := omap parse_forward specs.
(** no rule of the VM is there before *)
Definition fresh (specs : list string) (t : nat_table) : Prop := forall p r, p ∈ parsed specs -> r ∈ own p -> r ∉ t.
Definition both (p : Z * Z) : bool := accepts (dnat_rule ip p) && accepts (masq_rule ip p).

Lemma ensure_spec r t l : r ∉ t -> NoDup l -> Forall (fun x => accepts x = true) l ->
  exists l', ensure true accepts r (t ++ l) = (accepts r, t ++ l') /\ NoDup l' /\ Forall (fun x => accepts x = true) l'
    /\ forall x, x ∈ l' <-> x ∈ l \/ x = r /\ accepts r = true.
Proof.
  intros Hr Hnd Hall. unfold ensure, check, append. cbn [andb]. case_bool_decide as Hin.
  - apply elem_of_app in Hin as [?|Hin]; [done|]. rewrite (proj1 (list.Forall_forall _ _) Hall r Hin).
    exists l. split_and!; [done|done|done|]. intros x. split; [by left|]. by intros [|[-> _]].
  - destruct (accepts r) eqn:Ea.
    + exists (l ++ [r]). rewrite app_assoc. split_and!; [done| | |].
      * apply list.NoDup_app. split_and!; [done| |apply NoDup_singleton]. intros x Hx ->%list_elem_of_singleton. apply Hin, elem_of_app. by right.
      * apply list.Forall_app. split; [done|by repeat constructor].
      * intros x. rewrite elem_of_app, list_elem_of_singleton. naive_solver.
    + exists l. split_and!; try done. intros x. split; [by left|]. by intros [|[_ ?]].
Qed.

Lemma setup_spec specs : forall t l, fresh specs t -> NoDup l -> Forall (fun x => accepts x = true) l ->
  exists l', setup_port_forwarding true accepts specs ip (t ++ l) = (filter (fun p => both p) (parsed specs), t ++ l') /\ NoDup l'
    /\ forall x, x ∈ l' <-> x ∈ l \/ accepts x = true /\ exists p, p ∈ parsed specs /\ (x = dnat_rule ip p \/ x = masq_rule ip p).
Proof.
  induction specs as [|spec specs IH]; intros t l Hf Hnd Hall.
  { exists l. split_and!; [done|done|]. intros x. split; [by left|]. intros [?|(_ & p & ?%not_elem_of_nil & _)]; done. }
  cbn [setup_port_forwarding]. unfold parsed. cbn [omap list_omap]. destruct (parse_forward spec) as [p|] eqn:Ep.
  - assert (Hhd : p ∈ parsed (spec :: specs)) by (unfold parsed; cbn; rewrite Ep; by left).
    assert (Htl : fresh specs t). { intros q r Hq. apply Hf. unfold parsed. cbn. rewrite Ep. by right. }
    destruct (ensure_spec (dnat_rule ip p) t l) as (l1 & -> & Hn1 & Ha1 & H1); [by apply (Hf p); [|left]|done|done|].
    destruct (ensure_spec (masq_rule ip p) t l1) as (l2 & -> & Hn2 & Ha2 & H2); [by apply (Hf p); [|right; right; left]|done|done|].
    destruct (IH t l2 Htl Hn2 Ha2) as (l3 & -> & Hn3 & H3). exists l3. split_and!; [|done|].
    + f_equal. rewrite filter_cons. change (accepts (dnat_rule ip p) && accepts (masq_rule ip p)) with (both p). by destruct (both p).
    + intros x. rewrite H3, H2, H1. setoid_rewrite elem_of_cons. naive_solver.
  - destruct (IH t l) as (l3 & -> & Hn3 & H3); [|done|done|by exists l3].
    intros q r Hq. apply Hf. unfold parsed. cbn. by rewrite Ep.
Qed.

Lemma remove_fresh r t l : r ∉ t -> NoDup l -> remove true r (t ++ l) = t ++ filter (fun x => x <> r) l.
Proof. intros Hr Hnd. unfold remove. by rewrite remove_first_app, remove_first_nodup. Qed.

Lemma cleanup_spec rules : forall t l, (forall p r, p ∈ rules -> r ∈ own p -> r ∉ t) -> NoDup l ->
  cleanup_port_forwarding true rules ip (t ++ l) = t ++ filter (fun r => r ∉ flat_map own rules) l.
Proof.
  unfold cleanup_port_forwarding. induction rules as [|p rules IH]; intros t l Hf Hnd; cbn [fold_left].
  { symmetry. f_equal. apply filter_all. intros r _. apply not_elem_of_nil. }
  assert (Hp : forall r, r ∈ own p -> r ∉ t) by (intros r; apply Hf; by left).
  rewrite (remove_fresh (dnat_rule ip p)), (remove_fresh (legacy_rule ip p)), (remove_fresh (masq_rule ip p));
    try (by repeat apply list.NoDup_filter); try (apply Hp; unfold own; rewrite !elem_of_cons; tauto).
  rewrite IH by first [intros q r Hq; apply Hf; by right|by repeat apply list.NoDup_filter].
  f_equal. rewrite !list_filter_filter. apply list_filter_iff. intros x. cbn [flat_map]. rewrite elem_of_app.
  unfold own at 2. rewrite !elem_of_cons, elem_of_nil. tauto.
Qed.
End forwarding.

Lemma parse_forward_ports spec p : parse_forward spec = Some p -> 0 <= p.1 <= 65535 /\ 0 <= p.2 <= 65535.
Proof.
  unfold parse_forward. destruct (split_on ":" spec) as [|a [|b [|]]]; try done.
  destruct (parse_uint 65535 a) as [h|] eqn:Ea; [|done]. destruct (parse_uint 65535 b) as [g|] eqn:Eb; [|done]. intros [= <-].
  assert (Hmax : forall s z, parse_uint 65535 s = Some z -> z <= 65535).
  { intros s z. unfold parse_uint. destruct (read_number 10 _) as [n|]; [|done]. cbn. destruct (Z.leb_spec n 65535); [|done]. by intros [= <-]. }
  split; (split; [by eapply parse_uint_nonneg|by eapply Hmax]).
Qed.
Lemma parsed_ports specs p : p ∈ parsed specs -> is_u64 p.1 /\ is_u64 p.2.
Proof. intros (s & _ & H%parse_forward_ports)%list_elem_of_omap. unfold is_u64. lia. Qed.
Lemma dest_inj ip g g' : is_u64 g -> is_u64 g' -> dest ip g = dest ip g' -> g = g'.
Proof. intros Hg Hg' E%append_inj%append_inj%(f_equal (read_number 10)). rewrite !dec_read in E by done. congruence. Qed.

(** What port forwarding adds to iptables is taken away again: of a VM whose rules were not
    there before, a rule stays exactly when it was added and its partner was refused.  The
    forwardings that are reported are those of which both rules were added. *)
Theorem forwarding_undone accepts ip specs t active t1 : fresh ip specs t ->
  setup_port_forwarding true accepts specs ip t = (active, t1) ->
  active = filter (fun p => both accepts ip p) (parsed specs)
  /\ exists leaked, cleanup_port_forwarding true active ip t1 = t ++ leaked
     /\ (forall r, r ∈ leaked <->
           (exists p, p ∈ parsed specs /\ r = dnat_rule ip p /\ accepts r = true /\ accepts (masq_rule ip p) = false)
           \/ exists p, p ∈ parsed specs /\ r = masq_rule ip p /\ accepts r = true
                /\ forall p', p' ∈ parsed specs -> p'.2 = p.2 -> accepts (dnat_rule ip p') = false)
     /\ ((forall r, accepts r = true) -> leaked = []).
Proof.
  intros Hf E. destruct (setup_spec accepts ip specs t [] Hf) as (l & E' & Hnd & Hl); [constructor|constructor|].
  rewrite app_nil_r, E in E'. injection E' as -> ->. split; [done|].
  rewrite cleanup_spec by first [done|intros p r Hp; apply Hf; by apply list_elem_of_filter in Hp as []].
  eexists. split; [done|].
  assert (Hiff : forall r, r ∈ filter (fun r => r ∉ flat_map (own ip) (filter (fun p => both accepts ip p) (parsed specs))) l <->
    accepts r = true /\ (exists p, p ∈ parsed specs /\ (r = dnat_rule ip p \/ r = masq_rule ip p))
    /\ forall p, p ∈ parsed specs -> both accepts ip p = true -> r <> dnat_rule ip p /\ r <> masq_rule ip p).
  { intros r. rewrite list_elem_of_filter, Hl. split.
    - intros (Hn & [?%not_elem_of_nil|(Ha & p & Hp & Hr)]); [done|]. split; [done|]. split; [by exists p|]. intros q Hq Hb.
      split; intros ->; apply Hn; apply list_elem_of_In, in_flat_map; exists q; split; try apply list_elem_of_In; unfold own;
        try (apply list_elem_of_filter; by rewrite Is_true_true); rewrite ?elem_of_cons; tauto.
    - intros (Ha & (p & Hp & Hr) & Hn). split; [|right; split; [done|by exists p]].
      intros (q & [Hb Hq]%list_elem_of_In%list_elem_of_filter & Hin)%list_elem_of_In%in_flat_map. rewrite Is_true_true in Hb.
      destruct (Hn q Hq Hb) as [H1 H2]. cbn [own In] in Hin. destruct Hin as [?|[<-|[?|[]]]]; [by subst| |by subst]. by destruct Hr. }
  split.
  - intros r. rewrite Hiff. split.
    + intros (Ha & (p & Hp & [->| ->]) & Hn).
      * left. exists p. split_and!; try done. destruct (accepts (masq_rule ip p)) eqn:Em; [|done].
        destruct (Hn p Hp) as [[] _]; [|done]. unfold both. by rewrite Ha, Em.
      * right. exists p. split_and!; try done. intros p' Hp' E2. destruct (accepts (dnat_rule ip p')) eqn:Ed; [|done].
        assert (Em : masq_rule ip p' = masq_rule ip p) by (unfold masq_rule; by rewrite E2).
        destruct (Hn p' Hp') as [_ []]; [|done]. unfold both. by rewrite Ed, Em, Ha.
    + intros [(p & Hp & -> & Ha & Hm)|(p & Hp & -> & Ha & Hd)]; (split; [done|]); (split; [exists p; tauto|]); intros q Hq Hb;
        unfold both in Hb; apply andb_true_iff in Hb as [Hbd Hbm]; split; intros Er; try by (injection Er).
      * assert (p = q) as ->; [|congruence]. apply parsed_ports in Hp as [_ Hp], Hq as [_ Hq]. injection Er as E1 E2%dest_inj; [|done|done].
        destruct p, q; cbn in *; congruence.
      * rewrite Hd in Hbd; [done|done|]. by injection Er.
  - intros Hacc. destruct (filter _ l) as [|r l'] eqn:El; [done|exfalso]. destruct (proj1 (Hiff r)) as (_ & (p & Hp & Hr) & Hn); [by left|].
    destruct (Hn p Hp) as [H1 H2]; [unfold both; by rewrite !Hacc|]. by destruct Hr.
Qed.

(** ** The end of a VM *)
Section endings.
Context (h : powers) (self : Z) (helpers startup : list Z).
Definition group (nm : string) (w : world) : list Z := default [] (w_cgroups w !! nm).
(** equal but for the group of [nm] *)
Definition same_but (nm : string) (w w' : world) : Prop :=
  w_nat w' = w_nat w /\ w_taps w' = w_taps w /\ w_states w' = w_states w /\ forall n, n <> nm -> w_cgroups w' !! n = w_cgroups w !! n.

Lemma kill_all_dead pids : fst (kill_all self pids) = bool_decide (self ∈ pids).
Proof.
  induction pids as [|p pids IH]; [done|]. cbn. destruct (Z.eqb_spec p self) as [->|Hne]; cbn.
  - symmetry. apply bool_decide_eq_true. by left.
  - destruct (kill_all self pids) as [d ks]. cbn in *. rewrite IH. apply bool_decide_ext. rewrite elem_of_cons. naive_solver.
Qed.
Lemma teardown_spec nm w d w' : teardown_cgroup h self nm w = (d, w') ->
  same_but nm w w' /\ d = bool_decide (self ∈ group nm w /\ 1 < self) /\ (d = true -> is_Some (w_cgroups w' !! nm)).
Proof.
  unfold teardown_cgroup, group. destruct (w_cgroups w !! nm) as [procs|] eqn:E.
  2: { intros [= <- <-]. split_and!; [done| |done]. symmetry. apply bool_decide_eq_false. by intros [?%not_elem_of_nil _]. }
  pose proof (kill_all_dead (filter (fun p => 1 < p) procs)) as Hk. destruct (kill_all self _) as [dead killed]. cbn in Hk.
  intros [= <- <-]. split_and!.
  - unfold same_but. cbn. split_and!; [done|done|done|]. intros n Hn. destruct (dead || _); by rewrite ?lookup_insert_ne, ?lookup_delete_ne.
  - rewrite Hk. apply bool_decide_ext. rewrite list_elem_of_filter. cbn. tauto.
  - intros ->. cbn. rewrite lookup_insert_eq. done.
Qed.
Lemma setup_group nm w : self ∉ group nm w ->
  bool_decide (self ∈ group nm (setup_cgroup h self nm w)) = has_cgroups h && may_move h /\ same_but nm w (setup_cgroup h self nm w).
Proof.
  intros Hn. unfold setup_cgroup, same_but, group in *. destruct (has_cgroups h); cbn; [|split; [by apply bool_decide_eq_false_2|done]].
  rewrite lookup_partial_alter_eq. cbn. split.
  - destruct (may_move h); [apply bool_decide_eq_true_2, elem_of_app; right; by left|]. by rewrite app_nil_r, bool_decide_eq_false_2.
  - split_and!; try done. intros n Hne. by rewrite lookup_partial_alter_ne.
Qed.
Lemma helpers_group nm w : (forall n, n <> nm -> self ∉ group n w) ->
  bool_decide (self ∈ group nm (start_helpers self helpers w)) = bool_decide (self ∈ group nm w)
  /\ same_but nm w (start_helpers self helpers w).
Proof.
  unfold start_helpers, same_but, group. intros Hn. cbn. split.
  - rewrite lookup_fmap. destruct (w_cgroups w !! nm) as [ps|]; [|done]. cbn. destruct (decide (self ∈ ps)) as [Hin|]; [|done].
    apply bool_decide_ext. rewrite elem_of_app. tauto.
  - split_and!; try done. intros n Hne. rewrite lookup_fmap. specialize (Hn n Hne). destruct (w_cgroups w !! n) as [ps|]; [|done]. cbn in *.
    by rewrite decide_False.
Qed.

(** the VM has a name of its own on the host *)
Definition newcomer (cfg : VmConfig) (w : world) : Prop :=
  auto_tap (Layout.cell_id cfg) (Layout.vm_id cfg) ∉ w_taps w
  /\ w_states w !! state_path_scoped (Layout.cell_id cfg) (Layout.vm_id cfg) = None
  /\ fresh (id_to_ip (Layout.cell_id cfg) (Layout.vm_id cfg)) (port_forwards cfg) (w_nat w)
  /\ forall n, self ∉ group n w.
(** the VMM is in the control group that it kills *)
Definition inside (cfg : VmConfig) : bool := has_cgroups h && may_move h && (0 <? Layout.chrs cfg) && (1 <? self).

Lemma same_but_trans nm w1 w2 w3 : same_but nm w1 w2 -> same_but nm w2 w3 -> same_but nm w1 w3.
Proof. intros (? & ? & ? & Ha) (? & ? & ? & Hb). split_and!; try congruence. intros n Hn. by rewrite Hb, Ha. Qed.

(** what the last step of both clean-ups does, in a world that is as before but for the group *)
Lemma last_step cfg w W d w' : same_but (Layout.name cfg) w W ->
  bool_decide (self ∈ group (Layout.name cfg) W) = has_cgroups h && may_move h ->
  (if 0 <? Layout.chrs cfg then teardown_cgroup h self (Layout.name cfg) W else (false, W)) = (d, w') ->
  same_but (Layout.name cfg) w w' /\ d = inside cfg /\ (d = true -> is_Some (w_cgroups w' !! Layout.name cfg)).
Proof.
  intros Hs Hg. unfold inside. destruct (0 <? Layout.chrs cfg) eqn:Ec.
  - intros (Ht & -> & Hd)%teardown_spec. split_and!; [by eapply same_but_trans| |done].
    rewrite bool_decide_and, Hg, andb_true_r. f_equal. destruct (Z.ltb_spec 1 self); [by apply bool_decide_eq_true|apply bool_decide_eq_false; lia].
  - intros [= <- <-]. rewrite andb_false_r. by split_and!.
Qed.

Definition ends (cfg : VmConfig) (dies ok : bool) (w : world) (r : ending * world) : Prop :=
  same_but (Layout.name cfg) w r.2 /\ r.1 = (if dies then Killed else Returned ok)
  /\ (dies = true -> is_Some (w_cgroups r.2 !! Layout.name cfg)).
Lemma ended cfg ok w W : same_but (Layout.name cfg) w W ->
  bool_decide (self ∈ group (Layout.name cfg) W) = has_cgroups h && may_move h ->
  ends cfg (inside cfg) ok w
    (let '(dead, w) := if 0 <? Layout.chrs cfg then teardown_cgroup h self (Layout.name cfg) W else (false, W) in
     (if dead then Killed else Returned ok, w)).
Proof.
  intros Hs Hg. match goal with |- context [let '(_, _) := ?x in _] => destruct x as [d w'] eqn:E end. destruct (last_step cfg w W d w' Hs Hg E) as (? & -> & ?). by split_and!.
Qed.

Lemma host_prepared cfg w : newcomer cfg w ->
  let nm := Layout.name cfg in let w1 := setup_cgroup h self nm w in
  same_but nm w w1 /\ bool_decide (self ∈ group nm w1) = has_cgroups h && may_move h
  /\ same_but nm w (start_helpers self helpers w1)
  /\ bool_decide (self ∈ group nm (start_helpers self helpers w1)) = has_cgroups h && may_move h.
Proof.
  intros (_ & _ & _ & Hn). cbn. destruct (setup_group (Layout.name cfg) w) as [Hg Hs]; [done|].
  destruct (helpers_group (Layout.name cfg) (setup_cgroup h self (Layout.name cfg) w)) as [Hg' Hs'].
  { intros n Hne. unfold group. destruct Hs as (_ & _ & _ & Hs). rewrite Hs by done. apply Hn. }
  split_and!; [done|done|by eapply same_but_trans|by rewrite Hg'].
Qed.

(** a TAP device is made for the VM; its start-up gets as far as the forwarding of ports *)
Definition made (cfg : VmConfig) : bool := bool_decide (Layout.tap_name cfg = None).
Definition forwards (cfg : VmConfig) (fault : option stage) : bool :=
  (negb (made cfg) || adds_tap h) && (bool_decide (fault = None) || bool_decide (fault = Some Handlers)).
Definition ip_of (cfg : VmConfig) : string := id_to_ip (Layout.cell_id cfg) (Layout.vm_id cfg).
Definition forwarded (cfg : VmConfig) (w : world) : list (Z * Z) * nat_table :=
  setup_port_forwarding true (adds_rule h) (port_forwards cfg) (ip_of cfg) (w_nat w).
(** the rules and the devices that remain *)
Definition remains (cfg : VmConfig) (fault : option stage) (w : world) : nat_table * gset string :=
  if negb (forwards cfg fault) then (w_nat w, w_taps w)
  else if bool_decide (fault = Some Handlers)
  then (cleanup_port_forwarding true (forwarded cfg w).1 (if made cfg then ip_of cfg else "") (forwarded cfg w).2, w_taps w)
  else if programs_start h startup then (cleanup_port_forwarding true (forwarded cfg w).1 (ip_of cfg) (forwarded cfg w).2, w_taps w)
  else ((forwarded cfg w).2, if made cfg then w_taps w ∪ {[auto_tap (Layout.cell_id cfg) (Layout.vm_id cfg)]} else w_taps w).
Definition with_remains (cfg : VmConfig) (fault : option stage) (w : world) : world :=
  w <| w_nat := (remains cfg fault w).1 |> <| w_taps := (remains cfg fault w).2 |>.

Lemma cleanup_off l ip t : cleanup_port_forwarding false l ip t = t.
Proof. unfold cleanup_port_forwarding. by induction l. Qed.
Lemma run_ends cfg canon pmem now fault ok w : newcomer cfg w ->
  ends cfg (inside cfg && negb (bool_decide (fault = Some Checks))) (if decide (fault = None /\ (made cfg = true -> adds_tap h = true)) then ok else false)
    (with_remains cfg fault w) (run h self helpers startup cfg canon pmem now fault ok w).
Proof.
  intros Hn. pose proof Hn as (Htap & Hst & _ & _). destruct (host_prepared cfg w Hn) as (Hs1 & Hg1 & Hs2 & Hg2).
  unfold run. destruct (decide (fault = Some Checks)) as [->|Hc].
  { rewrite bool_decide_eq_true_2, andb_false_r, decide_False by first [done|by intros []].
    unfold with_remains, remains, forwards. rewrite andb_false_r. by split_and!. }
  rewrite (bool_decide_eq_false_2 (fault = Some Checks)), andb_true_r by done. cbn [negb andb]. unfold failed, drop_guard.
  assert (Hno : forall st, fault = Some st -> (if decide (fault = None /\ (made cfg = true -> adds_tap h = true)) then ok else false) = false).
  { intros st ->. rewrite decide_False; [done|by intros []]. }
  assert (Hearly : fault <> None -> fault <> Some Handlers -> with_remains cfg fault w = w).
  { intros E1 E2. unfold with_remains, remains, forwards. rewrite !bool_decide_eq_false_2, andb_false_r by done. by destruct w. }
  destruct (decide (fault = Some Plumbing)) as [Ef|H1]; [rewrite (Hno _ Ef), Hearly by congruence; by apply ended|].
  destruct (decide (fault = Some Devices)) as [Ef|H2]; [rewrite (Hno _ Ef), Hearly by congruence; by apply ended|].
  remember (start_helpers self helpers _) as w2 eqn:Ew2; clear Ew2 Hs1 Hg1. set (tap := auto_tap _ _) in *. destruct Hs2 as (E1 & E2 & E3 & E4).
  replace (match Layout.tap_name cfg with None => true | Some _ => false end) with (made cfg) by (unfold made; by destruct (Layout.tap_name cfg)).
  destruct (made cfg && negb (adds_tap h)) eqn:Eat.
  { apply andb_true_iff in Eat as [Em Ea%negb_true_iff]. rewrite decide_False by (intros [_ Hx]; rewrite Hx in Ea; done). rewrite Em.
    replace (with_remains cfg fault w) with w by (unfold with_remains, remains, forwards; rewrite Em, Ea; by destruct w).
    cbn -[inside teardown_cgroup]. apply ended; [|done]. split_and!; [done| |done|done]. cbn. rewrite E2. set_solver. }
  assert (Hfw : forwards cfg fault = bool_decide (fault = None) || bool_decide (fault = Some Handlers)).
  { unfold forwards. destruct (made cfg), (adds_tap h); done. }
  assert (Hok : (if decide (fault = None /\ (made cfg = true -> adds_tap h = true)) then ok else false) = if decide (fault = None) then ok else false).
  { destruct (decide (fault = None)) as [->|]; [|by rewrite decide_False by (by intros [])]. rewrite decide_True; [done|]. split; [done|]. intros Em. by destruct (made cfg), (adds_tap h). }
  rewrite Hok. clear Hok Hno Eat.
  set (w3 := if made cfg then delete_tap true (Some tap) w2 else w2).
  set (w4 := if made cfg then w3 <| w_taps ::= fun s => s ∪ {[tap]} |> else w3).
  assert (F : w_nat w4 = w_nat w /\ w_states w4 = w_states w /\ w_cgroups w4 = w_cgroups w2 /\ w_taps w4 = if made cfg then w_taps w ∪ {[tap]} else w_taps w).
  { unfold w4, w3. destruct (made cfg); cbn; split_and!; try done. rewrite E2. set_solver. }
  destruct F as (F1 & F2 & F3 & F4). clearbody w4. clear w3.
  assert (Hback : (w_taps w ∪ {[tap]}) ∖ {[tap]} = w_taps w) by set_solver.
  destruct (decide (fault = Some Machine)) as [Ef|H3].
  { rewrite Hearly by congruence. rewrite decide_False by congruence.
    revert F4; destruct (made cfg); intros F4; cbn -[inside teardown_cgroup]; (apply ended; [|unfold group in *; cbn; rewrite F3; exact Hg2]); split_and!; cbn; rewrite ?F1, ?F2, ?F3, ?F4; try done. }
  rewrite F1. fold (ip_of cfg). change (setup_port_forwarding true (adds_rule h) (port_forwards cfg) (ip_of cfg) (w_nat w)) with (forwarded cfg w).
  unfold with_remains, remains. rewrite Hfw. destruct (forwarded cfg w) as [active t1]. cbn [fst snd].
  assert (Hdel : forall s, State.cell_id s = Layout.cell_id cfg -> State.vm_id s = Layout.vm_id cfg ->
    unregister_vm (Layout.cell_id cfg) (Layout.vm_id cfg) (register_vm s (w_states w)) = w_states w).
  { intros s Ec Ev. unfold unregister_vm, register_vm. rewrite Ec, Ev. by rewrite delete_insert_id. }
  assert (Hund : unregister_vm (Layout.cell_id cfg) (Layout.vm_id cfg) (w_states w) = w_states w) by (by apply delete_id).
  destruct (decide (fault = Some Handlers)) as [Ef|H4].
  - rewrite Ef, decide_False, (bool_decide_eq_true_2 (Some Handlers = Some Handlers)), orb_true_r by done.
    assert (G : g_ip (if made cfg then set_tap tap (ip_of cfg) (mark_cgroup_done (guard_new (Layout.cell_id cfg) (Layout.vm_id cfg) (Layout.name cfg) (Layout.chrs cfg)))
      else mark_cgroup_done (guard_new (Layout.cell_id cfg) (Layout.vm_id cfg) (Layout.name cfg) (Layout.chrs cfg))) = if made cfg then ip_of cfg else "") by (by destruct (made cfg)).
    revert F4 G; destruct (writes_state h), (made cfg); intros F4 G; cbn -[inside teardown_cgroup cleanup_port_forwarding]; destruct (decide (active = [])) as [Ea|Ea];
      first [rewrite (bool_decide_eq_true_2 _ Ea), Ea|rewrite (bool_decide_eq_false_2 _ Ea)]; (apply ended; [|unfold group in *; cbn; rewrite F3; exact Hg2]);
      split_and!; cbn -[cleanup_port_forwarding]; rewrite ?F2, ?F3, ?F4; try done; by apply Hdel.
  - destruct fault as [[]|]; try done. rewrite decide_True by done. cbn [orb negb]. rewrite (bool_decide_eq_false_2 (None = Some Handlers)) by done. unfold finish. fold (ip_of cfg).
    rewrite (bool_decide_eq_true_2 (@None stage = None)) by done. cbn [orb negb].
    destruct (programs_start h startup); rewrite ?cleanup_off;
      revert F4; destruct (writes_state h), (made cfg); intros F4; cbn -[inside teardown_cgroup cleanup_port_forwarding]; rewrite ?cleanup_off; (apply ended; [|unfold group in *; cbn; rewrite F3; exact Hg2]);
      split_and!; cbn -[cleanup_port_forwarding]; rewrite ?F2, ?F3, ?F4; try done; try exact Hund; try (by apply Hdel).
Qed.
End endings.

(** the thread pointer of a program is set with arch_prctl (158) when it starts *)
Lemma no_program_starts h startup : filters h = true -> 158 ∈ startup -> programs_start h startup = false.
Proof.
  intros Hf Hin. unfold programs_start. rewrite Hf. cbn. apply not_true_is_false. rewrite forallb_forall. intros Hall.
  apply list_elem_of_In in Hin. apply Hall in Hin. revert Hin. by vm_compute.
Qed.

(** a rule that stays because its partner was refused *)
Definition left_alone (accepts : rule -> bool) (ip : string) (specs : list string) (r : rule) : Prop :=
  (exists p, p ∈ parsed specs /\ r = dnat_rule ip p /\ accepts r = true /\ accepts (masq_rule ip p) = false)
  \/ exists p, p ∈ parsed specs /\ r = masq_rule ip p /\ accepts r = true
       /\ forall p', p' ∈ parsed specs -> p'.2 = p.2 -> accepts (dnat_rule ip p') = false.
Lemma cleaned_up h cfg w : fresh (ip_of cfg) (port_forwards cfg) (w_nat w) ->
  exists leaked, cleanup_port_forwarding true (forwarded h cfg w).1 (ip_of cfg) (forwarded h cfg w).2 = w_nat w ++ leaked
    /\ forall r, r ∈ leaked <-> left_alone (adds_rule h) (ip_of cfg) (port_forwards cfg) r.
Proof.
  intros Hf. destruct (forwarded h cfg w) as [active t1] eqn:E.
  destruct (forwarding_undone _ _ _ _ _ _ Hf E) as (_ & leaked & ? & ? & _). by exists leaked.
Qed.

(** C22. What a VM leaves behind when its start-up fails at any step, and when its guest has stopped.  The state
    files, and the control groups of others, are as before; its own group stays when the VMM is in it,
    as the VMM kills itself with it.  Before ports are forwarded nothing else was changed or it is
    undone.  After that, what was added to iptables and the TAP device are taken away again, but: a
    rule stays when its partner was refused; with a TAP device of the caller a failed start-up looks for its rules
    under an empty address; and at the end all rules and the device stay when no program can start
    any more, as it is under the filter of system calls (arch_prctl, 158, is not allowed). *)
Theorem host_given_back h self helpers startup cfg canon pmem now fault ok w : newcomer self cfg w ->
  let r := run h self helpers startup cfg canon pmem now fault ok w in
  w_states r.2 = w_states w /\ (forall n, n <> Layout.name cfg -> w_cgroups r.2 !! n = w_cgroups w !! n)
  /\ r.1 = (if inside h self cfg && negb (bool_decide (fault = Some Checks)) then Killed
            else Returned (if decide (fault = None /\ (made cfg = true -> adds_tap h = true)) then ok else false))
  /\ (r.1 = Killed -> is_Some (w_cgroups r.2 !! Layout.name cfg))
  /\ (forwards h cfg fault = false -> w_nat r.2 = w_nat w /\ w_taps r.2 = w_taps w)
  /\ (forwards h cfg fault = true -> fault = Some Handlers /\ made cfg = true \/ fault = None /\ programs_start h startup = true ->
        w_taps r.2 = w_taps w /\ exists leaked, w_nat r.2 = w_nat w ++ leaked
          /\ forall x, x ∈ leaked <-> left_alone (adds_rule h) (ip_of cfg) (port_forwards cfg) x)
  /\ (forwards h cfg fault = true -> fault = Some Handlers -> made cfg = false ->
        w_taps r.2 = w_taps w /\ w_nat r.2 = cleanup_port_forwarding true (forwarded h cfg w).1 "" (forwarded h cfg w).2)
  /\ (forwards h cfg fault = true -> fault = None -> filters h = true -> 158 ∈ startup ->
        w_nat r.2 = (forwarded h cfg w).2
        /\ w_taps r.2 = if made cfg then w_taps w ∪ {[auto_tap (Layout.cell_id cfg) (Layout.vm_id cfg)]} else w_taps w).
Proof.
  intros Hn. cbn zeta. destruct (run_ends h self helpers startup cfg canon pmem now fault ok w Hn) as ((E1 & E2 & E3 & E4) & E5 & E6).
  rewrite E5, E1, E2, E3. unfold with_remains, remains. cbn.
  split_and!; [done|exact E4|done|destruct (inside h self cfg && _); [intros _; by apply E6|done]| | | |].
  - by intros ->.
  - intros -> [[-> Hm]|[-> Hp]]; cbn; rewrite ?Hm, ?Hp; (split; [done|]); apply cleaned_up; apply Hn.
  - by intros -> -> ->.
  - intros -> -> Hf Hin. cbn. by rewrite (no_program_starts h startup Hf Hin).
Qed.

Module HostExample.
Definition cfg : VmConfig := mkConfig "f00" "acme-web" 512 5 4 [] "nanolinux" None ["8069:8069"; "8072:8072"; "http"] [] [] None [] None
  false 0 0 600 true 1.
Definition adds_all (_ : rule) : bool := true.
Definition quick (_ : Z) : bool := true.
Definition host (filter : bool) : powers := mkPowers true true true true quick adds_all filter.
Definition self : Z := 4242.
(** another VM runs, with a rule and a TAP device of its own *)
Definition other : rule := dnat_rule "10.0.1.9" (9000, 8069).
Definition before : world := mkWorld [other] {["nkr-c1-tap8"]} {["acme-db" := [77]]} ∅.
Definition startup : list Z := [59; 12; 158; 9; 257].
Definition ran (filter : bool) (fault : option stage) : ending * world :=
  run (host filter) self [4250] startup cfg (fun _ => None) false 1700000000 fault true before.

(** what is left of a VM: its ending, rules, TAP devices, its control group, state files *)
Definition left (r : ending * world) : ending * nat * nat * option (list Z) * nat :=
  (r.1, length (w_nat r.2), size (w_taps r.2), w_cgroups r.2 !! "acme-web", size (w_states r.2)).
Example endings : map (fun p => left (ran p.1 p.2)) [(false, None); (false, Some Handlers); (false, Some Checks); (true, None)]
  = [(Killed, 1%nat, 1%nat, Some [4250], 0%nat); (Killed, 1%nat, 1%nat, Some [4250], 0%nat);
     (Returned false, 1%nat, 1%nat, None, 0%nat); (Killed, 5%nat, 2%nat, Some [4250], 0%nat)].
Proof. by vm_compute. Qed.

(** With a TAP device of the caller the guard does not know the address of the guest, and the
    rules stay when the start-up fails after them. *)
Definition own_tap : VmConfig := mkConfig "f00" "acme-web" 512 5 4 [] "nanolinux" None ["8069:8069"] [] [] (Some "tap9") [] None
  false 0 0 600 true 1.
Example given_tap_leaks :
  w_nat (run (host false) self [] startup own_tap (fun _ => None) false 1700000000 (Some Handlers) true before).2
  = [other; dnat_rule "10.0.1.5" (8069, 8069); masq_rule "10.0.1.5" (8069, 8069)].
Proof. by vm_compute. Qed.

Lemma fresh_ports : fresh (id_to_ip 1 4) (port_forwards cfg) (w_nat before).
Proof.
  assert (E : parsed (port_forwards cfg) = [(8069, 8069); (8072, 8072)]) by (by vm_compute).
  intros p r Hp Hr Hin. rewrite E in Hp. apply list_elem_of_singleton in Hin as ->.
  repeat (apply elem_of_cons in Hp as [->|Hp]; [unfold own in Hr; rewrite !elem_of_cons, elem_of_nil in Hr; by destruct Hr as [?|[?|[?|[]]]]|]).
  by apply not_elem_of_nil in Hp.
Qed.
Lemma new_vm : newcomer self cfg before.
Proof.
  split_and!; [by apply (bool_decide_unpack _)|done|exact fresh_ports|].
  intros n. unfold group. cbn [before w_cgroups]. destruct (decide (n = "acme-db")) as [->|Hne].
  - rewrite lookup_singleton_eq. by apply (bool_decide_unpack _).
  - rewrite lookup_singleton_ne by done. apply not_elem_of_nil.
Qed.

Definition refuses_masq (r : rule) : bool := match r_target r with Masquerade => negb (r_dport r =? 8072) | _ => true end.
Lemma forwarding_undone_witness : exists leaked, leaked <> []
  /\ cleanup_port_forwarding true [(8069, 8069)] (id_to_ip 1 4) (setup_port_forwarding true refuses_masq (port_forwards cfg) (id_to_ip 1 4) [other]).2
     = other :: leaked.
Proof.
  assert (E : setup_port_forwarding true refuses_masq (port_forwards cfg) (id_to_ip 1 4) [other]
    = ([(8069, 8069)], (setup_port_forwarding true refuses_masq (port_forwards cfg) (id_to_ip 1 4) [other]).2)) by (by vm_compute).
  destruct (forwarding_undone refuses_masq (id_to_ip 1 4) (port_forwards cfg) [other] _ _ fresh_ports E) as (_ & leaked & H & Hl & _).
  exists leaked. split; [|exact H]. intros ->.
  assert (Hin : dnat_rule (id_to_ip 1 4) (8072, 8072) ∈ @nil rule).
  { apply Hl. left. exists (8072, 8072). split_and!; [by apply (bool_decide_unpack _)|done|done|by vm_compute]. }
  by apply not_elem_of_nil in Hin.
Defined.

(** a start-up that fails gives everything back; the end of a VM under the filter of system calls
    leaves its four rules and its device *)
Lemma host_given_back_witness :
  w_nat (ran false (Some Handlers)).2 = w_nat before /\ (ran false (Some Handlers)).1 = Killed
  /\ length (w_nat (ran true None).2) = 5%nat /\ auto_tap 1 4 ∈ w_taps (ran true None).2.
Proof.
  destruct (host_given_back (host false) self [4250] startup cfg (fun _ => None) false 1700000000 (Some Handlers) true before new_vm)
    as (_ & _ & E & _ & _ & H & _).
  destruct (host_given_back (host true) self [4250] startup cfg (fun _ => None) false 1700000000 None true before new_vm)
    as (_ & _ & _ & _ & _ & _ & _ & H2).
  destruct (H eq_refl (or_introl (conj eq_refl eq_refl))) as (_ & leaked & Hl & Hr).
  assert (Hin : 158 ∈ startup) by (apply (bool_decide_eq_true_1 _); vm_compute; reflexivity).
  destruct (H2 eq_refl eq_refl eq_refl Hin) as [Hn Ht].
  split; [|split; [refine (eq_trans E _); vm_compute; reflexivity|split]].
  - refine (eq_trans Hl _). destruct leaked as [|x leaked]; [apply app_nil_r|]. exfalso.
    destruct (proj1 (Hr x) (list_elem_of_here _ _)) as [(p & _ & _ & _ & Hx)|(p & Hp & _ & _ & Hx)]; [discriminate Hx|].
    specialize (Hx p Hp eq_refl). discriminate Hx.
  - refine (eq_trans (f_equal length Hn) _). vm_compute. reflexivity.
  - unfold ran. rewrite Ht. replace (made cfg) with true by (vm_compute; reflexivity).
    apply elem_of_union. right. by apply elem_of_singleton.
Defined.
End HostExample.
