(* ===== verification/Volumes.v ===== *)
(** * Disks, volumes and the environment of a VM (src/vmm.rs)

    What [run] does to disks before and after the guest: the shared mount of the master
    root file system, the check of images, volumes copied into and out of a disk, the file
    with the environment, mounts that dead VMs left, the choice of the kernel.

    A mount is a source and a mount point, the last one hides those before it; a loop device
    is a name and its file. *)
From S2P Require Import Prelude Text Sorting Http Watchdog Registry Json State Paths Host Layout Janitor.

(** ** Volumes *)
Record VolumeMount := mkVolume { host_path : string; guest_path : string; read_write : bool }.

(** [host:guest] or [host:guest:rw] *)
Definition volume_spec (spec : string) : option VolumeMount :=
  '(host, guest, rw) ← match splitn 3 ":" spec with
    | [h; g] => Some (h, g, false)
    | [h; g; m] => Some (h, g, bool_decide (m = "rw"))
    | _ => None
    end;
  if bool_decide (host = "") || bool_decide (guest = "") then None
  else if negb (starts_with "/" guest) then None
  else Some (mkVolume host guest rw).

(** the paths above a path, with itself: what [create_dir_all] makes *)
Fixpoint prefixes (done rest : string) : list string :=
  match rest with
  | "" => [done]
  | String c t => (if Ascii.eqb c "/" && negb (bool_decide (done = "")) then [done] else []) ++ prefixes (done +:+ String c "") t
  end.
(** [existing] are the paths of the host; [creates] whether a directory can be made *)
Fixpoint parse_volume_specs (creates : string -> bool) (specs : list string) (existing : gset string) : list VolumeMount * gset string :=
  match specs with
  | [] => ([], existing)
  | spec :: specs =>
      match volume_spec spec with
      | None => parse_volume_specs creates specs existing
      | Some v =>
          let there := bool_decide (host_path v ∈ existing) in
          if negb (read_write v) && negb there then parse_volume_specs creates specs existing
          else
            let existing := if negb there && creates (host_path v)
                            then existing ∪ list_to_set (prefixes "" (host_path v)) else existing in
            let '(vs, existing) := parse_volume_specs creates specs existing in (v :: vs, existing)
      end
  end.

(** ** Mounts *)
Notation mounts := (list (string * string)).
Fixpoint umount (point : string) (ms : mounts) : mounts :=
  match ms with
  | [] => []
  | m :: ms => if bool_decide (m.2 = point) && negb (existsb (fun m => bool_decide (m.2 = point)) ms) then ms else m :: umount point ms
  end.
Definition mounted (point : string) (ms : mounts) : bool := existsb (fun m => bool_decide (m.2 = point)) ms.

(** what is done to files, in order *)
Inductive file_op :=
  | Mkdir (p : string) | CopyFile (src dst : string) | CopyTree (src dst : string) | Chmod (p : string) | WriteFile (p text : string).

Record disk_host := mkDiskHost { d_mounts : mounts; d_dirs : gset string; d_log : list file_op }.
#[export] Instance eta_disk_host : Eta disk_host := fun w => mkDiskHost (d_mounts w) (d_dirs w) (d_log w).

Section disk.
(** whether a directory can be made, an image mounted, a mount point released *)
Context (makes mounts_ok releases : string -> bool) (self : Z).

Definition rmdir (dir : string) (w : disk_host) : disk_host :=
  if mounted dir (d_mounts w) then w else w <| d_dirs ::= fun s => s ∖ {[dir]} |>.
Definition mount_dir : string := "/tmp/nkr_vol_" +:+ dec self.
Definition with_mounted_disk (root_disk : string) (operation : string -> bool * list file_op) (w : disk_host) : bool * disk_host :=
  if negb (makes mount_dir) then (false, w)
  else
    let w := w <| d_dirs ::= fun s => s ∪ {[mount_dir]} |> in
    if negb (mounts_ok root_disk) then (false, rmdir mount_dir w)
    else
      let w := w <| d_mounts ::= fun ms => ms ++ [(root_disk, mount_dir)] |> in
      let '(ok, ops) := operation mount_dir in
      let w := w <| d_log ::= fun l => l ++ ops |> in
      let w := if releases mount_dir then w <| d_mounts ::= umount mount_dir |> else w in
      (ok, rmdir mount_dir w).

(** the kind of a path of the host, and whether a directory has entries *)
Context (is_file is_dir has_content : string -> bool) (copies : string -> string -> bool).

Definition opt_mkdir (p : option string) : list file_op := match p with Some p => [Mkdir p] | None => [] end.
Definition inject_volume (mount_dir : string) (vol : VolumeMount) : list file_op :=
  let target := mount_dir +:+ guest_path vol in
  if is_file (host_path vol) then opt_mkdir (Paths.parent target) ++ [CopyFile (host_path vol) target]
  else if is_dir (host_path vol)
  then Mkdir target :: (if has_content (host_path vol) then [CopyTree (host_path vol +:+ "/.") target] else [])
  else [].
Definition inject_volumes (root_disk : string) (vols : list VolumeMount) (w : disk_host) : bool * disk_host :=
  if bool_decide (length vols = 0%nat) then (true, w)
  else with_mounted_disk root_disk (fun dir => (true, flat_map (inject_volume dir) vols)) w.

Definition extract_volume (mount_dir : string) (vol : VolumeMount) : list file_op :=
  let source := mount_dir +:+ guest_path vol in
  if is_dir source
  then [Mkdir (host_path vol); CopyTree (source +:+ "/.") (host_path vol +:+ "/.")]
       ++ (if copies source (host_path vol) then [Chmod (host_path vol)] else [])
  else if is_file source then opt_mkdir (Paths.parent (host_path vol)) ++ [CopyFile source (host_path vol)]
  else [].
Definition extract_volumes (root_disk : string) (vols : list VolumeMount) (w : disk_host) : bool * disk_host :=
  let rw := List.filter read_write vols in
  if bool_decide (length rw = 0%nat) then (true, w)
  else with_mounted_disk root_disk (fun dir => (true, flat_map (extract_volume dir) rw)) w.

(** ** The environment *)
(** [val.replace('\'', "'\\''")] *)
Fixpoint escape_quotes (s : string) : string :=
  match s with
  | "" => ""
  | String c t => if Ascii.eqb c "'" then "'\''" +:+ escape_quotes t else String c (escape_quotes t)
  end.
Definition env_line (var : string) : string :=
  match split_once "=" var with
  | Some (key, val) => "export " +:+ key +:+ "='" +:+ escape_quotes val +:+ String "'" (String LF "")
  | None => ""
  end.
Definition env_content (vars : list string) : string :=
  "# NKR environment variables (auto-generated)" +:+ String LF (foldr (fun v s => env_line v +:+ s) "" vars).
Definition inject_env_vars (writes : string -> bool) (root_disk : string) (vars : list string) (w : disk_host) : bool * disk_host :=
  if bool_decide (length vars = 0%nat) then (true, w)
  else with_mounted_disk root_disk (fun dir =>
    let p := dir +:+ "/etc/nkr-env" in
    (writes p, Mkdir (dir +:+ "/etc") :: (if writes p then [WriteFile p (env_content vars)] else []))) w.
(** with a shared root file system: a file in every directory that is shared *)
Definition share_env_vars (writes : string -> bool) (shares vars : list string) : list file_op :=
  flat_map (fun share =>
    let host := List.hd "" (splitn 2 ":" share) in
    if bool_decide (host = "") || negb (is_dir host) then []
    else if writes (host +:+ "/nkr-env") then [WriteFile (host +:+ "/nkr-env") (env_content vars)] else []) shares.
End disk.

(** the two ways [run] writes the environment *)
Definition write_env (makes mounts_ok releases is_dir writes : string -> bool) (self : Z) (cfg : VmConfig) (w : disk_host) : bool * disk_host :=
  if bool_decide (env_vars cfg = []) then (true, w)
  else match Layout.disks cfg with
       | disk :: _ => inject_env_vars makes mounts_ok releases self writes disk (env_vars cfg) w
       | [] => if bool_decide (is_Some (rootfs cfg))
               then (true, w <| d_log ::= fun l => l ++ share_env_vars is_dir writes (shares cfg) (env_vars cfg) |>) else (true, w)
       end.

(** ** Mounts of dead VMs *)
Definition orphan_pid (name : string) : option Z :=
  s ← match strip_prefix "nkr_vol_" name with
      | Some s => Some s
      | None => match strip_prefix "nkr_inspect_gen_" name with Some s => Some s | None => strip_prefix "nkr_rootfs_" name end
      end;
  parse_uint (2 ^ 32 - 1) s.
Definition is_orphan (k : kernel) (name : string) : bool :=
  match orphan_pid name with Some pid => negb (kill0 k (to_i32 pid)) | None => false end.
(** [entries] of /tmp *)
Definition cleanup_orphaned_mounts (k : kernel) (entries : list string) (w : disk_host) : disk_host :=
  fold_left (fun w name =>
    if is_orphan k name
    then rmdir ("/tmp/" +:+ name) (w <| d_mounts ::= umount ("/tmp/" +:+ name) |>)
    else w) entries w.

(** ** The master root file system *)
Inductive fsck := Clean | Corrected | Failed (code : Z) (hint : string).
(** the exit code of e2fsck; [None] when a signal ended it *)
Definition fsck_ext4 (code : option Z) : fsck :=
  match default (-1) code with
  | 0 => Clean
  | 1 => Corrected
  | c => Failed c (if c =? 8 then " (busy/split-brain u operational error)" else if 4 <=? c then " (corrupción no recuperable)" else "")
  end.

Record loop_host := mkLoopHost { l_mounts : mounts; l_loops : list (string * string) }.
#[export] Instance eta_loop_host : Eta loop_host := fun w => mkLoopHost (l_mounts w) (l_loops w).
Section master.
(** a free loop device, whether mount works, and whether losetup can detach a device *)
Context (free_loop : list (string * string) -> string) (mounts_ok : loop_host -> bool) (detaches : string -> bool).

Definition try_mount_master (first_disk mnt_dir : string) (w : loop_host) : bool * loop_host :=
  if mounts_ok w
  then let dev := free_loop (l_loops w) in
       (true, w <| l_mounts ::= fun ms => ms ++ [(dev, mnt_dir)] |> <| l_loops ::= fun ls => ls ++ [(dev, first_disk)] |>)
  else (false, w).
Definition loop_in_use (dev : string) (ms : mounts) : bool := existsb (fun m => bool_decide (m.1 = dev)) ms.
Definition cleanup_orphan_loops (first_disk : string) (w : loop_host) : loop_host :=
  w <| l_loops ::= List.filter (fun l => negb (bool_decide (l.2 = first_disk) && negb (loop_in_use l.1 (l_mounts w)) && detaches l.1)) |>.
Definition mount_master_rootfs_locked (lock_opens : bool) (first_disk mnt_dir : string) (w : loop_host) : bool * loop_host :=
  if negb lock_opens then try_mount_master first_disk mnt_dir w
  else if mounted mnt_dir (l_mounts w) then (true, w)
  else
    let '(ok, w) := try_mount_master first_disk mnt_dir w in
    if ok then (true, w) else try_mount_master first_disk mnt_dir (cleanup_orphan_loops first_disk w).

(** [format!("{:x}", hash)] *)
Definition hex (z : Z) : string := show_digits (digits 16 16 z).
(** the first disk becomes the shared root file system; [hash_of] its canonical path *)
Definition promote_rootfs (hash_of : string -> Z) (canon : string -> option string) (lock_opens : bool) (cfg : VmConfig) (w : loop_host)
  : VmConfig * loop_host :=
  match rootfs cfg, Layout.disks cfg with
  | None, first_disk :: rest =>
      if ends_with ".ext4" first_disk
      then
        let mnt_dir := "/run/nkr_master_rootfs_" +:+ hex (hash_of (default first_disk (canon first_disk))) in
        let '(ok, w) := mount_master_rootfs_locked lock_opens first_disk mnt_dir w in
        if ok then (mkConfig (Layout.hash cfg) (Layout.name cfg) (Layout.ram_mb cfg) (Layout.chrs cfg) (Layout.vm_id cfg) rest (kernel_path cfg)
                      (initramfs_path cfg) (port_forwards cfg) (volumes cfg) (env_vars cfg) (Layout.tap_name cfg) (shares cfg) (Some mnt_dir)
                      (Layout.use_pmem cfg) (Layout.balloon_mb cfg) (balloon_idle_mb cfg) (balloon_decay_secs cfg) (burst cfg) (Layout.cell_id cfg), w)
        else (cfg, w)
      else (cfg, w)
  | _, _ => (cfg, w)
  end.
Definition check_disks (code : string -> option Z) (cfg : VmConfig) : bool :=
  forallb (fun d => negb (ends_with ".ext4" d) || match fsck_ext4 (code d) with Failed _ _ => false | _ => true end) (Layout.disks cfg).
End master.

(** ** The kernel *)
Definition default_kernels : list string :=
  ["nanolinux"; "vmlinux"; "bzImage"].
Definition is_default_kernel (path : string) : bool :=
  existsb (fun n => bool_decide (path = n) || ends_with ("/" +:+ n) path || ends_with ("/kernel/" +:+ n) path) default_kernels.
Definition smart_resolve_kernel (data_dir : option string) (exe_dir : option string) (there : string -> bool) (path : string) : string :=
  let central := default "/mnt/nkr" data_dir +:+ "/kernel/nanolinux" in
  if negb (is_default_kernel path) then path
  else if there central then central
  else match exe_dir with
       | Some dir => if there (dir +:+ "/nanolinux") then dir +:+ "/nanolinux" else path
       | None => path
       end.
Inductive KernelFormat := BzImage | Elf.
Definition detect_kernel_format (content : option (list Z)) : KernelFormat :=
  match content with
  | Some (0x7F :: 69 :: 76 :: 70 :: _) => Elf
  | _ => BzImage
  end.

(** ** The environment is read back

    How a POSIX shell reads assignments that are quoted: [export], a name, and a value of
    quoted pieces and escaped characters up to the end of the line. *)
Definition name_char (c : ascii) : bool := is_alnum c || Ascii.eqb c "_".
(** letters, digits and underscores, the first no digit; [export] refuses every other name *)
Definition shell_name (k : string) : bool :=
  all_chars name_char k && match k with "" => false | String c _ => negb (from_option (fun d => d <? 10) false (char_digit c)) end.
Inductive mode := Cmd (w : string) | Comment | Key (k : string) | Out (k v : string) | In (k v : string) | Esc (k v : string).
Fixpoint sh_source (m : mode) (s : string) : option (list (string * string)) :=
  match s with
  | "" => match m with Cmd "" | Comment => Some [] | Out k v => Some [(k, v)] | _ => None end
  | String c t =>
      match m with
      | Cmd w => if Ascii.eqb c " " then (if bool_decide (w = "export") then sh_source (Key "") t else None)
                 else if Ascii.eqb c "#" && bool_decide (w = "") then sh_source Comment t
                 else if Ascii.eqb c LF then (if bool_decide (w = "") then sh_source (Cmd "") t else None)
                 else sh_source (Cmd (w +:+ String c "")) t
      | Comment => if Ascii.eqb c LF then sh_source (Cmd "") t else sh_source Comment t
      | Key k => if Ascii.eqb c "=" then (if shell_name k then sh_source (Out k "") t else None)
                 else if name_char c then sh_source (Key (k +:+ String c "")) t else None
      | Out k v => if Ascii.eqb c "'" then sh_source (In k v) t
                   else if Ascii.eqb c "\" then sh_source (Esc k v) t
                   else if Ascii.eqb c LF then (r ← sh_source (Cmd "") t; Some ((k, v) :: r))
                   else None
      | In k v => if Ascii.eqb c "'" then sh_source (Out k v) t else sh_source (In k (v +:+ String c "")) t
      | Esc k v => if Ascii.eqb c LF then sh_source (Out k v) t else sh_source (Out k (v +:+ String c "")) t
      end
  end.
Definition variable (var : string) : option (string * string) := split_once "=" var.
(** a variable whose name a shell accepts *)
Definition named (var : string) : Prop := match variable var with Some (key, _) => shell_name key = true | None => True end.

Lemma in_escaped val : forall k v rest, sh_source (In k v) (escape_quotes val +:+ rest) = sh_source (In k (v +:+ val)) rest.
Proof.
  induction val as [|c val IH]; intros k v rest; cbn [escape_quotes]; [by rewrite app_nil_string|].
  destruct (Ascii.eqb c "'") eqn:E.
  - apply Ascii.eqb_eq in E as ->. change (sh_source (In k v) (("'\''" +:+ escape_quotes val) +:+ rest)
      = sh_source (In k (v +:+ String "'" val)) rest).
    rewrite string_app_assoc.
    change (sh_source (In k v) ("'\''" +:+ (escape_quotes val +:+ rest))) with (sh_source (In k (v +:+ "'")) (escape_quotes val +:+ rest)).
    rewrite IH, string_app_assoc. done.
  - rewrite append_cons. cbn [sh_source]. rewrite E, IH, string_app_assoc. done.
Qed.
Lemma key_read key : forall k rest, char_in "=" key = false -> all_chars name_char key = true -> shell_name (k +:+ key) = true ->
  sh_source (Key k) (key +:+ String "=" rest) = sh_source (Out (k +:+ key) "") rest.
Proof.
  induction key as [|c key IH]; intros k rest H Hn Hs; [rewrite app_nil_string in Hs; rewrite app_nil_string;
    change ((if shell_name k then sh_source (Out k "") rest else None) = sh_source (Out k "") rest); by rewrite Hs|].
  rewrite char_in_cons in H. apply orb_false_iff in H as [Hc Hk].
  unfold all_chars in Hn. cbn in Hn. apply andb_true_iff in Hn as [Hn Hns].
  assert (E : k +:+ String c key = (k +:+ String c "") +:+ key) by (by rewrite string_app_assoc). rewrite E in *.
  rewrite append_cons. cbn [sh_source]. rewrite Ascii.eqb_sym in Hc. by rewrite Hc, Hn, IH.
Qed.

(** C23. When the names of the variables are names for a shell (letters, digits and underscores, the first no
    digit), the shell that reads the environment of a VM gets every variable that was asked for, with
    its very value, whatever characters the value has, and no other.  The code does not look
    at the names ([name_is_code] below). *)
Theorem env_read_back vars : Forall named vars -> sh_source (Cmd "") (env_content vars) = Some (omap variable vars).
Proof.
  unfold env_content. intros H.
  change (sh_source (Cmd "") (foldr (fun v s => env_line v +:+ s) "" vars) = Some (omap variable vars)).
  induction H as [|var vars Hname _ IH]; [done|]. cbn [foldr omap list_omap]. unfold env_line at 1, variable at 1. unfold named, variable in Hname.
  destruct (split_once "=" var) as [[key val]|] eqn:E; [|exact IH].
  assert (Hk : char_in "=" key = false) by (by apply split_once_some in E as [_ ?]).
  rewrite !string_app_assoc.
  match goal with |- sh_source _ (_ +:+ ?s) = _ => change (sh_source (Key "") s = Some ((key, val) :: omap variable vars)) end.
  match goal with |- sh_source _ (_ +:+ (_ +:+ ?s)) = _ => change (sh_source (Key "") (key +:+ String "=" (String "'" s)) = Some ((key, val) :: omap variable vars)) end.
  rewrite key_read by (try done; by apply andb_true_iff in Hname as [? _]). cbn [sh_source Ascii.eqb Bool.eqb String.append]. rewrite in_escaped, !append_empty.
  match goal with |- sh_source _ (_ +:+ ?s) = ?rhs => change ((l ← sh_source (Cmd "") s; Some ((key, val) :: l)) = rhs) end.
  by rewrite IH.
Qed.

(** ** Mounts are undone *)
Lemma mounted_app p ms m : mounted p (ms ++ [m]) = mounted p ms || bool_decide (m.2 = p).
Proof. unfold mounted. rewrite existsb_app. cbn. by rewrite orb_false_r. Qed.
Lemma umount_none p ms : mounted p ms = false -> umount p ms = ms.
Proof.
  induction ms as [|m ms IH]; [done|]. cbn. intros [Hm Hms]%orb_false_iff. rewrite Hm. cbn. by rewrite IH.
Qed.
Lemma umount_last_one p d ms : umount p (ms ++ [(d, p)]) = ms.
Proof.
  induction ms as [|m ms IH]; cbn; [by rewrite bool_decide_eq_true_2|].
  change (existsb _ (ms ++ [(d, p)])) with (mounted p (ms ++ [(d, p)])). rewrite mounted_app, (bool_decide_eq_true_2 ((d, p).2 = p)), orb_true_r by done.
  cbn. by rewrite andb_false_r, IH.
Qed.

Section undone.
Context (self : Z) (root : string) (w : disk_host).
Hypothesis (Hnew : mount_dir self ∉ d_dirs w) (Hfree : mounted (mount_dir self) (d_mounts w) = false).
Notation dir := (mount_dir self).
Definition as_before (w' : disk_host) : Prop := d_mounts w' = d_mounts w /\ d_dirs w' = d_dirs w.
Definition left_behind (w' : disk_host) : Prop := d_mounts w' = d_mounts w ++ [(root, dir)] /\ d_dirs w' = d_dirs w ∪ {[dir]}.

Lemma with_disk_cases makes mounts_ok releases op : let w' := (with_mounted_disk makes mounts_ok releases self root op w).2 in
  as_before w' \/ releases dir = false /\ left_behind w'.
Proof.
  unfold with_mounted_disk, as_before, left_behind. destruct (makes dir); cbn [negb]; [|by left]. destruct (mounts_ok root); cbn [negb].
  2: { left. unfold rmdir. cbn -[mounted umount]. rewrite Hfree. cbn -[mounted umount]. split; [done|set_solver]. }
  destruct (op dir) as [ok ops]. unfold rmdir. destruct (releases dir); cbn -[mounted umount].
  - left. rewrite umount_last_one, Hfree. cbn -[mounted umount]. split; [done|set_solver].
  - right. rewrite mounted_app, bool_decide_eq_true_2, orb_true_r by done. done.
Qed.
Lemma clean_own v : as_before v \/ left_behind v -> as_before (rmdir dir (v <| d_mounts ::= umount dir |>)).
Proof.
  unfold as_before, left_behind, rmdir. destruct v as [vm vd vl]. cbn -[mounted umount].
  intros [[-> ->]|[-> ->]]; rewrite ?umount_last_one, ?(umount_none _ _ Hfree), Hfree; cbn -[mounted umount]; (split; [done|set_solver]).
Qed.
End undone.

Lemma own_orphan k self : 0 < self < 2 ^ 31 -> k_host k !! self = None -> is_orphan k ("nkr_vol_" +:+ dec self) = true.
Proof.
  intros Hs Hk. unfold is_orphan, orphan_pid. rewrite strip_prefix_app. cbn [mbind option_bind].
  rewrite parse_uint_dec by (unfold is_u64; lia). unfold to_i32. rewrite u32_small by (unfold is_u32; lia).
  destruct (Z.ltb_spec self (2 ^ 31)); [|lia]. unfold kill0. destruct (Z.ltb_spec 0 self); [|lia]. rewrite Hk.
  rewrite bool_decide_eq_false_2; [done|]. by intros [? ?].
Qed.

(** C24. A disk that is mounted for volumes or for the environment does not stay mounted.  The mounts
    and the directories are as before when umount works; when it does not, the next start of a
    VM undoes them once the process is dead. *)
Theorem disk_mount_undone makes mounts_ok releases self root op w k entries :
  0 < self < 2 ^ 31 -> k_host k !! self = None ->
  mount_dir self ∉ d_dirs w -> mounted (mount_dir self) (d_mounts w) = false ->
  "nkr_vol_" +:+ dec self ∈ entries -> (forall n, n ∈ entries -> n <> "nkr_vol_" +:+ dec self -> is_orphan k n = false) ->
  let w1 := (with_mounted_disk makes mounts_ok releases self root op w).2 in
  let w2 := cleanup_orphaned_mounts k entries w1 in
  (releases (mount_dir self) = true -> d_mounts w1 = d_mounts w /\ d_dirs w1 = d_dirs w)
  /\ d_mounts w2 = d_mounts w /\ d_dirs w2 = d_dirs w.
Proof.
  intros Hs Hk Hnew Hfree Hin Hothers. pose proof (with_disk_cases self root w Hnew Hfree makes mounts_ok releases op) as Hw.
  cbn zeta in *. set (w1 := (with_mounted_disk _ _ _ _ _ _ _).2) in *. clearbody w1. split; [by intros Hr; destruct Hw as [?|[? _]]; [|congruence]|].
  assert (Hw1 : as_before w w1 \/ left_behind self root w w1) by tauto. clear Hw.
  assert (Hcut : forall l v, (forall n, n ∈ l -> n ∈ entries) -> as_before w v \/ left_behind self root w v ->
    let v' := cleanup_orphaned_mounts k l v in as_before w v' \/ left_behind self root w v' /\ "nkr_vol_" +:+ dec self ∉ l).
  { induction l as [|n l IH]; intros v Hl Hv; [destruct Hv; [by left|right; split; [done|apply not_elem_of_nil]]|].
    cbn [cleanup_orphaned_mounts fold_left]. destruct (decide (n = "nkr_vol_" +:+ dec self)) as [->|Hne].
    - rewrite own_orphan by done. pose proof (clean_own self root w Hnew Hfree v Hv) as Hc.
      assert (Hrest : forall l u, (forall n, n ∈ l -> n ∈ entries) -> as_before w u -> as_before w (cleanup_orphaned_mounts k l u)).
      { clear -Hothers Hnew Hfree Hk Hs. induction l as [|n l IH]; intros u Hl Hu; [done|]. cbn [cleanup_orphaned_mounts fold_left].
        apply IH; [intros m Hm; apply Hl; by right|]. destruct (decide (n = "nkr_vol_" +:+ dec self)) as [->|Hne].
        - rewrite own_orphan by done. apply (clean_own self "" w Hnew Hfree). by left.
        - rewrite Hothers by (done || (apply Hl; by left)). done. }
      left. apply Hrest; [intros m Hm; apply Hl; by right|exact Hc].
    - rewrite (Hothers n) by first [done|apply Hl; by left]. destruct (IH v) as [?|[? Hn]]; [intros m Hm; apply Hl; by right|done|by left|].
      right. split; [done|]. by intros [?|?]%elem_of_cons. }
  destruct (Hcut entries w1) as [?|[_ ?]]; [done|done|done|done].
Qed.

(** ** The master is mounted once *)
Section once.
Context (free_loop : list (string * string) -> string) (mounts_ok : loop_host -> bool) (detaches : string -> bool).
Fixpoint starts (n : nat) (disk dir : string) (w : loop_host) : list bool * loop_host :=
  match n with
  | O => ([], w)
  | S n =>
      let '(ok, w) := mount_master_rootfs_locked free_loop mounts_ok detaches true disk dir w in
      let '(oks, w) := starts n disk dir w in (ok :: oks, w)
  end.

Lemma mounted_starts n disk dir w : mounted dir (l_mounts w) = true -> starts n disk dir w = (replicate n true, w).
Proof.
  intros Hm. induction n as [|n IH]; [done|]. cbn [starts]. unfold mount_master_rootfs_locked. cbn [negb]. by rewrite Hm, IH.
Qed.

(** However many VMs start at once with the same master, under the lock it is mounted once,
    and all of them get it: on the first try, or after the loop devices that nothing mounts
    were detached.  No loop device in use, and none of another file, is detached. *)
Theorem master_mounted_once n disk dir w : mounted dir (l_mounts w) = false ->
  let w0 := if mounts_ok w then w else cleanup_orphan_loops detaches disk w in
  mounts_ok w0 = true ->
  let dev := free_loop (l_loops w0) in
  starts (S n) disk dir w = (replicate (S n) true, mkLoopHost (l_mounts w ++ [(dev, dir)]) (l_loops w0 ++ [(dev, disk)]))
  /\ forall l, l ∈ l_loops w -> l.2 <> disk \/ loop_in_use l.1 (l_mounts w) = true -> l ∈ l_loops w0.
Proof.
  intros Hm. cbn zeta. intros Hok. set (w0 := if mounts_ok w then w else _) in *. assert (Hsame : l_mounts w0 = l_mounts w) by (subst w0; by destruct (mounts_ok w)).
  split.
  - assert (E : mount_master_rootfs_locked free_loop mounts_ok detaches true disk dir w
      = (true, mkLoopHost (l_mounts w ++ [(free_loop (l_loops w0), dir)]) (l_loops w0 ++ [(free_loop (l_loops w0), disk)]))).
    { unfold mount_master_rootfs_locked. cbn [negb]. rewrite Hm, <- Hsame. unfold try_mount_master at 1. subst w0.
      destruct (mounts_ok w) eqn:E; [done|]. unfold try_mount_master. by rewrite Hok. }
    cbn [starts replicate]. rewrite E, mounted_starts; [done|]. cbn [l_mounts]. rewrite mounted_app. cbn. by rewrite bool_decide_eq_true_2, orb_true_r.
  - intros l Hl Hkeep. subst w0. destruct (mounts_ok w); [done|]. unfold cleanup_orphan_loops. cbn. apply list_elem_of_In, filter_In.
    split; [by apply list_elem_of_In|]. destruct Hkeep as [Hne|Huse]; [by rewrite bool_decide_eq_false_2|]. rewrite Huse. by rewrite andb_false_r.
Qed.
End once.

(** ** Volumes *)
Lemma volume_spec_sound spec v : volume_spec spec = Some v -> host_path v <> "" /\ starts_with "/" (guest_path v) = true.
Proof.
  unfold volume_spec. destruct (splitn 3 ":" spec) as [|h [|g [|m [|]]]]; try done; cbn [mbind option_bind];
    (case_bool_decide; [done|]); (case_bool_decide; [done|]); cbn [orb]; (destruct (starts_with "/" g) eqn:E; [|done]); by intros [= <-].
Qed.
Lemma prefixes_last rest : forall done, done +:+ rest ∈ prefixes done rest.
Proof.
  induction rest as [|c t IH]; intros done; cbn [prefixes]; [rewrite app_nil_string; by left|].
  apply elem_of_app. right. replace (done +:+ String c t) with ((done +:+ String c "") +:+ t) by (by rewrite string_app_assoc). apply IH.
Qed.

(** The volumes of a VM are the specifications that are well formed, in their order, without those
    that are read only and have nothing on the host; every one has an absolute path in the guest
    and, when directories can be made, a path that exists on the host. *)
Theorem volumes_parsed creates specs existing : (forall p, creates p = true) ->
  let '(vs, existing') := parse_volume_specs creates specs existing in
  vs `sublist_of` omap volume_spec specs
  /\ existing ⊆ existing'
  /\ (forall v, v ∈ vs -> starts_with "/" (guest_path v) = true /\ host_path v ∈ existing')
  /\ (forall v, v ∈ omap volume_spec specs -> v ∈ vs \/ read_write v = false /\ host_path v ∉ existing).
Proof.
  intros Hc. revert existing. induction specs as [|spec specs IH]; intros existing; cbn [parse_volume_specs omap list_omap].
  { split_and!; [done|done|by intros v ?%not_elem_of_nil|by intros v ?%not_elem_of_nil]. }
  destruct (volume_spec spec) as [v|] eqn:E; [|apply IH]. apply volume_spec_sound in E as [_ Habs].
  destruct (negb (read_write v) && negb (bool_decide (host_path v ∈ existing))) eqn:Es.
  - apply andb_true_iff in Es as [Hrw%negb_true_iff Hex%negb_true_iff]. apply bool_decide_eq_false in Hex.
    specialize (IH existing). destruct (parse_volume_specs _ specs existing) as [vs ex']. destruct IH as (Ha & Hb & Hd & He).
    split_and!; [by constructor|done|done|]. intros u [->|Hu]%elem_of_cons; [by right|by apply He].
  - set (ex := if negb (bool_decide (host_path v ∈ existing)) && creates (host_path v) then existing ∪ list_to_set (prefixes "" (host_path v)) else existing). assert (Hsub : existing ⊆ ex) by (subst ex; rewrite Hc, andb_true_r; case_bool_decide; cbn; [done|apply union_subseteq_l]).
    assert (Hin : host_path v ∈ ex).
    { subst ex. rewrite Hc, andb_true_r. case_bool_decide as Hex; [done|]. cbn. apply elem_of_union. right. apply elem_of_list_to_set.
      apply (prefixes_last (host_path v) ""). }
    specialize (IH ex). destruct (parse_volume_specs _ specs ex) as [vs ex']. destruct IH as (Ha & Hb & Hd & He).
    split_and!; [by constructor|set_solver| |].
    + intros u [->|Hu]%elem_of_cons; [split; [done|set_solver]|by apply Hd].
    + intros u [->|Hu]%elem_of_cons; [left; by left|]. destruct (He u Hu) as [?|[? ?]]; [left; by right|right; split; [done|set_solver]].
Qed.

(** With the filter of system calls installed no volume is copied back from the disk of a VM: mount
    cannot be run any more. *)
Theorem filtered_extraction h startup makes releases self is_file is_dir copies disk vols w :
  filters h = true -> 158 ∈ startup -> (exists v, v ∈ vols /\ read_write v = true) ->
  let r := extract_volumes makes (fun _ => programs_start h startup) releases self is_file is_dir copies disk vols w in
  r.1 = false /\ d_log r.2 = d_log w /\ d_mounts r.2 = d_mounts w.
Proof.
  intros Hf Hin (v & Hv & Hrw). unfold extract_volumes. rewrite bool_decide_eq_false_2.
  2: { intros Hl%nil_length_inv. apply list_elem_of_In in Hv. assert (Hi : List.In v (List.filter read_write vols)) by (by apply filter_In). by rewrite Hl in Hi. }
  pose proof (no_program_starts h startup Hf Hin) as Hp.
  unfold with_mounted_disk. rewrite Hp. cbn [negb]. destruct (negb (makes _)); [done|]. unfold rmdir. by destruct (mounted _ _).
Qed.

Module VolumesExample.
Definition yes (_ : string) : bool := true.
Definition no (_ : string) : bool := false.
Definition vars : list string := ["PGPASSWORD=it's $5"; "MODE=prod"; "broken"; "EMPTY="].
Example env_text : env_content vars = "# NKR environment variables (auto-generated)
export PGPASSWORD='it'\''s $5'
export MODE='prod'
export EMPTY=''
".
Proof. by vm_compute. Qed.
Lemma env_read_back_witness : sh_source (Cmd "") (env_content vars) = Some [("PGPASSWORD", "it's $5"); ("MODE", "prod"); ("EMPTY", "")].
Proof.
  assert (H : Forall named vars) by (repeat (apply list.Forall_cons; split; [vm_compute; try reflexivity; exact I|]); apply list.Forall_nil_2).
  rewrite (env_read_back vars H). by vm_compute.
Defined.
(** a name is not looked at: it is code for the shell, and one that a shell refuses ends the reading *)
Example name_is_code : env_line "A=1" = "export A='1'" +:+ String LF "" /\ env_line "A;reboot;B=1" = "export A;reboot;B='1'" +:+ String LF ""
  /\ sh_source (Cmd "") (env_content ["=x"; "MODE=prod"]) = None /\ sh_source (Cmd "") (env_content ["1ST=x"]) = None.
Proof. vm_compute. auto. Qed.

Definition specs : list string := ["/srv/filestore:/data:rw"; "/etc/missing:/etc/app"; "/srv/filestore:/backup"; "bad"; "/a:b"].
Example volumes_of_specs : map guest_path (parse_volume_specs yes specs ∅).1 = ["/data"; "/backup"].
Proof. by vm_compute. Qed.
Lemma volumes_parsed_witness : forall v, v ∈ (parse_volume_specs yes specs ∅).1 -> starts_with "/" (guest_path v) = true.
Proof.
  pose proof (volumes_parsed yes specs ∅ (fun _ => eq_refl)) as H. destruct (parse_volume_specs yes specs ∅) as [vs ex].
  destruct H as (_ & _ & H & _). intros v Hv. by apply (H v Hv).
Defined.

Definition start : disk_host := mkDiskHost [("/dev/sda1", "/")] ∅ [].
Definition copy (dir : string) : bool * list file_op := (true, [CopyFile "/srv/a" (dir +:+ "/a")]).
(** no process is alive *)
Definition dead : kernel := mkKernel ∅ (fun _ => false) (fun _ => "") 0 yes yes yes.
Lemma disk_mount_undone_witness :
  d_mounts (with_mounted_disk yes yes no 4242 "/srv/db.ext4" copy start).2 = [("/dev/sda1", "/"); ("/srv/db.ext4", "/tmp/nkr_vol_4242")]
  /\ d_mounts (cleanup_orphaned_mounts dead ["cores"; "nkr_vol_4242"] (with_mounted_disk yes yes no 4242 "/srv/db.ext4" copy start).2)
     = [("/dev/sda1", "/")].
Proof.
  split; [by vm_compute|].
  destruct (disk_mount_undone yes yes no 4242 "/srv/db.ext4" copy start dead ["cores"; "nkr_vol_4242"]) as (_ & H & _).
  - lia.
  - done.
  - apply not_elem_of_empty.
  - by vm_compute.
  - right. left.
  - intros n [->|[->|?%not_elem_of_nil]%elem_of_cons]%elem_of_cons Hn; [by vm_compute|by destruct Hn|done].
  - exact H.
Defined.

(** one stale device is in the way of the first try *)
Definition next_loop (ls : list (string * string)) : string := "/dev/loop" +:+ dec (Z.of_nat (length ls)).
Definition few (w : loop_host) : bool := (length (l_loops w) <? 3)%nat.
Definition loops : loop_host := mkLoopHost [("/dev/loop1", "/mnt/x")]
  [("/dev/loop0", "/srv/odoo.ext4"); ("/dev/loop1", "/srv/odoo.ext4"); ("/dev/loop2", "/srv/other.ext4")].
Lemma master_mounted_once_witness :
  (starts next_loop few yes 3 "/srv/odoo.ext4" "/run/m" loops).1 = [true; true; true]
  /\ l_mounts (starts next_loop few yes 3 "/srv/odoo.ext4" "/run/m" loops).2 = [("/dev/loop1", "/mnt/x"); ("/dev/loop2", "/run/m")].
Proof.
  destruct (master_mounted_once next_loop few yes 2 "/srv/odoo.ext4" "/run/m" loops) as [H _]; [by vm_compute|by vm_compute|].
  rewrite H. by vm_compute.
Defined.
(** without the lock file every start mounts once more *)
Example stacked : length (l_mounts (mount_master_rootfs_locked next_loop (fun _ => true) yes false "/srv/odoo.ext4" "/run/m"
  (mount_master_rootfs_locked next_loop (fun _ => true) yes false "/srv/odoo.ext4" "/run/m" loops).2).2) = 3%nat.
Proof. by vm_compute. Qed.

Definition host : powers := mkPowers true true true true (fun _ => true) (fun _ => true) true.
Definition data : VolumeMount := mkVolume "/srv/filestore" "/data" true.
Lemma filtered_extraction_witness :
  (extract_volumes yes (fun _ => programs_start host [158]) yes 4242 no yes (fun _ _ => true) "/srv/db.ext4" [data] start).1 = false.
Proof.
  apply (filtered_extraction host [158] yes yes 4242 no yes (fun _ _ => true) "/srv/db.ext4" [data] start).
  - done.
  - by left.
  - exists data. split; [by left|done].
Defined.
Example fsck_codes : map fsck_ext4 [Some 0; Some 1; Some 2; None] = [Clean; Corrected; Failed 2 ""; Failed (-1) ""].
Proof. by vm_compute. Qed.
Example kernels : map (smart_resolve_kernel None (Some "/opt/nkr") (fun p => bool_decide (p = "/opt/nkr/nanolinux"))) ["bzImage"; "/boot/vmlinux"; "/boot/custom"]
  = ["/opt/nkr/nanolinux"; "/opt/nkr/nanolinux"; "/boot/custom"].
Proof. by vm_compute. Qed.
End VolumesExample.
