(* ===== verification/Dumps.v ===== *)
(** * Backups of instances (src/api.rs)

    A backup is a job with an identifier and a file: the handler reserves the name of the
    instance, writes the file of the job and starts a thread, which runs nkr-backup and writes
    what came of it; two more handlers show the file and name the file to download.  Every night
    deploy/nkr-backup-cleanup.sh removes the files of all the jobs.

    The jobs are a map from identifiers to JSON values ([None] where a file is no JSON);
    the directories that the script leaves are an argument. *)
From S2P Require Import Prelude Text Sorting Http Ipc Json Conf Watchdog Route Registry State Paths Resources Cells Instances Tenants.

Definition BACKUPS_ROOT : string := "/mnt/nkr/backups".
Definition BACKUPS_JOBS_DIR : string := "/mnt/nkr/backups/.jobs".

(** ** Identifiers *)
(** [{:012x}] *)
Definition hex12 (z : Z) : string := let ds := digits 16 16 z in show_digits (ds ++ replicate (12 - length ds) 0).
Definition u128 (z : Z) : Z := z mod 2 ^ 128.
Definition gen_backup_job_id (now_ns pid : Z) : string :=
  let mix := u128 (u128 (now_ns * 0x9E3779B97F4A7C15) + pid) in
  "bkp_" +:+ hex12 (Z.land mix 0xffffffffffff).
Definition is_safe_backup_job_id (s : string) : bool :=
  (String.length s =? 16)%nat && starts_with "bkp_" s && forallb is_hexdigit (drop 4 (String.list_ascii_of_string s)).

(** ** The state *)
Record bthread := mkThread { bt_name : string; bt_format : string; bt_id : string }.
Record backup_state := mkBackups { bk_actions : gset string; bk_jobs : gmap string (option Value); bk_threads : list bthread }.
#[export] Instance eta_backup_state : Eta backup_state := fun s => mkBackups (bk_actions s) (bk_jobs s) (bk_threads s).

(** ** Creating *)
Definition is_format (f : string) : bool := bool_decide (f = "odoo") || bool_decide (f = "nkr") || bool_decide (f = "both").
Definition parse_format `{Serde} (body : string) : option string :=
  if bool_decide (trim body = "") then Some "odoo"
  else v ← parse_json body; Some (default "odoo" (get_str "format" v)).

Definition initial_status (job_id format tenant cell : string) (started_at : Z) : Value :=
  JObject [("job_id", JString job_id); ("status", JString "in_progress"); ("format", JString format);
           ("tenant", JString tenant); ("cell", JString cell); ("started_at", JInt started_at)].
Definition accepted (job_id format : string) : answer :=
  Answer 202 [("job_id", JString job_id); ("status", JString "accepted"); ("format", JString format);
              ("poll", JString ("/api/v1/backups/" +:+ job_id +:+ "/status"));
              ("download", JString ("/api/v1/backups/" +:+ job_id +:+ "/download"))].

Record request := mkRequest {
  rq_cell : string; rq_name : string; rq_body : string;
  rq_now : Z; rq_pid : Z; rq_writes : file_write; rq_spawns : bool; rq_removes : bool }.
Definition handle_create_backup `{Serde} (cells : list CellConfig) (q : request) (s : backup_state) : answer * backup_state :=
  let n := rq_name q in
  if negb (is_safe_identifier (rq_cell q)) then (error 400 "invalid_cell_name", s)
  else if negb (is_safe_identifier n) then (error 400 "invalid_nkr_name", s)
  else match parse_format (rq_body q) with
  | None => (error 400 "invalid_json", s)
  | Some format =>
      if negb (is_format format) then (error 400 "invalid_format", s)
      else if negb (bool_decide (is_Some (find_cell_by_nkr_name cells n))) then (error 404 "instance_not_found", s)
      else if bool_decide (n ∈ bk_actions s)
      then (Answer 409 [("error", JString "action_in_progress"); ("nkr_name", JString n)], s)
      else
        let s := s <| bk_actions ::= union {[n]} |> in
        let job_id := gen_backup_job_id (rq_now q) (rq_pid q) in
        let initial := initial_status job_id format n (rq_cell q) (rq_now q / 10 ^ 9) in
        let s := s <| bk_jobs ::= partial_alter (write_file (rq_writes q) (Some initial) None) job_id |> in
        let release := fun s => s <| bk_actions ::= fun a => a ∖ {[n]} |> in
        if negb (bool_decide (rq_writes q = Stored)) then (error 500 "job_file_create_failed", release s)
        else if rq_spawns q then (accepted job_id format, s <| bk_threads ::= fun ts => ts ++ [mkThread n format job_id] |>)
        else (error 503 "spawn_failed", release s <| bk_jobs ::= if rq_removes q then delete job_id else id |>)
  end.

(** ** The thread *)
(** what nkr-backup does: whether it could be run, with an error; its exit and output;
    the files that are there afterwards; the clock *)
Record script := mkScript {
  sc_run : string + (bool * string * string * string);      (* success, exit, standard error, output *)
  sc_dir : string -> option (list (string * Z));            (* names and dump_sizes *)
  sc_sha256 : string -> option string;
  sc_now : Z; sc_elapsed_ms : Z }.

Definition script_args (name format : string) : list string :=
  name :: (if bool_decide (format = "odoo") then ["--odoo-only"] else if bool_decide (format = "nkr") then ["--nkr-only"] else []).

Definition DONE : string := "✅ Backup completado:".
Definition backup_dir (stdout : string) : option string :=
  l ← find (contains DONE) (lines stdout); p ← split_on ":" l !! 1%nat; Some (trim p).

Notation dump := (string * string * Z)%type.   (* format, path, size *)
Definition output_files (sc : script) (format dir : string) : list dump :=
  (if bool_decide (format = "odoo") || bool_decide (format = "both")
   then map (fun e => ("odoo", dir +:+ "/odoo/" +:+ e.1, e.2))
          (List.filter (fun e => bool_decide (extension e.1 = Some "zip")) (default [] (sc_dir sc (dir +:+ "/odoo"))))
   else [])
  ++ (if bool_decide (format = "nkr") || bool_decide (format = "both")
      then match sc_dir sc (dir +:+ "/nkr") with Some _ => [("nkr", dir +:+ "/nkr", 0)] | None => [] end
      else []).
Definition of_format (f : string) (files : list dump) : option dump := find (fun x => bool_decide (x.1.1 = f)) files.
Definition primary (files : list dump) : option dump :=
  match of_format "odoo" files with Some x => Some x | None =>
  match of_format "nkr" files with Some x => Some x | None => List.hd_error files end end.

Definition file_value (x : dump) : Value :=
  JObject [("format", JString x.1.1); ("path", JString x.1.2); ("size_bytes", JInt x.2)].
Definition ready_status (sc : script) (t : bthread) (main : dump) (files : list dump) : Value :=
  JObject [("job_id", JString (bt_id t)); ("status", JString "ready"); ("format", JString (bt_format t)); ("tenant", JString (bt_name t));
           ("started_at", JInt (u64 (sc_now sc - sc_elapsed_ms sc / 1000))); ("finished_at", JInt (sc_now sc));
           ("elapsed_ms", JInt (u64 (sc_elapsed_ms sc))); ("size_bytes", JInt main.2);
           ("filename", JString (default "" (file_name main.1.2))); ("sha256", JString (default "" (sc_sha256 sc main.1.2)));
           ("files", JArray (map file_value files))].

(** [None]: the file of the job is JSON but neither an object nor null, and the thread panics *)
Definition update_job_failed (now : Z) (err message : string) (job : option (option Value)) : option Value :=
  m ← match default (JObject []) (mjoin job) with JObject m => Some m | JNull => Some [] | _ => None end;
  Some (JObject (insert_member "finished_at" (JInt now) (insert_member "message" (JString message)
    (insert_member "error" (JString err) (insert_member "status" (JString "failed") m))))).

Definition run_backup (sc : script) (t : bthread) (job : option (option Value)) : option Value :=
  let fail := fun err msg => update_job_failed (sc_now sc) err msg job in
  match sc_run sc with
  | inl e => fail "spawn_failed" e
  | inr (false, exit, stderr, stdout) =>
      fail "backup_script_failed" ("nkr-backup exit " +:+ exit +:+ ": stderr=" +:+ stderr +:+ " stdout=" +:+ stdout)
  | inr (true, _, _, stdout) =>
      match backup_dir stdout with
      | None => fail "output_parse_failed" "no pude parsear el path del backup completado del stdout"
      | Some dir =>
          let files := output_files sc (bt_format t) dir in
          match primary files with
          | None => fail "no_output_files" "el script terminó OK pero no encontré archivos en el output dir"
          | Some main => Some (ready_status sc t main files)
          end
      end
  end.
(** the result of the write is not looked at; the name is released in every case *)
Definition run_backup_and_update_job (r : file_write) (sc : script) (t : bthread) (s : backup_state) : backup_state :=
  let s := match run_backup sc t (bk_jobs s !! bt_id t) with
           | Some v => s <| bk_jobs ::= partial_alter (write_file r (Some v) None) (bt_id t) |>
           | None => s
           end in
  s <| bk_actions ::= fun a => a ∖ {[bt_name t]} |>.

(** ** Status and download *)
(** the contents of the file are sent as they are *)
Definition handle_backup_status (job_id : string) (s : backup_state) : answer + option Value :=
  if negb (is_safe_backup_job_id job_id) then inl (error 400 "invalid_job_id")
  else match bk_jobs s !! job_id with
  | Some content => inr content
  | None => inl (error 404 "job_not_found")
  end.

Definition handle_backup_file_meta (exists_ : string -> bool) (job_id format : string) (s : backup_state) : answer :=
  if negb (is_safe_backup_job_id job_id) then error 400 "invalid_job_id"
  else if negb (bool_decide (format = "odoo") || bool_decide (format = "nkr")) then error 400 "invalid_format"
  else match bk_jobs s !! job_id with
  | None => error 404 "job_not_found"
  | Some None => error 500 "job_file_corrupted"
  | Some (Some v) =>
      let status := default "" (get_str "status" v) in
      if bool_decide (status = "in_progress") then error 409 "not_ready"
      else if bool_decide (status = "failed")
      then Answer 409 [("error", JString "failed"); ("message", JString (default "unknown" (get_str "message" v)))]
      else if negb (bool_decide (status = "ready")) then error 500 "unknown_status"
      else match (fs ← get "files" v; l ← as_array fs; find (fun f => bool_decide (get_str "format" f = Some format)) l) with
      | None => error 404 "format_not_available"
      | Some target =>
          let path := default "" (get_str "path" target) in
          if bool_decide (path = "") || negb (exists_ path) then error 500 "file_disappeared"
          else Answer 200 [("path", JString path); ("filename", JString (default "" (file_name path)));
                           ("size_bytes", JInt (default 0 (z ← get "size_bytes" target; as_u64 z)));
                           ("content_type", JString (if ends_with ".zip" path then "application/zip" else "application/octet-stream"));
                           ("sha256", JString (default "" (get_str "sha256" v))); ("format", JString format)]
      end
  end.

(** ** The daemon

    Requests and threads in any order; the names of other actions come and go.  An identifier is
    new: the clock would have to advance by three days to give one again.
    [writes]: the files of jobs can be written and removed, as long as they are there (the
    clean-up removes their directory too, and then a thread cannot write any more);
    [cleans]: the nightly clean-up runs, which removes the files of all jobs. *)
Inductive step `{Serde} (cells : list CellConfig) (writes cleans : bool) : backup_state -> backup_state -> Prop :=
  | request_step q s : (writes = true -> rq_writes q = Stored /\ rq_removes q = true) ->
      bk_jobs s !! gen_backup_job_id (rq_now q) (rq_pid q) = None ->
      gen_backup_job_id (rq_now q) (rq_pid q) ∉ map bt_id (bk_threads s) ->
      step cells writes cleans s (snd (handle_create_backup cells q s))
  | thread_step r sc i t s : bk_threads s !! i = Some t -> (writes = true -> r = Stored \/ bk_jobs s !! bt_id t = None) ->
      step cells writes cleans s (run_backup_and_update_job r sc t s <| bk_threads ::= delete i |>)
  | acquire_step n s : n ∉ bk_actions s -> step cells writes cleans s (s <| bk_actions ::= union {[n]} |>)
  | release_step n s : n ∉ map bt_name (bk_threads s) -> step cells writes cleans s (s <| bk_actions ::= fun a => a ∖ {[n]} |>)
  | clean_step s : cleans = true -> step cells writes cleans s (s <| bk_jobs := ∅ |>).
(** a restart of the daemon ends the threads and forgets the names; the files stay *)
Definition restarted (s : backup_state) : backup_state := mkBackups ∅ (bk_jobs s) [].

(** ** Identifiers are well formed and differ *)
Lemma hex_digit_ok d : 0 <= d < 16 -> is_hexdigit (digit_char d) = true.
Proof.
  intros H. assert (Hall : Forall (fun d => is_hexdigit (digit_char d) = true) (seqZ 0 16)) by (apply (bool_decide_unpack _); by vm_compute).
  apply (proj1 (list.Forall_forall _ _) Hall). apply elem_of_seqZ. lia.
Qed.
Lemma digits_length b k : 2 <= b -> forall fuel z, 0 <= z < b ^ Z.of_nat (S k) -> (length (digits fuel b z) <= S k)%nat.
Proof.
  intros Hb. induction k as [|k IH]; intros [|fuel] z Hz; cbn [digits]; try (cbn; lia).
  - change (Z.of_nat 1) with 1 in Hz. rewrite Z.pow_1_r in Hz. destruct (Z.ltb_spec z b); [cbn; lia|lia].
  - destruct (Z.ltb_spec z b); [cbn; lia|]. cbn [length]. apply le_n_S, IH.
    rewrite Nat2Z.inj_succ, Z.pow_succ_r in Hz by lia. split; [apply Z.div_pos; lia|]. apply Z.div_lt_upper_bound; lia.
Qed.

Lemma hex12_spec z : 0 <= z < 2 ^ 48 ->
  String.length (hex12 z) = 12%nat /\ all_chars is_hexdigit (hex12 z) = true /\ read_number 16 (hex12 z) = Some z.
Proof.
  intros Hz. unfold hex12. destruct (digits_spec 16 16 z) as (Hv & Hf & Hn); [lia|lia|].
  pose proof (digits_length 16 11 ltac:(lia) 16 z ltac:(cbn; lia)) as Hl.
  set (ds := digits 16 16 z ++ replicate (12 - length (digits 16 16 z)) 0).
  assert (Hds : Forall (fun d => 0 <= d < 16) ds) by (apply list.Forall_app; split; [done|apply Forall_replicate; lia]).
  split_and!.
  - assert (Hs : forall l, String.length (String.string_of_list_ascii l) = length l) by (intros l; induction l as [|c l IH]; [done|]; cbn; by rewrite IH).
    unfold show_digits. rewrite Hs, length_map, length_reverse. unfold ds. rewrite length_app, length_replicate. lia.
  - unfold all_chars. rewrite list_ascii_show, forallb_forall. intros c (d & <- & Hd)%in_map_iff. apply hex_digit_ok.
    apply list_elem_of_In in Hd. rewrite elem_of_reverse in Hd. by apply (proj1 (list.Forall_forall _ _) Hds).
  - unfold ds. rewrite read_show, digits_val_app, Hv; [done|lia|done|]. intros [E _]%app_eq_nil. apply Hn in E; lia.
Qed.
Lemma safe_id h : String.length h = 12%nat -> all_chars is_hexdigit h = true -> is_safe_backup_job_id ("bkp_" +:+ h) = true.
Proof.
  intros Hl Hx. unfold is_safe_backup_job_id. rewrite !andb_true_iff. split_and!; [|apply starts_with_spec; by eexists|exact Hx].
  apply Nat.eqb_eq. change (4 + String.length h = 16)%nat. by rewrite Hl.
Qed.
Lemma mix_mod now pid : Z.land (u128 (u128 (now * 0x9E3779B97F4A7C15) + pid)) 0xffffffffffff = (now * 0x9E3779B97F4A7C15 + pid) mod 2 ^ 48.
Proof.
  change 0xffffffffffff with (Z.ones 48). rewrite Z.land_ones by lia. unfold u128.
  assert (Hm : forall x, (x mod 2 ^ 128) mod 2 ^ 48 = x mod 2 ^ 48) by (intros x; symmetry; apply Znumtheory.Zmod_div_mod; [lia|lia|by exists (2 ^ 80)]).
  rewrite Hm, <- Zplus_mod_idemp_l, Hm, Zplus_mod_idemp_l. done.
Qed.

(** The identifiers of jobs are well formed, so that their status can be asked for, and two jobs of
    one daemon have the same only when their times are apart by a multiple of 2^48 nanoseconds,
    which is more than three days. *)
Theorem job_ids now now' pid :
  is_safe_backup_job_id (gen_backup_job_id now pid) = true
  /\ (gen_backup_job_id now pid = gen_backup_job_id now' pid <-> (2 ^ 48 | now - now')).
Proof.
  unfold gen_backup_job_id. cbn zeta. rewrite !mix_mod.
  pose proof (hex12_spec _ (Z.mod_pos_bound (now * 0x9E3779B97F4A7C15 + pid) (2 ^ 48) ltac:(lia))) as (Hl & Hx & Hr).
  pose proof (hex12_spec _ (Z.mod_pos_bound (now' * 0x9E3779B97F4A7C15 + pid) (2 ^ 48) ltac:(lia))) as (_ & _ & Hr'). split.
  - by apply safe_id.
  - transitivity ((now * 0x9E3779B97F4A7C15 + pid) mod 2 ^ 48 = (now' * 0x9E3779B97F4A7C15 + pid) mod 2 ^ 48).
    { split; [|by intros ->]. intros E%append_inj. rewrite E, Hr' in Hr. congruence. }
    split.
    + intros E. assert (Hd : (2 ^ 48 | (now - now') * 0x9E3779B97F4A7C15)).
      { apply Z.mod_divide; [lia|]. replace ((now - now') * 0x9E3779B97F4A7C15)
          with ((now * 0x9E3779B97F4A7C15 + pid) - (now' * 0x9E3779B97F4A7C15 + pid)) by lia. rewrite Zminus_mod, E, Z.sub_diag. done. }
      destruct Hd as [k Hk]. exists (k * 145004961428285 - (now - now') * 5873204900662321354). lia.
    + intros [k Hk]. replace (now * 0x9E3779B97F4A7C15 + pid) with ((now' * 0x9E3779B97F4A7C15 + pid) + (k * 0x9E3779B97F4A7C15) * 2 ^ 48) by lia.
      apply Z_mod_plus_full.
Qed.

(** ** Files of jobs follow the threads *)
Definition in_progress (id : string) (s : backup_state) : Prop :=
  exists v, bk_jobs s !! id = Some (Some v) /\ get_str "status" v = Some "in_progress".
Definition begun (t : bthread) (s : backup_state) : Prop :=
  exists cell t0, bk_jobs s !! bt_id t = Some (Some (initial_status (bt_id t) (bt_format t) (bt_name t) cell t0)).

Lemma get_str_insert key key' x m : get_str key (JObject (insert_member key' x m))
  = if decide (key = key') then as_str x else get_str key (JObject m).
Proof. unfold get_str. case_decide as E; [subst; by rewrite get_insert_eq|by rewrite get_insert_ne]. Qed.

Lemma failed_status now err msg m : exists v, update_job_failed now err msg (Some (Some (JObject m))) = Some v
  /\ get_str "status" v = Some "failed" /\ get_str "message" v = Some msg.
Proof.
  eexists. split; [done|]. rewrite !get_str_insert. by repeat (rewrite decide_False by done || rewrite decide_True by done).
Qed.
(** the thread ends in success, with files, or in failure *)
Lemma run_backup_cases sc t s : begun t s ->
  (exists main dir exit err out, sc_run sc = inr (true, exit, err, out) /\ backup_dir out = Some dir
     /\ primary (output_files sc (bt_format t) dir) = Some main
     /\ run_backup sc t (bk_jobs s !! bt_id t) = Some (ready_status sc t main (output_files sc (bt_format t) dir)))
  \/ exists v msg, run_backup sc t (bk_jobs s !! bt_id t) = Some v /\ get_str "status" v = Some "failed" /\ get_str "message" v = Some msg
     /\ (forall exit err out dir, sc_run sc = inr (true, exit, err, out) -> backup_dir out = Some dir -> primary (output_files sc (bt_format t) dir) = None).
Proof.
  intros (cell & t0 & E). unfold run_backup. rewrite E.
  assert (Hfail : forall err msg, exists v, update_job_failed (sc_now sc) err msg (Some (Some (initial_status (bt_id t) (bt_format t) (bt_name t) cell t0))) = Some v
    /\ get_str "status" v = Some "failed" /\ get_str "message" v = Some msg) by (intros err msg; apply failed_status).
  destruct (sc_run sc) as [e|[[[[] exit] err] out]] eqn:Er.
  - right. destruct (Hfail "spawn_failed" e) as (v & ? & ? & ?). exists v, e. by split_and!.
  - destruct (backup_dir out) as [dir|] eqn:Ed.
    + destruct (primary _) as [main|] eqn:Ep.
      * left. by exists main, dir, exit, err, out.
      * right. destruct (Hfail "no_output_files" "el script terminó OK pero no encontré archivos en el output dir") as (v & ? & ? & ?). exists v. eexists.
        split_and!; [done|done|done|]. intros ? ? ? ? [= <- <- <-]. rewrite Ed. by intros [= <-].
    + right. destruct (Hfail "output_parse_failed" "no pude parsear el path del backup completado del stdout") as (v & ? & ? & ?). exists v. eexists.
      split_and!; [done|done|done|]. intros ? ? ? ? [= <- <- <-]. by rewrite Ed.
  - right. destruct (Hfail "backup_script_failed" ("nkr-backup exit " +:+ exit +:+ ": stderr=" +:+ err +:+ " stdout=" +:+ out)) as (v & ? & ? & ?).
    exists v. eexists. by split_and!.
Qed.

Section daemon.
Context `{Serde} (cells : list CellConfig) (s0 : backup_state) (writes cleans : bool).
(** names are reserved whatever becomes of the files *)
Definition named (s : backup_state) : Prop :=
  NoDup (map bt_name (bk_threads s)) /\ NoDup (map bt_id (bk_threads s)) /\ forall t, t ∈ bk_threads s -> bt_name t ∈ bk_actions s.
Definition follows (s : backup_state) : Prop :=
  (forall t, t ∈ bk_threads s -> (begun t s \/ cleans = true /\ bk_jobs s !! bt_id t = None)
     /\ (cleans = false -> bk_jobs s0 !! bt_id t = None))
  /\ (forall id, in_progress id s -> (exists t, t ∈ bk_threads s /\ bt_id t = id) \/ in_progress id s0)
  /\ (cleans = false -> forall id, is_Some (bk_jobs s0 !! id) -> bk_jobs s !! id = bk_jobs s0 !! id).

Lemma request_cases q s (id := gen_backup_job_id (rq_now q) (rq_pid q)) :
  let s' := snd (handle_create_backup cells q s) in
  (bk_threads s' = bk_threads s /\ bk_actions s' = bk_actions s
     /\ (rq_writes q = Stored /\ rq_removes q = true -> bk_jobs s !! id = None -> bk_jobs s' = bk_jobs s))
  \/ exists format, rq_name q ∉ bk_actions s
    /\ s' = mkBackups ({[rq_name q]} ∪ bk_actions s)
              (<[id := Some (initial_status id format (rq_name q) (rq_cell q) (rq_now q / 10 ^ 9))]> (bk_jobs s))
              (bk_threads s ++ [mkThread (rq_name q) format id]).
Proof.
  cbn zeta. unfold handle_create_backup. destruct (negb _); [by left|]. destruct (negb _); [by left|].
  destruct (parse_format _) as [format|]; [|by left]. destruct (negb _); [by left|]. destruct (negb _); [by left|].
  case_bool_decide as Hn; [by left|]. cbn zeta. fold id. case_bool_decide as Hw; cbn [negb].
  - rewrite Hw. destruct (rq_spawns q); [by right; exists format|]. left. cbn. split_and!; [done|set_solver|].
    intros [_ ->] Hid. cbn. change (delete id (<[id := Some (initial_status id format (rq_name q) (rq_cell q) (rq_now q / 10 ^ 9))]> (bk_jobs s)) = bk_jobs s).
    by apply delete_insert_id.
  - left. cbn. split_and!; [done|set_solver|]. by intros [? _].
Qed.

Lemma named_step s s' : named s -> step cells writes cleans s s' -> named s'.
Proof.
  intros (Hn & Hi & Ha) Hs. destruct Hs as [q s _ _ Hnew|r sc i t s E _|n s Hna|n s Hnt|s _].
  - destruct (request_cases q s) as [(E1 & E2 & _)|(format & Hna & ->)]; [by unfold named; rewrite E1, E2|].
    unfold named. cbn [bk_actions bk_threads]. rewrite !map_app. cbn [map bt_name bt_id]. split_and!.
    + apply list.NoDup_app. split_and!; [done| |apply NoDup_singleton]. intros x (t & -> & Hin)%list_elem_of_fmap Hx%list_elem_of_singleton.
      apply Hna. rewrite <- Hx. by apply Ha.
    + apply list.NoDup_app. split_and!; [done| |apply NoDup_singleton]. intros x Hin ->%list_elem_of_singleton. by apply Hnew.
    + intros t [Hin%Ha| ->%list_elem_of_singleton]%elem_of_app; cbn; set_solver.
  - pose proof (delete_Permutation _ _ _ E) as Hperm. rewrite Hperm in Hn, Hi. cbn [map] in Hn, Hi.
    apply list.NoDup_cons in Hn as [Hnn Hn], Hi as [_ Hi]. unfold named.
    assert (Ea : bk_actions (run_backup_and_update_job r sc t s) = bk_actions s ∖ {[bt_name t]}) by (unfold run_backup_and_update_job; by destruct (run_backup _ _ _)).
    assert (Et : bk_threads (run_backup_and_update_job r sc t s) = bk_threads s) by (unfold run_backup_and_update_job; by destruct (run_backup _ _ _)).
    cbn -[delete run_backup_and_update_job]. rewrite Ea, Et. split_and!; [done|done|]. intros u Hu.
    apply elem_of_difference. split; [by apply Ha, (list_elem_of_delete_inv _ _ _ Hu)|]. intros Eq%elem_of_singleton.
    apply Hnn. apply list_elem_of_fmap. by exists u.
  - split_and!; [done|done|]. intros t Hin%Ha. cbn. set_solver.
  - split_and!; [done|done|]. intros t Hin. cbn. apply elem_of_difference. split; [by apply Ha|]. intros E%elem_of_singleton.
    apply Hnt. apply list_elem_of_fmap. by exists t.
  - done.
Qed.

(** the end of a thread leaves no job in progress under its identifier *)
Lemma thread_ends r sc t s : (begun t s \/ bk_jobs s !! bt_id t = None) -> r = Stored \/ bk_jobs s !! bt_id t = None ->
  let s' := run_backup_and_update_job r sc t s in
  ~ in_progress (bt_id t) s' /\ forall id, id <> bt_id t -> bk_jobs s' !! id = bk_jobs s !! id.
Proof.
  intros Hb Hr. cbn zeta. unfold run_backup_and_update_job. assert (Hv : forall v, run_backup sc t (bk_jobs s !! bt_id t) = Some v -> get_str "status" v <> Some "in_progress").
  { intros v Ev. destruct Hb as [Hb|Hb].
    - destruct (run_backup_cases sc t s Hb) as [(main & dir & ? & ? & ? & _ & _ & _ & E)|(w & msg & E & Hst & _)]; rewrite E in Ev; injection Ev as <-; [done|by rewrite Hst].
    - rewrite Hb in Ev. revert Ev. unfold run_backup. destruct (sc_run sc) as [e|[[[[] ?] ?] out]]; [by intros [= <-]| |by intros [= <-]].
      destruct (backup_dir out); [|by intros [= <-]]. destruct (primary _); by intros [= <-]. }
  destruct (run_backup sc t _) as [v|] eqn:Ev.
  - split; [|intros id Hne; cbn; by rewrite lookup_partial_alter_ne].
    intros (w & Hw & Hst). cbn in Hw. rewrite lookup_partial_alter_eq in Hw. destruct Hr as [->|Hr].
    + cbn in Hw. injection Hw as <-. by apply (Hv v).
    + rewrite Hr in Hw. destruct r; cbn in Hw; [|done|done]. injection Hw as <-. by apply (Hv v).
  - split; [|done]. intros (w & Hw & Hst). cbn in Hw. destruct Hb as [Hb|Hb]; [|congruence].
    destruct (run_backup_cases sc t s Hb) as [(main & dir & ? & ? & ? & _ & _ & _ & E)|(u & msg & E & _)]; congruence.
Qed.

Lemma follows_step s s' : writes = true -> named s -> follows s -> step cells writes cleans s s' -> follows s'.
Proof.
  intros HW (Hn & Hi & _) (Ht & Hp & Hk) Hs. destruct Hs as [q s Hw Hid Hnew|r sc i t s E Hw|n s Hna|n s Hnt|s Hc]; [|specialize (Hw HW)|done|done|].
  - destruct (request_cases q s) as [(E1 & _ & E3)|(format & _ & ->)].
    { specialize (E3 (Hw HW) Hid). unfold follows, begun, in_progress. rewrite E1, E3. done. }
    set (id := gen_backup_job_id _ _) in *.
    assert (Hno : forall t, t ∈ bk_threads s -> bt_id t <> id) by (intros t Hin E; apply Hnew; apply list_elem_of_fmap; by exists t).
    unfold follows. cbn [bk_jobs bk_threads]. split_and!.
    + intros t [Hin| ->%list_elem_of_singleton]%elem_of_app.
      * destruct (Ht t Hin) as [Hb ?]. split; [|done]. unfold begun. cbn [bk_jobs].
        destruct Hb as [(c & t0 & Ej)|[? Ej]]; [left; exists c, t0|right; split; [done|]]; rewrite lookup_insert_ne; try done; intros Eq; by apply (Hno t Hin).
      * cbn [bt_name bt_id]. split; [left|intros Hc].
        -- do 2 eexists. cbn [bk_jobs bt_id bt_format bt_name]. by rewrite lookup_insert_eq.
        -- destruct (bk_jobs s0 !! id) eqn:E; [|done]. rewrite Hk in Hid by (done || by eexists). congruence.
    + intros id' (v & Hv & Hst). cbn in Hv. destruct (decide (id' = id)) as [->|Hne].
      * left. exists (mkThread (rq_name q) format id). split; [|done]. apply elem_of_app. right. by left.
      * rewrite lookup_insert_ne in Hv by done. destruct (Hp id') as [(t & ? & ?)|?]; [by exists v| |by right]. left. exists t. split; [|done]. apply elem_of_app. by left.
    + intros Hc id' Hsome. rewrite lookup_insert_ne; [by apply Hk|]. intros <-. rewrite <- Hk, Hid in Hsome by done. by destruct Hsome.
  - assert (Hin : t ∈ bk_threads s) by (by eapply list_elem_of_lookup_2). destruct (Ht t Hin) as (Hb & H0).
    pose proof (delete_Permutation _ _ _ E) as Hperm. rewrite Hperm in Hi. cbn [map] in Hi. apply list.NoDup_cons in Hi as [Hni _].
    assert (Hb' : begun t s \/ bk_jobs s !! bt_id t = None) by tauto.
    destruct (thread_ends r sc t s Hb' Hw) as [Hend Hother].
    assert (Et : bk_threads (run_backup_and_update_job r sc t s) = bk_threads s) by (unfold run_backup_and_update_job; by destruct (run_backup _ _ _)).
    assert (Hold : forall u, u ∈ delete i (bk_threads s) -> u ∈ bk_threads s /\ bt_id u <> bt_id t).
    { intros u Hu. split; [by apply (list_elem_of_delete_inv _ _ _ Hu)|]. intros Eq. apply Hni; apply list_elem_of_fmap; by exists u. }
    unfold follows, begun, in_progress. cbn -[delete run_backup_and_update_job]. rewrite Et. split_and!.
    + intros u Hu. destruct (Hold u Hu) as (Hu' & Hui). destruct (Ht u Hu') as [Hbu ?]. split; [|done]. rewrite Hother by done. exact Hbu.
    + intros id Hprog. destruct (decide (id = bt_id t)) as [->|Hne]; [by destruct (Hend Hprog)|]. rewrite Hother in Hprog by done.
      destruct (Hp id Hprog) as [(u & Hu & Hid)|?]; [|by right]. left. exists u. split; [|done].
      rewrite Hperm in Hu. apply elem_of_cons in Hu as [->|Hu]; [done|done].
    + intros Hc id Hsome. rewrite Hother; [by apply Hk|]. intros ->. rewrite H0 in Hsome by done. by destruct Hsome.
  - split_and!; [|by intros id (v & Hv & _)|congruence]. intros t Hin. destruct (Ht t Hin) as [_ ?]. split; [by right|done].
Qed.

Lemma steps_named s : bk_threads s0 = [] -> rtc (step cells writes cleans) s0 s -> named s /\ (writes = true -> follows s).
Proof.
  intros H0 Hs. assert (Hn0 : named s0) by (unfold named; rewrite H0; split_and!; [constructor|constructor|by intros t ?%not_elem_of_nil]).
  assert (Hf0 : writes = true -> follows s0) by (intros _; unfold follows; rewrite H0; split_and!; [by intros t ?%not_elem_of_nil|by right|done]).
  assert (Hind : forall x y, rtc (step cells writes cleans) x y -> named x -> (writes = true -> follows x) -> named y /\ (writes = true -> follows y)); [|by apply (Hind s0 s)].
  clear. intros x y. induction 1 as [|x y z Hxy _ IH]; [done|]. intros Hx Hf. apply IH; [by eapply named_step|].
  intros HW. by eapply follows_step; eauto.
Qed.

(** C15. In every order of requests, threads and clean-ups an instance has at most one backup under way, with its name
    reserved.  As long as the files of jobs can be written (the code looks at the result of the first
    write only), a job is in progress only while its thread runs, or when it was in progress already
    at the start of the daemon; the job of a thread is in progress or its file has been cleaned away.
    What was left in progress by an earlier daemon stays so until the clean-up: no thread works on it. *)
Theorem jobs_follow_threads s : bk_threads s0 = [] -> rtc (step cells writes cleans) s0 s ->
  NoDup (map bt_name (bk_threads s))
  /\ (forall t, t ∈ bk_threads s -> bt_name t ∈ bk_actions s)
  /\ (writes = true ->
        (forall id, in_progress id s -> (exists t, t ∈ bk_threads s /\ bt_id t = id) \/ in_progress id s0)
        /\ (forall t, t ∈ bk_threads s -> in_progress (bt_id t) s \/ cleans = true /\ bk_jobs s !! bt_id t = None)
        /\ (cleans = false -> forall id, in_progress id s0 -> in_progress id s)).
Proof.
  intros H0 Hs. destruct (steps_named s H0 Hs) as [(Hn & _ & Ha) Hf]. split_and!; [done|done|]. intros HW.
  destruct (Hf HW) as (Ht & Hp & Hk). split_and!; [done| |].
  - intros t Hin. destruct (Ht t Hin) as [[(c & t0 & E)|?] _]; [left|by right]. by exists (initial_status (bt_id t) (bt_format t) (bt_name t) c t0).
  - intros Hc id (v & Hv & Hst). exists v. rewrite Hk by (done || by eexists). done.
Qed.
End daemon.

(** ** What is downloaded is what was made *)
Definition meta (fmt path : string) (size : Z) (sha : string) : answer :=
  Answer 200 [("path", JString path); ("filename", JString (default "" (file_name path))); ("size_bytes", JInt size);
              ("content_type", JString (if ends_with ".zip" path then "application/zip" else "application/octet-stream"));
              ("sha256", JString sha); ("format", JString fmt)].
Definition refused (msg : string) : answer := Answer 409 [("error", JString "failed"); ("message", JString msg)].

(** what the script left in its directory for a format: the first zip file, or the directory of disks,
    whose size is given as 0 *)
Definition wanted (asked fmt : string) : bool := bool_decide (asked = fmt \/ asked = "both").
Definition left_by (sc : script) (asked fmt dir : string) : option (string * Z) :=
  if negb (wanted asked fmt) then None
  else if bool_decide (fmt = "odoo") then
    '(n, z) ← names ← sc_dir sc (dir +:+ "/odoo"); find (fun e => bool_decide (extension e.1 = Some "zip")) names;
    Some (dir +:+ "/odoo/" +:+ n, z)
  else _ ← sc_dir sc (dir +:+ "/nkr"); Some (dir +:+ "/nkr", 0).
(** the answer to a download once the thread has ended and its write has succeeded *)
Definition download (ex : string -> bool) (sc : script) (asked fmt : string) : answer :=
  match sc_run sc with
  | inl e => refused e
  | inr (false, exit, err, out) => refused ("nkr-backup exit " +:+ exit +:+ ": stderr=" +:+ err +:+ " stdout=" +:+ out)
  | inr (true, _, _, out) =>
      match backup_dir out with
      | None => refused "no pude parsear el path del backup completado del stdout"
      | Some dir =>
          match left_by sc asked "odoo" dir, left_by sc asked "nkr" dir with
          | None, None => refused "el script terminó OK pero no encontré archivos en el output dir"
          | odoo, nkr =>
              match (if bool_decide (fmt = "odoo") then odoo else nkr) with
              | None => error 404 "format_not_available"
              | Some (path, size) =>
                  let main := from_option fst (dir +:+ "/nkr") odoo in
                  if ex path then meta fmt path size (default "" (sc_sha256 sc main)) else error 500 "file_disappeared"
              end
          end
      end
  end.

Lemma find_file fmt files : find (fun f => bool_decide (get_str "format" f = Some fmt)) (map file_value files) = file_value <$> of_format fmt files.
Proof.
  unfold of_format. induction files as [|x files IH]; [done|]. cbn [map find].
  replace (get_str "format" (file_value x)) with (Some x.1.1) by done.
  destruct (decide (x.1.1 = fmt)) as [->|Hne]; [by rewrite !bool_decide_eq_true_2|]. rewrite !bool_decide_eq_false_2 by congruence. exact IH.
Qed.
Definition tagged (fmt : string) (x : string * Z) : dump := (fmt, x.1, x.2).
Lemma find_filter {A} (f : A -> bool) l : List.hd_error (List.filter f l) = find f l.
Proof. induction l as [|a l IH]; [done|]. cbn. by destruct (f a). Qed.
Lemma of_format_odoo sc asked dir : of_format "odoo" (output_files sc asked dir) = tagged "odoo" <$> left_by sc asked "odoo" dir.
Proof.
  unfold output_files, left_by, wanted. replace (bool_decide (asked = "odoo" \/ asked = "both")) with (bool_decide (asked = "odoo") || bool_decide (asked = "both")).
  2:{ symmetry. apply bool_decide_or. }
  assert (Hn : of_format "odoo" (if bool_decide (asked = "nkr") || bool_decide (asked = "both")
      then match sc_dir sc (dir +:+ "/nkr") with Some _ => [("nkr", dir +:+ "/nkr", 0)] | None => [] end else []) = None).
  { destruct (_ || _); [|done]. by destruct (sc_dir sc _). }
  destruct (bool_decide (asked = "odoo") || bool_decide (asked = "both")); cbn [negb app]; [|exact Hn].
  rewrite (bool_decide_eq_true_2 ("odoo" = "odoo")) by done.
  destruct (sc_dir sc (dir +:+ "/odoo")) as [names|]; cbn [default from_option id mbind option_bind]; [|exact Hn].
  induction names as [|[n z] names IH]; [exact Hn|]. cbn [List.filter find fst snd].
  destruct (bool_decide (extension n = Some "zip")); [done|exact IH].
Qed.
Lemma of_format_nkr sc asked dir : of_format "nkr" (output_files sc asked dir) = tagged "nkr" <$> left_by sc asked "nkr" dir.
Proof.
  unfold output_files, left_by, wanted. replace (bool_decide (asked = "nkr" \/ asked = "both")) with (bool_decide (asked = "nkr") || bool_decide (asked = "both")).
  2:{ symmetry. apply bool_decide_or. }
  unfold of_format. assert (Hz : forall (l : list (string * Z)) r, find (fun x : dump => bool_decide (x.1.1 = "nkr")) (map (fun e => ("odoo", dir +:+ "/odoo/" +:+ e.1, e.2)) l ++ r)
    = find (fun x : dump => bool_decide (x.1.1 = "nkr")) r) by (intros l r; by induction l).
  match goal with |- find _ (?a ++ ?b) = _ => assert (E : find (fun x : dump => bool_decide (x.1.1 = "nkr")) (a ++ b) = find (fun x : dump => bool_decide (x.1.1 = "nkr")) b) end.
  { destruct (bool_decide (asked = "odoo") || _); [apply Hz|done]. }
  rewrite E. destruct (bool_decide (asked = "nkr") || _); [|done]. rewrite (bool_decide_eq_false_2 ("nkr" = "odoo")) by done.
  by destruct (sc_dir sc (dir +:+ "/nkr")).
Qed.
(** the file whose size and sum stand for the whole backup *)
Lemma primary_left sc asked dir : primary (output_files sc asked dir)
  = match left_by sc asked "odoo" dir with Some x => Some (tagged "odoo" x) | None => tagged "nkr" <$> left_by sc asked "nkr" dir end.
Proof.
  unfold primary. rewrite of_format_odoo, of_format_nkr. destruct (left_by sc asked "odoo" dir) as [x|] eqn:Eo; [done|].
  destruct (left_by sc asked "nkr" dir) as [x|] eqn:En; [done|]. cbn [fmap option_fmap option_map].
  pose proof (of_format_odoo sc asked dir) as Ho. pose proof (of_format_nkr sc asked dir) as Hk. rewrite Eo in Ho. rewrite En in Hk.
  destruct (output_files sc asked dir) as [|x l] eqn:E; [done|]. exfalso. assert (Hin : x ∈ output_files sc asked dir) by (rewrite E; by left).
  assert (Hx : x.1.1 = "odoo" \/ x.1.1 = "nkr").
  { unfold output_files in Hin. apply elem_of_app in Hin as [Hin|Hin].
    - destruct (_ || _); [|by apply not_elem_of_nil in Hin]. apply list_elem_of_fmap in Hin as (e & -> & _). by left.
    - destruct (_ || _); [|by apply not_elem_of_nil in Hin]. destruct (sc_dir sc _); [|by apply not_elem_of_nil in Hin].
      apply list_elem_of_singleton in Hin as ->. by right. }
  unfold of_format in Ho, Hk. cbn [find] in Ho, Hk. destruct Hx as [Hx|Hx]; rewrite Hx in *; done.
Qed.
Lemma left_size sc asked fmt dir path size : (forall dir names n z, sc_dir sc dir = Some names -> (n, z) ∈ names -> 0 <= z < 2 ^ 64) ->
  left_by sc asked fmt dir = Some (path, size) -> path <> "" /\ 0 <= size < 2 ^ 64.
Proof.
  intros Hz. unfold left_by. destruct (negb _); [done|]. case_bool_decide.
  - destruct (sc_dir sc _) as [names|] eqn:E; [|done]. cbn [mbind option_bind]. destruct (find _ names) as [[n z]|] eqn:Ef; [|done].
    intros [= <- <-]. split; [by destruct dir|]. apply find_some in Ef as [Hin _]. apply (Hz _ _ n z E). by apply list_elem_of_In.
  - destruct (sc_dir sc _); [|done]. intros [= <- <-]. split; [by destruct dir|lia].
Qed.

Lemma ended_job sc t s v : run_backup sc t (bk_jobs s !! bt_id t) = Some v ->
  bk_jobs (run_backup_and_update_job Stored sc t s) !! bt_id t = Some (Some v).
Proof. intros E. unfold run_backup_and_update_job. rewrite E. cbn. by rewrite lookup_partial_alter_eq. Qed.

(** the download of a job whose thread has ended *)
Lemma ready_download sc t s ex fmt dir main : let files := output_files sc (bt_format t) dir in
  is_safe_backup_job_id (bt_id t) = true -> fmt = "odoo" \/ fmt = "nkr" ->
  bk_jobs s !! bt_id t = Some (Some (ready_status sc t main files)) ->
  (forall x, of_format fmt files = Some x -> x.1.2 <> "" /\ 0 <= x.2 < 2 ^ 64) ->
  handle_backup_file_meta ex (bt_id t) fmt s =
    match of_format fmt files with
    | None => error 404 "format_not_available"
    | Some x => if ex x.1.2 then meta fmt x.1.2 x.2 (default "" (sc_sha256 sc main.1.2)) else error 500 "file_disappeared"
    end.
Proof.
  intros files Hid Hf Ej Hx. assert (Hfmt : bool_decide (fmt = "odoo") || bool_decide (fmt = "nkr") = true) by (destruct Hf as [-> | ->]; by vm_compute).
  unfold handle_backup_file_meta. rewrite Hid, Hfmt. cbn [negb]. rewrite Ej.
  replace (get_str "status" _) with (Some "ready") by done. cbn [from_option id]. rewrite bool_decide_eq_false_2, bool_decide_eq_false_2, bool_decide_eq_true_2 by done.
  cbn [negb]. replace (get "files" _) with (Some (JArray (map file_value files))) by done.
  cbn [mbind option_bind as_array]. rewrite find_file. destruct (of_format fmt files) as [x|]; [|done]. cbn [fmap option_fmap option_map].
  destruct (Hx x eq_refl) as [Hne Hs]. replace (get_str "path" (file_value x)) with (Some x.1.2) by done. cbn [from_option id].
  rewrite bool_decide_eq_false_2 by done. cbn [orb]. destruct (ex x.1.2); [|done]. cbn [negb].
  replace (get "size_bytes" (file_value x)) with (Some (JInt x.2)) by done. cbn [mbind option_bind as_u64].
  destruct (Z.leb_spec 0 x.2); [|lia]. destruct (Z.ltb_spec x.2 (2 ^ 64)); [|lia]. done.
Qed.
Lemma failed_download id fmt ex msg v s : is_safe_backup_job_id id = true -> fmt = "odoo" \/ fmt = "nkr" ->
  bk_jobs s !! id = Some (Some v) -> get_str "status" v = Some "failed" -> get_str "message" v = Some msg ->
  handle_backup_file_meta ex id fmt s = refused msg.
Proof.
  intros Hid Hf Ej Hs Hm. assert (Hfmt : bool_decide (fmt = "odoo") || bool_decide (fmt = "nkr") = true) by (destruct Hf as [-> | ->]; by vm_compute).
  unfold handle_backup_file_meta. rewrite Hid, Hfmt. cbn [negb]. by rewrite Ej, Hs, Hm.
Qed.

(** C16. While a backup runs its download is refused.  After its thread has written the file of the job, a
    download is refused with the reason exactly when the script could not be run, failed, said no
    directory or left nothing; otherwise it names what the script left for the format: the first zip file
    with its size, or for nkr the directory of disks with size 0, unless it is gone from the disk.
    When that write fails the download stays refused as not ready, or the file of the job is
    corrupted.  The file of the job must not have been cleaned away. *)
Theorem backup_served r sc t s ex fmt :
  begun t s -> is_safe_backup_job_id (bt_id t) = true -> fmt = "odoo" \/ fmt = "nkr" ->
  (forall dir names n z, sc_dir sc dir = Some names -> (n, z) ∈ names -> 0 <= z < 2 ^ 64) ->
  handle_backup_file_meta ex (bt_id t) fmt s = error 409 "not_ready"
  /\ handle_backup_file_meta ex (bt_id t) fmt (run_backup_and_update_job r sc t s) =
       match r with
       | Stored => download ex sc (bt_format t) fmt
       | NotOpened => error 409 "not_ready"
       | Cut => error 500 "job_file_corrupted"
       end.
Proof.
  intros Hb Hid Hf Hz. assert (Hfmt : bool_decide (fmt = "odoo") || bool_decide (fmt = "nkr") = true) by (destruct Hf as [-> | ->]; by vm_compute).
  assert (Hwait : forall s', bk_jobs s' !! bt_id t = bk_jobs s !! bt_id t -> handle_backup_file_meta ex (bt_id t) fmt s' = error 409 "not_ready").
  { intros s' Es. destruct Hb as (cell & t0 & E). unfold handle_backup_file_meta. rewrite Hid, Hfmt, Es. cbn [negb]. by rewrite E. }
  split; [by apply Hwait|].
  assert (Hjob : forall v, run_backup sc t (bk_jobs s !! bt_id t) = Some v -> r <> Stored ->
     bk_jobs (run_backup_and_update_job r sc t s) !! bt_id t = if bool_decide (r = Cut) then Some None else bk_jobs s !! bt_id t).
  { intros v Ev Hr. unfold run_backup_and_update_job. rewrite Ev. cbn. rewrite lookup_partial_alter_eq. by destruct r. }
  assert (Hv : exists v, run_backup sc t (bk_jobs s !! bt_id t) = Some v).
  { destruct (run_backup_cases sc t s Hb) as [(? & ? & ? & ? & ? & _ & _ & _ & E)|(? & ? & E & _)]; rewrite E; by eexists. }
  destruct Hv as [v Ev]. destruct r.
  - clear Hjob Hwait. unfold download.
    assert (Hfail : forall msg, (exists err, run_backup sc t (bk_jobs s !! bt_id t) = update_job_failed (sc_now sc) err msg (bk_jobs s !! bt_id t)) ->
      handle_backup_file_meta ex (bt_id t) fmt (run_backup_and_update_job Stored sc t s) = refused msg).
    { intros msg [err E]. destruct Hb as (cell & t0 & Ej). rewrite Ej in E. unfold initial_status in E.
      match type of E with _ = update_job_failed ?n ?e ?m (Some (Some (JObject ?l))) => destruct (failed_status n e m l) as (w & Ew & Hs & Hm) end.
      apply (failed_download _ _ _ _ w); [done|done|apply ended_job; rewrite Ej; unfold initial_status; rewrite E; exact Ew|done|done]. }
    destruct (sc_run sc) as [e|[[[[] exit] err] out]] eqn:Er.
    + apply Hfail. eexists. unfold run_backup. by rewrite Er.
    + destruct (backup_dir out) as [dir|] eqn:Ed; [|apply Hfail; eexists; unfold run_backup; by rewrite Er, Ed].
      pose proof (primary_left sc (bt_format t) dir) as Hp.
      assert (Hready : forall main, primary (output_files sc (bt_format t) dir) = Some main ->
        handle_backup_file_meta ex (bt_id t) fmt (run_backup_and_update_job Stored sc t s) =
          match (if bool_decide (fmt = "odoo") then left_by sc (bt_format t) "odoo" dir else left_by sc (bt_format t) "nkr" dir) with
          | None => error 404 "format_not_available"
          | Some (path, size) => if ex path then meta fmt path size (default "" (sc_sha256 sc main.1.2)) else error 500 "file_disappeared"
          end).
      { intros main Hmain. assert (Ef : of_format fmt (output_files sc (bt_format t) dir) = tagged fmt <$> left_by sc (bt_format t) fmt dir)
          by (destruct Hf as [-> | ->]; [apply of_format_odoo|apply of_format_nkr]).
        erewrite (ready_download sc t _ ex fmt dir main); [|done|done|apply ended_job; unfold run_backup; by rewrite Er, Ed, Hmain|].
        - rewrite Ef. destruct Hf as [-> | ->]; [rewrite (bool_decide_eq_true_2 ("odoo" = "odoo")) by done|rewrite (bool_decide_eq_false_2 ("nkr" = "odoo")) by done];
            match goal with |- context [tagged _ <$> ?o] => destruct o as [[path size]|] end; done.
        - intros x. rewrite Ef. destruct (left_by _ _ fmt _) as [[path size]|] eqn:El; [|done]. intros [= <-]. by apply (left_size _ _ _ _ _ _ Hz El). }
      destruct (left_by sc (bt_format t) "odoo" dir) as [[po zo]|] eqn:Eo.
      * rewrite (Hready _ Hp). by destruct (left_by sc (bt_format t) "nkr" dir).
      * destruct (left_by sc (bt_format t) "nkr" dir) as [[pk zk]|] eqn:Ek.
        -- rewrite (Hready _ Hp). cbn. unfold left_by in Ek. destruct (negb _); [done|]. rewrite bool_decide_eq_false_2 in Ek by done.
           destruct (sc_dir sc _); [|done]. injection Ek as <- <-. done.
        -- apply Hfail. eexists. unfold run_backup. by rewrite Er, Ed, Hp.
    + apply Hfail. eexists. unfold run_backup. by rewrite Er.
  - apply Hwait. by rewrite (Hjob v Ev).
  - unfold handle_backup_file_meta. rewrite Hid, Hfmt, (Hjob v Ev) by done. done.
Qed.

Module DumpsExample.
#[export] Instance serde : Serde := {
  parse_json s := if bool_decide (s = "both") then Some (JObject [("format", JString "both")]) else None;
  print_json _ := ""; parse_adopt _ := None }.
Definition cells : list CellConfig := [mkCellConfig "c18" 18 (Some "18.0") [mkInst "acme-prod" None; mkInst "beta-prod" None]].
Definition pid : Z := 900.
Definition T : Z := 1700000000 * 10 ^ 9.
Definition ask (n : string) (now : Z) : request := mkRequest "c18" n "both" now pid Stored true true.
Definition empty : backup_state := mkBackups ∅ ∅ [].
Definition id (now : Z) : string := gen_backup_job_id now pid.
Example an_id : id T = "bkp_813ac9720384".
Proof. by vm_compute. Qed.
Definition one : backup_state := snd (handle_create_backup cells (ask "acme-prod" T) empty).
Definition two : backup_state := snd (handle_create_backup cells (ask "beta-prod" (T + 5)) one).
Definition said : string := "inicio
✅ Backup completado: /mnt/nkr/backups/acme/20250101
".
Definition script_of (ok : bool) : script :=
  mkScript (inr (ok, "exit status: 0", "", said))
    (fun d => if bool_decide (d = "/mnt/nkr/backups/acme/20250101/odoo") then Some [("readme.txt", 7); ("acme.zip", 4096)]
              else if bool_decide (d = "/mnt/nkr/backups/acme/20250101/nkr") then Some [("disk.ext4", 1)] else None)
    (fun p => Some ("sha of " +:+ p)) 1700000060 60000.
Definition first : bthread := mkThread "acme-prod" "both" (id T).
Definition after (ok : bool) : backup_state := run_backup_and_update_job Stored (script_of ok) first two <| bk_threads ::= delete 0%nat |>.

(** a second request for the same instance is refused, the threads end in any order *)
Example answers : map (fun a => a_status (fst a))
    [handle_create_backup cells (ask "acme-prod" T) empty; handle_create_backup cells (ask "acme-prod" (T + 9)) one;
     handle_create_backup cells (ask "nobody" T) empty; handle_create_backup cells (ask "../x" T) empty] = [202; 409; 404; 400].
Proof. by vm_compute. Qed.
Example download_of_both : map (fun f => handle_backup_file_meta (fun _ => true) (id T) f (after true)) ["odoo"; "nkr"]
  = [Answer 200 [("path", JString "/mnt/nkr/backups/acme/20250101/odoo/acme.zip"); ("filename", JString "acme.zip"); ("size_bytes", JInt 4096);
                 ("content_type", JString "application/zip"); ("sha256", JString "sha of /mnt/nkr/backups/acme/20250101/odoo/acme.zip"); ("format", JString "odoo")];
     (* a directory is offered for download *)
     Answer 200 [("path", JString "/mnt/nkr/backups/acme/20250101/nkr"); ("filename", JString "nkr"); ("size_bytes", JInt 0);
                 ("content_type", JString "application/octet-stream"); ("sha256", JString "sha of /mnt/nkr/backups/acme/20250101/odoo/acme.zip"); ("format", JString "nkr")]].
Proof. by vm_compute. Qed.
(** the cell of the request is not compared with that of the instance *)
Example other_cell : a_status (fst (handle_create_backup cells (mkRequest "c99" "acme-prod" "" T pid Stored true true) empty)) = 202.
Proof. by vm_compute. Qed.

Lemma steps_to_two : rtc (step cells true true) empty two.
Proof.
  eapply rtc_l; [apply (request_step cells true true (ask "acme-prod" T) empty); [by intros _|by vm_compute|by vm_compute; apply not_elem_of_nil]|].
  eapply rtc_l; [apply (request_step cells true true (ask "beta-prod" (T + 5)) one); [by intros _|by vm_compute|]|apply rtc_refl].
  intros Hin. assert (E : bool_decide (gen_backup_job_id (T + 5) pid ∈ map bt_id (bk_threads one)) = false) by (by vm_compute).
  by apply bool_decide_eq_false in E.
Qed.
Lemma steps_after : rtc (step cells true true) empty (after true).
Proof. eapply rtc_r; [apply steps_to_two|]. apply (thread_step cells true true Stored (script_of true) 0 first two); [by vm_compute|by left]. Qed.

(** the clean-up takes the file of the other job away, and its thread brings none back *)
Definition cleaned : backup_state := after true <| bk_jobs := ∅ |>.
Lemma jobs_follow_threads_witness :
  ~ in_progress (id T) (after true) /\ in_progress (id (T + 5)) (after true)
  /\ (bk_jobs cleaned !! id (T + 5) = None) /\ in_progress (id T) (restarted two).
Proof.
  destruct (jobs_follow_threads cells empty true true (after true) eq_refl steps_after) as (_ & _ & H).
  destruct (H eq_refl) as (H1 & H2 & _).
  assert (Et : bk_threads (after true) = [mkThread "beta-prod" "both" (id (T + 5))]) by (by vm_compute).
  split_and!.
  - intros [(t & Hin & E)|(v & Hv & _)]%H1; [|by vm_compute in Hv].
    rewrite Et in Hin. apply list_elem_of_singleton in Hin as ->. revert E. by vm_compute.
  - destruct (H2 (mkThread "beta-prod" "both" (id (T + 5)))) as [Hin|[_ Hnone]]; [rewrite Et; by left|exact Hin|by vm_compute in Hnone].
  - assert (Hc : rtc (step cells true true) empty cleaned) by (eapply rtc_r; [apply steps_after|]; by apply clean_step).
    destruct (jobs_follow_threads cells empty true true cleaned eq_refl Hc) as (_ & _ & Hcl).
    destruct (Hcl eq_refl) as (_ & Hcl2 & _).
    destruct (Hcl2 (mkThread "beta-prod" "both" (id (T + 5)))) as [(v & Hv & _)|[_ Hnone]]; [change (bk_threads cleaned) with (bk_threads (after true)); rewrite Et; by left|by vm_compute in Hv|exact Hnone].
  - eexists. split; [by vm_compute|done].
Defined.

Lemma first_begun : begun first two.
Proof. exists "c18", (T / 10 ^ 9). by vm_compute. Qed.
Lemma dump_sizes ok dir names n z : sc_dir (script_of ok) dir = Some names -> (n, z) ∈ names -> 0 <= z < 2 ^ 64.
Proof.
  cbn [script_of sc_dir]. case_bool_decide; [intros [= <-]|case_bool_decide; [intros [= <-]|done]];
    rewrite !elem_of_cons, elem_of_nil; intros Hin; destruct_or!; simplify_eq; lia.
Qed.
Lemma backup_served_witness :
  handle_backup_file_meta (fun _ => true) (id T) "odoo" two = error 409 "not_ready"
  /\ handle_backup_file_meta (fun _ => true) (id T) "odoo" (run_backup_and_update_job Stored (script_of true) first two)
     = meta "odoo" "/mnt/nkr/backups/acme/20250101/odoo/acme.zip" 4096 "sha of /mnt/nkr/backups/acme/20250101/odoo/acme.zip"
  /\ handle_backup_file_meta (fun _ => true) (id T) "odoo" (run_backup_and_update_job Stored (script_of false) first two)
     = refused ("nkr-backup exit exit status: 0: stderr= stdout=" +:+ said).
Proof.
  assert (Hid : is_safe_backup_job_id (bt_id first) = true) by (by vm_compute).
  destruct (backup_served Stored (script_of true) first two (fun _ => true) "odoo" first_begun Hid (or_introl eq_refl) (dump_sizes true)) as [H1 H2].
  destruct (backup_served Stored (script_of false) first two (fun _ => true) "odoo" first_begun Hid (or_introl eq_refl) (dump_sizes false)) as [_ H3].
  split; [exact H1|split].
  - refine (eq_trans H2 _). vm_compute. reflexivity.
  - refine (eq_trans H3 _). vm_compute. reflexivity.
Defined.
End DumpsExample.
