(* ===== verification/Floats.v ===== *)
(** * Floating point numbers of the metrics

    The non-negative finite numbers of [f64] and [f32] as [m * 2^e], rounded to nearest, ties
    to even; no result here is near the ends of the range of exponents.  [fixed] is the
    formatting [{:.d}], which rounds the exact value of the number, again to even. *)
From S2P Require Import Prelude Text.

Record float := mkFloat { f_man : Z; f_exp : Z }.

Definition rne (num den : Z) : Z :=
  let q := num / den in
  match 2 * (num mod den) ?= den with
  | Lt => q
  | Gt => q + 1
  | Eq => if Z.even q then q else q + 1
  end.

(** the number of [p] bits that is nearest to a quotient *)
Definition up2 (e : Z) : Z := 2 ^ Z.max 0 e.
Definition scaled (e num den : Z) : Z * Z := (num * up2 (- e), den * up2 e).
Definition exponent (p num den : Z) : Z :=
  let e := Z.log2 num - Z.log2 den - p in
  let '(n, d) := scaled e num den in
  if 2 ^ p * d <=? n then e + 1 else e.
Definition round (p num den : Z) : float :=
  if num =? 0 then mkFloat 0 0
  else
    let e := exponent p num den in
    let '(n, d) := scaled e num den in
    mkFloat (rne n d) e.

Definition numer (f : float) : Z := f_man f * up2 (f_exp f).
Definition denom (f : float) : Z := up2 (- f_exp f).

(** [z as f64], [a / b], [a * b] in [f64], [a as f32] *)
Definition f64 (z : Z) : float := round 53 z 1.
Definition div64 (a b : float) : float := round 53 (numer a * denom b) (denom a * numer b).
Definition mul64 (a b : float) : float := round 53 (numer a * numer b) (denom a * denom b).
Definition f32_of (a : float) : float := round 24 (numer a) (denom a).
Definition leb (a b : float) : bool := numer a * denom b <=? numer b * denom a.
Definition sub64 (a b : float) : float := round 53 (numer a * denom b - numer b * denom a) (denom a * denom b).

(** [w] digits in base 10 *)
Definition padded (w : nat) (z : Z) : string :=
  let ds := digits 20 10 z in show_digits (ds ++ replicate (w - length ds) 0).
Definition decimals (d : nat) (z : Z) : string := dec (z / 10 ^ Z.of_nat d) +:+ "." +:+ padded d (z mod 10 ^ Z.of_nat d).
Definition fixed (d : nat) (f : float) : string := decimals d (rne (numer f * 10 ^ Z.of_nat d) (denom f)).

(** ** Rounding *)
Lemma rne_near num den : 0 < den -> 2 * Z.abs (rne num den * den - num) <= den.
Proof.
  intros Hd. unfold rne. pose proof (Z.div_mod num den). pose proof (Z.mod_pos_bound num den Hd).
  destruct (Z.compare_spec (2 * (num mod den)) den); [destruct (Z.even _)| |]; nia.
Qed.

Lemma rne_unique num den x : 0 < den -> 2 * Z.abs (num - x * den) < den -> rne num den = x.
Proof. intros Hd Hx. pose proof (rne_near num den Hd). nia. Qed.

Lemma up2_pos e : 0 < up2 e.
Proof. unfold up2. apply Z.pow_pos_nonneg; lia. Qed.
#[export] Hint Resolve up2_pos : nkr.

Lemma log2_bounds z : 0 < z -> 2 ^ Z.log2 z <= z < 2 * 2 ^ Z.log2 z.
Proof.
  intros Hz. pose proof (Z.log2_spec z Hz). rewrite Z.pow_succ_r in * by apply Z.log2_nonneg. lia.
Qed.

Lemma scaled_at p num den : 0 < p -> 0 < num -> 0 < den ->
  let '(n, d) := scaled (Z.log2 num - Z.log2 den - p) num den in 2 ^ p * d < 2 * n.
Proof.
  intros Hp Hn Hd. unfold scaled, up2.
  pose proof (log2_bounds num Hn) as [Hn1 _]. pose proof (log2_bounds den Hd) as [_ Hd2].
  pose proof (Z.log2_nonneg num) as Ha. pose proof (Z.log2_nonneg den) as Hb.
  set (a := Z.log2 num) in *. set (b := Z.log2 den) in *.
  destruct (Z_le_dec 0 (a - b - p)) as [He|He].
  - rewrite (Z.max_l 0 (- _)), Z.max_r by lia.
    assert (E : 2 ^ p * 2 ^ b * 2 ^ (a - b - p) = 2 ^ a) by (rewrite <- !Z.pow_add_r by lia; f_equal; lia).
    assert (0 < 2 ^ p * 2 ^ (a - b - p)) by (apply Z.mul_pos_pos; apply Z.pow_pos_nonneg; lia). nia.
  - rewrite (Z.max_r 0 (- _)), Z.max_l by lia.
    assert (E : 2 ^ a * 2 ^ (- (a - b - p)) = 2 ^ p * 2 ^ b) by (rewrite <- !Z.pow_add_r by lia; f_equal; lia).
    assert (0 < 2 ^ (- (a - b - p))) by (apply Z.pow_pos_nonneg; lia). nia.
Qed.

Lemma scaled_succ e num den : let '(n, d) := scaled e num den in let '(n', d') := scaled (e + 1) num den in n' * (2 * d) = n * d'.
Proof.
  unfold scaled, up2. destruct (Z_le_dec 0 e).
  - rewrite !(Z.max_l 0 (- _)), !Z.max_r, Z.pow_add_r by lia. lia.
  - rewrite !(Z.max_r 0 (- _)), !Z.max_l by lia. replace (- e) with (- (e + 1) + 1) by lia. rewrite Z.pow_add_r by lia. lia.
Qed.

Lemma scaled_pos e num den : 0 < num -> 0 < den -> let '(n, d) := scaled e num den in 0 < n /\ 0 < d.
Proof. intros. unfold scaled. pose proof (up2_pos e). pose proof (up2_pos (- e)). split; nia. Qed.

Lemma exponent_spec p num den : 0 < p -> 0 < num -> 0 < den ->
  let '(n, d) := scaled (exponent p num den) num den in 2 ^ p * d <= 2 * n.
Proof.
  intros Hp Hn Hd. unfold exponent. pose proof (scaled_at p num den Hp Hn Hd) as H.
  set (e := Z.log2 num - Z.log2 den - p) in *. pose proof (scaled_succ e num den) as Hs.
  pose proof (scaled_pos e num den Hn Hd) as Hp1. pose proof (scaled_pos (e + 1) num den Hn Hd) as Hp2.
  destruct (scaled e num den) as [n d] eqn:E1. destruct (2 ^ p * d <=? n) eqn:E2; [|rewrite E1; lia].
  destruct (scaled (e + 1) num den) as [n' d']. apply Z.leb_le in E2. nia.
Qed.

(** the relative error of rounding: half a unit in the last of [p] bits *)
Lemma round_near p num den : 0 < p -> 0 <= num -> 0 < den ->
  2 ^ p * Z.abs (numer (round p num den) * den - num * denom (round p num den)) <= num * denom (round p num den).
Proof.
  intros Hp Hn Hd. unfold round. destruct (Z.eqb_spec num 0) as [->|Hne].
  { unfold numer, denom. cbn. lia. }
  pose proof (exponent_spec p num den Hp) as He. pose proof (scaled_pos (exponent p num den) num den) as Hs.
  set (e := exponent p num den) in *. unfold scaled in *. set (n := num * up2 (- e)) in *. set (d := den * up2 e) in *.
  destruct Hs as [Hn1 Hd1]; [lia..|]. specialize (He ltac:(lia) Hd). pose proof (rne_near n d Hd1) as Hr.
  unfold numer, denom. cbn [f_man f_exp]. fold n. replace (rne n d * up2 e * den) with (rne n d * d) by (unfold d; lia).
  nia.
Qed.

Lemma denom_pos f : 0 < denom f.
Proof. apply up2_pos. Qed.

Lemma f64_exact z : 0 <= z < 2 ^ 53 -> numer (f64 z) = z * denom (f64 z).
Proof.
  intros [H0 Hz]. unfold f64, round. destruct (Z.eqb_spec z 0) as [->|Hne]; [done|].
  assert (Hl : Z.log2 z <= 52). { apply Z.lt_succ_r. apply Z.log2_lt_pow2; lia. }
  assert (He : exponent 53 z 1 <= 0). { unfold exponent. cbn [Z.log2]. destruct (scaled _ _ _). case_match; lia. }
  unfold scaled, numer, denom. cbn [f_man f_exp]. set (e := exponent 53 z 1) in *.
  assert (Hu : up2 e = 1) by (unfold up2; rewrite Z.max_l by lia; done). rewrite Hu.
  rewrite (rne_unique _ _ (z * up2 (- e))); lia.
Qed.

(** a quotient by [k] of an integer below [2^52] has at least as many digits as [k] has *)
Lemma div_exact x k : 0 <= x < 2 ^ 52 -> 0 < k < 2 ^ 53 ->
  rne (numer (div64 (f64 x) (f64 k)) * k) (denom (div64 (f64 x) (f64 k))) = x.
Proof.
  intros Hx Hk. unfold div64. pose proof (f64_exact x) as Ex. pose proof (f64_exact k) as Ek.
  pose proof (denom_pos (f64 x)). pose proof (denom_pos (f64 k)).
  set (num := numer (f64 x) * denom (f64 k)). set (den := denom (f64 x) * numer (f64 k)).
  assert (Hd : 0 < den) by (unfold den; rewrite Ek by lia; nia).
  assert (E : num * k = x * den) by (unfold num, den; rewrite Ex, Ek by lia; ring).
  assert (Hn : 0 <= num) by nia.
  pose proof (round_near 53 num den ltac:(lia) Hn Hd) as Hr. pose proof (denom_pos (round 53 num den)) as Hq.
  set (a := numer (round 53 num den)) in *. set (b := denom (round 53 num den)) in *.
  apply rne_unique; [done|].
  assert (H1 : den * Z.abs (a * k - x * b) = k * Z.abs (a * den - num * b)).
  { replace (k * Z.abs (a * den - num * b)) with (Z.abs (k * (a * den - num * b))) by (rewrite Z.abs_mul; lia).
    replace (den * Z.abs (a * k - x * b)) with (Z.abs (den * (a * k - x * b))) by (rewrite Z.abs_mul; lia). f_equal. nia. }
  assert (H2 : den * (2 ^ 53 * Z.abs (a * k - x * b)) <= den * (x * b)).
  { replace (den * (2 ^ 53 * Z.abs (a * k - x * b))) with (k * (2 ^ 53 * Z.abs (a * den - num * b))) by nia.
    transitivity (k * (num * b)); [apply Z.mul_le_mono_nonneg_l; lia|]. nia. }
  apply Z.mul_le_mono_pos_l in H2; [|done]. change (2 ^ 53) with (2 * 2 ^ 52) in H2. nia.
Qed.

(** microseconds printed as seconds: no digit is lost *)
Lemma seconds_exact x : 0 <= x < 2 ^ 52 -> fixed 6 (div64 (f64 x) (f64 1000000)) = decimals 6 x.
Proof. intros Hx. unfold fixed. change (10 ^ Z.of_nat 6) with 1000000. by rewrite div_exact. Qed.

Module FloatsExample.
Example rounded : map (fixed 1) [div64 (f64 1) (f64 4); div64 (f64 3) (f64 4); div64 (f64 1536) (f64 1024)] = ["0.2"; "0.8"; "1.5"].
Proof. vm_compute. reflexivity. Qed.
Example seconds : fixed 6 (div64 (f64 12345678) (f64 1000000)) = "12.345678".
Proof. vm_compute. reflexivity. Qed.
Example twentieth : let t := mul64 (div64 (f64 5) (f64 100)) (f64 100) in (numer t, denom t) = (5 * denom t, denom t).
Proof. vm_compute. reflexivity. Qed.
(** the bound is needed *)
Example beyond : fixed 6 (div64 (f64 (2 ^ 54 + 6)) (f64 1000000)) <> decimals 6 (2 ^ 54 + 6).
Proof. vm_compute. congruence. Qed.
End FloatsExample.
