(* ===== verification/Metrics.v ===== *)
(** * Metrics (src/metrics.rs)

    Readings of /proc and of control groups, the text that Prometheus scrapes, and the
    snapshot of one VM with its two caches, which many threads of the daemon share.

    A [sys] is what the files show at one moment; the threads see it change: [world]. *)
From S2P Require Import Prelude Text Sorting Floats Http Json Conf Watchdog Registry State Paths Cells Instances Tenants.

(** ** Readings *)
Record sys := mkSys {
  y_read : string -> option string;              (* read_to_string *)
  y_du : string -> option string;                (* the output of a du -sb that succeeds *)
  y_stat : string -> option (Z * Z);             (* blocks and size *)
  y_is_dir : string -> bool;
  y_cells : option (list string);                (* the entries of /mnt/nkr/cells *)
  y_vms : list VmState;                          (* state::list_vms *)
  y_fleet : fleet;
  y_unix : Z }.

Definition parse_u64 : string -> option Z := parse_uint (2 ^ 64 - 1).
Definition parse_u32 : string -> option Z := parse_uint (2 ^ 32 - 1).

Section readings.
Context (y : sys).

Definition read_cpu_snap (pid : Z) : option (Z * Z) :=
  content ← y_read y ("/proc/" +:+ dec pid +:+ "/stat");
  let fields := split_whitespace content in
  utime ← fields !! 13%nat ≫= parse_u64; stime ← fields !! 14%nat ≫= parse_u64; Some (utime, stime).

Definition read_rss_mb (pid : Z) : Z :=
  match find (starts_with "VmRSS:") (lines (default "" (y_read y ("/proc/" +:+ dec pid +:+ "/status")))) with
  | Some line => default 0 (split_whitespace line !! 1%nat ≫= parse_u32) / 1024
  | None => 0
  end.

Definition read_tap_stats (tap_name : string) : Z * Z :=
  match find (starts_with (tap_name +:+ ":")) (map trim (lines (default "" (y_read y "/proc/net/dev")))) with
  | Some trimmed =>
      let parts := split_whitespace trimmed in
      (default 0 (parts !! 1%nat ≫= parse_u64), default 0 (parts !! 9%nat ≫= parse_u64))
  | None => (0, 0)
  end.

Definition cpu_stat_line (acc : Z * Z) (line : string) : Z * Z :=
  match split_whitespace line with
  | k :: rest =>
      let v := default 0 (head rest ≫= parse_u64) in
      if bool_decide (k = "usage_usec") then (v, acc.2) else if bool_decide (k = "throttled_usec") then (acc.1, v) else acc
  | [] => acc
  end.
Definition read_cgroup_stats (vm_name : string) : Z * Z * Z :=
  let base := "/sys/fs/cgroup/nkr/" +:+ vm_name in
  (fold_left cpu_stat_line (lines (default "" (y_read y (base +:+ "/cpu.stat")))) (0, 0),
   default 0 (s ← y_read y (base +:+ "/memory.current"); parse_u64 (trim s))).

Definition io_line (acc : Z * Z) (line : string) : Z * Z :=
  let v := default 0 (split_whitespace line !! 1%nat ≫= parse_u64) in
  if starts_with "read_bytes:" line then (v, acc.2) else if starts_with "write_bytes:" line then (acc.1, v) else acc.
Definition read_io_bytes (pid : Z) : Z * Z :=
  fold_left io_line (lines (default "" (y_read y ("/proc/" +:+ dec pid +:+ "/io")))) (0, 0).

Definition stat_block_used_total (path : string) : Z * Z :=
  match y_stat y path with Some (blocks, size) => (Z.min (2 ^ 64 - 1) (blocks * 512), size) | None => (0, 0) end.

Definition find_instance_dir (vm_name : string) : option string :=
  cells ← y_cells y;
  find (y_is_dir y) (map (fun c => "/mnt/nkr/cells/" +:+ c +:+ "/instances/" +:+ vm_name) cells).

(** what du says now *)
Definition du_value (path : string) : Z :=
  default 0 (out ← y_du y path; head (split_whitespace out) ≫= parse_u64).

(** the directories of an instance, by name and path; the disks *)
Definition disk_dirs (vm_name : string) : list (string * string) :=
  match find_instance_dir vm_name with
  | Some dir =>
      filter (fun e => y_is_dir y e.2 = true)
        (map (fun sub => (sub, dir +:+ "/" +:+ sub)) ["addons"; "filestore"; "logs"; "pylibs"])
  | None => []
  end.
Definition disk_files (vm : VmState) : list (string * Z * Z) :=
  omap (fun disk =>
    if contains "/images/" disk then None
    else
      let '(used, total) := stat_block_used_total disk in
      if 0 <? total then Some (match file_stem disk with Some s => "disk:" +:+ s | None => "disk" end, used, total) else None)
    (disks vm).
End readings.

(** ** Tenants *)
Section tenants.
Context `{Listing}.

Definition discover_tenants (f : fleet) : list (string * string * string) :=
  mbind (fun c =>
    (y_name c +:+ "-db", y_name c, "infra") :: (y_name c +:+ "-pgb", y_name c, "infra")
    :: map (fun t => (t_name t, y_name c, default "unknown" (t_meta t ≫= get_str "tier"))) (tenants_of f (y_name c)))
    (list_cells f).

Definition cell_name_for_id (f : fleet) (cell_id : Z) : option string :=
  y_name <$> find (fun c => y_id c =? cell_id) (list_cells f).
Definition cell_tier_for (f : fleet) (vm_name : string) (cell_id : Z) : string * string :=
  let cell := default "" (cell_name_for_id f cell_id) in
  let tier := if bool_decide (cell = "") then None
              else metas ← f_metas f !! cell; v ← mjoin (mjoin (metas !! vm_name)); get_str "tier" v in
  (cell, default (if ends_with "-db" vm_name || ends_with "-pgb" vm_name then "infra" else "unknown") tier).
End tenants.

(** ** Measurements *)
Record VmMetrics := mkMetrics {
  m_cpu_pct : float; m_rss_mb : Z; m_ram_allocated_mb : Z; m_balloon_mb : Z; m_dax_savings_mb : Z;
  m_net_rx_bytes : Z; m_net_tx_bytes : Z; m_io_read_bytes : Z; m_io_write_bytes : Z;
  m_cgroup_cpu_usec : Z; m_cgroup_cpu_throttled_usec : Z; m_cgroup_mem_bytes : Z }.

Definition sat_add32 (a b : Z) : Z := Z.min (2 ^ 32 - 1) (a + b).
Definition dax_savings (vm : VmState) (rss_mb : Z) : Z :=
  if use_dax vm && (rss_mb <? ram_mb vm)
  then sat_sub (ram_mb vm) (sat_add32 (sat_add32 rss_mb (balloon_mb vm)) 50)
  else 0.

(** [((delta / elapsed) * 100.0).clamp(0.0, 100.0) as f32] *)
Definition cpu_pct (elapsed_ticks : float) (snap1 snap2 : option (Z * Z)) : float :=
  match snap1, snap2 with
  | Some (u1, s1), Some (u2, s2) =>
      let t1 := f64 (u64 (u1 + s1)) in
      let t2 := f64 (u64 (u2 + s2)) in
      if leb t2 t1 then mkFloat 0 0
      else let pct := mul64 (div64 (sub64 t2 t1) elapsed_ticks) (f64 100) in
           f32_of (if leb (f64 100) pct then f64 100 else pct)
  | _, _ => mkFloat 0 0
  end.
(** the two windows, of 200 and of 50 milliseconds; [hz] is the clock tick of the system *)
Definition window (hundredths hz : Z) : float := mul64 (div64 (f64 hundredths) (f64 100)) (f64 hz).

(** [with_cgroup]: for Prometheus *)
Definition measure (with_cgroup : bool) (elapsed_ticks : float) (y0 y : sys) (vm : VmState) : VmMetrics :=
  let rss := read_rss_mb y (pid vm) in
  let '(rx, tx) := read_tap_stats y (tap_name vm) in
  let '(r, w) := read_io_bytes y (pid vm) in
  let '(cpu, thr, mem) := if with_cgroup then read_cgroup_stats y (name vm) else (0, 0, 0) in
  mkMetrics (cpu_pct elapsed_ticks (read_cpu_snap y0 (pid vm)) (read_cpu_snap y (pid vm)))
    rss (ram_mb vm) (balloon_mb vm) (dax_savings vm rss) rx tx r w cpu thr mem.
Definition measure_all (hz : Z) (y0 y : sys) (vms : list VmState) : list VmMetrics :=
  map (measure false (window 20 hz) y0 y) vms.

(** ** Prometheus *)
Notation sample := (list (string * string) * string)%type.   (* labels, value *)
Record family := mkFamily { fm_name : string; fm_help : string; fm_type : string; fm_samples : list sample }.

Definition label_text (l : string * string) : string := l.1 +:+ "=" +:+ quote l.2.
Fixpoint labels_text (ls : list (string * string)) : string :=
  match ls with [] => "" | [l] => label_text l | l :: ls => label_text l +:+ "," +:+ labels_text ls end.
Definition sample_line (n : string) (s : sample) : string :=
  n +:+ (match s.1 with [] => "" | ls => "{" +:+ labels_text ls +:+ "}" end) +:+ " " +:+ s.2.
Definition family_lines (f : family) : list string :=
  ("# HELP " +:+ fm_name f +:+ " " +:+ fm_help f) :: ("# TYPE " +:+ fm_name f +:+ " " +:+ fm_type f)
  :: map (sample_line (fm_name f)) (fm_samples f).

Definition vm_family (n help typ : string) (value : VmState * VmMetrics -> string) (vms : list (VmState * VmMetrics)) : family :=
  mkFamily n help typ (map (fun x => ([("vm", name x.1)], value x)) vms).

Definition per_vm : list (string * string * string * (VmState * VmMetrics -> string)) := [
  ("nkr_cpu_pct", "CPU usage percentage (0-100)", "gauge", fun x => fixed 2 (m_cpu_pct x.2));
  ("nkr_rss_mb", "Resident Set Size (physical RAM used on host) in MB", "gauge", fun x => dec (m_rss_mb x.2));
  ("nkr_ram_allocated_mb", "RAM limit assigned at VM launch in MB", "gauge", fun x => dec (m_ram_allocated_mb x.2));
  ("nkr_balloon_mb", "RAM donated back to host via VirtIO-Balloon in MB", "gauge", fun x => dec (m_balloon_mb x.2));
  ("nkr_dax_savings_mb", "Estimated RAM saved via VirtIO-PMEM+DAX (no page-cache duplication) in MB", "gauge", fun x => dec (m_dax_savings_mb x.2));
  ("nkr_total_savings_mb", "Total RAM saved per VM (balloon + DAX) in MB", "gauge", fun x => dec (sat_add32 (m_balloon_mb x.2) (m_dax_savings_mb x.2)));
  ("nkr_io_read_bytes", "Total bytes read from disk (cumulative)", "counter", fun x => dec (m_io_read_bytes x.2));
  ("nkr_io_write_bytes", "Total bytes written to disk (cumulative)", "counter", fun x => dec (m_io_write_bytes x.2));
  ("nkr_net_rx_bytes", "TAP interface bytes received (cumulative)", "counter", fun x => dec (m_net_rx_bytes x.2));
  ("nkr_net_tx_bytes", "TAP interface bytes transmitted (cumulative)", "counter", fun x => dec (m_net_tx_bytes x.2));
  ("nkr_cpu_seconds_total", "CPU seconds consumed by the VM's cgroup (vCPU + virtiofsd/vhost helpers), cumulative. Use rate() in Grafana.", "counter",
   fun x => fixed 6 (div64 (f64 (m_cgroup_cpu_usec x.2)) (f64 1000000)));
  ("nkr_cpu_throttled_seconds_total", "Seconds the VM was throttled off the CPU by its cpu.max quota (chrs), cumulative.", "counter",
   fun x => fixed 6 (div64 (f64 (m_cgroup_cpu_throttled_usec x.2)) (f64 1000000)));
  ("nkr_cgroup_memory_bytes", "Physical host RAM charged to the VM's cgroup (VMM + virtiofsd/vhost helpers), in bytes.", "gauge",
   fun x => dec (m_cgroup_mem_bytes x.2))].

(** only the VMs whose guest has reported *)
Definition guest_families (vms : list VmState) : list family :=
  let reported := filter (fun v => 0 < mem_total (guest_memory v)) vms in
  let fam := fun n help (g : guest_mem -> Z) =>
    mkFamily n help "gauge" (map (fun v => ([("vm", name v)], dec (g (guest_memory v)))) reported) in
  if existsb (fun v => 0 <? mem_total (guest_memory v)) vms
  then [fam "nkr_guest_mem_total_bytes" "Total RAM the guest sees (MemTotal), via the virtio-balloon stats vq." mem_total;
        fam "nkr_guest_mem_available_bytes" "RAM available inside the guest (MemAvailable estimate)." mem_available;
        fam "nkr_guest_mem_free_bytes" "Free RAM inside the guest (MemFree)." mem_free;
        fam "nkr_guest_mem_cached_bytes" "Disk-cache RAM inside the guest (Cached)." mem_cached]
  else [].

(** [if !seen.insert(key) { continue; }] *)
Fixpoint first_seen {A} (key : A -> string) (seen : gset string) (l : list A) : list A * gset string :=
  match l with
  | [] => ([], seen)
  | x :: l =>
      if bool_decide (key x ∈ seen) then first_seen key seen l
      else let '(r, s) := first_seen key ({[key x]} ∪ seen) l in (x :: r, s)
  end.
Definition up_samples (running : list VmState) (tenants : list (string * string * string)) : list sample :=
  let '(known, seen) := first_seen (fun t => t.1.1) ∅ tenants in
  let '(others, _) := first_seen name seen running in
  map (fun t => ([("vm", t.1.1); ("cell", t.1.2); ("tier", t.2)],
                 if bool_decide (t.1.1 ∈ map name running) then "1" else "0")) known
  ++ map (fun v => ([("vm", name v); ("cell", ""); ("tier", "unknown")], "1")) others.

Definition single (n help value : string) : family := mkFamily n help "gauge" [([], value)].
(** the sums of [u64]s *)
Definition total (g : VmMetrics -> Z) (ms : list VmMetrics) : Z := u64 (foldr (fun m s => g m + s) 0 ms).

Definition CARGO_PKG_VERSION : string := "1.6.9".

Definition families `{Listing} (hz : Z) (y0 y : sys) : list family :=
  let vms := y_vms y0 in
  let metrics := map (measure true (window 5 hz) y0 y) vms in
  map (fun '(n, help, typ, value) => vm_family n help typ value (zip vms metrics)) per_vm
  ++ guest_families vms
  ++ [mkFamily "nkr_up" "1 if the micro-VM is running, 0 if known but stopped. Labels cell/tier for joins." "gauge"
        (up_samples vms (discover_tenants (y_fleet y)));
      mkFamily "nkr_build_info" "NKR daemon build info (always 1; read the labels)" "gauge" [([("version", CARGO_PKG_VERSION)], "1")];
      single "nkr_vm_count" "Number of running micro-VMs registered" (dec (Z.of_nat (length vms)));
      single "nkr_total_rss_mb" "Sum of per-VM VMM RSS in MB" (dec (total m_rss_mb metrics));
      single "nkr_total_balloon_mb" "Sum of per-VM balloon-inflated RAM in MB" (dec (total m_balloon_mb metrics));
      single "nkr_total_dax_savings_mb" "Sum of per-VM DAX savings in MB" (dec (total m_dax_savings_mb metrics))].
Definition render_prometheus_metrics `{Listing} (hz : Z) (y0 y : sys) : string :=
  unlines (mbind family_lines (families hz y0 y)).

(** ** The snapshot of one VM *)
Definition DU_TTL : Z := 300 * 10 ^ 9.
Definition VM_METRICS_TTL : Z := 2 * 10 ^ 9.

(** instants in nanoseconds *)
Notation cache A := (gmap string (Z * A)).
Definition cached {A} (ttl now : Z) (k : string) (c : cache A) : option A :=
  '(t, v) ← c !! k; if sat_sub now t <? ttl then Some v else None.

Definition f64_seconds (usec : Z) : float := div64 (f64 usec) (f64 1000000).
(** [show]: how serde_json prints an [f64]; [y]: when the VM was found; [y']: after its directories were measured *)
Definition vm_json `{Listing} (show : float -> string) (y y' : sys) (vm : VmState) (disk : list (string * Z * Z)) : Value :=
  let rss := read_rss_mb y (pid vm) in
  let '(rx, tx) := read_tap_stats y (tap_name vm) in
  let '(r, w) := read_io_bytes y (pid vm) in
  let '(cpu, thr, mem) := read_cgroup_stats y (name vm) in
  let '(cell, tier) := cell_tier_for (y_fleet y') (name vm) (State.cell_id vm) in
  let g := guest_memory vm in
  JObject [("vm", JString (name vm)); ("cell", JString cell); ("tier", JString tier); ("running", JBool true);
    ("uptime_seconds", JInt (sat_sub (y_unix y) (started_at vm))); ("chrs", JInt (chrs vm));
    ("ram_allocated_mb", JInt (ram_mb vm)); ("balloon_mb", JInt (balloon_mb vm)); ("rss_mb", JInt rss);
    ("cgroup_memory_bytes", JInt mem);
    ("guest_mem", if 0 <? mem_total g
       then JObject [("total_bytes", JInt (mem_total g)); ("free_bytes", JInt (mem_free g));
                     ("available_bytes", JInt (mem_available g)); ("cached_bytes", JInt (mem_cached g))]
       else JNull);
    ("cpu_seconds_total", JFloat (show (f64_seconds cpu))); ("cpu_throttled_seconds_total", JFloat (show (f64_seconds thr)));
    ("dax_savings_mb", JInt (dax_savings vm rss)); ("net_rx_bytes", JInt rx); ("net_tx_bytes", JInt tx);
    ("io_read_bytes", JInt r); ("io_write_bytes", JInt w);
    ("disk", JArray (map (fun '(mount, used, tot) =>
       JObject [("mount", JString mount); ("used_bytes", JInt used); ("total_bytes", JInt tot)]) disk));
    ("as_of", JInt (y_unix y)); ("stale", JBool false)].
Definition stopped_json (y : sys) (entry : string * string * string) : Value :=
  JObject [("vm", JString entry.1.1); ("cell", JString entry.1.2); ("tier", JString entry.2);
           ("running", JBool false); ("as_of", JInt (y_unix y)); ("stale", JBool false)].
Definition mark_stale (v : Value) : Value :=
  match v with JObject m => JObject (insert_member "stale" (JBool true) m) | _ => v end.

(** A request, cut where it takes or leaves a cache: the start; the directories that are still to
    be measured, with what was found so far, while du runs, and the end.  [begun]: when the
    caches were found empty. *)
Inductive thread :=
  | Start (nkr_name : string)
  | Disks (nkr_name : string) (begun : Z) (vm : VmState) (todo : list (string * string)) (found : list (string * Z * Z))
  | Du (nkr_name : string) (begun : Z) (vm : VmState) (label path : string) (todo : list (string * string)) (found : list (string * Z * Z))
  | Store (nkr_name : string) (json : Value).
Record caches := mkCaches { c_du : cache Z; c_snap : cache Value }.
#[export] Instance eta_caches : Eta caches := fun c => mkCaches (c_du c) (c_snap c).

Section snapshots.
Context `{Listing} (show : float -> string) (world : Z -> sys).

(** the thread goes on, or has its answer ([None]: no such VM) *)
Definition turn (now : Z) (th : thread) (c : caches) : (thread + option Value) * caches :=
  let y := world now in
  match th with
  | Start n =>
      match cached VM_METRICS_TTL now n (c_snap c) with
      | Some v => (inr (Some (mark_stale v)), c)
      | None =>
          match find (fun v => bool_decide (name v = n)) (y_vms y) with
          | Some vm => (inl (Disks n now vm (disk_dirs y (name vm)) []), c)
          | None =>
              match find (fun t => bool_decide (t.1.1 = n)) (discover_tenants (y_fleet y)) with
              | Some entry => (inl (Store n (stopped_json y entry)), c)
              | None => (inr None, c)
              end
          end
      end
  | Disks n b vm ((label, path) :: todo) found =>
      match cached DU_TTL now path (c_du c) with
      | Some v => (inl (Disks n b vm todo (found ++ [(label, v, 0)])), c)
      | None => (inl (Du n b vm label path todo found), c)
      end
  | Du n b vm label path todo found =>
      let v := du_value y path in
      (inl (Disks n b vm todo (found ++ [(label, v, 0)])), c <| c_du ::= <[path := (now, v)]> |>)
  | Disks n b vm [] found => (inl (Store n (vm_json show (world b) y vm (found ++ disk_files y vm))), c)
  | Store n json => (inr (Some json), c <| c_snap ::= <[n := (now, json)]> |>)
  end.

(** a request that runs alone, its turns at the given instants *)
Fixpoint turns (ts : list Z) (th : thread) (c : caches) : option (option Value) * caches :=
  match ts with
  | [] => (None, c)
  | now :: ts => match turn now th c with (inr a, c) => (Some a, c) | (inl th, c) => turns ts th c end
  end.
Definition vm_metrics_json (ts : list Z) (nkr_name : string) (c : caches) : option (option Value) * caches :=
  turns ts (Start nkr_name) c.
End snapshots.

(** ** The table of [nkr stats] *)
Definition fmt_bytes (bytes : Z) : string :=
  if bytes <=? 1023 then dec bytes +:+ "B"
  else if bytes <=? 1048575 then fixed 1 (div64 (f64 bytes) (f64 1024)) +:+ "K"
  else if bytes <=? 1073741823 then fixed 1 (div64 (f64 bytes) (f64 1048576)) +:+ "M"
  else fixed 2 (div64 (f64 bytes) (f64 1073741824)) +:+ "G".
(** [None]: the cut is inside a character, and the program panics *)
Definition truncate (s : string) (max : nat) : option string := truncate_str s max.

Definition mem_line (acc : Z * Z) (line : string) : Z * Z :=
  match split_whitespace line with
  | k :: rest =>
      let v := default 0 (head rest ≫= parse_u32) / 1024 in
      if bool_decide (k = "MemTotal:") then (acc.1, v) else if bool_decide (k = "MemAvailable:") then (v, acc.2) else acc
  | [] => acc
  end.
(** available and total *)
Definition read_host_mem_mb (y : sys) : Z * Z := fold_left mem_line (lines (default "" (y_read y "/proc/meminfo"))) (0, 0).
Definition now_hms (secs : Z) : string :=
  padded 2 ((secs / 3600) mod 24) +:+ ":" +:+ padded 2 ((secs / 60) mod 60) +:+ ":" +:+ padded 2 (secs mod 60) +:+ " UTC".

Definition ESC : string := String "027" "".
Definition color_cpu (pct : float) : string :=
  let s := fixed 1 pct +:+ "%" in
  if negb (leb pct (f64 80)) then ESC +:+ "[31m" +:+ s +:+ ESC +:+ "[0m"
  else if negb (leb pct (f64 50)) then ESC +:+ "[33m" +:+ s +:+ ESC +:+ "[0m" else s.
Definition pad_visible (s : string) (raw_len width : nat) : string :=
  s +:+ String.string_of_list_ascii (replicate (width - raw_len) " "%char).

(** cells by name, then VMs by use of the processor, highest first *)
Definition cpu_key (pct : float) : Z := - 1 - numer pct * 2 ^ 200 / denom pct.
Definition stats_order (cell_of : Z -> string) (rows : list (VmState * VmMetrics)) : list (VmState * VmMetrics) :=
  sort_by_key (fun x => str_key (cell_of (State.cell_id x.1)) ++ [cpu_key (m_cpu_pct x.2)]) rows.
Definition cell_label (cells : file) (cell_id : Z) : string :=
  if cell_id =? 0 then "—" else default ("cell-" +:+ dec cell_id) (lookup_cell_name cell_id cells).
(** the columns of a row, before they are padded *)
Definition stats_row (cells : file) (x : VmState * VmMetrics) : option (list string) :=
  let '(vm, m) := x in
  cell ← truncate (cell_label cells (State.cell_id vm)) 14;
  nm ← truncate (if bool_decide (name vm = "") then "—" else name vm) 22;
  let saved := fun z => if 0 <? z then "-" +:+ dec z +:+ "MB" else "—" in
  Some [cell; dec (vm_id vm); nm;
        pad_visible (color_cpu (m_cpu_pct m)) (String.length (fixed 1 (m_cpu_pct m) +:+ "%")) 6;
        dec (m_rss_mb m) +:+ "MB"; dec (ram_mb vm) +:+ "MB"; saved (m_balloon_mb m); saved (m_dax_savings_mb m);
        fmt_bytes (m_net_rx_bytes m) +:+ "/" +:+ fmt_bytes (m_net_tx_bytes m);
        fmt_bytes (m_io_read_bytes m) +:+ "/" +:+ fmt_bytes (m_io_write_bytes m)].
(** resident, configured, balloon, DAX: sums of [u32]s *)
Definition stats_totals (rows : list (VmState * VmMetrics)) : Z * Z * Z * Z :=
  let sum := fun g : VmState * VmMetrics -> Z => u32 (foldr (fun x s => g x + s) 0 rows) in
  (sum (fun x => m_rss_mb x.2), sum (fun x => ram_mb x.1), sum (fun x => m_balloon_mb x.2), sum (fun x => m_dax_savings_mb x.2)).
Definition print_stats_table (cells : file) (hz : Z) (y0 y : sys) : option (list (list string)) * (Z * Z * Z * Z) :=
  let rows := stats_order (cell_label cells) (zip (y_vms y0) (measure_all hz y0 y (y_vms y0))) in
  (mapM (stats_row cells) rows, stats_totals rows).

Definition required : list string :=
  ["ip"; "iptables"; "mount"; "umount"; "mkfs.ext4"; "e2fsck"; "losetup"; "chattr"; "psql"; "pg_isready"; "virtiofsd"].
Definition verify_dependencies (which : string -> bool) : list string := filter (fun b => which b = false) required.

(** ** Reading the exposition format

    Version 0.0.4, without escapes, time stamps and free comments. *)
Definition read_label (s : string) : option ((string * string) * string) :=
  '(k, r) ← split_once "=" s; r ← strip_prefix (String DQ "") r; '(v, r) ← split_once DQ r;
  if char_in "\" v then None else Some ((k, v), r).
Fixpoint read_labels (fuel : nat) (s : string) : option (list (string * string) * string) :=
  match fuel with
  | O => None
  | S fuel =>
      '(l, r) ← read_label s;
      match r with
      | String "," r => '(ls, r) ← read_labels fuel r; Some (l :: ls, r)
      | String "}" r => Some ([l], r)
      | _ => None
      end
  end.
Definition read_sample (line : string) : option (string * sample) :=
  match split_once "{" line with
  | Some (n, r) => '(ls, r) ← read_labels (String.length r) r; v ← strip_prefix " " r; Some (n, (ls, v))
  | None => '(n, v) ← split_once " " line; Some (n, ([], v))
  end.
Definition feed (st : option (list family)) (line : string) : option (list family) :=
  fs ← st;
  match strip_prefix "# HELP " line with
  | Some r => '(n, h) ← split_once " " r; Some (fs ++ [mkFamily n h "" []])
  | None =>
      f ← list.last fs;
      match strip_prefix "# TYPE " line with
      | Some r =>
          '(n, t) ← split_once " " r;
          if bool_decide (n = fm_name f) && bool_decide (fm_type f = "")
          then Some (removelast fs ++ [mkFamily n (fm_help f) t []]) else None
      | None =>
          '(n, s) ← read_sample line;
          if bool_decide (n = fm_name f) && negb (bool_decide (fm_type f = ""))
          then Some (removelast fs ++ [mkFamily n (fm_help f) (fm_type f) (fm_samples f ++ [s])]) else None
      end
  end.
Definition read_exposition (text : string) : option (list family) := fold_left feed (lines text) (Some []).

Definition label_ok (l : string * string) : Prop :=
  plain_text l.1 /\ char_in "=" l.1 = false /\ plain_text l.2 /\ char_in DQ l.2 = false /\ char_in "\" l.2 = false.
Definition sample_ok (s : sample) : Prop := Forall label_ok s.1 /\ plain_text s.2 /\ char_in "{" s.2 = false.
Definition family_name_ok (n : string) : Prop :=
  plain_text n /\ char_in "{" n = false /\ char_in " " n = false /\ char_in "#" n = false.
Definition family_ok (f : family) : Prop :=
  family_name_ok (fm_name f) /\ plain_text (fm_help f) /\ plain_text (fm_type f) /\ fm_type f <> "" /\ Forall sample_ok (fm_samples f).

Lemma read_label_text l r : label_ok l -> read_label (label_text l +:+ r) = Some (l, r).
Proof.
  destruct l as [k v]. intros (_ & Hk & _ & Hv & Hb). cbn [fst snd] in *. unfold read_label, label_text, quote. cbn [fst snd].
  rewrite !string_app_assoc. change ("=" +:+ ?x) with (String "=" x). rewrite split_once_plain by done. cbn [mbind option_bind].
  change (String DQ (v +:+ String DQ "") +:+ r) with (String DQ "" +:+ ((v +:+ String DQ "") +:+ r)).
  rewrite strip_prefix_app. cbn [mbind option_bind]. rewrite string_app_assoc. change (String DQ "" +:+ r) with (String DQ r).
  rewrite split_once_plain by done. cbn [mbind option_bind]. by rewrite Hb.
Qed.

Lemma read_labels_text ls r fuel : ls <> [] -> Forall label_ok ls -> (length ls <= fuel)%nat ->
  read_labels fuel (labels_text ls +:+ String "}" r) = Some (ls, r).
Proof.
  intros Hne Hok. revert fuel. induction Hok as [|l ls Hl Hls IH]; [done|]. intros [|fuel] Hf; cbn [length] in Hf; [lia|].
  destruct ls as [|l' ls]; cbn [labels_text read_labels].
  - by rewrite read_label_text.
  - change (match ls with [] => _ | _ => _ end) with (labels_text (l' :: ls)).
    rewrite !string_app_assoc, read_label_text by done. cbn [mbind option_bind].
    change ("," +:+ ?x) with (String "," x). cbn [mbind option_bind]. rewrite IH by (done || cbn in *; lia). done.
Qed.

Lemma length_string_app (a b : string) : String.length (a +:+ b) = (String.length a + String.length b)%nat.
Proof. induction a as [|c a IH]; [done|]. rewrite append_cons. cbn. by rewrite IH. Qed.

Lemma labels_length ls : (length ls <= String.length (labels_text ls))%nat.
Proof.
  induction ls as [|l ls IH]; [done|]. destruct ls as [|l' ls]; cbn [labels_text]; [unfold label_text; rewrite !length_string_app; cbn; lia|].
  change (match ls with [] => _ | _ => _ end) with (labels_text (l' :: ls)).
  rewrite !length_string_app. cbn [length String.length] in *. lia.
Qed.

Lemma read_sample_line n s : family_name_ok n -> sample_ok s -> read_sample (sample_line n s) = Some (n, s).
Proof.
  destruct s as [ls v]. intros (_ & Hb & Hs & _) (Hl & _ & Hv). cbn [fst snd] in *. unfold read_sample, sample_line. cbn [fst snd].
  destruct ls as [|l ls].
  - rewrite split_once_none. 2:{ by rewrite !char_in_app, Hb, Hv. }
    change ("" +:+ " " +:+ v) with (String " " v). by rewrite split_once_plain.
  - set (L := l :: ls) in *.
    change ("{" +:+ labels_text L +:+ "}") with (String "{" (labels_text L +:+ "}")). rewrite append_cons, split_once_plain by done.
    assert (E : (labels_text L +:+ "}") +:+ " " +:+ v = labels_text L +:+ String "}" (" " +:+ v)) by by rewrite string_app_assoc.
    rewrite E, read_labels_text; [cbn [mbind option_bind]; by rewrite strip_prefix_app|done|done|].
    pose proof (labels_length L). rewrite length_string_app. lia.
Qed.

Lemma sample_no_comment p n s : char_in "#" n = false -> strip_prefix (String "#" p) (sample_line n s) = None.
Proof.
  intros Hn. unfold sample_line. destruct n as [|c n].
  - rewrite append_empty. destruct (s.1); [done|]. change ("{" +:+ ?x) with (String "{" x). by rewrite append_cons.
  - rewrite char_in_cons in Hn. apply orb_false_iff in Hn as [Hc _]. rewrite append_cons. cbn [strip_prefix]. by rewrite Hc.
Qed.

Lemma feed_samples n h t ss fs done_ : family_name_ok n -> t <> "" -> Forall sample_ok ss ->
  fold_left feed (map (sample_line n) ss) (Some (fs ++ [mkFamily n h t done_])) = Some (fs ++ [mkFamily n h t (done_ ++ ss)]).
Proof.
  intros Hn Ht Hs. revert done_. induction Hs as [|s ss Hs _ IH]; intros done_; cbn [map fold_left]; [by rewrite app_nil_r|].
  unfold feed at 2. cbn [mbind option_bind]. rewrite sample_no_comment by apply Hn. rewrite last_snoc. cbn [mbind option_bind].
  rewrite sample_no_comment by apply Hn. rewrite read_sample_line by done. cbn [mbind option_bind fm_name fm_type fm_help fm_samples].
  rewrite bool_decide_eq_true_2, bool_decide_eq_false_2, removelast_last by done. cbn [negb andb]. rewrite IH. by rewrite <- app_assoc.
Qed.

Lemma feed_family f fs : family_ok f -> fold_left feed (family_lines f) (Some fs) = Some (fs ++ [f]).
Proof.
  destruct f as [n h t ss]. intros (Hn & _ & _ & Ht & Hs). unfold family_lines. cbn [fm_name fm_help fm_type fm_samples fold_left] in *.
  pose proof Hn as (_ & _ & Hsp & _).
  unfold feed at 3. cbn [mbind option_bind]. rewrite strip_prefix_app. cbn [mbind option_bind].
  change (" " +:+ h) with (String " " h). rewrite split_once_plain by done.
  unfold feed at 2. cbn [mbind option_bind]. change (strip_prefix "# HELP " ("# TYPE " +:+ n +:+ " " +:+ t)) with (@None string).
  rewrite last_snoc. cbn [mbind option_bind]. rewrite strip_prefix_app. cbn [mbind option_bind].
  change (" " +:+ t) with (String " " t). rewrite split_once_plain by done. cbn [mbind option_bind fm_name fm_type fm_help].
  rewrite !bool_decide_eq_true_2, removelast_last by done. cbn [andb]. by rewrite feed_samples.
Qed.

Lemma feed_families fs acc : Forall family_ok fs -> fold_left feed (mbind family_lines fs) (Some acc) = Some (acc ++ fs).
Proof.
  intros Hf. revert acc. induction Hf as [|f fs Hf _ IH]; intros acc; cbn [mbind list_bind fold_left]; [by rewrite app_nil_r|].
  rewrite fold_left_app, feed_family by done. rewrite IH. by rewrite <- app_assoc.
Qed.

Lemma label_plain l : label_ok l -> plain_text (label_text l).
Proof. destruct l as [k v]. intros (Hk & _ & Hv & _). unfold label_text, quote. cbn [fst snd] in *.
  change (String DQ (v +:+ String DQ "")) with (String DQ "" +:+ v +:+ String DQ ""). by rewrite !plain_app. Qed.

Lemma labels_plain ls : Forall label_ok ls -> plain_text (labels_text ls).
Proof.
  induction 1 as [|l ls Hl Hls IH]; [done|]. destruct ls as [|l' ls]; [by apply label_plain|].
  cbn [labels_text]. change (match ls with [] => _ | _ => _ end) with (labels_text (l' :: ls)). rewrite !plain_app.
  split; [by apply label_plain|]. by split.
Qed.

Lemma family_lines_plain f : family_ok f -> Forall plain_text (family_lines f).
Proof.
  destruct f as [n h t ss]. intros ((Hn & _) & Hh & Ht & _ & Hs). unfold family_lines. cbn [fm_name fm_help fm_type fm_samples] in *.
  constructor; [by rewrite !plain_app|]. constructor; [by rewrite !plain_app|]. apply Forall_map.
  eapply Forall_impl; [|exact Hs]. intros [ls v] (Hl & Hv & _). cbn [fst snd] in *. unfold sample_line. cbn [fst snd]. rewrite !plain_app.
  split; [done|]. split; [|done]. destruct ls as [|l ls]; [done|]. rewrite !plain_app. split; [done|]. split; [by apply labels_plain|done].
Qed.

Lemma read_render fs : Forall family_ok fs -> read_exposition (unlines (mbind family_lines fs)) = Some fs.
Proof.
  intros Hf. unfold read_exposition. rewrite lines_unlines; [by rewrite feed_families|].
  induction Hf as [|f fs Hf _ IH]; [constructor|]. cbn [mbind list_bind]. apply Forall_app. split; [by apply family_lines_plain|done].
Qed.

(** ** The families are well formed *)
Definition value_plain (s : string) : Prop := plain_text s /\ char_in DQ s = false /\ char_in "\" s = false.
Definition unsigned (v : VmState) : Prop :=
  0 <= ram_mb v /\ 0 <= State.balloon_mb v /\ 0 <= mem_total (guest_memory v) /\ 0 <= mem_free (guest_memory v)
  /\ 0 <= mem_available (guest_memory v) /\ 0 <= mem_cached (guest_memory v).

(** digits and dots *)
Definition numeral (s : string) : Prop := forall c, char_digit c = None -> c <> "."%char -> char_in c s = false.
Lemma numeral_plain s : numeral s -> plain_text s /\ char_in "{" s = false.
Proof. intros H. split; [split|]; by apply H. Qed.
Lemma numeral_dec z : 0 <= z -> numeral (dec z).
Proof. intros Hz c Hc _. by apply dec_plain. Qed.
Lemma numeral_decimals d z : 0 <= z -> numeral (decimals d z).
Proof.
  intros Hz c Hc Hd. unfold decimals, padded. rewrite !char_in_app. rewrite dec_plain by (done || apply Z.div_pos; lia).
  assert (E : char_in c "." = false) by (cbn; rewrite orb_false_r; by apply Ascii.eqb_neq). rewrite E. cbn [orb].
  apply (char_in_show _ _ 10); [lia| |done]. apply Forall_app. split; [|apply Forall_replicate; lia].
  apply digits_range; [lia|]. apply Z.mod_pos_bound. lia.
Qed.

Definition fpos (f : float) : Prop := 0 <= f_man f.
Lemma numer_pos f : fpos f -> 0 <= numer f.
Proof. intros H. unfold numer. pose proof (up2_pos (f_exp f)). unfold fpos in H. nia. Qed.
Lemma rne_pos num den : 0 <= num -> 0 <= den -> 0 <= rne num den.
Proof.
  intros Hn Hd. unfold rne. assert (0 <= num / den). { destruct (decide (den = 0)) as [->|]; [by rewrite Zdiv_0_r|]. apply Z.div_pos; lia. }
  destruct (_ ?= _); [destruct (Z.even _)| |]; lia.
Qed.
Lemma round_pos p num den : 0 <= num -> 0 <= den -> fpos (round p num den).
Proof.
  intros Hn Hd. unfold fpos, round. destruct (num =? 0); [done|]. unfold scaled. cbn [f_man].
  apply rne_pos; apply Z.mul_nonneg_nonneg; [done|apply Z.lt_le_incl, up2_pos|done|apply Z.lt_le_incl, up2_pos].
Qed.
Lemma fixed_numeral d f : fpos f -> numeral (fixed d f).
Proof.
  intros Hf. apply numeral_decimals, rne_pos; [|apply Z.lt_le_incl, denom_pos].
  apply Z.mul_nonneg_nonneg; [by apply numer_pos|apply Z.pow_nonneg; lia].
Qed.
Lemma div64_pos a b : fpos a -> fpos b -> fpos (div64 a b).
Proof. intros Ha Hb. pose proof (numer_pos a Ha). pose proof (numer_pos b Hb). pose proof (denom_pos a). pose proof (denom_pos b). apply round_pos; nia. Qed.
Lemma mul64_pos a b : fpos a -> fpos b -> fpos (mul64 a b).
Proof. intros Ha Hb. pose proof (numer_pos a Ha). pose proof (numer_pos b Hb). pose proof (denom_pos a). pose proof (denom_pos b). apply round_pos; nia. Qed.
Lemma f64_pos z : 0 <= z -> fpos (f64 z).
Proof. intros Hz. by apply round_pos. Qed.

Lemma cpu_pct_pos e s1 s2 : fpos e -> fpos (cpu_pct e s1 s2).
Proof.
  intros He. unfold cpu_pct. destruct s1 as [[u1 t1]|], s2 as [[u2 t2]|]; try (unfold fpos; cbn; lia).
  set (a := f64 (u64 (u1 + t1))). set (b := f64 (u64 (u2 + t2))).
  destruct (leb b a) eqn:E; [unfold fpos; cbn; lia|]. unfold leb in E. apply Z.leb_gt in E.
  assert (Hs : fpos (sub64 b a)).
  { apply round_pos; [lia|]. pose proof (denom_pos a). pose proof (denom_pos b). nia. }
  unfold f32_of. assert (Hp : fpos (mul64 (div64 (sub64 b a) e) (f64 100))) by (apply mul64_pos; [by apply div64_pos|by apply f64_pos]).
  destruct (leb _ _); apply round_pos; (apply numer_pos; first [done|by apply f64_pos]) || (apply Z.lt_le_incl, denom_pos).
Qed.
Lemma window_pos c hz : 0 <= c -> 0 <= hz -> fpos (window c hz).
Proof. intros. apply mul64_pos; [apply div64_pos|]; by apply f64_pos. Qed.

Lemma parsed_pos {A} (o : option A) (f : A -> string) max : 0 <= default 0 (x ← o; parse_uint max (f x)).
Proof. destruct o as [x|]; [|done]. cbn. destruct (parse_uint max (f x)) eqn:E; [|done]. by apply parse_uint_nonneg in E. Qed.

Definition pair_pos (p : Z * Z) : Prop := 0 <= p.1 /\ 0 <= p.2.
Lemma fold_pos (f : Z * Z -> string -> Z * Z) ls acc : (forall a l, pair_pos a -> pair_pos (f a l)) -> pair_pos acc -> pair_pos (fold_left f ls acc).
Proof. intros Hf. revert acc. induction ls; cbn; auto. Qed.

Lemma rss_pos y p : 0 <= read_rss_mb y p.
Proof. unfold read_rss_mb. destruct (find _ _); [|done]. apply Z.div_pos; [|lia]. apply (parsed_pos _ id). Qed.
Lemma tap_pos y t : pair_pos (read_tap_stats y t).
Proof. unfold read_tap_stats. destruct (find _ _); [|done]. split; apply (parsed_pos _ id). Qed.
Lemma io_pos y p : pair_pos (read_io_bytes y p).
Proof.
  apply fold_pos; [|done]. intros a l [Ha Hb]. unfold io_line. pose proof (parsed_pos (split_whitespace l !! 1%nat) id (2 ^ 64 - 1)).
  repeat case_match; split; cbn; done.
Qed.
Lemma cgroup_pos y n : pair_pos (read_cgroup_stats y n).1 /\ 0 <= (read_cgroup_stats y n).2.
Proof.
  unfold read_cgroup_stats. cbn [fst snd]. split; [|apply (parsed_pos _ trim)]. apply fold_pos; [|done].
  intros a l [Ha Hb]. unfold cpu_stat_line. destruct (split_whitespace l) as [|k rest]; [done|].
  pose proof (parsed_pos (head rest) id (2 ^ 64 - 1)). repeat case_match; split; cbn; done.
Qed.

Definition metrics_pos (m : VmMetrics) : Prop :=
  fpos (m_cpu_pct m) /\ 0 <= m_rss_mb m /\ 0 <= m_ram_allocated_mb m /\ 0 <= m_balloon_mb m /\ 0 <= m_dax_savings_mb m
  /\ 0 <= m_net_rx_bytes m /\ 0 <= m_net_tx_bytes m /\ 0 <= m_io_read_bytes m /\ 0 <= m_io_write_bytes m
  /\ 0 <= m_cgroup_cpu_usec m /\ 0 <= m_cgroup_cpu_throttled_usec m /\ 0 <= m_cgroup_mem_bytes m.
Lemma measure_pos b e y0 y v : fpos e -> unsigned v -> metrics_pos (measure b e y0 y v).
Proof.
  intros He Hv. unfold measure. pose proof (rss_pos y (pid v)). pose proof (tap_pos y (tap_name v)) as [? ?].
  pose proof (io_pos y (pid v)) as [? ?]. pose proof (cgroup_pos y (name v)) as [[? ?] ?].
  destruct (read_tap_stats _ _), (read_io_bytes _ _), (read_cgroup_stats _ _) as [[c t] m]. unfold unsigned in Hv. cbn [fst snd] in *.
  assert (0 <= dax_savings v (read_rss_mb y (pid v))) by (unfold dax_savings, sat_sub; case_match; lia).
  pose proof (cpu_pct_pos e (read_cpu_snap y0 (pid v)) (read_cpu_snap y (pid v)) He).
  destruct b; unfold metrics_pos; cbn; split_and!; done || lia.
Qed.

Lemma first_seen_spec {A} (key : A -> string) seen l : let '(r, s) := first_seen key seen l in
  NoDup (map key r) /\ (forall x, x ∈ r -> x ∈ l /\ key x ∉ seen)
  /\ (forall k, k ∈ s <-> k ∈ seen \/ k ∈ map key r) /\ (forall k, k ∈ s <-> k ∈ seen \/ k ∈ map key l).
Proof.
  revert seen. induction l as [|x l IH]; intros seen; cbn [first_seen].
  { cbn. split_and!; [constructor|set_solver..]. }
  case_bool_decide as Hx.
  - specialize (IH seen). destruct (first_seen key seen l) as [r s]. destruct IH as (Hn & Hr & Hs & Hl). split_and!; try done.
    + intros z Hz. destruct (Hr z Hz). split; [by right|done].
    + intros k. rewrite Hl. cbn. set_solver.
  - specialize (IH ({[key x]} ∪ seen)). destruct (first_seen key _ l) as [r s]. destruct IH as (Hn & Hr & Hs & Hl). cbn [map]. split_and!.
    + constructor; [|done]. intros (z & Ez & Hz)%list_elem_of_fmap. destruct (Hr z Hz). set_solver.
    + intros z [->|Hz]%elem_of_cons; [split; [left|done]|]. destruct (Hr z Hz). split; [by right|set_solver].
    + intros k. rewrite Hs. set_solver.
    + intros k. rewrite Hl. set_solver.
Qed.

Definition vm_of (s : sample) : string := match s.1 with (_, v) :: _ => v | [] => "" end.

Lemma up_cases running tenants s : s ∈ up_samples running tenants ->
  (exists t, t ∈ tenants /\ s = ([("vm", t.1.1); ("cell", t.1.2); ("tier", t.2)], if bool_decide (t.1.1 ∈ map name running) then "1" else "0"))
  \/ (exists v, v ∈ running /\ s = ([("vm", name v); ("cell", ""); ("tier", "unknown")], "1")).
Proof.
  unfold up_samples. pose proof (first_seen_spec (fun t : string * string * string => t.1.1) ∅ tenants) as H1.
  destruct (first_seen _ ∅ tenants) as [known seen]. pose proof (first_seen_spec name seen running) as H2.
  destruct (first_seen name seen running) as [others s2]. destruct H1 as (_ & H1 & _), H2 as (_ & H2 & _).
  rewrite elem_of_app. intros [(t & -> & Ht)%list_elem_of_fmap|(v & -> & Hv)%list_elem_of_fmap]; [left; exists t|right; exists v]; naive_solver.
Qed.

Lemma up_distinct running tenants : NoDup (map vm_of (up_samples running tenants)).
Proof.
  unfold up_samples. pose proof (first_seen_spec (fun t : string * string * string => t.1.1) ∅ tenants) as H1.
  destruct (first_seen _ ∅ tenants) as [known seen]. pose proof (first_seen_spec name seen running) as H2.
  destruct (first_seen name seen running) as [others s2]. destruct H1 as (N1 & R1 & S1 & L1), H2 as (N2 & R2 & S2 & L2).
  rewrite map_app, !map_map. apply list.NoDup_app. split_and!; [exact N1| |exact N2].
  intros k Hk Hk'. apply list_elem_of_fmap in Hk' as (v & -> & Hv). destruct (R2 v Hv) as [_ Hns]. apply Hns, S1. by right.
Qed.

(** The series nkr_up has one sample for every VM that runs and for every tenant that is known, and
    none for anything else; a sample says 1 exactly when the VM runs. *)
Theorem up_series running tenants :
  NoDup (map vm_of (up_samples running tenants))
  /\ (forall n, n ∈ map vm_of (up_samples running tenants) <-> n ∈ map (fun t => t.1.1) tenants \/ n ∈ map name running)
  /\ (forall s, s ∈ up_samples running tenants -> s.2 = if bool_decide (vm_of s ∈ map name running) then "1" else "0").
Proof.
  split_and!; [apply up_distinct| |].
  2:{ intros s [(t & _ & ->)|(v & Hv & ->)]%up_cases; cbn; [done|]. rewrite bool_decide_eq_true_2; [done|]. apply list_elem_of_fmap. by exists v. }
  unfold up_samples. pose proof (first_seen_spec (fun t : string * string * string => t.1.1) ∅ tenants) as H1.
  destruct (first_seen _ ∅ tenants) as [known seen]. pose proof (first_seen_spec name seen running) as H2.
  destruct (first_seen name seen running) as [others s2]. destruct H1 as (_ & _ & S1 & L1), H2 as (_ & _ & S2 & L2).
  intros n. rewrite map_app, !map_map, elem_of_app. cbn. pose proof (S1 n). pose proof (L1 n). pose proof (S2 n). pose proof (L2 n).
  change (map (fun x : VmState => name x) others) with (map name others).
  assert (n ∉ (∅ : gset string)) by set_solver. tauto.
Qed.

(** ** The text that is scraped *)
Section scrape.
Context `{Listing} (hz : Z) (y0 y : sys).
Hypothesis Hz : 0 <= hz.
Hypothesis vms_ok : Forall (fun v => value_plain (name v) /\ unsigned v) (y_vms y0).
Hypothesis tenants_ok : Forall (fun t => value_plain t.1.1 /\ value_plain t.1.2 /\ value_plain t.2) (discover_tenants (y_fleet y)).

Lemma sample_ok_intro (ls : list (string * string)) (v : string) :
  Forall label_ok ls -> numeral v -> sample_ok (ls, v).
Proof. intros Hl Hv. destruct (numeral_plain v Hv). by split_and!. Qed.
Lemma vm_label_ok n : value_plain n -> label_ok ("vm", n).
Proof. intros (? & ? & ?). by split_and!. Qed.

Definition measured (x : VmState * VmMetrics) : Prop := value_plain (name x.1) /\ metrics_pos x.2.

Lemma measured_all : Forall measured (zip (y_vms y0) (map (measure true (window 5 hz) y0 y) (y_vms y0))).
Proof.
  pose proof (window_pos 5 hz ltac:(lia) Hz) as Hw.
  assert (G : forall l, Forall (fun v => value_plain (name v) /\ unsigned v) l -> Forall measured (zip l (map (measure true (window 5 hz) y0 y) l))).
  { induction 1 as [|v l [Hn Hu] _ IH]; [constructor|]. cbn. constructor; [|exact IH]. split; [done|]. by apply measure_pos. }
  by apply G.
Qed.

Lemma vm_family_ok n h t value : family_name_ok n -> plain_text h -> plain_text t -> t <> "" ->
  (forall x, measured x -> numeral (value x)) ->
  family_ok (vm_family n h t value (zip (y_vms y0) (map (measure true (window 5 hz) y0 y) (y_vms y0)))).
Proof.
  intros Hn Hh Ht Hne Hv. split_and!; try done. cbn [fm_samples vm_family]. apply Forall_map.
  eapply Forall_impl; [|exact measured_all]. intros x Hx. apply sample_ok_intro; [|by apply Hv].
  constructor; [apply vm_label_ok, Hx|constructor].
Qed.

Lemma single_ok n h v : family_name_ok n -> plain_text h -> numeral v -> family_ok (single n h v).
Proof. intros Hn Hh Hv. split_and!; try done. constructor; [|constructor]. apply sample_ok_intro; [constructor|done]. Qed.

Lemma guest_ok : Forall family_ok (guest_families (y_vms y0)).
Proof.
  unfold guest_families. destruct (existsb _ _); [|constructor].
  assert (Hg : forall n h (g : guest_mem -> Z), family_name_ok n -> plain_text h -> (forall v, unsigned v -> 0 <= g (guest_memory v)) ->
    family_ok (mkFamily n h "gauge" (map (fun v => ([("vm", name v)], dec (g (guest_memory v)))) (filter (fun v => 0 < mem_total (guest_memory v)) (y_vms y0))))).
  { intros n h g Hn Hh Hp. split_and!; try done. apply Forall_map, list.Forall_forall. intros v [_ Hv]%list_elem_of_filter.
    pose proof (proj1 (list.Forall_forall _ _) vms_ok v Hv) as [Hpl Hu].
    apply sample_ok_intro; [constructor; [by apply vm_label_ok|constructor]|]. by apply numeral_dec, Hp. }
  repeat constructor; apply Hg; try done; intros v (? & ? & ? & ? & ? & ?); done.
Qed.

Lemma up_ok : Forall sample_ok (up_samples (y_vms y0) (discover_tenants (y_fleet y))).
Proof.
  apply list.Forall_forall. intros s [(t & Ht & ->)|(v & Hv & ->)]%up_cases.
  - pose proof (proj1 (list.Forall_forall _ _) tenants_ok t Ht) as ((? & ? & ?) & (? & ? & ?) & (? & ? & ?)).
    split; [|case_bool_decide; by split_and!]. cbn [fst snd]. do 3 (constructor; [by split_and!|]). constructor.
  - pose proof (proj1 (list.Forall_forall _ _) vms_ok v Hv) as ((? & ? & ?) & _).
    split; [|by split_and!]. cbn [fst snd]. do 3 (constructor; [by split_and!|]). constructor.
Qed.

Lemma per_vm_ok : Forall (fun '(n, h, t, value) => family_name_ok n /\ plain_text h /\ plain_text t /\ t <> ""
  /\ forall x, measured x -> numeral (value x)) per_vm.
Proof.
  assert (E : forall n h t (value : VmState * VmMetrics -> string),
    family_name_ok n /\ plain_text h /\ plain_text t /\ t <> "" -> (forall x, metrics_pos x.2 -> numeral (value x)) ->
    family_name_ok n /\ plain_text h /\ plain_text t /\ t <> "" /\ forall x, measured x -> numeral (value x)).
  { intros n h t value (? & ? & ? & ?) Hv. split_and!; try done. intros x [_ Hx]. by apply Hv. }
  unfold per_vm. do 13 (apply list.Forall_cons; split;
    [apply E; [by split_and!|]; intros [v m] (? & ? & ? & ? & ? & ? & ? & ? & ? & ? & ? & ?); cbn [fst snd] in *;
     first [by apply numeral_dec | by apply fixed_numeral | apply numeral_dec; unfold sat_add32; lia
           | apply fixed_numeral, div64_pos; by apply f64_pos]|]).
  constructor.
Qed.

Lemma total_pos g ms : 0 <= total g ms.
Proof. unfold total. apply u64_range. Qed.

Lemma families_ok : Forall family_ok (families hz y0 y).
Proof.
  unfold families. apply Forall_app. split; [|apply Forall_app; split; [apply guest_ok|]].
  - apply Forall_map. eapply Forall_impl; [|exact per_vm_ok]. intros [[[n h] t] value] (? & ? & ? & ? & ?). by apply vm_family_ok.
  - constructor; [split_and!; try done; apply up_ok|].
    constructor. { split_and!; try done. constructor; [|constructor]. split; [|by split_and!]. constructor; [by split_and!|constructor]. }
    do 4 (apply list.Forall_cons; split; [apply single_ok; [by split_and!|by split_and!|apply numeral_dec; first [lia|apply total_pos]]|]). constructor.
Qed.

Lemma family_names : exists guest, (guest = [] \/ guest = ["nkr_guest_mem_total_bytes"; "nkr_guest_mem_available_bytes"; "nkr_guest_mem_free_bytes"; "nkr_guest_mem_cached_bytes"])
  /\ map fm_name (families hz y0 y) = map (fun '(n, _, _, _) => n) per_vm ++ guest
     ++ ["nkr_up"; "nkr_build_info"; "nkr_vm_count"; "nkr_total_rss_mb"; "nkr_total_balloon_mb"; "nkr_total_dax_savings_mb"].
Proof.
  unfold families, guest_families. destruct (existsb _ _); eexists; [split; [by right|done]|split; [by left|done]].
Qed.

Lemma labels_distinct : NoDup (map name (y_vms y0)) -> Forall (fun f => NoDup (map fst (fm_samples f))) (families hz y0 y).
Proof.
  intros Hn. assert (Hinj : forall l : list string, NoDup l -> NoDup (map (fun n => [("vm", n)]) l)).
  { intros l Hl. apply (NoDup_fmap_2_strong (fun n => [("vm", n)])); [|done]. by intros a b _ _ [= ->]. }
  unfold families. apply Forall_app. split; [|apply Forall_app; split].
  - apply Forall_map, list.Forall_forall. intros [[[n h] t] value] _. cbn. rewrite map_map. cbn.
    assert (E : forall l (g : VmState -> VmMetrics), map (fun x : VmState * VmMetrics => [("vm", name x.1)]) (zip l (map g l)) = map (fun n => [("vm", n)]) (map name l))
      by (intros l g; induction l as [|v l IH]; cbn; [done|by rewrite IH]). rewrite E. by apply Hinj.
  - unfold guest_families. destruct (existsb _ _); [|constructor].
    assert (Hf : forall g : guest_mem -> Z, NoDup (map fst (map (fun v => ([("vm", name v)], dec (g (guest_memory v)))) (filter (fun v => 0 < mem_total (guest_memory v)) (y_vms y0))))).
    { intros g. rewrite map_map. cbn. rewrite <- (map_map name (fun n => [("vm", n)])). apply Hinj.
      apply (sublist_NoDup _ (map name (y_vms y0))); [done|]. apply fmap_sublist, sublist_filter. }
    repeat constructor; apply Hf.
  - constructor; [|repeat constructor; set_solver]. cbn [fm_samples].
    pose proof (up_distinct (y_vms y0) (discover_tenants (y_fleet y))) as Hu. 
    set (g := fun ls : list (string * string) => match ls with (_, v) :: _ => v | [] => "" end).
    assert (E : forall ss : list sample, map vm_of ss = map g (map fst ss)) by (intros ss; by rewrite map_map).
    rewrite E in Hu. by apply NoDup_fmap_1 in Hu.
Qed.

(** C27. Whoever reads the text with the rules of the exposition format gets the families with their
    samples, values and labels, when names of VMs, cells and tiers have no quote, backslash or
    line break; no name of a family appears twice, and no series when no two VMs that run have
    the same name. *)
Theorem scrape_read_back :
  read_exposition (render_prometheus_metrics hz y0 y) = Some (families hz y0 y)
  /\ NoDup (map fm_name (families hz y0 y))
  /\ (NoDup (map name (y_vms y0)) -> Forall (fun f => NoDup (map fst (fm_samples f))) (families hz y0 y)).
Proof.
  split; [apply read_render, families_ok|]. split; [|apply labels_distinct].
  destruct family_names as (guest & Hg & ->).
  destruct Hg as [->| ->]; apply (bool_decide_unpack _); vm_compute; exact I.
Qed.
End scrape.

(** Seconds of processor time are printed to the microsecond for the first 142 years. *)
Lemma cpu_seconds_exact m : 0 <= m_cgroup_cpu_usec m < 2 ^ 52 ->
  fixed 6 (div64 (f64 (m_cgroup_cpu_usec m)) (f64 1000000)) = decimals 6 (m_cgroup_cpu_usec m).
Proof. apply seconds_exact. Qed.

(** what is saved, resident, given back and the overhead add up to the RAM of the VM *)
Lemma dax_savings_spec vm rss : 0 <= rss -> 0 <= State.balloon_mb vm -> 0 <= ram_mb vm < 2 ^ 32 - 50 ->
  0 <= dax_savings vm rss <= ram_mb vm
  /\ (0 < dax_savings vm rss -> use_dax vm = true /\ dax_savings vm rss + rss + State.balloon_mb vm + 50 = ram_mb vm).
Proof.
  intros Hr Hb Hm. unfold dax_savings, sat_sub, sat_add32. destruct (use_dax vm); cbn [andb]; [|lia].
  destruct (rss <? ram_mb vm) eqn:E; lia.
Qed.

(** ** How old an answer can be

    Requests arrive and threads take turns in any order while the clock runs.  A thread and an
    answer keep the moment at which their request arrived. *)
Record answered := mkAnswered { an_name : string; an_arrived : Z; an_at : Z; an_value : option Value }.
Record daemon := mkDaemon { d_now : Z; d_threads : list (Z * thread); d_caches : caches; d_log : list answered }.

Definition thread_name (th : thread) : string :=
  match th with Start n | Disks n _ _ _ _ | Du n _ _ _ _ _ _ | Store n _ => n end.

Section freshness.
Context `{Listing} (show : float -> string) (world : Z -> sys).

Inductive dstep : daemon -> daemon -> Prop :=
  | arrive n now ths c log t : t <= now -> dstep (mkDaemon t ths c log) (mkDaemon now (ths ++ [(now, Start n)]) c log)
  | go_on i t0 th th' now ths c c' log t : t <= now -> ths !! i = Some (t0, th) -> turn show world now th c = (inl th', c') ->
      dstep (mkDaemon t ths c log) (mkDaemon now (<[i := (t0, th')]> ths) c' log)
  | answers i t0 th a now ths c c' log t : t <= now -> ths !! i = Some (t0, th) -> turn show world now th c = (inr a, c') ->
      dstep (mkDaemon t ths c log) (mkDaemon now (delete i ths) c' (log ++ [mkAnswered (thread_name th) t0 now a])).

(** a figure of du from [b - DU_TTL] to [e] *)
Definition figure (b e : Z) (d : string * string) (f : string * Z * Z) : Prop :=
  exists t, b - DU_TTL < t <= e /\ f = (d.1, du_value (world t) d.2, 0).
Definition vm_of_name (t : Z) (n : string) : option VmState := find (fun v => bool_decide (name v = n)) (y_vms (world t)).
Definition tenant_of_name (t : Z) (n : string) : option (string * string * string) :=
  find (fun x => bool_decide (x.1.1 = n)) (discover_tenants (y_fleet (world t))).
(** a snapshot of what there was at [b], finished by [e] *)
Definition made (b e : Z) (n : string) (v : Value) : Prop :=
  (exists vm found e', vm_of_name b n = Some vm /\ b <= e' <= e /\ Forall2 (figure b e) (disk_dirs (world b) (name vm)) found
     /\ v = vm_json show (world b) (world e') vm (found ++ disk_files (world e') vm))
  \/ (vm_of_name b n = None /\ exists entry, tenant_of_name b n = Some entry /\ b <= e /\ v = stopped_json (world b) entry).

Definition thread_ok (now : Z) (x : Z * thread) : Prop :=
  x.1 <= now /\
  match x.2 with
  | Start _ => True
  | Disks n b vm todo found => vm_of_name b n = Some vm /\ x.1 <= b <= now
      /\ exists done_, disk_dirs (world b) (name vm) = done_ ++ todo /\ Forall2 (figure b now) done_ found
  | Du n b vm label path todo found => vm_of_name b n = Some vm /\ x.1 <= b <= now
      /\ exists done_, disk_dirs (world b) (name vm) = done_ ++ (label, path) :: todo /\ Forall2 (figure b now) done_ found
  | Store n json => exists b e, made b e n json /\ x.1 <= b /\ b <= e <= now
  end.
(** a cached snapshot is the answer that was given when it was stored *)
Definition caches_ok (log : list answered) (now : Z) (c : caches) : Prop :=
  (forall path t v, c_du c !! path = Some (t, v) -> t <= now /\ v = du_value (world t) path)
  /\ (forall n t v, c_snap c !! n = Some (t, v) -> t <= now /\ get "stale" v = Some (JBool false) /\ (exists m, v = JObject m)
       /\ exists t0, mkAnswered n t0 t (Some v) ∈ log).
(** The answer to a request: there is no such VM when it is given; or a snapshot that was begun after
    the request arrived; or another request's new snapshot, given less than two seconds ago. *)
Definition answer_ok (log : list answered) (x : answered) : Prop :=
  let n := an_name x in let now := an_at x in
  match an_value x with
  | None => vm_of_name now n = None /\ tenant_of_name now n = None
  | Some v =>
      (get "stale" v = Some (JBool false) /\ exists b e, made b e n v /\ an_arrived x <= b /\ b <= e <= now)
      \/ (get "stale" v = Some (JBool true) /\ exists m t t0, v = JObject (insert_member "stale" (JBool true) m)
           /\ get "stale" (JObject m) = Some (JBool false) /\ mkAnswered n t0 t (Some (JObject m)) ∈ log /\ now - VM_METRICS_TTL < t <= now)
  end.

Lemma figure_later b e e' d f : e <= e' -> figure b e d f -> figure b e' d f.
Proof. intros He (t & Ht & ->). exists t. split; [lia|done]. Qed.
Lemma thread_later now now' x : now <= now' -> thread_ok now x -> thread_ok now' x.
Proof.
  intros Hn [Hx Ht]. split; [lia|]. destruct x as [t0 th]. cbn [fst snd] in *. destruct th; [done| | |naive_solver lia].
  all: destruct Ht as (Hv & Hb & d & Hd & Hf); split; [done|]; split; [lia|]; exists d; split; [done|];
    (eapply list.Forall2_impl; [exact Hf|]); intros; by eapply figure_later.
Qed.
Lemma caches_later log log' now now' c : now <= now' -> log ⊆ log' -> caches_ok log now c -> caches_ok log' now' c.
Proof.
  intros Hn Hl [Hd Hs]. split; intros k t v Hk.
  - destruct (Hd k t v Hk). split; done || lia.
  - destruct (Hs k t v Hk) as (? & ? & ? & t0 & ?). split_and!; [lia|done|done|]. exists t0. by apply Hl.
Qed.
Lemma answer_later log log' x : log ⊆ log' -> answer_ok log x -> answer_ok log' x.
Proof.
  intros Hl. unfold answer_ok. destruct (an_value x); [|done]. intros [?|(? & m & t & t0 & ? & ? & ? & ?)]; [by left|right].
  split; [done|]. exists m, t, t0. split_and!; auto; lia.
Qed.

Lemma cached_some {A} ttl now k (c : cache A) v : cached ttl now k c = Some v -> exists t, c !! k = Some (t, v) /\ sat_sub now t < ttl.
Proof.
  unfold cached. destruct (c !! k) as [[t w]|]; [|done]. cbn. destruct (sat_sub now t <? ttl) eqn:E; [|done].
  intros [= ->]. exists t. split; [done|lia].
Qed.

Lemma made_fresh b e n v : made b e n v -> get "stale" v = Some (JBool false) /\ exists m, v = JObject m.
Proof.
  intros [(vm & found & e' & _ & _ & _ & ->)|(_ & entry & _ & _ & ->)]; [|by split; [|eexists]]. unfold vm_json.
  destruct (read_tap_stats _ _), (read_io_bytes _ _), (read_cgroup_stats _ _) as [[? ?] ?], (cell_tier_for _ _ _). by split; [|eexists].
Qed.

Lemma turn_ok log now t0 th c r c' : thread_ok now (t0, th) -> caches_ok log now c -> turn show world now th c = (r, c') ->
  match r with
  | inl th' => caches_ok log now c' /\ thread_ok now (t0, th') /\ thread_name th' = thread_name th
  | inr a => let x := mkAnswered (thread_name th) t0 now a in caches_ok (log ++ [x]) now c' /\ answer_ok log x
  end.
Proof.
  intros [Ht0 Ht] Hc Hturn. pose proof Hc as [Hd Hs]. cbn [fst snd] in *.
  assert (Hmore : forall x, caches_ok (log ++ [x]) now c) by (intros x; eapply caches_later; [|apply list_subseteq_app_l; reflexivity|exact Hc]; lia).
  destruct th as [n|n b vm [|[label path] todo] found|n b vm label path todo found|n json]; cbn in Hturn.
  - destruct (cached VM_METRICS_TTL now n (c_snap c)) as [v|] eqn:Ec.
    + simplify_eq. split; [apply Hmore|]. apply cached_some in Ec as (t & Hk & Hlt). destruct (Hs n t v Hk) as (Htn & Hst & [m ->] & t1 & Hin).
      right. split; [apply get_insert_eq|]. exists m, t, t1. cbn. unfold sat_sub in Hlt. split_and!; done || lia.
    + fold (vm_of_name now n) in Hturn. destruct (vm_of_name now n) as [vm|] eqn:Ev.
      * simplify_eq. split; [done|]. split; [|done]. split; [done|]. split; [done|]. split; [cbn; lia|]. by exists [].
      * fold (tenant_of_name now n) in Hturn. destruct (tenant_of_name now n) as [x|] eqn:Et; simplify_eq; [|by split; [apply Hmore|]].
        split; [done|]. split; [|done]. split; [done|]. exists now, now. split; [|cbn; lia]. right. split; [done|]. exists x. split_and!; done || lia.
  - destruct Ht as (Hv & Hb & d & Hdirs & Hf). simplify_eq. split; [done|]. split; [|done]. split; [done|]. exists b, now. split; [|cbn; lia]. left.
    exists vm, found, now. rewrite app_nil_r in Hdirs. rewrite Hdirs. split_and!; done || lia.
  - destruct Ht as (Hv & Hb & d & Hdirs & Hf). destruct (cached DU_TTL now path (c_du c)) as [v|] eqn:Ec; simplify_eq; (split; [done|]); (split; [|done]); (split; [done|]).
    + split; [done|]. split; [done|]. exists (d ++ [(label, path)]). split; [by rewrite <- app_assoc|]. apply Forall2_app; [done|].
      constructor; [|constructor]. apply cached_some in Ec as (t & Hk & Hlt). destruct (Hd path t v Hk) as [Htn ->]. exists t.
      unfold sat_sub in Hlt. cbn in Hb. split; [lia|done].
    + split; [done|]. split; [done|]. by exists d.
  - destruct Ht as (Hv & Hb & d & Hdirs & Hf). simplify_eq. split.
    + split; [|done]. cbn. intros p t v. destruct (decide (p = path)) as [->|Hne].
      * rewrite lookup_insert_eq. intros [= <- <-]. split; [lia|done].
      * rewrite lookup_insert_ne by done. apply Hd.
    + split; [|done]. split; [done|]. split; [done|]. split; [done|]. exists (d ++ [(label, path)]). split; [by rewrite <- app_assoc|].
      apply Forall2_app; [done|]. constructor; [|constructor]. exists now. unfold DU_TTL. cbn in Hb. split; [lia|done].
  - destruct Ht as (b & e & Hm & Hb & Hbe). simplify_eq. destruct (made_fresh _ _ _ _ Hm) as [Hst Hobj]. split.
    + destruct (Hmore (mkAnswered n t0 now (Some json))) as [_ Hs']. split; [exact Hd|]. intros k t v. cbn. destruct (decide (k = n)) as [->|Hne].
      * rewrite lookup_insert_eq. intros [= <- <-]. split_and!; [lia|done|done|]. exists t0. apply elem_of_app. right. by left.
      * rewrite lookup_insert_ne by done. apply Hs'.
    + left. split; [done|]. by exists b, e.
Qed.

Definition daemon_ok (d : daemon) : Prop :=
  Forall (thread_ok (d_now d)) (d_threads d) /\ caches_ok (d_log d) (d_now d) (d_caches d) /\ Forall (answer_ok (d_log d)) (d_log d).

Lemma dstep_ok d d' : daemon_ok d -> dstep d d' -> daemon_ok d'.
Proof.
  intros (Ht & Hc & Hl) Hstep. destruct Hstep as [n now ths c log t Hn|i t0 th th' now ths c c' log t Hn Hi Hturn|i t0 th a now ths c c' log t Hn Hi Hturn];
    cbn [d_now d_threads d_caches d_log] in *; pose proof (caches_later _ _ _ _ _ Hn (reflexivity log) Hc) as Hc2;
    (assert (Ht2 : Forall (thread_ok now) ths) by (eapply Forall_impl; [|exact Ht]; intros; by eapply thread_later)).
  - split_and!; try done. cbn [d_threads d_now]. apply list.Forall_app. split; [done|]. constructor; [|constructor]. split; cbn; [lia|done].
  - pose proof (turn_ok log now t0 th c (inl th') c' (Forall_lookup_1 _ _ _ _ Ht2 Hi) Hc2 Hturn) as (Hc' & Hth' & _).
    split_and!; try done. by apply Forall_insert.
  - pose proof (turn_ok log now t0 th c (inr a) c' (Forall_lookup_1 _ _ _ _ Ht2 Hi) Hc2 Hturn) as (Hc' & Ha).
    split_and!; [by apply Forall_delete|done|]. cbn [d_log].
    assert (Hsub : log ⊆ log ++ [mkAnswered (thread_name th) t0 now a]) by (apply list_subseteq_app_l; reflexivity).
    apply list.Forall_app. split; [|constructor; [by eapply answer_later|constructor]].
    eapply Forall_impl; [|exact Hl]. intros x. by apply answer_later.
Qed.

(** C26. Whatever requests arrive and however their threads interleave, as long as the clock does not go
    back: an answer marked as not stale shows the VM as it was at a moment after the request
    arrived, its disks as they were at most five minutes before that moment; a stale one is, but
    for the mark, an answer not marked that was given for the same VM less than two seconds ago;
    and a VM is unknown only if it neither runs nor is a known tenant at that moment. *)
Theorem snapshots_fresh t0 d x : rtc dstep (mkDaemon t0 [] (mkCaches ∅ ∅) []) d -> x ∈ d_log d -> answer_ok (d_log d) x.
Proof.
  intros Hsteps Hin. assert (Hok : daemon_ok d).
  { eapply (rtc_ind_r daemon_ok); [|by intros; eapply dstep_ok|exact Hsteps]. split_and!; [constructor| |constructor]. by split. }
  destruct Hok as (_ & _ & Hl). by apply (proj1 (list.Forall_forall _ _) Hl _ Hin).
Qed.

(** ** Every request is answered *)
Definition turns_left (y : sys) (th : thread) : nat :=
  match th with
  | Start n => 12
  | Disks _ _ _ todo _ => 2 * length todo + 2
  | Du _ _ _ _ _ todo _ => 2 * length todo + 3
  | Store _ _ => 1
  end.
Lemma dirs_short y n : (length (disk_dirs y n) <= 4)%nat.
Proof. unfold disk_dirs. destruct (find_instance_dir y n); [|cbn; lia]. etransitivity; [apply length_filter|]. done. Qed.

Lemma turn_advances now th c : match turn show world now th c with
  | (inl th', _) => (turns_left (world now) th' < turns_left (world now) th)%nat | (inr _, _) => True end.
Proof.
  destruct th as [n|n b vm [|[label path] todo] found|n b vm label path todo found|n json]; cbn -[Nat.mul]; [|lia| |lia|done].
  - destruct (cached _ _ _ _); [done|]. destruct (find _ (y_vms _)) as [vm|]; cbn -[Nat.mul]; [pose proof (dirs_short (world now) (name vm)); lia|].
    destruct (find _ _); cbn; [lia|done].
  - destruct (cached _ _ _ _); cbn -[Nat.mul]; lia.
Qed.

Lemma turns_end ts th c y : (turns_left y th <= length ts)%nat -> is_Some (fst (turns show world ts th c)).
Proof.
  revert th c. induction ts as [|now ts IH]; intros th c Hl; [destruct th; cbn in Hl; lia|]. cbn [turns].
  pose proof (turn_advances now th c) as Ha. destruct (turn show world now th c) as [[th'|a] c']; [|by eexists].
  apply IH. assert (E : forall th, turns_left y th = turns_left (world now) th) by (by intros []). rewrite E in *. cbn in Hl. lia.
Qed.

Lemma snapshot_answers ts n c : (12 <= length ts)%nat -> is_Some (fst (vm_metrics_json show world ts n c)).
Proof. intros Hl. by apply (turns_end ts (Start n) c (world 0)). Qed.
End freshness.

Module MetricsExample.
Definition vm (n : string) (id : Z) : VmState :=
  mkVmState id "" n (100 + id) 512 100 ["/mnt/nkr/images/m.ext4"; "/mnt/nkr/d/acme.ext4"] "10.0.1.3" [] ("tap" +:+ dec id) 1000 true true 32 1 (mkGuestMem 536870912 1 2 3).
Definition proc_files (ticks : Z) (p : string) : option string :=
  if bool_decide (p = "/proc/103/stat") then Some ("103 (nkr) S 1 1 1 0 -1 0 0 0 0 0 " +:+ dec ticks +:+ " 7 0 0 20")
  else if bool_decide (p = "/proc/103/status") then Some (unlines ["State:	S (sleeping)"; "VmRSS:   204800 kB"])
  else if bool_decide (p = "/proc/103/io") then Some (unlines ["rchar: 9"; "read_bytes: 4096"; "write_bytes: 8192"])
  else if bool_decide (p = "/proc/net/dev") then Some (unlines ["Inter-|   Receive"; " tap3: 11 2 3 4 5 6 7 8 99 1"])
  else if bool_decide (p = "/sys/fs/cgroup/nkr/acme-prod/cpu.stat") then Some (unlines ["usage_usec 12345678"; "user_usec 1"; "throttled_usec 250"])
  else if bool_decide (p = "/sys/fs/cgroup/nkr/acme-prod/memory.current") then Some "1048576"
  else None.
Definition meta (tier : string) : option (option Value) := Some (Some (JObject [("tier", JString tier)])).
Definition fleet_of (tier : string) : fleet :=
  mkFleet {["c18" := Some (mkYml "c18" 1 None)]} {["c18" := {["acme-prod" := meta tier; "beta-dev" := None]}]}.
Definition inst : string := "/mnt/nkr/cells/c18/instances/acme-prod".
Definition y_at (tier : string) (t : Z) : sys :=
  mkSys (proc_files (50 + t / 10 ^ 9)) (fun p => Some (dec (4096 + t / 10 ^ 9) +:+ "	" +:+ p))
    (fun p => if bool_decide (p = "/mnt/nkr/d/acme.ext4") then Some (16, 65536) else None)
    (fun p => bool_decide (p = inst) || bool_decide (p = inst +:+ "/logs")) (Some ["c18"]) [vm "acme-prod" 3] (fleet_of tier) (5000 + t / 10 ^ 9).
Definition y0 := y_at "production" 0.
Definition y1 := y_at "production" (10 ^ 9).
#[local] Existing Instance listed.

Example some_lines : filter (fun l => contains "acme-prod" l = true) (lines (render_prometheus_metrics 100 y0 y1)) =
  map (fun '(n, v) => n +:+ "{vm=" +:+ quote "acme-prod" +:+ "} " +:+ v)
    [("nkr_cpu_pct", "20.00"); ("nkr_rss_mb", "200"); ("nkr_ram_allocated_mb", "512"); ("nkr_balloon_mb", "32");
     ("nkr_dax_savings_mb", "230"); ("nkr_total_savings_mb", "262"); ("nkr_io_read_bytes", "4096"); ("nkr_io_write_bytes", "8192");
     ("nkr_net_rx_bytes", "11"); ("nkr_net_tx_bytes", "99"); ("nkr_cpu_seconds_total", "12.345678"); ("nkr_cpu_throttled_seconds_total", "0.000250");
     ("nkr_cgroup_memory_bytes", "1048576"); ("nkr_guest_mem_total_bytes", "536870912"); ("nkr_guest_mem_available_bytes", "2");
     ("nkr_guest_mem_free_bytes", "1"); ("nkr_guest_mem_cached_bytes", "3")]
  ++ ["nkr_up{vm=" +:+ quote "acme-prod" +:+ ",cell=" +:+ quote "c18" +:+ ",tier=" +:+ quote "production" +:+ "} 1"].
Proof. vm_compute. reflexivity. Qed.

(** the tier of a meta.json is not escaped: with a quote in it the text cannot be read *)
Example tier_breaks_scrape : read_exposition (render_prometheus_metrics 100 y0 (y_at (String DQ "") 0)) = None.
Proof. vm_compute. reflexivity. Qed.

Example rows : print_stats_table (Some {["c18" := 1]}) 100 y0 y1 =
  (Some [["c18"; "3"; "acme-prod"; "5.0%  "; "200MB"; "512MB"; "-32MB"; "-230MB"; "11B/99B"; "4.0K/8.0K"]], (200, 512, 32, 230)).
Proof. vm_compute. reflexivity. Qed.
Example printed_sizes : map fmt_bytes [1023; 1048575; 1572864; 2 ^ 31] = ["1023B"; "1024.0K"; "1.5M"; "2.00G"].
Proof. vm_compute. reflexivity. Qed.
Example clock : now_hms 86399 = "23:59:59 UTC".
Proof. vm_compute. reflexivity. Qed.

Lemma scrape_read_back_witness : read_exposition (render_prometheus_metrics 100 y0 y1) = Some (families 100 y0 y1).
Proof.
  apply (scrape_read_back 100 y0 y1); [lia| |].
  - constructor; [|constructor]. split; [by vm_compute|]. unfold unsigned. cbn. lia.
  - apply (bool_decide_unpack _). vm_compute. exact I.
Defined.

(** two requests, the second of which finds the snapshot of the first *)
Definition world (t : Z) : sys := y_at "production" t.
Definition show (f : float) : string := fixed 6 f.
Inductive event := Arrive (n : string) | Turn (i : nat).
Definition play (d : daemon) (e : Z * event) : option daemon :=
  let '(now, ev) := e in
  if d_now d <=? now then
    match ev with
    | Arrive n => Some (mkDaemon now (d_threads d ++ [(now, Start n)]) (d_caches d) (d_log d))
    | Turn i =>
        '(t0, th) ← d_threads d !! i;
        match turn show world now th (d_caches d) with
        | (inl th', c) => Some (mkDaemon now (<[i := (t0, th')]> (d_threads d)) c (d_log d))
        | (inr a, c) => Some (mkDaemon now (delete i (d_threads d)) c (d_log d ++ [mkAnswered (thread_name th) t0 now a]))
        end
    end
  else None.
Fixpoint plays (es : list (Z * event)) (d : daemon) : option daemon :=
  match es with [] => Some d | e :: es => d ← play d e; plays es d end.

Lemma play_step d e d' : play d e = Some d' -> dstep show world d d'.
Proof.
  destruct d as [t ths c log], e as [now [n|i]]; cbn; destruct (t <=? now) eqn:Et; try done; apply Z.leb_le in Et.
  - intros [= <-]. by constructor.
  - destruct (ths !! i) as [[t0 th]|] eqn:Ei; [|done]. cbn. destruct (turn show world now th c) as [[th'|a] c'] eqn:E; intros [= <-]; by econstructor.
Qed.
Lemma plays_steps es d d' : plays es d = Some d' -> rtc (dstep show world) d d'.
Proof.
  revert d. induction es as [|e es IH]; intros d; cbn; [intros [= <-]; done|].
  destruct (play d e) as [d1|] eqn:E; [|done]. intros H. eapply rtc_l; [by eapply play_step|by apply IH].
Qed.

Definition s (z : Z) : Z := z * 10 ^ 9.
Definition start : daemon := mkDaemon 0 [] (mkCaches ∅ ∅) [].
Definition script : list (Z * event) :=
  [(s 10, Arrive "acme-prod"); (s 10, Turn 0); (s 10, Turn 0); (s 12, Turn 0); (s 12, Turn 0); (s 13, Turn 0);
   (s 14, Arrive "acme-prod"); (s 14, Turn 0); (s 14, Arrive "nobody"); (s 14, Turn 0)].
Definition last : daemon := default start (plays script start).
Definition second : Value := match d_log last with _ :: x :: _ => default JNull (an_value x) | _ => JNull end.

Example log : map (fun '(mkAnswered n t0 t a) => (n, t0, t, a ≫= get "stale", a ≫= get "as_of", a ≫= get "disk")) (d_log last) =
  let disk := JArray [JObject [("mount", JString "logs"); ("used_bytes", JInt 4108); ("total_bytes", JInt 0)];
                      JObject [("mount", JString "disk:acme"); ("used_bytes", JInt 8192); ("total_bytes", JInt 65536)]] in
  [("acme-prod", s 10, s 13, Some (JBool false), Some (JInt 5010), Some disk);
   ("acme-prod", s 14, s 14, Some (JBool true), Some (JInt 5010), Some disk); ("nobody", s 14, s 14, None, None, None)].
Proof. vm_compute. reflexivity. Qed.

Definition answer2 : answered := mkAnswered "acme-prod" (s 14) (s 14) (Some second).
Lemma snapshots_fresh_witness : get "stale" second = Some (JBool true) /\ answer_ok show world (d_log last) answer2.
Proof.
  assert (E : plays script start = Some last) by (vm_compute; reflexivity).
  assert (Hin : answer2 ∈ d_log last) by (vm_compute; right; left).
  assert (Hs : get "stale" second = Some (JBool true)) by (vm_compute; reflexivity).
  split; [exact Hs|]. exact (snapshots_fresh show world 0 last answer2 (plays_steps _ _ _ E) Hin).
Defined.
End MetricsExample.
