(* ===== verification/Odoo.v ===== *)
(** * Requests of the daemon to the Odoo of an instance (src/api.rs)

    Two handlers talk to the guest over HTTP: one installs, upgrades or removes modules with
    JSON-RPC, the other creates the database with a form.  Here are the client, the texts it
    writes and reads, the handlers, and the background job of the second with its status file.

    What Odoo answers is an argument; texts are taken to be valid UTF-8 after [lossy]. *)
From S2P Require Import Prelude Text Http Json Server Conf Watchdog Registry State Resources Blocks Cells Instances Tenants Info.

(** ** The HTTP client *)
Definition post_text (host : string) (port : Z) (path ctype body cookie_hdr : string) : string :=
  "POST " +:+ path +:+ " HTTP/1.1" +:+ crlf +:+ "Host: " +:+ host +:+ ":" +:+ dec port +:+ crlf
  +:+ "User-Agent: nkr-daemon/1.5" +:+ crlf +:+ "Content-Type: " +:+ ctype +:+ crlf
  +:+ "Content-Length: " +:+ dec (Z.of_nat (String.length body)) +:+ crlf +:+ cookie_hdr
  +:+ "Connection: close" +:+ crlf +:+ crlf +:+ body.
Definition json_request (host : string) (port : Z) (path body : string) (cookie_in : option string) : string :=
  post_text host port path "application/json" body (match cookie_in with Some c => "Cookie: " +:+ c +:+ crlf | None => "" end).
Definition form_request (host : string) (port : Z) (path body : string) : string :=
  post_text host port path "application/x-www-form-urlencoded" body "".

(** until the peer closes, a read fails or more than [cap] bytes are there *)
Fixpoint read_capped (cap : Z) (s : stream) (resp : list Z) : list Z :=
  match s with
  | Some (b :: bs) :: s =>
      let resp := resp ++ b :: bs in if cap <? Z.of_nat (length resp) then resp else read_capped cap s resp
  | _ => resp
  end.
Definition JSON_CAP : Z := 4 * 1024 * 1024.
Definition FORM_CAP : Z := 256 * 1024.

Definition status_of (text : string) : Z := default 0 (split_whitespace text !! 1%nat ≫= parse_uint 65535).
Definition cookie_line (line : string) : option string :=
  match (match strip_prefix "Set-Cookie: " line with Some r => Some r | None => strip_prefix "set-cookie: " line end) with
  | Some rest => let pair := trim (List.hd "" (split_on ";" rest)) in if bool_decide (pair = "") then None else Some pair
  | None => None
  end.
Definition first_cookie (headers : string) : option string := head (omap cookie_line (lines headers)).
(** where the empty line is, in bytes *)
Definition header_end (text : string) : option nat := find_double_crlf (bytes_of_string text).
Definition text_from (n : nat) (text : string) : string := string_of_bytes (drop n (bytes_of_string text)).
Definition text_to (n : nat) (text : string) : string := string_of_bytes (take n (bytes_of_string text)).

Definition read_json_reply (text : string) : Z * option string * string :=
  let len := String.length text in
  let e := default len (header_end text) in
  (status_of text, first_cookie (text_to e text), if (e + 4 <=? len)%nat then text_from (e + 4) text else "").
Definition read_form_reply (text : string) : Z * string :=
  (status_of text, match header_end text with Some p => text_from (p + 4) text | None => "" end).

(** [connected]: an error of the connection or of the write, or what is read then *)
Definition http_post_json (lossy : list Z -> string) (connected : string + stream) : string + (Z * option string * string) :=
  match connected with inl e => inl e | inr s => inr (read_json_reply (lossy (read_capped JSON_CAP s []))) end.
Definition http_post_form (lossy : list Z -> string) (connected : string + stream) : string + (Z * string) :=
  match connected with inl e => inl e | inr s => inr (read_form_reply (lossy (read_capped FORM_CAP s []))) end.

(** ** Forms and URLs *)
Definition unreserved (c : ascii) : bool := is_alnum c || is_one_of "-_.~" c.
Definition upper_hex (d : Z) : ascii := ascii_of_N (Z.to_N (if d <? 10 then 48 + d else 55 + d)).
(** [%{:02X}] *)
Definition pct_byte (c : ascii) : string :=
  let b := Z.of_N (N_of_ascii c) in String "%" (String (upper_hex (b / 16)) (String (upper_hex (b mod 16)) "")).
Fixpoint pct (s : string) : string :=
  match s with
  | "" => ""
  | String c s => (if unreserved c then String c "" else pct_byte c) +:+ pct s
  end.
Definition url_encode (s : string) : string := pct s.
Fixpoint build_form (pairs : list (string * string)) : string :=
  match pairs with
  | [] => ""
  | [(k, v)] => pct k +:+ "=" +:+ pct v
  | (k, v) :: pairs => pct k +:+ "=" +:+ pct v +:+ "&" +:+ build_form pairs
  end.

(** ** Secrets in answers *)
Definition MASK : string := "***REDACTED***".
Fixpoint scrub_value (secret : string) (v : Value) : Value :=
  match v with
  | JString s => if contains secret s then JString (replace secret MASK s) else v
  | JArray l => JArray (map (scrub_value secret) l)
  | JObject m => JObject (map (fun '(k, x) => (k, scrub_value secret x)) m)
  | _ => v
  end.
Definition scrub_secret (v : Value) (secret : string) : Value :=
  if (String.length secret <? 4)%nat then v else scrub_value secret v.

(** ** Modules *)
Definition method_of (op : string) : option string :=
  if bool_decide (op = "install") then Some "button_immediate_install"
  else if bool_decide (op = "upgrade") then Some "button_immediate_upgrade"
  else if bool_decide (op = "uninstall") then Some "button_immediate_uninstall"
  else None.
Definition module_name_ok (m : string) : bool :=
  negb (bool_decide (m = "")) && (String.length m <=? 64)%nat && all_chars (fun b => is_alnum b || Ascii.eqb b "_") m.
Definition line_safe (s : string) : bool := all_chars (fun b => negb (Ascii.eqb b LF || Ascii.eqb b CR || Ascii.eqb b nul)) s.
Definition admin_login_ok (s : string) : bool := negb (bool_decide (s = "")) && (String.length s <=? 128)%nat && line_safe s.
Definition admin_password_ok (s : string) : bool := (4 <=? String.length s)%nat && (String.length s <=? 512)%nat && line_safe s.

Definition as_i64 (v : Value) : option Z :=
  match v with JInt z => if (- 2 ^ 63 <=? z) && (z <? 2 ^ 63) then Some z else None | _ => None end.

(** a call to port 8069 of the guest *)
Record call := mkCall { k_host : string; k_path : string; k_body : Value; k_cookie : option string; k_timeout : Z }.
Notation reply := (string + (Z * option string * string))%type.

Definition rpc (args : list Value) : Value :=
  JObject [("jsonrpc", JString "2.0"); ("method", JString "call");
           ("params", JObject [("service", JString "object"); ("method", JString "execute_kw"); ("args", JArray args)])].
Definition auth_call (info : InstanceInfo) (login password : string) : call :=
  mkCall (ii_guest_ip info) "/web/session/authenticate"
    (JObject [("jsonrpc", JString "2.0");
              ("params", JObject [("db", JString (ii_db_name info)); ("login", JString login); ("password", JString password)])])
    None 30.
Definition search_call (info : InstanceInfo) (uid : Z) (password cookie : string) (modules : list string) : call :=
  mkCall (ii_guest_ip info) "/jsonrpc"
    (rpc [JString (ii_db_name info); JInt uid; JString password; JString "ir.module.module"; JString "search_read";
          JArray [JArray [JArray [JString "name"; JString "in"; JArray (map JString modules)]]];
          JObject [("fields", JArray [JString "id"; JString "name"; JString "state"])]])
    (Some cookie) 30.
Definition action_call (info : InstanceInfo) (uid : Z) (password cookie method : string) (ids : list Z) : call :=
  mkCall (ii_guest_ip info) "/jsonrpc"
    (rpc [JString (ii_db_name info); JInt uid; JString password; JString "ir.module.module"; JString method;
          JArray [JArray (map JInt ids)]; JObject []])
    (Some cookie) 600.

Definition module_row (m : Value) : Z * string * string :=
  (default 0 (get "id" m ≫= as_i64), default "" (get_str "name" m), default "" (get_str "state" m)).
Definition module_map (found : list Value) : gmap string (Z * string) :=
  fold_left (fun mm m =>
    let '(id, n, state) := module_row m in
    if (0 <? id) && negb (bool_decide (n = "")) then <[n := (id, state)]> mm else mm) found ∅.

Section modules.
Context `{Serde} `{Listing} `{State.ReadDir} {D : Type}.

(** the checks of the request *)
Definition check_request (nkr_name op : string) (modules : list string) (login password : string) : answer + string :=
  if negb (is_safe_identifier nkr_name) then inl (error 400 "invalid_nkr_name")
  else match method_of op with
  | None => inl (error 400 "invalid_op")
  | Some odoo_method =>
      if bool_decide (modules = []) then inl (error 400 "missing_modules")
      else if (64 <? length modules)%nat then inl (error 400 "too_many_modules")
      else if negb (forallb module_name_ok modules) then inl (error 400 "invalid_module_name")
      else if negb (admin_login_ok login) then inl (error 400 "invalid_admin_login")
      else if negb (admin_password_ok password) then inl (error 400 "invalid_admin_password")
      else inr odoo_method
  end.

Definition uid_of (body : string) : option Z :=
  v ← parse_json body; r ← get "result" v; u ← get "uid" r; z ← as_i64 u; if 0 <? z then Some z else None.

(** the answer, and the calls that were made *)
Definition run_action (odoo : call -> reply) (elapsed_ms : Z) (info : InstanceInfo) (op odoo_method : string)
    (modules : list string) (login password nkr_name : string) : answer * list call :=
  let auth := auth_call info login password in
  match odoo auth with
  | inl _ => (error 502 "odoo_auth_failed", [auth])
  | inr (code, cookie, body) =>
      if negb (code =? 200) then (error 502 "odoo_auth_http_error", [auth])
      else match uid_of body with
      | None => (error 401 "odoo_auth_rejected", [auth])
      | Some uid =>
      match cookie with
      | None => (error 502 "odoo_no_session_cookie", [auth])
      | Some cookie =>
      let search := search_call info uid password cookie modules in
      match odoo search with
      | inl _ => (error 502 "odoo_search_failed", [auth; search])
      | inr (code, _, body) =>
          if negb (code =? 200) then (error 502 "odoo_search_http_error", [auth; search])
          else match parse_json body with
          | None => (error 502 "odoo_search_parse_error", [auth; search])
          | Some v =>
          match get "error" v with
          | Some err => (Answer 502 [("error", JString "odoo_search_rpc_error"); ("detail", scrub_secret err password)], [auth; search])
          | None =>
          let mm := module_map (default [] (get "result" v ≫= as_array)) in
          let missing := filter (fun m => mm !! m = None) modules in
          if negb (bool_decide (missing = []))
          then (Answer 404 [("error", JString "modules_not_found"); ("missing", JArray (map JString missing))], [auth; search])
          else
          let act := action_call info uid password cookie odoo_method (omap (fun m => fst <$> mm !! m) modules) in
          match odoo act with
          | inl _ => (error 502 "odoo_action_failed", [auth; search; act])
          | inr (code, _, body) =>
              if negb (code =? 200) then (error 502 "odoo_action_http_error", [auth; search; act])
              else match parse_json body with
              | None => (error 502 "odoo_action_parse_error", [auth; search; act])
              | Some v =>
              match get "error" v with
              | Some err =>
                  (Answer 500 [("error", JString ("odoo_" +:+ op +:+ "_failed")); ("elapsed_ms", JInt elapsed_ms);
                               ("detail", scrub_secret err password); ("modules", JArray (map JString modules))], [auth; search; act])
              | None =>
                  (Answer 200 [("nkr_name", JString nkr_name); ("op", JString op); ("modules", JArray (map JString modules));
                               ("elapsed_ms", JInt elapsed_ms); ("status", JString "ok")], [auth; search; act])
              end end end end end end end end end.

Definition handle_modules_action (p : probes) (odoo : call -> reply) (elapsed_ms : Z)
    (nkr_name op : string) (modules : list string) (login password : string) (w : world D) : answer * list call * world D :=
  match check_request nkr_name op modules login password with
  | inl a => (a, [], w)
  | inr odoo_method =>
      match get_instance_info p nkr_name w with
      | (inl _, w) => (error 404 "instance_not_found", [], w)
      | (inr info, w) =>
          if negb (ns_running (ii_status info)) || negb (ns_port_8069_up (ii_status info))
          then (error 502 "odoo_not_ready", [], w)
          else let '(a, calls) := run_action odoo elapsed_ms info op odoo_method modules login password nkr_name in (a, calls, w)
      end
  end.
End modules.

(** ** The database of an instance *)
(** [rest.trim_start_matches(|c| c.is_whitespace() || c == '=')] *)
Fixpoint drop_blank_eq (s : string) : string :=
  match s with String c t => if is_space c || Ascii.eqb c "=" then drop_blank_eq t else s | "" => "" end.
Definition admin_passwd_line (line : string) : option string :=
  rest ← strip_prefix "admin_passwd" (trim_start line);
  let rest := trim (drop_blank_eq rest) in
  if bool_decide (rest = "") || bool_decide (rest = "admin") then None else Some rest.
Definition read_admin_passwd_from_conf (content : option string) : option string :=
  c ← content; head (omap admin_passwd_line (lines c)).

Record init_request := mkInit {
  q_name : string; q_db_name : option string; q_login : string; q_password : string; q_demo : bool;
  q_lang : option string; q_country_code : option string; q_phone : option string; q_now : Z }.
Record init_job := mkJob {
  j_name : string; j_guest_ip : string; j_form : string; j_db_name : string; j_login : string;
  j_cell : string; j_dns : option string; j_started : Z }.
(** the keys of requests under way, the files .nkr-init-db.json by instance, the threads *)
Record init_state := mkInitState { s_inflight : gset string; s_files : gmap string (option Value); s_jobs : list init_job }.
#[export] Instance eta_init_state : Eta init_state := fun s => mkInitState (s_inflight s) (s_files s) (s_jobs s).

Definition init_form (master_pwd db_name : string) (q : init_request) : list (string * string) :=
  [("master_pwd", master_pwd); ("name", db_name); ("login", q_login q); ("password", q_password q);
   ("phone", default "" (q_phone q)); ("lang", default "en_US" (q_lang q)); ("country_code", default "" (q_country_code q));
   ("demo", if q_demo q then "true" else "false")].
Definition running_status (db_name login : string) (started_at : Z) : Value :=
  JObject [("status", JString "running"); ("db_name", JString db_name); ("admin_login", JString login); ("started_at", JInt started_at)].

(** [info]: what [get_instance_info] says; [conf]: the configuration file; [vhost]: the instance has
    a file in sites-available; [r]: the write of the status file, whose result is not looked at;
    [spawns]: a thread can be made; without one the handler panics ([None]) *)
Definition handle_init_db (info : option InstanceInfo) (conf : option string) (vhost : bool) (r : file_write) (spawns : bool) (q : init_request) (s : init_state)
  : option answer * init_state :=
  let n := q_name q in
  if negb (is_safe_identifier n) then (Some (error 400 "invalid_nkr_name"), s)
  else if negb (admin_login_ok (q_login q)) then (Some (error 400 "invalid_admin_login"), s)
  else if negb (admin_password_ok (q_password q)) then (Some (error 400 "invalid_admin_password"), s)
  else if bool_decide ("init_db:" +:+ n ∈ s_inflight s) then (Some (error 409 "init_db_in_progress"), s)
  else match info with
  | None => (Some (error 404 "instance_not_found"), s)
  | Some info =>
      if negb (ns_running (ii_status info)) then (Some (error 409 "instance_not_running"), s)
      else if negb (ns_port_8069_up (ii_status info))
      then (Some (Answer 503 [("error", JString "odoo_not_ready_yet"); ("retry_after_s", JInt 5)]), s)
      else
      let db_name := default (ii_db_name info) (q_db_name q) in
      if negb (is_safe_identifier db_name) then (Some (error 400 "invalid_db_name"), s)
      else if ns_db_present (ii_status info)
      then (Some (Answer 200 [("nkr_name", JString n); ("db_name", JString db_name); ("status", JString "already_present")]), s)
      else
      let running := match mjoin (s_files s !! n) with
                     | Some v => if bool_decide (get_str "status" v = Some "running") then Some v else None
                     | None => None
                     end in
      match running with
      | Some v => (Some (Answer 202 [("nkr_name", JString n); ("db_name", JString db_name); ("status", JString "running"); ("job", v)]), s)
      | None =>
          let master_pwd := default "admin" (read_admin_passwd_from_conf conf) in
          let form := build_form (init_form master_pwd db_name q) in
          let s := s <| s_files ::= partial_alter (write_file r (Some (running_status db_name (q_login q) (q_now q))) None) n |> in
          let job := mkJob n (ii_guest_ip info) form db_name (q_login q) (ii_cell info) (if vhost then ii_dns info else None) (q_now q) in
          if spawns
          then (Some (Answer 202 [("nkr_name", JString n); ("db_name", JString db_name); ("admin_login", JString (q_login q)); ("status", JString "accepted")]),
                s <| s_jobs ::= fun js => js ++ [job] |>)
          else (None, s)
      end
  end.

(** the call of the thread, and what it writes into the file; it seals the address of the
    database after a success, when the instance has a name ([Some (cell, db, url)]) *)
Definition job_call (j : init_job) : string := form_request (j_guest_ip j) 8069 "/web/database/create" (j_form j).
Definition job_times (j : init_job) (finished_at elapsed_ms : Z) : list (string * Value) :=
  [("started_at", JInt (j_started j)); ("finished_at", JInt finished_at); ("elapsed_ms", JInt elapsed_ms)].
Definition seal (j : init_job) : option (string * string * string) :=
  dns ← j_dns j; Some (j_cell j, j_db_name j, "https://" +:+ dns).
(** the first 500 characters; the text is taken to be ASCII *)
Definition snippet (body : string) : string := String.string_of_list_ascii (take 500 (String.list_ascii_of_string body)).
Definition job_result (j : init_job) (result : string + (Z * string)) (finished_at elapsed_ms : Z) : Value * option (string * string * string) :=
  let times := job_times j finished_at elapsed_ms in
  match result with
  | inr (code, body) =>
      if (200 <=? code) && (code <? 400)
      then (JObject ([("status", JString "success"); ("db_name", JString (j_db_name j)); ("admin_login", JString (j_login j))]
                     ++ times ++ [("odoo_response_code", JInt code)]), seal j)
      else
        let lowered := to_lowercase body in
        if contains "already exists" lowered || contains "database already" lowered
        then (JObject ([("status", JString "success"); ("db_name", JString (j_db_name j)); ("note", JString "db_already_exists")] ++ times), seal j)
        else (JObject ([("status", JString "failed"); ("error", JString "odoo_rejected"); ("odoo_response_code", JInt code);
                        ("body_snippet", JString (snippet body))] ++ times), None)
  | inl e => (JObject ([("status", JString "failed"); ("error", JString "odoo_unreachable"); ("message", JString e)] ++ times), None)
  end.
Definition end_job (r : file_write) (i : nat) (result : string + (Z * string)) (finished_at elapsed_ms : Z) (s : init_state) : init_state :=
  match s_jobs s !! i with
  | Some j =>
      let s := s <| s_jobs ::= delete i |> in
      s <| s_files ::= partial_alter (write_file r (Some (job_result j result finished_at elapsed_ms).1) None) (j_name j) |>
  | None => s
  end.
(** the daemon is started again: threads and keys are gone, files stay *)
Definition daemon_restarted (s : init_state) : init_state := mkInitState ∅ (s_files s) [].

(** ** Replies are read *)
Definition reply_lines (code : Z) (rsn : string) (hs : list (string * string)) : list string :=
  ("HTTP/1.1 " +:+ dec code +:+ " " +:+ rsn) :: map field_line hs.
Definition reply_text (code : Z) (rsn : string) (hs : list (string * string)) (body : string) : string :=
  foldr (fun l acc => l +:+ crlf +:+ acc) (crlf +:+ body) (reply_lines code rsn hs).
Definition cookie_of (kv : string * string) : option string :=
  if bool_decide (kv.1 = "Set-Cookie") || bool_decide (kv.1 = "set-cookie")
  then let pair := trim (List.hd "" (split_on ";" kv.2)) in if bool_decide (pair = "") then None else Some pair
  else None.
Definition reply_ok (code : Z) (rsn : string) (hs : list (string * string)) : Prop :=
  0 <= code < 65536 /\ plain_text rsn
  /\ Forall (fun kv => plain_text kv.1 /\ plain_text kv.2 /\ char_in ":" kv.1 = false /\ kv.1 <> "") hs.

Lemma read_capped_all cap s resp : Forall good_chunk s -> Z.of_nat (length (resp ++ chunks s)) <= cap -> read_capped cap s resp = resp ++ chunks s.
Proof.
  intros Hs. revert resp. induction Hs as [|r s (b & bs & ->) Hs IH]; intros resp Hl; [by rewrite app_nil_r|].
  rewrite chunks_cons in *. cbn [read_capped]. rewrite app_assoc in Hl. rewrite IH by done. rewrite <- app_assoc.
  assert (E : (cap <? Z.of_nat (length (resp ++ b :: bs))) = false).
  { apply Z.ltb_ge. rewrite length_app in Hl. lia. }
  by rewrite E.
Qed.

Lemma reply_bytes code rsn hs body : bytes_of_string (reply_text code rsn hs body)
  = concat (map crlf_line (map bytes_of_string (reply_lines code rsn hs))) ++ 13 :: 10 :: bytes_of_string body.
Proof.
  unfold reply_text. induction (reply_lines code rsn hs) as [|l ls IH]; cbn [foldr map concat]; [by rewrite bytes_app|].
  rewrite !bytes_app, IH. rewrite crlf_line_eq, <- !app_assoc. done.
Qed.

Lemma reply_lines_ok code rsn hs : reply_ok code rsn hs -> Forall (fun l => plain_text l /\ l <> "") (reply_lines code rsn hs).
Proof.
  intros (Hc & Hr & Hh). constructor.
  - split; [|done]. rewrite !plain_app. split_and!; [done|apply dec_plain_text; lia|done|done].
  - apply Forall_map. eapply Forall_impl; [|exact Hh]. intros [k v] (Hk & Hv & _ & Hn). unfold field_line. cbn [fst snd] in *.
    rewrite !plain_app. split; [by split_and!|]. by destruct k.
Qed.

(** where the headers end, and what is before and after *)
Lemma reply_split code rsn hs body : reply_ok code rsn hs ->
  let text := reply_text code rsn hs body in
  exists e, header_end text = Some e /\ lines (text_to e text) = reply_lines code rsn hs /\ text_from (e + 4) text = body
    /\ (e + 4 <= String.length text)%nat.
Proof.
  intros Hok. cbn zeta. set (ls := reply_lines code rsn hs). pose proof (reply_lines_ok code rsn hs Hok) as Hls. fold ls in Hls.
  unfold header_end, text_to, text_from. rewrite <- length_bytes, reply_bytes. fold ls. set (bb := bytes_of_string body).
  destruct (@exists_last _ ls ltac:(done)) as (front & l & E). pose proof Hls as Hls2. rewrite E in Hls2. apply list.Forall_app in Hls2 as [Hf Hl].
  apply list.Forall_cons in Hl as [[Hl Hlne] _].
  assert (Hfind : find_double_crlf (concat (map crlf_line (map bytes_of_string ls)) ++ 13 :: 10 :: bb)
    = Some (length (concat (map crlf_line (map bytes_of_string ls))) - 2)%nat).
  { apply find_crlf_lines; [|by rewrite E, map_app; destruct (map _ front)]. apply Forall_map. eapply Forall_impl; [|exact Hls].
    intros x [[Hcr _] Hne]. split; [by apply no_cr_bytes|]. by destruct x. }
  rewrite Hfind. set (joined := join_with LF (map (fun l => l +:+ String CR "") front ++ [l])).
  assert (Hcat : concat (map crlf_line (map bytes_of_string ls)) = bytes_of_string joined ++ [13; 10]).
  { rewrite E, !map_app, concat_app. cbn [map concat]. rewrite app_nil_r, crlf_line_eq, app_assoc. unfold joined. by rewrite join_lines_bytes. }
  rewrite Hcat, length_app. cbn [length]. replace (length (bytes_of_string joined) + 2 - 2)%nat with (length (bytes_of_string joined)) by lia.
  eexists. split; [reflexivity|]. rewrite <- !app_assoc. split_and!.
  - rewrite take_app_length, string_of_bytes_of_string. unfold joined. rewrite lines_crlf; [by rewrite E| |done|done].
    eapply Forall_impl; [|exact Hf]. by intros x [].
  - rewrite drop_app. rewrite drop_ge by lia. cbn [app]. replace (length (bytes_of_string joined) + 4 - length (bytes_of_string joined))%nat with 4%nat by lia.
    cbn [drop]. apply string_of_bytes_of_string.
  - rewrite !length_app. cbn. lia.
Qed.

Lemma reply_status code rsn hs body : 0 <= code < 65536 -> status_of (reply_text code rsn hs body) = code.
Proof.
  intros Hc. unfold status_of, reply_text, reply_lines. cbn [foldr map]. rewrite !string_app_assoc.
  change ("HTTP/1.1 " +:+ ?x) with ("HTTP/1.1" +:+ " " +:+ x). rewrite split_words by (try done; repeat constructor).
  assert (Hnum : read_number 10 (dec code) = Some code) by (apply dec_read; unfold is_u64; lia).
  rewrite split_words; [|apply no_space_dec; lia|].
  - change ((?x :: ?y :: ?l) !! 1%nat) with (Some y). cbn [mbind option_bind]. rewrite parse_uint_dec; [done|unfold is_u64; lia|lia].
  - intros Hd. by rewrite Hd in Hnum.
Qed.

Lemma strip_field p k v : char_in ":" p = false -> char_in ":" k = false ->
  strip_prefix (p +:+ ": ") (k +:+ ": " +:+ v) = if bool_decide (k = p) then Some v else None.
Proof.
  intros Hp Hk. case_bool_decide as E.
  - subst. rewrite <- string_app_assoc. apply strip_prefix_app.
  - destruct (strip_prefix _ _) as [r|] eqn:Es; [|done]. exfalso. apply E. apply strip_prefix_some in Es. rewrite string_app_assoc in Es.
    change (": " +:+ ?x) with (String ":" (" " +:+ x)) in Es. apply (f_equal (split_once ":")) in Es. rewrite !split_once_plain in Es by done. congruence.
Qed.

Lemma cookie_field kv : char_in ":" kv.1 = false -> cookie_line (field_line kv) = cookie_of kv.
Proof.
  destruct kv as [k v]. cbn [fst]. intros Hk. unfold cookie_line, field_line, cookie_of. cbn [fst snd].
  pose proof (strip_field "Set-Cookie" k v eq_refl Hk) as E1. pose proof (strip_field "set-cookie" k v eq_refl Hk) as E2.
  change ("Set-Cookie: ") with ("Set-Cookie" +:+ ": "). change ("set-cookie: ") with ("set-cookie" +:+ ": "). rewrite E1, E2. by repeat case_bool_decide.
Qed.

Lemma reply_cookie code rsn hs text : reply_ok code rsn hs -> lines text = reply_lines code rsn hs ->
  first_cookie text = head (omap cookie_of hs).
Proof.
  intros (_ & _ & Hh) El. unfold first_cookie. rewrite El. unfold reply_lines. cbn [omap list_omap].
  assert (E : cookie_line ("HTTP/1.1 " +:+ dec code +:+ " " +:+ rsn) = None) by done. rewrite E. f_equal. clear E El.
  induction Hh as [|kv hs (_ & _ & Hk & _) _ IH]; [done|]. cbn [map omap list_omap]. by rewrite cookie_field, IH.
Qed.

(** However the reply of a server is cut into reads, the client gets its status, the first cookie that
    it sets, and its body, when the reply is not larger than 4 MiB and its text is valid. *)
Theorem json_reply_read lossy code rsn hs body s :
  reply_ok code rsn hs -> Forall good_chunk s -> chunks s = bytes_of_string (reply_text code rsn hs body) ->
  Z.of_nat (String.length (reply_text code rsn hs body)) <= JSON_CAP ->
  lossy (bytes_of_string (reply_text code rsn hs body)) = reply_text code rsn hs body ->
  http_post_json lossy (inr s) = inr (code, head (omap cookie_of hs), body).
Proof.
  intros Hok Hs Hc Hl Hlossy. unfold http_post_json. rewrite read_capped_all; [|done|cbn [app]; by rewrite Hc, length_bytes].
  cbn [app]. rewrite Hc, Hlossy. unfold read_json_reply. destruct (reply_split code rsn hs body Hok) as (e & He & Hlines & Hb & Hle). rewrite He.
  cbn [from_option id default]. apply Nat.leb_le in Hle. rewrite Hle, Hb. pose proof Hok as (Hcode & _). rewrite reply_status by done.
  by rewrite (reply_cookie code rsn hs).
Qed.

(** ** Forms are read back

    The decoder of application/x-www-form-urlencoded. *)
Definition hex_value (c : ascii) : option Z :=
  let n := Z.of_N (N_of_ascii c) in
  if between 48 57 n then Some (n - 48) else if between 65 70 n then Some (n - 55) else if between 97 102 n then Some (n - 87) else None.
Fixpoint unpct (l : list ascii) : option (list ascii) :=
  match l with
  | [] => Some []
  | c :: l =>
      if Ascii.eqb c "%" then
        match l with
        | a :: b :: l => x ← hex_value a; y ← hex_value b; r ← unpct l; Some (ascii_of_N (Z.to_N (16 * x + y)) :: r)
        | _ => None
        end
      else r ← unpct l; Some ((if Ascii.eqb c "+" then " "%char else c) :: r)
  end.
Definition decoded (s : string) : option string := String.string_of_list_ascii <$> unpct (String.list_ascii_of_string s).
Definition read_form (s : string) : option (list (string * string)) :=
  mapM (fun piece => '(k, v) ← split_once "=" piece; k ← decoded k; v ← decoded v; Some (k, v)) (split_on "&" s).

Lemma unreserved_facts c : unreserved c = true ->
  Ascii.eqb c "%" = false /\ Ascii.eqb c "+" = false /\ Ascii.eqb "&" c = false /\ Ascii.eqb "=" c = false.
Proof. destruct c as [[] [] [] [] [] [] [] []]; by vm_compute. Qed.
Lemma byte_facts c : exists a b x y, pct_byte c = String "%" (String a (String b "")) /\ hex_value a = Some x /\ hex_value b = Some y
  /\ ascii_of_N (Z.to_N (16 * x + y)) = c /\ char_in "&" (pct_byte c) = false /\ char_in "=" (pct_byte c) = false.
Proof. destruct c as [[] [] [] [] [] [] [] []]; eexists _, _, _, _; (split; [reflexivity|]); vm_compute; done. Qed.

Lemma pct_decoded s : decoded (pct s) = Some s.
Proof.
  unfold decoded. assert (E : unpct (String.list_ascii_of_string (pct s)) = Some (String.list_ascii_of_string s)).
  { induction s as [|c s IH]; [done|]. cbn [pct]. rewrite list_ascii_app. destruct (unreserved c) eqn:Eu.
    - destruct (unreserved_facts c Eu) as (E1 & E2 & _). cbn [String.list_ascii_of_string app unpct]. by rewrite E1, E2, IH.
    - destruct (byte_facts c) as (a & b & x & y & -> & Ha & Hb & Hc & _). cbn [String.list_ascii_of_string app unpct].
      rewrite Ha, Hb, IH. cbn [mbind option_bind]. rewrite Hc. done. }
  rewrite E. cbn. by rewrite String.string_of_list_ascii_of_string.
Qed.
Lemma pct_plain s : char_in "&" (pct s) = false /\ char_in "=" (pct s) = false.
Proof.
  induction s as [|c s [IH1 IH2]]; [done|]. cbn [pct]. rewrite !char_in_app, IH1, IH2, !orb_false_r. destruct (unreserved c) eqn:Eu.
  - destruct (unreserved_facts c Eu) as (_ & _ & Ha & He). by rewrite !char_in_cons, Ha, He.
  - by destruct (byte_facts c) as (a & b & x & y & _ & _ & _ & _ & Ha & He).
Qed.

Definition form_piece (kv : string * string) : string := pct kv.1 +:+ "=" +:+ pct kv.2.
Lemma build_form_join pairs : build_form pairs = join_with "&" (map form_piece pairs).
Proof.
  induction pairs as [|[k v] pairs IH]; [done|]. cbn [build_form map]. destruct pairs as [|kv pairs]; [done|].
  rewrite IH. unfold form_piece at 2. cbn [fst snd join_with map]. rewrite !string_app_assoc. done.
Qed.

(** The body of a form is decoded to the very pairs that it was made of, whatever characters they hold. *)
Theorem form_read_back pairs : pairs <> [] -> read_form (build_form pairs) = Some pairs.
Proof.
  intros Hne. unfold read_form. rewrite build_form_join, split_join.
  - apply mapM_Some_2. clear Hne. induction pairs as [|[k v] pairs IH]; cbn [map]; constructor; [|done]. unfold form_piece. cbn [fst snd].
    change ("=" +:+ pct v) with (String "=" (pct v)). rewrite split_once_plain by apply pct_plain. cbn [mbind option_bind].
    by rewrite !pct_decoded.
  - by destruct pairs.
  - apply Forall_map, list.Forall_true. intros [k v]. unfold form_piece. cbn [fst snd]. rewrite !char_in_app.
    rewrite (proj1 (pct_plain k)), (proj1 (pct_plain v)). done.
Qed.

(** ** Secrets are scrubbed *)
Fixpoint strings_of (v : Value) : list string :=
  match v with
  | JString s => [s]
  | JArray l => flat_map strings_of l
  | JObject m => flat_map (fun kv => strings_of kv.2) m
  | _ => []
  end.

Section scrubbing.
Context (secret : string).
Hypothesis Hne : secret <> "".
Hypothesis Hstar : char_in "*" secret = false.

Lemma prefix_before_mask p fuel s : char_in "*" p = false -> starts_with p (replace_in fuel secret MASK s) = true -> starts_with p s = true.
Proof.
  revert fuel s. induction p as [|c p IH]; intros fuel s Hp; [by destruct s|]. rewrite char_in_cons in Hp.
  apply orb_false_iff in Hp as [Hc Hp]. destruct fuel as [|fuel]; cbn [replace_in]; [done|].
  destruct (strip_prefix secret s) as [rest|].
  - unfold MASK. unfold starts_with. rewrite append_cons. cbn [strip_prefix]. rewrite Ascii.eqb_sym, Hc. done.
  - destruct s as [|x s]; [done|]. unfold starts_with. cbn [strip_prefix]. destruct (Ascii.eqb c x); [|done]. apply IH. done.
Qed.

Lemma mask_free p t : p <> "" -> char_in "*" p = false -> contains p "REDACTED" = false -> contains p (MASK +:+ t) = contains p t.
Proof.
  intros Hp Hs Hr. unfold MASK.
  assert (skip : forall c u, starts_with p (String c u) = false -> contains p (String c u) = contains p u)
    by (intros c u E; cbn [contains]; by rewrite E).
  assert (Hstar0 : forall u, starts_with p (String "*" u) = false).
  { intros u. destruct p as [|c p]; [done|]. rewrite char_in_cons in Hs. apply orb_false_iff in Hs as [Hc _].
    unfold starts_with. cbn [strip_prefix]. by rewrite Ascii.eqb_sym, Hc. }
  assert (Hmid : forall a u, "REDACTED" = a +:+ u -> forall r, starts_with p (u +:+ String "*" r) = false).
  { intros a u E r. apply not_true_iff_false. intros [x Hx]%starts_with_spec.
    assert (G : forall p u, char_in "*" p = false -> u +:+ String "*" r = p +:+ x -> exists y, u = p +:+ y).
    { clear. induction p as [|c p IH]; intros u Hp E; [by exists u|]. rewrite char_in_cons in Hp. apply orb_false_iff in Hp as [Hc Hp].
      destruct u as [|d u]; rewrite append_cons in E.
      - rewrite append_empty in E. injection E as <- _. by rewrite Ascii.eqb_refl in Hc.
      - rewrite append_cons in E. injection E as -> E. destruct (IH u Hp E) as [y ->]. exists y. by rewrite append_cons. }
    destruct (G p u Hs Hx) as [y ->]. rewrite E in Hr. by rewrite contains_intro in Hr. }
  change ("***REDACTED***" +:+ t) with (String "*" (String "*" (String "*" ("REDACTED" +:+ String "*" (String "*" (String "*" t)))))).
  rewrite !skip by apply Hstar0. set (r := String "*" (String "*" t)).
  change ("REDACTED" +:+ String "*" r) with (String "R" ("EDACTED" +:+ String "*" r)). rewrite skip by exact (Hmid "" "REDACTED" eq_refl r).
  change ("EDACTED" +:+ String "*" r) with (String "E" ("DACTED" +:+ String "*" r)). rewrite skip by exact (Hmid "R" "EDACTED" eq_refl r).
  change ("DACTED" +:+ String "*" r) with (String "D" ("ACTED" +:+ String "*" r)). rewrite skip by exact (Hmid "RE" "DACTED" eq_refl r).
  change ("ACTED" +:+ String "*" r) with (String "A" ("CTED" +:+ String "*" r)). rewrite skip by exact (Hmid "RED" "ACTED" eq_refl r).
  change ("CTED" +:+ String "*" r) with (String "C" ("TED" +:+ String "*" r)). rewrite skip by exact (Hmid "REDA" "CTED" eq_refl r).
  change ("TED" +:+ String "*" r) with (String "T" ("ED" +:+ String "*" r)). rewrite skip by exact (Hmid "REDAC" "TED" eq_refl r).
  change ("ED" +:+ String "*" r) with (String "E" ("D" +:+ String "*" r)). rewrite skip by exact (Hmid "REDACT" "ED" eq_refl r).
  change ("D" +:+ String "*" r) with (String "D" (String "*" r)). rewrite skip by exact (Hmid "REDACTE" "D" eq_refl r).
  unfold r. by rewrite !skip by apply Hstar0.
Qed.

Hypothesis Hred : contains secret "REDACTED" = false.

Lemma replaced_free fuel s : (String.length s <= fuel)%nat -> contains secret (replace_in (S fuel) secret MASK s) = false.
Proof.
  revert s. induction fuel as [fuel IH] using lt_wf_ind. intros s Hf. cbn [replace_in].
  destruct (strip_prefix secret s) as [rest|] eqn:E.
  - rewrite mask_free by done. apply strip_prefix_some in E as ->. rewrite <- length_list_ascii, list_ascii_app, length_app, !length_list_ascii in Hf.
    assert (0 < String.length secret)%nat by (destruct secret; [done|cbn; lia]).
    destruct fuel as [|fuel]; [lia|]. apply IH; lia.
  - destruct s as [|c s]; [by destruct secret|]. cbn [contains]. cbn [String.length] in Hf. destruct fuel as [|fuel]; [lia|].
    rewrite IH by lia. rewrite orb_false_r. apply not_true_iff_false. intros Hp.
    assert (G : starts_with secret (String c s) = true).
    { unfold starts_with in *. destruct secret as [|x p] eqn:Es; [done|]. cbn [strip_prefix] in *. destruct (Ascii.eqb x c); [|done].
      rewrite <- Es in *. fold (starts_with p s). apply (prefix_before_mask p (S fuel)); [|].
      - rewrite Es, char_in_cons in Hstar. by apply orb_false_iff in Hstar as [_ ?].
      - exact Hp. }
    unfold starts_with in G. by rewrite E in G.
Qed.

Lemma scrub_value_free : forall v s, In s (strings_of (scrub_value secret v)) -> contains secret s = false.
Proof.
  fix IH 1. intros [| | | |s0|l|m] s; cbn [scrub_value strings_of]; try (intros []).
  - destruct (contains secret s0) eqn:E; intros [<-|[]]; [|done]. unfold replace. rewrite bool_decide_eq_false_2 by done. by apply replaced_free.
  - induction l as [|x l IHl]; cbn [map flat_map]; [done|]. intros [H|H]%in_app_or; [by apply (IH x)|by apply IHl].
  - induction m as [|[k x] m IHm]; cbn [map flat_map]; [done|]. intros [H|H]%in_app_or; [by apply (IH x)|by apply IHm].
Qed.
End scrubbing.

Lemma scrub_secret_free secret v : (4 <= String.length secret)%nat -> char_in "*" secret = false -> contains secret "REDACTED" = false ->
  Forall (fun s => contains secret s = false) (strings_of (scrub_secret v secret)).
Proof.
  intros Hl Hs Hr. apply List.Forall_forall. intros s. unfold scrub_secret. destruct (Nat.ltb_spec (String.length secret) 4); [lia|].
  apply scrub_value_free; [|done|done]. by intros ->.
Qed.

(** ** Modules *)
Section actions.
Context `{Serde} `{Listing} `{State.ReadDir} {D : Type}.

Lemma module_map_row found n id st : module_map found !! n = Some (id, st) -> 0 < id /\ exists m, m ∈ found /\ module_row m = (id, n, st).
Proof.
  unfold module_map. assert (G : forall l (mm : gmap string (Z * string)), fold_left (fun (mm : gmap string (Z * string)) m =>
      let '(id, n, state) := module_row m in
      if (0 <? id) && negb (bool_decide (n = "")) then <[n := (id, state)]> mm else mm) l mm !! n = Some (id, st) ->
    mm !! n = Some (id, st) \/ (0 < id /\ exists m, m ∈ l /\ module_row m = (id, n, st))).
  { induction l as [|m l IH]; intros mm; cbn [fold_left]; [by left|]. intros Hf. apply IH in Hf as [Hf|(Hid & m' & Hm & Hr)].
    - destruct (module_row m) as [[i k] s] eqn:Er. destruct ((0 <? i) && negb (bool_decide (k = ""))) eqn:Eg; [|by left].
      apply andb_true_iff in Eg as [Hi _]. destruct (decide (k = n)) as [->|Hne].
      + rewrite lookup_insert_eq in Hf. injection Hf as -> ->. right. split; [lia|]. exists m. split; [left|done].
      + rewrite lookup_insert_ne in Hf by done. by left.
    - right. split; [done|]. exists m'. split; [by right|done]. }
  intros Hf. apply G in Hf as [Hf|Hf]; [by rewrite lookup_empty in Hf|done].
Qed.

(** what Odoo said before the action was asked for *)
Definition action_grounds (odoo : call -> reply) (info : InstanceInfo) (modules : list string) (login password : string)
    (uid : Z) (cookie : string) (ids : list Z) : Prop :=
  exists abody scookie sbody v,
    odoo (auth_call info login password) = inr (200, Some cookie, abody) /\ uid_of abody = Some uid /\ 0 < uid
    /\ odoo (search_call info uid password cookie modules) = inr (200, scookie, sbody) /\ parse_json sbody = Some v /\ get "error" v = None
    /\ Forall2 (fun m id => 0 < id /\ exists row st, row ∈ default [] (get "result" v ≫= as_array) /\ module_row row = (id, m, st)) modules ids.

Definition detail_free (password : string) (a : answer) : Prop :=
  match get "detail" (a_body a) with Some d => exists err, d = scrub_secret err password | None => True end.

Lemma all_found (mm : gmap string (Z * string)) (modules : list string) : filter (fun m => mm !! m = None) modules = [] ->
  Forall2 (fun m id => exists st, mm !! m = Some (id, st)) modules (omap (fun m => fst <$> mm !! m) modules).
Proof.
  induction modules as [|m l IH]; intros Hf; [constructor|]. rewrite filter_cons in Hf. case_decide as Hm; [done|]. cbn [omap list_omap].
  destruct (mm !! m) as [[id st]|] eqn:E; [|done]. cbn. constructor; [by exists st|by apply IH].
Qed.

Lemma run_action_cases odoo ms info op m modules login password n a calls :
  run_action odoo ms info op m modules login password n = (a, calls) ->
  detail_free password a
  /\ ((400 <= a_status a /\ (calls = [auth_call info login password]
         \/ exists uid cookie, calls = [auth_call info login password; search_call info uid password cookie modules]))
      \/ (exists uid cookie ids, action_grounds odoo info modules login password uid cookie ids
           /\ calls = [auth_call info login password; search_call info uid password cookie modules; action_call info uid password cookie m ids]
           /\ (a_status a = 200 \/ 500 <= a_status a))).
Proof.
  intros E. unfold run_action in E.
  destruct (odoo (auth_call _ _ _)) as [e|[[code cookie] body]] eqn:E1; [simplify_eq; split; [done|]; left; split; [done|by left]|].
  destruct (code =? 200) eqn:C1; cbn [negb] in E; [|simplify_eq; split; [done|]; left; split; [done|by left]]. apply Z.eqb_eq in C1 as ->.
  destruct (uid_of body) as [uid|] eqn:U; [|simplify_eq; split; [done|]; left; split; [done|by left]].
  destruct cookie as [cookie|]; [|simplify_eq; split; [done|]; left; split; [done|by left]].
  assert (Hu : 0 < uid).
  { unfold uid_of in U. destruct (parse_json body) as [v|]; [|done]. cbn in U. destruct (get "result" v) as [r|]; [|done]. cbn in U.
    destruct (get "uid" r) as [u|]; [|done]. cbn in U. destruct (as_i64 u) as [z|]; [|done]. cbn in U. destruct (0 <? z) eqn:Hz; [|done]. simplify_eq. lia. }
  assert (Hearly : forall a', 400 <= a_status a' -> detail_free password a' ->
     (a', [auth_call info login password; search_call info uid password cookie modules]) = (a, calls) -> detail_free password a
     /\ ((400 <= a_status a /\ (calls = [auth_call info login password]
         \/ exists uid cookie, calls = [auth_call info login password; search_call info uid password cookie modules])) \/ False)).
  { intros a' Ha Hd [= <- <-]. split; [done|]. left. split; [done|]. right. by exists uid, cookie. }
  assert (Hor : forall P Q : Prop, P /\ (Q \/ False) -> forall R, P /\ (Q \/ R)) by tauto.
  destruct (odoo (search_call _ _ _ _ _)) as [e|[[code sc] sbody]] eqn:E2; [apply Hor; eapply Hearly; [..|exact E]; [cbn; lia|done]|].
  destruct (code =? 200) eqn:C2; cbn [negb] in E; [|apply Hor; eapply Hearly; [..|exact E]; [cbn; lia|done]]. apply Z.eqb_eq in C2 as ->.
  destruct (parse_json sbody) as [v|] eqn:Ps; [|apply Hor; eapply Hearly; [..|exact E]; [cbn; lia|done]].
  destruct (get "error" v) as [err|] eqn:Ge. { apply Hor. eapply Hearly; [..|exact E]; [cbn; lia|by exists err]. }
  set (mm := module_map _) in *. set (missing := filter _ modules) in *.
  destruct (bool_decide (missing = [])) eqn:Em; cbn [negb] in E; [|apply Hor; eapply Hearly; [..|exact E]; [cbn; lia|done]].
  apply bool_decide_eq_true in Em. set (ids := omap _ modules) in *.
  assert (Hg : action_grounds odoo info modules login password uid cookie ids).
  { exists body, sc, sbody, v. split_and!; try done. eapply list.Forall2_impl; [by apply all_found|]. intros nm id [st Hst].
    apply module_map_row in Hst as (Hid & row & Hin & Hr). split; [done|]. by exists row, st. }
  assert (Hend : forall a', (a_status a' = 200 \/ 500 <= a_status a') -> detail_free password a' ->
    (a', [auth_call info login password; search_call info uid password cookie modules; action_call info uid password cookie m ids]) = (a, calls) ->
    detail_free password a /\ (exists uid cookie ids, action_grounds odoo info modules login password uid cookie ids
           /\ calls = [auth_call info login password; search_call info uid password cookie modules; action_call info uid password cookie m ids]
           /\ (a_status a = 200 \/ 500 <= a_status a))).
  { intros a' Ha Hd [= <- <-]. split; [done|]. by exists uid, cookie, ids. }
  assert (Hor2 : forall P R : Prop, P /\ R -> forall Q, P /\ (Q \/ R)) by tauto.
  apply Hor2. destruct (odoo (action_call _ _ _ _ _ _)) as [e|[[code ac] abody]]; [eapply Hend; [..|exact E]; [cbn; lia|done]|].
  destruct (code =? 200); cbn [negb] in E; [|eapply Hend; [..|exact E]; [cbn; lia|done]].
  destruct (parse_json abody) as [av|]; [|eapply Hend; [..|exact E]; [cbn; lia|done]].
  destruct (get "error" av) as [err|]; [|eapply Hend; [..|exact E]; [cbn; lia|done]].
  eapply Hend; [..|exact E]; [cbn; lia|by exists err].
Qed.

Lemma check_request_spec n op modules login password m : check_request n op modules login password = inr m ->
  is_safe_identifier n = true /\ method_of op = Some m /\ modules <> [] /\ (length modules <= 64)%nat /\ forallb module_name_ok modules = true
  /\ admin_login_ok login = true /\ admin_password_ok password = true.
Proof.
  unfold check_request. destruct (is_safe_identifier n); [|done]. destruct (method_of op) as [m'|]; [|done]. cbn [negb].
  case_bool_decide; [done|]. destruct (Nat.ltb_spec 64 (length modules)); [done|]. destruct (forallb _ _); [|done].
  destruct (admin_login_ok login); [|done]. destruct (admin_password_ok password); [|done]. intros [= ->]. by split_and!.
Qed.
Lemma check_request_refuses n op modules login password a : check_request n op modules login password = inl a -> 400 <= a_status a /\ get "detail" (a_body a) = None.
Proof. unfold check_request. intros E. repeat case_match; simplify_eq; by split. Qed.

(** C17. Odoo is asked to install, upgrade or remove modules only when the VM runs and answers, the names are
    well formed, the login was accepted, and for exactly the identifiers that the search gave for
    the requested names; in every other case the answer is an error and no action was asked for.
    A password without a star that is no part of the word REDACTED does not occur in the string values of
    what is passed on of Odoo's errors; the keys of its objects are not scrubbed. *)
Theorem action_justified p odoo ms n op modules login password (w : world D) a calls w' :
  handle_modules_action p odoo ms n op modules login password w = (a, calls, w') ->
  (forall d, get "detail" (a_body a) = Some d -> char_in "*" password = false -> contains password "REDACTED" = false ->
     Forall (fun s => contains password s = false) (strings_of d))
  /\ ((400 <= a_status a /\ (calls = [] \/ exists info, calls = [auth_call info login password]
           \/ exists uid cookie, calls = [auth_call info login password; search_call info uid password cookie modules]))
      \/ exists info m uid cookie ids,
           fst (get_instance_info p n w) = inr info /\ ns_running (ii_status info) = true /\ ns_port_8069_up (ii_status info) = true
           /\ method_of op = Some m /\ forallb module_name_ok modules = true /\ modules <> []
           /\ action_grounds odoo info modules login password uid cookie ids
           /\ calls = [auth_call info login password; search_call info uid password cookie modules; action_call info uid password cookie m ids]
           /\ (a_status a = 200 \/ 500 <= a_status a)).
Proof.
  unfold handle_modules_action. destruct (check_request n op modules login password) as [a0|m] eqn:Ec.
  { intros [= <- <- _]. apply check_request_refuses in Ec as [Hs Hd]. split; [by rewrite Hd|]. left. split; [done|by left]. }
  apply check_request_spec in Ec as (_ & Hm & Hne & _ & Hok & _ & Hpw).
  destruct (get_instance_info p n w) as [[e|info] w1]; [intros [= <- <- _]; split; [done|]; left; split; [done|by left]|].
  destruct (ns_running _) eqn:Er; [|intros [= <- <- _]; split; [done|]; left; split; [done|by left]].
  destruct (ns_port_8069_up _) eqn:Ep; [|intros [= <- <- _]; split; [done|]; left; split; [done|by left]]. cbn [negb orb].
  destruct (run_action _ _ _ _ _ _ _ _ _) as [a1 calls1] eqn:E. intros [= <- <- _]. apply run_action_cases in E as [Hd Hc]. split.
  - intros d Hget Hs Hr. unfold detail_free in Hd. rewrite Hget in Hd. destruct Hd as [err ->]. apply scrub_secret_free; [|done|done].
    unfold admin_password_ok in Hpw. rewrite !andb_true_iff in Hpw. apply Nat.leb_le, Hpw.
  - destruct Hc as [(Ha & Hc)|(uid & cookie & ids & Hg & Hcalls & Ha)].
    + left. split; [done|]. right. exists info. destruct Hc as [Hc|Hc]; [by left|by right].
    + right. exists info, m, uid, cookie, ids. by split_and!.
Qed.
End actions.

(** ** Databases *)
(** Requests, ends of threads, other handlers that hold a key or let it go, and the ends of deletes
    and clones: a clone copies the file with the rest of the directory.  [spoiled]: the names that
    are deleted or cloned to, and those for which a file cannot be written or a thread not be made. *)
Inductive init_step (spoiled : string -> Prop) : init_state -> init_state -> Prop :=
  | init_request_step info conf vhost r spawns q s : (~ spoiled (q_name q) -> r = Stored /\ spawns = true) ->
      init_step spoiled s (handle_init_db info conf vhost r spawns q s).2
  | init_thread_step r i result t ms s : (forall j, s_jobs s !! i = Some j -> ~ spoiled (j_name j) -> r = Stored) ->
      init_step spoiled s (end_job r i result t ms s)
  | init_key_step (f : gset string -> gset string) s : init_step spoiled s (s <| s_inflight ::= f |>)
  | init_delete_step n s : spoiled n -> init_step spoiled s (s <| s_files ::= delete n |>)
  | init_clone_step src dst s : spoiled dst -> init_step spoiled s (s <| s_files ::= partial_alter (fun _ => s_files s !! src) dst |>).

Definition runs (n : string) (s : init_state) : Prop :=
  exists v, s_files s !! n = Some (Some v) /\ get_str "status" v = Some "running".
Definition threads_of (n : string) (s : init_state) : list init_job := filter (fun j => j_name j = n) (s_jobs s).
(** a name has at most one thread, and its file says running when it has one, or when it has said
    so from the start *)
Definition init_ok (n : string) (s0 s : init_state) : Prop :=
  (length (threads_of n s) <= 1)%nat /\ (runs n s <-> threads_of n s <> [] \/ runs n s0) /\ (threads_of n s <> [] -> ~ runs n s0).

Lemma init_cases info conf vhost r spawns q s : let '(a, s') := handle_init_db info conf vhost r spawns q s in
  s' = s \/ (exists i form db, info = Some i /\ ~ runs (q_name q) s
     /\ s_files s' = partial_alter (write_file r (Some (running_status db (q_login q) (q_now q))) None) (q_name q) (s_files s)
     /\ s_jobs s' = s_jobs s ++ if spawns then [mkJob (q_name q) (ii_guest_ip i) form db (q_login q) (ii_cell i) (if vhost then ii_dns i else None) (q_now q)] else []).
Proof.
  unfold handle_init_db. destruct (is_safe_identifier (q_name q)); [|by left]. destruct (admin_login_ok _); [|by left].
  destruct (admin_password_ok _); [|by left]. cbn [negb]. case_bool_decide; [by left|]. destruct info as [i|]; [|by left].
  destruct (ns_running _); [|by left]. destruct (ns_port_8069_up _); [|by left]. cbn [negb].
  destruct (is_safe_identifier _); [|by left]. destruct (ns_db_present _); [by left|]. cbn [negb].
  destruct (mjoin (s_files s !! q_name q)) as [v|] eqn:Ef; [case_bool_decide as Hv|]; [by left| |].
  all: destruct spawns; right; exists i, (build_form (init_form (default "admin" (read_admin_passwd_from_conf conf)) (default (ii_db_name i) (q_db_name q)) q)); eexists;
    (split; [reflexivity|]); (split; [|split; [reflexivity|cbn; by rewrite ?app_nil_r]]).
  all: intros (u & Hu & Hs); rewrite Hu in Ef; cbn in Ef; simplify_eq.
Qed.
(** a name whose file says running starts no thread *)
Lemma init_stuck info conf vhost r spawns q s : runs (q_name q) s -> (handle_init_db info conf vhost r spawns q s).2 = s.
Proof.
  intros Hr. pose proof (init_cases info conf vhost r spawns q s) as Hc. destruct (handle_init_db info conf vhost r spawns q s) as [a s1].
  by destruct Hc as [->|(i & form & db & _ & Hnr & _)].
Qed.

Lemma job_result_ended j r t ms : get_str "status" (job_result j r t ms).1 <> Some "running".
Proof.
  unfold job_result. destruct r as [e|[code body]]; [done|]. destruct (_ && _); [done|]. destruct (_ || _); done.
Qed.

(** nothing that concerns the name has changed *)
Lemma init_ok_same n s0 s s' : s_files s' !! n = s_files s !! n -> threads_of n s' = threads_of n s -> init_ok n s0 s -> init_ok n s0 s'.
Proof. intros Ef Et. unfold init_ok, runs. by rewrite Ef, Et. Qed.

Lemma init_step_ok spoiled n s0 s s' : ~ spoiled n -> init_ok n s0 s -> init_step spoiled s s' -> init_ok n s0 s'.
Proof.
  intros Hsp Hok Hstep. destruct Hstep as [info conf vhost r spawns q s Hq|r i result t ms s Hj|f s|m s Hm|src dst s Hm].
  - pose proof (init_cases info conf vhost r spawns q s) as Hc. destruct (handle_init_db info conf vhost r spawns q s) as [a s1]. cbn [snd].
    destruct Hc as [->|(i & form & db & _ & Hnr & Hf & Hjobs)]; [done|]. destruct (decide (n = q_name q)) as [->|Hne].
    + destruct (Hq Hsp) as [-> ->]. destruct Hok as (Hl & Hr & Hs). rewrite Hr in Hnr.
      assert (Hempty : threads_of (q_name q) s = []) by (destruct (threads_of (q_name q) s); [done|destruct Hnr; by left]).
      unfold init_ok, runs. unfold threads_of. rewrite Hf, Hjobs, list.filter_app. fold (threads_of (q_name q) s). rewrite Hempty.
      rewrite lookup_partial_alter_eq, filter_cons_True by done. cbn [length filter]. split_and!; [done| |intros _ Hx; apply Hnr; by right].
      split; [by left|]. intros _. by eexists.
    + eapply init_ok_same; [| |exact Hok]; [by rewrite Hf, lookup_partial_alter_ne|].
      unfold threads_of. rewrite Hjobs, list.filter_app. destruct spawns; [|apply app_nil_r]. rewrite filter_cons_False; [apply app_nil_r|by cbn].
  - unfold end_job. destruct (s_jobs s !! i) as [j|] eqn:Ej; [|done]. specialize (Hj j eq_refl).
    pose proof (filter_Permutation (fun j => j_name j = n) _ _ (delete_Permutation _ _ _ Ej)) as Hp.
    assert (Hd : forall f, threads_of n (s <| s_jobs ::= delete i |> <| s_files ::= f |>) = filter (fun j => j_name j = n) (delete i (s_jobs s))) by done.
    destruct (decide (j_name j = n)) as [<-|Hne].
    + rewrite (Hj Hsp). destruct Hok as (Hl & Hr & Hs). rewrite filter_cons_True in Hp by done. fold (threads_of (j_name j) s) in Hp.
      assert (Hnil : filter (fun j0 => j_name j0 = j_name j) (delete i (s_jobs s)) = []).
      { apply Permutation_length in Hp. cbn in Hp. apply nil_length_inv. lia. }
      assert (Hns : ~ runs (j_name j) s0). { apply Hs. intros E. rewrite E in Hp. by apply Permutation_nil_cons in Hp. }
      unfold init_ok. rewrite Hd, Hnil. cbn. split_and!; [lia| |done]. split; [|naive_solver].
      intros (v & Hv & Hst). cbn in Hv. rewrite lookup_partial_alter_eq in Hv. injection Hv as <-. by apply job_result_ended in Hst.
    + rewrite filter_cons_False in Hp by done. fold (threads_of n s) in Hp. destruct Hok as (Hl & Hr & Hs).
      assert (Hnil : filter (fun j0 => j_name j0 = n) (delete i (s_jobs s)) = [] <-> threads_of n s = []).
      { split; intros E; rewrite E in Hp; [by apply Permutation_nil_r in Hp|by symmetry in Hp; apply Permutation_nil_r in Hp]. }
      unfold init_ok, runs. rewrite Hd. cbn. rewrite lookup_partial_alter_ne by done. fold (runs n s). rewrite Hnil, <- (Permutation_length Hp). by split_and!.
  - exact Hok.
  - eapply init_ok_same; [| |exact Hok]; [|done]. cbn. apply lookup_delete_ne. by intros ->.
  - eapply init_ok_same; [| |exact Hok]; [|done]. cbn. apply lookup_partial_alter_ne. by intros ->.
Qed.

(** C18. In every order of requests, ends of threads, clones and deletes, take an instance that is neither deleted nor
    cloned to, for which the status file can be written and threads can be made.  It has at most one
    creation of its database under way, and its file says running exactly while the thread runs, or
    when it said so when the daemon was started: then no thread works on it, and every
    further request is answered with the dead job and changes nothing. *)
Theorem init_db_follows_threads spoiled s0 s n : s_jobs s0 = [] -> rtc (init_step spoiled) s0 s -> ~ spoiled n ->
  (length (threads_of n s) <= 1)%nat
  /\ (runs n s <-> threads_of n s <> [] \/ runs n s0)
  /\ (runs n s0 -> threads_of n s = []
      /\ forall info conf vhost r spawns q, q_name q = n -> (handle_init_db info conf vhost r spawns q s).2 = s).
Proof.
  intros H0 Hs Hn. assert (Hok : init_ok n s0 s).
  { eapply (rtc_ind_r (init_ok n s0)); [|by intros; eapply init_step_ok|exact Hs]. unfold init_ok, threads_of. rewrite H0. cbn.
    split_and!; [lia| |done]. naive_solver. }
  destruct Hok as (Hl & Hr & Hst). split_and!; [done|done|].
  intros Hrun. split; [by destruct (threads_of n s) as [|j js] eqn:E; [|destruct (Hst ltac:(done))]|].
  intros info conf vhost r spawns q <-. apply init_stuck, Hr. by right.
Qed.

Module OdooExample.
Import InfoExample.
#[export] Instance serde : Serde := {
  parse_json s :=
    if bool_decide (s = "auth") then Some (JObject [("result", JObject [("uid", JInt 2)])])
    else if bool_decide (s = "found")
    then Some (JObject [("result", JArray [JObject [("id", JInt 7); ("name", JString "sale"); ("state", JString "uninstalled")]])])
    else if bool_decide (s = "failed")
    then Some (JObject [("error", JObject [("message", JString "no access for secret99")])])
    else None;
  print_json _ := "{}"; parse_adopt _ := None }.
Definition odoo (last : string) (c : call) : reply :=
  if bool_decide (k_path c = "/web/session/authenticate") then inr (200, Some "session_id=1", "auth")
  else if bool_decide (k_timeout c = 30) then inr (200, None, "found") else inr (200, None, last).
Definition install (last : string) (modules : list string) : answer * list call * world InstancesExample.server :=
  handle_modules_action (D := InstancesExample.server) (at_pid "c18-odoo") (odoo last) 12 "c18-odoo" "install" modules "admin" "secret99" w.
(** the database is not there *)
Definition no_db : probes :=
  Info.mkProbes {[100 := proc_of "c18-odoo"]} (fun _ => Some (unlines ["nkr"])) (Info.p_stat (at_pid "c18-odoo"))
    (Some (unlines ["cpu 1 2 3"; "btime 1700000000"])) 100 1700000500 (fun _ => true) (Some {["c18" := 3]})
    (fun _ _ => None) (fun _ => None) (fun _ _ => None) true.
Definition fresh_info : option InstanceInfo :=
  match fst (get_instance_info (D := InstancesExample.server) no_db "c18-odoo" w) with inr i => Some i | inl _ => None end.
Definition request : init_request := mkInit "c18-odoo" None "admin" "secret99" false None None None 1700000500.
Definition idle : init_state := mkInitState ∅ ∅ [].
Definition asked : init_state := snd (handle_init_db fresh_info None false Stored true request idle).
Definition ended : init_state := end_job Stored 0 (inr (303, "")) 1700000560 60000 asked.
(** the daemon is stopped while the database is created *)
Definition killed : init_state := daemon_restarted asked.
End OdooExample.
Import OdooExample.

Example install_sale : map k_timeout (snd (fst (install "done" ["sale"]))) = [30; 30; 600] /\ a_status (fst (fst (install "done" ["sale"]))) = 502.
Proof. vm_compute. auto. Qed.
Example install_failed : fst (fst (install "failed" ["sale"]))
  = Answer 500 [("error", JString "odoo_install_failed"); ("elapsed_ms", JInt 12);
                ("detail", JObject [("message", JString "no access for ***REDACTED***")]); ("modules", JArray [JString "sale"])].
Proof. vm_compute. reflexivity. Qed.
Example install_missing : a_body (fst (fst (install "done" ["sale"; "crm"]))) = JObject [("error", JString "modules_not_found"); ("missing", JArray [JString "crm"])]
  /\ length (snd (fst (install "done" ["sale"; "crm"]))) = 2%nat.
Proof. vm_compute. auto. Qed.
(** The daemon stopped while the database was created: the file says running for ever. *)
Example dead_job_answers : (handle_init_db fresh_info None false Stored true request killed).2 = killed
  /\ (get_str "status" ∘ a_body <$> (handle_init_db fresh_info None false Stored true request killed).1) = Some (Some "running") /\ s_jobs killed = [].
Proof. vm_compute. auto. Qed.
(** A file that cannot be written lets a second creation begin; a clone takes a file along that
    says running, and no thread works for the clone. *)
Example two_creations : let ask s := (handle_init_db fresh_info None false NotOpened true request s).2 in
  length (threads_of "c18-odoo" (ask (ask idle))) = 2%nat.
Proof. vm_compute. reflexivity. Qed.
Example cloned_job : let s := asked <| s_files ::= partial_alter (fun _ => s_files asked !! "c18-odoo") "c18-copy" |> in
  init_step (fun n => n = "c18-copy") asked s /\ runs "c18-copy" s /\ threads_of "c18-copy" s = [].
Proof. cbv zeta. split; [by apply init_clone_step|]. split; [by eexists; vm_compute|by vm_compute]. Qed.
(** Object keys are not scrubbed, and a secret that is part of the mask comes back with it. *)
Example scrub_gaps : scrub_secret (JObject [("secret99", JNull)]) "secret99" = JObject [("secret99", JNull)]
  /\ scrub_secret (JString "x REDACTED y") "REDACTED" = JString "x ***REDACTED*** y".
Proof. vm_compute. auto. Qed.
(** The key of another option is taken for the password. *)
Example passwd_prefix : read_admin_passwd_from_conf (Some (unlines ["[options]"; "admin_passwd_file = /etc/odoo/pw"; "admin_passwd = s3cret"]))
  = Some "_file = /etc/odoo/pw".
Proof. vm_compute. reflexivity. Qed.

Lemma json_reply_read_witness : http_post_json string_of_bytes
    (inr [Some (bytes_of_string (text_to 20 (reply_text 200 "OK" [("Content-Type", "application/json"); ("Set-Cookie", "session_id=1; Path=/")] "auth")));
          Some (bytes_of_string (text_from 20 (reply_text 200 "OK" [("Content-Type", "application/json"); ("Set-Cookie", "session_id=1; Path=/")] "auth")))])
  = inr (200, Some "session_id=1", "auth").
Proof.
  pose proof (json_reply_read string_of_bytes 200 "OK" [("Content-Type", "application/json"); ("Set-Cookie", "session_id=1; Path=/")] "auth"
    [Some (bytes_of_string (text_to 20 (reply_text 200 "OK" [("Content-Type", "application/json"); ("Set-Cookie", "session_id=1; Path=/")] "auth")));
     Some (bytes_of_string (text_from 20 (reply_text 200 "OK" [("Content-Type", "application/json"); ("Set-Cookie", "session_id=1; Path=/")] "auth")))]) as H.
  apply H.
  - split; [lia|]. split; [by vm_compute|]. repeat (apply list.Forall_cons; split; [by vm_compute|]). constructor.
  - apply list.Forall_cons. split; [by eexists _, _|]. apply list.Forall_cons. split; [by eexists _, _|constructor].
  - by vm_compute.
  - by vm_compute.
  - by vm_compute.
Defined.

Lemma action_justified_witness :
  let '(a, calls, w') := install "failed" ["sale"] in
  a_status a = 500 /\ length calls = 3%nat
  /\ (forall d, get "detail" (a_body a) = Some d -> Forall (fun s => contains "secret99" s = false) (strings_of d)).
Proof.
  destruct (install "failed" ["sale"]) as [[a calls] w'] eqn:E.
  assert (Ea : a_status a = 500) by (transitivity (a_status (fst (fst (install "failed" ["sale"])))); [by rewrite E|by vm_compute]).
  assert (Ec : length calls = 3%nat) by (transitivity (length (snd (fst (install "failed" ["sale"])))); [by rewrite E|by vm_compute]).
  split; [exact Ea|]. split; [exact Ec|]. intros d Hd.
  exact (proj1 (action_justified (InfoExample.at_pid "c18-odoo") (odoo "failed") 12 "c18-odoo" "install" ["sale"] "admin" "secret99" InfoExample.w a calls w' E)
    d Hd eq_refl eq_refl).
Defined.

Lemma init_db_follows_threads_witness :
  runs "c18-odoo" asked /\ length (threads_of "c18-odoo" asked) = 1%nat /\ ~ runs "c18-odoo" ended
  /\ (forall info conf vhost r spawns q, q_name q = "c18-odoo" -> (handle_init_db info conf vhost r spawns q killed).2 = killed).
Proof.
  assert (H1 : rtc (init_step (fun _ => False)) idle asked).
  { apply rtc_once. apply (init_request_step _ fresh_info None false Stored true request idle). intros _. split; reflexivity. }
  assert (H2 : rtc (init_step (fun _ => False)) idle ended).
  { eapply rtc_r; [exact H1|]. apply (init_thread_step _ Stored 0 (inr (303, "")) 1700000560 60000 asked). intros _ _ _. reflexivity. }
  assert (Hr : runs "c18-odoo" asked) by (eexists; by vm_compute).
  split; [exact Hr|].
  assert (Hi : ~ runs "c18-odoo" idle) by (intros (v & Hv & _); by vm_compute in Hv).
  assert (Ht : length (threads_of "c18-odoo" asked) = 1%nat) by (vm_compute; reflexivity).
  split; [exact Ht|]. split.
  - pose proof (init_db_follows_threads (fun _ => False) idle ended "c18-odoo" eq_refl H2 (fun f => f)) as (_ & Hf & _).
    assert (Hno : threads_of "c18-odoo" ended = []) by (vm_compute; reflexivity).
    intros Hn. destruct (proj1 Hf Hn) as [Hn'|Hn']; [exact (Hn' Hno)|exact (Hi Hn')].
  - assert (Hk : runs "c18-odoo" killed) by exact Hr.
    pose proof (init_db_follows_threads (fun _ => False) killed killed "c18-odoo" eq_refl (rtc_refl _ _) (fun f => f)) as (_ & _ & Hf). exact (proj2 (Hf Hk)).
Defined.

Lemma form_read_back_witness : read_form (build_form (init_form "s3cr&t=%" "db-c18-odoo" request))
  = Some (init_form "s3cr&t=%" "db-c18-odoo" request).
Proof. exact (form_read_back (init_form "s3cr&t=%" "db-c18-odoo" request) ltac:(done)). Defined.
