(* ===== verification/Dns.v ===== *)
(** * Names of instances on the Internet (src/api.rs)

    The handlers that give an instance a DNS name and take it away: the certificate of
    certbot, the virtual host in sites-available with its link in sites-enabled, the test and
    the reload of nginx, and the address that is written into the database of the instance.

    certbot, nginx and psql are arguments; what is relied on of certbot is a hypothesis. *)
From S2P Require Import Prelude Text Http Json Server Conf Watchdog Registry State Resources Blocks Cells Instances Tenants Info Clone.

(** ** The text of a virtual host

    [format!] of a literal: doubled braces stand for one, a name in braces for its value. *)
Fixpoint format (env : string -> string) (s : string) (hole : option string) : string :=
  match s with
  | "" => ""
  | String c t =>
      match hole with
      | Some name => if Ascii.eqb c "}" then env name +:+ format env t None else format env t (Some (name +:+ String c ""))
      | None =>
          match t with
          | String d t' =>
              if (Ascii.eqb c "{" && Ascii.eqb d "{") || (Ascii.eqb c "}" && Ascii.eqb d "}") then String c (format env t' None)
              else if Ascii.eqb c "{" then format env t (Some "") else String c (format env t None)
          | "" => s
          end
      end
  end.

(** the lines of the literals; [{quote}] stands for a quotation mark *)
Definition vhost_upstream : list string := [
  "# Auto-generated by NKR for tenant '{nkr_name}'. DO NOT EDIT MANUALLY.";
  "# Regenerate via POST /api/v1/cells/<cell>/instances/{nkr_name}/dns.";
  "";
  "upstream {http_upstream} {{ server {guest_ip}:8069; keepalive 16; }}"].
Definition vhost_ws_upstream : list string := [
  "upstream {ws_upstream} {{ server {guest_ip}:{ws_port}; keepalive 16; }}"].
Definition vhost_servers : list string := [
  "";
  "server {{";
  "    listen 80;";
  "    listen [::]:80;";
  "    server_name {dns};";
  "    location /.well-known/acme-challenge/ {{ root /var/www/html; }}";
  "    location / {{ return 301 https://$host$request_uri; }}";
  "}}";
  "";
  "server {{";
  "    listen 443 ssl http2;";
  "    listen [::]:443 ssl http2;";
  "    server_name {dns};";
  "";
  "    ssl_certificate     /etc/letsencrypt/live/{dns}/fullchain.pem;";
  "    ssl_certificate_key /etc/letsencrypt/live/{dns}/privkey.pem;";
  "    include /etc/nginx/snippets/nkr-ssl.conf;";
  "    # Hardening universal: bloquea .php/.env/.git/.zip + paths CMS (444 close).";
  "    include /etc/nginx/snippets/nkr-hardening.conf;";
  "    # Edge dual: real-IP rewriting cuando CF está proxied. En modo direct";
  "    # (DNS-only) este snippet es no-op porque ningún IP del cliente cae en";
  "    # los rangos CF. Switch entre modos se hace en CF (panel flipea";
  "    # `proxied: true|false`), NKR no requiere cambios. Ver NKR_API.md §7.1.";
  "    include /etc/nginx/snippets/nkr-real-ip.conf;";
  "";
  "    client_max_body_size 200M;";
  "    proxy_read_timeout 720s;";
  "    proxy_send_timeout 720s;";
  "    proxy_buffering off;";
  "    proxy_set_header Host $host;";
  "    proxy_set_header X-Real-IP $remote_addr;";
  "    proxy_set_header X-Forwarded-For $proxy_add_x_forwarded_for;";
  "    proxy_set_header X-Forwarded-Proto $scheme;";
  ""].
Definition vhost_login : list string := [
  "    # Rate limit anti brute-force sobre login + database manager.";
  "    # Burst 5 nodelay: 5 reqs simultáneos pasan; 6to en adelante 429.";
  "    # $binary_remote_addr funciona en AMBOS modos de edge (direct/CF proxied)";
  "    # gracias al snippet nkr-real-ip.conf incluido arriba.";
  "    location ~ ^/web/(login|database/selector|database/manager) {{";
  "        limit_req zone=nkr_login_limit burst=5 nodelay;";
  "        limit_req_status 429;";
  "        proxy_pass http://{http_upstream};";
  "    }}";
  ""].
Definition vhost_login_dev : list string := [
  "    # tier={tier:?}: sin rate-limit en /web/login (iteración dev sin throttle).";
  "    location ~ ^/web/(login|database/selector|database/manager) {{";
  "        proxy_pass http://{http_upstream};";
  "    }}";
  ""].
Definition vhost_ws : list string := [
  "    # WebSocket / long-polling → :{ws_port}";
  "    #   - DEV/STAG (threaded, workers=0): mismo werkzeug del :8069.";
  "    #   - PROD (prefork, workers>0): gevent separado en :8072.";
  "    location /websocket {{";
  "        proxy_pass http://{ws_upstream};";
  "        proxy_http_version 1.1;";
  "        proxy_set_header Upgrade $http_upgrade;";
  "        proxy_set_header Connection {quote}upgrade{quote};";
  "    }}";
  "    location /longpolling {{";
  "        proxy_pass http://{ws_upstream};";
  "        proxy_http_version 1.1;";
  "        proxy_set_header Upgrade $http_upgrade;";
  "        proxy_set_header Connection {quote}upgrade{quote};";
  "    }}";
  ""].
Definition vhost_cache : list string := [
  "    # /web/static/* — assets de módulos (img, fonts, css de módulos).";
  "    # Cache server-side 24h. proxy_buffering on local: el server padre";
  "    # tiene buffering off (necesario para SSE/long-polling), pero cache";
  "    # REQUIERE buffering on porque nginx necesita capturar la respuesta";
  "    # entera antes de escribirla al disco.";
  "    location /web/static/ {{";
  "        proxy_pass http://{http_upstream};";
  "        proxy_buffering on;";
  "        proxy_cache nkr_static;";
  "        proxy_cache_key {quote}$host$request_uri{quote};";
  "        proxy_cache_valid 200 24h;";
  "        proxy_cache_use_stale error timeout updating;";
  "        proxy_cache_lock on;";
  "        add_header X-Cache-Status $upstream_cache_status always;";
  "        expires 24h;";
  "    }}";
  "";
  "    # /web/assets/<hash>/* — bundles compilados (frontend.min.css, web.assets.js).";
  "    # El <hash> en URL invalida automáticamente cuando el contenido cambia, así";
  "    # que cache long-term (30 días) es seguro. Cache-Control: immutable evita";
  "    # que el browser re-valide. Crítico para densidad: el bundle del login pesa";
  "    # ~850 KB y se sirve en cada cold-load.";
  "    location ~ ^/web/assets/[a-f0-9]+/ {{";
  "        proxy_pass http://{http_upstream};";
  "        proxy_buffering on;";
  "        proxy_cache nkr_static;";
  "        proxy_cache_key {quote}$host$request_uri{quote};";
  "        proxy_cache_valid 200 30d;";
  "        proxy_cache_use_stale error timeout updating;";
  "        proxy_cache_lock on;";
  "        add_header X-Cache-Status $upstream_cache_status always;";
  "        add_header Cache-Control {quote}public, immutable, max-age=2592000{quote} always;";
  "    }}";
  ""].
Definition vhost_no_cache : list string := [
  "    # tier={tier:?}: cache nginx desactivado, no-cache headers para forzar";
  "    # al browser a re-bajar assets en cada request (iteración dev limpia).";
  "    location /web/static/ {{";
  "        proxy_pass http://{http_upstream};";
  "        add_header Cache-Control {quote}no-cache, no-store, must-revalidate{quote} always;";
  "    }}";
  "    location ~ ^/web/assets/[a-f0-9]+/ {{";
  "        proxy_pass http://{http_upstream};";
  "        add_header Cache-Control {quote}no-cache, no-store, must-revalidate{quote} always;";
  "    }}";
  ""].
Definition vhost_end : list string := [
  "    location / {{";
  "        proxy_pass http://{http_upstream};";
  "    }}";
  "}}"].
Record vhost_args := mkVhost { v_name : string; v_dns : string; v_guest_ip : string; v_ws : bool; v_tier : Tier }.

Definition http_upstream (nkr_name : string) : string := "up_" +:+ replace "-" "_" nkr_name.
Definition tier_debug (t : Tier) : string := match t with Production => "Production" | Staging => "Staging" | Dev => "Dev" end.
Definition vhost_env (v : vhost_args) (name : string) : string :=
  if bool_decide (name = "nkr_name") then v_name v
  else if bool_decide (name = "dns") then v_dns v
  else if bool_decide (name = "guest_ip") then v_guest_ip v
  else if bool_decide (name = "http_upstream") then http_upstream (v_name v)
  else if bool_decide (name = "ws_upstream") then http_upstream (v_name v) +:+ "_ws"
  else if bool_decide (name = "ws_port") then (if is_dev_like (v_tier v) then "8069" else "8072")
  else if bool_decide (name = "tier:?") then tier_debug (v_tier v)
  else if bool_decide (name = "quote") then String DQ ""
  else "".
Definition vhost_lines (v : vhost_args) : list string :=
  let dev_like := is_dev_like (v_tier v) in
  vhost_upstream ++ (if v_ws v then vhost_ws_upstream else []) ++ vhost_servers
  ++ (if dev_like then vhost_login_dev else vhost_login) ++ (if v_ws v then vhost_ws else [])
  ++ (if dev_like then vhost_no_cache else vhost_cache) ++ vhost_end.
Definition render_tenant_vhost (v : vhost_args) : string :=
  unlines (map (fun l => format (vhost_env v) l None) (vhost_lines v)).

(** ** The host *)
Definition NGINX_SITES_AVAILABLE : string := "/etc/nginx/sites-available".
Definition NGINX_SITES_ENABLED : string := "/etc/nginx/sites-enabled".
Definition LETSENCRYPT_LIVE : string := "/etc/letsencrypt/live".
Definition vhost_path (n : string) : string := NGINX_SITES_AVAILABLE +:+ "/" +:+ n.

Inductive entry := Link (target : string) | File (text : string).
#[export] Instance entry_eq_dec : EqDecision entry.
Proof. solve_decision. Defined.

(** the keys of requests under way; the two directories of sites by name; what nginx runs
    with; the directories of certificates *)
Record web := mkWeb {
  w_inflight : gset string; w_available : gmap string string; w_enabled : gmap string entry;
  w_running : gmap string (option string); w_certs : gset string }.
#[export] Instance eta_web : Eta web :=
  fun w => mkWeb (w_inflight w) (w_available w) (w_enabled w) (w_running w) (w_certs w).

(** the text that an entry of sites-enabled leads to; nothing when the link is dangling *)
Definition resolve (w : web) (e : entry) : option string :=
  match e with File t => Some t | Link p => n ← strip_prefix (NGINX_SITES_AVAILABLE +:+ "/") p; w_available w !! n end.
Definition sites (w : web) : gmap string (option string) := resolve w <$> w_enabled w.

(** ** The address in the database *)
Definition probe_sql (db_name : string) : string :=
  "SELECT 1 FROM pg_database WHERE datname='" +:+ db_name +:+ "';".
Definition upsert_sql (url : string) : string :=
  "INSERT INTO ir_config_parameter (key, value, create_date, write_date, create_uid, write_uid) VALUES ('web.base.url','"
  +:+ url +:+ "',NOW(),NOW(),1,1) ON CONFLICT (key) DO UPDATE SET value=EXCLUDED.value, write_date=NOW(); INSERT INTO ir_config_parameter (key, value, create_date, write_date, create_uid, write_uid) VALUES ('web.base.url.freeze','True',NOW(),NOW(),1,1) ON CONFLICT (key) DO UPDATE SET value='True', write_date=NOW();".

(** [psql]: what a statement gives at an address and a database: an error of the start, or
    its success with what it printed.  The statements that were run come with the result. *)
Notation psql_run := (string -> string -> string -> string + (bool * string)).
Definition update_tenant_base_url (cells : Registry.file) (psql : psql_run) (cell_name db_name https_url : string)
  : (string + unit) * list (string * string * string) :=
  match lookup_cell_id cell_name cells with
  | None => (inl "cell_not_found", [])
  | Some cell_id =>
      let pg_ip := "10.0." +:+ dec cell_id +:+ ".2" in
      let probe := (pg_ip, "postgres", probe_sql db_name) in
      match psql pg_ip "postgres" (probe_sql db_name) with
      | inl e => (inl ("psql spawn (probe): " +:+ e), [])
      | inr (false, err) => (inl ("psql probe failed: " +:+ err), [probe])
      | inr (true, out) =>
          if negb (bool_decide (trim out = "1")) then (inl "db_not_present", [probe])
          else match psql pg_ip db_name (upsert_sql https_url) with
          | inl e => (inl ("psql spawn (upsert): " +:+ e), [probe])
          | inr (false, err) => (inl ("psql upsert: " +:+ String.string_of_list_ascii (take 500 (String.list_ascii_of_string err))), [probe; (pg_ip, db_name, upsert_sql https_url)])
          | inr (true, _) => (inr tt, [probe; (pg_ip, db_name, upsert_sql https_url)])
          end
      end
  end.
Definition auto_seal_base_url (cells : Registry.file) (psql : psql_run) (cell db_name : string) (dns : option string) : list (string * string * string) :=
  match dns with
  | None => []
  | Some dns => snd (update_tenant_base_url cells psql cell db_name ("https://" +:+ dns))
  end.

(** ** The handlers *)
Definition tail_str (s : string) (n : nat) : string := let ls := lines s in join_with LF (drop (length ls - n) ls).

(** what the programs that are called do: certbot its result, output and the certificates
    afterwards; nginx -t on the sites; the write of the host, with the length that is written when it
    is cut short; whether the link can be made, the link and the host removed, nginx reloaded *)
Record tools := mkTools {
  t_certbot : string -> gset string -> (string + (bool * string)) * gset string;
  t_certbot_delete : string -> gset string -> gset string;
  t_nginx_t : gmap string (option string) -> bool * string;
  t_write : file_write; t_cut : nat; t_link : bool; t_unlink : bool; t_remove : bool; t_reload : bool; t_psql : psql_run; t_cells : Registry.file }.

Definition write_host (t : tools) (n body : string) (w : web) : web :=
  w <| w_available ::= partial_alter (write_file (t_write t) body (String.substring 0 (t_cut t) body)) n |>.
Definition unlink (t : tools) (n : string) (w : web) : web := if t_unlink t then w <| w_enabled ::= delete n |> else w.
(** the link is kept when it leads to something; otherwise it is removed and made again *)
Definition enable_site (t : tools) (n : string) (w : web) : bool * web :=
  match w_enabled w !! n ≫= resolve w with
  | Some _ => (true, w)
  | None =>
      let w := unlink t n w in
      if t_link t && bool_decide (w_enabled w !! n = None)
      then (true, w <| w_enabled ::= <[n := Link (vhost_path n)]> |>) else (false, w)
  end.
Definition reload_nginx (t : tools) (w : web) : web := if t_reload t then w <| w_running := sites w |> else w.

Definition handle_create_dns (t : tools) (info : option InstanceInfo) (nkr_name dns : string) (enable_ws : bool) (w : web)
  : answer * list (string * string * string) * web :=
  if negb (is_safe_identifier nkr_name) then (error 400 "invalid_nkr_name", [], w)
  else if negb (is_safe_dns dns) then (error 400 "invalid_dns", [], w)
  else if bool_decide ("dns:" +:+ nkr_name ∈ w_inflight w) then (error 409 "dns_in_progress", [], w)
  else match info with
  | None => (error 404 "instance_not_found", [], w)
  | Some info =>
      let '(result, certs) := t_certbot t dns (w_certs w) in
      let w := w <| w_certs := certs |> in
      let refused := match result with
                     | inl e => Some (error 500 "certbot_spawn_failed")
                     | inr (true, _) => None
                     | inr (false, log) =>
                         if bool_decide (dns ∈ certs) then None
                         else Some (Answer 422 [("error", JString "cert_issue_failed"); ("dns", JString dns); ("log_tail", JString (tail_str log 40))])
                     end in
      match refused with
      | Some a => (a, [], w)
      | None =>
      let vhost_body := render_tenant_vhost (mkVhost nkr_name dns (ii_guest_ip info) enable_ws (m_tier (ii_meta info))) in
      let w := write_host t nkr_name vhost_body w in
      if negb (bool_decide (t_write t = Stored)) then (error 500 "vhost_write_failed", [], w)
      else
      match enable_site t nkr_name w with
      | (false, w) => (error 500 "vhost_enable_failed", [], w)
      | (true, w) =>
      let '(test_ok, log) := t_nginx_t t (sites w) in
      if negb test_ok
      then (Answer 422 [("error", JString "nginx_config_invalid"); ("log_tail", JString (tail_str log 30))], [], unlink t nkr_name w)
      else if negb (t_reload t) then (error 500 "nginx_reload_failed", [], w)
      else
      let w := reload_nginx t w in
      let https_url := "https://" +:+ dns in
      let '(updated, sql) := update_tenant_base_url (t_cells t) (t_psql t) (ii_cell info) (ii_db_name info) https_url in
      let base_url_status := match updated with
                             | inr _ => "updated"
                             | inl e => if bool_decide (e = "db_not_present") then "skipped_db_missing" else "failed_nonblocking"
                             end in
      (Answer 200 [("nkr_name", JString nkr_name); ("dns", JString dns); ("guest_ip", JString (ii_guest_ip info));
                   ("https_url", JString https_url); ("vhost_path", JString (vhost_path nkr_name));
                   ("cert_path", JString (LETSENCRYPT_LIVE +:+ "/" +:+ dns +:+ "/fullchain.pem"));
                   ("websocket_enabled", JBool enable_ws); ("base_url_update", JString base_url_status)], sql, w)
      end end
  end.

(** the first name of the first line [server_name] *)
Fixpoint trim_end_semi (l : list ascii) : list ascii :=
  match l with [] => [] | c :: r => if Ascii.eqb c ";" then trim_end_semi r else l end.
Definition without_semi (s : string) : string :=
  String.string_of_list_ascii (reverse (trim_end_semi (reverse (String.list_ascii_of_string s)))).
Definition dns_of_vhost (content : string) : option string :=
  l ← find (fun l => starts_with "server_name " (trim_start l)) (lines content);
  without_semi <$> split_whitespace l !! 1%nat.

(** neither the removals nor the reload are looked at *)
Definition handle_delete_dns (t : tools) (nkr_name : string) (delete_cert : bool) (w : web) : answer * web :=
  if negb (is_safe_identifier nkr_name) then (error 400 "invalid_nkr_name", w)
  else
  let dns_maybe := w_available w !! nkr_name ≫= dns_of_vhost in
  let w := unlink t nkr_name w in
  let w := if t_remove t then w <| w_available ::= delete nkr_name |> else w in
  let w := reload_nginx t w in
  let w := match dns_maybe with
           | Some dns => if delete_cert && is_safe_dns dns then w <| w_certs ::= t_certbot_delete t dns |> else w
           | None => w
           end in
  (Answer 200 [("deleted", JBool true); ("nkr_name", JString nkr_name);
               ("dns", match dns_maybe with Some d => JString d | None => JNull end); ("cert_deleted", JBool delete_cert)], w).

(** ** The vhost is read back *)
Lemma format_plain env s hole : (forall name, plain_text (env name)) -> plain_text s -> plain_text (format env s hole).
Proof.
  intros He. remember (String.length s) as len eqn:El. revert s hole El. induction len as [len IH] using lt_wf_ind. intros [|c t] hole -> Hs; [done|].
  change (String c t) with (String c "" +:+ t) in Hs. apply plain_app in Hs as [Hc Ht]. cbn [String.length] in IH.
  assert (G : forall hole, plain_text (format env t hole)) by (intros; eapply IH; [|reflexivity|done]; lia). cbn [format].
  destruct hole as [name|].
  - destruct (Ascii.eqb c "}"); [|done]. apply plain_app. by split.
  - destruct t as [|d t']; [done|]. change (String d t') with (String d "" +:+ t') in Ht. apply plain_app in Ht as [_ Ht'].
    assert (Hcons : forall u, plain_text u -> plain_text (String c u)) by (intros u Hu; change (String c u) with (String c "" +:+ u); by apply plain_app).
    destruct (_ || _); [apply Hcons; eapply IH; [|reflexivity|done]; cbn; lia|]. destruct (Ascii.eqb c "{"); [done|by apply Hcons].
Qed.

Definition dns_char (b : ascii) : bool := is_alnum b || is_one_of "-." b.
Lemma safe_identifier_plain n : is_safe_identifier n = true -> plain_text n.
Proof.
  unfold is_safe_identifier. rewrite !andb_true_iff. intros [_ H].
  split; [by apply (refuses_spec id_char (String CR "")); [|exact H|]|by apply (refuses_spec id_char (String LF "")); [|exact H|]].
Qed.
Lemma safe_dns_chars d : is_safe_dns d = true -> all_chars dns_char d = true /\ d <> "".
Proof. unfold is_safe_dns. rewrite !andb_true_iff. intros [[H _] Hc]. split; [exact Hc|]. by intros ->. Qed.
Lemma safe_dns_plain d : is_safe_dns d = true -> plain_text d.
Proof.
  intros [H _]%safe_dns_chars.
  split; [by apply (refuses_spec dns_char (String CR "")); [|exact H|]|by apply (refuses_spec dns_char (String LF "")); [|exact H|]].
Qed.
Lemma dns_char_facts c : dns_char c = true -> is_space c = false /\ Ascii.eqb c ";" = false.
Proof. destruct c as [[] [] [] [] [] [] [] []]; by vm_compute. Qed.

Lemma env_plain v name : plain_text (v_name v) -> plain_text (v_dns v) -> plain_text (v_guest_ip v) -> plain_text (vhost_env v name).
Proof.
  intros Hn Hd Hi. unfold vhost_env, http_upstream, replace, tier_debug.
  assert (Hr : plain_text (replace_in (S (String.length (v_name v))) "-" "_" (v_name v))) by by apply replace_in_plain.
  repeat case_bool_decide; rewrite ?plain_app; try done; [by destruct (is_dev_like _)|by destruct (v_tier v)].
Qed.

Lemma vhost_literals_plain v : Forall plain_text (vhost_lines v).
Proof.
  assert (H : forallb (fun s => negb (char_in CR s) && negb (char_in LF s)) (vhost_lines v) = true) by (destruct v as [? ? ? [] []]; by vm_compute).
  rewrite forallb_forall in H. apply List.Forall_forall. intros s Hs. apply H, andb_true_iff in Hs as [H1 H2]. by apply negb_true_iff in H1, H2.
Qed.

Lemma vhost_text_lines v : plain_text (v_name v) -> plain_text (v_dns v) -> plain_text (v_guest_ip v) ->
  lines (render_tenant_vhost v) = map (fun l => format (vhost_env v) l None) (vhost_lines v).
Proof.
  intros Hn Hd Hi. apply lines_unlines, Forall_map. eapply Forall_impl; [|apply vhost_literals_plain].
  intros l Hl. apply format_plain; [|done]. intros name. by apply env_plain.
Qed.

Lemma server_name_line v : find (fun l => starts_with "server_name " (trim_start l)) (map (fun l => format (vhost_env v) l None) (vhost_lines v))
  = Some ("    server_name " +:+ v_dns v +:+ ";").
Proof. destruct v as [n d ip [] []]; reflexivity. Qed.

Lemma without_semi_dns d : all_chars dns_char d = true -> without_semi (d +:+ ";") = d.
Proof.
  intros Hd. unfold without_semi. rewrite list_ascii_app. cbn [String.list_ascii_of_string]. rewrite reverse_snoc.
  change (trim_end_semi (";"%char :: ?r)) with (trim_end_semi r).
  assert (E : trim_end_semi (reverse (String.list_ascii_of_string d)) = reverse (String.list_ascii_of_string d)).
  { destruct (reverse (String.list_ascii_of_string d)) as [|c r] eqn:E; [done|]. cbn [trim_end_semi].
    assert (Hc : char_in c d = true).
    { apply existsb_exists. exists c. split; [|apply Ascii.eqb_refl]. apply list_elem_of_In, elem_of_reverse. rewrite E. left. }
    apply (proj1 (all_chars_spec _ _) Hd), dns_char_facts in Hc as [_ ->]. done. }
  rewrite E, reverse_involutive. apply String.string_of_list_ascii_of_string.
Qed.

Lemma dns_read_back v : plain_text (v_name v) -> is_safe_dns (v_dns v) = true -> plain_text (v_guest_ip v) ->
  dns_of_vhost (render_tenant_vhost v) = Some (v_dns v).
Proof.
  intros Hn Hd Hi. unfold dns_of_vhost. rewrite vhost_text_lines by (try done; by apply safe_dns_plain). rewrite server_name_line. cbn [mbind option_bind].
  apply safe_dns_chars in Hd as [Hd Hne].
  change (split_whitespace ("    server_name " +:+ ?x)) with (split_whitespace ("server_name" +:+ " " +:+ x)).
  rewrite split_words by (try done; repeat constructor). rewrite split_last_word.
  - cbn. f_equal. by apply without_semi_dns.
  - apply no_space_append. split; [|repeat constructor].
    eapply Forall_impl; [|by apply (Http.all_chars_Forall dns_char (fun c => negb (is_space c)));
      [intros c [Hc _]%dns_char_facts; rewrite Hc|exact Hd]]. cbn. intros c Hc. by apply negb_true_iff.
  - by destruct (v_dns v).
Qed.

(** ** Requests *)
(** what a successful request has done *)
Lemma create_dns_done t info n dns ws w a sql w' : handle_create_dns t info n dns ws w = (a, sql, w') -> a_status a = 200 ->
  is_safe_identifier n = true /\ is_safe_dns dns = true
  /\ exists i res, info = Some i /\ t_certbot t dns (w_certs w) = (inr res, w_certs w')
     /\ (res.1 = false -> dns ∈ w_certs w')
     /\ w_available w' = <[n := render_tenant_vhost (mkVhost n dns (ii_guest_ip i) ws (m_tier (ii_meta i)))]> (w_available w)
     /\ (w_enabled w' = w_enabled w /\ is_Some (w_enabled w !! n) \/ w_enabled w' = <[n := Link (vhost_path n)]> (w_enabled w))
     /\ w_running w' = sites w' /\ (t_nginx_t t (sites w')).1 = true.
Proof.
  unfold handle_create_dns. destruct (is_safe_identifier n); [|by intros [= <- _ _]]. destruct (is_safe_dns dns); [|by intros [= <- _ _]]. cbn [negb].
  case_bool_decide; [by intros [= <- _ _]|]. destruct info as [i|]; [|by intros [= <- _ _]].
  destruct (t_certbot t dns (w_certs w)) as [res certs] eqn:Ec. set (w1 := w <| w_certs := certs |>).
  set (refused := match res with inl e => Some _ | inr (true, _) => None | inr (false, _) => _ end).
  destruct refused as [a0|] eqn:Er.
  { intros [= <- _ _] Hs. unfold refused in Er. destruct res as [e|[[] log]]; [by simplify_eq|done|]. case_bool_decide; by simplify_eq. }
  unfold write_host. case_bool_decide as Hw; [|by intros [= <- _ _]]. rewrite Hw. cbn [negb]. set (w2 := w1 <| w_available ::= _ |>).
  destruct (enable_site t n w2) as [[] w3] eqn:Ee; [|by intros [= <- _ _]].
  destruct (t_nginx_t t (sites w3)) as [ok log] eqn:En. destruct ok; [|by intros [= <- _ _]]. cbn [negb].
  destruct (t_reload t) eqn:Erl; [|by intros [= <- _ _]]. cbn [negb]. destruct (update_tenant_base_url _ _ _ _ _) as [u q].
  intros [= <- <- <-] _. split; [done|]. split; [done|].
  assert (Hres : exists r, res = inr r /\ (r.1 = false -> dns ∈ certs)).
  { unfold refused in Er. destruct res as [e|[[] lg]]; [done|by eexists|]. eexists. split; [done|]. intros _. by case_bool_decide. }
  destruct Hres as (r & -> & Hr). exists i, r. unfold reload_nginx. rewrite Erl.
  assert (G : w_certs w3 = certs /\ w_available w3 = w_available w2
     /\ (w_enabled w3 = w_enabled w /\ is_Some (w_enabled w !! n) \/ w_enabled w3 = <[n := Link (vhost_path n)]> (w_enabled w))).
  { unfold enable_site in Ee. change (w_enabled w2) with (w_enabled w) in Ee. destruct (w_enabled w !! n ≫= resolve w2) eqn:Er2.
    - simplify_eq. split_and!; [done|done|left; split; [done|]]. destruct (w_enabled w !! n); [by eexists|done].
    - destruct (t_link t && _) eqn:El; simplify_eq. split_and!; [unfold unlink; by destruct (t_unlink t)|unfold unlink; by destruct (t_unlink t)|right].
      unfold unlink. destruct (t_unlink t); cbn; [by rewrite insert_delete_eq|done]. }
  destruct G as (Hc3 & Ha3 & He3). split_and!; [done|by rewrite <- Hc3|intros Hf; change (dns ∈ w_certs w3); rewrite Hc3; by apply Hr|exact Ha3|exact He3|done|].
  change (sites (w3 <| w_running := sites w3 |>)) with (sites w3). by rewrite En.
Qed.

(** C20. An instance that got a name and loses it again: the answer of the second request names the
    very name of the first, nginx ran with the sites that it had tested, among them the host of the
    instance, and afterwards the file, the link and the running host are gone, those of all other
    instances as they were; certbot is asked to delete the certificate of that name.  A file or link
    that cannot be removed stays: the handler does not look at it. *)
Theorem dns_deleted_as_created t t' info n dns ws w a sql w1 b :
  handle_create_dns t (Some info) n dns ws w = (a, sql, w1) -> a_status a = 200 -> plain_text (ii_guest_ip info) ->
  (forall e, w_enabled w !! n = Some e -> e = Link (vhost_path n)) ->
  w_running w1 !! n = Some (Some (render_tenant_vhost (mkVhost n dns (ii_guest_ip info) ws (m_tier (ii_meta info)))))
  /\ (t_nginx_t t (w_running w1)).1 = true
  /\ let '(a2, w2) := handle_delete_dns t' n b w1 in
     a_status a2 = 200 /\ get "dns" (a_body a2) = Some (JString dns)
     /\ w_available w2 = (if t_remove t' then delete n (w_available w) else w_available w1)
     /\ w_enabled w2 = (if t_unlink t' then delete n (w_enabled w) else w_enabled w1)
     /\ (t_reload t' = true -> t_unlink t' = true -> w_running w2 !! n = None)
     /\ w_certs w2 = (if b then t_certbot_delete t' dns (w_certs w1) else w_certs w1).
Proof.
  intros H H200 Hip Hown. apply create_dns_done in H as (Hn & Hd & i & res & [= <-] & _ & _ & Ha & He & Hr & Ht); [|done].
  set (v := mkVhost n dns _ ws _) in *. assert (Hl : w_enabled w1 !! n = Some (Link (vhost_path n))).
  { destruct He as [[-> [e He]]| ->]; [rewrite He; f_equal; by apply Hown|by rewrite lookup_insert_eq]. }
  assert (Hsite : resolve w1 (Link (vhost_path n)) = Some (render_tenant_vhost v)).
  { unfold resolve, vhost_path. rewrite <- string_app_assoc, strip_prefix_app. cbn [mbind option_bind]. by rewrite Ha, lookup_insert_eq. }
  split; [rewrite Hr; unfold sites; by rewrite lookup_fmap, Hl; cbn [fmap option_fmap option_map]; rewrite Hsite|]. split; [by rewrite Hr|].
  unfold handle_delete_dns. rewrite Hn. cbn [negb]. rewrite Ha, lookup_insert_eq. cbn [mbind option_bind].
  rewrite (dns_read_back v) by (try done; by apply safe_identifier_plain). change (v_dns v) with dns. rewrite Hd, andb_true_r.
  assert (Hav : delete n (<[n:=render_tenant_vhost v]> (w_available w)) = delete n (w_available w)) by apply delete_insert_eq.
  assert (Hen : delete n (w_enabled w1) = delete n (w_enabled w)) by (destruct He as [[-> _]| ->]; [done|apply delete_insert_eq]).
  unfold reload_nginx, unlink. set (w2 := if t_remove t' then _ else _).
  assert (E1 : w_available w2 = if t_remove t' then delete n (w_available w) else w_available w1).
  { unfold w2. destruct (t_remove t'); [|by destruct (t_unlink t')]. rewrite <- Hav, <- Ha. by destruct (t_unlink t'). }
  assert (E2 : w_enabled w2 = if t_unlink t' then delete n (w_enabled w) else w_enabled w1).
  { unfold w2. rewrite <- Hen. by destruct (t_remove t'), (t_unlink t'). }
  assert (E3 : t_unlink t' = true -> sites w2 !! n = None).
  { intros Eu. unfold sites. rewrite lookup_fmap, E2, Eu. by rewrite lookup_delete_eq. }
  assert (E4 : w_certs w2 = w_certs w1) by (unfold w2; by destruct (t_remove t'), (t_unlink t')).
  rewrite Ha in E1. destruct b, (t_reload t'); (split_and!; [done|done|exact E1|exact E2|try done; intros _; exact E3|cbn; by rewrite ?E4]).
Qed.

(** *** Enabled sites have certificates *)
Definition site_ok (w : web) (n : string) : Prop :=
  w_enabled w !! n = Some (Link (vhost_path n)) ->
  exists v, v_name v = n /\ is_safe_dns (v_dns v) = true /\ w_available w !! n = Some (render_tenant_vhost v) /\ v_dns v ∈ w_certs w.
(** what is relied on of certbot: a success leaves the certificate that was asked for, others are
    kept; a deletion deletes one *)
Definition certbot_ok (t : tools) : Prop :=
  (forall d cs, cs ⊆ (t_certbot t d cs).2 /\ forall log, (t_certbot t d cs).1 = inr (true, log) -> d ∈ (t_certbot t d cs).2)
  /\ (forall d cs, cs ∖ {[d]} ⊆ t_certbot_delete t d cs).
(** Requests in any order, with any outcome of the programs; a certificate is deleted only when no
    other instance has its name.  [spoiled]: the names for which a write of the host is cut short or a
    link that is to be deleted cannot be removed. *)
Inductive dns_step (spoiled : string -> Prop) : web -> web -> Prop :=
  | dns_create_step t info n dns ws w : certbot_ok t -> (~ spoiled n -> t_write t <> Cut) ->
      dns_step spoiled w (handle_create_dns t info n dns ws w).2
  | dns_delete_step t n b w : certbot_ok t -> (~ spoiled n -> t_unlink t = true) ->
      (b = true -> forall d m txt, w_available w !! n ≫= dns_of_vhost = Some d -> m <> n -> w_available w !! m = Some txt ->
         forall v, txt = render_tenant_vhost v -> v_dns v <> d) ->
      dns_step spoiled w (handle_delete_dns t n b w).2
  | dns_key_step (f : gset string -> gset string) w : dns_step spoiled w (w <| w_inflight ::= f |>).

Lemma site_ok_frame w w' n : w_enabled w' !! n = w_enabled w !! n -> w_available w' !! n = w_available w !! n -> w_certs w ⊆ w_certs w' ->
  site_ok w n -> site_ok w' n.
Proof.
  intros He Ha Hc Hok Hl. rewrite He in Hl. destruct (Hok Hl) as (v & Hn & Hd & Hv & Hcert). exists v. rewrite Ha. split_and!; [done|done|done|set_solver].
Qed.
Lemma unlink_ok t w n m : site_ok w m -> site_ok (unlink t n w) m.
Proof.
  intros Hok. unfold unlink. destruct (t_unlink t); [|done]. destruct (decide (m = n)) as [->|Hne].
  - unfold site_ok. cbn. by rewrite lookup_delete_eq.
  - apply (site_ok_frame w); [|done|done|done]. cbn. by rewrite lookup_delete_ne.
Qed.
(** a host that has been written for a safe name with a certificate *)
Definition host_there (w : web) (n dns : string) : Prop :=
  exists v, v_name v = n /\ v_dns v = dns /\ is_safe_dns dns = true /\ w_available w !! n = Some (render_tenant_vhost v) /\ dns ∈ w_certs w.
Lemma host_there_ok w n dns : host_there w n dns -> site_ok w n.
Proof. intros (v & Hv & <- & Hs & Ha & Hc) _. by exists v. Qed.
Lemma enable_ok t w n m : site_ok w m -> (m = n -> exists dns, host_there w n dns) -> site_ok (enable_site t n w).2 m.
Proof.
  intros Hok Hm. unfold enable_site. destruct (_ ≫= _); [done|]. destruct (_ && _); [|by apply unlink_ok]. cbn [snd].
  destruct (decide (m = n)) as [->|Hne].
  - destruct (Hm eq_refl) as [dns Hh]. apply (host_there_ok _ _ dns). unfold unlink. by destruct (t_unlink t).
  - apply (site_ok_frame (unlink t n w)); [|done|done|by apply unlink_ok]. cbn. by rewrite lookup_insert_ne.
Qed.

Lemma create_keeps_site t info n dns ws w m : certbot_ok t -> (m = n -> t_write t <> Cut) -> site_ok w m ->
  site_ok (handle_create_dns t info n dns ws w).2 m.
Proof.
  intros [Hcb _] Hcut Hok. unfold handle_create_dns. destruct (is_safe_identifier n) eqn:Hn; [|apply Hok]. destruct (is_safe_dns dns) eqn:Hd; [|apply Hok]. cbn [negb].
  case_bool_decide; [apply Hok|]. destruct info as [i|]; [|apply Hok]. specialize (Hcb dns (w_certs w)) as [Hsub Hgot].
  destruct (t_certbot t dns (w_certs w)) as [res certs] eqn:Ec. cbn [fst snd] in Hsub, Hgot. set (w1 := w <| w_certs := certs |>).
  assert (Hok1 : site_ok w1 m) by (by apply (site_ok_frame w)).
  set (refused := match res with inl e => Some _ | inr (true, _) => None | inr (false, _) => _ end).
  destruct refused as [a0|] eqn:Er; [apply Hok1|].
  assert (Hcert : dns ∈ certs) by (unfold refused in Er; destruct res as [e|[[] lg]]; [done|by eapply Hgot|by case_bool_decide]).
  set (v := mkVhost n dns _ ws _). set (w2 := write_host t n _ w1).
  assert (Hother : m <> n -> w_available w2 !! m = w_available w1 !! m) by (intros; by apply lookup_partial_alter_ne).
  case_bool_decide as Hw; cbn [negb].
  2:{ destruct (decide (m = n)) as [->|Hne]; [|by apply (site_ok_frame w1); [|apply Hother| |]].
      apply (site_ok_frame w1); [done| |done|done]. unfold w2, write_host. cbn. rewrite lookup_partial_alter_eq. specialize (Hcut eq_refl). by destruct (t_write t). }
  assert (Hhost : host_there w2 n dns).
  { exists v. split_and!; [done|done|done| |done]. unfold w2, write_host. rewrite Hw. apply lookup_insert_eq. }
  assert (Hok2 : site_ok w2 m).
  { destruct (decide (m = n)) as [->|Hne]; [by eapply host_there_ok|by apply (site_ok_frame w1); [|apply Hother| |]]. }
  pose proof (enable_ok t w2 n m Hok2 (fun _ => ex_intro _ dns Hhost)) as Hok3.
  destruct (enable_site t n w2) as [[] w3]; [|exact Hok3]. cbn [snd] in Hok3.
  destruct (t_nginx_t t (sites w3)) as [ok log]. destruct ok; [|by apply unlink_ok]. cbn [negb].
  destruct (t_reload t) eqn:Erl; [|apply Hok3]. cbn [negb]. destruct (update_tenant_base_url _ _ _ _ _) as [u q].
  unfold reload_nginx. rewrite Erl. by apply (site_ok_frame w3).
Qed.

Lemma dns_step_site spoiled m w w' : ~ spoiled m -> dns_step spoiled w w' -> site_ok w m -> site_ok w' m.
Proof.
  intros Hm Hstep Hok. destruct Hstep as [t info n dns ws w Ht Hcut|t n b w Ht Hun Hshare|f w]; [apply create_keeps_site; [done|by intros ->; apply Hcut|done]| |by apply Hok].
  unfold handle_delete_dns. destruct (is_safe_identifier n); [|apply Hok]. cbn [negb].
  set (w1 := reload_nginx t _).
  assert (He : w_enabled w1 = w_enabled (unlink t n w)) by (unfold w1, reload_nginx; by destruct (t_reload t), (t_remove t)).
  assert (Ha : w_available w1 = if t_remove t then delete n (w_available w) else w_available w)
    by (unfold w1, reload_nginx, unlink; by destruct (t_reload t), (t_remove t), (t_unlink t)).
  assert (Hc : w_certs w1 = w_certs w) by (unfold w1, reload_nginx, unlink; by destruct (t_reload t), (t_remove t), (t_unlink t)).
  assert (G : forall w2, w_enabled w2 = w_enabled w1 -> w_available w2 = w_available w1 ->
    (forall d, d ∈ w_certs w -> (forall v, m <> n -> w_available w !! m = Some (render_tenant_vhost v) -> v_dns v = d -> d ∈ w_certs w2)) -> site_ok w2 m).
  { intros w2 He2 Ha2 Hc2 Hl. rewrite He2, He in Hl. destruct (decide (m = n)) as [->|Hne].
    { unfold unlink in Hl. rewrite Hun in Hl by done. cbn in Hl. by rewrite lookup_delete_eq in Hl. }
    assert (Hl' : w_enabled w !! m = Some (Link (vhost_path m))).
    { unfold unlink in Hl. destruct (t_unlink t); [|done]. cbn in Hl. by rewrite lookup_delete_ne in Hl. }
    destruct (Hok Hl') as (v & Hv & Hsafe & Hav & Hin). exists v. rewrite Ha2, Ha.
    split_and!; [done|done|destruct (t_remove t); [by rewrite lookup_delete_ne|done]|]. by eapply (Hc2 (v_dns v) Hin v). }
  destruct (w_available w !! n ≫= dns_of_vhost) as [d|] eqn:Ed; [|by apply (G w1); [..|rewrite Hc]].
  destruct (b && is_safe_dns d) eqn:Eb; [|by apply (G w1); [..|rewrite Hc]]. apply andb_true_iff in Eb as [-> _].
  apply G; [done|done|]. intros d' Hin v Hne Hav <-. cbn. apply (proj2 Ht d (w_certs w1)). rewrite Hc.
  apply elem_of_difference. split; [done|]. rewrite elem_of_singleton. by eapply Hshare.
Qed.

(** C19. Through any sequence of requests, whatever becomes of certbot and nginx, the site of an instance is, when
    it is enabled, the host that was written for it, with a safe name whose certificate is there.
    Excepted are the instances for which a write of the host was cut short (it is written over the old
    one) or a link could not be removed; and no certificate may be deleted that another instance uses. *)
Theorem sites_have_certificates spoiled w w' n : site_ok w n -> ~ spoiled n -> rtc (dns_step spoiled) w w' -> site_ok w' n.
Proof. intros Hok Hn Hs. revert Hok. induction Hs as [|w w1 w' Hst _ IH]; [done|]. intros Hok. apply IH. by apply (dns_step_site spoiled n w). Qed.

Module DnsExample.
Import InfoExample.
Definition inst : option InstanceInfo := match info "c18-odoo" with inr i => Some i | inl _ => None end.
(** everything goes well but for [test], the result of nginx -t *)
Definition ok_tools (test : bool) : tools :=
  mkTools (fun d cs => (inr (true, ""), {[d]} ∪ cs)) (fun d cs => cs ∖ {[d]}) (fun _ => (test, "nginx: configuration file test failed"))
    Stored 0 true true true true (fun _ _ _ => inr (true, "1")) (Some {["c18" := 3]}).
Definition empty_web : web := mkWeb ∅ ∅ ∅ ∅ ∅.
Definition named : web := (handle_create_dns (ok_tools true) inst "c18-odoo" "shop.example.org" true empty_web).2.
(** another instance with the same name *)
Definition shared : web := (handle_create_dns (ok_tools true) inst "c18-copy" "shop.example.org" false named).2.
End DnsExample.
Import DnsExample.

Example named_address : (handle_create_dns (ok_tools true) inst "c18-odoo" "shop.example.org" true empty_web).1.2
  = [("10.0.3.2", "postgres", probe_sql "db-c18-odoo"); ("10.0.3.2", "db-c18-odoo", upsert_sql "https://shop.example.org")].
Proof. vm_compute. reflexivity. Qed.
Example head_of_vhost : take 11 (lines (default "" (w_available named !! "c18-odoo"))) =
  ["# Auto-generated by NKR for tenant 'c18-odoo'. DO NOT EDIT MANUALLY.";
   "# Regenerate via POST /api/v1/cells/<cell>/instances/c18-odoo/dns."; "";
   "upstream up_c18_odoo { server 10.0.3.4:8069; keepalive 16; }"; "upstream up_c18_odoo_ws { server 10.0.3.4:8072; keepalive 16; }"; "";
   "server {"; "    listen 80;"; "    listen [::]:80;"; "    server_name shop.example.org;";
   "    location /.well-known/acme-challenge/ { root /var/www/html; }"].
Proof. vm_compute. reflexivity. Qed.

(** Two instances may have the same upstream. *)
Example upstreams_collide : http_upstream "shop-eu" = http_upstream "shop_eu"
  /\ is_safe_identifier "shop-eu" = true /\ is_safe_identifier "shop_eu" = true.
Proof. vm_compute. auto. Qed.

(** A second name that nginx refuses takes the first one away: its host was overwritten, its link is removed. *)
Example refused_name_takes_site_down :
  let '(a, _, w) := handle_create_dns (ok_tools false) inst "c18-odoo" "other.example.org" true named in
  a_status a = 422 /\ w_enabled named !! "c18-odoo" = Some (Link (vhost_path "c18-odoo")) /\ w_enabled w !! "c18-odoo" = None
  /\ (w_available w !! "c18-odoo" ≫= dns_of_vhost) = Some "other.example.org".
Proof. vm_compute. auto. Qed.

(** Two instances may take the same name, and deleting one of them with its certificate
    leaves the other without. *)
Example shared_certificate_deleted :
  let '(a, w) := handle_delete_dns (ok_tools true) "c18-copy" true shared in
  (w_available w !! "c18-odoo" ≫= dns_of_vhost) = Some "shop.example.org"
  /\ w_enabled w !! "c18-odoo" = Some (Link (vhost_path "c18-odoo")) /\ w_certs shared = {["shop.example.org"]} /\ w_certs w = ∅.
Proof. vm_compute. auto. Qed.

Lemma ok_tools_certbot test : certbot_ok (ok_tools test).
Proof. split; [|done]. intros d cs. cbn. split; [set_solver|]. intros _ _. set_solver. Qed.

(** A host that cannot be written in full replaces the old one, and the site stays enabled. *)
Example host_cut_short :
  let t := mkTools (t_certbot (ok_tools true)) (t_certbot_delete (ok_tools true)) (t_nginx_t (ok_tools true))
    Cut 40 true true true true (t_psql (ok_tools true)) (t_cells (ok_tools true)) in
  let '(a, _, w) := handle_create_dns t inst "c18-odoo" "other.example.org" true named in
  a_status a = 500 /\ w_enabled w !! "c18-odoo" = Some (Link (vhost_path "c18-odoo"))
  /\ w_available w !! "c18-odoo" = Some "# Auto-generated by NKR for tenant 'c18-".
Proof. vm_compute. auto. Qed.

(** c18-copy is not written in full afterwards; c18-odoo keeps its site *)
Definition damaged : web := (handle_create_dns (mkTools (t_certbot (ok_tools true)) (t_certbot_delete (ok_tools true)) (t_nginx_t (ok_tools true))
    Cut 40 true true true true (t_psql (ok_tools true)) (t_cells (ok_tools true))) inst "c18-copy" "new.example.org" false shared).2.
Lemma sites_have_certificates_witness :
  site_ok damaged "c18-odoo" /\ w_enabled damaged !! "c18-odoo" = Some (Link (vhost_path "c18-odoo"))
  /\ (exists v, v_name v = "c18-odoo" /\ v_dns v ∈ w_certs damaged).
Proof.
  set (spoiled := fun n => n = "c18-copy").
  assert (H0 : site_ok empty_web "c18-odoo") by (intros Hn; exact (False_ind _ (lookup_empty_Some _ _ Hn))).
  assert (H1 : rtc (dns_step spoiled) empty_web named) by (apply rtc_once, dns_create_step; [apply ok_tools_certbot|intros _ Hx; discriminate Hx]).
  assert (H2 : rtc (dns_step spoiled) empty_web shared) by (eapply rtc_r; [exact H1|apply dns_create_step; [apply ok_tools_certbot|intros _ Hx; discriminate Hx]]).
  assert (H3 : rtc (dns_step spoiled) empty_web damaged).
  { eapply rtc_r; [exact H2|]. apply dns_create_step; [exact (ok_tools_certbot true)|]. intros Hs. exact (False_ind _ (Hs eq_refl)). }
  assert (Hne : ~ spoiled "c18-odoo") by (intros Hx; discriminate Hx).
  pose proof (sites_have_certificates spoiled empty_web damaged "c18-odoo" H0 Hne H3) as Hs.
  assert (Hl : w_enabled damaged !! "c18-odoo" = Some (Link (vhost_path "c18-odoo"))) by (vm_compute; reflexivity).
  split; [exact Hs|]. split; [exact Hl|]. destruct (Hs Hl) as (v & Hv & _ & _ & Hc). exists v. split; [exact Hv|exact Hc].
Defined.

Lemma dns_deleted_as_created_witness : exists a2 w2, handle_delete_dns (ok_tools true) "c18-odoo" true named = (a2, w2)
  /\ get "dns" (a_body a2) = Some (JString "shop.example.org") /\ w_enabled w2 = ∅.
Proof.
  destruct inst as [i|] eqn:Ei; [|by vm_compute in Ei].
  destruct (handle_create_dns (ok_tools true) (Some i) "c18-odoo" "shop.example.org" true empty_web) as [[a sql] w1] eqn:E.
  assert (En : named = w1) by (unfold named; by rewrite Ei, E).
  assert (Ea : a_status a = 200).
  { transitivity (a_status (handle_create_dns (ok_tools true) inst "c18-odoo" "shop.example.org" true empty_web).1.1); [by rewrite Ei, E|by vm_compute]. }
  assert (Hip : plain_text (ii_guest_ip i)).
  { assert (Hg : from_option ii_guest_ip "" inst = "10.0.3.4") by by vm_compute. rewrite Ei in Hg. cbn [from_option] in Hg. rewrite Hg. split; vm_compute; reflexivity. }
  pose proof (dns_deleted_as_created (ok_tools true) (ok_tools true) i "c18-odoo" "shop.example.org" true empty_web a sql w1 true E Ea Hip) as H.
  destruct H as (_ & _ & H); [intros e He; exact (False_ind _ (lookup_empty_Some _ _ He))|]. rewrite En.
  destruct (handle_delete_dns (ok_tools true) "c18-odoo" true w1) as [a2 w2]. destruct H as (_ & Hd & _ & He & _).
  exists a2, w2. split; [reflexivity|]. split; [exact Hd|]. rewrite He. apply delete_empty.
Defined.
