(* ===== verification/Admin.v ===== *)
(** * Requests of the administrator (src/api.rs)

    The outgoing mail server of an instance, statements for its database with their audit log,
    the signed address that logs a user in, the cache of nginx and the state of the enterprise
    repository.

    psql, git and the hash function are arguments; texts are taken to be ASCII where the code
    cuts them by characters. *)
From S2P Require Import Prelude Text Http Json Server Conf Watchdog Registry State Resources Blocks Cells Instances Tenants CloneConf Clone Info Odoo.

(** ** The outgoing mail server *)
Definition APOS : ascii := "'".
Fixpoint esc (s : string) : string :=
  match s with
  | "" => ""
  | String c s => if Ascii.eqb c APOS then String APOS (String APOS (esc s)) else String c (esc s)
  end.
Record mail_server := mkMail {
  ms_host : string; ms_port : Z; ms_user : string; ms_pass : string; ms_encryption : string; ms_from : string }.
Definition mail_sql (m : mail_server) : string :=
  "DELETE FROM ir_mail_server WHERE name='NKR-managed';
         INSERT INTO ir_mail_server
            (name, sequence, smtp_host, smtp_port, smtp_authentication,
             smtp_user, smtp_pass, smtp_encryption, from_filter, active,
             create_uid, write_uid, create_date, write_date)
         VALUES
            ('NKR-managed', 10, '" +:+ esc (ms_host m) +:+ "', " +:+ dec (ms_port m) +:+ ", 'login',
             NULLIF('" +:+ esc (ms_user m) +:+ "',''), NULLIF('" +:+ esc (ms_pass m) +:+ "',''), '" +:+ esc (ms_encryption m) +:+ "',
             NULLIF('" +:+ esc (ms_from m) +:+ "',''), TRUE,
             1, 1, NOW(), NOW());".

(** an error of the start of psql, or its success with what it printed *)
Notation psql_run := (string -> string -> string -> string + (bool * string)).
Definition exists_sql (db_name : string) : string := "SELECT 1 FROM pg_database WHERE datname='" +:+ db_name +:+ "';".
Definition first_chars (n : nat) (s : string) : string := String.string_of_list_ascii (take n (String.list_ascii_of_string s)).
(** the result and the statements that were run, each with its address and database *)
Definition upsert_tenant_mail_server (cells : Registry.file) (psql : psql_run) (cell_name db_name : string) (m : mail_server)
  : (string + unit) * list (string * string * string) :=
  match lookup_cell_id cell_name cells with
  | None => (inl "cell_not_found", [])
  | Some cell_id =>
      let pg_ip := "10.0." +:+ dec cell_id +:+ ".2" in
      let probe := (pg_ip, "postgres", exists_sql db_name) in
      match psql pg_ip "postgres" (exists_sql db_name) with
      | inl e => (inl ("psql probe spawn: " +:+ e), [])
      | inr (false, err) => (inl ("psql probe: " +:+ err), [probe])
      | inr (true, out) =>
          if negb (bool_decide (trim out = "1")) then (inl "db_not_present", [probe])
          else
          let upsert := (pg_ip, db_name, mail_sql m) in
          match psql pg_ip db_name (mail_sql m) with
          | inl e => (inl ("psql upsert spawn: " +:+ e), [probe])
          | inr (false, err) => (inl (first_chars 500 err), [probe; upsert])
          | inr (true, _) => (inr tt, [probe; upsert])
          end
      end
  end.

(** ** Statements for the database *)
Definition reject_psql_query (q : string) : option string :=
  if bool_decide (q = "") then Some "empty_query"
  else if (16 * 1024 <? String.length q)%nat then Some "query_too_large"
  else if char_in nul q then Some "null_byte"
  else
    let lower := to_lowercase q in
    if contains "\c " lower || contains "\connect" lower then Some "meta_connect_forbidden"
    else if contains "\!" lower then Some "shell_escape_forbidden"
    else if contains "copy" lower && contains "program" lower then Some "copy_program_forbidden"
    else if contains "drop database" lower || contains "create database" lower then Some "database_ddl_forbidden"
    else None.

Definition TAB : ascii := "009".
Definition blank_char (c : ascii) : ascii := if Ascii.eqb c LF || Ascii.eqb c TAB then " "%char else c.
Definition blanks (s : string) : string := String.string_of_list_ascii (map blank_char (String.list_ascii_of_string s)).
Definition tab (s : string) : string := String TAB s.
(** the line of the audit log *)
Definition audit_psql (t : Z) (nkr_name db_name query status : string) : string :=
  dec t +:+ tab (nkr_name +:+ tab (db_name +:+ tab (status +:+ tab (blanks (first_chars 1024 query) +:+ String LF "")))).

(** What psql does with what it reads: when it would end by itself, in ms after its start, with
    which code and which output; or it cannot be started. *)
Record child := mkChild { c_ends_at : option Z; c_code : option Z; c_stdout : string; c_stderr : string }.
Record psql_call := mkPsql { pc_addr : string; pc_db : string; pc_stdin : string }.
(** a pipe of Linux holds 64 KiB; a process that writes more waits for a reader *)
Definition PIPE : nat := 65536.
Definition ends_unread (c : child) : option Z :=
  if ((PIPE <? String.length (c_stdout c)) || (PIPE <? String.length (c_stderr c)))%nat then None else c_ends_at c.
Definition DEADLINE_MS : Z := 35000.
(** [try_wait] every 100 ms; whether the child ended before it was killed *)
Fixpoint wait_child (fuel : nat) (c : child) (now : Z) : option bool :=
  match fuel with
  | O => None
  | S fuel =>
      match ends_unread c with
      | Some t => if t <=? now then Some true else if DEADLINE_MS <=? now then Some false else wait_child fuel c (now + 100)
      | None => if DEADLINE_MS <=? now then Some false else wait_child fuel c (now + 100)
      end
  end.
Definition WAIT_FUEL : nat := 400.

Definition full_query (query : string) : string :=
  "SET statement_timeout = '30s';" +:+ String LF ("SET idle_in_transaction_session_timeout = '30s';" +:+ String LF (query +:+ String LF "")).
Definition CSV_CAP : nat := 4 * 1024 * 1024.
Definition cut_rows (max_rows : nat) (stdout : string) : nat * bool * string :=
  let ls := lines stdout in
  let total_rows := (length ls - 1)%nat in
  let truncated := (max_rows <? total_rows)%nat in
  let body := join_with LF (if truncated then take (max_rows + 1) ls else ls) in
  (total_rows, truncated, if (CSV_CAP <? String.length body)%nat then first_chars CSV_CAP body else body).

Section psql.
Context `{Listing} `{State.ReadDir} {D : Type}.

Definition clamp_rows (n : nat) : nat := Nat.max 1 (Nat.min n 10000).

(** the answer, the lines added to the audit log, the call of psql and the world *)
Definition handle_psql (p : probes) (psql : psql_call -> string + child) (now : Z) (nkr_name query : string) (max_rows : nat) (w : world D)
  : answer * list string * list psql_call * world D :=
  if negb (is_safe_identifier nkr_name) then (error 400 "invalid_nkr_name", [], [], w)
  else match reject_psql_query query with
  | Some reason => (error 400 reason, [audit_psql now nkr_name "" query ("REJECT:" +:+ reason)], [], w)
  | None =>
  let max_rows := clamp_rows max_rows in
  match get_instance_info p nkr_name w with
  | (inl _, w) => (error 404 "instance_not_found", [], [], w)
  | (inr info, w) =>
  match lookup_cell_id (ii_cell info) (p_cells p) with
  | None => (error 404 "cell_not_found", [], [], w)
  | Some cell_id =>
      let log := [audit_psql now nkr_name (ii_db_name info) query "ACCEPT"] in
      let call := mkPsql ("10.0." +:+ dec cell_id +:+ ".2") (ii_db_name info) (full_query query) in
      match psql call with
      | inl _ => (error 500 "psql_spawn_failed", log, [], w)
      | inr c =>
          match wait_child WAIT_FUEL c 0 with
          | Some true =>
              let code := default (-1) (c_code c) in
              let '(total_rows, truncated, csv) := cut_rows max_rows (c_stdout c) in
              if code =? 0
              then (Answer 200 [("nkr_name", JString nkr_name); ("db_name", JString (ii_db_name info)); ("exit_code", JInt 0);
                                ("rows_returned", JInt (Z.of_nat (Nat.min total_rows max_rows))); ("truncated", JBool truncated);
                                ("csv", JString csv)], log, [call], w)
              else (Answer 400 [("error", JString "psql_error"); ("nkr_name", JString nkr_name); ("db_name", JString (ii_db_name info));
                                ("exit_code", JInt code); ("stderr", JString (first_chars 4096 (c_stderr c)))], log, [call], w)
          | _ => (error 504 "psql_timeout", log, [call], w)
          end
      end
  end end end.
End psql.

(** ** The cache of nginx *)
(** what is seen of a path through links: a file with its size, a directory in the order of its
    listing, or nothing that can be read *)
Inductive seen := SFile (size : Z) | SDir (entries : list (string * seen)) | SNone.
Fixpoint walk_size (s : seen) : Z :=
  match s with
  | SFile n => n
  | SDir es => fold_right (fun (e : string * seen) total => u64 (walk_size e.2 + total)) 0 es
  | SNone => 0
  end.
(** [entries]: the cache directory with what removing each entry gives; nothing when it is not there *)
Inductive cache_dir := NoCache | Unreadable | Cache (entries : list (string * seen * (string + unit))).
Definition NGINX_CACHE_DIR : string := "/var/cache/nginx/nkr_static".
Definition removed (es : list (string * seen * (string + unit))) : list (string * seen) :=
  omap (fun e => match e.2 with inr _ => Some e.1 | inl _ => None end) es.
Definition failed (es : list (string * seen * (string + unit))) : list string :=
  omap (fun e => match e.2 with inr _ => None | inl err => Some (NGINX_CACHE_DIR +:+ "/" +:+ e.1.1 +:+ ": " +:+ err) end) es.
(** the answer and what is left *)
Definition handle_purge_cache (d : cache_dir) : answer * cache_dir :=
  match d with
  | NoCache => (Answer 200 [("purged", JInt 0); ("size_bytes_freed", JInt 0); ("note", JString "cache dir no existe — nada para purgar")], d)
  | Unreadable => (error 500 "read_cache_dir_failed", d)
  | Cache es =>
      let counts := [("purged", JInt (Z.of_nat (length (removed es))));
                     ("size_bytes_freed", JInt (fold_left (fun n e => u64 (n + walk_size e.2)) (removed es) 0))] in
      (if bool_decide (failed es = []) then Answer 200 counts
       else Answer 207 (counts ++ [("errors", JArray (map JString (failed es)))]),
       Cache (filter (fun e => match e.2 with inr _ => false | inl _ => true end = true) es))
  end.

(** ** The enterprise repository *)
Definition yml_odoo_version (content : string) : string :=
  match omap (fun l => strip_prefix "odoo_version:" (trim l)) (lines content) with
  | v :: _ => trim_matches APOS (trim_matches DQ (trim v))
  | [] => ""
  end.
Definition is_sdir (s : seen) : bool := match s with SDir _ => true | _ => false end.
Definition has_manifest (s : seen) : bool :=
  match s with
  | SDir es => existsb (fun e => bool_decide (e.1 = "__manifest__.py") && match e.2 with SNone => false | _ => true end) es
  | _ => false
  end.
Definition module_count (es : list (string * seen)) : nat :=
  length (filter (fun e => starts_with "." e.1 = false /\ e.1 <> "nkr-env" /\ is_sdir e.2 = true /\ has_manifest e.2 = true) es).
(** [git]: what git rev-parse HEAD prints in the directory, when it succeeds *)
Definition handle_enterprise_status (cell : string) (cell_yml : option string) (dir : string -> seen) (git : string -> option string) : answer :=
  if negb (is_safe_identifier cell) then error 400 "invalid_cell"
  else match cell_yml with
  | None => error 404 "cell_not_found"
  | Some content =>
      let odoo_version := yml_odoo_version content in
      if bool_decide (odoo_version = "") then error 404 "cell_has_no_odoo_version"
      else
      let ent_dir := "/mnt/nkr/enterprise/" +:+ odoo_version in
      let '(modules, size, sha) := match dir ent_dir with
                                   | SDir es => (module_count es, walk_size (dir ent_dir), default "" (trim <$> git ent_dir))
                                   | _ => (0%nat, 0, "")
                                   end in
      Answer 200 [("cell", JString cell); ("odoo_version", JString odoo_version); ("available", JBool (0 <? modules)%nat);
                  ("module_count", JInt (Z.of_nat modules)); ("path", JString ent_dir); ("size_bytes", JInt size); ("sha", JString sha)]
  end.

(** ** The signed address of a login *)
Definition sso_user_ok (u : string) : bool :=
  negb (bool_decide (u = "")) && (String.length u <=? 128)%nat && all_chars (fun b => is_alnum b || is_one_of "_-.@" b) u.
Definition hex_of (bytes : list Z) : string :=
  String.string_of_list_ascii (flat_map (fun b => [nth (Z.to_nat (b / 16)) hex_digits "0"%char; nth (Z.to_nat (b mod 16)) hex_digits "0"%char]) bytes).
Definition sso_payload (user exp : string) : string := user +:+ "|" +:+ exp.
Definition sso_secret (conf : string) : string :=
  default "" (match parse_conf_value_in_section conf "nkr_sso" "secret" with
              | Some s => Some s
              | None => parse_conf_value conf "nkr_sso_secret"
              end).

Section sso.
Context `{Listing} `{State.ReadDir} {D : Type} (hmac_sha256 : string -> string -> list Z).

(** [conf]: the configuration file of the instance *)
Definition handle_sso (p : probes) (conf : option string) (now : Z) (nkr_name user : string) (w : world D) : answer * world D :=
  if negb (is_safe_identifier nkr_name) then (error 400 "invalid_nkr_name", w)
  else if negb (sso_user_ok user) then (error 400 "invalid_user", w)
  else match get_instance_info p nkr_name w with
  | (inl _, w) => (error 404 "instance_not_found", w)
  | (inr info, w) =>
      if negb (ns_running (ii_status info)) then (error 409 "not_running", w)
      else match ii_dns info with
      | None | Some "" => (error 409 "no_dns_provisioned", w)
      | Some dns =>
      match conf with
      | None => (error 500 "conf_read_failed", w)
      | Some conf =>
          let secret := sso_secret conf in
          if bool_decide (secret = "") then (error 500 "sso_secret_missing", w)
          else
          let exp := now + 30 in
          let sig := hex_of (hmac_sha256 secret (sso_payload user (dec exp))) in
          let url := "https://" +:+ dns +:+ "/nkr-sso?u=" +:+ url_encode user +:+ "&exp=" +:+ dec exp +:+ "&sig=" +:+ sig in
          (Answer 200 [("url", JString url); ("user", JString user); ("expires_in", JInt 30); ("nkr_name", JString nkr_name); ("dns", JString dns)], w)
      end end
  end.

(** the check in the guest, the module whose text nkr_sso.md gives: an error, or the user who is logged in;
    [users]: the active logins; the numbers that [int] takes are read without signs and blanks *)
Definition sso_check (secret : string) (referer_ok : bool) (users : string -> bool) (now : Z) (u exp sig : string) : string + string :=
  if bool_decide (u = "") || bool_decide (exp = "") || bool_decide (sig = "") then inl "sso_missing_params"
  else match read_number 10 exp with
  | None => inl "sso_bad_exp"
  | Some exp_int =>
      if exp_int <? now then inl "sso_expired"
      else if bool_decide (secret = "") then inl "sso_not_configured"
      else if negb referer_ok then inl "sso_referer_denied"
      else if negb (bool_decide (hex_of (hmac_sha256 secret (sso_payload u exp)) = to_lowercase sig)) then inl "sso_bad_signature"
      else if negb (users u) then inl "sso_user_not_found"
      else inr u
  end.
End sso.

(** ** Values stay in their literals

    The literals of a statement as PostgreSQL reads them: between apostrophes, a doubled one stands
    for one (standard_conforming_strings); everything else is code. *)
#[local] Notation chars := String.list_ascii_of_string.
Inductive token := Code (c : ascii) | Lit (s : list ascii).
Fixpoint sql_tokens (l : list ascii) (lit : option (list ascii)) : option (list token) :=
  match l with
  | [] => match lit with None => Some [] | Some _ => None end
  | c :: r =>
      match lit with
      | None => if Ascii.eqb c APOS then sql_tokens r (Some []) else cons (Code c) <$> sql_tokens r None
      | Some acc =>
          if Ascii.eqb c APOS then
            match r with
            | d :: r' => if Ascii.eqb d APOS then sql_tokens r' (Some (acc ++ [APOS])) else cons (Lit acc) <$> sql_tokens r None
            | [] => Some [Lit acc]
            end
          else sql_tokens r (Some (acc ++ [c]))
      end
  end.
Definition tokens (s : string) : option (list token) := sql_tokens (chars s) None.
Definition code (s : string) : list token := map Code (chars s).
Definition lit (s : string) : token := Lit (chars s).

Lemma tokens_code s r : char_in APOS s = false -> sql_tokens (chars s ++ r) None = app (code s) <$> sql_tokens r None.
Proof.
  induction s as [|c s IH]; [cbn; by destruct (sql_tokens r None)|]. rewrite char_in_cons. intros [Hc Hs]%orb_false_iff.
  cbn [String.list_ascii_of_string app sql_tokens]. rewrite Ascii.eqb_sym in Hc. rewrite Hc, IH by done.
  by destruct (sql_tokens r None).
Qed.
Lemma tokens_lit v acc c r : Ascii.eqb c APOS = false ->
  sql_tokens (chars (esc v) ++ APOS :: c :: r) (Some acc) = cons (Lit (acc ++ chars v)) <$> sql_tokens (c :: r) None.
Proof.
  intros Hc. revert acc. induction v as [|x v IH]; intros acc.
  - cbn [esc chars String.list_ascii_of_string app]. cbn [sql_tokens]. rewrite Hc, app_nil_r. done.
  - cbn [esc]. destruct (Ascii.eqb x APOS) eqn:Ex; cbn [String.list_ascii_of_string app sql_tokens]; rewrite ?Ex.
    + cbn [sql_tokens]. change (Ascii.eqb APOS APOS) with true. cbv iota. rewrite IH, <- app_assoc. apply Ascii.eqb_eq in Ex as ->. done.
    + rewrite IH, <- app_assoc. done.
Qed.
(** a literal between two pieces of code *)
Lemma tokens_piece pre v c post : char_in APOS pre = false -> Ascii.eqb c APOS = false ->
  tokens (pre +:+ "'" +:+ esc v +:+ "'" +:+ String c post) = app (code pre ++ [lit v]) <$> tokens (String c post).
Proof.
  intros Hp Hc. unfold tokens. rewrite list_ascii_app, tokens_code by done.
  change (sql_tokens (chars ("'" +:+ ?x)) None) with (sql_tokens (chars x) (Some [])). rewrite list_ascii_app.
  change (chars ("'" +:+ String c post)) with (APOS :: c :: chars post). rewrite (tokens_lit v [] c) by done.
  change (chars (String c post)) with (c :: chars post). destruct (sql_tokens (c :: chars post) None); cbn; [by rewrite <- app_assoc|done].
Qed.

(** the last piece *)
Lemma tokens_end s : char_in APOS s = false -> tokens s = Some (code s).
Proof. intros Hs. unfold tokens. rewrite <- (app_nil_r (chars s)), tokens_code by done. cbn. by rewrite app_nil_r. Qed.

(** a statement as pieces of code, each with the literal after it, and the code at the end *)
Fixpoint statement (ps : list (string * string)) (last : string) : string :=
  match ps with [] => last | (c, v) :: ps => c +:+ "'" +:+ esc v +:+ "'" +:+ statement ps last end.
Definition statement_tokens (ps : list (string * string)) (last : string) : list token :=
  flat_map (fun '(c, v) => code c ++ [lit v]) ps ++ code last.
Lemma tokens_statement ps last : char_in APOS last = false -> last <> "" ->
  Forall (fun cv : string * string => char_in APOS cv.1 = false) ps -> Forall (fun cv : string * string => cv.1 <> "") (tail ps) ->
  tokens (statement ps last) = Some (statement_tokens ps last).
Proof.
  intros Hl Hne Hps. induction Hps as [|[c v] ps Hc Hps IH]; intros Ht; [by apply tokens_end|]. cbn [statement tail fst] in *.
  assert (Hnext : exists x post, statement ps last = String x post /\ Ascii.eqb x APOS = false).
  { assert (G : forall s, s <> "" -> char_in APOS s = false -> forall r, exists x post, s +:+ r = String x post /\ Ascii.eqb x APOS = false).
    { intros [|x s] Hs Ha r; [done|]. rewrite char_in_cons in Ha. apply orb_false_iff in Ha as [Ha _]. rewrite Ascii.eqb_sym in Ha. by exists x, (s +:+ r). }
    destruct ps as [|[c' v'] ps]; [destruct (G last Hne Hl "") as (x & post & E & Hx); rewrite app_nil_string in E; by exists x, post|].
    apply list.Forall_cons in Hps as [Hc' _], Ht as [Hn' _]. by apply G. }
  assert (Ht' : Forall (fun cv : string * string => cv.1 <> "") (tail ps)).
  { destruct ps as [|? ps]; [done|]. by apply list.Forall_cons in Ht as [_ ?]. }
  destruct Hnext as (x & post & E & Hx). rewrite E, tokens_piece, <- E, IH by done.
  cbn. unfold statement_tokens. cbn [flat_map]. by rewrite <- !app_assoc.
Qed.

Definition mail_pieces (m : mail_server) : list (string * string) := [
  ("DELETE FROM ir_mail_server WHERE name=", "NKR-managed");
  (";
         INSERT INTO ir_mail_server
            (name, sequence, smtp_host, smtp_port, smtp_authentication,
             smtp_user, smtp_pass, smtp_encryption, from_filter, active,
             create_uid, write_uid, create_date, write_date)
         VALUES
            (", "NKR-managed");
  (", 10, ", ms_host m); (", " +:+ dec (ms_port m) +:+ ", ", "login");
  (",
             NULLIF(", ms_user m); (",", ""); ("), NULLIF(", ms_pass m); (",", ""); ("), ", ms_encryption m);
  (",
             NULLIF(", ms_from m); (",", "")].
Definition mail_end : string := "), TRUE,
             1, 1, NOW(), NOW());".

Lemma mail_sql_pieces m : mail_sql m = statement (mail_pieces m) mail_end.
Proof.
  unfold mail_sql, mail_pieces, statement. rewrite !string_app_assoc. reflexivity.
Qed.
Lemma dec_no_apos z : 0 <= z -> char_in APOS (dec z) = false.
Proof. intros Hz. by apply dec_plain. Qed.
Lemma mail_sql_tokens m : 0 <= ms_port m -> tokens (mail_sql m) = Some (statement_tokens (mail_pieces m) mail_end).
Proof.
  intros Hp. rewrite mail_sql_pieces. apply tokens_statement; [done|done| |].
  - unfold mail_pieces. repeat (apply list.Forall_cons; split; [cbn [fst]; try done|]); [|constructor]. rewrite !char_in_app, dec_no_apos by done. done.
  - unfold mail_pieces. cbn [tail]. repeat (apply list.Forall_cons; split; [done|]). constructor.
Qed.

(** Whatever host, user, password and sender are given, the statement that is sent to the database of the
    instance has them in its literals and nothing else of them in its code; nothing else is sent
    but the question whether the database is there, and success means that it was sent. *)
Theorem mail_values_stay_literals cells psql cell_name db_name m r sql : 0 <= ms_port m ->
  upsert_tenant_mail_server cells psql cell_name db_name m = (r, sql) ->
  (forall addr db s, (addr, db, s) ∈ sql ->
     (db = "postgres" /\ s = exists_sql db_name) \/ (db = db_name /\ tokens s = Some (statement_tokens (mail_pieces m) mail_end)))
  /\ (r = inr tt -> exists id, lookup_cell_id cell_name cells = Some id
        /\ list.last sql = Some ("10.0." +:+ dec id +:+ ".2", db_name, mail_sql m)).
Proof.
  intros Hp. unfold upsert_tenant_mail_server. destruct (lookup_cell_id cell_name cells) as [id|]; [|intros [= <- <-]; split; [set_solver|done]].
  assert (H1 : forall addr db s, (addr, db, s) ∈ [("10.0." +:+ dec id +:+ ".2", "postgres", exists_sql db_name)] ->
    (db = "postgres" /\ s = exists_sql db_name) \/ (db = db_name /\ tokens s = Some (statement_tokens (mail_pieces m) mail_end))).
  { intros addr db s [= _ -> ->]%list_elem_of_singleton. by left. }
  assert (H2 : forall addr db s, (addr, db, s) ∈ [("10.0." +:+ dec id +:+ ".2", "postgres", exists_sql db_name); ("10.0." +:+ dec id +:+ ".2", db_name, mail_sql m)] ->
    (db = "postgres" /\ s = exists_sql db_name) \/ (db = db_name /\ tokens s = Some (statement_tokens (mail_pieces m) mail_end))).
  { intros addr db s [[= _ -> ->]|Hin]%elem_of_cons; [by left|]. apply list_elem_of_singleton in Hin as [= _ -> ->]. right. split; [done|]. by apply mail_sql_tokens. }
  destruct (psql _ "postgres" _) as [e|[[] out]]; [by intros [= <- <-]; split; [set_solver|]| |by intros [= <- <-]].
  destruct (bool_decide _); [|by intros [= <- <-]]. cbn [negb].
  destruct (psql _ db_name _) as [e|[[] err]]; intros [= <- <-]; [by split|split; [exact H2|]|by split]. intros _. by exists id.
Qed.

(** ** Statements are audited *)
Lemma wait_child_spec c fuel now : 0 <= now <= DEADLINE_MS -> now mod 100 = 0 -> DEADLINE_MS - now < 100 * Z.of_nat fuel ->
  wait_child fuel c now = Some (match ends_unread c with Some t => t <=? DEADLINE_MS | None => false end).
Proof.
  unfold DEADLINE_MS. revert now. induction fuel as [|fuel IH]; intros now Hn Hm Hf; [lia|]. cbn [wait_child]. unfold DEADLINE_MS.
  assert (Hend : (35000 <=? now) = false -> wait_child fuel c (now + 100) = Some (match ends_unread c with Some t => t <=? 35000 | None => false end)).
  { intros E%Z.leb_gt. apply IH; Z.div_mod_to_equations; lia. }
  destruct (ends_unread c) as [t|].
  - destruct (Z.leb_spec t now); [f_equal; symmetry; apply Z.leb_le; lia|]. destruct (35000 <=? now) eqn:E; [|by apply Hend].
    f_equal. symmetry. apply Z.leb_gt. lia.
  - destruct (35000 <=? now) eqn:E; [done|by apply Hend].
Qed.

Definition audit_fields (l : string) : option (list string) :=
  match split_on LF l with [body; ""] => Some (split_on TAB body) | _ => None end.

Lemma blanks_plain s : char_in LF (blanks s) = false /\ char_in TAB (blanks s) = false.
Proof.
  unfold blanks, char_in. rewrite !String.list_ascii_of_string_of_list_ascii. induction (chars s) as [|c l [IH1 IH2]]; [done|]. cbn [map existsb].
  rewrite IH1, IH2, !orb_false_r. unfold blank_char. destruct (Ascii.eqb c LF) eqn:E1; [done|]. destruct (Ascii.eqb c TAB) eqn:E2; [done|].
  cbn [orb]. rewrite (Ascii.eqb_sym LF), (Ascii.eqb_sym TAB). done.
Qed.
Definition field_ok (s : string) : Prop := char_in LF s = false /\ char_in TAB s = false.
Lemma audit_read now n db q status : 0 <= now -> field_ok n -> field_ok db -> field_ok status ->
  audit_fields (audit_psql now n db q status) = Some [dec now; n; db; status; blanks (first_chars 1024 q)].
Proof.
  intros Ht [Hn1 Hn2] [Hd1 Hd2] [Hs1 Hs2]. destruct (blanks_plain (first_chars 1024 q)) as [Hb1 Hb2]. unfold audit_fields, audit_psql, tab.
  set (b := blanks (first_chars 1024 q)) in *.
  assert (E : dec now +:+ String TAB (n +:+ String TAB (db +:+ String TAB (status +:+ String TAB (b +:+ String LF ""))))
    = (dec now +:+ String TAB (n +:+ String TAB (db +:+ String TAB (status +:+ String TAB b)))) +:+ String LF "").
  { by repeat (rewrite string_app_assoc || rewrite append_cons). }
  rewrite E, split_on_app. cbn [split_on]. rewrite split_on_plain.
  - cbn [app]. rewrite !split_on_app, !split_on_plain by (try done; by apply dec_plain). done.
  - repeat (rewrite char_in_app || rewrite char_in_cons). by rewrite dec_plain, Hn1, Hd1, Hs1, Hb1 by done.
Qed.

Lemma safe_field n : is_safe_identifier n = true -> field_ok n /\ field_ok ("db-" +:+ n).
Proof.
  unfold is_safe_identifier. rewrite !andb_true_iff. intros [_ H].
  assert (Hn : field_ok n) by (split; [by apply (refuses_spec id_char (String LF "")); [|exact H|]|by apply (refuses_spec id_char (String TAB "")); [|exact H|]]).
  split; [done|]. destruct Hn. by split.
Qed.
Lemma reject_reason q r : reject_psql_query q = Some r -> field_ok ("REJECT:" +:+ r).
Proof. unfold reject_psql_query. intros H. repeat case_match; simplify_eq; by split. Qed.

(** A statement reaches psql only when the filter lets it pass and it has its line ACCEPT in the audit
    log, with the database of the instance; a refused one has its line with the reason.  Every line
    of the log has its five fields, whatever the statement contains. *)
Theorem psql_audited `{Listing} `{State.ReadDir} {D : Type} p psql now n q rows (w : world D) a log calls w' : 0 <= now ->
  handle_psql p psql now n q rows w = (a, log, calls, w') ->
  Forall (fun l => exists db status, audit_fields l = Some [dec now; n; db; status; blanks (first_chars 1024 q)]) log
  /\ (forall c, c ∈ calls -> reject_psql_query q = None /\ pc_stdin c = full_query q /\ pc_db c = "db-" +:+ n
       /\ log = [audit_psql now n (pc_db c) q "ACCEPT"])
  /\ (forall reason, is_safe_identifier n = true -> reject_psql_query q = Some reason ->
       a = error 400 reason /\ calls = [] /\ log = [audit_psql now n "" q ("REJECT:" +:+ reason)]).
Proof.
  intros Ht. unfold handle_psql. destruct (is_safe_identifier n) eqn:Hn; [|intros [= <- <- <- <-]; split_and!; [constructor|set_solver|done]].
  apply safe_field in Hn as [Hn Hdb]. cbn [negb]. destruct (reject_psql_query q) as [r|] eqn:Er.
  { intros [= <- <- <- <-]. split_and!; [|set_solver|by intros ? _ [= <-]]. apply list.Forall_singleton. eexists "", _.
    apply audit_read; [done|done|done|by apply (reject_reason q)]. }
  destruct (get_instance_info p n w) as [[e|info] w1] eqn:Ei; [intros [= <- <- <- <-]; split_and!; [constructor|set_solver|done]|].
  apply info_cases in Ei as (d & y & vm_id & f & _ & _ & Hinfo & _). assert (Hname : ii_db_name info = "db-" +:+ n) by (by rewrite Hinfo). clear Hinfo.
  destruct (lookup_cell_id _ _) as [id|]; [|intros [= <- <- <- <-]; split_and!; [constructor|set_solver|done]].
  set (log0 := [audit_psql now n (ii_db_name info) q "ACCEPT"]). set (call := mkPsql _ _ _).
  assert (Hlog : Forall (fun l => exists db status, audit_fields l = Some [dec now; n; db; status; blanks (first_chars 1024 q)]) log0).
  { apply list.Forall_singleton. rewrite Hname. eexists _, "ACCEPT". by apply audit_read. }
  assert (Hcall : forall calls, calls = [] \/ calls = [call] -> forall c, c ∈ calls -> @None string = None /\ pc_stdin c = full_query q
    /\ pc_db c = "db-" +:+ n /\ log0 = [audit_psql now n (pc_db c) q "ACCEPT"]).
  { intros cs [-> | ->] c Hc; [set_solver|]. apply list_elem_of_singleton in Hc as ->. split_and!; [done|done|exact Hname|done]. }
  destruct (psql call) as [e|ch]; [intros [= <- <- <- <-]; split_and!; [done|apply Hcall; by left|done]|].
  destruct (wait_child WAIT_FUEL ch 0) as [[]|]; [|intros [= <- <- <- <-]; split_and!; [done|apply Hcall; by right|done]..].
  destruct (cut_rows _ _) as [[total tr] csv]. destruct (_ =? 0); intros [= <- <- <- <-]; (split_and!; [done|apply Hcall; by right|done]).
Qed.

(** What comes back of a statement that psql carries out: with at most 64 KiB of output within 35 s the
    header and the first rows, at most as many as were asked for; with more output, however few rows are
    asked for, the process is killed and the answer is 504, since nobody reads while it runs. *)
Theorem psql_answer_exact `{Listing} `{State.ReadDir} {D : Type} p psql now n q rows (w : world D) a log calls w' :
  handle_psql p psql now n q rows w = (a, log, calls, w') ->
  forall call c, calls = [call] -> psql call = inr c ->
  let large := ((PIPE <? String.length (c_stdout c)) || (PIPE <? String.length (c_stderr c)))%nat in
  (large = true -> a = error 504 "psql_timeout")
  /\ (forall t, large = false -> c_ends_at c = Some t -> DEADLINE_MS < t -> a = error 504 "psql_timeout")
  /\ (forall t, large = false -> c_ends_at c = Some t -> t <= DEADLINE_MS -> c_code c = Some 0 ->
      let '(total, truncated, csv) := cut_rows (clamp_rows rows) (c_stdout c) in
      get "csv" (a_body a) = Some (JString csv) /\ get "truncated" (a_body a) = Some (JBool truncated) /\ a_status a = 200
      /\ get "rows_returned" (a_body a) = Some (JInt (Z.of_nat (Nat.min total (clamp_rows rows))))
      /\ (1 <= clamp_rows rows <= 10000)%nat).
Proof.
  unfold handle_psql. destruct (is_safe_identifier n); [|by intros [= <- <- <- <-]]. cbn [negb]. destruct (reject_psql_query q); [by intros [= <- <- <- <-]|].
  destruct (get_instance_info p n w) as [[e|info] w1]; [by intros [= <- <- <- <-]|].
  destruct (lookup_cell_id _ _) as [cell_id|]; [|by intros [= <- <- <- <-]]. set (call0 := mkPsql _ _ _).
  destruct (psql call0) as [e|ch] eqn:Ec; [by intros [= <- <- <- <-]|].
  rewrite (wait_child_spec ch WAIT_FUEL 0) by (by vm_compute). intros Hrun call c Hcalls Hpsql. cbn zeta.
  assert (Hch : call = call0 /\ c = ch).
  { assert (Hc0 : calls = [call0]).
    { revert Hrun. destruct (match ends_unread ch with Some _ => _ | None => _ end); [|by intros [= _ _ <- _]].
      destruct (cut_rows _ _) as [[? ?] ?]. destruct (_ =? 0); by intros [= _ _ <- _]. }
    rewrite Hc0 in Hcalls. injection Hcalls as <-. split; [done|]. rewrite Ec in Hpsql. by injection Hpsql. }
  destruct Hch as [-> ->]. unfold ends_unread in Hrun. destruct (_ || _)%nat; [split_and!; [|done|done]; intros _; by injection Hrun as <-|].
  split_and!; [done| |].
  - intros t _ Hend Hlate. rewrite Hend in Hrun. apply Z.leb_gt in Hlate. rewrite Hlate in Hrun. by injection Hrun as <-.
  - intros t _ Hend Hin Hcode. rewrite Hend in Hrun. apply Z.leb_le in Hin. rewrite Hin, Hcode in Hrun. cbn [default from_option id] in Hrun.
    destruct (cut_rows (clamp_rows rows) (c_stdout ch)) as [[total tr] csv]. change (0 =? 0) with true in Hrun. cbv iota in Hrun.
    injection Hrun as <- _ _ _. unfold clamp_rows. split_and!; [done|done|done|done|apply Nat.le_max_l|apply Nat.max_lub; [apply (Nat.leb_le 1 10000); by vm_compute|apply Nat.le_min_r]].
Qed.

(** ** A signed address logs its user in *)
Lemma user_chars u : sso_user_ok u = true -> u <> "" /\ char_in "|" u = false.
Proof.
  unfold sso_user_ok. rewrite !andb_true_iff. intros [[Hne _] H]. split; [by intros ->|].
  by apply (refuses_spec (fun b => is_alnum b || is_one_of "_-.@" b) "|"); [|exact H|].
Qed.
Lemma pct_unreserved s : all_chars unreserved s = true -> pct s = s.
Proof. induction s as [|c s IH]; [done|]. rewrite all_chars_cons, andb_true_iff. intros [Hc Hs]. cbn [pct]. by rewrite Hc, IH. Qed.
Lemma hex_of_unreserved bs : all_chars unreserved (hex_of bs) = true /\ to_lowercase (hex_of bs) = hex_of bs.
Proof.
  assert (Hd : forall i, let c := nth i hex_digits "0"%char in unreserved c = true /\ lower_ascii c = c) by (intros i; do 16 (destruct i as [|i]; [done|]); by destruct i).
  unfold hex_of, all_chars, to_lowercase. rewrite !String.list_ascii_of_string_of_list_ascii. induction bs as [|b bs [IH1 IH2]]; [done|].
  cbn [flat_map app map forallb]. destruct (Hd (Z.to_nat (b / 16))) as [-> ->], (Hd (Z.to_nat (b mod 16))) as [-> ->]. cbn [andb]. split; [exact IH1|].
  cbn [String.string_of_list_ascii] in *. by rewrite IH2.
Qed.
Lemma dec_unreserved z : 0 <= z -> all_chars unreserved (dec z) = true.
Proof.
  intros Hz. apply all_chars_spec. intros c Hc. destruct (char_digit c) eqn:Ed.
  - destruct c as [[] [] [] [] [] [] [] []]; try done; by vm_compute in Ed.
  - by rewrite dec_plain in Hc.
Qed.

(** An address that is issued leads to the name of the instance, which runs, and its query is read back;
    with the secret of the configuration file the guest logs exactly that user in until 30 s later and
    then refuses it, and its signature lets nobody else in nor extends the time unless the
    hash of another text is the same. *)
Theorem sso_login_as_signed `{Listing} `{State.ReadDir} {D : Type} hmac p conf now n user (w : world D) a w' : is_u64 (now + 30) -> 0 <= now ->
  (forall k m, length (hmac k m) = 32%nat) ->
  handle_sso hmac p conf now n user w = (a, w') -> a_status a = 200 ->
  exists info text dns query exp sig, (get_instance_info p n w).1 = inr info /\ ns_running (ii_status info) = true
    /\ ii_dns info = Some dns /\ dns <> "" /\ conf = Some text
    /\ get "url" (a_body a) = Some (JString ("https://" +:+ dns +:+ "/nkr-sso?" +:+ query))
    /\ read_form query = Some [("u", user); ("exp", exp); ("sig", sig)]
    /\ (forall users later, users user = true ->
        sso_check hmac (sso_secret text) true users later user exp sig = if later <=? now + 30 then inr user else inl "sso_expired")
    /\ (forall users later u e, sso_check hmac (sso_secret text) true users later u e sig = inr u ->
        hex_of (hmac (sso_secret text) (sso_payload u e)) = hex_of (hmac (sso_secret text) (sso_payload user exp))).
Proof.
  intros Hu64 Hnow Hlen. unfold handle_sso. destruct (is_safe_identifier n); [|by intros [= <- _]]. cbn [negb].
  destruct (sso_user_ok user) eqn:Hu; [|by intros [= <- _]]. cbn [negb].
  destruct (get_instance_info p n w) as [[e|info] w1]; [by intros [= <- _]|]. destruct (ns_running _) eqn:Er; [|by intros [= <- _]]. cbn [negb].
  destruct (ii_dns info) as [dns|] eqn:Ed; [|by intros [= <- _]]. assert (Hd : dns = "" \/ dns <> "") by (destruct dns; [by left|by right]).
  destruct Hd as [->|Hd]; [by intros [= <- _]|]. destruct conf as [text|]; [|by destruct dns; intros [= <- _]].
  set (secret := sso_secret text). case_bool_decide as Hs; [by destruct dns; intros [= <- _]|].
  set (sig := hex_of (hmac secret (sso_payload user (dec (now + 30))))). intros Ha _.
  destruct (hex_of_unreserved (hmac secret (sso_payload user (dec (now + 30))))) as [Hsig Hlow]. fold sig in Hsig, Hlow.
  exists info, text, dns, ("u=" +:+ url_encode user +:+ "&exp=" +:+ dec (now + 30) +:+ "&sig=" +:+ sig), (dec (now + 30)), sig.
  assert (Hbody : a_body a = JObject [("url", JString ("https://" +:+ dns +:+ "/nkr-sso?u=" +:+ url_encode user +:+ "&exp=" +:+ dec (now + 30) +:+ "&sig=" +:+ sig));
     ("user", JString user); ("expires_in", JInt 30); ("nkr_name", JString n); ("dns", JString dns)]) by (destruct dns; [done|by injection Ha as <- _]).
  apply user_chars in Hu as [Hne Hbar]. assert (Hread : read_number 10 (dec (now + 30)) = Some (now + 30)) by by apply dec_read.
  assert (Hdec : dec (now + 30) <> "") by (intros E; by rewrite E in Hread).
  split_and!; [done|done|done|done|done|by rewrite Hbody| | |].
  - pose proof (Odoo.form_read_back [("u", user); ("exp", dec (now + 30)); ("sig", sig)] ltac:(done)) as Hf. rewrite <- Hf. f_equal.
    cbn [build_form]. rewrite (pct_unreserved (dec (now + 30))) by (apply dec_unreserved; lia). rewrite (pct_unreserved sig) by done.
    change (pct "u") with "u". change (pct "exp") with "exp". change (pct "sig") with "sig". unfold url_encode. by repeat (rewrite string_app_assoc || rewrite append_cons).
  - assert (Hsigne : sig <> "").
    { specialize (Hlen secret (sso_payload user (dec (now + 30)))). unfold sig. by destruct (hmac secret _) as [|b bs]. }
    intros users later Huser. unfold sso_check. rewrite (bool_decide_eq_false_2 (user = "")), (bool_decide_eq_false_2 (dec (now + 30) = "")),
      (bool_decide_eq_false_2 (sig = "")) by done. cbn [orb]. rewrite Hread.
    destruct (Z.ltb_spec (now + 30) later), (Z.leb_spec later (now + 30)); try lia; [done|]. fold secret.
    rewrite bool_decide_eq_false_2 by done. cbn [negb]. rewrite Hlow, bool_decide_eq_true_2 by done. cbn [negb]. by rewrite Huser.
  - intros users later u e. unfold sso_check. destruct (_ || _); [done|]. destruct (read_number 10 e); [|done]. destruct (_ <? _); [done|].
    destruct (bool_decide _); [done|]. cbn [negb]. case_bool_decide as Heq; [|done]. intros _. by rewrite Heq, Hlow.
Qed.

Module AdminExample.
Import InfoExample.
Definition conf_text : string := unlines ["[options]"; "db_name = db-c18-odoo"; "[nkr_sso]"; "secret = 5f0c"].
Definition meta : InstanceMeta :=
  mkMeta "c18-odoo" "c18" None ModeProduction (Some "shop.example.org") None (Some "18.0") None None None None None None Production None None 0.
Definition named_instance : instance := mkInstance (Some conf_text) (Some meta) ∅ None true true ∅.
Definition named_world : world InstancesExample.server :=
  w <| w_cells := {["c18" := mkCellDir (Some (Some InstancesExample.yml)) {["c18-odoo" := named_instance]} ∅ None]} |>.
(** a hash that is none: the codes of the text *)
Definition sum_hash (k m : string) : list Z := take 32 (bytes_of_string (k +:+ m) ++ repeat 0 32).
Definition sso : answer := (handle_sso (D := InstancesExample.server) sum_hash (at_pid "c18-odoo") (Some conf_text) 1700000500 "c18-odoo" "ana@example.org" named_world).1.
Definition rows_text : string := unlines ["id,name"; "1,a"; "2,b"; "3,c"].
Definition ask (out : string) (rows : nat) : answer * list string * list psql_call * world InstancesExample.server :=
  handle_psql (D := InstancesExample.server) (at_pid "c18-odoo") (fun _ => inr (mkChild (Some 20) (Some 0) out "")) 1700000500 "c18-odoo"
    ("select *" +:+ String TAB "from t") rows named_world.
Definition mail : mail_server := mkMail "mx.example.org" 587 "o'brien" "'); DROP TABLE res_users; --" "starttls" "".
Definition psql_ok : psql_run := fun _ _ _ => inr (true, "1").
End AdminExample.
Import AdminExample.

Example sso_url : get "url" (a_body sso) = Some (JString ("https://shop.example.org/nkr-sso?u=ana%40example.org&exp=1700000530&sig="
  +:+ hex_of (sum_hash "5f0c" "ana@example.org|1700000530"))).
Proof. vm_compute. reflexivity. Qed.

(** The filter looks for a blank after [\c] and between the words, and not for the other
    commands of psql that start programs. *)
Example filter_gaps : map reject_psql_query ["\c" +:+ String TAB "other"; "select 1 \g |id"; "\o |id"; "drop  database x"; "\copy t to '/tmp/x'"]
  = [None; None; None; None; None].
Proof. vm_compute. reflexivity. Qed.
(** Two rows are asked for; psql answers its own settings first. *)
Example tags_are_counted : let '(a, _, _, _) := ask ("SET" +:+ String LF ("SET" +:+ String LF rows_text)) 2 in
  get "csv" (a_body a) = Some (JString (join_with LF ["SET"; "SET"; "id,name"])) /\ get "truncated" (a_body a) = Some (JBool true).
Proof. vm_compute. auto. Qed.

Lemma mail_values_stay_literals_witness :
  list.last (upsert_tenant_mail_server (Some {["c18" := 3]}) psql_ok "c18" "db-c18-odoo" mail).2 = Some ("10.0.3.2", "db-c18-odoo", mail_sql mail)
  /\ tokens (mail_sql mail) = Some (statement_tokens (mail_pieces mail) mail_end).
Proof.
  destruct (upsert_tenant_mail_server (Some {["c18" := 3]}) psql_ok "c18" "db-c18-odoo" mail) as [r sql] eqn:E.
  destruct (mail_values_stay_literals (Some {["c18" := 3]}) psql_ok "c18" "db-c18-odoo" mail r sql ltac:(done) E) as [H1 H2].
  assert (Hr : r = inr tt) by (by vm_compute in E; injection E as <- _).
  destruct (H2 Hr) as (id & Hid & Hl). assert (Hid3 : id = 3) by (by vm_compute in Hid; injection Hid as <-). rewrite Hid3 in Hl.
  split; [exact Hl|]. assert (Hin : ("10.0.3.2", "db-c18-odoo", mail_sql mail) ∈ sql) by (apply list.last_Some_elem_of; exact Hl).
  destruct (H1 _ _ _ Hin) as [[Hf _]|[_ Ht]]; [done|exact Ht].
Defined.

Lemma psql_audited_witness :
  let '(a, log, calls, w') := ask rows_text 2 in
  log = [audit_psql 1700000500 "c18-odoo" "db-c18-odoo" ("select *" +:+ String TAB "from t") "ACCEPT"] /\ length calls = 1%nat
  /\ Forall (fun l => exists db status, audit_fields l = Some ["1700000500"; "c18-odoo"; db; status; "select * from t"]) log.
Proof.
  destruct (ask rows_text 2) as [[[a log] calls] w'] eqn:E.
  assert (Hc : map pc_db calls = ["db-c18-odoo"]) by (transitivity (map pc_db (ask rows_text 2).1.2); [by rewrite E|by vm_compute]).
  destruct (psql_audited (InfoExample.at_pid "c18-odoo") (fun _ => inr (mkChild (Some 20) (Some 0) rows_text "")) 1700000500 "c18-odoo"
    ("select *" +:+ String TAB "from t") 2 named_world a log calls w' ltac:(done) E) as (H1 & H2 & _).
  destruct calls as [|c [|c' calls]]; [done| |done]. injection Hc as Hc.
  destruct (H2 c ltac:(left)) as (_ & _ & _ & Hl). rewrite Hc in Hl. split; [exact Hl|]. split; [reflexivity|]. exact H1.
Defined.

Lemma psql_answer_exact_witness :
  get "csv" (a_body (ask rows_text 2).1.1.1) = Some (JString (join_with LF ["id,name"; "1,a"; "2,b"]))
  /\ get "rows_returned" (a_body (ask rows_text 2).1.1.1) = Some (JInt 2).
Proof.
  destruct (ask rows_text 2) as [[[a log] calls] w'] eqn:E. cbn [fst snd].
  assert (Hc : length calls = 1%nat) by (transitivity (length (ask rows_text 2).1.2); [by rewrite E|by vm_compute]).
  destruct calls as [|c [|c' calls]]; [done| |done].
  destruct (psql_answer_exact (InfoExample.at_pid "c18-odoo") (fun _ => inr (mkChild (Some 20) (Some 0) rows_text "")) 1700000500 "c18-odoo"
    ("select *" +:+ String TAB "from t") 2 named_world a log [c] w' E c _ eq_refl eq_refl) as (_ & _ & H).
  specialize (H 20 ltac:(by vm_compute) eq_refl ltac:(done) eq_refl).
  assert (Hcut : cut_rows (clamp_rows 2) rows_text = (3%nat, true, join_with LF ["id,name"; "1,a"; "2,b"])) by by vm_compute.
  cbn [c_stdout] in H. rewrite Hcut in H. destruct H as (H1 & _ & _ & H2 & _). split; [exact H1|exact H2].
Defined.

Lemma sso_login_as_signed_witness : exists query exp sig, read_form query = Some [("u", "ana@example.org"); ("exp", exp); ("sig", sig)]
  /\ sso_check sum_hash (sso_secret conf_text) true (fun _ => true) 1700000510 "ana@example.org" exp sig = inr "ana@example.org"
  /\ sso_check sum_hash (sso_secret conf_text) true (fun _ => true) 1700000531 "ana@example.org" exp sig = inl "sso_expired".
Proof.
  destruct (handle_sso (D := InstancesExample.server) sum_hash (InfoExample.at_pid "c18-odoo") (Some conf_text) 1700000500 "c18-odoo" "ana@example.org" named_world)
    as [a w'] eqn:E.
  assert (Ha : a_status a = 200) by (transitivity (a_status sso); [unfold sso; by rewrite E|by vm_compute]).
  assert (Hlen : forall k m, length (sum_hash k m) = 32%nat).
  { intros k m. unfold sum_hash. rewrite length_take, length_app, repeat_length. lia. }
  destruct (sso_login_as_signed sum_hash (InfoExample.at_pid "c18-odoo") (Some conf_text) 1700000500 "c18-odoo" "ana@example.org" named_world a w'
    ltac:(unfold is_u64; lia) ltac:(lia) Hlen E Ha) as (info & text & dns & query & exp & sig & _ & _ & _ & _ & Ht & _ & Hq & Hl & _).
  injection Ht as <-. exists query, exp, sig. split; [exact Hq|]. split.
  - exact (Hl (fun _ => true) 1700000510 eq_refl).
  - exact (Hl (fun _ => true) 1700000531 eq_refl).
Defined.
