(* ===== verification/Vcpu.v ===== *)
(** * The vCPU loop (src/vmm.rs, [run_vcpu_loop])

    One iteration of the loop looks at the flags the signal handlers set, drives the
    balloon, drains the block completions, runs the guest until its next exit and
    serves that exit.  The flags and timestamps are the process globals; an iteration
    takes the times it observes and the exit of [KVM_RUN] as arguments, so an execution
    of the VM is a sequence of them. *)
From S2P Require Import Prelude GuestMem VirtQueue Virtio Uring.
From S2P Require Import Console Balloon Block Net Pmem VirtioFs.

Definition COM1_PORT : Z := 0x3F8.
Definition BALLOON_STATS_INTERVAL_SECS : Z := 10.
(** [b"SHUTDOWN\n"] and [b"REL_OD\n"] *)
Definition shutdown_msg : list Z := [0x53; 0x48; 0x55; 0x54; 0x44; 0x4F; 0x57; 0x4E; 0x0A].
Definition reload_msg : list Z := [0x52; 0x45; 0x4C; 0x5F; 0x4F; 0x44; 0x0A].

(** ** Process globals *)
Record globals := mkGlobals {
  shutdown_requested : bool;
  reload_requested : bool;
  active_requested_ts : Z;
  last_applied_state : Z;
  idle_mb : Z;
  active_mb : Z;
  decay_secs : Z;
  stats_last_ts : Z;
  shutdown_phase : Z;
  shutdown_started_ms : Z;
  shutdown_last_reinject_ms : Z;
}.
#[export] Instance eta_globals : Eta globals := fun g =>
  mkGlobals (shutdown_requested g) (reload_requested g) (active_requested_ts g)
    (last_applied_state g) (idle_mb g) (active_mb g) (decay_secs g) (stats_last_ts g)
    (shutdown_phase g) (shutdown_started_ms g) (shutdown_last_reinject_ms g).

(** the values of the statics when the process starts *)
Definition globals_init : globals := mkGlobals false false 0 1 0 0 600 0 0 0 0.

(** The signal handlers. *)
Definition sigterm_handler (g : globals) : globals := g <| shutdown_requested := true |>.
Definition sigusr1_handler (g : globals) : globals := g <| reload_requested := true |>.
Definition sigusr2_handler (now_secs : Z) (g : globals) : globals :=
  g <| active_requested_ts := now_secs |>.

(** What an iteration writes to the state file of the VM. *)
Inductive state_update :=
  | UpdateBalloonMb (mb : Z)
  | UpdateGuestMem (total free available cached : Z).

Inductive vcpu_exit :=
  | IoOut (port : Z) (data : list Z)
  | IoIn (port : Z) (data : list Z)
  | MmioRead (addr : Z) (data : list Z)
  | MmioWrite (addr : Z) (data : list Z)
  | Hlt
  | ExitShutdown
  | SystemEvent (evt_type : Z)
  | OtherExit
  | RunError (errno : Z).

(** How an iteration ends: [Next] (also [continue]), [break], or an error. *)
Inductive loop_end := Next | LoopBreak | LoopError.

(** The times an iteration reads: for the shutdown machine in milliseconds, for the
    balloon and the statistics timer in seconds. *)
Record clock := mkClock { now_ms : Z; now_balloon : Z; now_stats : Z }.

Section Machine.
Context `{GuestMemory mem} `{!VirtQueue mem} `{!IoUring} `{!VhostSocket}.
Context (heap_ptr : Z -> Z).
Implicit Types m : mem.

(** [stdout] is what the guest has printed on COM1, [serial_irq] counts the signals
    of the serial interrupt, [itimer] is the period of SIGALRM. *)
Record machine := mkMachine {
  globs : globals;
  net_dev : VirtioNetDevice mem;
  block_devs : list (VirtioBlockDevice mem);
  fs_devs : list VirtioFsDevice;
  balloon_dev : VirtioBalloonDevice mem;
  console_dev : VirtioConsoleDevice;
  pmem_dev : option (VirtioPmemDevice mem);
  serial_ier : Z;
  serial_irq : Z;
  stdout : list Z;
  state_file : list state_update;
  itimer : Z;
}.
#[export] Instance eta_machine : Eta machine := fun s =>
  mkMachine (globs s) (net_dev s) (block_devs s) (fs_devs s) (balloon_dev s) (console_dev s)
    (pmem_dev s) (serial_ier s) (serial_irq s) (stdout s) (state_file s) (itimer s).
Implicit Types s : machine.

(** ** Shutdown and reload *)
Definition arm_balloon_itimer s : machine := s <| itimer := 5 |>.
Definition arm_shutdown_itimer s : machine := s <| itimer := 1 |>.

Definition console_inject s m (msg : list Z) : outcome (machine * mem) :=
  '(c, m) ← try_inject (console_dev s) m msg; Done (s <| console_dev := c |>, m).
Definition console_poll s m : outcome (machine * mem) :=
  '(c, m) ← poll_pending (console_dev s) m; Done (s <| console_dev := c |>, m).

(** [LoopBreak] after 60 seconds. *)
Definition shutdown_step (now : Z) s m : outcome (loop_end * machine * mem) :=
  let g := globs s in
  if negb (shutdown_requested g) then Done (Next, s, m)
  else if shutdown_phase g =? 0 then
    let s := s <| globs ::= fun g => g <| shutdown_started_ms := now |>
                    <| shutdown_last_reinject_ms := now |> <| shutdown_phase := 1 |> |> in
    '(s, m) ← console_inject s m shutdown_msg;
    '(s, m) ← console_poll (arm_shutdown_itimer s) m;
    Done (Next, s, m)
  else if 60 <=? sat_sub now (shutdown_started_ms g) / 1000 then Done (LoopBreak, s, m)
  else
    '(s, m) ← (if 2000 <=? sat_sub now (shutdown_last_reinject_ms g)
               then console_inject (s <| globs ::= fun g => g <| shutdown_last_reinject_ms := now |> |>)
                      m shutdown_msg
               else Done (s, m));
    '(s, m) ← console_poll s m;
    Done (Next, s, m).

Definition reload_step s m : outcome (machine * mem) :=
  if negb (reload_requested (globs s)) then Done (s, m)
  else
    '(s, m) ← console_inject (s <| globs ::= fun g => g <| reload_requested := false |> |>) m reload_msg;
    console_poll s m.

(** ** Balloon *)

(** [set_target_mb; raise_config_change; update_balloon_mb] *)
Definition apply_target (mb : Z) s : machine :=
  s <| balloon_dev ::= fun b => raise_config_change (set_target_mb mb b) |>
    <| state_file ::= fun l => l ++ [UpdateBalloonMb mb] |>.

(** The ACTIVE/IDLE machine.  [late] is a SIGUSR2 that arrives after the request
    timestamp has been loaded and before it is stored again. *)
Definition balloon_tick (now : Z) (late : option Z) s : machine :=
  let signal s := match late with
                  | Some t => s <| globs ::= sigusr2_handler t |>
                  | None => s end in
  let set_ts s := s <| globs ::= fun g => g <| active_requested_ts := 0 |> |> in
  let set_state v s := s <| globs ::= fun g => g <| last_applied_state := v |> |> in
  let g := globs s in
  if negb (idle_mb g =? active_mb g) && (0 <? idle_mb g) then
    if 0 <? active_requested_ts g then
      if sat_sub now (active_requested_ts g) <? decay_secs g then
        let s := signal s in
        if negb (last_applied_state g =? 1) then set_state 1 (apply_target (active_mb g) s) else s
      else
        let s := signal s in
        if negb (last_applied_state g =? 0)
        then set_ts (set_state 0 (apply_target (idle_mb g) s))
        else set_ts s
    else signal s
  else signal s.

Definition stats_tick (now : Z) s m : outcome (machine * mem) :=
  if BALLOON_STATS_INTERVAL_SECS <=? sat_sub now (stats_last_ts (globs s)) then
    let s := s <| globs ::= fun g => g <| stats_last_ts := now |> |> in
    '((fresh, b), m) ← process_stats (balloon_dev s) m;
    let s := s <| balloon_dev := b |> in
    let st := last_stats b in
    Done (if fresh : bool
          then s <| state_file ::= fun l => l ++ [UpdateGuestMem (mem_total_bytes st)
                 (mem_free_bytes st) (mem_available_bytes st) (mem_cached_bytes st)] |>
          else s, m)
  else Done (s, m).

(** ** Block completions *)
Fixpoint poll_blocks (bs : list (VirtioBlockDevice mem)) m : list (VirtioBlockDevice mem) * mem :=
  match bs with
  | [] => ([], m)
  | b :: bs =>
      let '(b, m) := poll_completions b m in
      let '(bs, m) := poll_blocks bs m in (b :: bs, m)
  end.

(** ** The serial port *)
Definition io_out s (port : Z) (data : list Z) : outcome machine :=
  if port =? COM1_PORT then
    let s := s <| stdout ::= fun o => o ++ data |> in
    Done (if negb (Z.land (serial_ier s) 2 =? 0) then s <| serial_irq ::= Z.succ |> else s)
  else if port =? 0x3F9 then
    ier ← index data 0;
    let s := s <| serial_ier := ier |> in
    Done (if negb (Z.land ier 2 =? 0) then s <| serial_irq ::= Z.succ |> else s)
  else Done s.

Definition io_in s (port : Z) (data : list Z) : outcome (list Z) :=
  if port =? 0x3F8 then Done (fill 0 data)
  else if port =? 0x3F9 then index_set data 0 (serial_ier s)
  else if port =? 0x3FA then index_set data 0 (if negb (Z.land (serial_ier s) 2 =? 0) then 2 else 1)
  else if port =? 0x3FB then Done (fill 0 data)
  else if port =? 0x3FC then Done (fill 0 data)
  else if port =? 0x3FD then Done (fill 0x60 data)
  else if port =? 0x3FE then Done (fill 0xB0 data)
  else if (port =? 0x60) || (port =? 0x64) then Done (fill 0 data)
  else Done (fill 0xFF data).

(** ** The MMIO bus *)
Definition in_page (base addr : Z) : bool := (base <=? addr) && (addr <? base + 0x1000).

Definition NET_MMIO_ADDR : Z := 0xD0000000.
Definition base_block : Z := 0xD0001000.
Definition STUB_MMIO_ADDR : Z := 0xD0002000.

(** the first block device whose page holds the address *)
Fixpoint blocks_read (i : Z) (bs : list (VirtioBlockDevice mem)) (addr : Z) (data : list Z)
  : outcome (list Z) :=
  match bs with
  | [] => Done data
  | b :: bs =>
      let dev_base := base_block + i * 0x1000 in
      if in_page dev_base addr then Block.mmio_read b (addr - dev_base) data
      else blocks_read (i + 1) bs addr data
  end.

Fixpoint blocks_write (i : Z) (bs : list (VirtioBlockDevice mem)) m (addr : Z) (data : list Z)
  : outcome (list (VirtioBlockDevice mem) * mem) :=
  match bs with
  | [] => Done ([], m)
  | b :: bs =>
      let dev_base := base_block + i * 0x1000 in
      if in_page dev_base addr then
        '(b, m) ← Block.mmio_write b m (addr - dev_base) data; Done (b :: bs, m)
      else '(bs, m) ← blocks_write (i + 1) bs m addr data; Done (b :: bs, m)
  end.

(** the read-only console stub left at 0xD0002000 *)
Definition stub_read (off : Z) (data : list Z) : outcome (list Z) :=
  if off =? 0x000 then put_u32 0x74726976 data
  else if off =? 0x004 then put_u32 2 data
  else if off =? 0x008 then put_u32 3 data
  else if off =? 0x00C then put_u32 nkr_vendor data
  else if off =? 0x010 then Done (fill 0 data)
  else if off =? 0x014 then put_u32 1 data
  else if off =? 0x034 then put_u32 256 data
  else Done (fill 0 data).

Fixpoint fs_read (fs : list VirtioFsDevice) (addr : Z) (data : list Z) : outcome (list Z) :=
  match fs with
  | [] => Done data
  | f :: fs =>
      if in_page (mmio_addr f) addr then VirtioFs.mmio_read f (addr - mmio_addr f) data
      else fs_read fs addr data
  end.

Fixpoint fs_write (fs : list VirtioFsDevice) (addr : Z) (data : list Z)
  : outcome (list VirtioFsDevice) :=
  match fs with
  | [] => Done []
  | f :: fs =>
      if in_page (mmio_addr f) addr then
        f ← VirtioFs.mmio_write f (addr - mmio_addr f) data; Done (f :: fs)
      else fs ← fs_write fs addr data; Done (f :: fs)
  end.

(** Every device past the net page is tried in turn on the same buffer. *)
Definition bus_read s (addr : Z) (data : list Z) : outcome (list Z) :=
  if in_page NET_MMIO_ADDR addr then Net.mmio_read (net_dev s) (addr - NET_MMIO_ADDR) data
  else
    data ← blocks_read 0 (block_devs s) addr data;
    data ← (if in_page STUB_MMIO_ADDR addr then stub_read (addr - STUB_MMIO_ADDR) data
            else Done data);
    data ← (if in_page PMEM_MMIO_ADDR addr then
              match pmem_dev s with
              | Some p => Pmem.mmio_read p (addr - PMEM_MMIO_ADDR) data
              | None => Done data
              end
            else Done data);
    data ← fs_read (fs_devs s) addr data;
    data ← (if in_page BALLOON_MMIO_ADDR addr
            then Balloon.mmio_read (balloon_dev s) (addr - BALLOON_MMIO_ADDR) data
            else Done data);
    if in_page CONSOLE_MMIO_ADDR addr
    then Console.mmio_read (console_dev s) (addr - CONSOLE_MMIO_ADDR) data
    else Done data.

(** the pages past the block devices, in the order of the source *)
Definition pmem_write s m (addr : Z) (data : list Z) : outcome (machine * mem) :=
  if in_page PMEM_MMIO_ADDR addr then
    match pmem_dev s with
    | Some p =>
        '(p, m) ← Pmem.mmio_write p m (addr - PMEM_MMIO_ADDR) data;
        Done (s <| pmem_dev := Some p |>, m)
    | None => Done (s, m)
    end
  else Done (s, m).

Definition balloon_write s m (addr : Z) (data : list Z) : outcome (machine * mem) :=
  if in_page BALLOON_MMIO_ADDR addr then
    '(b, m) ← Balloon.mmio_write (balloon_dev s) m (addr - BALLOON_MMIO_ADDR) data;
    Done (s <| balloon_dev := b |>, m)
  else Done (s, m).

Definition console_write s m (addr : Z) (data : list Z) : outcome (machine * mem) :=
  if in_page CONSOLE_MMIO_ADDR addr then
    c ← Console.mmio_write (console_dev s) (addr - CONSOLE_MMIO_ADDR) data;
    Done (s <| console_dev := c |>, m)
  else Done (s, m).

Definition bus_write s m (addr : Z) (data : list Z) : outcome (machine * mem) :=
  if in_page NET_MMIO_ADDR addr then
    '(n, m) ← Net.mmio_write heap_ptr (net_dev s) m (addr - NET_MMIO_ADDR) data;
    Done (s <| net_dev := n |>, m)
  else
    '(bs, m) ← blocks_write 0 (block_devs s) m addr data;
    '(s, m) ← pmem_write (s <| block_devs := bs |>) m addr data;
    fs ← fs_write (fs_devs s) addr data;
    '(s, m) ← balloon_write (s <| fs_devs := fs |>) m addr data;
    console_write s m addr data.

(** ** One iteration *)

(** The last component is the data returned to the guest by a read. *)
Definition serve_exit (e : vcpu_exit) s m : outcome (loop_end * machine * mem * list Z) :=
  match e with
  | IoOut port data => s ← io_out s port data; Done (Next, s, m, data)
  | IoIn port data => data ← io_in s port data; Done (Next, s, m, data)
  | MmioRead addr data => data ← bus_read s addr data; Done (Next, s, m, data)
  | MmioWrite addr data => '(s, m) ← bus_write s m addr data; Done (Next, s, m, data)
  | Hlt | ExitShutdown | SystemEvent _ => Done (LoopBreak, s, m, [])
  | OtherExit => Done (Next, s, m, [])
  | RunError errno => Done (if errno =? 4 then Next else LoopError, s, m, [])
  end.

Definition iteration (clk : clock) (late : option Z) (e : vcpu_exit) s m
  : outcome (loop_end * machine * mem * list Z) :=
  '((r, s), m) ← shutdown_step (now_ms clk) s m;
  match r with
  | Next =>
      '(s, m) ← reload_step s m;
      let s := balloon_tick (now_balloon clk) late s in
      '(s, m) ← stats_tick (now_stats clk) s m;
      let '(bs, m) := poll_blocks (block_devs s) m in
      serve_exit e (s <| block_devs := bs |>) m
  | _ => Done (r, s, m, [])
  end.
End Machine.
Arguments machine mem {_ _ _}.

(** ** Guest accesses *)
Section Access.
Context `{HM : GuestMemoryLaws mem} `{HV : !VirtQueue mem} `{HQ : !VirtQueueLaws mem}
  `{HU : !IoUring} `{HS : !VhostSocket}.
Context (heap_ptr : Z -> Z).
Implicit Types (m : mem) (s : machine mem).

(** What the start-up code establishes: every transport array has its length, no disk has
    more requests in flight than its cap, and the fs windows lie between 0xD0010000 and
    0xD0020000.  A disk may have an io_uring ring or none. *)
Record machine_ok (cap : Z) s : Prop := {
  ok_net : Net.wf (net_dev s);
  ok_blocks : Forall block_ok (block_devs s);
  ok_fs : Forall VirtioFs.wf (fs_devs s);
  ok_fs_window : Forall (fun f => 0xD0010000 <= mmio_addr f < 0xD0020000) (fs_devs s);
  ok_balloon : Balloon.wf cap (balloon_dev s);
  ok_console : Console.wf (console_dev s);
  ok_console_sel : 0 <= queue_sel (Console.regs (console_dev s));
}.

(** [addr] notifies a disk without a ring, whose synchronous path panics on what the guest
    has queued *)
Definition sync_fault i (bs : list (VirtioBlockDevice mem)) m addr : Prop :=
  exists k b, bs !! k = Some b /\ addr = base_block + (i + Z.of_nat k) * 0x1000 + 0x050 /\ sync_panics b m.

Lemma in_block_page i k addr off : 0 <= off < 0x1000 -> addr = base_block + (i + Z.of_nat k) * 0x1000 + off ->
  in_page (base_block + i * 0x1000) addr = true -> k = 0%nat.
Proof. intros Ho ->. unfold in_page. rewrite andb_true_iff, Z.leb_le, Z.ltb_lt. lia. Qed.

Lemma blocks_write_cases i bs m addr data : Forall block_ok bs ->
  (panics (blocks_write i bs m addr data) = true <-> sync_fault i bs m addr)
  /\ (forall bs' m', blocks_write i bs m addr data = Done (bs', m') -> Forall block_ok bs').
Proof.
  intros Hb. revert i. induction Hb as [|b bs Hok Hbs IH]; intros i; cbn [blocks_write].
  { split; [split; [done|by intros (k & ? & ? & _)]|by intros ? ? [= <- <-]]. }
  destruct (block_write_cases b m (addr - (base_block + i * 0x1000)) data Hok) as [Hp Hk].
  destruct (in_page (base_block + i * 0x1000) addr) eqn:Ei.
  - rewrite panics_bind. destruct (Block.mmio_write b m _ data) as [[b1 m1]|] eqn:E; cbn [panics mbind outcome_bind] in *.
    + split; [|intros ? ? [= <- <-]; constructor; [by eapply Hk|done]]. split; [done|]. intros (k & b2 & Hl & Ha & Hs). exfalso.
      assert (k = 0%nat) as -> by (by eapply in_block_page; [|exact Ha|exact Ei]). injection Hl as ->.
      assert (false = true) by (apply Hp; split; [lia|done]). done.
    + split; [|done]. split; [|done]. intros _. destruct (proj1 Hp eq_refl) as [Ho Hs]. exists 0%nat, b. split_and!; [done|lia|done].
  - destruct (IH (i + 1)) as [IH1 IH2]. rewrite panics_bind. destruct (blocks_write (i + 1) bs m addr data) as [[bs1 m1]|] eqn:E; cbn [panics mbind outcome_bind] in *.
    + split; [|intros ? ? [= <- <-]; constructor; [done|by eapply IH2]]. split; [done|]. intros (k & b2 & Hl & Ha & Hs). destruct k as [|k].
      * exfalso. revert Ei. unfold in_page. rewrite andb_false_iff, Z.leb_gt, Z.ltb_ge. lia.
      * apply IH1. exists k, b2. split_and!; [done|lia|done].
    + split; [|done]. split; [|done]. intros _. destruct (proj1 IH1 eq_refl) as (k & b2 & Hl & Ha & Hs). exists (S k), b2. split_and!; [done|lia|done].
Qed.

Lemma fs_write_mmio_addr f off data f' :
  VirtioFs.mmio_write f off data = Done f' -> mmio_addr f' = mmio_addr f.
Proof.
  assert (Hu : forall qi g f', update_queue f qi g = Done f' -> mmio_addr f' = mmio_addr f).
  { intros qi g f1. unfold update_queue. destruct (index _ qi); simpl; [|done].
    destruct (index_set _ _ _); simpl; [|done]. by intros [= <-]. }
  assert (Hd : forall g, mmio_addr (on_driver_ok g) = mmio_addr g).
  { intros g. unfold on_driver_ok, setup_queues. case_match; [done|].
    destruct (vhost_sock g); [|done]. destruct (setup_io g _) as [[]]; done. }
  unfold VirtioFs.mmio_write.
  repeat (case_match; [solve [ apply Hu | by intros [= <-]
    | unfold VirtioFs.process_queue; case_match; [|by intros [= <-]];
      destruct (index _ _); simpl; [|done]; destruct (index_set _ _ _); simpl; [|done];
      by intros [= <-]
    | case_match; [by intros [= <-]|]; intros [= <-]; case_match; rewrite ?Hd; done ]|]).
  by intros [= <-].
Qed.

Lemma fs_write_ok fs addr data :
  Forall VirtioFs.wf fs -> length data = 4%nat -> bytes_ok data ->
  exists fs', fs_write fs addr data = Done fs' /\ Forall VirtioFs.wf fs' /\ map mmio_addr fs' = map mmio_addr fs.
Proof.
  intros Hf Hd Hb. induction Hf as [|f fs Hwf Hfs IH]; simpl; [eauto|]. case_match.
  - destruct (fs_registers_total f (addr - mmio_addr f) data Hwf Hd Hb) as (_ & f' & E & Hwf').
    rewrite E. simpl. eexists. split; [done|]. split; [by constructor|]. simpl.
    f_equal. by eapply fs_write_mmio_addr.
  - destruct IH as (fs' & -> & ? & ?). simpl. eexists. split; [done|].
    split; [by constructor|]. simpl. by f_equal.
Qed.

Lemma blocks_read_ok i bs addr data :
  length data = 4%nat -> exists out, blocks_read i bs addr data = Done out /\ length out = 4%nat.
Proof.
  intros Hd. revert i. induction bs as [|b bs IH]; intros i; simpl; [eauto|].
  case_match; [|apply IH]. pose proof (block_read_total b (addr - (base_block + i * 0x1000)) data Hd).
  destruct (Block.mmio_read _ _ _) as [out|] eqn:E; [|done].
  apply block_read_length in E. exists out. split; [done|congruence].
Qed.

Lemma stub_read_ok off data :
  length data = 4%nat -> exists out, stub_read off data = Done out /\ length out = 4%nat.
Proof.
  intros Hd. unfold stub_read. autorewrite with nkr_reg.
  repeat (case_match; [eexists; split; [reflexivity|]; rewrite ?length_fill; first [done|apply length_le_bytes]|]).
  eexists; split; [reflexivity|by rewrite length_fill].
Qed.

Lemma fs_read_ok fs addr data :
  Forall VirtioFs.wf fs -> length data = 4%nat ->
  exists out, fs_read fs addr data = Done out /\ length out = 4%nat.
Proof.
  intros Hf Hd. induction Hf as [|f fs Hwf _ IH]; simpl; [eauto|].
  case_match; [|done]. pose proof (fs_read_total f (addr - mmio_addr f) data Hwf Hd).
  destruct (VirtioFs.mmio_read _ _ _) as [out|] eqn:E; [|done].
  apply fs_read_length in E. exists out. split; [done|congruence].
Qed.

Lemma bus_read_ok cap s addr data :
  machine_ok cap s -> length data = 4%nat -> panics (bus_read s addr data) = false.
Proof.
  intros [Hn Hb Hf _ Hba Hc Hcs] Hd. unfold bus_read.
  case_match; [by apply net_read_total|].
  destruct (blocks_read_ok 0 (block_devs s) addr data Hd) as (d1 & -> & L1). simpl.
  assert (exists d2, (if in_page STUB_MMIO_ADDR addr then stub_read (addr - STUB_MMIO_ADDR) d1
                      else Done d1) = Done d2 /\ length d2 = 4%nat) as (d2 & -> & L2)
    by (case_match; [by apply stub_read_ok|eauto]). simpl.
  assert (exists d3, (if in_page PMEM_MMIO_ADDR addr then
                        match pmem_dev s with
                        | Some p => Pmem.mmio_read p (addr - PMEM_MMIO_ADDR) d2
                        | None => Done d2 end
                      else Done d2) = Done d3 /\ length d3 = 4%nat) as (d3 & -> & L3).
  { case_match; [|eauto]. destruct (pmem_dev s) as [p|]; [|eauto].
    pose proof (pmem_read_total p (addr - PMEM_MMIO_ADDR) d2 L2).
    destruct (Pmem.mmio_read _ _ _) as [out|] eqn:E; [|done].
    apply pmem_read_length in E. exists out. split; [done|congruence]. }
  simpl. destruct (fs_read_ok (fs_devs s) addr d3 Hf L3) as (d4 & -> & L4). simpl.
  assert (exists d5, (if in_page BALLOON_MMIO_ADDR addr
                      then Balloon.mmio_read (balloon_dev s) (addr - BALLOON_MMIO_ADDR) d4
                      else Done d4) = Done d5 /\ length d5 = 4%nat) as (d5 & -> & L5).
  { case_match; [|eauto]. pose proof (balloon_read_total _ _ (addr - BALLOON_MMIO_ADDR) d4 Hba L4).
    destruct (Balloon.mmio_read _ _ _) as [out|] eqn:E; [|done].
    apply balloon_read_length in E. exists out. split; [done|congruence]. }
  simpl. case_match; [|done].
  by apply (console_mmio_panics_iff (console_dev s) (addr - CONSOLE_MMIO_ADDR) d5).
Qed.

Lemma pmem_page_write_total s m addr data :
  exists p m', pmem_write s m addr data = Done (s <| pmem_dev := p |>, m').
Proof.
  unfold pmem_write. case_match; [|exists (pmem_dev s), m; by destruct s].
  destruct (pmem_dev s) as [p|] eqn:Ep; [|exists None, m; destruct s; simpl in *; by subst].
  destruct (pmem_write_total p m (addr - PMEM_MMIO_ADDR) data) as (p1 & m2 & ->).
  by exists (Some p1), m2.
Qed.

Lemma balloon_page_write_total cap s m addr data :
  Balloon.wf cap (balloon_dev s) -> bytes_ok data ->
  exists b m', balloon_write s m addr data = Done (s <| balloon_dev := b |>, m') /\ Balloon.wf cap b.
Proof.
  intros Hb Hby. unfold balloon_write.
  case_match; [|exists (balloon_dev s), m; split; [by destruct s|done]].
  destruct (mmio_write_wf _ _ m (addr - BALLOON_MMIO_ADDR) data Hby Hb) as (b & m3 & -> & Hb').
  by exists b, m3.
Qed.

(** A write past the net page that no disk panics on reaches the console with the devices before it intact. *)
Lemma bus_write_before_console cap s m addr data :
  machine_ok cap s -> length data = 4%nat -> bytes_ok data -> in_page NET_MMIO_ADDR addr = false ->
  panics (blocks_write 0 (block_devs s) m addr data) = false ->
  exists s' m',
    bus_write heap_ptr s m addr data = console_write s' m' addr data
    /\ machine_ok cap s' /\ console_dev s' = console_dev s /\ globs s' = globs s.
Proof.
  intros [Hn Hb Hf Hw Hba Hc Hcs] Hd Hby Hnet Hblk. unfold bus_write. rewrite Hnet.
  destruct (blocks_write_cases 0 (block_devs s) m addr data Hb) as [_ Hb1].
  destruct (blocks_write 0 (block_devs s) m addr data) as [[bs m1]|]; [|done]. specialize (Hb1 bs m1 eq_refl).
  cbn [mbind outcome_bind]. set (s1 := s <| block_devs := bs |>).
  destruct (pmem_page_write_total s1 m1 addr data) as (p & m2 & ->). cbn [mbind outcome_bind].
  destruct (fs_write_ok (fs_devs s) addr data Hf Hd Hby) as (fs & E & Hf1 & Ha).
  change (fs_devs (s1 <| pmem_dev := p |>)) with (fs_devs s). rewrite E. cbn [mbind outcome_bind].
  match goal with |- context [balloon_write ?x m2 addr data] =>
    destruct (balloon_page_write_total cap x m2 addr data Hba Hby) as (b & m3 & -> & Hb') end. cbn [mbind outcome_bind].
  eexists _, m3. split; [reflexivity|]. split; [|done]. split; try done.
  apply (List.Forall_map mmio_addr (fun a => 0xD0010000 <= a < 0xD0020000)). simpl. rewrite Ha.
  by apply (List.Forall_map mmio_addr (fun a => 0xD0010000 <= a < 0xD0020000)).
Qed.

Lemma bus_write_block_panic s m addr data : in_page NET_MMIO_ADDR addr = false ->
  panics (blocks_write 0 (block_devs s) m addr data) = true -> panics (bus_write heap_ptr s m addr data) = true.
Proof. intros Hnet Hp. unfold bus_write. rewrite Hnet. by destruct (blocks_write 0 (block_devs s) m addr data) as [[bs m1]|]. Qed.

Lemma net_access s m addr data :
  in_page NET_MMIO_ADDR addr = true -> machine_ok 0 s \/ Net.wf (net_dev s) -> length data = 4%nat ->
  (panics (bus_write heap_ptr s m addr data) = true
   <-> addr = NET_MMIO_ADDR + 0x044 /\ mmio_val data <> 1 /\ 2 <= queue_sel (Net.regs (net_dev s))).
Proof.
  intros En Hok Hd. assert (Hn : Net.wf (net_dev s)) by (destruct Hok as [[]|]; done).
  unfold bus_write. rewrite En, panics_bind.
  apply andb_true_iff in En as [?%Z.leb_le ?%Z.ltb_lt].
  pose proof (proj2 (net_mmio_panics_iff heap_ptr (net_dev s) m (addr - NET_MMIO_ADDR) data Hn Hd)) as Hp.
  destruct (Net.mmio_write _ _ _ _ _) as [[n m']|]; simpl in Hp |- *; rewrite Hp;
    (split; intros (? & ? & ?); (split; [lia|by split])).
Qed.

Lemma console_access cap s s' m' addr data :
  machine_ok cap s -> console_dev s' = console_dev s -> length data = 4%nat ->
  (panics (console_write s' m' addr data) = true
   <-> addr = CONSOLE_MMIO_ADDR + 0x044 /\ mmio_val data = 1
       /\ 2 <= queue_sel (Console.regs (console_dev s))).
Proof.
  intros Hok Hc Hd. unfold console_write. rewrite Hc.
  pose proof (proj2 (console_mmio_panics_iff (console_dev s) (addr - CONSOLE_MMIO_ADDR) data
    (ok_console _ _ Hok) (ok_console_sel _ _ Hok) Hd)) as Hp.
  unfold in_page. case_match eqn:Ec.
  - apply andb_true_iff in Ec as [?%Z.leb_le ?%Z.ltb_lt]. rewrite panics_bind.
    destruct (Console.mmio_write _ _ _) as [c|]; simpl in Hp |- *; rewrite Hp;
      (split; intros (? & ? & ?); (split; [lia|by split])).
  - simpl. split; [done|]. apply andb_false_iff in Ec. rewrite Z.leb_gt, Z.ltb_ge in Ec. lia.
Qed.

Lemma bus_write_keeps_ok cap s m addr data s' m' :
  machine_ok cap s -> length data = 4%nat -> bytes_ok data ->
  bus_write heap_ptr s m addr data = Done (s', m') -> machine_ok cap s'.
Proof.
  intros Hok Hd Hby. destruct (in_page NET_MMIO_ADDR addr) eqn:En.
  - unfold bus_write. rewrite En. destruct (Net.mmio_write _ _ _ _ _) as [[n m1]|] eqn:E; simpl; [|done].
    intros [= <- <-]. destruct Hok. split; try done. by eapply net_write_wf.
  - destruct (panics (blocks_write 0 (block_devs s) m addr data)) eqn:Hblk.
    { intros E. by rewrite (bus_write_block_panic s m addr data En Hblk) || (pose proof (bus_write_block_panic s m addr data En Hblk) as Hp; by rewrite E in Hp). }
    destruct (bus_write_before_console _ s m addr data Hok Hd Hby En Hblk) as (s1 & m1 & -> & Hok1 & Hc & _).
    unfold console_write. case_match; [|by intros [= <- <-]].
    destruct (Console.mmio_write _ _ _) as [c|] eqn:E; simpl; [|done]. intros [= <- <-].
    destruct Hok1. apply console_write_wf in E as (? & ? & _); try done.
Qed.

(** C2. What a guest can crash: on a machine as the start-up code builds it, with or without
    io_uring, a 4-byte read of any guest-physical MMIO address returns, and a 4-byte write
    makes the VMM panic in exactly three cases: two writes of QueueReady with an out-of-range
    QueueSel (any value but 1 on the net device, the value 1 on the console), and the notification
    of a ready disk without io_uring on whose queue the synchronous path panics.  Every other
    write leaves a machine of which the same holds. *)
Theorem guest_access_panics_iff cap s m addr data :
  machine_ok cap s -> length data = 4%nat -> bytes_ok data ->
  panics (bus_read s addr data) = false
  /\ (panics (bus_write heap_ptr s m addr data) = true
      <-> (addr = NET_MMIO_ADDR + 0x044 /\ mmio_val data <> 1 /\ 2 <= queue_sel (Net.regs (net_dev s)))
          \/ (addr = CONSOLE_MMIO_ADDR + 0x044 /\ mmio_val data = 1
              /\ 2 <= queue_sel (Console.regs (console_dev s)))
          \/ (in_page NET_MMIO_ADDR addr = false /\ sync_fault 0 (block_devs s) m addr))
  /\ (forall s' m', bus_write heap_ptr s m addr data = Done (s', m') -> machine_ok cap s').
Proof.
  intros Hok Hd Hby.
  split_and!; [by eapply bus_read_ok| |intros s' m'; by apply bus_write_keeps_ok].
  destruct (in_page NET_MMIO_ADDR addr) eqn:En.
  - rewrite (net_access s m addr data En (or_intror (ok_net _ _ Hok)) Hd).
    apply andb_true_iff in En as [?%Z.leb_le ?%Z.ltb_lt]. unfold NET_MMIO_ADDR, CONSOLE_MMIO_ADDR in *.
    split; [by left|]. intros [?|[(? & _)|[? _]]]; [done|lia|done].
  - destruct (blocks_write_cases 0 (block_devs s) m addr data (ok_blocks _ _ Hok)) as [Hf _].
    destruct (panics (blocks_write 0 (block_devs s) m addr data)) eqn:Hblk.
    + rewrite (bus_write_block_panic s m addr data En Hblk). split; [|done]. intros _. right. right. split; [done|by apply Hf].
    + destruct (bus_write_before_console _ s m addr data Hok Hd Hby En Hblk) as (s' & m' & -> & _ & Hc & _).
      rewrite (console_access _ s s' m' addr data Hok Hc Hd).
      split; [by right; left|]. intros [(-> & _)|[?|[_ Hs%Hf]]]; [discriminate En|done|done].
Qed.
End Access.

(** ** The stub at 0xD0002000 *)
Section Shadowing.
Context `{GuestMemory mem} `{!VirtQueue mem} `{!IoUring} `{!VhostSocket}.

(** The second block device cannot be probed: its register page is also claimed by
    the console stub, which answers after it, so that whatever the device says, the
    guest reads device id 3 (console) where it should read 2 (block). *)
Theorem second_block_shadowed (s : machine mem) b0 b1 bs data :
  block_devs s = b0 :: b1 :: bs -> length data = 4%nat ->
  Forall (fun f => 0xD0010000 <= mmio_addr f < 0xD0020000) (fs_devs s) ->
  Block.mmio_read b1 0x008 data = Done (le_bytes 4 2)
  /\ bus_read s (base_block + 0x1000 + 0x008) data = Done (le_bytes 4 3).
Proof.
  intros Hb Hd Hf.
  assert (Hb1 : Block.mmio_read b1 0x008 data = Done (le_bytes 4 2))
    by (unfold Block.mmio_read; simpl; by rewrite put_u32_4).
  split; [done|]. change (base_block + 0x1000 + 0x008) with 0xD0002008. unfold bus_read. rewrite Hb.
  change (blocks_read 0 (b0 :: b1 :: bs) 0xD0002008 data) with (Block.mmio_read b1 0x008 data).
  rewrite Hb1. cbn [mbind outcome_bind].
  change (if in_page NET_MMIO_ADDR 0xD0002008 then _ else ?x) with x.
  change (if in_page STUB_MMIO_ADDR 0xD0002008 then _ else _) with (put_u32 3 (le_bytes 4 2)).
  rewrite put_u32_4 by apply length_le_bytes. cbn [mbind outcome_bind].
  change (if in_page PMEM_MMIO_ADDR 0xD0002008 then _ else ?x) with x. cbn [mbind outcome_bind].
  assert (E : forall out, fs_read (fs_devs s) 0xD0002008 out = Done out).
  { intros out. induction Hf as [|f fs Ha _ IH]; simpl; [done|]. unfold in_page.
    case_match eqn:E; [|done]. apply andb_true_iff in E as [?%Z.leb_le _]. lia. }
  rewrite E. done.
Qed.
End Shadowing.

(** ** Executions *)
Inductive signal := Sigterm | Sigusr1 | Sigusr2 (now_secs : Z).

Definition deliver (sg : signal) (g : globals) : globals :=
  match sg with
  | Sigterm => sigterm_handler g
  | Sigusr1 => sigusr1_handler g
  | Sigusr2 t => sigusr2_handler t g
  end.

(** One turn of the loop: the signals that arrive before it, and what it observes. *)
Record turn := mkTurn {
  t_signals : list signal;
  t_clock : clock;
  t_late : option Z;
  t_exit : vcpu_exit;
}.

Section Runs.
Context `{GuestMemory mem} `{!VirtQueue mem} `{!IoUring} `{!VhostSocket}.
Context (heap_ptr : Z -> Z).
Implicit Types (m : mem) (s : machine mem).

Definition run_turn (t : turn) s m : outcome (loop_end * machine mem * mem * list Z) :=
  iteration heap_ptr (t_clock t) (t_late t) (t_exit t)
    (s <| globs ::= fun g => fold_left (fun g sg => deliver sg g) (t_signals t) g |>) m.

Fixpoint run_loop (ts : list turn) s m : outcome (loop_end * machine mem * mem) :=
  match ts with
  | [] => Done (Next, s, m)
  | t :: ts =>
      '((r, s, m), _) ← run_turn t s m;
      match r with
      | Next => run_loop ts s m
      | _ => Done (r, s, m)
      end
  end.

(** What serving an exit leaves alone. *)
Definition untouched s s' : Prop :=
  globs s' = globs s /\ itimer s' = itimer s
  /\ pending_inject (console_dev s') = pending_inject (console_dev s).

Lemma console_write_pending d off data d' :
  Console.mmio_write d off data = Done d' -> pending_inject d' = pending_inject d.
Proof.
  unfold Console.mmio_write.
  repeat (case_match; try by intros [= <-]); try by intros [= <-].
  all: destruct (index_set _ _ _); simpl; [|done]; by intros [= <-].
Qed.

Lemma bus_write_untouched s m addr data s' m' :
  bus_write heap_ptr s m addr data = Done (s', m') -> untouched s s'.
Proof.
  unfold bus_write. case_match.
  { destruct (Net.mmio_write _ _ _ _ _) as [[n m1]|]; simpl; [|done]. by intros [= <- <-]. }
  destruct (blocks_write _ _ _ _ _) as [[bs m1]|]; cbn [mbind outcome_bind]; [|done].
  unfold pmem_write. intros E.
  assert (exists s1 m1, untouched s s1 /\
    (fs ← fs_write (fs_devs s1) addr data;
     '(s, m) ← balloon_write (s1 <| fs_devs := fs |>) m1 addr data;
     console_write s m addr data) = Done (s', m')) as (s1 & m2 & Hs1 & E1).
  { repeat case_match; cbn [mbind outcome_bind] in E; try (by eexists _, _; split; [|exact E]).
    destruct (Pmem.mmio_write _ _ _ _) as [[p m2]|]; cbn [mbind outcome_bind] in E; [|done].
    by eexists _, _; split; [|exact E]. }
  clear E. destruct (fs_write _ _ _) as [fs|]; cbn [mbind outcome_bind] in E1; [|done].
  assert (exists s2 m3, untouched s s2 /\ console_write s2 m3 addr data = Done (s', m'))
    as (s2 & m3 & Hs2 & E2).
  { unfold balloon_write in E1. case_match; cbn [mbind outcome_bind] in E1;
      [|by eexists _, _; split; [|exact E1]].
    destruct (Balloon.mmio_write _ _ _ _) as [[b m3]|]; cbn [mbind outcome_bind] in E1; [|done].
    by eexists _, _; split; [|exact E1]. }
  unfold console_write in E2. case_match; [|by simplify_eq].
  destruct (Console.mmio_write _ _ _) as [c|] eqn:Ec; simpl in E2; [|done].
  injection E2 as <- _. apply console_write_pending in Ec. destruct Hs2 as (? & ? & ?).
  split_and!; simpl; congruence.
Qed.

Lemma serve_exit_untouched e s m r s' m' data :
  serve_exit heap_ptr e s m = Done (r, s', m', data) -> untouched s s'.
Proof.
  destruct e; simpl; try by intros [= <- <- <- <-].
  - unfold io_out. repeat case_match; simpl; try by intros [= <- <- <- <-].
    all: destruct (index data0 0); simpl; [|done]; case_match; by intros [= <- <- <- <-].
  - destruct (io_in s port data0); simpl; [|done]. by intros [= <- <- <- <-].
  - destruct (bus_read s addr data0); simpl; [|done]. by intros [= <- <- <- <-].
  - destruct (bus_write heap_ptr s m addr data0) as [[s1 m1]|] eqn:E; simpl; [|done].
    intros [= <- <- <- <-]. by eapply bus_write_untouched.
Qed.

Lemma balloon_tick_frame now late s :
  let s' := balloon_tick now late s in
  shutdown_requested (globs s') = shutdown_requested (globs s)
  /\ reload_requested (globs s') = reload_requested (globs s)
  /\ shutdown_phase (globs s') = shutdown_phase (globs s)
  /\ shutdown_started_ms (globs s') = shutdown_started_ms (globs s)
  /\ itimer s' = itimer s /\ console_dev s' = console_dev s.
Proof. unfold balloon_tick. destruct late; repeat case_match; done. Qed.

Lemma stats_tick_frame now s m s' m' :
  stats_tick now s m = Done (s', m') ->
  shutdown_requested (globs s') = shutdown_requested (globs s)
  /\ reload_requested (globs s') = reload_requested (globs s)
  /\ shutdown_phase (globs s') = shutdown_phase (globs s)
  /\ shutdown_started_ms (globs s') = shutdown_started_ms (globs s)
  /\ itimer s' = itimer s /\ console_dev s' = console_dev s.
Proof.
  unfold stats_tick. case_match; [|by intros [= <- <-]].
  destruct (process_stats _ m) as [[[fresh b] m1]|]; simpl; [|done].
  intros [= <- <-]. by case_match.
Qed.

Lemma reload_step_frame s m s' m' :
  reload_step s m = Done (s', m') ->
  shutdown_requested (globs s') = shutdown_requested (globs s)
  /\ shutdown_phase (globs s') = shutdown_phase (globs s)
  /\ shutdown_started_ms (globs s') = shutdown_started_ms (globs s)
  /\ itimer s' = itimer s.
Proof.
  unfold reload_step, console_inject, console_poll. case_match; [by intros [= <- <-]|].
  destruct (try_inject _ m reload_msg) as [[c m1]|]; simpl; [|done].
  destruct (poll_pending c m1) as [[c' m2]|]; simpl; [|done]. by intros [= <- <-].
Qed.

Definition shutdown_state s : bool * Z * Z * Z :=
  (shutdown_requested (globs s), shutdown_phase (globs s), shutdown_started_ms (globs s), itimer s).

(** After the shutdown step the rest of an iteration does not move the shutdown
    machine. *)
Lemma iteration_shutdown clk late e s m s' m' data :
  iteration heap_ptr clk late e s m = Done (Next, s', m', data) ->
  exists s1 m1, shutdown_step (now_ms clk) s m = Done (Next, s1, m1)
                /\ shutdown_state s' = shutdown_state s1.
Proof.
  unfold iteration. destruct (shutdown_step (now_ms clk) s m) as [[[[] s1] m1]|]; simpl; try done.
  destruct (reload_step s1 m1) as [[s2 m2]|] eqn:E2; simpl; [|done].
  destruct (stats_tick _ _ m2) as [[s3 m3]|] eqn:E3; simpl; [|done].
  destruct (poll_blocks (block_devs s3) m3) as [bs m4]. intros E4.
  exists s1, m1. split; [done|].
  apply reload_step_frame in E2 as (A1 & A2 & A3 & A4).
  apply stats_tick_frame in E3 as (B1 & _ & B2 & B3 & B4 & _).
  pose proof (balloon_tick_frame (now_balloon clk) late s2) as (C1 & _ & C2 & C3 & C4 & _).
  apply serve_exit_untouched in E4 as (D1 & D2 & _). simpl in D1, D2.
  unfold shutdown_state. rewrite D1, D2. congruence.
Qed.

Lemma console_inject_frame s m msg s' m' :
  console_inject s m msg = Done (s', m') -> globs s' = globs s /\ itimer s' = itimer s.
Proof.
  unfold console_inject. destruct (try_inject _ m msg) as [[c m1]|]; simpl; [|done].
  by intros [= <- <-].
Qed.

Lemma console_poll_frame s m s' m' :
  console_poll s m = Done (s', m') -> globs s' = globs s /\ itimer s' = itimer s.
Proof.
  unfold console_poll. destruct (poll_pending _ m) as [[c m1]|]; simpl; [|done].
  by intros [= <- <-].
Qed.

(** The first shutdown step starts the clock; later ones only pass before the
    deadline. *)
Lemma shutdown_step_start now s m s' m' :
  shutdown_requested (globs s) = true -> shutdown_phase (globs s) = 0 ->
  shutdown_step now s m = Done (Next, s', m') -> shutdown_state s' = (true, 1, now, 1).
Proof.
  intros Hr Hp. unfold shutdown_step. rewrite Hr, Hp. simpl.
  destruct (console_inject _ m shutdown_msg) as [[s1 m1]|] eqn:E1; simpl; [|done].
  destruct (console_poll _ m1) as [[s2 m2]|] eqn:E2; simpl; [|done]. intros [= <- <-].
  apply console_inject_frame in E1 as [E1 _]. apply console_poll_frame in E2 as [E2 E3].
  unfold shutdown_state. rewrite E2, E3. simpl. rewrite E1. simpl. by rewrite Hr.
Qed.

Lemma shutdown_step_later now t0 i s m s' m' :
  shutdown_state s = (true, 1, t0, i) ->
  shutdown_step now s m = Done (Next, s', m') ->
  shutdown_state s' = (true, 1, t0, i) /\ now < t0 + 60000.
Proof.
  intros [= Hr Hp Ht Hi]. unfold shutdown_step. rewrite Hr, Hp, Ht. simpl.
  case_match eqn:E; [done|]. apply Z.leb_gt in E. unfold sat_sub in E. intros Es. split; [|lia].
  case_match; simpl in Es.
  - destruct (console_inject _ m shutdown_msg) as [[s1 m1]|] eqn:E1; simpl in Es; [|done].
    destruct (console_poll _ m1) as [[s2 m2]|] eqn:E2; simpl in Es; [|done]. injection Es as <- <-.
    apply console_inject_frame in E1 as [E1 F1]. apply console_poll_frame in E2 as [E2 F2].
    unfold shutdown_state. rewrite E2, F2, E1, F1. simpl. congruence.
  - destruct (console_poll _ m) as [[s2 m2]|] eqn:E2; simpl in Es; [|done]. injection Es as <- <-.
    apply console_poll_frame in E2 as [E2 F2]. unfold shutdown_state. congruence.
Qed.

Lemma deliver_shutdown sgs g :
  shutdown_requested g = true ->
  let g' := fold_left (fun g sg => deliver sg g) sgs g in
  shutdown_requested g' = true /\ shutdown_phase g' = shutdown_phase g
  /\ shutdown_started_ms g' = shutdown_started_ms g.
Proof.
  revert g. induction sgs as [|sg sgs IH]; intros g Hr; simpl; [done|].
  destruct (IH (deliver sg g)) as (A & B & C); [by destruct sg|].
  rewrite A, B, C. by destruct sg.
Qed.

Lemma run_loop_deadline ts t0 i s m s' m' :
  shutdown_state s = (true, 1, t0, i) -> run_loop ts s m = Done (Next, s', m') ->
  shutdown_state s' = (true, 1, t0, i) /\ Forall (fun t => now_ms (t_clock t) < t0 + 60000) ts.
Proof.
  revert s m. induction ts as [|t ts IH]; intros s m Hs; simpl; [by intros [= <- <-]|].
  unfold run_turn. destruct (iteration _ _ _ _ _ m) as [[[[r s1] m1] data]|] eqn:E; simpl; [|done].
  destruct r; try done. intros Er.
  apply iteration_shutdown in E as (s2 & m2 & E & Hs2).
  eapply (shutdown_step_later _ t0 i) in E as [Hs3 Hn].
  - rewrite Hs3 in Hs2. destruct (IH s1 m1 Hs2 Er) as [Hs4 Hf]. split; [done|]. by constructor.
  - injection Hs as Hr Hp Ht Hi.
    destruct (deliver_shutdown (t_signals t) (globs s) Hr) as (A & B & C).
    unfold shutdown_state. simpl in A, B, C |- *. congruence.
Qed.

(** C3. Shutdown ends: once SIGTERM has been seen (by the turn [t]), every later turn
    that still goes on has read a clock less than 60 seconds after it, whatever the
    guest does and whatever signals arrive, and SIGALRM is armed every second so that a
    halted guest cannot keep the loop from looking at the clock. *)
Theorem shutdown_deadline t ts s m s' m' :
  shutdown_requested (globs s) = true -> shutdown_phase (globs s) = 0 ->
  run_loop (t :: ts) s m = Done (Next, s', m') ->
  itimer s' = 1 /\ Forall (fun t' => now_ms (t_clock t') < now_ms (t_clock t) + 60000) ts.
Proof.
  intros Hr Hp. cbn [run_loop]. unfold run_turn.
  destruct (iteration _ _ _ _ _ m) as [[[[r s1] m1] data]|] eqn:E; simpl; [|done].
  destruct r; try done. intros Er.
  apply iteration_shutdown in E as (s2 & m2 & E & Hs2).
  destruct (deliver_shutdown (t_signals t) (globs s) Hr) as (A & B & C).
  apply shutdown_step_start in E; [|done|simpl; congruence]. rewrite E in Hs2.
  destruct (run_loop_deadline ts _ _ _ _ _ _ Hs2 Er) as [F1 F2]. split; [|done].
  unfold shutdown_state in F1. congruence.
Qed.

(** A message that could not be delivered is only retried by a signal: in an
    iteration that begins with neither a shutdown nor a reload request, the pending
    console message stays as it is, even when the guest makes the queue ready. *)
Theorem pending_waits_for_signal clk late e s m r s' m' data :
  shutdown_requested (globs s) = false -> reload_requested (globs s) = false ->
  iteration heap_ptr clk late e s m = Done (r, s', m', data) ->
  pending_inject (console_dev s') = pending_inject (console_dev s).
Proof.
  intros Hs Hr. unfold iteration, shutdown_step. rewrite Hs. cbn [negb mbind outcome_bind].
  unfold reload_step. rewrite Hr. cbn [negb mbind outcome_bind].
  destruct (stats_tick _ _ m) as [[s3 m3]|] eqn:E3; simpl; [|done].
  destruct (poll_blocks (block_devs s3) m3) as [bs m4]. intros E4.
  apply serve_exit_untouched in E4 as (_ & _ & D). simpl in D. rewrite D.
  apply stats_tick_frame in E3 as (_ & _ & _ & _ & _ & ->).
  by destruct (balloon_tick_frame (now_balloon clk) late s) as (_ & _ & _ & _ & _ & ->).
Qed.
End Runs.

(** ** The ACTIVE/IDLE balloon machine *)
Section BalloonMachine.
Context `{GuestMemory mem} `{!VirtQueue mem} `{!IoUring} `{!VhostSocket}.
Implicit Types (s : machine mem).

(** the target in force for an applied state *)
Definition target_of (g : globals) : Z :=
  u32 ((if last_applied_state g =? 1 then active_mb g else idle_mb g) * 256).

(** A dynamic configuration whose applied state is the one the device was told. *)
Record balloon_inv s : Prop := {
  bi_dynamic : idle_mb (globs s) <> active_mb (globs s) /\ 0 < idle_mb (globs s);
  bi_state : last_applied_state (globs s) = 0 \/ last_applied_state (globs s) = 1;
  bi_target : target_pages (balloon_dev s) = target_of (globs s);
}.

Definition recently_requested (now : Z) (g : globals) : Prop :=
  0 < active_requested_ts g /\ sat_sub now (active_requested_ts g) < decay_secs g.

Lemma balloon_tick_dynamic now late s :
  balloon_inv s ->
  balloon_tick now late s =
  let s1 := match late with Some t => s <| globs ::= sigusr2_handler t |> | None => s end in
  if 0 <? active_requested_ts (globs s) then
    if sat_sub now (active_requested_ts (globs s)) <? decay_secs (globs s) then
      if last_applied_state (globs s) =? 1 then s1
      else apply_target (active_mb (globs s)) s1 <| globs ::= fun g => g <| last_applied_state := 1 |> |>
    else
      (if last_applied_state (globs s) =? 0 then s1
       else apply_target (idle_mb (globs s)) s1 <| globs ::= fun g => g <| last_applied_state := 0 |> |>)
      <| globs ::= fun g => g <| active_requested_ts := 0 |> |>
  else s1.
Proof.
  intros [[Hne Hpos] Hst _]. unfold balloon_tick.
  rewrite (proj2 (Z.eqb_neq _ _) Hne), (proj2 (Z.ltb_lt _ _) Hpos). simpl.
  repeat case_match; done.
Qed.

(** The balloon follows the requests: a tick keeps the device's target equal to the
    one of the applied state; after a tick that no signal interrupts the state is
    ACTIVE if a request came in the last [decay_secs] seconds, IDLE (with the request
    cleared) if the last request is older, and unchanged without one; the guest gets a
    configuration-change interrupt exactly when the state changes. *)
Theorem balloon_tick_spec now late s :
  balloon_inv s ->
  let s' := balloon_tick now late s in
  balloon_inv s'
  /\ Balloon.irqfd (balloon_dev s') = Balloon.irqfd (balloon_dev s)
       + (if last_applied_state (globs s') =? last_applied_state (globs s) then 0 else 1)
  /\ (recently_requested now (globs s) -> last_applied_state (globs s') = 1)
  /\ (0 < active_requested_ts (globs s) -> ~ recently_requested now (globs s) ->
      last_applied_state (globs s') = 0 /\ active_requested_ts (globs s') = 0)
  /\ (active_requested_ts (globs s) <= 0 -> last_applied_state (globs s') = last_applied_state (globs s)).
Proof.
  intros Hi s'. pose proof (balloon_tick_dynamic now late s Hi) as E. fold s' in E.
  destruct Hi as [[Hne Hpos] Hst Ht]. unfold target_of, recently_requested in *.
  destruct (0 <? active_requested_ts (globs s)) eqn:E1;
    [apply Z.ltb_lt in E1|apply Z.ltb_ge in E1];
    [destruct (sat_sub _ _ <? _) eqn:E2; [apply Z.ltb_lt in E2|apply Z.ltb_ge in E2]|];
    destruct Hst as [Hs0|Hs0]; rewrite ?Hs0 in E; rewrite Hs0 in Ht |- *; simpl in E;
    destruct late as [t|]; rewrite E; simpl; rewrite ?Hs0; simpl;
    (split_and!; [split; unfold target_of; simpl; rewrite ?Hs0; simpl; auto|try lia..]).
Qed.

(** A renewal can be lost: a SIGUSR2 that arrives while the loop is acting on an
    expired request leaves no trace; the machine ends up exactly as if it had never
    been sent, IDLE and without a pending request. *)
Theorem late_request_lost now t s :
  balloon_inv s ->
  0 < active_requested_ts (globs s) -> ~ recently_requested now (globs s) ->
  balloon_tick now (Some t) s = balloon_tick now None s
  /\ last_applied_state (globs (balloon_tick now (Some t) s)) = 0
  /\ active_requested_ts (globs (balloon_tick now (Some t) s)) = 0.
Proof.
  intros Hi Hts Hold. rewrite !balloon_tick_dynamic by done. simpl.
  rewrite (proj2 (Z.ltb_lt _ _) Hts).
  rewrite (proj2 (Z.ltb_ge _ _)) by (unfold recently_requested in Hold; lia).
  destruct (bi_state _ Hi) as [E|E]; rewrite E; simpl; rewrite ?E; done.
Qed.
End BalloonMachine.

(** A 256 MB guest with two 1 MB disks on rings. *)
Module VcpuExample.
Definition disk : file := mkFile 0x100000 (fun _ => 0) 0x100000.
Definition blk : VirtioBlockDevice RegionMem.t := Block.new disk (Some (ListUring.mk 128 [] [])).
Definition vm : machine RegionMem.t :=
  mkMachine (globals_init <| idle_mb := 256 |>)
    (Net.new [0x52; 0x54; 0; 0; 0; 1] true (Some (ListUring.mk 64 [] [])))
    [blk; blk] ([] : list (@VirtioFsDevice LogSocket.vhost_socket)) (Balloon.new 256) Console.new None 0 0 [] [] 5.
Definition ram : RegionMem.t := RegionMem.zeroed 0x1000.
(** the console with queue 7 selected *)
Definition vm_sel : machine RegionMem.t :=
  vm <| console_dev ::= fun c => c <| Console.regs ::= fun r => r <| queue_sel := 7 |> |> |>.
Definition stopping : machine RegionMem.t :=
  vm <| globs ::= sigterm_handler |>.
Definition at_ms (t : Z) : turn := mkTurn [] (mkClock t 0 0) None OtherExit.
End VcpuExample.

(** Without io_uring a request of one descriptor stops the VMM. *)
Example sync_disk_crashes :
  let d := Block.new VcpuExample.disk None <| Block.queue_ready := true |>
             <| Block.vq := ListQueue.ready_with [(7, [mkDesc 0x100 16 false])] |> in
  panics (bus_write id (VcpuExample.vm <| block_devs := [VcpuExample.blk; d] |>) VcpuExample.ram (base_block + 0x1050) [0; 0; 0; 0]) = true.
Proof. vm_compute. reflexivity. Qed.

Lemma guest_access_panics_iff_witness :
  panics (bus_write id VcpuExample.vm_sel VcpuExample.ram 0xD0050044 [1; 0; 0; 0]) = true
  /\ panics (bus_read VcpuExample.vm_sel 0xD0050044 [1; 0; 0; 0]) = false.
Proof.
  destruct (guest_access_panics_iff id (page_cap 256) VcpuExample.vm_sel VcpuExample.ram 0xD0050044
    [1; 0; 0; 0]) as (H1 & H2 & _).
  - split; simpl.
    + split; [reflexivity|]. split; [reflexivity|vm_compute; congruence].
    + repeat (constructor; [vm_compute; congruence|]). constructor.
    + constructor.
    + constructor.
    + apply balloon_wf_new. unfold is_u32. lia.
    + split; reflexivity.
    + vm_compute. congruence.
  - reflexivity.
  - repeat constructor; unfold is_byte; lia.
  - split; [|exact H1]. apply H2. right. left. split; [reflexivity|]. split; [reflexivity|].
    vm_compute. congruence.
Defined.

Lemma second_block_shadowed_witness :
  bus_read VcpuExample.vm 0xD0002008 [0; 0; 0; 0] = Done [3; 0; 0; 0].
Proof.
  exact (proj2 (second_block_shadowed VcpuExample.vm VcpuExample.blk VcpuExample.blk []
    [0; 0; 0; 0] eq_refl eq_refl (List.Forall_nil _))).
Defined.

Lemma shutdown_deadline_witness :
  match run_loop id [VcpuExample.at_ms 1000; VcpuExample.at_ms 60999] VcpuExample.stopping VcpuExample.ram with
  | Done (Next, s', _) => itimer s' = 1
  | _ => False
  end.
Proof.
  destruct (run_loop id _ _ _) as [[[r s'] m']|] eqn:E; [|vm_compute in E; discriminate].
  destruct r; [|vm_compute in E; discriminate|vm_compute in E; discriminate].
  exact (proj1 (shutdown_deadline id _ _ VcpuExample.stopping VcpuExample.ram s' m' eq_refl eq_refl E)).
Defined.

Lemma pending_waits_for_signal_witness :
  let s := VcpuExample.vm <| console_dev ::= fun c => c <| pending_inject := Some reload_msg |> |> in
  match iteration id (mkClock 0 0 0) None (MmioWrite 0xD0050044 [1; 0; 0; 0]) s VcpuExample.ram with
  | Done (_, s', _, _) => pending_inject (console_dev s') = Some reload_msg
  | Panic _ => False
  end.
Proof.
  intros s. destruct (iteration _ _ _ _ s _) as [[[[r s'] m'] data]|] eqn:E.
  - exact (pending_waits_for_signal id _ _ _ s VcpuExample.ram r s' m' data eq_refl eq_refl E).
  - vm_compute in E. discriminate.
Defined.

Lemma balloon_tick_spec_witness :
  let s := VcpuExample.vm <| globs ::= sigusr2_handler 100 |> in
  last_applied_state (globs (balloon_tick 1000 None s)) = 0
  /\ Balloon.irqfd (balloon_dev (balloon_tick 1000 None s)) = 1.
Proof.
  intros s. destruct (balloon_tick_spec 1000 None s) as (_ & H1 & _ & H2 & _).
  - split; [split; [vm_compute; congruence|reflexivity]|right; reflexivity|reflexivity].
  - split; [|exact H1]. apply H2; [reflexivity|]. intros [_ Hr]. vm_compute in Hr. discriminate.
Defined.

Lemma late_request_lost_witness :
  let s := VcpuExample.vm <| globs ::= sigusr2_handler 100 |> in
  balloon_tick 1000 (Some 999) s = balloon_tick 1000 None s.
Proof.
  intros s. apply (late_request_lost 1000 999 s).
  - split; [split; [vm_compute; congruence|reflexivity]|right; reflexivity|reflexivity].
  - reflexivity.
  - intros [_ Hr]. vm_compute in Hr. discriminate.
Defined.
